(* ===== verification/_CoqProject ===== *)
-Q . S2P
Prelude.v
GsmTables.v
Charset.v
SevenBit.v
SmsField.v
SmsPdu.v
SmsUdh.v
SmsDatagram.v
SmsText.v
SmsAssembly.v
SimTlv.v
SimFile.v
StkTlv.v
TextSafety.v
StkObject.v
StkCommand.v
RingBuffer.v
Gsm0710.v
GatMux.v
Hdlc.v
PppCp.v
PppLcp.v
PppIpcp.v
PppReport.v
PppLink.v
MessageWaiting.v
SmsReceive.v
