(* ===== verification/Prelude.v ===== *)
(** * oFono: a verification of its message, SIM toolkit and PPP cores

    oFono is a daemon between applications on D-Bus and mobile modems.  Its atoms
    (src/src, one for each service) hold the state of a modem, drivers (src/drivers)
    turn their requests into AT commands or vendor protocols, and src/gatchat
    carries octets, AT commands and PPP.  The logic the daemon owns, as opposed to
    what it relays, is in its codecs (characters, short messages, SIM files, SIM
    toolkit), in the atoms that reassemble and dispatch messages, and in its PPP
    stack.  These are modelled here, function by function under the names of the
    code; each file below names the source it follows, and its sections follow the
    order of that source.

    ** Conventions

    An octet, a 16 or 32 bit integer or a C [int] is a [Z]; [u8], [u16], [u32],
    [s8] and [s32] wrap where the code's type does.  An array is the list of its
    elements with its capacity, a pointer into it an offset.  Code that can fail
    returns [res]: [Ret] a value, [Err] where the code returns FALSE, NULL or a
    negative code, [Ub] where it would read or write outside an object, or
    divide or shift outside what C defines: [rd], [wr], [slice], [blit] and [put]
    are the accesses, and that a result is not [Ub] says that an operation
    keeps within its buffers.  Recursion that is not structural has fuel, which
    each definition computes from the length of its input, so that it is
    never a parameter of an operation; where running out would show it is [Err] or [Ub],
    and the theorems that state a result exclude it.  Mutable structs are records that the
    operations take and return; callbacks are the lists of events that an
    operation makes, in the order in which it makes them.

    ** Parts

    Characters.  [GsmTables] has the tables of src/src/util.c for the national
    languages, [Charset] their lookup and the conversions of text
    (convert_utf8_to_gsm_with_lang, convert_gsm_to_utf8_with_lang, SIM alpha
    fields), [SevenBit] the packing of seven bit characters and hexadecimal text.
    Shown: the tables are ordered, so that bsearch finds every entry; decoding is
    total and safe; encoding and packing are undone by decoding and unpacking,
    at every offset, with the padding rules of USSD.

    Short messages, src/src/smsutil.c.  [SmsField] has the fields of a PDU, [SmsPdu]
    the eight PDU types with sms_encode and sms_decode, [SmsUdh] the user data
    header, [SmsDatagram] and [SmsText] the splitting of data and text into
    messages and their joining, [SmsAssembly] the reassembly of what arrives in
    fragments.  Shown: round trips for all types, for datagrams and texts; that
    the iterator accepts exactly the well-formed headers, and what is extracted
    from them; that reassembly refines a finite map from sender and reference to
    fragments, gives each message once in whatever order its fragments come, keeps
    a file for each fragment held, and forgets exactly what has expired.

    Reception.  [SmsReceive] is the receiving half of the atom src/src/sms.c with the
    lists of listeners of src/src/watch.c, and [MessageWaiting] the atom
    src/src/message-waiting.c with the numbers of src/src/common.c.  They compose
    the parts above: what one end prepares, a network carries as PDUs in any order
    and interleaving, reaches the listeners of the other once and unchanged; the
    mailboxes are what the headers and coding schemes of messages say, and the
    SIM files restore them after a restart.

    SIM and SIM toolkit.  [SimTlv] has the iterators and builders of the TLV objects
    of src/src/simutil.c, [SimFile] the contents of SIM files; of src/src/stkutil.c
    [StkTlv] has the writer of data objects with the envelopes, [StkObject]
    the parsers of all types of data objects, and [StkCommand] the engine of
    parse_dataobj with the forty commands of a SIM, over the interface [DataObjects], of
    which the iterator over a message and the list of its objects are instances.
    [TextSafety] has the conversions of texts of any octets.  Shown: which octets the
    iterators accept, that searches end, that paths in the file database end, that
    written records and envelopes are read back; that a command depends only on the
    objects of its message, is understood exactly when they are arranged as its
    table says, and that parsing is safe on any octets but for named values.

    PPP, src/gatchat.  [RingBuffer] and [Hdlc] carry packets as octets: a ring buffer is a
    bounded queue, and packets come out in order and unchanged however sending,
    writing and reading interleave; the write watch, kept while the handler
    returns TRUE, lasts until all of the queue is written.  [PppCp] is the automaton of ppp_cp.c for any
    driver with the interface [pppcp_proto] (struct pppcp_proto); [PppLcp] and
    [PppIpcp] are its two drivers.  Shown for every driver: the invariant of
    timers and states, safety on orderly packets, that retries end; for the
    drivers: that two ends agree, in any order of the deliveries.  [PppReport] says what a step of an
    automaton reports to the link, and [PppLink] composes all of them with
    authentication and the network interface into the link of gatppp.c: its
    phase, its automata, its interface and what its user is told agree whatever
    comes; the calls of the layers end; packets cross a link unchanged.

    Multiplexer, src/gatchat.  [Gsm0710] has the frames of gsm0710.c in both
    framings with their check sequence, and [GatMux] the multiplexer of
    gatmux.c: its channels as ring buffers, its buffer of received octets, the
    driver of either framing, and its steps as a relation.  Shown: what a
    framing writes the other end reads, wherever the stream is cut; the header
    check accepts exactly the headers without error; octets cross the
    multiplexer in order on their channel; the buffers and channels keep their
    invariant whatever the calls and the octets received.

    ** Interfaces

    Code that is not under src/ is a parameter with the documented behaviour as
    laws: the UTF-8 codec of ELL ([Utf8], [Utf8Laws]), the string length of GLib
    ([GlibUtf8], [GlibUtf8Laws]), the UTF-16 decoder of ELL ([Utf16], [Utf16Laws]), SHA-1 of
    GLib in message identifiers, MD5 of GLib and the tun interface of the kernel in
    [PppLink].  Each group of laws has a concrete instance, in which the witnesses
    (the lemmas named after a theorem with [_witness]) evaluate.  Inside
    the development [pppcp_proto] is the interface between an automaton and its
    driver, [quiet_driver] and [shallow_driver] what a link asks of a driver,
    [DataObjects] between the commands of a SIM and what they are read from, and
    [Framing] with [FramingLaws] and [FramingMemory] what the multiplexer asks of a
    framing, of which the basic and the advanced option are instances.

    ** Bounds

    The fuel of an iterator is the number of octets left, as each step consumes
    one; of bsearch the length of the table; of the splitting loops the length of
    the text.  The calls between the layers of a link nest [NESTING] = 4 deep,
    which [notifications_end] proves to be enough for every state and event.

    ** Findings

    Where the code fails, a lemma beside the theorem shows the failing input;
    the sections called Limits collect them.  Hypotheses of theorems that exclude such
    inputs name them.

    ** Not modelled

    D-Bus messages and properties, files and directories apart from the
    contents the code gives them, timers apart from their expiry as an event,
    logging, and allocation failure (the allocators of ELL and GLib abort).  The
    atoms that relay between D-Bus and a driver (voice calls, network
    registration, packet data, supplementary services, handsfree, SIM locks), the
    drivers and plugins of particular modems, the transports QMI, MBIM, ISI and
    RIL, and the libraries under src/gdbus and src/btio have little state of
    their own to be verified apart from the modem that they talk to.  Of
    the modelled parts: sending in src/src/sms.c and the assembly of status reports,
    cell broadcast and CDMA messages, terminal responses of the SIM toolkit,
    the restart of reassembly from its directory, the suspension of a PPP
    link, the negotiation of the multiplexer with a modem (AT+CMUX), and the end
    of the life of objects. *)
From stdpp Require Export base tactics numbers list gmap strings.
From Stdlib Require Export ZArith Lia.

#[export] Set Default Goal Selector "!".

Open Scope Z_scope.

(** * Outcomes of C code

    [Ret a] : the function returned normally (TRUE, a non-NULL pointer) with
    outputs [a]; [Err] : it returned FALSE or NULL; [Ub] : it read or wrote
    outside an object (undefined behaviour), or the loop of the model ran out
    of its fuel.  A theorem that a function is [Ret] or [Err] on an input thus
    states memory safety and termination together. *)
Inductive res (A : Type) : Type :=
  | Ret (a : A)
  | Err
  | Ub.
Arguments Ret {A} a.
Arguments Err {A}.
Arguments Ub {A}.

#[export] Instance res_ret : MRet res := fun A => @Ret A.
#[export] Instance res_bind : MBind res := fun A B f m =>
  match m with Ret a => f a | Err => Err | Ub => Ub end.
#[export] Instance res_eq_dec {A} `{EqDecision A} : EqDecision (res A).
Proof. solve_decision. Defined.

(** [m] does not touch memory outside its objects, and its loops end. *)
Definition safe {A} (m : res A) : Prop := m <> Ub.

(** An [if (!cond) return FALSE;] of the code. *)
Definition check (b : bool) : res unit := if b then Ret tt else Err.

(** * Machine integers *)
Definition u8 (z : Z) : Z := z mod 2 ^ 8.
Definition u16 (z : Z) : Z := z mod 2 ^ 16.
Definition u32 (z : Z) : Z := z mod 2 ^ 32.
Definition s8 (z : Z) : Z := (z + 2 ^ 7) mod 2 ^ 8 - 2 ^ 7.
Definition s32 (z : Z) : Z := (z + 2 ^ 31) mod 2 ^ 32 - 2 ^ 31.

Definition is_byte (z : Z) : Prop := 0 <= z < 256.
Definition bytes (l : list Z) : Prop := Forall is_byte l.

#[export] Instance is_byte_dec z : Decision (is_byte z).
Proof. unfold is_byte. apply _. Defined.
#[export] Instance bytes_dec l : Decision (bytes l).
Proof. unfold bytes. apply _. Defined.

(** Characters of 7 bits, one to an octet. *)
Definition septets (l : list Z) : Prop := Forall (fun b => 0 <= b < 128) l.

(** [size l] of a C array is a [Z]. *)
Definition zlen {A} (l : list A) : Z := Z.of_nat (length l).
Arguments zlen : simpl never.

(** * Memory accesses with their bounds *)

(** [l[i]] *)
Definition rd {A} (l : list A) (i : Z) : res A :=
  if i <? 0 then Ub
  else match l !! Z.to_nat i with Some x => Ret x | None => Ub end.

(** [l[i] = v] *)
Definition wr {A} (l : list A) (i : Z) (v : A) : res (list A) :=
  if (0 <=? i) && (i <? zlen l) then Ret (<[Z.to_nat i := v]> l) else Ub.

(** the [n] bytes at [l + off] *)
Definition slice {A} (l : list A) (off n : Z) : res (list A) :=
  if (0 <=? off) && (0 <=? n) && (off + n <=? zlen l)
  then Ret (take (Z.to_nat n) (drop (Z.to_nat off) l)) else Ub.

(** [memcpy(l + off, src, sizeof src)] *)
Definition blit {A} (l : list A) (off : Z) (src : list A) : res (list A) :=
  if (0 <=? off) && (off + zlen src <=? zlen l)
  then Ret (take (Z.to_nat off) l ++ src ++
            drop (Z.to_nat off + length src) l) else Ub.

(** The string held by a character array: what precedes the first NUL. *)
Fixpoint cstr (l : list Z) : list Z :=
  match l with
  | [] => []
  | c :: l => if c =? 0 then [] else c :: cstr l
  end.

(** Writing [bs] at the end [out] of a buffer that holds [cap] bytes. *)
Definition put {A} (cap : Z) (out bs : list A) : res (list A) :=
  if zlen out + zlen bs <=? cap then Ret (out ++ bs) else Ub.

(** [while (text[i] != terminator) i++;] *)
Fixpoint scan_to (fuel : nat) (text : list Z) (terminator i : Z) : res Z :=
  match fuel with
  | O => Ub
  | S fuel => c ← rd text i;
      if c =? terminator then Ret i else scan_to fuel text terminator (i + 1)
  end.

(** A C truth value tested by [if (x & mask)]. *)
Definition has (x mask : Z) : bool := negb (Z.land x mask =? 0).

(** * Automation and generic lemmas *)

(** [simp_res] runs the outcome monad; [case_check] splits on the first
    comparison the goal is stuck on. *)
Ltac simp_res := cbn [mbind res_bind mret res_ret check] in *.

Ltac case_cmp :=
  match goal with
  | |- context [if ?b then _ else _] =>
      lazymatch b with
      | context [if _ then _ else _] => fail
      | _ => let E := fresh "E" in destruct b eqn:E
      end
  end.

(** Boolean comparisons in the context become propositions. *)
Ltac bool_to_prop :=
  repeat match goal with
  | H : (_ && _)%bool = true |- _ => apply andb_true_iff in H; destruct H
  | H : (_ || _)%bool = false |- _ => apply orb_false_iff in H; destruct H
  | H : (_ && _)%bool = false |- _ => apply andb_false_iff in H
  | H : (_ || _)%bool = true |- _ => apply orb_true_iff in H
  | H : negb _ = true |- _ => apply negb_true_iff in H
  | H : negb _ = false |- _ => apply negb_false_iff in H
  | H : (_ =? _) = true |- _ => apply Z.eqb_eq in H
  | H : (_ =? _) = false |- _ => apply Z.eqb_neq in H
  | H : (_ <? _) = true |- _ => apply Z.ltb_lt in H
  | H : (_ <? _) = false |- _ => apply Z.ltb_ge in H
  | H : (_ <=? _) = true |- _ => apply Z.leb_le in H
  | H : (_ <=? _) = false |- _ => apply Z.leb_gt in H
  end.

Create Rewrite HintDb zlen.

Section ListLengths.
Context {A : Type}.
Implicit Types l : list A.

Lemma zlen_nil : zlen (@nil A) = 0.
Proof. done. Qed.
Lemma zlen_cons (x : A) l : zlen (x :: l) = 1 + zlen l.
Proof. unfold zlen. cbn [length]. lia. Qed.
Lemma zlen_app l1 l2 : zlen (l1 ++ l2) = zlen l1 + zlen l2.
Proof. unfold zlen. rewrite length_app. lia. Qed.
Lemma zlen_nonneg l : 0 <= zlen l.
Proof. unfold zlen. lia. Qed.
Lemma zlen_replicate n (x : A) : zlen (replicate n x) = Z.of_nat n.
Proof. unfold zlen. by rewrite length_replicate. Qed.
Lemma zlen_insert l i x : zlen (<[i:=x]> l) = zlen l.
Proof. unfold zlen. by rewrite length_insert. Qed.
Lemma zlen_map {B} (f : B -> A) (l : list B) : zlen (map f l) = zlen l.
Proof. unfold zlen. by rewrite length_map. Qed.
Lemma zlen_take n l : zlen (take n l) = Z.min (Z.of_nat n) (zlen l).
Proof. unfold zlen. rewrite length_take. lia. Qed.
Lemma zlen_drop n l : zlen (drop n l) = Z.max 0 (zlen l - Z.of_nat n).
Proof. unfold zlen. rewrite length_drop. lia. Qed.
Lemma to_nat_zlen l : Z.to_nat (zlen l) = length l.
Proof. unfold zlen. lia. Qed.
End ListLengths.

#[export] Hint Rewrite @zlen_nil @zlen_cons @zlen_app @zlen_replicate
  @zlen_insert @zlen_map @zlen_take @zlen_drop : zlen.

(** [zl] is [lia] on the lengths of lists. *)
Ltac zlen_pos :=
  repeat match goal with
  | |- context [zlen ?l] =>
      lazymatch goal with
      | _ : 0 <= zlen l |- _ => fail
      | _ => pose proof (zlen_nonneg l)
      end
  | H : context [zlen ?l] |- _ =>
      lazymatch goal with
      | _ : 0 <= zlen l |- _ => fail
      | _ => pose proof (zlen_nonneg l)
      end
  end.
Ltac zl := autorewrite with zlen in *; zlen_pos; lia.
(** The same with divisions and remainders. *)
Ltac dzl :=
  autorewrite with zlen in *; zlen_pos; Z.to_euclidean_division_equations; lia.

Section Access.
Context {A : Type}.
Implicit Types l : list A.

Lemma rd_middle l1 (x : A) l2 i : i = zlen l1 -> rd (l1 ++ x :: l2) i = Ret x.
Proof.
  intros ->. unfold rd.
  rewrite (proj2 (Z.ltb_ge _ _)) by apply zlen_nonneg.
  by rewrite to_nat_zlen, list_lookup_middle.
Qed.

Lemma rd_lookup l i x : 0 <= i -> rd l i = Ret x <-> l !! Z.to_nat i = Some x.
Proof.
  intros Hi. unfold rd. rewrite (proj2 (Z.ltb_ge _ _)) by lia.
  destruct (l !! Z.to_nat i); split; congruence.
Qed.

Lemma rd_in_bounds l i : 0 <= i < zlen l -> exists x, rd l i = Ret x.
Proof.
  intros Hi. unfold rd, zlen in *. rewrite (proj2 (Z.ltb_ge _ _)) by lia.
  destruct (lookup_lt_is_Some_2 l (Z.to_nat i)) as [x ->]; [lia|eauto].
Qed.

Lemma rd_app_l l1 l2 i : i < zlen l1 -> rd (l1 ++ l2) i = rd l1 i.
Proof.
  intros Hi. unfold rd, zlen in *. destruct (i <? 0) eqn:E; [done|].
  bool_to_prop. by rewrite lookup_app_l by lia.
Qed.

Lemma drop_zlen_app l1 l2 i : i = zlen l1 -> drop (Z.to_nat i) (l1 ++ l2) = l2.
Proof. intros ->. by rewrite to_nat_zlen, drop_app_length. Qed.

Lemma put_ok cap (out bs : list A) :
  zlen out + zlen bs <= cap -> put cap out bs = Ret (out ++ bs).
Proof. intros H. unfold put. by rewrite (proj2 (Z.leb_le _ _)). Qed.

Lemma last_app_one l x : last l = Some x -> exists l', l = l' ++ [x].
Proof. intros (l' & ->)%last_Some. by exists l'. Qed.

Lemma rd_snoc l x : rd (l ++ [x]) (zlen (l ++ [x]) - 1) = Ret x.
Proof. apply rd_middle. zl. Qed.

Lemma rd_last l1 l2 x : last l1 = Some x -> rd (l1 ++ l2) (zlen l1 - 1) = Ret x.
Proof.
  intros (l' & ->)%last_app_one. rewrite <- app_assoc. apply rd_middle. zl.
Qed.

Lemma wr_last (out : list A) x v :
  wr (out ++ [x]) (zlen (out ++ [x]) - 1) v = Ret (out ++ [v]).
Proof.
  pose proof (zlen_nonneg out). unfold wr.
  rewrite (proj2 (Z.leb_le _ _)), (proj2 (Z.ltb_lt _ _)) by zl. cbn [andb].
  replace (Z.to_nat _) with (length out) by (rewrite zlen_app; unfold zlen; cbn; lia).
  by rewrite insert_app_r_alt, Nat.sub_diag by lia.
Qed.

(** Two stores one after the other are one store of both. *)
Lemma put_chain cap (out a b : list A) k :
  (forall out, zlen out <= cap -> k out = put cap out b) ->
  put cap out a ≫= k = put cap out (a ++ b).
Proof.
  intros Hk. unfold put. rewrite zlen_app. pose proof (zlen_nonneg b).
  destruct (zlen out + zlen a <=? cap) eqn:E; simp_res; bool_to_prop.
  - rewrite Hk by zl. unfold put. rewrite zlen_app, Z.add_assoc, <- app_assoc. done.
  - by rewrite (proj2 (Z.leb_gt _ _)) by lia.
Qed.

Lemma put_nil cap (out : list A) : zlen out <= cap -> put cap out [] = Ret out.
Proof.
  intros H. rewrite put_ok by (change (zlen []) with 0; lia). by rewrite app_nil_r.
Qed.

(** A store made under a condition. *)
Lemma put_if cap (out bs : list A) (b : bool) :
  zlen out <= cap ->
  (if b then put cap out bs else Ret out) = put cap out (if b then bs else []).
Proof. intros H. destruct b; [done|by rewrite put_nil]. Qed.

Lemma slice_app l1 l2 l3 off n :
  off = zlen l1 -> n = zlen l2 -> slice (l1 ++ l2 ++ l3) off n = Ret l2.
Proof.
  intros -> ->. unfold slice.
  rewrite !(proj2 (Z.leb_le _ _)) by zl. cbn [andb].
  rewrite !to_nat_zlen, drop_app_length, take_app_length. done.
Qed.

Lemma slice_Ret l off n l' :
  slice l off n = Ret l' ->
  0 <= off /\ 0 <= n /\ off + n <= zlen l /\
  l' = take (Z.to_nat n) (drop (Z.to_nat off) l).
Proof.
  unfold slice. destruct (_ && _) eqn:E; [|done]. intros [= <-].
  bool_to_prop. auto.
Qed.
End Access.

Lemma blit_middle {A} (l1 l2 l3 bs : list A) off :
  off = zlen l1 -> zlen l2 = zlen bs -> blit (l1 ++ l2 ++ l3) off bs = Ret (l1 ++ bs ++ l3).
Proof.
  intros -> Hl. unfold blit. rewrite !(proj2 (Z.leb_le _ _)) by zl. cbn [andb].
  rewrite to_nat_zlen, take_app_length, <- drop_drop, drop_app_length.
  do 3 f_equal. rewrite drop_app_length'; [done|]. unfold zlen in Hl. lia.
Qed.

Lemma wr_middle {A} (l1 l2 : list A) x v i :
  i = zlen l1 -> wr (l1 ++ x :: l2) i v = Ret (l1 ++ v :: l2).
Proof.
  intros ->. unfold wr.
  rewrite (proj2 (Z.leb_le _ _)), (proj2 (Z.ltb_lt _ _)) by zl. cbn [andb].
  rewrite to_nat_zlen. by rewrite insert_app_r_alt, Nat.sub_diag by lia.
Qed.

(** One step of the monad by rewriting, where the conversion test of [simp_res]
    would unfold a loop with its fuel. *)
Lemma bind_Ret {A B} (a : A) (f : A -> res B) : Ret a ≫= f = f a.
Proof. done. Qed.

Lemma bind_ext {A B} (m : res A) (f g : A -> res B) : (forall a, f a = g a) -> m ≫= f = m ≫= g.
Proof. intros H. destruct m; cbn; auto. Qed.

Lemma bind_assoc {A B C} (m : res A) (f : A -> res B) (g : B -> res C) :
  (m ≫= f) ≫= g = m ≫= (fun a => f a ≫= g).
Proof. by destruct m. Qed.

Lemma bind_inv {A B} (m : res A) (f : A -> res B) b : m ≫= f = Ret b -> exists a, m = Ret a /\ f a = Ret b.
Proof. destruct m as [a| |]; [|done..]. intros H. by exists a. Qed.

Lemma Ret_inj {A} (a b : A) : Ret a = Ret b -> a = b.
Proof. by intros [= ->]. Qed.

Lemma safe_Ret {A} (a : A) : safe (Ret a).
Proof. by unfold safe. Qed.
Lemma safe_Err {A} : safe (@Err A).
Proof. by unfold safe. Qed.
Lemma safe_bind {A B} (m : res A) (f : A -> res B) :
  safe m -> (forall a, m = Ret a -> safe (f a)) -> safe (m ≫= f).
Proof. unfold safe. destruct m; cbn; eauto. Qed.
#[export] Hint Resolve safe_Ret safe_Err : core.

(** ** Loops over an index

    [at_pos full i l]: what lies in [full] from index [i] on is [l].  Loops of
    the code run an index over an array; their lemmas are inductions on [l]. *)
Definition at_pos {A} (full : list A) (i : Z) (l : list A) : Prop :=
  0 <= i <= zlen full /\ drop (Z.to_nat i) full = l.

Section AtPos.
Context {A : Type}.
Implicit Types full l : list A.

Lemma at_pos_0 full : at_pos full 0 full.
Proof. split; [zl|done]. Qed.

Lemma at_pos_len full i l : at_pos full i l -> zlen full = i + zlen l.
Proof. intros [Hi <-]. autorewrite with zlen. lia. Qed.

Lemma at_pos_app full i l1 l2 :
  at_pos full i (l1 ++ l2) -> at_pos full (i + zlen l1) l2.
Proof.
  intros H. pose proof (at_pos_len _ _ _ H) as Hl. destruct H as [Hi Hd].
  split; [zl|].
  replace (Z.to_nat (i + zlen l1)) with (Z.to_nat i + length l1)%nat
    by (unfold zlen in *; lia).
  by rewrite <- drop_drop, Hd, drop_app_length.
Qed.

Lemma at_pos_cons full i (x : A) l :
  at_pos full i (x :: l) -> rd full i = Ret x /\ at_pos full (i + 1) l.
Proof.
  intros H. split; [|by apply (at_pos_app full i [x] l)].
  destruct H as [Hi Hd]. apply rd_lookup; [lia|].
  rewrite <- (Nat.add_0_r (Z.to_nat i)). by rewrite <- lookup_drop, Hd.
Qed.

Lemma at_pos_slice full i l1 l2 n :
  at_pos full i (l1 ++ l2) -> n = zlen l1 -> slice full i n = Ret l1.
Proof.
  intros H ->. pose proof (at_pos_len _ _ _ H) as Hl. destruct H as [Hi Hd].
  unfold slice. rewrite !(proj2 (Z.leb_le _ _)) by zl. cbn [andb].
  by rewrite Hd, to_nat_zlen, take_app_length.
Qed.
End AtPos.

Lemma scan_to_ok text terminator l : forall fuel rest i,
  at_pos text i (l ++ terminator :: rest) -> Forall (fun c => c <> terminator) l ->
  (length l < fuel)%nat -> scan_to fuel text terminator i = Ret (i + zlen l).
Proof.
  induction l as [|c l IH]; intros fuel rest i Hp Hl Hf;
    (destruct fuel as [|fuel]; cbn [length] in Hf; [lia|]); cbn [scan_to];
    destruct (at_pos_cons text i _ _ Hp) as [-> Hp']; simp_res.
  - rewrite Z.eqb_refl. f_equal. change (zlen []) with 0. lia.
  - apply Forall_cons in Hl as [Hc Hl]. rewrite (proj2 (Z.eqb_neq c _)) by done.
    rewrite (IH fuel rest) by (try done; lia). f_equal. zl.
Qed.

(** * Bit operations as arithmetic *)

Lemma land_ones_mod a n :
  0 <= n -> Z.land a (Z.shiftl 1 n - 1) = a mod 2 ^ n.
Proof.
  intros Hn. rewrite <- Z.land_ones, Z.ones_equiv, Z.shiftl_1_l by done. done.
Qed.

Lemma lor_shiftl_add a b n : 0 <= n -> 0 <= a < 2 ^ n -> Z.lor a (Z.shiftl b n) = a + b * 2 ^ n.
Proof.
  intros Hn Ha. rewrite <- Z.shiftl_mul_pow2 by done.
  pose proof (Z.add_lor_land a (Z.shiftl b n)) as H.
  enough (Z.land a (Z.shiftl b n) = 0) by lia.
  apply Z.bits_inj'. intros i Hi. rewrite Z.land_spec, Z.bits_0.
  destruct (Z.lt_ge_cases i n).
  - rewrite Z.shiftl_spec_low by done. apply andb_false_r.
  - rewrite <- (Z.mod_small a (2 ^ n)), Z.mod_pow2_bits_high by lia. done.
Qed.

(** Testing the bit [1 << n]. *)
Lemma has_bit w n : 0 <= n -> has w (Z.shiftl 1 n) = Z.testbit w n.
Proof.
  intros Hn. unfold has. rewrite Z.shiftl_1_l. destruct (Z.testbit w n) eqn:Hb.
  - apply negb_true_iff, Z.eqb_neq. intros H0.
    assert (Z.testbit (Z.land w (2 ^ n)) n = false) as H by by rewrite H0, Z.bits_0.
    rewrite Z.land_spec, Hb, Z.pow2_bits_true in H by done. done.
  - apply negb_false_iff, Z.eqb_eq, Z.bits_inj'. intros i Hi.
    rewrite Z.land_spec, Z.bits_0, Z.pow2_bits_eqb by done.
    destruct (Z.eqb_spec n i) as [<-|]; [by rewrite Hb|apply andb_false_r].
Qed.

Lemma xor_small x n : 0 <= n -> 0 <= x < 2 ^ n -> forall y, 0 <= y < 2 ^ n -> 0 <= Z.lxor x y < 2 ^ n.
Proof.
  intros Hn Hx y Hy. split; [apply Z.lxor_nonneg; lia|].
  destruct (decide (Z.lxor x y = 0)) as [->|Hne]; [by apply Z.pow_pos_nonneg|].
  assert (0 <= Z.lxor x y) by (apply Z.lxor_nonneg; lia). apply Z.log2_lt_pow2; [lia|].
  pose proof (Z.log2_lxor x y ltac:(lia) ltac:(lia)).
  assert (forall z, 0 <= z < 2 ^ n -> Z.log2 z < n \/ n = 0) as Hlog.
  { intros z Hz. destruct (decide (z = 0)) as [->|]; [cbn; lia|]. left. apply Z.log2_lt_pow2; lia. }
  destruct (Hlog x Hx), (Hlog y Hy); try lia; subst n; cbn in *; assert (x = 0) as -> by lia;
    assert (y = 0) as -> by lia; done.
Qed.

(** A property of a range of numbers, by evaluation. *)
Lemma range_forall (P : Z -> bool) a n z :
  forallb P (seqZ a n) = true -> a <= z < a + n -> P z = true.
Proof.
  intros H Hz. rewrite forallb_forall in H.
  by apply H, list_elem_of_In, elem_of_seqZ.
Qed.

(** A property of all octets. *)
Lemma byte_forall (P : Z -> bool) z :
  forallb P (seqZ 0 256) = true -> is_byte z -> P z = true.
Proof.
  intros H Hz. by apply (range_forall P 0 256).
Qed.

(** * Numbers from digits, least significant first *)

Fixpoint le_val (base : Z) (l : list Z) : Z :=
  match l with
  | [] => 0
  | d :: l => d + base * le_val base l
  end.

Fixpoint le_digits (base : Z) (n : nat) (v : Z) : list Z :=
  match n with
  | O => []
  | S n => v mod base :: le_digits base n (v / base)
  end.

Lemma le_val_app base l1 l2 :
  le_val base (l1 ++ l2) = le_val base l1 + base ^ zlen l1 * le_val base l2.
Proof.
  induction l1 as [|d l1 IH]; cbn [app le_val]; [change (zlen []) with 0; lia|].
  rewrite IH, zlen_cons, Z.pow_add_r by zl. lia.
Qed.

Lemma le_val_bounds base l :
  0 < base -> Forall (fun d => 0 <= d < base) l ->
  0 <= le_val base l < base ^ zlen l.
Proof.
  intros Hb. induction 1 as [|d l Hd Hl IH]; cbn [le_val]; [change (zlen []) with 0; lia|].
  rewrite zlen_cons, Z.pow_add_r by zl. nia.
Qed.

Lemma le_digits_val base l :
  0 < base -> Forall (fun d => 0 <= d < base) l ->
  le_digits base (length l) (le_val base l) = l.
Proof.
  intros Hb. induction 1 as [|d l Hd Hl IH]; [done|]. cbn [length le_val le_digits].
  rewrite (Z.mul_comm base), Z.mod_add, Z.mod_small by lia.
  rewrite Z.div_add, Z.div_small, Z.add_0_l, IH by lia. done.
Qed.

Lemma length_le_digits base n v : length (le_digits base n v) = n.
Proof. revert v. induction n; cbn; auto. Qed.
