(* ===== verification/Charset.v ===== *)
(** Character conversion of src/src/util.c: the table lookups, the choice of
    the tables of a dialect, and the conversions between UTF-8, UCS2, SIM
    alpha fields and the GSM 7 bit alphabet.  The UTF-8 codec (the l_utf8 functions) is the
    ELL library's: it is the interface [Utf8], with the documented behaviour
    the code relies on in [Utf8Laws]. *)
From S2P Require Import Prelude GsmTables.

Definition GUND : Z := 0xFFFF.

Definition UTF8_LENGTH (c : Z) : Z :=
  if c <? 0x80 then 1 else if c <? 0x800 then 2 else 3.

(** ** The interface to ELL *)

Class Utf8 : Type := {
  (** the bytes l_utf8_from_wchar writes (it returns their number) *)
  l_utf8_from_wchar : Z -> list Z;
  (** the code point at the start of the memory, reading at most the given
      number of bytes, and how many bytes it took; [None] for a negative
      result *)
  l_utf8_get_codepoint : list Z -> Z -> option (Z * Z);
  (** UCS2-BE to UTF-8 ([None] is NULL) *)
  l_utf8_from_ucs2be : list Z -> option (list Z);
  (** UTF-8 to UCS2-BE, with the two bytes of the terminating NUL *)
  l_utf8_to_ucs2be : list Z -> option (list Z)
}.

(** A Unicode scalar value of the basic plane. *)
Definition bmp_scalar (c : Z) : Prop :=
  0 <= c < 0xD800 \/ 0xE000 <= c <= 0xFFFF.

Class Utf8Laws (U : Utf8) : Prop := {
  from_wchar_length : forall c, 0 <= c <= 0xFFFF ->
    zlen (l_utf8_from_wchar c) = UTF8_LENGTH c;
  from_wchar_nonzero : forall c, 0 < c <= 0xFFFF ->
    Forall (fun b => 0 < b < 256) (l_utf8_from_wchar c);
  get_codepoint_from_wchar : forall c rest max,
    bmp_scalar c -> UTF8_LENGTH c <= max ->
    l_utf8_get_codepoint (l_utf8_from_wchar c ++ rest) max
    = Some (c, UTF8_LENGTH c)
}.

(** ** Lookups *)

(** struct conversion_table; the lengths are those of the lists *)
Record conversion_table := {
  locking_u : list codepoint;
  single_u : list codepoint;
  locking_g : list Z;
  single_g : list codepoint
}.

Definition compare_codepoints (ca cb : codepoint) : Z :=
  Z.b2z (from cb <? from ca) - Z.b2z (from ca <? from cb).

(** bsearch() of the C library on the elements [l, u) of the table. *)
Fixpoint bsearch (fuel : nat) (key : codepoint) (table : list codepoint)
    (l u : Z) : option codepoint :=
  match fuel with
  | O => None
  | S fuel =>
    if l <? u then
      let idx := (l + u) / 2 in
      match table !! Z.to_nat idx with
      | None => None
      | Some p =>
        let cmp := compare_codepoints key p in
        if cmp <? 0 then bsearch fuel key table l idx
        else if 0 <? cmp then bsearch fuel key table (idx + 1) u
        else Some p
      end
    else None
  end.

Definition codepoint_lookup (key : codepoint) (table : list codepoint) : Z :=
  match bsearch (S (length table)) key table 0 (zlen table) with
  | Some result => to result
  | None => GUND
  end.

Definition gsm_locking_shift_lookup (t : conversion_table) (k : Z) : res Z :=
  rd (locking_g t) k.

Definition gsm_single_shift_lookup (t : conversion_table) (k : Z) : Z :=
  codepoint_lookup (cp k 0) (single_g t).

Definition unicode_locking_shift_lookup (t : conversion_table) (k : Z) : Z :=
  codepoint_lookup (cp k 0) (locking_u t).

Definition unicode_single_shift_lookup (t : conversion_table) (k : Z) : Z :=
  codepoint_lookup (cp k 0) (single_u t).

(** ** Dialects *)

Inductive gsm_dialect :=
  | GSM_DIALECT_DEFAULT | GSM_DIALECT_TURKISH | GSM_DIALECT_SPANISH
  | GSM_DIALECT_PORTUGUESE | GSM_DIALECT_BENGALI | GSM_DIALECT_GUJARATI
  | GSM_DIALECT_HINDI | GSM_DIALECT_KANNADA | GSM_DIALECT_MALAYALAM
  | GSM_DIALECT_ORIYA | GSM_DIALECT_PUNJABI | GSM_DIALECT_TAMIL
  | GSM_DIALECT_TELUGU | GSM_DIALECT_URDU.

#[export] Instance gsm_dialect_eq_dec : EqDecision gsm_dialect.
Proof. solve_decision. Defined.

Definition all_dialects : list gsm_dialect :=
  [ GSM_DIALECT_DEFAULT; GSM_DIALECT_TURKISH; GSM_DIALECT_SPANISH;
    GSM_DIALECT_PORTUGUESE; GSM_DIALECT_BENGALI; GSM_DIALECT_GUJARATI;
    GSM_DIALECT_HINDI; GSM_DIALECT_KANNADA; GSM_DIALECT_MALAYALAM;
    GSM_DIALECT_ORIYA; GSM_DIALECT_PUNJABI; GSM_DIALECT_TAMIL;
    GSM_DIALECT_TELUGU; GSM_DIALECT_URDU ].

(** The enumerator of an [int] (the enum starts at 0). *)
Definition gsm_dialect_of_Z (lang : Z) : option gsm_dialect :=
  if lang <? 0 then None else all_dialects !! Z.to_nat lang.

(** [locking_g] and [locking_u] of a language; [None] is [return false]. *)
Definition populate_locking_shift (lang : Z)
    : option (list Z * list codepoint) :=
  match gsm_dialect_of_Z lang with
  | Some GSM_DIALECT_DEFAULT
  | Some GSM_DIALECT_SPANISH => Some (def_gsm, def_unicode)
  | Some GSM_DIALECT_TURKISH => Some (tur_gsm, tur_unicode)
  | Some GSM_DIALECT_PORTUGUESE => Some (por_gsm, por_unicode)
  | Some GSM_DIALECT_BENGALI => Some (ben_gsm, ben_unicode)
  | Some GSM_DIALECT_GUJARATI => Some (guj_gsm, guj_unicode)
  | Some GSM_DIALECT_HINDI => Some (hin_gsm, hin_unicode)
  | Some GSM_DIALECT_KANNADA => Some (kan_gsm, kan_unicode)
  | Some GSM_DIALECT_MALAYALAM => Some (mal_gsm, mal_unicode)
  | Some GSM_DIALECT_ORIYA => Some (ori_gsm, ori_unicode)
  | Some GSM_DIALECT_PUNJABI => Some (pun_gsm, pun_unicode)
  | Some GSM_DIALECT_TAMIL => Some (tam_gsm, tam_unicode)
  | Some GSM_DIALECT_TELUGU => Some (tel_gsm, tel_unicode)
  | Some GSM_DIALECT_URDU => Some (urd_gsm, urd_unicode)
  | None => None
  end.

(** [single_g] and [single_u] of a language *)
Definition populate_single_shift (lang : Z)
    : option (list codepoint * list codepoint) :=
  match gsm_dialect_of_Z lang with
  | Some GSM_DIALECT_DEFAULT => Some (def_ext_gsm, def_ext_unicode)
  | Some GSM_DIALECT_TURKISH => Some (tur_ext_gsm, tur_ext_unicode)
  | Some GSM_DIALECT_SPANISH => Some (spa_ext_gsm, spa_ext_unicode)
  | Some GSM_DIALECT_PORTUGUESE => Some (por_ext_gsm, por_ext_unicode)
  | Some GSM_DIALECT_BENGALI => Some (ben_ext_gsm, ben_ext_unicode)
  | Some GSM_DIALECT_GUJARATI => Some (guj_ext_gsm, guj_ext_unicode)
  | Some GSM_DIALECT_HINDI => Some (hin_ext_gsm, hin_ext_unicode)
  | Some GSM_DIALECT_KANNADA => Some (kan_ext_gsm, kan_ext_unicode)
  | Some GSM_DIALECT_MALAYALAM => Some (mal_ext_gsm, mal_ext_unicode)
  | Some GSM_DIALECT_ORIYA => Some (ori_ext_gsm, ori_ext_unicode)
  | Some GSM_DIALECT_PUNJABI => Some (pun_ext_gsm, pun_ext_unicode)
  | Some GSM_DIALECT_TAMIL => Some (tam_ext_gsm, tam_ext_unicode)
  | Some GSM_DIALECT_TELUGU => Some (tel_ext_gsm, tel_ext_unicode)
  | Some GSM_DIALECT_URDU => Some (urd_ext_gsm, urd_ext_unicode)
  | None => None
  end.

Definition conversion_table_init (locking single : Z)
    : option conversion_table :=
  match populate_locking_shift locking, populate_single_shift single with
  | Some (lg, lu), Some (sg, su) =>
      Some {| locking_u := lu; single_u := su; locking_g := lg; single_g := sg |}
  | _, _ => None
  end.

(** ** Conversions

    The buffer a conversion returns ([None] is NULL), and what it stored
    through its out-parameters ([None] when it left them alone). *)
Record conv := {
  conv_res : option (list Z);
  items_read : option Z;
  items_written : option Z
}.

Definition conv_null : conv :=
  {| conv_res := None; items_read := None; items_written := None |}.

(** [len] when it is negative: the position of the terminator. *)
Definition text_length (text : list Z) (len terminator : Z) : res Z :=
  if len <? 0 then scan_to (S (length text)) text terminator 0 else Ret len.

Section Conversions.
Context `{U : Utf8}.

(** The character of the septet after an escape. *)
Definition gsm_escaped (t : conversion_table) (k : Z) : res Z :=
  let c := gsm_single_shift_lookup t k in
  if c =? GUND then gsm_locking_shift_lookup t k else Ret c.

(** First loop: the length of the result, [None] for [goto error]; [i] is
    the final index. *)
Fixpoint gsm_measure (fuel : nat) (t : conversion_table) (text : list Z)
    (len i res_length : Z) : res (Z * option Z) :=
  match fuel with
  | O => Ub
  | S fuel =>
    if i <? len then
      b ← rd text i;
      if 0x7f <? b then Ret (i, None)
      else if b =? 0x1b then
        let i := i + 1 in
        if len <=? i then Ret (i, None)
        else
          b ← rd text i;
          c ← gsm_escaped t b;
          gsm_measure fuel t text len (i + 1) (res_length + UTF8_LENGTH c)
      else
        c ← gsm_locking_shift_lookup t b;
        gsm_measure fuel t text len (i + 1) (res_length + UTF8_LENGTH c)
    else Ret (i, Some res_length)
  end.

(** Second loop: the characters are written until [res_length] bytes are. *)
Fixpoint gsm_write (fuel : nat) (t : conversion_table) (text : list Z)
    (res_length i : Z) (out : list Z) : res (Z * list Z) :=
  match fuel with
  | O => Ub
  | S fuel =>
    if zlen out <? res_length then
      b ← rd text i;
      if b =? 0x1b then
        b ← rd text (i + 1);
        c ← gsm_escaped t b;
        out ← put (res_length + 1) out (l_utf8_from_wchar c);
        gsm_write fuel t text res_length (i + 2) out
      else
        c ← gsm_locking_shift_lookup t b;
        out ← put (res_length + 1) out (l_utf8_from_wchar c);
        gsm_write fuel t text res_length (i + 1) out
    else Ret (i, out)
  end.

Definition convert_gsm_to_utf8_with_lang (text : list Z) (len terminator : Z)
    (locking_lang single_lang : Z) : res conv :=
  match conversion_table_init locking_lang single_lang with
  | None => Ret conv_null
  | Some t =>
    if (len <? 0) && (terminator =? 0) then
      Ret {| conv_res := None; items_read := Some 0; items_written := None |}
    else
      len ← text_length text len terminator;
      '(i, m) ← gsm_measure (S (Z.to_nat len)) t text len 0 0;
      match m with
      | None =>
        Ret {| conv_res := None; items_read := Some i; items_written := None |}
      | Some res_length =>
        '(i, out) ← gsm_write (S (Z.to_nat res_length)) t text res_length 0 [];
        _ ← put (res_length + 1) out [0];
        Ret {| conv_res := Some out; items_read := Some i;
               items_written := Some (zlen out) |}
      end
  end.

Definition convert_gsm_to_utf8 (text : list Z) (len terminator : Z)
    : res conv :=
  convert_gsm_to_utf8_with_lang text len terminator 0 0.

(** The GSM code of a code point: the locking table, then the single-shift
    table; [GUND] when neither has it. *)
Definition unicode_lookup (t : conversion_table) (c : Z) : Z :=
  let converted := unicode_locking_shift_lookup t c in
  if converted =? GUND then unicode_single_shift_lookup t c else converted.

(** First loop of convert_utf8_to_gsm_with_lang; [inp] is [in - text].  The
    result is the final [in], with [nchars] and [res_len] unless the loop
    left by [goto err_out]. *)
Fixpoint utf8_measure (fuel : nat) (t : conversion_table) (text : list Z)
    (len inp nchars res_len : Z) : res (Z * option (Z * Z)) :=
  match fuel with
  | O => Ub
  | S fuel =>
    if (len <? 0) || (0 <? len - inp) then
      ch ← rd text inp;
      if ch =? 0 then Ret (inp, Some (nchars, res_len))
      else
        let max := if len <? 0 then 4 else len - inp in
        match l_utf8_get_codepoint (drop (Z.to_nat inp) text) max with
        | None => Ret (inp, None)
        | Some (c, nread) =>
          if 0xffff <? c then Ret (inp, None)
          else
            let converted := unicode_lookup t c in
            if converted =? GUND then Ret (inp, None)
            else
              utf8_measure fuel t text len (inp + nread) (nchars + 1)
                (res_len + if has converted 0x1b00 then 2 else 1)
        end
    else Ret (inp, Some (nchars, res_len))
  end.

(** The second loop, over the [n] characters that remain. *)
Fixpoint utf8_write (n : nat) (t : conversion_table) (text : list Z)
    (cap inp : Z) (out : list Z) : res (Z * list Z) :=
  match n with
  | O => Ret (inp, out)
  | S n =>
    match l_utf8_get_codepoint (drop (Z.to_nat inp) text) 4 with
    | None => Ub
    | Some (c, nread) =>
      let converted := unicode_lookup t c in
      out ← (if has converted 0x1b00 then put cap out [0x1b] else Ret out);
      out ← put cap out [u8 converted];
      utf8_write n t text cap (inp + nread) out
    end
  end.

Definition convert_utf8_to_gsm_with_lang (text : list Z) (len terminator : Z)
    (locking_lang single_lang : Z) : res conv :=
  match conversion_table_init locking_lang single_lang with
  | None => Ret conv_null
  | Some t =>
    '(inp, m) ← utf8_measure (S (length text)) t text len 0 0 0;
    match m with
    | None =>
      Ret {| conv_res := None; items_read := Some inp; items_written := None |}
    | Some (nchars, res_len) =>
      let cap := res_len + if terminator =? 0 then 0 else 1 in
      '(inp, out) ← utf8_write (Z.to_nat nchars) t text cap 0 [];
      buf ← (if terminator =? 0 then Ret out else put cap out [terminator]);
      Ret {| conv_res := Some buf; items_read := Some inp;
             items_written := Some (zlen out) |}
    end
  end.

Definition convert_utf8_to_gsm (text : list Z) (len terminator : Z)
    : res conv :=
  convert_utf8_to_gsm_with_lang text len terminator 0 0.

(** What the caller sees after a failed call [old] followed by [new]: an
    out-parameter [new] left alone keeps the value of [old]. *)
Definition conv_after (old new : conv) : conv :=
  {| conv_res := conv_res new;
     items_read := match items_read new with
                   | Some r => Some r | None => items_read old end;
     items_written := match items_written new with
                      | Some w => Some w | None => items_written old end |}.

(** The conversion and, on success, [*used_locking] and [*used_single]. *)
Definition convert_utf8_to_gsm_best_lang (utf8 : list Z) (len terminator : Z)
    (hint : Z) : res (conv * option (Z * Z)) :=
  e1 ← convert_utf8_to_gsm_with_lang utf8 len terminator 0 0;
  if conv_res e1 is Some _ then Ret (e1, Some (0, 0))
  else if hint =? 0 then Ret (e1, None)
  else
    e2 ← convert_utf8_to_gsm_with_lang utf8 len terminator 0 hint;
    let e2 := conv_after e1 e2 in
    if conv_res e2 is Some _ then Ret (e2, Some (0, hint))
    else if hint =? 2 then Ret (e2, None)
    else
      e3 ← convert_utf8_to_gsm_with_lang utf8 len terminator hint hint;
      let e3 := conv_after e2 e3 in
      if conv_res e3 is Some _ then Ret (e3, Some (hint, hint)) else Ret (e3, None).

(** *** UCS2 to GSM *)

(** One loop serves both passes over [text]: [None] for [goto err_out], with
    the final index, else the encoded characters. *)
Fixpoint ucs2_measure (fuel : nat) (t : conversion_table) (text : list Z)
    (len i res_len : Z) : res (Z * option Z) :=
  match fuel with
  | O => Ub
  | S fuel =>
    if i <? len then
      hi ← rd text i;
      lo ← rd text (i + 1);
      let converted := unicode_lookup t (hi * 256 + lo) in
      if converted =? GUND then Ret (i, None)
      else ucs2_measure fuel t text len (i + 2)
             (res_len + if has converted 0x1b00 then 2 else 1)
    else Ret (i, Some res_len)
  end.

Fixpoint ucs2_write (fuel : nat) (t : conversion_table) (text : list Z)
    (len cap i : Z) (out : list Z) : res (Z * list Z) :=
  match fuel with
  | O => Ub
  | S fuel =>
    if i <? len then
      hi ← rd text i;
      lo ← rd text (i + 1);
      let converted := unicode_lookup t (hi * 256 + lo) in
      out ← (if has converted 0x1b00 then put cap out [0x1b] else Ret out);
      out ← put cap out [u8 converted];
      ucs2_write fuel t text len cap (i + 2) out
    else Ret (i, out)
  end.

Definition convert_ucs2_to_gsm_with_lang (text : list Z) (len terminator : Z)
    (locking_lang single_lang : Z) : res conv :=
  match conversion_table_init locking_lang single_lang with
  | None => Ret conv_null
  | Some t =>
    if (len <? 1) || negb (Z.rem len 2 =? 0) then Ret conv_null
    else
      '(i, m) ← ucs2_measure (S (Z.to_nat len)) t text len 0 0;
      match m with
      | None =>
        Ret {| conv_res := None; items_read := Some i; items_written := None |}
      | Some res_len =>
        let cap := res_len + if terminator =? 0 then 0 else 1 in
        '(i, out) ← ucs2_write (S (Z.to_nat len)) t text len cap 0 [];
        buf ← (if terminator =? 0 then Ret out else put cap out [terminator]);
        Ret {| conv_res := Some buf; items_read := Some i;
               items_written := Some (zlen out) |}
      end
  end.

Definition convert_ucs2_to_gsm (text : list Z) (len terminator : Z)
    : res conv :=
  convert_ucs2_to_gsm_with_lang text len terminator 0 0.

(** *** Alpha fields of the SIM *)

(** [for (i = from; i < length; i++) if (buffer[i] == 0xff) break;] *)
Fixpoint find_ff (fuel : nat) (buffer : list Z) (length i : Z) : res Z :=
  match fuel with
  | O => Ub
  | S fuel =>
    if i <? length then
      b ← rd buffer i;
      if b =? 0xff then Ret i else find_ff fuel buffer length (i + 1)
    else Ret i
  end.

(** The same, two bytes at a time. *)
Fixpoint find_ffff (fuel : nat) (buffer : list Z) (length i : Z) : res Z :=
  match fuel with
  | O => Ub
  | S fuel =>
    if i <? length then
      b ← rd buffer i;
      stop ← (if b =? 0xff then
                b' ← rd buffer (i + 1); Ret (b' =? 0xff)
              else Ret false);
      if (stop : bool) then Ret i else find_ffff fuel buffer length (i + 2)
    else Ret i
  end.

(** [for (; i < length; i++) if (buffer[i] != 0xff) return NULL;] *)
Fixpoint all_ff (fuel : nat) (buffer : list Z) (length i : Z) : res unit :=
  match fuel with
  | O => Ub
  | S fuel =>
    if i <? length then
      b ← rd buffer i;
      _ ← check (b =? 0xff);
      all_ff fuel buffer length (i + 1)
    else Ret tt
  end.

(** First loop of the formats 0x81 and 0x82: the length of the result and
    the final [i] and [j]. *)
Fixpoint sim_measure (fuel : nat) (t : conversion_table) (buffer : list Z)
    (length num_chars ucs2_offset i j res_len : Z) : res (Z * Z * Z) :=
  match fuel with
  | O => Ub
  | S fuel =>
    if (i <? length) && (j <? num_chars) then
      b ← rd buffer i;
      if has b 0x80 then
        let c := u16 (Z.land b 0x7f + ucs2_offset) in
        _ ← check (negb ((0xd800 <=? c) && (c <? 0xe000)));
        sim_measure fuel t buffer length num_chars ucs2_offset (i + 1) (j + 1)
          (res_len + UTF8_LENGTH c)
      else if b =? 0x1b then
        _ ← check (i + 1 <? length);
        b ← rd buffer (i + 1);
        let c := gsm_single_shift_lookup t b in
        _ ← check (negb (c =? 0));
        sim_measure fuel t buffer length num_chars ucs2_offset (i + 2) (j + 2)
          (res_len + UTF8_LENGTH c)
      else
        c ← gsm_locking_shift_lookup t b;
        sim_measure fuel t buffer length num_chars ucs2_offset (i + 1) (j + 1)
          (res_len + UTF8_LENGTH c)
    else Ret (i, j, res_len)
  end.

Fixpoint sim_write (fuel : nat) (t : conversion_table) (buffer : list Z)
    (ucs2_offset res_len i : Z) (out : list Z) : res (list Z) :=
  match fuel with
  | O => Ub
  | S fuel =>
    if zlen out <? res_len then
      b ← rd buffer i;
      if has b 0x80 then
        out ← put (res_len + 1) out
                (l_utf8_from_wchar (u16 (Z.land b 0x7f + ucs2_offset)));
        sim_write fuel t buffer ucs2_offset res_len (i + 1) out
      else if b =? 0x1b then
        b ← rd buffer (i + 1);
        out ← put (res_len + 1) out
                (l_utf8_from_wchar (gsm_single_shift_lookup t b));
        sim_write fuel t buffer ucs2_offset res_len (i + 2) out
      else
        c ← gsm_locking_shift_lookup t b;
        out ← put (res_len + 1) out (l_utf8_from_wchar c);
        sim_write fuel t buffer ucs2_offset res_len (i + 1) out
    else Ret out
  end.

(** The formats with an offset: [num_chars], [ucs2_offset] and [offset] are
    known. *)
Definition sim_string_offset (t : conversion_table) (buffer : list Z)
    (length num_chars ucs2_offset offset : Z) : res (list Z) :=
  let fuel := S (Z.to_nat length) in
  '(i, j, res_len) ←
    sim_measure fuel t buffer length num_chars ucs2_offset offset 0 0;
  _ ← check (j =? num_chars);
  _ ← all_ff fuel buffer length i;
  out ← sim_write (S (Z.to_nat res_len)) t buffer ucs2_offset res_len offset [];
  _ ← put (res_len + 1) out [0];
  Ret out.

(** The UTF-8 string, [Err] for NULL. *)
Definition sim_string_to_utf8 (buffer : list Z) (length : Z)
    : res (list Z) :=
  match conversion_table_init 0 0 with
  | None => Err
  | Some t =>
    let fuel := S (Z.to_nat length) in
    _ ← check (1 <=? length);
    b0 ← rd buffer 0;
    if b0 <? 0x80 then
      i ← find_ff fuel buffer length 0;
      r ← convert_gsm_to_utf8 buffer i 0;
      match conv_res r with Some s => Ret s | None => Err end
    else if b0 =? 0x80 then
      length ← (if Z.rem (length - 1) 2 =? 1 then
                  last ← rd buffer (length - 1);
                  _ ← check (last =? 0xff);
                  Ret (length - 1)
                else Ret length);
      i ← find_ffff fuel buffer length 1;
      ucs2 ← slice buffer 1 (i - 1);
      match l_utf8_from_ucs2be ucs2 with Some s => Ret s | None => Err end
    else if b0 =? 0x81 then
      _ ← check (3 <=? length);
      num_chars ← rd buffer 1;
      _ ← check (num_chars <=? length - 3);
      b2 ← rd buffer 2;
      sim_string_offset t buffer length num_chars (Z.shiftl b2 7) 3
    else if b0 =? 0x82 then
      _ ← check (4 <=? length);
      num_chars ← rd buffer 1;
      _ ← check (num_chars <=? length - 4);
      b2 ← rd buffer 2;
      b3 ← rd buffer 3;
      sim_string_offset t buffer length num_chars (Z.lor (Z.shiftl b2 8) b3) 4
    else if b0 =? 0xff then
      sim_string_offset t buffer length 0 0 0
    else Err
  end.

(** [while (gsm_bytes && result[gsm_bytes - 1] == 0x1b) gsm_bytes -= 1;] *)
Fixpoint drop_escapes (fuel : nat) (result : list Z) (gsm_bytes : Z) : res Z :=
  match fuel with
  | O => Ub
  | S fuel =>
    if gsm_bytes =? 0 then Ret 0
    else
      b ← rd result (gsm_bytes - 1);
      if b =? 0x1b then drop_escapes fuel result (gsm_bytes - 1)
      else Ret gsm_bytes
  end.

(** The buffer and [*out_length]. *)
Definition utf8_to_sim_string (utf : list Z) (max_length : Z)
    : res (list Z * Z) :=
  r ← convert_utf8_to_gsm utf (-1) 0;
  match conv_res r, items_written r with
  | Some result, Some gsm_bytes =>
    if max_length <? gsm_bytes then
      n ← drop_escapes (S (length result)) result max_length;
      Ret (result, n)
    else Ret (result, gsm_bytes)
  | _, _ =>
    match l_utf8_to_ucs2be (cstr utf) with
    | None => Err
    | Some ucs2 =>
      let converted := zlen ucs2 - 2 in
      let converted :=
        if negb (max_length =? -1) && (max_length <? converted + 1)
        then Z.land (max_length - 1) (Z.lnot 1) else converted in
      body ← slice ucs2 0 converted;
      Ret (0x80 :: body, converted + 1)
    end
  end.
End Conversions.

(** * The tables *)

(** Decoding does not give U+00A0 back: it is encoded as the space. *)
Definition plain_space (c : Z) : Z := if c =? 0xA0 then 0x20 else c.

(** Every entry (c, k) of a locking table to GSM is read back by the table
    from GSM, and k is a septet other than the escape. *)
Definition locking_ok (lg : list Z) (lu : list codepoint) : bool :=
  forallb (fun e =>
    (0 <=? to e) && (to e <? 128) && negb (to e =? 0x1b) &&
    negb (has (to e) 0x1b00) && negb (to e =? GUND) && (0 <? from e) &&
    match lg !! Z.to_nat (to e) with
    | Some c => (c =? plain_space (from e)) | None => false end &&
    ((from e <? 0xD800) || (0xE000 <=? from e)) && (from e <=? 0xFFFF)) lu
  && (zlen lg =? 128)
  && forallb (fun c => (0 <? c) && ((c <? 0xD800) || ((0xE000 <=? c) && (c <? 0xFFFF)))) lg.

(** Every entry (c, 0x1b00 + k) of a single-shift table to GSM is read back, and
    k is a septet other than the escape. *)
Definition single_ok (sg su : list codepoint) : bool :=
  forallb (fun e =>
    let k := to e - 0x1b00 in
    (0 <=? k) && (k <? 128) && negb (k =? 0x1b) && has (to e) 0x1b00 && (u8 (to e) =? k) &&
    (codepoint_lookup (cp k 0) sg =? from e) && negb (from e =? 0xA0) &&
    negb (to e =? GUND) && (0 <? from e) &&
    ((from e <? 0xD800) || ((0xE000 <=? from e) && (from e <? 0xFFFF)))) su
  && forallb (fun e => (0 <? to e) && (from e <? 128) &&
       ((to e <? 0xD800) || ((0xE000 <=? to e) && (to e <? 0xFFFF)))) sg.

(** What bsearch needs: the keys do not decrease. *)
Fixpoint sorted_keys (l : list codepoint) : bool :=
  match l with
  | e :: ((e' :: _) as l') => (from e <=? from e') && sorted_keys l'
  | _ => true
  end.

Definition dialect_ok (d : Z) : bool :=
  match populate_locking_shift d, populate_single_shift d with
  | Some (lg, lu), Some (sg, su) =>
      locking_ok lg lu && single_ok sg su &&
      sorted_keys lu && sorted_keys sg && sorted_keys su
  | _, _ => false
  end.

Lemma dialects_ok : forallb dialect_ok (seqZ 0 14) = true.
Proof. vm_compute. reflexivity. Qed.

(** * bsearch finds every key of a sorted table *)

Lemma compare_codepoints_spec a b :
  compare_codepoints a b = Z.b2z (from b <? from a) - Z.b2z (from a <? from b) /\
  (compare_codepoints a b < 0 <-> from a < from b) /\
  (0 < compare_codepoints a b <-> from b < from a).
Proof.
  unfold compare_codepoints.
  destruct (Z.ltb_spec (from b) (from a)), (Z.ltb_spec (from a) (from b));
    cbn [Z.b2z]; lia.
Qed.

Lemma bsearch_sound fuel key table l u p :
  bsearch fuel key table l u = Some p -> p ∈ table /\ from p = from key.
Proof.
  revert l u. induction fuel as [|fuel IH]; intros l u; [done|].
  cbn [bsearch]. case_cmp; [|done].
  destruct (table !! Z.to_nat ((l + u) / 2)) as [q|] eqn:Hq; [|done].
  destruct (compare_codepoints_spec key q) as (_ & Hlt & Hgt).
  repeat case_cmp; bool_to_prop; [apply IH|apply IH|].
  intros [= ->]. split; [by eapply list_elem_of_lookup_2|lia].
Qed.

Lemma sorted_keys_le table i j e e' :
  sorted_keys table = true -> (i <= j)%nat ->
  table !! i = Some e -> table !! j = Some e' -> from e <= from e'.
Proof.
  revert i j e e'. induction table as [|a [|b t] IH]; intros i j e e' Hs Hij;
    [done|..].
  { destruct i, j; cbn; naive_solver lia. }
  cbn [sorted_keys] in Hs. bool_to_prop.
  assert (forall k x, (b :: t) !! k = Some x -> from a <= from x) as Hall.
  { intros k x Hk. etrans; [eassumption|]. by eapply (IH 0%nat k); [|lia|..]. }
  destruct i, j; cbn; intros; [naive_solver lia|naive_solver|lia|].
  by eapply (IH i j); [|lia|..].
Qed.

Lemma bsearch_complete fuel key table l u i e :
  sorted_keys table = true -> 0 <= l -> u <= zlen table ->
  u - l < Z.of_nat fuel -> l <= i < u -> table !! Z.to_nat i = Some e ->
  from e = from key -> exists p, bsearch fuel key table l u = Some p.
Proof.
  intros Hs. revert l u. induction fuel as [|fuel IH]; intros l u Hl Hu Hf Hi He Hk;
    [lia|].
  cbn [bsearch]. rewrite (proj2 (Z.ltb_lt l u)) by lia.
  assert (l <= (l + u) / 2 < u) as Hm.
  { split; [apply Z.div_le_lower_bound|apply Z.div_lt_upper_bound]; lia. }
  unfold zlen in *.
  destruct (table !! Z.to_nat ((l + u) / 2)) as [q|] eqn:Hq.
  2:{ apply lookup_ge_None in Hq. lia. }
  destruct (compare_codepoints_spec key q) as (_ & Hlt & Hgt).
  repeat case_cmp; bool_to_prop; [| |eauto].
  - apply IH; try lia; auto. split; [lia|].
    destruct (Z.lt_ge_cases i ((l + u) / 2)) as [|Hge]; [done|exfalso].
    enough (from q <= from e) by lia.
    eapply (sorted_keys_le table (Z.to_nat ((l + u) / 2)) (Z.to_nat i)); eauto; lia.
  - apply IH; try lia; auto. split; [|lia].
    destruct (Z.lt_ge_cases ((l + u) / 2) i) as [|Hge]; [lia|exfalso].
    enough (from e <= from q) by lia.
    eapply (sorted_keys_le table (Z.to_nat i) (Z.to_nat ((l + u) / 2))); eauto; lia.
Qed.

(** The result of a lookup: the code of an entry with that key, or [GUND]. *)
Lemma codepoint_lookup_cases key table :
  (exists e, e ∈ table /\ from e = from key /\
             codepoint_lookup key table = to e) \/
  codepoint_lookup key table = GUND.
Proof.
  unfold codepoint_lookup. destruct (bsearch _ _ _ _ _) as [p|] eqn:E; [|auto].
  apply bsearch_sound in E as [??]. eauto.
Qed.

Lemma codepoint_lookup_found key table e :
  sorted_keys table = true -> e ∈ table -> from e = from key ->
  exists e', e' ∈ table /\ from e' = from key /\
             codepoint_lookup key table = to e'.
Proof.
  intros Hs [i He]%list_elem_of_lookup_1 Hk. unfold codepoint_lookup, zlen.
  destruct (bsearch_complete (S (length table)) key table 0 (Z.of_nat (length table))
              (Z.of_nat i) e) as [p Hp];
    try (rewrite ?Nat2Z.id; unfold zlen; auto; lia).
  { apply lookup_lt_Some in He. lia. }
  rewrite Hp. apply bsearch_sound in Hp as [??]. eauto.
Qed.

(** * Encoding and decoding of code points *)

(** The septets of a code point. *)
Definition gsm_code (t : conversion_table) (c : Z) : option (list Z) :=
  let v := unicode_lookup t c in
  if v =? GUND then None
  else Some (if has v 0x1b00 then [0x1b; u8 v] else [u8 v]).

Fixpoint gsm_codes (t : conversion_table) (cs : list Z) : option (list Z) :=
  match cs with
  | [] => Some []
  | c :: cs => g ← gsm_code t c; gs ← gsm_codes t cs; Some (g ++ gs)
  end.

(** The characters before the first one that has no code. *)
Fixpoint encodable (t : conversion_table) (cs : list Z) : list Z :=
  match cs with
  | [] => []
  | c :: cs => match gsm_code t c with Some _ => c :: encodable t cs | None => [] end
  end.

(** The tables of a language pair, as the code can select them. *)
Definition dialect_tables (t : conversion_table) : Prop :=
  exists locking single, conversion_table_init locking single = Some t.

Lemma init_dialect locking single t :
  conversion_table_init locking single = Some t ->
  locking_ok (locking_g t) (locking_u t) = true /\
  single_ok (single_g t) (single_u t) = true /\
  sorted_keys (locking_u t) = true /\ sorted_keys (single_g t) = true /\
  sorted_keys (single_u t) = true.
Proof.
  assert (forall d, is_Some (gsm_dialect_of_Z d) -> dialect_ok d = true) as Hok.
  { intros d Hd. pose proof dialects_ok as H. rewrite forallb_forall in H.
    apply H, list_elem_of_In, elem_of_seqZ. unfold gsm_dialect_of_Z in Hd.
    destruct (d <? 0) eqn:E; [by destruct Hd|]. bool_to_prop.
    apply lookup_lt_is_Some_1 in Hd. cbn in Hd. lia. }
  unfold conversion_table_init. pose proof (Hok locking) as Hl.
  pose proof (Hok single) as Hs. clear Hok. unfold dialect_ok in Hl, Hs.
  destruct (populate_locking_shift locking) as [[lg lu]|] eqn:El; [|done].
  destruct (populate_single_shift single) as [[sg su]|] eqn:Es; [|done].
  intros [= <-]. cbn.
  assert (is_Some (gsm_dialect_of_Z locking)) as Hd1.
  { unfold populate_locking_shift in El. destruct (gsm_dialect_of_Z locking); [by eauto|done]. }
  assert (is_Some (gsm_dialect_of_Z single)) as Hd2.
  { unfold populate_single_shift in Es. destruct (gsm_dialect_of_Z single); [by eauto|done]. }
  specialize (Hl Hd1). specialize (Hs Hd2).
  repeat case_match; bool_to_prop; simplify_eq; auto.
Qed.

Lemma locking_entry lg lu e :
  locking_ok lg lu = true -> e ∈ lu ->
  0 <= to e < 128 /\ to e <> 0x1b /\ has (to e) 0x1b00 = false /\
  lg !! Z.to_nat (to e) = Some (plain_space (from e)).
Proof.
  unfold locking_ok. intros H He. bool_to_prop.
  rewrite forallb_forall in H. specialize (H e (proj1 (list_elem_of_In _ _) He)).
  destruct (lg !! _) as [c|] eqn:Hc; bool_to_prop; [|congruence]. subst. auto 6.
Qed.

Lemma single_entry sg su e :
  single_ok sg su = true -> e ∈ su ->
  (0 <= u8 (to e) < 128 /\ u8 (to e) <> 0x1b) /\ has (to e) 0x1b00 = true /\
  codepoint_lookup (cp (u8 (to e)) 0) sg = from e /\
  from e <> 0xA0 /\ from e <> GUND.
Proof.
  unfold single_ok. intros H He. bool_to_prop.
  rewrite forallb_forall in H. specialize (H e (proj1 (list_elem_of_In _ _) He)).
  cbn zeta in H. unfold GUND. bool_to_prop.
  match goal with E : u8 _ = _ |- _ => rewrite E end.
  repeat match goal with H : _ \/ _ |- _ => destruct H end; bool_to_prop;
    repeat split; auto; lia.
Qed.

(** What a defined code of [c] decodes to. *)
Lemma unicode_lookup_decodes t c :
  dialect_tables t -> unicode_lookup t c <> GUND ->
  let v := unicode_lookup t c in
  (has v 0x1b00 = false /\ u8 v = v /\ 0 <= v < 128 /\ v <> 0x1b /\
   gsm_locking_shift_lookup t v = Ret (plain_space c)) \/
  (has v 0x1b00 = true /\ (0 <= u8 v < 128 /\ u8 v <> 0x1b) /\
   gsm_escaped t (u8 v) = Ret (plain_space c)).
Proof.
  intros (l & s & Hinit). apply init_dialect in Hinit as (Hl & Hs & _).
  unfold unicode_lookup. intros Hg.
  unfold unicode_locking_shift_lookup, unicode_single_shift_lookup in *.
  destruct (codepoint_lookup_cases (cp c 0) (locking_u t)) as [(e & He & Hk & Hv)|Hv];
    cbn in *.
  - left. destruct (locking_entry _ _ _ Hl He) as (Hr & H1b & Hh & Hd).
    rewrite Hv in *. assert (to e <> GUND) by (unfold GUND; lia).
    rewrite (proj2 (Z.eqb_neq _ _)) by done.
    split_and!; try done; try lia.
    + unfold u8. apply Z.mod_small. lia.
    + unfold gsm_locking_shift_lookup. apply rd_lookup; [lia|].
      cbn in Hk. by rewrite <- Hk.
  - rewrite Hv, Z.eqb_refl in *.
    destruct (codepoint_lookup_cases (cp c 0) (single_u t)) as [(e & He & Hk & Hw)|Hw];
      [|congruence].
    right. destruct (single_entry _ _ _ Hs He) as (Hr & Hh & Hd & HA0 & HG).
    cbn in Hk. rewrite Hw in *. split_and!; try done; try lia.
    unfold gsm_escaped, gsm_single_shift_lookup. rewrite Hd, Hk in *.
    rewrite (proj2 (Z.eqb_neq _ _)) by done. unfold plain_space.
    by rewrite (proj2 (Z.eqb_neq _ _)).
Qed.

(** * The conversion loops *)

Lemma UTF8_LENGTH_pos c : 1 <= UTF8_LENGTH c <= 3.
Proof. unfold UTF8_LENGTH. repeat case_cmp; lia. Qed.

Section ConversionProofs.
Context `{L : Utf8Laws}.

Definition utf8 (cs : list Z) : list Z := flat_map l_utf8_from_wchar cs.

(** A text the code can be given in UTF-8: nonzero scalars of the plane. *)
Definition text_points (cs : list Z) : Prop :=
  Forall (fun c => 0 < c /\ bmp_scalar c) cs.

Lemma from_wchar_head c :
  0 < c /\ bmp_scalar c ->
  exists b bs, l_utf8_from_wchar c = b :: bs /\ 0 < b.
Proof.
  intros [Hc Hb]. unfold bmp_scalar in Hb.
  pose proof (from_wchar_length c ltac:(lia)) as Hlen.
  pose proof (from_wchar_nonzero c ltac:(lia)) as Hnz.
  pose proof (UTF8_LENGTH_pos c). destruct (l_utf8_from_wchar c) as [|b bs].
  { rewrite zlen_nil in Hlen. lia. }
  inversion Hnz. eauto with lia.
Qed.

Lemma gsm_codes_cons t c cs g :
  gsm_codes t (c :: cs) = Some g ->
  exists g1 gs, gsm_code t c = Some g1 /\ gsm_codes t cs = Some gs /\
                g = g1 ++ gs.
Proof.
  cbn. destruct (gsm_code t c) as [g1|]; cbn; [|done].
  destruct (gsm_codes t cs) as [gs|]; cbn; [|done]. intros [= <-]. eauto.
Qed.

(** One step of both loops reads the next character. *)
Lemma get_codepoint_at pre c cs rest max :
  0 < c /\ bmp_scalar c -> UTF8_LENGTH c <= max ->
  l_utf8_get_codepoint
    (drop (Z.to_nat (zlen pre)) (pre ++ utf8 (c :: cs) ++ rest)) max
  = Some (c, UTF8_LENGTH c).
Proof.
  intros [_ Hc] Hm. rewrite drop_zlen_app by done. cbn [utf8 flat_map].
  rewrite <- app_assoc. by apply get_codepoint_from_wchar.
Qed.

Lemma utf8_cons_assoc pre c cs rest :
  pre ++ utf8 (c :: cs) ++ rest = (pre ++ l_utf8_from_wchar c) ++ utf8 cs ++ rest.
Proof. cbn. by rewrite <- !app_assoc. Qed.

Lemma zlen_from_wchar c :
  0 < c /\ bmp_scalar c -> zlen (l_utf8_from_wchar c) = UTF8_LENGTH c.
Proof. unfold bmp_scalar. intros [??]. apply from_wchar_length. lia. Qed.

(** The end of the text: a NUL when [len < 0], or [len] bytes. *)
Definition ends_at (len n : Z) (rest : list Z) : Prop :=
  (len < 0 /\ exists rest', rest = 0 :: rest') \/ (0 <= len /\ len = n).

Lemma utf8_measure_ok t cs pre rest fuel len nchars res_len :
  text_points cs -> ends_at len (zlen pre + zlen (utf8 cs)) rest ->
  (length cs < fuel)%nat ->
  utf8_measure fuel t (pre ++ utf8 cs ++ rest) len (zlen pre) nchars res_len
  = Ret (zlen pre + zlen (utf8 (encodable t cs)),
         (fun g => (nchars + zlen cs, res_len + zlen g)) <$> gsm_codes t cs).
Proof.
  intros Hcs. revert pre fuel nchars res_len.
  induction Hcs as [|c cs Hc Hcs IH]; intros pre fuel nchars res_len Hend Hf;
    (destruct fuel as [|fuel]; cbn in Hf; [lia|]); cbn [utf8_measure].
  - destruct Hend as [[Hlen [r ->]]|[Hlen Heq]].
    + rewrite (proj2 (Z.ltb_lt len 0)) by done. cbn [orb utf8 flat_map app].
      rewrite rd_middle by done. cbn. by rewrite zlen_nil, !Z.add_0_r.
    + rewrite (proj2 (Z.ltb_ge len 0)), (proj2 (Z.ltb_ge 0 _)) by zl.
      cbn. by rewrite zlen_nil, !Z.add_0_r.
  - pose proof (UTF8_LENGTH_pos c) as Hpos.
    assert (zlen (utf8 (c :: cs)) = UTF8_LENGTH c + zlen (utf8 cs)) as Hz
      by (cbn; by rewrite zlen_app, zlen_from_wchar).
    rewrite Hz in Hend.
    assert ((len <? 0) || (0 <? len - zlen pre) = true) as ->.
    { destruct Hend as [[Hlen _]|[_ ->]]; apply orb_true_iff;
        [left|right]; apply Z.ltb_lt; [done|zl]. }
    destruct (from_wchar_head c Hc) as (b & bs & Hb & Hb0).
    assert (rd (pre ++ utf8 (c :: cs) ++ rest) (zlen pre) = Ret b) as ->.
    { cbn. rewrite Hb. cbn. by apply rd_middle. }
    simp_res. rewrite (proj2 (Z.eqb_neq b 0)) by lia. cbn zeta.
    rewrite get_codepoint_at; [|done|].
    2:{ case_cmp; bool_to_prop; destruct Hend as [[? _]|[? ->]]; zl. }
    rewrite (proj2 (Z.ltb_ge 0xffff c))
      by (destruct Hc as [_ Hc]; unfold bmp_scalar in Hc; lia).
    cbn [gsm_codes encodable]. unfold gsm_code.
    destruct (unicode_lookup t c =? GUND) eqn:HG.
    { cbn. by rewrite zlen_nil, Z.add_0_r. }
    rewrite utf8_cons_assoc, <- zlen_from_wchar, <- zlen_app by done.
    rewrite IH; [| |lia].
    2:{ destruct Hend as [?|[? ->]]; [by left|right].
        rewrite zlen_app, zlen_from_wchar by done. zl. }
    cbn. rewrite !zlen_app, Z.add_assoc, zlen_cons.
    destruct (gsm_codes t cs) as [gs|]; cbn; [|done].
    rewrite zlen_app. destruct (has _ _); do 4 f_equal; zl.
Qed.

Lemma utf8_write_ok t cs pre rest cap out g :
  text_points cs -> gsm_codes t cs = Some g -> zlen out + zlen g <= cap ->
  utf8_write (length cs) t (pre ++ utf8 cs ++ rest) cap (zlen pre) out
  = Ret (zlen pre + zlen (utf8 cs), out ++ g).
Proof.
  intros Hcs. revert pre out g.
  induction Hcs as [|c cs Hc Hcs IH]; intros pre out g Hg Hcap; cbn [length utf8_write].
  - cbn in *. simplify_eq. by rewrite zlen_nil, Z.add_0_r, app_nil_r.
  - apply gsm_codes_cons in Hg as (g1 & gs & Hg1 & Hgs & ->).
    pose proof (UTF8_LENGTH_pos c).
    rewrite get_codepoint_at by (done || lia). cbn zeta.
    unfold gsm_code in Hg1. destruct (_ =? GUND); [done|]. injection Hg1 as <-.
    rewrite zlen_app in Hcap.
    rewrite utf8_cons_assoc, <- zlen_from_wchar, <- zlen_app by done.
    destruct (has _ _); simp_res; rewrite ?put_ok by zl; simp_res;
      rewrite ?put_ok by zl; simp_res; rewrite (IH _ _ gs) by (done || zl);
      cbn; fold (utf8 cs); rewrite !zlen_app, <- !app_assoc; do 2 f_equal; lia.
Qed.

Lemma length_text_points cs :
  text_points cs -> (length cs <= length (utf8 cs))%nat.
Proof.
  induction 1 as [|c cs Hc Hcs IH]; cbn; [lia|]. rewrite length_app.
  pose proof (zlen_from_wchar c Hc) as Hl. pose proof (UTF8_LENGTH_pos c).
  unfold zlen in Hl. fold (utf8 cs). lia.
Qed.

Lemma utf8_no_nul cs : text_points cs -> Forall (fun c => c <> 0) (utf8 cs).
Proof.
  induction 1 as [|c cs [Hc Hb] Hcs IH]; [constructor|]. cbn [utf8 flat_map].
  apply Forall_app. split; [|done]. unfold bmp_scalar in Hb.
  pose proof (from_wchar_nonzero c ltac:(lia)) as Hnz.
  apply (Forall_impl _ _ _ Hnz). intros b Hb'. lia.
Qed.

(** convert_utf8_to_gsm_with_lang computes the codes of the characters. *)
Lemma convert_utf8_to_gsm_codes t locking single cs rest len :
  conversion_table_init locking single = Some t ->
  text_points cs -> ends_at len (zlen (utf8 cs)) rest ->
  convert_utf8_to_gsm_with_lang (utf8 cs ++ rest) len 0 locking single
  = Ret {| conv_res := gsm_codes t cs;
           items_read := Some (zlen (utf8 (encodable t cs)));
           items_written := zlen <$> gsm_codes t cs |}.
Proof.
  intros Ht Hcs Hend. unfold convert_utf8_to_gsm_with_lang. rewrite Ht.
  pose proof (utf8_measure_ok t cs [] rest (S (length (utf8 cs ++ rest))) len 0 0
                Hcs) as Hm. cbn [app] in Hm. rewrite zlen_nil in Hm.
  rewrite Hm; clear Hm; [|by rewrite Z.add_0_l|].
  2:{ rewrite length_app. pose proof (length_text_points cs Hcs). lia. }
  destruct (gsm_codes t cs) as [g|] eqn:Hg; [|done].
  cbn [fmap option_fmap option_map]. simp_res. rewrite !Z.add_0_l.
  assert (encodable t cs = cs) as ->.
  { clear -Hg. revert g Hg. induction cs as [|c cs IH]; intros g Hg; [done|].
    apply gsm_codes_cons in Hg as (g1 & gs & H1 & Hgs & ->). cbn. rewrite H1.
    f_equal. eauto. }
  rewrite Z.add_0_r, to_nat_zlen.
  pose proof (utf8_write_ok t cs [] rest (zlen g) [] g Hcs Hg) as Hw.
  cbn [app] in Hw. rewrite zlen_nil in Hw. rewrite Hw by lia. done.
Qed.
End ConversionProofs.

(** * Decoding *)

(** The characters of a septet string; [Err] for an escape at its end. *)
Fixpoint gsm_points (t : conversion_table) (text : list Z) : res (list Z) :=
  match text with
  | [] => Ret []
  | b :: text =>
    if b =? 0x1b then
      match text with
      | [] => Err
      | k :: text => c ← gsm_escaped t k; cs ← gsm_points t text; Ret (c :: cs)
      end
    else
      c ← gsm_locking_shift_lookup t b; cs ← gsm_points t text; Ret (c :: cs)
  end.

Section DecodeProofs.
Context `{L : Utf8Laws}.
Variable t : conversion_table.
Hypothesis Ht : dialect_tables t.

Lemma locking_lookup_septet k :
  0 <= k < 128 ->
  exists c, gsm_locking_shift_lookup t k = Ret c /\ 0 < c /\ bmp_scalar c.
Proof.
  intros Hk. destruct Ht as (l & s & Hi). apply init_dialect in Hi as (Hl & _).
  unfold locking_ok in Hl. bool_to_prop. unfold gsm_locking_shift_lookup.
  destruct (rd_in_bounds (locking_g t) k ltac:(lia)) as [c Hc].
  exists c. split; [done|]. rewrite forallb_forall in H0.
  apply rd_lookup in Hc; [|lia].
  specialize (H0 c (proj1 (list_elem_of_In _ _) (list_elem_of_lookup_2 _ _ _ Hc))).
  unfold bmp_scalar. bool_to_prop. split; [done|].
  destruct H2; bool_to_prop; lia.
Qed.

Lemma escaped_septet k :
  0 <= k < 128 -> exists c, gsm_escaped t k = Ret c /\ 0 < c /\ bmp_scalar c.
Proof.
  intros Hk. unfold gsm_escaped, gsm_single_shift_lookup.
  destruct (codepoint_lookup_cases (cp k 0) (single_g t)) as [(e & He & _ & Hv)|Hv].
  2:{ rewrite Hv, Z.eqb_refl. by apply locking_lookup_septet. }
  destruct Ht as (l & s & Hi). apply init_dialect in Hi as (_ & Hs & _).
  unfold single_ok in Hs. bool_to_prop. rewrite forallb_forall in H0.
  specialize (H0 e (proj1 (list_elem_of_In _ _) He)).
  rewrite Hv. unfold GUND, bmp_scalar. bool_to_prop. exists (to e).
  rewrite (proj2 (Z.eqb_neq _ _)) by (destruct H1; bool_to_prop; lia).
  split; [done|]. split; [done|]. destruct H1; bool_to_prop; lia.
Qed.

(** The decoded string is an induction on the septets, two cases a step. *)
Lemma septets_ind (P : list Z -> Prop) :
  P [] ->
  P [0x1b] ->
  (forall k c text, 0 <= k < 128 -> gsm_escaped t k = Ret c ->
     0 < c /\ bmp_scalar c -> P text -> P (0x1b :: k :: text)) ->
  (forall b c text, b <> 0x1b -> 0 <= b < 128 ->
     gsm_locking_shift_lookup t b = Ret c ->
     0 < c /\ bmp_scalar c -> P text -> P (b :: text)) ->
  forall text, septets text -> P text.
Proof.
  intros Hnil Hesc He Hl text Hs. remember (length text) as n eqn:Hn.
  revert text Hs Hn.
  induction n as [n IH] using lt_wf_ind; intros [|b text] Hs Hn; [done|].
  inversion Hs as [|?? Hb Hs']; subst. destruct (Z.eq_dec b 0x1b) as [->|Hne].
  - destruct text as [|k text]; [done|]. inversion Hs' as [|?? Hk Hs'']; subst.
    destruct (escaped_septet k Hk) as (c & ? & ?).
    eapply He; eauto. apply (IH (length text)); [cbn; lia|done..].
  - destruct (locking_lookup_septet b Hb) as (c & ? & ?).
    eapply Hl; eauto. apply (IH (length text)); [cbn; lia|done..].
Qed.

(** Decoding septets never leaves the tables. *)
Lemma gsm_points_septets text :
  septets text ->
  gsm_points t text = Err \/
  exists cs, gsm_points t text = Ret cs /\ text_points cs.
Proof.
  revert text.
  refine (septets_ind _ _ _ _ _).
  - right. exists []. split; [done|constructor].
  - by left.
  - intros k c text _ He Hc IH. cbn. rewrite He. cbn.
    destruct IH as [->|(cs & -> & Hcs)]; [by left|right].
    eexists. split; [reflexivity|by constructor].
  - intros b c text Hb _ He Hc IH. cbn. apply Z.eqb_neq in Hb as ->. rewrite He.
    cbn. destruct IH as [->|(cs & -> & Hcs)]; [by left|right].
    eexists. split; [reflexivity|by constructor].
Qed.

(** The characters are back when codes are decoded. *)
Lemma gsm_points_codes cs g :
  gsm_codes t cs = Some g -> gsm_points t g = Ret (map plain_space cs).
Proof.
  revert g. induction cs as [|c cs IH]; intros g Hg; [by cbn in *; simplify_eq|].
  apply gsm_codes_cons in Hg as (g1 & gs & Hg1 & Hgs & ->).
  unfold gsm_code in Hg1. destruct (_ =? GUND) eqn:HG; [done|]. bool_to_prop.
  destruct (unicode_lookup_decodes t c Ht HG) as [(Hh & Hu & Hr & H1b & Hd)|(Hh & Hr & Hd)];
    rewrite Hh in Hg1; injection Hg1 as <-; cbn [app gsm_points map].
  - rewrite Hu, (proj2 (Z.eqb_neq _ _)), Hd, (IH gs) by done. done.
  - rewrite Z.eqb_refl, Hd, (IH gs) by done. done.
Qed.

Lemma zlen_utf8_cons c cs :
  0 < c /\ bmp_scalar c -> zlen (utf8 (c :: cs)) = UTF8_LENGTH c + zlen (utf8 cs).
Proof. intros Hc. cbn. by rewrite zlen_app, zlen_from_wchar. Qed.

Lemma gsm_measure_ok text : septets text ->
  forall full i rest fuel rl, at_pos full i (text ++ rest) ->
  (length text < fuel)%nat ->
  gsm_measure fuel t full (i + zlen text) i rl
  = match gsm_points t text with
    | Ret cs => Ret (i + zlen text, Some (rl + zlen (utf8 cs)))
    | Err => Ret (i + zlen text, None)
    | Ub => Ub
    end.
Proof.
  revert text. refine (septets_ind _ _ _ _ _).
  - intros full i rest [|fuel] rl _ Hf; [cbn in Hf; lia|]. cbn [gsm_measure].
    cbn. by rewrite Z.add_0_r, Z.ltb_irrefl, Z.add_0_r.
  - intros full i rest [|fuel] rl H Hf; [cbn in Hf; lia|]. cbn [gsm_measure].
    apply at_pos_cons in H as [-> _]. rewrite (proj2 (Z.ltb_lt _ _)) by zl.
    cbn. by rewrite (proj2 (Z.leb_le _ _)) by zl.
  - intros k c text Hk He Hc IH full i rest [|fuel] rl H Hf; cbn in Hf; [lia|].
    apply at_pos_cons in H as [Hr1 H]. apply at_pos_cons in H as [Hr2 H].
    specialize (IH _ _ _ fuel (rl + UTF8_LENGTH c) H ltac:(lia)).
    cbn [gsm_measure gsm_points]. rewrite Hr1, (proj2 (Z.ltb_lt _ _)) by zl. cbn.
    rewrite Hr2, (proj2 (Z.leb_gt _ _)) by zl. cbn. rewrite He. cbn.
    rewrite !zlen_cons.
    replace (i + (1 + (1 + zlen text))) with (i + 1 + 1 + zlen text) by lia.
    rewrite IH. destruct (gsm_points t text); cbn; [|done..].
    by rewrite zlen_app, zlen_from_wchar, Z.add_assoc.
  - intros b c text Hne Hb He Hc IH full i rest [|fuel] rl H Hf; cbn in Hf; [lia|].
    apply at_pos_cons in H as [Hr1 H].
    specialize (IH _ _ _ fuel (rl + UTF8_LENGTH c) H ltac:(lia)).
    cbn [gsm_measure gsm_points]. rewrite Hr1, (proj2 (Z.ltb_lt _ _)) by zl. cbn.
    rewrite (proj2 (Z.ltb_ge _ _)), (proj2 (Z.eqb_neq _ _)), He by lia. cbn.
    rewrite !zlen_cons. replace (i + (1 + zlen text)) with (i + 1 + zlen text) by lia.
    rewrite IH. destruct (gsm_points t text); cbn; [|done..].
    by rewrite zlen_app, zlen_from_wchar, Z.add_assoc.
Qed.

Lemma gsm_write_ok text : septets text ->
  forall full i rest fuel out cs, at_pos full i (text ++ rest) ->
  gsm_points t text = Ret cs -> (length cs < fuel)%nat ->
  gsm_write fuel t full (zlen out + zlen (utf8 cs)) i out
  = Ret (i + zlen text, out ++ utf8 cs).
Proof.
  revert text. refine (septets_ind _ _ _ _ _).
  - intros full i rest [|fuel] out cs _ [= <-] Hf; [lia|].
    cbn. by rewrite !Z.add_0_r, Z.ltb_irrefl, app_nil_r.
  - done.
  - intros k c text Hk He Hc IH full i rest [|fuel] out cs H Hp Hf; [lia|].
    cbn in Hp. rewrite He in Hp. cbn in Hp.
    destruct (gsm_points t text) as [cs'| |] eqn:Hp'; [|done..].
    injection Hp as <-. cbn in Hf.
    apply at_pos_cons in H as [Hr1 H]. apply at_pos_cons in H as [Hr2 H].
    specialize (IH _ _ _ fuel (out ++ l_utf8_from_wchar c) cs' H eq_refl ltac:(lia)).
    rewrite zlen_app, zlen_from_wchar, <- Z.add_assoc in IH by done.
    pose proof (UTF8_LENGTH_pos c). rewrite zlen_utf8_cons by done.
    cbn [gsm_write]. rewrite (proj2 (Z.ltb_lt _ _)), Hr1 by zl. cbn.
    rewrite Hr2. cbn. rewrite He. cbn.
    rewrite put_ok by (rewrite zlen_from_wchar by done; zl). cbn.
    replace (i + 2) with (i + 1 + 1) by lia. rewrite IH, <- app_assoc.
    do 2 f_equal; zl.
  - intros b c text Hne Hb He Hc IH full i rest [|fuel] out cs H Hp Hf; [lia|].
    apply Z.eqb_neq in Hne. cbn in Hp. rewrite Hne, He in Hp. cbn in Hp.
    destruct (gsm_points t text) as [cs'| |] eqn:Hp'; [|done..].
    injection Hp as <-. cbn in Hf. apply at_pos_cons in H as [Hr1 H].
    specialize (IH _ _ _ fuel (out ++ l_utf8_from_wchar c) cs' H eq_refl ltac:(lia)).
    rewrite zlen_app, zlen_from_wchar, <- Z.add_assoc in IH by done.
    pose proof (UTF8_LENGTH_pos c). rewrite zlen_utf8_cons by done.
    cbn [gsm_write]. rewrite (proj2 (Z.ltb_lt _ _)), Hr1 by zl. cbn.
    rewrite Hne, He. cbn.
    rewrite put_ok by (rewrite zlen_from_wchar by done; zl). cbn.
    rewrite IH, <- app_assoc. do 2 f_equal; zl.
Qed.
End DecodeProofs.

(** * A UTF-8 codec, to instantiate the interface *)

Definition enc_utf8 (c : Z) : list Z :=
  if c <? 0x80 then [c]
  else if c <? 0x800 then [0xC0 + c / 64; 0x80 + c mod 64]
  else [0xE0 + c / 4096; 0x80 + c / 64 mod 64; 0x80 + c mod 64].

Definition dec_utf8 (l : list Z) (max : Z) : option (Z * Z) :=
  match l with
  | a :: l =>
    if a <? 0x80 then if 1 <=? max then Some (a, 1) else None
    else match l with
    | b :: l =>
      if a <? 0xE0 then
        if 2 <=? max then Some ((a - 0xC0) * 64 + (b - 0x80), 2) else None
      else match l with
      | d :: _ =>
        if 3 <=? max then
          Some ((a - 0xE0) * 4096 + (b - 0x80) * 64 + (d - 0x80), 3) else None
      | [] => None
      end
    | [] => None
    end
  | [] => None
  end.

(** The characters of a string, and their two octets. *)
Fixpoint dec_points (n : nat) (l : list Z) : option (list Z) :=
  match n, l with
  | _, [] => Some []
  | S n, _ => '(c, k) ← dec_utf8 l (zlen l); cs ← dec_points n (drop (Z.to_nat k) l); Some (c :: cs)
  | O, _ => None
  end.

Definition ucs2_octets (cs : list Z) : list Z := flat_map (fun c => [c / 256; c mod 256]) cs.

#[export] Instance utf8_codec : Utf8 := {
  l_utf8_from_wchar := enc_utf8;
  l_utf8_get_codepoint := dec_utf8;
  l_utf8_from_ucs2be := fun l =>
    (fix go (n : nat) l := match n, l with
       | S n, hi :: lo :: l => s ← go n l; Some (enc_utf8 (hi * 256 + lo) ++ s)
       | _, [] => Some []
       | _, _ => None end) (length l) l;
  l_utf8_to_ucs2be := fun l => cs ← dec_points (length l) l; Some (ucs2_octets cs ++ [0; 0])
}.

#[export] Instance utf8_codec_laws : Utf8Laws utf8_codec.
Proof.
  split; cbn; unfold enc_utf8, UTF8_LENGTH, bmp_scalar.
  - intros c Hc. repeat case_cmp; done.
  - intros c Hc. repeat case_cmp; bool_to_prop;
      repeat constructor; Z.div_mod_to_equations; lia.
  - intros c rest max Hc Hm. unfold dec_utf8.
    repeat case_cmp; bool_to_prop; cbn [app];
      repeat case_cmp; bool_to_prop; try (exfalso; Z.div_mod_to_equations; lia);
      do 2 f_equal; Z.div_mod_to_equations; lia.
Qed.

(** "Hi[e with grave]{Omega}", a euro sign and a brace: 7 code points. *)
Definition sample_text : list Z := [0x48; 0x69; 0xE8; 0x3A9; 0x20AC; 0x7B; 0xA0].

Section Theorems.
Context `{L : Utf8Laws}.

Lemma gsm_codes_septets t cs g :
  dialect_tables t -> gsm_codes t cs = Some g -> septets g.
Proof.
  intros Ht. revert g. induction cs as [|c cs IH]; intros g Hg.
  { cbn in Hg. simplify_eq. constructor. }
  apply gsm_codes_cons in Hg as (g1 & gs & Hg1 & Hgs & ->).
  apply Forall_app. split; [|by apply IH]. unfold gsm_code in Hg1.
  destruct (_ =? GUND) eqn:HG; [done|]. bool_to_prop.
  destruct (unicode_lookup_decodes t c Ht HG) as [(Hh & Hu & Hr & _)|(Hh & Hr & _)];
    rewrite Hh in Hg1; injection Hg1 as <-; repeat constructor; lia.
Qed.

(** The decoder on septets, at the level of the whole function. *)
Lemma convert_gsm_to_utf8_points t locking single text rest :
  conversion_table_init locking single = Some t -> septets text ->
  convert_gsm_to_utf8_with_lang (text ++ rest) (zlen text) 0 locking single
  = Ret match gsm_points t text with
        | Ret cs => {| conv_res := Some (utf8 cs);
                       items_read := Some (zlen text);
                       items_written := Some (zlen (utf8 cs)) |}
        | _ => {| conv_res := None; items_read := Some (zlen text);
                  items_written := None |}
        end.
Proof.
  intros Hi Hs. assert (dialect_tables t) as Ht by (by do 2 eexists).
  unfold convert_gsm_to_utf8_with_lang, text_length. rewrite Hi.
  rewrite (proj2 (Z.ltb_ge _ _)) by zl. cbn [andb]. simp_res.
  pose proof (gsm_measure_ok t Ht text Hs (text ++ rest) 0 rest
    (S (Z.to_nat (zlen text))) 0 (at_pos_0 _)) as Hm.
  rewrite Z.add_0_l in Hm. rewrite Hm by (rewrite to_nat_zlen; lia). clear Hm.
  destruct (gsm_points_septets t Ht text Hs) as [Hp|(cs & Hp & Hcs)];
    rewrite Hp; simp_res; [done|].
  pose proof (gsm_write_ok t Ht text Hs (text ++ rest) 0 rest
    (S (Z.to_nat (zlen (utf8 cs)))) [] cs (at_pos_0 _) Hp) as Hw.
  rewrite zlen_nil, !Z.add_0_l in Hw. rewrite Z.add_0_l. rewrite Hw; simp_res.
  - rewrite put_ok by zl. done.
  - rewrite to_nat_zlen. pose proof (length_text_points cs Hcs). lia.
Qed.

(** C17: text survives the GSM alphabet.  For every pair of national
    language tables the code can select, if convert_utf8_to_gsm_with_lang
    encodes a (NUL-terminated) text, then convert_gsm_to_utf8_with_lang with
    the same tables gives the text back, U+00A0 having become a space. *)
Theorem charset_roundtrip locking single cs rest r g :
  text_points cs ->
  convert_utf8_to_gsm_with_lang (utf8 cs ++ 0 :: rest) (-1) 0 locking single
    = Ret r ->
  conv_res r = Some g ->
  convert_gsm_to_utf8_with_lang g (zlen g) 0 locking single
  = Ret {| conv_res := Some (utf8 (map plain_space cs));
           items_read := Some (zlen g);
           items_written := Some (zlen (utf8 (map plain_space cs))) |}.
Proof.
  intros Hcs Hr Hg.
  destruct (conversion_table_init locking single) as [t|] eqn:Hi.
  2:{ unfold convert_utf8_to_gsm_with_lang in Hr. rewrite Hi in Hr.
      injection Hr as <-. done. }
  assert (dialect_tables t) as Ht by (by do 2 eexists).
  rewrite (convert_utf8_to_gsm_codes t) in Hr; [|done..|left; eauto with lia].
  injection Hr as <-. cbn in Hg.
  rewrite <- (app_nil_r g) at 1.
  rewrite (convert_gsm_to_utf8_points t); [|done|by eapply gsm_codes_septets].
  by rewrite (gsm_points_codes t Ht cs g Hg).
Qed.

(** The decoder on any 7 bit string.  For every pair of language tables
    and every string of septets, convert_gsm_to_utf8_with_lang terminates
    without leaving its tables and buffers; it returns NULL exactly when the
    string ends in the middle of an escape, and otherwise the UTF-8 of the
    characters of the string, in a buffer of exactly their length. *)
Theorem convert_gsm_to_utf8_spec locking single t text rest :
  conversion_table_init locking single = Some t -> septets text ->
  exists r,
    convert_gsm_to_utf8_with_lang (text ++ rest) (zlen text) 0 locking single
      = Ret r /\
    items_read r = Some (zlen text) /\
    match gsm_points t text with
    | Ret cs => text_points cs /\ conv_res r = Some (utf8 cs) /\
                items_written r = Some (zlen (utf8 cs))
    | Err => conv_res r = None /\ items_written r = None
    | Ub => False
    end.
Proof.
  intros Hi Hs. assert (dialect_tables t) as Ht by (by do 2 eexists).
  rewrite (convert_gsm_to_utf8_points t) by done.
  eexists. split; [reflexivity|].
  destruct (gsm_points_septets t Ht text Hs) as [Hp|(cs & Hp & Hcs)];
    rewrite Hp; done.
Qed.

Lemma escaped_high t k :
  dialect_tables t -> 128 <= k -> gsm_escaped t k = Ub.
Proof.
  intros (l & s & Hi) Hk. apply init_dialect in Hi as (Hl & Hs & _).
  unfold gsm_escaped, gsm_single_shift_lookup.
  destruct (codepoint_lookup_cases (cp k 0) (single_g t)) as [(e & He & Hf & _)|Hv].
  { unfold single_ok in Hs. bool_to_prop. rewrite forallb_forall in H0.
    specialize (H0 e (proj1 (list_elem_of_In _ _) He)). bool_to_prop. cbn in Hf. lia. }
  rewrite Hv, Z.eqb_refl. unfold gsm_locking_shift_lookup, rd.
  unfold locking_ok in Hl. bool_to_prop.
  rewrite (proj2 (Z.ltb_ge _ _)) by lia.
  destruct (locking_g t !! Z.to_nat k) as [x|] eqn:E; [|done].
  apply lookup_lt_Some in E. unfold zlen in *. lia.
Qed.

(** The character after an escape is not range-checked.  Whatever the
    language tables, an escape followed by an octet above 0x7F makes
    convert_gsm_to_utf8_with_lang read past the end of the 128 entries of
    the locking table, where the same octet on its own is rejected. *)
Theorem escaped_octet_out_of_table locking single t k rest :
  conversion_table_init locking single = Some t -> 128 <= k < 256 ->
  convert_gsm_to_utf8_with_lang (0x1b :: k :: rest) 2 0 locking single = Ub /\
  convert_gsm_to_utf8_with_lang (k :: rest) 1 0 locking single
    = Ret {| conv_res := None; items_read := Some 0; items_written := None |}.
Proof.
  intros Hi Hk. assert (dialect_tables t) as Ht by (by do 2 eexists).
  unfold convert_gsm_to_utf8_with_lang, text_length. rewrite Hi.
  destruct (at_pos_cons _ _ _ _ (at_pos_0 (0x1b :: k :: rest))) as [Hr0 H1].
  destruct (at_pos_cons _ _ _ _ H1) as [Hr1 _].
  destruct (at_pos_cons _ _ _ _ (at_pos_0 (k :: rest))) as [Hr2 _].
  split; cbn [Z.to_nat Z.ltb Z.compare andb mbind res_bind gsm_measure];
    change (S (Pos.to_nat 2)) with 3%nat; change (S (Pos.to_nat 1)) with 2%nat;
    cbn [gsm_measure Z.ltb Z.compare].
  - rewrite Hr0. cbn -[gsm_escaped rd]. change 1 with (0 + 1) at 1. rewrite Hr1.
    cbn -[gsm_escaped]. by rewrite (escaped_high t k Ht) by lia.
  - rewrite Hr2. cbn. by rewrite (proj2 (Z.ltb_lt 127 k)) by lia.
Qed.
End Theorems.

(** ** More theorems *)

Definition encode_with (cs : list Z) (ls : Z * Z) : option (Z * Z * list Z) :=
  t ← conversion_table_init ls.1 ls.2; g ← gsm_codes t cs; Some (ls, g).

(** The first pair of tables that can encode the text. *)
Fixpoint first_fit (cs : list Z) (pairs : list (Z * Z))
    : option (Z * Z * list Z) :=
  match pairs with
  | [] => None
  | p :: pairs => match encode_with cs p with
                  | Some r => Some r | None => first_fit cs pairs end
  end.

Section Theorems2.
Context `{L : Utf8Laws}.

(** One attempt of convert_utf8_to_gsm_best_lang. *)
Lemma attempt_spec cs rest l s :
  text_points cs ->
  exists r, convert_utf8_to_gsm_with_lang (utf8 cs ++ 0 :: rest) (-1) 0 l s = Ret r /\
    match encode_with cs (l, s) with
    | Some (ls, g) => ls = (l, s) /\ conv_res r = Some g
    | None => conv_res r = None
    end.
Proof.
  intros Hcs. unfold encode_with. cbn.
  destruct (conversion_table_init l s) as [t|] eqn:Hi; cbn.
  - rewrite (convert_utf8_to_gsm_codes t); [|done..|left; eauto with lia].
    eexists. split; [reflexivity|]. by destruct (gsm_codes t cs).
  - unfold convert_utf8_to_gsm_with_lang. rewrite Hi. by eexists.
Qed.

Lemma best_lang_ok hint cs rest :
  text_points cs ->
  exists r,
    convert_utf8_to_gsm_best_lang (utf8 cs ++ 0 :: rest) (-1) 0 hint
      = Ret (r, fst <$> first_fit cs [(0, 0); (0, hint); (hint, hint)]) /\
    conv_res r = snd <$> first_fit cs [(0, 0); (0, hint); (hint, hint)].
Proof.
  intros Hcs. unfold convert_utf8_to_gsm_best_lang. cbn [first_fit].
  destruct (attempt_spec cs rest 0 0 Hcs) as (r1 & -> & H1). simp_res.
  destruct (encode_with cs (0, 0)) as [[ls g]|] eqn:E1.
  { destruct H1 as [-> H1]. rewrite H1. eexists. split; [reflexivity|done]. }
  rewrite H1. case_cmp; bool_to_prop.
  { subst. rewrite E1. eexists. split; [reflexivity|done]. }
  destruct (attempt_spec cs rest 0 hint Hcs) as (r2 & -> & H2). simp_res.
  destruct (encode_with cs (0, hint)) as [[ls g]|] eqn:E2.
  { destruct H2 as [-> H2]. cbn. rewrite H2. eexists. split; [reflexivity|done]. }
  cbn [conv_after conv_res]. rewrite H2. case_cmp; bool_to_prop.
  { subst. replace (encode_with cs (2, 2)) with (@None (Z * Z * list Z)).
    - eexists. split; [reflexivity|done].
    - unfold encode_with in *. cbn [fst snd] in *.
      change (conversion_table_init 2 2) with (conversion_table_init 0 2).
      destruct (conversion_table_init 0 2) as [t|]; [|done].
      cbn in *. by destruct (gsm_codes t cs). }
  destruct (attempt_spec cs rest hint hint Hcs) as (r3 & -> & H3). simp_res.
  destruct (encode_with cs (hint, hint)) as [[ls g]|] eqn:E3.
  - destruct H3 as [-> H3]. cbn. rewrite H3. eexists. split; [reflexivity|done].
  - cbn. rewrite H3. eexists. split; [reflexivity|done].
Qed.

(** Convert_utf8_to_gsm_best_lang uses the minimum set of tables: the
    result and the languages it reports are those of the first of (default,
    default), (default, hint), (hint, hint) whose tables have every
    character, and NULL when none has; its early returns for the default and
    the Spanish hint miss nothing. *)
Theorem best_lang_first_fit hint cs rest :
  text_points cs ->
  exists r,
    convert_utf8_to_gsm_best_lang (utf8 cs ++ 0 :: rest) (-1) 0 hint
      = Ret (r, fst <$> first_fit cs [(0, 0); (0, hint); (hint, hint)]) /\
    conv_res r = snd <$> first_fit cs [(0, 0); (0, hint); (hint, hint)].
Proof. exact (best_lang_ok hint cs rest). Qed.
End Theorems2.

(** The binary search of the lookups is complete: every table that can be
    selected is ordered by [from], so a lookup returns GUND only for a key the
    table does not have, and otherwise the code of an entry with that key
    (some tables have two). *)
Theorem lookup_finds_every_entry locking single t k :
  conversion_table_init locking single = Some t ->
  Forall (fun table =>
    (codepoint_lookup (cp k 0) table = GUND /\
       ~ (exists e, e ∈ table /\ from e = k)) \/
    (exists e, e ∈ table /\ from e = k /\ codepoint_lookup (cp k 0) table = to e))
    [locking_u t; single_u t; single_g t].
Proof.
  intros Hi. destruct (init_dialect _ _ _ Hi) as (_ & _ & H1 & H2 & H3).
  assert (forall table, sorted_keys table = true ->
    (codepoint_lookup (cp k 0) table = GUND /\
       ~ (exists e, e ∈ table /\ from e = k)) \/
    (exists e, e ∈ table /\ from e = k /\ codepoint_lookup (cp k 0) table = to e))
    as Hall.
  2:{ apply Forall_cons; split; [by apply Hall|].
      apply Forall_cons; split; [by apply Hall|].
      apply Forall_cons; split; [by apply Hall|constructor]. }
  intros table Hs. destruct (decide (Exists (fun e => from e = k) table)) as [Hex|Hex].
  - right. apply Exists_exists in Hex as (e & He & Hk).
    destruct (codepoint_lookup_found (cp k 0) table e Hs He Hk) as (e' & ? & ? & ?).
    eauto.
  - left. destruct (codepoint_lookup_cases (cp k 0) table) as [(e & ? & ? & ?)|?].
    + exfalso. apply Hex, Exists_exists. eauto.
    + split; [done|]. rewrite <- Exists_exists. done.
Qed.

(** In the single-shift table of every dialect but one, the septet 0x3C
    after an escape is the opening bracket; the Kannada table gives the closing
    bracket for 0x3C and 0x3E, so that with it "[" cannot be encoded and an
    encoded "[" from elsewhere is shown as "]". *)
Theorem kannada_bracket :
  forall d, 0 <= d < 14 -> exists t, conversion_table_init 0 d = Some t /\
    gsm_single_shift_lookup t 0x3C = (if d =? 7 then 0x5D else 0x5B) /\
    gsm_single_shift_lookup t 0x3E = 0x5D /\
    gsm_code t 0x5B = (if d =? 7 then None else Some [0x1B; 0x3C]).
Proof.
  intros d Hd.
  assert (forallb (fun d => match conversion_table_init 0 d with
    | Some t =>
        (gsm_single_shift_lookup t 0x3C =? (if d =? 7 then 0x5D else 0x5B)) &&
        (gsm_single_shift_lookup t 0x3E =? 0x5D) &&
        bool_decide (gsm_code t 0x5B = if d =? 7 then None else Some [0x1B; 0x3C])
    | None => false end) (seqZ 0 14) = true) as H by (vm_compute; reflexivity).
  rewrite forallb_forall in H.
  specialize (H d ltac:(apply list_elem_of_In, elem_of_seqZ; lia)).
  destruct (conversion_table_init 0 d) as [t|]; [|done]. bool_to_prop.
  exists t. apply bool_decide_eq_true in H0. auto.
Qed.

(** Utf8_to_sim_string takes max_length -1 for "no limit" when it falls
    back to UCS2, but on the GSM path -1 is an ordinary limit: every non-empty
    text that fits the GSM alphabet makes it index its result at -2. *)
Theorem utf8_to_sim_string_no_limit `{L : Utf8Laws} c cs rest g :
  text_points (c :: cs) ->
  (exists t, conversion_table_init 0 0 = Some t /\ gsm_codes t (c :: cs) = Some g) ->
  utf8_to_sim_string (utf8 (c :: cs) ++ 0 :: rest) (-1) = Ub /\
  utf8_to_sim_string (utf8 (c :: cs) ++ 0 :: rest) (zlen g) = Ret (g, zlen g).
Proof.
  intros Hcs (t & Hi & Hg). unfold utf8_to_sim_string, convert_utf8_to_gsm.
  rewrite (convert_utf8_to_gsm_codes t); [|done..|left; eauto with lia].
  rewrite Hg. simp_res. cbn [conv_res items_written fmap option_fmap option_map].
  rewrite Z.ltb_irrefl, (proj2 (Z.ltb_lt (-1) _)) by zl. done.
Qed.

(** ** Witnesses *)

Definition dialect_0_7 : conversion_table :=
  {| locking_u := def_unicode; single_u := kan_ext_unicode;
     locking_g := def_gsm; single_g := kan_ext_gsm |}.

Lemma sample_text_points : text_points sample_text.
Proof. repeat constructor; unfold bmp_scalar; lia. Qed.

Lemma charset_roundtrip_witness :
  exists g, zlen g = 9 /\
  convert_gsm_to_utf8_with_lang g (zlen g) 0 0 1
  = Ret {| conv_res := Some (utf8 (map plain_space sample_text));
           items_read := Some (zlen g);
           items_written := Some (zlen (utf8 (map plain_space sample_text))) |}.
Proof.
  eexists. split.
  2:{ eapply (charset_roundtrip 0 1 sample_text []);
        [exact sample_text_points|vm_compute; reflexivity|reflexivity]. }
  reflexivity.
Defined.

Lemma convert_gsm_to_utf8_spec_witness :
  exists r, convert_gsm_to_utf8_with_lang ([0x48; 0x1b; 0x65] ++ []) 3 0 0 7 = Ret r.
Proof.
  destruct (convert_gsm_to_utf8_spec 0 7 dialect_0_7 [0x48; 0x1b; 0x65] [])
    as (r & H & _); [reflexivity|repeat constructor; lia|].
  exists r. exact H.
Defined.

Lemma escaped_octet_out_of_table_witness :
  convert_gsm_to_utf8_with_lang [0x1b; 0xff] 2 0 0 7 = Ub.
Proof.
  apply (escaped_octet_out_of_table 0 7 dialect_0_7 0xff []); [reflexivity|lia].
Defined.

Lemma best_lang_first_fit_witness :
  exists r, convert_utf8_to_gsm_best_lang (utf8 [0x11E] ++ [0]) (-1) 0 1
            = Ret (r, Some (0, 1)).
Proof.
  destruct (best_lang_first_fit 1 [0x11E] []) as (r & H & _).
  - repeat constructor; unfold bmp_scalar; lia.
  - exists r. etrans; [exact H|vm_compute; reflexivity].
Defined.

Lemma lookup_finds_every_entry_witness :
  exists e, e ∈ single_u dialect_0_7 /\ from e = 0x20AC /\
            codepoint_lookup (cp 0x20AC 0) (single_u dialect_0_7) = to e.
Proof.
  pose proof (lookup_finds_every_entry 0 7 dialect_0_7 0x20AC eq_refl) as H.
  inversion_clear H as [|?? _ H']. inversion_clear H' as [|?? H'' _].
  destruct H'' as [[H _]|H]; [vm_compute in H; discriminate H|exact H].
Defined.

Lemma kannada_bracket_witness :
  exists t, conversion_table_init 0 7 = Some t /\ gsm_code t 0x5B = None.
Proof.
  destruct (kannada_bracket 7) as (t & Hi & _ & _ & H); [lia|].
  exists t. split; [exact Hi|exact H].
Defined.

Lemma utf8_to_sim_string_no_limit_witness :
  utf8_to_sim_string (utf8 [0x48; 0x69] ++ [0]) (-1) = Ub.
Proof.
  destruct (utf8_to_sim_string_no_limit 0x48 [0x69] [] [0x48; 0x69]) as [H _].
  - repeat constructor; unfold bmp_scalar; lia.
  - exists (Build_conversion_table def_unicode def_ext_unicode def_gsm def_ext_gsm).
    split; [reflexivity|vm_compute; reflexivity].
  - exact H.
Defined.
