(* ===== verification/SevenBit.v ===== *)
(** Packing of 7 bit characters into octets and back, and hexadecimal text, of
    src/src/util.c.  A buffer that a function fills from its start is the list
    of the octets stored so far; [cap] is the size of the caller's buffer, and
    storing past it is [Ub]. *)
From S2P Require Import Prelude.

(** * unpack_7bit_own_buf *)

(** The loop; the state is [bits], [rest] and what lies before [out]. *)
Fixpoint unpack_loop (fuel : nat) (inp : list Z) (len max_to_unpack cap : Z)
    (i bits rest : Z) (out : list Z) : res (list Z) :=
  match fuel with
  | O => Ub
  | S fuel =>
    if (i <? len) && (zlen out <? max_to_unpack) then
      b ← rd inp i;
      (* what this octet has of the character, and what the last one left *)
      let c := Z.lor (Z.shiftl (Z.land b (Z.shiftl 1 bits - 1)) (7 - bits)) rest in
      out' ← put cap out [u8 c];
      let rest := Z.land (Z.shiftr b bits) (Z.shiftl 1 (8 - bits) - 1) in
      let out := if negb (i =? 0) || (bits =? 7) then out' else out in
      if zlen out =? max_to_unpack then Ret out
      else if bits =? 1 then
        out ← put cap out [rest];
        unpack_loop fuel inp len max_to_unpack cap (i + 1) 7 0 out
      else
        unpack_loop fuel inp len max_to_unpack cap (i + 1) (bits - 1) rest out
    else Ret out
  end.

(** The characters stored; [Err] for NULL. *)
Definition unpack_7bit_own_buf (inp : list Z) (len byte_offset : Z) (ussd : bool)
    (max_to_unpack terminator cap : Z) : res (list Z) :=
  let bits := 7 - Z.rem byte_offset 7 in
  if len <=? 0 then Err
  else
    let max_to_unpack := if ussd then Z.quot (len * 8) 7 else max_to_unpack in
    out ← unpack_loop (S (Z.to_nat len)) inp len max_to_unpack cap 0 bits 0 [];
    out ← (if ussd && (Z.rem (zlen out) 8 =? 0) then
             last ← rd out (zlen out - 1);
             Ret (if last =? 0x0d then take (length out - 1) out else out)
           else Ret out);
    _ ← (if terminator =? 0 then Ret out else put cap out [terminator]);
    Ret out.

Definition unpack_7bit (inp : list Z) (len byte_offset : Z) (ussd : bool)
    (max_to_unpack terminator : Z) : res (list Z) :=
  unpack_7bit_own_buf inp len byte_offset ussd max_to_unpack terminator
    (Z.quot (len * 8) 7 + if terminator =? 0 then 0 else 1).

(** * pack_7bit_own_buf *)

(** [*out], once something was stored there. *)
Definition cell (cur : option Z) : res Z :=
  match cur with Some c => Ret c | None => Ub end.

(** One character: [cur] is the octet at [out], [None] before it is assigned. *)
Definition pack_step (cap b bits : Z) (out : list Z) (cur : option Z)
    : res (Z * list Z * option Z) :=
  '(out, cur) ←
    (if negb (bits =? 7) then
       c ← cell cur;
       out ← put cap out
         [u8 (Z.lor c (Z.shiftl (Z.land b (Z.shiftl 1 (7 - bits) - 1)) (bits + 1)))];
       Ret (out, None)
     else Ret (out, cur));
  cur ← (if negb (bits =? 0) then
           _ ← put cap out [Z.shiftr b (7 - bits)];
           Ret (Some (Z.shiftr b (7 - bits)))
         else Ret cur);
  Ret (if bits =? 0 then 7 else bits - 1, out, cur).

Fixpoint pack_loop (fuel : nat) (inp : list Z) (len cap : Z)
    (i bits : Z) (out : list Z) (cur : option Z) : res (Z * list Z * option Z) :=
  match fuel with
  | O => Ub
  | S fuel =>
    if i <? len then
      b ← rd inp i;
      '(bits, out, cur) ← pack_step cap b bits out cur;
      pack_loop fuel inp len cap (i + 1) bits out cur
    else Ret (bits, out, cur)
  end.

(** [len], or the position of the terminator when it is negative. *)
Definition pack_length (inp : list Z) (len terminator : Z) : res Z :=
  if len <? 0 then scan_to (S (length inp)) inp terminator 0 else Ret len.

(** What follows the loop: padding, and the octet begun. *)
Definition pack_finish (inp : list Z) (len : Z) (ussd : bool)
    (cap total_bits bits : Z) (out : list Z) (cur : option Z) : res (list Z) :=
  cur ← (if ussd && (Z.rem total_bits 8 =? 1) then
           c ← cell cur; Ret (Some (u8 (Z.lor c (Z.shiftl 0x0d 1))))
         else Ret cur);
  out ← (if negb (bits =? 7) then c ← cell cur; put cap out [c] else Ret out);
  if ussd && (Z.rem total_bits 8 =? 0) then
    last ← rd inp (len - 1);
    if last =? 0x0d then put cap out [0x0d] else Ret out
  else Ret out.

Definition pack_7bit_own_buf (inp : list Z) (len byte_offset : Z) (ussd : bool)
    (terminator cap : Z) : res (list Z) :=
  let bits := 7 - Z.rem byte_offset 7 in
  if len =? 0 then Err
  else
    len ← pack_length inp len terminator;
    let total_bits := len * 7 + if negb (bits =? 7) then bits else 0 in
    cur ← (if negb (bits =? 7) then _ ← put cap [] [0]; Ret (Some 0) else Ret None);
    let bits := if negb (bits =? 7) then bits - 1 else bits in
    '(bits, out, cur) ← pack_loop (S (Z.to_nat len)) inp len cap 0 bits [] cur;
    pack_finish inp len ussd cap total_bits bits out cur.

(** [wants_written]: the caller gave a non-NULL [items_written]. *)
Definition pack_7bit (inp : list Z) (len byte_offset : Z) (ussd : bool)
    (wants_written : bool) (terminator : Z) : res (list Z) :=
  let bits := 7 - Z.rem byte_offset 7 in
  if (len =? 0) || negb wants_written then Err
  else
    len ← pack_length inp len terminator;
    let total_bits := len * 7 + if negb (bits =? 7) then bits else 0 in
    cap ← (if ussd && (Z.rem total_bits 8 =? 0) then
             last ← rd inp (len - 1);
             Ret (if last =? 0x0d then Z.quot (total_bits + 14) 8
                  else Z.quot (total_bits + 7) 8)
           else Ret (Z.quot (total_bits + 7) 8));
    pack_7bit_own_buf inp len byte_offset ussd terminator cap.

(** * Hexadecimal text *)

(** [toupper] in the C locale. *)
Definition toupper (c : Z) : Z := if (97 <=? c) && (c <=? 122) then c - 32 else c.

(** The value of the digit [toupper(in[i])], if it is one. *)
Definition hex_digit (c : Z) : res Z :=
  let c := toupper c in
  if (48 <=? c) && (c <=? 57) then Ret (c - 48)
  else if (65 <=? c) && (c <=? 70) then Ret (10 + c - 65)
  else Err.

Fixpoint decode_hex_loop (fuel : nat) (inp : list Z) (len cap i : Z) (buf : list Z)
    : res (list Z) :=
  match fuel with
  | O => Ub
  | S fuel =>
    if i <? len then
      c ← rd inp i;
      b ← hex_digit c;
      c ← rd inp (i + 1);
      d ← hex_digit c;
      buf ← put cap buf [u8 (b * 16 + d)];
      decode_hex_loop fuel inp len cap (i + 2) buf
    else Ret buf
  end.

Definition decode_hex_own_buf (inp : list Z) (len terminator cap : Z)
    : res (list Z) :=
  len ← (if len <? 0 then scan_to (S (length inp)) inp 0 0 else Ret len);
  let len := Z.ldiff len 1 in
  buf ← decode_hex_loop (S (Z.to_nat len)) inp len cap 0 [];
  _ ← (if terminator =? 0 then Ret buf else put cap buf [terminator]);
  Ret buf.

(** The digit character of a nibble. *)
Definition hex_char (c : Z) : Z := if c <=? 9 then 48 + c else 65 + c - 10.

Fixpoint encode_hex_loop (fuel : nat) (inp : list Z) (len cap i : Z) (buf : list Z)
    : res (list Z) :=
  match fuel with
  | O => Ub
  | S fuel =>
    if i <? len then
      b ← rd inp i;
      buf ← put cap buf [hex_char (Z.land (Z.shiftr b 4) 0xf)];
      buf ← put cap buf [hex_char (Z.land b 0xf)];
      encode_hex_loop fuel inp len cap (i + 1) buf
    else Ret buf
  end.

(** The characters and their terminating NUL. *)
Definition encode_hex_own_buf (inp : list Z) (len terminator cap : Z)
    : res (list Z) :=
  len ← pack_length inp len terminator;
  buf ← encode_hex_loop (S (Z.to_nat len)) inp len cap 0 [];
  put cap buf [0].

(** * The packing as a number

    The octets of a packed string are the digits to base 256 of a number whose
    digits to base 128, above the fill bits, are the characters. *)

Definition fill_bits (byte_offset : Z) : Z :=
  if byte_offset mod 7 =? 0 then 0 else 7 - byte_offset mod 7.

(** The bits of [*out] that hold something when [bits] is the state. *)
Definition used (bits : Z) : Z := if bits =? 7 then 0 else bits + 1.

Record packed (bits : Z) (out : list Z) (cur : option Z) (n v : Z) : Prop := {
  packed_bits : 0 <= bits <= 7;
  packed_bytes : bytes out;
  packed_total : n = 8 * zlen out + used bits;
  packed_cur : exists c, 0 <= c < 2 ^ used bits /\
    (bits <> 7 -> cur = Some c) /\
    v = le_val 256 out + 256 ^ zlen out * c;
}.

Lemma pow2_split a b : 0 <= a -> 0 <= b -> 2 ^ (a + b) = 2 ^ a * 2 ^ b.
Proof. intros. apply Z.pow_add_r; lia. Qed.

Lemma pow256 n : 0 <= n -> 256 ^ n = 2 ^ (8 * n).
Proof. intros. rewrite Z.pow_mul_r by lia. done. Qed.

(** What a character adds to the octet at [out], and what it leaves over. *)
Lemma pack_octet bits c b :
  0 <= bits < 7 -> 0 <= c < 2 ^ (bits + 1) -> 0 <= b < 128 ->
  let x := Z.lor c (Z.shiftl (Z.land b (Z.shiftl 1 (7 - bits) - 1)) (bits + 1)) in
  is_byte x /\ 0 <= Z.shiftr b (7 - bits) < 2 ^ bits /\
  x + 256 * Z.shiftr b (7 - bits) = c + b * 2 ^ (bits + 1).
Proof.
  intros Hbits Hc Hb x. unfold x.
  rewrite land_ones_mod, lor_shiftl_add, Z.shiftr_div_pow2 by lia.
  pose proof (Z.mod_pos_bound b (2 ^ (7 - bits)) ltac:(lia)) as Hmod.
  pose proof (Z.div_mod b (2 ^ (7 - bits)) ltac:(lia)) as Hdiv.
  assert (H256 : 2 ^ (7 - bits) * 2 ^ (bits + 1) = 256).
  { rewrite <- pow2_split by lia. by replace (7 - bits + (bits + 1)) with 8 by lia. }
  unfold is_byte. repeat split; [nia..| |nia].
  apply Z.div_lt_upper_bound; [lia|]. rewrite <- pow2_split by lia.
  replace (7 - bits + bits) with 7 by lia. lia.
Qed.

Lemma used_7 bits : bits <> 7 -> used bits = bits + 1.
Proof. intros. unfold used. by destruct (Z.eqb_spec bits 7). Qed.

Lemma pack_step_ok cap b bits out cur n v :
  packed bits out cur n v -> 0 <= b < 128 -> n + 7 <= 8 * cap ->
  exists bits' out' cur',
    pack_step cap b bits out cur = Ret (bits', out', cur') /\
    packed bits' out' cur' (n + 7) (v + b * 2 ^ n).
Proof.
  intros [Hbits Hout Hn (c & Hc & Hcur & Hv)] Hb Hcap. pose proof (zlen_nonneg out).
  unfold pack_step. destruct (Z.eqb_spec bits 7) as [->|E7]; cbn [negb].
  - change (used 7) with 0 in *. simp_res. rewrite put_ok by zl.
    exists 6, out, (Some b). split; [by rewrite Z.shiftr_0_r|].
    split; [lia|done|change (used 6) with 7; lia|].
    exists b. rewrite Hv, pow256, Hn, Z.add_0_r by lia.
    change (2 ^ 0) with 1 in Hc. change (2 ^ used 6) with 128. repeat split; [lia..|]. nia.
  - rewrite Hcur by done. rewrite used_7 in * by done.
    destruct (pack_octet bits c b) as (Hx & Hr & Heq); [lia..|].
    cbn [cell]. simp_res. set (x := Z.lor c _) in *. set (r := Z.shiftr b (7 - bits)) in *.
    unfold u8. rewrite (Z.mod_small x) by (unfold is_byte in Hx; lia).
    rewrite put_ok by zl. simp_res.
    assert (Hval : v + b * 2 ^ n =
      le_val 256 (out ++ [x]) + 256 ^ zlen (out ++ [x]) * r).
    { rewrite le_val_app, Hv, Hn, zlen_app, !Z.pow_add_r, <- pow256 by zl.
      cbn [le_val]. change (256 ^ zlen [x]) with 256.
      replace x with (c + b * 2 ^ (bits + 1) - 256 * r) by lia.
      rewrite Z.pow_add_r by lia. ring. }
    assert (Hbytes : bytes (out ++ [x])) by (by apply Forall_app; split; [|apply Forall_singleton]).
    destruct (Z.eqb_spec bits 0) as [->|E0]; cbn [negb]; simp_res.
    + exists 7, (out ++ [x]), None. split; [done|].
      split; [lia|done|change (used 7) with 0; zl|].
      exists 0. change (2 ^ used 7) with 1. change (2 ^ 0) with 1 in Hr.
      repeat split; [lia..|]. rewrite Hval. replace r with 0 by lia. done.
    + rewrite put_ok by zl. simp_res.
      exists (bits - 1), (out ++ [x]), (Some r). split; [done|].
      split; [lia|done|rewrite used_7 by lia; zl|].
      exists r. rewrite used_7 by lia. by replace (bits - 1 + 1) with bits by lia.
Qed.

Lemma pack_loop_ok inp cap s : forall fuel rest i bits out cur n v,
  at_pos inp i (s ++ rest) -> septets s -> (length s < fuel)%nat ->
  packed bits out cur n v -> n + 7 * zlen s <= 8 * cap ->
  exists bits' out' cur',
    pack_loop fuel inp (i + zlen s) cap i bits out cur = Ret (bits', out', cur') /\
    packed bits' out' cur' (n + 7 * zlen s) (v + le_val 128 s * 2 ^ n).
Proof.
  induction s as [|b s IH]; intros fuel rest i bits out cur n v Hp Hs Hf Hk Hcap.
  - destruct fuel; [lia|]. cbn [pack_loop le_val]. change (zlen []) with 0 in *.
    rewrite (proj2 (Z.ltb_ge _ _)) by lia. exists bits, out, cur.
    split; [done|]. rewrite Z.mul_0_r, Z.mul_0_l, !Z.add_0_r. done.
  - destruct fuel as [|fuel]; cbn [length] in Hf; [lia|].
    apply Forall_cons in Hs as [Hb Hs].
    destruct (at_pos_cons inp i b (s ++ rest) Hp) as [Hrd Hp'].
    cbn [pack_loop]. rewrite (proj2 (Z.ltb_lt _ _)) by zl. rewrite Hrd. simp_res.
    destruct (pack_step_ok cap b bits out cur n v) as (bits' & out' & cur' & -> & Hk');
      [done|done|zl|]. simp_res.
    pose proof Hk as [Hbits _ Hn _].
    assert (0 <= n) by (unfold used in Hn; case_match; zl).
    destruct (IH fuel rest (i + 1) bits' out' cur' (n + 7) (v + b * 2 ^ n))
      as (bits'' & out'' & cur'' & Heq & Hk''); [done|done|lia|done|zl|].
    replace (i + zlen (b :: s)) with (i + 1 + zlen s) by zl.
    exists bits'', out'', cur''. split; [done|]. cbn [le_val].
    replace (n + 7 * zlen (b :: s)) with (n + 7 + 7 * zlen s) by zl.
    replace (v + (b + 128 * le_val 128 s) * 2 ^ n)
      with (v + b * 2 ^ n + le_val 128 s * 2 ^ (n + 7)); [done|].
    rewrite Z.pow_add_r by lia. ring.
Qed.

(** [out] holds the characters [s] above [fill] zero bits, in as few octets as
    they fit. *)
Record packing (fill : Z) (s out : list Z) : Prop := {
  packing_bytes : bytes out;
  packing_len : zlen out = (fill + 7 * zlen s + 7) / 8;
  packing_val : le_val 256 out = le_val 128 s * 2 ^ fill;
}.

(** The end of [pack_7bit_own_buf] stores the octet begun. *)
Lemma packed_end cap bits out cur n v :
  packed bits out cur n v -> n <= 8 * cap ->
  exists out', (if negb (bits =? 7) then c ← cell cur; put cap out [c] else Ret out)
      = Ret out' /\
    bytes out' /\ zlen out' = (n + 7) / 8 /\ le_val 256 out' = v.
Proof.
  intros [Hbits Hout Hn (c & Hc & Hcur & Hv)] Hcap.
  destruct (Z.eqb_spec bits 7) as [->|E7]; cbn [negb].
  - change (used 7) with 0 in *. change (2 ^ 0) with 1 in Hc.
    exists out. split; [done|]. split; [done|]. split; [dzl|].
    replace c with 0 in Hv by lia. lia.
  - rewrite used_7 in * by done. rewrite Hcur by done. cbn [cell]. simp_res.
    rewrite put_ok by zl. exists (out ++ [c]). split; [done|].
    assert (2 ^ (bits + 1) <= 2 ^ 7) by (apply Z.pow_le_mono_r; lia).
    split; [apply Forall_app; split; [done|apply Forall_singleton; unfold is_byte; lia]|].
    rewrite zlen_app, le_val_app. change (zlen [c]) with 1. split; [dzl|].
    cbn [le_val]. lia.
Qed.

(** 3GPP 23.038 6.1.2.3.1: a CR fills seven spare bits, and doubles a CR that
    ends on an octet boundary. *)
Definition ussd_pad (fill : Z) (s : list Z) : list Z :=
  let total := fill + 7 * zlen s in
  if (total mod 8 =? 1) ||
     ((total mod 8 =? 0) && bool_decide (last s = Some 0x0d))
  then s ++ [0x0d] else s.

Lemma le_val_snoc base s c : le_val base (s ++ [c]) = le_val base s + base ^ zlen s * c.
Proof. rewrite le_val_app. cbn [le_val]. lia. Qed.

Lemma pow128 n : 0 <= n -> 128 ^ n = 2 ^ (7 * n).
Proof. intros. rewrite Z.pow_mul_r by lia. done. Qed.

(** One CR more, [n] bits into the number. *)
Lemma le_val_cr fill s : 0 <= fill ->
  le_val 128 (s ++ [0x0d]) * 2 ^ fill =
  le_val 128 s * 2 ^ fill + 13 * 2 ^ (fill + 7 * zlen s).
Proof.
  intros. rewrite le_val_snoc, pow128, (Z.pow_add_r 2 fill) by zl. ring.
Qed.

(** The tail of [pack_7bit_own_buf], after the loop. *)
Lemma pack_tail inp s rest fill (ussd : bool) cap bits out cur :
  0 <= fill -> inp = s ++ rest -> s <> [] ->
  packed bits out cur (fill + 7 * zlen s) (le_val 128 s * 2 ^ fill) ->
  fill + 7 * zlen (if ussd then ussd_pad fill s else s) <= 8 * cap ->
  exists out',
    pack_finish inp (zlen s) ussd cap (fill + 7 * zlen s) bits out cur = Ret out' /\
    packing fill (if ussd then ussd_pad fill s else s) out'.
Proof.
  intros Hfill -> Hs Hk Hcap. unfold pack_finish.
  rewrite !Z.rem_mod_nonneg by zl. set (total := fill + 7 * zlen s) in *.
  pose proof Hk as [Hbits Hout Hn (c & Hc & Hcur & Hv)].
  destruct (last s) as [x|] eqn:Hlast; [|by apply last_None in Hlast].
  pose proof (rd_last s rest x Hlast) as Hrd.
  destruct (ussd && (total mod 8 =? 1)) eqn:E1.
  - (* the CR fills the spare bits *)
    bool_to_prop. destruct ussd; [|done]. unfold ussd_pad in *. fold total in Hcap |- *.
    destruct (Z.eqb_spec (total mod 8) 1) as [E|]; [|done]. rewrite E.
    cbn [orb andb] in *. change (1 =? 0) with false. cbv iota.
    assert (bits = 0) as -> by (unfold used in Hn; case_match; dzl).
    change (used 0) with 1 in *. rewrite Hcur by done. cbn [cell]. simp_res.
    rewrite (lor_shiftl_add c 13 1) by lia. unfold u8.
    rewrite Z.mod_small by lia. change (negb (0 =? 7)) with true. cbv iota.
    cbn [cell]. simp_res. rewrite put_ok by zl. eexists. split; [reflexivity|].
    split.
    + apply Forall_app; split; [done|]. apply Forall_singleton. unfold is_byte; lia.
    + dzl.
    + rewrite le_val_cr, le_val_snoc, Hv by done. fold total. rewrite Hn.
      rewrite Z.pow_add_r, <- pow256 by zl. ring.
  - destruct (packed_end cap bits out cur _ _ Hk) as (out' & Heq & Hb & Hl & Hval).
    { revert Hcap. destruct ussd; [|lia]. unfold ussd_pad. case_match; zl. }
    simp_res. rewrite Heq. simp_res. rewrite Hrd. simp_res.
    destruct (ussd && (total mod 8 =? 0)) eqn:E0.
    + apply andb_true_iff in E0 as [-> E0]. unfold ussd_pad in *. fold total in Hcap |- *.
      cbn [andb] in E1. rewrite E1, E0 in *. cbn [orb andb] in *.
      rewrite Hlast in *. destruct (Z.eqb_spec x 13) as [->|Hx].
      * rewrite bool_decide_true in * by done. bool_to_prop.
        rewrite put_ok by dzl. eexists. split; [reflexivity|]. split.
        -- apply Forall_app; split; [done|]. by apply Forall_singleton.
        -- dzl.
        -- rewrite le_val_cr, le_val_snoc, Hval by done. fold total.
           rewrite pow256 by zl. replace (8 * zlen out') with total by dzl. ring.
      * rewrite bool_decide_false by congruence. bool_to_prop.
        exists out'. split; [done|]. by split.
    + exists out'. split; [done|].
      assert ((if ussd then ussd_pad fill s else s) = s) as ->; [|by split].
      destruct ussd; [|done]. unfold ussd_pad. fold total. cbn [andb] in E0, E1.
      by rewrite E0, E1.
Qed.

Lemma pack_7bit_own_buf_ok inp s rest len byte_offset (ussd : bool) terminator cap :
  let fill := fill_bits byte_offset in
  inp = s ++ rest -> septets s -> s <> [] -> len <> 0 -> 0 <= byte_offset ->
  pack_length inp len terminator = Ret (zlen s) ->
  fill + 7 * zlen (if ussd then ussd_pad fill s else s) <= 8 * cap ->
  exists out,
    pack_7bit_own_buf inp len byte_offset ussd terminator cap = Ret out /\
    packing fill (if ussd then ussd_pad fill s else s) out.
Proof.
  intros fill Hinp Hs Hne Hlen Ho Hpl Hcap. unfold pack_7bit_own_buf.
  rewrite (proj2 (Z.eqb_neq _ _)) by done. rewrite Hpl. simp_res.
  rewrite Z.rem_mod_nonneg by lia.
  assert (Hfit : fill + 7 * zlen s <= 8 * cap).
  { revert Hcap. destruct ussd; [|lia]. unfold ussd_pad. case_match; zl. }
  assert (Hpos : 0 < zlen s) by (destruct s; [done|zl]).
  assert (Hp : at_pos inp 0 (s ++ rest)) by (rewrite Hinp; apply at_pos_0).
  unfold fill, fill_bits in *. destruct (Z.eqb_spec (byte_offset mod 7) 0) as [E|E].
  - rewrite E. change (negb (7 - 0 =? 7)) with false. cbv iota. simp_res.
    change (7 - 0) with 7.
    destruct (pack_loop_ok inp cap s (S (Z.to_nat (zlen s))) rest 0 7 [] None 0 0)
      as (bits & out & cur & Heq & Hk); [done|done|rewrite to_nat_zlen; lia| |lia|].
    { split; [lia|by apply Forall_nil|done|]. exists 0. done. }
    rewrite Z.add_0_l in Heq. rewrite Heq. simp_res.
    rewrite Z.mul_comm, Z.add_comm.
    eapply pack_tail; eauto. lia.
  - assert (0 <= byte_offset mod 7 < 7) by (apply Z.mod_pos_bound; lia).
    set (f := 7 - byte_offset mod 7) in *.
    rewrite (proj2 (Z.eqb_neq f 7)) by lia. cbn [negb].
    rewrite put_ok by zl. simp_res.
    destruct (pack_loop_ok inp cap s (S (Z.to_nat (zlen s))) rest 0 (f - 1) []
      (Some 0) f 0)
      as (bits & out & cur & Heq & Hk); [done|done|rewrite to_nat_zlen; lia| |lia|].
    { split; [lia|by apply Forall_nil|rewrite used_7 by lia; change (zlen []) with 0; lia|].
      exists 0. split; [|done]. rewrite used_7 by lia. lia. }
    rewrite Z.add_0_l in Heq. rewrite Heq. simp_res.
    rewrite Z.mul_comm, Z.add_comm.
    eapply pack_tail; eauto. lia.
Qed.

(** * Unpacking *)

(** The character an octet completes, and what is left of the octet. *)
Lemma unpack_octet bits rest x v :
  1 <= bits <= 7 -> 0 <= rest < 2 ^ (7 - bits) -> is_byte x -> 0 <= v ->
  let num := rest + 2 ^ (7 - bits) * (x + 256 * v) in
  u8 (Z.lor (Z.shiftl (Z.land x (Z.shiftl 1 bits - 1)) (7 - bits)) rest) = num mod 128
  /\ let rest' := Z.land (Z.shiftr x bits) (Z.shiftl 1 (8 - bits) - 1) in
     0 <= rest' < 2 ^ (8 - bits) /\ num / 128 = rest' + 2 ^ (8 - bits) * v.
Proof.
  intros Hbits Hrest Hx Hv. unfold is_byte in Hx.
  rewrite Z.lor_comm, !land_ones_mod, lor_shiftl_add, Z.shiftr_div_pow2 by lia.
  assert (H128 : 2 ^ bits * 2 ^ (7 - bits) = 128).
  { rewrite <- pow2_split by lia. by replace (bits + (7 - bits)) with 7 by lia. }
  assert (H256 : 2 ^ bits * 2 ^ (8 - bits) = 256).
  { rewrite <- pow2_split by lia. by replace (bits + (8 - bits)) with 8 by lia. }
  pose proof (Z.mod_pos_bound x (2 ^ bits) ltac:(lia)) as Hmod.
  pose proof (Z.div_mod x (2 ^ bits) ltac:(lia)) as Hdiv.
  assert (Hq : 0 <= x / 2 ^ bits < 2 ^ (8 - bits)).
  { split; [apply Z.div_pos; lia|]. apply Z.div_lt_upper_bound; lia. }
  rewrite (Z.mod_small (x / 2 ^ bits)) by lia.
  set (c := rest + x mod 2 ^ bits * 2 ^ (7 - bits)).
  assert (Hc : 0 <= c < 128) by (unfold c; nia).
  assert (Hnum : rest + 2 ^ (7 - bits) * (x + 256 * v) =
    c + (x / 2 ^ bits + 2 ^ (8 - bits) * v) * 128).
  { unfold c. rewrite <- H128. rewrite Hdiv at 1.
    replace 256 with (2 ^ bits * 2 ^ (8 - bits)). ring. }
  cbv zeta. rewrite Hnum, Z.mod_add, Z.div_add, (Z.mod_small c 128), (Z.div_small c 128) by lia.
  unfold u8. rewrite Z.mod_small by lia. rewrite Z.add_0_l. auto.
Qed.

(** The characters the loop finds: as many as [max_to_unpack] and the octets
    allow. *)
Lemma unpack_loop_ok inp max cap l : forall fuel tl i bits rest out,
  at_pos inp i (l ++ tl) -> bytes l -> (length l < fuel)%nat ->
  1 <= bits <= 7 -> 0 <= rest < 2 ^ (7 - bits) -> i <> 0 \/ bits = 7 ->
  zlen out <= max <= cap ->
  unpack_loop fuel inp (i + zlen l) max cap i bits rest out =
  Ret (out ++ le_digits 128
    (Z.to_nat (Z.min (max - zlen out) ((7 - bits + 8 * zlen l) / 7)))
    (rest + 2 ^ (7 - bits) * le_val 256 l)).
Proof.
  induction l as [|x l IH]; intros fuel tl i bits rest out Hp Hl Hf Hbits Hrest Hi Hmax.
  { destruct fuel; [cbn in Hf; lia|]. cbn [unpack_loop]. change (zlen []) with 0.
    rewrite (proj2 (Z.ltb_ge _ _)) by lia. cbn [andb].
    replace (Z.to_nat _) with 0%nat by dzl. by rewrite app_nil_r. }
  destruct fuel as [|fuel]; cbn [length] in Hf; [lia|].
  apply Forall_cons in Hl as [Hx Hl].
  destruct (at_pos_cons inp i x (l ++ tl) Hp) as [Hrd Hp'].
  assert (Hv : 0 <= le_val 256 l) by (apply le_val_bounds; [lia|done]).
  pose proof (zlen_nonneg l) as Hzl. pose proof (zlen_nonneg out).
  assert (0 <= i) by (destruct Hp; lia).
  destruct (unpack_octet bits rest x (le_val 256 l)) as [Hc [Hr Hq]]; [done..|].
  cbn [unpack_loop le_val]. rewrite (proj2 (Z.ltb_lt i _)) by zl.
  replace (i + zlen (x :: l)) with (i + 1 + zlen l) by zl. rewrite zlen_cons.
  cbn [andb]. destruct (Z.ltb_spec (zlen out) max) as [Hlt|Hge].
  2:{ replace (Z.to_nat _) with 0%nat by dzl. by rewrite app_nil_r. }
  rewrite Hrd. simp_res. rewrite Hc. rewrite put_ok by zl. simp_res.
  set (num := rest + _) in *. set (r := Z.land (Z.shiftr x bits) _) in *.
  assert (negb (i =? 0) || (bits =? 7) = true) as ->.
  { destruct Hi; [by rewrite (proj2 (Z.eqb_neq i 0))|subst]. apply orb_true_r. }
  set (k := Z.min (max - zlen out) _).
  assert (1 <= k) by (unfold k; dzl).
  replace (Z.to_nat k) with (S (Z.to_nat (k - 1))) by lia. cbn [le_digits].
  rewrite Hq. rewrite zlen_app. change (zlen [num mod 128]) with 1.
  destruct (Z.eqb_spec (zlen out + 1) max) as [He|He].
  { replace (Z.to_nat (k - 1)) with 0%nat by lia. done. }
  destruct (Z.eqb_spec bits 1) as [->|Hb1].
  - rewrite put_ok by zl. simp_res. change (2 ^ (8 - 1)) with 128 in *.
    rewrite (IH _ tl) by (try done; zl). rewrite <- !app_assoc. cbn [app].
    assert (2 <= k) by (unfold k; dzl).
    replace (Z.to_nat (k - 1)) with (S (Z.to_nat (k - 2))) by lia. cbn [le_digits].
    rewrite (Z.mul_comm 128), Z.mod_add, Z.div_add, (Z.mod_small r), (Z.div_small r) by lia.
    change (2 ^ (7 - 7)) with 1. rewrite (Z.mul_1_l (le_val 256 l)).
    match goal with |- context [Z.to_nat (Z.min ?a ?b)] =>
      replace (Z.min a b) with (k - 2) by (unfold k; dzl) end.
    done.
  - rewrite (IH _ tl); try done; [|lia|lia| |lia|zl].
    2:{ replace (7 - (bits - 1)) with (8 - bits) by lia. done. }
    rewrite <- app_assoc. cbn [app].
    replace (7 - (bits - 1)) with (8 - bits) by lia.
    match goal with |- context [Z.to_nat (Z.min ?a ?b)] =>
      replace (Z.min a b) with (k - 1) by (unfold k; dzl) end.
    done.
Qed.

(** The loop from its start, at the fill bits of [byte_offset]. *)
Lemma unpack_loop_start l tl max cap byte_offset :
  let fill := fill_bits byte_offset in
  bytes l -> l <> [] -> 0 <= max <= cap -> 0 <= byte_offset ->
  unpack_loop (S (length l)) (l ++ tl) (zlen l) max cap 0
    (7 - Z.rem byte_offset 7) 0 [] =
  Ret (le_digits 128 (Z.to_nat (Z.min max ((8 * zlen l - fill) / 7)))
         (le_val 256 l / 2 ^ fill)).
Proof.
  intros fill Hl Hne Hmax Ho. rewrite Z.rem_mod_nonneg by lia.
  pose proof (at_pos_0 (l ++ tl)) as Hp. unfold fill, fill_bits.
  destruct (Z.eqb_spec (byte_offset mod 7) 0) as [E|E].
  { rewrite E. change (2 ^ 0) with 1. rewrite Z.div_1_r.
    replace (zlen l) with (0 + zlen l) at 1 by lia.
    rewrite (unpack_loop_ok _ _ _ _ _ tl); try done; [|lia..|change (zlen []) with 0; lia].
    rewrite Z.sub_0_r. change (2 ^ (7 - (7 - 0))) with 1.
    change (7 - (7 - 0)) with 0. rewrite Z.mul_1_l, !Z.add_0_l, !Z.sub_0_r. done. }
  assert (Hm : 0 <= byte_offset mod 7 < 7) by (apply Z.mod_pos_bound; lia).
  set (bits := 7 - byte_offset mod 7).
  destruct l as [|x l]; [done|]. apply Forall_cons in Hl as [Hx Hl].
  destruct (at_pos_cons _ 0 x (l ++ tl) Hp) as [Hrd Hp'].
  assert (Hv : 0 <= le_val 256 l) by (apply le_val_bounds; [lia|done]).
  pose proof (zlen_nonneg l). cbn [unpack_loop].
  rewrite (proj2 (Z.ltb_lt 0 _)) by zl. cbn [andb]. change (zlen []) with 0.
  destruct (Z.ltb_spec 0 max) as [Hlt|Hge].
  2:{ replace (Z.to_nat _) with 0%nat by dzl. done. }
  rewrite Hrd. simp_res. rewrite put_ok by zl. simp_res.
  rewrite (proj2 (Z.eqb_neq bits 7)) by lia. change (negb (0 =? 0)) with false.
  cbn [orb app]. change (zlen []) with 0. rewrite (proj2 (Z.eqb_neq 0 max)) by lia.
  rewrite land_ones_mod, Z.shiftr_div_pow2 by lia.
  assert (H256 : 2 ^ bits * 2 ^ (8 - bits) = 256).
  { rewrite <- pow2_split by lia. by replace (bits + (8 - bits)) with 8 by lia. }
  unfold is_byte in Hx.
  assert (Hq : 0 <= x / 2 ^ bits < 2 ^ (8 - bits)).
  { split; [apply Z.div_pos; lia|]. apply Z.div_lt_upper_bound; rewrite ?H256; lia. }
  rewrite Z.mod_small by lia. set (r := x / 2 ^ bits) in *. cbn [le_val].
  replace ((x + 256 * le_val 256 l) / 2 ^ bits) with (r + 2 ^ (8 - bits) * le_val 256 l).
  2:{ generalize (le_val 256 l) as v. intros v. rewrite <- H256.
      replace (x + _) with (x + 2 ^ (8 - bits) * v * 2 ^ bits) by ring. by rewrite Z.div_add by lia. }
  replace (zlen (x :: l)) with (0 + 1 + zlen l) by zl.
  destruct (Z.eqb_spec bits 1) as [Hb|Hb].
  - rewrite put_ok by (change (zlen []) with 0; zl). simp_res.
    rewrite (unpack_loop_ok _ _ _ _ _ tl); try done; [|cbn [length]; lia..|zl].
    cbn [app]. change (zlen [r]) with 1. change (2 ^ (7 - 7)) with 1. rewrite Hb in *.
    set (k := Z.min max _).
    assert (1 <= k) by (unfold k; dzl).
    replace (Z.to_nat k) with (S (Z.to_nat (k - 1))) by lia. cbn [le_digits].
    change (2 ^ (8 - 1)) with 128 in *.
    rewrite (Z.mul_comm 128), Z.mod_add, Z.div_add, (Z.mod_small r), (Z.div_small r) by lia.
    match goal with |- context [Z.to_nat (Z.min ?a ?b)] =>
      replace (Z.min a b) with (k - 1) by (unfold k; dzl) end.
    by rewrite Z.mul_1_l.
  - rewrite (unpack_loop_ok _ _ _ _ _ tl); try done;
      [|cbn [length]; lia|lia| |change (zlen []) with 0; lia].
    2:{ by replace (7 - (bits - 1)) with (8 - bits) by lia. }
    replace (7 - (bits - 1)) with (8 - bits) by lia. change (zlen []) with 0.
    rewrite Z.sub_0_r. cbn [app]. do 3 f_equal. f_equal. dzl.
Qed.

Lemma fill_bits_range byte_offset : 0 <= byte_offset -> 0 <= fill_bits byte_offset <= 6.
Proof.
  intros. unfold fill_bits. pose proof (Z.mod_pos_bound byte_offset 7).
  destruct (Z.eqb_spec (byte_offset mod 7) 0); lia.
Qed.

(** What [unpack_7bit_own_buf] makes of any octets. *)
Definition unpacked (fill max : Z) (l : list Z) : list Z :=
  le_digits 128 (Z.to_nat (Z.min max ((8 * zlen l - fill) / 7)))
    (le_val 256 l / 2 ^ fill).

Lemma unpack_7bit_own_buf_ok l tl byte_offset max cap :
  bytes l -> l <> [] -> 0 <= max <= cap -> 0 <= byte_offset ->
  unpack_7bit_own_buf (l ++ tl) (zlen l) byte_offset false max 0 cap =
  Ret (unpacked (fill_bits byte_offset) max l).
Proof.
  intros Hl Hne Hmax Ho. unfold unpack_7bit_own_buf.
  assert (0 < zlen l) by (destruct l; [done|zl]).
  rewrite (proj2 (Z.leb_gt _ _)) by lia. rewrite to_nat_zlen.
  rewrite unpack_loop_start by done. done.
Qed.

(** The fill bits are zero bits below the characters. *)
Lemma unpacked_packing fill s out max :
  septets s -> 0 <= fill -> packing fill s out -> max = zlen s ->
  unpacked fill max out = s.
Proof.
  intros Hs Hfill [Hb Hl Hv] ->. unfold unpacked.
  rewrite Hv, Z.div_mul by lia.
  replace (Z.to_nat _) with (length s) by (rewrite <- to_nat_zlen; dzl).
  apply le_digits_val; [lia|done].
Qed.

Lemma pack_length_given inp len terminator : 0 <= len -> pack_length inp len terminator = Ret len.
Proof. intros. unfold pack_length. by rewrite (proj2 (Z.ltb_ge _ _)). Qed.

Lemma packing_ne fill s out : 0 <= fill -> s <> [] -> packing fill s out -> out <> [].
Proof.
  intros Hf Hs [_ Hl _] ->. change (zlen []) with 0 in Hl.
  assert (0 < zlen s) by (destruct s; [done|zl]). dzl.
Qed.

(** [total_bits] of both packing functions. *)
Lemma total_bits_fill byte_offset n : 0 <= byte_offset ->
  n * 7 + (if negb (7 - Z.rem byte_offset 7 =? 7) then 7 - Z.rem byte_offset 7 else 0)
  = fill_bits byte_offset + 7 * n.
Proof.
  intros. rewrite Z.rem_mod_nonneg by lia. unfold fill_bits.
  pose proof (Z.mod_pos_bound byte_offset 7).
  destruct (Z.eqb_spec (byte_offset mod 7) 0) as [->|E]; [rewrite Z.sub_0_r, Z.eqb_refl; cbn [negb]; lia|].
  rewrite (proj2 (Z.eqb_neq _ 7)) by lia. cbn [negb]. lia.
Qed.

(** C18: [pack_7bit] of a non-empty string of 7 bit characters, behind a header
    of any number of octets, fills its own buffer exactly, with as few octets
    as the fill bits and the characters fit in, and [unpack_7bit] of these
    octets at the same offset gives the string back. *)
Theorem pack_unpack_roundtrip s byte_offset :
  septets s -> s <> [] -> 0 <= byte_offset ->
  exists out,
    pack_7bit s (zlen s) byte_offset false true 0 = Ret out /\
    bytes out /\
    zlen out = (fill_bits byte_offset + 7 * zlen s + 7) / 8 /\
    unpack_7bit out (zlen out) byte_offset false (zlen s) 0 = Ret s.
Proof.
  intros Hs Hne Ho. pose proof (fill_bits_range byte_offset Ho).
  assert (Hpos : 0 < zlen s) by (destruct s; [done|zl]).
  set (cap := (fill_bits byte_offset + 7 * zlen s + 7) / 8).
  destruct (pack_7bit_own_buf_ok s s [] (zlen s) byte_offset false 0 cap)
    as (out & Heq & Hk); try done; [by rewrite app_nil_r|lia|
      by apply pack_length_given; lia|unfold cap; dzl|].
  exists out. pose proof Hk as [Hb Hl _]. split_and!; [|done|done|].
  - unfold pack_7bit. rewrite (proj2 (Z.eqb_neq _ _)) by lia. cbn [orb negb].
    rewrite pack_length_given by lia. simp_res. cbn [andb].
    rewrite <- Heq, total_bits_fill, Z.quot_div_nonneg by lia. done.
  - unfold unpack_7bit. rewrite <- (app_nil_r out) at 1.
    rewrite unpack_7bit_own_buf_ok; try done.
    + rewrite (unpacked_packing _ s); try done. lia.
    + apply (packing_ne (fill_bits byte_offset) s); [lia|done|done].
    + change (0 =? 0) with true. cbv iota. rewrite Z.quot_div_nonneg by zl. dzl.
Qed.

(** A concrete packed string: "hellohello" of 3GPP 23.038. *)
Example pack_hellohello :
  pack_7bit [0x68; 0x65; 0x6c; 0x6c; 0x6f; 0x68; 0x65; 0x6c; 0x6c; 0x6f] 10 0 false true 0
  = Ret [0xe8; 0x32; 0x9b; 0xfd; 0x46; 0x97; 0xd9; 0xec; 0x37].
Proof. vm_compute. reflexivity. Qed.

Lemma pack_unpack_roundtrip_witness :
  exists out,
    pack_7bit [72; 105; 27; 60] 4 7 false true 0 = Ret out /\
    unpack_7bit out (zlen out) 7 false 4 0 = Ret [72; 105; 27; 60].
Proof.
  destruct (pack_unpack_roundtrip [72; 105; 27; 60] 7) as (out & H1 & _ & _ & H2).
  - repeat constructor; lia.
  - discriminate.
  - lia.
  - exists out. split; [exact H1|exact H2].
Defined.

(** The string [unpack_7bit] gives for USSD. *)
Definition ussd_strip (u : list Z) : list Z :=
  if (zlen u mod 8 =? 0) && bool_decide (last u = Some 0x0d)
  then take (length u - 1) u else u.

Lemma unpack_ussd_ok l tl max cap :
  bytes l -> l <> [] -> Z.quot (zlen l * 8) 7 <= cap ->
  unpack_7bit_own_buf (l ++ tl) (zlen l) 0 true max 0 cap =
  Ret (ussd_strip (unpacked 0 (Z.quot (zlen l * 8) 7) l)).
Proof.
  intros Hl Hne Hcap. unfold unpack_7bit_own_buf.
  assert (0 < zlen l) by (destruct l; [done|zl]).
  rewrite (proj2 (Z.leb_gt _ _)) by lia. rewrite to_nat_zlen.
  rewrite Z.quot_div_nonneg in * by lia.
  rewrite unpack_loop_start by (try done; dzl). simp_res.
  change (fill_bits 0) with 0. fold (unpacked 0 (zlen l * 8 / 7) l).
  set (u := unpacked _ _ _).
  assert (Hu : u <> []).
  { intros Hu. apply (f_equal length) in Hu. revert Hu. unfold u, unpacked.
    rewrite length_le_digits. cbn [length]. dzl. }
  unfold ussd_strip. rewrite Z.rem_mod_nonneg by zl. cbn [andb].
  destruct (zlen u mod 8 =? 0); cbn [andb]; simp_res; [|done].
  destruct (last u) as [x|] eqn:Hx; [|by apply last_None in Hx].
  rewrite <- (app_nil_r u) at 1. rewrite (rd_last _ _ _ Hx). simp_res.
  destruct (Z.eqb_spec x 13) as [->|?]; [done|].
  by rewrite bool_decide_false by congruence.
Qed.

(** Seven bits are never spare after padding. *)
Lemma ussd_pad_spare s : (7 * zlen (ussd_pad 0 s)) mod 8 <> 1.
Proof.
  unfold ussd_pad. rewrite Z.add_0_l.
  destruct (Z.eqb_spec ((7 * zlen s) mod 8) 1), (Z.eqb_spec ((7 * zlen s) mod 8) 0);
    cbn [andb orb]; try case_match; dzl.
Qed.

Lemma ussd_strip_pad s :
  ussd_strip (ussd_pad 0 s) =
  if (zlen s mod 8 =? 0) && bool_decide (last s = Some 0x0d) then s ++ [0x0d] else s.
Proof.
  unfold ussd_strip, ussd_pad. rewrite Z.add_0_l.
  destruct (Z.eqb_spec ((7 * zlen s) mod 8) 1) as [E1|E1].
  - cbn [orb]. rewrite last_snoc, bool_decide_true, zlen_app by done.
    change (zlen [13]) with 1.
    rewrite (proj2 (Z.eqb_eq ((zlen s + 1) mod 8) 0)) by dzl.
    rewrite (proj2 (Z.eqb_neq (zlen s mod 8) 0)) by dzl. cbn [andb].
    rewrite length_app. cbn [length]. by rewrite Nat.add_sub, take_app_length.
  - cbn [orb]. destruct (Z.eqb_spec (zlen s mod 8) 0) as [E0|E0].
    + rewrite (proj2 (Z.eqb_eq ((7 * zlen s) mod 8) 0)) by dzl. cbn [andb].
      destruct (bool_decide (last s = Some 13)) eqn:Hl.
      * rewrite zlen_app. change (zlen [13]) with 1.
        by rewrite (proj2 (Z.eqb_neq ((zlen s + 1) mod 8) 0)) by dzl.
      * rewrite Hl. by rewrite andb_false_r.
    + rewrite (proj2 (Z.eqb_neq ((7 * zlen s) mod 8) 0)) by dzl. cbn [andb].
      by rewrite (proj2 (Z.eqb_neq (zlen s mod 8) 0)).
Qed.

(** A USSD string packed at offset 0 and unpacked as the network does is
    itself; the one string that is not, a multiple of eight characters ending
    in CR, gains a second CR, as 3GPP 23.038 says it must. *)
Theorem ussd_roundtrip s :
  septets s -> s <> [] ->
  exists out,
    pack_7bit s (zlen s) 0 true true 0 = Ret out /\ bytes out /\
    unpack_7bit out (zlen out) 0 true 0 0 =
      Ret (if (zlen s mod 8 =? 0) && bool_decide (last s = Some 0x0d)
           then s ++ [0x0d] else s).
Proof.
  intros Hs Hne. assert (Hpos : 0 < zlen s) by (destruct s; [done|zl]).
  set (total := 0 + 7 * zlen s).
  set (s' := ussd_pad 0 s).
  set (cap := if (total mod 8 =? 0) && bool_decide (last s = Some 0x0d)
              then (total + 14) / 8 else (total + 7) / 8).
  assert (Hcap : 7 * zlen s' <= 8 * cap).
  { unfold s', cap, ussd_pad. fold total.
    destruct (Z.eqb_spec (total mod 8) 1), (Z.eqb_spec (total mod 8) 0); cbn [andb orb];
      try case_match; dzl. }
  destruct (pack_7bit_own_buf_ok s s [] (zlen s) 0 true 0 cap) as (out & Heq & Hk);
    try done; [by rewrite app_nil_r|lia|by apply pack_length_given; lia|].
  fold s' in Hk. change (fill_bits 0) with 0 in Hk.
  exists out. pose proof Hk as [Hb Hl _]. split_and!; [|done|].
  - unfold pack_7bit. rewrite (proj2 (Z.eqb_neq (zlen s) 0)) by lia. cbn [orb negb].
    rewrite pack_length_given by lia. simp_res. rewrite total_bits_fill by lia.
    change (fill_bits 0) with 0. fold total. cbn [andb].
    rewrite Z.rem_mod_nonneg, !Z.quot_div_nonneg by zl.
    destruct (last s) as [x|] eqn:Hx; [|by apply last_None in Hx].
    rewrite <- (app_nil_r s) at 1. rewrite (rd_last _ _ _ Hx). simp_res.
    rewrite <- Heq. unfold cap.
    destruct (total mod 8 =? 0); cbn [andb]; [|done].
    destruct (Z.eqb_spec x 13) as [->|?]; simp_res; [done|].
    by rewrite bool_decide_false by congruence.
  - rewrite <- (app_nil_r out) at 1. unfold unpack_7bit.
    assert (out <> []).
    { apply (packing_ne 0 s'); [lia| |done].
      unfold s', ussd_pad. case_match; [by destruct s|done]. }
    rewrite unpack_ussd_ok; [|done|done|change (0 =? 0) with true; cbv iota; lia].
    rewrite Z.quot_div_nonneg by zl. rewrite (unpacked_packing 0 s'); try done.
    + f_equal. by apply ussd_strip_pad.
    + unfold s', ussd_pad. case_match; [|done].
      apply Forall_app. split; [done|]. by apply Forall_singleton.
    + pose proof (ussd_pad_spare s) as Hsp. fold s' in Hsp. subst s'. clear - Hl Hsp. dzl.
Qed.

Lemma ussd_roundtrip_witness :
  exists out,
    pack_7bit [42; 49; 48; 48; 35; 49; 13] 7 0 true true 0 = Ret out /\
    unpack_7bit out (zlen out) 0 true 0 0 = Ret [42; 49; 48; 48; 35; 49; 13].
Proof.
  destruct (ussd_roundtrip [42; 49; 48; 48; 35; 49; 13]) as (out & H1 & _ & H2).
  - repeat constructor; lia.
  - discriminate.
  - exists out. split; [exact H1|exact H2].
Defined.

(** * Hexadecimal round trip *)

(** The two digits of an octet. *)
Definition hex_pair (b : Z) : list Z :=
  [hex_char (Z.land (Z.shiftr b 4) 0xf); hex_char (Z.land b 0xf)].

(** Every octet's digits are read back, and none is NUL. *)
Definition hex_pair_ok (b : Z) : bool :=
  let c := hex_char (Z.land (Z.shiftr b 4) 0xf) in
  let d := hex_char (Z.land b 0xf) in
  bool_decide (hex_digit c = Ret (b / 16)) && bool_decide (hex_digit d = Ret (b mod 16))
  && negb (c =? 0) && negb (d =? 0).

Lemma hex_pair_back b : is_byte b -> hex_pair_ok b = true.
Proof. apply byte_forall. vm_compute. reflexivity. Qed.

Definition hex_text (l : list Z) : list Z := l ≫= hex_pair.

Lemma zlen_hex_text l : zlen (hex_text l) = 2 * zlen l.
Proof.
  induction l as [|b l IH]; [done|].
  change (hex_text (b :: l)) with (hex_pair b ++ hex_text l). unfold hex_pair. zl.
Qed.

(** No digit is NUL, so that the string ends where the digits do. *)
Lemma hex_text_no_nul l : bytes l -> Forall (fun c => c <> 0) (hex_text l).
Proof.
  induction 1 as [|b l Hb Hl IH]; [constructor|].
  pose proof (hex_pair_back b Hb) as Hpair. unfold hex_pair_ok in Hpair. bool_to_prop.
  by repeat (apply Forall_cons; split; [done|]).
Qed.

Lemma encode_hex_loop_ok inp cap l : forall fuel rest i buf,
  at_pos inp i (l ++ rest) -> (length l < fuel)%nat ->
  zlen buf + 2 * zlen l <= cap ->
  encode_hex_loop fuel inp (i + zlen l) cap i buf = Ret (buf ++ hex_text l).
Proof.
  induction l as [|b l IH]; intros fuel rest i buf Hp Hf Hcap;
    (destruct fuel as [|fuel]; cbn [length] in Hf; [lia|]); cbn [encode_hex_loop].
  { change (zlen []) with 0. rewrite (proj2 (Z.ltb_ge _ _)) by lia. by rewrite app_nil_r. }
  destruct (at_pos_cons inp i b (l ++ rest) Hp) as [Hrd Hp'].
  rewrite (proj2 (Z.ltb_lt i _)) by zl. rewrite Hrd. simp_res.
  rewrite put_ok by zl. simp_res. rewrite put_ok by zl. simp_res.
  replace (i + zlen (b :: l)) with (i + 1 + zlen l) by zl.
  rewrite (IH fuel rest); [|done|lia|zl]. by rewrite <- !app_assoc.
Qed.

Lemma decode_hex_loop_ok inp cap l : forall fuel rest i buf,
  bytes l -> at_pos inp i (hex_text l ++ rest) -> (length l < fuel)%nat ->
  zlen buf + zlen l <= cap ->
  decode_hex_loop fuel inp (i + 2 * zlen l) cap i buf = Ret (buf ++ l).
Proof.
  induction l as [|b l IH]; intros fuel rest i buf Hl Hp Hf Hcap;
    (destruct fuel as [|fuel]; cbn [length] in Hf; [lia|]); cbn [decode_hex_loop].
  { change (zlen []) with 0. rewrite (proj2 (Z.ltb_ge _ _)) by lia. by rewrite app_nil_r. }
  apply Forall_cons in Hl as [Hb Hl].
  pose proof (hex_pair_back b Hb) as Hpair. unfold hex_pair_ok in Hpair.
  rewrite !andb_true_iff, !bool_decide_eq_true in Hpair.
  destruct Hpair as [[[Hd1 Hd2] _] _].
  destruct (at_pos_cons inp i _ _ Hp) as [Hrd1 Hp1].
  destruct (at_pos_cons inp (i + 1) _ _ Hp1) as [Hrd2 Hp2].
  replace (i + 1 + 1) with (i + 2) in Hp2 by lia.
  rewrite (proj2 (Z.ltb_lt i _)) by zl. rewrite Hrd1. simp_res. rewrite Hd1. simp_res.
  rewrite Hrd2. simp_res. rewrite Hd2. simp_res.
  unfold is_byte in Hb. unfold u8. rewrite Z.mod_small by dzl.
  replace (b / 16 * 16 + b mod 16) with b by dzl.
  rewrite put_ok by zl. simp_res.
  replace (i + 2 * zlen (b :: l)) with (i + 2 + 2 * zlen l) by zl.
  rewrite (IH fuel rest); [|done|done|lia|zl]. by rewrite <- app_assoc.
Qed.

Lemma encode_hex_ok l cap : 2 * zlen l + 1 <= cap ->
  encode_hex_own_buf l (zlen l) 0 cap = Ret (hex_text l ++ [0]).
Proof.
  intros Hcap. pose proof (zlen_nonneg l).
  unfold encode_hex_own_buf. rewrite pack_length_given by lia. simp_res.
  replace (zlen l) with (0 + zlen l) at 2 by lia.
  rewrite (encode_hex_loop_ok l cap l _ []); [| |rewrite to_nat_zlen; lia|change (zlen []) with 0; lia].
  - simp_res. apply put_ok. cbn [app]. rewrite zlen_hex_text. zl.
  - rewrite app_nil_r. apply at_pos_0.
Qed.

Lemma decode_hex_ok l cap : bytes l -> zlen l <= cap ->
  decode_hex_own_buf (hex_text l ++ [0]) (-1) 0 cap = Ret l.
Proof.
  intros Hl Hcap. pose proof (zlen_nonneg l). unfold decode_hex_own_buf.
  rewrite (scan_to_ok _ 0 (hex_text l) _ []);
    [|apply at_pos_0|by apply hex_text_no_nul|rewrite length_app; cbn; lia].
  change (-1 <? 0) with true. simp_res. rewrite zlen_hex_text.
  assert (Z.ldiff (0 + 2 * zlen l) 1 = 0 + 2 * zlen l) as ->.
  { rewrite Z.add_0_l. destruct (zlen l); done. }
  rewrite (decode_hex_loop_ok _ cap l _ [0]); [done|done|apply at_pos_0| |change (zlen []) with 0; lia].
  pose proof (to_nat_zlen l). lia.
Qed.

(** [encode_hex_own_buf] writes two digits an octet and a NUL, in a buffer
    of exactly that size, and [decode_hex_own_buf] reads the octets back from
    the NUL-terminated string. *)
Theorem hex_roundtrip l cap :
  bytes l -> 2 * zlen l + 1 <= cap ->
  exists text,
    encode_hex_own_buf l (zlen l) 0 cap = Ret (text ++ [0]) /\
    zlen text = 2 * zlen l /\
    decode_hex_own_buf (text ++ [0]) (-1) 0 (zlen l) = Ret l.
Proof.
  intros Hl Hcap. exists (hex_text l).
  split_and!; [by apply encode_hex_ok|apply zlen_hex_text|by apply decode_hex_ok].
Qed.

Lemma hex_roundtrip_witness :
  exists text,
    encode_hex_own_buf [0; 0x1f; 0xa9] 3 0 7 = Ret (text ++ [0]) /\
    decode_hex_own_buf (text ++ [0]) (-1) 0 3 = Ret [0; 0x1f; 0xa9].
Proof.
  destruct (hex_roundtrip [0; 0x1f; 0xa9] 7) as (text & H1 & _ & H2).
  - repeat constructor; lia.
  - vm_compute. discriminate.
  - exists text. split; [exact H1|exact H2].
Defined.
