(* ===== verification/SmsField.v ===== *)
(** The fields of a short message PDU, of src/src/smsutil.c: BCD numbers, the
    data coding scheme, time stamps, validity periods and addresses.

    An encoder writes at the end of the list of the octets written so far, in a
    buffer of [cap] octets; a decoder reads [pdu] from [offset] on, [len]
    octets being valid, and returns the value with the new offset. *)
From S2P Require Import Prelude Charset SevenBit.

(** * BCD numbers *)

(** "0123456789*#abc\0" *)
Definition digit_lut : list Z :=
  [48; 49; 50; 51; 52; 53; 54; 55; 56; 57; 42; 35; 97; 98; 99; 0].

Definition lut (i : Z) : Z := nth (Z.to_nat i) digit_lut 0.

(** The characters written to [out], with the terminating NUL. *)
Definition extract_bcd_number (buf : list Z) (offset len : Z) : res (list Z) :=
  octs ← slice buf offset len;
  Ret (flat_map (fun oct =>
         [lut (Z.land oct 0x0f); lut (Z.shiftr (Z.land oct 0xf0) 4)]) octs ++ [0]).

Definition to_semi_oct (c : Z) : Z :=
  if (48 <=? c) && (c <=? 57) then c - 48
  else if c =? 42 then 10
  else if c =? 35 then 11
  else if (c =? 65) || (c =? 97) then 12
  else if (c =? 66) || (c =? 98) then 13
  else if (c =? 67) || (c =? 99) then 14
  else -1.

(** The octets written to [out]; [number] is the string before its NUL. *)
Fixpoint encode_bcd_number (number : list Z) : list Z :=
  match number with
  | a :: b :: number =>
      u8 (Z.lor (u8 (to_semi_oct a)) (Z.shiftl (to_semi_oct b) 4))
        :: encode_bcd_number number
  | [a] => [u8 (Z.lor (to_semi_oct a) 0xf0)]
  | [] => []
  end.

(** * The data coding scheme *)

Definition is_bit_set (oct bit : Z) : bool := has oct (Z.shiftl 1 bit).
Definition bit_field (oct start num : Z) : Z :=
  Z.land (Z.shiftr oct start) (u8 (Z.shiftl 1 num - 1)).

Inductive sms_class :=
  | SMS_CLASS_0 | SMS_CLASS_1 | SMS_CLASS_2 | SMS_CLASS_3 | SMS_CLASS_UNSPECIFIED.
Inductive sms_charset := SMS_CHARSET_7BIT | SMS_CHARSET_8BIT | SMS_CHARSET_UCS2.
Inductive sms_mwi_type :=
  | SMS_MWI_TYPE_VOICE | SMS_MWI_TYPE_FAX | SMS_MWI_TYPE_EMAIL | SMS_MWI_TYPE_OTHER
  | SMS_MWI_TYPE_VIDEO.

#[export] Instance sms_class_eq_dec : EqDecision sms_class.
Proof. solve_decision. Defined.
#[export] Instance sms_charset_eq_dec : EqDecision sms_charset.
Proof. solve_decision. Defined.
#[export] Instance sms_mwi_type_eq_dec : EqDecision sms_mwi_type.
Proof. solve_decision. Defined.

(** The casts of the code from the two low bits. *)
Definition sms_class_of (v : Z) : sms_class :=
  if v =? 0 then SMS_CLASS_0 else if v =? 1 then SMS_CLASS_1
  else if v =? 2 then SMS_CLASS_2 else SMS_CLASS_3.
Definition sms_charset_of (v : Z) : sms_charset :=
  if v =? 0 then SMS_CHARSET_7BIT else if v =? 1 then SMS_CHARSET_8BIT
  else SMS_CHARSET_UCS2.
Definition sms_mwi_type_of (v : Z) : sms_mwi_type :=
  if v =? 0 then SMS_MWI_TYPE_VOICE else if v =? 1 then SMS_MWI_TYPE_FAX
  else if v =? 2 then SMS_MWI_TYPE_EMAIL else SMS_MWI_TYPE_OTHER.

(** class, charset, compressed, autodelete *)
Definition sms_dcs_decode (dcs : Z)
    : option (sms_class * sms_charset * bool * bool) :=
  let upper := Z.shiftr (Z.land dcs 0xf0) 4 in
  if (0x8 <=? upper) && (upper <=? 0xe) then None
  else
    let upper := Z.shiftr (Z.land dcs 0xc0) 6 in
    if (upper =? 0) || (upper =? 1) then
      let ch := Z.shiftr (Z.land dcs 0x0c) 2 in
      if ch <? 3 then
        Some (if has dcs 0x10 then sms_class_of (Z.land dcs 0x03)
              else SMS_CLASS_UNSPECIFIED,
              sms_charset_of ch, has dcs 0x20, negb (upper =? 0))
      else None
    else if upper =? 3 then
      Some (sms_class_of (Z.land dcs 0x03),
            if has dcs 0x4 then SMS_CHARSET_8BIT else SMS_CHARSET_7BIT,
            false, false)
    else None.

(** type, charset, active, discard *)
Definition sms_mwi_dcs_decode (dcs : Z)
    : option (sms_mwi_type * sms_charset * bool * bool) :=
  let upper := Z.shiftr (Z.land dcs 0xf0) 4 in
  if (upper <? 0xc) || (0xe <? upper) then None
  else
    let upper := Z.shiftr (Z.land dcs 0x30) 4 in
    Some (sms_mwi_type_of (Z.land dcs 0x3),
          if upper =? 2 then SMS_CHARSET_UCS2 else SMS_CHARSET_7BIT,
          has dcs 0x8, upper =? 0).

Definition sms_udl_in_bytes (ud_len dcs : Z) : Z :=
  let len_7bit := Z.quot ((ud_len + 1) * 7) 8 in
  let len_8bit := ud_len in
  if dcs =? 0 then len_7bit
  else
    let upper := Z.shiftr (Z.land dcs 0xc0) 6 in
    if (upper =? 0) || (upper =? 1) then
      if has dcs 0x20 then len_8bit
      else
        let c := Z.shiftr (Z.land dcs 0x0c) 2 in
        if c =? 0 then len_7bit
        else if (c =? 1) || (c =? 2) then len_8bit
        else 0
    else if upper =? 2 then 0
    else
      let c := Z.shiftr (Z.land dcs 0x30) 4 in
      if (c =? 0) || (c =? 1) then len_7bit
      else if c =? 2 then len_8bit
      else if has dcs 0x4 then len_8bit else len_7bit.

(** * Octets *)

Definition next_octet (pdu : list Z) (len offset : Z) : res (Z * Z) :=
  if len =? offset then Err
  else oct ← rd pdu offset; Ret (oct, offset + 1).

Definition set_octet (cap : Z) (pdu : list Z) (oct : Z) : res (list Z) :=
  put cap pdu [oct].

(** * Time stamps *)

Definition MAX_TIMEZONE : Z := 56.
Definition MIN_TIMEZONE : Z := -48.

Record sms_scts := {
  year : Z; month : Z; day : Z; hour : Z; minute : Z; second : Z;
  has_timezone : bool;
  timezone : Z
}.

Definition semi_octet (v : Z) : Z :=
  Z.lor (Z.land (Z.quot v 10) 0x0f) (Z.shiftl (Z.land (Z.rem v 10) 0x0f) 4).

Definition sms_encode_scts (cap : Z) (pdu : list Z) (scts : sms_scts)
    : res (list Z) :=
  if 99 <? year scts then Err
  else if 12 <? month scts then Err
  else if 31 <? day scts then Err
  else if 23 <? hour scts then Err
  else if 59 <? minute scts then Err
  else if 59 <? second scts then Err
  else if ((MAX_TIMEZONE <? timezone scts) || (timezone scts <? MIN_TIMEZONE))
          && has_timezone scts then Err
  else
    let tz := Z.abs (timezone scts) in
    let o := Z.lor (Z.land (Z.quot tz 10) 0x07)
                   (Z.shiftl (Z.land (Z.rem tz 10) 0x0f) 4) in
    put cap pdu
      [semi_octet (year scts); semi_octet (month scts); semi_octet (day scts);
       semi_octet (hour scts); semi_octet (minute scts); semi_octet (second scts);
       if has_timezone scts then
         if timezone scts <? 0 then Z.lor o 0x8 else o
       else 0xff].

Definition sms_decode_semi_octet (oct : Z) : Z :=
  u8 (Z.land oct 0x0f * 10 + Z.shiftr oct 4).

Definition sms_decode_scts (pdu : list Z) (len offset : Z)
    : res (sms_scts * Z) :=
  if len - offset <? 7 then Err
  else
    '(oct, offset) ← next_octet pdu len offset;
    let year := sms_decode_semi_octet oct in
    _ ← check (year <=? 99);
    '(oct, offset) ← next_octet pdu len offset;
    let month := sms_decode_semi_octet oct in
    _ ← check (month <=? 12);
    '(oct, offset) ← next_octet pdu len offset;
    let day := sms_decode_semi_octet oct in
    _ ← check (day <=? 31);
    '(oct, offset) ← next_octet pdu len offset;
    let hour := sms_decode_semi_octet oct in
    _ ← check (hour <=? 23);
    '(oct, offset) ← next_octet pdu len offset;
    let minute := sms_decode_semi_octet oct in
    _ ← check (minute <=? 59);
    '(oct, offset) ← next_octet pdu len offset;
    let second := sms_decode_semi_octet oct in
    _ ← check (second <=? 59);
    '(oct, offset) ← next_octet pdu len offset;
    let tz := s8 (Z.land oct 0x07 * 10 + Z.shiftr (Z.land oct 0xf0) 4) in
    let tz := if has oct 0x08 then s8 (tz * -1) else tz in
    _ ← check ((tz <=? MAX_TIMEZONE) && (MIN_TIMEZONE <=? tz));
    Ret ({| year := year; month := month; day := day; hour := hour;
            minute := minute; second := second;
            has_timezone := true; timezone := tz |}, offset).

(** * Validity periods *)

(** The union of struct sms_validity_period with the format that says which
    member it holds. *)
Inductive sms_validity_period :=
  | VpAbsent
  | VpEnhanced (enhanced : list Z)
  | VpRelative (relative : Z)
  | VpAbsolute (absolute : sms_scts).

(** enum sms_validity_period_format *)
Definition vpf_of (vp : sms_validity_period) : Z :=
  match vp with
  | VpAbsent => 0 | VpEnhanced _ => 1 | VpRelative _ => 2 | VpAbsolute _ => 3
  end.

Definition decode_validity_period (pdu : list Z) (len offset vpf : Z)
    : res (sms_validity_period * Z) :=
  if vpf =? 0 then Ret (VpAbsent, offset)
  else if vpf =? 2 then
    '(relative, offset) ← next_octet pdu len offset;
    Ret (VpRelative relative, offset)
  else if vpf =? 3 then
    '(absolute, offset) ← sms_decode_scts pdu len offset;
    Ret (VpAbsolute absolute, offset)
  else if vpf =? 1 then
    if len - offset <? 7 then Err
    else
      enhanced ← slice pdu offset 7;
      Ret (VpEnhanced enhanced, offset + 7)
  else Err.

Definition encode_validity_period (cap : Z) (pdu : list Z)
    (vp : sms_validity_period) : res (list Z) :=
  match vp with
  | VpAbsent => Ret pdu
  | VpRelative relative => set_octet cap pdu relative
  | VpAbsolute absolute => sms_encode_scts cap pdu absolute
  | VpEnhanced enhanced => put cap pdu enhanced
  end.

(** * Addresses *)

Definition SMS_NUMBER_TYPE_ALPHANUMERIC : Z := 5.

(** [address] is the string in the array of [ADDRESS_SIZE] characters. *)
Record sms_address := {
  number_type : Z;
  numbering_plan : Z;
  address : list Z
}.

Definition ADDRESS_SIZE : Z := 23.

(** GLib's g_utf8_strlen(), the number of characters of a string. *)
Class GlibUtf8 : Type := g_utf8_strlen : list Z -> Z.

Section Address.
Context `{U : Utf8} `{G : GlibUtf8}.

(** The digits of a number, two to an octet of [p]. *)
Fixpoint pack_digits (addr : list Z) (i : Z) (p : list Z) : res (list Z) :=
  match addr with
  | [] =>
      if Z.rem i 2 =? 1 then
        o ← rd p (zlen p - 1); wr p (zlen p - 1) (Z.lor o 0xf0)
      else Ret p
  | c :: addr =>
      let c := to_semi_oct c in
      if c <? 0 then Err
      else
        p ← (if Z.rem i 2 =? 0 then put 10 p [c]
             else o ← rd p (zlen p - 1);
                  wr p (zlen p - 1) (u8 (Z.lor o (Z.shiftl c 4))));
        pack_digits addr (i + 1) p
  end.

(** The address octets [p] and the length field. *)
Definition encode_address (addr : sms_address) (sc : bool) : res (list Z * Z) :=
  let len := zlen (address addr) in
  if len =? 0 then Ret ([], 0)
  else if number_type addr =? SMS_NUMBER_TYPE_ALPHANUMERIC then
    if 11 <? g_utf8_strlen (address addr) then Err
    else
      r ← convert_utf8_to_gsm (address addr ++ [0]) len 0;
      match conv_res r with
      | None => Err
      | Some gsm =>
        let written := zlen gsm in
        if 11 <? written then Err
        else
          p ← pack_7bit_own_buf gsm written 0 false 0 10;
          Ret (p, u8 (if sc then zlen p + 1 else Z.quot (written * 7 + 3) 4))
      end
  else if 20 <? len then Err
  else
    p ← pack_digits (address addr) 0 [];
    Ret (p, u8 (if sc then zlen p + 1 else len)).

Definition sms_encode_address_field (cap : Z) (pdu : list Z) (sc : bool)
    (addr : sms_address) : res (list Z) :=
  if (zlen (address addr) =? 0) && sc then put cap pdu [0]
  else
    '(p, addr_len) ← encode_address addr sc;
    bs ← slice p 0 (if sc then addr_len - 1 else Z.quot (addr_len + 1) 2);
    put cap pdu
      ([addr_len;
        u8 (Z.lor (Z.lor (Z.shiftl (number_type addr) 4) (numbering_plan addr)) 0x80)]
       ++ bs).

Definition sms_decode_address_field (pdu : list Z) (len offset : Z) (sc : bool)
    : res (sms_address * Z) :=
  '(addr_len, offset) ← next_octet pdu len offset;
  if sc && (addr_len =? 0) then
    Ret ({| number_type := 0; numbering_plan := 0; address := [] |}, offset)
  else
    '(addr_type, offset) ← next_octet pdu len offset;
    let byte_len := if sc then addr_len - 1 else Z.quot (addr_len + 1) 2 in
    if len - offset <? byte_len then Err
    else
      let number_type := bit_field addr_type 4 3 in
      let numbering_plan := bit_field addr_type 0 4 in
      let result := Build_sms_address number_type numbering_plan in
      if negb (number_type =? SMS_NUMBER_TYPE_ALPHANUMERIC) then
        digits ← extract_bcd_number pdu offset byte_len;
        array ← put ADDRESS_SIZE [] digits;
        Ret (result (cstr array), offset + byte_len)
      else
        let chars := if sc then Z.quot (byte_len * 8) 7 else Z.quot (addr_len * 4) 7 in
        if chars =? 0 then Ret (result [], offset)
        else
          octs ← slice pdu offset byte_len;
          res ← unpack_7bit octs byte_len 0 false chars 0;
          r ← convert_gsm_to_utf8 res (zlen res) 0;
          match conv_res r with
          | None => Err
          | Some utf8 =>
            _ ← check (zlen utf8 <=? 22);
            array ← put ADDRESS_SIZE [] (utf8 ++ [0]);
            Ret (result (cstr array), offset + Z.quot (addr_len + 1) 2)
          end.
End Address.

(** * Field codecs

    [codec enc dec x bs]: [bs] is the encoding of [x]; the encoder stores
    exactly [bs], wherever it is called, and the decoder reads [x] wherever
    [bs] is found. *)
Record codec {A} (enc : Z -> list Z -> res (list Z))
    (dec : list Z -> Z -> Z -> res (A * Z)) (x : A) (bs : list Z) : Prop := {
  codec_enc : forall cap out, enc cap out = put cap out bs;
  codec_dec : forall pdu len off rest,
    at_pos pdu off (bs ++ rest) -> off + zlen bs <= len ->
    dec pdu len off = Ret (x, off + zlen bs);
  codec_bytes : bytes bs
}.

Lemma next_octet_at pdu len off x rest :
  at_pos pdu off (x :: rest) -> off < len ->
  next_octet pdu len off = Ret (x, off + 1) /\ at_pos pdu (off + 1) rest.
Proof.
  intros H Hlt. destruct (at_pos_cons pdu off x rest H) as [Hrd Hp].
  unfold next_octet. rewrite (proj2 (Z.eqb_neq _ _)) by lia. by rewrite Hrd.
Qed.

Lemma octet_codec x : is_byte x ->
  codec (fun cap out => set_octet cap out x) next_octet x [x].
Proof.
  intros Hx. split; [done| |by apply Forall_singleton].
  intros pdu len off rest Hp Hlt. change (zlen [x]) with 1 in *.
  apply (next_octet_at pdu len off x rest); [done|lia].
Qed.

(** A decoder in the middle of a PDU. *)
Lemma codec_step {A} enc (dec : list Z -> Z -> Z -> res (A * Z)) x bs pdu len off rest :
  codec enc dec x bs -> at_pos pdu off (bs ++ rest) -> off + zlen bs <= len ->
  dec pdu len off = Ret (x, off + zlen bs) /\ at_pos pdu (off + zlen bs) rest.
Proof. intros [_ Hd _] Hp Hl. split; [by eapply Hd|by apply at_pos_app]. Qed.

(** ** Time stamps *)

Definition wf_scts (s : sms_scts) : Prop :=
  0 <= year s <= 99 /\ 0 <= month s <= 12 /\ 0 <= day s <= 31 /\
  0 <= hour s <= 23 /\ 0 <= minute s <= 59 /\ 0 <= second s <= 59 /\
  has_timezone s = true /\ MIN_TIMEZONE <= timezone s <= MAX_TIMEZONE.

Lemma semi_octet_back v : 0 <= v <= 99 ->
  is_byte (semi_octet v) /\ sms_decode_semi_octet (semi_octet v) = v.
Proof.
  intros Hv.
  pose proof (range_forall (fun v => bool_decide (is_byte (semi_octet v)) &&
    (sms_decode_semi_octet (semi_octet v) =? v)) 0 100 v) as H.
  rewrite andb_true_iff, bool_decide_eq_true, Z.eqb_eq in H.
  apply H; [vm_compute; reflexivity|lia].
Qed.

Definition timezone_octet (tz : Z) : Z :=
  let a := Z.abs tz in
  let o := Z.lor (Z.land (Z.quot a 10) 0x07) (Z.shiftl (Z.land (Z.rem a 10) 0x0f) 4) in
  if tz <? 0 then Z.lor o 0x8 else o.

Lemma timezone_octet_back tz : MIN_TIMEZONE <= tz <= MAX_TIMEZONE ->
  is_byte (timezone_octet tz) /\
  let oct := timezone_octet tz in
  let v := s8 (Z.land oct 0x07 * 10 + Z.shiftr (Z.land oct 0xf0) 4) in
  (if has oct 0x08 then s8 (v * -1) else v) = tz.
Proof.
  intros Hv. unfold MIN_TIMEZONE, MAX_TIMEZONE in Hv.
  pose proof (range_forall (fun tz => bool_decide (is_byte (timezone_octet tz)) &&
    (let oct := timezone_octet tz in
     let v := s8 (Z.land oct 0x07 * 10 + Z.shiftr (Z.land oct 0xf0) 4) in
     (if has oct 0x08 then s8 (v * -1) else v) =? tz)) (-48) 105 tz) as H.
  cbv zeta in H |- *. rewrite andb_true_iff, bool_decide_eq_true, Z.eqb_eq in H.
  apply H; [vm_compute; reflexivity|lia].
Qed.

Definition scts_octets (s : sms_scts) : list Z :=
  [semi_octet (year s); semi_octet (month s); semi_octet (day s);
   semi_octet (hour s); semi_octet (minute s); semi_octet (second s);
   timezone_octet (timezone s)].

Lemma zlen_scts_octets s : zlen (scts_octets s) = 7.
Proof. done. Qed.
#[export] Hint Rewrite zlen_scts_octets : zlen.

Lemma scts_codec s : wf_scts s ->
  codec (fun cap out => sms_encode_scts cap out s) sms_decode_scts s (scts_octets s).
Proof.
  intros (Hy & Hmo & Hd & Hh & Hmi & Hs & Htz & Ht).
  destruct (semi_octet_back (year s)) as [By Ey]; [lia|].
  destruct (semi_octet_back (month s)) as [Bmo Emo]; [lia|].
  destruct (semi_octet_back (day s)) as [Bd Ed]; [lia|].
  destruct (semi_octet_back (hour s)) as [Bh Eh]; [lia|].
  destruct (semi_octet_back (minute s)) as [Bmi Emi]; [lia|].
  destruct (semi_octet_back (second s)) as [Bs Es]; [lia|].
  destruct (timezone_octet_back (timezone s)) as [Bt Et]; [done|]. cbv zeta in Et.
  split.
  - intros cap out. unfold sms_encode_scts. rewrite Htz.
    rewrite (proj2 (Z.ltb_ge 99 _)), (proj2 (Z.ltb_ge 12 _)),
      (proj2 (Z.ltb_ge 31 _)), (proj2 (Z.ltb_ge 23 _)), !(proj2 (Z.ltb_ge 59 _)),
      (proj2 (Z.ltb_ge MAX_TIMEZONE _)), (proj2 (Z.ltb_ge _ MIN_TIMEZONE)) by lia.
    done.
  - intros pdu len off rest Hp Hlt. unfold scts_octets in *.
    change (zlen _) with 7 in *. unfold sms_decode_scts.
    rewrite (proj2 (Z.ltb_ge _ _)) by lia. cbn [app] in Hp.
    repeat (apply (next_octet_at _ len) in Hp as [-> Hp]; [|lia]; simp_res;
      rewrite ?Ey, ?Emo, ?Ed, ?Eh, ?Emi, ?Es, ?Et;
      rewrite ?(proj2 (Z.leb_le _ _)) by lia; simp_res).
    cbn [andb]. simp_res. destruct s. cbn in *. subst. do 2 f_equal. lia.
  - unfold scts_octets, bytes. by repeat (apply Forall_cons; split; [done|]).
Qed.

(** ** Validity periods *)

Definition wf_vp (vp : sms_validity_period) : Prop :=
  match vp with
  | VpAbsent => True
  | VpEnhanced enhanced => bytes enhanced /\ zlen enhanced = 7
  | VpRelative relative => is_byte relative
  | VpAbsolute absolute => wf_scts absolute
  end.

Definition vp_octets (vp : sms_validity_period) : list Z :=
  match vp with
  | VpAbsent => []
  | VpEnhanced enhanced => enhanced
  | VpRelative relative => [relative]
  | VpAbsolute absolute => scts_octets absolute
  end.

Lemma vp_codec_dec vp pdu len off rest : wf_vp vp ->
  at_pos pdu off (vp_octets vp ++ rest) -> off + zlen (vp_octets vp) <= len ->
  decode_validity_period pdu len off (vpf_of vp) = Ret (vp, off + zlen (vp_octets vp)).
Proof.
  intros Hwf Hp Hlt. unfold decode_validity_period.
  destruct vp as [|enhanced|relative|absolute]; cbn [vpf_of vp_octets wf_vp] in *.
  - by rewrite Z.add_0_r.
  - change (1 =? 0) with false. cbv iota. cbn [Z.eqb Pos.eqb].
    destruct Hwf as [_ Hl]. rewrite (proj2 (Z.ltb_ge _ _)) by lia.
    rewrite (at_pos_slice _ _ _ _ _ Hp) by done. by rewrite Hl.
  - cbn [Z.eqb Pos.eqb]. apply (next_octet_at _ len) in Hp as [-> Hp]; [done|].
    change (zlen [relative]) with 1 in Hlt. lia.
  - cbn [Z.eqb Pos.eqb]. by rewrite (codec_dec _ _ _ _ (scts_codec _ Hwf) _ _ _ _ Hp).
Qed.

Lemma vp_codec_enc vp cap out : wf_vp vp -> zlen out <= cap ->
  encode_validity_period cap out vp = put cap out (vp_octets vp).
Proof.
  intros Hwf Hcap. destruct vp; cbn [encode_validity_period vp_octets]; [|done..|].
  - by rewrite put_nil.
  - apply (codec_enc _ _ _ _ (scts_codec _ Hwf)).
Qed.

Lemma vp_octets_bytes vp : wf_vp vp -> bytes (vp_octets vp) /\ zlen (vp_octets vp) <= 7.
Proof.
  destruct vp; cbn [wf_vp vp_octets]; intros Hwf.
  - by split; [apply Forall_nil|].
  - split; [tauto|lia].
  - split; [by apply Forall_singleton|]. change (zlen [relative]) with 1. lia.
  - split; [apply (codec_bytes _ _ _ _ (scts_codec _ Hwf))|done].
Qed.

(** ** BCD numbers *)

(** A character of a number that the decoder gives back. *)
Definition number_char (c : Z) : bool :=
  (0 <=? to_semi_oct c) && (lut (to_semi_oct c) =? c).

Definition number (l : list Z) : Prop := Forall (fun c => number_char c = true) l.

Definition bcd_chars (oct : Z) : list Z :=
  [lut (Z.land oct 0x0f); lut (Z.shiftr (Z.land oct 0xf0) 4)].

(** Induction on a string two characters at a time. *)
Lemma pairs_ind {A} (P : list A -> Prop) :
  P [] -> (forall a, P [a]) -> (forall a b l, P l -> P (a :: b :: l)) -> forall l, P l.
Proof.
  intros H0 H1 H2. refine (fix go l := match l with
    | [] => H0 | [a] => H1 a | a :: b :: l => H2 a b l (go l) end).
Qed.

Lemma number_char_semi c : number_char c = true ->
  0 <= to_semi_oct c < 15 /\ lut (to_semi_oct c) = c /\ c <> 0.
Proof.
  unfold number_char. intros H. bool_to_prop. repeat split; [done| |done|].
  - unfold to_semi_oct. repeat case_cmp; bool_to_prop; lia.
  - intros ->. done.
Qed.

(** Two digits [a] and [b] in an octet, and one with the filler. *)
Lemma bcd_octet a b : 0 <= a < 15 -> 0 <= b < 15 ->
  let o := u8 (Z.lor (u8 a) (Z.shiftl b 4)) in
  is_byte o /\ Z.land o 0x0f = a /\ Z.shiftr (Z.land o 0xf0) 4 = b.
Proof.
  intros Ha Hb.
  pose proof (range_forall (fun v => let a := v / 15 in let b := v mod 15 in
    let o := u8 (Z.lor (u8 a) (Z.shiftl b 4)) in
    bool_decide (is_byte o) && (Z.land o 0x0f =? a) && (Z.shiftr (Z.land o 0xf0) 4 =? b))
    0 225 (a * 15 + b)) as H.
  cbv beta zeta in H |- *.
  rewrite !andb_true_iff, bool_decide_eq_true, !Z.eqb_eq in H.
  destruct H as [[H1 H2] H3]; [vm_compute; reflexivity|lia|].
  replace ((a * 15 + b) / 15) with a in * by dzl.
  replace ((a * 15 + b) mod 15) with b in * by dzl. done.
Qed.

Lemma bcd_last_octet a : 0 <= a < 15 ->
  let o := u8 (Z.lor a 0xf0) in
  is_byte o /\ Z.lor a 0xf0 = o /\ Z.land o 0x0f = a /\ Z.shiftr (Z.land o 0xf0) 4 = 15.
Proof.
  intros Ha.
  pose proof (range_forall (fun a => let o := u8 (Z.lor a 0xf0) in
    bool_decide (is_byte o) && (Z.lor a 0xf0 =? o) && (Z.land o 0x0f =? a)
    && (Z.shiftr (Z.land o 0xf0) 4 =? 15)) 0 15 a) as H.
  cbv zeta in H |- *. rewrite !andb_true_iff, bool_decide_eq_true, !Z.eqb_eq in H.
  destruct H as [[[? ?] ?] ?]; [vm_compute; reflexivity|lia|by split_and!].
Qed.

Lemma bcd_bytes l : number l -> bytes (encode_bcd_number l).
Proof.
  unfold number. induction l as [|a|a b l IH] using pairs_ind; intros Hl; cbn [encode_bcd_number].
  - by apply Forall_nil.
  - apply Forall_cons in Hl as [(Ha & _)%number_char_semi _].
    apply Forall_singleton. by apply bcd_last_octet.
  - apply Forall_cons in Hl as [(Ha & _)%number_char_semi Hl].
    apply Forall_cons in Hl as [(Hb & _)%number_char_semi Hl].
    apply Forall_cons. split; [by apply bcd_octet|by apply IH].
Qed.

Lemma zlen_bcd_chars l : zlen (flat_map bcd_chars l ++ [0]) = 2 * zlen l + 1.
Proof.
  rewrite zlen_app. change (zlen [0]) with 1. f_equal.
  induction l as [|o l IH]; [done|]. cbn [flat_map]. rewrite zlen_app. change (zlen (bcd_chars o)) with 2. zl.
Qed.

Lemma zlen_bcd l : zlen (encode_bcd_number l) = (zlen l + 1) / 2.
Proof.
  induction l as [|a|a b l IH] using pairs_ind; cbn [encode_bcd_number]; [done..|].
  rewrite !zlen_cons, IH. dzl.
Qed.

Lemma cstr_app l rest : Forall (fun c => c <> 0) l -> cstr (l ++ 0 :: rest) = l.
Proof.
  induction 1 as [|c l Hc Hl IH]; [done|]. cbn [cstr app].
  rewrite (proj2 (Z.eqb_neq _ _)) by done. by f_equal.
Qed.

(** Decoding gives the string back, up to the NUL of an odd number's filler. *)
Lemma bcd_back l : number l ->
  exists tl, flat_map bcd_chars (encode_bcd_number l) ++ [0] = l ++ 0 :: tl.
Proof.
  unfold number. induction l as [|a|a b l IH] using pairs_ind; intros Hl;
    cbn [encode_bcd_number flat_map app bcd_chars].
  - by exists [].
  - apply Forall_cons in Hl as [(Ha & La & _)%number_char_semi _].
    destruct (bcd_last_octet _ Ha) as (_ & _ & -> & ->). rewrite La. by exists [0].
  - apply Forall_cons in Hl as [(Ha & La & _)%number_char_semi Hl].
    apply Forall_cons in Hl as [(Hb & Lb & _)%number_char_semi Hl].
    destruct (bcd_octet _ _ Ha Hb) as (_ & -> & ->). rewrite La, Lb.
    destruct (IH Hl) as [tl Htl]. exists tl. by rewrite Htl.
Qed.

Lemma number_no_nul l : number l -> Forall (fun c => c <> 0) l.
Proof.
  intros H. apply (Forall_impl _ _ _ H). by intros c (_ & _ & ?)%number_char_semi.
Qed.

(** A number of the characters 0-9, *, #, a, b and c, encoded by
    [encode_bcd_number] anywhere in a buffer, is read back by
    [extract_bcd_number] as the same NUL-terminated string. *)
Theorem bcd_roundtrip l pre rest :
  number l ->
  exists text,
    extract_bcd_number (pre ++ encode_bcd_number l ++ rest) (zlen pre)
      (zlen (encode_bcd_number l)) = Ret text /\
    cstr text = l /\ zlen text = 2 * ((zlen l + 1) / 2) + 1.
Proof.
  intros Hl. unfold extract_bcd_number. rewrite slice_app by done. simp_res.
  eexists. split; [reflexivity|]. split.
  - destruct (bcd_back l Hl) as [tl Htl]. unfold bcd_chars in Htl. rewrite Htl.
    by apply cstr_app, number_no_nul.
  - rewrite <- zlen_bcd. apply zlen_bcd_chars.
Qed.

Lemma bcd_roundtrip_witness :
  exists text, extract_bcd_number ([7] ++ encode_bcd_number [43 - 1; 49; 50; 99; 57] ++ [9])
      1 3 = Ret text /\ cstr text = [42; 49; 50; 99; 57].
Proof.
  destruct (bcd_roundtrip [42; 49; 50; 99; 57] [7] [9]) as (text & H1 & H2 & _).
  - repeat constructor.
  - exists text. split; [exact H1|exact H2].
Defined.

(** ** Addresses *)

(** The type octet of an address. *)
Definition type_octet (nt np : Z) : Z :=
  u8 (Z.lor (Z.lor (Z.shiftl nt 4) np) 0x80).

Lemma type_octet_back nt np : 0 <= nt < 8 -> 0 <= np < 16 ->
  is_byte (type_octet nt np) /\
  bit_field (type_octet nt np) 4 3 = nt /\ bit_field (type_octet nt np) 0 4 = np.
Proof.
  intros Hnt Hnp.
  pose proof (range_forall (fun v => let o := type_octet (v / 16) (v mod 16) in
    bool_decide (is_byte o) && (bit_field o 4 3 =? v / 16)
    && (bit_field o 0 4 =? v mod 16)) 0 128 (nt * 16 + np)) as H.
  cbv beta zeta in H |- *. rewrite !andb_true_iff, bool_decide_eq_true, !Z.eqb_eq in H.
  destruct H as [[H1 H2] H3]; [vm_compute; reflexivity|lia|].
  replace ((nt * 16 + np) / 16) with nt in * by dzl.
  replace ((nt * 16 + np) mod 16) with np in * by dzl. done.
Qed.

Lemma pack_digits_ok l : forall i p,
  number l -> 0 <= i -> i mod 2 = 0 -> zlen p + (zlen l + 1) / 2 <= 10 ->
  pack_digits l i p = Ret (p ++ encode_bcd_number l).
Proof.
  unfold number. induction l as [|a|a b l IH] using pairs_ind; intros i p Hl Hi Hev Hcap;
    cbn [pack_digits encode_bcd_number]; rewrite (Z.rem_mod_nonneg i), Hev by lia.
  - by rewrite app_nil_r.
  - apply Forall_cons in Hl as [(Ha & _)%number_char_semi _].
    rewrite (proj2 (Z.ltb_ge _ _)) by lia. cbn [Z.eqb].
    rewrite put_ok by (change (zlen [a]) with 1 in Hcap; dzl). simp_res.
    rewrite Z.rem_mod_nonneg by lia.
    rewrite (proj2 (Z.eqb_eq ((i + 1) mod 2) 1)) by dzl.
    rewrite rd_snoc. simp_res. rewrite wr_last.
    by destruct (bcd_last_octet _ Ha) as (_ & <- & _).
  - apply Forall_cons in Hl as [(Ha & _)%number_char_semi Hl].
    apply Forall_cons in Hl as [(Hb & _)%number_char_semi Hl].
    rewrite (proj2 (Z.ltb_ge (to_semi_oct a) _)) by lia. cbn [Z.eqb].
    rewrite !zlen_cons in Hcap. pose proof (zlen_nonneg l).
    rewrite put_ok by dzl. simp_res.
    rewrite (proj2 (Z.ltb_ge (to_semi_oct b) _)) by lia.
    rewrite Z.rem_mod_nonneg by lia.
    rewrite (proj2 (Z.eqb_neq ((i + 1) mod 2) 0)) by dzl.
    rewrite rd_snoc. simp_res. rewrite wr_last. simp_res.
    rewrite IH; [|done|lia|dzl|dzl]. rewrite <- app_assoc. cbn [app].
    unfold u8. rewrite (Z.mod_small (to_semi_oct a)) by lia. done.
Qed.

(** The default tables. *)
Definition default_table : conversion_table :=
  default (Build_conversion_table [] [] [] []) (conversion_table_init 0 0).

Lemma default_table_init : conversion_table_init 0 0 = Some default_table.
Proof. reflexivity. Qed.

(** What the code relies on of g_utf8_strlen(). *)
Class GlibUtf8Laws (U : Utf8) (G : GlibUtf8) : Prop :=
  strlen_points : forall cs, text_points cs -> g_utf8_strlen (utf8 cs) = zlen cs.

Section AddressCodec.
Context `{L : Utf8Laws} `{GL : !GlibUtf8Laws U G}.

(** An alphanumeric address: at most 11 septets, and 22 bytes in UTF-8. *)
Record alphanumeric (addr : sms_address) (cs g : list Z) : Prop := {
  alpha_address : address addr = utf8 cs;
  alpha_points : text_points cs;
  alpha_codes : gsm_codes default_table cs = Some g;
  alpha_septets : 0 < zlen g <= 11;
  alpha_chars : zlen cs <= 11;
  alpha_bytes : zlen (utf8 cs) <= 22;
  alpha_no_nbsp : map plain_space cs = cs
}.

(** The addresses that survive: a number of at most twenty digits, an empty
    one, or, outside of the service centre address, an alphanumeric one. *)
Definition wf_address (sc : bool) (addr : sms_address) : Prop :=
  0 <= number_type addr < 8 /\ 0 <= numbering_plan addr < 16 /\
  if decide (address addr = []) then
    sc = true -> number_type addr = 0 /\ numbering_plan addr = 0
  else if decide (number_type addr = SMS_NUMBER_TYPE_ALPHANUMERIC) then
    sc = false /\ exists cs g, alphanumeric addr cs g
  else number (address addr) /\ zlen (address addr) <= 20.

Lemma digits_address sc addr :
  number (address addr) -> zlen (address addr) <= 20 ->
  number_type addr <> SMS_NUMBER_TYPE_ALPHANUMERIC -> address addr <> [] \/ sc = false ->
  encode_address addr sc =
  Ret (encode_bcd_number (address addr),
       if sc then (zlen (address addr) + 1) / 2 + 1 else zlen (address addr)).
Proof.
  intros Hn Hl Hnt Hne. unfold encode_address. pose proof (zlen_nonneg (address addr)).
  destruct (Z.eqb_spec (zlen (address addr)) 0) as [E|E].
  { destruct (address addr); [|zl]. by destruct Hne as [?| ->]. }
  rewrite (proj2 (Z.eqb_neq _ SMS_NUMBER_TYPE_ALPHANUMERIC)),
    (proj2 (Z.ltb_ge 20 _)) by lia.
  rewrite pack_digits_ok by (try done; change (zlen []) with 0; dzl). simp_res.
  cbn [app]. rewrite zlen_bcd. unfold u8.
  rewrite Z.mod_small by (destruct sc; dzl). done.
Qed.

Lemma alpha_encode addr cs g :
  alphanumeric addr cs g -> number_type addr = SMS_NUMBER_TYPE_ALPHANUMERIC ->
  exists p, encode_address addr false = Ret (p, (zlen g * 7 + 3) / 4) /\ packing 0 g p.
Proof.
  intros [Ha Hp Hc Hg Hcs Hb Hn] Hnt. unfold encode_address. rewrite Ha, Hnt.
  assert (Hlen : zlen (utf8 cs) <> 0).
  { destruct cs as [|c cs]; [injection Hc as <-; change (zlen []) with 0 in Hg; lia|].
    rewrite zlen_utf8_cons by (by apply Forall_cons in Hp as [? _]).
    pose proof (UTF8_LENGTH_pos c). zl. }
  rewrite (proj2 (Z.eqb_neq (zlen _) 0)) by done. rewrite Z.eqb_refl.
  rewrite strlen_points, (proj2 (Z.ltb_ge 11 (zlen cs))) by (done || lia).
  unfold convert_utf8_to_gsm.
  rewrite (convert_utf8_to_gsm_codes default_table);
    [|apply default_table_init|done|right; zl]. simp_res. cbn [conv_res]. rewrite Hc.
  rewrite (proj2 (Z.ltb_ge 11 (zlen g))) by lia.
  destruct (pack_7bit_own_buf_ok g g [] (zlen g) 0 false 0 10) as (p & Heq & Hk).
  - by rewrite app_nil_r.
  - by eapply gsm_codes_septets; [exists 0, 0; apply default_table_init|].
  - intros ->. change (zlen []) with 0 in Hg. lia.
  - lia.
  - lia.
  - apply pack_length_given. lia.
  - change (fill_bits 0) with 0. lia.
  - change (fill_bits 0) with 0 in Hk. exists p. rewrite Heq. simp_res.
    split; [|done]. rewrite Z.quot_div_nonneg by lia. unfold u8.
    rewrite Z.mod_small by dzl. done.
Qed.

(** The digits of an address are read back into its array. *)
Lemma decode_digits pdu off l rest :
  number l -> zlen l <= 20 -> at_pos pdu off (encode_bcd_number l ++ rest) ->
  exists digits,
    extract_bcd_number pdu off (zlen (encode_bcd_number l)) = Ret digits /\
    put ADDRESS_SIZE [] digits = Ret digits /\ cstr digits = l.
Proof.
  intros Hn Hl Hp. unfold extract_bcd_number.
  rewrite (at_pos_slice _ _ _ _ _ Hp) by done. simp_res.
  eexists. split; [reflexivity|]. split.
  - rewrite put_ok; [done|]. fold bcd_chars. rewrite zlen_bcd_chars, zlen_bcd.
    unfold ADDRESS_SIZE. change (zlen []) with 0. dzl.
  - destruct (bcd_back l Hn) as [tl Htl]. unfold bcd_chars in Htl. rewrite Htl.
    by apply cstr_app, number_no_nul.
Qed.

(** The septets of an address are read back as its text. *)
Lemma decode_alpha addr cs g p :
  alphanumeric addr cs g -> packing 0 g p ->
  unpack_7bit p (zlen p) 0 false (zlen g) 0 = Ret g /\
  exists r, convert_gsm_to_utf8 g (zlen g) 0 = Ret r /\ conv_res r = Some (address addr).
Proof.
  intros [Ha Hp Hc Hg Hcs Hb Hn] Hk.
  assert (Hs : septets g) by (eapply gsm_codes_septets; [exists 0, 0; apply default_table_init|done]).
  split.
  - unfold unpack_7bit. rewrite <- (app_nil_r p) at 1.
    pose proof Hk as [Hkb Hkl _].
    rewrite unpack_7bit_own_buf_ok; [|done| | |lia].
    + change (fill_bits 0) with 0. by rewrite (unpacked_packing 0 g) by done.
    + apply (packing_ne 0 g); [lia| |done]. intros ->.
      change (zlen []) with 0 in Hg. lia.
    + change (0 =? 0) with true. cbv iota. rewrite Z.quot_div_nonneg by zl. dzl.
  - pose proof (convert_gsm_to_utf8_points default_table 0 0 g [] default_table_init Hs) as H.
    rewrite app_nil_r in H. unfold convert_gsm_to_utf8. rewrite H.
    rewrite (gsm_points_codes default_table) with (cs := cs) by
      (try done; exists 0, 0; apply default_table_init).
    eexists. split; [reflexivity|]. cbn [conv_res]. by rewrite Hn, Ha.
Qed.

(** The encoder once the address octets are known. *)
Lemma encode_field_ok sc addr p addr_len cap out :
  address addr <> [] \/ sc = false -> encode_address addr sc = Ret (p, addr_len) ->
  (if sc then addr_len - 1 else Z.quot (addr_len + 1) 2) = zlen p ->
  sms_encode_address_field cap out sc addr =
  put cap out ([addr_len; type_octet (number_type addr) (numbering_plan addr)] ++ p).
Proof.
  intros Hne He Hn. unfold sms_encode_address_field.
  assert ((zlen (address addr) =? 0) && sc = false) as ->.
  { destruct Hne as [Hne| ->]; [|apply andb_false_r].
    rewrite (proj2 (Z.eqb_neq _ _)); [done|]. destruct (address addr); [done|zl]. }
  rewrite He. simp_res. rewrite Hn.
  rewrite <- (app_nil_r p) at 1. by rewrite (slice_app [] p []) by done.
Qed.

(** The decoder up to the address octets. *)
Lemma decode_field_head pdu len off sc addr_len nt np p rest :
  0 <= nt < 8 -> 0 <= np < 16 ->
  at_pos pdu off (([addr_len; type_octet nt np] ++ p) ++ rest) ->
  off + zlen ([addr_len; type_octet nt np] ++ p) <= len -> sc = false \/ addr_len <> 0 ->
  (if sc then addr_len - 1 else Z.quot (addr_len + 1) 2) = zlen p ->
  at_pos pdu (off + 2) (p ++ rest) /\
  sms_decode_address_field pdu len off sc =
    if negb (nt =? SMS_NUMBER_TYPE_ALPHANUMERIC) then
      digits ← extract_bcd_number pdu (off + 2) (zlen p);
      array ← put ADDRESS_SIZE [] digits;
      Ret (Build_sms_address nt np (cstr array), off + 2 + zlen p)
    else
      let chars := if sc then Z.quot (zlen p * 8) 7 else Z.quot (addr_len * 4) 7 in
      if chars =? 0 then Ret (Build_sms_address nt np [], off + 2)
      else
        octs ← slice pdu (off + 2) (zlen p);
        res ← unpack_7bit octs (zlen p) 0 false chars 0;
        r ← convert_gsm_to_utf8 res (zlen res) 0;
        match conv_res r with
        | None => Err
        | Some utf8 =>
          _ ← check (zlen utf8 <=? 22);
          array ← put ADDRESS_SIZE [] (utf8 ++ [0]);
          Ret (Build_sms_address nt np (cstr array), off + 2 + Z.quot (addr_len + 1) 2)
        end.
Proof.
  intros Hnt Hnp Hp Hlen Hsc Hn. rewrite <- app_assoc in Hp. cbn [app] in Hp.
  rewrite zlen_app in Hlen. change (zlen [_; _]) with 2 in Hlen.
  pose proof (zlen_nonneg p).
  destruct (next_octet_at _ len _ _ _ Hp) as [He1 Hp1]; [lia|].
  destruct (next_octet_at _ len _ _ _ Hp1) as [He2 Hp2]; [lia|].
  replace (off + 1 + 1) with (off + 2) in * by lia. split; [done|].
  unfold sms_decode_address_field. rewrite He1. simp_res.
  assert (sc && (addr_len =? 0) = false) as ->.
  { destruct Hsc as [->|?]; [done|]. rewrite (proj2 (Z.eqb_neq addr_len 0)) by done.
    apply andb_false_r. }
  rewrite He2. simp_res. rewrite Hn. rewrite (proj2 (Z.ltb_ge _ _)) by lia.
  destruct (type_octet_back nt np Hnt Hnp) as (_ & -> & ->). done.
Qed.

(** An address field of digits, or an empty one outside the service centre
    address. *)
Lemma digits_codec (sc : bool) addr :
  let ty := type_octet (number_type addr) (numbering_plan addr) in
  let n := if sc then (zlen (address addr) + 1) / 2 + 1 else zlen (address addr) in
  0 <= number_type addr < 8 -> 0 <= numbering_plan addr < 16 ->
  number_type addr <> SMS_NUMBER_TYPE_ALPHANUMERIC -> address addr <> [] \/ sc = false ->
  number (address addr) -> zlen (address addr) <= 20 ->
  codec (fun cap out => sms_encode_address_field cap out sc addr)
    (fun pdu len off => sms_decode_address_field pdu len off sc) addr
    ([n; ty] ++ encode_bcd_number (address addr)).
Proof.
  intros ty n Hnt Hnp Hdig Hne Hnum Hl. destruct (type_octet_back _ _ Hnt Hnp) as (Hty & _).
  fold ty in Hty. pose proof (zlen_bcd (address addr)) as Hbcd.
  pose proof (zlen_nonneg (address addr)).
  assert (Hn : (if sc then n - 1 else Z.quot (n + 1) 2) = zlen (encode_bcd_number (address addr))).
  { rewrite Hbcd. unfold n. destruct sc; [lia|]. by rewrite Z.quot_div_nonneg by lia. }
  assert (Hnpos : sc = false \/ n <> 0) by (unfold n; destruct sc; [right; dzl|by left]).
  split.
  - intros cap out. apply encode_field_ok; [done| |done]. by apply digits_address.
  - intros pdu len off rest Hp Hlt.
    destruct (decode_field_head pdu len off sc n _ _ _ rest Hnt Hnp Hp Hlt Hnpos Hn)
      as [Hp2 ->].
    rewrite (proj2 (Z.eqb_neq _ SMS_NUMBER_TYPE_ALPHANUMERIC)) by done. cbn [negb].
    destruct (decode_digits _ _ _ _ Hnum Hl Hp2) as (digits & -> & Hput & Hc). simp_res.
    rewrite Hput. simp_res. rewrite Hc. rewrite zlen_app. change (zlen [n; ty]) with 2.
    destruct addr; cbn. do 2 f_equal. lia.
  - apply Forall_cons. split; [unfold is_byte, n; destruct sc; dzl|].
    apply Forall_cons. split; [done|by apply bcd_bytes].
Qed.

(** An empty alphanumeric field. *)
Lemma empty_alpha_codec addr :
  let ty := type_octet (number_type addr) (numbering_plan addr) in
  0 <= number_type addr < 8 -> 0 <= numbering_plan addr < 16 ->
  number_type addr = SMS_NUMBER_TYPE_ALPHANUMERIC -> address addr = [] ->
  codec (fun cap out => sms_encode_address_field cap out false addr)
    (fun pdu len off => sms_decode_address_field pdu len off false) addr ([0; ty] ++ []).
Proof.
  intros ty Hnt Hnp Ha Hnil. destruct (type_octet_back _ _ Hnt Hnp) as (Hty & _).
  split.
  - intros cap out. apply encode_field_ok; [by right| |done].
    unfold encode_address. by rewrite Hnil.
  - intros pdu len off rest Hp Hlt.
    destruct (decode_field_head pdu len off false 0 _ _ _ rest Hnt Hnp Hp Hlt)
      as [Hp2 ->]; [by left|done|].
    rewrite Ha, Z.eqb_refl. cbn. destruct addr; cbn in *. by subst.
  - apply Forall_cons. split; [done|]. by apply Forall_singleton.
Qed.

Lemma alpha_codec addr cs g : alphanumeric addr cs g ->
  0 <= number_type addr < 8 -> 0 <= numbering_plan addr < 16 ->
  number_type addr = SMS_NUMBER_TYPE_ALPHANUMERIC -> address addr <> [] ->
  exists p,
  zlen p <= 10 /\
  codec (fun cap out => sms_encode_address_field cap out false addr)
    (fun pdu len off => sms_decode_address_field pdu len off false) addr
    ([(zlen g * 7 + 3) / 4; type_octet (number_type addr) (numbering_plan addr)] ++ p).
Proof.
  intros Halpha Hnt Hnp Ha Hne. pose proof Halpha as [Haddr Hp Hc Hg _ Hb _].
  destruct (type_octet_back _ _ Hnt Hnp) as (Hty & _).
  destruct (alpha_encode _ _ _ Halpha Ha) as (p & He & Hk).
  destruct (decode_alpha _ _ _ _ Halpha Hk) as (Hu & r & Hr & Hconv).
  pose proof Hk as [Hkb Hkl _]. exists p. split; [dzl|].
  set (n := (zlen g * 7 + 3) / 4) in *.
  assert (Hn : Z.quot (n + 1) 2 = zlen p).
  { unfold n. rewrite Z.quot_div_nonneg by dzl. dzl. }
  split.
  - intros cap out. apply encode_field_ok; [by left|done|done].
  - intros pdu len off rest Hpos Hlt.
    destruct (decode_field_head pdu len off false n _ _ _ rest Hnt Hnp Hpos Hlt)
      as [Hp2 ->]; [by left|done|].
    rewrite Ha, Z.eqb_refl. cbn [negb].
    assert (Z.quot (n * 4) 7 = zlen g) as ->.
    { unfold n. rewrite Z.quot_div_nonneg by dzl. dzl. }
    rewrite (proj2 (Z.eqb_neq (zlen g) 0)) by lia.
    rewrite (at_pos_slice _ _ _ _ _ Hp2) by done. simp_res. rewrite Hu. simp_res.
    rewrite Hr. simp_res. rewrite Hconv, (proj2 (Z.leb_le _ 22)) by (rewrite Haddr; lia).
    simp_res. rewrite put_ok by (rewrite Haddr; unfold ADDRESS_SIZE; zl). simp_res.
    cbn [app]. rewrite cstr_app by (rewrite Haddr; by apply utf8_no_nul).
    rewrite Hn, !zlen_cons.
    destruct addr; cbn in *. subst. do 2 f_equal. lia.
  - apply Forall_cons. split; [unfold is_byte, n; dzl|].
    apply Forall_cons. by split.
Qed.

(** Every well-formed address has an encoding. *)
Lemma address_codec sc addr : wf_address sc addr ->
  exists bs,
    codec (fun cap out => sms_encode_address_field cap out sc addr)
      (fun pdu len off => sms_decode_address_field pdu len off sc) addr bs /\
    1 <= zlen bs <= 12.
Proof.
  intros (Hnt & Hnp & Hwf). pose proof (zlen_bcd (address addr)).
  destruct (decide (address addr = [])) as [Hnil|Hne];
    [destruct sc|destruct (decide (number_type addr = SMS_NUMBER_TYPE_ALPHANUMERIC))
      as [Halpha|Hdigits]].
  - (* no service centre address *)
    exists [0]. split; [|by vm_compute]. split; [| |by apply Forall_singleton].
    + intros cap out. unfold sms_encode_address_field. by rewrite Hnil.
    + intros pdu len off rest Hp Hlt. change (zlen [0]) with 1 in *.
      apply (next_octet_at _ len) in Hp as [He _]; [|lia].
      unfold sms_decode_address_field. rewrite He. simp_res.
      destruct Hwf as [Ha Hb]; [done|]. destruct addr; cbn in *. by subst.
  - destruct (decide (number_type addr = SMS_NUMBER_TYPE_ALPHANUMERIC)) as [Ha|Ha];
      [eexists; split; [by apply empty_alpha_codec|by vm_compute]|].
    eexists; split; [apply digits_codec; auto|]; rewrite Hnil;
      [by apply Forall_nil|done|by vm_compute].
  - destruct Hwf as (-> & cs & g & Hwf).
    destruct (alpha_codec _ _ _ Hwf Hnt Hnp Halpha Hne) as (p & Hl & Hk).
    eexists. split; [exact Hk|]. zl.
  - destruct Hwf as [Hnum Hl].
    eexists. split; [by apply digits_codec; auto|].
    rewrite zlen_app, H. change (zlen [_; _]) with 2. dzl.
Qed.
End AddressCodec.

(** * What the data coding scheme says of the length *)

Definition dcs_agrees (dcs udl : Z) : bool :=
  match sms_dcs_decode dcs with
  | Some (cls, ch, comp, del) =>
      bool_decide (sms_mwi_dcs_decode dcs = None) &&
      (sms_udl_in_bytes udl dcs =?
        if bool_decide (ch = SMS_CHARSET_7BIT) && negb comp
        then (udl + 1) * 7 / 8 else udl)
  | None => true
  end &&
  match sms_mwi_dcs_decode dcs with
  | Some (ty, ch, act, dis) => sms_udl_in_bytes udl dcs =?
      if bool_decide (ch = SMS_CHARSET_7BIT) then (udl + 1) * 7 / 8 else udl
  | None => true
  end.

Lemma dcs_agrees_all :
  forallb (fun dcs => forallb (dcs_agrees dcs) (seqZ 0 256)) (seqZ 0 256) = true.
Proof. vm_compute. reflexivity. Qed.

(** [sms_udl_in_bytes] agrees with the two DCS decoders for every DCS and
    user data length: septets are packed exactly when the scheme is
    uncompressed 7 bit text, and otherwise the length is in octets; no DCS is
    accepted by both decoders. *)
Theorem udl_in_bytes_agrees dcs udl :
  is_byte dcs -> is_byte udl ->
  (forall cls ch comp del, sms_dcs_decode dcs = Some (cls, ch, comp, del) ->
     sms_mwi_dcs_decode dcs = None /\
     sms_udl_in_bytes udl dcs =
       if bool_decide (ch = SMS_CHARSET_7BIT) && negb comp
       then (udl + 1) * 7 / 8 else udl) /\
  (forall ty ch act dis, sms_mwi_dcs_decode dcs = Some (ty, ch, act, dis) ->
     sms_udl_in_bytes udl dcs =
       if bool_decide (ch = SMS_CHARSET_7BIT) then (udl + 1) * 7 / 8 else udl).
Proof.
  intros Hd Hu.
  pose proof (byte_forall _ _ (byte_forall _ _ dcs_agrees_all Hd) Hu) as H.
  unfold dcs_agrees in H. apply andb_true_iff in H as [H1 H2].
  split.
  - intros cls ch comp del E. rewrite E in H1.
    apply andb_true_iff in H1 as [Hn He]. apply bool_decide_eq_true in Hn.
    by apply Z.eqb_eq in He.
  - intros ty ch act dis E. rewrite E in H2. by apply Z.eqb_eq in H2.
Qed.

Lemma udl_in_bytes_agrees_witness :
  sms_dcs_decode 0x11 = Some (SMS_CLASS_1, SMS_CHARSET_7BIT, false, false) /\
  sms_udl_in_bytes 160 0x11 = 140.
Proof.
  split; [reflexivity|].
  destruct (udl_in_bytes_agrees 0x11 160) as [H _].
  - split; [discriminate|reflexivity].
  - split; [discriminate|reflexivity].
  - exact (proj2 (H SMS_CLASS_1 SMS_CHARSET_7BIT false false eq_refl)).
Defined.

(** * An instance of the interface, and what goes wrong *)

(** The bytes that start a character. *)
#[export] Instance glib_utf8 : GlibUtf8 :=
  fun s => zlen (filter (fun b => Z.land b 0xC0 <> 0x80) s).

Lemma filter_nil_continuation b : 128 <= b < 192 ->
  Z.land b 0xC0 = 0x80.
Proof.
  intros Hb. pose proof (range_forall (fun b => Z.land b 0xC0 =? 0x80) 128 64 b) as H.
  rewrite Z.eqb_eq in H. apply H; [done|lia].
Qed.

Lemma filter_start b : 0 <= b < 128 \/ 192 <= b < 256 -> Z.land b 0xC0 <> 0x80.
Proof.
  intros Hb E. pose proof (byte_forall (fun b => (128 <=? b) && (b <? 192) ||
    negb (Z.land b 0xC0 =? 0x80)) b eq_refl ltac:(unfold is_byte; lia)) as H.
  cbv beta in H. rewrite E, orb_false_r in H. bool_to_prop. lia.
Qed.

#[export] Instance glib_utf8_laws : GlibUtf8Laws utf8_codec glib_utf8.
Proof.
  intros cs Hcs. unfold g_utf8_strlen, glib_utf8, utf8.
  induction Hcs as [|c cs [Hc Hb] Hcs IH]; [done|]. cbn [flat_map].
  rewrite filter_app, zlen_app, IH, zlen_cons. f_equal.
  unfold bmp_scalar in Hb. unfold l_utf8_from_wchar, utf8_codec, enc_utf8.
  repeat case_cmp; bool_to_prop;
    rewrite filter_cons_True by (apply filter_start; dzl);
    rewrite ?filter_cons_False by (intros Hn; apply Hn, filter_nil_continuation; dzl);
    done.
Qed.

Section Safety.
Context `{L : Utf8Laws} `{G : GlibUtf8}.

(** A number in an address field overruns the 23 characters of
    [address] exactly when it has twelve or more octets, the fields lying
    within the PDU; the decoder checks the length of the PDU only. *)
Theorem address_field_overflow pdu off len (sc : bool) addr_len nt np p rest :
  0 <= nt < 8 -> 0 <= np < 16 -> nt <> SMS_NUMBER_TYPE_ALPHANUMERIC ->
  at_pos pdu off (([addr_len; type_octet nt np] ++ p) ++ rest) ->
  off + zlen ([addr_len; type_octet nt np] ++ p) <= len -> sc = false \/ addr_len <> 0 ->
  (if sc then addr_len - 1 else Z.quot (addr_len + 1) 2) = zlen p ->
  sms_decode_address_field pdu len off sc = Ub <-> 12 <= zlen p.
Proof.
  intros Hnt Hnp Hne Hp Hlen Hsc Hn.
  destruct (decode_field_head _ _ _ _ _ _ _ _ _ Hnt Hnp Hp Hlen Hsc Hn) as [Hp2 ->].
  rewrite (proj2 (Z.eqb_neq _ _)) by done. cbn [negb]. unfold extract_bcd_number.
  rewrite (at_pos_slice _ _ _ _ _ Hp2) by done. simp_res. fold bcd_chars. unfold put.
  rewrite zlen_bcd_chars. change (zlen []) with 0. unfold ADDRESS_SIZE.
  destruct (Z.leb_spec (0 + (2 * zlen p + 1)) 23); simp_res; split; try done; lia.
Qed.
End Safety.

Lemma address_field_overflow_witness :
  sms_decode_address_field ([24; 0x91] ++ replicate 12 0x21 ++ [0]) 15 0 false = Ub.
Proof.
  apply (address_field_overflow _ 0 15 false 24 1 1 (replicate 12 0x21) [0]);
    try (split; done); try done; try (by left); try (by vm_compute).
Defined.
