(* ===== verification/SmsPdu.v ===== *)
(** The short message PDUs of src/src/smsutil.c: one record per PDU type, its
    encoder and decoder, and [sms_encode] and [sms_decode] that dispatch on the
    type.  The union of struct sms is an inductive type; [sms_decode] clears
    the struct first, so that what a decoder does not assign is zero. *)
From S2P Require Import Prelude Charset SevenBit SmsField.

(** * Data *)

Record sms_deliver := {
  deliver_mms : bool; deliver_sri : bool; deliver_udhi : bool; deliver_rp : bool;
  deliver_oaddr : sms_address;
  deliver_pid : Z; deliver_dcs : Z;
  deliver_scts : sms_scts;
  deliver_udl : Z;
  deliver_ud : list Z  (* 140 octets *)
}.

Record sms_deliver_err_report := {
  derr_udhi : bool; derr_fcs : Z; derr_pi : Z; derr_pid : Z; derr_dcs : Z;
  derr_udl : Z;
  derr_ud : list Z  (* 158 *)
}.

Record sms_deliver_ack_report := {
  dack_udhi : bool; dack_pi : Z; dack_pid : Z; dack_dcs : Z; dack_udl : Z;
  dack_ud : list Z  (* 159 *)
}.

Record sms_command := {
  cmd_udhi : bool; cmd_srr : bool; cmd_mr : Z; cmd_pid : Z; cmd_ct : Z; cmd_mn : Z;
  cmd_daddr : sms_address;
  cmd_cdl : Z;
  cmd_cd : list Z  (* 156 *)
}.

Record sms_status_report := {
  sr_udhi : bool; sr_mms : bool; sr_srq : bool; sr_mr : Z;
  sr_raddr : sms_address;
  sr_scts : sms_scts;
  sr_dt : sms_scts;
  sr_st : Z; sr_pi : Z; sr_pid : Z; sr_dcs : Z; sr_udl : Z;
  sr_ud : list Z  (* 143 *)
}.

Record sms_submit := {
  submit_rd : bool; submit_rp : bool; submit_udhi : bool; submit_srr : bool;
  submit_mr : Z;
  submit_daddr : sms_address;
  submit_pid : Z; submit_dcs : Z;
  submit_vp : sms_validity_period;  (* with the vpf field *)
  submit_udl : Z;
  submit_ud : list Z  (* 140 *)
}.

Record sms_submit_ack_report := {
  sack_udhi : bool; sack_pi : Z; sack_scts : sms_scts; sack_pid : Z; sack_dcs : Z;
  sack_udl : Z;
  sack_ud : list Z  (* 152 *)
}.

Record sms_submit_err_report := {
  serr_udhi : bool; serr_fcs : Z; serr_pi : Z; serr_scts : sms_scts;
  serr_pid : Z; serr_dcs : Z; serr_udl : Z;
  serr_ud : list Z  (* 151 *)
}.

Inductive sms_tpdu :=
  | SMS_TYPE_DELIVER (deliver : sms_deliver)
  | SMS_TYPE_DELIVER_REPORT_ACK (deliver_ack_report : sms_deliver_ack_report)
  | SMS_TYPE_DELIVER_REPORT_ERROR (deliver_err_report : sms_deliver_err_report)
  | SMS_TYPE_STATUS_REPORT (status_report : sms_status_report)
  | SMS_TYPE_SUBMIT (submit : sms_submit)
  | SMS_TYPE_SUBMIT_REPORT_ACK (submit_ack_report : sms_submit_ack_report)
  | SMS_TYPE_SUBMIT_REPORT_ERROR (submit_err_report : sms_submit_err_report)
  | SMS_TYPE_COMMAND (command : sms_command).

Record sms := { sc_addr : sms_address; tpdu : sms_tpdu }.

(** sizeof of the user data arrays *)
Definition DELIVER_UD : Z := 140.
Definition DELIVER_ERR_UD : Z := 158.
Definition DELIVER_ACK_UD : Z := 159.
Definition COMMAND_CD : Z := 156.
Definition STATUS_REPORT_UD : Z := 143.
Definition SUBMIT_UD : Z := 140.
Definition SUBMIT_ACK_UD : Z := 152.
Definition SUBMIT_ERR_UD : Z := 151.

Definition zeros (n : Z) : list Z := replicate (Z.to_nat n) 0.

(** [oct |= 1 << n] under a condition *)
Definition flag (b : bool) (n : Z) : Z := if b then Z.shiftl 1 n else 0.

Section Pdu.
Context `{U : Utf8} `{G : GlibUtf8}.

(** * Encoders *)

(** [memcpy(pdu + *offset, ud, n)] *)
Definition put_ud (cap : Z) (pdu ud : list Z) (n : Z) : res (list Z) :=
  bs ← slice ud 0 n; put cap pdu bs.

(** The end of the reports: what the parameter indicator announces. *)
Definition put_pi_fields (cap : Z) (pdu : list Z) (pi pid dcs udl : Z) (ud : list Z)
    : res (list Z) :=
  pdu ← (if has pi 0x1 then set_octet cap pdu pid else Ret pdu);
  pdu ← (if has pi 0x2 then set_octet cap pdu dcs else Ret pdu);
  if has pi 0x4 then
    pdu ← set_octet cap pdu udl;
    put_ud cap pdu ud (sms_udl_in_bytes udl dcs)
  else Ret pdu.

Definition encode_deliver (cap : Z) (pdu : list Z) (m : sms_deliver) : res (list Z) :=
  let oct := Z.lor (Z.lor (Z.lor (flag (negb (deliver_mms m)) 2)
               (flag (deliver_sri m) 5)) (flag (deliver_rp m) 7))
               (flag (deliver_udhi m) 6) in
  pdu ← set_octet cap pdu oct;
  pdu ← sms_encode_address_field cap pdu false (deliver_oaddr m);
  pdu ← set_octet cap pdu (deliver_pid m);
  pdu ← set_octet cap pdu (deliver_dcs m);
  pdu ← sms_encode_scts cap pdu (deliver_scts m);
  pdu ← set_octet cap pdu (deliver_udl m);
  put_ud cap pdu (deliver_ud m) (sms_udl_in_bytes (deliver_udl m) (deliver_dcs m)).

Definition encode_submit_ack_report (cap : Z) (pdu : list Z)
    (m : sms_submit_ack_report) : res (list Z) :=
  pdu ← set_octet cap pdu (Z.lor 1 (flag (sack_udhi m) 6));
  pdu ← set_octet cap pdu (sack_pi m);
  pdu ← sms_encode_scts cap pdu (sack_scts m);
  put_pi_fields cap pdu (sack_pi m) (sack_pid m) (sack_dcs m) (sack_udl m) (sack_ud m).

Definition encode_submit_err_report (cap : Z) (pdu : list Z)
    (m : sms_submit_err_report) : res (list Z) :=
  pdu ← set_octet cap pdu (Z.lor 1 (flag (serr_udhi m) 6));
  pdu ← set_octet cap pdu (serr_fcs m);
  pdu ← set_octet cap pdu (serr_pi m);
  pdu ← sms_encode_scts cap pdu (serr_scts m);
  put_pi_fields cap pdu (serr_pi m) (serr_pid m) (serr_dcs m) (serr_udl m) (serr_ud m).

Definition encode_status_report (cap : Z) (pdu : list Z) (m : sms_status_report)
    : res (list Z) :=
  let octet := Z.lor (Z.lor (Z.lor 2 (flag (negb (sr_mms m)) 2))
                 (flag (negb (sr_srq m)) 5)) (flag (negb (sr_udhi m)) 6) in
  pdu ← set_octet cap pdu octet;
  pdu ← set_octet cap pdu (sr_mr m);
  pdu ← sms_encode_address_field cap pdu false (sr_raddr m);
  pdu ← sms_encode_scts cap pdu (sr_scts m);
  pdu ← sms_encode_scts cap pdu (sr_dt m);
  pdu ← set_octet cap pdu (u8 (sr_st m));
  if sr_pi m =? 0 then Ret pdu
  else
    pdu ← set_octet cap pdu (sr_pi m);
    put_pi_fields cap pdu (sr_pi m) (sr_pid m) (sr_dcs m) (sr_udl m) (sr_ud m).

Definition encode_deliver_ack_report (cap : Z) (pdu : list Z)
    (m : sms_deliver_ack_report) : res (list Z) :=
  pdu ← set_octet cap pdu (flag (dack_udhi m) 6);
  pdu ← set_octet cap pdu (dack_pi m);
  put_pi_fields cap pdu (dack_pi m) (dack_pid m) (dack_dcs m) (dack_udl m) (dack_ud m).

Definition encode_deliver_err_report (cap : Z) (pdu : list Z)
    (m : sms_deliver_err_report) : res (list Z) :=
  pdu ← set_octet cap pdu (flag (derr_udhi m) 6);
  pdu ← set_octet cap pdu (derr_fcs m);
  pdu ← set_octet cap pdu (derr_pi m);
  put_pi_fields cap pdu (derr_pi m) (derr_pid m) (derr_dcs m) (derr_udl m) (derr_ud m).

Definition encode_submit (cap : Z) (pdu : list Z) (m : sms_submit) : res (list Z) :=
  let octet := Z.lor (Z.lor (Z.lor (Z.lor (Z.lor 1 (flag (submit_rd m) 2))
                 (flag (submit_rp m) 7)) (Z.shiftl (vpf_of (submit_vp m)) 3))
                 (flag (submit_udhi m) 6)) (flag (submit_srr m) 5) in
  pdu ← set_octet cap pdu octet;
  pdu ← set_octet cap pdu (submit_mr m);
  pdu ← sms_encode_address_field cap pdu false (submit_daddr m);
  pdu ← set_octet cap pdu (submit_pid m);
  pdu ← set_octet cap pdu (submit_dcs m);
  pdu ← encode_validity_period cap pdu (submit_vp m);
  pdu ← set_octet cap pdu (submit_udl m);
  put_ud cap pdu (submit_ud m) (sms_udl_in_bytes (submit_udl m) (submit_dcs m)).

Definition encode_command (cap : Z) (pdu : list Z) (m : sms_command) : res (list Z) :=
  let octet := Z.lor (Z.lor 2 (flag (cmd_udhi m) 6)) (flag (cmd_srr m) 5) in
  pdu ← set_octet cap pdu octet;
  pdu ← set_octet cap pdu (cmd_mr m);
  pdu ← set_octet cap pdu (cmd_pid m);
  pdu ← set_octet cap pdu (u8 (cmd_ct m));
  pdu ← set_octet cap pdu (cmd_mn m);
  pdu ← sms_encode_address_field cap pdu false (cmd_daddr m);
  pdu ← set_octet cap pdu (cmd_cdl m);
  put_ud cap pdu (cmd_cd m) (cmd_cdl m).

(** The switch of [sms_encode]. *)
Definition encode_tpdu (cap : Z) (pdu : list Z) (t : sms_tpdu) : res (list Z) :=
  match t with
  | SMS_TYPE_DELIVER d => encode_deliver cap pdu d
  | SMS_TYPE_DELIVER_REPORT_ACK d => encode_deliver_ack_report cap pdu d
  | SMS_TYPE_DELIVER_REPORT_ERROR d => encode_deliver_err_report cap pdu d
  | SMS_TYPE_STATUS_REPORT d => encode_status_report cap pdu d
  | SMS_TYPE_SUBMIT d => encode_submit cap pdu d
  | SMS_TYPE_SUBMIT_REPORT_ACK d => encode_submit_ack_report cap pdu d
  | SMS_TYPE_SUBMIT_REPORT_ERROR d => encode_submit_err_report cap pdu d
  | SMS_TYPE_COMMAND d => encode_command cap pdu d
  end.

(** The octets written to [pdu], a buffer of [cap] octets, and [*tpdu_len]. *)
Definition sms_encode (cap : Z) (m : sms) : res (list Z * Z) :=
  pdu ← match tpdu m with
        | SMS_TYPE_DELIVER _ | SMS_TYPE_SUBMIT _ | SMS_TYPE_COMMAND _
        | SMS_TYPE_STATUS_REPORT _ => sms_encode_address_field cap [] true (sc_addr m)
        | _ => Ret []
        end;
  let tpdu_start := zlen pdu in
  pdu ← encode_tpdu cap pdu (tpdu m);
  Ret (pdu, zlen pdu - tpdu_start).

(** * Decoders *)

(** The user data: [expected] octets, copied into an array of [size]. *)
Definition get_ud (pdu : list Z) (len offset expected size : Z) : res (list Z) :=
  if len - offset <? expected then Err
  else src ← slice pdu offset expected; blit (zeros size) 0 src.

(** The end of the reports: pid, dcs, udl, ud. *)
Definition get_pi_fields (pdu : list Z) (len offset pi size : Z)
    : res (Z * Z * Z * list Z) :=
  '(pid, offset) ← (if has pi 0x01 then next_octet pdu len offset else Ret (0, offset));
  '(dcs, offset) ← (if has pi 0x02 then next_octet pdu len offset else Ret (0, offset));
  if has pi 0x04 then
    '(udl, offset) ← next_octet pdu len offset;
    ud ← get_ud pdu len offset (sms_udl_in_bytes udl dcs) size;
    Ret (pid, dcs, udl, ud)
  else Ret (pid, dcs, 0, zeros size).

Definition decode_deliver (pdu : list Z) (len : Z) : res sms_deliver :=
  '(octet, offset) ← next_octet pdu len 0;
  '(oaddr, offset) ← sms_decode_address_field pdu len offset false;
  '(pid, offset) ← next_octet pdu len offset;
  '(dcs, offset) ← next_octet pdu len offset;
  '(scts, offset) ← sms_decode_scts pdu len offset;
  '(udl, offset) ← next_octet pdu len offset;
  ud ← get_ud pdu len offset (sms_udl_in_bytes udl dcs) DELIVER_UD;
  Ret {| deliver_mms := negb (is_bit_set octet 2); deliver_sri := is_bit_set octet 5;
         deliver_udhi := is_bit_set octet 6; deliver_rp := is_bit_set octet 7;
         deliver_oaddr := oaddr; deliver_pid := pid; deliver_dcs := dcs;
         deliver_scts := scts; deliver_udl := udl; deliver_ud := ud |}.

Definition decode_submit_report (pdu : list Z) (len : Z) : res sms_tpdu :=
  '(octet, offset) ← next_octet pdu len 0;
  let udhi := is_bit_set octet 6 in
  '(octet, offset) ← next_octet pdu len offset;
  if 0x80 <=? octet then
    let fcs := octet in
    '(octet, offset) ← next_octet pdu len offset;
    let pi := Z.land octet 0x07 in
    '(scts, offset) ← sms_decode_scts pdu len offset;
    '(pid, dcs, udl, ud) ← get_pi_fields pdu len offset pi SUBMIT_ERR_UD;
    Ret (SMS_TYPE_SUBMIT_REPORT_ERROR
      {| serr_udhi := udhi; serr_fcs := fcs; serr_pi := pi; serr_scts := scts;
         serr_pid := pid; serr_dcs := dcs; serr_udl := udl; serr_ud := ud |})
  else
    let pi := Z.land octet 0x07 in
    '(scts, offset) ← sms_decode_scts pdu len offset;
    '(pid, dcs, udl, ud) ← get_pi_fields pdu len offset pi SUBMIT_ACK_UD;
    Ret (SMS_TYPE_SUBMIT_REPORT_ACK
      {| sack_udhi := udhi; sack_pi := pi; sack_scts := scts;
         sack_pid := pid; sack_dcs := dcs; sack_udl := udl; sack_ud := ud |}).

Definition decode_status_report (pdu : list Z) (len : Z) : res sms_status_report :=
  '(octet, offset) ← next_octet pdu len 0;
  let result := Build_sms_status_report (is_bit_set octet 6)
                  (negb (is_bit_set octet 2)) (is_bit_set octet 5) in
  '(mr, offset) ← next_octet pdu len offset;
  '(raddr, offset) ← sms_decode_address_field pdu len offset false;
  '(scts, offset) ← sms_decode_scts pdu len offset;
  '(dt, offset) ← sms_decode_scts pdu len offset;
  '(st, offset) ← next_octet pdu len offset;
  let result := result mr raddr scts dt st in
  if len - offset =? 0 then Ret (result 0 0 0 0 (zeros STATUS_REPORT_UD))
  else
    '(octet, offset) ← next_octet pdu len offset;
    let pi := Z.land octet 0x07 in
    '(pid, dcs, udl, ud) ← get_pi_fields pdu len offset pi STATUS_REPORT_UD;
    Ret (result pi pid dcs udl ud).

Definition decode_deliver_report (pdu : list Z) (len : Z) : res sms_tpdu :=
  '(octet, offset) ← next_octet pdu len 0;
  let udhi := is_bit_set octet 6 in
  '(octet, offset) ← next_octet pdu len offset;
  if 0x80 <=? octet then
    let fcs := octet in
    '(octet, offset) ← next_octet pdu len offset;
    let pi := Z.land octet 0x07 in
    '(pid, dcs, udl, ud) ← get_pi_fields pdu len offset pi DELIVER_ERR_UD;
    Ret (SMS_TYPE_DELIVER_REPORT_ERROR
      {| derr_udhi := udhi; derr_fcs := fcs; derr_pi := pi; derr_pid := pid;
         derr_dcs := dcs; derr_udl := udl; derr_ud := ud |})
  else
    let pi := Z.land octet 0x07 in
    '(pid, dcs, udl, ud) ← get_pi_fields pdu len offset pi DELIVER_ACK_UD;
    Ret (SMS_TYPE_DELIVER_REPORT_ACK
      {| dack_udhi := udhi; dack_pi := pi; dack_pid := pid;
         dack_dcs := dcs; dack_udl := udl; dack_ud := ud |}).

(** The head that [decode_submit] and [sms_decode_unpacked_stk_pdu] share: the
    fields before the user data length. *)
Definition decode_submit_head (pdu : list Z) (len octet offset : Z)
    (dcs_override : option Z) : res ((Z -> list Z -> sms_submit) * Z * Z) :=
  '(mr, offset) ← next_octet pdu len offset;
  '(daddr, offset) ← sms_decode_address_field pdu len offset false;
  '(pid, offset) ← next_octet pdu len offset;
  '(dcs, offset) ← next_octet pdu len offset;
  let dcs := default dcs dcs_override in
  '(vp, offset) ← decode_validity_period pdu len offset (bit_field octet 3 2);
  Ret (Build_sms_submit (is_bit_set octet 2) (is_bit_set octet 7)
         (is_bit_set octet 6) (is_bit_set octet 5) mr daddr pid dcs vp, dcs, offset).

Definition sms_decode_unpacked_stk_pdu (pdu : list Z) (len : Z) : res sms_submit :=
  '(octet, offset) ← next_octet pdu len 0;
  if negb (Z.land octet 0x3 =? 1) then Err
  else
    '(result, _, offset) ← decode_submit_head pdu len octet offset (Some 0xf0);
    '(udl, offset) ← next_octet pdu len offset;
    if len - offset <? udl then Err
    else
      inp ← slice pdu offset udl;
      ud ← match pack_7bit_own_buf inp udl 0 false 0 SUBMIT_UD with
           | Ret packed => blit (zeros SUBMIT_UD) 0 packed
           | Err => Ret (zeros SUBMIT_UD)
           | Ub => Ub
           end;
      Ret (result udl ud).

Definition decode_submit (pdu : list Z) (len : Z) : res sms_submit :=
  '(octet, offset) ← next_octet pdu len 0;
  '(result, dcs, offset) ← decode_submit_head pdu len octet offset None;
  '(udl, offset) ← next_octet pdu len offset;
  let expected := sms_udl_in_bytes udl dcs in
  if len - offset <? expected then Err
  else if SUBMIT_UD <? expected then Err
  else
    src ← slice pdu offset expected;
    ud ← blit (zeros SUBMIT_UD) 0 src;
    Ret (result udl ud).

Definition decode_command (pdu : list Z) (len : Z) : res sms_command :=
  '(octet, offset) ← next_octet pdu len 0;
  '(mr, offset) ← next_octet pdu len offset;
  '(pid, offset) ← next_octet pdu len offset;
  '(ct, offset) ← next_octet pdu len offset;
  '(mn, offset) ← next_octet pdu len offset;
  '(daddr, offset) ← sms_decode_address_field pdu len offset false;
  '(cdl, offset) ← next_octet pdu len offset;
  cd ← get_ud pdu len offset cdl COMMAND_CD;
  Ret {| cmd_udhi := is_bit_set octet 6; cmd_srr := is_bit_set octet 5;
         cmd_mr := mr; cmd_pid := pid; cmd_ct := ct; cmd_mn := mn;
         cmd_daddr := daddr; cmd_cdl := cdl; cmd_cd := cd |}.

Definition no_address : sms_address :=
  {| number_type := 0; numbering_plan := 0; address := [] |}.

(** The switch of [sms_decode]; type 3, reserved, is treated as deliver. *)
Definition decode_tpdu (type : Z) (pdu : list Z) (tpdu_len : Z) : res sms_tpdu :=
  if (type =? 0) || (type =? 3) then
    d ← decode_deliver pdu tpdu_len; Ret (SMS_TYPE_DELIVER d)
  else if type =? 1 then decode_submit_report pdu tpdu_len
  else if type =? 2 then
    d ← decode_status_report pdu tpdu_len; Ret (SMS_TYPE_STATUS_REPORT d)
  else if type =? 4 then decode_deliver_report pdu tpdu_len
  else if type =? 5 then d ← decode_submit pdu tpdu_len; Ret (SMS_TYPE_SUBMIT d)
  else if type =? 6 then d ← decode_command pdu tpdu_len; Ret (SMS_TYPE_COMMAND d)
  else Err.

Definition sms_decode (pdu : list Z) (len : Z) (outgoing : bool) (tpdu_len : Z)
    : res sms :=
  if len =? 0 then Err
  else
    '(sc, offset) ← (if tpdu_len <? len then sms_decode_address_field pdu len 0 true
                     else Ret (no_address, 0));
    if len - offset <? tpdu_len then Err
    else
      octet ← rd pdu offset;
      let type := Z.lor (Z.land octet 0x3) (if outgoing then 0x4 else 0) in
      t ← decode_tpdu type (drop (Z.to_nat offset) pdu) tpdu_len;
      Ret {| sc_addr := sc; tpdu := t |}.
End Pdu.

(** * Encoding and decoding are inverse *)

(** The user data array: [n] octets of data and zeros. *)
Record wf_ud (n size : Z) (ud : list Z) : Prop := {
  wf_ud_fits : 0 <= n <= size;
  wf_ud_size : zlen ud = size;
  wf_ud_bytes : bytes (take (Z.to_nat n) ud);
  wf_ud_rest : drop (Z.to_nat n) ud = zeros (size - n)
}.

Lemma zlen_zeros n : 0 <= n -> zlen (zeros n) = n.
Proof. intros. unfold zeros. rewrite zlen_replicate. lia. Qed.

Lemma wf_ud_zeros size : 0 <= size -> wf_ud 0 size (zeros size).
Proof.
  intros. split; [lia|by apply zlen_zeros|by apply Forall_nil|].
  by rewrite Z.sub_0_r.
Qed.

Lemma wf_ud_len n size ud : wf_ud n size ud -> zlen (take (Z.to_nat n) ud) = n.
Proof. intros [? ? _ _]. zl. Qed.

Lemma put_ud_ok cap out n size ud :
  wf_ud n size ud -> put_ud cap out ud n = put cap out (take (Z.to_nat n) ud).
Proof.
  intros [Hn Hs _ _]. unfold put_ud, slice.
  rewrite !(proj2 (Z.leb_le _ _)) by lia. cbn [andb]. simp_res. by rewrite drop_0.
Qed.

Lemma blit_zeros n size ud :
  wf_ud n size ud -> blit (zeros size) 0 (take (Z.to_nat n) ud) = Ret ud.
Proof.
  intros Hwf. pose proof (wf_ud_len _ _ _ Hwf) as Hl. destruct Hwf as [Hn Hs _ Hr].
  unfold blit. rewrite Hl, zlen_zeros by lia. rewrite !(proj2 (Z.leb_le _ _)) by lia.
  cbn [andb]. f_equal. rewrite take_0. cbn [app].
  transitivity (take (Z.to_nat n) ud ++ drop (Z.to_nat n) ud); [|apply take_drop].
  f_equal. rewrite Hr.
  unfold zeros. rewrite drop_replicate. f_equal. unfold zlen in *. lia.
Qed.

Lemma get_ud_ok pdu len off n size ud rest :
  wf_ud n size ud -> at_pos pdu off (take (Z.to_nat n) ud ++ rest) -> off + n <= len ->
  get_ud pdu len off n size = Ret ud.
Proof.
  intros Hwf Hp Hlt. unfold get_ud. rewrite (proj2 (Z.ltb_ge _ _)) by lia.
  rewrite (at_pos_slice _ _ _ _ _ Hp) by (symmetry; by eapply wf_ud_len). simp_res.
  by apply blit_zeros.
Qed.


(** The octets announced by the parameter indicator of a report. *)
Definition pi_octets (pi pid dcs udl : Z) (ud : list Z) : list Z :=
  (if has pi 0x1 then [pid] else []) ++ (if has pi 0x2 then [dcs] else []) ++
  (if has pi 0x4 then udl :: take (Z.to_nat (sms_udl_in_bytes udl dcs)) ud else []).

(** The fields of a report that its parameter indicator leaves out are zero. *)
Record wf_pi (size pi pid dcs udl : Z) (ud : list Z) : Prop := {
  wf_pi_range : 0 <= pi < 8;
  wf_pi_pid : is_byte pid /\ (has pi 0x1 = false -> pid = 0);
  wf_pi_dcs : is_byte dcs /\ (has pi 0x2 = false -> dcs = 0);
  wf_pi_udl : is_byte udl /\ (has pi 0x4 = false -> udl = 0 /\ ud = zeros size);
  wf_pi_ud : has pi 0x4 = true -> wf_ud (sms_udl_in_bytes udl dcs) size ud
}.

Lemma put_pi_ok cap out size pi pid dcs udl ud :
  wf_pi size pi pid dcs udl ud -> zlen out <= cap ->
  put_pi_fields cap out pi pid dcs udl ud = put cap out (pi_octets pi pid dcs udl ud).
Proof.
  intros [_ _ _ _ Hud] Hcap. unfold put_pi_fields, pi_octets, set_octet.
  rewrite put_if by done. apply put_chain. clear out Hcap. intros out Hcap.
  rewrite put_if by done. apply put_chain. clear out Hcap. intros out Hcap.
  destruct (has pi 0x4); [|by rewrite put_nil].
  apply (put_chain cap out [udl]). intros. by apply (put_ud_ok _ _ _ size), Hud.
Qed.

(** A decoder reads an octet that a bit of the indicator announces. *)
Lemma next_octet_if (b : bool) pdu len off x rest :
  at_pos pdu off ((if b then [x] else []) ++ rest) ->
  off + zlen (if b then [x] else []) <= len -> (b = false -> x = 0) ->
  (if b then next_octet pdu len off else Ret (0, off)) =
    Ret (x, off + zlen (if b then [x] else [])) /\
  at_pos pdu (off + zlen (if b then [x] else [])) rest.
Proof.
  intros Hp Hl Hx. destruct b.
  - change (zlen [x]) with 1 in *. apply next_octet_at; [done|lia].
  - change (zlen []) with 0. rewrite Z.add_0_r, Hx by done. done.
Qed.

Lemma get_pi_ok size pi pid dcs udl ud pdu len off rest :
  wf_pi size pi pid dcs udl ud ->
  at_pos pdu off (pi_octets pi pid dcs udl ud ++ rest) ->
  off + zlen (pi_octets pi pid dcs udl ud) <= len ->
  get_pi_fields pdu len off pi size = Ret (pid, dcs, udl, ud).
Proof.
  intros [_ [_ Hpid] [_ Hdcs] [_ Hudl] Hud] Hp Hl. unfold pi_octets in *.
  rewrite !zlen_app in Hl. rewrite <- !app_assoc in Hp. unfold get_pi_fields.
  pose proof (zlen_nonneg (if has pi 0x4 then
    udl :: take (Z.to_nat (sms_udl_in_bytes udl dcs)) ud else [])).
  pose proof (zlen_nonneg (if has pi 0x2 then [dcs] else [])).
  destruct (next_octet_if _ _ len _ _ _ Hp) as [He1 Hp1]; [lia|done|].
  rewrite He1. simp_res.
  destruct (next_octet_if _ _ len _ _ _ Hp1) as [He2 Hp2]; [lia|done|].
  rewrite He2. simp_res.
  destruct (has pi 0x4).
  - destruct (next_octet_at _ len _ _ _ Hp2) as [He3 Hp3]; [zl|]. rewrite He3. simp_res.
    rewrite (get_ud_ok _ _ _ _ _ ud rest); [done|by apply Hud|done|].
    pose proof (wf_ud_len _ _ _ (Hud eq_refl)). zl.
  - by destruct Hudl as [-> ->].
Qed.

Lemma pi_octets_bytes size pi pid dcs udl ud :
  0 <= size -> wf_pi size pi pid dcs udl ud ->
  bytes (pi_octets pi pid dcs udl ud) /\ zlen (pi_octets pi pid dcs udl ud) <= size + 3.
Proof.
  intros Hsize [_ [Hpid _] [Hdcs _] [Hudl _] Hud]. unfold pi_octets. split.
  - apply Forall_app. split; [case_match; [by apply Forall_singleton|by apply Forall_nil]|].
    apply Forall_app. split; [case_match; [by apply Forall_singleton|by apply Forall_nil]|].
    case_match; [|by apply Forall_nil]. apply Forall_cons. split; [done|].
    by apply (wf_ud_bytes _ size), Hud.
  - destruct (has pi 0x4) eqn:E4.
    + pose proof (wf_ud_len _ _ _ (Hud eq_refl)). destruct (Hud eq_refl) as [? _ _ _].
      destruct (has pi 0x1), (has pi 0x2); zl.
    + destruct (has pi 0x1), (has pi 0x2); zl.
Qed.

#[local] Opaque pi_octets.

(** [bs] is the PDU of [x], of message type indicator [mti]; the decoder, given
    its length, reads [y]. *)
Record pdu_codec {A B} (enc : Z -> list Z -> A -> res (list Z))
    (dec : list Z -> Z -> res B) (mti : Z) (x : A) (y : B) (bs : list Z) : Prop := {
  pdu_enc : forall cap out, enc cap out x = put cap out bs;
  pdu_dec : forall full len rest,
    at_pos full 0 (bs ++ rest) -> len = zlen bs -> dec full len = Ret y;
  pdu_mti : exists o bs', bs = o :: bs' /\ Z.land o 0x3 = mti;
  pdu_bytes : bytes bs
}.

(** The fields of a PDU one after the other. *)
Ltac get_octet Hp len :=
  let He := fresh "He" in let Hp' := fresh "Hp" in
  destruct (next_octet_at _ len _ _ _ Hp) as [He Hp']; [zl|];
  rewrite He; clear He; clear Hp; rename Hp' into Hp; simp_res.
Ltac get_field Hk Hp len :=
  let He := fresh "He" in let Hp' := fresh "Hp" in
  destruct (codec_step _ _ _ _ _ len _ _ Hk Hp) as [He Hp']; [zl|];
  cbv beta in He; rewrite He; clear He; clear Hp; rename Hp' into Hp; simp_res.

Section PduCodecs.
Context `{L : Utf8Laws} `{GL : !GlibUtf8Laws U G}.

Definition wf_deliver (m : sms_deliver) : Prop :=
  wf_address false (deliver_oaddr m) /\ is_byte (deliver_pid m) /\
  is_byte (deliver_dcs m) /\ wf_scts (deliver_scts m) /\ is_byte (deliver_udl m) /\
  wf_ud (sms_udl_in_bytes (deliver_udl m) (deliver_dcs m)) DELIVER_UD (deliver_ud m).

(** The first octet of a SMS-DELIVER. *)
Definition deliver_octet (mms sri rp udhi : bool) : Z :=
  Z.lor (Z.lor (Z.lor (flag (negb mms) 2) (flag sri 5)) (flag rp 7)) (flag udhi 6).

Lemma deliver_octet_back mms sri rp udhi :
  let o := deliver_octet mms sri rp udhi in
  is_byte o /\ Z.land o 0x3 = 0 /\ negb (is_bit_set o 2) = mms /\
  is_bit_set o 5 = sri /\ is_bit_set o 6 = udhi /\ is_bit_set o 7 = rp.
Proof. destruct mms, sri, rp, udhi; by vm_compute. Qed.

(** The decoder up to the user data. *)
Lemma deliver_head_ok m addr ud full len rest :
  codec (fun cap out => sms_encode_address_field cap out false (deliver_oaddr m))
    (fun pdu len off => sms_decode_address_field pdu len off false)
    (deliver_oaddr m) addr ->
  wf_scts (deliver_scts m) ->
  at_pos full 0 ([deliver_octet (deliver_mms m) (deliver_sri m) (deliver_rp m) (deliver_udhi m)]
    ++ addr ++ [deliver_pid m] ++ [deliver_dcs m] ++ scts_octets (deliver_scts m)
    ++ [deliver_udl m] ++ ud ++ rest) ->
  11 + zlen addr <= len ->
  at_pos full (11 + zlen addr) (ud ++ rest) /\
  decode_deliver full len =
    ud ← get_ud full len (11 + zlen addr)
           (sms_udl_in_bytes (deliver_udl m) (deliver_dcs m)) DELIVER_UD;
    Ret {| deliver_mms := deliver_mms m; deliver_sri := deliver_sri m;
           deliver_udhi := deliver_udhi m; deliver_rp := deliver_rp m;
           deliver_oaddr := deliver_oaddr m; deliver_pid := deliver_pid m;
           deliver_dcs := deliver_dcs m; deliver_scts := deliver_scts m;
           deliver_udl := deliver_udl m; deliver_ud := ud |}.
Proof.
  intros Haddr Hs Hp Hlen. pose proof (scts_codec _ Hs) as Hscts.
  destruct (deliver_octet_back (deliver_mms m) (deliver_sri m) (deliver_rp m) (deliver_udhi m))
    as (Ho & Hmti & Hmms & Hsri & Hudhi & Hrp).
  set (o := deliver_octet _ _ _ _) in *. cbn [app] in Hp.
  unfold decode_deliver. pose proof (zlen_nonneg addr).
  get_octet Hp len. get_field Haddr Hp len. get_octet Hp len. get_octet Hp len.
  get_field Hscts Hp len. get_octet Hp len. rewrite Hmms, Hsri, Hudhi, Hrp.
  rewrite zlen_scts_octets in *.
  replace (0 + 1 + zlen addr + 1 + 1 + 7 + 1) with (11 + zlen addr) in * by lia. done.
Qed.

Lemma deliver_codec m : wf_deliver m ->
  exists bs, pdu_codec encode_deliver decode_deliver 0 m m bs /\ zlen bs <= 164.
Proof.
  intros (Ha & Hpid & Hdcs & Hs & Hudl & Hud).
  destruct (address_codec false _ Ha) as (addr & Haddr & Hal).
  pose proof (scts_codec _ Hs) as Hscts.
  destruct (deliver_octet_back (deliver_mms m) (deliver_sri m) (deliver_rp m) (deliver_udhi m))
    as (Ho & Hmti & Hmms & Hsri & Hudhi & Hrp).
  set (o := deliver_octet _ _ _ _) in *.
  set (n := sms_udl_in_bytes (deliver_udl m) (deliver_dcs m)) in *.
  pose proof (wf_ud_len _ _ _ Hud) as Hn. pose proof Hud as [Hfits _ Hb _].
  exists ([o] ++ addr ++ [deliver_pid m] ++ [deliver_dcs m] ++ scts_octets (deliver_scts m)
     ++ [deliver_udl m] ++ take (Z.to_nat n) (deliver_ud m)).
  split.
  2:{ rewrite !zlen_app. unfold DELIVER_UD in *. zl. }
  split.
  - intros cap out. unfold encode_deliver, set_octet.
    apply put_chain; intros. rewrite (codec_enc _ _ _ _ Haddr).
    apply put_chain; intros. apply put_chain; intros. apply put_chain; intros.
    rewrite (codec_enc _ _ _ _ Hscts). apply put_chain; intros.
    apply put_chain; intros. by eapply put_ud_ok.
  - intros full len rest Hp Hlen. rewrite <- !app_assoc in Hp.
    rewrite !zlen_app, Hn in Hlen.
    destruct (deliver_head_ok m addr _ full len _ Haddr Hs Hp) as [Hp2 ->]; [zl|].
    rewrite (get_ud_ok _ _ _ _ _ _ _ Hud Hp2) by zl. simp_res. by destruct m.
  - by exists o; eexists.
  - repeat (apply Forall_app; split); try by apply Forall_singleton.
    + apply Haddr.
    + apply Hscts.
    + done.
Qed.

(** ** SMS-SUBMIT *)

Definition wf_submit (m : sms_submit) : Prop :=
  is_byte (submit_mr m) /\ wf_address false (submit_daddr m) /\ is_byte (submit_pid m) /\
  is_byte (submit_dcs m) /\ wf_vp (submit_vp m) /\ is_byte (submit_udl m) /\
  wf_ud (sms_udl_in_bytes (submit_udl m) (submit_dcs m)) SUBMIT_UD (submit_ud m).

Definition submit_octet (rd rp udhi srr : bool) (vpf : Z) : Z :=
  Z.lor (Z.lor (Z.lor (Z.lor (Z.lor 1 (flag rd 2)) (flag rp 7)) (Z.shiftl vpf 3))
    (flag udhi 6)) (flag srr 5).

Lemma submit_octet_back rd rp udhi srr vp :
  let o := submit_octet rd rp udhi srr (vpf_of vp) in
  is_byte o /\ Z.land o 0x3 = 1 /\ is_bit_set o 2 = rd /\ is_bit_set o 7 = rp /\
  is_bit_set o 6 = udhi /\ is_bit_set o 5 = srr /\ bit_field o 3 2 = vpf_of vp.
Proof. destruct rd, rp, udhi, srr, vp; by vm_compute. Qed.

Lemma submit_codec m : wf_submit m ->
  exists bs, pdu_codec encode_submit decode_submit 1 m m bs /\ zlen bs <= 164.
Proof.
  intros (Hmr & Ha & Hpid & Hdcs & Hvp & Hudl & Hud).
  destruct (address_codec false _ Ha) as (addr & Haddr & Hal).
  destruct (vp_octets_bytes _ Hvp) as [Hvb Hvl]. pose proof (zlen_nonneg (vp_octets (submit_vp m))).
  destruct (submit_octet_back (submit_rd m) (submit_rp m) (submit_udhi m) (submit_srr m)
    (submit_vp m)) as (Ho & Hmti & Hrd & Hrp & Hudhi & Hsrr & Hvpf).
  set (o := submit_octet _ _ _ _ _) in *.
  set (n := sms_udl_in_bytes (submit_udl m) (submit_dcs m)) in *.
  pose proof (wf_ud_len _ _ _ Hud) as Hn. pose proof Hud as [Hfits _ Hb _].
  exists ([o] ++ [submit_mr m] ++ addr ++ [submit_pid m] ++ [submit_dcs m] ++
     vp_octets (submit_vp m) ++ [submit_udl m] ++ take (Z.to_nat n) (submit_ud m)).
  split.
  2:{ rewrite !zlen_app. unfold SUBMIT_UD in *. zl. }
  split.
  - intros cap out. unfold encode_submit, set_octet.
    apply put_chain; intros. apply put_chain; intros. rewrite (codec_enc _ _ _ _ Haddr).
    apply put_chain; intros. apply put_chain; intros. apply put_chain; intros.
    rewrite vp_codec_enc by done. apply put_chain; intros.
    apply put_chain; intros. by eapply put_ud_ok.
  - intros full len rest Hp Hlen. rewrite <- !app_assoc in Hp. cbn [app] in Hp.
    rewrite !zlen_app, !zlen_cons, Hn in Hlen.
    unfold decode_submit, decode_submit_head. pose proof (zlen_nonneg addr).
    get_octet Hp len. get_octet Hp len. get_field Haddr Hp len. get_octet Hp len.
    get_octet Hp len. rewrite Hvpf.
    rewrite (vp_codec_dec _ _ len _ _ Hvp Hp) by zl. simp_res.
    apply at_pos_app in Hp. get_octet Hp len. cbn [default].
    fold n. rewrite (proj2 (Z.ltb_ge _ n)) by zl. rewrite (proj2 (Z.ltb_ge SUBMIT_UD n)) by lia.
    rewrite (at_pos_slice _ _ _ _ _ Hp) by done. simp_res.
    rewrite (blit_zeros _ _ _ Hud). simp_res.
    rewrite Hrd, Hrp, Hudhi, Hsrr. by destruct m.
  - by exists o; eexists.
  - repeat (apply Forall_app; split); try by apply Forall_singleton.
    + apply Haddr.
    + done.
    + done.
Qed.

(** ** SMS-COMMAND *)

Definition wf_command (m : sms_command) : Prop :=
  is_byte (cmd_mr m) /\ is_byte (cmd_pid m) /\ is_byte (cmd_ct m) /\ is_byte (cmd_mn m) /\
  wf_address false (cmd_daddr m) /\ is_byte (cmd_cdl m) /\
  wf_ud (cmd_cdl m) COMMAND_CD (cmd_cd m).

Lemma command_octet_back udhi srr :
  let o := Z.lor (Z.lor 2 (flag udhi 6)) (flag srr 5) in
  is_byte o /\ Z.land o 0x3 = 2 /\ is_bit_set o 6 = udhi /\ is_bit_set o 5 = srr.
Proof. destruct udhi, srr; by vm_compute. Qed.

Lemma u8_byte v : is_byte v -> u8 v = v.
Proof. intros Hv. unfold u8, is_byte in *. apply Z.mod_small. lia. Qed.

Lemma command_codec m : wf_command m ->
  exists bs, pdu_codec encode_command decode_command 2 m m bs /\ zlen bs <= 174.
Proof.
  intros (Hmr & Hpid & Hct & Hmn & Ha & Hcdl & Hcd).
  destruct (address_codec false _ Ha) as (addr & Haddr & Hal).
  destruct (command_octet_back (cmd_udhi m) (cmd_srr m)) as (Ho & Hmti & Hudhi & Hsrr).
  set (o := Z.lor _ _) in *.
  pose proof (wf_ud_len _ _ _ Hcd) as Hn. pose proof Hcd as [Hfits _ Hb _].
  exists ([o] ++ [cmd_mr m] ++ [cmd_pid m] ++ [cmd_ct m] ++ [cmd_mn m] ++ addr ++
     [cmd_cdl m] ++ take (Z.to_nat (cmd_cdl m)) (cmd_cd m)).
  split.
  2:{ rewrite !zlen_app. unfold COMMAND_CD in *. zl. }
  split.
  - intros cap out. unfold encode_command, set_octet. rewrite u8_byte by done.
    do 5 (apply put_chain; intros). rewrite (codec_enc _ _ _ _ Haddr).
    do 2 (apply put_chain; intros). by eapply put_ud_ok.
  - intros full len rest Hp Hlen. rewrite <- !app_assoc in Hp. cbn [app] in Hp.
    rewrite !zlen_app, !zlen_cons, Hn in Hlen.
    unfold decode_command. pose proof (zlen_nonneg addr).
    do 5 get_octet Hp len. get_field Haddr Hp len. get_octet Hp len.
    rewrite (get_ud_ok _ _ _ _ _ _ _ Hcd Hp) by zl. simp_res.
    rewrite Hudhi, Hsrr. by destruct m.
  - by exists o; eexists.
  - repeat (apply Forall_app; split); try by apply Forall_singleton.
    + apply Haddr.
    + done.
Qed.

(** ** Reports *)

(** The parameter indicator and the failure cause are told apart by bit 7. *)
Lemma pi_octet pi : 0 <= pi < 8 -> Z.land pi 0x07 = pi /\ is_byte pi.
Proof.
  intros H. pose proof (range_forall (fun pi => Z.land pi 0x07 =? pi) 0 8 pi) as Hp.
  rewrite Z.eqb_eq in Hp. split; [apply Hp; [done|lia]|unfold is_byte; lia].
Qed.

Definition wf_fcs (fcs : Z) : Prop := 0x80 <= fcs < 0x100.

Lemma report_octet_back udhi k : k = 0 \/ k = 1 ->
  let o := Z.lor k (flag udhi 6) in
  is_byte o /\ Z.land o 0x3 = k /\ is_bit_set o 6 = udhi.
Proof. intros [->| ->]; destruct udhi; by vm_compute. Qed.

Definition wf_deliver_ack (m : sms_deliver_ack_report) : Prop :=
  wf_pi DELIVER_ACK_UD (dack_pi m) (dack_pid m) (dack_dcs m) (dack_udl m) (dack_ud m).

Lemma deliver_ack_codec m : wf_deliver_ack m ->
  exists bs,
    pdu_codec encode_deliver_ack_report decode_deliver_report 0 m
      (SMS_TYPE_DELIVER_REPORT_ACK m) bs /\ zlen bs <= 164.
Proof.
  intros Hpi. destruct (pi_octet _ (wf_pi_range _ _ _ _ _ _ Hpi)) as [Hland Hpib].
  destruct (report_octet_back (dack_udhi m) 0) as (Ho & Hmti & Hudhi); [by left|].
  set (o := Z.lor 0 _) in *. pose proof (pi_octets_bytes DELIVER_ACK_UD _ _ _ _ _ ltac:(done) Hpi) as [Hb Hl].
  exists ([o] ++ [dack_pi m] ++
    pi_octets (dack_pi m) (dack_pid m) (dack_dcs m) (dack_udl m) (dack_ud m)).
  split.
  2:{ rewrite !zlen_app. unfold DELIVER_ACK_UD in *. zl. }
  split.
  - intros cap out. unfold encode_deliver_ack_report, set_octet.
    do 2 (apply put_chain; intros). by eapply put_pi_ok.
  - intros full len rest Hp Hlen. rewrite <- !app_assoc in Hp. cbn [app] in Hp.
    rewrite !zlen_app, !zlen_cons in Hlen. unfold decode_deliver_report.
    pose proof (zlen_nonneg (pi_octets (dack_pi m) (dack_pid m) (dack_dcs m) (dack_udl m) (dack_ud m))).
    do 2 get_octet Hp len. pose proof (wf_pi_range _ _ _ _ _ _ Hpi).
    rewrite (proj2 (Z.leb_gt _ _)) by lia. rewrite Hland.
    rewrite (get_pi_ok _ _ _ _ _ _ _ _ _ _ Hpi Hp) by zl. simp_res.
    rewrite Hudhi. by destruct m.
  - by exists o; eexists.
  - repeat (apply Forall_app; split); try by apply Forall_singleton. done.
Qed.

Definition wf_deliver_err (m : sms_deliver_err_report) : Prop :=
  wf_fcs (derr_fcs m) /\
  wf_pi DELIVER_ERR_UD (derr_pi m) (derr_pid m) (derr_dcs m) (derr_udl m) (derr_ud m).

Lemma deliver_err_codec m : wf_deliver_err m ->
  exists bs,
    pdu_codec encode_deliver_err_report decode_deliver_report 0 m
      (SMS_TYPE_DELIVER_REPORT_ERROR m) bs /\ zlen bs <= 164.
Proof.
  intros [Hfcs Hpi]. unfold wf_fcs in Hfcs.
  destruct (pi_octet _ (wf_pi_range _ _ _ _ _ _ Hpi)) as [Hland Hpib].
  destruct (report_octet_back (derr_udhi m) 0) as (Ho & Hmti & Hudhi); [by left|].
  set (o := Z.lor 0 _) in *. pose proof (pi_octets_bytes DELIVER_ERR_UD _ _ _ _ _ ltac:(done) Hpi) as [Hb Hl].
  exists ([o] ++ [derr_fcs m] ++ [derr_pi m] ++
    pi_octets (derr_pi m) (derr_pid m) (derr_dcs m) (derr_udl m) (derr_ud m)).
  split.
  2:{ rewrite !zlen_app. unfold DELIVER_ERR_UD in *. zl. }
  split.
  - intros cap out. unfold encode_deliver_err_report, set_octet.
    do 3 (apply put_chain; intros). by eapply put_pi_ok.
  - intros full len rest Hp Hlen. rewrite <- !app_assoc in Hp. cbn [app] in Hp.
    rewrite !zlen_app, !zlen_cons in Hlen. unfold decode_deliver_report.
    pose proof (zlen_nonneg (pi_octets (derr_pi m) (derr_pid m) (derr_dcs m) (derr_udl m) (derr_ud m))).
    do 2 get_octet Hp len. rewrite (proj2 (Z.leb_le _ _)) by lia.
    get_octet Hp len. rewrite Hland.
    rewrite (get_pi_ok _ _ _ _ _ _ _ _ _ _ Hpi Hp) by zl. simp_res.
    rewrite Hudhi. by destruct m.
  - by exists o; eexists.
  - repeat (apply Forall_app; split); try by apply Forall_singleton.
    + apply Forall_singleton. unfold is_byte. lia.
    + done.
Qed.

Definition wf_submit_ack (m : sms_submit_ack_report) : Prop :=
  wf_scts (sack_scts m) /\
  wf_pi SUBMIT_ACK_UD (sack_pi m) (sack_pid m) (sack_dcs m) (sack_udl m) (sack_ud m).

Lemma submit_ack_codec m : wf_submit_ack m ->
  exists bs,
    pdu_codec encode_submit_ack_report decode_submit_report 1 m
      (SMS_TYPE_SUBMIT_REPORT_ACK m) bs /\ zlen bs <= 164.
Proof.
  intros [Hs Hpi]. destruct (pi_octet _ (wf_pi_range _ _ _ _ _ _ Hpi)) as [Hland Hpib].
  pose proof (scts_codec _ Hs) as Hscts.
  destruct (report_octet_back (sack_udhi m) 1) as (Ho & Hmti & Hudhi); [by right|].
  set (o := Z.lor 1 _) in *. pose proof (pi_octets_bytes SUBMIT_ACK_UD _ _ _ _ _ ltac:(done) Hpi) as [Hb Hl].
  exists ([o] ++ [sack_pi m] ++ scts_octets (sack_scts m) ++
    pi_octets (sack_pi m) (sack_pid m) (sack_dcs m) (sack_udl m) (sack_ud m)).
  split.
  2:{ rewrite !zlen_app. unfold SUBMIT_ACK_UD in *. zl. }
  split.
  - intros cap out. unfold encode_submit_ack_report, set_octet.
    do 2 (apply put_chain; intros). rewrite (codec_enc _ _ _ _ Hscts).
    apply put_chain; intros. by eapply put_pi_ok.
  - intros full len rest Hp Hlen. rewrite <- !app_assoc in Hp. cbn [app] in Hp.
    rewrite !zlen_app, !zlen_cons in Hlen. unfold decode_submit_report.
    pose proof (zlen_nonneg (pi_octets (sack_pi m) (sack_pid m) (sack_dcs m) (sack_udl m) (sack_ud m))).
    do 2 get_octet Hp len. pose proof (wf_pi_range _ _ _ _ _ _ Hpi).
    rewrite (proj2 (Z.leb_gt _ _)) by lia. rewrite Hland. get_field Hscts Hp len.
    rewrite (get_pi_ok _ _ _ _ _ _ _ _ _ _ Hpi Hp) by zl. simp_res.
    rewrite Hudhi. by destruct m.
  - by exists o; eexists.
  - repeat (apply Forall_app; split); try by apply Forall_singleton.
    + apply Hscts.
    + done.
Qed.

Definition wf_submit_err (m : sms_submit_err_report) : Prop :=
  wf_fcs (serr_fcs m) /\ wf_scts (serr_scts m) /\
  wf_pi SUBMIT_ERR_UD (serr_pi m) (serr_pid m) (serr_dcs m) (serr_udl m) (serr_ud m).

Lemma submit_err_codec m : wf_submit_err m ->
  exists bs,
    pdu_codec encode_submit_err_report decode_submit_report 1 m
      (SMS_TYPE_SUBMIT_REPORT_ERROR m) bs /\ zlen bs <= 164.
Proof.
  intros (Hfcs & Hs & Hpi). unfold wf_fcs in Hfcs.
  destruct (pi_octet _ (wf_pi_range _ _ _ _ _ _ Hpi)) as [Hland Hpib].
  pose proof (scts_codec _ Hs) as Hscts.
  destruct (report_octet_back (serr_udhi m) 1) as (Ho & Hmti & Hudhi); [by right|].
  set (o := Z.lor 1 _) in *. pose proof (pi_octets_bytes SUBMIT_ERR_UD _ _ _ _ _ ltac:(done) Hpi) as [Hb Hl].
  exists ([o] ++ [serr_fcs m] ++ [serr_pi m] ++ scts_octets (serr_scts m) ++
    pi_octets (serr_pi m) (serr_pid m) (serr_dcs m) (serr_udl m) (serr_ud m)).
  split.
  2:{ rewrite !zlen_app. unfold SUBMIT_ERR_UD in *. zl. }
  split.
  - intros cap out. unfold encode_submit_err_report, set_octet.
    do 3 (apply put_chain; intros). rewrite (codec_enc _ _ _ _ Hscts).
    apply put_chain; intros. by eapply put_pi_ok.
  - intros full len rest Hp Hlen. rewrite <- !app_assoc in Hp. cbn [app] in Hp.
    rewrite !zlen_app, !zlen_cons in Hlen. unfold decode_submit_report.
    pose proof (zlen_nonneg (pi_octets (serr_pi m) (serr_pid m) (serr_dcs m) (serr_udl m) (serr_ud m))).
    do 2 get_octet Hp len. rewrite (proj2 (Z.leb_le _ _)) by lia.
    get_octet Hp len. rewrite Hland. get_field Hscts Hp len.
    rewrite (get_pi_ok _ _ _ _ _ _ _ _ _ _ Hpi Hp) by zl. simp_res.
    rewrite Hudhi. by destruct m.
  - by exists o; eexists.
  - repeat (apply Forall_app; split); try by apply Forall_singleton.
    + apply Forall_singleton. unfold is_byte. lia.
    + apply Hscts.
    + done.
Qed.

Definition wf_status_report (m : sms_status_report) : Prop :=
  is_byte (sr_mr m) /\ wf_address false (sr_raddr m) /\ wf_scts (sr_scts m) /\
  wf_scts (sr_dt m) /\ is_byte (sr_st m) /\
  wf_pi STATUS_REPORT_UD (sr_pi m) (sr_pid m) (sr_dcs m) (sr_udl m) (sr_ud m).

(** What the decoder reads of an encoded status report: the encoder sets the
    bits of [srq] and [udhi] when the fields are not set. *)
Definition status_report_read (m : sms_status_report) : sms_status_report :=
  {| sr_udhi := negb (sr_udhi m); sr_mms := sr_mms m; sr_srq := negb (sr_srq m);
     sr_mr := sr_mr m; sr_raddr := sr_raddr m; sr_scts := sr_scts m; sr_dt := sr_dt m;
     sr_st := sr_st m; sr_pi := sr_pi m; sr_pid := sr_pid m; sr_dcs := sr_dcs m;
     sr_udl := sr_udl m; sr_ud := sr_ud m |}.

Lemma status_octet_back mms srq udhi :
  let o := Z.lor (Z.lor (Z.lor 2 (flag (negb mms) 2)) (flag (negb srq) 5))
             (flag (negb udhi) 6) in
  is_byte o /\ Z.land o 0x3 = 2 /\ negb (is_bit_set o 2) = mms /\
  is_bit_set o 5 = negb srq /\ is_bit_set o 6 = negb udhi.
Proof. destruct mms, srq, udhi; by vm_compute. Qed.

(** An indicator of zero announces nothing. *)
Lemma wf_pi_0 size pid dcs udl ud :
  wf_pi size 0 pid dcs udl ud -> pid = 0 /\ dcs = 0 /\ udl = 0 /\ ud = zeros size.
Proof.
  intros [_ [_ Hpid] [_ Hdcs] [_ Hudl] _].
  split_and!; [by apply Hpid|by apply Hdcs|by apply Hudl|by apply Hudl].
Qed.

Lemma status_report_codec m : wf_status_report m ->
  exists bs,
    pdu_codec encode_status_report decode_status_report 2 m (status_report_read m) bs /\
    zlen bs <= 176.
Proof.
  intros (Hmr & Ha & Hs & Hdt & Hst & Hpi).
  destruct (address_codec false _ Ha) as (addr & Haddr & Hal).
  pose proof (scts_codec _ Hs) as Hscts. pose proof (scts_codec _ Hdt) as Hdtc.
  destruct (pi_octet _ (wf_pi_range _ _ _ _ _ _ Hpi)) as [Hland Hpib].
  destruct (status_octet_back (sr_mms m) (sr_srq m) (sr_udhi m))
    as (Ho & Hmti & Hmms & Hsrq & Hudhi).
  set (o := Z.lor _ _) in *. set (pio := pi_octets (sr_pi m) (sr_pid m) (sr_dcs m) (sr_udl m) (sr_ud m)).
  pose proof (pi_octets_bytes STATUS_REPORT_UD _ _ _ _ _ ltac:(done) Hpi) as [Hb Hl].
  fold pio in Hb, Hl. pose proof (zlen_nonneg pio). pose proof (zlen_nonneg addr).
  exists ([o] ++ [sr_mr m] ++ addr ++ scts_octets (sr_scts m) ++ scts_octets (sr_dt m) ++
    [sr_st m] ++ (if sr_pi m =? 0 then [] else sr_pi m :: pio)).
  split.
  2:{ rewrite !zlen_app. unfold STATUS_REPORT_UD in *. case_match; zl. }
  split.
  - intros cap out. unfold encode_status_report, set_octet. rewrite u8_byte by done.
    do 2 (apply put_chain; intros). rewrite (codec_enc _ _ _ _ Haddr).
    apply put_chain; intros. rewrite (codec_enc _ _ _ _ Hscts).
    apply put_chain; intros. rewrite (codec_enc _ _ _ _ Hdtc).
    do 2 (apply put_chain; intros).
    destruct (sr_pi m =? 0); [by rewrite put_nil|].
    eapply (put_chain _ _ [_]). intros. by eapply put_pi_ok.
  - intros full len rest Hp Hlen. rewrite <- !app_assoc in Hp. cbn [app] in Hp.
    rewrite !zlen_app, !zlen_cons in Hlen. unfold decode_status_report.
    pose proof (zlen_nonneg (if sr_pi m =? 0 then [] else sr_pi m :: pio)).
    do 2 get_octet Hp len. get_field Haddr Hp len. get_field Hscts Hp len.
    get_field Hdtc Hp len. get_octet Hp len.
    unfold status_report_read. rewrite Hmms, Hsrq, Hudhi.
    destruct (Z.eqb_spec (sr_pi m) 0) as [E|E]; cbv iota in *.
    + change (zlen []) with 0 in Hlen. rewrite (proj2 (Z.eqb_eq (len - _) 0)) by zl. rewrite E in *.
      by destruct (wf_pi_0 _ _ _ _ _ Hpi) as (-> & -> & -> & ->).
    + rewrite zlen_cons in Hlen. rewrite (proj2 (Z.eqb_neq (len - _) 0)) by zl.
      cbn [app] in Hp. get_octet Hp len. rewrite Hland.
      by rewrite (get_pi_ok _ _ _ _ _ _ _ _ _ _ Hpi Hp) by (fold pio; zl).
  - by exists o; eexists.
  - repeat (apply Forall_app; split); try by apply Forall_singleton.
    + apply Haddr.
    + apply Hscts.
    + apply Hdtc.
    + case_match; [by apply Forall_nil|]. apply Forall_cons. by split.
Qed.
End PduCodecs.

(** * The whole message *)

(** Whether [sms_encode] writes a service centre address before the TPDU. *)
Definition has_sc (t : sms_tpdu) : bool :=
  match t with
  | SMS_TYPE_DELIVER _ | SMS_TYPE_SUBMIT _ | SMS_TYPE_COMMAND _
  | SMS_TYPE_STATUS_REPORT _ => true
  | _ => false
  end.

(** The direction to decode in: from the mobile to the network or back. *)
Definition is_outgoing (t : sms_tpdu) : bool :=
  match t with
  | SMS_TYPE_SUBMIT _ | SMS_TYPE_COMMAND _ | SMS_TYPE_DELIVER_REPORT_ACK _
  | SMS_TYPE_DELIVER_REPORT_ERROR _ => true
  | _ => false
  end.

(** What is read of an encoded message: the message, except for the two bits of
    a status report. *)
Definition tpdu_read (t : sms_tpdu) : sms_tpdu :=
  match t with
  | SMS_TYPE_STATUS_REPORT m => SMS_TYPE_STATUS_REPORT (status_report_read m)
  | _ => t
  end.

Definition tpdu_mti (t : sms_tpdu) : Z :=
  match t with
  | SMS_TYPE_DELIVER _ | SMS_TYPE_DELIVER_REPORT_ACK _ | SMS_TYPE_DELIVER_REPORT_ERROR _ => 0
  | SMS_TYPE_SUBMIT _ | SMS_TYPE_SUBMIT_REPORT_ACK _ | SMS_TYPE_SUBMIT_REPORT_ERROR _ => 1
  | SMS_TYPE_STATUS_REPORT _ | SMS_TYPE_COMMAND _ => 2
  end.

Section Message.
Context `{L : Utf8Laws} `{GL : !GlibUtf8Laws U G}.

Definition wf_tpdu (t : sms_tpdu) : Prop :=
  match t with
  | SMS_TYPE_DELIVER m => wf_deliver m
  | SMS_TYPE_DELIVER_REPORT_ACK m => wf_deliver_ack m
  | SMS_TYPE_DELIVER_REPORT_ERROR m => wf_deliver_err m
  | SMS_TYPE_STATUS_REPORT m => wf_status_report m
  | SMS_TYPE_SUBMIT m => wf_submit m
  | SMS_TYPE_SUBMIT_REPORT_ACK m => wf_submit_ack m
  | SMS_TYPE_SUBMIT_REPORT_ERROR m => wf_submit_err m
  | SMS_TYPE_COMMAND m => wf_command m
  end.

(** The service centre address is there in the messages that carry one. *)
Definition wf_sms (m : sms) : Prop :=
  wf_tpdu (tpdu m) /\
  if has_sc (tpdu m) then wf_address true (sc_addr m) else sc_addr m = no_address.

Lemma tpdu_codec t : wf_tpdu t ->
  exists bs,
    pdu_codec encode_tpdu
      (decode_tpdu (Z.lor (tpdu_mti t) (if is_outgoing t then 0x4 else 0)))
      (tpdu_mti t) t (tpdu_read t) bs /\
    zlen bs <= (match t with SMS_TYPE_COMMAND _ => 174 | SMS_TYPE_STATUS_REPORT _ => 176
                | _ => 164 end).
Proof.
  destruct t as [m|m|m|m|m|m|m|m]; intros Hwf; cbn [wf_tpdu] in Hwf.
  - destruct (deliver_codec m Hwf) as (bs & [He Hd Hm Hb] & Hl). exists bs. split; [|done].
    split; [done| |done..]. intros full len rest Hp Hlen.
    unfold decode_tpdu. by rewrite (Hd full len rest).
  - destruct (deliver_ack_codec m Hwf) as (bs & [He Hd Hm Hb] & Hl). by exists bs.
  - destruct (deliver_err_codec m Hwf) as (bs & [He Hd Hm Hb] & Hl). by exists bs.
  - destruct (status_report_codec m Hwf) as (bs & [He Hd Hm Hb] & Hl). exists bs.
    split; [|done]. split; [done| |done..]. intros full len rest Hp Hlen.
    unfold decode_tpdu. by rewrite (Hd full len rest).
  - destruct (submit_codec m Hwf) as (bs & [He Hd Hm Hb] & Hl). exists bs. split; [|done].
    split; [done| |done..]. intros full len rest Hp Hlen.
    unfold decode_tpdu. by rewrite (Hd full len rest).
  - destruct (submit_ack_codec m Hwf) as (bs & [He Hd Hm Hb] & Hl). by exists bs.
  - destruct (submit_err_codec m Hwf) as (bs & [He Hd Hm Hb] & Hl). by exists bs.
  - destruct (command_codec m Hwf) as (bs & [He Hd Hm Hb] & Hl). exists bs. split; [|done].
    split; [done| |done..]. intros full len rest Hp Hlen.
    unfold decode_tpdu. by rewrite (Hd full len rest).
Qed.

(** The encoder writes the service centre address and the TPDU. *)
Lemma sms_encode_ok m cap sc bs :
  (if has_sc (tpdu m)
   then forall cap out, sms_encode_address_field cap out true (sc_addr m) = put cap out sc
   else sc = []) ->
  (forall cap out, encode_tpdu cap out (tpdu m) = put cap out bs) ->
  zlen (sc ++ bs) <= cap -> sms_encode cap m = Ret (sc ++ bs, zlen bs).
Proof.
  intros Hsc Hbs Hcap. rewrite zlen_app in Hcap. pose proof (zlen_nonneg bs).
  assert (Hput : encode_tpdu cap sc (tpdu m) = Ret (sc ++ bs)).
  { rewrite Hbs. by apply put_ok. }
  assert (Hlen : zlen (sc ++ bs) - zlen sc = zlen bs) by zl.
  assert (Hput1 : put cap [] sc = Ret sc).
  { rewrite put_ok; [done|]. change (zlen []) with 0. lia. }
  unfold sms_encode. destruct m as [a t]. cbn [tpdu sc_addr] in *.
  destruct t; cbn [has_sc encode_tpdu] in *;
    first [rewrite Hsc, Hput1 | rewrite Hsc in *]; simp_res; rewrite Hput; simp_res;
    by rewrite Hlen.
Qed.

Lemma sms_decode_ok sc_bs sc bs (outgoing : bool) o bs' t :
  sc_bs = [] /\ sc = no_address \/
  sc_bs <> [] /\ (forall pdu len off rest, at_pos pdu off (sc_bs ++ rest) ->
    off + zlen sc_bs <= len ->
    sms_decode_address_field pdu len off true = Ret (sc, off + zlen sc_bs)) ->
  bs = o :: bs' ->
  decode_tpdu (Z.lor (Z.land o 0x3) (if outgoing then 0x4 else 0)) bs (zlen bs) = Ret t ->
  sms_decode (sc_bs ++ bs) (zlen (sc_bs ++ bs)) outgoing (zlen bs)
    = Ret {| sc_addr := sc; tpdu := t |}.
Proof.
  intros Hsc Hbs Ht. unfold sms_decode. rewrite zlen_app.
  assert (0 < zlen bs) by (rewrite Hbs; zl). pose proof (zlen_nonneg sc_bs).
  rewrite (proj2 (Z.eqb_neq _ 0)) by lia.
  assert ((if zlen bs <? zlen sc_bs + zlen bs
           then sms_decode_address_field (sc_bs ++ bs) (zlen sc_bs + zlen bs) 0 true
           else Ret (no_address, 0)) = Ret (sc, zlen sc_bs)) as ->.
  { destruct Hsc as [[-> ->]|[Hne Hd]].
    - change (zlen []) with 0. by rewrite (proj2 (Z.ltb_ge _ _)) by lia.
    - assert (0 < zlen sc_bs) by (destruct sc_bs; [done|zl]).
      rewrite (proj2 (Z.ltb_lt _ _)) by lia.
      rewrite (Hd _ _ _ bs (at_pos_0 _)) by lia. by rewrite Z.add_0_l. }
  simp_res. rewrite (proj2 (Z.ltb_ge _ _)) by lia.
  rewrite drop_zlen_app by done. rewrite Hbs at 1. rewrite rd_middle by done.
  simp_res. rewrite Ht. done.
Qed.

Lemma sms_codec_ok m : wf_sms m ->
  exists pdu tpdu_len,
    (forall cap, zlen pdu <= cap -> sms_encode cap m = Ret (pdu, tpdu_len)) /\
    bytes pdu /\ 0 <= tpdu_len <= zlen pdu /\
    zlen pdu <= match tpdu m with
                | SMS_TYPE_STATUS_REPORT _ => 188 | SMS_TYPE_COMMAND _ => 186 | _ => 176 end /\
    sms_decode pdu (zlen pdu) (is_outgoing (tpdu m)) tpdu_len
      = Ret {| sc_addr := sc_addr m; tpdu := tpdu_read (tpdu m) |}.
Proof.
  intros [Ht Hsc]. destruct (tpdu_codec _ Ht) as (bs & [He Hd (o & bs' & Hbs & Hmti) Hb] & Hl).
  specialize (Hd bs (zlen bs) []). rewrite app_nil_r, <- Hmti in Hd.
  specialize (Hd (at_pos_0 _) eq_refl).
  destruct (has_sc (tpdu m)) eqn:Hhas.
  - destruct (address_codec true _ Hsc) as (sc & [Hae Had Hab] & Hal).
    exists (sc ++ bs), (zlen bs). split_and!.
    + intros cap Hcap. apply sms_encode_ok; [by rewrite Hhas|done|done].
    + by apply Forall_app.
    + zl.
    + zl.
    + rewrite zlen_app. destruct (tpdu m); lia.
    + eapply sms_decode_ok; [right; split; [intros ->; change (zlen []) with 0 in Hal; lia|done]|done|done].
  - exists bs, (zlen bs). split_and!.
    + intros cap Hcap. apply (sms_encode_ok m cap [] bs); [by rewrite Hhas|done|done].
    + done.
    + zl.
    + zl.
    + destruct (tpdu m); lia.
    + eapply (sms_decode_ok []); [by left|done|done].
Qed.
(** C2: Encoding a message and decoding it in its direction gives the message
    back, for every PDU type and every well-formed message: each address a
    number, an alphanumeric text or empty, each time stamp with a time zone,
    the user data within its array.  The encoding is the same in every buffer
    it fits in, and takes at most 176 octets (188 for a status report, 186 for
    a command).  A status report is read back with its srq and udhi flags
    inverted. *)
Theorem sms_roundtrip m : wf_sms m ->
  exists pdu tpdu_len,
    (forall cap, zlen pdu <= cap -> sms_encode cap m = Ret (pdu, tpdu_len)) /\
    bytes pdu /\
    zlen pdu <= match tpdu m with
                | SMS_TYPE_STATUS_REPORT _ => 188 | SMS_TYPE_COMMAND _ => 186 | _ => 176 end /\
    sms_decode pdu (zlen pdu) (is_outgoing (tpdu m)) tpdu_len
      = Ret {| sc_addr := sc_addr m; tpdu := tpdu_read (tpdu m) |}.
Proof.
  intros Hm. destruct (sms_codec_ok m Hm) as (pdu & n & He & Hb & _ & Hl & Hd).
  by exists pdu, n.
Qed.
End Message.

(** ** What the length checks miss *)

Section Overflow.
Context `{L : Utf8Laws} `{GL : !GlibUtf8Laws U G}.

(** [decode_deliver] checks the user data against the PDU only: a message
    with a well-formed head that announces more user data than the 140 octets
    of [ud], and carries them, is copied past the end of the array. *)
Theorem deliver_ud_overflow m data pdu :
  wf_address false (deliver_oaddr m) -> wf_scts (deliver_scts m) ->
  sms_udl_in_bytes (deliver_udl m) (deliver_dcs m) = zlen data ->
  DELIVER_UD < zlen data ->
  forall addr,
  (forall cap out, sms_encode_address_field cap out false (deliver_oaddr m) = put cap out addr) ->
  pdu = [deliver_octet (deliver_mms m) (deliver_sri m) (deliver_rp m) (deliver_udhi m)]
    ++ addr ++ [deliver_pid m] ++ [deliver_dcs m] ++ scts_octets (deliver_scts m)
    ++ [deliver_udl m] ++ data ->
  decode_deliver pdu (zlen pdu) = Ub.
Proof.
  intros Ha Hs Hn Hbig addr Henc Hpdu.
  destruct (address_codec false _ Ha) as (addr' & Haddr & Hal).
  assert (addr' = addr) as ->.
  { pose proof (Henc (zlen addr' + zlen addr) []) as E. cbv beta in E.
    pose proof (zlen_nonneg addr). pose proof (zlen_nonneg addr').
    rewrite (codec_enc _ _ _ _ Haddr), !put_ok in E by (change (zlen []) with 0; lia).
    by injection E. }
  assert (Hp : at_pos pdu 0 ([deliver_octet (deliver_mms m) (deliver_sri m) (deliver_rp m)
    (deliver_udhi m)] ++ addr ++ [deliver_pid m] ++ [deliver_dcs m] ++
    scts_octets (deliver_scts m) ++ [deliver_udl m] ++ data ++ [])).
  { rewrite app_nil_r, Hpdu. apply at_pos_0. }
  assert (Hlen : zlen pdu = 11 + zlen addr + zlen data) by (rewrite Hpdu, !zlen_app; zl).
  pose proof (zlen_nonneg data).
  destruct (deliver_head_ok m addr data pdu (zlen pdu) [] Haddr Hs Hp) as [Hp2 ->]; [lia|].
  rewrite Hn. unfold get_ud. rewrite (proj2 (Z.ltb_ge _ _)) by lia.
  rewrite (at_pos_slice _ _ _ _ _ Hp2) by done. simp_res. unfold blit.
  rewrite zlen_zeros by done. by rewrite (proj2 (Z.leb_gt _ DELIVER_UD)), andb_false_r by lia.
Qed.
End Overflow.

(** A message to exercise the theorems: a SMS-SUBMIT of "Hi" to +4912. *)
Definition sample_submit : sms_submit :=
  {| submit_rd := true; submit_rp := false; submit_udhi := false; submit_srr := true;
     submit_mr := 7;
     submit_daddr := {| number_type := 1; numbering_plan := 1; address := [52; 57; 49; 50; 35] |};
     submit_pid := 0; submit_dcs := 0;
     submit_vp := VpRelative 167;
     submit_udl := 2; submit_ud := [0xc8; 0x34] ++ zeros 138 |}.

Definition sample_sms : sms :=
  {| sc_addr := {| number_type := 1; numbering_plan := 1; address := [52; 57] |};
     tpdu := SMS_TYPE_SUBMIT sample_submit |}.

Lemma sms_roundtrip_witness :
  exists pdu tpdu_len,
    sms_encode 176 sample_sms = Ret (pdu, tpdu_len) /\
    sms_decode pdu (zlen pdu) true tpdu_len = Ret sample_sms.
Proof.
  destruct (sms_roundtrip sample_sms) as (pdu & tpdu_len & He & _ & Hl & Hd).
  - split.
    + split_and!; try done; cbn; try (by split).
      * split_and!; try done. cbn. by split; [repeat constructor|].
      * by split; try done; repeat constructor.
    + split_and!; try done. cbn. by split; [repeat constructor|].
  - exists pdu, tpdu_len. split; [exact (He 176 Hl)|exact Hd].
Defined.

(** A SMS-DELIVER of 200 octets of 8 bit data, all within the PDU. *)
Definition long_deliver : sms_deliver :=
  {| deliver_mms := true; deliver_sri := false; deliver_udhi := false; deliver_rp := false;
     deliver_oaddr := {| number_type := 1; numbering_plan := 1; address := [49; 50] |};
     deliver_pid := 0; deliver_dcs := 4;
     deliver_scts := {| year := 9; month := 1; day := 2; hour := 3; minute := 4; second := 5;
                        has_timezone := true; timezone := -4 |};
     deliver_udl := 200; deliver_ud := [] |}.

Lemma deliver_ud_overflow_witness :
  decode_deliver ([0; 2; 0x91; 0x21; 0; 4; 0x90; 0x10; 0x20; 0x30; 0x40; 0x50; 0x48; 200]
    ++ replicate 200 7) 214 = Ub.
Proof.
  apply (deliver_ud_overflow long_deliver (replicate 200 7)) with (addr := [2; 0x91; 0x21]);
    try done.
  split_and!; try done. cbn. by split; [repeat constructor|].
Defined.
