(* ===== verification/SmsUdh.v ===== *)
(** User data headers, of src/src/smsutil.c: their verification, the iterator
    over their information elements, and what the program extracts with it:
    application ports, the position of a fragment in a concatenated message,
    and national languages. *)
From S2P Require Import Prelude Charset SevenBit SmsField SmsPdu.

(** * The user data of a message *)

(** sms_extract_common(): udhi, dcs, udl, sizeof ud, ud. *)
Definition sms_extract_common (m : sms) : bool * Z * Z * Z * list Z :=
  match tpdu m with
  | SMS_TYPE_DELIVER d =>
      (deliver_udhi d, deliver_dcs d, deliver_udl d, DELIVER_UD, deliver_ud d)
  | SMS_TYPE_DELIVER_REPORT_ACK d =>
      (dack_udhi d, dack_dcs d, dack_udl d, DELIVER_ACK_UD, dack_ud d)
  | SMS_TYPE_DELIVER_REPORT_ERROR d =>
      (derr_udhi d, derr_dcs d, derr_udl d, DELIVER_ERR_UD, derr_ud d)
  | SMS_TYPE_STATUS_REPORT d =>
      (sr_udhi d, sr_dcs d, sr_udl d, STATUS_REPORT_UD, sr_ud d)
  | SMS_TYPE_SUBMIT d =>
      (submit_udhi d, submit_dcs d, submit_udl d, SUBMIT_UD, submit_ud d)
  | SMS_TYPE_SUBMIT_REPORT_ACK d =>
      (sack_udhi d, sack_dcs d, sack_udl d, SUBMIT_ACK_UD, sack_ud d)
  | SMS_TYPE_SUBMIT_REPORT_ERROR d =>
      (serr_udhi d, serr_dcs d, serr_udl d, SUBMIT_ERR_UD, serr_ud d)
  | SMS_TYPE_COMMAND d =>
      (cmd_udhi d, 0, cmd_cdl d, COMMAND_CD, cmd_cd d)
  end.

(** * Verification *)

(** The do-while loop; offsets are guint8. *)
Fixpoint verify_loop (fuel : nat) (hdr : list Z) (max_offset offset : Z) : res bool :=
  match fuel with
  | O => Ub
  | S fuel =>
    if max_offset <? offset + 2 then Ret false
    else
      l ← rd hdr (offset + 1);
      if max_offset <? offset + 2 + l then Ret false
      else
        let offset := u8 (offset + 2 + l) in
        if offset <? max_offset then verify_loop fuel hdr max_offset offset
        else Ret (offset =? max_offset)
  end.

Definition verify_udh (hdr : list Z) (max_len : Z) : res bool :=
  h ← rd hdr 0;
  if h <? 2 then Ret false
  else if max_len <=? h then Ret false
  else verify_loop 256 hdr (u8 (h + 1)) 1.

(** * The iterator *)

Record sms_udh_iter := { iter_data : list Z; iter_offset : Z }.

(** [Err] for FALSE. *)
Definition sms_udh_iter_init (m : sms) : res sms_udh_iter :=
  let '(udhi, dcs, udl, max_ud_len, hdr) := sms_extract_common m in
  if negb udhi then Err
  else
    let max_len :=
      u8 (match tpdu m with
          | SMS_TYPE_COMMAND _ => udl
          | _ => sms_udl_in_bytes udl dcs
          end) in
    if max_len <? 3 then Err
    else if max_ud_len <? max_len then Err
    else
      ok ← verify_udh hdr max_len;
      _ ← check ok;
      Ret {| iter_data := hdr; iter_offset := 1 |}.

Definition sms_udh_iter_get_udh_length (it : sms_udh_iter) : res Z :=
  rd (iter_data it) 0.

(** The octets from the returned pointer on. *)
Definition sms_udh_iter_get_ud_after_header (it : sms_udh_iter) : res (list Z) :=
  h ← rd (iter_data it) 0; Ret (drop (Z.to_nat (h + 1)) (iter_data it)).

Definition SMS_IEI_INVALID : Z := 0xFFF.

Definition sms_udh_iter_get_ie_type (it : sms_udh_iter) : res Z :=
  h ← rd (iter_data it) 0;
  if h <? iter_offset it then Ret SMS_IEI_INVALID
  else rd (iter_data it) (iter_offset it).

Definition sms_udh_iter_get_ie_length (it : sms_udh_iter) : res Z :=
  rd (iter_data it) (iter_offset it + 1).

Definition sms_udh_iter_get_ie_data (it : sms_udh_iter) : res (list Z) :=
  ie_len ← rd (iter_data it) (iter_offset it + 1);
  slice (iter_data it) (iter_offset it + 2) ie_len.

Definition sms_udh_iter_has_next (it : sms_udh_iter) : res bool :=
  total_len ← rd (iter_data it) 0;
  cur_ie_len ← rd (iter_data it) (iter_offset it + 1);
  Ret (negb (total_len <? iter_offset it + 2 + cur_ie_len)).

(** The new iterator and the value returned. *)
Definition sms_udh_iter_next (it : sms_udh_iter) : res (sms_udh_iter * bool) :=
  h ← rd (iter_data it) 0;
  if h <? iter_offset it then Ret (it, false)
  else
    l ← rd (iter_data it) (iter_offset it + 1);
    let it := {| iter_data := iter_data it;
                 iter_offset := u8 (iter_offset it + 2 + l) |} in
    Ret (it, negb (h <? iter_offset it)).

(** [while ((iei = sms_udh_iter_get_ie_type(iter)) != SMS_IEI_INVALID)
    { body; sms_udh_iter_next(iter); }] *)
Fixpoint udh_loop {A} (fuel : nat) (body : Z -> sms_udh_iter -> A -> res A)
    (it : sms_udh_iter) (a : A) : res A :=
  match fuel with
  | O => Ub
  | S fuel =>
    iei ← sms_udh_iter_get_ie_type it;
    if iei =? SMS_IEI_INVALID then Ret a
    else
      a ← body iei it a;
      '(it, _) ← sms_udh_iter_next it;
      udh_loop fuel body it a
  end.

(** A loop over the headers that may leave its function: [inr] leaves. *)
Fixpoint udh_search {A B} (fuel : nat) (body : Z -> sms_udh_iter -> A -> res (A + B)) (it : sms_udh_iter) (a : A) : res (A + B) :=
  match fuel with
  | O => Ub
  | S fuel =>
    iei ← sms_udh_iter_get_ie_type it;
    if iei =? SMS_IEI_INVALID then Ret (inl a)
    else
      r ← body iei it a;
      match r with
      | inr b => Ret (inr b)
      | inl a => '(it, _) ← sms_udh_iter_next it; udh_search fuel body it a
      end
  end.

(** * Application ports *)

Definition SMS_IEI_APPLICATION_ADDRESS_8BIT : Z := 0x04.
Definition SMS_IEI_APPLICATION_ADDRESS_16BIT : Z := 0x05.

(** dst, src, is_8bit; -1 when no port was found yet *)
Definition app_port_body (iei : Z) (it : sms_udh_iter) (a : Z * Z * bool)
    : res (Z * Z * bool) :=
  if iei =? SMS_IEI_APPLICATION_ADDRESS_8BIT then
    len ← sms_udh_iter_get_ie_length it;
    if negb (len =? 2) then Ret a
    else
      addr_hdr ← sms_udh_iter_get_ie_data it;
      h0 ← rd addr_hdr 0;
      h1 ← rd addr_hdr 1;
      if h0 <? 240 then Ret a
      else if h1 <? 240 then Ret a
      else Ret (h0, h1, true)
  else if iei =? SMS_IEI_APPLICATION_ADDRESS_16BIT then
    len ← sms_udh_iter_get_ie_length it;
    if negb (len =? 4) then Ret a
    else
      addr_hdr ← sms_udh_iter_get_ie_data it;
      h0 ← rd addr_hdr 0;
      h1 ← rd addr_hdr 1;
      h2 ← rd addr_hdr 2;
      h3 ← rd addr_hdr 3;
      if 49151 <? Z.lor (Z.shiftl h0 8) h1 then Ret a
      else Ret (Z.lor (Z.shiftl h0 8) h1, Z.lor (Z.shiftl h2 8) h3, false)
  else Ret a.

Definition extract_app_port_common (it : sms_udh_iter) : res (Z * Z * bool) :=
  '(dst, src, is_8bit) ← udh_loop 256 app_port_body it (-1, -1, false);
  if (dst =? -1) || (src =? -1) then Err else Ret (dst, src, is_8bit).

Definition sms_extract_app_port (m : sms) : res (Z * Z * bool) :=
  it ← sms_udh_iter_init m; extract_app_port_common it.

(** * Concatenation *)

Definition SMS_IEI_CONCATENATED_8BIT : Z := 0x00.
Definition SMS_IEI_CONCATENATED_16BIT : Z := 0x08.

(** ref, max, seq; [None] while [concatenated] is FALSE *)
Definition concatenation_body (iei : Z) (it : sms_udh_iter) (a : option (Z * Z * Z))
    : res (option (Z * Z * Z)) :=
  if iei =? SMS_IEI_CONCATENATED_8BIT then
    len ← sms_udh_iter_get_ie_length it;
    if negb (len =? 3) then Ret a
    else
      concat_hdr ← sms_udh_iter_get_ie_data it;
      h0 ← rd concat_hdr 0;
      h1 ← rd concat_hdr 1;
      h2 ← rd concat_hdr 2;
      if h1 =? 0 then Ret a
      else if (h2 =? 0) || (h1 <? h2) then Ret a
      else Ret (Some (h0, h1, h2))
  else if iei =? SMS_IEI_CONCATENATED_16BIT then
    len ← sms_udh_iter_get_ie_length it;
    if negb (len =? 4) then Ret a
    else
      concat_hdr ← sms_udh_iter_get_ie_data it;
      h0 ← rd concat_hdr 0;
      h1 ← rd concat_hdr 1;
      h2 ← rd concat_hdr 2;
      h3 ← rd concat_hdr 3;
      if h2 =? 0 then Ret a
      else if (h3 =? 0) || (h2 <? h3) then Ret a
      else Ret (Some (u16 (Z.lor (Z.shiftl h0 8) h1), h2, h3))
  else Ret a.

Definition sms_extract_concatenation (m : sms) : res (Z * Z * Z) :=
  it ← sms_udh_iter_init m;
  a ← udh_loop 256 concatenation_body it None;
  match a with Some r => Ret r | None => Err end.

(** * National languages *)

Definition SMS_IEI_NATIONAL_LANGUAGE_SINGLE_SHIFT : Z := 0x24.
Definition SMS_IEI_NATIONAL_LANGUAGE_LOCKING_SHIFT : Z := 0x25.

(** locking, single *)
Definition language_body (iei : Z) (it : sms_udh_iter) (a : Z * Z) : res (Z * Z) :=
  if iei =? SMS_IEI_NATIONAL_LANGUAGE_SINGLE_SHIFT then
    len ← sms_udh_iter_get_ie_length it;
    if negb (len =? 1) then Ret a
    else
      d ← sms_udh_iter_get_ie_data it;
      variant ← rd d 0;
      Ret (fst a, variant)
  else if iei =? SMS_IEI_NATIONAL_LANGUAGE_LOCKING_SHIFT then
    len ← sms_udh_iter_get_ie_length it;
    if negb (len =? 1) then Ret a
    else
      d ← sms_udh_iter_get_ie_data it;
      variant ← rd d 0;
      Ret (variant, snd a)
  else Ret a.

(** [*locking] and [*single] after the call, which the caller initialised. *)
Definition sms_extract_language_variant (m : sms) (locking single : Z) : res (Z * Z) :=
  it ← sms_udh_iter_init m; udh_loop 256 language_body it (locking, single).

(** * Addresses as strings *)

Definition SMS_NUMBERING_PLAN_ISDN : Z := 1.
Definition SMS_NUMBER_TYPE_UNKNOWN : Z := 0.
Definition SMS_NUMBER_TYPE_INTERNATIONAL : Z := 1.

(** strcpy() into the 23 characters of [address]. *)
Definition sms_address_from_string (str : list Z) : res sms_address :=
  match str with
  | 43 :: str => (* '+' *)
      array ← put ADDRESS_SIZE [] (str ++ [0]);
      Ret {| number_type := SMS_NUMBER_TYPE_INTERNATIONAL;
             numbering_plan := SMS_NUMBERING_PLAN_ISDN; address := cstr array |}
  | _ =>
      array ← put ADDRESS_SIZE [] (str ++ [0]);
      Ret {| number_type := SMS_NUMBER_TYPE_UNKNOWN;
             numbering_plan := SMS_NUMBERING_PLAN_ISDN; address := cstr array |}
  end.

Definition sms_address_to_string (addr : sms_address) : list Z :=
  match address addr with
  | c :: _ =>
      if (number_type addr =? SMS_NUMBER_TYPE_INTERNATIONAL) && negb (c =? 43)
      then 43 :: address addr else address addr
  | [] => address addr
  end.

(** * Headers as lists of information elements *)

(** Identifier and data. *)
Definition ie : Type := (Z * list Z)%type.

Definition wf_ie (i : ie) : Prop := is_byte (fst i) /\ bytes (snd i) /\ zlen (snd i) <= 255.

Definition encode_ie (i : ie) : list Z := fst i :: zlen (snd i) :: snd i.
Definition encode_ies (ies : list ie) : list Z := flat_map encode_ie ies.

(** The header octets: length, then the elements. *)
Definition udh (ies : list ie) : list Z := zlen (encode_ies ies) :: encode_ies ies.

(** A header of elements [ies] at the start of [hdr], in [max_len] octets. *)
Record has_ies (hdr : list Z) (max_len : Z) (ies : list ie) : Prop := {
  has_ies_ne : ies <> [];
  has_ies_wf : Forall wf_ie ies;
  has_ies_len : zlen (encode_ies ies) < max_len;
  has_ies_hdr : exists rest, hdr = udh ies ++ rest
}.

(** The elements of octets [c], if they fill them exactly and are not none. *)
Fixpoint parse_ies (fuel : nat) (c : list Z) : option (list ie) :=
  match fuel, c with
  | S fuel, iei :: l :: c =>
      if l <=? zlen c then
        let data := take (Z.to_nat l) c in
        match drop (Z.to_nat l) c with
        | [] => Some [(iei, data)]
        | c' => ies ← parse_ies fuel c'; Some ((iei, data) :: ies)
        end
      else None
  | _, _ => None
  end.

Lemma zlen_encode_ie i : zlen (encode_ie i) = 2 + zlen (snd i).
Proof. unfold encode_ie. rewrite !zlen_cons. lia. Qed.

Lemma length_ies ies : (length ies <= length (encode_ies ies))%nat.
Proof.
  induction ies as [|i ies IH]; [done|].
  cbn [encode_ies flat_map encode_ie app length]. rewrite length_app.
  fold (encode_ies ies). lia.
Qed.

Lemma parse_encode ies : forall fuel,
  ies <> [] -> (length ies <= fuel)%nat -> parse_ies fuel (encode_ies ies) = Some ies.
Proof.
  induction ies as [|[iei d] ies IH]; intros fuel Hne Hf; [done|].
  destruct fuel as [|fuel]; cbn [length] in Hf; [lia|].
  cbn [encode_ies flat_map encode_ie fst snd app parse_ies].
  rewrite (proj2 (Z.leb_le _ _)) by zl.
  rewrite to_nat_zlen, take_app_length, drop_app_length. fold (encode_ies ies).
  destruct ies as [|i ies]; [done|].
  specialize (IH fuel ltac:(done) ltac:(lia)).
  destruct (encode_ies (i :: ies)) as [|x xs] eqn:E; [by destruct i|].
  by rewrite IH.
Qed.

Lemma parse_sound fuel : forall c ies,
  bytes c -> zlen c <= 255 -> parse_ies fuel c = Some ies ->
  c = encode_ies ies /\ ies <> [] /\ Forall wf_ie ies.
Proof.
  induction fuel as [|fuel IH]; intros c ies Hb Hl Hp; [done|].
  destruct c as [|iei [|l c]]; [done..|]. cbn [parse_ies] in Hp.
  apply Forall_cons in Hb as [Hi Hb]. apply Forall_cons in Hb as [Hlb Hb].
  destruct (Z.leb_spec l (zlen c)) as [Hle|]; [|done].
  pose proof (take_drop (Z.to_nat l) c) as Htd.
  set (d := take (Z.to_nat l) c) in *. rewrite !zlen_cons in Hl.
  assert (Hd : zlen d = l) by (unfold d, is_byte in *; zl).
  assert (Hwf : wf_ie (iei, d)).
  { split_and!; [done|by apply Forall_take|cbn [snd]; lia]. }
  destruct (drop (Z.to_nat l) c) as [|x c'] eqn:E.
  - injection Hp as <-. split_and!; [|done|by constructor].
    rewrite app_nil_r in Htd. cbn. by rewrite app_nil_r, Hd, Htd.
  - destruct (parse_ies fuel (x :: c')) as [ies'|] eqn:Hp'; [|done]. injection Hp as <-.
    assert (Hdrop : bytes (x :: c') /\ zlen (x :: c') <= 255).
    { rewrite <- E. split; [by apply Forall_drop|zl]. }
    destruct (IH _ _ (proj1 Hdrop) (proj2 Hdrop) Hp') as (Hc & Hne & Hw).
    split_and!; [|done|by constructor].
    cbn [encode_ies flat_map]. fold (encode_ies ies'). rewrite <- Hc.
    cbn [encode_ie fst snd app]. by rewrite Hd, Htd.
Qed.

(** The verification loop is the parser. *)
Lemma verify_loop_parse hdr rest max_offset : forall fuel c off,
  at_pos hdr off (c ++ rest) -> bytes c -> max_offset = off + zlen c ->
  max_offset <= 255 -> (length c < fuel)%nat ->
  verify_loop fuel hdr max_offset off = Ret (bool_decide (is_Some (parse_ies fuel c))).
Proof.
  induction fuel as [|fuel IH]; intros c off Hp Hb Hmax H255 Hf; [lia|].
  cbn [verify_loop]. destruct c as [|iei [|l c]].
  - change (zlen []) with 0 in Hmax. by rewrite (proj2 (Z.ltb_lt _ _)) by lia.
  - change (zlen [iei]) with 1 in Hmax. by rewrite (proj2 (Z.ltb_lt _ _)) by lia.
  - apply Forall_cons in Hb as [_ Hb]. apply Forall_cons in Hb as [Hl Hb].
    cbn [app] in Hp. destruct (at_pos_cons _ _ _ _ Hp) as [_ Hp1].
    destruct (at_pos_cons _ _ _ _ Hp1) as [Hrd Hp2].
    assert (0 <= off) by (destruct Hp; lia). unfold is_byte in Hl.
    rewrite !zlen_cons in Hmax. pose proof (zlen_nonneg c).
    rewrite (proj2 (Z.ltb_ge max_offset _)) by lia. rewrite Hrd. simp_res.
    cbn [parse_ies]. destruct (Z.leb_spec l (zlen c)) as [Hle|Hgt].
    2:{ by rewrite (proj2 (Z.ltb_lt _ _)) by lia. }
    rewrite (proj2 (Z.ltb_ge _ _)) by lia.
    unfold u8. rewrite Z.mod_small by lia.
    assert (Hz : zlen (drop (Z.to_nat l) c) = zlen c - l) by zl.
    assert (Hp3 : at_pos hdr (off + 2 + l) (drop (Z.to_nat l) c ++ rest)).
    { rewrite <- (take_drop (Z.to_nat l) c), <- app_assoc in Hp2.
      apply at_pos_app in Hp2. replace (off + 1 + 1 + _) with (off + 2 + l) in Hp2 by zl.
      done. }
    destruct (drop (Z.to_nat l) c) as [|x c'] eqn:E.
    + change (zlen []) with 0 in Hz. rewrite (proj2 (Z.ltb_ge _ _)) by lia.
      by rewrite (proj2 (Z.eqb_eq _ _)) by lia.
    + rewrite zlen_cons in Hz. pose proof (zlen_nonneg c').
      rewrite (proj2 (Z.ltb_lt _ _)) by lia.
      rewrite (IH (x :: c')); [|done| |rewrite zlen_cons; lia|done|].
      * f_equal. destruct (parse_ies fuel (x :: c')); cbn; done.
      * rewrite <- E. by apply Forall_drop.
      * pose proof (length_drop c (Z.to_nat l)) as Hd. rewrite E in Hd.
        cbn [length] in *. lia.
Qed.

(** [verify_udh] accepts the headers made of information elements. *)
Lemma verify_udh_ok hdr max_len :
  bytes hdr -> max_len <= zlen hdr -> 0 < max_len <= 255 ->
  exists b, verify_udh hdr max_len = Ret b /\
    (b = true <-> exists ies, has_ies hdr max_len ies).
Proof.
  intros Hb Hlen Hmax. destruct hdr as [|h tl]; [change (zlen []) with 0 in Hlen; lia|].
  apply Forall_cons in Hb as [Hh Htl]. unfold is_byte in Hh. rewrite zlen_cons in Hlen.
  assert (Hno : forall ies, has_ies (h :: tl) max_len ies -> 2 <= h < max_len).
  { intros ies [Hne _ Hl [rest Heq]]. injection Heq as -> _. split; [|done].
    destruct ies as [|i ies]; [done|]. cbn [encode_ies flat_map].
    rewrite zlen_app, zlen_encode_ie. zl. }
  unfold verify_udh. change (rd (h :: tl) 0) with (Ret h). simp_res.
  destruct (Z.ltb_spec h 2) as [H2|H2].
  { exists false. split; [done|]. split; [done|]. intros [ies Hi]. apply Hno in Hi. lia. }
  destruct (Z.leb_spec max_len h) as [Hm|Hm].
  { exists false. split; [done|]. split; [done|]. intros [ies Hi]. apply Hno in Hi. lia. }
  unfold u8. rewrite Z.mod_small by lia.
  set (c := take (Z.to_nat h) tl). set (rest := drop (Z.to_nat h) tl).
  assert (Hc : zlen c = h) by (unfold c; zl).
  assert (Hp : at_pos (h :: tl) 1 (c ++ rest)).
  { unfold c, rest. rewrite take_drop. apply (at_pos_app _ 0 [h]). apply at_pos_0. }
  assert (Hcb : bytes c) by by apply Forall_take.
  rewrite (verify_loop_parse _ rest _ 256 c 1 Hp Hcb);
    [|lia|lia|unfold zlen in Hc; lia].
  eexists. split; [reflexivity|]. rewrite bool_decide_eq_true. split.
  - intros [ies Hi]. destruct (parse_sound _ _ _ Hcb ltac:(lia) Hi) as (He & Hne & Hw).
    exists ies. split; [done|done|by rewrite <- He, Hc|]. exists rest.
    unfold udh. rewrite <- He, Hc. cbn [app]. unfold c, rest. by rewrite take_drop.
  - intros [ies [Hne Hw Hl [rest' Heq]]]. injection Heq as Hh' Htl'.
    exists ies. assert (c = encode_ies ies) as ->.
    { unfold c. rewrite Hh', to_nat_zlen, Htl'. apply take_app_length. }
    apply parse_encode; [done|].
    pose proof (length_ies ies).
    unfold zlen in Hl. lia.
Qed.

(** ** Iteration *)

(** The iterator is at element [i]. *)
Definition at_ie (it : sms_udh_iter) (i : ie) : Prop :=
  exists rest, at_pos (iter_data it) (iter_offset it) (encode_ie i ++ rest).

Lemma ie_length_ok it i : at_ie it i -> sms_udh_iter_get_ie_length it = Ret (zlen (snd i)).
Proof.
  intros [rest Hp]. cbn [encode_ie app] in Hp.
  destruct (at_pos_cons _ _ _ _ Hp) as [_ Hp1].
  by destruct (at_pos_cons _ _ _ _ Hp1) as [Hr _].
Qed.

Lemma ie_data_ok it i : at_ie it i -> sms_udh_iter_get_ie_data it = Ret (snd i).
Proof.
  intros Hi. unfold sms_udh_iter_get_ie_data. pose proof (ie_length_ok _ _ Hi) as Hl.
  unfold sms_udh_iter_get_ie_length in Hl. rewrite Hl. simp_res.
  destruct Hi as [rest Hp]. change (encode_ie i) with ([fst i; zlen (snd i)] ++ snd i) in Hp.
  rewrite <- app_assoc in Hp. apply at_pos_app in Hp.
  by apply (at_pos_slice _ _ _ _ _ Hp).
Qed.

(** Where the iterator is at an element, and where it goes from there. *)
Lemma iter_step hdr h off i ies rest :
  wf_ie i -> rd hdr 0 = Ret h -> h <= 254 -> at_pos hdr off (encode_ies (i :: ies) ++ rest) ->
  off + zlen (encode_ies (i :: ies)) = h + 1 ->
  let it := {| iter_data := hdr; iter_offset := off |} in
  let off' := off + 2 + zlen (snd i) in
  at_ie it i /\ sms_udh_iter_get_ie_type it = Ret (fst i) /\
  sms_udh_iter_next it = Ret ({| iter_data := hdr; iter_offset := off' |}, negb (h <? off')) /\
  at_pos hdr off' (encode_ies ies ++ rest) /\ off' + zlen (encode_ies ies) = h + 1.
Proof.
  intros (Hib & Hdb & Hdl) Hh H254 Hp Hoff it off'.
  cbn [encode_ies flat_map] in Hp, Hoff. fold (encode_ies ies) in Hp, Hoff.
  rewrite zlen_app, zlen_encode_ie in Hoff. rewrite <- app_assoc in Hp.
  pose proof (zlen_nonneg (snd i)). pose proof (zlen_nonneg (encode_ies ies)).
  assert (0 <= off) by (destruct Hp; lia).
  assert (Hat : at_ie it i) by (by eexists).
  pose proof (ie_length_ok _ _ Hat) as Hl. unfold sms_udh_iter_get_ie_length in Hl.
  pose proof (at_pos_app _ _ _ _ Hp) as Hp'. rewrite zlen_encode_ie in Hp'.
  cbn [encode_ie app] in Hp. destruct (at_pos_cons _ _ _ _ Hp) as [Hr _].
  unfold sms_udh_iter_get_ie_type, sms_udh_iter_next.
  subst it. cbn [iter_data iter_offset] in *. rewrite Hh. simp_res. rewrite (proj2 (Z.ltb_ge h off)) by lia.
  rewrite Hl. simp_res.
  unfold u8. rewrite Z.mod_small by lia. unfold off'. rewrite <- Z.add_assoc. split_and!; try done. lia.
Qed.

(** A loop over the elements is a fold over their list. *)
Lemma udh_loop_fold {A} (body : Z -> sms_udh_iter -> A -> res A) (step : A -> ie -> A) hdr h rest :
  (forall it i a, wf_ie i -> at_ie it i -> body (fst i) it a = Ret (step a i)) ->
  rd hdr 0 = Ret h -> h <= 254 ->
  forall ies fuel off a, Forall wf_ie ies -> at_pos hdr off (encode_ies ies ++ rest) ->
    off + zlen (encode_ies ies) = h + 1 -> (length ies < fuel)%nat ->
    udh_loop fuel body {| iter_data := hdr; iter_offset := off |} a = Ret (foldl step a ies).
Proof.
  intros Hbody Hh H254. induction ies as [|i ies IH]; intros fuel off a Hw Hp Hoff Hf;
    (destruct fuel as [|fuel]; cbn [length] in Hf; [lia|]); cbn [udh_loop].
  - unfold sms_udh_iter_get_ie_type; cbn [iter_data iter_offset]; rewrite Hh; simp_res.
    change (zlen (encode_ies [])) with 0 in Hoff.
    by rewrite (proj2 (Z.ltb_lt _ _)) by lia.
  - apply Forall_cons in Hw as [Hi Hw]. pose proof Hi as (Hib & _ & _).
    destruct (iter_step hdr h off i ies rest Hi Hh H254 Hp Hoff) as (Hat & -> & Hnext & Hp' & Hoff').
    unfold is_byte in Hib. rewrite bind_Ret, (proj2 (Z.eqb_neq (fst i) _)) by (unfold SMS_IEI_INVALID; lia).
    rewrite Hbody, bind_Ret, Hnext, bind_Ret by done. cbv beta iota. apply IH; try done. lia.
Qed.

(** A loop that may leave its function: [I] holds of the elements seen and of
    what was accumulated, [Q] of the elements seen, of the one at which the loop
    was left, and of what it was left with. *)
Lemma udh_search_inv {A B} (body : Z -> sms_udh_iter -> A -> res (A + B)) (I : list ie -> A -> Prop)
    (Q : list ie -> ie -> B -> Prop) (P : ie -> Prop) hdr h rest :
  (forall it seen i a, wf_ie i -> P i -> at_ie it i -> I seen a ->
     exists r, body (fst i) it a = Ret r /\ match r with inl a => I (seen ++ [i]) a | inr b => Q seen i b end) ->
  rd hdr 0 = Ret h -> h <= 254 ->
  forall ies fuel off seen a, Forall wf_ie ies -> Forall P ies -> at_pos hdr off (encode_ies ies ++ rest) ->
    off + zlen (encode_ies ies) = h + 1 -> (length ies < fuel)%nat -> I seen a ->
    exists r, udh_search fuel body {| iter_data := hdr; iter_offset := off |} a = Ret r /\
      match r with
      | inl a => I (seen ++ ies) a
      | inr b => exists ies1 i ies2, ies = ies1 ++ i :: ies2 /\ Q (seen ++ ies1) i b
      end.
Proof.
  intros Hbody Hh H254. induction ies as [|i ies IH]; intros fuel off seen a Hw HP Hp Hoff Hf HI;
    (destruct fuel as [|fuel]; cbn [length] in Hf; [lia|]); cbn [udh_search].
  - unfold sms_udh_iter_get_ie_type; cbn [iter_data iter_offset]; rewrite Hh; simp_res.
    change (zlen (encode_ies [])) with 0 in Hoff.
    rewrite (proj2 (Z.ltb_lt _ _)) by lia. eexists. split; [reflexivity|]. by rewrite app_nil_r.
  - apply Forall_cons in Hw as [Hi Hw], HP as [HPi HP]. pose proof Hi as (Hib & _ & _).
    destruct (iter_step hdr h off i ies rest Hi Hh H254 Hp Hoff) as (Hat & -> & Hnext & Hp' & Hoff').
    unfold is_byte in Hib. rewrite bind_Ret, (proj2 (Z.eqb_neq (fst i) _)) by (unfold SMS_IEI_INVALID; lia).
    destruct (Hbody _ seen i a Hi HPi Hat HI) as ([a'|b] & -> & Hgood); rewrite bind_Ret.
    + rewrite Hnext, bind_Ret. cbv beta iota.
      destruct (IH fuel _ (seen ++ [i]) a' Hw HP Hp' Hoff') as (r & -> & Hr); [lia|done|].
      eexists. split; [reflexivity|]. rewrite <- !app_assoc in Hr. destruct r as [a2|b]; [done|].
      destruct Hr as (ies1 & j & ies2 & -> & HQ). exists (i :: ies1), j, ies2. by rewrite <- app_assoc in HQ.
    + eexists. split; [reflexivity|]. exists [], i, ies. by rewrite app_nil_r.
Qed.

(** ** The bodies as functions of an element *)

(** The position a concatenation element gives, if it is usable. *)
Definition concat_usable (i : ie) : option (Z * Z * Z) :=
  if fst i =? 0 then
    match snd i with
    | [r; max; seq] =>
        if (max =? 0) || (seq =? 0) || (max <? seq) then None else Some (r, max, seq)
    | _ => None
    end
  else if fst i =? 8 then
    match snd i with
    | [hi; lo; max; seq] =>
        if (max =? 0) || (seq =? 0) || (max <? seq) then None
        else Some (hi * 256 + lo, max, seq)
    | _ => None
    end
  else None.

(** The last element that a function makes something of. *)
Definition override {A} (f : ie -> option A) (a : option A) (i : ie) : option A :=
  match f i with Some r => Some r | None => a end.

Lemma foldl_override {A} (f : ie -> option A) ies a :
  foldl (override f) a ies = match last (omap f ies) with Some r => Some r | None => a end.
Proof.
  induction ies as [|i ies IH] using rev_ind; [done|].
  rewrite foldl_app, omap_app, last_app. cbn. unfold override at 1. rewrite IH.
  by destruct (f i).
Qed.

Lemma foldl_last {A} (f : ie -> option A) ies a :
  foldl (fun a i => match f i with Some r => r | None => a end) a ies =
  match last (omap f ies) with Some r => r | None => a end.
Proof.
  induction ies as [|i ies IH] using rev_ind; [done|].
  rewrite foldl_app, omap_app, last_app. cbn. rewrite IH. by destruct (f i).
Qed.

Lemma last_elem_of_omap {A} (f : ie -> option A) ies r :
  last (omap f ies) = Some r -> exists i, i ∈ ies /\ f i = Some r.
Proof. intros Hl%last_Some_elem_of. by apply list_elem_of_omap in Hl. Qed.

(** Two octets, most significant first. *)
Lemma be16 h l : is_byte h -> is_byte l ->
  Z.lor (Z.shiftl h 8) l = h * 256 + l /\ u16 (h * 256 + l) = h * 256 + l.
Proof.
  unfold is_byte. intros Hh Hl. split.
  - rewrite Z.lor_comm, lor_shiftl_add by lia. lia.
  - unfold u16. apply Z.mod_small. lia.
Qed.

(** Elements of known length. *)
Lemma zlen_1 (d : list Z) : zlen d = 1 -> exists a, d = [a].
Proof. destruct d as [|a [|b d]]; intros H; [done|by exists a|]. zl. Qed.
Lemma zlen_2 (d : list Z) : zlen d = 2 -> exists a b, d = [a; b].
Proof. destruct d as [|a d]; intros H; [done|]. destruct (zlen_1 d) as [b ->]; [zl|]. by exists a, b. Qed.
Lemma zlen_3 (d : list Z) : zlen d = 3 -> exists a b c, d = [a; b; c].
Proof. destruct d as [|a d]; intros H; [done|]. destruct (zlen_2 d) as (b & c & ->); [zl|]. by exists a, b, c. Qed.
Lemma zlen_4 (d : list Z) : zlen d = 4 -> exists a b c e, d = [a; b; c; e].
Proof. destruct d as [|a d]; intros H; [done|]. destruct (zlen_3 d) as (b & c & e & ->); [zl|]. by exists a, b, c, e. Qed.

(** Reads of the elements of a literal list. *)
Ltac read_all :=
  repeat match goal with
  | |- context [rd (?a :: ?l) 0] => change (rd (a :: l) 0) with (Ret a); simp_res
  | |- context [rd (?a :: ?b :: ?l) 1] => change (rd (a :: b :: l) 1) with (Ret b); simp_res
  | |- context [rd (?a :: ?b :: ?c :: ?l) 2] =>
      change (rd (a :: b :: c :: l) 2) with (Ret c); simp_res
  | |- context [rd (?a :: ?b :: ?c :: ?e :: ?l) 3] =>
      change (rd (a :: b :: c :: e :: l) 3) with (Ret e); simp_res
  end.

Lemma concatenation_body_ok it i a :
  wf_ie i -> at_ie it i ->
  concatenation_body (fst i) it a = Ret (override concat_usable a i).
Proof.
  intros (_ & Hb & _) Hat. unfold concatenation_body, override, concat_usable.
  rewrite (ie_length_ok _ _ Hat), (ie_data_ok _ _ Hat).
  destruct i as [iei d]. cbn [fst snd] in *.
  unfold SMS_IEI_CONCATENATED_8BIT, SMS_IEI_CONCATENATED_16BIT.
  destruct (iei =? 0); [|destruct (iei =? 8)]; simp_res; [| |done].
  - destruct (Z.eqb_spec (zlen d) 3) as [Hl|Hl]; cbn [negb].
    + apply zlen_3 in Hl as (r & m & q & ->). read_all.
      destruct (m =? 0); [done|]. cbn [orb]. by destruct ((q =? 0) || (m <? q)).
    + by destruct d as [|? [|? [|? [|? ?]]]].
  - destruct (Z.eqb_spec (zlen d) 4) as [Hl|Hl]; cbn [negb].
    + apply zlen_4 in Hl as (h & l & m & q & ->). read_all.
      apply Forall_cons in Hb as [Hh Hb]. apply Forall_cons in Hb as [Hlo _].
      destruct (be16 h l) as [-> ->]; [done..|].
      destruct (m =? 0); [done|]. cbn [orb]. by destruct ((q =? 0) || (m <? q)).
    + by destruct d as [|? [|? [|? [|? [|? ?]]]]].
Qed.

(** The ports of an element: destination, source and whether they are 8 bit. *)
Definition port_usable (i : ie) : option (Z * Z * bool) :=
  if fst i =? 4 then
    match snd i with
    | [dst; src] => if (dst <? 240) || (src <? 240) then None else Some (dst, src, true)
    | _ => None
    end
  else if fst i =? 5 then
    match snd i with
    | [d1; d0; s1; s0] =>
        if 49151 <? d1 * 256 + d0 then None
        else Some (d1 * 256 + d0, s1 * 256 + s0, false)
    | _ => None
    end
  else None.

Lemma port_usable_range i dst src b :
  wf_ie i -> port_usable i = Some (dst, src, b) -> 0 <= dst /\ 0 <= src.
Proof.
  destruct i as [iei d]. unfold wf_ie, port_usable. cbn [fst snd].
  intros (_ & Hb & _). repeat case_match; try done; intros [= <- <- <-]; subst;
    unfold bytes in Hb; rewrite !Forall_cons in Hb; unfold is_byte in Hb; lia.
Qed.

Lemma app_port_body_ok it i a :
  wf_ie i -> at_ie it i ->
  app_port_body (fst i) it a = Ret (match port_usable i with Some r => r | None => a end).
Proof.
  intros (_ & Hb & _) Hat. unfold app_port_body, port_usable.
  rewrite (ie_length_ok _ _ Hat), (ie_data_ok _ _ Hat).
  destruct i as [iei d]. cbn [fst snd] in *.
  unfold SMS_IEI_APPLICATION_ADDRESS_8BIT, SMS_IEI_APPLICATION_ADDRESS_16BIT.
  destruct (iei =? 4); [|destruct (iei =? 5)]; simp_res; [| |done].
  - destruct (Z.eqb_spec (zlen d) 2) as [Hl|Hl]; cbn [negb].
    + apply zlen_2 in Hl as (x & y & ->). read_all.
      destruct (x <? 240); [done|]. by destruct (y <? 240).
    + by destruct d as [|? [|? [|? ?]]].
  - destruct (Z.eqb_spec (zlen d) 4) as [Hl|Hl]; cbn [negb].
    + apply zlen_4 in Hl as (d1 & d0 & s1 & s0 & ->). read_all.
      apply Forall_cons in Hb as [H1 Hb]. apply Forall_cons in Hb as [H0 Hb].
      apply Forall_cons in Hb as [H3 Hb]. apply Forall_cons in Hb as [H2 _].
      destruct (be16 d1 d0) as [-> _]; [done..|]. destruct (be16 s1 s0) as [-> _]; [done..|].
      by destruct (49151 <? d1 * 256 + d0).
    + by destruct d as [|? [|? [|? [|? [|? ?]]]]].
Qed.

(** The national language an element selects with identifier [iei]. *)
Definition language_usable (iei : Z) (i : ie) : option Z :=
  if fst i =? iei then match snd i with [v] => Some v | _ => None end else None.

Lemma language_body_ok it i a :
  wf_ie i -> at_ie it i ->
  language_body (fst i) it a =
  Ret (default (fst a) (language_usable 0x25 i), default (snd a) (language_usable 0x24 i)).
Proof.
  intros (_ & Hb & _) Hat. unfold language_body, language_usable.
  rewrite (ie_length_ok _ _ Hat), (ie_data_ok _ _ Hat).
  destruct i as [iei d], a as [l q]. cbn [fst snd] in *.
  unfold SMS_IEI_NATIONAL_LANGUAGE_SINGLE_SHIFT, SMS_IEI_NATIONAL_LANGUAGE_LOCKING_SHIFT.
  destruct (Z.eqb_spec iei 0x24) as [->|H24]; [|destruct (Z.eqb_spec iei 0x25) as [->|H25]];
    simp_res; [| |done]; destruct (Z.eqb_spec (zlen d) 1) as [Hl|Hl]; cbn [negb];
    try (apply zlen_1 in Hl as (v & ->); by read_all); by destruct d as [|? [|? ?]].
Qed.

(** * The functions on whole messages *)

Lemma udl_range udl dcs : is_byte udl -> 0 <= sms_udl_in_bytes udl dcs <= 255.
Proof.
  unfold is_byte. intros H. unfold sms_udl_in_bytes.
  rewrite Z.quot_div_nonneg by lia. repeat case_cmp; dzl.
Qed.

(** The octets of user data that the message announces. *)
Definition ud_len (m : sms) : Z :=
  let '(_, dcs, udl, _, _) := sms_extract_common m in
  match tpdu m with SMS_TYPE_COMMAND _ => udl | _ => sms_udl_in_bytes udl dcs end.

(** The user data is an array of its size. *)
Definition ud_ok (m : sms) : Prop :=
  let '(_, _, udl, max, ud) := sms_extract_common m in
  is_byte udl /\ bytes ud /\ zlen ud = max.

(** The message has a user data header of elements [ies]. *)
Definition msg_ies (m : sms) (ies : list ie) : Prop :=
  let '(udhi, _, _, max, ud) := sms_extract_common m in
  udhi = true /\ ud_len m <= max /\ has_ies ud (ud_len m) ies.

Definition ud_of (m : sms) : list Z := snd (sms_extract_common m).

Lemma msg_ies_wf m ies : msg_ies m ies -> Forall wf_ie ies.
Proof.
  unfold msg_ies. destruct (sms_extract_common m) as [[[[? ?] ?] ?] ?].
  by intros (_ & _ & [_ Hw _ _]).
Qed.

Lemma ud_len_range m : ud_ok m -> 0 <= ud_len m <= 255.
Proof.
  unfold ud_ok, ud_len. destruct (sms_extract_common m) as [[[[udhi dcs] udl] max] ud].
  intros [H _]. pose proof (udl_range udl dcs H). unfold is_byte in H.
  destruct (tpdu m); lia.
Qed.

Lemma iter_init_cases m : ud_ok m ->
  (exists ies, msg_ies m ies /\
     sms_udh_iter_init m = Ret {| iter_data := ud_of m; iter_offset := 1 |}) \/
  ((forall ies, ~ msg_ies m ies) /\ sms_udh_iter_init m = Err).
Proof.
  intros Hok. pose proof (ud_len_range m Hok) as Hl. unfold sms_udh_iter_init, msg_ies, ud_of.
  unfold ud_ok in Hok.
  assert (Hmax : u8 (match tpdu m with
      | SMS_TYPE_COMMAND _ => snd (fst (fst (sms_extract_common m)))
      | _ => sms_udl_in_bytes (snd (fst (fst (sms_extract_common m))))
               (snd (fst (fst (fst (sms_extract_common m))))) end) = ud_len m).
  { unfold u8, ud_len in *. destruct (sms_extract_common m) as [[[[udhi dcs] udl] max] ud].
    cbn [fst snd]. apply Z.mod_small. destruct (tpdu m); lia. }
  destruct (sms_extract_common m) as [[[[udhi dcs] udl] max] ud]. cbn [fst snd] in *.
  rewrite Hmax. destruct Hok as (Hudl & Hb & Hz).
  destruct udhi; cbn [negb]; [|right; split; [by intros ies []|done]].
  destruct (Z.ltb_spec (ud_len m) 3) as [H3|H3].
  { right. split; [|done]. intros ies (_ & _ & [Hne _ Hlen _]).
    destruct ies as [|i ies]; [done|]. cbn [encode_ies flat_map] in Hlen.
    rewrite zlen_app, zlen_encode_ie in Hlen. zl. }
  destruct (Z.ltb_spec max (ud_len m)) as [Hm|Hm].
  { right. split; [|done]. intros ies (_ & Hle & _). lia. }
  destruct (verify_udh_ok ud (ud_len m)) as (b & Hv & Hiff); [done|lia|lia|].
  rewrite Hv. simp_res. destruct b; simp_res.
  - left. destruct (proj1 Hiff eq_refl) as [ies Hi]. by exists ies.
  - right. split; [|done]. intros ies (_ & _ & Hi). by discriminate (proj2 Hiff (ex_intro _ _ Hi)).
Qed.

(** Where the elements of a message with a header are. *)
Lemma msg_position m ies : ud_ok m -> msg_ies m ies ->
  exists h rest, sms_udh_iter_init m = Ret {| iter_data := ud_of m; iter_offset := 1 |} /\
    rd (ud_of m) 0 = Ret h /\ h <= 254 /\ Forall wf_ie ies /\
    at_pos (ud_of m) 1 (encode_ies ies ++ rest) /\ 1 + zlen (encode_ies ies) = h + 1 /\ (length ies < 256)%nat.
Proof.
  intros Hok Hi. pose proof (ud_len_range m Hok) as Hl.
  destruct (iter_init_cases m Hok) as [(_ & _ & Hinit)|[H _]]; [|by destruct (H ies)].
  unfold msg_ies, ud_of, ud_ok in *.
  destruct (sms_extract_common m) as [[[[udhi dcs] udl] max] ud]. cbn [fst snd] in *.
  destruct Hi as (_ & Hmax & [Hne Hw Hlen [rest Hud]]).
  exists (zlen (encode_ies ies)), rest. split_and!; [done|by rewrite Hud|lia|done| |lia|].
  - rewrite Hud. unfold udh. cbn [app]. apply (at_pos_app _ 0 [zlen (encode_ies ies)]). apply at_pos_0.
  - pose proof (length_ies ies). unfold zlen in Hlen. lia.
Qed.

(** A message has one list of elements at most, the one that can be parsed. *)
Lemma msg_ies_parse m ies : ud_ok m -> msg_ies m ies ->
  parse_ies 256 (take (Z.to_nat (default 0 (head (ud_of m)))) (drop 1 (ud_of m))) = Some ies.
Proof.
  intros Hok Hi. destruct (msg_position m ies Hok Hi) as (_ & _ & _ & _ & _ & _ & _ & _ & Hf).
  unfold msg_ies, ud_of in *. destruct (sms_extract_common m) as [[[[udhi dcs] udl] max] ud]. cbn [snd].
  destruct Hi as (_ & _ & [Hne _ _ [rest ->]]). unfold udh. cbn [app head from_option id drop].
  rewrite to_nat_zlen, drop_0, take_app_length. apply parse_encode; [done|lia].
Qed.

(** Any of the three loops on a message with a header. *)
Lemma msg_loop {A} (body : Z -> sms_udh_iter -> A -> res A) (step : A -> ie -> A) m ies a :
  (forall it i a, wf_ie i -> at_ie it i -> body (fst i) it a = Ret (step a i)) ->
  ud_ok m -> msg_ies m ies ->
  sms_udh_iter_init m = Ret {| iter_data := ud_of m; iter_offset := 1 |} /\
  udh_loop 256 body {| iter_data := ud_of m; iter_offset := 1 |} a = Ret (foldl step a ies).
Proof.
  intros Hbody Hok Hi.
  destruct (msg_position m ies Hok Hi) as (h & rest & Hinit & Hh & H254 & Hw & Hp & Hlen & Hf).
  split; [done|]. by apply (udh_loop_fold body step (ud_of m) h rest Hbody Hh H254 ies).
Qed.

(** A loop that may leave its function. *)
Lemma msg_search {A B} (body : Z -> sms_udh_iter -> A -> res (A + B)) (I : list ie -> A -> Prop)
    (Q : list ie -> ie -> B -> Prop) (P : ie -> Prop) m ies a :
  (forall it seen i a, wf_ie i -> P i -> at_ie it i -> I seen a ->
     exists r, body (fst i) it a = Ret r /\ match r with inl a => I (seen ++ [i]) a | inr b => Q seen i b end) ->
  ud_ok m -> msg_ies m ies -> Forall P ies -> I [] a ->
  sms_udh_iter_init m = Ret {| iter_data := ud_of m; iter_offset := 1 |} /\
  exists r, udh_search 256 body {| iter_data := ud_of m; iter_offset := 1 |} a = Ret r /\
    match r with
    | inl a => I ies a
    | inr b => exists ies1 i ies2, ies = ies1 ++ i :: ies2 /\ Q ies1 i b
    end.
Proof.
  intros Hbody Hok Hi HP HI.
  destruct (msg_position m ies Hok Hi) as (h & rest & Hinit & Hh & H254 & Hw & Hp & Hlen & Hf).
  split; [done|]. by apply (udh_search_inv body I Q P (ud_of m) h rest Hbody Hh H254 ies 256 1 [] a).
Qed.

(** A loop that does not leave. *)
Lemma udh_loop_search {A} (body : Z -> sms_udh_iter -> A -> res A) : forall fuel it a,
  udh_loop fuel body it a =
  (r ← udh_search (B := A) fuel (fun iei it a => a ← body iei it a; Ret (inl a)) it a;
   match r with inl a => Ret a | inr a => Ret a end).
Proof.
  induction fuel as [|fuel IH]; intros it a; [done|]. cbn [udh_loop udh_search].
  destruct (sms_udh_iter_get_ie_type it) as [iei| |]; [|done..]. rewrite !bind_Ret.
  destruct (iei =? SMS_IEI_INVALID); [done|]. destruct (body iei it a) as [a'| |]; [|done..]. rewrite !bind_Ret.
  destruct (sms_udh_iter_next it) as [[it' ?]| |]; [|done..]. rewrite !bind_Ret. apply IH.
Qed.

(** C27: [sms_udh_iter_init] accepts a message exactly when its user data
    starts with a header made of one or more complete information elements,
    shorter than the user data; it never reads outside the user data. *)
Theorem udh_iter_init_spec m : ud_ok m ->
  ((exists ies, msg_ies m ies) <->
     sms_udh_iter_init m = Ret {| iter_data := ud_of m; iter_offset := 1 |}) /\
  ((forall ies, ~ msg_ies m ies) <-> sms_udh_iter_init m = Err).
Proof.
  intros Hok. destruct (iter_init_cases m Hok) as [(ies & Hi & ->)|[Hno ->]].
  - split; split; intros H; try done; [by exists ies|]. by destruct (H ies).
  - split; split; intros H; try done. destruct H as [ies H]. by destruct (Hno ies).
Qed.

Lemma concatenation_ok m : ud_ok m ->
  (forall ies, msg_ies m ies ->
     sms_extract_concatenation m =
     match last (omap concat_usable ies) with Some r => Ret r | None => Err end) /\
  ((forall ies, ~ msg_ies m ies) -> sms_extract_concatenation m = Err).
Proof.
  intros Hok. unfold sms_extract_concatenation. split.
  - intros ies Hi.
    destruct (msg_loop concatenation_body (override concat_usable) m ies None
      concatenation_body_ok Hok Hi) as [-> H].
    simp_res. rewrite H. simp_res. rewrite foldl_override. by destruct (last _).
  - intros Hno. destruct (iter_init_cases m Hok) as [(ies & Hi & _)|[_ ->]]; [|done].
    by destruct (Hno ies).
Qed.

(** [sms_extract_concatenation] gives the reference, total and sequence
    number of the last usable concatenation element of the header, of either
    kind, and fails when there is none or no valid header; the numbers satisfy
    1 <= seq <= max. *)
Theorem concatenation_spec m : ud_ok m ->
  (forall ies, msg_ies m ies ->
     sms_extract_concatenation m =
     match last (omap concat_usable ies) with Some r => Ret r | None => Err end) /\
  ((forall ies, ~ msg_ies m ies) -> sms_extract_concatenation m = Err).
Proof. exact (concatenation_ok m). Qed.

Lemma app_port_ok m : ud_ok m ->
  (forall ies, msg_ies m ies ->
     sms_extract_app_port m =
     match last (omap port_usable ies) with Some r => Ret r | None => Err end) /\
  ((forall ies, ~ msg_ies m ies) -> sms_extract_app_port m = Err).
Proof.
  intros Hok. unfold sms_extract_app_port, extract_app_port_common. split.
  - intros ies Hi. pose proof (msg_ies_wf m ies Hi) as Hw.
    destruct (msg_loop app_port_body _ m ies (-1, -1, false) app_port_body_ok Hok Hi)
      as [-> H].
    simp_res. rewrite H. simp_res. rewrite foldl_last.
    destruct (last (omap port_usable ies)) as [[[dst src] b]|] eqn:Hl; [|done].
    assert (Hr : 0 <= dst /\ 0 <= src).
    { apply last_elem_of_omap in Hl as (i & Hi' & Hu).
      rewrite Forall_forall in Hw. by apply (port_usable_range i _ _ b); [apply Hw|]. }
    rewrite !(proj2 (Z.eqb_neq _ (-1))) by lia. done.
  - intros Hno. destruct (iter_init_cases m Hok) as [(ies & Hi & _)|[_ ->]]; [|done].
    by destruct (Hno ies).
Qed.

(** [sms_extract_app_port] gives the ports of the last usable port element
    of the header: 8 bit ports of 240 and above, or 16 bit ports with a
    destination of at most 49151. *)
Theorem app_port_spec m : ud_ok m ->
  (forall ies, msg_ies m ies ->
     sms_extract_app_port m =
     match last (omap port_usable ies) with Some r => Ret r | None => Err end) /\
  ((forall ies, ~ msg_ies m ies) -> sms_extract_app_port m = Err).
Proof. exact (app_port_ok m). Qed.

Lemma language_variant_ok m locking single : ud_ok m ->
  (forall ies, msg_ies m ies ->
     sms_extract_language_variant m locking single =
     Ret (default locking (last (omap (language_usable 0x25) ies)),
          default single (last (omap (language_usable 0x24) ies)))) /\
  ((forall ies, ~ msg_ies m ies) -> sms_extract_language_variant m locking single = Err).
Proof.
  intros Hok. unfold sms_extract_language_variant. split.
  - intros ies Hi.
    destruct (msg_loop language_body _ m ies (locking, single) language_body_ok Hok Hi)
      as [-> H].
    simp_res. rewrite H. f_equal. clear.
    induction ies as [|i ies IH] using rev_ind; [done|].
    rewrite foldl_app, !omap_app, !last_app. cbn [foldl]. rewrite IH. cbn.
    by destruct (language_usable 37 i), (language_usable 36 i).
  - intros Hno. destruct (iter_init_cases m Hok) as [(ies & Hi & _)|[_ ->]]; [|done].
    by destruct (Hno ies).
Qed.

(** [sms_extract_language_variant] leaves in [*locking] and [*single] the
    last one-octet language element of each kind, or what was there. *)
Theorem language_variant_spec m locking single : ud_ok m ->
  (forall ies, msg_ies m ies ->
     sms_extract_language_variant m locking single =
     Ret (default locking (last (omap (language_usable 0x25) ies)),
          default single (last (omap (language_usable 0x24) ies)))) /\
  ((forall ies, ~ msg_ies m ies) -> sms_extract_language_variant m locking single = Err).
Proof. exact (language_variant_ok m locking single). Qed.

(** * A concrete message *)

(** A fragment: a concatenation element, ports and a locking shift, and three
    octets of data. *)
Definition sample_ies : list ie := [(0, [42; 3; 2]); (5, [0x0b; 0x84; 0x23; 0xf0]); (0x25, [1])].

Definition sample_fragment : sms :=
  {| sc_addr := no_address;
     tpdu := SMS_TYPE_SUBMIT
       {| submit_rd := false; submit_rp := false; submit_udhi := true; submit_srr := false;
          submit_mr := 0;
          submit_daddr := {| number_type := 1; numbering_plan := 1; address := [52; 57] |};
          submit_pid := 0; submit_dcs := 4; submit_vp := VpAbsent;
          submit_udl := 18;
          submit_ud := udh sample_ies ++ [7; 8; 9] ++ zeros 122 |} |}.

Lemma sample_fragment_ok : ud_ok sample_fragment.
Proof.
  split; [by split|]. split; [|by vm_compute].
  apply (bool_decide_unpack _). by vm_compute.
Qed.

Lemma sample_fragment_ies : msg_ies sample_fragment sample_ies.
Proof.
  split_and!; [done|by vm_compute|]. split; [done| |by vm_compute|by eexists].
  repeat constructor; by vm_compute.
Qed.

Lemma udh_iter_init_spec_witness :
  sms_udh_iter_init sample_fragment =
    Ret {| iter_data := ud_of sample_fragment; iter_offset := 1 |}.
Proof.
  apply (proj1 (proj1 (udh_iter_init_spec sample_fragment sample_fragment_ok))).
  exact (ex_intro _ sample_ies sample_fragment_ies).
Defined.

Lemma concatenation_spec_witness : sms_extract_concatenation sample_fragment = Ret (42, 3, 2).
Proof.
  exact (proj1 (concatenation_spec sample_fragment sample_fragment_ok)
           sample_ies sample_fragment_ies).
Defined.

Lemma app_port_spec_witness : sms_extract_app_port sample_fragment = Ret (2948, 9200, false).
Proof.
  exact (proj1 (app_port_spec sample_fragment sample_fragment_ok)
           sample_ies sample_fragment_ies).
Defined.

Lemma language_variant_spec_witness :
  sms_extract_language_variant sample_fragment 0 0 = Ret (1, 0).
Proof.
  exact (proj1 (language_variant_spec sample_fragment 0 0 sample_fragment_ok)
           sample_ies sample_fragment_ies).
Defined.
