(* ===== verification/SmsDatagram.v ===== *)
(** Datagrams over short messages, of src/src/smsutil.c:
    [sms_datagram_prepare], which breaks data into 8 bit SMS-SUBMIT fragments,
    and [sms_decode_datagram], which joins the user data of fragments. *)
From S2P Require Import Prelude Charset SevenBit SmsField SmsPdu SmsUdh.

(** * sms_decode_datagram *)

(** [taken]: the octets of a valid user data header, else 0. *)
Definition udh_taken (m : sms) : res Z :=
  match sms_udh_iter_init m with
  | Ret it => h ← sms_udh_iter_get_udh_length it; Ret (u8 (h + 1))
  | Err => Ret 0
  | Ub => Ub
  end.

Definition udl_of (m : sms) : Z := snd (fst (fst (sms_extract_common m))).

Fixpoint datagram_len (sms_list : list sms) (len : Z) : res Z :=
  match sms_list with
  | [] => Ret len
  | m :: l => taken ← udh_taken m; datagram_len l (len + (udl_of m - taken))
  end.

Fixpoint datagram_copy (sms_list : list sms) (cap : Z) (buf : list Z) : res (list Z) :=
  match sms_list with
  | [] => Ret buf
  | m :: l =>
      taken ← udh_taken m;
      bs ← slice (ud_of m) taken (udl_of m - taken);
      buf ← put cap buf bs;
      datagram_copy l cap buf
  end.

Definition sms_decode_datagram (sms_list : list sms) : res (list Z) :=
  len ← datagram_len sms_list 0;
  if len =? 0 then Err else datagram_copy sms_list len [].

(** * sms_datagram_prepare *)

(** The SMS-SUBMIT with the given user data: what the code keeps in
    [template]. *)
Definition submit_template (daddr : sms_address) (srr udhi : bool) (dcs udl : Z)
    (ud : list Z) : sms :=
  {| sc_addr := no_address;
     tpdu := SMS_TYPE_SUBMIT
       {| submit_rd := false; submit_rp := false; submit_udhi := udhi; submit_srr := srr;
          submit_mr := 0; submit_daddr := daddr; submit_pid := 0; submit_dcs := dcs;
          submit_vp := VpRelative 0xA7; submit_udl := udl; submit_ud := ud |} |}.

(** [sms->submit.ud[i] = v] *)
Definition submit_set_ud (i v : Z) (m : sms) : res sms :=
  match tpdu m with
  | SMS_TYPE_SUBMIT s =>
      ud ← wr (submit_ud s) i v;
      Ret {| sc_addr := sc_addr m;
             tpdu := SMS_TYPE_SUBMIT
               {| submit_rd := submit_rd s; submit_rp := submit_rp s;
                  submit_udhi := submit_udhi s; submit_srr := submit_srr s;
                  submit_mr := submit_mr s; submit_daddr := submit_daddr s;
                  submit_pid := submit_pid s; submit_dcs := submit_dcs s;
                  submit_vp := submit_vp s; submit_udl := submit_udl s;
                  submit_ud := ud |} |}
  | _ => Ub
  end.

(** The port and concatenation elements as they are written to [ud]. *)
Definition port_header (src dst : Z) (use_16bit_port : bool) : list Z :=
  if use_16bit_port then
    [SMS_IEI_APPLICATION_ADDRESS_16BIT; 4; Z.shiftr (Z.land dst 0xff00) 8; Z.land dst 0xff;
     Z.shiftr (Z.land src 0xff00) 8; Z.land src 0xff]
  else [SMS_IEI_APPLICATION_ADDRESS_8BIT; 2; Z.land dst 0xff; Z.land src 0xff].

(** Without the total and the sequence number, stored later. *)
Definition concat_header (ref : Z) (use_16bit_ref : bool) : list Z :=
  if use_16bit_ref then
    [SMS_IEI_CONCATENATED_16BIT; 4; Z.shiftr (Z.land ref 0xff00) 8; Z.land ref 0xff]
  else [SMS_IEI_CONCATENATED_8BIT; 3; Z.land ref 0xff].

(** [ud[0] += n; memcpy(ud + offset, bs)] *)
Definition add_header (ud : list Z) (offset n : Z) (bs : list Z) : res (list Z) :=
  h ← rd ud 0; ud ← wr ud 0 (u8 (h + n)); blit ud offset bs.

Section Fragments.
(** The template but for the length and the data, and where the data starts. *)
Context (template : Z -> list Z -> sms) (offset : Z) (data : list Z).

(** The fragments made, latest first, with [left] and [seq]. *)
Fixpoint datagram_loop (fuel : nat) (ud : list Z) (written left seq : Z) (r : list sms)
    : res (list sms * Z * Z) :=
  match fuel with
  | O => Ub
  | S fuel =>
    if 0 <? left then
      let seq := u8 (seq + 1) in
      let chunk := if left <? 140 - offset then left else 140 - offset in
      bs ← slice data written chunk;
      ud ← blit ud offset bs;
      ud ← wr ud (offset - 1) seq;
      let r := template (u8 (chunk + offset)) ud :: r in
      if seq =? 255 then Ret (r, left - chunk, seq)
      else datagram_loop fuel ud (written + chunk) (left - chunk) seq r
    else Ret (r, left, seq)
  end.
End Fragments.

(** [mapM] of the loop that stores the total in every fragment. *)
Fixpoint set_total (i v : Z) (l : list sms) : res (list sms) :=
  match l with
  | [] => Ret []
  | m :: l => m ← submit_set_ud i v m; l ← set_total i v l; Ret (m :: l)
  end.

(** [Err] for NULL; [len] is the [len] first octets of [data]. *)
Definition sms_datagram_prepare (to data : list Z) (len ref : Z) (use_16bit_ref : bool)
    (src dst : Z) (use_16bit_port use_delivery_reports : bool) : res (list sms) :=
  daddr ← sms_address_from_string to;
  let template := submit_template daddr use_delivery_reports true 0x04 in
  let offset := 1 in
  let ports := port_header src dst use_16bit_port in
  ud ← add_header (zeros SUBMIT_UD) offset (zlen ports) ports;
  let offset := offset + zlen ports in
  if len <=? 140 - offset then
    bs ← slice data 0 len;
    ud ← blit ud offset bs;
    Ret [template (u8 (len + offset)) ud]
  else
    let concat := concat_header ref use_16bit_ref in
    ud ← add_header ud offset (zlen concat + 2) concat;
    let offset := offset + zlen concat + 2 in
    '(r, remaining, seq) ← datagram_loop template offset data 256 ud 0 len 0 [];
    if 0 <? remaining then Err
    else r ← set_total (offset - 2) seq r; Ret (reverse r).

(** * What the fragments are *)

(** The chunks of [k] octets of the data. *)
Fixpoint chunks (fuel : nat) (k : Z) (l : list Z) : list (list Z) :=
  match fuel, l with
  | S fuel, _ :: _ => take (Z.to_nat k) l :: chunks fuel k (drop (Z.to_nat k) l)
  | _, _ => []
  end.

Definition port_ie (src dst : Z) (wide : bool) : ie :=
  if wide then
    (5, [Z.shiftr (Z.land dst 0xff00) 8; Z.land dst 0xff;
         Z.shiftr (Z.land src 0xff00) 8; Z.land src 0xff])
  else (4, [Z.land dst 0xff; Z.land src 0xff]).

Definition concat_ie (ref : Z) (wide : bool) (total seq : Z) : ie :=
  if wide then (8, [Z.shiftr (Z.land ref 0xff00) 8; Z.land ref 0xff; total; seq])
  else (0, [Z.land ref 0xff; total; seq]).

(** [m] is the message of template [tpl] with header [ies] and data [c]; what
    is left of the array does not matter. *)
Definition carries (tpl : Z -> list Z -> sms) (ies : list ie) (c : list Z) (m : sms) : Prop :=
  exists tail,
    m = tpl (zlen (udh ies) + zlen c) (udh ies ++ c ++ tail) /\
    zlen (udh ies) + zlen c + zlen tail = 140 /\ bytes tail.

(** Consecutive fragments, numbered from [seq + 1], of a message of [total]. *)
Inductive fragments (tpl : Z -> list Z -> sms) (ies : Z -> Z -> list ie) (total : Z)
    : Z -> list (list Z) -> list sms -> Prop :=
  | fragments_nil seq : fragments tpl ies total seq [] []
  | fragments_cons seq c cs m ms :
      carries tpl (ies total (seq + 1)) c m ->
      fragments tpl ies total (seq + 1) cs ms ->
      fragments tpl ies total seq (c :: cs) (m :: ms).

Lemma chunks_cons fuel k l : l <> [] ->
  chunks (S fuel) k l = take (Z.to_nat k) l :: chunks fuel k (drop (Z.to_nat k) l).
Proof. by destruct l. Qed.

Lemma concat_chunks k : 0 < k -> forall fuel l,
  (length l <= fuel)%nat -> concat (chunks fuel k l) = l.
Proof.
  intros Hk. induction fuel as [|fuel IH]; intros l Hf; [by destruct l; cbn in Hf; [|lia]|].
  destruct l as [|x l]; [done|]. rewrite chunks_cons by done. cbn [concat].
  rewrite IH, take_drop; [done|]. rewrite length_drop. cbn [length] in *. lia.
Qed.

Lemma length_chunks k : 0 < k -> forall fuel l,
  (length l <= fuel)%nat -> zlen (chunks fuel k l) = (zlen l + k - 1) / k.
Proof.
  intros Hk. induction fuel as [|fuel IH]; intros l Hf.
  { destruct l; [|cbn in Hf; lia]. change (zlen (chunks 0 k [])) with 0.
    change (zlen []) with 0. rewrite Z.div_small; lia. }
  destruct l as [|x l].
  { change (zlen (chunks _ k [])) with 0. change (zlen []) with 0. rewrite Z.div_small; lia. }
  rewrite chunks_cons, zlen_cons, IH by (done || (rewrite length_drop; cbn [length] in *; lia)).
  set (n := zlen (x :: l)). assert (1 <= n) by (unfold n; zl).
  assert (zlen (drop (Z.to_nat k) (x :: l)) = Z.max 0 (n - k)) as -> by (unfold n; zl).
  destruct (Z.le_gt_cases n k).
  - rewrite Z.max_l, (Z.div_small (0 + k - 1)) by lia.
    replace (n + k - 1) with (1 * k + (n - 1)) by lia.
    rewrite Z.div_add_l, (Z.div_small (n - 1)) by lia. lia.
  - rewrite Z.max_r by lia. replace (n + k - 1) with (n - k + k - 1 + 1 * k) by lia.
    rewrite Z.div_add by lia. lia.
Qed.

Section Prepare.
Context (tpl : Z -> list Z -> sms) (base : list Z) (ies : Z -> Z -> list ie).
Context (Hies : forall t s, udh (ies t s) = base ++ [t; s]).
Let offset := zlen base + 2.
Context (Hoff : offset < 140).
Let k := 140 - offset.

Lemma zlen_udh_ies t s : zlen (udh (ies t s)) = offset.
Proof. rewrite Hies, zlen_app. done. Qed.

Lemma datagram_loop_ok data fuel : forall l n tl ud rest t s0 written seq r,
  at_pos data written (l ++ tl) -> bytes l -> bytes rest -> (length l <= n)%nat ->
  ud = base ++ [t; s0] ++ rest -> zlen rest = k ->
  0 <= seq < 255 -> 255 - seq < Z.of_nat fuel ->
  (zlen l <= k * (255 - seq) ->
   exists ms,
    datagram_loop tpl offset data fuel ud written (zlen l) seq r
      = Ret (reverse ms ++ r, 0, seq + zlen ms) /\
    fragments tpl ies t seq (chunks n k l) ms) /\
  (k * (255 - seq) < zlen l -> exists r' remaining,
    datagram_loop tpl offset data fuel ud written (zlen l) seq r = Ret (r', remaining, 255) /\
    0 < remaining).
Proof.
  pose proof (zlen_nonneg base). assert (Hk : 0 < k) by (unfold k, offset in *; lia).
  induction fuel as [|fuel IH];
    intros l n tl ud rest t s0 written seq r Hp Hl Hr Hn Hud Hz Hseq Hf; [lia|].
  cbn [datagram_loop]. fold k. destruct (decide (l = [])) as [->|Hne].
  { change (zlen []) with 0. rewrite (proj2 (Z.ltb_ge 0 0)) by lia. split; [|nia].
    intros _. exists []. split; [by rewrite Z.add_0_r|destruct n; constructor]. }
  assert (Hpos : 0 < zlen l) by (destruct l; [done|zl]).
  rewrite (proj2 (Z.ltb_lt 0 _)) by done.
  assert (Hu : u8 (seq + 1) = seq + 1) by (unfold u8; apply Z.mod_small; lia).
  rewrite !Hu.
  set (chunk := if zlen l <? k then zlen l else k).
  set (c := take (Z.to_nat k) l). set (l' := drop (Z.to_nat k) l).
  assert (Hc : zlen c = chunk) by (unfold c, chunk; destruct (Z.ltb_spec (zlen l) k); zl).
  assert (Hck : 0 < chunk <= k) by (unfold chunk; destruct (Z.ltb_spec (zlen l) k); lia).
  assert (Hl' : zlen l' = zlen l - chunk)
    by (unfold l', chunk; destruct (Z.ltb_spec (zlen l) k); zl).
  assert (Hsplit : l = c ++ l') by (unfold c, l'; by rewrite take_drop).
  assert (Hcb : bytes c) by by apply Forall_take.
  rewrite Hsplit, <- app_assoc in Hp.
  rewrite (at_pos_slice _ _ _ _ _ Hp) by done. simp_res. apply at_pos_app in Hp.
  pose proof (take_drop (length c) rest) as Hrest.
  set (r1 := take (length c) rest) in *. set (r2 := drop (length c) rest) in *.
  assert (Hr1 : zlen r1 = zlen c) by (unfold r1, zlen in *; rewrite length_take; lia).
  assert (Hr2 : bytes r2) by by apply Forall_drop.
  rewrite Hud, <- Hrest, app_assoc.
  rewrite blit_middle by (rewrite ?zlen_app; done). simp_res.
  replace ((base ++ [t; s0]) ++ c ++ r2) with ((base ++ [t]) ++ s0 :: c ++ r2)
    by (by rewrite <- !app_assoc).
  rewrite wr_middle by (unfold offset; zl). simp_res.
  replace ((base ++ [t]) ++ seq + 1 :: c ++ r2) with (udh (ies t (seq + 1)) ++ c ++ r2)
    by (rewrite Hies, <- !app_assoc; done).
  assert (u8 (chunk + offset) = offset + zlen c) as ->.
  { unfold u8. rewrite Z.mod_small by (unfold k in *; lia). lia. }
  set (m := tpl _ _).
  assert (Hr2z : zlen c + zlen r2 = k) by (rewrite <- Hr1, <- Hz, <- Hrest; zl).
  assert (Hm : carries tpl (ies t (seq + 1)) c m).
  { exists r2. rewrite zlen_udh_ies. split_and!; [done|unfold k in *; lia|done]. }
  destruct n as [|n]; [destruct l; [done|cbn in Hn; lia]|]. rewrite chunks_cons by done. fold c l'.
  assert (Hn' : (length l' <= n)%nat).
  { unfold zlen in *. cbn [length] in *. lia. }
  rewrite <- Hl'. destruct (Z.eqb_spec (seq + 1) 255) as [Hs|Hs].
  - split.
    + intros Hle. replace (255 - seq) with 1 in Hle by lia.
      assert (Hl0 : zlen l' = 0)
        by (rewrite Hl'; unfold chunk; destruct (Z.ltb_spec (zlen l) k); lia).
      assert (l' = []) as Hnil by (destruct l'; [done|zl]).
      exists [m]. rewrite Hnil. split; [done|].
      destruct n; repeat (constructor; try done).
    + intros Hgt. exists (m :: r), (zlen l'). split; [by rewrite Hs|]. nia.
  - destruct (IH l' n tl (udh (ies t (seq + 1)) ++ c ++ r2) (c ++ r2) t (seq + 1)
      (written + chunk) (seq + 1) (m :: r)) as [IH1 IH2].
    + by rewrite <- Hc.
    + by apply Forall_drop.
    + by apply Forall_app.
    + done.
    + by rewrite Hies, <- !app_assoc.
    + by rewrite zlen_app.
    + lia.
    + lia.
    + split.
      * intros Hle. destruct IH1 as (ms & Heq & Hfr).
        { rewrite Hl'. unfold chunk. destruct (Z.ltb_spec (zlen l) k); nia. }
        exists (m :: ms). split; [|by constructor].
        rewrite Heq, reverse_cons, <- app_assoc, zlen_cons.
        by replace (seq + 1 + zlen ms) with (seq + (1 + zlen ms)) by lia.
      * intros Hgt. apply IH2. nia.
Qed.

Lemma set_total_one t v s udl bs :
  (forall udl ud ud', wr ud (offset - 2) v = Ret ud' ->
     submit_set_ud (offset - 2) v (tpl udl ud) = Ret (tpl udl ud')) ->
  submit_set_ud (offset - 2) v (tpl udl (udh (ies t s) ++ bs)) = Ret (tpl udl (udh (ies v s) ++ bs)).
Proof.
  intros Htpl. apply Htpl. rewrite !Hies, <- !app_assoc. cbn [app].
  apply wr_middle. unfold offset. lia.
Qed.

(** Storing the total turns the fragments of total [t] into those of [v]. *)
Lemma set_total_ok t v seq cs ms :
  (forall udl ud ud', wr ud (offset - 2) v = Ret ud' ->
     submit_set_ud (offset - 2) v (tpl udl ud) = Ret (tpl udl ud')) ->
  fragments tpl ies t seq cs ms ->
  exists ms', fragments tpl ies v seq cs ms' /\
    Forall2 (fun m m' => submit_set_ud (offset - 2) v m = Ret m') ms ms'.
Proof.
  intros Htpl. induction 1 as [|seq c cs m ms (tail & Hm & Hz & Hb) Hfr IH].
  { exists []. split; constructor. }
  destruct IH as (ms' & Hfr' & Hset).
  exists (tpl (zlen (udh (ies v (seq + 1))) + zlen c) (udh (ies v (seq + 1)) ++ c ++ tail) :: ms').
  split.
  - constructor; [|done]. exists tail. rewrite zlen_udh_ies in *. done.
  - constructor; [|done]. rewrite Hm, !zlen_udh_ies. by apply set_total_one.
Qed.
End Prepare.

Lemma set_total_Forall2 i v ms ms' :
  Forall2 (fun m m' => submit_set_ud i v m = Ret m') ms ms' -> set_total i v ms = Ret ms'.
Proof.
  induction 1 as [|m m' ms ms' Hm Hms IH]; [done|]. cbn [set_total].
  rewrite Hm. simp_res. rewrite IH. done.
Qed.

Lemma length_fragments tpl ies t seq cs ms :
  fragments tpl ies t seq cs ms -> zlen ms = zlen cs.
Proof. induction 1; [done|]. zl. Qed.

(** * The whole preparation *)

Definition datagram_ies (src dst : Z) (wide_port : bool) (ref : Z) (wide_ref : bool)
    (total seq : Z) : list ie :=
  [port_ie src dst wide_port; concat_ie ref wide_ref total seq].

Lemma datagram_udh src dst wide_port ref wide_ref t s :
  udh (datagram_ies src dst wide_port ref wide_ref t s) =
  (zlen (port_header src dst wide_port) + (zlen (concat_header ref wide_ref) + 2))
    :: port_header src dst wide_port ++ concat_header ref wide_ref ++ [t; s].
Proof.
  assert (He : encode_ies (datagram_ies src dst wide_port ref wide_ref t s) =
    port_header src dst wide_port ++ concat_header ref wide_ref ++ [t; s]).
  { unfold datagram_ies, port_ie, concat_ie. by destruct wide_port, wide_ref. }
  unfold udh. rewrite He. f_equal. rewrite !zlen_app. done.
Qed.

(** The octets of data a fragment carries. *)
Definition fragment_size (wide_port wide_ref : bool) : Z :=
  140 - (1 + (if wide_port then 6 else 4) + (if wide_ref then 6 else 5)).

Definition short (z : Z) : Prop := 0 <= z < 65536.

(** The two octets of an unsigned short. *)
Lemma short_octets z : short z ->
  is_byte (Z.shiftr (Z.land z 0xff00) 8) /\ is_byte (Z.land z 0xff) /\
  Z.shiftr (Z.land z 0xff00) 8 = z / 256 /\ Z.land z 0xff = z mod 256.
Proof.
  unfold short, is_byte. intros Hz.
  assert (H1 : Z.land z 0xff = z mod 256) by apply (land_ones_mod z 8 ltac:(lia)).
  assert (H2 : Z.shiftr (Z.land z 0xff00) 8 = z / 256).
  { rewrite Z.shiftr_land. change (Z.shiftr 0xff00 8) with (Z.shiftl 1 8 - 1).
    rewrite land_ones_mod, Z.shiftr_div_pow2 by lia. change (2 ^ 8) with 256. dzl. }
  rewrite H1, H2. split_and!; try done; dzl.
Qed.

Lemma zeros_add a b : 0 <= a -> 0 <= b -> zeros (a + b) = zeros a ++ zeros b.
Proof. intros. unfold zeros. by rewrite Z2Nat.inj_add, replicate_add by lia. Qed.

Lemma zeros_2 : [0; 0] = zeros 2.
Proof. done. Qed.

Lemma add_header_ok h hdr gap rest ud offset n bs :
  ud = h :: hdr ++ gap ++ rest -> offset = 1 + zlen hdr -> zlen gap = zlen bs ->
  add_header ud offset n bs = Ret (u8 (h + n) :: hdr ++ bs ++ rest).
Proof.
  intros -> -> Hz. unfold add_header.
  pose proof (rd_middle [] h (hdr ++ gap ++ rest) 0 eq_refl) as Hr.
  pose proof (wr_middle [] (hdr ++ gap ++ rest) h (u8 (h + n)) 0 eq_refl) as Hw.
  cbn [app] in Hr, Hw. rewrite Hr. simp_res. rewrite Hw. simp_res.
  apply (blit_middle (u8 (h + n) :: hdr)); [zl|done].
Qed.

(** What [sms_datagram_prepare] returns, case by case. *)
Lemma datagram_prepare_ok to data rest ref wide_ref src dst wide_port srr daddr :
  sms_address_from_string to = Ret daddr ->
  bytes data -> short src -> short dst -> short ref ->
  let tpl := submit_template daddr srr true 0x04 in
  let len := zlen data in
  let k := fragment_size wide_port wide_ref in
  let one := [port_ie src dst wide_port] in
  let r := sms_datagram_prepare to (data ++ rest) len ref wide_ref src dst wide_port srr in
  if zlen (udh one) + len <=? 140 then
    exists m, r = Ret [m] /\ carries tpl one data m
  else if len <=? 255 * k then
    exists ms,
      r = Ret ms /\ 0 < zlen ms <= 255 /\
      fragments tpl (datagram_ies src dst wide_port ref wide_ref) (zlen ms) 0
        (chunks (length data) k data) ms
  else r = Err.
Proof.
  intros Hto Hdata Hsrc Hdst Href tpl len k one r.
  destruct (short_octets _ Hsrc) as (Bs1 & Bs0 & _ & _).
  destruct (short_octets _ Hdst) as (Bd1 & Bd0 & _ & _).
  destruct (short_octets _ Href) as (Br1 & Br0 & _ & _).
  set (ports := port_header src dst wide_port).
  set (concat := concat_header ref wide_ref).
  assert (Hone : udh one = zlen ports :: ports) by (unfold one; by destruct wide_port).
  assert (Hports : bytes ports /\ 1 + zlen ports = zlen (udh one)).
  { rewrite Hone, zlen_cons. split; [|lia].
    unfold ports. destruct wide_port; by repeat (apply Forall_cons; split; [done|]). }
  destruct Hports as [Hpb Hpz].
  assert (Hpl : zlen ports = if wide_port then 6 else 4) by (unfold ports; by destruct wide_port).
  unfold r, sms_datagram_prepare. rewrite Hto. simp_res. fold ports concat.
  assert (Hplr : 4 <= zlen ports <= 6) by (rewrite Hpl; destruct wide_port; lia).
  assert (Hz0 : zeros SUBMIT_UD = 0 :: [] ++ zeros (zlen ports) ++ zeros (139 - zlen ports)).
  { change (0 :: [] ++ ?l) with (zeros 1 ++ l).
    rewrite <- !zeros_add by lia. f_equal. unfold SUBMIT_UD. lia. }
  rewrite (add_header_ok 0 [] (zeros (zlen ports)) (zeros (139 - zlen ports)))
    by (done || (symmetry; apply zlen_zeros; lia) || (apply zlen_zeros; lia)).
  assert (u8 (0 + zlen ports) = zlen ports) as ->
    by (unfold u8; rewrite Z.mod_small; lia).
  simp_res. cbn [app]. rewrite Hpz. fold len.
  assert (Hcond : (len <=? 140 - zlen (udh one)) = (zlen (udh one) + len <=? 140)).
  { destruct (Z.leb_spec len (140 - zlen (udh one))), (Z.leb_spec (zlen (udh one) + len) 140); lia. }
  rewrite Hcond. destruct (Z.leb_spec (zlen (udh one) + len) 140) as [Hfit|Hfit].
  - (* one message *)
    unfold len. rewrite (slice_app [] data rest) by done. simp_res.
    set (gap := zeros (zlen data)). set (tail := zeros (140 - zlen (udh one) - zlen data)).
    pose proof (zlen_nonneg data).
    assert (Hz : zeros (139 - zlen ports) = gap ++ tail).
    { unfold gap, tail. rewrite <- zeros_add by lia. f_equal. lia. }
    rewrite Hz.
    change (zlen ports :: ports ++ gap ++ tail) with ((zlen ports :: ports) ++ gap ++ tail).
    rewrite (blit_middle (zlen ports :: ports))
      by (rewrite ?zlen_cons; (lia || (unfold gap; rewrite zlen_zeros by lia; done))).
    simp_res. eexists. split; [reflexivity|]. exists tail. fold len.
    split_and!; [|unfold tail, len; rewrite zlen_zeros by lia; lia|].
    + unfold u8. rewrite Z.mod_small by (unfold len in *; zl).
      unfold tpl. rewrite Hone. f_equal. lia.
    + unfold tail, zeros, bytes. apply Forall_replicate. done.
  - (* fragments *)
    assert (Hcl : zlen concat = if wide_ref then 4 else 3) by (unfold concat; by destruct wide_ref).
    assert (Hclr : 3 <= zlen concat <= 4) by (rewrite Hcl; destruct wide_ref; lia).
    assert (Hcb : bytes concat).
    { unfold concat. destruct wide_ref; by repeat (apply Forall_cons; split; [done|]). }
    set (base := (zlen ports + (zlen concat + 2)) :: ports ++ concat).
    assert (Hbl : zlen base = 1 + zlen ports + zlen concat) by (unfold base; zl).
    assert (Hies : forall t s,
      udh (datagram_ies src dst wide_port ref wide_ref t s) = base ++ [t; s]).
    { intros t s. unfold base, ports, concat. rewrite datagram_udh. cbn [app].
      by rewrite <- app_assoc. }
    assert (Hk : k = 140 - (zlen base + 2)).
    { unfold k, fragment_size. rewrite Hbl, Hpl, Hcl. destruct wide_port, wide_ref; lia. }
    assert (Hkpos : 0 < k) by lia.
    assert (Hbb : bytes base).
    { apply Forall_cons. split; [|by apply Forall_app].
      unfold is_byte. lia. }
    assert (Hz2 : zeros (139 - zlen ports) = zeros (zlen concat) ++ [0; 0] ++ zeros k).
    { rewrite zeros_2, <- !zeros_add by lia. f_equal. lia. }
    rewrite Hz2, (add_header_ok (zlen ports) ports (zeros (zlen concat)) ([0; 0] ++ zeros k));
      [|done|lia|].
    2:{ apply zlen_zeros, zlen_nonneg. }
    rewrite bind_Ret.
    assert (u8 (zlen ports + (zlen concat + 2)) = zlen ports + (zlen concat + 2)) as ->.
    { unfold u8. rewrite Z.mod_small; lia. }
    replace (zlen (udh one) + zlen concat + 2) with (zlen base + 2) by lia.
    replace ((zlen ports + (zlen concat + 2)) :: ports ++ concat ++ [0; 0] ++ zeros k)
      with (base ++ [0; 0] ++ zeros k) by (unfold base; cbn [app]; by rewrite <- app_assoc).
    destruct (datagram_loop_ok tpl base (datagram_ies src dst wide_port ref wide_ref) Hies
      ltac:(lia) (data ++ rest) 256 data (length data) rest (base ++ [0; 0] ++ zeros k)
      (zeros k) 0 0 0 0 []) as [Hok Hbig].
    { apply at_pos_0. } { done. } { unfold zeros, bytes. by apply Forall_replicate. }
    { lia. } { done. } { rewrite zlen_zeros; lia. } { lia. } { lia. }
    fold tpl. fold len in Hok, Hbig. rewrite <- Hk in Hok, Hbig. rewrite Z.sub_0_r in Hok, Hbig.
    destruct (Z.leb_spec len (255 * k)) as [Hle|Hgt].
    + destruct Hok as (ms & Heq & Hfr); [lia|]. rewrite Heq. simp_res.
      change (0 <? 0) with false. cbv iota. rewrite app_nil_r, Z.add_0_l.
      pose proof (length_fragments _ _ _ _ _ _ Hfr) as Hlen.
      rewrite (length_chunks k Hkpos) in Hlen by lia. fold len in Hlen.
      destruct (set_total_ok tpl base (datagram_ies src dst wide_port ref wide_ref) Hies
        0 (zlen ms) 0 (chunks (length data) k data) ms) as (ms' & Hfr' & Hset); [|done|].
      { intros udl ud ud' Hwr. unfold tpl, submit_template, submit_set_ud.
        cbn [tpdu submit_ud]. by rewrite Hwr. }
      assert (Hms : zlen ms' = zlen ms).
      { unfold zlen. f_equal. symmetry. by eapply Forall2_length. }
      rewrite (set_total_Forall2 _ _ _ (reverse ms')) by (by apply Forall2_reverse).
      simp_res. rewrite reverse_involutive. exists ms'. rewrite Hms. split_and!; [done| | |done].
      * assert (0 < len) by zl. rewrite Hlen. apply Z.div_str_pos. lia.
      * rewrite Hlen. apply Z.lt_succ_r, Z.div_lt_upper_bound; lia.
    + destruct Hbig as (r' & rem & Heq & Hrem); [lia|]. rewrite Heq. simp_res.
      by rewrite (proj2 (Z.ltb_lt 0 rem)).
Qed.

(** * Joining fragments *)

Lemma udh_taken_ok m ies : ud_ok m -> msg_ies m ies -> udh_taken m = Ret (zlen (udh ies)).
Proof.
  intros Hok Hies. pose proof (ud_len_range m Hok) as Hr. unfold udh_taken.
  destruct (iter_init_cases m Hok) as [(_ & _ & ->)|[Hno _]]; [|by destruct (Hno ies)].
  unfold sms_udh_iter_get_udh_length, ud_of. unfold msg_ies in Hies.
  destruct (sms_extract_common m) as [[[[udhi dcs] udl] max] ud].
  destruct Hies as (_ & _ & [_ _ Hlen [rest Hud]]). cbn [iter_data fst snd]. rewrite Hud.
  change (rd _ 0) with (Ret (zlen (encode_ies ies))). rewrite bind_Ret.
  pose proof (zlen_nonneg (encode_ies ies)).
  unfold u8, udh. rewrite zlen_cons, Z.mod_small by lia. f_equal. lia.
Qed.

Lemma udh_taken_none m : ud_ok m -> (forall ies, ~ msg_ies m ies) -> udh_taken m = Ret 0.
Proof.
  intros Hok Hno. unfold udh_taken.
  destruct (iter_init_cases m Hok) as [(ies & Hi & _)|[_ ->]]; [by destruct (Hno ies)|done].
Qed.

(** What a message adds to a datagram. *)
Definition holds (m : sms) (c : list Z) : Prop :=
  exists t, udh_taken m = Ret t /\ udl_of m - t = zlen c /\
            slice (ud_of m) t (zlen c) = Ret c.

Lemma datagram_len_ok ms cs : Forall2 holds ms cs ->
  forall len, datagram_len ms len = Ret (len + zlen (concat cs)).
Proof.
  induction 1 as [|m c ms cs (t & Ht & Hl & Hs) Hms IH]; intros len; cbn [datagram_len concat].
  - f_equal. change (zlen []) with 0. lia.
  - rewrite Ht. simp_res. rewrite IH, Hl, zlen_app. f_equal. lia.
Qed.

Lemma datagram_copy_ok ms cs cap : Forall2 holds ms cs ->
  forall buf, zlen buf + zlen (concat cs) <= cap ->
  datagram_copy ms cap buf = Ret (buf ++ concat cs).
Proof.
  induction 1 as [|m c ms cs (t & Ht & Hl & Hs) Hms IH]; intros buf Hcap;
    cbn [datagram_copy concat].
  - by rewrite app_nil_r.
  - cbn [concat] in Hcap. rewrite zlen_app in Hcap. pose proof (zlen_nonneg (concat cs)).
    rewrite Ht. simp_res. rewrite Hl, Hs. simp_res. rewrite put_ok by lia. simp_res.
    rewrite IH by zl. by rewrite <- app_assoc.
Qed.

Lemma decode_datagram_ok ms cs : Forall2 holds ms cs ->
  sms_decode_datagram ms = if zlen (concat cs) =? 0 then Err else Ret (concat cs).
Proof.
  intros Hms. unfold sms_decode_datagram. rewrite (datagram_len_ok _ _ Hms). simp_res.
  rewrite Z.add_0_l. case_match; [done|].
  rewrite (datagram_copy_ok _ _ _ Hms) by (change (zlen []) with 0; lia). done.
Qed.

(** ** Transport

    [relays m m']: the user data of [m'] is that of [m], as when the network
    turns a SMS-SUBMIT into a SMS-DELIVER; [m'] has an array of its own size. *)
Record relays (m m' : sms) : Prop := {
  relays_ok : ud_ok m';
  relays_kind : match tpdu m' with SMS_TYPE_COMMAND _ => False | _ => True end;
  relays_fields : exists udhi dcs udl max ud max' ud',
    sms_extract_common m = (udhi, dcs, udl, max, ud) /\
    sms_extract_common m' = (udhi, dcs, udl, max', ud') /\
    let n := sms_udl_in_bytes udl dcs in
    n <= max' /\ take (Z.to_nat n) ud' = take (Z.to_nat n) ud
}.

Lemma udl_in_bytes_8bit udl : sms_udl_in_bytes udl 0x04 = udl.
Proof. reflexivity. Qed.

Lemma relays_carries daddr srr ies c m m' :
  ies <> [] -> Forall wf_ie ies ->
  carries (submit_template daddr srr true 0x04) ies c m -> relays m m' ->
  ud_ok m' /\ msg_ies m' ies /\ holds m' c.
Proof.
  intros Hne Hw (tail & -> & Hz & Hb) [Hok Hkind (udhi & dcs & udl & max & ud & max' & ud' &
    Hm & Hm' & Hfits & Hud)].
  injection Hm as <- <- <- <- <-. cbv zeta in Hfits, Hud.
  rewrite udl_in_bytes_8bit in Hfits, Hud. split; [done|].
  change (zlen (encode_ies ies) :: encode_ies ies ++ c ++ tail)
    with (udh ies ++ c ++ tail) in Hud.
  pose proof (zlen_nonneg tail). pose proof (zlen_nonneg c).
  assert (Hu : zlen (udh ies) = 1 + zlen (encode_ies ies)) by (unfold udh; zl).
  pose proof (zlen_nonneg (encode_ies ies)).
  set (udl := zlen (udh ies) + zlen c) in *.
  assert (Hud' : exists tail', ud' = udh ies ++ c ++ tail').
  { exists (drop (Z.to_nat udl) ud'). rewrite app_assoc.
    replace (udh ies ++ c) with (take (Z.to_nat udl) ud'); [by rewrite take_drop|].
    rewrite Hud, app_assoc. apply take_app_length'. rewrite length_app.
    unfold udl, zlen. lia. }
  destruct Hud' as [tail' Hud'].
  assert (Hlen : ud_len m' = udl).
  { unfold ud_len. rewrite Hm', udl_in_bytes_8bit. by destruct (tpdu m'). }
  assert (Hies : msg_ies m' ies).
  { unfold msg_ies. rewrite Hm', Hlen. split_and!; [done|done|].
    split; [done|done|unfold udl; lia|by exists (c ++ tail')]. }
  split; [done|]. exists (zlen (udh ies)). unfold udl_of, ud_of. rewrite Hm'. cbn [fst snd].
  split_and!; [|unfold udl; lia|].
  - by apply udh_taken_ok.
  - rewrite Hud'. by apply slice_app.
Qed.

(** All fragments of a message. *)
Lemma relays_fragments daddr srr ies total seq cs ms ms' :
  (forall t s, ies t s <> []) -> (forall s, seq < s <= seq + zlen cs -> Forall wf_ie (ies total s)) ->
  fragments (submit_template daddr srr true 0x04) ies total seq cs ms ->
  Forall2 relays ms ms' -> Forall2 holds ms' cs.
Proof.
  intros Hne Hw Hfr. revert ms'. induction Hfr as [|seq c cs m ms Hc Hfr IH];
    intros ms' Hrel; inversion Hrel as [|? m' ? ms'' Hm Hms]; subst; [constructor|].
  rewrite zlen_cons in Hw. pose proof (zlen_nonneg cs). constructor.
  - destruct (relays_carries _ _ _ _ _ _ (Hne _ _) (Hw (seq + 1) ltac:(lia)) Hc Hm) as (_ & _ & ?). done.
  - apply IH; [|done]. intros s Hs. apply Hw. lia.
Qed.

Lemma port_ie_wf src dst wide : short src -> short dst -> wf_ie (port_ie src dst wide).
Proof.
  intros Hs Hd. destruct (short_octets _ Hs) as (? & ? & _), (short_octets _ Hd) as (? & ? & _).
  unfold wf_ie, port_ie. destruct wide; cbn [fst snd];
    (split_and!; [done|by repeat (apply Forall_cons; split; [done|])|by vm_compute]).
Qed.

Lemma datagram_ies_wf src dst wide_port ref wide_ref t s :
  short src -> short dst -> short ref -> is_byte t -> is_byte s ->
  Forall wf_ie (datagram_ies src dst wide_port ref wide_ref t s).
Proof.
  intros Hs Hd Hr Ht Hsq. destruct (short_octets _ Hr) as (? & ? & _).
  apply Forall_cons. split; [by apply port_ie_wf|]. apply Forall_singleton.
  unfold wf_ie, concat_ie. destruct wide_ref; cbn [fst snd];
    (split_and!; [done|by repeat (apply Forall_cons; split; [done|])|by vm_compute]).
Qed.

(** C29: [sms_datagram_prepare] makes one SMS-SUBMIT with a port header if the
    data fits in it, and otherwise numbered fragments, each with the ports, the
    reference, the total and its sequence number, carrying the data in order,
    [fragment_size] octets at a time; it gives NULL exactly when that takes
    more than 255 fragments. *)
Theorem datagram_prepare_spec to data rest ref wide_ref src dst wide_port srr daddr :
  sms_address_from_string to = Ret daddr ->
  bytes data -> short src -> short dst -> short ref ->
  let tpl := submit_template daddr srr true 0x04 in
  let len := zlen data in
  let k := fragment_size wide_port wide_ref in
  let one := [port_ie src dst wide_port] in
  let r := sms_datagram_prepare to (data ++ rest) len ref wide_ref src dst wide_port srr in
  if zlen (udh one) + len <=? 140 then
    exists m, r = Ret [m] /\ carries tpl one data m
  else if len <=? 255 * k then
    exists ms,
      r = Ret ms /\ 0 < zlen ms <= 255 /\
      fragments tpl (datagram_ies src dst wide_port ref wide_ref) (zlen ms) 0
        (chunks (length data) k data) ms
  else r = Err.
Proof. exact (datagram_prepare_ok to data rest ref wide_ref src dst wide_port srr daddr). Qed.

Lemma datagram_back to data rest ref wide_ref src dst wide_port srr ms ms' :
  bytes data -> data <> [] -> short src -> short dst -> short ref ->
  sms_datagram_prepare to (data ++ rest) (zlen data) ref wide_ref src dst wide_port srr = Ret ms ->
  Forall2 relays ms ms' ->
  sms_decode_datagram ms' = Ret data.
Proof.
  intros Hdata Hne Hsrc Hdst Href Hprep Hrel.
  destruct (sms_address_from_string to) as [daddr| |] eqn:Hto;
    [|unfold sms_datagram_prepare in Hprep; rewrite Hto in Hprep; discriminate..].
  pose proof (datagram_prepare_ok to data rest ref wide_ref src dst wide_port srr daddr
    Hto Hdata Hsrc Hdst Href) as Hok. cbv zeta in Hok. rewrite Hprep in Hok.
  set (k := fragment_size wide_port wide_ref) in *.
  assert (Hk : 0 < k) by (unfold k, fragment_size; destruct wide_port, wide_ref; lia).
  assert (Hcs : exists cs, Forall2 holds ms' cs /\ concat cs = data).
  { destruct (_ <=? 140).
    - destruct Hok as (m & [= ->] & Hc). inversion Hrel as [|? m' ? ms'' Hm Hms]; subst.
      inversion Hms; subst. exists [data]. split; [|by cbn; rewrite app_nil_r].
      constructor; [|constructor].
      eapply relays_carries in Hc as (_ & _ & ?); [done|done| |done].
      apply Forall_singleton. by apply port_ie_wf.
    - destruct (_ <=? 255 * k); [|done].
      destruct Hok as (ms1 & [= <-] & Hn & Hfr).
      exists (chunks (length data) k data). split; [|by apply concat_chunks].
      pose proof (length_fragments _ _ _ _ _ _ Hfr) as Hlen.
      eapply relays_fragments; [| |done|done]; [done|].
      intros s Hs. apply datagram_ies_wf; try done; unfold is_byte; lia. }
  destruct Hcs as (cs & Hcs & Hconcat). rewrite (decode_datagram_ok _ _ Hcs), Hconcat.
  rewrite (proj2 (Z.eqb_neq _ 0)); [done|]. destruct data; [done|zl].
Qed.

(** C4: A datagram that [sms_datagram_prepare] makes messages of, however many,
    is what [sms_decode_datagram] makes of the messages received, in order and
    with the same user data. *)
Theorem datagram_roundtrip to data rest ref wide_ref src dst wide_port srr ms ms' :
  bytes data -> data <> [] -> short src -> short dst -> short ref ->
  sms_datagram_prepare to (data ++ rest) (zlen data) ref wide_ref src dst wide_port srr = Ret ms ->
  Forall2 relays ms ms' ->
  sms_decode_datagram ms' = Ret data.
Proof. exact (datagram_back to data rest ref wide_ref src dst wide_port srr ms ms'). Qed.

(** A message is received as it was sent. *)
Definition relays_self (m : sms) : bool :=
  let '(udhi, dcs, udl, max, ud) := sms_extract_common m in
  bool_decide (is_byte udl) && bool_decide (bytes ud) && (zlen ud =? max) && (sms_udl_in_bytes udl dcs <=? max)
  && match tpdu m with SMS_TYPE_COMMAND _ => false | _ => true end.

Lemma relays_refl ms : forallb relays_self ms = true -> Forall2 relays ms ms.
Proof.
  induction ms as [|m ms IH]; cbn [forallb]; intros H; [constructor|].
  apply andb_true_iff in H as [Hm Hms]. constructor; [|by apply IH].
  unfold relays_self in Hm. destruct (sms_extract_common m) as [[[[udhi dcs] udl] max] ud] eqn:E.
  rewrite !andb_true_iff, !bool_decide_eq_true, Z.eqb_eq, Z.leb_le in Hm.
  destruct Hm as [[[[Hu Hb] Hz] Hle] Hk]. split.
  - unfold ud_ok. by rewrite E.
  - by destruct (tpdu m).
  - by exists udhi, dcs, udl, max, ud, max, ud.
Qed.

Definition sample_data : list Z := seqZ 0 256 ++ seqZ 0 100.

Definition sample_fragments : list sms :=
  match sms_datagram_prepare [43; 52; 57] sample_data 356 513 true 9200 2948 true false with
  | Ret ms => ms
  | _ => []
  end.

Lemma datagram_prepare_spec_witness :
  exists ms,
    sms_datagram_prepare [43; 52; 57] (sample_data ++ []) 356 513 true 9200 2948 true false
      = Ret ms /\ 0 < zlen ms <= 255 /\
    fragments (submit_template
        {| number_type := 1; numbering_plan := 1; address := [52; 57] |} false true 0x04)
      (datagram_ies 9200 2948 true 513 true) (zlen ms) 0 (chunks 356 127 sample_data) ms.
Proof.
  refine (datagram_prepare_spec [43; 52; 57] sample_data [] 513 true 9200 2948 true false
    {| number_type := 1; numbering_plan := 1; address := [52; 57] |} _ _ _ _ _).
  - reflexivity.
  - apply (bool_decide_unpack _). vm_compute. reflexivity.
  - split; [discriminate|reflexivity].
  - split; [discriminate|reflexivity].
  - split; [discriminate|reflexivity].
Defined.

Lemma datagram_roundtrip_witness : sms_decode_datagram sample_fragments = Ret sample_data.
Proof.
  apply (datagram_roundtrip [43; 52; 57] sample_data [] 513 true 9200 2948 true false
    sample_fragments sample_fragments).
  - apply (bool_decide_unpack _). vm_compute. reflexivity.
  - discriminate.
  - split; [discriminate|reflexivity].
  - split; [discriminate|reflexivity].
  - split; [discriminate|reflexivity].
  - vm_compute. reflexivity.
  - apply relays_refl. vm_compute. reflexivity.
Defined.
