(* ===== verification/SmsText.v ===== *)
(** Text over short messages, of src/src/smsutil.c:
    [sms_text_prepare_with_alphabet], which encodes a text in the GSM alphabet,
    with national language tables if needed, or in UCS2, and breaks it into
    fragments; and [sms_decode_text], which joins the text of fragments. *)
From S2P Require Import Prelude Charset SevenBit SmsField SmsPdu SmsUdh SmsDatagram.

(** UTF-16 in the byte order of the machine, as a list of 16 bit units, to
    UTF-8; of ELL.  [None] is NULL. *)
Class Utf16 : Type := l_utf8_from_utf16 : list Z -> option (list Z).

Definition SMS_ALPHABET_URDU : Z := 13.

Definition sms_text_capacity_gsm (max offset : Z) : Z := max - Z.quot (offset * 8 + 6) 7.

Section Text.
Context `{U : Utf8} `{W : Utf16}.

(** * sms_decode_text *)

(** A language that 23.038 does not define is the default one. *)
Definition known_language (lang : Z) : Z := if SMS_ALPHABET_URDU <? lang then 0 else lang.

(** What a message adds to the string and to the UTF-16 buffer. *)
Definition decode_text_part (m : sms) : res (list Z * list Z) :=
  let '(_, dcs, udl, _, ud) := sms_extract_common m in
  let charset :=
    match sms_mwi_dcs_decode dcs with
    | Some (_, charset, _, _) => Some charset
    | None => match sms_dcs_decode dcs with
              | Some (_, charset, _, _) => Some charset
              | None => None
              end
    end in
  match charset with
  | None | Some SMS_CHARSET_8BIT => Ret ([], [])
  | Some charset =>
    taken ← udh_taken m;
    let udl_in_bytes := sms_udl_in_bytes udl dcs in
    if udl_in_bytes =? taken then Ret ([], [])
    else
      match charset with
      | SMS_CHARSET_7BIT =>
        match unpack_7bit_own_buf (drop (Z.to_nat taken) ud) (udl_in_bytes - taken) taken false
                (sms_text_capacity_gsm udl taken) 0 160 with
        | Ret buf =>
          last ← rd buf (zlen buf - 1);
          let written := if last =? 0x1b then zlen buf - 1 else zlen buf in
          '(locking_shift, single_shift) ←
            match sms_extract_language_variant m 0 0 with
            | Err => Ret (0, 0)
            | r => r
            end;
          converted ← convert_gsm_to_utf8_with_lang buf written 0
                        (known_language locking_shift) (known_language single_shift);
          Ret (match conv_res converted with Some s => cstr s | None => [] end, [])
        | Err => Ret ([], [])
        | Ub => Ub
        end
      | _ =>
        from ← slice ud taken (Z.shiftl (Z.shiftr (udl_in_bytes - taken) 1) 1);
        Ret ([], from)
      end
  end.

Fixpoint decode_text_loop (sms_list : list sms) (str utf16 : list Z) : res (list Z * list Z) :=
  match sms_list with
  | [] => Ret (str, utf16)
  | m :: l =>
    '(s, u) ← decode_text_part m; decode_text_loop l (str ++ s) (utf16 ++ u)
  end.

(** Big-endian octets to units. *)
Fixpoint utf16_units (l : list Z) : list Z :=
  match l with
  | h :: b :: l => h * 256 + b :: utf16_units l
  | _ => []
  end.

Definition sms_decode_text (sms_list : list sms) : res (list Z) :=
  '(str, utf16) ← decode_text_loop sms_list [] [];
  if zlen utf16 =? 0 then Ret str
  else
    match l_utf8_from_utf16 (utf16_units utf16) with
    | Some converted => Ret (str ++ cstr converted)
    | None => Ret str
    end.

(** * sms_text_prepare *)

(** [pack_7bit_own_buf] into [ud + offset]; its result is not tested. *)
Definition pack_into (ud : list Z) (offset : Z) (inp : list Z) (len : Z) : res (list Z) :=
  match pack_7bit_own_buf inp len offset false 0 (zlen ud - offset) with
  | Ret packed => blit ud offset packed
  | Err => Ret ud
  | Ub => Ub
  end.

(** The text encoded, by [gsm_encoded] or [ucs2_encoded]. *)
Inductive encoded := Gsm (gsm : list Z) | Ucs2 (ucs2 : list Z).

(** One round of the loop: the length of the chunk, udl and ud. *)
Definition text_chunk (e : encoded) (offset : Z) (ud : list Z) (written left : Z)
    : res (Z * Z * list Z) :=
  match e with
  | Gsm gsm =>
    let chunk := sms_text_capacity_gsm 160 offset in
    let chunk := if left <? chunk then left else chunk in
    last ← rd gsm (written + chunk - 1);
    let chunk := if last =? 0x1b then chunk - 1 else chunk in
    ud ← pack_into ud offset (drop (Z.to_nat written) gsm) chunk;
    Ret (chunk, chunk + Z.quot (offset * 8 + 6) 7, ud)
  | Ucs2 ucs2 =>
    let chunk := Z.land (140 - offset) (Z.lnot 1) in
    let chunk := if left <? chunk then left else chunk in
    bs ← slice ucs2 written chunk;
    ud ← blit ud offset bs;
    Ret (chunk, chunk + offset, ud)
  end.

Fixpoint text_loop (fuel : nat) (template : Z -> list Z -> sms) (e : encoded) (offset : Z)
    (ud : list Z) (written left seq : Z) (r : list sms) : res (list sms * Z * Z) :=
  match fuel with
  | O => Ub
  | S fuel =>
    if 0 <? left then
      let seq := u8 (seq + 1) in
      '(chunk, udl, ud) ← text_chunk e offset ud written left;
      ud ← wr ud (offset - 1) seq;
      let r := template (u8 udl) ud :: r in
      if seq =? 255 then Ret (r, left - chunk, seq)
      else text_loop fuel template e offset ud (written + chunk) (left - chunk) seq r
    else Ret (r, left, seq)
  end.

(** A national language element, if the table is not the default one. *)
Definition language_header (iei lang : Z) (ud : list Z) (offset : Z) : res (list Z * Z) :=
  if lang =? 0 then Ret (ud, offset)
  else
    let offset := if offset =? 0 then 1 else offset in
    ud ← add_header ud offset 3 [iei; 1; lang];
    Ret (ud, offset + 3).

(** [Err] for NULL; [utf8] is NUL-terminated. *)
Definition sms_text_prepare_with_alphabet (to utf8 : list Z) (ref : Z) (use_16bit : bool)
    (use_delivery_reports : bool) (alphabet : Z) : res (list sms) :=
  daddr ← sms_address_from_string to;
  '(r, used) ← convert_utf8_to_gsm_best_lang utf8 (-1) 0 alphabet;
  '(e, written) ←
    match conv_res r with
    | Some gsm => Ret (Gsm gsm, zlen gsm)
    | None => match l_utf8_to_ucs2be (cstr utf8) with
              | Some ucs2 => Ret (Ucs2 ucs2, zlen ucs2 - 2)
              | None => Err
              end
    end;
  let dcs := match e with Gsm _ => 0x00 | Ucs2 _ => 0x08 end in
  let '(used_locking, used_single) :=
    match e, used with Gsm _, Some langs => langs | _, _ => (0, 0) end in
  '(ud, offset) ← language_header SMS_IEI_NATIONAL_LANGUAGE_SINGLE_SHIFT used_single
                    (zeros SUBMIT_UD) 0;
  '(ud, offset) ← language_header SMS_IEI_NATIONAL_LANGUAGE_LOCKING_SHIFT used_locking ud offset;
  let one := submit_template daddr use_delivery_reports (negb (offset =? 0)) dcs in
  match e with
  | Gsm gsm =>
    if written <=? sms_text_capacity_gsm 160 offset then
      ud ← pack_into ud offset gsm written;
      Ret (Some [one (u8 (written + Z.quot (offset * 8 + 6) 7)) ud])
    else Ret None
  | Ucs2 ucs2 =>
    if written <=? 140 - offset then
      bs ← slice ucs2 0 written;
      ud ← blit ud offset bs;
      Ret (Some [one (u8 (written + offset)) ud])
    else Ret None
  end ≫= fun single =>
  match single with
  | Some r => Ret r
  | None =>
    let template := submit_template daddr use_delivery_reports true dcs in
    let offset := if offset =? 0 then 1 else offset in
    let concat := concat_header ref use_16bit in
    ud ← add_header ud offset (zlen concat + 2) concat;
    let offset := offset + zlen concat + 2 in
    '(r, remaining, seq) ← text_loop 256 template e offset ud 0 written 0 [];
    if 0 <? remaining then Err
    else r ← set_total (offset - 2) seq r; Ret (reverse r)
  end.

Definition sms_text_prepare (to utf8 : list Z) (ref : Z) (use_16bit : bool)
    (use_delivery_reports : bool) : res (list sms) :=
  sms_text_prepare_with_alphabet to utf8 ref use_16bit use_delivery_reports 0.
End Text.

(** * What the messages carry

    A header of [ies], none when there are none, and behind it the chunk [c] of
    the encoded text in the octets [p]: packed septets, or the octets of UCS2. *)

Definition header (ies : list ie) : list Z := match ies with [] => [] | _ => udh ies end.

(** The septets that a header of [n] octets takes, fill bits included. *)
Definition header_septets (n : Z) : Z := Z.quot (n * 8 + 6) 7.

Definition payload (gsm : bool) (n : Z) (c p : list Z) (udl : Z) : Prop :=
  if gsm then septets c /\ packing (fill_bits n) c p /\ udl = zlen c + header_septets n
  else p = c /\ bytes c /\ udl = zlen c + n.

Definition text_dcs (gsm : bool) : Z := if gsm then 0x00 else 0x08.

Definition text_tpl (daddr : sms_address) (srr gsm : bool) (ies : list ie) : Z -> list Z -> sms :=
  submit_template daddr srr (negb (bool_decide (ies = []))) (text_dcs gsm).

Definition text_msg (daddr : sms_address) (srr gsm : bool) (ies : list ie) (c : list Z) (m : sms) : Prop :=
  exists p udl tail,
    m = text_tpl daddr srr gsm ies udl (header ies ++ p ++ tail) /\
    payload gsm (zlen (header ies)) c p udl /\
    zlen (header ies) + zlen p + zlen tail = 140 /\ bytes tail.

Lemma header_septets_fill n : 0 <= n -> 7 * header_septets n = 8 * n + fill_bits n.
Proof.
  intros Hn. unfold header_septets, fill_bits. rewrite Z.quot_div_nonneg by lia.
  destruct (Z.eqb_spec (n mod 7) 0); Z.to_euclidean_division_equations; lia.
Qed.

Lemma udl_in_bytes_7bit udl : sms_udl_in_bytes udl 0x00 = Z.quot ((udl + 1) * 7) 8.
Proof. reflexivity. Qed.
Lemma udl_in_bytes_ucs2 udl : sms_udl_in_bytes udl 0x08 = udl.
Proof. reflexivity. Qed.

(** The octets that the length announces are the header and the payload. *)
Lemma payload_bytes gsm n c p udl : 0 <= n -> payload gsm n c p udl ->
  sms_udl_in_bytes udl (text_dcs gsm) = n + zlen p /\ bytes p /\ 0 <= udl.
Proof.
  intros Hn. pose proof (zlen_nonneg c). pose proof (fill_bits_range n Hn).
  pose proof (header_septets_fill n Hn). unfold payload, text_dcs. destruct gsm.
  - intros (Hc & [Hb Hl _] & ->). split_and!; [|done|lia].
    rewrite udl_in_bytes_7bit, Hl, Z.quot_div_nonneg by lia.
    Z.to_euclidean_division_equations; lia.
  - intros (-> & Hb & ->). split_and!; [|done|lia]. rewrite udl_in_bytes_ucs2. lia.
Qed.

(** ** A message received *)

Lemma relays_text daddr srr gsm ies c m m' :
  Forall wf_ie ies -> text_msg daddr srr gsm ies c m -> relays m m' ->
  exists p udl tail max,
    ud_ok m' /\ (ies = [] -> forall ies', ~ msg_ies m' ies') /\ (ies <> [] -> p <> [] -> msg_ies m' ies) /\
    sms_extract_common m' = (negb (bool_decide (ies = [])), text_dcs gsm, udl, max, header ies ++ p ++ tail) /\
    payload gsm (zlen (header ies)) c p udl.
Proof.
  intros Hw (p & udl & tail & -> & Hpl & Hz & Hb) [Hok Hkind (udhi & dcs & udl' & max & ud & max' & ud' &
    Hm & Hm' & Hrel)].
  injection Hm as <- <- <- <- <-. cbv zeta in Hrel.
  pose proof (zlen_nonneg (header ies)) as Hh. pose proof (zlen_nonneg p).
  destruct (payload_bytes gsm _ c p udl Hh Hpl) as (Hby & Hpb & Hudl).
  rewrite Hby in Hrel. destruct Hrel as [Hfits Hud].
  set (n := zlen (header ies) + zlen p) in *.
  assert (Hn : Z.to_nat n = length (header ies ++ p)).
  { unfold n. rewrite <- to_nat_zlen, zlen_app. done. }
  rewrite app_assoc, Hn, take_app_length in Hud.
  exists p, udl, (drop (Z.to_nat n) ud'), max'.
  assert (Hud' : header ies ++ p ++ drop (Z.to_nat n) ud' = ud').
  { rewrite app_assoc, <- Hud, Hn. apply take_drop. }
  rewrite Hud'. split_and!; try done.
  - intros Hnil ies' Hi. unfold msg_ies in Hi. rewrite Hm', Hnil in Hi. by destruct Hi.
  - intros Hne Hp. unfold msg_ies.
    assert (Hlen : ud_len m' = n).
    { unfold ud_len. rewrite Hm'. rewrite Hby. by destruct (tpdu m'). }
    rewrite Hm', Hlen. split_and!; [by rewrite bool_decide_false|lia|].
    rewrite <- Hud'. destruct ies as [|i ies]; [done|]. split; [done|done| |by eexists].
    unfold n, header, udh. destruct p; [done|]. zl.
Qed.

Lemma gsm_tables_known locking single t : conversion_table_init locking single = Some t ->
  known_language locking = locking /\ known_language single = single.
Proof.
  assert (Hk : forall l, is_Some (gsm_dialect_of_Z l) -> known_language l = l).
  { intros l Hl. unfold gsm_dialect_of_Z in Hl. destruct (l <? 0); [by destruct Hl|].
    apply lookup_lt_is_Some_1 in Hl. cbn in Hl. unfold known_language, SMS_ALPHABET_URDU.
    by rewrite (proj2 (Z.ltb_ge _ l)) by lia. }
  intros H. unfold conversion_table_init, populate_locking_shift, populate_single_shift in H.
  split; apply Hk.
  - destruct (gsm_dialect_of_Z locking); [by eexists|done].
  - destruct (gsm_dialect_of_Z single); [by eexists|]. by destruct (gsm_dialect_of_Z locking) as [[]|].
Qed.

(** The tables that the elements of a header select. *)
Definition languages (ies : list ie) : Z * Z :=
  (default 0 (last (omap (language_usable 0x25) ies)),
   default 0 (last (omap (language_usable 0x24) ies))).

Section Decode.
Context `{L : Utf8Laws} `{W : Utf16}.

Lemma received_taken m ies max p tail udl dcs :
  ud_ok m -> (ies = [] -> forall ies', ~ msg_ies m ies') -> (ies <> [] -> msg_ies m ies) ->
  sms_extract_common m = (negb (bool_decide (ies = [])), dcs, udl, max, header ies ++ p ++ tail) ->
  udh_taken m = Ret (zlen (header ies)) /\
  (match sms_extract_language_variant m 0 0 with Err => Ret (0, 0) | r => r end) = Ret (languages ies).
Proof.
  intros Hok Hnil Hies Hc. destruct (language_variant_ok m 0 0 Hok) as [Hl Hno].
  destruct ies as [|i ies].
  - split; [by apply udh_taken_none, Hnil|]. by rewrite Hno by by apply Hnil.
  - split; [by apply udh_taken_ok, Hies|]. by rewrite (Hl (i :: ies)) by by apply Hies.
Qed.

(** A message of the GSM alphabet adds the characters of its septets. *)
Lemma decode_gsm_part daddr srr ies cs c m m' t :
  Forall wf_ie ies -> text_msg daddr srr true ies c m -> relays m m' ->
  c <> [] -> last c <> Some 0x1b -> zlen c <= 160 -> text_points cs ->
  conversion_table_init (languages ies).1 (languages ies).2 = Some t -> gsm_codes t cs = Some c ->
  decode_text_part m' = Ret (utf8 (map plain_space cs), []).
Proof.
  intros Hw Hm Hrel Hne Hlast Hmax Hcs Ht Hg.
  destruct (relays_text _ _ _ _ _ _ _ Hw Hm Hrel) as (p & udl & tail & max & Hok & Hno & Hies & Hc & Hpl).
  pose proof (zlen_nonneg (header ies)) as Hh.
  destruct (payload_bytes true _ c p udl Hh Hpl) as (Hby & Hpb & Hudl).
  destruct Hpl as (Hs & Hpk & ->). pose proof (fill_bits_range _ Hh) as Hf.
  assert (Hpne : p <> []) by (apply (packing_ne (fill_bits (zlen (header ies))) c); done || lia).
  destruct (received_taken m' ies max p tail _ _ Hok Hno (fun H => Hies H Hpne) Hc) as [Htk Hlang].
  unfold decode_text_part. rewrite Hc. change (text_dcs true) with 0 in *.
  change (sms_mwi_dcs_decode 0) with (@None (sms_mwi_type * sms_charset * bool * bool)).
  change (sms_dcs_decode 0) with (Some (SMS_CLASS_UNSPECIFIED, SMS_CHARSET_7BIT, false, false)).
  cbv iota zeta. rewrite Htk. simp_res. rewrite Hby.
  assert (0 < zlen p) by (destruct p; [done|zl]).
  rewrite (proj2 (Z.eqb_neq _ (zlen (header ies)))) by lia.
  rewrite drop_zlen_app by done.
  replace (zlen (header ies) + zlen p - zlen (header ies)) with (zlen p) by lia.
  unfold sms_text_capacity_gsm. fold (header_septets (zlen (header ies))).
  pose proof (zlen_nonneg c).
  replace (zlen c + header_septets (zlen (header ies)) - header_septets (zlen (header ies)))
    with (zlen c) by lia.
  rewrite unpack_7bit_own_buf_ok by (done || lia).
  rewrite (unpacked_packing _ c) by (done || lia).
  destruct (last c) as [x|] eqn:Hx; [|by apply last_None in Hx].
  rewrite <- (app_nil_r c) at 1. rewrite (rd_last _ _ _ Hx). simp_res.
  rewrite (proj2 (Z.eqb_neq x 27)) by congruence. rewrite Hlang.
  destruct (languages ies) as [lo si]. cbn [fst snd] in Ht. simp_res.
  destruct (gsm_tables_known _ _ _ Ht) as [-> ->].
  rewrite <- (app_nil_r c) at 1. rewrite (convert_gsm_to_utf8_points t) by done.
  assert (dialect_tables t) as Hdt by (by do 2 eexists).
  rewrite (gsm_points_codes t Hdt cs c Hg). simp_res. cbn [conv_res]. do 2 f_equal.
  assert (Hp : text_points (map plain_space cs)).
  { apply Forall_map. eapply Forall_impl; [exact Hcs|]. intros x1 [Hx0 Hx1].
    unfold plain_space. destruct (x1 =? 0xA0); [split; [lia|left; lia]|done]. }
  apply utf8_no_nul in Hp. revert Hp. generalize (utf8 (map plain_space cs)). clear.
  induction 1 as [|b l Hb Hl IH]; [done|]. cbn [cstr]. by rewrite (proj2 (Z.eqb_neq b 0)), IH.
Qed.

(** A message in UCS2 adds its octets. *)
Lemma decode_ucs2_part daddr srr ies c m m' :
  Forall wf_ie ies -> text_msg daddr srr false ies c m -> relays m m' ->
  c <> [] -> Z.even (zlen c) = true ->
  decode_text_part m' = Ret ([], c).
Proof.
  intros Hw Hm Hrel Hne Hev.
  destruct (relays_text _ _ _ _ _ _ _ Hw Hm Hrel) as (p & udl & tail & max & Hok & Hno & Hies & Hc & Hpl).
  pose proof (zlen_nonneg (header ies)) as Hh.
  destruct (payload_bytes false _ c p udl Hh Hpl) as (Hby & Hpb & Hudl).
  destruct Hpl as (-> & Hs & ->).
  destruct (received_taken m' ies max c tail _ _ Hok Hno (fun H => Hies H Hne) Hc) as [Htk _].
  unfold decode_text_part. rewrite Hc. change (text_dcs false) with 8 in *.
  change (sms_mwi_dcs_decode 8) with (@None (sms_mwi_type * sms_charset * bool * bool)).
  change (sms_dcs_decode 8) with (Some (SMS_CLASS_UNSPECIFIED, SMS_CHARSET_UCS2, false, false)).
  cbv iota zeta. rewrite Htk. simp_res. rewrite Hby.
  assert (0 < zlen c) by (destruct c; [done|zl]).
  rewrite (proj2 (Z.eqb_neq _ (zlen (header ies)))) by lia.
  replace (zlen (header ies) + zlen c - zlen (header ies)) with (zlen c) by lia.
  assert (Z.shiftl (Z.shiftr (zlen c) 1) 1 = zlen c) as ->.
  { rewrite Z.shiftl_mul_pow2, Z.shiftr_div_pow2 by lia. apply Z.even_spec in Hev as [k Hk]. dzl. }
  rewrite slice_app by done. done.
Qed.

Lemma decode_text_loop_ok ms parts : Forall2 (fun m part => decode_text_part m = Ret part) ms parts ->
  forall str utf16, decode_text_loop ms str utf16 =
    Ret (str ++ concat (map fst parts), utf16 ++ concat (map snd parts)).
Proof.
  induction 1 as [|m [s u] ms parts Hm Hms IH]; intros str utf16; cbn [decode_text_loop map concat fst snd].
  - by rewrite !app_nil_r.
  - rewrite Hm. simp_res. by rewrite IH, <- !app_assoc.
Qed.
End Decode.

(** ** Cutting the encoded text *)

(** Before an escape that would end the chunk. *)
Definition cut_at (k : nat) (l : list Z) : nat :=
  if decide (l !! (k - 1)%nat = Some 0x1b) then (k - 1)%nat else k.

(** The length of the chunk behind a header of [n] octets. *)
Definition text_cut (gsm : bool) (n : Z) (l : list Z) : nat :=
  if gsm then cut_at (Z.to_nat (Z.min (160 - header_septets n) (zlen l))) l
  else Z.to_nat (Z.min (Z.land (140 - n) (Z.lnot 1)) (zlen l)).

Fixpoint text_pieces (fuel : nat) (gsm : bool) (n : Z) (l : list Z) : list (list Z) :=
  match fuel, l with
  | S fuel, _ :: _ =>
    take (text_cut gsm n l) l :: text_pieces fuel gsm n (drop (text_cut gsm n l) l)
  | _, _ => []
  end.

Lemma text_pieces_cons fuel gsm n l : l <> [] ->
  text_pieces (S fuel) gsm n l =
  take (text_cut gsm n l) l :: text_pieces fuel gsm n (drop (text_cut gsm n l) l).
Proof. by destruct l. Qed.

Section GsmText.
Context `{L : Utf8Laws}.
Context (t : conversion_table) (Ht : dialect_tables t).

Lemma gsm_code_form c g : gsm_code t c = Some g ->
  exists x, x <> 0x1b /\ (g = [x] \/ g = [0x1b; x]).
Proof.
  unfold gsm_code. destruct (_ =? GUND) eqn:HG; [done|]. bool_to_prop.
  destruct (unicode_lookup_decodes t c Ht HG) as [(Hh & Hu & Hr & H1b & _)|(Hh & [Hr H1b] & _)];
    rewrite Hh; intros [= <-]; eexists; (split; [|by (left + right)]); congruence.
Qed.

Lemma gsm_codes_nil cs : gsm_codes t cs = Some [] -> cs = [].
Proof.
  destruct cs as [|c cs]; intros Hg; [done|].
  apply gsm_codes_cons in Hg as (g1 & gs & Hg1 & _ & Hnil).
  by apply gsm_code_form in Hg1 as (x & _ & [-> | ->]).
Qed.

Lemma gsm_codes_last cs : forall g, gsm_codes t cs = Some g -> last g <> Some 0x1b.
Proof.
  induction cs as [|c cs IH]; intros g Hg; [by cbn in *; simplify_eq|].
  apply gsm_codes_cons in Hg as (g1 & gs & Hg1 & Hgs & ->). rewrite last_app.
  specialize (IH gs Hgs). destruct (last gs); [done|].
  apply gsm_code_form in Hg1 as (x & Hx & [-> | ->]); cbn; congruence.
Qed.

(** A cut leaves whole characters on both sides. *)
Lemma gsm_cut cs : forall g k, gsm_codes t cs = Some g -> (0 < k <= length g)%nat ->
  exists cs1 cs2, cs = cs1 ++ cs2 /\
    gsm_codes t cs1 = Some (take (cut_at k g) g) /\ gsm_codes t cs2 = Some (drop (cut_at k g) g).
Proof.
  induction cs as [|c cs IH]; intros g k Hg Hk; [by cbn in *; simplify_eq; cbn in Hk; lia|].
  pose proof Hg as Hall. apply gsm_codes_cons in Hg as (g1 & gs & Hg1 & Hgs & ->).
  assert (Hstep : forall j, (j <= k)%nat -> length g1 = j -> (j < k)%nat ->
    exists cs1 cs2, c :: cs = cs1 ++ cs2 /\
      gsm_codes t cs1 = Some (take (cut_at k (g1 ++ gs)) (g1 ++ gs)) /\
      gsm_codes t cs2 = Some (drop (cut_at k (g1 ++ gs)) (g1 ++ gs))).
  { intros j _ Hj Hlt. rewrite length_app in Hk.
    destruct (IH gs (k - j)%nat Hgs ltac:(lia)) as (cs1 & cs2 & -> & H1 & H2).
    exists (c :: cs1), cs2.
    assert (Hcut : cut_at k (g1 ++ gs) = (j + cut_at (k - j) gs)%nat).
    { unfold cut_at. rewrite lookup_app_r by lia.
      replace (k - 1 - length g1)%nat with (k - j - 1)%nat by lia. case_decide; lia. }
    rewrite Hcut. split; [done|]. cbn [gsm_codes]. rewrite Hg1, H1.
    rewrite take_app_ge, drop_app_ge by lia. rewrite Hj, Nat.add_comm, Nat.add_sub. done. }
  assert (Hwhole : forall k', k' = length g1 -> exists cs1 cs2, c :: cs = cs1 ++ cs2 /\
      gsm_codes t cs1 = Some (take k' (g1 ++ gs)) /\ gsm_codes t cs2 = Some (drop k' (g1 ++ gs))).
  { intros k' ->. exists [c], cs. rewrite take_app_length, drop_app_length. split; [done|].
    split; [|done]. cbn [gsm_codes]. rewrite Hg1. cbn. by rewrite app_nil_r. }
  destruct (gsm_code_form c g1 Hg1) as (x & Hx & [-> | ->]).
  - destruct (decide (k = 1%nat)) as [->|]; [|apply (Hstep 1%nat); cbn; lia].
    apply Hwhole. unfold cut_at. cbn. rewrite decide_False by congruence. done.
  - destruct (decide (k = 1%nat)) as [->|].
    { exists [], (c :: cs). by rewrite Hall. }
    destruct (decide (k = 2%nat)) as [->|]; [|apply (Hstep 2%nat); cbn; lia].
    apply Hwhole. unfold cut_at. cbn. rewrite decide_False by congruence. done.
Qed.

Lemma cut_at_pos cs g k : gsm_codes t cs = Some g -> g <> [] ->
  (2 <= k)%nat -> (0 < cut_at (k `min` length g) g)%nat.
Proof.
  intros Hg Hne Hk. unfold cut_at. assert (0 < length g)%nat by (destruct g; [done|cbn; lia]).
  case_decide as Hd; [|lia]. destruct (decide (length g = 1%nat)) as [H1|]; [|lia].
  destruct g as [|x [|? ?]]; cbn in H1; try lia.
  rewrite Nat.min_r in Hd by (cbn; lia). cbn in Hd.
  apply gsm_codes_last in Hg. cbn in Hg. congruence.
Qed.

(** The pieces are the codes of consecutive parts of the text. *)
Lemma gsm_pieces n fuel : 160 - header_septets n >= 2 -> forall cs g,
  gsm_codes t cs = Some g -> (length g <= fuel)%nat ->
  exists css, concat css = cs /\
    Forall2 (fun c cs => gsm_codes t cs = Some c /\ c <> [] /\ last c <> Some 0x1b /\
                         zlen c <= 160 - header_septets n) (text_pieces fuel true n g) css.
Proof.
  intros Hn. induction fuel as [|fuel IH]; intros cs g Hg Hf.
  { assert (g = []) as -> by (by destruct g; cbn in Hf; [|lia]).
    rewrite (gsm_codes_nil cs Hg). exists []. split; [done|constructor]. }
  destruct (decide (g = [])) as [->|Hne].
  { rewrite (gsm_codes_nil cs Hg). exists []. split; [done|constructor]. }
  rewrite text_pieces_cons by done. set (cap := 160 - header_septets n) in *.
  assert (Hl : (0 < length g)%nat) by (destruct g; [done|cbn; lia]).
  assert (Hmin : Z.to_nat (Z.min cap (zlen g)) = (Z.to_nat cap `min` length g)%nat)
    by (unfold zlen; lia).
  assert (Hpos : (0 < text_cut true n g)%nat).
  { unfold text_cut. fold cap. rewrite Hmin. apply (cut_at_pos cs); [done|done|lia]. }
  destruct (gsm_cut cs g (Z.to_nat cap `min` length g)%nat Hg ltac:(lia)) as (cs1 & cs2 & -> & H1 & H2).
  rewrite <- Hmin in H1, H2. change (cut_at _ _) with (text_cut true n g) in H1, H2.
  assert (Hcut : (text_cut true n g <= Z.to_nat cap `min` length g)%nat).
  { unfold text_cut, cut_at. fold cap. rewrite Hmin. case_decide; lia. }
  destruct (IH cs2 _ H2) as (css & Hcs & Hall); [rewrite length_drop; lia|].
  exists (cs1 :: css). split; [by rewrite <- Hcs|]. constructor; [|done]. split_and!; [done| | |].
  - intros Hnil. apply (f_equal length) in Hnil. rewrite length_take in Hnil.
    change (length []) with 0%nat in Hnil. lia.
  - by apply (gsm_codes_last cs1).
  - unfold zlen. rewrite length_take. lia.
Qed.
End GsmText.

(** ** One chunk *)

Definition enc (gsm : bool) (data : list Z) : encoded := if gsm then Gsm data else Ucs2 data.

(** What is left of a text. *)
Definition cuttable (gsm : bool) (l : list Z) : Prop :=
  if gsm then exists t cs, dialect_tables t /\ gsm_codes t cs = Some l else bytes l.

Lemma at_pos_rd {A} (full l : list A) i j : at_pos full i l -> 0 <= j < zlen l ->
  rd full (i + j) = rd l j.
Proof.
  intros Hp Hj. pose proof (take_drop (Z.to_nat j) l) as Hl.
  destruct (drop (Z.to_nat j) l) as [|x l2] eqn:Hd.
  { apply (f_equal zlen) in Hd. rewrite zlen_drop in Hd. change (zlen []) with 0 in Hd. lia. }
  assert (Hz : zlen (take (Z.to_nat j) l) = j) by zl.
  rewrite <- Hl in Hp |- *. apply at_pos_app in Hp. rewrite Hz in Hp.
  destruct (at_pos_cons _ _ _ _ Hp) as [-> _]. by rewrite rd_middle.
Qed.

Lemma blit_ok (ud hb rest p : list Z) n : ud = hb ++ rest -> n = zlen hb -> zlen p <= zlen rest ->
  bytes rest ->
  exists rest', blit ud n p = Ret (hb ++ p ++ rest') /\ zlen p + zlen rest' = zlen rest /\ bytes rest'.
Proof.
  intros -> -> Hp Hb. exists (drop (length p) rest).
  rewrite <- (take_drop (length p) rest) at 1. unfold zlen in Hp. split_and!.
  - apply blit_middle; [done|]. unfold zlen. rewrite length_take. lia.
  - unfold zlen. rewrite length_drop. lia.
  - by apply Forall_drop.
Qed.

(** What a chunk of UCS2 may take is even. *)
Lemma ucs2_room n : 0 <= n <= 100 ->
  2 <= Z.land (140 - n) (Z.lnot 1) <= 140 - n /\ Z.even (Z.land (140 - n) (Z.lnot 1)) = true.
Proof.
  intros Hn. rewrite <- Z.ldiff_land. change 1 with (Z.ones 1).
  rewrite Z.ldiff_ones_r, Z.shiftl_mul_pow2, Z.shiftr_div_pow2 by lia.
  split; [dzl|]. change (2 ^ 1) with 2. by rewrite Z.even_mul, orb_true_r.
Qed.

Section Chunk.
Context `{L : Utf8Laws}.
Context (gsm : bool) (data : list Z) (hb : list Z).
Let n := zlen hb.
Context (Hn : n <= 100).

Lemma text_cut_ok l : cuttable gsm l -> l <> [] ->
  let k := text_cut gsm n l in
  (0 < k <= length l)%nat /\ cuttable gsm (drop k l) /\ cuttable gsm (take k l) /\
  Z.of_nat k <= (if gsm then 160 - header_septets n else 140 - n).
Proof.
  intros Hc Hne k. assert (Hl : (0 < length l)%nat) by (destruct l; [done|cbn; lia]).
  pose proof (zlen_nonneg hb) as Hn0. fold n in Hn0.
  pose proof (header_septets_fill n Hn0). pose proof (fill_bits_range n Hn0).
  unfold k, text_cut, cuttable in *. destruct gsm.
  - destruct Hc as (t & cs & Ht & Hg).
    replace (Z.to_nat (Z.min (160 - header_septets n) (zlen l)))
      with (Z.to_nat (160 - header_septets n) `min` length l)%nat by (unfold zlen; lia).
    pose proof (cut_at_pos t Ht cs l (Z.to_nat (160 - header_septets n)) Hg Hne ltac:(lia)).
    destruct (gsm_cut t Ht cs l (Z.to_nat (160 - header_septets n) `min` length l)%nat Hg ltac:(lia))
      as (cs1 & cs2 & _ & Hg1 & Hg2).
    assert (Hle : forall j, (cut_at j l <= j)%nat) by (intros; unfold cut_at; case_decide; lia).
    specialize (Hle (Z.to_nat (160 - header_septets n) `min` length l)%nat).
    split_and!; [lia|lia|by exists t, cs2|by exists t, cs1|lia].
  - destruct (ucs2_room n) as [? _]; [lia|].
    split_and!; [unfold zlen; lia|unfold zlen; lia|by apply Forall_drop|by apply Forall_take|lia].
Qed.

Lemma cuttable_septets l : cuttable true l -> septets l.
Proof. intros (t & cs & Ht & Hg). by apply (gsm_codes_septets t cs). Qed.

Lemma text_chunk_ok ud rest written l tl :
  at_pos data written (l ++ tl) -> (gsm = true -> tl = []) -> l <> [] -> cuttable gsm l ->
  ud = hb ++ rest -> zlen ud = 140 -> bytes rest ->
  let k := text_cut gsm n l in
  exists p udl rest',
    text_chunk (enc gsm data) n ud written (zlen l) = Ret (Z.of_nat k, udl, hb ++ p ++ rest') /\
    payload gsm n (take k l) p udl /\ n + zlen p + zlen rest' = 140 /\ bytes rest' /\ udl <= 160.
Proof.
  intros Hp Htl Hne Hc Hud Hz Hb k. destruct (text_cut_ok l Hc Hne) as (Hk & _ & Hck & Hcap).
  fold k in Hk, Hck, Hcap. pose proof (zlen_nonneg hb) as Hn0. fold n in Hn0.
  pose proof (header_septets_fill n Hn0). pose proof (fill_bits_range n Hn0).
  assert (Hrest : zlen rest = 140 - n) by (rewrite Hud, zlen_app in Hz; unfold n; lia).
  assert (Htk : zlen (take k l) = Z.of_nat k) by (unfold zlen; rewrite length_take; lia).
  unfold text_chunk, enc, payload. destruct gsm.
  - rewrite Htl, app_nil_r in Hp by done.
    fold (header_septets n). unfold sms_text_capacity_gsm. fold (header_septets n).
    set (chunk := if zlen l <? 160 - header_septets n then zlen l else 160 - header_septets n).
    assert (Hchunk : chunk = Z.min (160 - header_septets n) (zlen l))
      by (unfold chunk; destruct (Z.ltb_spec (zlen l) (160 - header_septets n)); lia).
    assert (0 < zlen l) by (destruct l; [done|zl]).
    replace (written + chunk - 1) with (written + (chunk - 1)) by lia.
    rewrite (at_pos_rd _ _ _ _ Hp) by lia.
    destruct (rd_in_bounds l (chunk - 1)) as [x Hx]; [lia|]. rewrite Hx. simp_res.
    apply rd_lookup in Hx; [|lia].
    assert (Hkc : (if x =? 0x1b then chunk - 1 else chunk) = Z.of_nat k).
    { unfold k, text_cut, cut_at. rewrite <- Hchunk.
      replace (Z.to_nat chunk - 1)%nat with (Z.to_nat (chunk - 1)) by lia. rewrite Hx.
      destruct (Z.eqb_spec x 0x1b); case_decide; simplify_eq; lia. }
    rewrite Hkc. unfold pack_into.
    assert (Hdrop : drop (Z.to_nat written) data = take k l ++ drop k l).
    { rewrite take_drop. by destruct Hp. }
    destruct (pack_7bit_own_buf_ok (drop (Z.to_nat written) data) (take k l) (drop k l) (Z.of_nat k) n
      false 0 (zlen ud - n)) as (p & Heq & Hpk); try done.
    + by apply cuttable_septets.
    + intros Hnil. rewrite Hnil in Htk. change (zlen []) with 0 in Htk. lia.
    + lia.
    + rewrite pack_length_given by lia. by rewrite Htk.
    + cbn iota. rewrite Htk. lia.
    + rewrite Heq. destruct (blit_ok ud hb rest p n Hud eq_refl) as (rest' & -> & Hr & Hrb); [|done|].
      { destruct Hpk as [_ -> _]. rewrite Htk, Hrest. Z.to_euclidean_division_equations; lia. }
      simp_res. exists p, (Z.of_nat k + header_septets n), rest'.
      split_and!; [done|by apply cuttable_septets|done|lia|lia|done|lia].
  - set (chunk := if zlen l <? Z.land (140 - n) (Z.lnot 1) then zlen l else Z.land (140 - n) (Z.lnot 1)).
    assert (Hchunk : chunk = Z.of_nat k).
    { destruct (ucs2_room n) as [? _]; [lia|]. unfold chunk, k, text_cut.
      destruct (Z.ltb_spec (zlen l) (Z.land (140 - n) (Z.lnot 1))); unfold zlen in *; lia. }
    rewrite Hchunk. pose proof (take_drop k l) as Hl. rewrite <- Hl, <- app_assoc in Hp.
    rewrite (at_pos_slice _ _ _ _ _ Hp) by lia. simp_res.
    destruct (blit_ok ud hb rest (take k l) n Hud eq_refl) as (rest' & -> & Hr & Hrb); [lia|done|].
    simp_res. exists (take k l), (Z.of_nat k + n), rest'.
    split_and!; [done|done|done|lia|lia|done|lia].
Qed.
End Chunk.

(** ** The loop *)

Inductive text_fragments (daddr : sms_address) (srr gsm : bool) (ies : Z -> Z -> list ie) (total : Z)
    : Z -> list (list Z) -> list sms -> Prop :=
  | text_fragments_nil seq : text_fragments daddr srr gsm ies total seq [] []
  | text_fragments_cons seq c cs m ms :
      text_msg daddr srr gsm (ies total (seq + 1)) c m ->
      text_fragments daddr srr gsm ies total (seq + 1) cs ms ->
      text_fragments daddr srr gsm ies total seq (c :: cs) (m :: ms).

Lemma length_text_fragments daddr srr gsm ies t seq cs ms :
  text_fragments daddr srr gsm ies t seq cs ms -> zlen ms = zlen cs.
Proof. induction 1; [done|]. zl. Qed.

Section Loop.
Context `{L : Utf8Laws}.
Context (daddr : sms_address) (srr gsm : bool) (data : list Z).
Context (base : list Z) (ies : Z -> Z -> list ie).
Context (Hies : forall t s, udh (ies t s) = base ++ [t; s]) (Hne : forall t s, ies t s <> []).
Let offset := zlen base + 2.
Context (Hoff : offset <= 100).

Lemma header_ies t s : header (ies t s) = base ++ [t; s].
Proof. rewrite <- Hies. specialize (Hne t s). by destruct (ies t s). Qed.

Lemma tpl_ies t s : text_tpl daddr srr gsm (ies t s) = submit_template daddr srr true (text_dcs gsm).
Proof. unfold text_tpl. by rewrite bool_decide_false. Qed.

Lemma text_loop_ok fuel : forall l tl m ud rest t s0 written seq r,
  at_pos data written (l ++ tl) -> (gsm = true -> tl = []) -> cuttable gsm l -> bytes rest ->
  (length l <= m)%nat -> ud = base ++ [t; s0] ++ rest -> zlen ud = 140 ->
  0 <= seq < 255 -> 255 - seq < Z.of_nat fuel ->
  let loop := text_loop fuel (submit_template daddr srr true (text_dcs gsm)) (enc gsm data) offset ud
                written (zlen l) seq r in
  let cs := text_pieces m gsm offset l in
  (zlen cs <= 255 - seq ->
   exists ms, loop = Ret (reverse ms ++ r, 0, seq + zlen ms) /\
     text_fragments daddr srr gsm ies t seq cs ms) /\
  (255 - seq < zlen cs -> exists r' remaining, loop = Ret (r', remaining, 255) /\ 0 < remaining).
Proof.
  induction fuel as [|fuel IH];
    intros l tl m ud rest t s0 written seq r Hp Htl Hc Hr Hm Hud Hz Hseq Hf loop cs; [lia|].
  unfold loop, cs. clear loop cs. cbn [text_loop]. destruct (decide (l = [])) as [->|Hnl].
  { change (zlen []) with 0. rewrite (proj2 (Z.ltb_ge 0 0)) by lia. split.
    - intros _. exists []. split; [by rewrite Z.add_0_r|destruct m; constructor].
    - destruct m; change (zlen (text_pieces _ _ _ [])) with 0; lia. }
  assert (Hpos : 0 < zlen l) by (destruct l; [done|zl]).
  rewrite (proj2 (Z.ltb_lt 0 _)) by done.
  assert (Hu : u8 (seq + 1) = seq + 1) by (unfold u8; apply Z.mod_small; lia). rewrite !Hu.
  assert (Hhb : zlen (base ++ [t; s0]) = offset) by (rewrite zlen_app; done).
  assert (Hn : zlen (base ++ [t; s0]) <= 100) by lia. rewrite app_assoc in Hud.
  destruct (text_chunk_ok gsm data (base ++ [t; s0]) Hn ud rest written l tl Hp Htl Hnl Hc Hud Hz Hr)
    as (p & udl & rest' & Heq & Hpl & Hpz & Hr' & Hudl).
  destruct (text_cut_ok gsm (base ++ [t; s0]) Hn l Hc Hnl) as (Hk & Hcd & _ & _).
  rewrite Hhb in *. set (k := text_cut gsm offset l) in *.
  rewrite Heq. simp_res. pose proof (zlen_nonneg base).
  assert (Hudl0 : 0 <= udl).
  { by destruct (payload_bytes gsm offset _ p udl ltac:(unfold offset; lia) Hpl) as (_ & _ & ?). }
  replace ((base ++ [t; s0]) ++ p ++ rest') with ((base ++ [t]) ++ s0 :: p ++ rest')
    by (by rewrite <- !app_assoc).
  rewrite wr_middle by (unfold offset; zl). simp_res.
  replace ((base ++ [t]) ++ seq + 1 :: p ++ rest') with (header (ies t (seq + 1)) ++ p ++ rest')
    by (rewrite header_ies, <- !app_assoc; done).
  assert (u8 udl = udl) as -> by (unfold u8; apply Z.mod_small; lia).
  rewrite <- (tpl_ies t (seq + 1)). set (m1 := text_tpl _ _ _ _ _ _).
  assert (Hhz : zlen (header (ies t (seq + 1))) = offset) by (rewrite header_ies, zlen_app; done).
  assert (Hmsg : text_msg daddr srr gsm (ies t (seq + 1)) (take k l) m1).
  { exists p, udl, rest'. rewrite Hhz. by split_and!. }
  destruct m as [|m]; [destruct l; [done|cbn in Hm; lia]|]. rewrite text_pieces_cons by done.
  fold k. set (l' := drop k l) in *.
  assert (Hl' : zlen l' = zlen l - Z.of_nat k) by (unfold l'; rewrite zlen_drop; unfold zlen; lia).
  rewrite <- Hl', zlen_cons, (tpl_ies t (seq + 1)). pose proof (zlen_nonneg (text_pieces m gsm offset l')).
  destruct (Z.eqb_spec (seq + 1) 255) as [Hs|Hs].
  - assert (Hnil : l' = [] <-> zlen (text_pieces m gsm offset l') = 0).
    { destruct (decide (l' = [])) as [->|Hne']; [by destruct m|].
      destruct m; [exfalso; unfold l' in *; destruct l; [done|]; apply Hne', nil_length_inv;
        rewrite length_drop; cbn [length] in *; lia|].
      rewrite text_pieces_cons, zlen_cons by done.
      pose proof (zlen_nonneg (text_pieces m gsm offset (drop (text_cut gsm offset l') l'))).
      split; [done|lia]. }
    split.
    + intros Hle. assert (l' = []) as -> by (apply Hnil; lia).
      exists [m1]. split; [done|]. constructor; [done|]. destruct m; constructor.
    + intros Hgt. exists (m1 :: r), (zlen l'). split; [by rewrite Hs|].
      clearbody l'. destruct l'; [rewrite (proj1 Hnil eq_refl) in Hgt; lia|zl].
  - destruct (IH l' tl m (header (ies t (seq + 1)) ++ p ++ rest') (p ++ rest') t (seq + 1)
      (written + Z.of_nat k) (seq + 1) (m1 :: r)) as [IH1 IH2]; try done.
    + pose proof (take_drop k l) as Hl. rewrite <- Hl, <- app_assoc in Hp. apply at_pos_app in Hp.
      rewrite zlen_take, Z.min_l in Hp by (unfold zlen; lia). done.
    + apply Forall_app. split; [|done].
      by destruct (payload_bytes gsm offset _ p udl ltac:(unfold offset; lia) Hpl) as (_ & ? & _).
    + unfold l'. rewrite length_drop. lia.
    + by rewrite header_ies, <- !app_assoc.
    + rewrite zlen_app, Hhz, zlen_app. lia.
    + lia.
    + lia.
    + split.
      * intros Hle. destruct IH1 as (ms & Heq' & Hfr); [lia|].
        exists (m1 :: ms). split; [|by constructor].
        rewrite Heq', reverse_cons, <- app_assoc, zlen_cons.
        by replace (seq + 1 + zlen ms) with (seq + (1 + zlen ms)) by lia.
      * intros Hgt. apply IH2. lia.
Qed.

Lemma text_set_total t v seq cs ms :
  text_fragments daddr srr gsm ies t seq cs ms ->
  exists ms', text_fragments daddr srr gsm ies v seq cs ms' /\
    Forall2 (fun m m' => submit_set_ud (offset - 2) v m = Ret m') ms ms'.
Proof.
  induction 1 as [|seq c cs m ms (p & udl & tail & Hm & Hpl & Hz & Hb) Hfr IH].
  { exists []. split; constructor. }
  destruct IH as (ms' & Hfr' & Hset).
  exists (text_tpl daddr srr gsm (ies v (seq + 1)) udl (header (ies v (seq + 1)) ++ p ++ tail) :: ms').
  assert (Hz' : forall a b, zlen (header (ies a b)) = offset) by (intros; rewrite header_ies, zlen_app; done).
  split.
  - constructor; [|done]. exists p, udl, tail. rewrite !Hz' in *. done.
  - constructor; [|done]. rewrite Hm, !tpl_ies, !header_ies, <- !Hies.
    apply (set_total_one (submit_template daddr srr true (text_dcs gsm)) base ies Hies).
    intros udl' ud ud' Hwr. unfold submit_template, submit_set_ud. cbn [tpdu submit_ud]. by rewrite Hwr.
Qed.
End Loop.

(** * The headers *)

(** The elements that tell which tables were used. *)
Definition language_ies (locking single : Z) : list ie :=
  (if single =? 0 then [] else [(0x24, [single])]) ++ (if locking =? 0 then [] else [(0x25, [locking])]).

Definition text_ies (lies : list ie) (ref : Z) (wide : bool) (total seq : Z) : list ie :=
  lies ++ [concat_ie ref wide total seq].

Lemma encode_ies_app a b : encode_ies (a ++ b) = encode_ies a ++ encode_ies b.
Proof. apply flat_map_app. Qed.

(** [ud] with the elements [ies]; without any, its first octet is 0. *)
Definition ud_with (ies : list ie) : list Z := udh ies ++ zeros (140 - zlen (udh ies)).

Lemma add_ie_ok ies i : zlen (udh ies) <= 100 -> zlen (encode_ie i) <= 20 ->
  add_header (ud_with ies) (zlen (udh ies)) (zlen (encode_ie i)) (encode_ie i) = Ret (ud_with (ies ++ [i])).
Proof.
  intros Hl Hi. pose proof (zlen_nonneg (encode_ie i)). pose proof (zlen_nonneg (encode_ies ies)).
  unfold ud_with. unfold udh in *. rewrite zlen_cons in *.
  rewrite (add_header_ok (zlen (encode_ies ies)) (encode_ies ies) (zeros (zlen (encode_ie i)))
    (zeros (139 - zlen (encode_ies ies) - zlen (encode_ie i)))); [| |done|apply zlen_zeros; lia].
  - rewrite encode_ies_app, zlen_app. change (encode_ies [i]) with (encode_ie i ++ []).
    rewrite app_nil_r. unfold u8. rewrite Z.mod_small by lia. cbn [app]. rewrite <- app_assoc, zlen_cons, zlen_app.
    do 5 f_equal. lia.
  - cbn [app]. do 2 f_equal. rewrite <- zeros_add by lia. f_equal. lia.
Qed.

Lemma language_header_ok iei lang ies : zlen (udh ies) <= 90 ->
  language_header iei lang (ud_with ies) (if bool_decide (ies = []) then 0 else zlen (udh ies)) =
  let ies' := ies ++ (if lang =? 0 then [] else [(iei, [lang])]) in
  Ret (ud_with ies', if bool_decide (ies' = []) then 0 else zlen (udh ies')).
Proof.
  intros Hl. unfold language_header. cbv zeta. destruct (lang =? 0); [by rewrite app_nil_r|].
  rewrite (bool_decide_false (_ ++ _ = [])) by (by destruct ies).
  assert (Hoff : (if (if bool_decide (ies = []) then 0 else zlen (udh ies)) =? 0 then 1
                  else if bool_decide (ies = []) then 0 else zlen (udh ies)) = zlen (udh ies)).
  { case_bool_decide as Hn; [by rewrite Hn|]. pose proof (zlen_nonneg (encode_ies ies)).
    rewrite (proj2 (Z.eqb_neq _ 0)); [done|]. unfold udh. zl. }
  rewrite Hoff. change 3 with (zlen (encode_ie (iei, [lang]))).
  change [iei; 1; lang] with (encode_ie (iei, [lang])).
  rewrite add_ie_ok by (lia || by vm_compute). simp_res. do 2 f_equal.
  unfold udh. rewrite encode_ies_app, !zlen_cons, zlen_app. change (zlen (encode_ie (iei, [lang]))) with 3.
  change (zlen (encode_ies [(iei, [lang])])) with 3. lia.
Qed.

Lemma language_ies_ok locking single :
  is_byte locking -> is_byte single ->
  Forall wf_ie (language_ies locking single) /\ zlen (udh (language_ies locking single)) <= 7 /\
  languages (language_ies locking single) = (locking, single) /\
  forall ref wide total seq, languages (text_ies (language_ies locking single) ref wide total seq) = (locking, single).
Proof.
  intros Hl Hs. unfold language_ies, languages, text_ies.
  split_and!; [|destruct (Z.eqb_spec single 0), (Z.eqb_spec locking 0); by vm_compute|
    destruct (Z.eqb_spec single 0), (Z.eqb_spec locking 0); subst; done|].
  - apply Forall_app. split; destruct (_ =? 0); try (by constructor); apply Forall_singleton;
      (split_and!; [done|by apply Forall_singleton|done]).
  - intros. destruct (Z.eqb_spec single 0), (Z.eqb_spec locking 0), wide; subst; done.
Qed.

Lemma text_udh lies ref wide t s :
  udh (text_ies lies ref wide t s) =
  ((zlen (encode_ies lies) + (zlen (concat_header ref wide) + 2))
    :: encode_ies lies ++ concat_header ref wide) ++ [t; s].
Proof.
  unfold text_ies, udh. rewrite encode_ies_app.
  assert (encode_ies [concat_ie ref wide t s] = concat_header ref wide ++ [t; s]) as -> by by destruct wide.
  rewrite !zlen_app. cbn [app]. rewrite <- app_assoc. done.
Qed.

(** * The whole preparation *)

(** What the code relies on of the conversions of ELL between UTF-8, UCS2 and
    UTF-16, for the texts it can be given. *)
Class Utf16Laws (U : Utf8) (W : Utf16) : Prop := {
  to_ucs2be_text cs : text_points cs -> l_utf8_to_ucs2be (utf8 cs) = Some (ucs2_octets cs ++ [0; 0]);
  from_utf16_text cs : text_points cs -> l_utf8_from_utf16 cs = Some (utf8 cs)
}.

(** The alphabet, the language elements and the octets or septets of a text. *)
Definition text_encoding (alphabet : Z) (cs : list Z) : bool * list ie * list Z :=
  match first_fit cs [(0, 0); (0, alphabet); (alphabet, alphabet)] with
  | Some ((locking, single), g) => (true, language_ies locking single, g)
  | None => (false, [], ucs2_octets cs)
  end.

Definition one_room (gsm : bool) (n : Z) : Z := if gsm then 160 - header_septets n else 140 - n.

(** The octets of the header of a fragment. *)
Definition fragment_header (lies : list ie) (wide : bool) : Z :=
  zlen (udh lies) + (if wide then 6 else 5).

Section Prepare.
Context `{L : Utf8Laws} `{W : Utf16} `{WL : !Utf16Laws U W}.

Lemma first_fit_sound cs pairs ls g : first_fit cs pairs = Some (ls, g) ->
  exists t, conversion_table_init ls.1 ls.2 = Some t /\ gsm_codes t cs = Some g.
Proof.
  induction pairs as [|p pairs IH]; [done|]. cbn [first_fit]. unfold encode_with.
  destruct (conversion_table_init p.1 p.2) as [t|] eqn:Ht; cbn; [|done].
  destruct (gsm_codes t cs) as [g'|] eqn:Hg; cbn; [|done]. intros [= <- <-]. by exists t.
Qed.

Lemma table_languages l s t : conversion_table_init l s = Some t -> is_byte l /\ is_byte s.
Proof.
  assert (Hk : forall l, is_Some (gsm_dialect_of_Z l) -> is_byte l).
  { intros x Hx. unfold gsm_dialect_of_Z in Hx. destruct (Z.ltb_spec x 0); [by destruct Hx|].
    apply lookup_lt_is_Some_1 in Hx. cbn in Hx. unfold is_byte. lia. }
  intros H. unfold conversion_table_init, populate_locking_shift, populate_single_shift in H.
  split; apply Hk.
  - destruct (gsm_dialect_of_Z l); [by eexists|done].
  - destruct (gsm_dialect_of_Z s); [by eexists|]. by destruct (gsm_dialect_of_Z l) as [[]|].
Qed.

Lemma zlen_ucs2_octets cs : zlen (ucs2_octets cs) = 2 * zlen cs.
Proof.
  induction cs as [|c cs IH]; [done|]. change (ucs2_octets (c :: cs)) with ([c / 256; c mod 256] ++ ucs2_octets cs).
  rewrite zlen_app, IH, !zlen_cons. change (zlen []) with 0. lia.
Qed.

Lemma ucs2_octets_bytes cs : text_points cs -> bytes (ucs2_octets cs).
Proof.
  induction 1 as [|c cs [Hc Hb] Hcs IH]; [constructor|]. unfold bmp_scalar in Hb.
  repeat (apply Forall_cons; split; [unfold is_byte; dzl|]). exact IH.
Qed.

(** The facts on the encoding of a text. *)
Lemma text_encoding_ok alphabet cs gsm lies d : text_points cs ->
  text_encoding alphabet cs = (gsm, lies, d) ->
  cuttable gsm d /\ Forall wf_ie lies /\ zlen (udh lies) <= 7 /\
  (if gsm then exists t, conversion_table_init (languages lies).1 (languages lies).2 = Some t /\
        gsm_codes t cs = Some d /\
        forall ref wide total seq, languages (text_ies lies ref wide total seq) = languages lies
   else lies = [] /\ d = ucs2_octets cs).
Proof.
  intros Hcs. unfold text_encoding. destruct (first_fit cs _) as [[[l s] g]|] eqn:Hf; intros [= <- <- <-].
  - destruct (first_fit_sound _ _ _ _ Hf) as (t & Ht & Hg). cbn [fst snd] in Ht.
    destruct (table_languages l s t Ht) as [Hl Hs].
    destruct (language_ies_ok l s Hl Hs) as (Hw & Hz & Hlang & Hlang').
    split_and!; [|done|done|].
    + exists t, cs. split; [by exists l, s|done].
    + exists t. rewrite Hlang. split_and!; [done|done|]. intros. by rewrite Hlang'.
  - split_and!; [by apply ucs2_octets_bytes|by apply Forall_nil|by vm_compute|done|done].
Qed.

(** The encoding step of [sms_text_prepare_with_alphabet]. *)
Lemma encode_step cs rest alphabet gsm lies d : text_points cs ->
  text_encoding alphabet cs = (gsm, lies, d) ->
  exists r used data,
    convert_utf8_to_gsm_best_lang (utf8 cs ++ 0 :: rest) (-1) 0 alphabet = Ret (r, used) /\
    match conv_res r with
    | Some gsm => Ret (Gsm gsm, zlen gsm)
    | None => match l_utf8_to_ucs2be (cstr (utf8 cs ++ 0 :: rest)) with
              | Some ucs2 => Ret (Ucs2 ucs2, zlen ucs2 - 2)
              | None => Err
              end
    end = Ret (enc gsm data, zlen d) /\
    (exists tl, data = d ++ tl /\ (gsm = true -> tl = [])) /\
    exists l s, (match enc gsm data, used with Gsm _, Some langs => langs | _, _ => (0, 0) end) = (l, s) /\
      lies = language_ies l s.
Proof.
  intros Hcs Henc. destruct (best_lang_ok alphabet cs rest Hcs) as (r & Hr & Hres).
  unfold text_encoding in Henc.
  destruct (first_fit cs _) as [[[l s] g]|] eqn:Hf; injection Henc as <- <- <-.
  - exists r, (Some (l, s)), g. rewrite Hr, Hres. split_and!; [done|done| |by exists l, s].
    exists []. by rewrite app_nil_r.
  - exists r, None, (ucs2_octets cs ++ [0; 0]). rewrite Hr, Hres. split_and!; [done| |by exists [0; 0]|by exists 0, 0].
    cbn [fmap option_fmap option_map]. rewrite cstr_app by by apply utf8_no_nul.
    rewrite to_ucs2be_text by done. do 2 f_equal. rewrite zlen_app. change (zlen [0; 0]) with 2. lia.
Qed.

(** The single message. *)
Lemma one_message daddr srr gsm lies d tl : cuttable gsm d -> zlen (udh lies) <= 7 ->
  (gsm = true -> tl = []) -> zlen d <= one_room gsm (zlen (header lies)) ->
  (d = [] -> lies = []) ->
  exists m,
    match enc gsm (d ++ tl) with
    | Gsm g => ud ← pack_into (ud_with lies) (zlen (header lies)) g (zlen d);
        Ret (Some [text_tpl daddr srr gsm lies (u8 (zlen d + header_septets (zlen (header lies)))) ud])
    | Ucs2 ucs2 => bs ← slice ucs2 0 (zlen d); ud ← blit (ud_with lies) (zlen (header lies)) bs;
        Ret (Some [text_tpl daddr srr gsm lies (u8 (zlen d + zlen (header lies))) ud])
    end = Ret (Some [m]) /\
    text_msg daddr srr gsm lies d m.
Proof.
  intros Hc Hl Htl Hroom Hnil. set (n := zlen (header lies)) in *.
  assert (Hn0 : 0 <= n) by apply zlen_nonneg. pose proof (zlen_nonneg d).
  assert (Hud : exists rest, ud_with lies = header lies ++ rest /\ bytes rest /\ n + zlen rest = 140).
  { unfold ud_with. destruct lies as [|i lies]; [exists (zeros 140); split_and!; [done| |done]|
      exists (zeros (140 - zlen (udh (i :: lies)))); split_and!; [done| |]].
    - unfold zeros, bytes. by apply Forall_replicate.
    - unfold zeros, bytes. by apply Forall_replicate.
    - unfold n, header. rewrite zlen_zeros by lia. lia. }
  destruct Hud as (rest & Hud & Hrb & Hrz).
  pose proof (header_septets_fill n Hn0). pose proof (fill_bits_range n Hn0).
  assert (Hu : forall x, 0 <= x <= 160 -> u8 x = x) by (intros; unfold u8; apply Z.mod_small; lia).
  unfold enc, one_room in *. destruct gsm.
  - rewrite Htl, app_nil_r by done. unfold pack_into. rewrite Hu by lia.
    destruct (decide (d = [])) as [->|Hne].
    { specialize (Hnil eq_refl). subst lies. eexists. split; [reflexivity|].
      exists [], 0, (zeros 140). split_and!; [done| |done|by apply (bool_decide_unpack (bytes _)); vm_compute].
      split_and!; [constructor|by split; [constructor| |]|done]. }
    assert (Hs : septets d) by by apply cuttable_septets.
    destruct (pack_7bit_own_buf_ok d d [] (zlen d) n false 0 (zlen (ud_with lies) - n))
      as (p & -> & Hpk); try done; [by rewrite app_nil_r| |by apply pack_length_given| |].
    + destruct d; [done|zl].
    + cbn iota. rewrite Hud, zlen_app. fold n. lia.
    + destruct (blit_ok (ud_with lies) (header lies) rest p n Hud eq_refl) as (rest' & -> & Hr' & Hb'); [|done|].
      { destruct Hpk as [_ -> _]. Z.to_euclidean_division_equations; lia. }
      simp_res. eexists. split; [reflexivity|].
      exists p, (zlen d + header_septets n), rest'. fold n. split_and!; [done|by split_and!|lia|done].
  - rewrite (slice_app [] d tl) by done. simp_res.
    destruct (blit_ok (ud_with lies) (header lies) rest d n Hud eq_refl) as (rest' & -> & Hr' & Hb'); [lia|done|].
    simp_res. rewrite Hu by lia. eexists. split; [reflexivity|].
    exists d, (zlen d + n), rest'. fold n. split_and!; [done|by split_and!|lia|done].
Qed.

(** The fragments, [ud] holding the language elements. *)
Lemma many_messages daddr srr gsm lies d tl ref wide : cuttable gsm d -> zlen (udh lies) <= 7 ->
  short ref -> (gsm = true -> tl = []) -> d <> [] ->
  let concat := concat_header ref wide in
  let offset := zlen (udh lies) + zlen concat + 2 in
  let cs := text_pieces (length d) gsm (fragment_header lies wide) d in
  let r :=
    ud ← add_header (ud_with lies) (zlen (udh lies)) (zlen concat + 2) concat;
    '(r, remaining, seq) ← text_loop 256 (submit_template daddr srr true (text_dcs gsm))
       (enc gsm (d ++ tl)) offset ud 0 (zlen d) 0 [];
    if 0 <? remaining then Err
    else r ← set_total (offset - 2) seq r; Ret (reverse r) in
  if zlen cs <=? 255 then
    exists ms, r = Ret ms /\ 0 < zlen ms <= 255 /\
      text_fragments daddr srr gsm (text_ies lies ref wide) (zlen ms) 0 cs ms
  else r = Err.
Proof.
  intros Hc Hl Href Htl Hne concat offset cs r. destruct (short_octets _ Href) as (Br1 & Br0 & _ & _).
  assert (Hcl : zlen concat = if wide then 4 else 3) by (unfold concat; by destruct wide).
  assert (Hclr : 3 <= zlen concat <= 4) by (rewrite Hcl; destruct wide; lia).
  pose proof (zlen_nonneg (encode_ies lies)) as He.
  assert (Hul : zlen (udh lies) = 1 + zlen (encode_ies lies)) by (unfold udh; by rewrite zlen_cons).
  set (base := (zlen (encode_ies lies) + (zlen concat + 2)) :: encode_ies lies ++ concat).
  assert (Hbl : zlen base = zlen (udh lies) + zlen concat) by (unfold base; rewrite zlen_cons, zlen_app; lia).
  assert (Hoff : offset = zlen base + 2) by (unfold offset; lia).
  assert (Hfh : fragment_header lies wide = zlen base + 2).
  { unfold fragment_header. rewrite Hbl, Hcl. destruct wide; lia. }
  set (k := 140 - (zlen base + 2)).
  unfold r, ud_with.
  rewrite (add_header_ok (zlen (encode_ies lies)) (encode_ies lies) (zeros (zlen concat)) ([0; 0] ++ zeros k));
    [|rewrite zeros_2, <- !zeros_add by (unfold k; lia); unfold udh; cbn [app]; do 3 f_equal; unfold k;
      rewrite zlen_cons; lia
     |lia|apply zlen_zeros; lia].
  rewrite bind_Ret.
  assert (u8 (zlen (encode_ies lies) + (zlen concat + 2)) = zlen (encode_ies lies) + (zlen concat + 2)) as ->.
  { unfold u8. rewrite Z.mod_small; lia. }
  assert (Hies : forall t s, udh (text_ies lies ref wide t s) = base ++ [t; s]) by (intros; apply text_udh).
  assert (Hine : forall t s, text_ies lies ref wide t s <> []) by (intros; unfold text_ies; by destruct lies).
  rewrite Hoff. set (ud := _ :: _).
  assert (Hud : ud = base ++ [0; 0] ++ zeros k) by (unfold ud, base; cbn [app]; by rewrite <- app_assoc).
  destruct (text_loop_ok daddr srr gsm (d ++ tl) base (text_ies lies ref wide) Hies Hine ltac:(lia)
    256 d tl (length d) ud (zeros k) 0 0 0 0 []) as [Hok Hbig]; try done.
  { apply at_pos_0. } { unfold zeros, bytes. by apply Forall_replicate. }
  { rewrite Hud, !zlen_app, zlen_zeros by (unfold k; lia). change (zlen [0; 0]) with 2. unfold k. lia. }
  rewrite <- Hfh in Hok, Hbig |- *. fold cs in Hok, Hbig. rewrite Z.sub_0_r in Hok, Hbig.
  destruct (Z.leb_spec (zlen cs) 255) as [Hle|Hgt].
  - destruct Hok as (ms & Heq & Hfr); [lia|]. rewrite Heq. simp_res.
    change (0 <? 0) with false. cbv iota. rewrite app_nil_r, Z.add_0_l.
    pose proof (length_text_fragments _ _ _ _ _ _ _ _ Hfr) as Hlen.
    destruct (text_set_total daddr srr gsm base (text_ies lies ref wide) Hies Hine
      0 (zlen ms) 0 cs ms Hfr) as (ms' & Hfr' & Hset).
    assert (Hms : zlen ms' = zlen ms).
    { unfold zlen. f_equal. symmetry. by eapply Forall2_length. }
    rewrite Hfh, (set_total_Forall2 _ _ _ (reverse ms')) by (by apply Forall2_reverse).
    simp_res. rewrite reverse_involutive. exists ms'. rewrite Hms. split_and!; [done| |lia|done].
    rewrite Hlen. unfold cs. destruct d as [|x d]; [done|]. cbn [length].
    rewrite text_pieces_cons, zlen_cons by done. pose proof (zlen_nonneg (text_pieces (length d) gsm
      (fragment_header lies wide) (drop (text_cut gsm (fragment_header lies wide) (x :: d)) (x :: d)))). lia.
  - destruct Hbig as (r' & rem & Heq & Hrem); [lia|]. rewrite Heq. simp_res.
    by rewrite (proj2 (Z.ltb_lt 0 rem)).
Qed.

(** What [sms_text_prepare_with_alphabet] returns, case by case. *)
Lemma text_prepare_ok to cs rest ref wide srr alphabet daddr gsm lies d :
  sms_address_from_string to = Ret daddr -> text_points cs -> short ref ->
  text_encoding alphabet cs = (gsm, lies, d) ->
  let pieces := text_pieces (length d) gsm (fragment_header lies wide) d in
  let r := sms_text_prepare_with_alphabet to (utf8 cs ++ 0 :: rest) ref wide srr alphabet in
  if zlen d <=? one_room gsm (zlen (header lies)) then
    exists m, r = Ret [m] /\ text_msg daddr srr gsm lies d m
  else if zlen pieces <=? 255 then
    exists ms, r = Ret ms /\ 0 < zlen ms <= 255 /\
      text_fragments daddr srr gsm (text_ies lies ref wide) (zlen ms) 0 pieces ms
  else r = Err.
Proof.
  intros Hto Hcs Href Henc pieces r.
  destruct (text_encoding_ok alphabet cs gsm lies d Hcs Henc) as (Hcut & Hw & Hl & Hkind).
  destruct (encode_step cs rest alphabet gsm lies d Hcs Henc)
    as (c & used & data & Hconv & Hdata & (tl & -> & Htl) & l & s & Hlang & Hlies).
  unfold r, sms_text_prepare_with_alphabet. rewrite Hto, bind_Ret, Hconv, bind_Ret. cbv iota beta.
  rewrite Hdata, bind_Ret. cbv iota beta zeta. rewrite Hlang.
  assert (Hdcs : (match enc gsm (d ++ tl) with Gsm _ => 0x00 | Ucs2 _ => 0x08 end) = text_dcs gsm)
    by (unfold enc; by destruct gsm).
  rewrite Hdcs. change (zeros SUBMIT_UD) with (ud_with []).
  change (language_header SMS_IEI_NATIONAL_LANGUAGE_SINGLE_SHIFT s (ud_with []) 0)
    with (language_header 0x24 s (ud_with []) (if bool_decide (([] : list ie) = []) then 0 else zlen (udh []))).
  rewrite language_header_ok by by vm_compute. rewrite bind_Ret. cbv iota beta zeta.
  change (language_header SMS_IEI_NATIONAL_LANGUAGE_LOCKING_SHIFT) with (language_header 0x25).
  rewrite language_header_ok by (destruct (s =? 0); by vm_compute). rewrite bind_Ret. cbv iota beta zeta.
  match goal with |- context [ud_with ?x] => change x with (language_ies l s) end. rewrite <- Hlies.
  assert (Hoff : (if bool_decide (lies = []) then 0 else zlen (udh lies)) = zlen (header lies))
    by by destruct lies.
  pose proof (zlen_nonneg (encode_ies lies)) as He.
  assert (Hul : zlen (udh lies) = 1 + zlen (encode_ies lies)) by (unfold udh; by rewrite zlen_cons).
  rewrite Hoff.
  assert (Hone : submit_template daddr srr (negb (zlen (header lies) =? 0)) (text_dcs gsm)
    = text_tpl daddr srr gsm lies).
  { unfold text_tpl. do 2 f_equal. rewrite <- Hoff. case_bool_decide; [done|].
    by rewrite (proj2 (Z.eqb_neq _ 0)) by lia. }
  rewrite Hone.
  assert (Hhdr : (if zlen (header lies) =? 0 then 1 else zlen (header lies)) = zlen (udh lies)).
  { rewrite <- Hoff. case_bool_decide as Hn; [by rewrite Hn|]. by rewrite (proj2 (Z.eqb_neq _ 0)) by lia. }
  unfold one_room. destruct (Z.leb_spec (zlen d) (if gsm then 160 - header_septets (zlen (header lies)) else 140 - zlen (header lies))) as [Hfit|Hbig].
  - destruct (one_message daddr srr gsm lies d tl Hcut Hl Htl Hfit) as (m & Heq & Hm).
    { intros ->. destruct gsm; [|by destruct Hkind]. destruct Hkind as (t & Ht & Hg & _).
      assert (Hcs0 : cs = []) by (apply (gsm_codes_nil t); [by do 2 eexists|done]).
      rewrite Hcs0 in Henc. by injection Henc. }
    exists m. split; [|done]. clear Hdata Hlang Hdcs. unfold enc, sms_text_capacity_gsm in *.
    destruct gsm; cbv iota in *; rewrite (proj2 (Z.leb_le (zlen d) _)) by done;
      unfold header_septets in Heq; rewrite Heq; done.
  - assert (Hne : d <> []).
    { intros ->. change (zlen []) with 0 in Hbig.
      pose proof (header_septets_fill (zlen (header lies)) (zlen_nonneg _)).
      pose proof (fill_bits_range (zlen (header lies)) (zlen_nonneg _)).
      assert (zlen (header lies) <= 7) by (rewrite <- Hoff; case_bool_decide; lia).
      destruct gsm; lia. }
    pose proof (many_messages daddr srr gsm lies d tl ref wide Hcut Hl Href Htl Hne) as Hmany.
    cbv zeta in Hmany. fold pieces in Hmany.
    assert (Hno : (match enc gsm (d ++ tl) with
      | Gsm gsm0 => if zlen d <=? sms_text_capacity_gsm 160 (zlen (header lies)) then
            ud ← pack_into (ud_with lies) (zlen (header lies)) gsm0 (zlen d);
            Ret (Some [text_tpl daddr srr gsm lies (u8 (zlen d + Z.quot (zlen (header lies) * 8 + 6) 7)) ud])
          else Ret None
      | Ucs2 ucs2 => if zlen d <=? 140 - zlen (header lies) then
            bs ← slice ucs2 0 (zlen d); ud ← blit (ud_with lies) (zlen (header lies)) bs;
            Ret (Some [text_tpl daddr srr gsm lies (u8 (zlen d + zlen (header lies))) ud])
          else Ret None end) = Ret None).
    { unfold enc, sms_text_capacity_gsm. unfold header_septets in Hbig.
      destruct gsm; by rewrite (proj2 (Z.leb_gt (zlen d) _)). }
    rewrite Hno, bind_Ret. cbv iota. rewrite Hhdr. exact Hmany.
Qed.
End Prepare.

(** * The text back *)

Section Back.
Context `{L : Utf8Laws} `{W : Utf16} `{WL : !Utf16Laws U W}.

Lemma utf16_units_octets cs : utf16_units (ucs2_octets cs) = cs.
Proof.
  induction cs as [|c cs IH]; [done|].
  change (ucs2_octets (c :: cs)) with (c / 256 :: c mod 256 :: ucs2_octets cs). cbn [utf16_units].
  rewrite IH. f_equal. dzl.
Qed.

(** UCS2 is cut between characters. *)
Lemma ucs2_pieces n fuel : 0 <= n <= 100 -> forall l,
  Z.even (zlen l) = true -> (length l <= fuel)%nat ->
  concat (text_pieces fuel false n l) = l /\
  Forall (fun c => c <> [] /\ Z.even (zlen c) = true) (text_pieces fuel false n l).
Proof.
  intros Hn. destruct (ucs2_room n Hn) as [Hr Hev].
  induction fuel as [|fuel IH]; intros l Hl Hf; [by destruct l; cbn in Hf; [|lia]|].
  destruct (decide (l = [])) as [->|Hne]; [split; [done|constructor]|].
  rewrite text_pieces_cons by done. set (k := text_cut false n l).
  assert (0 < zlen l) by (destruct l; [done|zl]).
  assert (Hk : Z.of_nat k = Z.min (Z.land (140 - n) (Z.lnot 1)) (zlen l)) by (unfold k, text_cut; lia).
  assert (Hke : Z.even (Z.of_nat k) = true).
  { rewrite Hk. destruct (Z.min_spec (Z.land (140 - n) (Z.lnot 1)) (zlen l)) as [[_ ->]|[_ ->]]; done. }
  assert (Htk : zlen (take k l) = Z.of_nat k) by (rewrite zlen_take; lia).
  destruct (IH (drop k l)) as [IHc IHf].
  - rewrite zlen_drop, Z.max_r, Z.even_sub, Hl, Hke by lia. done.
  - rewrite length_drop. unfold zlen in *. lia.
  - cbn [concat]. rewrite IHc, take_drop. split; [done|]. constructor; [|done]. split; [|by rewrite Htk].
    intros Hnil. rewrite Hnil in Htk. change (zlen []) with 0 in Htk. lia.
Qed.

(** An empty text makes an empty message. *)
Lemma decode_empty_part daddr srr m m' :
  text_msg daddr srr true [] [] m -> relays m m' -> decode_text_part m' = Ret ([], []).
Proof.
  intros Hm Hrel. destruct (relays_text daddr srr true [] [] m m') as (p & udl & tail & max & Hok & Hno & _ & Hc & Hpl);
    [by apply Forall_nil|done|done|].
  destruct Hpl as (_ & _ & ->). unfold decode_text_part. rewrite Hc.
  rewrite udh_taken_none by auto. done.
Qed.

Lemma text_ies_wf lies ref wide total seq : Forall wf_ie lies -> short ref -> is_byte total -> is_byte seq ->
  Forall wf_ie (text_ies lies ref wide total seq).
Proof.
  intros Hl Hr Ht Hs. apply Forall_app. split; [done|].
  pose proof (datagram_ies_wf 0 0 true ref wide total seq) as H. apply Forall_cons in H as [_ H];
    [done|by split|by split|done..].
Qed.

Lemma gsm_fragments_back daddr srr ies total seq pieces ms ms' css t :
  (forall s, seq < s <= seq + zlen pieces -> Forall wf_ie (ies total s)) ->
  (forall s, conversion_table_init (languages (ies total s)).1 (languages (ies total s)).2 = Some t) ->
  Forall2 (fun c cs => gsm_codes t cs = Some c /\ c <> [] /\ last c <> Some 0x1b /\ zlen c <= 160)
    pieces css ->
  Forall text_points css ->
  text_fragments daddr srr true ies total seq pieces ms -> Forall2 relays ms ms' ->
  Forall2 (fun m part => decode_text_part m = Ret part) ms'
    (map (fun cs => (utf8 (map plain_space cs), [])) css).
Proof.
  intros Hw Ht Hp Hcs Hfr. revert css ms' Hp Hcs.
  induction Hfr as [|seq c pieces m ms Hm Hfr IH]; intros css ms' Hp Hcs Hrel;
    inversion Hrel as [|? m' ? ms'' Hr Hrs]; subst; inversion Hp as [|? cs ? css' (Hg & Hne & Hl & Hz) Hp']; subst;
    [constructor|].
  apply Forall_cons in Hcs as [Hc Hcs]. rewrite zlen_cons in Hw. pose proof (zlen_nonneg pieces).
  constructor.
  - apply (decode_gsm_part daddr srr (ies total (seq + 1)) cs c m m' t); try done. apply Hw. lia.
  - apply IH; try done. intros s Hs. apply Hw. lia.
Qed.

Lemma ucs2_fragments_back daddr srr ies total seq pieces ms ms' :
  (forall s, seq < s <= seq + zlen pieces -> Forall wf_ie (ies total s)) ->
  Forall (fun c => c <> [] /\ Z.even (zlen c) = true) pieces ->
  text_fragments daddr srr false ies total seq pieces ms -> Forall2 relays ms ms' ->
  Forall2 (fun m part => decode_text_part m = Ret part) ms' (map (fun c => ([], c)) pieces).
Proof.
  intros Hw Hp Hfr. revert ms' Hp.
  induction Hfr as [|seq c pieces m ms Hm Hfr IH]; intros ms' Hp Hrel;
    inversion Hrel as [|? m' ? ms'' Hr Hrs]; subst; [constructor|].
  apply Forall_cons in Hp as [[Hne Hev] Hp]. rewrite zlen_cons in Hw. pose proof (zlen_nonneg pieces).
  cbn [map]. constructor.
  - apply (decode_ucs2_part daddr srr (ies total (seq + 1)) c m m'); try done. apply Hw. lia.
  - apply IH; try done. intros s Hs. apply Hw. lia.
Qed.

(** What messages that carry a GSM text, cut or not, decode to. *)
Lemma concat_parts css :
  concat (map fst (map (fun cs => (utf8 (map plain_space cs), [] : list Z)) css)) = utf8 (map plain_space (concat css)) /\
  concat (map snd (map (fun cs => (utf8 (map plain_space cs), [] : list Z)) css)) = [].
Proof.
  induction css as [|cs css [IH1 IH2]]; [done|]. cbn [map concat fst snd]. rewrite IH1, IH2. split; [|done].
  rewrite map_app. unfold utf8. by rewrite flat_map_app.
Qed.

Lemma concat_ucs2 (pieces : list (list Z)) :
  concat (map fst (map (fun c => ([] : list Z, c)) pieces)) = [] /\
  concat (map snd (map (fun c => ([] : list Z, c)) pieces)) = concat pieces.
Proof. by induction pieces as [|c pieces [IH1 IH2]]; [|cbn; rewrite IH1, IH2]. Qed.

Lemma decode_text_ok ms parts : Forall2 (fun m part => decode_text_part m = Ret part) ms parts ->
  sms_decode_text ms =
  if zlen (concat (map snd parts)) =? 0 then Ret (concat (map fst parts))
  else match l_utf8_from_utf16 (utf16_units (concat (map snd parts))) with
       | Some converted => Ret (concat (map fst parts) ++ cstr converted)
       | None => Ret (concat (map fst parts))
       end.
Proof. intros H. unfold sms_decode_text. rewrite (decode_text_loop_ok ms parts H). done. Qed.

Lemma decode_gsm_text ms css :
  Forall2 (fun m part => decode_text_part m = Ret part) ms
    (map (fun cs => (utf8 (map plain_space cs), [])) css) ->
  sms_decode_text ms = Ret (utf8 (map plain_space (concat css))).
Proof.
  intros H. rewrite (decode_text_ok _ _ H). destruct (concat_parts css) as [-> ->]. done.
Qed.

Lemma cstr_id l : Forall (fun c => c <> 0) l -> cstr l = l.
Proof. induction 1 as [|c l Hc Hl IH]; [done|]. cbn [cstr]. by rewrite (proj2 (Z.eqb_neq c 0)), IH. Qed.

Lemma decode_ucs2_text ms pieces cs : text_points cs -> cs <> [] -> concat pieces = ucs2_octets cs ->
  Forall2 (fun m part => decode_text_part m = Ret part) ms (map (fun c => ([], c)) pieces) ->
  sms_decode_text ms = Ret (utf8 cs).
Proof.
  intros Hcs Hne Hp H. rewrite (decode_text_ok _ _ H). destruct (concat_ucs2 pieces) as [-> ->].
  rewrite Hp, zlen_ucs2_octets, (proj2 (Z.eqb_neq _ 0)) by (destruct cs; [done|zl]).
  rewrite utf16_units_octets, from_utf16_text by done. by rewrite cstr_id by by apply utf8_no_nul.
Qed.

Lemma one_part_back daddr srr alphabet (gsm : bool) lies d cs m m' :
  text_points cs -> text_encoding alphabet cs = (gsm, lies, d) ->
  zlen d <= one_room gsm (zlen (header lies)) ->
  text_msg daddr srr gsm lies d m -> relays m m' ->
  if gsm
  then exists css, concat css = cs /\
    Forall2 (fun m part => decode_text_part m = Ret part) [m']
      (map (fun cs => (utf8 (map plain_space cs), [])) css)
  else exists pieces, concat pieces = d /\
    Forall2 (fun m part => decode_text_part m = Ret part) [m'] (map (fun c => ([], c)) pieces).
Proof.
  intros Hcs Henc Hroom Hm Hr.
  destruct (text_encoding_ok alphabet cs gsm lies d Hcs Henc) as (Hcut & Hw & Hl & Hkind).
  pose proof (header_septets_fill (zlen (header lies)) (zlen_nonneg _)).
  pose proof (fill_bits_range (zlen (header lies)) (zlen_nonneg _)).
  pose proof (zlen_nonneg (header lies)). destruct gsm.
  - destruct Hkind as (t & Ht & Hg & _). exists [cs]. split; [apply app_nil_r|].
    constructor; [|constructor]. assert (Hdt : dialect_tables t) by by do 2 eexists.
    destruct (decide (d = [])) as [->|Hne].
    + pose proof (gsm_codes_nil t Hdt cs Hg) as ->. injection Henc as <-.
      by apply (decode_empty_part daddr srr m).
    + apply (decode_gsm_part daddr srr lies cs d m m' t); try done; [by apply (gsm_codes_last t Hdt cs)|].
      unfold one_room in Hroom. lia.
  - destruct Hkind as [-> ->]. exists [ucs2_octets cs]. split; [apply app_nil_r|].
    constructor; [|constructor]. apply (decode_ucs2_part daddr srr [] (ucs2_octets cs) m m'); try done.
    + intros Hnil. apply (f_equal zlen) in Hnil. rewrite zlen_ucs2_octets in Hnil.
      change (zlen []) with 0 in Hnil. destruct cs; [discriminate Henc|zl].
    + by rewrite zlen_ucs2_octets, Z.even_mul.
Qed.

Lemma many_parts_back daddr srr alphabet (gsm : bool) lies d cs ref wide ms ms' :
  text_points cs -> text_encoding alphabet cs = (gsm, lies, d) -> short ref -> 0 < zlen ms <= 255 ->
  text_fragments daddr srr gsm (text_ies lies ref wide) (zlen ms) 0
    (text_pieces (length d) gsm (fragment_header lies wide) d) ms ->
  Forall2 relays ms ms' ->
  if gsm
  then exists css, concat css = cs /\
    Forall2 (fun m part => decode_text_part m = Ret part) ms'
      (map (fun cs => (utf8 (map plain_space cs), [])) css)
  else exists pieces, concat pieces = d /\
    Forall2 (fun m part => decode_text_part m = Ret part) ms' (map (fun c => ([], c)) pieces).
Proof.
  intros Hcs Henc Href Hn Hfr Hrel.
  destruct (text_encoding_ok alphabet cs gsm lies d Hcs Henc) as (Hcut & Hw & Hl & Hkind).
  pose proof (length_text_fragments _ _ _ _ _ _ _ _ Hfr) as Hlen.
  assert (Hn' : 0 <= fragment_header lies wide <= 100).
  { unfold fragment_header. pose proof (zlen_nonneg (udh lies)). destruct wide; lia. }
  assert (Hws : forall s, 0 < s <= 0 + zlen (text_pieces (length d) gsm (fragment_header lies wide) d) ->
    Forall wf_ie (text_ies lies ref wide (zlen ms) s)).
  { intros s Hs. apply text_ies_wf; try done; unfold is_byte; lia. }
  destruct gsm.
  - destruct Hkind as (t & Ht & Hg & Hlang). assert (Hdt : dialect_tables t) by by do 2 eexists.
    pose proof (header_septets_fill (fragment_header lies wide) ltac:(lia)).
    pose proof (fill_bits_range (fragment_header lies wide) ltac:(lia)).
    destruct (gsm_pieces t Hdt (fragment_header lies wide) (length d) ltac:(lia) cs d Hg ltac:(lia))
      as (css & Hcss & Hp).
    exists css. split; [done|].
    apply (gsm_fragments_back daddr srr (text_ies lies ref wide) (zlen ms) 0
      (text_pieces (length d) true (fragment_header lies wide) d) ms ms' css t); try done.
    + intros s. by rewrite Hlang.
    + eapply Forall2_impl; [exact Hp|]. intros c cs' (? & ? & ? & ?). split_and!; try done. lia.
    + rewrite <- Hcss in Hcs. clear -Hcs. induction css as [|c css IH]; [constructor|].
      cbn [concat] in Hcs. apply Forall_app in Hcs as [? ?]. constructor; auto.
  - destruct Hkind as [_ ->].
    destruct (ucs2_pieces (fragment_header lies wide) (length (ucs2_octets cs)) Hn' (ucs2_octets cs))
      as [Hc Hp]; [by rewrite zlen_ucs2_octets, Z.even_mul|done|].
    eexists. split; [exact Hc|].
    by apply (ucs2_fragments_back daddr srr (text_ies lies ref wide) (zlen ms) 0 _ ms ms').
Qed.

(** ** Properties *)

(** C23: [sms_text_prepare_with_alphabet] encodes the text with the first of the
    default table, the single shift table and both tables of the language that
    has all its characters, and otherwise in UCS2; it makes one message if the
    text fits in it, and otherwise numbered fragments whose headers name the
    tables, the reference, the total and the number, cut before an escape and
    between UCS2 characters; it gives NULL exactly when that takes more than 255
    fragments. *)
Theorem text_prepare_spec to cs rest ref wide srr alphabet daddr :
  sms_address_from_string to = Ret daddr -> text_points cs -> short ref ->
  let '(gsm, lies, d) := text_encoding alphabet cs in
  let pieces := text_pieces (length d) gsm (fragment_header lies wide) d in
  let r := sms_text_prepare_with_alphabet to (utf8 cs ++ 0 :: rest) ref wide srr alphabet in
  if zlen d <=? one_room gsm (zlen (header lies)) then
    exists m, r = Ret [m] /\ text_msg daddr srr gsm lies d m
  else if zlen pieces <=? 255 then
    exists ms, r = Ret ms /\ 0 < zlen ms <= 255 /\
      text_fragments daddr srr gsm (text_ies lies ref wide) (zlen ms) 0 pieces ms
  else r = Err.
Proof.
  intros Hto Hcs Href. destruct (text_encoding alphabet cs) as [[gsm lies] d] eqn:Henc.
  by apply text_prepare_ok.
Qed.

(** The text that is received: U+00A0 has no code of its own in GSM. *)
Definition received_text (alphabet : Z) (cs : list Z) : list Z :=
  if (text_encoding alphabet cs).1.1 then map plain_space cs else cs.

Lemma text_back to cs rest ref wide srr alphabet ms ms' :
  text_points cs -> short ref ->
  sms_text_prepare_with_alphabet to (utf8 cs ++ 0 :: rest) ref wide srr alphabet = Ret ms ->
  Forall2 relays ms ms' ->
  sms_decode_text ms' = Ret (utf8 (received_text alphabet cs)).
Proof.
  intros Hcs Href Hprep Hrel.
  destruct (sms_address_from_string to) as [daddr| |] eqn:Hto;
    [|unfold sms_text_prepare_with_alphabet in Hprep; rewrite Hto in Hprep; discriminate..].
  unfold received_text. destruct (text_encoding alphabet cs) as [[gsm lies] d] eqn:Henc.
  pose proof (text_prepare_ok to cs rest ref wide srr alphabet daddr gsm lies d Hto Hcs Href Henc) as Hok.
  cbv zeta in Hok. rewrite Hprep in Hok. cbn [fst].
  destruct (text_encoding_ok alphabet cs gsm lies d Hcs Henc) as (Hcut & Hw & Hl & Hkind).
  assert (Hparts : if gsm
    then exists css, concat css = cs /\
      Forall2 (fun m part => decode_text_part m = Ret part) ms'
        (map (fun cs => (utf8 (map plain_space cs), [])) css)
    else exists pieces, concat pieces = d /\
      Forall2 (fun m part => decode_text_part m = Ret part) ms' (map (fun c => ([], c)) pieces)).
  { destruct (_ <=? one_room _ _) eqn:Hroom.
    - destruct Hok as (m & [= ->] & Hm). inversion Hrel as [|? m' ? ms'' Hr Hrs]; subst.
      inversion Hrs; subst. bool_to_prop. by apply (one_part_back daddr srr alphabet gsm lies d cs m m').
    - destruct (_ <=? 255); [|done]. destruct Hok as (ms1 & [= <-] & Hn & Hfr).
      by apply (many_parts_back daddr srr alphabet gsm lies d cs ref wide ms ms'). }
  destruct gsm.
  - destruct Hparts as (css & <- & Hparts). by apply decode_gsm_text.
  - destruct Hparts as (pieces & Hd & Hparts). destruct Hkind as [-> ->].
    apply (decode_ucs2_text ms' pieces cs); try done.
    intros ->. discriminate Henc.
Qed.

(** C3: Whatever its characters and its length, a text that
    [sms_text_prepare_with_alphabet] makes messages of is what [sms_decode_text]
    makes of the messages received, in order and with the same user data; in the
    GSM alphabet U+00A0 comes back as a space ([received_text]), and every other
    character as itself. *)
Theorem text_roundtrip to cs rest ref wide srr alphabet ms ms' :
  text_points cs -> short ref ->
  sms_text_prepare_with_alphabet to (utf8 cs ++ 0 :: rest) ref wide srr alphabet = Ret ms ->
  Forall2 relays ms ms' ->
  sms_decode_text ms' = Ret (utf8 (received_text alphabet cs)).
Proof. exact (text_back to cs rest ref wide srr alphabet ms ms'). Qed.

(** A fragment of the GSM alphabet whose length is that of its header and
    the fill bits, with no character, makes [sms_decode_text] read the octet
    before its buffer: what was unpacked is empty, and its last character is
    looked at all the same. *)
Theorem decode_text_empty_fragment m ies max ud rest :
  ud_ok m -> msg_ies m ies ->
  match tpdu m with SMS_TYPE_COMMAND _ => False | _ => True end ->
  sms_extract_common m = (true, 0x00, header_septets (zlen (udh ies)), max, ud) ->
  zlen (udh ies) mod 7 <> 0 ->
  sms_decode_text (m :: rest) = Ub.
Proof.
  intros Hok Hies Hkind Hc Hmod. set (n := zlen (udh ies)) in *.
  assert (Hn : 0 < n) by (unfold n, udh; zl).
  pose proof (header_septets_fill n ltac:(lia)) as Hfill.
  assert (Hf : 1 <= fill_bits n <= 6).
  { unfold fill_bits in *. rewrite (proj2 (Z.eqb_neq _ 0)) by done. pose proof (Z.mod_pos_bound n 7). lia. }
  assert (Hby : sms_udl_in_bytes (header_septets n) 0 = n + 1).
  { rewrite udl_in_bytes_7bit, Z.quot_div_nonneg by lia. Z.to_euclidean_division_equations; lia. }
  assert (Hud : exists x tail, ud = udh ies ++ x :: tail /\ is_byte x).
  { unfold ud_ok in Hok. unfold msg_ies, ud_len in Hies. rewrite Hc in *.
    destruct Hok as (_ & Hub & Hz), Hies as (_ & Hmax & [_ _ _ [tail ->]]).
    apply Forall_app in Hub as [_ Hub]. fold n in Hz. rewrite zlen_app in Hz. fold n in Hz.
    destruct tail as [|x tail].
    - change (zlen []) with 0 in Hz. rewrite Hby in Hmax. destruct (tpdu m); try done; lia.
    - exists x, tail. apply Forall_cons in Hub as [? _]. done. }
  destruct Hud as (x & tail & Hud & Hx).
  unfold sms_decode_text. cbn [decode_text_loop].
  assert (decode_text_part m = Ub) as ->; [|done].
  unfold decode_text_part. rewrite Hc.
  change (sms_mwi_dcs_decode 0) with (@None (sms_mwi_type * sms_charset * bool * bool)).
  change (sms_dcs_decode 0) with (Some (SMS_CLASS_UNSPECIFIED, SMS_CHARSET_7BIT, false, false)).
  cbv iota zeta. rewrite (udh_taken_ok m ies Hok Hies). simp_res. fold n. rewrite Hby.
  rewrite (proj2 (Z.eqb_neq (n + 1) n)) by lia. rewrite Hud, drop_zlen_app by done.
  replace (n + 1 - n) with (zlen [x]) by (change (zlen [x]) with 1; lia).
  unfold sms_text_capacity_gsm. fold (header_septets n).
  rewrite Z.sub_diag. change (x :: tail) with ([x] ++ tail).
  rewrite unpack_7bit_own_buf_ok; [|by apply Forall_singleton|done|lia|lia].
  unfold unpacked. change (zlen [x]) with 1.
  assert (Z.to_nat (0 `min` ((8 * 1 - fill_bits n) / 7)) = 0%nat) as ->.
  { Z.to_euclidean_division_equations; lia. }
  done.
Qed.
End Back.

(** * Concrete runs *)

(** The characters up to a NUL; enough for units that are characters. *)
#[export] Instance utf16_codec : Utf16 := fun l => Some (utf8 l).

Lemma dec_utf8_char c rest : 0 < c /\ bmp_scalar c ->
  dec_utf8 (enc_utf8 c ++ rest) (zlen (enc_utf8 c ++ rest)) = Some (c, zlen (enc_utf8 c)).
Proof.
  intros [Hc Hb].
  assert (Hl : zlen (enc_utf8 c) = UTF8_LENGTH c).
  { apply (@from_wchar_length _ utf8_codec_laws). unfold bmp_scalar in Hb. lia. }
  rewrite Hl. apply (@get_codepoint_from_wchar _ utf8_codec_laws); [done|].
  rewrite zlen_app. cbn. zl.
Qed.

Lemma dec_points_utf8 cs : text_points cs -> forall n, (length (utf8 cs) <= n)%nat ->
  dec_points n (utf8 cs) = Some cs.
Proof.
  induction 1 as [|c cs Hc Hcs IH]; intros n Hn; [by destruct n|].
  change (utf8 (c :: cs)) with (enc_utf8 c ++ utf8 cs) in *.
  assert (Hl : (0 < length (enc_utf8 c))%nat).
  { unfold enc_utf8. by repeat case_cmp; cbn; lia. }
  rewrite length_app in Hn. destruct n as [|n]; [lia|]. cbn [dec_points].
  destruct (enc_utf8 c ++ utf8 cs) as [|x l] eqn:E; [by destruct (enc_utf8 c); cbn in Hl; [lia|]|].
  rewrite <- E, dec_utf8_char by done. cbn. rewrite drop_zlen_app by done.
  rewrite IH by lia. done.
Qed.

#[export] Instance utf16_codec_laws : Utf16Laws utf8_codec utf16_codec.
Proof.
  split; [|done]. intros cs Hcs. cbn. by rewrite dec_points_utf8.
Qed.

(** Over 160 septets, with Turkish letters of the single shift table. *)
Definition turkish_text : list Z := replicate 158 0x41 ++ [0x11E; 0x131; 0x20AC].

Definition turkish_fragments : list sms :=
  match sms_text_prepare_with_alphabet [43; 52; 57] (utf8 turkish_text ++ [0]) 513 true false 1 with
  | Ret ms => ms
  | _ => []
  end.

Lemma turkish_text_points : text_points turkish_text.
Proof.
  apply Forall_app. split; [apply Forall_replicate; unfold bmp_scalar; lia|].
  repeat constructor; unfold bmp_scalar; lia.
Qed.

Definition turkish_codes : list Z := snd (text_encoding 1 turkish_text).

Lemma turkish_encoding : text_encoding 1 turkish_text = (true, [(0x24, [1])], turkish_codes).
Proof. vm_compute. reflexivity. Qed.

Lemma text_prepare_spec_witness :
  exists ms,
    sms_text_prepare_with_alphabet [43; 52; 57] (utf8 turkish_text ++ [0]) 513 true false 1 = Ret ms /\
    0 < zlen ms <= 255 /\
    text_fragments {| number_type := 1; numbering_plan := 1; address := [52; 57] |} false true
      (text_ies [(0x24, [1])] 513 true) (zlen ms) 0
      (text_pieces (length turkish_codes) true 10 turkish_codes) ms.
Proof.
  pose proof (text_prepare_spec [43; 52; 57] turkish_text [] 513 true false 1
    {| number_type := 1; numbering_plan := 1; address := [52; 57] |} eq_refl turkish_text_points
    (conj (Zle_bool_imp_le 0 513 eq_refl) eq_refl)) as H.
  rewrite turkish_encoding in H. cbv zeta in H.
  assert (Hone : (zlen turkish_codes <=? one_room true (zlen (header [(0x24, [1])]))) = false)
    by (vm_compute; reflexivity).
  assert (Hmany : (zlen (text_pieces (length turkish_codes) true
    (fragment_header [(0x24, [1])] true) turkish_codes) <=? 255) = true) by (vm_compute; reflexivity).
  rewrite Hone, Hmany in H. exact H.
Defined.

Lemma text_roundtrip_witness : sms_decode_text turkish_fragments = Ret (utf8 turkish_text).
Proof.
  apply (text_roundtrip [43; 52; 57] turkish_text [] 513 true false 1 turkish_fragments turkish_fragments).
  - exact turkish_text_points.
  - split; [discriminate|reflexivity].
  - vm_compute. reflexivity.
  - apply relays_refl. vm_compute. reflexivity.
Defined.

(** A fragment of a message in the GSM alphabet, with no characters. *)
Definition empty_fragment : sms :=
  {| sc_addr := no_address;
     tpdu := SMS_TYPE_DELIVER
       {| deliver_mms := true; deliver_sri := false; deliver_udhi := true; deliver_rp := false;
          deliver_oaddr := {| number_type := 1; numbering_plan := 1; address := [52; 57] |};
          deliver_pid := 0; deliver_dcs := 0;
          deliver_scts := {| year := 9; month := 1; day := 2; hour := 3; minute := 4; second := 5;
                             has_timezone := true; timezone := 0 |};
          deliver_udl := 7; deliver_ud := udh [(0, [42; 2; 2])] ++ zeros 134 |} |}.

Lemma decode_text_empty_fragment_witness : sms_decode_text [empty_fragment] = Ub.
Proof.
  apply (decode_text_empty_fragment empty_fragment [(0, [42; 2; 2])] 140
    (udh [(0, [42; 2; 2])] ++ zeros 134) []).
  - split; [by split|]. split; [|by vm_compute].
    apply (bool_decide_unpack (bytes _)). vm_compute. reflexivity.
  - split_and!; [done|by vm_compute|]. split; [done| |by vm_compute|by eexists].
    repeat constructor; by vm_compute.
  - done.
  - reflexivity.
  - by vm_compute.
Defined.
