(* ===== verification/SmsAssembly.v ===== *)
(** Reassembly of concatenated messages, of src/src/smsutil.c: the list of
    incomplete messages, the fragments and the bitmap of each, the files that
    back them up, and expiry.  The files are a finite map from their path (the
    address in hexadecimal, the reference, the total and the sequence number)
    to their contents; writing one always succeeds. *)
From S2P Require Import Prelude Charset SevenBit SmsField SmsPdu SmsUdh.

(** * Data *)

Record sms_assembly_node := {
  node_addr : sms_address;
  node_ts : Z;
  node_fragments : list sms;
  node_ref : Z;
  node_max : Z;
  node_num : Z;
  node_bitmap : list Z  (* 8 words of 32 bits *)
}.

(** The directory of the message and the number of the file in it. *)
Definition sms_path : Type := list Z * Z * Z * Z.

Record sms_assembly := {
  assembly_imsi : bool;  (* not NULL *)
  assembly_list : list sms_assembly_node;
  assembly_files : gmap sms_path (list Z)
}.

Section Assembly.
Context `{U : Utf8} `{G : GlibUtf8}.

(** * Backup *)

(** The string in [straddr], an array of 25 characters. *)
Definition sms_address_to_hex_string (addr : sms_address) : res (list Z) :=
  pdu ← sms_encode_address_field 12 [] false addr;
  text ← encode_hex_own_buf pdu (zlen pdu) 0 25;
  array ← wr (text ++ replicate (25 - length text) 0) (zlen pdu * 2 + 1) 0;
  Ret (cstr array).

Definition sms_assembly_extract_address (straddr : list Z) : res sms_address :=
  pdu ← decode_hex_own_buf (straddr ++ [0]) (-1) 0 12;
  '(addr, _) ← sms_decode_address_field pdu (zlen pdu) 0 false;
  Ret addr.

(** [buf] is of 177 octets; the result of [sms_encode] is not tested, and the
    length is undefined when it fails. *)
Definition sms_serialize (m : sms) : res (list Z) :=
  match sms_encode 176 m with
  | Ret (pdu, tpdu_len) => Ret (u8 tpdu_len :: pdu)
  | _ => Ub
  end.

Definition sms_deserialize (buf : list Z) (outgoing : bool) : res sms :=
  match buf with
  | [] => Err
  | tpdu_len :: pdu => sms_decode pdu (zlen pdu) outgoing tpdu_len
  end.

(** The files after the call. *)
Definition sms_assembly_store (imsi : bool) (files : gmap sms_path (list Z))
    (node : sms_assembly_node) (m : sms) (seq : Z) : res (gmap sms_path (list Z)) :=
  if negb imsi then Ret files
  else
    match sms_address_to_hex_string (node_addr node) with
    | Ret straddr =>
        buf ← sms_serialize m;
        Ret (<[(straddr, node_ref node, node_max node, seq) := buf]> files)
    | Err => Ret files
    | Ub => Ub
    end.

(** [for (seq = 0; seq < node->max_fragments; seq++)]: the files unlinked. *)
Fixpoint unlink_fragments (n : nat) (files : gmap sms_path (list Z)) (straddr : list Z)
    (node : sms_assembly_node) : res (gmap sms_path (list Z)) :=
  match n with
  | O => Ret files
  | S n =>
    files ← unlink_fragments n files straddr node;
    let seq := Z.of_nat n in
    w ← rd (node_bitmap node) (seq / 32);
    Ret (if has w (Z.shiftl 1 (seq mod 32))
         then delete (straddr, node_ref node, node_max node, seq) files else files)
  end.

Definition sms_assembly_backup_free (imsi : bool) (files : gmap sms_path (list Z))
    (node : sms_assembly_node) : res (gmap sms_path (list Z)) :=
  if negb imsi then Ret files
  else
    match sms_address_to_hex_string (node_addr node) with
    | Ret straddr => unlink_fragments (Z.to_nat (node_max node)) files straddr node
    | Err => Ret files
    | Ub => Ub
    end.

(** * Adding a fragment *)

(** The bits of [w] below bit [n]. *)
Fixpoint count_bits (w : Z) (n : nat) : Z :=
  match n with
  | O => 0
  | S n => count_bits w n + if has w (Z.shiftl 1 (Z.of_nat n)) then 1 else 0
  end.

Fixpoint count_words (bitmap : list Z) (n : nat) : res Z :=
  match n with
  | O => Ret 0
  | S n =>
    position ← count_words bitmap n;
    w ← rd bitmap (Z.of_nat n);
    Ret (position + count_bits w 32)
  end.

(** Where the loop over the list ends: at a node the fragment goes to, with the
    nodes before and after it; at one that makes it be ignored; or at the end. *)
Inductive node_search :=
  | NodeFound (before : list sms_assembly_node) (node : sms_assembly_node)
      (after : list sms_assembly_node) (position : Z)
  | NodeIgnore
  | NodeNone.

Definition same_message (node : sms_assembly_node) (addr : sms_address) (ref : Z) : bool :=
  (number_type (node_addr node) =? number_type addr) &&
  (numbering_plan (node_addr node) =? numbering_plan addr) &&
  bool_decide (address (node_addr node) = address addr) &&
  (ref =? node_ref node).

Fixpoint find_node (l : list sms_assembly_node) (addr : sms_address) (ref max seq : Z)
    : res node_search :=
  match l with
  | [] => Ret NodeNone
  | node :: l =>
    if negb (same_message node addr ref) then
      r ← find_node l addr ref max seq;
      Ret match r with
          | NodeFound before n after p => NodeFound (node :: before) n after p
          | r => r
          end
    else if negb (max =? node_max node) then Ret NodeIgnore
    else
      w ← rd (node_bitmap node) (seq / 32);
      if has w (Z.shiftl 1 (seq mod 32)) then Ret NodeIgnore
      else
        position ← count_words (node_bitmap node) (Z.to_nat (seq / 32));
        Ret (NodeFound [] node l (position + count_bits w (Z.to_nat (seq mod 32))))
  end.

(** g_slist_insert() *)
Definition g_slist_insert {A} (l : list A) (x : A) (position : Z) : list A :=
  if position <? 0 then l ++ [x]
  else take (Z.to_nat position) l ++ x :: drop (Z.to_nat position) l.

(** The node with the fragment. *)
Definition node_add (node : sms_assembly_node) (m : sms) (seq position : Z)
    : res sms_assembly_node :=
  w ← rd (node_bitmap node) (seq / 32);
  bitmap ← wr (node_bitmap node) (seq / 32) (Z.lor w (Z.shiftl 1 (seq mod 32)));
  Ret {| node_addr := node_addr node; node_ts := node_ts node;
         node_fragments := g_slist_insert (node_fragments node) m position;
         node_ref := node_ref node; node_max := node_max node;
         node_num := u8 (node_num node + 1); node_bitmap := bitmap |}.

Definition node_new (addr : sms_address) (ts ref max : Z) : sms_assembly_node :=
  {| node_addr := addr; node_ts := ts; node_fragments := []; node_ref := ref;
     node_max := max; node_num := 0; node_bitmap := replicate 8 0 |}.

(** [out:], with the list around the node: the assembly and the completed
    message, [None] for NULL. *)
Definition fragment_out (a : sms_assembly) (before : list sms_assembly_node)
    (node : sms_assembly_node) (after : list sms_assembly_node) (position : Z)
    (m : sms) (seq : Z) (backup : bool) : res (sms_assembly * option (list sms)) :=
  node ← node_add node m seq position;
  if node_num node <? node_max node then
    files ← (if backup then sms_assembly_store (assembly_imsi a) (assembly_files a) node m seq
             else Ret (assembly_files a));
    Ret ({| assembly_imsi := assembly_imsi a;
            assembly_list := before ++ node :: after;
            assembly_files := files |}, None)
  else
    files ← sms_assembly_backup_free (assembly_imsi a) (assembly_files a) node;
    Ret ({| assembly_imsi := assembly_imsi a;
            assembly_list := before ++ after;
            assembly_files := files |}, Some (node_fragments node)).

Definition sms_assembly_add_fragment_backup (a : sms_assembly) (m : sms) (ts : Z)
    (addr : sms_address) (ref max seq : Z) (backup : bool)
    : res (sms_assembly * option (list sms)) :=
  r ← find_node (assembly_list a) addr ref max seq;
  match r with
  | NodeIgnore => Ret (a, None)
  | NodeFound before node after position =>
    fragment_out a before node after position m seq backup
  | NodeNone => fragment_out a [] (node_new addr ts ref max) (assembly_list a) 0 m seq backup
  end.

Definition sms_assembly_add_fragment (a : sms_assembly) (m : sms) (ts : Z)
    (addr : sms_address) (ref max seq : Z) : res (sms_assembly * option (list sms)) :=
  sms_assembly_add_fragment_backup a m ts addr ref max seq true.

(** * Expiry *)

Fixpoint expire_list (imsi : bool) (before : Z) (files : gmap sms_path (list Z))
    (l : list sms_assembly_node) : res (list sms_assembly_node * gmap sms_path (list Z)) :=
  match l with
  | [] => Ret ([], files)
  | node :: l =>
    if before <? node_ts node then
      '(l, files) ← expire_list imsi before files l; Ret (node :: l, files)
    else
      files ← sms_assembly_backup_free imsi files node;
      expire_list imsi before files l
  end.

Definition sms_assembly_expire (a : sms_assembly) (before : Z) : res sms_assembly :=
  '(l, files) ← expire_list (assembly_imsi a) before (assembly_files a) (assembly_list a);
  Ret {| assembly_imsi := assembly_imsi a; assembly_list := l; assembly_files := files |}.
End Assembly.

(** * The fragments of a message

    The bitmap, the list and the count of a node stand for one map from
    sequence numbers to messages. *)

Definition bit_at (bitmap : list Z) (s : Z) : bool :=
  Z.testbit (nth (Z.to_nat (s / 32)) bitmap 0) (s mod 32).

Definition in_order (frags : gmap Z sms) : list sms := omap (frags !!.) (seqZ 0 256).

Record node_frags (node : sms_assembly_node) (frags : gmap Z sms) : Prop := {
  nf_bitmap : zlen (node_bitmap node) = 8;
  nf_bit : forall s, is_byte s -> bit_at (node_bitmap node) s = bool_decide (is_Some (frags !! s));
  nf_list : node_fragments node = in_order frags;
  nf_num : node_num node = Z.of_nat (size frags)
}.

Lemma rd_nth bitmap i : 0 <= i < zlen bitmap -> rd bitmap i = Ret (nth (Z.to_nat i) bitmap 0).
Proof.
  intros Hi. apply rd_lookup; [lia|]. unfold zlen in Hi.
  destruct (nth_lookup_or_length bitmap (Z.to_nat i) 0); [done|lia].
Qed.

Lemma omap_agree {A B} (f g : A -> option B) (l : list A) :
  (forall x, x ∈ l -> f x = g x) -> omap f l = omap g l.
Proof.
  intros H. by apply list_omap_ext, Forall_Forall2_diag, Forall_forall.
Qed.

Lemma omap_empty l : omap (fun i => (∅ : gmap Z sms) !! i) l = [].
Proof. induction l as [|x l IH]; [done|]. cbn. by rewrite lookup_empty. Qed.

Lemma in_order_split frags s : is_byte s ->
  in_order frags = omap (frags !!.) (seqZ 0 s) ++
                   option_list (frags !! s) ++ omap (frags !!.) (seqZ (s + 1) (255 - s)).
Proof.
  unfold is_byte. intros Hs. unfold in_order.
  replace 256 with (s + (1 + (255 - s))) by lia.
  rewrite !seqZ_app by lia. rewrite !omap_app, Z.add_0_l.
  assert (Hone : omap (frags !!.) (seqZ s 1) = option_list (frags !! s)).
  { rewrite seqZ_cons, seqZ_nil by lia. cbn. by destruct (frags !! s). }
  by rewrite Hone.
Qed.

Lemma in_order_insert frags s m : is_byte s -> frags !! s = None ->
  in_order (<[s:=m]> frags) =
  g_slist_insert (in_order frags) m (zlen (omap (frags !!.) (seqZ 0 s))).
Proof.
  intros Hs Hn. rewrite !(in_order_split _ s Hs), lookup_insert_eq, Hn. cbn [option_list app].
  unfold g_slist_insert. rewrite (proj2 (Z.ltb_ge _ 0)) by apply zlen_nonneg.
  rewrite to_nat_zlen, take_app_length, drop_app_length. f_equal; [|f_equal];
    apply omap_agree; intros x Hx%elem_of_seqZ; apply lookup_insert_ne; lia.
Qed.

Lemma count_bits_ok w (frags : gmap Z sms) b n :
  (forall k, 0 <= k < Z.of_nat n -> Z.testbit w k = bool_decide (is_Some (frags !! (b + k)))) ->
  count_bits w n = zlen (omap (frags !!.) (seqZ b (Z.of_nat n))).
Proof.
  induction n as [|n IH]; intros Hb; [done|]. cbn [count_bits].
  rewrite IH by (intros; apply Hb; lia). rewrite has_bit, Hb by lia.
  rewrite seqZ_S, omap_app, zlen_app. f_equal. cbn.
  case_bool_decide as Hd; destruct (frags !! (b + Z.of_nat n)); done || by destruct Hd.
Qed.

Lemma count_words_ok bitmap (frags : gmap Z sms) n :
  zlen bitmap = 8 -> (n <= 8)%nat ->
  (forall s, is_byte s -> bit_at bitmap s = bool_decide (is_Some (frags !! s))) ->
  count_words bitmap n = Ret (zlen (omap (frags !!.) (seqZ 0 (32 * Z.of_nat n)))).
Proof.
  intros Hl Hn Hb. induction n as [|n IH]; [done|]. cbn [count_words].
  rewrite IH by lia. simp_res. rewrite rd_nth by lia. simp_res.
  rewrite (count_bits_ok _ frags (32 * Z.of_nat n)).
  - replace (32 * Z.of_nat (S n)) with (32 * Z.of_nat n + Z.of_nat 32) by lia.
    rewrite seqZ_app, omap_app, zlen_app by lia. done.
  - intros k Hk. rewrite <- Hb by (unfold is_byte; lia). unfold bit_at.
    do 2 f_equal; [f_equal|]; dzl.
Qed.

(** The position that the loops over the bitmap count. *)
Lemma position_ok node frags seq : node_frags node frags -> is_byte seq ->
  exists w position,
    rd (node_bitmap node) (seq / 32) = Ret w /\
    has w (Z.shiftl 1 (seq mod 32)) = bool_decide (is_Some (frags !! seq)) /\
    count_words (node_bitmap node) (Z.to_nat (seq / 32)) = Ret position /\
    position + count_bits w (Z.to_nat (seq mod 32)) = zlen (omap (frags !!.) (seqZ 0 seq)).
Proof.
  intros [Hl Hb _ _] Hs. pose proof (Hb seq Hs) as Hbit. unfold is_byte in Hs.
  eexists _, _. split_and!.
  - apply rd_nth. dzl.
  - rewrite has_bit by dzl. exact Hbit.
  - apply (count_words_ok _ frags); [done|dzl|done].
  - rewrite (count_bits_ok _ frags (32 * (seq / 32))).
    + rewrite !Z2Nat.id by dzl. rewrite <- zlen_app, <- omap_app.
      rewrite <- (Z.add_0_l (32 * (seq / 32))) at 2. rewrite <- seqZ_app by dzl.
      do 3 f_equal. dzl.
    + intros k Hk. rewrite Z2Nat.id in Hk by dzl. rewrite <- Hb by (unfold is_byte; dzl).
      unfold bit_at. do 2 f_equal; [f_equal|]; dzl.
Qed.

Lemma bit_at_set bitmap s s' :
  zlen bitmap = 8 -> is_byte s -> is_byte s' ->
  bit_at (<[Z.to_nat (s / 32) := Z.lor (nth (Z.to_nat (s / 32)) bitmap 0)
                                   (Z.shiftl 1 (s mod 32))]> bitmap) s' =
  bit_at bitmap s' || (s =? s').
Proof.
  unfold is_byte. intros Hl Hs Hs'. unfold bit_at. rewrite !nth_lookup.
  destruct (decide (s / 32 = s' / 32)) as [He|He].
  - rewrite <- He, list_lookup_insert_eq by (unfold zlen in Hl; dzl). cbn [from_option id].
    rewrite Z.lor_spec, Z.shiftl_1_l, Z.pow2_bits_eqb by dzl. f_equal.
    destruct (Z.eqb_spec s s'), (Z.eqb_spec (s mod 32) (s' mod 32)); dzl.
  - rewrite list_lookup_insert_ne by dzl.
    rewrite (proj2 (Z.eqb_neq s s')), orb_false_r by congruence. done.
Qed.

(** Adding a fragment to a node is adding it to the map. *)
Lemma node_add_ok node frags m seq : node_frags node frags -> is_byte seq ->
  frags !! seq = None -> Z.of_nat (size frags) < 255 ->
  exists node',
    node_add node m seq (zlen (omap (frags !!.) (seqZ 0 seq))) = Ret node' /\
    node_frags node' (<[seq:=m]> frags) /\
    node_addr node' = node_addr node /\ node_ts node' = node_ts node /\
    node_ref node' = node_ref node /\ node_max node' = node_max node.
Proof.
  intros [Hl Hb Hf Hc] Hs Hn Hsz. pose proof Hs as Hs'. unfold is_byte in Hs'.
  unfold node_add. rewrite rd_nth by dzl. simp_res. unfold wr.
  rewrite (proj2 (Z.leb_le 0 _)), (proj2 (Z.ltb_lt _ (zlen _))) by dzl. cbn [andb]. simp_res.
  eexists. split; [done|]. split_and!; try done. split; cbn.
  - by rewrite zlen_insert.
  - intros s Hsb. rewrite bit_at_set, Hb by done.
    destruct (Z.eqb_spec seq s) as [->|Hne].
    + rewrite lookup_insert_eq, orb_true_r. by rewrite bool_decide_true by done.
    + by rewrite lookup_insert_ne, orb_false_r.
  - by rewrite Hf, in_order_insert.
  - rewrite map_size_insert_None, Hc by done. unfold u8. rewrite Z.mod_small; lia.
Qed.

Lemma node_new_frags addr ts ref max : node_frags (node_new addr ts ref max) ∅.
Proof.
  split; cbn [node_new node_bitmap node_fragments node_num]; [done| |done|done].
  intros s Hs. rewrite lookup_empty, bool_decide_false by (by intros []).
  apply (byte_forall (fun s => negb (bit_at (replicate 8 0) s))) in Hs; [|by vm_compute].
  by apply negb_true_iff.
Qed.

(** * Specification

    An assembly is a map from the address and the reference to the incomplete
    message that has them. *)

Definition message_key : Type := Z * Z * list Z * Z.

Definition key_of (addr : sms_address) (ref : Z) : message_key :=
  (number_type addr, numbering_plan addr, address addr, ref).

Record message := { message_ts : Z; message_max : Z; message_frags : gmap Z sms }.

(** A fragment is ignored when it disagrees on the total, or is there. *)
Definition ignored (msg : option message) (max seq : Z) : bool :=
  match msg with
  | Some msg => negb (max =? message_max msg) || bool_decide (is_Some (message_frags msg !! seq))
  | None => false
  end.

(** What becomes of the message, [None] when it is not in the map, and what is
    delivered. *)
Definition add_message (msg : option message) (m : sms) (ts max seq : Z)
    : option message * option (list sms) :=
  if ignored msg max seq then (msg, None)
  else
    let frags := <[seq:=m]> (from_option message_frags ∅ msg) in
    if Z.of_nat (size frags) <? max then
      (Some {| message_ts := from_option message_ts ts msg; message_max := max;
               message_frags := frags |}, None)
    else (None, Some (in_order frags)).

Definition add_spec (A : gmap message_key message) (m : sms) (ts : Z) (addr : sms_address)
    (ref max seq : Z) : gmap message_key message * option (list sms) :=
  let k := key_of addr ref in
  let r := add_message (A !! k) m ts max seq in
  (partial_alter (fun _ => fst r) k A, snd r).

Definition node_key (node : sms_assembly_node) : message_key :=
  key_of (node_addr node) (node_ref node).

Record node_message (node : sms_assembly_node) (msg : message) : Prop := {
  nm_ts : node_ts node = message_ts msg;
  nm_max : node_max node = message_max msg;
  nm_frags : node_frags node (message_frags msg);
  nm_size : Z.of_nat (size (message_frags msg)) < message_max msg;
  nm_byte : is_byte (message_max msg)
}.

(** The list of nodes stands for a map. *)
Record refines (l : list sms_assembly_node) (A : gmap message_key message) : Prop := {
  ref_keys : NoDup (node_key <$> l);
  ref_node : forall node, node ∈ l -> exists msg, A !! node_key node = Some msg /\ node_message node msg;
  ref_dom : forall k, is_Some (A !! k) -> k ∈ (node_key <$> l)
}.

Lemma same_message_key node addr ref :
  same_message node addr ref = bool_decide (node_key node = key_of addr ref).
Proof.
  unfold same_message, node_key, key_of.
  destruct (Z.eqb_spec (number_type (node_addr node)) (number_type addr)),
    (Z.eqb_spec (numbering_plan (node_addr node)) (numbering_plan addr)),
    (Z.eqb_spec ref (node_ref node)); cbn [andb];
    repeat case_bool_decide; simplify_eq; try done; congruence.
Qed.

Lemma key_inj a1 r1 a2 r2 : key_of a1 r1 = key_of a2 r2 -> a1 = a2 /\ r1 = r2.
Proof. destruct a1, a2. unfold key_of. cbn. intros [= -> -> -> ->]. done. Qed.

(** ** The search *)

Lemma find_node_none l addr ref max seq : key_of addr ref ∉ (node_key <$> l) ->
  find_node l addr ref max seq = Ret NodeNone.
Proof.
  induction l as [|node l IH]; intros Hk; [done|]. cbn [fmap list_fmap] in Hk.
  apply not_elem_of_cons in Hk as [Hne Hk]. cbn [find_node].
  rewrite same_message_key, bool_decide_false by congruence. cbn [negb].
  rewrite IH by done. done.
Qed.

Lemma find_node_some l1 node l2 addr ref max seq msg :
  node_key node = key_of addr ref -> key_of addr ref ∉ (node_key <$> l1) ->
  node_message node msg -> is_byte seq ->
  find_node (l1 ++ node :: l2) addr ref max seq =
  if ignored (Some msg) max seq then Ret NodeIgnore
  else Ret (NodeFound l1 node l2 (zlen (omap (message_frags msg !!.) (seqZ 0 seq)))).
Proof.
  intros Hk Hl1 [_ Hmax Hfr _ _] Hs. cbn [ignored].
  induction l1 as [|n l1 IH]; cbn [find_node app].
  - rewrite same_message_key, bool_decide_true by done. cbn [negb]. rewrite Hmax.
    destruct (max =? message_max msg); cbn [negb orb]; [|done].
    destruct (position_ok node _ seq Hfr Hs) as (w & p & -> & Hw1 & Hw & <-).
    simp_res. rewrite Hw1. case_bool_decide; [done|]. rewrite Hw. done.
  - cbn [fmap list_fmap] in Hl1. apply not_elem_of_cons in Hl1 as [Hne Hl1].
    rewrite same_message_key, bool_decide_false by congruence. cbn [negb].
    rewrite IH by done. by case_match.
Qed.

(** ** The list after a change *)

Lemma refines_split l A k : refines l A -> is_Some (A !! k) ->
  exists l1 node l2 msg, l = l1 ++ node :: l2 /\ node_key node = k /\
    (k ∉ (node_key <$> l1 ++ l2)) /\ A !! k = Some msg /\ node_message node msg.
Proof.
  intros [Hnd Hn Hd] Hk. pose proof (Hd k Hk) as Hin.
  apply list_elem_of_fmap in Hin as (node & -> & Hin).
  destruct (Hn node Hin) as (msg & Hmsg & Hnm).
  apply list_elem_of_split in Hin as (l1 & l2 & ->).
  exists l1, node, l2, msg. split_and!; try done.
  rewrite !fmap_app, fmap_cons in Hnd. apply NoDup_app in Hnd as (_ & Hx & Hnd).
  apply NoDup_cons in Hnd as [Hl2 _]. rewrite fmap_app, elem_of_app.
  intros [H|H]; [|done]. apply (Hx _ H). by apply list_elem_of_here.
Qed.

Lemma elem_of_middle {A} (x y : A) l1 l2 : x ∈ l1 ++ y :: l2 <-> x = y \/ x ∈ l1 ++ l2.
Proof. rewrite !elem_of_app, elem_of_cons. tauto. Qed.

Lemma elem_of_keys k node l1 l2 :
  k ∈ (node_key <$> l1 ++ node :: l2) <-> k = node_key node \/ k ∈ (node_key <$> l1 ++ l2).
Proof. rewrite !fmap_app, fmap_cons. apply elem_of_middle. Qed.

Lemma refines_add l1 node l2 A msg : refines (l1 ++ l2) A ->
  node_key node ∉ (node_key <$> l1 ++ l2) -> node_message node msg ->
  refines (l1 ++ node :: l2) (<[node_key node := msg]> A).
Proof.
  intros [Hnd Hn Hd] Hk Hm. split.
  - rewrite (Permutation_app_comm l1), <- app_comm_cons, fmap_cons, Permutation_app_comm.
    by apply NoDup_cons.
  - intros n Hin. apply elem_of_middle in Hin as [->|Hin'].
    + exists msg. by rewrite lookup_insert_eq.
    + destruct (Hn n Hin') as (msg' & Hmsg & Hnm). exists msg'. split; [|done].
      rewrite lookup_insert_ne; [done|]. intros He. apply Hk. rewrite He.
      by apply list_elem_of_fmap_2.
  - intros k Hi. destruct (decide (k = node_key node)) as [->|Hne].
    + apply elem_of_keys. by left.
    + rewrite lookup_insert_ne in Hi by done. apply elem_of_keys. right. by apply Hd.
Qed.

Lemma refines_remove l1 node l2 A : refines (l1 ++ node :: l2) A ->
  refines (l1 ++ l2) (delete (node_key node) A).
Proof.
  intros [Hnd Hn Hd].
  assert (Hnd' : NoDup (node_key <$> node :: l1 ++ l2)) by by rewrite Permutation_middle.
  rewrite fmap_cons in Hnd'. apply NoDup_cons in Hnd' as [Hk Hnd'].
  split; [done| |].
  - intros n Hin. destruct (Hn n) as (msg & Hmsg & Hnm); [by apply elem_of_middle; right|].
    exists msg. split; [|done]. rewrite lookup_delete_ne; [done|].
    intros He. apply Hk. rewrite He. by apply list_elem_of_fmap_2.
  - intros k Hi. destruct (decide (k = node_key node)) as [->|Hne].
    + rewrite lookup_delete_eq in Hi. by destruct Hi.
    + rewrite lookup_delete_ne in Hi by done. by apply Hd, elem_of_keys in Hi as [|].
Qed.

(** * The operations refine the specification *)

Section Refinement.
Context `{U : Utf8} `{G : GlibUtf8}.

(** A fragment of this sender can be backed up. *)
Definition storable (addr : sms_address) (m : sms) : Prop :=
  sms_address_to_hex_string addr <> Ub /\ exists r, sms_encode 176 m = Ret r.

Lemma sms_assembly_store_ok imsi files node m seq :
  (imsi = true -> storable (node_addr node) m) ->
  exists files', sms_assembly_store imsi files node m seq = Ret files'.
Proof.
  intros H. unfold sms_assembly_store. destruct imsi; cbn [negb]; [|by eexists].
  destruct (H eq_refl) as [Ha [[pdu n] He]]. unfold sms_serialize. rewrite He.
  destruct (sms_address_to_hex_string _) eqn:Hs; [by eexists|by eexists|done].
Qed.

(** The file [path] is that of a fragment of [node] below [n]. *)
Definition unlinked (node : sms_assembly_node) (straddr : list Z) (n : Z) (path : sms_path) : bool :=
  let '(str, ref, max, s) := path in
  bool_decide (str = straddr) && (ref =? node_ref node) && (max =? node_max node) &&
  (0 <=? s) && (s <? n) && bit_at (node_bitmap node) s.

Lemma unlinked_S node straddr n path : 0 <= n ->
  unlinked node straddr (n + 1) path =
  bit_at (node_bitmap node) n && bool_decide (path = (straddr, node_ref node, node_max node, n)) ||
  unlinked node straddr n path.
Proof.
  intros Hn. destruct (decide (path = (straddr, node_ref node, node_max node, n))) as [Hp|Hp].
  - rewrite (bool_decide_true (path = _)) by done. subst path. unfold unlinked.
    rewrite bool_decide_true, !Z.eqb_refl by done.
    rewrite (proj2 (Z.leb_le 0 n)), (proj2 (Z.ltb_lt n (n + 1))), (proj2 (Z.ltb_ge n n)) by lia.
    cbn [andb]. by rewrite andb_true_r, orb_false_r.
  - rewrite (bool_decide_false (path = _)) by done. rewrite andb_false_r. cbn [orb].
    destruct path as [[[str ref] max] s]. unfold unlinked.
    case_bool_decide; [|done]. destruct (Z.eqb_spec ref (node_ref node)); [|done].
    destruct (Z.eqb_spec max (node_max node)); [|done]. cbn [andb]. subst.
    assert (s <> n) by congruence. destruct (Z.leb_spec 0 s); [|done]. cbn [andb].
    destruct (Z.ltb_spec s (n + 1)), (Z.ltb_spec s n); try done; lia.
Qed.

Lemma unlink_fragments_ok n straddr node files : zlen (node_bitmap node) = 8 -> (n <= 255)%nat ->
  exists files', unlink_fragments n files straddr node = Ret files' /\
    forall path, files' !! path =
      if unlinked node straddr (Z.of_nat n) path then None else files !! path.
Proof.
  intros Hl Hn. induction n as [|n IH]; cbn [unlink_fragments].
  - exists files. split; [done|]. intros [[[str ref] max] s]. unfold unlinked.
    destruct (Z.leb_spec 0 s), (Z.ltb_spec s (Z.of_nat 0)); try lia; by rewrite ?andb_false_r.
  - destruct IH as (files' & -> & Hf); [lia|]. simp_res.
    rewrite rd_nth by dzl. simp_res. rewrite has_bit by dzl.
    fold (bit_at (node_bitmap node) (Z.of_nat n)).
    eexists. split; [done|]. intros path.
    replace (Z.of_nat (S n)) with (Z.of_nat n + 1) by lia. rewrite unlinked_S by lia.
    destruct (bit_at (node_bitmap node) (Z.of_nat n)); cbn [andb]; [|by rewrite Hf].
    case_bool_decide as Hp; cbn [orb].
    + subst path. apply lookup_delete_eq.
    + rewrite lookup_delete_ne by done. apply Hf.
Qed.

Lemma backup_free_ok imsi files node : zlen (node_bitmap node) = 8 -> node_max node <= 255 ->
  (imsi = true -> sms_address_to_hex_string (node_addr node) <> Ub) ->
  exists files', sms_assembly_backup_free imsi files node = Ret files'.
Proof.
  intros Hl Hm H. unfold sms_assembly_backup_free. destruct imsi; cbn [negb]; [|by eexists].
  destruct (sms_address_to_hex_string _) as [straddr| |] eqn:Hs; [|by eexists|by destruct H].
  destruct (unlink_fragments_ok (Z.to_nat (node_max node)) straddr node files) as (files' & -> & _);
    [done|lia|]. by eexists.
Qed.

(** The files after a fragment that is not ignored, [r] being what is returned. *)
Definition files_after (a a' : sms_assembly) (addr : sms_address) (ref max : Z) (m : sms) (seq : Z)
    (backup : bool) (r : option (list sms)) : Prop :=
  exists node, node_addr node = addr /\ node_ref node = ref /\ node_max node = max /\
    zlen (node_bitmap node) = 8 /\
    match r with
    | None => if backup then sms_assembly_store (assembly_imsi a) (assembly_files a) node m seq
                             = Ret (assembly_files a')
              else assembly_files a' = assembly_files a
    | Some _ => sms_assembly_backup_free (assembly_imsi a) (assembly_files a) node
                = Ret (assembly_files a')
    end.

(** [frags] is what the node held, and [A] the map without it. *)
Lemma fragment_out_ok a before node after frags m seq backup A :
  refines (before ++ after) A -> A !! node_key node = None ->
  node_frags node frags -> frags !! seq = None -> is_byte seq -> is_byte (node_max node) ->
  Z.of_nat (size frags) < 255 ->
  (assembly_imsi a = true -> storable (node_addr node) m) ->
  let frags' := <[seq:=m]> frags in
  let r :=
    if Z.of_nat (size frags') <? node_max node
    then (Some {| message_ts := node_ts node; message_max := node_max node;
                  message_frags := frags' |}, None)
    else (None, Some (in_order frags')) in
  exists a',
    fragment_out a before node after (zlen (omap (frags !!.) (seqZ 0 seq))) m seq backup
      = Ret (a', snd r) /\
    assembly_imsi a' = assembly_imsi a /\
    refines (assembly_list a') (partial_alter (fun _ => fst r) (node_key node) A) /\
    files_after a a' (node_addr node) (node_ref node) (node_max node) m seq backup (snd r).
Proof.
  intros Hr Hk Hfr Hn Hs Hmax Hsz Hst frags' r. unfold fragment_out.
  destruct (node_add_ok node frags m seq Hfr Hs Hn Hsz)
    as (node' & Hadd & Hfr' & Ha & Hts & Href & Hm). rewrite Hadd. simp_res.
  pose proof Hfr' as [Hl _ Hf Hc].
  rewrite Hc, Hm. fold frags' in Hfr', Hf, Hc |- *. rewrite <- Ha in Hst. subst r.
  destruct (Z.ltb_spec (Z.of_nat (size frags')) (node_max node)) as [Hlt|Hge]; cbn [fst snd].
  - assert (exists files, (if backup then sms_assembly_store (assembly_imsi a) (assembly_files a)
        node' m seq else Ret (assembly_files a)) = Ret files) as [files Hfiles].
    { destruct backup; [by apply sms_assembly_store_ok|by eexists]. }
    rewrite Hfiles. simp_res. eexists. split_and!; [done|done| |].
    2: { exists node'. split_and!; try done. cbn [assembly_files]. destruct backup; congruence. }
    cbn [assembly_list].
    replace (node_key node) with (node_key node') in * by (unfold node_key; congruence).
    apply refines_add; [done| |by split; rewrite ?Hm].
    intros Hin. apply list_elem_of_fmap in Hin as (n & He & Hin).
    destruct Hr as [_ Hr _]. destruct (Hr n Hin) as (msg & Hmsg & _). congruence.
  - destruct (backup_free_ok (assembly_imsi a) (assembly_files a) node') as [files Hfiles]; [done| | |].
    + unfold is_byte in Hmax. lia.
    + intros Hi. by apply Hst.
    + rewrite Hfiles. simp_res. rewrite Hf. eexists. split_and!; [done|done| |by exists node'].
      cbn [assembly_list].
      change (refines (before ++ after) (delete (node_key node) A)). by rewrite delete_id.
Qed.

Lemma partial_alter_delete {A : Type} (M : gmap message_key A) k x :
  partial_alter (fun _ => x) k (delete k M) = partial_alter (fun _ => x) k M.
Proof.
  apply map_eq. intros i. destruct (decide (i = k)) as [->|Hne].
  - by rewrite !lookup_partial_alter_eq.
  - by rewrite !lookup_partial_alter_ne, lookup_delete_ne.
Qed.

Lemma refines_max l A k msg : refines l A -> A !! k = Some msg ->
  is_byte (message_max msg) /\ Z.of_nat (size (message_frags msg)) < message_max msg.
Proof.
  intros Hr Hk. destruct (refines_split l A k Hr) as (l1 & n & l2 & msg' & _ & _ & _ & Hk' & [_ _ _ ? ?]);
    [by eexists|]. rewrite Hk in Hk'. by simplify_eq.
Qed.

Lemma add_ok a A m ts addr ref max seq backup :
  refines (assembly_list a) A -> is_byte seq -> is_byte max ->
  (assembly_imsi a = true -> storable addr m) ->
  exists a',
    sms_assembly_add_fragment_backup a m ts addr ref max seq backup
      = Ret (a', snd (add_spec A m ts addr ref max seq)) /\
    assembly_imsi a' = assembly_imsi a /\
    refines (assembly_list a') (fst (add_spec A m ts addr ref max seq)) /\
    if ignored (A !! key_of addr ref) max seq then a' = a
    else files_after a a' addr ref max m seq backup (snd (add_spec A m ts addr ref max seq)).
Proof.
  intros Hr Hs Hmax Hst. unfold sms_assembly_add_fragment_backup, add_spec, add_message.
  destruct (A !! key_of addr ref) as [msg|] eqn:Hk.
  - destruct (refines_split _ A (key_of addr ref) Hr)
      as (l1 & node & l2 & msg' & Hl & Hkey & Hno & Hk' & Hnm); [by eexists|].
    rewrite Hk in Hk'. injection Hk' as <-. rewrite Hl.
    rewrite (find_node_some _ _ _ _ _ _ _ msg)
      by (try done; intros Hin; apply Hno; rewrite fmap_app, elem_of_app; by left).
    destruct (ignored (Some msg) max seq) eqn:Hd; simp_res; cbn [from_option].
    { exists a. split_and!; [done|done| |done]. cbn [fst]. by rewrite <- Hk, partial_alter_self. }
    cbn [ignored] in Hd. apply orb_false_iff in Hd as [Hmx Hnone].
    apply negb_false_iff, Z.eqb_eq in Hmx as ->. apply bool_decide_eq_false in Hnone.
    destruct Hnm as [Hts Hm Hfr Hsz Hb]. rewrite Hl in Hr. apply refines_remove in Hr.
    destruct (key_inj _ _ _ _ Hkey) as [Haddr Href].
    destruct (fragment_out_ok a l1 node l2 (message_frags msg) m seq backup _ Hr)
      as (a' & Hout & Hi & Href' & Hfiles); try done.
    + apply lookup_delete_eq.
    + by apply eq_None_not_Some.
    + by rewrite Hm.
    + unfold is_byte in Hb. lia.
    + by rewrite Haddr.
    + rewrite Hm, Hts, Hkey, partial_alter_delete, Haddr, Href in *. eexists. split_and!; done.
  - rewrite find_node_none; [|destruct Hr as [_ Hn _]; intros Hin].
    2: { apply list_elem_of_fmap in Hin as (n & He & Hin). destruct (Hn n Hin) as (msg & H & _). congruence. }
    simp_res. cbn [ignored from_option].
    destruct (fragment_out_ok a [] (node_new addr ts ref max) (assembly_list a) ∅ m seq backup A)
      as (a' & Hout & Hi & Href & Hfiles); try done.
    + apply node_new_frags.
    + rewrite omap_empty in Hout. eexists. split_and!; [exact Hout|done|done|done].
Qed.

(** ** Sequences of fragments *)

Record fragment := {
  fr_sms : sms; fr_ts : Z; fr_addr : sms_address; fr_ref : Z; fr_max : Z; fr_seq : Z
}.

Definition fr_key (f : fragment) : message_key := key_of (fr_addr f) (fr_ref f).

(** The calls, in order, and what each returns. *)
Fixpoint add_all (a : sms_assembly) (fs : list fragment)
    : res (sms_assembly * list (option (list sms))) :=
  match fs with
  | [] => Ret (a, [])
  | f :: fs =>
    '(a, r) ← sms_assembly_add_fragment a (fr_sms f) (fr_ts f) (fr_addr f) (fr_ref f)
                (fr_max f) (fr_seq f);
    '(a, rs) ← add_all a fs;
    Ret (a, r :: rs)
  end.

(** What is returned for the fragments of one message. *)
Definition replies (k : message_key) (fs : list fragment) (rs : list (option (list sms)))
    : list (option (list sms)) :=
  (filter (fun p => fr_key p.1 = k) (zip fs rs)).*2.

Definition add_to_message (msg : option message) (f : fragment) : option message * option (list sms) :=
  add_message msg (fr_sms f) (fr_ts f) (fr_max f) (fr_seq f).

(** The fragments of one message alone. *)
Fixpoint message_run (msg : option message) (fs : list fragment)
    : option message * list (option (list sms)) :=
  match fs with
  | [] => (msg, [])
  | f :: fs =>
    let r := add_to_message msg f in
    let rs := message_run (fst r) fs in
    (fst rs, snd r :: snd rs)
  end.

Definition fragment_ok (imsi : bool) (f : fragment) : Prop :=
  is_byte (fr_max f) /\ is_byte (fr_seq f) /\ (imsi = true -> storable (fr_addr f) (fr_sms f)).

Lemma add_all_ok fs : forall a A,
  refines (assembly_list a) A -> Forall (fragment_ok (assembly_imsi a)) fs ->
  exists a' rs A',
    add_all a fs = Ret (a', rs) /\ refines (assembly_list a') A' /\
    forall k, message_run (A !! k) (filter (fun f => fr_key f = k) fs) = (A' !! k, replies k fs rs).
Proof.
  induction fs as [|f fs IH]; intros a A Hr Hok; cbn [add_all]; [by exists a, [], A|].
  apply Forall_cons in Hok as [(Hm & Hs & Hst) Hok].
  destruct (add_ok a A (fr_sms f) (fr_ts f) (fr_addr f) (fr_ref f) (fr_max f) (fr_seq f) true
    Hr Hs Hm Hst) as (a1 & Hadd & Hi & Hr1 & _).
  unfold sms_assembly_add_fragment. rewrite Hadd. simp_res. rewrite <- Hi in Hok.
  destruct (IH a1 _ Hr1 Hok) as (a' & rs & A' & -> & Hr' & Hk). simp_res.
  eexists a', _, A'. split_and!; [done|done|]. intros k. specialize (Hk k).
  unfold replies in *. cbn [zip zip_with]. rewrite !filter_cons. cbn [fst].
  change (key_of (fr_addr f) (fr_ref f)) with (fr_key f) in Hk.
  destruct (decide (fr_key f = k)) as [<-|Hne]; cbn [message_run fmap list_fmap snd].
  - cbn [add_spec fst] in Hk. rewrite lookup_partial_alter_eq in Hk.
    unfold add_to_message. change (key_of (fr_addr f) (fr_ref f)) with (fr_key f) in *.
    by rewrite Hk.
  - cbn [add_spec fst] in Hk. rewrite lookup_partial_alter_ne in Hk by done. done.
Qed.

Definition add_frag (frags : gmap Z sms) (f : fragment) : gmap Z sms := <[fr_seq f := fr_sms f]> frags.

(** The rest of the fragments of a message of [n]. *)
Lemma message_run_complete n ts fs : forall frags,
  fs <> [] -> NoDup (fr_seq <$> fs) -> (forall f, f ∈ fs -> frags !! fr_seq f = None /\ fr_max f = n) ->
  Z.of_nat (size frags) + zlen fs = n ->
  message_run (Some {| message_ts := ts; message_max := n; message_frags := frags |}) fs =
  (None, replicate (length fs - 1) None ++ [Some (in_order (foldl add_frag frags fs))]).
Proof.
  induction fs as [|f fs IH]; intros frags Hne Hnd Hf Hn; [done|].
  cbn [message_run foldl length]. destruct (Hf f (list_elem_of_here _ _)) as [Hnone Hmax].
  unfold add_to_message, add_message, ignored. cbn [from_option message_max message_frags message_ts].
  rewrite Hmax, Z.eqb_refl, Hnone, bool_decide_false by (by intros []). cbn [negb orb].
  fold (add_frag frags f). rewrite zlen_cons in Hn. rewrite fmap_cons in Hnd.
  apply NoDup_cons in Hnd as [Hnin Hnd].
  assert (Hsize : Z.of_nat (size (add_frag frags f)) = Z.of_nat (size frags) + 1).
  { unfold add_frag. rewrite map_size_insert_None by done. lia. }
  rewrite Hsize. destruct fs as [|f' fs].
  - change (zlen []) with 0 in Hn. rewrite (proj2 (Z.ltb_ge _ n)) by lia. done.
  - rewrite zlen_cons in Hn. pose proof (zlen_nonneg fs).
    rewrite (proj2 (Z.ltb_lt _ n)) by lia. cbn [fst snd].
    rewrite IH; [|done|done| |rewrite Hsize, zlen_cons; lia].
    + cbn [fst snd length]. f_equal. replace (S (S (length fs)) - 1)%nat with (S (S (length fs) - 1)) by lia.
      done.
    + intros g Hg. destruct (Hf g) as [Hg1 Hg2]; [by apply list_elem_of_further|]. split; [|done].
      unfold add_frag. rewrite lookup_insert_ne; [done|]. intros He. apply Hnin. rewrite He.
      by apply list_elem_of_fmap_2.
Qed.

Lemma message_run_new f fs :
  message_run None (f :: fs) =
  message_run (Some {| message_ts := fr_ts f; message_max := fr_max f; message_frags := ∅ |}) (f :: fs).
Proof.
  cbn [message_run]. unfold add_to_message, add_message, ignored.
  cbn [from_option message_max message_frags message_ts].
  rewrite Z.eqb_refl, lookup_empty, bool_decide_false by (by intros []). done.
Qed.

Definition numbered (f : fragment) : Z * sms := (fr_seq f, fr_sms f).

Lemma foldl_add_frag fs : forall frags, NoDup (fr_seq <$> fs) ->
  (forall f, f ∈ fs -> frags !! fr_seq f = None) ->
  foldl add_frag frags fs = list_to_map (numbered <$> fs) ∪ frags.
Proof.
  induction fs as [|f fs IH]; intros frags Hnd Hf; cbn [foldl fmap list_fmap list_to_map foldr].
  - by rewrite (left_id_L ∅ (∪)).
  - rewrite fmap_cons in Hnd. apply NoDup_cons in Hnd as [Hnin Hnd]. rewrite IH; [|done|].
    + unfold add_frag. cbn [numbered fst snd uncurry]. rewrite <- insert_union_l.
      symmetry. apply insert_union_r. apply not_elem_of_list_to_map_1.
      rewrite <- list_fmap_compose. exact Hnin.
    + intros g Hg. unfold add_frag. rewrite lookup_insert_ne; [apply Hf; by right|].
      intros He. apply Hnin. rewrite He. by apply list_elem_of_fmap_2.
Qed.

Lemma omap_zip {A} (ks : list Z) (vs : list A) : NoDup ks -> length ks = length vs ->
  omap ((list_to_map (zip ks vs) : gmap Z A) !!.) ks = vs.
Proof.
  revert vs. induction ks as [|k ks IH]; intros [|v vs] Hnd Hl; try done.
  apply NoDup_cons in Hnd as [Hk Hnd]. cbn. rewrite lookup_insert_eq. f_equal.
  etransitivity; [|apply (IH vs Hnd); by injection Hl]. apply omap_agree. intros x Hx.
  by rewrite lookup_insert_ne by congruence.
Qed.

Lemma in_order_numbered ms : zlen ms <= 255 ->
  in_order (list_to_map (zip (seqZ 1 (zlen ms)) ms)) = ms.
Proof.
  intros Hn. pose proof (zlen_nonneg ms). set (n := zlen ms) in *. unfold in_order.
  set (M := list_to_map _ : gmap Z sms).
  assert (Hout : forall a k, (forall x, x ∈ seqZ a k -> x ∉ seqZ 1 n) -> omap (M !!.) (seqZ a k) = []).
  { intros a k Hx. rewrite <- (omap_empty (seqZ a k)). apply omap_agree. intros x Hin.
    rewrite lookup_empty. apply not_elem_of_list_to_map_1. rewrite fst_zip; [by apply Hx|].
    rewrite length_seqZ. unfold n, zlen. lia. }
  replace 256 with (1 + (n + (255 - n))) by lia. rewrite !seqZ_app, !omap_app by lia.
  rewrite (Hout 0 1), (Hout (0 + 1 + n)); [|intros x Hx; rewrite elem_of_seqZ in *; lia..].
  rewrite app_nil_r. cbn [app]. rewrite Z.add_0_l. apply omap_zip; [apply NoDup_seqZ|].
  rewrite length_seqZ. unfold n, zlen. lia.
Qed.

Lemma fragments_complete fs ms :
  (numbered <$> fs) ≡ₚ zip (seqZ 1 (zlen ms)) ms -> 0 < zlen ms <= 255 ->
  Forall (fun f => fr_max f = zlen ms) fs ->
  message_run None fs = (None, replicate (length ms - 1) None ++ [Some ms]).
Proof.
  intros Hp Hn Hmax.
  assert (Hlen : length fs = length ms).
  { apply Permutation_length in Hp. rewrite length_fmap, length_zip, length_seqZ in Hp.
    unfold zlen in *. lia. }
  assert (Hkeys : (numbered <$> fs).*1 = fr_seq <$> fs) by (by rewrite <- list_fmap_compose).
  assert (Hnd : NoDup (fr_seq <$> fs)).
  { rewrite <- Hkeys, Hp, fst_zip; [apply NoDup_seqZ|]. rewrite length_seqZ. unfold zlen. lia. }
  destruct fs as [|f fs]; [cbn in Hlen; unfold zlen in Hn; lia|].
  rewrite Forall_forall in Hmax. rewrite message_run_new.
  rewrite (Hmax f (list_elem_of_here _ _)).
  rewrite message_run_complete; [|done|done| |].
  - rewrite Hlen. do 4 f_equal. rewrite foldl_add_frag; [|done|intros; apply lookup_empty].
    rewrite <- Hkeys in Hnd.
    rewrite (right_id_L ∅ (∪)), (list_to_map_proper _ _ Hnd Hp). apply in_order_numbered. lia.
  - intros g Hg. split; [apply lookup_empty|by apply Hmax].
  - rewrite map_size_empty. unfold zlen. rewrite Hlen. lia.
Qed.

(** ** Expiry *)

Definition fresh (before : Z) (node : sms_assembly_node) : Prop := before < node_ts node.
#[local] Instance fresh_dec before node : Decision (fresh before node).
Proof. unfold fresh. apply _. Defined.

Lemma expire_list_ok imsi before l : forall files,
  (forall node, node ∈ l -> zlen (node_bitmap node) = 8 /\ node_max node <= 255) ->
  (forall node, node ∈ l -> imsi = true -> sms_address_to_hex_string (node_addr node) <> Ub) ->
  exists files', expire_list imsi before files l = Ret (filter (fresh before) l, files').
Proof.
  induction l as [|node l IH]; intros files Hl Hhex; cbn [expire_list]; [by eexists|].
  rewrite filter_cons.
  destruct (Z.ltb_spec before (node_ts node)); 
    [rewrite decide_True by done|rewrite decide_False by (unfold fresh; lia)].
  - destruct (IH files) as [files' ->]; [intros; apply Hl; by right|intros; apply Hhex; [by right|done]|].
    by eexists.
  - destruct (Hl node (list_elem_of_here _ _)).
    destruct (backup_free_ok imsi files node) as [files1 ->]; [done|done|by apply Hhex, list_elem_of_here|].
    apply IH; [intros; apply Hl; by right|intros; apply Hhex; [by right|done]].
Qed.

Lemma refines_filter before l A : refines l A ->
  refines (filter (fresh before) l) (filter (fun p : message_key * message => before < message_ts p.2) A).
Proof.
  intros [Hnd Hn Hd].
  assert (Hsub : sublist (filter (fresh before) l) l) by apply sublist_filter.
  split.
  - eapply sublist_NoDup; [done|by apply fmap_sublist].
  - intros node [Hf Hin]%list_elem_of_filter. destruct (Hn node Hin) as (msg & Hmsg & Hm).
    exists msg. split; [|done]. apply map_lookup_filter_Some. split; [done|].
    destruct Hm as [Hts _ _ _ _]. cbn. unfold fresh in Hf. lia.
  - intros k [msg [Hk Hts]%map_lookup_filter_Some]. cbn in Hts.
    assert (Hin : k ∈ (node_key <$> l)) by (apply Hd; by eexists).
    apply list_elem_of_fmap in Hin as (node & -> & Hin). apply list_elem_of_fmap_2, list_elem_of_filter.
    split; [|done]. destruct (Hn node Hin) as (msg' & Hk' & [Hts' _ _ _ _]). simplify_eq. unfold fresh. lia.
Qed.

(** * Properties *)

(** C14: [sms_assembly_add_fragment] implements the specification, a map from
    sender and reference to incomplete messages: a fragment that disagrees on
    the total or is already there is dropped, another is added, and the
    fragments are returned in the order of their sequence numbers when the last
    one is there, the message being forgotten.  It touches no memory outside
    its objects. *)
Theorem add_fragment_refines a A m ts addr ref max seq :
  refines (assembly_list a) A -> is_byte seq -> is_byte max ->
  (assembly_imsi a = true -> storable addr m) ->
  exists a',
    sms_assembly_add_fragment a m ts addr ref max seq
      = Ret (a', snd (add_spec A m ts addr ref max seq)) /\
    refines (assembly_list a') (fst (add_spec A m ts addr ref max seq)).
Proof.
  intros Hr Hs Hm Hst.
  destruct (add_ok a A m ts addr ref max seq true Hr Hs Hm Hst) as (a' & Ha & _ & Hr' & _).
  by exists a'.
Qed.

(** C19: The fragments of a message, once each and in any order, among any
    fragments of other messages, are returned all together, in the order of
    their sequence numbers, for the last of them, and none for the others. *)
Theorem assembly_any_order a A fs k ms :
  refines (assembly_list a) A -> A !! k = None ->
  Forall (fragment_ok (assembly_imsi a)) fs ->
  let own := filter (fun f => fr_key f = k) fs in
  (numbered <$> own) ≡ₚ zip (seqZ 1 (zlen ms)) ms -> 0 < zlen ms <= 255 ->
  Forall (fun f => fr_max f = zlen ms) own ->
  exists a' A' rs,
    add_all a fs = Ret (a', rs) /\
    replies k fs rs = replicate (length ms - 1) None ++ [Some ms] /\
    refines (assembly_list a') A' /\ A' !! k = None.
Proof.
  intros Hr Hk Hok own Hp Hn Hmax.
  destruct (add_all_ok fs a A Hr Hok) as (a' & rs & A' & Hadd & Hr' & Hrun).
  specialize (Hrun k). fold own in Hrun.
  rewrite Hk, (fragments_complete own ms Hp Hn Hmax) in Hrun. injection Hrun as Hk' Hrs.
  by exists a', A', rs.
Qed.

(** C28: [sms_assembly_expire] forgets exactly the messages whose first fragment
    came at [before] or earlier.  (Its comment says prior to [before]; the test
    is [node->ts > before], so that a message of that very second goes too.) *)
Theorem expire_refines a A before :
  refines (assembly_list a) A ->
  (forall node, node ∈ assembly_list a -> assembly_imsi a = true ->
     sms_address_to_hex_string (node_addr node) <> Ub) ->
  exists a',
    sms_assembly_expire a before = Ret a' /\
    refines (assembly_list a') (filter (fun p : message_key * message => before < message_ts p.2) A).
Proof.
  intros Hr Hhex. unfold sms_assembly_expire.
  destruct (expire_list_ok (assembly_imsi a) before (assembly_list a) (assembly_files a))
    as [files ->]; [|done|].
  - intros node Hin. destruct Hr as [_ Hn _].
    destruct (Hn node Hin) as (msg & _ & [_ -> [? _ _ _] _ Hb]). unfold is_byte in Hb. lia.
  - simp_res. eexists. split; [done|]. by apply refines_filter.
Qed.

(** [sms_assembly_backup_free] removes the files of the fragments of a
    message whose number is below the total, and no other file: that of the last
    fragment stays. *)
Theorem backup_free_keeps_last a node straddr :
  zlen (node_bitmap node) = 8 -> is_byte (node_max node) ->
  sms_address_to_hex_string (node_addr node) = Ret straddr ->
  exists files,
    sms_assembly_backup_free true (assembly_files a) node = Ret files /\
    (forall path, files !! path =
       if unlinked node straddr (node_max node) path then None else assembly_files a !! path) /\
    let last := (straddr, node_ref node, node_max node, node_max node) in
    files !! last = assembly_files a !! last.
Proof.
  intros Hl Hm Hs. unfold is_byte in Hm. unfold sms_assembly_backup_free. cbn [negb]. rewrite Hs.
  destruct (unlink_fragments_ok (Z.to_nat (node_max node)) straddr node (assembly_files a))
    as (files & -> & Hf); [done|lia|].
  rewrite Z2Nat.id in Hf by lia. exists files. split_and!; [done|done|].
  cbv zeta. rewrite Hf. unfold unlinked. by rewrite Z.ltb_irrefl, andb_false_r.
Qed.

End Refinement.

(** ** Backups *)

Section Backup.
Context `{L : Utf8Laws} `{GL : !GlibUtf8Laws U G}.

(** An address that fills the 12 octets of [pdu] makes [straddr] overflow. *)
Lemma hex_string_ok addr bs :
  (forall cap out, sms_encode_address_field cap out false addr = put cap out bs) ->
  bytes bs -> zlen bs <= 12 ->
  sms_address_to_hex_string addr = if zlen bs =? 12 then Ub else Ret (hex_text bs).
Proof.
  intros He Hb Hl. pose proof (zlen_nonneg bs). unfold sms_address_to_hex_string.
  rewrite He, put_ok by (change (zlen []) with 0; lia). cbn [app]. simp_res.
  rewrite encode_hex_ok by lia. simp_res. pose proof (zlen_hex_text bs) as Hh.
  set (array := _ ++ replicate _ 0).
  assert (Hz : zlen array = 25).
  { unfold array. rewrite !zlen_app, zlen_replicate, length_app, Hh. change (zlen [0]) with 1.
    change (length [0]) with 1%nat. unfold zlen in *. lia. }
  unfold wr. rewrite Hz, (proj2 (Z.leb_le 0 _)) by lia. cbn [andb].
  destruct (Z.eqb_spec (zlen bs) 12) as [E|E]; [by rewrite (proj2 (Z.ltb_ge _ 25)) by lia|].
  rewrite (proj2 (Z.ltb_lt _ 25)) by lia. simp_res. f_equal. unfold array.
  rewrite <- app_assoc. cbn [app].
  replace (Z.to_nat (zlen bs * 2 + 1)) with (length (hex_text bs) + 1)%nat
    by (unfold zlen in *; lia).
  rewrite insert_app_r. cbn [insert list_insert].
  apply cstr_app. by apply hex_text_no_nul.
Qed.

Lemma hex_address_back addr : wf_address false addr ->
  exists bs, 1 <= zlen bs <= 12 /\
    (forall cap out, sms_encode_address_field cap out false addr = put cap out bs) /\
    sms_address_to_hex_string addr = (if zlen bs =? 12 then Ub else Ret (hex_text bs)) /\
    sms_assembly_extract_address (hex_text bs) = Ret addr.
Proof.
  intros Hw. destruct (address_codec false addr Hw) as (bs & [He Hd Hb] & Hl).
  exists bs. split_and!; [lia|lia|done|apply hex_string_ok; [done|done|lia]|].
  unfold sms_assembly_extract_address. rewrite decode_hex_ok by (done || lia). simp_res.
  rewrite (Hd bs (zlen bs) 0 []) by (rewrite ?app_nil_r; apply at_pos_0 || lia). done.
Qed.

(** The address in hexadecimal, as the names of backup files have it, is read
    back as the address, except that the NUL is written one past the end of
    [straddr] when the address takes 12 octets, as a number of 19 digits does. *)
Theorem hex_address_roundtrip addr : wf_address false addr ->
  exists bs,
    (forall cap out, sms_encode_address_field cap out false addr = put cap out bs) /\
    1 <= zlen bs <= 12 /\
    if zlen bs =? 12 then sms_address_to_hex_string addr = Ub
    else exists straddr,
      sms_address_to_hex_string addr = Ret straddr /\
      sms_assembly_extract_address straddr = Ret addr.
Proof.
  intros Hw. destruct (hex_address_back addr Hw) as (bs & Hl & He & Hh & Hx).
  exists bs. split_and!; [done|lia|lia|]. rewrite Hh. destruct (zlen bs =? 12); [done|].
  by exists (hex_text bs).
Qed.

(** A sender whose address fits. *)
Definition wf_sender (addr : sms_address) : Prop :=
  wf_address false addr /\ sms_address_to_hex_string addr <> Ub.

Lemma wf_sender_hex addr : wf_sender addr ->
  exists straddr, sms_address_to_hex_string addr = Ret straddr /\
    sms_assembly_extract_address straddr = Ret addr.
Proof.
  intros [Hw Hne]. destruct (hex_address_back addr Hw) as (bs & _ & _ & Hh & Hx).
  exists (hex_text bs). split; [|done]. rewrite Hh in *. by destruct (zlen bs =? 12).
Qed.

(** A message that is received. *)
Definition wf_received (m : sms) : Prop :=
  wf_sms m /\ match tpdu m with SMS_TYPE_DELIVER _ => True | _ => False end.

Lemma serialize_back m : wf_received m ->
  (exists r, sms_encode 176 m = Ret r) /\
  exists buf, sms_serialize m = Ret buf /\ sms_deserialize buf false = Ret m.
Proof.
  intros [Hw Hd]. destruct (sms_codec_ok m Hw) as (pdu & n & He & _ & Hn & Hl & Hdec).
  unfold sms_serialize. rewrite He by (destruct (tpdu m); done || lia).
  split; [by eexists|]. eexists. split; [done|]. cbn [sms_deserialize].
  unfold u8. rewrite Z.mod_small by (destruct (tpdu m); done || lia).
  destruct m as [a t]; cbn [tpdu sc_addr] in *. by destruct t.
Qed.

(** Every fragment that is held is in its file. *)
Definition backed_up (files : gmap sms_path (list Z)) (A : gmap message_key message) : Prop :=
  forall addr ref msg s m,
    A !! key_of addr ref = Some msg -> message_frags msg !! s = Some m ->
    exists straddr buf,
      sms_address_to_hex_string addr = Ret straddr /\
      sms_assembly_extract_address straddr = Ret addr /\
      files !! (straddr, ref, message_max msg, s) = Some buf /\
      sms_deserialize buf false = Ret m.

Lemma backed_up_store files files' A node m ts addr ref max seq :
  backed_up files A -> wf_sender addr -> wf_received m ->
  node_addr node = addr -> node_ref node = ref -> node_max node = max ->
  sms_assembly_store true files node m seq = Ret files' ->
  ignored (A !! key_of addr ref) max seq = false ->
  backed_up files'
    (<[key_of addr ref :=
         {| message_ts := ts; message_max := max;
            message_frags := <[seq:=m]> (from_option message_frags ∅ (A !! key_of addr ref)) |}]> A).
Proof.
  intros Hb Ha Hm Hna Hnr Hnm Hst Hig. destruct (wf_sender_hex addr Ha) as (straddr & Hs & Hx).
  destruct (serialize_back m Hm) as (_ & buf & Hser & Hdes).
  unfold sms_assembly_store in Hst. cbn [negb] in Hst.
  rewrite Hna, Hs, Hser, Hnr, Hnm in Hst. injection Hst as <-.
  intros addr' ref' msg s m' Hk Hf.
  destruct (decide (key_of addr' ref' = key_of addr ref)) as [He|Hne].
  - destruct (key_inj _ _ _ _ He) as [-> ->]. rewrite lookup_insert_eq in Hk. injection Hk as <-.
    cbn [message_frags message_max] in *. destruct (decide (s = seq)) as [->|Hse].
    + rewrite lookup_insert_eq in Hf. injection Hf as <-. exists straddr, buf.
      by rewrite lookup_insert_eq.
    + rewrite lookup_insert_ne in Hf by done.
      destruct (A !! key_of addr ref) as [msg|] eqn:HA; cbn [from_option] in Hf; [|by rewrite lookup_empty in Hf].
      cbn [ignored] in Hig. apply orb_false_iff in Hig as [Hmx _].
      apply negb_false_iff, Z.eqb_eq in Hmx as ->.
      destruct (Hb addr ref msg s m' HA Hf) as (str & buf' & Hs' & Hx' & Hfile & Hdes').
      exists str, buf'. split_and!; try done. rewrite lookup_insert_ne; [done|congruence].
  - rewrite lookup_insert_ne in Hk by done.
    destruct (Hb addr' ref' msg s m' Hk Hf) as (str & buf' & Hs' & Hx' & Hfile & Hdes').
    exists str, buf'. split_and!; try done. rewrite lookup_insert_ne; [done|].
    intros [= <- <- _ _]. rewrite Hx in Hx'. by injection Hx' as <-.
Qed.

Lemma backed_up_free files files' A node addr ref :
  backed_up files A -> wf_sender addr -> zlen (node_bitmap node) = 8 -> is_byte (node_max node) ->
  node_addr node = addr -> node_ref node = ref ->
  sms_assembly_backup_free true files node = Ret files' ->
  backed_up files' (delete (key_of addr ref) A).
Proof.
  intros Hb Ha Hl Hm Hna Hnr Hfree. destruct (wf_sender_hex addr Ha) as (straddr & Hs & Hx).
  unfold sms_assembly_backup_free in Hfree. cbn [negb] in Hfree. rewrite Hna, Hs in Hfree.
  unfold is_byte in Hm.
  destruct (unlink_fragments_ok (Z.to_nat (node_max node)) straddr node files) as (f & Hu & Hf);
    [done|lia|]. rewrite Hu in Hfree. injection Hfree as ->.
  intros addr' ref' msg s m Hk Hfr.
  destruct (decide (key_of addr' ref' = key_of addr ref)) as [He|Hne];
    [by rewrite He, lookup_delete_eq in Hk|]. rewrite lookup_delete_ne in Hk by done.
  destruct (Hb addr' ref' msg s m Hk Hfr) as (str & buf' & Hs' & Hx' & Hfile & Hdes').
  exists str, buf'. split_and!; try done. rewrite Hf.
  destruct (unlinked _ _ _ _) eqn:Hun; [|done]. unfold unlinked in Hun. bool_to_prop.
  rewrite bool_decide_eq_true in *. subst str. congruence.
Qed.

(** C21: As long as it has a directory to write in, the assembly keeps every
    fragment of an incomplete message in a file whose name gives the sender, the
    reference, the total and the number, and whose contents decode to the
    fragment. *)
Theorem fragments_backed_up a A m ts addr ref max seq :
  refines (assembly_list a) A -> assembly_imsi a = true -> backed_up (assembly_files a) A ->
  is_byte seq -> is_byte max -> wf_sender addr -> wf_received m ->
  exists a' r,
    sms_assembly_add_fragment a m ts addr ref max seq = Ret (a', r) /\
    refines (assembly_list a') (fst (add_spec A m ts addr ref max seq)) /\
    backed_up (assembly_files a') (fst (add_spec A m ts addr ref max seq)).
Proof.
  intros Hr Hi Hb Hs Hmax Ha Hm.
  assert (Hst : assembly_imsi a = true -> storable addr m).
  { intros _. split; [apply Ha|by apply serialize_back]. }
  destruct (add_ok a A m ts addr ref max seq true Hr Hs Hmax Hst) as (a' & Hadd & _ & Hr' & Hf).
  exists a'. eexists. split_and!; [exact Hadd|done|].
  unfold add_spec, add_message in Hf |- *. cbn [fst snd] in *.
  destruct (ignored (A !! key_of addr ref) max seq) eqn:Hig; cbn [fst snd] in *.
  { subst a'. by rewrite partial_alter_self. }
  destruct Hf as (node & Hna & Hnr & Hnm & Hl & Hf). rewrite Hi in Hf.
  destruct (_ <? _); cbn [fst snd] in *.
  - by apply (backed_up_store (assembly_files a) _ A node).
  - apply (backed_up_free (assembly_files a) _ A node); try done. by rewrite Hnm.
Qed.
End Backup.

(** * Concrete runs *)

Definition sample_addr : sms_address :=
  {| number_type := 1; numbering_plan := 1; address := [52; 57; 49; 50] |}.

Definition sample_deliver (i : Z) : sms :=
  {| sc_addr := no_address;
     tpdu := SMS_TYPE_DELIVER
       {| deliver_mms := true; deliver_sri := false; deliver_udhi := true; deliver_rp := false;
          deliver_oaddr := sample_addr; deliver_pid := 0; deliver_dcs := 4;
          deliver_scts := {| year := 9; month := 1; day := 2; hour := 3; minute := 4; second := 5;
                             has_timezone := true; timezone := -4 |};
          deliver_udl := 8; deliver_ud := [5; 0; 3; 42; 3; i; 65; 66] ++ zeros 132 |} |}.

Definition empty_assembly (imsi : bool) : sms_assembly :=
  {| assembly_imsi := imsi; assembly_list := []; assembly_files := ∅ |}.

Lemma refines_nil : refines [] ∅.
Proof.
  split; [constructor|by intros node Hin%elem_of_nil|].
  intros k [msg Hk]. by rewrite lookup_empty in Hk.
Qed.

Lemma sample_wf_address sc : wf_address sc sample_addr.
Proof.
  split_and!; try done. cbn. split; [by repeat constructor|by vm_compute].
Qed.

Lemma sample_received i : is_byte i -> wf_received (sample_deliver i).
Proof.
  intros Hi. split; [|done]. split.
  - refine (conj (sample_wf_address false) (conj _ (conj _ (conj _ (conj _ _))))); try by split.
    change (wf_ud 8 140 ([5; 0; 3; 42; 3; i; 65; 66] ++ zeros 132)).
    split; [lia|by vm_compute| |done]. cbn. by repeat (apply Forall_cons; split; [done|]).
  - done.
Qed.

Lemma sample_sender : wf_sender sample_addr.
Proof. split; [apply sample_wf_address|by vm_compute]. Qed.

Lemma add_fragment_refines_witness :
  exists a', sms_assembly_add_fragment (empty_assembly false) (sample_deliver 2) 7 sample_addr 42 3 2
             = Ret (a', None) /\
    refines (assembly_list a')
      (fst (add_spec ∅ (sample_deliver 2) 7 sample_addr 42 3 2)).
Proof.
  destruct (add_fragment_refines (empty_assembly false) ∅ (sample_deliver 2) 7 sample_addr 42 3 2)
    as (a' & Ha & Hr); [exact refines_nil|by split|by split|discriminate|].
  exists a'. split; [|exact Hr]. rewrite Ha. f_equal.
Defined.

Definition sample_fragment_of (i : Z) (ref : Z) : fragment :=
  {| fr_sms := sample_deliver i; fr_ts := 7; fr_addr := sample_addr; fr_ref := ref;
     fr_max := 3; fr_seq := i |}.

Lemma assembly_any_order_witness :
  exists a' rs,
    add_all (empty_assembly false)
      [sample_fragment_of 3 42; sample_fragment_of 1 42; sample_fragment_of 1 43;
       sample_fragment_of 2 42] = Ret (a', rs) /\
    replies (key_of sample_addr 42)
      [sample_fragment_of 3 42; sample_fragment_of 1 42; sample_fragment_of 1 43;
       sample_fragment_of 2 42] rs
    = [None; None; Some [sample_deliver 1; sample_deliver 2; sample_deliver 3]].
Proof.
  destruct (assembly_any_order (empty_assembly false) ∅
    [sample_fragment_of 3 42; sample_fragment_of 1 42; sample_fragment_of 1 43;
     sample_fragment_of 2 42] (key_of sample_addr 42)
    [sample_deliver 1; sample_deliver 2; sample_deliver 3])
    as (a' & A' & rs & Ha & Hr & _).
  - exact refines_nil.
  - reflexivity.
  - repeat constructor; discriminate.
  - change (filter _ _) with [sample_fragment_of 3 42; sample_fragment_of 1 42; sample_fragment_of 2 42].
    cbn. etransitivity; [apply perm_swap|]. apply perm_skip, perm_swap.
  - by split.
  - change (filter _ _) with [sample_fragment_of 3 42; sample_fragment_of 1 42; sample_fragment_of 2 42].
    by repeat constructor.
  - exists a', rs. split; [exact Ha|exact Hr].
Defined.

Definition sample_assembly : sms_assembly :=
  match sms_assembly_add_fragment (empty_assembly true) (sample_deliver 2) 7 sample_addr 42 3 2 with
  | Ret (a, _) => a
  | _ => empty_assembly true
  end.

Lemma sample_assembly_ok :
  refines (assembly_list sample_assembly) (fst (add_spec ∅ (sample_deliver 2) 7 sample_addr 42 3 2)).
Proof.
  destruct (add_ok (empty_assembly true) ∅ (sample_deliver 2) 7 sample_addr 42 3 2 true)
    as (a' & Ha & _ & Hr & _); [exact refines_nil|by split|by split| |].
  - intros _. split; [apply sample_sender|]. apply serialize_back, sample_received. by split.
  - unfold sample_assembly, sms_assembly_add_fragment. by rewrite Ha.
Qed.

Lemma expire_refines_witness :
  exists a', sms_assembly_expire sample_assembly 7 = Ret a' /\
    refines (assembly_list a') (filter (fun p : message_key * message => 7 < message_ts p.2)
      (fst (add_spec ∅ (sample_deliver 2) 7 sample_addr 42 3 2))).
Proof.
  apply (expire_refines sample_assembly _ 7 sample_assembly_ok).
  intros node Hin _. apply (proj1 (Forall_forall (fun node => bool_decide
    (sms_address_to_hex_string (node_addr node) = Ub) = false) (assembly_list sample_assembly))) in Hin.
  - by apply bool_decide_eq_false in Hin.
  - repeat constructor.
Defined.

Lemma hex_address_roundtrip_witness :
  sms_address_to_hex_string
    {| number_type := 1; numbering_plan := 1; address := replicate 19 49 |} = Ub.
Proof.
  destruct (hex_address_roundtrip {| number_type := 1; numbering_plan := 1; address := replicate 19 49 |})
    as (bs & He & Hl & Hh).
  - split_and!; try done. cbn. split; [by repeat constructor|by vm_compute].
  - assert (Hput : put 12 [] bs = Ret ([19; 0x91] ++ replicate 9 0x11 ++ [0xf1])) by by rewrite <- He.
    unfold put in Hput. destruct (_ <=? 12); [|discriminate]. injection Hput as ->. exact Hh.
Defined.

Lemma backup_free_keeps_last_witness :
  let node := {| node_addr := sample_addr; node_ts := 7; node_fragments := [sample_deliver 1; sample_deliver 2];
                 node_ref := 42; node_max := 2; node_num := 2; node_bitmap := 6 :: replicate 7 0 |} in
  let straddr := hex_text [4; 0x91; 0x94; 0x21] in
  let a := {| assembly_imsi := true; assembly_list := [];
              assembly_files := {[(straddr, 42, 2, 2) := [0; 1; 2]]} |} in
  exists files, sms_assembly_backup_free true (assembly_files a) node = Ret files /\
    files !! (straddr, 42, 2, 2) = Some [0; 1; 2].
Proof.
  cbv zeta.
  destruct (backup_free_keeps_last
    {| assembly_imsi := true; assembly_list := [];
       assembly_files := {[(hex_text [4; 0x91; 0x94; 0x21], 42, 2, 2) := [0; 1; 2]]} |}
    {| node_addr := sample_addr; node_ts := 7; node_fragments := [sample_deliver 1; sample_deliver 2];
       node_ref := 42; node_max := 2; node_num := 2; node_bitmap := 6 :: replicate 7 0 |}
    (hex_text [4; 0x91; 0x94; 0x21])) as (files & Hf & _ & Hl).
  - reflexivity.
  - by split.
  - vm_compute. reflexivity.
  - exists files. split; [exact Hf|]. cbv zeta in Hl. cbn [node_ref node_max assembly_files] in Hl.
    rewrite Hl. apply lookup_singleton_eq.
Defined.

Lemma fragments_backed_up_witness :
  exists a' r,
    sms_assembly_add_fragment (empty_assembly true) (sample_deliver 2) 7 sample_addr 42 3 2 = Ret (a', r) /\
    backed_up (assembly_files a') (fst (add_spec ∅ (sample_deliver 2) 7 sample_addr 42 3 2)).
Proof.
  destruct (fragments_backed_up (empty_assembly true) ∅ (sample_deliver 2) 7 sample_addr 42 3 2)
    as (a' & r & Ha & _ & Hb).
  - exact refines_nil.
  - reflexivity.
  - intros addr ref msg s m Hk _. by rewrite lookup_empty in Hk.
  - by split.
  - by split.
  - exact sample_sender.
  - apply sample_received. by split.
  - exists a', r. split; [exact Ha|exact Hb].
Defined.
