(* ===== verification/SimTlv.v ===== *)
(** Tag-length-value objects, of src/src/simutil.c: the iterators over simple,
    comprehension and BER objects that the SIM files, the SIM toolkit and the
    responses of the card are read with, and the builders that SIM toolkit
    messages are written with.  A pointer into an array is an offset; the
    arithmetic on pointers does not overflow (64 bit). *)
From S2P Require Import Prelude SmsField.

(** * Simple objects *)

(** [simple_data] is an offset into [simple_pdu], [None] for NULL. *)
Record simple_tlv_iter := {
  simple_pdu : list Z; simple_max : Z; simple_pos : Z;
  simple_tag : Z; simple_len : Z; simple_data : option Z
}.

Definition simple_tlv_iter_init (pdu : list Z) (len : Z) : simple_tlv_iter :=
  {| simple_pdu := pdu; simple_max := len; simple_pos := 0; simple_tag := 0;
     simple_len := 0; simple_data := None |}.

(** [Err] for FALSE, when the iterator does not change. *)
Definition simple_tlv_iter_next (it : simple_tlv_iter) : res simple_tlv_iter :=
  let pdu := simple_pos it in
  let end_ := simple_max it in
  if pdu =? end_ then Err
  else
    tag ← rd (simple_pdu it) pdu;
    let pdu := pdu + 1 in
    if pdu =? end_ then Err
    else
      len ← rd (simple_pdu it) pdu;
      let pdu := pdu + 1 in
      '(len, pdu) ←
        (if len =? 0xFF then
           if end_ <? pdu + 2 then Err
           else
             h ← rd (simple_pdu it) pdu;
             l ← rd (simple_pdu it) (pdu + 1);
             Ret (Z.lor (Z.shiftl h 8) l, pdu + 2)
         else Ret (len, pdu));
      if end_ <? pdu + len then Err
      else Ret {| simple_pdu := simple_pdu it; simple_max := end_; simple_pos := pdu + len;
                  simple_tag := tag; simple_len := len; simple_data := Some pdu |}.

(** * Comprehension objects *)

Record comprehension_tlv_iter := {
  ctlv_pdu : list Z; ctlv_max : Z; ctlv_pos : Z;
  ctlv_tag : Z; ctlv_cr : bool; ctlv_len : Z; ctlv_data : option Z
}.

(** The length field of the structure [it] is left as it was. *)
Definition comprehension_tlv_iter_init (it : comprehension_tlv_iter) (pdu : list Z) (len : Z)
    : comprehension_tlv_iter :=
  {| ctlv_pdu := pdu; ctlv_max := len; ctlv_pos := 0; ctlv_tag := 0; ctlv_cr := false;
     ctlv_len := ctlv_len it; ctlv_data := None |}.

(** [for (len = 0, i = 0; i < extended_bytes; i++) len = (len << 8) | *pdu++;]
    in the width of [len]. *)
Fixpoint extended_len (width : Z -> Z) (extended_bytes : nat) (pdu : list Z) (pos len : Z) : res Z :=
  match extended_bytes with
  | O => Ret len
  | S n => c ← rd pdu pos; extended_len width n pdu (pos + 1) (width (Z.lor (Z.shiftl len 8) c))
  end.

(** The length field at [pos], and where the value starts; [longest] extended
    bytes at most. *)
Definition tlv_length (width : Z -> Z) (longest : Z) (pdu : list Z) (end_ pos : Z) : res (Z * Z) :=
  len ← rd pdu pos;
  let pos := pos + 1 in
  if 0x80 <=? len then
    let extended_bytes := len - 0x80 in
    if (extended_bytes =? 0) || (longest <? extended_bytes) then Err
    else if end_ <? pos + extended_bytes then Err
    else
      c ← rd pdu pos;
      if c =? 0 then Err
      else
        len ← extended_len width (Z.to_nat extended_bytes) pdu pos 0;
        Ret (len, pos + extended_bytes)
  else Ret (len, pos).

(** The tag at [pos], its comprehension flag, and where the length starts. *)
Definition comprehension_tag (pdu : list Z) (end_ pos : Z) : res (Z * bool * Z) :=
  c ← rd pdu pos;
  if (c =? 0x00) || (c =? 0xFF) || (c =? 0x80) then Err
  else
    let cr := bit_field c 7 1 in
    let tag := bit_field c 0 7 in
    let pos := pos + 1 in
    if tag =? 0x7F then
      if end_ <? pos + 2 then Err
      else
        h ← rd pdu pos;
        l ← rd pdu (pos + 1);
        let cr := bit_field h 7 1 in
        let tag := Z.lor (Z.shiftl (Z.land h 0x7f) 8) l in
        if (tag <? 0x0001) || (0x7fff <? tag) then Err
        else Ret (tag, negb (cr =? 0), pos + 2)
    else Ret (tag, negb (cr =? 0), pos).

(** The local [len] is an unsigned short. *)
Definition comprehension_tlv_iter_next (it : comprehension_tlv_iter) : res comprehension_tlv_iter :=
  let end_ := ctlv_max it in
  if ctlv_pos it =? end_ then Err
  else
    '(tag, cr, pdu) ← comprehension_tag (ctlv_pdu it) end_ (ctlv_pos it);
    if pdu =? end_ then Err
    else
      '(len, pdu) ← tlv_length u16 3 (ctlv_pdu it) end_ pdu;
      if end_ <? pdu + len then Err
      else Ret {| ctlv_pdu := ctlv_pdu it; ctlv_max := end_; ctlv_pos := pdu + len;
                  ctlv_tag := tag; ctlv_cr := cr; ctlv_len := len; ctlv_data := Some pdu |}.

Definition comprehension_tlv_iter_get_tag (it : comprehension_tlv_iter) : Z := ctlv_tag it.
Definition comprehension_tlv_get_cr (it : comprehension_tlv_iter) : bool := ctlv_cr it.
Definition comprehension_tlv_iter_get_length (it : comprehension_tlv_iter) : Z := ctlv_len it.

(** The octets from the returned pointer on; [Ub] for NULL. *)
Definition comprehension_tlv_iter_get_data (it : comprehension_tlv_iter) : res (list Z) :=
  match ctlv_data it with Some d => Ret (drop (Z.to_nat d) (ctlv_pdu it)) | None => Ub end.

(** * BER objects *)

Record ber_tlv_iter := {
  ber_pdu : list Z; ber_max : Z; ber_pos : Z;
  ber_tag : Z; ber_class : Z; ber_encoding : Z; ber_len : Z; ber_data : Z
}.

(** The fields of the object are left as they were. *)
Definition ber_tlv_iter_init (it : ber_tlv_iter) (pdu : list Z) (len : Z) : ber_tlv_iter :=
  {| ber_pdu := pdu; ber_max := len; ber_pos := 0; ber_tag := ber_tag it;
     ber_class := ber_class it; ber_encoding := ber_encoding it; ber_len := ber_len it;
     ber_data := ber_data it |}.

Definition ber_tlv_iter_get_tag (it : ber_tlv_iter) : Z := ber_tag it.
Definition ber_tlv_iter_get_class (it : ber_tlv_iter) : Z := ber_class it.
Definition ber_tlv_iter_get_encoding (it : ber_tlv_iter) : Z := ber_encoding it.
Definition ber_tlv_iter_get_length (it : ber_tlv_iter) : Z := ber_len it.

(** A conversion to unsigned char. *)
Definition ber_tlv_iter_get_short_tag (it : ber_tlv_iter) : Z :=
  if 30 <? ber_tag it then 0
  else u8 (Z.lor (Z.lor (ber_tag it) (Z.shiftl (ber_encoding it) 5)) (Z.shiftl (ber_class it) 6)).

Definition ber_tlv_iter_get_data (it : ber_tlv_iter) : list Z := drop (Z.to_nat (ber_data it)) (ber_pdu it).

(** [while ((pdu < end) && ( *pdu == 0x00 || *pdu == 0xff)) pdu++;] *)
Fixpoint skip_stuffing (fuel : nat) (pdu : list Z) (end_ pos : Z) : res Z :=
  match fuel with
  | O => Ub
  | S fuel =>
    if pos <? end_ then
      c ← rd pdu pos;
      if (c =? 0x00) || (c =? 0xff) then skip_stuffing fuel pdu end_ (pos + 1) else Ret pos
    else Ret pos
  end.

(** [while ((pdu < end) && ( *pdu & 0x80))]: the tag and the position. *)
Fixpoint extended_tag (fuel : nat) (pdu : list Z) (end_ pos tag : Z) : res (Z * Z) :=
  match fuel with
  | O => Ub
  | S fuel =>
    if pos <? end_ then
      c ← rd pdu pos;
      if has c 0x80
      then extended_tag fuel pdu end_ (pos + 1) (u32 (Z.lor (Z.shiftl tag 7) (Z.land c 0x7f)))
      else Ret (tag, pos)
    else Ret (tag, pos)
  end.

(** The tag number behind its first octet [c]. *)
Definition ber_tag_number (pdu : list Z) (end_ pos tag : Z) : res (Z * Z) :=
  if tag =? 0x1f then
    if pos =? end_ then Err
    else
      c ← rd pdu pos;
      if Z.land c 0x7f =? 0 then Err
      else
        '(tag, pos) ← extended_tag (S (Z.to_nat (end_ - pos))) pdu end_ pos 0;
        if pos =? end_ then Err
        else
          c ← rd pdu pos;
          Ret (u32 (Z.lor (Z.shiftl tag 7) c), pos + 1)
  else Ret (tag, pos).

Definition ber_tlv_iter_next (it : ber_tlv_iter) : res ber_tlv_iter :=
  let end_ := ber_max it in
  pdu ← skip_stuffing (S (Z.to_nat (end_ - ber_pos it))) (ber_pdu it) end_ (ber_pos it);
  if pdu =? end_ then Err
  else
    c ← rd (ber_pdu it) pdu;
    let class := bit_field c 6 2 in
    let encoding := bit_field c 5 1 in
    '(tag, pdu) ← ber_tag_number (ber_pdu it) end_ (pdu + 1) (bit_field c 0 5);
    if pdu =? end_ then Err
    else
      '(len, pdu) ← tlv_length u32 4 (ber_pdu it) end_ pdu;
      if end_ <? pdu + len then Err
      else Ret {| ber_pdu := ber_pdu it; ber_max := end_; ber_pos := pdu + len; ber_tag := tag;
                  ber_class := class; ber_encoding := encoding; ber_len := len; ber_data := pdu |}.

Definition ber_tlv_iter_recurse (it recurse : ber_tlv_iter) : ber_tlv_iter :=
  ber_tlv_iter_init recurse (ber_tlv_iter_get_data it) (ber_len it).

Definition ber_tlv_iter_recurse_simple (it : ber_tlv_iter) : simple_tlv_iter :=
  simple_tlv_iter_init (ber_tlv_iter_get_data it) (ber_len it).

Definition ber_tlv_iter_recurse_comprehension (it : ber_tlv_iter) (recurse : comprehension_tlv_iter)
    : comprehension_tlv_iter :=
  comprehension_tlv_iter_init recurse (ber_tlv_iter_get_data it) (ber_len it).

(** The loop of [ber_tlv_find_by_tag]: the offset and the length. *)
Fixpoint find_by_tag_loop (fuel : nat) (it : ber_tlv_iter) (in_tag : Z) : res (Z * Z) :=
  match fuel with
  | O => Ub
  | S fuel =>
    it ← ber_tlv_iter_next it;
    if ber_tlv_iter_get_short_tag it =? in_tag then Ret (ber_data it, ber_len it)
    else find_by_tag_loop fuel it in_tag
  end.

Definition no_object : ber_tlv_iter :=
  {| ber_pdu := []; ber_max := 0; ber_pos := 0; ber_tag := 0; ber_class := 0;
     ber_encoding := 0; ber_len := 0; ber_data := 0 |}.

(** [Err] for NULL. *)
Definition ber_tlv_find_by_tag (pdu : list Z) (in_tag in_len : Z) : res (Z * Z) :=
  find_by_tag_loop (S (Z.to_nat in_len)) (ber_tlv_iter_init no_object pdu in_len) in_tag.

(** * The BER builder

    The builders of one message write to one buffer; [builder_pdu] is the offset
    of the array of a builder in it.  A builder is kept with its ancestors, the
    closest first. *)

Record ber_tlv_builder := {
  builder_max : Z; builder_pos : Z; builder_pdu : Z;
  builder_tag : Z; builder_class : Z; builder_encoding : Z; builder_len : Z
}.

Definition MAX_BER_TLV_HEADER : Z := 8.

(** The class and the encoding of the structure [b] are left as they were. *)
Definition ber_tlv_builder_init (b : ber_tlv_builder) (pdu size : Z) : res ber_tlv_builder :=
  if size <? MAX_BER_TLV_HEADER then Err
  else Ret {| builder_max := size; builder_pos := 0; builder_pdu := pdu; builder_tag := 0xff;
              builder_class := builder_class b; builder_encoding := builder_encoding b;
              builder_len := 0 |}.

Definition BTLV_LEN_FIELD_SIZE_NEEDED (a : Z) : Z :=
  if a <=? 0x7f then 1 else if a <=? 0xff then 2 else if a <=? 0xffff then 3
  else if a <=? 0xffffff then 4 else 5.

Definition BTLV_TAG_FIELD_SIZE_NEEDED (a : Z) : Z :=
  if a <=? 0x1e then 1 else if a <=? 0x7f then 2 else 3.

(** [for (i = n - 1; i >= 0; i--)]: the low [n] octets of [len]. *)
Fixpoint len_octets (n : nat) (len : Z) : list Z :=
  match n with
  | O => []
  | S n => Z.land (Z.shiftr len (Z.of_nat n * 8)) 0xff :: len_octets n len
  end.

(** The length field of [len_size] octets. *)
Definition write_length (len_size len : Z) : list Z :=
  if 1 <? len_size then (0x80 + len_size - 1) :: len_octets (Z.to_nat (len_size - 1)) len
  else [u8 len].

(** The octets written at [pdu + pos], in order. *)
Definition ber_header (b : ber_tlv_builder) : list Z :=
  let tag := builder_tag b in
  let tag_size := BTLV_TAG_FIELD_SIZE_NEEDED tag in
  let len_size := BTLV_LEN_FIELD_SIZE_NEEDED (builder_len b) in
  let offset := MAX_BER_TLV_HEADER - tag_size - len_size in
  replicate (Z.to_nat offset) 0xff ++
  [u8 (Z.lor (Z.lor (Z.shiftl (builder_class b) 6) (Z.shiftl (builder_encoding b) 5))
         (if tag_size =? 1 then tag else 0x1f))] ++
  (if tag_size =? 3 then [u8 (Z.lor 0x80 (Z.shiftr tag 7))] else []) ++
  (if 2 <? tag_size then [Z.land tag 0x7f] else []) ++
  write_length len_size (builder_len b).

Definition ber_tlv_builder_write_header (buf : list Z) (b : ber_tlv_builder) : res (list Z) :=
  blit buf (builder_pdu b + builder_pos b) (ber_header b).

Definition builder_set_pos_len (b : ber_tlv_builder) (pos len : Z) : ber_tlv_builder :=
  {| builder_max := builder_max b; builder_pos := pos; builder_pdu := builder_pdu b;
     builder_tag := builder_tag b; builder_class := builder_class b;
     builder_encoding := builder_encoding b; builder_len := len |}.

(** The result for the parent is not tested. *)
Fixpoint ber_tlv_builder_set_length (bs : list ber_tlv_builder) (new_len : Z)
    : res (list ber_tlv_builder) :=
  match bs with
  | [] => Ub
  | b :: parents =>
    let new_pos := u32 (builder_pos b + MAX_BER_TLV_HEADER + new_len) in
    if builder_max b <? new_pos then Err
    else
      parents ←
        match parents with
        | [] => Ret []
        | _ => match ber_tlv_builder_set_length parents new_pos with Err => Ret parents | r => r end
        end;
      Ret (builder_set_pos_len b (builder_pos b) new_len :: parents)
  end.

(** On FALSE the message is given up, and its builders with it. *)
Definition ber_tlv_builder_next (buf : list Z) (bs : list ber_tlv_builder)
    (class encoding new_tag : Z) : res (list Z * list ber_tlv_builder) :=
  match bs with
  | [] => Ub
  | b :: parents =>
    '(buf, b) ←
      (if negb (builder_tag b =? 0xff) then
         buf ← ber_tlv_builder_write_header buf b;
         Ret (buf, builder_set_pos_len b
                     (u32 (builder_pos b + MAX_BER_TLV_HEADER + builder_len b)) (builder_len b))
       else Ret (buf, b));
    bs ← ber_tlv_builder_set_length (b :: parents) 0;
    match bs with
    | [] => Ub
    | b :: parents =>
      Ret (buf, {| builder_max := builder_max b; builder_pos := builder_pos b;
                   builder_pdu := builder_pdu b; builder_tag := new_tag;
                   builder_class := class; builder_encoding := encoding;
                   builder_len := builder_len b |} :: parents)
    end
  end.

(** The offset of the value. *)
Definition ber_tlv_builder_get_data (b : ber_tlv_builder) : Z :=
  builder_pdu b + builder_pos b + MAX_BER_TLV_HEADER.

(** [recurse] becomes the builder of what is inside the object. *)
Definition ber_tlv_builder_recurse (bs : list ber_tlv_builder) (recurse : ber_tlv_builder)
    : res (list ber_tlv_builder) :=
  match bs with
  | [] => Ub
  | b :: _ =>
    let data := ber_tlv_builder_get_data b in
    b' ← ber_tlv_builder_init recurse data (u32 (builder_pdu b + builder_max b - data));
    Ret (b' :: bs)
  end.

(** [while ( *pdu == 0xff) pdu++, len--;] *)
Fixpoint optimize_loop (fuel : nat) (buf : list Z) (pdu len : Z) : res (Z * Z) :=
  match fuel with
  | O => Ub
  | S fuel =>
    c ← rd buf pdu;
    if c =? 0xff then optimize_loop fuel buf (pdu + 1) (u32 (len - 1)) else Ret (pdu, len)
  end.

(** The buffer, the offset of the message and its length. *)
Definition ber_tlv_builder_optimize (buf : list Z) (b : ber_tlv_builder) : res (list Z * Z * Z) :=
  buf ← ber_tlv_builder_write_header buf b;
  let len := u32 (builder_pos b + MAX_BER_TLV_HEADER + builder_len b) in
  '(pdu, len) ← optimize_loop (S (length buf)) buf (builder_pdu b) len;
  Ret (buf, pdu, len).

(** * The comprehension builder *)

Record comprehension_tlv_builder := {
  cbuilder_max : Z; cbuilder_pos : Z; cbuilder_pdu : Z; cbuilder_len : Z;
  cbuilder_parent : list ber_tlv_builder
}.

Definition comprehension_tlv_builder_init (buf : list Z) (pdu size : Z)
    (parent : list ber_tlv_builder) : res (list Z * comprehension_tlv_builder) :=
  if size <? 2 then Err
  else
    buf ← wr buf pdu 0;
    Ret (buf, {| cbuilder_max := size; cbuilder_pos := 0; cbuilder_pdu := pdu;
                 cbuilder_len := 0; cbuilder_parent := parent |}).

Definition ber_tlv_builder_recurse_comprehension (buf : list Z) (bs : list ber_tlv_builder)
    : res (list Z * comprehension_tlv_builder) :=
  match bs with
  | [] => Ub
  | b :: _ =>
    let data := ber_tlv_builder_get_data b in
    comprehension_tlv_builder_init buf data (u32 (builder_pdu b + builder_max b - data)) bs
  end.

Definition CTLV_TAG_FIELD_SIZE (a : Z) : Z := if bit_field a 0 7 =? 0x7f then 3 else 1.
Definition CTLV_LEN_FIELD_SIZE (a : Z) : Z := if 0x80 <=? a then a - 0x7f else 1.

(** The octets of the tag. *)
Definition ctlv_tag_octets (cr : bool) (tag : Z) : list Z :=
  if 0x7f <=? tag then
    [0x7f; u8 (Z.lor (if cr then 0x80 else 0) (Z.shiftr tag 8)); Z.land tag 0xff]
  else [u8 (Z.lor (if cr then 0x80 else 0x00) tag)].

Definition comprehension_tlv_builder_next (buf : list Z) (b : comprehension_tlv_builder)
    (cr : bool) (tag : Z) : res (list Z * comprehension_tlv_builder) :=
  let tlv := cbuilder_pdu b + cbuilder_pos b in
  t ← rd buf tlv;
  prev_size ←
    (if negb (t =? 0) then
       let tag_size := CTLV_TAG_FIELD_SIZE t in
       l ← rd buf (tlv + tag_size);
       Ret (u32 (cbuilder_len b + tag_size + CTLV_LEN_FIELD_SIZE l))
     else Ret 0);
  let new_size := (if tag <? 0x7f then 1 else 3) + 1 in
  if cbuilder_max b <? u32 (cbuilder_pos b + prev_size + new_size) then Err
  else
    let pos := cbuilder_pos b + prev_size in
    buf ← blit buf (cbuilder_pdu b + pos) (ctlv_tag_octets cr tag);
    buf ← wr buf (cbuilder_pdu b + pos + new_size - 1) 0;
    Ret (buf, {| cbuilder_max := cbuilder_max b; cbuilder_pos := pos;
                 cbuilder_pdu := cbuilder_pdu b; cbuilder_len := 0;
                 cbuilder_parent := cbuilder_parent b |}).

(** [if (builder->parent) ber_tlv_builder_set_length(builder->parent, n)], whose
    result is not tested. *)
Definition parent_after (parent : list ber_tlv_builder) (n : Z) : res (list ber_tlv_builder) :=
  match parent with
  | [] => Ret []
  | _ => match ber_tlv_builder_set_length parent n with Err => Ret parent | r => r end
  end.

Definition comprehension_tlv_builder_set_length (buf : list Z) (b : comprehension_tlv_builder)
    (new_len : Z) : res (list Z * comprehension_tlv_builder) :=
  let tlv := cbuilder_pdu b + cbuilder_pos b in
  t ← rd buf tlv;
  let tag_size := CTLV_TAG_FIELD_SIZE t in
  l ← rd buf (tlv + tag_size);
  let len_size := CTLV_LEN_FIELD_SIZE l in
  let new_len_size := BTLV_LEN_FIELD_SIZE_NEEDED new_len in
  let new_ctlv_len := u32 (tag_size + new_len_size + new_len) in
  if cbuilder_max b <? u32 (cbuilder_pos b + new_ctlv_len) then Err
  else
    parent ← parent_after (cbuilder_parent b) (u32 (cbuilder_pos b + new_ctlv_len));
    let len := Z.min (cbuilder_len b) new_len in
    buf ←
      (if (0 <? len) && negb (new_len_size =? len_size) then
         value ← slice buf (tlv + tag_size + len_size) len;
         blit buf (tlv + tag_size + new_len_size) value
       else Ret buf);
    buf ← blit buf (tlv + tag_size) (write_length new_len_size new_len);
    Ret (buf, {| cbuilder_max := cbuilder_max b; cbuilder_pos := cbuilder_pos b;
                 cbuilder_pdu := cbuilder_pdu b; cbuilder_len := new_len;
                 cbuilder_parent := parent |}).

(** The offset of the value. *)
Definition comprehension_tlv_builder_get_data (buf : list Z) (b : comprehension_tlv_builder) : res Z :=
  let tlv := cbuilder_pdu b + cbuilder_pos b in
  t ← rd buf tlv;
  let tag_size := CTLV_TAG_FIELD_SIZE t in
  l ← rd buf (tlv + tag_size);
  Ret (tlv + tag_size + CTLV_LEN_FIELD_SIZE l).

(** * Objects as octets *)

(** Digits, the most significant first, behind [acc]. *)
Fixpoint be_val (base acc : Z) (l : list Z) : Z :=
  match l with [] => acc | c :: l => be_val base (acc * base + c) l end.

(** A length in the short form or in the long one; the latter is read in a
    variable of [w] bits. *)
Inductive length_field (w longest : Z) : Z -> list Z -> Prop :=
  | length_short l : 0 <= l < 0x80 -> length_field w longest l [l]
  | length_long d ds : bytes (d :: ds) -> d <> 0 -> zlen (d :: ds) <= longest ->
      length_field w longest (be_val 256 0 (d :: ds) mod 2 ^ w) ((0x80 + zlen (d :: ds)) :: d :: ds).

(** The tag field of a comprehension object. *)
Inductive ctlv_tag_field : Z -> bool -> list Z -> Prop :=
  | ctlv_tag_short tag (cr : bool) : 0 < tag < 0x7f ->
      ctlv_tag_field tag cr [tag + if cr then 0x80 else 0]
  | ctlv_tag_long h l (cr : bool) : 0 <= h < 0x80 -> is_byte l -> 0 < h * 256 + l ->
      ctlv_tag_field (h * 256 + l) cr [0x7f; h + (if cr then 0x80 else 0); l].

Definition septet (d : Z) : Prop := 0 <= d < 128.

(** The tag field of a BER object: class, encoding and number. *)
Inductive ber_tag_field : Z -> Z -> Z -> list Z -> Prop :=
  | ber_tag_short class encoding tag : 0 <= class < 4 -> 0 <= encoding < 2 -> 0 <= tag < 31 ->
      0 < class + encoding + tag ->
      ber_tag_field class encoding tag [class * 64 + encoding * 32 + tag]
  | ber_tag_long class encoding ds d : 0 <= class < 4 -> 0 <= encoding < 2 -> class + encoding < 4 ->
      Forall septet (ds ++ [d]) -> head (ds ++ [d]) <> Some 0 ->
      ber_tag_field class encoding (be_val 128 0 (ds ++ [d]) mod 2 ^ 32)
        ((class * 64 + encoding * 32 + 31) :: map (fun c => c + 128) ds ++ [d]).

(** An object is a tag, a length and a value that is as long as it says. *)
Definition ctlv_object (tag : Z) (cr : bool) (value octets : list Z) : Prop :=
  exists t l, ctlv_tag_field tag cr t /\ length_field 16 3 (zlen value) l /\ octets = t ++ l ++ value.

Definition ber_object (class encoding tag : Z) (value octets : list Z) : Prop :=
  exists t l, ber_tag_field class encoding tag t /\ length_field 32 4 (zlen value) l /\
    octets = t ++ l ++ value.

Definition stuffing (l : list Z) : Prop := Forall (fun c => c = 0x00 \/ c = 0xff) l.

(** ** Numbers *)

Lemma shift_add a c n : 0 <= n -> 0 <= c < 2 ^ n -> Z.lor (Z.shiftl a n) c = a * 2 ^ n + c.
Proof. intros Hn Hc. rewrite Z.lor_comm, lor_shiftl_add by done. lia. Qed.

Lemma be_val_acc base l : forall acc, be_val base acc l = acc * base ^ zlen l + be_val base 0 l.
Proof.
  induction l as [|c l IH]; intros acc; cbn [be_val]; [change (zlen []) with 0; lia|].
  rewrite IH, (IH (0 * base + c)), zlen_cons, Z.pow_add_r by zl. lia.
Qed.

Lemma be_val_mod base m l : m <> 0 -> forall acc, be_val base (acc mod m) l mod m = be_val base acc l mod m.
Proof.
  intros Hm acc. rewrite be_val_acc, (be_val_acc base l acc).
  rewrite <- Z.add_mod_idemp_l, Z.mul_mod_idemp_l, Z.add_mod_idemp_l by done. done.
Qed.

Lemma be_val_range base l : 0 < base -> Forall (fun d => 0 <= d < base) l ->
  0 <= be_val base 0 l < base ^ zlen l.
Proof.
  intros Hb. induction 1 as [|d l Hd Hl IH]; cbn [be_val]; [change (zlen []) with 0; lia|].
  rewrite be_val_acc, zlen_cons, Z.pow_add_r by zl. nia.
Qed.

Lemma at_pos_take {A} (full l : list A) i n : at_pos full i l -> (n <= length l)%nat ->
  at_pos full i (take n l ++ drop n l).
Proof. intros H _. by rewrite take_drop. Qed.

Lemma bytes_at full i l : bytes full -> at_pos full i l -> bytes l.
Proof. intros Hb [_ <-]. by apply Forall_drop. Qed.

Lemma extended_len_ok w pdu ds : 8 <= w -> forall pos rest len,
  at_pos pdu pos (ds ++ rest) -> bytes ds -> 0 <= len < 2 ^ w ->
  extended_len (fun z => z mod 2 ^ w) (length ds) pdu pos len = Ret (be_val 256 len ds mod 2 ^ w).
Proof.
  intros Hw. induction ds as [|c ds IH]; intros pos rest len Hp Hb Hl; cbn [length extended_len be_val].
  - by rewrite Z.mod_small.
  - destruct (at_pos_cons pdu pos _ _ Hp) as [-> Hp']. simp_res.
    apply Forall_cons in Hb as [Hc Hb].
    pose proof (Z.pow_pos_nonneg 2 w ltac:(lia) ltac:(lia)).
    rewrite shift_add by (unfold is_byte in Hc; lia). rewrite (IH _ rest) by (try done; by apply Z.mod_pos_bound).
    by rewrite be_val_mod by lia.
Qed.

(** ** The length field *)

Section Length.
Context (w longest : Z) (pdu : list Z) (end_ : Z).
Hypothesis Hw : 8 <= w.
Hypothesis Hlong : 0 < longest < 0x7f.
Hypothesis Hend : end_ <= zlen pdu.
Hypothesis Hpdu : bytes pdu.

Let width := fun z => z mod 2 ^ w.

Lemma tlv_length_complete pos len field rest :
  at_pos pdu pos (field ++ rest) -> length_field w longest len field -> pos + zlen field <= end_ ->
  tlv_length width longest pdu end_ pos = Ret (len, pos + zlen field).
Proof.
  intros Hp Hf He. unfold tlv_length. destruct Hf as [l Hl|d ds Hb Hd Hn];
    cbn [app] in Hp; destruct (at_pos_cons pdu pos _ _ Hp) as [-> Hp1]; simp_res.
  - rewrite (proj2 (Z.leb_gt _ _)) by lia. f_equal.
  - pose proof (zlen_nonneg ds). rewrite !zlen_cons in *. rewrite (proj2 (Z.leb_le _ _)) by lia.
    replace (0x80 + (1 + zlen ds) - 0x80) with (1 + zlen ds) by lia.
    rewrite (proj2 (Z.eqb_neq _ 0)), (proj2 (Z.ltb_ge longest _)) by lia. cbn [orb].
    rewrite (proj2 (Z.ltb_ge end_ _)) by lia.
    change (d :: ds ++ rest) with ((d :: ds) ++ rest) in Hp1.
    destruct (at_pos_cons pdu (pos + 1) d (ds ++ rest) Hp1) as [-> _]. simp_res.
    rewrite (proj2 (Z.eqb_neq d 0)) by done.
    replace (Z.to_nat (1 + zlen ds)) with (length (d :: ds)) by (cbn [length]; unfold zlen; lia).
    pose proof (Z.pow_pos_nonneg 2 w ltac:(lia) ltac:(lia)).
    unfold width. rewrite (extended_len_ok w pdu (d :: ds) Hw (pos + 1) rest 0 Hp1 Hb) by lia. simp_res.
    f_equal. f_equal. lia.
Qed.

(** What is read when the function does not return FALSE. *)
Lemma tlv_length_sound pos l : at_pos pdu pos l -> pos < end_ ->
  tlv_length width longest pdu end_ pos = Err \/
  exists len field rest, l = field ++ rest /\ length_field w longest len field /\
    pos + zlen field <= end_ /\
    tlv_length width longest pdu end_ pos = Ret (len, pos + zlen field).
Proof.
  intros Hp He. pose proof (at_pos_len _ _ _ Hp) as Hlen. pose proof (bytes_at _ _ _ Hpdu Hp) as Hb.
  destruct l as [|c l]; [change (zlen []) with 0 in Hlen; lia|].
  apply Forall_cons in Hb as [Hc Hb]. destruct (at_pos_cons pdu pos _ _ Hp) as [Hrd Hp1].
  destruct (Z.leb_spec 0x80 c) as [Hge|Hlt].
  2: { right. exists c, [c], l. assert (length_field w longest c [c]) as Hf.
       { constructor. unfold is_byte in Hc. lia. }
       split_and!; [done|done|change (zlen [c]) with 1; lia|].
       apply (tlv_length_complete pos c [c] l Hp Hf). change (zlen [c]) with 1. lia. }
  set (n := c - 0x80) in *. unfold tlv_length at 1. rewrite Hrd. simp_res.
  rewrite (proj2 (Z.leb_le 0x80 c)) by done. fold n.
  destruct (n =? 0) eqn:Hn0; [by left|]. cbn [orb]. destruct (longest <? n) eqn:Hnl; [by left|].
  destruct (end_ <? pos + 1 + n) eqn:Hne; [by left|]. bool_to_prop. unfold is_byte in Hc.
  destruct l as [|d l]; [rewrite zlen_cons in Hlen; change (zlen []) with 0 in Hlen; lia|].
  destruct (at_pos_cons pdu (pos + 1) _ _ Hp1) as [Hrd1 Hp2]. rewrite Hrd1. simp_res.
  destruct (Z.eqb_spec d 0) as [|Hd]; [by left|]. right. rewrite !zlen_cons in Hlen.
  set (ds := take (Z.to_nat (n - 1)) l).
  assert (Hds : zlen (d :: ds) = n).
  { rewrite zlen_cons. unfold ds. rewrite zlen_take. lia. }
  exists (be_val 256 0 (d :: ds) mod 2 ^ w), (c :: d :: ds), (drop (Z.to_nat (n - 1)) l).
  assert (Hl : d :: l = (d :: ds) ++ drop (Z.to_nat (n - 1)) l).
  { cbn [app]. f_equal. symmetry. apply take_drop. }
  assert (Hf : length_field w longest (be_val 256 0 (d :: ds) mod 2 ^ w) (c :: d :: ds)).
  { replace c with (0x80 + zlen (d :: ds)) by lia. constructor; [|done|lia].
    apply Forall_cons in Hb as [? Hb]. apply Forall_cons. split; [done|]. by apply Forall_take. }
  split_and!; [by rewrite Hl|done|rewrite zlen_cons; lia|].
  rewrite <- (tlv_length_complete pos _ (c :: d :: ds) (drop (Z.to_nat (n - 1)) l)); [|..].
  - unfold tlv_length. rewrite Hrd. simp_res. rewrite (proj2 (Z.leb_le 0x80 c)) by done. fold n.
    rewrite (proj2 (Z.eqb_neq n 0)), (proj2 (Z.ltb_ge longest n)), (proj2 (Z.ltb_ge end_ _)) by lia.
    cbn [orb]. rewrite Hrd1. simp_res. by rewrite (proj2 (Z.eqb_neq d 0)).
  - cbn [app] in *. by rewrite <- Hl.
  - done.
  - rewrite zlen_cons. lia.
Qed.
End Length.

(** ** Tag fields *)

Lemma bit_fields c : is_byte c ->
  bit_field c 0 7 = c mod 128 /\ bit_field c 7 1 = c / 128 /\ bit_field c 6 2 = c / 64 /\
  bit_field c 5 1 = c / 32 mod 2 /\ bit_field c 0 5 = c mod 32 /\ Z.land c 0x7f = c mod 128 /\
  has c 0x80 = (128 <=? c).
Proof.
  intros Hc.
  pose proof (byte_forall (fun c => (bit_field c 0 7 =? c mod 128) && (bit_field c 7 1 =? c / 128) &&
    (bit_field c 6 2 =? c / 64) && (bit_field c 5 1 =? c / 32 mod 2) && (bit_field c 0 5 =? c mod 32) &&
    (Z.land c 0x7f =? c mod 128) && Bool.eqb (has c 0x80) (128 <=? c)) c ltac:(by vm_compute) Hc) as H.
  cbv beta in H. rewrite !andb_true_iff, !Z.eqb_eq, eqb_true_iff in H. tauto.
Qed.

Section Tags.
Context (pdu : list Z) (end_ : Z).
Hypothesis Hend : end_ <= zlen pdu.
Hypothesis Hpdu : bytes pdu.

Lemma ctlv_tag_complete pos tag cr field rest :
  at_pos pdu pos (field ++ rest) -> ctlv_tag_field tag cr field -> pos + zlen field <= end_ ->
  comprehension_tag pdu end_ pos = Ret (tag, cr, pos + zlen field).
Proof.
  intros Hp Hf He. unfold comprehension_tag. destruct Hf as [tag cr Ht|h l cr Hh Hl Hn];
    cbn [app] in Hp; destruct (at_pos_cons pdu pos _ _ Hp) as [-> Hp1]; simp_res.
  - set (c := tag + _). assert (Hc : is_byte c) by (unfold c, is_byte; destruct cr; lia).
    destruct (bit_fields c Hc) as (-> & -> & _).
    rewrite !(proj2 (Z.eqb_neq c _)) by (unfold c; destruct cr; lia). cbn [orb].
    assert (c mod 128 = tag /\ c / 128 = if cr then 1 else 0) as [-> ->].
    { unfold c. destruct cr; Z.to_euclidean_division_equations; lia. }
    rewrite (proj2 (Z.eqb_neq tag _)) by lia. by destruct cr.
  - change (zlen [_; _; _]) with 3 in He. rewrite !(proj2 (Z.eqb_neq 127 _)) by lia. cbn [orb].
    change (bit_field 127 0 7 =? 127) with true. cbv iota.
    rewrite (proj2 (Z.ltb_ge _ _)) by lia.
    destruct (at_pos_cons pdu (pos + 1) _ _ Hp1) as [-> Hp2]. simp_res.
    destruct (at_pos_cons pdu (pos + 1 + 1) _ _ Hp2) as [-> Hp3]. simp_res.
    set (c := h + _). assert (Hc : is_byte c) by (unfold c, is_byte; destruct cr; lia).
    destruct (bit_fields c Hc) as (_ & -> & _ & _ & _ & -> & _).
    assert (c mod 128 = h /\ c / 128 = if cr then 1 else 0) as [-> ->].
    { unfold c. destruct cr; Z.to_euclidean_division_equations; lia. }
    rewrite shift_add by (unfold is_byte in Hl; lia). change (2 ^ 8) with 256. unfold is_byte in Hl.
    rewrite (proj2 (Z.ltb_ge _ 1)), (proj2 (Z.ltb_ge 0x7fff _)) by lia. cbn [orb].
    change (zlen [127; c; l]) with 3. replace (pos + 1 + 2) with (pos + 3) by lia. by destruct cr.
Qed.

Lemma ctlv_tag_sound pos l : at_pos pdu pos l -> pos < end_ ->
  comprehension_tag pdu end_ pos = Err \/
  exists tag cr field rest, l = field ++ rest /\ ctlv_tag_field tag cr field /\
    pos + zlen field <= end_.
Proof.
  intros Hp He. pose proof (at_pos_len _ _ _ Hp) as Hlen. pose proof (bytes_at _ _ _ Hpdu Hp) as Hb.
  destruct l as [|c l]; [change (zlen []) with 0 in Hlen; lia|].
  apply Forall_cons in Hb as [Hc Hb]. destruct (at_pos_cons pdu pos _ _ Hp) as [Hrd Hp1].
  unfold comprehension_tag. rewrite Hrd. simp_res. destruct (bit_fields c Hc) as (-> & _).
  destruct (_ || _) eqn:E0; [by left|]. bool_to_prop. unfold is_byte in Hc.
  destruct (Z.eqb_spec (c mod 128) 127) as [E7|E7].
  - destruct (end_ <? pos + 1 + 2) eqn:E2; [by left|]. bool_to_prop.
    destruct l as [|h [|x l]]; rewrite !zlen_cons in Hlen; [change (zlen []) with 0 in Hlen; lia..|].
    apply Forall_cons in Hb as [Hh Hb]. apply Forall_cons in Hb as [Hx Hb].
    destruct (at_pos_cons pdu (pos + 1) _ _ Hp1) as [-> Hp2]. simp_res.
    destruct (at_pos_cons pdu (pos + 1 + 1) _ _ Hp2) as [-> _]. simp_res.
    destruct (bit_fields h Hh) as (_ & -> & _ & _ & _ & -> & _).
    rewrite shift_add by (unfold is_byte in Hx; lia). change (2 ^ 8) with 256.
    destruct (_ || _) eqn:Et; [by left|]. bool_to_prop. right. unfold is_byte in *.
    exists (h mod 128 * 256 + x), (128 <=? h), [0x7f; h; x], l.
    assert (c = 0x7f) as -> by (Z.to_euclidean_division_equations; lia).
    split_and!; [done| |change (zlen [127; h; x]) with 3; lia].
    replace h with (h mod 128 + if 128 <=? h then 128 else 0) at 3.
    2: { destruct (Z.leb_spec 128 h); Z.to_euclidean_division_equations; lia. }
    constructor; [Z.to_euclidean_division_equations; lia|unfold is_byte; lia|lia].
  - right. exists (c mod 128), (128 <=? c), [c], l. split_and!; [done| |change (zlen [c]) with 1; lia].
    replace c with (c mod 128 + if 128 <=? c then 128 else 0) at 3.
    2: { destruct (Z.leb_spec 128 c); Z.to_euclidean_division_equations; lia. }
    constructor. Z.to_euclidean_division_equations; lia.
Qed.

Lemma extended_tag_ok ds : forall fuel pos tag d rest,
  at_pos pdu pos (map (fun c => c + 128) ds ++ d :: rest) -> Forall septet ds -> septet d ->
  pos + zlen ds < end_ -> (length ds < fuel)%nat -> 0 <= tag < 2 ^ 32 ->
  extended_tag fuel pdu end_ pos tag = Ret (be_val 128 tag ds mod 2 ^ 32, pos + zlen ds).
Proof.
  induction ds as [|c ds IH]; intros fuel pos tag d rest Hp Hs Hd He Hf Ht;
    (destruct fuel as [|fuel]; cbn [length] in Hf; [lia|]); cbn [extended_tag map app] in *;
    destruct (at_pos_cons pdu pos _ _ Hp) as [-> Hp1].
  - change (zlen []) with 0 in *. rewrite (proj2 (Z.ltb_lt _ _)) by lia. simp_res.
    destruct (bit_fields d) as (_ & _ & _ & _ & _ & _ & ->); [unfold is_byte, septet in *; lia|].
    unfold septet in Hd. rewrite (proj2 (Z.leb_gt 128 d)) by lia. cbn [be_val].
    rewrite Z.mod_small by done. f_equal. f_equal. lia.
  - rewrite zlen_cons in *. pose proof (zlen_nonneg ds). rewrite (proj2 (Z.ltb_lt _ _)) by lia. simp_res.
    apply Forall_cons in Hs as [Hc Hs]. unfold septet in Hc.
    destruct (bit_fields (c + 128)) as (_ & _ & _ & _ & _ & -> & ->); [unfold is_byte; lia|].
    rewrite (proj2 (Z.leb_le 128 _)) by lia.
    replace ((c + 128) mod 128) with c by (Z.to_euclidean_division_equations; lia).
    rewrite shift_add by (change (2 ^ 7) with 128; lia). change (2 ^ 7) with 128.
    rewrite (IH fuel (pos + 1) _ d rest) by (try done; try lia; by apply Z.mod_pos_bound).
    cbn [be_val]. unfold u32. rewrite be_val_mod by lia. f_equal. f_equal. lia.
Qed.

(** The octets up to the first one below 128, if they do not reach [n]. *)
Lemma split_septets n l : bytes l -> 0 <= n <= zlen l ->
  (exists ds d rest, l = map (fun c => c + 128) ds ++ d :: rest /\ Forall septet ds /\ septet d /\
    zlen ds < n) \/
  (forall fuel pos tag, at_pos pdu pos l -> pos + n = end_ -> (Z.to_nat n < fuel)%nat ->
    exists tag', extended_tag fuel pdu end_ pos tag = Ret (tag', end_)).
Proof.
  revert n. induction l as [|c l IH]; intros n Hb Hn.
  - right. intros fuel pos tag Hp He Hf. change (zlen []) with 0 in Hn.
    destruct fuel as [|fuel]; [lia|]. cbn [extended_tag]. rewrite (proj2 (Z.ltb_ge _ _)) by lia.
    apply at_pos_len in Hp. change (zlen []) with 0 in Hp. exists tag. f_equal. f_equal. lia.
  - apply Forall_cons in Hb as [Hc Hb]. rewrite zlen_cons in Hn. unfold is_byte in Hc.
    destruct (Z.leb_spec n 0) as [Hn0|Hn0].
    { right. intros fuel pos tag Hp He Hf. destruct fuel as [|fuel]; [lia|]. cbn [extended_tag].
      rewrite (proj2 (Z.ltb_ge _ _)) by lia.
      exists tag. do 2 f_equal. lia. }
    destruct (Z.leb_spec 128 c) as [Hge|Hlt].
    + destruct (IH (n - 1) Hb ltac:(lia)) as [(ds & d & rest & -> & Hds & Hd & Hz)|Hno].
      * left. exists (c - 128 :: ds), d, rest. cbn [map app]. split_and!; [f_equal; lia| |done|].
        -- apply Forall_cons. split; [unfold septet; lia|done].
        -- rewrite zlen_cons. lia.
      * right. intros fuel pos tag Hp He Hf. destruct fuel as [|fuel]; [lia|]. cbn [extended_tag].
        destruct (at_pos_cons pdu pos _ _ Hp) as [-> Hp1]. rewrite (proj2 (Z.ltb_lt _ _)) by lia. simp_res.
        destruct (bit_fields c) as (_ & _ & _ & _ & _ & _ & ->); [done|].
        rewrite (proj2 (Z.leb_le 128 c)) by lia. apply Hno; [done|lia|lia].
    + left. exists [], c, l. split_and!; [done|constructor|unfold septet; lia|change (zlen []) with 0; lia].
Qed.

Lemma map_septets ds : Forall septet ds -> bytes (map (fun c => c + 128) ds).
Proof.
  induction 1 as [|d ds Hd Hds IH]; [constructor|]. cbn [map]. apply Forall_cons. split; [|done].
  unfold is_byte, septet in *. lia.
Qed.

Lemma first_octet class encoding n : 0 <= encoding < 2 -> 0 <= n < 32 ->
  (class * 64 + encoding * 32 + n) / 64 = class /\
  (class * 64 + encoding * 32 + n) / 32 mod 2 = encoding /\
  (class * 64 + encoding * 32 + n) mod 32 = n.
Proof.
  intros He Hn. assert ((class * 64 + encoding * 32 + n) / 32 = class * 2 + encoding) as ->
    by (Z.to_euclidean_division_equations; lia).
  split_and!; Z.to_euclidean_division_equations; lia.
Qed.

Lemma ber_tag_complete pos class encoding tag field rest :
  at_pos pdu pos (field ++ rest) -> ber_tag_field class encoding tag field -> pos + zlen field <= end_ ->
  exists c, rd pdu pos = Ret c /\ c <> 0 /\ c <> 0xff /\
    bit_field c 6 2 = class /\ bit_field c 5 1 = encoding /\
    ber_tag_number pdu end_ (pos + 1) (bit_field c 0 5) = Ret (tag, pos + zlen field).
Proof.
  intros Hp Hf He. destruct Hf as [class encoding tag Hc Hn Ht Hne|class encoding ds d Hc Hn Hne Hs Hz];
    cbn [app] in Hp; destruct (at_pos_cons pdu pos _ _ Hp) as [Hrd Hp1];
    set (c := class * 64 + _ + _) in *; exists c;
    (assert (Hb : is_byte c) by (unfold c, is_byte; lia));
    destruct (bit_fields c Hb) as (_ & _ & -> & -> & -> & _).
  - destruct (first_octet class encoding tag ltac:(lia) ltac:(lia)) as (H6 & H5 & H0).
    fold c in H6, H5, H0. rewrite H6, H5, H0. split_and!; [done|unfold c; lia..|done|done|].
    unfold ber_tag_number. by rewrite (proj2 (Z.eqb_neq tag _)) by lia.
  - destruct (first_octet class encoding 31 ltac:(lia) ltac:(lia)) as (H6 & H5 & H0).
    fold c in H6, H5, H0. rewrite H6, H5, H0. split_and!; [done|unfold c; lia..|done|done|].
    unfold ber_tag_number. cbn [Z.eqb Pos.eqb]. rewrite zlen_cons, zlen_app, zlen_map in *.
    change (zlen [d]) with 1 in *. pose proof (zlen_nonneg ds).
    rewrite (proj2 (Z.eqb_neq (pos + 1) end_)) by lia.
    apply Forall_app in Hs as [Hds Hd]. apply Forall_cons in Hd as [Hd _].
    rewrite <- app_assoc in Hp1. cbn [app] in Hp1.
    assert (Hfirst : exists x, rd pdu (pos + 1) = Ret x /\ x mod 128 <> 0 /\ is_byte x).
    { destruct ds as [|x ds]; cbn [map app head] in *;
        destruct (at_pos_cons pdu (pos + 1) _ _ Hp1) as [-> _].
      - exists d. unfold septet, is_byte in *. split_and!; [done| |lia..].
        rewrite Z.mod_small by lia. congruence.
      - apply Forall_cons in Hds as [Hx _]. unfold septet, is_byte in *. exists (x + 128). split_and!; [done| |lia..].
        replace (x + 128) with (x + 1 * 128) by lia. rewrite Z.mod_add, Z.mod_small by lia. congruence. }
    destruct Hfirst as (x & -> & Hx & Hxb). simp_res.
    destruct (bit_fields x Hxb) as (_ & _ & _ & _ & _ & -> & _). rewrite (proj2 (Z.eqb_neq _ 0)) by done.
    rewrite (extended_tag_ok ds _ (pos + 1) 0 d rest) by (try done; unfold zlen in *; lia). simp_res.
    rewrite (proj2 (Z.eqb_neq _ end_)) by lia.
    apply (at_pos_app pdu (pos + 1) (map _ ds)) in Hp1. rewrite zlen_map in Hp1.
    destruct (at_pos_cons pdu _ _ _ Hp1) as [-> _]. simp_res. f_equal. f_equal; [|lia].
    unfold septet in Hd. rewrite shift_add by (change (2 ^ 7) with 128; lia).
    assert (Happ : forall acc, be_val 128 acc (ds ++ [d]) = be_val 128 acc ds * 128 + d).
    { clear. induction ds as [|y ds IH]; intros acc; [done|]. cbn [app be_val]. apply IH. }
    rewrite Happ. unfold u32. change (2 ^ 7) with 128.
    by rewrite <- Z.add_mod_idemp_l, Z.mul_mod_idemp_l, Z.add_mod_idemp_l by done.
Qed.

Lemma ber_tag_sound pos c l : at_pos pdu pos (c :: l) -> pos < end_ -> c <> 0 -> c <> 0xff ->
  ber_tag_number pdu end_ (pos + 1) (bit_field c 0 5) = Err \/
  exists class encoding tag field rest, c :: l = field ++ rest /\
    ber_tag_field class encoding tag field /\ pos + zlen field <= end_.
Proof.
  intros Hp He Hc0 Hcf. pose proof (at_pos_len _ _ _ Hp) as Hlen.
  pose proof (bytes_at _ _ _ Hpdu Hp) as Hb. apply Forall_cons in Hb as [Hc Hb].
  destruct (at_pos_cons pdu pos _ _ Hp) as [_ Hp1].
  destruct (bit_fields c Hc) as (_ & _ & _ & _ & -> & _). unfold is_byte in Hc.
  assert (Hform : c = c / 64 * 64 + c / 32 mod 2 * 32 + c mod 32 /\ 0 <= c / 64 < 4 /\
    0 <= c / 32 mod 2 < 2 /\ 0 <= c mod 32 < 32) by (Z.to_euclidean_division_equations; lia).
  set (class := c / 64) in *. set (encoding := c / 32 mod 2) in *. set (tag := c mod 32) in *.
  destruct Hform as (Hform & Hcl & Hen & Ht). clearbody class encoding tag.
  unfold ber_tag_number. destruct (Z.eqb_spec tag 0x1f) as [->|Hn].
  2: { right. exists class, encoding, tag, [c], l. split_and!; [done| |change (zlen [c]) with 1; lia].
       rewrite Hform. constructor; lia. }
  destruct (pos + 1 =? end_) eqn:E1; [by left|]. bool_to_prop. rewrite zlen_cons in Hlen.
  destruct (split_septets (end_ - (pos + 1)) l Hb ltac:(lia))
    as [(ds & d & rest & Hl & Hds & Hd & Hz)|Hno].
  - rewrite Hl in Hp1. destruct (decide (head (ds ++ [d]) = Some 0)) as [H0|H0].
    + left. assert (Hrd : rd pdu (pos + 1) = Ret 0 \/ rd pdu (pos + 1) = Ret 128).
      { destruct ds as [|x ds]; cbn [map app head] in *; injection H0 as ->;
          destruct (at_pos_cons pdu (pos + 1) _ _ Hp1) as [-> _]; auto. }
      by destruct Hrd as [-> | ->].
    + right. do 2 eexists. exists (be_val 128 0 (ds ++ [d]) mod 2 ^ 32),
        ((class * 64 + encoding * 32 + 31) :: map (fun c => c + 128) ds ++ [d]), rest.
      split_and!; [|constructor; try done; [lia|]|].
      * rewrite <- Hform, Hl. cbn [app]. by rewrite <- app_assoc.
      * apply Forall_app. split; [done|]. by apply Forall_singleton.
      * rewrite zlen_cons, zlen_app, zlen_map. change (zlen [d]) with 1. lia.
  - destruct l as [|x l]; [change (zlen []) with 0 in Hlen; lia|].
    destruct (at_pos_cons pdu (pos + 1) _ _ Hp1) as [-> _]. simp_res.
    case_match; [by left|].
    destruct (Hno (S (Z.to_nat (end_ - (pos + 1)))) (pos + 1) 0 Hp1 ltac:(lia) ltac:(lia)) as [tag' ->].
    simp_res. rewrite Z.eqb_refl. by left.
Qed.
End Tags.

(** ** Iterators *)

(** An iterator of [max] octets at [pos], before the octets [l]. *)
Record at_object (pdu : list Z) (max pos : Z) (l : list Z) : Prop := {
  at_bytes : bytes pdu;
  at_max : max <= zlen pdu /\ max < 2 ^ 32;
  at_octets : at_pos pdu pos (l ++ drop (Z.to_nat max) pdu);
  at_end : pos + zlen l = max
}.

Definition ctlv_before (it : comprehension_tlv_iter) : list Z -> Prop :=
  at_object (ctlv_pdu it) (ctlv_max it) (ctlv_pos it).
Definition ber_before (it : ber_tlv_iter) : list Z -> Prop :=
  at_object (ber_pdu it) (ber_max it) (ber_pos it).

Lemma at_object_init pdu len : bytes pdu -> 0 <= len <= zlen pdu -> len < 2 ^ 32 ->
  at_object pdu len 0 (take (Z.to_nat len) pdu).
Proof.
  intros Hb Hl Hm. split; [done|lia| |rewrite zlen_take; lia]. rewrite take_drop. apply at_pos_0.
Qed.

Lemma at_object_step pdu max pos l1 l2 : at_object pdu max pos (l1 ++ l2) ->
  at_object pdu max (pos + zlen l1) l2.
Proof.
  intros [Hb Hm Ho He]. rewrite <- app_assoc in Ho. split; [done|done|by apply at_pos_app in Ho|].
  rewrite zlen_app in He. lia.
Qed.

(** The iterator behind an object whose value starts at [data]. *)
Definition ctlv_at (it : comprehension_tlv_iter) (pos : Z) (tag : Z) (cr : bool) (len data : Z)
    : comprehension_tlv_iter :=
  {| ctlv_pdu := ctlv_pdu it; ctlv_max := ctlv_max it; ctlv_pos := pos; ctlv_tag := tag;
     ctlv_cr := cr; ctlv_len := len; ctlv_data := Some data |}.

Lemma length_field_pos w longest len l : length_field w longest len l -> 0 < zlen l.
Proof. destruct 1; rewrite zlen_cons; zl. Qed.

Lemma length_field_nonneg w longest len l : 0 <= w -> length_field w longest len l -> 0 <= len.
Proof.
  intros Hw. destruct 1 as [l Hl|d ds Hb Hd Hn]; [lia|]. apply Z.mod_pos_bound. by apply Z.pow_pos_nonneg.
Qed.

Lemma ctlv_next_complete it tag cr value octets rest :
  ctlv_before it (octets ++ rest) -> ctlv_object tag cr value octets ->
  comprehension_tlv_iter_next it =
  Ret (ctlv_at it (ctlv_pos it + zlen octets) tag cr (zlen value) (ctlv_pos it + zlen octets - zlen value)).
Proof.
  intros [Hb [Hm _] Ho He] (t & l & Ht & Hl & ->). unfold comprehension_tlv_iter_next.
  pose proof (length_field_pos _ _ _ _ Hl). rewrite !zlen_app in *. zlen_pos.
  rewrite (proj2 (Z.eqb_neq _ _)) by lia. rewrite <- !app_assoc in Ho.
  rewrite (ctlv_tag_complete (ctlv_pdu it) (ctlv_max it) (ctlv_pos it) tag cr t _ Ho Ht) by lia.
  simp_res. rewrite (proj2 (Z.eqb_neq _ _)) by lia. apply at_pos_app in Ho.
  change u16 with (fun z => z mod 2 ^ 16).
  rewrite (tlv_length_complete 16 3 (ctlv_pdu it) (ctlv_max it) ltac:(lia) _ (zlen value) l _ Ho Hl) by lia.
  simp_res. rewrite (proj2 (Z.ltb_ge _ _)) by lia. unfold ctlv_at.
  f_equal. f_equal; [lia|f_equal; lia].
Qed.

Lemma at_object_pos pdu max pos l : at_object pdu max pos l -> max = pos + zlen l /\ 0 <= pos.
Proof. intros [_ _ [Ho _] He]. lia. Qed.

Lemma at_object_split pdu max pos l field tail : at_object pdu max pos l ->
  l ++ drop (Z.to_nat max) pdu = field ++ tail -> pos + zlen field <= max ->
  exists rest, l = field ++ rest.
Proof.
  intros [_ _ Ho He] Heq Hf. exists (drop (length field) l).
  assert (Hlen : (length field <= length l)%nat) by (unfold zlen in *; lia).
  rewrite <- (take_drop (length field) l) at 1. f_equal.
  rewrite <- (take_app_le l (drop (Z.to_nat max) pdu)) by done. rewrite Heq. by rewrite take_app_length.
Qed.

Lemma ctlv_next_sound it l : ctlv_before it l ->
  comprehension_tlv_iter_next it = Err \/
  exists tag cr value octets rest, l = octets ++ rest /\ ctlv_object tag cr value octets.
Proof.
  intros Hat. pose proof Hat as [Hb [Hm _] Ho He]. unfold comprehension_tlv_iter_next.
  destruct (ctlv_pos it =? ctlv_max it) eqn:E0; [by left|]. bool_to_prop. pose proof (zlen_nonneg l).
  destruct (ctlv_tag_sound (ctlv_pdu it) (ctlv_max it) Hm Hb _ _ Ho ltac:(lia))
    as [->|(tag & cr & t & r1 & Heq1 & Ht & Hf1)]; [by left|].
  destruct (at_object_split _ _ _ _ _ _ Hat Heq1 Hf1) as [l1 ->]. clear Heq1 r1.
  rewrite <- app_assoc in Ho. rewrite (ctlv_tag_complete _ _ _ _ _ _ _ Ho Ht Hf1). simp_res.
  case_cmp; [by left|]. bool_to_prop. apply at_object_step in Hat. apply at_pos_app in Ho.
  change u16 with (fun z => z mod 2 ^ 16).
  destruct (tlv_length_sound 16 3 (ctlv_pdu it) (ctlv_max it) ltac:(lia) ltac:(lia) Hm Hb _ _ Ho ltac:(lia))
    as [->|(len & f & r2 & Heq2 & Hl & Hf2 & ->)]; [by left|].
  destruct (at_object_split _ _ _ _ _ _ Hat Heq2 Hf2) as [l2 ->]. simp_res.
  destruct (Z.ltb_spec (ctlv_max it) (ctlv_pos it + zlen t + zlen f + len)) as [|Hfit]; [by left|].
  right. pose proof (length_field_nonneg 16 _ _ _ ltac:(lia) Hl). rewrite !zlen_app in He.
  exists tag, cr, (take (Z.to_nat len) l2), (t ++ f ++ take (Z.to_nat len) l2), (drop (Z.to_nat len) l2).
  split.
  - by rewrite <- !app_assoc, take_drop.
  - exists t, f. split_and!; [done| |done]. replace (zlen _) with len; [done|].
    rewrite zlen_take. lia.
Qed.

Lemma skip_stuffing_ok pdu end_ skipped : stuffing skipped -> forall fuel pos c rest,
  at_pos pdu pos (skipped ++ c :: rest) -> pos + zlen skipped < end_ -> c <> 0 -> c <> 0xff ->
  (length skipped < fuel)%nat -> skip_stuffing fuel pdu end_ pos = Ret (pos + zlen skipped).
Proof.
  induction 1 as [|x skipped Hx Hs IH]; intros fuel pos c rest Hp He H0 Hff Hf;
    (destruct fuel as [|fuel]; cbn [length] in Hf; [lia|]); cbn [skip_stuffing app] in *;
    destruct (at_pos_cons pdu pos _ _ Hp) as [-> Hp1].
  - change (zlen []) with 0 in *. rewrite (proj2 (Z.ltb_lt _ _)) by lia. simp_res.
    rewrite (proj2 (Z.eqb_neq c _)), (proj2 (Z.eqb_neq c _)) by done. cbn [orb]. f_equal. lia.
  - rewrite zlen_cons in *. zlen_pos. rewrite (proj2 (Z.ltb_lt _ _)) by lia. simp_res.
    replace ((x =? 0) || (x =? 255)) with true by (destruct Hx as [-> | ->]; done).
    rewrite (IH fuel (pos + 1) c rest) by (try done; lia). f_equal. lia.
Qed.

(** Stuffing only, to the end. *)
Lemma skip_stuffing_all pdu end_ skipped : stuffing skipped -> forall fuel pos rest,
  at_pos pdu pos (skipped ++ rest) -> pos + zlen skipped = end_ ->
  (length skipped < fuel)%nat -> skip_stuffing fuel pdu end_ pos = Ret end_.
Proof.
  induction 1 as [|x skipped Hx Hs IH]; intros fuel pos rest Hp He Hf;
    (destruct fuel as [|fuel]; cbn [length] in Hf; [lia|]); cbn [skip_stuffing app] in *.
  - change (zlen []) with 0 in *. rewrite (proj2 (Z.ltb_ge _ _)) by lia. f_equal. lia.
  - rewrite zlen_cons in *. zlen_pos. destruct (at_pos_cons pdu pos _ _ Hp) as [-> Hp1].
    rewrite (proj2 (Z.ltb_lt _ _)) by lia. simp_res.
    replace ((x =? 0) || (x =? 255)) with true by (destruct Hx as [-> | ->]; done).
    apply (IH fuel (pos + 1) rest); [done|lia|lia].
Qed.

Lemma stuffing_split l : exists skipped rest, l = skipped ++ rest /\ stuffing skipped /\
  match rest with [] => True | c :: _ => c <> 0 /\ c <> 0xff end.
Proof.
  induction l as [|c l (skipped & rest & -> & Hs & Hr)].
  { exists [], []. split; [done|]. split; [by apply Forall_nil|done]. }
  destruct (decide (c = 0 \/ c = 255)) as [Hc|Hc].
  - exists (c :: skipped), rest. split; [done|]. split; [by apply Forall_cons|done].
  - exists [], (c :: skipped ++ rest). split; [done|]. split; [by apply Forall_nil|lia].
Qed.

Definition ber_at (it : ber_tlv_iter) (pos class encoding tag len : Z) : ber_tlv_iter :=
  {| ber_pdu := ber_pdu it; ber_max := ber_max it; ber_pos := pos; ber_tag := tag;
     ber_class := class; ber_encoding := encoding; ber_len := len; ber_data := pos - len |}.

Lemma ber_tag_field_head class encoding tag t : ber_tag_field class encoding tag t ->
  exists c t', t = c :: t' /\ c <> 0 /\ c <> 0xff.
Proof. destruct 1; do 2 eexists; (split; [done|lia]). Qed.

Lemma ber_next_complete it skipped class encoding tag value octets rest :
  ber_before it (skipped ++ octets ++ rest) -> stuffing skipped ->
  ber_object class encoding tag value octets ->
  ber_tlv_iter_next it =
  Ret (ber_at it (ber_pos it + zlen skipped + zlen octets) class encoding tag (zlen value)).
Proof.
  intros [Hb [Hm _] Ho He] Hs (t & l & Ht & Hl & ->). unfold ber_tlv_iter_next.
  pose proof (length_field_pos _ _ _ _ Hl).
  destruct (ber_tag_field_head _ _ _ _ Ht) as (c & t' & Hct & H0 & Hff).
  assert (Htp : 0 < zlen t) by (subst t; rewrite zlen_cons; zl).
  rewrite !zlen_app in *. zlen_pos. rewrite <- !app_assoc in Ho.
  rewrite (skip_stuffing_ok _ _ _ Hs _ _ c (t' ++ l ++ value ++ rest ++ drop (Z.to_nat (ber_max it)) (ber_pdu it)))
    by first [done|by subst t|lia|unfold zlen in *; lia].
  simp_res. rewrite (proj2 (Z.eqb_neq _ _)) by lia. apply at_pos_app in Ho.
  destruct (ber_tag_complete _ (ber_max it) _ _ _ _ _ _ Ho Ht ltac:(lia)) as (c' & -> & _ & _ & Hcl & Hen & Htag).
  simp_res. rewrite Hcl, Hen, Htag. simp_res. rewrite (proj2 (Z.eqb_neq _ _)) by lia. apply at_pos_app in Ho.
  change u32 with (fun z => z mod 2 ^ 32).
  rewrite (tlv_length_complete 32 4 _ (ber_max it) ltac:(lia) _ (zlen value) l _ Ho Hl) by lia.
  simp_res. rewrite (proj2 (Z.ltb_ge _ _)) by lia. unfold ber_at.
  f_equal. f_equal; lia.
Qed.

Lemma ber_next_sound it l : ber_before it l ->
  ber_tlv_iter_next it = Err \/
  exists skipped class encoding tag value octets rest,
    l = skipped ++ octets ++ rest /\ stuffing skipped /\ ber_object class encoding tag value octets.
Proof.
  intros Hat. pose proof Hat as [Hb [Hm _] Ho He]. unfold ber_tlv_iter_next.
  destruct (stuffing_split l) as (skipped & l' & -> & Hs & Hhead). rewrite zlen_app in He. zlen_pos.
  destruct l' as [|c l'].
  { rewrite app_nil_r in Ho. change (zlen []) with 0 in He.
    rewrite (skip_stuffing_all _ (ber_max it) _ Hs _ _ (drop (Z.to_nat (ber_max it)) (ber_pdu it)))
      by first [done|lia|unfold zlen in *; lia].
    simp_res. rewrite Z.eqb_refl. by left. }
  destruct Hhead as [Hc0 Hff]. rewrite <- app_assoc in Ho. cbn [app] in Ho. rewrite zlen_cons in He. pose proof (zlen_nonneg l').
  rewrite (skip_stuffing_ok _ _ _ Hs _ _ c (l' ++ drop (Z.to_nat (ber_max it)) (ber_pdu it)))
    by first [done|lia|unfold zlen in *; lia].
  simp_res. rewrite (proj2 (Z.eqb_neq _ _)) by lia. apply at_pos_app in Ho. apply at_object_step in Hat.
  destruct (at_pos_cons _ _ _ _ Ho) as [-> _]. simp_res.
  destruct (ber_tag_sound _ (ber_max it) Hm Hb _ c _ Ho ltac:(lia) Hc0 Hff)
    as [->|(class & encoding & tag & t & r1 & Heq1 & Ht & Hf1)]; [by left|].
  change (c :: l' ++ drop (Z.to_nat (ber_max it)) (ber_pdu it))
    with ((c :: l') ++ drop (Z.to_nat (ber_max it)) (ber_pdu it)) in Heq1, Ho.
  destruct (at_object_split _ _ _ _ _ _ Hat Heq1 Hf1) as [l1 Hl1]. clear Heq1 r1.
  rewrite Hl1 in Ho, Hat. rewrite <- app_assoc in Ho.
  destruct (ber_tag_complete _ (ber_max it) _ _ _ _ _ _ Ho Ht Hf1) as (c' & Hrd & _ & _ & _ & _ & Htag).
  assert (c' = c) as ->.
  { destruct (ber_tag_field_head _ _ _ _ Ht) as (x & t' & -> & _). cbn [app] in Ho, Hl1.
    destruct (at_pos_cons _ _ _ _ Ho) as [Hx _]. rewrite Hrd in Hx. injection Hl1. congruence. }
  rewrite Htag. simp_res. case_cmp; [by left|]. bool_to_prop.
  pose proof (f_equal zlen Hl1) as Hz. rewrite zlen_cons, zlen_app in Hz.
  apply at_object_step in Hat. apply at_pos_app in Ho. change u32 with (fun z => z mod 2 ^ 32).
  destruct (tlv_length_sound 32 4 _ (ber_max it) ltac:(lia) ltac:(lia) Hm Hb _ _ Ho ltac:(zl))
    as [->|(len & f & r2 & Heq2 & Hl & Hf2 & ->)]; [by left|].
  destruct (at_object_split _ _ _ _ _ _ Hat Heq2 Hf2) as [l2 Hl2]. simp_res.
  destruct (Z.ltb_spec (ber_max it) (ber_pos it + zlen skipped + zlen t + zlen f + len)) as [|Hfit]; [by left|].
  right. pose proof (length_field_nonneg 32 _ _ _ ltac:(lia) Hl). rewrite Hl2, zlen_app in Hz.
  exists skipped, class, encoding, tag, (take (Z.to_nat len) l2), (t ++ f ++ take (Z.to_nat len) l2),
    (drop (Z.to_nat len) l2).
  split_and!; [|done|].
  - rewrite Hl1, Hl2. by rewrite <- !app_assoc, take_drop.
  - exists t, f. split_and!; [done| |done]. replace (zlen _) with len; [done|].
    rewrite zlen_take. lia.
Qed.

(** ** What the comprehension builder writes *)

(** Tag, comprehension flag and value. *)
Definition ctlv : Type := Z * bool * list Z.

Definition ctlv_octets (o : ctlv) : list Z :=
  let '(tag, cr, d) := o in
  ctlv_tag_octets cr tag ++ write_length (BTLV_LEN_FIELD_SIZE_NEEDED (zlen d)) (zlen d) ++ d.

Definition ctlvs (os : list ctlv) : list Z := flat_map ctlv_octets os.

Definition tag_ok (tag : Z) : Prop := 0 < tag <= 0x7fff.

Definition tag_size (tag : Z) : Z := if 0x7f <=? tag then 3 else 1.

Lemma tag_octets_head cr tag : tag_ok tag ->
  exists t ts, ctlv_tag_octets cr tag = t :: ts /\ t <> 0 /\ CTLV_TAG_FIELD_SIZE t = tag_size tag /\
    zlen (t :: ts) = tag_size tag.
Proof.
  intros Ht. unfold tag_ok, ctlv_tag_octets, tag_size in *. destruct (Z.leb_spec 0x7f tag) as [Hge|Hlt].
  - do 2 eexists. split_and!; [done|done|done|done].
  - do 2 eexists. split; [done|].
    pose proof (range_forall (fun tag => forallb (fun cr : bool =>
      negb (u8 (Z.lor (if cr then 128 else 0) tag) =? 0) &&
      (CTLV_TAG_FIELD_SIZE (u8 (Z.lor (if cr then 128 else 0) tag)) =? 1)) [true; false]) 1 126 tag
      ltac:(by vm_compute) ltac:(lia)) as H.
    cbn [forallb] in H. rewrite !andb_true_iff, !negb_true_iff, !Z.eqb_eq, !Z.eqb_neq in H.
    destruct cr; tauto.
Qed.

Lemma len_size_cases n : 0 <= n < 2 ^ 16 ->
  let k := BTLV_LEN_FIELD_SIZE_NEEDED n in
  exists l ls, write_length k n = l :: ls /\ CTLV_LEN_FIELD_SIZE l = k /\ zlen (l :: ls) = k /\ 1 <= k <= 3.
Proof.
  intros Hn k. unfold k, BTLV_LEN_FIELD_SIZE_NEEDED.
  destruct (Z.leb_spec n 0x7f); [|destruct (Z.leb_spec n 0xff); [|rewrite (proj2 (Z.leb_le n 0xffff)) by lia]];
    do 2 eexists; (split; [done|]); [|split_and!; done..].
  cbn. unfold u8. rewrite Z.mod_small by lia. unfold CTLV_LEN_FIELD_SIZE.
  by rewrite (proj2 (Z.leb_gt _ _)) by lia.
Qed.

(** The buffer of a builder whose last object is [o], behind those of [os]. *)
Record writing (buf : list Z) (b : comprehension_tlv_builder) (os : list ctlv) (o : ctlv)
    (pre rest : list Z) : Prop := {
  w_buf : buf = pre ++ ctlvs os ++ ctlv_octets o ++ rest;
  w_pdu : cbuilder_pdu b = zlen pre;
  w_pos : cbuilder_pos b = zlen (ctlvs os);
  w_len : cbuilder_len b = zlen o.2;
  w_tag : tag_ok o.1.1;
  w_small : zlen o.2 < 2 ^ 16;
  w_max : cbuilder_max b <= zlen buf - zlen pre /\ cbuilder_max b < 2 ^ 31;
  w_fits : zlen (ctlvs os) + zlen (ctlv_octets o) <= cbuilder_max b
}.

(** ... or that has none yet. *)
Record fresh_builder (buf : list Z) (b : comprehension_tlv_builder) (pre rest : list Z) : Prop := {
  fb_buf : buf = pre ++ 0 :: rest;
  fb_pdu : cbuilder_pdu b = zlen pre;
  fb_pos : cbuilder_pos b = 0;
  fb_len : cbuilder_len b = 0;
  fb_max : cbuilder_max b <= zlen buf - zlen pre /\ cbuilder_max b < 2 ^ 31
}.

Lemma ctlv_octets_split tag cr d : tag_ok tag -> zlen d < 2 ^ 16 ->
  exists t ts l ls, ctlv_octets (tag, cr, d) = (t :: ts) ++ (l :: ls) ++ d /\
    t <> 0 /\ CTLV_TAG_FIELD_SIZE t = tag_size tag /\ zlen (t :: ts) = tag_size tag /\
    CTLV_LEN_FIELD_SIZE l = BTLV_LEN_FIELD_SIZE_NEEDED (zlen d) /\
    zlen (l :: ls) = BTLV_LEN_FIELD_SIZE_NEEDED (zlen d) /\
    ctlv_tag_octets cr tag = t :: ts /\
    write_length (BTLV_LEN_FIELD_SIZE_NEEDED (zlen d)) (zlen d) = l :: ls.
Proof.
  intros Ht Hd. destruct (tag_octets_head cr tag Ht) as (t & ts & Ht1 & ? & ? & ?).
  destruct (len_size_cases (zlen d)) as (l & ls & Hl1 & ? & ? & ?); [pose proof (zlen_nonneg d); lia|].
  exists t, ts, l, ls. unfold ctlv_octets. rewrite Ht1, Hl1. split_and!; done.
Qed.

(** [tlv[0]] and [tlv[tag_size]] of the object being written. *)
Lemma writing_head buf b os tag cr d pre rest : writing buf b os (tag, cr, d) pre rest ->
  exists t l, let tlv := cbuilder_pdu b + cbuilder_pos b in
    rd buf tlv = Ret t /\ t <> 0 /\ CTLV_TAG_FIELD_SIZE t = tag_size tag /\
    rd buf (tlv + tag_size tag) = Ret l /\
    CTLV_LEN_FIELD_SIZE l = BTLV_LEN_FIELD_SIZE_NEEDED (zlen d).
Proof.
  intros [-> Hp Hpos _ Ht Hs _ _]. cbn [fst snd] in *.
  destruct (ctlv_octets_split tag cr d Ht Hs) as (t & ts & l & ls & -> & H0 & Hts & Hzt & Hls & _).
  exists t, l. rewrite Hp, Hpos. split_and!; try done.
  - rewrite app_assoc. apply rd_middle. zl.
  - rewrite (app_assoc pre), <- (app_assoc (t :: ts)), (app_assoc (pre ++ _)). apply rd_middle.
    rewrite <- Hzt. zl.
Qed.

Lemma tag_size_range tag : 1 <= tag_size tag <= 3.
Proof. unfold tag_size. destruct (0x7f <=? tag); lia. Qed.

Lemma zlen_tag_octets cr tag : zlen (ctlv_tag_octets cr tag) = tag_size tag.
Proof. unfold ctlv_tag_octets, tag_size. by destruct (0x7f <=? tag). Qed.

Lemma write_head_ok l1 rest cr tag : tag_size tag + 1 <= zlen rest ->
  (buf ← blit (l1 ++ rest) (zlen l1) (ctlv_tag_octets cr tag); wr buf (zlen l1 + (tag_size tag + 1) - 1) 0)
  = Ret (l1 ++ ctlv_octets (tag, cr, []) ++ drop (Z.to_nat (tag_size tag + 1)) rest).
Proof.
  intros Hr. pose proof (tag_size_range tag).
  rewrite <- (take_drop (Z.to_nat (tag_size tag)) rest) at 1.
  rewrite blit_middle by (rewrite ?zlen_tag_octets; first [done|zl]). simp_res.
  destruct (drop (Z.to_nat (tag_size tag)) rest) as [|x tl] eqn:Htl.
  { apply (f_equal zlen) in Htl. rewrite zlen_drop in Htl. change (zlen []) with 0 in Htl. lia. }
  rewrite app_assoc, wr_middle by (rewrite zlen_app, zlen_tag_octets; lia).
  unfold ctlv_octets. rewrite <- !app_assoc. do 3 f_equal.
  replace (Z.to_nat (tag_size tag + 1)) with (Z.to_nat (tag_size tag) + 1)%nat by lia.
  by rewrite <- drop_drop, Htl.
Qed.

Lemma ctlvs_snoc os o : ctlvs (os ++ [o]) = ctlvs os ++ ctlv_octets o.
Proof. unfold ctlvs. rewrite flat_map_app. cbn. by rewrite app_nil_r. Qed.

Lemma zlen_ctlv_octets tag cr d : tag_ok tag -> zlen d < 2 ^ 16 ->
  zlen (ctlv_octets (tag, cr, d)) = tag_size tag + BTLV_LEN_FIELD_SIZE_NEEDED (zlen d) + zlen d.
Proof.
  intros Ht Hd. destruct (ctlv_octets_split tag cr d Ht Hd) as (t & ts & l & ls & -> & _ & _ & Hz & _ & Hl & _).
  rewrite !zlen_app. lia.
Qed.

Lemma next_size_eq tag : (if tag <? 0x7f then 1 else 3) + 1 = tag_size tag + 1.
Proof.
  unfold tag_size. destruct (Z.ltb_spec tag 0x7f), (Z.leb_spec 0x7f tag); lia.
Qed.

(** The next object starts behind what was written, [pos] octets. *)
Lemma next_written buf b l1 rest pre os cr tag :
  buf = pre ++ ctlvs os ++ rest -> cbuilder_pdu b = zlen pre ->
  l1 = pre ++ ctlvs os -> tag_ok tag ->
  cbuilder_max b <= zlen buf - zlen pre /\ cbuilder_max b < 2 ^ 31 ->
  zlen (ctlvs os) + tag_size tag + 1 <= cbuilder_max b ->
  exists buf' rest',
    (buf ← blit buf (cbuilder_pdu b + zlen (ctlvs os)) (ctlv_tag_octets cr tag);
     wr buf (cbuilder_pdu b + zlen (ctlvs os) + (tag_size tag + 1) - 1) 0) = Ret buf' /\
    zlen buf' = zlen buf /\
    writing buf' {| cbuilder_max := cbuilder_max b; cbuilder_pos := zlen (ctlvs os);
                    cbuilder_pdu := cbuilder_pdu b; cbuilder_len := 0;
                    cbuilder_parent := cbuilder_parent b |} os (tag, cr, []) pre rest'.
Proof.
  intros -> Hp -> Ht [Hm1 Hm2] Hfit. rewrite !zlen_app in Hm1. pose proof (zlen_nonneg pre).
  pose proof (tag_size_range tag).
  exists ((pre ++ ctlvs os) ++ ctlv_octets (tag, cr, []) ++ drop (Z.to_nat (tag_size tag + 1)) rest),
    (drop (Z.to_nat (tag_size tag + 1)) rest).
  assert (Hz : zlen (ctlv_octets (tag, cr, [])) = tag_size tag + 1).
  { rewrite zlen_ctlv_octets by done. change (zlen []) with 0. change (BTLV_LEN_FIELD_SIZE_NEEDED 0) with 1. lia. }
  split_and!.
  - rewrite Hp, app_assoc, <- zlen_app. apply write_head_ok. lia.
  - rewrite !zlen_app, Hz, zlen_drop. lia.
  - split; cbn [cbuilder_max cbuilder_pos cbuilder_pdu cbuilder_len fst snd];
      [by rewrite <- app_assoc|done|done|done|done|done| |lia].
    split; [|done]. rewrite !zlen_app, Hz, zlen_drop. lia.
Qed.

Lemma next_ok buf b os o pre rest cr tag : writing buf b os o pre rest -> tag_ok tag ->
  zlen (ctlvs (os ++ [o])) + tag_size tag + 1 <= cbuilder_max b ->
  exists buf' b' rest',
    comprehension_tlv_builder_next buf b cr tag = Ret (buf', b') /\
    zlen buf' = zlen buf /\ cbuilder_max b' = cbuilder_max b /\
    cbuilder_parent b' = cbuilder_parent b /\
    writing buf' b' (os ++ [o]) (tag, cr, []) pre rest'.
Proof.
  intros Hw Ht Hfit. destruct o as [[t0 cr0] d0].
  destruct (writing_head _ _ _ _ _ _ _ _ Hw) as (t & l & Hrd & Hne & Hts & Hrl & Hls).
  destruct Hw as [Hb Hp Hpos Hl Ht0 Hs Hm Hf]. cbn [fst snd] in *.
  pose proof (zlen_ctlv_octets t0 cr0 d0 Ht0 Hs) as Hz. rewrite ctlvs_snoc, zlen_app in Hfit. zlen_pos.
  pose proof (tag_size_range tag).
  unfold comprehension_tlv_builder_next. rewrite Hrd. simp_res. rewrite (proj2 (Z.eqb_neq t 0)) by done.
  cbn [negb]. rewrite Hts, Hrl. simp_res. rewrite Hls, Hl, Hpos, next_size_eq.
  assert (u32 (zlen d0 + tag_size t0 + BTLV_LEN_FIELD_SIZE_NEEDED (zlen d0)) = zlen (ctlv_octets (t0, cr0, d0))) as ->.
  { unfold u32. rewrite Z.mod_small; lia. }
  assert (Hsum : zlen (ctlvs os) + zlen (ctlv_octets (t0, cr0, d0)) = zlen (ctlvs (os ++ [(t0, cr0, d0)]))).
  { rewrite ctlvs_snoc, zlen_app. lia. }
  unfold u32. rewrite Z.mod_small, (proj2 (Z.ltb_ge _ _)) by lia. rewrite Hsum in *.
  destruct (next_written buf b (pre ++ ctlvs (os ++ [(t0, cr0, d0)])) rest pre (os ++ [(t0, cr0, d0)]) cr tag)
    as (buf' & rest' & Hok & Hzb & Hw'); try done.
  { rewrite Hb, ctlvs_snoc. by rewrite <- !app_assoc. }
  destruct (blit _ _ _) as [buf1| |]; [|done..]. simp_res. rewrite Hok. simp_res.
  do 3 eexists. split_and!; [done|done|done|done|exact Hw'].
Qed.

Lemma next_fresh_ok buf b pre rest cr tag : fresh_builder buf b pre rest -> tag_ok tag ->
  tag_size tag + 1 <= cbuilder_max b ->
  exists buf' b' rest',
    comprehension_tlv_builder_next buf b cr tag = Ret (buf', b') /\
    zlen buf' = zlen buf /\ cbuilder_max b' = cbuilder_max b /\
    cbuilder_parent b' = cbuilder_parent b /\
    writing buf' b' [] (tag, cr, []) pre rest'.
Proof.
  intros [Hb Hp Hpos Hl Hm] Ht Hfit. pose proof (tag_size_range tag).
  unfold comprehension_tlv_builder_next. rewrite Hpos, Z.add_0_r, Hp, Hb, rd_middle by done.
  simp_res. cbn [negb Z.eqb]. simp_res. rewrite next_size_eq. unfold u32. rewrite Z.mod_small, (proj2 (Z.ltb_ge _ _)) by lia.
  destruct (next_written buf b pre (0 :: rest) pre [] cr tag) as (buf' & rest' & Hok & Hzb & Hw'); try done.
  { by rewrite app_nil_r. }
  change (zlen (ctlvs [])) with 0 in *. rewrite Hp in Hok, Hw'. rewrite Hb in Hok. change (0 + 0) with 0.
  destruct (blit _ _ _) as [buf1| |]; [|done..]. simp_res. rewrite Hok. simp_res.
  do 3 eexists. split_and!; [done|by rewrite Hzb, Hb|done|done|exact Hw'].
Qed.

(** ** Lengths set *)

(** Moving the value from behind a length field of [k0] octets to behind one of
    [k]. *)
Lemma move_value (h l0 d rest : list Z) k n : 0 <= n -> 1 <= k -> k + n <= zlen l0 + zlen d + zlen rest ->
  exists y,
    (if (0 <? Z.min (zlen d) n) && negb (k =? zlen l0) then
       value ← slice (h ++ l0 ++ d ++ rest) (zlen h + zlen l0) (Z.min (zlen d) n);
       blit (h ++ l0 ++ d ++ rest) (zlen h + k) value
     else Ret (h ++ l0 ++ d ++ rest)) = Ret (h ++ y) /\
    zlen y = zlen l0 + zlen d + zlen rest /\
    take (Z.to_nat (Z.min (zlen d) n)) (drop (Z.to_nat k) y) = take (Z.to_nat (Z.min (zlen d) n)) d.
Proof.
  intros Hn Hk Hfit. set (m := Z.min (zlen d) n). zlen_pos.
  assert (Hm : 0 <= m <= zlen d /\ m <= n) by lia. set (x := l0 ++ d ++ rest).
  assert (Hx : zlen x = zlen l0 + zlen d + zlen rest) by (unfold x; rewrite !zlen_app; lia).
  destruct (Z.ltb_spec 0 m) as [Hpos|Hnp]; cbn [andb].
  2: { exists x. split_and!; [done|done|]. assert (m = 0) as -> by lia. done. }
  destruct (Z.eqb_spec k (zlen l0)) as [->|Hne]; cbn [negb].
  { exists x. split_and!; [done|done|]. unfold x. rewrite drop_zlen_app by done.
    apply take_app_le. unfold zlen in *. lia. }
  assert (slice (h ++ x) (zlen h + zlen l0) m = Ret (take (Z.to_nat m) d)) as ->.
  { replace (h ++ x) with ((h ++ l0) ++ take (Z.to_nat m) d ++ drop (Z.to_nat m) d ++ rest)
      by (unfold x; by rewrite (app_assoc (take _ _)), take_drop, <- app_assoc).
    apply slice_app; [by rewrite zlen_app|]. rewrite zlen_take. lia. }
  simp_res. exists (take (Z.to_nat k) x ++ take (Z.to_nat m) d ++ drop (Z.to_nat (k + m)) x).
  assert (Hzk : zlen (take (Z.to_nat k) x) = k) by (rewrite zlen_take; lia).
  assert (Hzm : zlen (take (Z.to_nat m) d) = m) by (rewrite zlen_take; lia).
  split_and!.
  - replace (h ++ x) with ((h ++ take (Z.to_nat k) x) ++ take (Z.to_nat m) (drop (Z.to_nat k) x) ++
      drop (Z.to_nat (k + m)) x).
    2: { replace (Z.to_nat (k + m)) with (Z.to_nat k + Z.to_nat m)%nat by lia.
         by rewrite <- drop_drop, take_drop, <- app_assoc, take_drop. }
    rewrite blit_middle; [by rewrite <- app_assoc|rewrite zlen_app; lia|].
    rewrite Hzm, zlen_take, zlen_drop. lia.
  - rewrite !zlen_app, Hzk, Hzm, zlen_drop. lia.
  - rewrite drop_zlen_app by done. rewrite take_app_le; [|unfold zlen in *; lia].
    rewrite take_take. f_equal. lia.
Qed.

Lemma zlen_write_length n : 0 <= n < 2 ^ 16 ->
  zlen (write_length (BTLV_LEN_FIELD_SIZE_NEEDED n) n) = BTLV_LEN_FIELD_SIZE_NEEDED n.
Proof. intros Hn. destruct (len_size_cases n Hn) as (l & ls & -> & _ & ? & _). done. Qed.

Lemma set_length_ok buf b os tag cr d pre rest n bs :
  writing buf b os (tag, cr, d) pre rest -> 0 <= n < 2 ^ 16 ->
  let size := tag_size tag + BTLV_LEN_FIELD_SIZE_NEEDED n + n in
  zlen (ctlvs os) + size <= cbuilder_max b ->
  parent_after (cbuilder_parent b) (zlen (ctlvs os) + size) = Ret bs ->
  exists buf' b' v rest',
    comprehension_tlv_builder_set_length buf b n = Ret (buf', b') /\
    zlen buf' = zlen buf /\ cbuilder_max b' = cbuilder_max b /\ cbuilder_parent b' = bs /\
    writing buf' b' os (tag, cr, v) pre rest' /\ zlen v = n /\
    take (Z.to_nat (Z.min (zlen d) n)) v = take (Z.to_nat (Z.min (zlen d) n)) d.
Proof.
  intros Hw Hn size Hfit Hbs.
  destruct (writing_head _ _ _ _ _ _ _ _ Hw) as (t & l & Hrd & _ & Hts & Hrl & Hls).
  destruct Hw as [Hb Hp Hpos Hl Ht Hs [Hm1 Hm2] Hf]. cbn [fst snd] in *.
  pose proof (tag_size_range tag). pose proof (zlen_nonneg d). pose proof (zlen_nonneg (ctlvs os)).
  pose proof (zlen_write_length n Hn) as Hzw.
  assert (Hk : 1 <= BTLV_LEN_FIELD_SIZE_NEEDED n <= 3).
  { destruct (len_size_cases n Hn) as (? & ? & _ & _ & _ & ?); done. }
  destruct (ctlv_octets_split tag cr d Ht Hs) as (t' & ts & l' & ls & Ho & _ & _ & Hzt & _ & Hzl & Htag & _).
  unfold comprehension_tlv_builder_set_length. rewrite Hrd. simp_res. rewrite Hts, Hrl. simp_res.
  rewrite Hls, Hl. set (k := BTLV_LEN_FIELD_SIZE_NEEDED n) in *. set (k0 := BTLV_LEN_FIELD_SIZE_NEEDED (zlen d)) in *.
  assert (u32 (tag_size tag + k + n) = size) as ->.
  { unfold u32, size. apply Z.mod_small. lia. }
  assert (u32 (cbuilder_pos b + size) = zlen (ctlvs os) + size) as ->.
  { rewrite Hpos. apply Z.mod_small. unfold size in *. lia. }
  rewrite (proj2 (Z.ltb_ge _ _)) by done. rewrite Hbs. simp_res. rewrite Hp, Hpos.
  set (h := pre ++ ctlvs os ++ t' :: ts).
  assert (Hh : zlen pre + zlen (ctlvs os) + tag_size tag = zlen h) by (unfold h; rewrite !zlen_app; lia).
  assert (Hbuf : buf = h ++ (l' :: ls) ++ d ++ rest) by (rewrite Hb, Ho; unfold h; by rewrite <- !app_assoc).
  assert (Hzb : zlen buf = zlen h + k0 + zlen d + zlen rest) by (rewrite Hbuf, !zlen_app; lia).
  rewrite Hh, Hbuf, <- Hzl. destruct (move_value h (l' :: ls) d rest k n) as (y & -> & Hzy & Hy); [lia..|].
  simp_res. rewrite Hzl in Hzy.
  exists (h ++ write_length k n ++ drop (Z.to_nat k) y). eexists.
  exists (take (Z.to_nat n) (drop (Z.to_nat k) y)), (drop (Z.to_nat (k + n)) y).
  assert (Hv : zlen (take (Z.to_nat n) (drop (Z.to_nat k) y)) = n) by (rewrite zlen_take, zlen_drop; lia).
  assert (Hlen : zlen (h ++ write_length k n ++ drop (Z.to_nat k) y) = zlen buf).
  { rewrite !zlen_app, Hzw, zlen_drop. lia. }
  split_and!.
  - rewrite <- (take_drop (Z.to_nat k) y) at 1. rewrite blit_middle by (rewrite ?zlen_take; lia). done.
  - by rewrite Hlen, Hbuf.
  - done.
  - done.
  - split; cbn [fst snd cbuilder_max cbuilder_pos cbuilder_pdu cbuilder_len]; rewrite ?Hv; try done; try lia.
    + unfold ctlv_octets. rewrite Hv, Htag. fold k. unfold h. rewrite <- !app_assoc. do 4 f_equal.
      replace (Z.to_nat (k + n)) with (Z.to_nat k + Z.to_nat n)%nat by lia.
      by rewrite <- drop_drop, take_drop.
    + rewrite zlen_ctlv_octets, Hv by (rewrite ?Hv; try done; lia). unfold size in Hfit. fold k. lia.
  - done.
  - rewrite take_take, Nat.min_l by lia. done.
Qed.

(** ** No room *)

Lemma next_err buf b os o pre rest cr tag : writing buf b os o pre rest -> tag_ok tag ->
  cbuilder_max b < zlen (ctlvs (os ++ [o])) + tag_size tag + 1 ->
  comprehension_tlv_builder_next buf b cr tag = Err.
Proof.
  intros Hw Ht Hfit. destruct o as [[t0 cr0] d0].
  destruct (writing_head _ _ _ _ _ _ _ _ Hw) as (t & l & Hrd & Hne & Hts & Hrl & Hls).
  destruct Hw as [Hb Hp Hpos Hl Ht0 Hs Hm Hf]. cbn [fst snd] in *.
  pose proof (zlen_ctlv_octets t0 cr0 d0 Ht0 Hs) as Hz. rewrite ctlvs_snoc, zlen_app in Hfit. zlen_pos.
  pose proof (tag_size_range tag). pose proof (tag_size_range t0).
  unfold comprehension_tlv_builder_next. rewrite Hrd. simp_res. rewrite (proj2 (Z.eqb_neq t 0)) by done.
  cbn [negb]. rewrite Hts, Hrl. simp_res. rewrite Hls, Hl, Hpos, next_size_eq.
  unfold u32. rewrite (Z.mod_small (zlen d0 + _ + _)) by lia. rewrite Z.mod_small, (proj2 (Z.ltb_lt _ _)) by lia.
  done.
Qed.

Lemma next_fresh_err buf b pre rest cr tag : fresh_builder buf b pre rest -> tag_ok tag ->
  cbuilder_max b < tag_size tag + 1 -> comprehension_tlv_builder_next buf b cr tag = Err.
Proof.
  intros [Hb Hp Hpos Hl Hm] Ht Hfit. pose proof (tag_size_range tag).
  unfold comprehension_tlv_builder_next. rewrite Hpos, Z.add_0_r, Hp, Hb, rd_middle by done.
  simp_res. cbn [negb Z.eqb]. simp_res. rewrite next_size_eq. unfold u32.
  rewrite Z.mod_small, (proj2 (Z.ltb_lt _ _)) by lia. done.
Qed.

Lemma set_length_err buf b os tag cr d pre rest n :
  writing buf b os (tag, cr, d) pre rest -> 0 <= n < 2 ^ 16 ->
  cbuilder_max b < zlen (ctlvs os) + (tag_size tag + BTLV_LEN_FIELD_SIZE_NEEDED n + n) ->
  comprehension_tlv_builder_set_length buf b n = Err.
Proof.
  intros Hw Hn Hfit.
  destruct (writing_head _ _ _ _ _ _ _ _ Hw) as (t & l & Hrd & _ & Hts & Hrl & Hls).
  destruct Hw as [Hb Hp Hpos Hl Ht Hs [Hm1 Hm2] Hf]. cbn [fst snd] in *.
  pose proof (tag_size_range tag). pose proof (zlen_nonneg (ctlvs os)).
  pose proof (zlen_nonneg (ctlv_octets (tag, cr, d))).
  assert (Hk : 1 <= BTLV_LEN_FIELD_SIZE_NEEDED n <= 3).
  { destruct (len_size_cases n Hn) as (? & ? & _ & _ & _ & ?); done. }
  unfold comprehension_tlv_builder_set_length. rewrite Hrd. simp_res. rewrite Hts, Hrl. simp_res.
  unfold u32. rewrite Hpos, !Z.mod_small by (rewrite ?Z.mod_small; lia).
  rewrite (proj2 (Z.ltb_lt _ _)) by lia. done.
Qed.

(** ** Values *)

Lemma get_data_ok buf b os tag cr d pre rest : writing buf b os (tag, cr, d) pre rest ->
  comprehension_tlv_builder_get_data buf b =
  Ret (zlen pre + zlen (ctlvs os) + tag_size tag + BTLV_LEN_FIELD_SIZE_NEEDED (zlen d)).
Proof.
  intros Hw. destruct (writing_head _ _ _ _ _ _ _ _ Hw) as (t & l & Hrd & _ & Hts & Hrl & Hls).
  unfold comprehension_tlv_builder_get_data. rewrite Hrd. simp_res. rewrite Hts, Hrl. simp_res.
  rewrite Hls. by destruct Hw as [_ -> -> _ _ _ _ _].
Qed.

(** A store into the value. *)
Lemma put_value_ok buf b os tag cr d1 d2 d3 bs pre rest :
  writing buf b os (tag, cr, d1 ++ d2 ++ d3) pre rest -> zlen bs = zlen d2 ->
  exists buf',
    blit buf (zlen pre + zlen (ctlvs os) + tag_size tag +
              BTLV_LEN_FIELD_SIZE_NEEDED (zlen (d1 ++ d2 ++ d3)) + zlen d1) bs = Ret buf' /\
    zlen buf' = zlen buf /\ writing buf' b os (tag, cr, d1 ++ bs ++ d3) pre rest.
Proof.
  intros [Hb Hp Hpos Hl Ht Hs Hm Hf] Hz. cbn [fst snd] in *.
  set (d := d1 ++ d2 ++ d3) in *.
  assert (Hd : zlen (d1 ++ bs ++ d3) = zlen d) by (unfold d; rewrite !zlen_app; lia).
  destruct (ctlv_octets_split tag cr d Ht Hs) as (t & ts & l & ls & Ho & _ & _ & Hzt & _ & Hzl & Htag & Hlen).
  rewrite Ho in Hb. set (h := pre ++ ctlvs os ++ (t :: ts) ++ (l :: ls) ++ d1).
  assert (Hh : zlen h = zlen pre + zlen (ctlvs os) + tag_size tag +
            BTLV_LEN_FIELD_SIZE_NEEDED (zlen d) + zlen d1) by (unfold h; rewrite !zlen_app; lia).
  assert (Hbuf : buf = h ++ d2 ++ d3 ++ rest) by (rewrite Hb; unfold h, d; by rewrite <- !app_assoc).
  exists (h ++ bs ++ d3 ++ rest). rewrite <- Hh.
  assert (Hzb : zlen (h ++ bs ++ d3 ++ rest) = zlen buf) by (rewrite Hbuf, !zlen_app; lia).
  split_and!; [rewrite Hbuf; by apply blit_middle|done|].
  assert (Hs' : zlen (d1 ++ bs ++ d3) < 2 ^ 16) by lia.
  pose proof (zlen_ctlv_octets tag cr d Ht Hs) as Hz1.
  pose proof (zlen_ctlv_octets tag cr (d1 ++ bs ++ d3) Ht Hs') as Hz2. rewrite Hd in Hz2.
  split; cbn [fst snd]; try done; [|lia..].
  unfold ctlv_octets. rewrite Hd, Htag, Hlen. unfold h. by rewrite <- !app_assoc.
Qed.

(** ** What was written is read back *)

Lemma land_ff z : Z.land z 0xff = z mod 256.
Proof. change 0xff with (Z.ones 8). by rewrite Z.land_ones. Qed.

Lemma write_length_field w longest n : 16 <= w -> 2 <= longest -> 0 <= n < 2 ^ 16 ->
  length_field w longest n (write_length (BTLV_LEN_FIELD_SIZE_NEEDED n) n).
Proof.
  intros Hw Hl Hn. unfold BTLV_LEN_FIELD_SIZE_NEEDED.
  pose proof (Z.pow_le_mono_r 2 16 w ltac:(lia) Hw) as Hpow.
  destruct (Z.leb_spec n 0x7f); [|destruct (Z.leb_spec n 0xff); [|rewrite (proj2 (Z.leb_le n 0xffff)) by lia]].
  - change (write_length 1 n) with [n mod 256]. rewrite Z.mod_small by lia. constructor. lia.
  - change (write_length 2 n) with [0x81; Z.land (Z.shiftr n 0) 0xff]. rewrite land_ff, Z.shiftr_0_r.
    rewrite Z.mod_small by lia.
    assert (length_field w longest (be_val 256 0 [n] mod 2 ^ w) [0x80 + zlen [n]; n]) as Hf.
    { constructor; [|lia|change (zlen [n]) with 1; lia]. apply Forall_singleton. unfold is_byte. lia. }
    cbn [be_val] in Hf. rewrite Z.add_0_l, Z.mod_small in Hf by lia. exact Hf.
  - change (write_length 3 n) with [0x82; Z.land (Z.shiftr n 8) 0xff; Z.land (Z.shiftr n 0) 0xff].
    rewrite !land_ff, Z.shiftr_0_r, Z.shiftr_div_pow2 by lia. change (2 ^ 8) with 256.
    rewrite (Z.mod_small (n / 256)) by (Z.to_euclidean_division_equations; lia).
    assert (length_field w longest (be_val 256 0 [n / 256; n mod 256] mod 2 ^ w)
              [0x80 + zlen [n / 256; n mod 256]; n / 256; n mod 256]) as Hf.
    { constructor; [|Z.to_euclidean_division_equations; lia|change (zlen _) with 2; lia].
      repeat (apply Forall_cons; split; [unfold is_byte; Z.to_euclidean_division_equations; lia|]).
      by apply Forall_nil. }
    cbn [be_val] in Hf. replace ((0 * 256 + n / 256) * 256 + n mod 256) with n in Hf
      by (pose proof (Z.div_mod n 256); lia).
    rewrite Z.mod_small in Hf by lia. exact Hf.
Qed.

Definition ctlv_ok (o : ctlv) : Prop := tag_ok o.1.1 /\ bytes o.2 /\ zlen o.2 < 2 ^ 16.

Lemma ctlv_octets_object o : ctlv_ok o -> ctlv_object o.1.1 o.1.2 o.2 (ctlv_octets o).
Proof.
  destruct o as [[tag cr] d]. intros (Ht & Hb & Hz). cbn [fst snd] in *.
  exists (ctlv_tag_octets cr tag), (write_length (BTLV_LEN_FIELD_SIZE_NEEDED (zlen d)) (zlen d)).
  split_and!; [|by apply write_length_field; [| |pose proof (zlen_nonneg d)]|done].
  unfold ctlv_tag_octets. unfold tag_ok in Ht. destruct (Z.leb_spec 0x7f tag).
  - rewrite land_ff, Z.shiftr_div_pow2 by lia. change (2 ^ 8) with 256.
    assert (u8 (Z.lor (if cr then 128 else 0) (tag / 256)) = tag / 256 + if cr then 128 else 0) as ->.
    { pose proof (range_forall (fun h => forallb (fun cr : bool =>
        u8 (Z.lor (if cr then 128 else 0) h) =? h + if cr then 128 else 0) [true; false]) 0 128 (tag / 256)
        ltac:(by vm_compute) ltac:(Z.to_euclidean_division_equations; lia)) as H'.
      cbn [forallb] in H'. rewrite !andb_true_iff, !Z.eqb_eq in H'. destruct cr; tauto. }
    replace tag with (tag / 256 * 256 + tag mod 256) at 1 by (pose proof (Z.div_mod tag 256); lia).
    constructor; unfold is_byte; Z.to_euclidean_division_equations; lia.
  - assert (u8 (Z.lor (if cr then 128 else 0) tag) = tag + if cr then 128 else 0) as ->.
    { pose proof (range_forall (fun h => forallb (fun cr : bool =>
        u8 (Z.lor (if cr then 128 else 0) h) =? h + if cr then 128 else 0) [true; false]) 0 128 tag
        ltac:(by vm_compute) ltac:(lia)) as H'.
      cbn [forallb] in H'. rewrite !andb_true_iff, !Z.eqb_eq in H'. destruct cr; tauto. }
    constructor. lia.
Qed.

(** The objects an iterator runs over. *)
Fixpoint ctlv_all (fuel : nat) (it : comprehension_tlv_iter) : res (list ctlv) :=
  match fuel with
  | O => Ub
  | S fuel =>
    match comprehension_tlv_iter_next it with
    | Ret it =>
      data ← comprehension_tlv_iter_get_data it;
      d ← slice data 0 (ctlv_len it);
      os ← ctlv_all fuel it;
      Ret ((ctlv_tag it, ctlv_cr it, d) :: os)
    | Err => Ret []
    | Ub => Ub
    end
  end.

Lemma ctlv_next_end it : ctlv_before it [] -> comprehension_tlv_iter_next it = Err.
Proof.
  intros [_ _ _ He]. change (zlen []) with 0 in He. unfold comprehension_tlv_iter_next.
  by rewrite (proj2 (Z.eqb_eq _ _)) by lia.
Qed.

Lemma ctlv_all_ok os : forall fuel it, ctlv_before it (ctlvs os) -> Forall ctlv_ok os ->
  (length os < fuel)%nat -> ctlv_all fuel it = Ret os.
Proof.
  induction os as [|[[tag cr] d] os IH]; intros fuel it Hat Hok Hf;
    (destruct fuel as [|fuel]; cbn [length] in Hf; [lia|]); cbn [ctlv_all].
  - by rewrite ctlv_next_end.
  - apply Forall_cons in Hok as [Ho Hok]. cbn [ctlvs flat_map] in Hat. fold (ctlvs os) in Hat.
    pose proof (ctlv_octets_object _ Ho) as Hobj. cbn [fst snd] in Hobj.
    rewrite (ctlv_next_complete it tag cr d _ _ Hat Hobj).
    destruct Hobj as (t & l & Ht & Hl & Heq). rewrite Heq in *.
    pose proof Hat as [_ _ Hpos _]. rewrite <- !app_assoc in Hpos.
    apply at_pos_app, at_pos_app in Hpos. unfold comprehension_tlv_iter_get_data.
    cbn [ctlv_pdu ctlv_len ctlv_at ctlv_tag ctlv_cr ctlv_data]. simp_res.
    replace (ctlv_pos it + zlen (t ++ l ++ d) - zlen d) with (ctlv_pos it + zlen t + zlen l)
      by (rewrite !zlen_app; lia).
    destruct Hpos as [Hr ->]. rewrite (at_pos_slice _ 0 d _ (zlen d) (at_pos_0 _) eq_refl). simp_res.
    rewrite IH; [done| |done|lia]. apply at_object_step in Hat. exact Hat.
Qed.

(** * BER objects among octets *)

Lemma ber_object_length class encoding tag value octets :
  ber_object class encoding tag value octets -> 2 + zlen value <= zlen octets.
Proof.
  intros (t & l & Ht & Hl & ->). pose proof (length_field_pos _ _ _ _ Hl).
  destruct (ber_tag_field_head _ _ _ _ Ht) as (c & t' & -> & _). rewrite !zlen_app, zlen_cons. zl.
Qed.

Lemma ber_init_before it pdu len : bytes pdu -> 0 <= len <= zlen pdu -> len < 2 ^ 32 ->
  ber_before (ber_tlv_iter_init it pdu len) (take (Z.to_nat len) pdu).
Proof. intros. by apply at_object_init. Qed.

(** The short form of a tag, 0 when it has none. *)
Definition short_tag (class encoding tag : Z) : Z :=
  if 30 <? tag then 0 else class * 64 + encoding * 32 + tag.

(** [value] is that of the first object in [l] of short tag [tag], behind the
    octets [before]. *)
Inductive found (tag : Z) : list Z -> list Z -> list Z -> Prop :=
  | found_here skipped class encoding n value head rest :
      stuffing skipped -> ber_object class encoding n value (head ++ value) ->
      short_tag class encoding n = tag ->
      found tag (skipped ++ (head ++ value) ++ rest) (skipped ++ head) value
  | found_later skipped class encoding n value octets rest before v :
      stuffing skipped -> ber_object class encoding n value octets ->
      short_tag class encoding n <> tag -> found tag rest before v ->
      found tag (skipped ++ octets ++ rest) (skipped ++ octets ++ before) v.

Lemma ber_tag_field_range class encoding tag t : ber_tag_field class encoding tag t ->
  0 <= class < 4 /\ 0 <= encoding < 2 /\ 0 <= tag.
Proof. destruct 1; split_and!; try lia. by apply Z.mod_pos_bound. Qed.

Lemma get_short_tag_ok it pos class encoding tag len value octets :
  ber_object class encoding tag value octets ->
  ber_tlv_iter_get_short_tag (ber_at it pos class encoding tag len) = short_tag class encoding tag.
Proof.
  intros (t & l & Ht & _ & _). destruct (ber_tag_field_range _ _ _ _ Ht) as (Hc & He & Hn).
  unfold ber_tlv_iter_get_short_tag, short_tag. cbn [ber_tag ber_encoding ber_class ber_at].
  destruct (Z.ltb_spec 30 tag); [done|].
  pose proof (range_forall (fun z => (u8 (Z.lor (Z.lor (z mod 32) (Z.shiftl (z / 32 mod 2) 5)) (Z.shiftl (z / 64) 6)) =? z))
    0 256 (class * 64 + encoding * 32 + tag) ltac:(by vm_compute) ltac:(lia)) as H'.
  cbv beta in H'. apply Z.eqb_eq in H'. destruct (first_octet class encoding tag) as (H6 & H5 & H0); [lia..|].
  by rewrite H6, H5, H0 in H'.
Qed.

(** The first object is one. *)
Lemma ber_unique it sk cl en n v o rest sk' cl' en' n' v' o' rest' :
  ber_before it (sk ++ o ++ rest) -> sk' ++ o' ++ rest' = sk ++ o ++ rest ->
  stuffing sk -> ber_object cl en n v o -> stuffing sk' -> ber_object cl' en' n' v' o' ->
  cl' = cl /\ en' = en /\ n' = n /\ rest' = rest.
Proof.
  intros Hat Heq Hs Ho Hs' Ho'. pose proof (ber_next_complete it _ _ _ _ _ _ _ Hat Hs Ho) as H1.
  rewrite <- Heq in Hat. rewrite (ber_next_complete it _ _ _ _ _ _ _ Hat Hs' Ho') in H1.
  injection H1 as Hpos -> -> -> _ _. split_and!; try done.
  rewrite !app_assoc in Heq. eapply app_inj_1 in Heq; [by destruct Heq|].
  rewrite !length_app. unfold zlen in Hpos. lia.
Qed.

Lemma find_loop_ok tag fuel : forall it l, ber_before it l -> (Z.to_nat (zlen l) < fuel)%nat ->
  (exists before value, found tag l before value /\
     find_by_tag_loop fuel it tag = Ret (ber_pos it + zlen before, zlen value)) \/
  ((forall before value, ~ found tag l before value) /\ find_by_tag_loop fuel it tag = Err).
Proof.
  induction fuel as [|fuel IH]; intros it l Hat Hf; [lia|]. cbn [find_by_tag_loop].
  destruct (ber_next_sound it l Hat) as [Herr|(sk & cl & en & n & v & o & rest & -> & Hs & Hobj)].
  - rewrite Herr. right. split; [|done]. intros before value Hfound.
    inversion Hfound as [sk cl en n v h rest Hs Hobj _|sk cl en n v o rest b v' Hs Hobj _ _]; subst;
      by rewrite (ber_next_complete it _ _ _ _ _ _ _ Hat Hs Hobj) in Herr.
  - rewrite (ber_next_complete it _ _ _ _ _ _ _ Hat Hs Hobj). simp_res.
    rewrite (get_short_tag_ok _ _ _ _ _ _ _ _ Hobj).
    pose proof (ber_object_length _ _ _ _ _ Hobj) as Hlen. pose proof (zlen_nonneg v).
    destruct (Z.eqb_spec (short_tag cl en n) tag) as [Heq|Hne].
    + left. pose proof Hobj as (t & f & Ht & Hfl & ->). rewrite app_assoc in Hobj.
      exists (sk ++ t ++ f), v. split; [rewrite (app_assoc t); by econstructor|].
      cbn [ber_data ber_len ber_at]. rewrite !zlen_app. do 2 f_equal. lia.
    + rewrite !zlen_app in Hf. zlen_pos.
      assert (Hat' : ber_before (ber_at it (ber_pos it + zlen sk + zlen o) cl en n (zlen v)) rest).
      { apply at_object_step, at_object_step in Hat. exact Hat. }
      destruct (IH _ rest Hat') as [(b & v' & Hfound & ->)|[Hno ->]]; [lia| |].
      * left. exists (sk ++ o ++ b), v'. split; [by econstructor|]. cbn [ber_pos ber_at].
        rewrite !zlen_app. do 2 f_equal. lia.
      * right. split; [|done]. intros before value Hfound.
        inversion Hfound as [sk' cl' en' n' v' h rest' Hs' Hobj' Htag Heq|
          sk' cl' en' n' v' o' rest' b' w Hs' Hobj' Htag Hf' Heq]; subst;
          destruct (ber_unique it _ _ _ _ _ _ _ _ _ _ _ _ _ _ Hat Heq Hs Hobj Hs' Hobj')
            as (-> & -> & -> & ->); [done|]. by apply (Hno b' value).
Qed.

(** ** Properties *)

(** C22: On any octets, [ber_tlv_iter_next] skips the stuffing and takes the
    object behind it, whose class, encoding, tag, length and value are those of
    ISO 7816-4 for tags and lengths of 32 bits, and is FALSE when there is none,
    in particular when it is cut short or a length or a tag is malformed; it
    reads no octet outside the array. *)
Theorem ber_next_spec it l : ber_before it l ->
  (exists skipped class encoding tag value octets rest,
     l = skipped ++ octets ++ rest /\ stuffing skipped /\
     ber_object class encoding tag value octets /\
     let pos := ber_pos it + zlen skipped + zlen octets in
     ber_tlv_iter_next it = Ret (ber_at it pos class encoding tag (zlen value)) /\
     ber_before (ber_at it pos class encoding tag (zlen value)) rest) \/
  ((forall skipped class encoding tag value octets rest,
      stuffing skipped -> ber_object class encoding tag value octets ->
      l <> skipped ++ octets ++ rest) /\
   ber_tlv_iter_next it = Err).
Proof.
  intros Hat. destruct (ber_next_sound it l Hat) as [Herr|(sk & cl & en & n & v & o & rest & -> & Hs & Hobj)].
  - right. split; [|done]. intros sk cl en n v o rest Hs Hobj ->.
    by rewrite (ber_next_complete it _ _ _ _ _ _ _ Hat Hs Hobj) in Herr.
  - left. exists sk, cl, en, n, v, o, rest. split_and!; [done|done|done|]. cbv zeta. split.
    + by rewrite (ber_next_complete it _ _ _ _ _ _ _ Hat Hs Hobj).
    + apply at_object_step, at_object_step in Hat. exact Hat.
Qed.

(** C24: [ber_tlv_find_by_tag] ends on any octets of any length and gives the
    value of the first object of that short tag, or NULL when what precedes the
    first malformed object has none. *)
Theorem find_by_tag_spec pdu in_tag in_len :
  bytes pdu -> 0 <= in_len <= zlen pdu -> in_len < 2 ^ 32 ->
  let l := take (Z.to_nat in_len) pdu in
  (exists before value, found in_tag l before value /\
     ber_tlv_find_by_tag pdu in_tag in_len = Ret (zlen before, zlen value)) \/
  ((forall before value, ~ found in_tag l before value) /\
   ber_tlv_find_by_tag pdu in_tag in_len = Err).
Proof.
  intros Hb Hl Hm l.
  destruct (find_loop_ok in_tag (S (Z.to_nat in_len)) _ l (ber_init_before no_object pdu in_len Hb Hl Hm))
    as [(b & v & Hf & H)|[Hno H]].
  - unfold l. rewrite zlen_take. lia.
  - left. by exists b, v.
  - right. by split.
Qed.

(** * Concrete runs *)

(** Stuffing, an object of tag 0x80 with a long length, and one of tag 0x5F2D. *)
Definition sample_objects : list Z :=
  [0xff; 0x80; 0x81; 0x02; 0x11; 0x22; 0x00; 0x5f; 0x2d; 0x02; 0x65; 0x6e].

Lemma ber_next_spec_witness :
  ber_tlv_iter_next (ber_tlv_iter_init no_object sample_objects 12) =
  Ret (ber_at (ber_tlv_iter_init no_object sample_objects 12) 6 2 0 0 2).
Proof.
  destruct (ber_next_spec (ber_tlv_iter_init no_object sample_objects 12) sample_objects)
    as [(sk & cl & en & n & v & o & rest & _ & _ & _ & H & _)|[_ H]].
  - apply (ber_init_before no_object sample_objects 12); [apply (bool_decide_unpack _); by vm_compute| |done].
    change (zlen sample_objects) with 12. lia.
  - reflexivity.
  - discriminate H.
Defined.

Lemma find_by_tag_spec_witness : ber_tlv_find_by_tag sample_objects 0x80 12 = Ret (4, 2).
Proof.
  destruct (find_by_tag_spec sample_objects 0x80 12) as [(b & v & _ & H)|[_ H]].
  - apply (bool_decide_unpack _). by vm_compute.
  - change (zlen sample_objects) with 12. lia.
  - done.
  - reflexivity.
  - discriminate H.
Defined.
