(* ===== verification/SimFile.v ===== *)
(** Contents of SIM files, of src/src/simutil.c: dialling numbers, network
    codes, the display lists of the service provider, operator names, the file
    database, the responses to SELECT, service tables, the application
    directory and authentication. *)
From S2P Require Import Prelude Charset SevenBit SmsField SimTlv.

(** * Digits *)

(** The character of a digit of extended BCD; the last one is NUL. *)
Definition sim_digit_lut : list Z :=
  [48; 49; 50; 51; 52; 53; 54; 55; 56; 57; 42; 35; 99; 63; 101; 0].

(** The digits of a network code. *)
Definition plmn_digit_lut : list Z :=
  [48; 49; 50; 51; 52; 53; 54; 55; 56; 57; 42; 35; 97; 98; 100; 0].

Definition lut_char (lut : list Z) (digit : Z) : Z := nth (Z.to_nat digit) lut 0.

(** to_semi_oct() of simutil.c. *)
Definition sim_to_semi_oct (c : Z) : Z :=
  if (48 <=? c) && (c <=? 57) then c - 48
  else if c =? 42 then 10
  else if c =? 35 then 11
  else if (c =? 67) || (c =? 99) then 12
  else if c =? 63 then 13
  else if (c =? 69) || (c =? 101) then 14
  else -1.

Fixpoint bcd_chars (buf : list Z) : list Z :=
  match buf with
  | [] => []
  | oct :: buf =>
      lut_char sim_digit_lut (Z.land oct 0x0f) ::
      lut_char sim_digit_lut (Z.shiftr (Z.land oct 0xf0) 4) :: bcd_chars buf
  end.

(** The characters stored in [out], which the caller provides with room for
    [cap] of them; the string is what precedes the first NUL. *)
Definition sim_extract_bcd_number (buf : list Z) (len cap : Z) : res (list Z) :=
  let len := Z.max len 0 in
  buf ← slice buf 0 len;
  put cap [] (bcd_chars buf ++ [0]).

(** The octets stored from [out] on. *)
Fixpoint sim_encode_bcd_number (number : list Z) : list Z :=
  match number with
  | [] => []
  | [c] => [u8 (Z.lor (sim_to_semi_oct c) 0xf0)]
  | c :: d :: number =>
      u8 (Z.lor (u8 (sim_to_semi_oct c)) (Z.shiftl (sim_to_semi_oct d) 4)) ::
      sim_encode_bcd_number number
  end.

(** mcc and mnc, three characters each. *)
Definition sim_parse_mcc_mnc (bcd : list Z) : res (list Z * list Z) :=
  b0 ← rd bcd 0;
  b1 ← rd bcd 1;
  b2 ← rd bcd 2;
  let digit b shift := lut_char plmn_digit_lut (Z.land (Z.shiftr b shift) 0xf) in
  Ret ([digit b0 0; digit b0 4; digit b1 0], [digit b2 0; digit b2 4; digit b1 4]).

(** The three octets stored; [mcc] and [mnc] are NUL-terminated arrays. *)
Definition sim_encode_mcc_mnc (mcc mnc : list Z) : res (list Z) :=
  c0 ← rd mcc 0;
  c1 ← rd mcc 1;
  c2 ← rd mcc 2;
  n0 ← rd mnc 0;
  n1 ← rd mnc 1;
  n2 ← rd mnc 2;
  let third c := if negb (c =? 0) then sim_to_semi_oct c else 0xf in
  let pair lo hi := u8 (Z.lor (u8 lo) (Z.shiftl hi 4)) in
  Ret [pair (sim_to_semi_oct c0) (sim_to_semi_oct c1); pair (third c2) (third n2);
       pair (sim_to_semi_oct n0) (sim_to_semi_oct n1)].

(** * Dialling numbers *)

Record ofono_phone_number := { ph_number : list Z; ph_type : Z }.

Definition OFONO_MAX_PHONE_NUMBER_LENGTH : Z := 80.

Section Names.
Context `{U : Utf8} `{G : GlibUtf8}.

(** The number, and the identifier, [None] for NULL; [wants_identifier]: the
    caller passed a pointer for it. *)
Definition sim_adn_parse (data : list Z) (length : Z) (wants_identifier : bool)
    : res (ofono_phone_number * option (list Z)) :=
  if length <? 14 then Err
  else
    let alpha_length := length - 14 in
    number_len ← rd data alpha_length;
    ton_npi ← rd data (alpha_length + 1);
    if (11 <? number_len) || (ton_npi =? 0xff) then Err
    else
      chars ← sim_extract_bcd_number (drop (Z.to_nat (alpha_length + 2)) data) (number_len - 1)
                (OFONO_MAX_PHONE_NUMBER_LENGTH + 1);
      let ph := {| ph_number := cstr chars; ph_type := ton_npi |} in
      if negb wants_identifier then Ret (ph, None)
      else if 0 <? alpha_length then
        match sim_string_to_utf8 data alpha_length with
        | Ret s => Ret (ph, Some s)
        | Err => Ret (ph, None)
        | Ub => Ub
        end
      else Ret (ph, None).

(** [data] after the call.  The octets of the alpha identifier, those of the
    number and what fills them are stored one after the other; a fill of
    negative length is undefined. *)
Definition fill_ff (n : Z) : res (list Z) := if n <? 0 then Ub else Ret (replicate (Z.to_nat n) 0xff).

Definition sim_adn_build (data : list Z) (length : Z) (ph : ofono_phone_number)
    (identifier : option (list Z)) : res (list Z) :=
  let alpha_length := length - 14 in
  alpha ←
    (if 0 <? alpha_length then
       alpha ←
         match identifier with
         | None => Ret []
         | Some identifier =>
           match utf8_to_sim_string (identifier ++ [0]) alpha_length with
           | Ret (alpha, alpha_written) => slice alpha 0 alpha_written
           | Err => Ret []
           | Ub => Ub
           end
         end;
       fill ← fill_ff (alpha_length - zlen alpha);
       Ret (alpha ++ fill)
     else Ret []);
  let number := sim_encode_bcd_number (ph_number ph) in
  let number_len := Z.quot (zlen (ph_number ph) + 1) 2 in
  fill ← fill_ff (10 - number_len);
  blit data 0 (alpha ++ [u8 (number_len + 1); u8 (ph_type ph)] ++ number ++ fill ++ [0xff; 0xff]).

(** * Names of networks *)

(** The name, [None] for NULL, and [*add_ci], [None] when it is not stored. *)
Definition sim_network_name_parse (buffer : list Z) (length : Z)
    : res (option (list Z) * option bool) :=
  if length <? 2 then Ret (None, None)
  else
    dcs ← rd buffer 0;
    let buffer := drop 1 buffer in
    let length := length - 1 in
    let ci := has dcs (Z.shiftl 1 4) in
    let coding := Z.land dcs (Z.shiftl 7 4) in
    if coding =? 0x00 then
      let spare_bits := Z.land dcs 0x07 in
      let num_char := Z.quot (length * 8 - spare_bits) 7 in
      match unpack_7bit buffer length 0 false num_char 0 with
      | Ret unpacked =>
        r ← convert_gsm_to_utf8 unpacked (zlen unpacked) 0;
        Ret (conv_res r, Some ci)
      | Err => Ret (None, Some ci)
      | Ub => Ub
      end
    else if coding =? 0x10 then
      last ← (if Z.rem length 2 =? 1 then rd buffer (length - 1) else Ret 0xff);
      if negb (last =? 0xff) then Ret (None, None)
      else
        let length := length - Z.rem length 2 in
        octets ← slice buffer 0 length;
        Ret (l_utf8_from_ucs2be octets, Some ci)
    else Ret (None, Some ci).

(** ** Service provider display information *)

Definition spdi_operator : Type := list Z * list Z.

(** strcmp() < 0, on strings *)
Fixpoint strcmp (a b : list Z) : Z :=
  match a, b with
  | [], [] => 0
  | [], y :: _ => - y
  | x :: _, [] => x
  | x :: a, y :: b => if x =? y then strcmp a b else x - y
  end.

Definition spdi_operator_compare (a b : spdi_operator) : Z :=
  let r := strcmp (fst a) (fst b) in
  if negb (r =? 0) then r else strcmp (snd a) (snd b).

(** g_slist_insert_sorted(): before the first element that is greater or equal. *)
Fixpoint g_slist_insert_sorted {A} (compare : A -> A -> Z) (l : list A) (x : A) : list A :=
  match l with
  | [] => [x]
  | y :: l' => if 0 <? compare x y then y :: g_slist_insert_sorted compare l' x else x :: l
  end.

Fixpoint spdi_loop (n : nat) (plmn_list : list Z) (operators : list spdi_operator)
    : res (list spdi_operator) :=
  match n with
  | O => Ret operators
  | S n =>
    b0 ← rd plmn_list 0;
    b1 ← rd plmn_list 1;
    b2 ← rd plmn_list 2;
    operators ←
      (if Z.land (Z.land b0 b1) b2 =? 0xff then Ret operators
       else
         '(mcc, mnc) ← sim_parse_mcc_mnc plmn_list;
         Ret (g_slist_insert_sorted spdi_operator_compare operators (cstr mcc, cstr mnc)));
    spdi_loop n (drop 3 plmn_list) operators
  end.

Definition sim_spdi_new (tlv : list Z) (length : Z) : res (list spdi_operator) :=
  if length <? 7 then Err
  else
    '(off, tlv_length) ← ber_tlv_find_by_tag tlv 0xA3 length;
    let plmn_list_tlv := drop (Z.to_nat off) tlv in
    '(off, list_length) ← ber_tlv_find_by_tag plmn_list_tlv 0x80 tlv_length;
    spdi_loop (Z.to_nat (Z.quot list_length 3)) (drop (Z.to_nat off) plmn_list_tlv) [].

(** [None] for a NULL list; mcc and mnc are cut to three characters. *)
Definition sim_spdi_lookup (spdi : option (list spdi_operator)) (mcc mnc : list Z) : bool :=
  match spdi with
  | None => false
  | Some operators =>
      existsb (fun op => spdi_operator_compare op (take 3 mcc, take 3 mnc) =? 0) operators
  end.

(** ** Operator names *)

Record sim_eons_operator_info := {
  longname : option (list Z); long_ci : bool;
  shortname : option (list Z); short_ci : bool;
  info : option (list Z)
}.

Record opl_operator := {
  opl_mcc : list Z; opl_mnc : list Z; lac_tac_low : Z; lac_tac_high : Z; opl_id : Z
}.

Record sim_eons := {
  pnn_list : list sim_eons_operator_info; opl_list : list opl_operator;
  pnn_valid : bool; pnn_max : Z
}.

Definition no_operator : sim_eons_operator_info :=
  {| longname := None; long_ci := false; shortname := None; short_ci := false; info := None |}.

Definition sim_eons_new (pnn_records : Z) : sim_eons :=
  {| pnn_list := replicate (Z.to_nat pnn_records) no_operator; opl_list := []; pnn_valid := false;
     pnn_max := pnn_records |}.

Definition sim_eons_pnn_is_empty (eons : sim_eons) : bool := negb (pnn_valid eons).

(** The name of tag [tag], [None] when it is absent or empty. *)
Definition pnn_value (tlv : list Z) (tag length : Z) : res (option (list Z * Z)) :=
  match ber_tlv_find_by_tag tlv tag length with
  | Ret (off, namelength) =>
      Ret (if namelength =? 0 then None else Some (drop (Z.to_nat off) tlv, namelength))
  | Err => Ret None
  | Ub => Ub
  end.

Definition sim_eons_add_pnn_record (eons : sim_eons) (record : Z) (tlv : list Z) (length : Z)
    : res sim_eons :=
  name ← pnn_value tlv 0x43 length;
  match name with
  | None => Ret eons
  | Some (name, namelength) =>
    oper ← rd (pnn_list eons) (record - 1);
    '(long, ci) ← sim_network_name_parse name namelength;
    let long_ci := default (long_ci oper) ci in
    short ← pnn_value tlv 0x45 length;
    '(short, short_ci) ←
      match short with
      | Some (name, namelength) =>
          '(s, ci) ← sim_network_name_parse name namelength; Ret (s, default (short_ci oper) ci)
      | None => Ret (shortname oper, short_ci oper)
      end;
    plmn ← pnn_value tlv 0x80 length;
    info ←
      match plmn with
      | Some (name, namelength) =>
          match sim_string_to_utf8 name namelength with
          | Ret s => Ret (Some s)
          | Err => Ret None
          | Ub => Ub
          end
      | None => Ret (info oper)
      end;
    l ← wr (pnn_list eons) (record - 1)
          {| longname := long; long_ci := long_ci; shortname := short; short_ci := short_ci; info := info |};
    Ret {| pnn_list := l; opl_list := opl_list eons; pnn_valid := true; pnn_max := pnn_max eons |}
  end.

Definition opl_operator_alloc (record : list Z) : res opl_operator :=
  '(mcc, mnc) ← sim_parse_mcc_mnc record;
  r3 ← rd record 3;
  r4 ← rd record 4;
  r5 ← rd record 5;
  r6 ← rd record 6;
  r7 ← rd record 7;
  Ret {| opl_mcc := mcc; opl_mnc := mnc; lac_tac_low := Z.lor (Z.shiftl r3 8) r4;
         lac_tac_high := Z.lor (Z.shiftl r5 8) r6; opl_id := r7 |}.

Definition sim_eons_add_opl_record (eons : sim_eons) (contents : list Z) : res sim_eons :=
  oper ← opl_operator_alloc contents;
  if pnn_max eons <? opl_id oper then Ret eons
  else Ret {| pnn_list := pnn_list eons; opl_list := oper :: opl_list eons;
              pnn_valid := pnn_valid eons; pnn_max := pnn_max eons |}.

Definition sim_eons_optimize (eons : sim_eons) : sim_eons :=
  {| pnn_list := pnn_list eons; opl_list := reverse (opl_list eons); pnn_valid := pnn_valid eons;
     pnn_max := pnn_max eons |}.

(** Whether the loop over [n] characters gets to its end: [b] in the record
    stands for any digit; [chars] is a NUL-terminated array. *)
Fixpoint plmn_match (n : nat) (i : Z) (chars opl : list Z) : res bool :=
  match n with
  | O => Ret true
  | S n =>
    c ← rd chars i;
    o ← rd opl i;
    if negb (c =? o) && negb ((o =? 98) && negb (c =? 0)) then Ret false
    else plmn_match n (i + 1) chars opl
  end.

(** The record the loop stops at, [None] when it ran to the end. *)
Fixpoint opl_search (l : list opl_operator) (mcc mnc : list Z) (have_lac : bool) (lac : Z)
    : res (option opl_operator) :=
  match l with
  | [] => Ret None
  | opl :: l =>
    same_mcc ← plmn_match 3 0 mcc (opl_mcc opl);
    if negb same_mcc then opl_search l mcc mnc have_lac lac
    else
      same_mnc ← plmn_match 3 0 mnc (opl_mnc opl);
      if negb same_mnc then opl_search l mcc mnc have_lac lac
      else if (lac_tac_low opl =? 0) && (lac_tac_high opl =? 0xfffe) then Ret (Some opl)
      else if negb have_lac then opl_search l mcc mnc have_lac lac
      else if (lac_tac_low opl <=? lac) && (lac <=? lac_tac_high opl) then Ret (Some opl)
      else opl_search l mcc mnc have_lac lac
  end.

(** The index of the operator in [pnn_list], [Err] for NULL. *)
Definition sim_eons_lookup_common (eons : sim_eons) (mcc mnc : list Z) (have_lac : bool) (lac : Z)
    : res Z :=
  r ← opl_search (opl_list eons) mcc mnc have_lac lac;
  match r with
  | None => Err
  | Some opl => if opl_id opl =? 0 then Err else Ret (opl_id opl - 1)
  end.

Definition sim_eons_lookup (eons : sim_eons) (mcc mnc : list Z) : res Z :=
  sim_eons_lookup_common eons mcc mnc false 0.

Definition sim_eons_lookup_with_lac (eons : sim_eons) (mcc mnc : list Z) (lac : Z) : res Z :=
  sim_eons_lookup_common eons mcc mnc true lac.

(** * The file database *)

Record sim_ef_info := {
  ef_id : Z; parent2g : Z; parent3g : Z; file_type : Z; file_structure : Z; ef_size : Z;
  perm_read : Z; perm_update : Z
}.

Definition ROOTMF : Z := 0x3F00.

Definition ef_db : list sim_ef_info :=
  [Build_sim_ef_info 0x2F05 ROOTMF ROOTMF 4 0 0 0 1;
   Build_sim_ef_info 0x2FE2 ROOTMF ROOTMF 4 0 10 0 15;
   Build_sim_ef_info 0x4F20 0x5F50 0x5F50 4 0 0 1 4;
   Build_sim_ef_info 0x5F50 0x7F10 0x7F10 2 0 0 1 4;
   Build_sim_ef_info 0x6F05 0x7F20 0x7FFF 4 0 0 0 1;
   Build_sim_ef_info 0x6F07 0x7F20 0x7FFF 4 0 9 1 4;
   Build_sim_ef_info 0x6F11 0x7F20 0x7FFF 4 0 0 1 1;
   Build_sim_ef_info 0x6F13 0x7F20 0x7FFF 4 0 0 1 1;
   Build_sim_ef_info 0x6F14 0x7F20 0x7FFF 4 0 0 1 4;
   Build_sim_ef_info 0x6F15 0x7F20 0x7FFF 4 0 0 1 1;
   Build_sim_ef_info 0x6F16 0x7F20 0x7FFF 4 0 0 1 4;
   Build_sim_ef_info 0x6F17 0x7F20 0x7FFF 4 1 0 1 1;
   Build_sim_ef_info 0x6F18 0x7F20 0x7FFF 4 0 10 1 4;
   Build_sim_ef_info 0x6F19 0x7F20 0x7FFF 4 1 0 1 1;
   Build_sim_ef_info 0x6F38 0x7F20 0x7FFF 4 0 0 1 4;
   Build_sim_ef_info 0x6F3A 0x7F10 0x7F10 4 1 0 1 1;
   Build_sim_ef_info 0x6F3B 0x7F10 0x7FFF 4 1 0 1 2;
   Build_sim_ef_info 0x6F40 0x7F10 0x7FFF 4 1 0 1 1;
   Build_sim_ef_info 0x6F45 0x7F20 0x7FFF 4 0 0 1 1;
   Build_sim_ef_info 0x6F46 0x7F20 0x7FFF 4 0 17 0 4;
   Build_sim_ef_info 0x6F48 0x7F20 0x7FFF 4 0 0 1 4;
   Build_sim_ef_info 0x6F49 0x7F10 0x7FFF 4 1 0 1 4;
   Build_sim_ef_info 0x6F4D 0x7F20 0x7FFF 4 1 0 1 2;
   Build_sim_ef_info 0x6F50 0x7F20 0x7FFF 4 0 0 1 1;
   Build_sim_ef_info 0x6F56 0x0000 0x7FFF 4 0 0 1 2;
   Build_sim_ef_info 0x6F57 0x7F20 0x7FFF 4 0 0 1 2;
   Build_sim_ef_info 0x6FAD 0x7F20 0x7FFF 4 0 0 0 4;
   Build_sim_ef_info 0x6FAE 0x7F20 0x0000 4 0 1 0 4;
   Build_sim_ef_info 0x6FB7 0x7F20 0x7FFF 4 0 0 0 4;
   Build_sim_ef_info 0x6FC5 0x7F20 0x7FFF 4 1 0 0 4;
   Build_sim_ef_info 0x6FC6 0x7F20 0x7FFF 4 1 0 0 4;
   Build_sim_ef_info 0x6FC7 0x7F20 0x7FFF 4 1 0 1 1;
   Build_sim_ef_info 0x6FC9 0x7F20 0x7FFF 4 1 0 1 1;
   Build_sim_ef_info 0x6FCA 0x7F20 0x7FFF 4 1 0 1 1;
   Build_sim_ef_info 0x6FCB 0x7F20 0x7FFF 4 1 16 1 1;
   Build_sim_ef_info 0x6FCD 0x7F20 0x7FFF 4 0 0 1 4;
   Build_sim_ef_info 0x6FDE 0x7F20 0x7FFF 4 0 0 0 4;
   Build_sim_ef_info 0x7F10 ROOTMF ROOTMF 2 0 0 0 0;
   Build_sim_ef_info 0x7F20 ROOTMF ROOTMF 2 0 0 0 0;
   Build_sim_ef_info 0x7FFF 0x0000 ROOTMF 2 0 0 0 0].

Definition find_ef_by_id (id : Z) (info : sim_ef_info) : Z := id - ef_id info.

(** bsearch() of the C library on the elements [l, u) of the table. *)
Fixpoint ef_bsearch (fuel : nat) (id : Z) (table : list sim_ef_info) (l u : Z)
    : option sim_ef_info :=
  match fuel with
  | O => None
  | S fuel =>
    if l <? u then
      let idx := (l + u) / 2 in
      match table !! Z.to_nat idx with
      | None => None
      | Some info =>
        let cmp := find_ef_by_id id info in
        if cmp <? 0 then ef_bsearch fuel id table l idx
        else if 0 <? cmp then ef_bsearch fuel id table (idx + 1) u
        else Some info
      end
    else None
  end.

Definition sim_ef_db_lookup (id : Z) : option sim_ef_info :=
  ef_bsearch (S (length ef_db)) id ef_db 0 (zlen ef_db).

(** The octets of the file [parent], low one first, behind [path], an array of
    6. *)
Definition path_put (path : list Z) (parent : Z) : res (list Z) :=
  put 6 path [Z.land parent 0xff; Z.shiftr parent 8].

Fixpoint path_loop (fuel : nat) (parent : sim_ef_info -> Z) (info : sim_ef_info) (path : list Z)
    : res (list Z) :=
  match fuel with
  | O => Ub
  | S fuel =>
    if negb (parent info =? ROOTMF) then
      match sim_ef_db_lookup (parent info) with
      | None => Err
      | Some info => path ← path_put path (parent info); path_loop fuel parent info path
      end
    else Ret path
  end.

(** The path, [Err] for 0. *)
Definition ef_db_path (parent : sim_ef_info -> Z) (id : Z) : res (list Z) :=
  match sim_ef_db_lookup id with
  | None => Err
  | Some info =>
    path ← path_put [] (parent info);
    path ← path_loop (S (length ef_db)) parent info path;
    Ret (reverse path)
  end.

Definition sim_ef_db_get_path_2g (id : Z) : res (list Z) := ef_db_path parent2g id.
Definition sim_ef_db_get_path_3g (id : Z) : res (list Z) := ef_db_path parent3g id.

(** * Responses to SELECT *)

Record sim_file_info := {
  file_len : Z; record_len : Z; structure : Z; access : list Z; efid : Z
}.

(** The offset into [data], relative to which it is found at [base]. *)
Definition find_in (data : list Z) (base tag len : Z) : res (Z * Z) :=
  '(off, n) ← ber_tlv_find_by_tag (drop (Z.to_nat base) data) tag len; Ret (base + off, n).

(** [for (i = 1; i < tlv_length; i++) flen = (flen << 8) | tlv[i];]: an int. *)
Fixpoint file_size (n : nat) (tlv : list Z) (i flen : Z) : res Z :=
  match n with
  | O => Ret flen
  | S n => c ← rd tlv i; file_size n tlv (i + 1) (s32 (Z.lor (Z.shiftl flen 8) c))
  end.

Definition sim_parse_3g_get_response (data : list Z) (len : Z) : res sim_file_info :=
  '(fcp, fcp_length) ← find_in data 0 0x62 len;
  '(tlv, tlv_length) ← find_in data fcp 0x80 fcp_length;
  if tlv_length <? 2 then Err
  else
    b0 ← rd data tlv;
    flen ← file_size (Z.to_nat (tlv_length - 1)) (drop (Z.to_nat tlv) data) 1 b0;
    '(tlv, tlv_length) ← find_in data fcp 0x83 fcp_length;
    if negb (tlv_length =? 2) then Err
    else
      h ← rd data tlv;
      l ← rd data (tlv + 1);
      let id := Z.lor (Z.shiftl h 8) l in
      '(tlv, tlv_length) ← find_in data fcp 0x82 fcp_length;
      if negb (tlv_length =? 2) && negb (tlv_length =? 5) then Err
      else
        b1 ← rd data (tlv + 1);
        if negb (b1 =? 0x21) then Err
        else
          b0 ← rd data tlv;
          let kind := Z.land b0 0x7 in
          str ← (if kind =? 1 then Ret 0x00 else if kind =? 2 then Ret 0x01
                 else if kind =? 6 then Ret 0x03 else Err);
          if negb (str =? 0x00) && negb (tlv_length =? 5) then Err
          else
            rlen ← (if negb (str =? 0x00) then rd data (tlv + 3) else Ret 0);
            let acc0 :=
              match sim_ef_db_lookup id with
              | None => 0x11
              | Some info => u8 (Z.lor (Z.shiftl (perm_read info) 4) (perm_update info))
              end in
            Ret {| file_len := flen; record_len := rlen; structure := str;
                   access := [acc0; if str =? 0x03 then 0x1f else 0xff; 0x44]; efid := id |}.

(** With the file status. *)
Definition sim_parse_2g_get_response (response : list Z) (len : Z) : res (sim_file_info * Z) :=
  if len <? 14 then Err
  else
    r6 ← rd response 6;
    if negb (r6 =? 0x04) then Err
    else
      str ← rd response 13;
      if ((str =? 0x01) || (str =? 0x03)) && (len <? 15) then Err
      else
        r2 ← rd response 2;
        r3 ← rd response 3;
        r8 ← rd response 8;
        r9 ← rd response 9;
        r10 ← rd response 10;
        status ← rd response 11;
        rlen ← (if (str =? 0x01) || (str =? 0x03) then rd response 14 else Ret 0);
        Ret ({| file_len := Z.lor (Z.shiftl r2 8) r3; record_len := rlen; structure := str;
                access := [r8; r9; r10]; efid := 0 |}, status).

(** * Service tables *)

Definition sim_ust_is_available (efust : list Z) (len index : Z) : res bool :=
  if len * 8 <=? index then Ret false
  else b ← rd efust (index / 8); Ret (has (Z.shiftr b (index mod 8)) 1).

Definition sim_est_is_active (efest : list Z) (len index : Z) : res bool :=
  if len * 8 <=? index then Ret false
  else b ← rd efest (index / 8); Ret (has (Z.shiftr b (index mod 8)) 1).

Definition sim_sst_is_available (efsst : list Z) (len index : Z) : res bool :=
  if len * 4 <=? index then Ret false
  else b ← rd efsst (index / 4); Ret (has (Z.shiftr b (index mod 4 * 2)) 1).

Definition sim_sst_is_active (efsst : list Z) (len index : Z) : res bool :=
  if len * 4 <=? index then Ret false
  else b ← rd efsst (index / 4); Ret (has (Z.shiftr b (index mod 4 * 2 + 1)) 1).

Definition sim_cphs_is_active (cphs : list Z) (index : Z) : res bool :=
  if 2 * 4 <=? index then Ret false
  else b ← rd cphs (index / 4); Ret (Z.land (Z.shiftr b (index mod 4 * 2)) 3 =? 3).

(** * The application directory *)

Record sim_app_record := { aid : list Z; label : option (list Z); app_type : Z }.

(** [type] reads octets 5 and 6 of the array of 16, undefined when the
    identifier is shorter. *)
Definition app_record (data : list Z) (dataobj dataobj_len : Z) : res sim_app_record :=
  '(off, aid_len) ← find_in data dataobj 0x4f dataobj_len;
  if (aid_len <? 0x01) || (0x10 <? aid_len) then Err
  else
    aid ← slice data off aid_len;
    a5 ← rd aid 5;
    a6 ← rd aid 6;
    let app_type := Z.lor (Z.shiftl a5 8) a6 in
    match find_in data dataobj 0x50 dataobj_len with
    | Ret (off, label_len) =>
        label ← sim_string_to_utf8 (drop (Z.to_nat off) data) label_len;
        Ret {| aid := aid; label := Some label; app_type := app_type |}
    | Err => Ret {| aid := aid; label := None; app_type := app_type |}
    | Ub => Ub
    end.

(** The records, latest first; [Err] for NULL on an error. *)
Fixpoint app_loop (fuel : nat) (data : list Z) (buffer len : Z) (ret : list sim_app_record)
    : res (list sim_app_record) :=
  match fuel with
  | O => Ub
  | S fuel =>
    match find_in data buffer 0x61 len with
    | Ret (dataobj, dataobj_len) =>
        app ← app_record data dataobj dataobj_len;
        app_loop fuel data (dataobj + dataobj_len) (len - (dataobj - buffer + dataobj_len)) (app :: ret)
    | Err => Ret ret
    | Ub => Ub
    end
  end.

Definition sim_parse_app_template_entries (buffer : list Z) (len : Z) : res (list sim_app_record) :=
  app_loop (S (Z.to_nat len)) buffer 0 len [].

(** * Authentication *)

(** [buffer] after the call, and the length. *)
Definition build_authenticate (buffer rand : list Z) (autn : option (list Z)) : res (list Z * Z) :=
  rand ← slice rand 0 16;
  tail ←
    match autn with
    | Some autn => autn ← slice autn 0 16; Ret ([0x10] ++ autn)
    | None => Ret []
    end;
  let bs := [0x00; 0x88; 0x00; if autn is Some _ then 0x81 else 0x80; if autn is Some _ then 0x22 else 0x11; 0x10]
            ++ rand ++ tail ++ [0x00] in
  buffer ← blit buffer 0 bs;
  Ret (buffer, zlen bs).

Definition sim_build_umts_authenticate (buffer : list Z) (len : Z) (rand autn : option (list Z))
    : res (list Z * Z) :=
  match rand, autn with
  | Some rand, Some autn => if len <? 40 then Err else build_authenticate buffer rand (Some autn)
  | _, _ => Err
  end.

Definition sim_build_gsm_authenticate (buffer : list Z) (len : Z) (rand : option (list Z))
    : res (list Z * Z) :=
  match rand with
  | Some rand => if len <? 22 then Err else build_authenticate buffer rand None
  | None => Err
  end.

(** Offsets into the buffer, [None] for NULL; those that are not stored on a
    sync error keep what the caller had.  Without [wants_kc] the caller passed
    NULL for [kc], which the code stores through. *)
Inductive umts_auth :=
  | UmtsSuccess (res ck ik : Z) (kc : option Z)
  | UmtsSync (auts : Z).

Definition sim_parse_umts_authenticate (buffer : option (list Z)) (len : Z) (wants_kc : bool)
    : res umts_auth :=
  match buffer with
  | None => Err
  | Some buffer =>
    if len <? 16 then Err
    else
      b0 ← rd buffer 0;
      if b0 =? 0xdb then
        if len <? 43 then Err
        else
          b1 ← rd buffer 1;
          _ ← check (b1 =? 0x08);
          b10 ← rd buffer 10;
          _ ← check (b10 =? 0x10);
          b27 ← rd buffer 27;
          _ ← check (b27 =? 0x10);
          if (53 <=? len) && wants_kc then
            b44 ← rd buffer 44;
            _ ← check (b44 =? 0x08);
            Ret (UmtsSuccess 2 11 28 (Some 45))
          else if wants_kc then Ret (UmtsSuccess 2 11 28 None)
          else Ub
      else if b0 =? 0xdc then
        b1 ← rd buffer 1;
        _ ← check (b1 =? 0x0e);
        Ret (UmtsSync 2)
      else Err
  end.

Definition sim_parse_gsm_authenticate (buffer : option (list Z)) (len : Z) : res (Z * Z) :=
  match buffer with
  | None => Err
  | Some buffer =>
    if len <? 14 then Err
    else
      b0 ← rd buffer 0;
      _ ← check (b0 =? 0x04);
      b5 ← rd buffer 5;
      _ ← check (b5 =? 0x08);
      Ret (1, 6)
  end.
End Names.

(** * Round trips *)

(** What extended BCD can hold: digits, [*], [#], [c], [?] and [e]. *)
Definition bcd_char (c : Z) : Prop := exists d, 0 <= d < 15 /\ c = lut_char sim_digit_lut d.
Definition plmn_digit (c : Z) : Prop := 48 <= c <= 57.

Lemma bcd_char_digit d : 0 <= d < 15 ->
  sim_to_semi_oct (lut_char sim_digit_lut d) = d /\ lut_char sim_digit_lut d <> 0.
Proof.
  intros Hd. pose proof (range_forall (fun d => (sim_to_semi_oct (lut_char sim_digit_lut d) =? d) &&
    negb (lut_char sim_digit_lut d =? 0)) 0 15 d ltac:(by vm_compute) Hd) as H.
  cbv beta in H. rewrite andb_true_iff, negb_true_iff, Z.eqb_eq, Z.eqb_neq in H. done.
Qed.

(** The two characters of an octet. *)
Lemma octet_chars lo hi : 0 <= lo < 16 -> 0 <= hi < 16 ->
  let o := u8 (Z.lor (u8 lo) (Z.shiftl hi 4)) in
  is_byte o /\ Z.land o 0x0f = lo /\ Z.shiftr (Z.land o 0xf0) 4 = hi.
Proof.
  intros Hlo Hhi.
  pose proof (byte_forall (fun z => let lo := z mod 16 in let hi := z / 16 in
    let o := u8 (Z.lor (u8 lo) (Z.shiftl hi 4)) in
    bool_decide (is_byte o) && (Z.land o 0x0f =? lo) && (Z.shiftr (Z.land o 0xf0) 4 =? hi)) (hi * 16 + lo)
    ltac:(by vm_compute) ltac:(unfold is_byte; lia)) as H. cbv beta zeta in H.
  assert ((hi * 16 + lo) mod 16 = lo /\ (hi * 16 + lo) / 16 = hi) as [Hm Hd]
    by (split; Z.to_euclidean_division_equations; lia).
  rewrite Hm, Hd, !andb_true_iff, !Z.eqb_eq, bool_decide_eq_true in H. cbv zeta. tauto.
Qed.

(** The characters read from the octets of a number: the number, and a NUL if
    the length is odd. *)
Lemma bcd_chars_encode number : Forall bcd_char number ->
  bytes (sim_encode_bcd_number number) /\
  zlen (sim_encode_bcd_number number) = Z.quot (zlen number + 1) 2 /\
  bcd_chars (sim_encode_bcd_number number) = number ++ (if Z.even (zlen number) then [] else [0]).
Proof.
  remember (length number) as n eqn:Hn. revert number Hn.
  induction n as [n IH] using lt_wf_ind. intros [|c [|d number]] Hn Hf; cbn [sim_encode_bcd_number].
  - split_and!; [by apply Forall_nil|done|done].
  - apply Forall_cons in Hf as [(x & Hx & ->) _]. destruct (bcd_char_digit x Hx) as [-> _].
    assert (u8 (Z.lor x 240) = u8 (Z.lor (u8 x) (Z.shiftl 15 4))) as ->.
    { unfold u8 at 3. by rewrite (Z.mod_small x) by lia. }
    destruct (octet_chars x 15) as (Hb & Hlo & Hhi); [lia..|]. cbn [bcd_chars].
    rewrite Hlo, Hhi. split_and!; [by apply Forall_singleton|done|done].
  - apply Forall_cons in Hf as [(x & Hx & ->) Hf]. apply Forall_cons in Hf as [(y & Hy & ->) Hf].
    destruct (bcd_char_digit x Hx) as [-> _], (bcd_char_digit y Hy) as [-> _].
    destruct (octet_chars x y) as (Hb & Hlo & Hhi); [lia..|]. cbn [length] in Hn.
    destruct (IH (length number) ltac:(lia) number eq_refl Hf) as (IHb & IHz & IHc).
    cbn [bcd_chars]. rewrite Hlo, Hhi, IHc, !zlen_cons, IHz. zlen_pos. split_and!.
    + by apply Forall_cons.
    + Z.to_euclidean_division_equations. lia.
    + replace (1 + (1 + zlen number)) with (zlen number + 2 * 1) by lia. by rewrite Z.even_add_mul_2.
Qed.

Lemma cstr_number number tail : Forall bcd_char number -> tail = [] \/ head tail = Some 0 ->
  cstr (number ++ tail) = number.
Proof.
  intros Hf Ht. induction Hf as [|c number (x & Hx & ->) Hf IH]; cbn [app cstr].
  - destruct Ht as [->|Ht]; [done|]. destruct tail as [|t tail]; [done|]. by injection Ht as ->.
  - destruct (bcd_char_digit x Hx) as [_ Hne]. by rewrite (proj2 (Z.eqb_neq _ 0)), IH.
Qed.

Section Adn.
Context `{U : Utf8} `{G : GlibUtf8}.

Definition adn_number (ph : ofono_phone_number) : Prop :=
  Forall bcd_char (ph_number ph) /\ zlen (ph_number ph) <= 20 /\ 0 <= ph_type ph < 0xff.

(** C30: A dialling number record that [sim_adn_build] writes, in a record of
    any length from 14, is read back by [sim_adn_parse], and nothing outside the
    record is written. *)
Theorem adn_roundtrip data length ph :
  adn_number ph -> 14 <= length <= zlen data ->
  exists data',
    sim_adn_build data length ph None = Ret data' /\ zlen data' = zlen data /\
    drop (Z.to_nat length) data' = drop (Z.to_nat length) data /\
    sim_adn_parse data' length false = Ret (ph, None).
Proof.
  intros (Hd & Hn & Ht) Hl. destruct (bcd_chars_encode _ Hd) as (Hb & Hz & Hc).
  set (bcd := sim_encode_bcd_number (ph_number ph)) in *.
  pose proof (zlen_nonneg (ph_number ph)).
  assert (Hk : 0 <= zlen bcd <= 10) by (rewrite Hz; Z.to_euclidean_division_equations; lia).
  unfold sim_adn_build. fold bcd. rewrite <- Hz.
  assert (Halpha : (if 0 <? length - 14 then
      alpha ← Ret []; fill ← fill_ff (length - 14 - zlen alpha); Ret (alpha ++ fill) else Ret [])
      = Ret (replicate (Z.to_nat (length - 14)) 0xff)).
  { destruct (Z.ltb_spec 0 (length - 14)).
    - simp_res. unfold fill_ff. change (zlen []) with 0. rewrite Z.sub_0_r, (proj2 (Z.ltb_ge _ _)) by lia. done.
    - by replace (length - 14) with 0 by lia. }
  rewrite Halpha. simp_res. unfold fill_ff. rewrite (proj2 (Z.ltb_ge _ _)) by lia. simp_res.
  set (a := replicate _ 255). set (fill := replicate _ 255).
  assert (Hza : zlen a = length - 14) by (unfold a; rewrite zlen_replicate; lia).
  assert (Hzf : zlen fill = 10 - zlen bcd) by (unfold fill; rewrite zlen_replicate; lia).
  set (rec := a ++ _). assert (Hzr : zlen rec = length).
  { unfold rec. rewrite !zlen_app. change (zlen [_; _]) with 2. lia. }
  exists (rec ++ drop (Z.to_nat length) data). split_and!.
  - rewrite <- (take_drop (Z.to_nat length) data) at 1.
    apply (blit_middle [] (take _ data)); [done|]. rewrite zlen_take. lia.
  - rewrite zlen_app, zlen_drop. lia.
  - apply drop_zlen_app. lia.
  - unfold sim_adn_parse. rewrite (proj2 (Z.ltb_ge length 14)) by lia.
    set (full := rec ++ _). pose proof (at_pos_0 full) as Hp. unfold full, rec at 2 in Hp.
    rewrite <- app_assoc in Hp. apply at_pos_app in Hp. rewrite Hza, <- !app_assoc in Hp. cbn [app] in Hp. rewrite Z.add_0_l in Hp.
    destruct (at_pos_cons _ _ _ _ Hp) as [Hr1 Hp1]. destruct (at_pos_cons _ _ _ _ Hp1) as [Hr2 Hp2].
    fold full in Hr1, Hr2, Hp2. rewrite Hr1, bind_Ret, Hr2, bind_Ret. unfold u8. rewrite !Z.mod_small by lia.
    rewrite (proj2 (Z.ltb_ge 11 _)), (proj2 (Z.eqb_neq (ph_type ph) _)) by lia. cbn [orb].
    unfold sim_extract_bcd_number. replace (Z.max (zlen bcd + 1 - 1) 0) with (zlen bcd) by lia.
    replace (length - 14 + 1 + 1) with (length - 14 + 2) in Hp2 by lia. destruct Hp2 as [_ ->].
    rewrite (at_pos_slice _ 0 bcd _ (zlen bcd) (at_pos_0 _) eq_refl). simp_res. rewrite Hc.
    rewrite put_ok by (rewrite !zlen_app; change (zlen [0]) with 1; change (zlen []) with 0;
      destruct (Z.even _); [change (zlen []) with 0|change (zlen [0]) with 1]; unfold OFONO_MAX_PHONE_NUMBER_LENGTH; lia).
    simp_res. cbn [app negb]. rewrite <- app_assoc, cstr_number; [by destruct ph|done|].
    right. by destruct (Z.even _).
Qed.
End Adn.

(** ** Network codes *)

Lemma plmn_digit_value c : plmn_digit c ->
  0 <= sim_to_semi_oct c < 15 /\ lut_char plmn_digit_lut (sim_to_semi_oct c) = c /\ c <> 0.
Proof.
  unfold plmn_digit. intros Hc.
  pose proof (range_forall (fun c => (0 <=? sim_to_semi_oct c) && (sim_to_semi_oct c <? 15) &&
    (lut_char plmn_digit_lut (sim_to_semi_oct c) =? c)) 48 10 c ltac:(by vm_compute) ltac:(lia)) as H.
  cbv beta in H. rewrite !andb_true_iff, Z.leb_le, Z.ltb_lt, Z.eqb_eq in H. split_and!; try tauto; lia.
Qed.

Lemma octet_digits lo hi : 0 <= lo < 16 -> 0 <= hi < 16 ->
  let o := u8 (Z.lor (u8 lo) (Z.shiftl hi 4)) in
  Z.land (Z.shiftr o 0) 0xf = lo /\ Z.land (Z.shiftr o 4) 0xf = hi.
Proof.
  intros Hlo Hhi.
  pose proof (byte_forall (fun z => let lo := z mod 16 in let hi := z / 16 in
    let o := u8 (Z.lor (u8 lo) (Z.shiftl hi 4)) in
    (Z.land (Z.shiftr o 0) 0xf =? lo) && (Z.land (Z.shiftr o 4) 0xf =? hi)) (hi * 16 + lo)
    ltac:(by vm_compute) ltac:(unfold is_byte; lia)) as H. cbv beta zeta in H.
  assert ((hi * 16 + lo) mod 16 = lo /\ (hi * 16 + lo) / 16 = hi) as [Hm Hd]
    by (split; Z.to_euclidean_division_equations; lia).
  rewrite Hm, Hd, !andb_true_iff, !Z.eqb_eq in H. exact H.
Qed.

(** A network code of a mobile country code of three digits and a network code
    of two or three, in arrays of four. *)
Definition plmn (mcc mnc : list Z) : Prop :=
  zlen mcc = 3 /\ (zlen mnc = 2 \/ zlen mnc = 3) /\ Forall plmn_digit mcc /\ Forall plmn_digit mnc.

(** The array of four characters with the string. *)
Definition chars4 (s : list Z) : list Z := s ++ replicate (4 - length s) 0.

Definition nibbles (lo hi : Z) : Z := u8 (Z.lor (u8 lo) (Z.shiftl hi 4)).

Lemma parse_nibbles a b c d e f rest :
  Forall (fun x => 0 <= x < 16) [a; b; c; d; e; f] ->
  sim_parse_mcc_mnc ([nibbles a b; nibbles c f; nibbles d e] ++ rest) =
  Ret (lut_char plmn_digit_lut <$> [a; b; c], lut_char plmn_digit_lut <$> [d; e; f]).
Proof.
  rewrite !Forall_cons. intros (Ha & Hb & Hc & Hd & He & Hf & _).
  unfold sim_parse_mcc_mnc. cbn [app].
  change (rd (nibbles a b :: nibbles c f :: nibbles d e :: rest) 0) with (Ret (nibbles a b)). rewrite bind_Ret.
  change (rd (nibbles a b :: nibbles c f :: nibbles d e :: rest) 1) with (Ret (nibbles c f)). rewrite bind_Ret.
  change (rd (nibbles a b :: nibbles c f :: nibbles d e :: rest) 2) with (Ret (nibbles d e)). rewrite bind_Ret.
  unfold nibbles. cbv beta zeta.
  destruct (octet_digits a b Ha Hb) as [-> ->], (octet_digits c f Hc Hf) as [-> ->],
    (octet_digits d e Hd He) as [-> ->]. done.
Qed.

Lemma mcc_mnc_back mcc mnc : plmn mcc mnc ->
  exists bs, sim_encode_mcc_mnc (chars4 mcc) (chars4 mnc) = Ret bs /\ zlen bs = 3 /\ bytes bs /\
    forall rest, exists mnc', sim_parse_mcc_mnc (bs ++ rest) = Ret (mcc, mnc') /\ cstr mnc' = mnc.
Proof.
  intros (Hm & Hn & Hmcc & Hmnc).
  destruct mcc as [|c0 [|c1 [|c2 [|? mcc]]]]; try (rewrite ?zlen_cons in Hm; zl).
  rewrite !Forall_cons in Hmcc. destruct Hmcc as (Hc0 & Hc1 & Hc2 & _).
  destruct (plmn_digit_value _ Hc0) as (R0 & L0 & N0), (plmn_digit_value _ Hc1) as (R1 & L1 & N1),
    (plmn_digit_value _ Hc2) as (R2 & L2 & N2).
  destruct mnc as [|n0 [|n1 [|n2 [|? mnc]]]]; try (rewrite ?zlen_cons in Hn; zl);
    rewrite !Forall_cons in Hmnc.
  - destruct Hmnc as (Hn0 & Hn1 & _).
    destruct (plmn_digit_value _ Hn0) as (R3 & L3 & N3), (plmn_digit_value _ Hn1) as (R4 & L4 & N4).
    exists [nibbles (sim_to_semi_oct c0) (sim_to_semi_oct c1); nibbles (sim_to_semi_oct c2) 15;
            nibbles (sim_to_semi_oct n0) (sim_to_semi_oct n1)].
    split_and!; [|done| |].
    + unfold sim_encode_mcc_mnc, chars4. cbn [length replicate app Nat.sub].
      cbv [rd Z.ltb Z.compare Z.to_nat Pos.to_nat Pos.iter_op lookup list_lookup Nat.add]. simp_res.
      by rewrite (proj2 (Z.eqb_neq c2 0)).
    + repeat (apply Forall_cons; split; [apply octet_chars; lia|]); by apply Forall_nil.
    + intros rest. exists [n0; n1; 0]. rewrite parse_nibbles by (repeat (apply Forall_cons; split; [lia|]); by apply Forall_nil).
      cbn [fmap list_fmap]. rewrite L0, L1, L2, L3, L4. split; [done|].
      cbn [cstr]. by rewrite (proj2 (Z.eqb_neq n0 0)), (proj2 (Z.eqb_neq n1 0)).
  - destruct Hmnc as (Hn0 & Hn1 & Hn2 & _).
    destruct (plmn_digit_value _ Hn0) as (R3 & L3 & N3), (plmn_digit_value _ Hn1) as (R4 & L4 & N4),
      (plmn_digit_value _ Hn2) as (R5 & L5 & N5).
    exists [nibbles (sim_to_semi_oct c0) (sim_to_semi_oct c1);
            nibbles (sim_to_semi_oct c2) (sim_to_semi_oct n2);
            nibbles (sim_to_semi_oct n0) (sim_to_semi_oct n1)].
    split_and!; [|done| |].
    + unfold sim_encode_mcc_mnc, chars4. cbn [length replicate app Nat.sub].
      cbv [rd Z.ltb Z.compare Z.to_nat Pos.to_nat Pos.iter_op lookup list_lookup Nat.add]. simp_res.
      by rewrite (proj2 (Z.eqb_neq c2 0)), (proj2 (Z.eqb_neq n2 0)).
    + repeat (apply Forall_cons; split; [apply octet_chars; lia|]); by apply Forall_nil.
    + intros rest. exists [n0; n1; n2]. rewrite parse_nibbles by (repeat (apply Forall_cons; split; [lia|]); by apply Forall_nil).
      cbn [fmap list_fmap]. rewrite L0, L1, L2, L3, L4, L5. split; [done|].
      cbn [cstr]. by rewrite (proj2 (Z.eqb_neq n0 0)), (proj2 (Z.eqb_neq n1 0)), (proj2 (Z.eqb_neq n2 0)).
Qed.

(** ** Paths of files *)

Lemma ef_bsearch_sound id table fuel : forall l u info, ef_bsearch fuel id table l u = Some info ->
  info ∈ table /\ ef_id info = id.
Proof.
  induction fuel as [|fuel IH]; intros l u info; [done|]. cbn [ef_bsearch]. case_cmp; [|done].
  destruct (table !! Z.to_nat ((l + u) / 2)) as [q|] eqn:Hq; [|done]. unfold find_ef_by_id.
  repeat case_cmp; bool_to_prop; [apply IH|apply IH|]. intros [= ->].
  split; [by eapply list_elem_of_lookup_2|lia].
Qed.

(** The octets of [p] are those of the files from the master file down to the
    parent of [id]. *)
Inductive path_to (parent : sim_ef_info -> Z) : Z -> list Z -> Prop :=
  | path_root id info : sim_ef_db_lookup id = Some info -> parent info = ROOTMF ->
      path_to parent id [0x3F; 0x00]
  | path_below id info p : sim_ef_db_lookup id = Some info -> parent info <> ROOTMF ->
      path_to parent (parent info) p ->
      path_to parent id (p ++ [Z.shiftr (parent info) 8; Z.land (parent info) 0xff]).

Lemma path_to_unique parent id p : path_to parent id p -> forall q, path_to parent id q -> p = q.
Proof.
  induction 1 as [id info Hl Hr|id info p Hl Hr Hp IH]; intros q Hq; inversion Hq as [? info' Hl' Hr'|? info' p' Hl' Hr' Hp'];
    subst; rewrite Hl in Hl'; injection Hl' as <-; try done. by rewrite (IH p').
Qed.

(** What the loop gives for a file of the database, by evaluation. *)
Fixpoint path_spec (fuel : nat) (parent : sim_ef_info -> Z) (id : Z) : option (list Z) :=
  match fuel with
  | O => None
  | S fuel =>
    match sim_ef_db_lookup id with
    | None => None
    | Some info =>
      if parent info =? ROOTMF then Some [0x3F; 0x00]
      else p ← path_spec fuel parent (parent info);
           Some (p ++ [Z.shiftr (parent info) 8; Z.land (parent info) 0xff])
    end
  end.

Lemma path_spec_sound parent fuel : forall id p, path_spec fuel parent id = Some p -> path_to parent id p.
Proof.
  induction fuel as [|fuel IH]; intros id p; [done|]. cbn [path_spec].
  destruct (sim_ef_db_lookup id) as [info|] eqn:Hl; [|done].
  destruct (Z.eqb_spec (parent info) ROOTMF) as [Hr|Hr]; [intros [= <-]; by econstructor|].
  destruct (path_spec fuel parent (parent info)) as [q|] eqn:Hq; [|done].
  intros [= <-]. apply path_below; auto.
Qed.

(** The files above [id] end with one that is not in the database. *)
Fixpoint chain_breaks (fuel : nat) (parent : sim_ef_info -> Z) (id : Z) : bool :=
  match fuel with
  | O => false
  | S fuel =>
    match sim_ef_db_lookup id with
    | None => true
    | Some info => negb (parent info =? ROOTMF) && chain_breaks fuel parent (parent info)
    end
  end.

Lemma chain_breaks_no_path parent id p : path_to parent id p -> forall fuel, chain_breaks fuel parent id = false.
Proof.
  induction 1 as [id info Hl Hr|id info p Hl Hr Hp IH]; intros [|fuel]; cbn [chain_breaks]; rewrite ?Hl; try done.
  - by rewrite (proj2 (Z.eqb_eq _ _)).
  - by rewrite IH, andb_false_r.
Qed.

Definition path_ok (parent : sim_ef_info -> Z) (info : sim_ef_info) : bool :=
  match ef_db_path parent (ef_id info) with
  | Ret p => bool_decide (path_spec 4 parent (ef_id info) = Some p) && (zlen p <=? 6)
  | Err => chain_breaks 4 parent (ef_id info)
  | Ub => false
  end.

Lemma ef_db_path_ok parent id : forallb (path_ok parent) ef_db = true ->
  (exists p, ef_db_path parent id = Ret p /\ path_to parent id p /\ zlen p <= 6) \/
  (ef_db_path parent id = Err /\ forall p, ~ path_to parent id p).
Proof.
  intros Hok. destruct (sim_ef_db_lookup id) as [info|] eqn:Hl.
  - destruct (ef_bsearch_sound _ _ _ _ _ _ Hl) as [Hin Hid]. rewrite forallb_forall in Hok.
    specialize (Hok info (proj1 (list_elem_of_In _ _) Hin)). unfold path_ok in Hok. rewrite Hid in Hok.
    destruct (ef_db_path parent id) as [p| |]; [| |done].
    + apply andb_true_iff in Hok as [Hq Hz]. apply bool_decide_eq_true, path_spec_sound in Hq.
      left. exists p. by rewrite <- Z.leb_le.
    + right. split; [done|]. intros p Hp. by rewrite (chain_breaks_no_path _ _ _ Hp) in Hok.
  - right. split.
    + unfold ef_db_path. by rewrite Hl.
    + intros p Hp. destruct Hp; congruence.
Qed.

(** C26: For every file identifier, [sim_ef_db_get_path_2g] and
    [sim_ef_db_get_path_3g] end, and give the path from the master file down to
    the parent in the six octets the code reserves, or 0 exactly when the file
    or one above it is not in the database. *)
Theorem ef_paths id (gen3 : bool) :
  let parent := if gen3 then parent3g else parent2g in
  let r := if gen3 then sim_ef_db_get_path_3g id else sim_ef_db_get_path_2g id in
  (exists p, r = Ret p /\ path_to parent id p /\ zlen p <= 6) \/
  (r = Err /\ forall p, ~ path_to parent id p).
Proof. destruct gen3; apply ef_db_path_ok; by vm_compute. Qed.

(** ** Authentication commands *)

(** A GSM challenge in a buffer of the least length that is accepted, 22, is
    stored past its end: the command has 23 octets. *)
Lemma gsm_authenticate_overflow buffer rand : zlen buffer = 22 -> 16 <= zlen rand ->
  sim_build_gsm_authenticate buffer 22 (Some rand) = Ub.
Proof.
  intros Hb Hr. unfold sim_build_gsm_authenticate, build_authenticate. cbn [Z.ltb Z.compare Pos.compare].
  change (22 <? 22) with false. cbv iota. unfold slice. rewrite (proj2 (Z.leb_le (0 + 16) _)) by lia.
  cbn [Z.leb Z.compare andb]. simp_res. unfold blit. rewrite !zlen_app, Hb, zlen_take, zlen_drop.
  change (zlen [_; _; _; _; _; _]) with 6. change (zlen [_]) with 1. change (zlen []) with 0.
  rewrite andb_false_intro2; [done|]. apply Z.leb_gt. lia.
Qed.

(** * Concrete runs *)

Definition sample_number : ofono_phone_number :=
  {| ph_number := [49; 50; 51; 42; 35; 99; 48]; ph_type := 129 |}.

Lemma adn_roundtrip_witness :
  exists data', sim_adn_build (replicate 20 0) 20 sample_number None = Ret data' /\
    sim_adn_parse data' 20 false = Ret (sample_number, None).
Proof.
  destruct (adn_roundtrip (replicate 20 0) 20 sample_number) as (data' & Hb & _ & _ & Hp).
  - split; [|by vm_compute].
    apply (list.Forall_impl (fun c => existsb (fun d => c =? lut_char sim_digit_lut d) (seqZ 0 15) = true)).
    + by apply (bool_decide_unpack _); vm_compute.
    + intros c (d & Hd & Hc)%existsb_exists. exists d. split; [|by apply Z.eqb_eq].
      by apply list_elem_of_In, elem_of_seqZ in Hd.
  - split; [lia|by vm_compute].
  - by exists data'.
Defined.
