(* ===== verification/StkTlv.v ===== *)
(** The data object writer of src/src/stkutil.c, with which every terminal
    response and envelope of the SIM toolkit is made: containers whose length is
    set when they are closed, and the BER object around them. *)
From S2P Require Import Prelude Charset SevenBit SmsField SmsPdu SimTlv SimFile.

(** [stk_value] is an offset into the buffer of the message. *)
Record stk_tlv_builder := {
  stk_ctlv : comprehension_tlv_builder; stk_value : Z; stk_len : Z; stk_max_len : Z
}.

(** A message being written.  The functions below give the new one, [Err] for
    FALSE, when the message is given up. *)
Definition stk_state : Type := list Z * stk_tlv_builder.

Definition stk_tlv_builder_init (buf : list Z) (pdu size : Z) : res stk_state :=
  '(buf, ctlv) ← comprehension_tlv_builder_init buf pdu size [];
  Ret (buf, {| stk_ctlv := ctlv; stk_value := 0; stk_len := 0; stk_max_len := 0 |}).

Definition stk_tlv_builder_recurse (buf : list Z) (btlv : list ber_tlv_builder) (tag : Z)
    : res stk_state :=
  '(buf, btlv) ← ber_tlv_builder_next buf btlv (Z.shiftr tag 6) (Z.land (Z.shiftr tag 5) 1)
                   (Z.land tag 0x1f);
  '(buf, ctlv) ← ber_tlv_builder_recurse_comprehension buf btlv;
  Ret (buf, {| stk_ctlv := ctlv; stk_value := 0; stk_len := 0; stk_max_len := 0 |}).

Definition stk_tlv_builder_open_container (st : stk_state) (cr : bool) (shorttag : Z)
    (relocatable : bool) : res stk_state :=
  let '(buf, it) := st in
  '(buf, ctlv) ← comprehension_tlv_builder_next buf (stk_ctlv it) cr shorttag;
  let max_len := if relocatable then 0xff else 0x7f in
  '(buf, ctlv) ← comprehension_tlv_builder_set_length buf ctlv max_len;
  value ← comprehension_tlv_builder_get_data buf ctlv;
  Ret (buf, {| stk_ctlv := ctlv; stk_value := value; stk_len := 0; stk_max_len := max_len |}).

Definition stk_tlv_builder_close_container (st : stk_state) : res stk_state :=
  let '(buf, it) := st in
  '(buf, ctlv) ← comprehension_tlv_builder_set_length buf (stk_ctlv it) (stk_len it);
  Ret (buf, {| stk_ctlv := ctlv; stk_value := stk_value it; stk_len := stk_len it;
               stk_max_len := stk_max_len it |}).

Definition stk_tlv_builder_get_length (st : stk_state) : res Z :=
  let '(buf, it) := st in
  data ← comprehension_tlv_builder_get_data buf (stk_ctlv it);
  Ret (data - cbuilder_pdu (stk_ctlv it) + stk_len it).

(** [value[len++] = ...] for the octets [bs]. *)
Definition stk_append (st : stk_state) (bs : list Z) : res stk_state :=
  let '(buf, it) := st in
  buf ← blit buf (stk_value it + stk_len it) bs;
  Ret (buf, {| stk_ctlv := stk_ctlv it; stk_value := stk_value it;
               stk_len := stk_len it + zlen bs; stk_max_len := stk_max_len it |}).

Definition stk_tlv_builder_append_byte (st : stk_state) (num : Z) : res stk_state :=
  if stk_max_len (snd st) <=? stk_len (snd st) then Err else stk_append st [num].

Definition stk_tlv_builder_append_short (st : stk_state) (num : Z) : res stk_state :=
  if stk_max_len (snd st) <? stk_len (snd st) + 2 then Err
  else stk_append st [Z.shiftr num 8; Z.land num 0xff].

Definition stk_tlv_builder_append_bytes (st : stk_state) (data : list Z) (length : Z)
    : res stk_state :=
  if stk_max_len (snd st) <? stk_len (snd st) + length then Err
  else data ← slice data 0 length; stk_append st data.

Section Text.
Context `{U : Utf8}.

(** A text is NUL-terminated; [None] is NULL. *)
Definition stk_tlv_builder_append_gsm_packed (st : stk_state) (text : option (list Z))
    : res stk_state :=
  match text with
  | None => Ret st
  | Some text =>
    let len := zlen text in
    r ← convert_utf8_to_gsm (text ++ [0]) len 0;
    let written := default 0 (items_written r) in
    match conv_res r with
    | None => if 0 <? len then Err
              else if stk_max_len (snd st) <=? stk_len (snd st) + Z.quot (written * 7 + 7) 8 then Err
              else stk_append st [0x00]
    | Some gsm =>
      if stk_max_len (snd st) <=? stk_len (snd st) + Z.quot (written * 7 + 7) 8 then Err
      else
        let cap := zlen (fst st) - (stk_value (snd st) + stk_len (snd st) + 1) in
        match pack_7bit_own_buf gsm len 0 false 0 cap with
        | Ret packed => if (zlen packed <? 1) && (0 <? len) then Err else stk_append st (0x00 :: packed)
        | Err => if (written <? 1) && (0 <? len) then Err else stk_append st [0x00]
        | Ub => Ub
        end
    end
  end.

Definition stk_tlv_builder_append_gsm_unpacked (st : stk_state) (text : option (list Z))
    : res stk_state :=
  match text with
  | None => Ret st
  | Some text =>
    let len := zlen text in
    r ← convert_utf8_to_gsm (text ++ [0]) len 0;
    let written := default 0 (items_written r) in
    match conv_res r with
    | None => if 0 <? len then Err
              else if stk_max_len (snd st) <=? stk_len (snd st) + written then Err
              else stk_append st [0x04]
    | Some gsm =>
      if stk_max_len (snd st) <=? stk_len (snd st) + written then Err
      else gsm ← slice gsm 0 written; stk_append st (0x04 :: gsm)
    end
  end.

Definition stk_tlv_builder_append_ucs2 (st : stk_state) (text : list Z) : res stk_state :=
  match l_utf8_to_ucs2be text with
  | None => Err
  | Some ucs2 =>
    let ucs2_len := zlen ucs2 - 2 in
    if stk_max_len (snd st) <=? stk_len (snd st) + ucs2_len then Err
    else ucs2 ← slice ucs2 0 ucs2_len; stk_append st (0x08 :: ucs2)
  end.

(** l_utf8_to_ucs2be(NULL) is not modelled: no caller of [dcs] 0x08 has it. *)
Definition stk_tlv_builder_append_text (st : stk_state) (dcs : Z) (text : option (list Z))
    : res stk_state :=
  if dcs =? 0x00 then stk_tlv_builder_append_gsm_packed st text
  else if dcs =? 0x04 then stk_tlv_builder_append_gsm_unpacked st text
  else if dcs =? 0x08 then
    match text with Some text => stk_tlv_builder_append_ucs2 st text | None => Ub end
  else if dcs =? -1 then
    match stk_tlv_builder_append_gsm_unpacked st text with
    | Err => match text with Some text => stk_tlv_builder_append_ucs2 st text | None => Ub end
    | r => r
    end
  else Err.
End Text.

(** * Data objects *)

(** One writer of [build_dataobj] with its data; the flag is comprehension
    required. *)
Definition dataobj_writer : Type := stk_state -> bool -> res stk_state.

Fixpoint build_dataobj (st : stk_state) (l : list (dataobj_writer * bool)) : res stk_state :=
  match l with
  | [] => Ret st
  | (builder_func, cr) :: l => st ← builder_func st cr; build_dataobj st l
  end.

Record stk_address := { ton_npi : Z; addr_number : option (list Z) }.

Definition build_dataobj_address (addr : stk_address) : dataobj_writer := fun st cr =>
  match addr_number addr with
  | None => Ret st
  | Some number =>
    number ← put 128 [] (sim_encode_bcd_number number);
    st ← stk_tlv_builder_open_container st cr 0x06 false;
    st ← stk_tlv_builder_append_byte st (ton_npi addr);
    st ← stk_tlv_builder_append_bytes st number (zlen number);
    stk_tlv_builder_close_container st
  end.

Section Objects.
Context `{U : Utf8} `{G : GlibUtf8}.

Definition build_dataobj_gsm_sms_tpdu (msg : sms_deliver) : dataobj_writer := fun st cr =>
  '(tpdu, tpdu_len) ← sms_encode 165 {| sc_addr := no_address; tpdu := SMS_TYPE_DELIVER msg |};
  st ← stk_tlv_builder_open_container st cr 0x0B true;
  st ← stk_tlv_builder_append_bytes st (drop 1 tpdu) tpdu_len;
  stk_tlv_builder_close_container st.

Definition build_dataobj_item_id (item_id : Z) : dataobj_writer := fun st cr =>
  if item_id =? 0 then Ret st
  else
    st ← stk_tlv_builder_open_container st cr 0x10 false;
    st ← stk_tlv_builder_append_byte st item_id;
    stk_tlv_builder_close_container st.

Definition build_dataobj_help_request (help : bool) : dataobj_writer := fun st cr =>
  if negb help then Ret st
  else
    st ← stk_tlv_builder_open_container st cr 0x15 false;
    stk_tlv_builder_close_container st.

Definition build_dataobj_timer_id (id : Z) : dataobj_writer := fun st cr =>
  if id =? 0 then Ret st
  else
    st ← stk_tlv_builder_open_container st cr 0x24 false;
    st ← stk_tlv_builder_append_byte st id;
    stk_tlv_builder_close_container st.

(** Hour, minute, second; [None] when there is no value. *)
Definition stk_timer_value : Type := option (Z * Z * Z).

Definition TO_BCD (bin : Z) : Z := u8 (Z.lor (Z.land (Z.quot bin 10) 0xf) (Z.shiftl (Z.rem bin 10) 4)).

Definition build_dataobj_timer_value (value : stk_timer_value) : dataobj_writer := fun st cr =>
  match value with
  | None => Ret st
  | Some (hour, minute, second) =>
    st ← stk_tlv_builder_open_container st cr 0x25 false;
    st ← stk_tlv_builder_append_byte st (TO_BCD hour);
    st ← stk_tlv_builder_append_byte st (TO_BCD minute);
    st ← stk_tlv_builder_append_byte st (TO_BCD second);
    stk_tlv_builder_close_container st
  end.

Record stk_ussd_string := { ussd_dcs : Z; ussd_string : list Z; ussd_len : Z }.

Definition build_dataobj_ussd_string (ussd : stk_ussd_string) : dataobj_writer := fun st cr =>
  st ← stk_tlv_builder_open_container st cr 0x0A false;
  st ← stk_tlv_builder_append_byte st (ussd_dcs ussd);
  st ← stk_tlv_builder_append_bytes st (ussd_string ussd) (ussd_len ussd);
  stk_tlv_builder_close_container st.

(** [mcc] and [mnc] are the arrays of four characters. *)
Record stk_location_info := {
  li_mcc : list Z; li_mnc : list Z; lac_tac : Z; li_ci : option Z; li_ext_ci : option Z;
  li_eutran_ci : option Z
}.

Definition append_optional_short (st : stk_state) (num : option Z) : res stk_state :=
  match num with Some num => stk_tlv_builder_append_short st num | None => Ret st end.

Definition build_dataobj_location_info (li : stk_location_info) : dataobj_writer := fun st cr =>
  c ← rd (li_mcc li) 0;
  if c =? 0 then Ret st
  else
    mccmnc ← sim_encode_mcc_mnc (li_mcc li) (li_mnc li);
    st ← stk_tlv_builder_open_container st cr 0x13 false;
    st ← stk_tlv_builder_append_bytes st mccmnc 3;
    st ← stk_tlv_builder_append_short st (lac_tac li);
    st ← append_optional_short st (li_ci li);
    st ← append_optional_short st (li_ext_ci li);
    st ← match li_eutran_ci li with
         | Some ci =>
             st ← stk_tlv_builder_append_short st (u16 (Z.shiftr ci 12));
             stk_tlv_builder_append_short st (u16 (Z.lor (u32 (Z.shiftl ci 4)) 0xf))
         | None => Ret st
         end;
    stk_tlv_builder_close_container st.

(** A file is its identifiers. *)
Fixpoint append_files (st : stk_state) (files : list (list Z)) : res stk_state :=
  match files with
  | [] => Ret st
  | file :: files =>
      st ← stk_tlv_builder_append_bytes st file (zlen file); append_files st files
  end.

Definition build_dataobj_file_list (files : list (list Z)) : dataobj_writer := fun st cr =>
  st ← stk_tlv_builder_open_container st cr 0x12 true;
  st ← stk_tlv_builder_append_byte st (u8 (zlen files));
  st ← append_files st files;
  stk_tlv_builder_close_container st.

Definition build_dataobj_file (file : list Z) : dataobj_writer := build_dataobj_file_list [file].

(** [id] and [status] are the octets of the given length. *)
Definition build_dataobj_mms_id (id : list Z) : dataobj_writer := fun st cr =>
  if zlen id =? 0 then Ret st
  else
    st ← stk_tlv_builder_open_container st cr 0x6B false;
    st ← stk_tlv_builder_append_bytes st id (zlen id);
    stk_tlv_builder_close_container st.

Definition build_dataobj_mms_transfer_status (status : list Z) : dataobj_writer := fun st cr =>
  if zlen status =? 0 then Ret st
  else
    st ← stk_tlv_builder_open_container st cr 0x6C false;
    st ← stk_tlv_builder_append_bytes st status (zlen status);
    stk_tlv_builder_close_container st.

Definition build_dataobj_mms_notification (msg : list Z) : dataobj_writer := fun st cr =>
  st ← stk_tlv_builder_open_container st cr 0x6F true;
  st ← stk_tlv_builder_append_bytes st msg (zlen msg);
  stk_tlv_builder_close_container st.

(** The code reads the bool [last] as an [ofono_bool_t], which is longer; what
    lies behind it is taken to be zero. *)
Definition build_dataobj_last_envelope (last : bool) : dataobj_writer := fun st cr =>
  if negb last then Ret st
  else
    st ← stk_tlv_builder_open_container st cr 0x70 false;
    stk_tlv_builder_close_container st.

(** The name is NUL-terminated in memory. *)
Record stk_registry_application_data := { rad_port : Z; rad_type : Z; rad_name : list Z }.

(** The octets of the name and their coding. *)
Definition rad_name_octets (text : list Z) : res (list Z * Z) :=
  r ← convert_utf8_to_gsm (text ++ [0]) (-1) 0;
  match conv_res r with
  | Some gsm => Ret (gsm, 0x04)
  | None => match l_utf8_to_ucs2be text with
            | Some ucs2 => ucs2 ← slice ucs2 0 (zlen ucs2 - 2); Ret (ucs2, 0x08)
            | None => Err
            end
  end.

Definition build_dataobj_registry_application_data (rad : stk_registry_application_data)
    : dataobj_writer := fun st cr =>
  '(name, dcs) ← rad_name_octets (rad_name rad);
  st ← stk_tlv_builder_open_container st cr 0x71 true;
  st ← stk_tlv_builder_append_short st (rad_port rad);
  st ← stk_tlv_builder_append_byte st dcs;
  st ← stk_tlv_builder_append_byte st (rad_type rad);
  st ← stk_tlv_builder_append_bytes st name (zlen name);
  stk_tlv_builder_close_container st.

(** * Envelopes *)

(** The types with their data; call control, events and cell broadcast pages are
    not modelled. *)
Inductive envelope_data :=
  | STK_ENVELOPE_TYPE_SMS_PP_DOWNLOAD (address : stk_address) (message : sms_deliver)
  | STK_ENVELOPE_TYPE_MENU_SELECTION (item_id : Z) (help_request : bool)
  | STK_ENVELOPE_TYPE_MO_SMS_CONTROL (sc_address dest_address : stk_address)
      (location : stk_location_info)
  | STK_ENVELOPE_TYPE_TIMER_EXPIRATION (id : Z) (value : stk_timer_value)
  | STK_ENVELOPE_TYPE_USSD_DOWNLOAD (string : stk_ussd_string)
  | STK_ENVELOPE_TYPE_MMS_TRANSFER_STATUS (transfer_file id transfer_status : list Z)
  | STK_ENVELOPE_TYPE_MMS_NOTIFICATION (msg : list Z) (last : bool)
  | STK_ENVELOPE_TYPE_TERMINAL_APP (apps : list stk_registry_application_data) (last : bool).

Record stk_envelope := { env_src : Z; env_dst : Z; env_data : envelope_data }.

Definition envelope_type (e : stk_envelope) : Z :=
  match env_data e with
  | STK_ENVELOPE_TYPE_SMS_PP_DOWNLOAD _ _ => 0xD1
  | STK_ENVELOPE_TYPE_MENU_SELECTION _ _ => 0xD3
  | STK_ENVELOPE_TYPE_MO_SMS_CONTROL _ _ _ => 0xD5
  | STK_ENVELOPE_TYPE_TIMER_EXPIRATION _ _ => 0xD7
  | STK_ENVELOPE_TYPE_USSD_DOWNLOAD _ => 0xD9
  | STK_ENVELOPE_TYPE_MMS_TRANSFER_STATUS _ _ _ => 0xDA
  | STK_ENVELOPE_TYPE_MMS_NOTIFICATION _ _ => 0xDB
  | STK_ENVELOPE_TYPE_TERMINAL_APP _ _ => 0xDC
  end.

Definition build_envelope_dataobj_device_ids (e : stk_envelope) : dataobj_writer := fun st cr =>
  st ← stk_tlv_builder_open_container st cr 0x02 false;
  st ← stk_tlv_builder_append_byte st (env_src e);
  st ← stk_tlv_builder_append_byte st (env_dst e);
  stk_tlv_builder_close_container st.

Definition build_envelope_terminal_apps (st : stk_state) (e : stk_envelope)
    (apps : list stk_registry_application_data) (last : bool) : res stk_state :=
  st ← build_dataobj st [(build_envelope_dataobj_device_ids e, true)];
  st ← build_dataobj st ((fun app => (build_dataobj_registry_application_data app, false)) <$> apps);
  build_dataobj st [(build_dataobj_last_envelope last, false)].

(** The switch over the type. *)
Definition build_envelope (st : stk_state) (e : stk_envelope) : res stk_state :=
  match env_data e with
  | STK_ENVELOPE_TYPE_SMS_PP_DOWNLOAD address message =>
      build_dataobj st [(build_envelope_dataobj_device_ids e, true);
        (build_dataobj_address address, false); (build_dataobj_gsm_sms_tpdu message, true)]
  | STK_ENVELOPE_TYPE_MENU_SELECTION item_id help_request =>
      build_dataobj st [(build_envelope_dataobj_device_ids e, true);
        (build_dataobj_item_id item_id, true); (build_dataobj_help_request help_request, false)]
  | STK_ENVELOPE_TYPE_MO_SMS_CONTROL sc_address dest_address location =>
      build_dataobj st [(build_envelope_dataobj_device_ids e, false);
        (build_dataobj_address sc_address, false); (build_dataobj_address dest_address, false);
        (build_dataobj_location_info location, false)]
  | STK_ENVELOPE_TYPE_TIMER_EXPIRATION id value =>
      build_dataobj st [(build_envelope_dataobj_device_ids e, true);
        (build_dataobj_timer_id id, true); (build_dataobj_timer_value value, true)]
  | STK_ENVELOPE_TYPE_USSD_DOWNLOAD string =>
      build_dataobj st [(build_envelope_dataobj_device_ids e, true);
        (build_dataobj_ussd_string string, true)]
  | STK_ENVELOPE_TYPE_MMS_TRANSFER_STATUS file id status =>
      build_dataobj st [(build_envelope_dataobj_device_ids e, true);
        (build_dataobj_file file, true); (build_dataobj_mms_id id, false);
        (build_dataobj_mms_transfer_status status, false)]
  | STK_ENVELOPE_TYPE_MMS_NOTIFICATION msg last =>
      build_dataobj st [(build_envelope_dataobj_device_ids e, true);
        (build_dataobj_mms_notification msg, true); (build_dataobj_last_envelope last, false)]
  | STK_ENVELOPE_TYPE_TERMINAL_APP apps last => build_envelope_terminal_apps st e apps last
  end.

Definition no_builder : ber_tlv_builder :=
  {| builder_max := 0; builder_pos := 0; builder_pdu := 0; builder_tag := 0; builder_class := 0;
     builder_encoding := 0; builder_len := 0 |}.

(** The octets of the message; [buffer] is the static array of 512. *)
Definition stk_pdu_from_envelope (buffer : list Z) (e : stk_envelope) : res (list Z) :=
  btlv ← ber_tlv_builder_init no_builder 0 512;
  st ← stk_tlv_builder_recurse buffer [btlv] (envelope_type e);
  '(buffer, it) ← build_envelope st e;
  match cbuilder_parent (stk_ctlv it) with
  | btlv :: _ =>
      '(buffer, pdu, out_length) ← ber_tlv_builder_optimize buffer btlv;
      slice buffer pdu out_length
  | [] => Ub
  end.
End Objects.

(** * What is written *)

(** A data object: tag, comprehension required, whether its length may take two
    octets, value. *)
Record piece := { pc_tag : Z; pc_cr : bool; pc_relocatable : bool; pc_value : list Z }.

Definition container_max (relocatable : bool) : Z := if relocatable then 0xff else 0x7f.

(** The octets that must be free to open the container. *)
Definition container_room (relocatable : bool) : Z := if relocatable then 258 else 129.

Definition piece_ctlv (p : piece) : ctlv := (pc_tag p, pc_cr p, pc_value p).

(** The objects of the pieces, if they find room one after the other in [max]
    octets of which [used] are taken. *)
Fixpoint place (max used : Z) (l : list piece) : option (list ctlv) :=
  match l with
  | [] => Some []
  | p :: l =>
    if (used + container_room (pc_relocatable p) <=? max) &&
       (zlen (pc_value p) <=? container_max (pc_relocatable p))
    then os ← place max (used + zlen (ctlv_octets (piece_ctlv p))) l; Some (piece_ctlv p :: os)
    else None
  end.

Section Writers.
(** The message starts with [pre] octets; [size] are for the objects, which are
    inside the BER object of builder [btlv]. *)
Context (pre : list Z) (size : Z) (btlv : ber_tlv_builder).
Hypothesis Hsize : size < 2 ^ 31.
Hypothesis Hbtlv : 0 <= builder_pos btlv /\ builder_pos btlv + 8 + size <= builder_max btlv < 2 ^ 32.

(** The objects [os] are written and their containers closed. *)
Record ready (st : stk_state) (os : list ctlv) : Prop := {
  ready_max : cbuilder_max (stk_ctlv st.2) = size;
  ready_parent : cbuilder_parent (stk_ctlv st.2) =
    [builder_set_pos_len btlv (builder_pos btlv) (zlen (ctlvs os))];
  ready_buf : match reverse os with
    | [] => exists rest, fresh_builder st.1 (stk_ctlv st.2) pre rest
    | o :: os' => exists rest, writing st.1 (stk_ctlv st.2) (reverse os') o pre rest
    end
}.

(** The container of an object is open, with [d] in it. *)
Record opened (st : stk_state) (os : list ctlv) (tag : Z) (cr relocatable : bool) (d : list Z) : Prop := {
  op_max : cbuilder_max (stk_ctlv st.2) = size;
  op_parent : exists n, cbuilder_parent (stk_ctlv st.2) =
    [builder_set_pos_len btlv (builder_pos btlv) n];
  op_writing : exists v rest, writing st.1 (stk_ctlv st.2) os (tag, cr, d ++ v) pre rest /\
    zlen d + zlen v = container_max relocatable;
  op_value : stk_value st.2 = zlen pre + zlen (ctlvs os) + tag_size tag +
    BTLV_LEN_FIELD_SIZE_NEEDED (container_max relocatable);
  op_len : stk_len st.2 = zlen d;
  op_limit : stk_max_len st.2 = container_max relocatable
}.

Lemma parent_fits n m : 0 <= n <= size ->
  parent_after [builder_set_pos_len btlv (builder_pos btlv) m] n =
  Ret [builder_set_pos_len btlv (builder_pos btlv) n].
Proof.
  intros Hn. unfold parent_after. cbn [ber_tlv_builder_set_length builder_set_pos_len builder_pos builder_max].
  unfold MAX_BER_TLV_HEADER, u32. rewrite Z.mod_small by lia. rewrite (proj2 (Z.ltb_ge _ _)) by lia. done.
Qed.

Lemma container_sizes (r : bool) :
  0 <= container_max r < 2 ^ 16 /\
  container_room r = 1 + BTLV_LEN_FIELD_SIZE_NEEDED (container_max r) + container_max r.
Proof. by destruct r. Qed.

(** Opening, on a builder that has the objects [os]. *)
Lemma open_ok st os tag cr (r : bool) : ready st os -> 0 < tag < 0x7f ->
  zlen (ctlvs os) + container_room r <= size ->
  exists st', stk_tlv_builder_open_container st cr tag r = Ret st' /\ opened st' os tag cr r [].
Proof.
  intros [Hm Hpar Hbuf] Ht Hroom. destruct st as [buf it]. cbn [fst snd] in *.
  assert (Htag : tag_ok tag) by (unfold tag_ok; lia).
  assert (Hts : tag_size tag = 1) by (unfold tag_size; by rewrite (proj2 (Z.leb_gt _ _)) by lia).
  destruct (container_sizes r) as [Hc Hr]. pose proof (zlen_nonneg (ctlvs os)).
  assert (Hk : 1 <= BTLV_LEN_FIELD_SIZE_NEEDED (container_max r)) by (by destruct r).
  assert (Hnext : exists buf' b' rest',
    comprehension_tlv_builder_next buf (stk_ctlv it) cr tag = Ret (buf', b') /\
    cbuilder_max b' = size /\ cbuilder_parent b' = cbuilder_parent (stk_ctlv it) /\
    writing buf' b' os (tag, cr, []) pre rest').
  { destruct (reverse os) as [|o os'] eqn:Hrev.
    - apply (f_equal reverse) in Hrev. rewrite reverse_involutive in Hrev. cbn in Hrev. subst os.
      destruct Hbuf as [rest Hf].
      destruct (next_fresh_ok _ _ _ _ cr tag Hf Htag) as (buf' & b' & rest' & -> & _ & Hm' & Hp' & Hw); [lia|].
      exists buf', b', rest'. rewrite Hm', Hp'. auto.
    - apply (f_equal reverse) in Hrev. rewrite reverse_involutive, reverse_cons in Hrev. subst os.
      destruct Hbuf as [rest Hf].
      destruct (next_ok _ _ _ _ _ _ cr tag Hf Htag) as (buf' & b' & rest' & -> & _ & Hm' & Hp' & Hw); [lia|].
      exists buf', b', rest'. rewrite Hm', Hp'. auto. }
  destruct Hnext as (buf' & b' & rest' & Hn & Hm' & Hp' & Hw).
  unfold stk_tlv_builder_open_container. rewrite Hn. simp_res.
  change (if r then 255 else 127) with (container_max r).
  destruct (set_length_ok buf' b' os tag cr [] pre rest' (container_max r)
    [builder_set_pos_len btlv (builder_pos btlv)
       (zlen (ctlvs os) + (tag_size tag + BTLV_LEN_FIELD_SIZE_NEEDED (container_max r) + container_max r))])
    as (buf2 & b2 & v & rest2 & -> & _ & Hm2 & Hp2 & Hw2 & Hv & _); [done|done|lia| |].
  { rewrite Hp', Hpar. apply parent_fits. lia. }
  simp_res. rewrite (get_data_ok _ _ _ _ _ _ _ _ Hw2). simp_res. rewrite Hv.
  eexists. split; [done|]. split; cbn [fst snd stk_ctlv stk_value stk_len stk_max_len]; try done.
  - by rewrite Hm2.
  - eauto.
  - exists v, rest2. split; [done|]. change (zlen []) with 0. lia.
Qed.

Lemma open_err st os tag cr (r : bool) : ready st os -> 0 < tag < 0x7f ->
  size < zlen (ctlvs os) + container_room r ->
  stk_tlv_builder_open_container st cr tag r = Err.
Proof.
  intros [Hm Hpar Hbuf] Ht Hroom. destruct st as [buf it]. cbn [fst snd] in *.
  assert (Htag : tag_ok tag) by (unfold tag_ok; lia).
  assert (Hts : tag_size tag = 1) by (unfold tag_size; by rewrite (proj2 (Z.leb_gt _ _)) by lia).
  destruct (container_sizes r) as [Hc Hr].
  assert (Hnext : comprehension_tlv_builder_next buf (stk_ctlv it) cr tag = Err \/
    exists buf' b' rest',
      comprehension_tlv_builder_next buf (stk_ctlv it) cr tag = Ret (buf', b') /\
      cbuilder_max b' = size /\ writing buf' b' os (tag, cr, []) pre rest').
  { destruct (reverse os) as [|o os'] eqn:Hrev.
    - apply (f_equal reverse) in Hrev. rewrite reverse_involutive in Hrev. cbn in Hrev. subst os.
      destruct Hbuf as [rest Hf]. destruct (Z.ltb_spec size (1 + 1)).
      + left. apply (next_fresh_err _ _ _ _ _ _ Hf Htag). lia.
      + right. destruct (next_fresh_ok _ _ _ _ cr tag Hf Htag) as (buf' & b' & rest' & -> & _ & Hm' & _ & Hw); [lia|].
        exists buf', b', rest'. rewrite Hm'. auto.
    - apply (f_equal reverse) in Hrev. rewrite reverse_involutive, reverse_cons in Hrev. subst os.
      destruct Hbuf as [rest Hf].
      destruct (Z.ltb_spec size (zlen (ctlvs (reverse os' ++ [o])) + tag_size tag + 1)).
      + left. apply (next_err _ _ _ _ _ _ _ _ Hf Htag). lia.
      + right. destruct (next_ok _ _ _ _ _ _ cr tag Hf Htag) as (buf' & b' & rest' & -> & _ & Hm' & _ & Hw); [lia|].
        exists buf', b', rest'. rewrite Hm'. auto. }
  unfold stk_tlv_builder_open_container. destruct Hnext as [->|(buf' & b' & rest' & -> & Hm' & Hw)]; [done|].
  simp_res. change (if r then 255 else 127) with (container_max r).
  rewrite (set_length_err _ _ _ _ _ _ _ _ _ Hw Hc); [done|]. lia.
Qed.

(** A guarded store of [bs] in the open container: what the [append] functions
    do. *)
Definition append_guarded (st : stk_state) (bs : list Z) : res stk_state :=
  if stk_max_len (snd st) <? stk_len (snd st) + zlen bs then Err else stk_append st bs.

Lemma append_ok st os tag cr r d bs : opened st os tag cr r d ->
  if container_max r <? zlen d + zlen bs then append_guarded st bs = Err
  else exists st', append_guarded st bs = Ret st' /\ opened st' os tag cr r (d ++ bs).
Proof.
  intros [Hm Hpar (v & rest & Hw & Hz) Hv Hl Hmax]. unfold append_guarded. rewrite Hmax, Hl.
  destruct (Z.ltb_spec (container_max r) (zlen d + zlen bs)) as [|Hfit]; [done|].
  destruct st as [buf it]. cbn [fst snd] in *. unfold stk_append. rewrite Hv, Hl.
  rewrite <- (take_drop (Z.to_nat (zlen bs)) v) in Hw.
  assert (Hdv : zlen (d ++ take (Z.to_nat (zlen bs)) v ++ drop (Z.to_nat (zlen bs)) v) = container_max r).
  { rewrite take_drop, zlen_app. lia. }
  destruct (put_value_ok _ _ _ _ _ _ _ _ bs _ _ Hw) as (buf' & Hput & _ & Hw').
  { rewrite zlen_take. pose proof (zlen_nonneg bs). lia. }
  rewrite Hdv in Hput. rewrite Hput. simp_res. eexists. split; [done|].
  split; cbn [fst snd stk_ctlv stk_value stk_len stk_max_len]; try done.
  - exists (drop (Z.to_nat (zlen bs)) v), rest. rewrite <- app_assoc. split; [done|].
    rewrite zlen_app, zlen_drop. pose proof (zlen_nonneg bs). lia.
  - rewrite zlen_app. lia.
Qed.

Lemma ready_snoc st os o : ready st (os ++ [o]) <->
  cbuilder_max (stk_ctlv st.2) = size /\
  cbuilder_parent (stk_ctlv st.2) =
    [builder_set_pos_len btlv (builder_pos btlv) (zlen (ctlvs (os ++ [o])))] /\
  exists rest, writing st.1 (stk_ctlv st.2) os o pre rest.
Proof.
  split.
  - intros [Hm Hp Hb]. rewrite reverse_snoc, reverse_involutive in Hb. done.
  - intros (Hm & Hp & Hb). split; [done|done|]. by rewrite reverse_snoc, reverse_involutive.
Qed.

Lemma close_ok st os tag cr r d : opened st os tag cr r d ->
  exists st', stk_tlv_builder_close_container st = Ret st' /\ ready st' (os ++ [(tag, cr, d)]).
Proof.
  intros [Hm [n Hpar] (v & rest & Hw & Hz) Hv Hl Hmax]. destruct st as [buf it]. cbn [fst snd] in *.
  unfold stk_tlv_builder_close_container. rewrite Hl. pose proof (zlen_nonneg d). pose proof (zlen_nonneg v).
  pose proof (zlen_nonneg (ctlvs os)). destruct (container_sizes r) as [Hc _].
  pose proof Hw as [_ _ _ _ Ht _ _ Hfits]. cbn [fst snd] in *.
  rewrite zlen_ctlv_octets, zlen_app in Hfits by (rewrite ?zlen_app; try done; lia).
  assert (Hk : 1 <= BTLV_LEN_FIELD_SIZE_NEEDED (zlen d) <= BTLV_LEN_FIELD_SIZE_NEEDED (container_max r)).
  { unfold BTLV_LEN_FIELD_SIZE_NEEDED. destruct r; cbn [container_max] in *; repeat case_cmp; bool_to_prop; lia. }
  rewrite Hz in Hfits. pose proof (tag_size_range tag).
  set (total := zlen (ctlvs os) + (tag_size tag + BTLV_LEN_FIELD_SIZE_NEEDED (zlen d) + zlen d)).
  destruct (set_length_ok _ _ _ _ _ _ _ _ (zlen d)
    [builder_set_pos_len btlv (builder_pos btlv) total] Hw)
    as (buf' & b' & v' & rest' & -> & _ & Hm' & Hp' & Hw' & Hv' & Htake); [lia|lia| |].
  { rewrite Hpar. apply parent_fits. unfold total. lia. }
  simp_res. eexists. split; [done|]. apply ready_snoc. cbn [fst snd stk_ctlv].
  assert (v' = d) as ->.
  { rewrite zlen_app, Z.min_r in Htake by lia. rewrite to_nat_zlen, take_app_length in Htake.
    rewrite <- Htake, firstn_all2; [done|]. unfold zlen in Hv'. lia. }
  split_and!; [by rewrite Hm'| |eauto].
  rewrite Hp', ctlvs_snoc, zlen_app, zlen_ctlv_octets by (try done; lia). done.
Qed.

(** ** Writers *)

Definition placed (used : Z) (p : piece) : bool :=
  (used + container_room (pc_relocatable p) <=? size) &&
  (zlen (pc_value p) <=? container_max (pc_relocatable p)).

(** A writer adds the piece [o], or nothing for [None]; it fails when there is
    no room for it. *)
Definition writes (w : stk_state -> res stk_state) (o : option piece) : Prop :=
  forall st os, ready st os ->
  match o with
  | None => w st = Ret st
  | Some p =>
    if placed (zlen (ctlvs os)) p
    then exists st', w st = Ret st' /\ ready st' (os ++ [piece_ctlv p])
    else w st = Err
  end.

(** The stores of a container, and its closing. *)
Fixpoint stores (chunks : list (list Z)) (st : stk_state) : res stk_state :=
  match chunks with
  | [] => stk_tlv_builder_close_container st
  | bs :: chunks => st ← append_guarded st bs; stores chunks st
  end.

Lemma stores_ok chunks : forall st os tag cr r d, opened st os tag cr r d ->
  zlen d <= container_max r ->
  if zlen d + zlen (concat chunks) <=? container_max r
  then exists st', stores chunks st = Ret st' /\ ready st' (os ++ [(tag, cr, d ++ concat chunks)])
  else stores chunks st = Err.
Proof.
  induction chunks as [|bs chunks IH]; intros st os tag cr r d Ho Hd; cbn [stores concat].
  - change (zlen []) with 0. rewrite Z.add_0_r, (proj2 (Z.leb_le _ _)), app_nil_r by done.
    by apply (close_ok st os tag cr r d).
  - pose proof (append_ok st os tag cr r d bs Ho) as Ha. rewrite zlen_app. zlen_pos.
    pose proof (zlen_nonneg (concat chunks)).
    destruct (Z.ltb_spec (container_max r) (zlen d + zlen bs)) as [Hlt|Hge].
    + rewrite Ha. simp_res. by rewrite (proj2 (Z.leb_gt _ _)) by lia.
    + destruct Ha as (st' & -> & Ho'). simp_res.
      specialize (IH st' os tag cr r (d ++ bs) Ho'). rewrite zlen_app in IH.
      rewrite Z.add_assoc. rewrite <- app_assoc in IH. apply IH. lia.
Qed.

Lemma container_writes tag cr r chunks : 0 < tag < 0x7f ->
  writes (fun st => st ← stk_tlv_builder_open_container st cr tag r; stores chunks st)
    (Some {| pc_tag := tag; pc_cr := cr; pc_relocatable := r; pc_value := concat chunks |}).
Proof.
  intros Ht st os Hr. unfold placed. cbn [pc_relocatable pc_value].
  destruct (Z.leb_spec (zlen (ctlvs os) + container_room r) size) as [Hroom|Hroom]; cbn [andb].
  - destruct (open_ok st os tag cr r Hr Ht Hroom) as (st' & -> & Ho). simp_res.
    pose proof (stores_ok chunks st' os tag cr r [] Ho) as Hs. change (zlen []) with 0 in Hs.
    rewrite Z.add_0_l in Hs. apply Hs. by destruct r.
  - by rewrite (open_err st os tag cr r Hr Ht Hroom).
Qed.

Lemma writes_ext w w' o : (forall st, w st = w' st) -> writes w' o -> writes w o.
Proof. intros He Hw st os Hr. specialize (Hw st os Hr). destruct o; by rewrite He. Qed.

Lemma build_dataobj_app l1 : forall l2 st,
  build_dataobj st (l1 ++ l2) = st ← build_dataobj st l1; build_dataobj st l2.
Proof.
  induction l1 as [|[w cr] l1 IH]; intros l2 st; [done|]. cbn [app build_dataobj].
  rewrite bind_assoc. apply bind_ext. auto.
Qed.

(** Pieces one after the other. *)
Lemma build_dataobj_ok l : forall os ops st,
  Forall2 (fun wc o => writes (fun st => wc.1 st wc.2) o) l ops -> ready st os ->
  match place size (zlen (ctlvs os)) (omap id ops) with
  | Some new => exists st', build_dataobj st l = Ret st' /\ ready st' (os ++ new)
  | None => build_dataobj st l = Err
  end.
Proof.
  induction l as [|[w cr] l IH]; intros os ops st Hf Hr; inversion Hf as [|? o ? ops' Hw Hf']; subst;
    cbn [build_dataobj].
  - exists st. by rewrite app_nil_r.
  - specialize (Hw st os Hr). cbn [fst snd] in Hw. destruct o as [p|].
    + change (omap id (Some p :: ops')) with (p :: omap id ops'). cbn [place]. fold (placed (zlen (ctlvs os)) p). destruct (placed _ _); [|by rewrite Hw].
      destruct Hw as (st' & -> & Hr'). simp_res. specialize (IH _ ops' st' Hf' Hr').
      rewrite ctlvs_snoc, zlen_app in IH.
      destruct (place _ _ _) as [new|]; [|done].
      destruct IH as (st2 & -> & Hr2). exists st2. by rewrite <- app_assoc in Hr2.
    + change (omap id (None :: ops')) with (omap id ops'). rewrite Hw. simp_res. by apply IH.
Qed.
End Writers.

(** ** The pieces of the data objects *)

Lemma append_byte_guarded st n : stk_tlv_builder_append_byte st n = append_guarded st [n].
Proof.
  unfold stk_tlv_builder_append_byte, append_guarded. change (zlen [n]) with 1.
  destruct (Z.leb_spec (stk_max_len st.2) (stk_len st.2)), (Z.ltb_spec (stk_max_len st.2) (stk_len st.2 + 1));
    try done; lia.
Qed.

Lemma append_short_guarded st n :
  stk_tlv_builder_append_short st n = append_guarded st [Z.shiftr n 8; Z.land n 0xff].
Proof. done. Qed.

Lemma append_bytes_guarded st data : stk_tlv_builder_append_bytes st data (zlen data) = append_guarded st data.
Proof.
  unfold stk_tlv_builder_append_bytes, append_guarded.
  rewrite (at_pos_slice data 0 data [] (zlen data)); [done| |done].
  rewrite app_nil_r. apply at_pos_0.
Qed.

Lemma append_bytes_prefix st data n : 0 <= n <= zlen data ->
  stk_tlv_builder_append_bytes st data n = append_guarded st (take (Z.to_nat n) data).
Proof.
  intros Hn. unfold stk_tlv_builder_append_bytes, append_guarded.
  assert (zlen (take (Z.to_nat n) data) = n) as -> by (rewrite zlen_take; lia).
  rewrite (at_pos_slice data 0 (take (Z.to_nat n) data) (drop (Z.to_nat n) data) n); [done| |rewrite zlen_take; lia].
  rewrite take_drop. apply at_pos_0.
Qed.

(** A writer is a container and its stores. *)
Ltac same_stores :=
  repeat first
    [ reflexivity
    | rewrite bind_Ret | rewrite bind_assoc | rewrite append_byte_guarded | rewrite append_short_guarded | rewrite append_bytes_guarded
    | apply bind_ext; intros ?; cbn [stores] ].

Definition some_piece (tag : Z) (cr r : bool) (value : list Z) : option piece :=
  Some {| pc_tag := tag; pc_cr := cr; pc_relocatable := r; pc_value := value |}.

(** The pieces of the data objects, [None] for one that is left out. *)

Definition address_piece (addr : stk_address) (cr : bool) : option piece :=
  match addr_number addr with
  | None => None
  | Some number => some_piece 0x06 cr false (ton_npi addr :: sim_encode_bcd_number number)
  end.

Definition short_octets (n : Z) : list Z := [Z.shiftr n 8; Z.land n 0xff].
Definition optional_octets (n : option Z) : list Z := from_option short_octets [] n.
Definition ret_or_nil (r : res (list Z)) : list Z := match r with Ret l => l | _ => [] end.

Definition eutran_octets (n : option Z) : list Z :=
  match n with
  | Some ci => short_octets (u16 (Z.shiftr ci 12)) ++ short_octets (u16 (Z.lor (u32 (Z.shiftl ci 4)) 0xf))
  | None => []
  end.

Definition location_piece (li : stk_location_info) (cr : bool) : option piece :=
  if nth 0 (li_mcc li) 0 =? 0 then None
  else some_piece 0x13 cr false
    (ret_or_nil (sim_encode_mcc_mnc (li_mcc li) (li_mnc li)) ++ short_octets (lac_tac li) ++
     optional_octets (li_ci li) ++ optional_octets (li_ext_ci li) ++ eutran_octets (li_eutran_ci li)).

Definition octets_piece (tag : Z) (cr : bool) (value : list Z) : option piece :=
  if zlen value =? 0 then None else some_piece tag cr false value.

Definition flag_piece (tag : Z) (set : bool) : option piece :=
  if set then some_piece tag false false [] else None.

Definition number_piece (tag n : Z) : option piece :=
  if n =? 0 then None else some_piece tag true false [n].

Definition timer_value_piece (value : stk_timer_value) : option piece :=
  match value with
  | None => None
  | Some (h, m, s) => some_piece 0x25 true false [TO_BCD h; TO_BCD m; TO_BCD s]
  end.

Section Pieces.
Context `{L : Utf8Laws} `{GL : !GlibUtf8Laws U G}.

Definition tpdu_piece (msg : sms_deliver) : option piece :=
  some_piece 0x0B true true
    (match sms_encode 165 {| sc_addr := no_address; tpdu := SMS_TYPE_DELIVER msg |} with
     | Ret (tpdu, _) => drop 1 tpdu
     | _ => []
     end).

Definition app_piece (rad : stk_registry_application_data) : option piece :=
  match rad_name_octets (rad_name rad) with
  | Ret (name, dcs) =>
      some_piece 0x71 false true (short_octets (rad_port rad) ++ [dcs] ++ [rad_type rad] ++ name)
  | _ => None
  end.

Definition device_ids_piece (e : stk_envelope) (cr : bool) : option piece :=
  some_piece 0x02 cr false ([env_src e] ++ [env_dst e]).

Definition envelope_pieces (e : stk_envelope) : list (option piece) :=
  match env_data e with
  | STK_ENVELOPE_TYPE_SMS_PP_DOWNLOAD address message =>
      [device_ids_piece e true; address_piece address false; tpdu_piece message]
  | STK_ENVELOPE_TYPE_MENU_SELECTION item_id help_request =>
      [device_ids_piece e true; number_piece 0x10 item_id; flag_piece 0x15 help_request]
  | STK_ENVELOPE_TYPE_MO_SMS_CONTROL sc_address dest_address location =>
      [device_ids_piece e false; address_piece sc_address false; address_piece dest_address false;
       location_piece location false]
  | STK_ENVELOPE_TYPE_TIMER_EXPIRATION id value =>
      [device_ids_piece e true; number_piece 0x24 id; timer_value_piece value]
  | STK_ENVELOPE_TYPE_USSD_DOWNLOAD string =>
      [device_ids_piece e true;
       some_piece 0x0A true false (ussd_dcs string :: take (Z.to_nat (ussd_len string)) (ussd_string string))]
  | STK_ENVELOPE_TYPE_MMS_TRANSFER_STATUS file id status =>
      [device_ids_piece e true; some_piece 0x12 true true (1 :: file); octets_piece 0x6B false id;
       octets_piece 0x6C false status]
  | STK_ENVELOPE_TYPE_MMS_NOTIFICATION msg last =>
      [device_ids_piece e true; some_piece 0x6F true true msg; flag_piece 0x70 last]
  | STK_ENVELOPE_TYPE_TERMINAL_APP apps last =>
      [device_ids_piece e true] ++ map app_piece apps ++ [flag_piece 0x70 last]
  end.

(** ** Well-formed envelopes *)

Definition address_ok (addr : stk_address) : Prop :=
  is_byte (ton_npi addr) /\
  match addr_number addr with Some number => Forall bcd_char number /\ zlen number <= 256 | None => True end.

Definition short_ok (n : Z) : Prop := 0 <= n < 2 ^ 16.

Definition location_ok (li : stk_location_info) : Prop :=
  (head (li_mcc li) = Some 0 \/
   exists mcc mnc, li_mcc li = chars4 mcc /\ li_mnc li = chars4 mnc /\ plmn mcc mnc) /\
  short_ok (lac_tac li) /\ from_option short_ok True (li_ci li) /\ from_option short_ok True (li_ext_ci li).

Definition app_ok (rad : stk_registry_application_data) : Prop :=
  short_ok (rad_port rad) /\ is_byte (rad_type rad) /\
  exists name dcs, rad_name_octets (rad_name rad) = Ret (name, dcs) /\ bytes name /\ is_byte dcs.

Definition envelope_ok (e : stk_envelope) : Prop :=
  is_byte (env_src e) /\ is_byte (env_dst e) /\
  match env_data e with
  | STK_ENVELOPE_TYPE_SMS_PP_DOWNLOAD address message => address_ok address /\ wf_deliver message
  | STK_ENVELOPE_TYPE_MENU_SELECTION item_id _ => is_byte item_id
  | STK_ENVELOPE_TYPE_MO_SMS_CONTROL sc_address dest_address location =>
      address_ok sc_address /\ address_ok dest_address /\ location_ok location
  | STK_ENVELOPE_TYPE_TIMER_EXPIRATION id value => is_byte id
  | STK_ENVELOPE_TYPE_USSD_DOWNLOAD string =>
      is_byte (ussd_dcs string) /\ bytes (ussd_string string) /\
      0 <= ussd_len string <= zlen (ussd_string string)
  | STK_ENVELOPE_TYPE_MMS_TRANSFER_STATUS file id status => bytes file /\ bytes id /\ bytes status
  | STK_ENVELOPE_TYPE_MMS_NOTIFICATION msg _ => bytes msg
  | STK_ENVELOPE_TYPE_TERMINAL_APP apps _ => Forall app_ok apps
  end.

Lemma deliver_encoded msg : wf_deliver msg ->
  exists bs, sms_encode 165 {| sc_addr := no_address; tpdu := SMS_TYPE_DELIVER msg |} = Ret (0 :: bs, zlen bs) /\
    bytes bs.
Proof.
  intros Hwf. destruct (deliver_codec msg Hwf) as (bs & [He _ _ Hb] & Hl). exists bs. split; [|done].
  unfold sms_encode. cbn [tpdu sc_addr]. change (sms_encode_address_field 165 [] true no_address) with (Ret [0]).
  simp_res. cbn [encode_tpdu]. rewrite He by (change (zlen [0]) with 1; lia).
  rewrite put_ok by (change (zlen [0]) with 1; lia). simp_res. do 2 f_equal. zl.
Qed.

Section Each.
Context (pre : list Z) (size : Z) (btlv : ber_tlv_builder).
Hypothesis Hsize : size < 2 ^ 31.
Hypothesis Hbtlv : 0 <= builder_pos btlv /\ builder_pos btlv + 8 + size <= builder_max btlv < 2 ^ 32.

Lemma writes_container w tag cr r chunks value : 0 < tag < 0x7f -> value = concat chunks ->
  (forall st, w st = st ← stk_tlv_builder_open_container st cr tag r; stores chunks st) ->
  writes pre size btlv w (some_piece tag cr r value).
Proof.
  intros Ht -> He. eapply writes_ext; [exact He|]. by apply container_writes.
Qed.

Lemma writes_nothing w : (forall st, w st = Ret st) -> writes pre size btlv w None.
Proof. intros He st os Hr. apply He. Qed.

Lemma address_writes addr cr : address_ok addr ->
  writes pre size btlv (fun st => build_dataobj_address addr st cr) (address_piece addr cr).
Proof.
  unfold address_ok, address_piece. destruct (addr_number addr) as [number|] eqn:Hn.
  - intros (_ & Hb & Hl). destruct (bcd_chars_encode number Hb) as (_ & Hz & _).
    apply writes_container with (chunks := [[ton_npi addr]; sim_encode_bcd_number number]); [done| |].
    + cbn [concat app]. by rewrite app_nil_r.
    + intros st. unfold build_dataobj_address. rewrite Hn, put_ok; simp_res; [same_stores|].
      change (zlen []) with 0. rewrite Hz. pose proof (zlen_nonneg number). Z.to_euclidean_division_equations. lia.
  - intros _. apply writes_nothing. intros st. unfold build_dataobj_address. by rewrite Hn.
Qed.

Lemma item_id_writes id : writes pre size btlv (fun st => build_dataobj_item_id id st true) (number_piece 0x10 id).
Proof.
  unfold build_dataobj_item_id, number_piece. destruct (id =? 0); [by apply writes_nothing|].
  apply writes_container with (chunks := [[id]]); [done|done|]. intros st. same_stores.
Qed.

Lemma timer_id_writes id : writes pre size btlv (fun st => build_dataobj_timer_id id st true) (number_piece 0x24 id).
Proof.
  unfold build_dataobj_timer_id, number_piece. destruct (id =? 0); [by apply writes_nothing|].
  apply writes_container with (chunks := [[id]]); [done|done|]. intros st. same_stores.
Qed.

Lemma timer_value_writes v :
  writes pre size btlv (fun st => build_dataobj_timer_value v st true) (timer_value_piece v).
Proof.
  destruct v as [[[h m] s]|]; [|by apply writes_nothing].
  apply writes_container with (chunks := [[TO_BCD h]; [TO_BCD m]; [TO_BCD s]]); [done|done|].
  intros st. unfold build_dataobj_timer_value. same_stores.
Qed.

Lemma help_writes h : writes pre size btlv (fun st => build_dataobj_help_request h st false) (flag_piece 0x15 h).
Proof.
  destruct h; [|by apply writes_nothing].
  by apply writes_container with (chunks := []).
Qed.

Lemma last_writes l : writes pre size btlv (fun st => build_dataobj_last_envelope l st false) (flag_piece 0x70 l).
Proof.
  destruct l; [|by apply writes_nothing].
  by apply writes_container with (chunks := []).
Qed.

Lemma device_ids_writes e cr :
  writes pre size btlv (fun st => build_envelope_dataobj_device_ids e st cr) (device_ids_piece e cr).
Proof.
  apply writes_container with (chunks := [[env_src e]; [env_dst e]]); [done|done|].
  intros st. unfold build_envelope_dataobj_device_ids. same_stores.
Qed.

Lemma tpdu_writes msg : wf_deliver msg ->
  writes pre size btlv (fun st => build_dataobj_gsm_sms_tpdu msg st true) (tpdu_piece msg).
Proof.
  intros Hwf. destruct (deliver_encoded msg Hwf) as (bs & Henc & _).
  unfold tpdu_piece. rewrite Henc.
  apply writes_container with (chunks := [bs]); [done|cbn [concat drop]; by rewrite app_nil_r|].
  intros st. unfold build_dataobj_gsm_sms_tpdu. rewrite Henc. cbn [drop]. simp_res. same_stores.
Qed.
Lemma ussd_writes u : 0 <= ussd_len u <= zlen (ussd_string u) ->
  writes pre size btlv (fun st => build_dataobj_ussd_string u st true)
    (some_piece 0x0A true false (ussd_dcs u :: take (Z.to_nat (ussd_len u)) (ussd_string u))).
Proof.
  intros Hu. apply writes_container with (chunks := [[ussd_dcs u]; take (Z.to_nat (ussd_len u)) (ussd_string u)]);
    [done|cbn [concat app]; by rewrite app_nil_r|].
  intros st. unfold build_dataobj_ussd_string.
  apply bind_ext. intros st1. rewrite append_byte_guarded. cbn [stores]. apply bind_ext. intros st2.
  by rewrite append_bytes_prefix.
Qed.

Lemma file_writes file :
  writes pre size btlv (fun st => build_dataobj_file file st true) (some_piece 0x12 true true (1 :: file)).
Proof.
  apply writes_container with (chunks := [[1]; file]); [done|cbn [concat app]; by rewrite app_nil_r|].
  intros st. unfold build_dataobj_file, build_dataobj_file_list. cbn [append_files].
  change (u8 (zlen [file])) with 1. same_stores.
Qed.

Lemma mms_id_writes id : writes pre size btlv (fun st => build_dataobj_mms_id id st false) (octets_piece 0x6B false id).
Proof.
  unfold build_dataobj_mms_id, octets_piece. destruct (zlen id =? 0); [by apply writes_nothing|].
  apply writes_container with (chunks := [id]); [done|cbn [concat]; by rewrite app_nil_r|].
  intros st. same_stores.
Qed.

Lemma mms_status_writes status :
  writes pre size btlv (fun st => build_dataobj_mms_transfer_status status st false) (octets_piece 0x6C false status).
Proof.
  unfold build_dataobj_mms_transfer_status, octets_piece.
  destruct (zlen status =? 0); [by apply writes_nothing|].
  apply writes_container with (chunks := [status]); [done|cbn [concat]; by rewrite app_nil_r|].
  intros st. same_stores.
Qed.

Lemma mms_notification_writes msg :
  writes pre size btlv (fun st => build_dataobj_mms_notification msg st true) (some_piece 0x6F true true msg).
Proof.
  apply writes_container with (chunks := [msg]); [done|cbn [concat]; by rewrite app_nil_r|].
  intros st. unfold build_dataobj_mms_notification. same_stores.
Qed.

Lemma location_writes li cr : location_ok li ->
  writes pre size btlv (fun st => build_dataobj_location_info li st cr) (location_piece li cr).
Proof.
  intros [[H0|(mcc & mnc & Hm & Hn & Hp)] _]; unfold location_piece.
  - destruct (li_mcc li) as [|c mcc] eqn:Hmcc; [done|]. injection H0 as ->. cbn [nth Z.eqb].
    apply writes_nothing. intros st. unfold build_dataobj_location_info. by rewrite Hmcc.
  - destruct (mcc_mnc_back mcc mnc Hp) as (bs & He & Hz & Hb & _). rewrite Hm, Hn, He. cbn [ret_or_nil].
    destruct Hp as (Hl & _ & Hd & _). destruct mcc as [|c mcc]; [done|].
    apply Forall_cons in Hd as [Hc _]. unfold plmn_digit in Hc. change (nth 0 (chars4 (c :: mcc)) 0) with c.
    rewrite (proj2 (Z.eqb_neq c 0)) by lia.
    apply writes_container with (chunks := bs :: short_octets (lac_tac li) ::
      from_option (fun l => [l]) [] (short_octets <$> li_ci li) ++ from_option (fun l => [l]) [] (short_octets <$> li_ext_ci li) ++
      match li_eutran_ci li with
      | Some ci => [short_octets (u16 (Z.shiftr ci 12)); short_octets (u16 (Z.lor (u32 (Z.shiftl ci 4)) 0xf))]
      | None => [] end); [done| |].
    { by destruct (li_ci li), (li_ext_ci li), (li_eutran_ci li). }
    intros st. unfold build_dataobj_location_info. rewrite Hm, Hn. change (rd (chars4 (c :: mcc)) 0) with (Ret c).
    rewrite bind_Ret, (proj2 (Z.eqb_neq c 0)), He, bind_Ret, <- Hz by lia.
    destruct (li_ci li), (li_ext_ci li), (li_eutran_ci li); cbn [append_optional_short from_option fmap option_fmap option_map app];
      same_stores.
Qed.

Lemma app_writes rad : app_ok rad ->
  writes pre size btlv (fun st => build_dataobj_registry_application_data rad st false) (app_piece rad).
Proof.
  intros (_ & _ & name & dcs & He & _). unfold app_piece. rewrite He.
  apply writes_container with (chunks := [short_octets (rad_port rad); [dcs]; [rad_type rad]; name]);
    [done|cbn [concat]; by rewrite app_nil_r|].
  intros st. unfold build_dataobj_registry_application_data. rewrite He, bind_Ret. same_stores.
Qed.

Lemma apps_write apps : Forall app_ok apps ->
  Forall2 (fun wc o => writes pre size btlv (fun st => wc.1 st wc.2) o)
    ((fun app => (build_dataobj_registry_application_data app, false)) <$> apps) (map app_piece apps).
Proof. induction 1; constructor; [by apply app_writes|done]. Qed.

(** The writers of an envelope, all of them. *)
Lemma envelope_writes e : envelope_ok e ->
  exists l, (forall st, build_envelope st e = build_dataobj st l) /\
    Forall2 (fun wc o => writes pre size btlv (fun st => wc.1 st wc.2) o) l (envelope_pieces e).
Proof.
  intros (_ & _ & He). unfold build_envelope, envelope_pieces.
  destruct (env_data e) as [address message|item_id help|sc dest location|id value|string
    |file id status|msg last|apps last].
  8: { exists ([(build_envelope_dataobj_device_ids e, true)] ++
      ((fun app => (build_dataobj_registry_application_data app, false)) <$> apps) ++
      [(build_dataobj_last_envelope last, false)]). split.
    - intros st. unfold build_envelope_terminal_apps. rewrite build_dataobj_app. apply bind_ext.
      intros st1. by rewrite build_dataobj_app.
    - repeat apply Forall2_app; [|by apply apps_write|]; (apply Forall2_cons_2; [|apply Forall2_nil_2]);
        [apply device_ids_writes|apply last_writes]. }
  all: eexists; (split; [intros st; reflexivity|]); (apply Forall2_cons_2; [apply device_ids_writes|]).
  - apply Forall2_cons_2; [by apply address_writes, He|].
    apply Forall2_cons_2; [by apply tpdu_writes, He|apply Forall2_nil_2].
  - apply Forall2_cons_2; [apply item_id_writes|].
    apply Forall2_cons_2; [apply help_writes|apply Forall2_nil_2].
  - apply Forall2_cons_2; [by apply address_writes, He|]. apply Forall2_cons_2; [by apply address_writes, He|].
    apply Forall2_cons_2; [by apply location_writes, He|apply Forall2_nil_2].
  - apply Forall2_cons_2; [apply timer_id_writes|].
    apply Forall2_cons_2; [apply timer_value_writes|apply Forall2_nil_2].
  - apply Forall2_cons_2; [by apply ussd_writes, He|apply Forall2_nil_2].
  - apply Forall2_cons_2; [apply file_writes|]. apply Forall2_cons_2; [apply mms_id_writes|].
    apply Forall2_cons_2; [apply mms_status_writes|apply Forall2_nil_2].
  - apply Forall2_cons_2; [apply mms_notification_writes|].
    apply Forall2_cons_2; [apply last_writes|apply Forall2_nil_2].
Qed.
End Each.

(** ** The objects read back *)

Definition piece_ok (p : piece) : Prop := 0 < pc_tag p < 0x7f /\ bytes (pc_value p).

Lemma byte_u8 z : is_byte (u8 z).
Proof. unfold is_byte, u8. Z.to_euclidean_division_equations; lia. Qed.

Lemma short_octets_bytes n : short_ok n -> bytes (short_octets n).
Proof.
  unfold short_ok, short_octets. intros Hn. rewrite land_ff, Z.shiftr_div_pow2 by lia.
  repeat apply Forall_cons_2; [..|by apply Forall_nil]; unfold is_byte; Z.to_euclidean_division_equations; lia.
Qed.

Lemma u16_short n : short_ok (u16 n).
Proof. unfold short_ok, u16. Z.to_euclidean_division_equations; lia. Qed.

Lemma address_piece_ok addr cr : address_ok addr -> from_option piece_ok True (address_piece addr cr).
Proof.
  unfold address_ok, address_piece. intros [Ht Hn]. destruct (addr_number addr) as [number|]; [|done].
  destruct Hn as [Hb _]. destruct (bcd_chars_encode number Hb) as (Hbytes & _). split; [done|].
  by apply Forall_cons.
Qed.

Lemma location_piece_ok li cr : location_ok li -> from_option piece_ok True (location_piece li cr).
Proof.
  intros [Hm (Hl & Hc & He)]. unfold location_piece. destruct Hm as [H0|(mcc & mnc & Hm & Hn & Hp)].
  { destruct (li_mcc li); [done|]. by injection H0 as ->. }
  destruct (_ =? 0); [done|]. destruct (mcc_mnc_back mcc mnc Hp) as (bs & Henc & _ & Hb & _).
  rewrite Hm, Hn, Henc. split; [done|]. cbn [pc_value ret_or_nil]. unfold bytes. rewrite !Forall_app.
  split_and!; [done|by apply short_octets_bytes|..].
  - destruct (li_ci li); [by apply short_octets_bytes|by apply Forall_nil].
  - destruct (li_ext_ci li); [by apply short_octets_bytes|by apply Forall_nil].
  - destruct (li_eutran_ci li); [|by apply Forall_nil].
    apply Forall_app; split; apply short_octets_bytes, u16_short.
Qed.

Lemma octets_piece_ok tag cr value : 0 < tag < 0x7f -> bytes value ->
  from_option piece_ok True (octets_piece tag cr value).
Proof. intros Ht Hb. unfold octets_piece. by destruct (_ =? 0). Qed.

Lemma flag_piece_ok tag (b : bool) : 0 < tag < 0x7f -> from_option piece_ok True (flag_piece tag b).
Proof. intros Ht. destruct b; [|done]. split; [done|by apply Forall_nil]. Qed.

Lemma number_piece_ok tag n : 0 < tag < 0x7f -> is_byte n -> from_option piece_ok True (number_piece tag n).
Proof.
  intros Ht Hn. unfold number_piece. destruct (_ =? 0); [done|]. split; [done|].
  apply Forall_cons; split; [done|by apply Forall_nil].
Qed.

Lemma timer_value_piece_ok v : from_option piece_ok True (timer_value_piece v).
Proof.
  destruct v as [[[h m] s]|]; [|done]. split; [done|].
  repeat apply Forall_cons_2; [apply byte_u8..|by apply Forall_nil].
Qed.

Lemma tpdu_piece_ok msg : wf_deliver msg -> from_option piece_ok True (tpdu_piece msg).
Proof.
  intros Hwf. split; [done|]. cbn [pc_value]. destruct (deliver_encoded msg Hwf) as (bs & -> & Hb).
  exact Hb.
Qed.

Lemma app_piece_ok rad : app_ok rad -> from_option piece_ok True (app_piece rad).
Proof.
  intros (Hp & Ht & name & dcs & He & Hn & Hd). unfold app_piece. rewrite He. split; [done|].
  cbn [pc_value app]. unfold bytes. rewrite Forall_app. split; [by apply short_octets_bytes|].
  by repeat apply Forall_cons_2.
Qed.

Lemma envelope_pieces_ok e : envelope_ok e -> Forall piece_ok (omap id (envelope_pieces e)).
Proof.
  intros (Hs & Hd & He). assert (Hall : Forall (from_option piece_ok True) (envelope_pieces e)).
  - assert (Hdev : forall cr, from_option piece_ok True (device_ids_piece e cr)).
    { intros cr. split; [done|]. by repeat apply Forall_cons_2. }
    unfold envelope_pieces. destruct (env_data e) as [address message|item_id help|sc dest location|id value|string
      |file id status|msg last|apps last]; cbn [app];
      repeat (apply Forall_cons_2; [solve [apply Hdev|by apply flag_piece_ok|by apply number_piece_ok|
        by apply address_piece_ok, He|by apply tpdu_piece_ok, He|by apply location_piece_ok, He|
        by apply timer_value_piece_ok|by apply octets_piece_ok, He]|]); try by apply Forall_nil.
    + apply Forall_cons_2; [|by apply Forall_nil]. split; [done|]. apply Forall_cons_2; [apply He|].
      by apply Forall_take, He.
    + apply Forall_cons_2; [|repeat (apply Forall_cons_2; [by apply octets_piece_ok, He|]); by apply Forall_nil].
      split; [done|]. apply Forall_cons_2; [done|apply He].
    + apply Forall_cons_2; [by split|]. apply Forall_cons_2; [by apply flag_piece_ok|by apply Forall_nil].
    + apply Forall_app. split.
      * apply Forall_map. eapply Forall_impl; [exact He|]. apply app_piece_ok.
      * apply Forall_cons_2; [by apply flag_piece_ok|by apply Forall_nil].
  - induction Hall as [|[p|] ops Hp Hops IH]; [done| |done]. change (omap id (Some p :: ops)) with (p :: omap id ops).
    by apply Forall_cons.
Qed.

Lemma place_ok max l : forall used os, Forall piece_ok l -> used <= max -> place max used l = Some os ->
  Forall ctlv_ok os /\ used + zlen (ctlvs os) <= max.
Proof.
  induction l as [|p l IH]; intros used os Hl Hu.
  - intros [= <-]. split; [by apply Forall_nil|]. change (zlen (ctlvs [])) with 0. lia.
  - apply Forall_cons in Hl as [[Ht Hb] Hl]. cbn [place].
    destruct (_ && _) eqn:Hc; [|done]. bool_to_prop. destruct (place _ _ _) as [os'|] eqn:Hp; [|done].
    intros [= <-]. destruct (container_sizes (pc_relocatable p)) as [Hm Hr].
    assert (Hok : ctlv_ok (piece_ctlv p)) by (split_and!; cbn; [unfold tag_ok; lia|done|lia]).
    assert (Hz : zlen (ctlv_octets (piece_ctlv p)) <= container_room (pc_relocatable p)).
    { unfold piece_ctlv. rewrite zlen_ctlv_octets by (unfold tag_ok; lia).
      unfold tag_size. rewrite (proj2 (Z.leb_gt _ _)) by lia. rewrite Hr.
      assert (BTLV_LEN_FIELD_SIZE_NEEDED (zlen (pc_value p)) <=
        BTLV_LEN_FIELD_SIZE_NEEDED (container_max (pc_relocatable p))); [|lia].
      unfold BTLV_LEN_FIELD_SIZE_NEEDED. destruct (pc_relocatable p); cbn [container_max] in *;
        repeat case_cmp; bool_to_prop; lia. }
    destruct (IH (used + zlen (ctlv_octets (piece_ctlv p))) os' Hl ltac:(lia) Hp) as [Hos Hfit].
    split; [by apply Forall_cons|]. cbn [ctlvs flat_map]. fold (ctlvs os'). rewrite zlen_app. lia.
Qed.

(** ** The message *)

Definition message_builder (type n : Z) : ber_tlv_builder :=
  {| builder_max := 512; builder_pos := 0; builder_pdu := 0; builder_tag := Z.land type 0x1f;
     builder_class := Z.shiftr type 6; builder_encoding := Z.land (Z.shiftr type 5) 1; builder_len := n |}.

Lemma recurse_ok pre x rest type : zlen pre = 8 -> zlen (pre ++ x :: rest) = 512 ->
  exists st, (btlv ← ber_tlv_builder_init no_builder 0 512;
              stk_tlv_builder_recurse (pre ++ x :: rest) [btlv] type) = Ret st /\
    ready pre 504 (message_builder type 0) st [].
Proof.
  intros Hp Hz. unfold stk_tlv_builder_recurse.
  change (ber_tlv_builder_init no_builder 0 512) with (Ret {| builder_max := 512; builder_pos := 0;
    builder_pdu := 0; builder_tag := 0xff; builder_class := 0; builder_encoding := 0; builder_len := 0 |}).
  rewrite bind_Ret.
  match goal with |- context [ber_tlv_builder_next ?buf ?bs ?c ?e ?t] =>
    change (ber_tlv_builder_next buf bs c e t) with (Ret (buf, [message_builder type 0])) end.
  rewrite bind_Ret. unfold ber_tlv_builder_recurse_comprehension.
  change (ber_tlv_builder_get_data (message_builder type 0)) with 8.
  change (u32 (builder_pdu (message_builder type 0) + builder_max (message_builder type 0) - 8)) with 504.
  unfold comprehension_tlv_builder_init. change (504 <? 2) with false. cbv iota.
  rewrite wr_middle by done. rewrite !bind_Ret. eexists. split; [done|].
  split; [done..|]. exists rest. split; cbn [fst snd stk_ctlv cbuilder_pdu cbuilder_pos cbuilder_len cbuilder_max]; try done.
  rewrite zlen_app, zlen_cons in *. lia.
Qed.

Lemma optimize_loop_ok c l : c <> 0xff -> forall k fuel buf pos len,
  at_pos buf pos (replicate k 0xff ++ c :: l) -> (k < fuel)%nat -> Z.of_nat k <= len < 2 ^ 32 ->
  optimize_loop fuel buf pos len = Ret (pos + Z.of_nat k, len - Z.of_nat k).
Proof.
  intros Hc. induction k as [|k IH]; intros fuel buf pos len Hp Hf Hlen;
    (destruct fuel as [|fuel]; [lia|]); cbn [optimize_loop replicate app] in *;
    destruct (at_pos_cons _ _ _ _ Hp) as [-> Hp']; simp_res.
  - rewrite (proj2 (Z.eqb_neq c _)) by done. do 2 f_equal; lia.
  - cbn [Z.eqb Pos.eqb]. unfold u32. rewrite Z.mod_small by lia.
    rewrite IH by (try done; lia). do 2 f_equal; lia.
Qed.

(** The header is the tag of the type and the length, behind stuffing. *)
Lemma message_header type n : 0xC1 <= type <= 0xDE -> 0 <= n < 2 ^ 16 ->
  exists k, ber_header (message_builder type n) =
    replicate k 0xff ++ type :: write_length (BTLV_LEN_FIELD_SIZE_NEEDED n) n /\
    Z.of_nat k = 7 - zlen (write_length (BTLV_LEN_FIELD_SIZE_NEEDED n) n).
Proof.
  intros Ht Hn. pose proof (range_forall (fun t => (Z.land t 0x1f <=? 0x1e) &&
    (u8 (Z.lor (Z.lor (Z.shiftl (Z.shiftr t 6) 6) (Z.shiftl (Z.land (Z.shiftr t 5) 1) 5)) (Z.land t 0x1f)) =? t))
    0xC1 30 type ltac:(by vm_compute) ltac:(lia)) as H. cbv beta in H. bool_to_prop.
  unfold ber_header, message_builder.
  cbn [builder_tag builder_len builder_class builder_encoding].
  assert (BTLV_TAG_FIELD_SIZE_NEEDED (Z.land type 31) = 1) as ->.
  { unfold BTLV_TAG_FIELD_SIZE_NEEDED. by rewrite (proj2 (Z.leb_le _ _)). }
  cbn [Z.eqb Pos.eqb Z.ltb Z.compare Pos.compare Pos.compare_cont app].
  match goal with H : u8 _ = type |- _ => rewrite H end.
  eexists. split; [reflexivity|]. unfold MAX_BER_TLV_HEADER, BTLV_LEN_FIELD_SIZE_NEEDED.
  by repeat case_cmp.
Qed.

Definition message_octets (type : Z) (os : list ctlv) : list Z :=
  type :: write_length (BTLV_LEN_FIELD_SIZE_NEEDED (zlen (ctlvs os))) (zlen (ctlvs os)) ++ ctlvs os.

Lemma ready_buffer pre size btlv st os : ready pre size btlv st os ->
  exists rest, st.1 = pre ++ ctlvs os ++ rest.
Proof.
  intros [_ _ Hb]. destruct (reverse os) as [|o os'] eqn:Hrev;
    apply (f_equal reverse) in Hrev; rewrite reverse_involutive in Hrev; subst os.
  - destruct Hb as [rest [-> _ _ _ _]]. by exists (0 :: rest).
  - destruct Hb as [rest [-> _ _ _ _ _ _ _]]. exists rest.
    by rewrite reverse_cons, ctlvs_snoc, <- !app_assoc.
Qed.

Lemma message_ok pre type st os : ready pre 504 (message_builder type 0) st os -> zlen pre = 8 ->
  0xC1 <= type <= 0xDE -> zlen (ctlvs os) <= 504 ->
  match cbuilder_parent (stk_ctlv st.2) with
  | btlv :: _ =>
      '(buffer, pdu, out_length) ← ber_tlv_builder_optimize st.1 btlv;
      slice buffer pdu out_length
  | [] => Ub
  end = Ret (message_octets type os).
Proof.
  intros Hr Hp Ht Hn. destruct (ready_buffer _ _ _ _ _ Hr) as [rest ->]. destruct Hr as [_ -> _].
  set (n := zlen (ctlvs os)) in *. pose proof (zlen_nonneg (ctlvs os)) as Hn0. fold n in Hn0.
  change (builder_set_pos_len (message_builder type 0) _ n) with (message_builder type n).
  destruct (message_header type n Ht ltac:(lia)) as (k & Hh & Hk).
  set (wl := write_length (BTLV_LEN_FIELD_SIZE_NEEDED n) n) in *.
  unfold ber_tlv_builder_optimize, ber_tlv_builder_write_header.
  pose proof (zlen_nonneg wl) as Hwl.
  assert (Hz8 : zlen (ber_header (message_builder type n)) = 8).
  { rewrite Hh, zlen_app, zlen_replicate, zlen_cons. lia. }
  pose proof (blit_middle [] pre (ctlvs os ++ rest) (ber_header (message_builder type n)) 0 eq_refl ltac:(lia)) as Hblit.
  cbn [app] in Hblit. cbn [message_builder builder_pdu builder_pos]. change (0 + 0) with 0.
  fold (message_builder type n). rewrite Hblit, bind_Ret.
  cbn [message_builder builder_pos builder_len builder_pdu]. unfold MAX_BER_TLV_HEADER, u32.
  rewrite Z.add_0_l, Z.mod_small by lia.
  rewrite Hh, <- !app_assoc, <- app_comm_cons.
  rewrite (optimize_loop_ok type (wl ++ ctlvs os ++ rest) ltac:(lia) k) by
    first [apply at_pos_0|lia|rewrite length_app, length_replicate; lia].
  rewrite !bind_Ret. rewrite app_comm_cons, (app_assoc (type :: wl)).
  rewrite slice_app; [|rewrite zlen_replicate; lia|rewrite zlen_app, zlen_cons; fold n; lia].
  done.
Qed.

Lemma length_field_bytes w n l : length_field w 4 n l -> bytes l.
Proof.
  destruct 1 as [n Hn|d ds Hb _ Hz].
  - apply Forall_cons; split; [unfold is_byte; lia|by apply Forall_nil].
  - apply Forall_cons; split; [|done]. pose proof (zlen_nonneg ds). rewrite zlen_cons in *. unfold is_byte. lia.
Qed.

Lemma length_field_weaken w n l : length_field w 3 n l -> length_field w 4 n l.
Proof. destruct 1; constructor; try done. lia. Qed.

Lemma ctlvs_bytes os : Forall ctlv_ok os -> bytes (ctlvs os).
Proof.
  induction 1 as [|o os Ho Hos IH]; [by apply Forall_nil|]. cbn [ctlvs flat_map]. apply Forall_app. split; [|done].
  destruct (ctlv_octets_object o Ho) as (t & l & Ht & Hl & ->). destruct Ho as (_ & Hb & _).
  unfold bytes. rewrite !Forall_app. split_and!; [|by eapply length_field_bytes, length_field_weaken|done].
  destruct Ht as [? cr ?|? ? cr]; repeat apply Forall_cons_2; try (by apply Forall_nil); try done;
    unfold is_byte in *; try destruct cr; lia.
Qed.

Lemma at_object_all pdu : bytes pdu -> zlen pdu < 2 ^ 32 -> at_object pdu (zlen pdu) 0 pdu.
Proof.
  intros Hb Hz. pose proof (at_object_init pdu (zlen pdu) Hb) as H. rewrite to_nat_zlen, firstn_all in H.
  apply H; [zl|done].
Qed.

(** The reader of the message finds the objects. *)
Lemma message_read type os recurse : 0xC1 <= type <= 0xDE -> Forall ctlv_ok os -> zlen (ctlvs os) <= 504 ->
  exists it, ber_tlv_iter_next (ber_tlv_iter_init no_object (message_octets type os) (zlen (message_octets type os)))
      = Ret it /\
    ber_tlv_iter_get_short_tag it = type /\
    ctlv_all (S (length os)) (ber_tlv_iter_recurse_comprehension it recurse) = Ret os.
Proof.
  intros Ht Hos Hn. pose proof (zlen_nonneg (ctlvs os)) as Hn0. unfold message_octets.
  set (wl := write_length (BTLV_LEN_FIELD_SIZE_NEEDED (zlen (ctlvs os))) (zlen (ctlvs os))).
  assert (Hwl : length_field 32 4 (zlen (ctlvs os)) wl) by (apply write_length_field; lia).
  assert (Hcs : bytes (ctlvs os)) by by apply ctlvs_bytes.
  assert (Hobj : ber_object (type / 64) (type / 32 mod 2) (type mod 32) (ctlvs os) ([type] ++ wl ++ ctlvs os)).
  { exists [type], wl. split_and!; [|done..].
    replace [type] with [type / 64 * 64 + type / 32 mod 2 * 32 + type mod 32]
      by (f_equal; Z.to_euclidean_division_equations; lia).
    constructor; Z.to_euclidean_division_equations; lia. }
  change (type :: wl ++ ctlvs os) with ([type] ++ wl ++ ctlvs os).
  set (pdu := [type] ++ wl ++ ctlvs os) in *.
  assert (Hpdu : zlen pdu = 1 + zlen wl + zlen (ctlvs os)) by (unfold pdu; rewrite !zlen_app; zl).
  assert (Hw5 : zlen wl <= 5) by (inversion Hwl; zl).
  assert (Hb : bytes pdu).
  { unfold pdu, bytes. rewrite !Forall_app. split_and!; [|by eapply length_field_bytes|done].
    apply Forall_cons; split; [unfold is_byte; lia|by apply Forall_nil]. }
  assert (Hat : ber_before (ber_tlv_iter_init no_object pdu (zlen pdu)) ([] ++ pdu ++ [])).
  { rewrite app_nil_r. exact (at_object_all pdu Hb ltac:(lia)). }
  eexists. split; [by apply (ber_next_complete _ [] _ _ _ _ _ _ Hat ltac:(by apply Forall_nil) Hobj)|].
  rewrite (get_short_tag_ok _ _ _ _ _ _ _ _ Hobj). split.
  - unfold short_tag. rewrite (proj2 (Z.ltb_ge _ _)) by (Z.to_euclidean_division_equations; lia).
    Z.to_euclidean_division_equations; lia.
  - apply ctlv_all_ok; [|done|lia]. unfold ber_tlv_iter_recurse_comprehension, ber_tlv_iter_get_data, ctlv_before.
    cbn [ber_at ber_data ber_pdu ber_len ber_tlv_iter_init comprehension_tlv_iter_init ctlv_pdu ctlv_max ctlv_pos ber_pos].
    change (zlen []) with 0. rewrite Hpdu at 1.
    replace (0 + 0 + _ - zlen (ctlvs os)) with (zlen ([type] ++ wl)) by (rewrite zlen_app; change (zlen [type]) with 1; lia).
    unfold pdu. rewrite app_assoc, drop_zlen_app by done.
    apply at_object_all; [done|lia].
Qed.

(** * Correctness *)

(** C16: what a SIM reads in an envelope.  If the data objects of a well-formed
    envelope find room, [stk_pdu_from_envelope] gives a message in which the
    reader of BER objects finds one object of the envelope's type, and the
    reader of comprehension objects finds in it exactly those data objects, in
    order, with their flags and values: each length as short as it can be, the
    stuffing in front of the header gone.  Otherwise the result is NULL: the
    buffer never overflows. *)
Theorem envelope_roundtrip buffer e recurse : zlen buffer = 512 -> envelope_ok e ->
  match place 504 0 (omap id (envelope_pieces e)) with
  | Some os =>
    exists pdu it, stk_pdu_from_envelope buffer e = Ret pdu /\
      ber_tlv_iter_next (ber_tlv_iter_init no_object pdu (zlen pdu)) = Ret it /\
      ber_tlv_iter_get_short_tag it = envelope_type e /\
      ctlv_all (S (length os)) (ber_tlv_iter_recurse_comprehension it recurse) = Ret os
  | None => stk_pdu_from_envelope buffer e = Err
  end.
Proof.
  intros Hz He. assert (Ht : 0xC1 <= envelope_type e <= 0xDE) by (unfold envelope_type; destruct (env_data e); lia).
  assert (Hbuf : exists pre x rest, buffer = pre ++ x :: rest /\ zlen pre = 8).
  { exists (take 8 buffer). destruct (drop 8 buffer) as [|x rest] eqn:Hd.
    - apply (f_equal zlen) in Hd. rewrite zlen_drop in Hd. change (zlen []) with 0 in Hd. lia.
    - exists x, rest. rewrite <- Hd, take_drop, zlen_take. split; [done|lia]. }
  destruct Hbuf as (pre & x & rest & -> & Hpre).
  destruct (recurse_ok pre x rest (envelope_type e) Hpre Hz) as (st & Hst & Hready).
  unfold stk_pdu_from_envelope. rewrite <- bind_assoc, Hst, bind_Ret.
  set (btlv := message_builder (envelope_type e) 0).
  assert (Hbtlv : 0 <= builder_pos btlv /\ builder_pos btlv + 8 + 504 <= builder_max btlv < 2 ^ 32) by done.
  destruct (envelope_writes pre 504 btlv Hbtlv e He) as (l & -> & Hl).
  pose proof (build_dataobj_ok pre 504 btlv l [] _ st Hl Hready) as Hbuild.
  change (zlen (ctlvs [])) with 0 in Hbuild.
  destruct (place 504 0 _) as [os|] eqn:Hplace; [|by rewrite Hbuild].
  destruct Hbuild as ([buf it] & -> & Hr). cbn [app] in Hr.
  destruct (place_ok 504 _ 0 os (envelope_pieces_ok e He) ltac:(lia) Hplace) as [Hok Hfit].
  rewrite bind_Ret. pose proof (message_ok pre _ _ os Hr Hpre Ht ltac:(lia)) as Hm. cbn [fst snd] in Hm. rewrite Hm.
  destruct (message_read (envelope_type e) os recurse Ht Hok ltac:(lia)) as (ber & Hn & Htag & Hall).
  by exists (message_octets (envelope_type e) os), ber.
Qed.
End Pieces.

(** * Concrete runs *)

(** The user chose item 3 of the menu and asks for help. *)
Definition menu_selection : stk_envelope :=
  {| env_src := 0x01; env_dst := 0x81; env_data := STK_ENVELOPE_TYPE_MENU_SELECTION 3 true |}.

Lemma envelope_roundtrip_witness :
  exists pdu it, stk_pdu_from_envelope (replicate 512 0) menu_selection = Ret pdu /\
    ber_tlv_iter_next (ber_tlv_iter_init no_object pdu (zlen pdu)) = Ret it /\
    ber_tlv_iter_get_short_tag it = 0xD3 /\
    ctlv_all 4 (ber_tlv_iter_recurse_comprehension it
        {| ctlv_pdu := []; ctlv_max := 0; ctlv_pos := 0; ctlv_tag := 0; ctlv_cr := false;
           ctlv_len := 0; ctlv_data := None |}) =
      Ret [(0x02, true, [0x01; 0x81]); (0x10, true, [3]); (0x15, false, [])].
Proof.
  apply (envelope_roundtrip (replicate 512 0) menu_selection); [reflexivity|].
  split; [|split]; apply (bool_decide_unpack _); reflexivity.
Defined.

Lemma menu_selection_octets : stk_pdu_from_envelope (replicate 512 0) menu_selection =
  Ret [0xD3; 9; 0x82; 2; 0x01; 0x81; 0x90; 1; 3; 0x15; 0].
Proof. by vm_compute. Qed.

(** stk_tlv_builder_append_gsm_packed() packs as many characters as the text
    has octets in UTF-8: for a text that is not ASCII more than there are. *)
Lemma append_gsm_packed_reads_past :
  (st ← stk_tlv_builder_init (replicate 512 0) 0 512;
   st ← stk_tlv_builder_open_container st true 0x0d true;
   stk_tlv_builder_append_text st 0x00 (Some [0xc3; 0xa9])) = Ub.
Proof. by vm_compute. Qed.
