(* ===== verification/TextSafety.v ===== *)
(** Texts that come from outside, of src/src/util.c: on any octets, the conversions
    of GSM text and of the alpha fields of a SIM end and stay within their
    arrays, but for one case, an octet above 0x7f behind an escape. *)
From S2P Require Import Prelude GsmTables Charset SevenBit SmsField.

(** Does an octet above 0x7f follow an escape? *)
Fixpoint high_escape (l : list Z) : bool :=
  match l with
  | a :: ((b :: _) as l) => ((a =? 0x1b) && (0x80 <=? b)) || high_escape l
  | _ => false
  end.

Lemma high_escape_lookup l : high_escape l = false ->
  forall i b, l !! i = Some 0x1b -> l !! S i = Some b -> b < 128.
Proof.
  induction l as [|a [|c l] IH]; intros Hl i b Ha Hb; [done|by destruct i|].
  change (((a =? 0x1b) && (0x80 <=? c)) || high_escape (c :: l) = false)%bool in Hl. apply orb_false_iff in Hl as [Hh Hl]. destruct i as [|i].
  - cbn in Ha, Hb. simplify_eq. rewrite Z.eqb_refl in Hh. cbn [andb] in Hh. by bool_to_prop.
  - exact (IH Hl i b Ha Hb).
Qed.

Lemma septets_no_high_escape l : septets l -> high_escape l = false.
Proof.
  induction l as [|a [|c l] IH]; intros Hl; [done..|].
  change (((a =? 0x1b) && (0x80 <=? c)) || high_escape (c :: l) = false)%bool.
  apply Forall_cons in Hl as [_ Hl]. pose proof Hl as [Hc _]%Forall_cons. rewrite (IH Hl).
  by rewrite (proj2 (Z.leb_gt _ _)), andb_false_r by lia.
Qed.

Lemma le_digits_septets n v : septets (le_digits 128 n v).
Proof.
  revert v. induction n as [|n IH]; intros v; cbn [le_digits]; [by apply Forall_nil|].
  apply Forall_cons. split; [apply Z.mod_pos_bound; lia|apply IH].
Qed.

Lemma rd_byte l i : bytes l -> 0 <= i < zlen l -> exists b, rd l i = Ret b /\ is_byte b.
Proof.
  intros Hl Hi. destruct (rd_in_bounds l i Hi) as [b Hb]. exists b. split; [done|].
  apply rd_lookup in Hb; [|lia]. by eapply Forall_lookup_1.
Qed.

Lemma slice_in_bounds {A} (l : list A) off n : 0 <= off -> 0 <= n -> off + n <= zlen l ->
  slice l off n = Ret (take (Z.to_nat n) (drop (Z.to_nat off) l)).
Proof. intros. unfold slice. by rewrite !(proj2 (Z.leb_le _ _)) by lia. Qed.

Section Conversions.
Context `{L : Utf8Laws}.

(** ** GSM text *)

Section Table.
Variable t : conversion_table.
Hypothesis Ht : dialect_tables t.

Lemma single_lookup_range k : 0 < gsm_single_shift_lookup t k <= 0xFFFF.
Proof.
  unfold gsm_single_shift_lookup.
  destruct (codepoint_lookup_cases (cp k 0) (single_g t)) as [(e & He & _ & ->)| ->]; [|by unfold GUND].
  destruct Ht as (l & s & Hi). apply init_dialect in Hi as (_ & Hs & _).
  unfold single_ok in Hs. apply andb_true_iff in Hs as [_ Hs]. rewrite forallb_forall in Hs.
  specialize (Hs e (proj1 (list_elem_of_In _ _) He)). bool_to_prop. destruct H0; bool_to_prop; lia.
Qed.

Lemma scalar_range c : bmp_scalar c -> 0 <= c <= 0xFFFF.
Proof. unfold bmp_scalar. lia. Qed.

(** The octets [res_length] counted from [i] on can be written from [i] on. *)
Definition gsm_writes (text : list Z) (i rl r : Z) : Prop :=
  rl <= r /\ forall fuel out, zlen out = rl -> (Z.to_nat (r - rl) < fuel)%nat ->
    exists i' out', gsm_write fuel t text r i out = Ret (i', out') /\ zlen out' = r.

(** One character of a text: it takes [n] octets of it from [i] on. *)
Definition gsm_char (text : list Z) (i n c : Z) : Prop :=
  0 <= c <= 0xFFFF /\
  ((n = 2 /\ rd text i = Ret 0x1b /\ exists k, rd text (i + 1) = Ret k /\ gsm_escaped t k = Ret c) \/
   (n = 1 /\ exists b, b <> 0x1b /\ rd text i = Ret b /\ gsm_locking_shift_lookup t b = Ret c)).

Lemma gsm_writes_char text i rl r n c : gsm_char text i n c ->
  gsm_writes text (i + n) (rl + UTF8_LENGTH c) r -> gsm_writes text i rl r.
Proof.
  intros [Hc Hch] [Hr Hw]. pose proof (UTF8_LENGTH_pos c). split; [lia|].
  intros [|fuel] out Hout Hf; [lia|]. cbn [gsm_write]. rewrite (proj2 (Z.ltb_lt _ _)) by lia.
  pose proof (from_wchar_length c Hc) as Hl.
  assert (Hnext : exists i' out', gsm_write fuel t text r (i + n) (out ++ l_utf8_from_wchar c) = Ret (i', out')
            /\ zlen out' = r) by (apply Hw; [zl|lia]).
  destruct Hch as [(-> & -> & k & Hk & He)|(-> & b & Hne & -> & He)]; simp_res.
  - rewrite Z.eqb_refl, Hk. simp_res. rewrite He. simp_res. rewrite put_ok by zl. simp_res. exact Hnext.
  - rewrite (proj2 (Z.eqb_neq _ _)), He by done. simp_res. rewrite put_ok by zl. simp_res. exact Hnext.
Qed.

Lemma gsm_measure_safe text len : bytes text -> len <= zlen text ->
  high_escape (take (Z.to_nat len) text) = false -> forall fuel i rl, 0 <= i -> (Z.to_nat (len - i) < fuel)%nat ->
  exists i' m, gsm_measure fuel t text len i rl = Ret (i', m) /\ forall r, m = Some r -> gsm_writes text i rl r.
Proof.
  intros Hb Hlen Hesc. induction fuel as [|fuel IH]; intros i rl Hi Hf; [lia|]. cbn [gsm_measure].
  destruct (Z.ltb_spec i len) as [Hlt|Hge].
  2:{ exists i, (Some rl). split; [done|]. intros r [= <-]. split; [lia|]. intros [|fuel2] out Hout Hf2; [lia|].
      cbn [gsm_write]. rewrite Hout, Z.ltb_irrefl. by exists i, out. }
  destruct (rd_byte text i Hb ltac:(lia)) as (b & Hr & Hbb). rewrite Hr. simp_res.
  destruct (Z.ltb_spec 0x7f b) as [|H7]; [by exists i, None|]. destruct (Z.eqb_spec b 0x1b) as [->|Hne].
  - destruct (Z.leb_spec len (i + 1)) as [|Hlt1]; [by exists (i + 1), None|].
    destruct (rd_byte text (i + 1) Hb ltac:(lia)) as (k & Hk & Hkb). rewrite Hk. simp_res.
    assert (k < 128).
    { apply rd_lookup in Hr, Hk; [|lia..]. eapply (high_escape_lookup _ Hesc (Z.to_nat i)).
      - rewrite lookup_take_lt by lia. exact Hr.
      - rewrite lookup_take_lt by lia. replace (S (Z.to_nat i)) with (Z.to_nat (i + 1)) by lia. exact Hk. }
    unfold is_byte in Hkb. destruct (escaped_septet t Ht k ltac:(lia)) as (c & He & _ & Hs%scalar_range).
    rewrite He. simp_res. destruct (IH (i + 1 + 1) (rl + UTF8_LENGTH c) ltac:(lia) ltac:(lia)) as (i' & m & -> & Hm).
    exists i', m. split; [done|]. intros r ->. apply (gsm_writes_char text i rl r 2 c).
    + split; [done|]. left. split_and!; [done|done|by exists k].
    + replace (i + 2) with (i + 1 + 1) by lia. by apply Hm.
  - unfold is_byte in Hbb. destruct (locking_lookup_septet t Ht b ltac:(lia)) as (c & He & _ & Hs%scalar_range).
    rewrite He. simp_res. destruct (IH (i + 1) (rl + UTF8_LENGTH c) ltac:(lia) ltac:(lia)) as (i' & m & -> & Hm).
    exists i', m. split; [done|]. intros r ->. apply (gsm_writes_char text i rl r 1 c); [|by apply Hm].
    split; [done|]. right. split; [done|]. by exists b.
Qed.

(** ** The formats of alpha fields *)

Definition sim_writes (buffer : list Z) (offset i rl r : Z) : Prop :=
  rl <= r /\ forall fuel out, zlen out = rl -> (Z.to_nat (r - rl) < fuel)%nat ->
    exists out', sim_write fuel t buffer offset r i out = Ret out' /\ zlen out' = r.

(** One character of an alpha field: it takes [n] octets from [i] on. *)
Definition sim_char (buffer : list Z) (offset i n c : Z) : Prop :=
  0 <= c <= 0xFFFF /\ exists b, rd buffer i = Ret b /\
  ((has b 0x80 = true /\ n = 1 /\ c = u16 (Z.land b 0x7f + offset)) \/
   (has b 0x80 = false /\ b = 0x1b /\ n = 2 /\ exists k, rd buffer (i + 1) = Ret k /\ c = gsm_single_shift_lookup t k) \/
   (has b 0x80 = false /\ b <> 0x1b /\ n = 1 /\ gsm_locking_shift_lookup t b = Ret c)).

Lemma sim_writes_char buffer offset i rl r n c : sim_char buffer offset i n c ->
  sim_writes buffer offset (i + n) (rl + UTF8_LENGTH c) r -> sim_writes buffer offset i rl r.
Proof.
  intros (Hc & b & Hb & Hch) [Hr Hw]. pose proof (UTF8_LENGTH_pos c). split; [lia|].
  intros [|fuel] out Hout Hf; [lia|]. cbn [sim_write]. rewrite (proj2 (Z.ltb_lt _ _)), Hb by lia. simp_res.
  pose proof (from_wchar_length c Hc) as Hl.
  assert (Hnext : exists out', sim_write fuel t buffer offset r (i + n) (out ++ l_utf8_from_wchar c) = Ret out'
            /\ zlen out' = r) by (apply Hw; [zl|lia]).
  destruct Hch as [(-> & -> & ->)|[(-> & -> & -> & k & Hk & ->)|(-> & Hne & -> & He)]].
  - rewrite put_ok by zl. simp_res. exact Hnext.
  - rewrite Z.eqb_refl, Hk. simp_res. rewrite put_ok by zl. simp_res. exact Hnext.
  - rewrite (proj2 (Z.eqb_neq _ _)), He by done. simp_res. rewrite put_ok by zl. simp_res. exact Hnext.
Qed.

Lemma low_bit_7 b : is_byte b -> has b 0x80 = false -> b < 128.
Proof.
  intros Hb H. unfold has in H. apply negb_false_iff, Z.eqb_eq in H. unfold is_byte in Hb.
  destruct (Z.lt_ge_cases b 128) as [|Hge]; [done|exfalso].
  assert (Ht7 : Z.testbit b 7 = true) by (apply Z.testbit_true; [lia|change (2 ^ 7) with 128; dzl]).
  apply (f_equal (fun z => Z.testbit z 7)) in H. by rewrite Z.land_spec, Ht7 in H.
Qed.

Lemma sim_measure_safe buffer length num_chars offset : bytes buffer -> length <= zlen buffer ->
  forall fuel i j rl, 0 <= i -> (Z.to_nat (length - i) < fuel)%nat ->
  match sim_measure fuel t buffer length num_chars offset i j rl with
  | Ret (i', _, r) => i <= i' /\ sim_writes buffer offset i rl r
  | Err => True
  | Ub => False
  end.
Proof.
  intros Hb Hlen. induction fuel as [|fuel IH]; intros i j rl Hi Hf; [lia|]. cbn [sim_measure].
  destruct ((i <? length) && (j <? num_chars)) eqn:Hgo.
  2:{ split; [lia|]. split; [lia|]. intros [|fuel2] out Hout Hf2; [lia|]. cbn [sim_write].
      rewrite Hout, Z.ltb_irrefl. by exists out. }
  bool_to_prop. destruct (rd_byte buffer i Hb ltac:(lia)) as (b & Hr & Hbb). rewrite Hr. simp_res.
  assert (Hstep : forall n c j', 0 < n -> sim_char buffer offset i n c ->
    match sim_measure fuel t buffer length num_chars offset (i + n) j' (rl + UTF8_LENGTH c) with
    | Ret (i', _, r) => i <= i' /\ sim_writes buffer offset i rl r
    | Err => True
    | Ub => False
    end).
  { intros n c j' Hn Hc. specialize (IH (i + n) j' (rl + UTF8_LENGTH c) ltac:(lia) ltac:(lia)).
    destruct (sim_measure _ _ _ _ _ _ _ _ _) as [[[i' j2] r]| |]; [|done|done].
    destruct IH as [Hle Hw]. split; [lia|]. by eapply sim_writes_char. }
  destruct (has b 0x80) eqn:Hhigh; [|destruct (Z.eqb_spec b 0x1b) as [->|Hne]].
  - destruct (negb _); simp_res; [|done]. apply Hstep; [lia|]. split; [unfold u16; pose proof (Z.mod_pos_bound (Z.land b 0x7f + offset) (2 ^ 16)); lia|].
    exists b. split; [done|]. by left.
  - destruct (Z.ltb_spec (i + 1) length); simp_res; [|done].
    destruct (rd_byte buffer (i + 1) Hb ltac:(lia)) as (k & Hk & _). rewrite Hk. simp_res.
    destruct (negb _); simp_res; [|done]. apply Hstep; [lia|].
    pose proof (single_lookup_range k). split; [lia|]. exists 0x1b. split; [done|]. right. left.
    split_and!; [done..|]. by exists k.
  - pose proof (low_bit_7 b Hbb Hhigh). unfold is_byte in Hbb.
    destruct (locking_lookup_septet t Ht b ltac:(lia)) as (c & He & _ & Hs%scalar_range). rewrite He. simp_res.
    apply Hstep; [lia|]. split; [done|]. exists b. split; [done|]. by right; right.
Qed.

Lemma all_ff_safe buffer length : length <= zlen buffer -> forall fuel i, 0 <= i ->
  (Z.to_nat (length - i) < fuel)%nat -> safe (all_ff fuel buffer length i).
Proof.
  intros Hlen. induction fuel as [|fuel IH]; intros i Hi Hf; [lia|]. cbn [all_ff].
  destruct (Z.ltb_spec i length); [|done]. destruct (rd_in_bounds buffer i ltac:(lia)) as [b ->]. simp_res.
  destruct (_ =? _); simp_res; [|done]. apply IH; lia.
Qed.

Lemma sim_string_offset_safe buffer length num_chars ucs2_offset offset : bytes buffer ->
  length <= zlen buffer -> 0 <= offset -> safe (sim_string_offset t buffer length num_chars ucs2_offset offset).
Proof.
  intros Hb Hlen Ho. unfold sim_string_offset.
  pose proof (sim_measure_safe buffer length num_chars ucs2_offset Hb Hlen (S (Z.to_nat length)) offset 0 0
    Ho ltac:(lia)) as Hm.
  destruct (sim_measure _ _ _ _ _ _ _ _ _) as [[[i j] r]| |]; [|done|done]. simp_res. destruct Hm as [Hi [Hr Hw]].
  destruct (_ =? _); simp_res; [|done].
  apply safe_bind; [apply all_ff_safe; lia|]. intros u _.
  destruct (Hw (S (Z.to_nat r)) [] eq_refl ltac:(lia)) as (out & Hout & Hz). rewrite Hout. simp_res.
  by rewrite put_ok by zl.
Qed.
End Table.

Lemma find_ff_ok buffer length : length <= zlen buffer -> forall fuel i, 0 <= i <= length ->
  (Z.to_nat (length - i) < fuel)%nat -> exists j, find_ff fuel buffer length i = Ret j /\ i <= j <= length.
Proof.
  intros Hlen. induction fuel as [|fuel IH]; intros i Hi Hf; [lia|]. cbn [find_ff].
  destruct (Z.ltb_spec i length); [|exists i; split; [done|lia]].
  destruct (rd_in_bounds buffer i ltac:(lia)) as [b ->]. simp_res.
  destruct (_ =? _); [exists i; split; [done|lia]|].
  destruct (IH (i + 1) ltac:(lia) ltac:(lia)) as (j & -> & Hj). exists j. split; [done|lia].
Qed.

Lemma find_ffff_ok buffer length : length <= zlen buffer -> forall fuel i, 0 <= i <= length ->
  (length - i) mod 2 = 0 -> (Z.to_nat (length - i) < fuel)%nat ->
  exists j, find_ffff fuel buffer length i = Ret j /\ i <= j <= length.
Proof.
  intros Hlen. induction fuel as [|fuel IH]; intros i Hi He Hf; [lia|]. cbn [find_ffff].
  destruct (Z.ltb_spec i length); [|exists i; split; [done|lia]].
  assert (i + 2 <= length) by dzl.
  destruct (rd_in_bounds buffer i ltac:(lia)) as [b ->]. simp_res.
  destruct (rd_in_bounds buffer (i + 1) ltac:(lia)) as [b' Hb']. rewrite Hb'. simp_res.
  assert (Hgo : exists j, find_ffff fuel buffer length (i + 2) = Ret j /\ i <= j <= length).
  { destruct (IH (i + 2) ltac:(lia) ltac:(dzl) ltac:(lia)) as (j & -> & Hj). exists j. split; [done|lia]. }
  destruct (b =? 255); simp_res; [|exact Hgo]. destruct (b' =? 255); [|exact Hgo]. exists i. split; [done|lia].
Qed.

(** *** What the callers use *)

Lemma convert_gsm_safe text len : bytes text -> 0 <= len <= zlen text ->
  high_escape (take (Z.to_nat len) text) = false ->
  exists r, convert_gsm_to_utf8 text len 0 = Ret r.
Proof.
  intros Hb Hlen Hesc. unfold convert_gsm_to_utf8, convert_gsm_to_utf8_with_lang.
  rewrite default_table_init, (proj2 (Z.ltb_ge len 0)) by lia. cbn [andb]. unfold text_length.
  rewrite (proj2 (Z.ltb_ge len 0)) by lia. simp_res.
  assert (Ht : dialect_tables default_table) by (exists 0, 0; exact default_table_init).
  destruct (gsm_measure_safe default_table Ht text len Hb ltac:(lia) Hesc (S (Z.to_nat len)) 0 0
    ltac:(lia) ltac:(lia)) as (i & m & -> & Hm). simp_res. destruct m as [r|]; [|by eexists].
  destruct (Hm r eq_refl) as [Hr Hw]. destruct (Hw (S (Z.to_nat r)) [] eq_refl ltac:(lia)) as (i' & out & -> & Hz).
  simp_res. rewrite put_ok by zl. simp_res. by eexists.
Qed.

(** The octets of an alpha field in the GSM alphabet. *)
Definition alpha_high_escape (buffer : list Z) (length : Z) : bool :=
  match buffer with
  | b :: _ => (b <? 0x80) && high_escape (take (Z.to_nat length) buffer)
  | [] => false
  end.

Lemma high_escape_take n l : high_escape l = false -> high_escape (take n l) = false.
Proof.
  revert n. induction l as [|a [|c l] IH]; intros n Hl; [by rewrite take_nil|by destruct n as [|[|n]]|].
  change (((a =? 0x1b) && (0x80 <=? c)) || high_escape (c :: l) = false)%bool in Hl. apply orb_false_iff in Hl as [Hh Hl].
  destruct n as [|[|n]]; [done..|].
  change (((a =? 0x1b) && (0x80 <=? c)) || high_escape (take (S n) (c :: l)) = false)%bool.
  by rewrite Hh, IH.
Qed.

Lemma sim_string_safe buffer length : bytes buffer -> 0 <= length <= zlen buffer ->
  alpha_high_escape buffer length = false -> safe (sim_string_to_utf8 buffer length).
Proof.
  intros Hb Hlen Hesc. unfold sim_string_to_utf8. rewrite default_table_init.
  assert (Ht : dialect_tables default_table) by (exists 0, 0; exact default_table_init).
  destruct (Z.leb_spec 1 length); simp_res; [|done].
  destruct buffer as [|b0 rest]; [change (zlen []) with 0 in *; lia|]. cbn [alpha_high_escape] in Hesc.
  set (buffer := b0 :: rest) in *. change (rd buffer 0) with (Ret b0). simp_res.
  destruct (b0 <? 0x80); cbn [andb] in Hesc.
  { destruct (find_ff_ok buffer length ltac:(lia) (S (Z.to_nat length)) 0 ltac:(lia) ltac:(lia)) as (i & -> & Hi).
    simp_res. destruct (convert_gsm_safe buffer i Hb ltac:(lia)) as [r ->].
    { replace (take (Z.to_nat i) buffer) with (take (Z.to_nat i) (take (Z.to_nat length) buffer))
        by (rewrite take_take; f_equal; lia). by apply high_escape_take. }
    simp_res. by destruct (conv_res r). }
  assert (Hoff : forall n o i, 0 <= i -> safe (sim_string_offset default_table buffer length n o i))
    by (intros; apply sim_string_offset_safe; [done|done|lia|lia]).
  destruct (b0 =? 0x80).
  { assert (Hodd : forall len, 1 <= len <= length -> (len - 1) mod 2 = 0 ->
      safe (i ← find_ffff (S (Z.to_nat length)) buffer len 1; ucs2 ← slice buffer 1 (i - 1);
            match l_utf8_from_ucs2be ucs2 with Some s => Ret s | None => Err end)).
    { intros len Hl Hm. destruct (find_ffff_ok buffer len ltac:(lia) (S (Z.to_nat length)) 1 ltac:(lia) Hm ltac:(lia))
        as (j & -> & Hj). simp_res. rewrite slice_in_bounds by lia. simp_res. by destruct (l_utf8_from_ucs2be _). }
    destruct (Z.eqb_spec (Z.rem (length - 1) 2) 1) as [E|E]; rewrite Z.rem_mod_nonneg in E by lia.
    - destruct (rd_in_bounds buffer (length - 1) ltac:(lia)) as [b ->]. simp_res.
      destruct (b =? 0xff); simp_res; [|done]. apply Hodd; dzl.
    - simp_res. apply Hodd; dzl. }
  destruct (b0 =? 0x81).
  { destruct (Z.leb_spec 3 length); simp_res; [|done].
    destruct (rd_in_bounds buffer 1 ltac:(lia)) as [n ->]. simp_res. destruct (_ <=? _); simp_res; [|done].
    destruct (rd_in_bounds buffer 2 ltac:(lia)) as [b2 ->]. simp_res. apply Hoff. lia. }
  destruct (b0 =? 0x82); [|by destruct (b0 =? 0xff); [apply Hoff|]].
  destruct (Z.leb_spec 4 length); simp_res; [|done].
  destruct (rd_in_bounds buffer 1 ltac:(lia)) as [n ->]. simp_res. destruct (_ <=? _); simp_res; [|done].
  destruct (rd_in_bounds buffer 2 ltac:(lia)) as [b2 ->]. simp_res.
  destruct (rd_in_bounds buffer 3 ltac:(lia)) as [b3 ->]. simp_res. apply Hoff. lia.
Qed.

Lemma unpack_safe data len : bytes data -> 1 <= len <= zlen data ->
  exists s, unpack_7bit data len 0 false (Z.quot (len * 8) 7) 0 = Ret s /\ septets s.
Proof.
  intros Hb Hlen. rewrite <- (take_drop (Z.to_nat len) data). set (l := take (Z.to_nat len) data).
  assert (Hl : zlen l = len) by (unfold l; rewrite zlen_take; lia).
  assert (Hne : l <> []) by (intros E; rewrite E in Hl; change (zlen []) with 0 in Hl; lia).
  unfold unpack_7bit. cbn [Z.eqb]. rewrite Z.add_0_r. rewrite <- Hl.
  rewrite unpack_7bit_own_buf_ok; [|by apply Forall_take|done|rewrite Z.quot_div_nonneg by lia; dzl|lia].
  eexists. split; [reflexivity|]. apply le_digits_septets.
Qed.
End Conversions.
