(* ===== verification/StkObject.v ===== *)
(** The data objects of proactive commands, of src/src/stkutil.c: a parser for the
    value of each type, [handler_for_type], and the lists of items and of files.

    A parser is given the length of a value and the octets from its first on, and
    gives what it stores for the caller: [Err] when it returns false, [Ret None]
    when it returns true and stores nothing.  What a parser has stored before it
    returns false is not kept: the command is then refused. *)
From S2P Require Import Prelude Charset SevenBit SmsField SmsPdu SimTlv SimFile StkTlv TextSafety.

(** * Constants of stkutil.h *)

Definition STK_DATA_OBJECT_TYPE_INVALID : Z := 0x00.
Definition STK_DATA_OBJECT_TYPE_COMMAND_DETAILS : Z := 0x01.
Definition STK_DATA_OBJECT_TYPE_DEVICE_IDENTITIES : Z := 0x02.
Definition STK_DATA_OBJECT_TYPE_RESULT : Z := 0x03.
Definition STK_DATA_OBJECT_TYPE_DURATION : Z := 0x04.
Definition STK_DATA_OBJECT_TYPE_ALPHA_ID : Z := 0x05.
Definition STK_DATA_OBJECT_TYPE_ADDRESS : Z := 0x06.
Definition STK_DATA_OBJECT_TYPE_CCP : Z := 0x07.
Definition STK_DATA_OBJECT_TYPE_SUBADDRESS : Z := 0x08.
Definition STK_DATA_OBJECT_TYPE_SS_STRING : Z := 0x09.
Definition STK_DATA_OBJECT_TYPE_USSD_STRING : Z := 0x0A.
Definition STK_DATA_OBJECT_TYPE_GSM_SMS_TPDU : Z := 0x0B.
Definition STK_DATA_OBJECT_TYPE_CBS_PAGE : Z := 0x0C.
Definition STK_DATA_OBJECT_TYPE_TEXT : Z := 0x0D.
Definition STK_DATA_OBJECT_TYPE_TONE : Z := 0x0E.
Definition STK_DATA_OBJECT_TYPE_ITEM : Z := 0x0F.
Definition STK_DATA_OBJECT_TYPE_ITEM_ID : Z := 0x10.
Definition STK_DATA_OBJECT_TYPE_RESPONSE_LENGTH : Z := 0x11.
Definition STK_DATA_OBJECT_TYPE_FILE_LIST : Z := 0x12.
Definition STK_DATA_OBJECT_TYPE_LOCATION_INFO : Z := 0x13.
Definition STK_DATA_OBJECT_TYPE_IMEI : Z := 0x14.
Definition STK_DATA_OBJECT_TYPE_HELP_REQUEST : Z := 0x15.
Definition STK_DATA_OBJECT_TYPE_NETWORK_MEASUREMENT_RESULTS : Z := 0x16.
Definition STK_DATA_OBJECT_TYPE_DEFAULT_TEXT : Z := 0x17.
Definition STK_DATA_OBJECT_TYPE_ITEMS_NEXT_ACTION_INDICATOR : Z := 0x18.
Definition STK_DATA_OBJECT_TYPE_EVENT_LIST : Z := 0x19.
Definition STK_DATA_OBJECT_TYPE_CAUSE : Z := 0x1A.
Definition STK_DATA_OBJECT_TYPE_LOCATION_STATUS : Z := 0x1B.
Definition STK_DATA_OBJECT_TYPE_TRANSACTION_ID : Z := 0x1C.
Definition STK_DATA_OBJECT_TYPE_BCCH_CHANNEL_LIST : Z := 0x1D.
Definition STK_DATA_OBJECT_TYPE_ICON_ID : Z := 0x1E.
Definition STK_DATA_OBJECT_TYPE_ITEM_ICON_ID_LIST : Z := 0x1F.
Definition STK_DATA_OBJECT_TYPE_CARD_READER_STATUS : Z := 0x20.
Definition STK_DATA_OBJECT_TYPE_CARD_ATR : Z := 0x21.
Definition STK_DATA_OBJECT_TYPE_C_APDU : Z := 0x22.
Definition STK_DATA_OBJECT_TYPE_R_APDU : Z := 0x23.
Definition STK_DATA_OBJECT_TYPE_TIMER_ID : Z := 0x24.
Definition STK_DATA_OBJECT_TYPE_TIMER_VALUE : Z := 0x25.
Definition STK_DATA_OBJECT_TYPE_DATETIME_TIMEZONE : Z := 0x26.
Definition STK_DATA_OBJECT_TYPE_CALL_CONTROL_REQUESTED_ACTION : Z := 0x27.
Definition STK_DATA_OBJECT_TYPE_AT_COMMAND : Z := 0x28.
Definition STK_DATA_OBJECT_TYPE_AT_RESPONSE : Z := 0x29.
Definition STK_DATA_OBJECT_TYPE_BC_REPEAT_INDICATOR : Z := 0x2A.
Definition STK_DATA_OBJECT_TYPE_IMMEDIATE_RESPONSE : Z := 0x2B.
Definition STK_DATA_OBJECT_TYPE_DTMF_STRING : Z := 0x2C.
Definition STK_DATA_OBJECT_TYPE_LANGUAGE : Z := 0x2D.
Definition STK_DATA_OBJECT_TYPE_TIMING_ADVANCE : Z := 0x2E.
Definition STK_DATA_OBJECT_TYPE_AID : Z := 0x2F.
Definition STK_DATA_OBJECT_TYPE_BROWSER_ID : Z := 0x30.
Definition STK_DATA_OBJECT_TYPE_URL : Z := 0x31.
Definition STK_DATA_OBJECT_TYPE_BEARER : Z := 0x32.
Definition STK_DATA_OBJECT_TYPE_PROVISIONING_FILE_REF : Z := 0x33.
Definition STK_DATA_OBJECT_TYPE_BROWSER_TERMINATION_CAUSE : Z := 0x34.
Definition STK_DATA_OBJECT_TYPE_BEARER_DESCRIPTION : Z := 0x35.
Definition STK_DATA_OBJECT_TYPE_CHANNEL_DATA : Z := 0x36.
Definition STK_DATA_OBJECT_TYPE_CHANNEL_DATA_LENGTH : Z := 0x37.
Definition STK_DATA_OBJECT_TYPE_CHANNEL_STATUS : Z := 0x38.
Definition STK_DATA_OBJECT_TYPE_BUFFER_SIZE : Z := 0x39.
Definition STK_DATA_OBJECT_TYPE_CARD_READER_ID : Z := 0x3A.
Definition STK_DATA_OBJECT_TYPE_FILE_UPDATE_INFO : Z := 0x3B.
Definition STK_DATA_OBJECT_TYPE_UICC_TE_INTERFACE : Z := 0x3C.
Definition STK_DATA_OBJECT_TYPE_OTHER_ADDRESS : Z := 0x3E.
Definition STK_DATA_OBJECT_TYPE_ACCESS_TECHNOLOGY : Z := 0x3F.
Definition STK_DATA_OBJECT_TYPE_DISPLAY_PARAMETERS : Z := 0x40.
Definition STK_DATA_OBJECT_TYPE_SERVICE_RECORD : Z := 0x41.
Definition STK_DATA_OBJECT_TYPE_DEVICE_FILTER : Z := 0x42.
Definition STK_DATA_OBJECT_TYPE_SERVICE_SEARCH : Z := 0x43.
Definition STK_DATA_OBJECT_TYPE_ATTRIBUTE_INFO : Z := 0x44.
Definition STK_DATA_OBJECT_TYPE_SERVICE_AVAILABILITY : Z := 0x45.
Definition STK_DATA_OBJECT_TYPE_ESN : Z := 0x46.
Definition STK_DATA_OBJECT_TYPE_NETWORK_ACCESS_NAME : Z := 0x47.
Definition STK_DATA_OBJECT_TYPE_CDMA_SMS_TPDU : Z := 0x48.
Definition STK_DATA_OBJECT_TYPE_REMOTE_ENTITY_ADDRESS : Z := 0x49.
Definition STK_DATA_OBJECT_TYPE_I_WLAN_ID_TAG : Z := 0x4A.
Definition STK_DATA_OBJECT_TYPE_I_WLAN_ACCESS_STATUS : Z := 0x4B.
Definition STK_DATA_OBJECT_TYPE_TEXT_ATTRIBUTE : Z := 0x50.
Definition STK_DATA_OBJECT_TYPE_ITEM_TEXT_ATTRIBUTE_LIST : Z := 0x51.
Definition STK_DATA_OBJECT_TYPE_PDP_ACTIVATION_PARAMETER : Z := 0x52.
Definition STK_DATA_OBJECT_TYPE_IMEISV : Z := 0x62.
Definition STK_DATA_OBJECT_TYPE_BATTERY_STATE : Z := 0x63.
Definition STK_DATA_OBJECT_TYPE_BROWSING_STATUS : Z := 0x64.
Definition STK_DATA_OBJECT_TYPE_NETWORK_SEARCH_MODE : Z := 0x65.
Definition STK_DATA_OBJECT_TYPE_FRAME_LAYOUT : Z := 0x66.
Definition STK_DATA_OBJECT_TYPE_FRAMES_INFO : Z := 0x67.
Definition STK_DATA_OBJECT_TYPE_FRAME_ID : Z := 0x68.
Definition STK_DATA_OBJECT_TYPE_UTRAN_MEASUREMENT_QUALIFIER : Z := 0x69.
Definition STK_DATA_OBJECT_TYPE_MMS_REFERENCE : Z := 0x6A.
Definition STK_DATA_OBJECT_TYPE_MMS_ID : Z := 0x6B.
Definition STK_DATA_OBJECT_TYPE_MMS_TRANSFER_STATUS : Z := 0x6C.
Definition STK_DATA_OBJECT_TYPE_MEID : Z := 0x6D.
Definition STK_DATA_OBJECT_TYPE_MMS_CONTENT_ID : Z := 0x6E.
Definition STK_DATA_OBJECT_TYPE_MMS_NOTIFICATION : Z := 0x6F.
Definition STK_DATA_OBJECT_TYPE_LAST_ENVELOPE : Z := 0x70.
Definition STK_DATA_OBJECT_TYPE_REGISTRY_APPLICATION_DATA : Z := 0x71.
Definition STK_DATA_OBJECT_TYPE_ROUTING_AREA_INFO : Z := 0x73.
Definition STK_DATA_OBJECT_TYPE_UPDATE_ATTACH_TYPE : Z := 0x74.
Definition STK_DATA_OBJECT_TYPE_REJECTION_CAUSE_CODE : Z := 0x75.
Definition STK_DATA_OBJECT_TYPE_NMEA_SENTENCE : Z := 0x78.
Definition STK_DATA_OBJECT_TYPE_PLMN_LIST : Z := 0x79.
Definition STK_DATA_OBJECT_TYPE_BROADCAST_NETWORK_INFO : Z := 0x7A.
Definition STK_DATA_OBJECT_TYPE_ACTIVATE_DESCRIPTOR : Z := 0x7B.
Definition STK_DATA_OBJECT_TYPE_EPS_PDN_CONN_ACTIVATION_REQ : Z := 0x7C.
Definition STK_DATA_OBJECT_TYPE_TRACKING_AREA_ID : Z := 0x7D.

Definition STK_DEVICE_IDENTITY_TYPE_KEYPAD : Z := 0x01.
Definition STK_DEVICE_IDENTITY_TYPE_DISPLAY : Z := 0x02.
Definition STK_DEVICE_IDENTITY_TYPE_EARPIECE : Z := 0x03.
Definition STK_DEVICE_IDENTITY_TYPE_CARD_READER_0 : Z := 0x10.
Definition STK_DEVICE_IDENTITY_TYPE_CARD_READER_1 : Z := 0x11.
Definition STK_DEVICE_IDENTITY_TYPE_CARD_READER_2 : Z := 0x12.
Definition STK_DEVICE_IDENTITY_TYPE_CARD_READER_3 : Z := 0x13.
Definition STK_DEVICE_IDENTITY_TYPE_CARD_READER_4 : Z := 0x14.
Definition STK_DEVICE_IDENTITY_TYPE_CARD_READER_5 : Z := 0x15.
Definition STK_DEVICE_IDENTITY_TYPE_CARD_READER_6 : Z := 0x16.
Definition STK_DEVICE_IDENTITY_TYPE_CARD_READER_7 : Z := 0x17.
Definition STK_DEVICE_IDENTITY_TYPE_CHANNEL_1 : Z := 0x21.
Definition STK_DEVICE_IDENTITY_TYPE_CHANNEL_7 : Z := 0x27.
Definition STK_DEVICE_IDENTITY_TYPE_UICC : Z := 0x81.
Definition STK_DEVICE_IDENTITY_TYPE_TERMINAL : Z := 0x82.
Definition STK_DEVICE_IDENTITY_TYPE_NETWORK : Z := 0x83.

Definition STK_COMMAND_TYPE_REFRESH : Z := 0x01.
Definition STK_COMMAND_TYPE_MORE_TIME : Z := 0x02.
Definition STK_COMMAND_TYPE_POLL_INTERVAL : Z := 0x03.
Definition STK_COMMAND_TYPE_POLLING_OFF : Z := 0x04.
Definition STK_COMMAND_TYPE_SETUP_EVENT_LIST : Z := 0x05.
Definition STK_COMMAND_TYPE_SETUP_CALL : Z := 0x10.
Definition STK_COMMAND_TYPE_SEND_SS : Z := 0x11.
Definition STK_COMMAND_TYPE_SEND_USSD : Z := 0x12.
Definition STK_COMMAND_TYPE_SEND_SMS : Z := 0x13.
Definition STK_COMMAND_TYPE_SEND_DTMF : Z := 0x14.
Definition STK_COMMAND_TYPE_LAUNCH_BROWSER : Z := 0x15.
Definition STK_COMMAND_TYPE_GEOGRAPICAL_LOCATION_REQUEST : Z := 0x16.
Definition STK_COMMAND_TYPE_PLAY_TONE : Z := 0x20.
Definition STK_COMMAND_TYPE_DISPLAY_TEXT : Z := 0x21.
Definition STK_COMMAND_TYPE_GET_INKEY : Z := 0x22.
Definition STK_COMMAND_TYPE_GET_INPUT : Z := 0x23.
Definition STK_COMMAND_TYPE_SELECT_ITEM : Z := 0x24.
Definition STK_COMMAND_TYPE_SETUP_MENU : Z := 0x25.
Definition STK_COMMAND_TYPE_PROVIDE_LOCAL_INFO : Z := 0x26.
Definition STK_COMMAND_TYPE_TIMER_MANAGEMENT : Z := 0x27.
Definition STK_COMMAND_TYPE_SETUP_IDLE_MODE_TEXT : Z := 0x28.
Definition STK_COMMAND_TYPE_PERFORM_CARD_APDU : Z := 0x30.
Definition STK_COMMAND_TYPE_POWER_ON_CARD : Z := 0x31.
Definition STK_COMMAND_TYPE_POWER_OFF_CARD : Z := 0x32.
Definition STK_COMMAND_TYPE_GET_READER_STATUS : Z := 0x33.
Definition STK_COMMAND_TYPE_RUN_AT_COMMAND : Z := 0x34.
Definition STK_COMMAND_TYPE_LANGUAGE_NOTIFICATION : Z := 0x35.
Definition STK_COMMAND_TYPE_OPEN_CHANNEL : Z := 0x40.
Definition STK_COMMAND_TYPE_CLOSE_CHANNEL : Z := 0x41.
Definition STK_COMMAND_TYPE_RECEIVE_DATA : Z := 0x42.
Definition STK_COMMAND_TYPE_SEND_DATA : Z := 0x43.
Definition STK_COMMAND_TYPE_GET_CHANNEL_STATUS : Z := 0x44.
Definition STK_COMMAND_TYPE_SERVICE_SEARCH : Z := 0x45.
Definition STK_COMMAND_TYPE_GET_SERVICE_INFO : Z := 0x46.
Definition STK_COMMAND_TYPE_DECLARE_SERVICE : Z := 0x47.
Definition STK_COMMAND_TYPE_SET_FRAMES : Z := 0x50.
Definition STK_COMMAND_TYPE_GET_FRAMES_STATUS : Z := 0x51.
Definition STK_COMMAND_TYPE_RETRIEVE_MMS : Z := 0x60.
Definition STK_COMMAND_TYPE_SUBMIT_MMS : Z := 0x61.
Definition STK_COMMAND_TYPE_DISPLAY_MMS : Z := 0x62.
Definition STK_COMMAND_TYPE_ACTIVATE : Z := 0x70.
Definition STK_COMMAND_TYPE_END_SESSION : Z := 0x81.

Definition STK_BEARER_TYPE_GPRS_UTRAN : Z := 0x02.
Definition STK_ADDRESS_AUTO : Z := -1.
Definition STK_ADDRESS_IPV4 : Z := 0x21.
Definition STK_ADDRESS_IPV6 : Z := 0x57.
Definition STK_TECHNOLOGY_BLUETOOTH : Z := 0x01.
Definition STK_TECHNOLOGY_IRDA : Z := 0x02.
Definition STK_LAYOUT_HORIZONTAL : Z := 0x01.
Definition STK_LAYOUT_VERTICAL : Z := 0x02.

(** * Values *)

(** struct stk_c_apdu; [ca_data]: the [lc] octets of its data; [ca_le] when it
    [has_le]. *)
Record stk_c_apdu := { ca_cla : Z; ca_ins : Z; ca_p1 : Z; ca_p2 : Z; ca_data : list Z; ca_le : option Z }.

(** struct stk_item; [None]: a NULL text. *)
Record stk_item := { item_id : Z; item_text : option (list Z) }.

(** What the parsers store.  An array with a length field is its octets; a
    struct with a flag that says that it is set is stored with the flag set. *)
Inductive value :=
  | VBool (set : bool)
  | VByte (byte : Z)
  | VShort (n : Z)
  | VString (s : option (list Z))
  | VChars (chars : list Z)
  | VOctets (octets : list Z)
  | VAddress (addr : stk_address)
  | VDuration (unit interval : Z)
  | VItem (item : stk_item)
  | VItems (items : list stk_item)
  | VFile (file : list Z)
  | VFiles (files : list (list Z))
  | VResponseLength (min max : Z)
  | VResult (type : Z) (additional : list Z)
  | VUssd (ussd : stk_ussd_string)
  | VLocation (mcc mnc : list Z) (lac : Z) (ci ext_ci : option Z)
  | VChannels (channels : list Z)
  | VIcon (qualifier id : Z)
  | VIcons (qualifier : Z) (ids : list Z)
  | VCApdu (ca : stk_c_apdu)
  | VRApdu (sw1 sw2 : Z) (data : list Z)
  | VTimer (hour minute second : Z)
  | VScts (scts : option sms_scts)
  | VTimingAdvance (status advance : Z)
  | VBearer (precedence delay reliability peak mean pdp_type : Z)
  | VOtherAddress (type : Z) (addr : list Z)
  | VTeInterface (protocol port : Z)
  | VDisplay (height width effects : Z)
  | VServiceRecord (tech_id serv_id : Z) (serv_rec : list Z)
  | VTechnology (tech_id : Z) (octets : list Z)
  | VEntity (coding_type : Z) (addr : list Z)
  | VLayout (layout : Z) (size : list Z)
  | VFrames (id : Z) (list : list (Z * Z))
  | VApplication (port type : Z) (name : list Z)
  | VNetwork (tech : Z) (loc_info : list Z)
  | VSms (m : sms).

Definition handler : Type := Z -> list Z -> res (option value).

Definition stored (v : value) : res (option value) := Ret (Some v).

(** memcpy of [len] octets into an array of [size]. *)
Definition copy (size : Z) (data : list Z) (len : Z) : res (list Z) :=
  octets ← slice data 0 len;
  put size [] octets.

(** The octets of a new block of [len]. *)
Definition dup (data : list Z) (len : Z) : res (list Z) := slice data 0 len.

Definition short_at (data : list Z) (i : Z) : res Z :=
  hi ← rd data i;
  lo ← rd data (i + 1);
  Ret (Z.shiftl hi 8 + lo).

(** * Common parsers *)

Section Parsers.
Context `{U : Utf8}.

(** [None] for NULL. *)
Definition decode_text (dcs len : Z) (data : list Z) : res (option (list Z)) :=
  match sms_dcs_decode dcs with
  | None => Ret None
  | Some (_, charset, _, _) =>
    match charset with
    | SMS_CHARSET_7BIT =>
      match unpack_7bit data len 0 false (Z.quot (len * 8) 7) 0 with
      | Ret unpacked => r ← convert_gsm_to_utf8 unpacked (zlen unpacked) 0; Ret (conv_res r)
      | Err => Ret None
      | Ub => Ub
      end
    | SMS_CHARSET_8BIT => r ← convert_gsm_to_utf8 data len 0; Ret (conv_res r)
    | SMS_CHARSET_UCS2 => octets ← slice data 0 len; Ret (l_utf8_from_ucs2be octets)
    end
  end.

Definition parse_dataobj_common_bool : handler := fun len data =>
  _ ← check (len =? 0);
  stored (VBool true).

Definition parse_dataobj_common_byte : handler := fun len data =>
  _ ← check (len =? 1);
  byte ← rd data 0;
  stored (VByte byte).

Definition parse_dataobj_common_text : handler := fun len data =>
  _ ← check (1 <=? len);
  text ← dup data len;
  stored (VString (Some (cstr text))).

Definition parse_dataobj_common_byte_array : handler := fun len data =>
  _ ← check (1 <=? len);
  octets ← dup data len;
  stored (VOctets octets).

(** An array of [size] octets in the struct, of at least [least] octets. *)
Definition parse_array (least size : Z) : handler := fun len data =>
  _ ← check ((least <=? len) && (len <=? size));
  octets ← copy size data len;
  stored (VOctets octets).

(** The same without a comparison with the size. *)
Definition parse_unchecked (size : Z) : handler := fun len data =>
  _ ← check (1 <=? len);
  octets ← copy size data len;
  stored (VOctets octets).

(** Digits behind a type of number. *)
Definition parse_number (len : Z) (data : list Z) : res stk_address :=
  _ ← check (2 <=? len);
  ton_npi ← rd data 0;
  chars ← sim_extract_bcd_number (drop 1 data) (len - 1) (len * 2 - 1);
  Ret {| ton_npi := ton_npi; addr_number := Some (cstr chars) |}.

(** ** Files *)

(** struct stk_file_iter, on the octets from [start]; [file]: the offset of the
    file and its length. *)
Record stk_file_iter := { fi_start : list Z; fi_pos : Z; fi_max : Z; fi_file : Z * Z }.

Definition stk_file_iter_init (start : list Z) (len : Z) : stk_file_iter :=
  {| fi_start := start; fi_pos := 0; fi_max := len; fi_file := (0, 0) |}.

(** May a file of type [type] follow one of type [last_type]? *)
Definition file_follows (type last_type : Z) : bool :=
  ((type =? 0x2f) && (last_type =? 0x3f)) || ((type =? 0x6f) && (last_type =? 0x7f))
  || ((type =? 0x4f) && (last_type =? 0x5f)) || ((type =? 0x7f) && (last_type =? 0x3f))
  || ((type =? 0x5f) && (last_type =? 0x7f)).

(** The loop of [stk_file_iter_next]: the offset of the elementary file. *)
Fixpoint file_loop (fuel : nat) (start : list Z) (max i last_type : Z) : res Z :=
  match fuel with
  | O => Ub
  | S fuel =>
    if i <? max then
      type ← rd start i;
      if negb (file_follows type last_type) then Err
      else if (type =? 0x2f) || (type =? 0x6f) || (type =? 0x4f) then
        if max <=? i + 1 then Err else Ret i
      else file_loop fuel start max (i + 2) type
    else Err
  end.

Definition stk_file_iter_next (iter : stk_file_iter) : res stk_file_iter :=
  let pos := fi_pos iter in
  let max := fi_max iter in
  if max <=? pos + 2 then Err
  else
    root ← rd (fi_start iter) pos;
    if negb (root =? 0x3f) then Err
    else
      i ← file_loop (S (Z.to_nat (max - pos))) (fi_start iter) max (pos + 2) 0x3f;
      Ret {| fi_start := fi_start iter; fi_pos := i + 2; fi_max := max; fi_file := (pos, u8 (i - pos + 2)) |}.

(** The files, and where the iterator stops; a struct stk_file has room for 8
    octets. *)
Fixpoint files_loop (fuel : nat) (iter : stk_file_iter) (files : list (list Z)) : res (list (list Z) * Z) :=
  match fuel with
  | O => Ub
  | S fuel =>
    match stk_file_iter_next iter with
    | Ret iter =>
      file ← copy 8 (drop (Z.to_nat (fi_file iter).1) (fi_start iter)) (fi_file iter).2;
      files_loop fuel iter (files ++ [file])
    | Err => Ret (files, fi_pos iter)
    | Ub => Ub
    end
  end.

(** * The parsers of the types *)

Definition parse_dataobj_address : handler := fun len data =>
  addr ← parse_number len data;
  stored (VAddress addr).

Definition parse_dataobj_alpha_id : handler := fun len data =>
  if len =? 0 then stored (VString None)
  else utf8 ← sim_string_to_utf8 data len; stored (VString (Some (cstr utf8))).

Definition parse_dataobj_subaddress : handler := parse_array 1 23.
Definition parse_dataobj_ccp : handler := parse_array 1 16.
Definition parse_dataobj_cbs_page : handler := parse_array 1 88.

Definition parse_dataobj_duration : handler := fun len data =>
  _ ← check (len =? 2);
  unit ← rd data 0;
  _ ← check (unit <=? 2);
  interval ← rd data 1;
  _ ← check (negb (interval =? 0));
  stored (VDuration unit interval).

(** An empty item leaves the caller's, which is all zeros. *)
Definition parse_dataobj_item : handler := fun len data =>
  if len =? 0 then Ret None
  else
    _ ← check (negb (len =? 1));
    id ← rd data 0;
    _ ← check (negb (id =? 0));
    utf8 ← sim_string_to_utf8 (drop 1 data) (len - 1);
    stored (VItem {| item_id := id; item_text := Some (cstr utf8) |}).

Definition parse_dataobj_item_id : handler := parse_dataobj_common_byte.

Definition parse_dataobj_response_len : handler := fun len data =>
  _ ← check (len =? 2);
  min ← rd data 0;
  max ← rd data 1;
  stored (VResponseLength min max).

(** The results that need additional information. *)
Definition needs_additional (type : Z) : bool :=
  existsb (Z.eqb type) [0x20; 0x21; 0x26; 0x38; 0x39; 0x3a; 0x3c; 0x3d].

Definition parse_dataobj_result : handler := fun len data =>
  _ ← check (1 <=? len);
  type ← rd data 0;
  _ ← check (negb ((len <? 2) && needs_additional type));
  additional ← dup (drop 1 data) (len - 1);
  stored (VResult type additional).

Definition parse_dataobj_gsm_sms_tpdu : handler := parse_array 1 184.

Definition parse_dataobj_ss : handler := fun len data =>
  ss ← parse_number len data;
  stored (VAddress ss).

Definition parse_dataobj_text : handler := fun len data =>
  if len <=? 1 then stored (VString (Some []))
  else
    dcs ← rd data 0;
    text ← decode_text dcs (len - 1) (drop 1 data);
    match text with Some utf8 => stored (VString (Some (cstr utf8))) | None => Err end.

Definition parse_dataobj_tone : handler := parse_dataobj_common_byte.

Definition parse_dataobj_ussd : handler := fun len data =>
  _ ← check ((2 <=? len) && (len <=? 161));
  dcs ← rd data 0;
  string ← copy 160 (drop 1 data) (len - 1);
  stored (VUssd {| ussd_dcs := dcs; ussd_string := string; ussd_len := len - 1 |}).

Definition parse_dataobj_file_list : handler := fun len data =>
  _ ← check (5 <=? len);
  let iter := stk_file_iter_init (drop 1 data) (len - 1) in
  '(files, pos) ← files_loop (S (Z.to_nat len)) iter [];
  _ ← check (pos =? len - 1);
  stored (VFiles files).

Definition parse_dataobj_location_info : handler := fun len data =>
  _ ← check ((len =? 5) || (len =? 7) || (len =? 9));
  '(mcc, mnc) ← sim_parse_mcc_mnc data;
  lac ← short_at data 3;
  ci ← (if 7 <=? len then ci ← short_at data 5; Ret (Some ci) else Ret None);
  ext_ci ← (if len =? 9 then ext_ci ← short_at data 7; Ret (Some ext_ci) else Ret None);
  stored (VLocation mcc mnc lac ci ext_ci).

Definition parse_dataobj_imei : handler := fun len data =>
  _ ← check (len =? 8);
  first ← rd data 0;
  _ ← check (Z.land first 0x0f =? 0x0a);
  digits ← extract_bcd_number data 1 7;
  stored (VChars (cstr (lut (Z.shiftr (Z.land first 0xf0) 4) :: digits))).

Definition parse_dataobj_help_request : handler := parse_dataobj_common_bool.
Definition parse_dataobj_network_measurement_results : handler := parse_array 16 16.

Definition parse_dataobj_default_text : handler := fun len data =>
  _ ← check (2 <=? len);
  dcs ← rd data 0;
  text ← decode_text dcs (len - 1) (drop 1 data);
  match text with Some utf8 => stored (VString (Some (cstr utf8))) | None => Err end.

Definition parse_dataobj_items_next_action_indicator : handler := parse_array 1 127.

Definition parse_dataobj_event_list : handler := fun len data =>
  if len =? 0 then Ret None else parse_array 1 21 len data.

Definition parse_dataobj_cause : handler := fun len data =>
  _ ← check (negb (len =? 1) && (len <=? 30));
  if len =? 0 then stored (VOctets []) else octets ← copy 30 data len; stored (VOctets octets).

Definition parse_dataobj_location_status : handler := parse_dataobj_common_byte.
Definition parse_dataobj_transaction_id : handler := parse_array 1 127.

(** The channel at bit [10 * i], with the bits before it that its first octet
    has. *)
Definition bcch_channel (data : list Z) (i : nat) : res Z :=
  let index := Z.quot (Z.of_nat i * 10) 8 in
  let occupied := Z.rem (Z.of_nat i * 10) 8 in
  hi ← rd data index;
  lo ← rd data (index + 1);
  Ret (u16 (Z.shiftl hi (2 + occupied) + Z.shiftr lo (6 - occupied))).

Fixpoint collect {A B} (f : A -> res B) (l : list A) : res (list B) :=
  match l with
  | [] => Ret []
  | a :: l => b ← f a; bs ← collect f l; Ret (b :: bs)
  end.

Definition parse_dataobj_bcch_channel_list : handler := fun len data =>
  _ ← check (1 <=? len);
  channels ← collect (bcch_channel data) (seq 0 (Z.to_nat (Z.quot (len * 8) 10)));
  channels ← put 101 [] channels;
  stored (VChannels channels).

Definition parse_dataobj_call_control_requested_action : handler := parse_dataobj_common_byte_array.

Definition parse_dataobj_icon_id : handler := fun len data =>
  _ ← check (len =? 2);
  qualifier ← rd data 0;
  id ← rd data 1;
  stored (VIcon qualifier id).

Definition parse_dataobj_item_icon_id_list : handler := fun len data =>
  _ ← check ((2 <=? len) && (len <=? 127));
  qualifier ← rd data 0;
  ids ← copy 126 (drop 1 data) (len - 1);
  stored (VIcons qualifier ids).

Definition parse_dataobj_card_reader_status : handler := parse_dataobj_common_byte.
Definition parse_dataobj_card_atr : handler := parse_array 1 127.

(** [lc] and the data; [None] when there are too many octets behind them.  The
    comparison of [len] with the position is one of unsigned integers. *)
Definition c_apdu_data (len : Z) (data : list Z) : res (list Z * Z) :=
  if 5 <? len then
    lc ← rd data 4;
    _ ← check (lc <=? 236);
    let pos := 4 + lc + 1 in
    _ ← check (u32 (len - pos) <=? 1);
    octets ← copy 236 (drop 5 data) lc;
    Ret (octets, pos)
  else Ret ([], 4).

Definition parse_dataobj_c_apdu : handler := fun len data =>
  _ ← check ((4 <=? len) && (len <=? 241));
  cla ← rd data 0;
  ins ← rd data 1;
  p1 ← rd data 2;
  p2 ← rd data 3;
  '(octets, pos) ← c_apdu_data len data;
  le ← (if 0 <? u32 (len - pos) then le ← rd data (len - 1); Ret (Some le) else Ret None);
  stored (VCApdu {| ca_cla := cla; ca_ins := ins; ca_p1 := p1; ca_p2 := p2; ca_data := octets; ca_le := le |}).

Definition parse_dataobj_r_apdu : handler := fun len data =>
  _ ← check ((2 <=? len) && (len <=? 239));
  sw1 ← rd data (len - 2);
  sw2 ← rd data (len - 1);
  octets ← copy 237 data (len - 2);
  stored (VRApdu sw1 sw2 octets).

Definition parse_dataobj_timer_id : handler := parse_dataobj_common_byte.

Definition parse_dataobj_timer_value : handler := fun len data =>
  _ ← check (len =? 3);
  hour ← rd data 0;
  minute ← rd data 1;
  second ← rd data 2;
  stored (VTimer (sms_decode_semi_octet hour) (sms_decode_semi_octet minute) (sms_decode_semi_octet second)).

(** It does not look at the result of [sms_decode_scts]; what that leaves in the
    struct when it fails is not modelled. *)
Definition parse_dataobj_datetime_timezone : handler := fun len data =>
  _ ← check (len =? 7);
  match sms_decode_scts data 7 0 with
  | Ret (scts, _) => stored (VScts (Some scts))
  | Err => stored (VScts None)
  | Ub => Ub
  end.

Definition parse_dataobj_at_command : handler := parse_dataobj_common_text.
Definition parse_dataobj_at_response : handler := parse_dataobj_common_text.
Definition parse_dataobj_bc_repeat_indicator : handler := parse_dataobj_common_byte.
Definition parse_dataobj_imm_resp : handler := parse_dataobj_common_bool.

Definition parse_dataobj_dtmf_string : handler := fun len data =>
  _ ← check (1 <=? len);
  chars ← sim_extract_bcd_number data len (len * 2 + 1);
  stored (VString (Some (cstr chars))).

Definition parse_dataobj_language : handler := fun len data =>
  _ ← check (len =? 2);
  lang ← copy 2 data len;
  stored (VChars (cstr lang)).

Definition parse_dataobj_timing_advance : handler := fun len data =>
  _ ← check (len =? 2);
  status ← rd data 0;
  advance ← rd data 1;
  stored (VTimingAdvance status advance).

Definition parse_dataobj_browser_id : handler := fun len data =>
  _ ← check (len =? 1);
  byte ← rd data 0;
  _ ← check (byte <=? 4);
  stored (VByte byte).

Definition parse_dataobj_url : handler := fun len data =>
  if len =? 0 then stored (VString None) else parse_dataobj_common_text len data.

Definition parse_dataobj_bearer : handler := parse_dataobj_common_byte_array.

Definition parse_dataobj_provisioning_file_reference : handler := fun len data =>
  _ ← check ((1 <=? len) && (len <=? 8));
  let iter := stk_file_iter_init data len in
  pos ← match stk_file_iter_next iter with
        | Ret iter => Ret (fi_pos iter)
        | Err => Ret 0
        | Ub => Ub
        end;
  _ ← check (pos =? len);
  file ← copy 8 data len;
  stored (VFile file).

Definition parse_dataobj_browser_termination_cause : handler := parse_dataobj_common_byte.

Definition parse_dataobj_bearer_description : handler := fun len data =>
  _ ← check (1 <=? len);
  type ← rd data 0;
  _ ← check (type =? STK_BEARER_TYPE_GPRS_UTRAN);
  _ ← check (7 <=? len);
  precedence ← rd data 1;
  delay ← rd data 2;
  reliability ← rd data 3;
  peak ← rd data 4;
  mean ← rd data 5;
  pdp_type ← rd data 6;
  stored (VBearer precedence delay reliability peak mean pdp_type).

Definition parse_dataobj_channel_data : handler := parse_dataobj_common_byte_array.
Definition parse_dataobj_channel_data_length : handler := parse_dataobj_common_byte.

Definition parse_dataobj_buffer_size : handler := fun len data =>
  _ ← check (len =? 2);
  size ← short_at data 0;
  stored (VShort size).

Definition parse_dataobj_channel_status : handler := parse_array 2 2.
Definition parse_dataobj_card_reader_id : handler := parse_unchecked 127.

(** [len] is an unsigned char. *)
Definition parse_dataobj_other_address : handler := fun len data =>
  let len := u8 len in
  if len =? 0 then stored (VOtherAddress STK_ADDRESS_AUTO [])
  else
    _ ← check ((len =? 5) || (len =? 17));
    type ← rd data 0;
    _ ← check ((type =? STK_ADDRESS_IPV4) || (type =? STK_ADDRESS_IPV6));
    addr ← copy 16 (drop 1 data) (if type =? STK_ADDRESS_IPV4 then 4 else 16);
    stored (VOtherAddress type addr).

(** [len] is an unsigned char here and in the next parser. *)
Definition parse_dataobj_uicc_te_interface : handler := fun len data =>
  _ ← check (u8 len =? 3);
  protocol ← rd data 0;
  port ← short_at data 1;
  stored (VTeInterface protocol port).

Definition parse_dataobj_aid : handler := fun len data =>
  let len := u8 len in
  _ ← check ((len <=? 16) && (12 <=? len));
  aid ← copy 16 data len;
  stored (VOctets aid).

Definition parse_dataobj_access_technology : handler := parse_dataobj_common_byte.

Definition parse_dataobj_display_parameters : handler := fun len data =>
  _ ← check (len =? 3);
  height ← rd data 0;
  width ← rd data 1;
  effects ← rd data 2;
  stored (VDisplay height width effects).

Definition parse_dataobj_service_record : handler := fun len data =>
  _ ← check (3 <=? len);
  tech_id ← rd data 0;
  serv_id ← rd data 1;
  serv_rec ← dup (drop 2 data) (len - 2);
  stored (VServiceRecord tech_id serv_id serv_rec).

(** Bluetooth and IrDA are the technologies known. *)
Definition parse_technology : handler := fun len data =>
  _ ← check (2 <=? len);
  tech_id ← rd data 0;
  _ ← check ((tech_id =? STK_TECHNOLOGY_BLUETOOTH) || (tech_id =? STK_TECHNOLOGY_IRDA));
  octets ← dup (drop 1 data) (len - 1);
  stored (VTechnology tech_id octets).

Definition parse_dataobj_device_filter : handler := parse_technology.
Definition parse_dataobj_service_search : handler := parse_technology.
Definition parse_dataobj_attribute_info : handler := parse_technology.
Definition parse_dataobj_service_availability : handler := parse_dataobj_common_byte_array.

(** The first octet is read before the length is looked at. *)
Definition parse_dataobj_remote_entity_address : handler := fun len data =>
  coding_type ← rd data 0;
  _ ← check (((coding_type =? 0) && (len =? 7)) || ((coding_type =? 1) && (len =? 5)));
  addr ← copy 6 (drop 1 data) (len - 1);
  stored (VEntity coding_type addr).

Definition parse_dataobj_esn : handler := parse_array 4 4.

(** The labels of a name, each behind its length, joined with dots in
    [decoded_apn]. *)
Fixpoint apn_loop (fuel : nat) (len : Z) (data decoded_apn : list Z) : res (list Z) :=
  match fuel with
  | O => Ub
  | S fuel =>
    if len =? 0 then put 100 decoded_apn [0]
    else
      label_size ← rd data 0;
      if (label_size =? 0) || (len - 1 <? label_size) then Err
      else
        label ← slice data 1 label_size;
        decoded_apn ← put 100 decoded_apn label;
        let len := len - (label_size + 1) in
        decoded_apn ← (if len =? 0 then Ret decoded_apn else put 100 decoded_apn [0x2e]);
        apn_loop fuel len (drop (Z.to_nat (label_size + 1)) data) decoded_apn
  end.

Definition parse_dataobj_network_access_name : handler := fun len data =>
  _ ← check ((1 <=? len) && (len <=? 100));
  apn ← apn_loop (S (Z.to_nat len)) len data [];
  stored (VString (Some (cstr apn))).

Definition parse_dataobj_cdma_sms_tpdu : handler := parse_dataobj_common_byte_array.
Definition parse_dataobj_text_attr : handler := parse_array 0 127.
Definition parse_dataobj_pdp_act_par : handler := parse_array 0 127.

Definition parse_dataobj_item_text_attribute_list : handler := fun len data =>
  _ ← check ((len <=? 124) && (Z.rem len 4 =? 0));
  octets ← copy 124 data len;
  stored (VOctets octets).

Definition parse_dataobj_utran_meas_qualifier : handler := parse_dataobj_common_byte.

Definition parse_dataobj_imeisv : handler := fun len data =>
  _ ← check (len =? 9);
  first ← rd data 0;
  _ ← check (Z.land first 0x0f =? 0x03);
  last ← rd data 8;
  _ ← check (Z.shiftr last 4 =? 0x0f);
  digits ← extract_bcd_number data 1 7;
  stored (VChars (cstr (lut (Z.shiftr first 4) :: take 14 digits ++ [lut (Z.land last 0x0f); 0]))).

Definition parse_dataobj_network_search_mode : handler := parse_dataobj_common_byte.
Definition parse_dataobj_battery_state : handler := parse_dataobj_common_byte.
Definition parse_dataobj_browsing_status : handler := parse_dataobj_common_byte_array.

(** [len] is an unsigned char here and in the next parser. *)
Definition parse_dataobj_frame_layout : handler := fun len data =>
  let len := u8 len in
  _ ← check (2 <=? len);
  layout ← rd data 0;
  _ ← check ((layout =? STK_LAYOUT_HORIZONTAL) || (layout =? STK_LAYOUT_VERTICAL));
  size ← copy 126 (drop 1 data) (len - 1);
  stored (VLayout layout size).

Definition frame_info (data : list Z) (i : nat) : res (Z * Z) :=
  height ← rd data (Z.of_nat i * 2 + 1);
  width ← rd data (Z.of_nat i * 2 + 2);
  Ret (Z.land height 0x1f, Z.land width 0x7f).

(** The loop goes over [len] entries of the list, of which it says that half are
    there. *)
Definition parse_dataobj_frames_info : handler := fun len data =>
  let len := u8 len in
  _ ← check (1 <=? len);
  id ← rd data 0;
  _ ← check (id <=? 0x0f);
  _ ← check (negb (((len =? 1) && negb (id =? 0)) || ((1 <? len) && (id =? 0))));
  _ ← check (negb (Z.rem len 2 =? 0));
  if len =? 1 then Ret None
  else
    frames ← collect (frame_info data) (seq 0 (Z.to_nat len));
    frames ← put 63 [] frames;
    stored (VFrames id (take (Z.to_nat (Z.quot (len - 1) 2)) frames)).

Definition parse_dataobj_frame_id : handler := fun len data =>
  _ ← check (len =? 1);
  id ← rd data 0;
  _ ← check (id <? 0x10);
  stored (VByte id).

Definition parse_dataobj_meid : handler := parse_array 8 8.
Definition parse_dataobj_mms_reference : handler := parse_unchecked 127.
Definition parse_dataobj_mms_id : handler := parse_unchecked 127.
Definition parse_dataobj_mms_transfer_status : handler := parse_unchecked 127.
Definition parse_dataobj_mms_content_id : handler := parse_unchecked 127.
Definition parse_dataobj_mms_notification : handler := parse_dataobj_common_byte_array.
Definition parse_dataobj_last_envelope : handler := parse_dataobj_common_bool.

Definition parse_dataobj_registry_application_data : handler := fun len data =>
  _ ← check (5 <=? len);
  dcs ← rd data 2;
  text ← decode_text dcs (len - 4) (drop 4 data);
  match text with
  | None => Err
  | Some utf8 =>
    port ← short_at data 0;
    type ← rd data 3;
    stored (VApplication port type (cstr utf8))
  end.

Definition parse_dataobj_activate_descriptor : handler := fun len data =>
  _ ← check (len =? 1);
  byte ← rd data 0;
  _ ← check (byte =? 0x01);
  stored (VByte byte).

Definition parse_dataobj_broadcast_network_info : handler := fun len data =>
  _ ← check (2 <=? len);
  tech ← rd data 0;
  _ ← check (tech <=? 0x03);
  loc_info ← copy 126 (drop 1 data) (len - 1);
  stored (VNetwork tech loc_info).

(** [handler_for_type]: the switch, in its order. *)
Definition handlers : list (Z * handler) :=
  [ (STK_DATA_OBJECT_TYPE_ADDRESS, parse_dataobj_address);
    (STK_DATA_OBJECT_TYPE_ALPHA_ID, parse_dataobj_alpha_id);
    (STK_DATA_OBJECT_TYPE_SUBADDRESS, parse_dataobj_subaddress);
    (STK_DATA_OBJECT_TYPE_CCP, parse_dataobj_ccp);
    (STK_DATA_OBJECT_TYPE_CBS_PAGE, parse_dataobj_cbs_page);
    (STK_DATA_OBJECT_TYPE_DURATION, parse_dataobj_duration);
    (STK_DATA_OBJECT_TYPE_ITEM, parse_dataobj_item);
    (STK_DATA_OBJECT_TYPE_ITEM_ID, parse_dataobj_item_id);
    (STK_DATA_OBJECT_TYPE_RESPONSE_LENGTH, parse_dataobj_response_len);
    (STK_DATA_OBJECT_TYPE_RESULT, parse_dataobj_result);
    (STK_DATA_OBJECT_TYPE_GSM_SMS_TPDU, parse_dataobj_gsm_sms_tpdu);
    (STK_DATA_OBJECT_TYPE_SS_STRING, parse_dataobj_ss);
    (STK_DATA_OBJECT_TYPE_TEXT, parse_dataobj_text);
    (STK_DATA_OBJECT_TYPE_TONE, parse_dataobj_tone);
    (STK_DATA_OBJECT_TYPE_USSD_STRING, parse_dataobj_ussd);
    (STK_DATA_OBJECT_TYPE_FILE_LIST, parse_dataobj_file_list);
    (STK_DATA_OBJECT_TYPE_LOCATION_INFO, parse_dataobj_location_info);
    (STK_DATA_OBJECT_TYPE_IMEI, parse_dataobj_imei);
    (STK_DATA_OBJECT_TYPE_HELP_REQUEST, parse_dataobj_help_request);
    (STK_DATA_OBJECT_TYPE_NETWORK_MEASUREMENT_RESULTS, parse_dataobj_network_measurement_results);
    (STK_DATA_OBJECT_TYPE_DEFAULT_TEXT, parse_dataobj_default_text);
    (STK_DATA_OBJECT_TYPE_ITEMS_NEXT_ACTION_INDICATOR, parse_dataobj_items_next_action_indicator);
    (STK_DATA_OBJECT_TYPE_EVENT_LIST, parse_dataobj_event_list);
    (STK_DATA_OBJECT_TYPE_CAUSE, parse_dataobj_cause);
    (STK_DATA_OBJECT_TYPE_LOCATION_STATUS, parse_dataobj_location_status);
    (STK_DATA_OBJECT_TYPE_TRANSACTION_ID, parse_dataobj_transaction_id);
    (STK_DATA_OBJECT_TYPE_BCCH_CHANNEL_LIST, parse_dataobj_bcch_channel_list);
    (STK_DATA_OBJECT_TYPE_CALL_CONTROL_REQUESTED_ACTION, parse_dataobj_call_control_requested_action);
    (STK_DATA_OBJECT_TYPE_ICON_ID, parse_dataobj_icon_id);
    (STK_DATA_OBJECT_TYPE_ITEM_ICON_ID_LIST, parse_dataobj_item_icon_id_list);
    (STK_DATA_OBJECT_TYPE_CARD_READER_STATUS, parse_dataobj_card_reader_status);
    (STK_DATA_OBJECT_TYPE_CARD_ATR, parse_dataobj_card_atr);
    (STK_DATA_OBJECT_TYPE_C_APDU, parse_dataobj_c_apdu);
    (STK_DATA_OBJECT_TYPE_R_APDU, parse_dataobj_r_apdu);
    (STK_DATA_OBJECT_TYPE_TIMER_ID, parse_dataobj_timer_id);
    (STK_DATA_OBJECT_TYPE_TIMER_VALUE, parse_dataobj_timer_value);
    (STK_DATA_OBJECT_TYPE_DATETIME_TIMEZONE, parse_dataobj_datetime_timezone);
    (STK_DATA_OBJECT_TYPE_AT_COMMAND, parse_dataobj_at_command);
    (STK_DATA_OBJECT_TYPE_AT_RESPONSE, parse_dataobj_at_response);
    (STK_DATA_OBJECT_TYPE_BC_REPEAT_INDICATOR, parse_dataobj_bc_repeat_indicator);
    (STK_DATA_OBJECT_TYPE_IMMEDIATE_RESPONSE, parse_dataobj_imm_resp);
    (STK_DATA_OBJECT_TYPE_DTMF_STRING, parse_dataobj_dtmf_string);
    (STK_DATA_OBJECT_TYPE_LANGUAGE, parse_dataobj_language);
    (STK_DATA_OBJECT_TYPE_BROWSER_ID, parse_dataobj_browser_id);
    (STK_DATA_OBJECT_TYPE_TIMING_ADVANCE, parse_dataobj_timing_advance);
    (STK_DATA_OBJECT_TYPE_URL, parse_dataobj_url);
    (STK_DATA_OBJECT_TYPE_BEARER, parse_dataobj_bearer);
    (STK_DATA_OBJECT_TYPE_PROVISIONING_FILE_REF, parse_dataobj_provisioning_file_reference);
    (STK_DATA_OBJECT_TYPE_BROWSER_TERMINATION_CAUSE, parse_dataobj_browser_termination_cause);
    (STK_DATA_OBJECT_TYPE_BEARER_DESCRIPTION, parse_dataobj_bearer_description);
    (STK_DATA_OBJECT_TYPE_CHANNEL_DATA, parse_dataobj_channel_data);
    (STK_DATA_OBJECT_TYPE_CHANNEL_DATA_LENGTH, parse_dataobj_channel_data_length);
    (STK_DATA_OBJECT_TYPE_BUFFER_SIZE, parse_dataobj_buffer_size);
    (STK_DATA_OBJECT_TYPE_CHANNEL_STATUS, parse_dataobj_channel_status);
    (STK_DATA_OBJECT_TYPE_CARD_READER_ID, parse_dataobj_card_reader_id);
    (STK_DATA_OBJECT_TYPE_OTHER_ADDRESS, parse_dataobj_other_address);
    (STK_DATA_OBJECT_TYPE_UICC_TE_INTERFACE, parse_dataobj_uicc_te_interface);
    (STK_DATA_OBJECT_TYPE_AID, parse_dataobj_aid);
    (STK_DATA_OBJECT_TYPE_ACCESS_TECHNOLOGY, parse_dataobj_access_technology);
    (STK_DATA_OBJECT_TYPE_DISPLAY_PARAMETERS, parse_dataobj_display_parameters);
    (STK_DATA_OBJECT_TYPE_SERVICE_RECORD, parse_dataobj_service_record);
    (STK_DATA_OBJECT_TYPE_DEVICE_FILTER, parse_dataobj_device_filter);
    (STK_DATA_OBJECT_TYPE_SERVICE_SEARCH, parse_dataobj_service_search);
    (STK_DATA_OBJECT_TYPE_ATTRIBUTE_INFO, parse_dataobj_attribute_info);
    (STK_DATA_OBJECT_TYPE_SERVICE_AVAILABILITY, parse_dataobj_service_availability);
    (STK_DATA_OBJECT_TYPE_REMOTE_ENTITY_ADDRESS, parse_dataobj_remote_entity_address);
    (STK_DATA_OBJECT_TYPE_ESN, parse_dataobj_esn);
    (STK_DATA_OBJECT_TYPE_NETWORK_ACCESS_NAME, parse_dataobj_network_access_name);
    (STK_DATA_OBJECT_TYPE_CDMA_SMS_TPDU, parse_dataobj_cdma_sms_tpdu);
    (STK_DATA_OBJECT_TYPE_TEXT_ATTRIBUTE, parse_dataobj_text_attr);
    (STK_DATA_OBJECT_TYPE_PDP_ACTIVATION_PARAMETER, parse_dataobj_pdp_act_par);
    (STK_DATA_OBJECT_TYPE_ITEM_TEXT_ATTRIBUTE_LIST, parse_dataobj_item_text_attribute_list);
    (STK_DATA_OBJECT_TYPE_UTRAN_MEASUREMENT_QUALIFIER, parse_dataobj_utran_meas_qualifier);
    (STK_DATA_OBJECT_TYPE_IMEISV, parse_dataobj_imeisv);
    (STK_DATA_OBJECT_TYPE_NETWORK_SEARCH_MODE, parse_dataobj_network_search_mode);
    (STK_DATA_OBJECT_TYPE_BATTERY_STATE, parse_dataobj_battery_state);
    (STK_DATA_OBJECT_TYPE_BROWSING_STATUS, parse_dataobj_browsing_status);
    (STK_DATA_OBJECT_TYPE_FRAME_LAYOUT, parse_dataobj_frame_layout);
    (STK_DATA_OBJECT_TYPE_FRAMES_INFO, parse_dataobj_frames_info);
    (STK_DATA_OBJECT_TYPE_FRAME_ID, parse_dataobj_frame_id);
    (STK_DATA_OBJECT_TYPE_MEID, parse_dataobj_meid);
    (STK_DATA_OBJECT_TYPE_MMS_REFERENCE, parse_dataobj_mms_reference);
    (STK_DATA_OBJECT_TYPE_MMS_ID, parse_dataobj_mms_id);
    (STK_DATA_OBJECT_TYPE_MMS_TRANSFER_STATUS, parse_dataobj_mms_transfer_status);
    (STK_DATA_OBJECT_TYPE_MMS_CONTENT_ID, parse_dataobj_mms_content_id);
    (STK_DATA_OBJECT_TYPE_MMS_NOTIFICATION, parse_dataobj_mms_notification);
    (STK_DATA_OBJECT_TYPE_LAST_ENVELOPE, parse_dataobj_last_envelope);
    (STK_DATA_OBJECT_TYPE_REGISTRY_APPLICATION_DATA, parse_dataobj_registry_application_data);
    (STK_DATA_OBJECT_TYPE_ACTIVATE_DESCRIPTOR, parse_dataobj_activate_descriptor);
    (STK_DATA_OBJECT_TYPE_BROADCAST_NETWORK_INFO, parse_dataobj_broadcast_network_info) ].

(** [None]: NULL. *)
Definition handler_for_type (type : Z) : option handler :=
  found ← list_find (fun entry => type = entry.1) handlers;
  Some (found.2).2.
End Parsers.

(** * Safety

    On any octets a parser stays within the value it is given and within the
    arrays of the structs, but for the values below. *)

Definition data_at (data : list Z) (i : Z) : Z := nth (Z.to_nat i) data 0.

(** A text of 8 bit data, read with the GSM tables, with an octet above 0x7f
    behind an escape. *)
Definition text_high_escape (dcs len : Z) (data : list Z) : bool :=
  match sms_dcs_decode dcs with
  | Some (_, SMS_CHARSET_8BIT, _, _) => high_escape (take (Z.to_nat len) data)
  | _ => false
  end.

Definition unchecked_types : list Z :=
  [ STK_DATA_OBJECT_TYPE_MMS_REFERENCE; STK_DATA_OBJECT_TYPE_MMS_ID; STK_DATA_OBJECT_TYPE_MMS_TRANSFER_STATUS;
    STK_DATA_OBJECT_TYPE_MMS_CONTENT_ID; STK_DATA_OBJECT_TYPE_CARD_READER_ID;
    STK_DATA_OBJECT_TYPE_BROADCAST_NETWORK_INFO ].

(** The values whose parser reads or stores where it may not. *)
Definition unsafe_value (type len : Z) (data : list Z) : bool :=
  if existsb (Z.eqb type) unchecked_types then 127 <? len
  else if type =? STK_DATA_OBJECT_TYPE_FRAME_LAYOUT then 127 <? u8 len
  else if type =? STK_DATA_OBJECT_TYPE_FRAMES_INFO then (63 <? u8 len) || (zlen data <=? 2 * u8 len)
  else if type =? STK_DATA_OBJECT_TYPE_BCCH_CHANNEL_LIST then 127 <=? len
  else if type =? STK_DATA_OBJECT_TYPE_REMOTE_ENTITY_ADDRESS then len =? 0
  else if type =? STK_DATA_OBJECT_TYPE_OTHER_ADDRESS
       then (data_at data 0 =? STK_ADDRESS_IPV6) && (zlen data <? 17)
  else if type =? STK_DATA_OBJECT_TYPE_ALPHA_ID then alpha_high_escape data len
  else if type =? STK_DATA_OBJECT_TYPE_ITEM then alpha_high_escape (drop 1 data) (len - 1)
  else if (type =? STK_DATA_OBJECT_TYPE_TEXT) || (type =? STK_DATA_OBJECT_TYPE_DEFAULT_TEXT)
       then text_high_escape (data_at data 0) (len - 1) (drop 1 data)
  else if type =? STK_DATA_OBJECT_TYPE_REGISTRY_APPLICATION_DATA
       then text_high_escape (data_at data 2) (len - 4) (drop 4 data)
  else false.

Lemma copy_ok size data len : 0 <= len <= zlen data -> len <= size ->
  copy size data len = Ret (take (Z.to_nat len) data).
Proof.
  intros Hl Hs. unfold copy. rewrite slice_in_bounds by lia. simp_res. rewrite drop_0.
  rewrite put_ok; [done|]. change (zlen []) with 0. rewrite zlen_take. lia.
Qed.

Lemma dup_ok data len : 0 <= len <= zlen data -> dup data len = Ret (take (Z.to_nat len) data).
Proof. intros Hl. unfold dup. by rewrite slice_in_bounds, drop_0 by lia. Qed.

Lemma rd_data_at data i b : 0 <= i -> rd data i = Ret b -> data_at data i = b.
Proof. intros Hi Hr. apply rd_lookup in Hr; [|done]. by apply nth_lookup_Some. Qed.

Lemma short_at_ok data i : 0 <= i -> i + 1 < zlen data -> exists n, short_at data i = Ret n.
Proof.
  intros Hi Hl. unfold short_at. destruct (rd_in_bounds data i ltac:(lia)) as [a ->].
  destruct (rd_in_bounds data (i + 1) ltac:(lia)) as [b ->]. by eexists.
Qed.

Lemma bcd_chars_length octets : zlen (SimFile.bcd_chars octets) <= 2 * zlen octets.
Proof. induction octets as [|o l IH]; [done|]. cbn [SimFile.bcd_chars]. zl. Qed.

Lemma sim_bcd_ok data len cap : 0 <= len <= zlen data -> 2 * len + 1 <= cap ->
  exists chars, sim_extract_bcd_number data len cap = Ret chars.
Proof.
  intros Hl Hc. unfold sim_extract_bcd_number. rewrite Z.max_l, slice_in_bounds by lia. simp_res.
  pose proof (bcd_chars_length (take (Z.to_nat len) (drop (Z.to_nat 0) data))) as Hb.
  rewrite zlen_take, zlen_drop in Hb. rewrite put_ok by zl. by eexists.
Qed.

Lemma collect_safe {A B} (f : A -> res B) l : (forall a, a ∈ l -> exists b, f a = Ret b) ->
  exists bs, collect f l = Ret bs /\ length bs = length l.
Proof.
  induction l as [|a l IH]; intros Hf; [by exists []|]. cbn [collect].
  destruct (Hf a) as [b ->]; [by apply list_elem_of_here|]. simp_res.
  destruct IH as (bs & -> & Hl); [intros; apply Hf; by apply list_elem_of_further|]. simp_res.
  exists (b :: bs). split; [done|]. cbn [length]. by rewrite Hl.
Qed.

(** One step of a parser. *)
Ltac parser_step :=
  lazymatch goal with
  | |- safe (Ret _) => exact (safe_Ret _)
  | |- safe Err => exact safe_Err
  | |- safe (stored _) => exact (safe_Ret _)
  | |- safe (check ?b ≫= _) => destruct b eqn:?; simp_res; bool_to_prop; [|exact safe_Err]
  | |- safe (if ?b then _ else _) => destruct b eqn:?; bool_to_prop
  | |- safe (rd ?l ?i ≫= _) => destruct (rd_byte l i) as (? & -> & ?); [done|lia|]; simp_res
  | |- safe (copy _ _ _ ≫= _) => rewrite copy_ok by zl; simp_res
  | |- safe (dup _ _ ≫= _) => rewrite dup_ok by zl; simp_res
  | |- safe (short_at ?l ?i ≫= _) => destruct (short_at_ok l i) as [? ->]; [lia|lia|]; simp_res
  | |- safe (sim_extract_bcd_number ?l ?n ?c ≫= _) =>
      destruct (sim_bcd_ok l n c) as [? ->]; [zl|lia|]; simp_res
  end.
Ltac parser := repeat parser_step.

Section Safety.
Context `{L : Utf8Laws}.

Definition parser_safe (type : Z) (h : handler) : Prop := forall len data,
  bytes data -> 0 <= len <= zlen data -> unsafe_value type len data = false -> safe (h len data).

Lemma text_octets_safe (text : res (option (list Z))) (k : list Z -> res (option value)) :
  safe text -> (forall utf8, safe (k utf8)) ->
  safe (text ≫= fun text => match text with Some utf8 => k utf8 | None => Err end).
Proof. intros Ht Hk. apply safe_bind; [done|]. intros [utf8|] _; [apply Hk|done]. Qed.

Lemma decode_text_safe dcs len data : bytes data -> 1 <= len <= zlen data ->
  text_high_escape dcs len data = false -> safe (decode_text dcs len data).
Proof.
  intros Hb Hl Hesc. unfold decode_text, text_high_escape in *.
  destruct (sms_dcs_decode dcs) as [[[[cls charset] b1] b2]|]; [|done]. destruct charset.
  - destruct (unpack_safe data len Hb Hl) as (s & -> & Hs).
    destruct (convert_gsm_safe s (zlen s)) as [r ->]; [|zl| |done].
    + eapply Forall_impl; [exact Hs|]. unfold is_byte. cbn. lia.
    + by apply high_escape_take, septets_no_high_escape.
  - destruct (convert_gsm_safe data len Hb ltac:(lia) Hesc) as [r ->]. done.
  - by rewrite slice_in_bounds by lia.
Qed.

Lemma alpha_id_safe : parser_safe STK_DATA_OBJECT_TYPE_ALPHA_ID parse_dataobj_alpha_id.
Proof.
  intros len data Hb Hl Hu. unfold parse_dataobj_alpha_id. parser.
  apply safe_bind; [|done]. by apply sim_string_safe.
Qed.

Lemma item_safe : parser_safe STK_DATA_OBJECT_TYPE_ITEM parse_dataobj_item.
Proof.
  intros len data Hb Hl Hu. unfold parse_dataobj_item. parser.
  apply safe_bind; [|done]. apply sim_string_safe; [by apply Forall_drop|zl|done].
Qed.

Lemma text_safe : parser_safe STK_DATA_OBJECT_TYPE_TEXT parse_dataobj_text.
Proof.
  intros len data Hb Hl Hu. unfold parse_dataobj_text. destruct (Z.leb_spec len 1); [done|].
  destruct (rd_byte data 0 Hb ltac:(lia)) as (dcs & Hd & _). rewrite Hd. simp_res.
  apply text_octets_safe; [|done]. apply decode_text_safe; [by apply Forall_drop|zl|].
  rewrite <- (rd_data_at data 0 dcs ltac:(lia) Hd). exact Hu.
Qed.

Lemma default_text_safe : parser_safe STK_DATA_OBJECT_TYPE_DEFAULT_TEXT parse_dataobj_default_text.
Proof.
  intros len data Hb Hl Hu. unfold parse_dataobj_default_text. parser_step.
  destruct (rd_byte data 0 Hb ltac:(lia)) as (dcs & Hd & _). rewrite Hd. simp_res.
  apply text_octets_safe; [|done]. apply decode_text_safe; [by apply Forall_drop|zl|].
  rewrite <- (rd_data_at data 0 dcs ltac:(lia) Hd). exact Hu.
Qed.

Lemma application_safe :
  parser_safe STK_DATA_OBJECT_TYPE_REGISTRY_APPLICATION_DATA parse_dataobj_registry_application_data.
Proof.
  intros len data Hb Hl Hu. unfold parse_dataobj_registry_application_data. parser_step.
  destruct (rd_byte data 2 Hb ltac:(lia)) as (dcs & Hd & _). rewrite Hd. simp_res.
  apply text_octets_safe; [|intros; parser]. apply decode_text_safe; [by apply Forall_drop|zl|].
  rewrite <- (rd_data_at data 2 dcs ltac:(lia) Hd). exact Hu.
Qed.

(** ** Files *)

Lemma file_loop_ok start max : max <= zlen start -> forall fuel i last_type,
  0 <= i -> (Z.to_nat (max - i) < fuel)%nat ->
  file_loop fuel start max i last_type = Err \/
  exists j, file_loop fuel start max i last_type = Ret j /\ i <= j /\ j + 1 < max /\
    (last_type = 0x3f -> j <= i + 4) /\ (last_type = 0x7f -> j <= i + 2) /\
    (last_type <> 0x3f -> last_type <> 0x7f -> j <= i).
Proof.
  intros Hm. induction fuel as [|fuel IH]; intros i lt Hi Hf; [lia|]. cbn [file_loop].
  destruct (Z.ltb_spec i max); [|by left]. destruct (rd_in_bounds start i ltac:(lia)) as [type ->]. simp_res.
  destruct (file_follows type lt) eqn:Hfo; cbn [negb]; [|by left]. unfold file_follows in Hfo.
  destruct ((type =? 0x2f) || (type =? 0x6f) || (type =? 0x4f)) eqn:He.
  { destruct (Z.leb_spec max (i + 1)); [by left|]. right. exists i. split; [done|]. lia. }
  destruct (IH (i + 2) type ltac:(lia) ltac:(lia)) as [->|(j & -> & Hj1 & Hj2 & H3 & H7 & Ho)]; [by left|].
  right. exists j. split; [done|]. bool_to_prop.
  repeat match goal with H : _ \/ _ |- _ => destruct H end; bool_to_prop; subst; try lia.
Qed.

Lemma file_next_ok iter : 0 <= fi_pos iter -> fi_max iter <= zlen (fi_start iter) ->
  stk_file_iter_next iter = Err \/
  exists j n, stk_file_iter_next iter =
      Ret {| fi_start := fi_start iter; fi_pos := j; fi_max := fi_max iter; fi_file := (fi_pos iter, n) |} /\
    fi_pos iter < j <= fi_max iter /\ 0 <= n <= 8 /\ fi_pos iter + n = j.
Proof.
  intros Hp Hm. unfold stk_file_iter_next. destruct (Z.leb_spec (fi_max iter) (fi_pos iter + 2)); [by left|].
  destruct (rd_in_bounds (fi_start iter) (fi_pos iter) ltac:(lia)) as [root ->]. simp_res.
  destruct (negb _); [by left|].
  destruct (file_loop_ok (fi_start iter) (fi_max iter) Hm (S (Z.to_nat (fi_max iter - fi_pos iter)))
    (fi_pos iter + 2) 0x3f ltac:(lia) ltac:(lia)) as [->|(j & -> & H1 & H2 & H3 & _)]; [by left|].
  specialize (H3 eq_refl). simp_res. right. eexists _, _. split; [reflexivity|].
  unfold u8. rewrite Z.mod_small by lia. lia.
Qed.

Lemma files_loop_safe fuel : forall iter files, 0 <= fi_pos iter <= fi_max iter ->
  fi_max iter <= zlen (fi_start iter) ->
  (Z.to_nat (fi_max iter - fi_pos iter) < fuel)%nat -> safe (files_loop fuel iter files).
Proof.
  induction fuel as [|fuel IH]; intros iter files Hp Hm Hf; [lia|]. cbn [files_loop].
  destruct (file_next_ok iter ltac:(lia) Hm) as [->|(j & n & -> & Hj & Hn & Heq)]; [done|].
  cbn [fi_start fi_file fst snd]. rewrite copy_ok by zl. simp_res. apply IH; cbn [fi_start fi_max fi_pos]; lia.
Qed.

Lemma file_list_safe : parser_safe STK_DATA_OBJECT_TYPE_FILE_LIST parse_dataobj_file_list.
Proof.
  intros len data Hb Hl Hu. unfold parse_dataobj_file_list. parser_step.
  apply safe_bind.
  - apply files_loop_safe; unfold stk_file_iter_init; cbn [fi_start fi_max fi_pos]; [lia|zl|lia].
  - intros [files pos] _. parser.
Qed.

Lemma provisioning_safe :
  parser_safe STK_DATA_OBJECT_TYPE_PROVISIONING_FILE_REF parse_dataobj_provisioning_file_reference.
Proof.
  intros len data Hb Hl Hu. unfold parse_dataobj_provisioning_file_reference. parser_step.
  destruct (file_next_ok (stk_file_iter_init data len)) as [->|(j & n & -> & _)];
    unfold stk_file_iter_init; cbn [fi_start fi_max fi_pos]; [lia|lia|simp_res; parser..].
Qed.

(** ** The others *)

Lemma extract_bcd_ok data off n : 0 <= off -> 0 <= n -> off + n <= zlen data ->
  exists digits, extract_bcd_number data off n = Ret digits.
Proof. intros. unfold extract_bcd_number. rewrite slice_in_bounds by lia. by eexists. Qed.

Lemma location_safe : parser_safe STK_DATA_OBJECT_TYPE_LOCATION_INFO parse_dataobj_location_info.
Proof.
  intros len data Hb Hl Hu. unfold parse_dataobj_location_info. parser_step.
  assert (5 <= len) by lia. clear Heqb. unfold sim_parse_mcc_mnc.
  destruct (rd_in_bounds data 0 ltac:(lia)) as [b0 ->]. destruct (rd_in_bounds data 1 ltac:(lia)) as [b1 ->].
  destruct (rd_in_bounds data 2 ltac:(lia)) as [b2 ->]. simp_res. parser_step.
  apply safe_bind; [|intros ci _; apply safe_bind; [|done]].
  - destruct (Z.leb_spec 7 len); simp_res; parser.
  - destruct (Z.eqb_spec len 9); simp_res; parser.
Qed.

Lemma imei_safe : parser_safe STK_DATA_OBJECT_TYPE_IMEI parse_dataobj_imei.
Proof.
  intros len data Hb Hl Hu. unfold parse_dataobj_imei. parser.
  destruct (extract_bcd_ok data 1 7) as [digits ->]; [lia..|]. done.
Qed.

Lemma imeisv_safe : parser_safe STK_DATA_OBJECT_TYPE_IMEISV parse_dataobj_imeisv.
Proof.
  intros len data Hb Hl Hu. unfold parse_dataobj_imeisv. parser.
  destruct (extract_bcd_ok data 1 7) as [digits ->]; [lia..|]. done.
Qed.

Lemma bcch_safe : parser_safe STK_DATA_OBJECT_TYPE_BCCH_CHANNEL_LIST parse_dataobj_bcch_channel_list.
Proof.
  intros len data Hb Hl Hu. change (unsafe_value _ len data) with (127 <=? len) in Hu.
  unfold parse_dataobj_bcch_channel_list. parser_step.
  destruct (collect_safe (bcch_channel data) (seq 0 (Z.to_nat (Z.quot (len * 8) 10)))) as (cs & -> & Hcs).
  { intros i Hi%elem_of_seq. unfold bcch_channel. rewrite Z.quot_div_nonneg in * by lia.
    destruct (rd_in_bounds data (Z.of_nat i * 10 / 8)) as [hi ->]; [dzl|].
    destruct (rd_in_bounds data (Z.of_nat i * 10 / 8 + 1)) as [lo ->]; [dzl|]. simp_res. by eexists. }
  simp_res. rewrite put_ok; [simp_res; parser|]. change (zlen []) with 0. unfold zlen.
  rewrite Hcs, length_seq. rewrite Z.quot_div_nonneg by lia. dzl.
Qed.

Lemma frames_info_safe : parser_safe STK_DATA_OBJECT_TYPE_FRAMES_INFO parse_dataobj_frames_info.
Proof.
  intros len data Hb Hl Hu.
  change (unsafe_value _ len data) with ((63 <? u8 len) || (zlen data <=? 2 * u8 len)) in Hu.
  unfold parse_dataobj_frames_info. cbv zeta. set (n := u8 len) in *. bool_to_prop. parser_step.
  destruct (rd_byte data 0 Hb ltac:(lia)) as (id & -> & _). simp_res.
  destruct (id <=? 15); simp_res; [|done]. destruct (negb (_ || _)); simp_res; [|done].
  destruct (negb _); simp_res; [|done]. destruct (n =? 1); [done|].
  destruct (collect_safe (frame_info data) (seq 0 (Z.to_nat n))) as (fs & -> & Hfs).
  { intros i Hi%elem_of_seq. unfold frame_info.
    destruct (rd_in_bounds data (Z.of_nat i * 2 + 1)) as [h ->]; [lia|].
    destruct (rd_in_bounds data (Z.of_nat i * 2 + 2)) as [w ->]; [lia|]. simp_res. by eexists. }
  simp_res. rewrite put_ok; [done|]. change (zlen []) with 0. unfold zlen. rewrite Hfs, length_seq. lia.
Qed.

Lemma next_octet_safe data len off : len <= zlen data -> 0 <= off <= len ->
  next_octet data len off = Err \/ exists b, next_octet data len off = Ret (b, off + 1).
Proof.
  intros Hl Ho. unfold next_octet. destruct (Z.eqb_spec len off); [by left|].
  destruct (rd_in_bounds data off ltac:(lia)) as [b ->]. simp_res. right. by eexists.
Qed.

Lemma datetime_safe : parser_safe STK_DATA_OBJECT_TYPE_DATETIME_TIMEZONE parse_dataobj_datetime_timezone.
Proof.
  intros len data Hb Hl Hu. unfold parse_dataobj_datetime_timezone. parser_step.
  enough (safe (sms_decode_scts data 7 0)) as Hs by (destruct (sms_decode_scts data 7 0) as [[scts off]| |]; done).
  unfold sms_decode_scts. destruct (_ <? _); [done|].
  do 7 (lazymatch goal with |- safe (next_octet _ _ ?o ≫= _) =>
      destruct (next_octet_safe data 7 o ltac:(lia) ltac:(lia)) as [->|[? ->]]; simp_res; [done|] end;
    match goal with |- safe (check ?b ≫= _) => destruct b; simp_res; [|done] end).
  done.
Qed.

Lemma apn_loop_safe fuel : forall len data apn, 0 <= len <= zlen data -> bytes data ->
  zlen apn + len <= 100 -> (len = 0 -> zlen apn <= 99) -> (Z.to_nat len < fuel)%nat -> safe (apn_loop fuel len data apn).
Proof.
  induction fuel as [|fuel IH]; intros len data apn Hl Hb Ha H0 Hf; [lia|]. cbn [apn_loop].
  destruct (Z.eqb_spec len 0) as [->|Hne]; [rewrite put_ok; [done|change (zlen [0]) with 1; lia]|].
  destruct (rd_byte data 0 Hb ltac:(lia)) as (n & -> & Hn). simp_res. unfold is_byte in Hn.
  destruct (Z.eqb_spec n 0); [done|]. destruct (Z.ltb_spec (len - 1) n); [done|]. cbn [orb].
  rewrite slice_in_bounds by lia. simp_res. rewrite put_ok by zl. simp_res.
  destruct (Z.eqb_spec (len - (n + 1)) 0); simp_res.
  - apply IH; [zl|by apply Forall_drop|zl|zl|lia].
  - rewrite put_ok by zl. simp_res. apply IH; [zl|by apply Forall_drop|zl|lia|lia].
Qed.

Lemma access_name_safe : parser_safe STK_DATA_OBJECT_TYPE_NETWORK_ACCESS_NAME parse_dataobj_network_access_name.
Proof.
  intros len data Hb Hl Hu. unfold parse_dataobj_network_access_name. parser_step.
  apply safe_bind; [|done]. apply apn_loop_safe; [done|done|change (zlen []) with 0; lia..].
Qed.

Lemma u8_le n : 0 <= n -> 0 <= u8 n <= n.
Proof. intros. unfold u8. pose proof (Z.mod_pos_bound n (2 ^ 8)). split; [lia|by apply Z.mod_le]. Qed.

Lemma frame_layout_safe : parser_safe STK_DATA_OBJECT_TYPE_FRAME_LAYOUT parse_dataobj_frame_layout.
Proof.
  intros len data Hb Hl Hu. change (unsafe_value _ len data) with (127 <? u8 len) in Hu.
  pose proof (u8_le len ltac:(lia)).
  unfold parse_dataobj_frame_layout. cbv zeta. parser.
Qed.

Lemma other_address_safe : parser_safe STK_DATA_OBJECT_TYPE_OTHER_ADDRESS parse_dataobj_other_address.
Proof.
  intros len data Hb Hl Hu. pose proof (u8_le len ltac:(lia)).
  change (unsafe_value _ len data) with ((data_at data 0 =? STK_ADDRESS_IPV6) && (zlen data <? 17)) in Hu.
  unfold parse_dataobj_other_address. cbv zeta. parser_step; [parser|]. parser_step.
  assert (H5 : 5 <= u8 len) by lia. destruct (rd_byte data 0 Hb ltac:(lia)) as (type & Hd & _).
  rewrite Hd. simp_res. rewrite (rd_data_at data 0 type ltac:(lia) Hd) in Hu.
  destruct (Z.eqb_spec type STK_ADDRESS_IPV4), (Z.eqb_spec type STK_ADDRESS_IPV6); cbn [orb andb] in *; simp_res;
    bool_to_prop; parser.
Qed.

Lemma c_apdu_safe : parser_safe STK_DATA_OBJECT_TYPE_C_APDU parse_dataobj_c_apdu.
Proof.
  intros len data Hb Hl Hu. unfold parse_dataobj_c_apdu. parser.
  assert (Hd : c_apdu_data len data = Err \/ exists r, c_apdu_data len data = Ret r).
  { unfold c_apdu_data. destruct (Z.ltb_spec 5 len); [|right; by eexists].
    destruct (rd_byte data 4 Hb ltac:(lia)) as (lc & -> & Hlc). simp_res. unfold is_byte in Hlc.
    destruct (Z.leb_spec lc 236); simp_res; [|by left]. unfold u32.
    destruct (Z.leb_spec ((len - (4 + lc + 1)) mod 2 ^ 32) 1); simp_res; [|by left].
    assert (4 + lc + 1 <= len) by (Z.to_euclidean_division_equations; lia).
    rewrite copy_ok by zl. simp_res. right. by eexists. }
  destruct Hd as [->|[[octets pos] ->]]; [done|]. simp_res. apply safe_bind; [|done]. parser_step; parser.
Qed.

Lemma remote_entity_safe :
  parser_safe STK_DATA_OBJECT_TYPE_REMOTE_ENTITY_ADDRESS parse_dataobj_remote_entity_address.
Proof.
  intros len data Hb Hl Hu. change (unsafe_value _ len data) with (len =? 0) in Hu. bool_to_prop.
  unfold parse_dataobj_remote_entity_address. parser.
Qed.

Lemma handlers_safe : Forall (fun e => parser_safe e.1 e.2) handlers.
Proof.
  unfold handlers.
  repeat (apply Forall_cons; split; cbn [fst snd]); [..|by apply Forall_nil].
  all: first
    [ exact alpha_id_safe | exact item_safe | exact text_safe | exact default_text_safe | exact application_safe
    | exact file_list_safe | exact provisioning_safe | exact location_safe | exact imei_safe | exact imeisv_safe
    | exact bcch_safe | exact frames_info_safe | exact datetime_safe | exact access_name_safe
    | exact frame_layout_safe | exact other_address_safe | exact remote_entity_safe | exact c_apdu_safe | idtac ].
  all: intros len data Hb Hl Hu; pose proof (u8_le len ltac:(lia));
    try change (unsafe_value _ len data) with (127 <? len) in Hu; bool_to_prop;
    repeat match goal with |- safe (?h len data) => unfold h end;
    solve [unfold parse_array, parse_unchecked, parse_technology, parse_dataobj_common_text in *; cbv zeta; parser
          |apply safe_bind; [unfold parse_number; parser|done]].
Qed.
End Safety.
