(* ===== verification/StkCommand.v ===== *)
(** Proactive commands of a SIM, of src/src/stkutil.c: the engine that runs over
    the data objects of a command, the table of each command, and
    [stk_command_new_from_pdu].

    The commands are parsed through an interface, [DataObjects]: what
    [parse_dataobj] promises them.  The iterator over the octets of a message is
    one instance of it, the list of its data objects another. *)
From stdpp Require Import strings.
From S2P Require Import Prelude Charset SevenBit SmsField SmsPdu SimTlv StkTlv TextSafety StkObject.

Local Open Scope string_scope.
Local Open Scope Z_scope.

(** * The engine *)

Definition DATAOBJ_FLAG_MANDATORY : Z := 1.
Definition DATAOBJ_FLAG_MINIMUM : Z := 2.
Definition DATAOBJ_FLAG_LIST : Z := 8.

(** [DATAOBJ_FLAG_MANDATORY | DATAOBJ_FLAG_MINIMUM] *)
Definition required : Z := Z.lor DATAOBJ_FLAG_MANDATORY DATAOBJ_FLAG_MINIMUM.

Inductive stk_command_parse_result :=
  | STK_PARSE_RESULT_OK
  | STK_PARSE_RESULT_TYPE_NOT_UNDERSTOOD
  | STK_PARSE_RESULT_DATA_NOT_UNDERSTOOD
  | STK_PARSE_RESULT_MISSING_VALUE.

#[export] Instance stk_command_parse_result_eq_dec : EqDecision stk_command_parse_result.
Proof. solve_decision. Defined.

(** [entry_data]: the field of the command's struct that the object is for. *)
Record dataobj_handler_entry := Entry { entry_type : Z; entry_flags : Z; entry_data : string }.

(** The fields of a command's struct that have been set. *)
Definition fields : Type := gmap string value.
Definition parsed : Type := stk_command_parse_result * fields.

Definition mandatory (e : dataobj_handler_entry) : bool := has (entry_flags e) DATAOBJ_FLAG_MANDATORY.

(** The entry that an object of type [tag] is for, and the entries behind it. *)
Fixpoint find_entry (tag : Z) (l : list dataobj_handler_entry)
    : option (dataobj_handler_entry * list dataobj_handler_entry) :=
  match l with
  | [] => None
  | e :: l => if tag =? entry_type e then Some (e, l) else if mandatory e then None else find_entry tag l
  end.

(** The result when the objects have ended and the entries [l] are left. *)
Definition parse_result (l : list dataobj_handler_entry) (parse_error : bool) : stk_command_parse_result :=
  if existsb mandatory l then STK_PARSE_RESULT_MISSING_VALUE
  else if parse_error then STK_PARSE_RESULT_DATA_NOT_UNDERSTOOD
  else STK_PARSE_RESULT_OK.

(** What a parser has done with one object: [None], it has returned false. *)
Definition parse_outcome : Type := option (option value).

Definition outcome_of (r : res (option value)) : res parse_outcome :=
  match r with Ret v => Ret (Some v) | Err => Ret None | Ub => Ub end.

(** The field after a parser. *)
Definition store (field : string) (o : parse_outcome) (obj : fields) : fields :=
  match o with Some (Some v) => <[field := v]> obj | _ => obj end.

Definition items_of (o : parse_outcome) : list stk_item :=
  match o with Some (Some (VItem item)) => [item] | _ => [] end.
Definition files_of (o : parse_outcome) : list (list Z) :=
  match o with Some (Some (VFile file)) => [file] | _ => [] end.
Definition is_empty_item (o : parse_outcome) : bool :=
  match o with Some None => true | _ => false end.

(** The ends of [parse_item_list] and of [parse_provisioning_list]. *)
Definition item_list (outcomes : list parse_outcome) : parse_outcome :=
  if negb (existsb is_empty_item outcomes) || (zlen outcomes =? 1)
  then Some (Some (VItems (flat_map items_of outcomes))) else None.

Definition provisioning_list (outcomes : list parse_outcome) : parse_outcome :=
  Some (Some (VFiles (flat_map files_of outcomes))).

Section Engine.
Context `{U : Utf8}.

(** A parser on the object of the iterator. *)
Definition on_object (h : handler) (iter : comprehension_tlv_iter) : res parse_outcome :=
  data ← comprehension_tlv_iter_get_data iter;
  outcome_of (h (comprehension_tlv_iter_get_length iter) data).

(** The loop of the list parsers: an outcome for each of the objects of type
    [tag] that follow each other, and the iterator at the last of them. *)
Fixpoint list_loop (fuel : nat) (h : handler) (tag : Z) (iter : comprehension_tlv_iter)
    : res (list parse_outcome * comprehension_tlv_iter) :=
  match fuel with
  | O => Ub
  | S fuel =>
    o ← on_object h iter;
    match comprehension_tlv_iter_next iter with
    | Ret next =>
      if comprehension_tlv_iter_get_tag next =? tag then
        '(outcomes, last) ← list_loop fuel h tag next;
        Ret (o :: outcomes, last)
      else Ret ([o], iter)
    | Err => Ret ([o], iter)
    | Ub => Ub
    end
  end.

(** Enough for the objects that are left: each takes an octet at least. *)
Definition objects_fuel (iter : comprehension_tlv_iter) : nat := S (Z.to_nat (ctlv_max iter - ctlv_pos iter)).

Definition parse_item_list (iter : comprehension_tlv_iter) : res (parse_outcome * comprehension_tlv_iter) :=
  '(outcomes, last) ← list_loop (objects_fuel iter) parse_dataobj_item STK_DATA_OBJECT_TYPE_ITEM iter;
  Ret (item_list outcomes, last).

Definition parse_provisioning_list (iter : comprehension_tlv_iter) : res (parse_outcome * comprehension_tlv_iter) :=
  '(outcomes, last) ← list_loop (objects_fuel iter) parse_dataobj_provisioning_file_reference
                        STK_DATA_OBJECT_TYPE_PROVISIONING_FILE_REF iter;
  Ret (provisioning_list outcomes, last).

Definition list_handler_for_type (type : Z)
    : option (comprehension_tlv_iter -> res (parse_outcome * comprehension_tlv_iter)) :=
  if type =? STK_DATA_OBJECT_TYPE_ITEM then Some parse_item_list
  else if type =? STK_DATA_OBJECT_TYPE_PROVISIONING_FILE_REF then Some parse_provisioning_list
  else None.

(** The handler of an entry: what it stores, and the iterator it leaves; a call
    of NULL is [Ub]. *)
Definition run_entry (e : dataobj_handler_entry) (iter : comprehension_tlv_iter)
    : res (parse_outcome * comprehension_tlv_iter) :=
  if has (entry_flags e) DATAOBJ_FLAG_LIST then
    match list_handler_for_type (entry_type e) with Some h => h iter | None => Ub end
  else
    match handler_for_type (entry_type e) with
    | Some h => o ← on_object h iter; Ret (o, iter)
    | None => Ub
    end.

(** The loop of [parse_dataobj]: [l], the entries that are left. *)
Fixpoint dataobj_loop (fuel : nat) (iter : comprehension_tlv_iter) (l : list dataobj_handler_entry)
    (parse_error : bool) (obj : fields) : res parsed :=
  match fuel with
  | O => Ub
  | S fuel =>
    match comprehension_tlv_iter_next iter with
    | Ret iter =>
      match find_entry (comprehension_tlv_iter_get_tag iter) l with
      | None => dataobj_loop fuel iter l (parse_error || comprehension_tlv_get_cr iter) obj
      | Some (e, l) =>
        '(o, iter) ← run_entry e iter;
        dataobj_loop fuel iter l (parse_error || negb (bool_decide (is_Some o))) (store (entry_data e) o obj)
      end
    | Err => Ret (parse_result l parse_error, obj)
    | Ub => Ub
    end
  end.

Definition parse_dataobj (iter : comprehension_tlv_iter) (entries : list dataobj_handler_entry) : res parsed :=
  dataobj_loop (objects_fuel iter) iter entries false ∅.
End Engine.

(** A data object, with the octets from its value on. *)
Record data_object := { obj_tag : Z; obj_cr : bool; obj_len : Z; obj_data : list Z }.

(** What the commands rely on: the object that comes next, and a run over the
    ones behind it. *)
Class DataObjects (I : Type) := {
  next_object : I -> res (data_object * I);
  parse_objects : I -> list dataobj_handler_entry -> res parsed
}.
#[export] Hint Mode DataObjects ! : typeclass_instances.

Definition iter_next_object (iter : comprehension_tlv_iter) : res (data_object * comprehension_tlv_iter) :=
  iter ← comprehension_tlv_iter_next iter;
  data ← comprehension_tlv_iter_get_data iter;
  Ret ({| obj_tag := comprehension_tlv_iter_get_tag iter; obj_cr := comprehension_tlv_get_cr iter;
          obj_len := comprehension_tlv_iter_get_length iter; obj_data := data |}, iter).

#[export] Instance iter_objects `{U : Utf8} : DataObjects comprehension_tlv_iter :=
  {| next_object := iter_next_object; parse_objects := parse_dataobj |}.

(** * The objects of each command *)

Definition display_text_objects : list dataobj_handler_entry :=
  [ Entry STK_DATA_OBJECT_TYPE_TEXT required "text";
    Entry STK_DATA_OBJECT_TYPE_ICON_ID 0 "icon_id";
    Entry STK_DATA_OBJECT_TYPE_IMMEDIATE_RESPONSE 0 "immediate_response";
    Entry STK_DATA_OBJECT_TYPE_DURATION 0 "duration";
    Entry STK_DATA_OBJECT_TYPE_TEXT_ATTRIBUTE 0 "text_attr";
    Entry STK_DATA_OBJECT_TYPE_FRAME_ID 0 "frame_id" ].

Definition get_inkey_objects : list dataobj_handler_entry :=
  [ Entry STK_DATA_OBJECT_TYPE_TEXT required "text";
    Entry STK_DATA_OBJECT_TYPE_ICON_ID 0 "icon_id";
    Entry STK_DATA_OBJECT_TYPE_DURATION 0 "duration";
    Entry STK_DATA_OBJECT_TYPE_TEXT_ATTRIBUTE 0 "text_attr";
    Entry STK_DATA_OBJECT_TYPE_FRAME_ID 0 "frame_id" ].

Definition get_input_objects : list dataobj_handler_entry :=
  [ Entry STK_DATA_OBJECT_TYPE_TEXT required "text";
    Entry STK_DATA_OBJECT_TYPE_RESPONSE_LENGTH required "resp_len";
    Entry STK_DATA_OBJECT_TYPE_DEFAULT_TEXT 0 "default_text";
    Entry STK_DATA_OBJECT_TYPE_ICON_ID 0 "icon_id";
    Entry STK_DATA_OBJECT_TYPE_TEXT_ATTRIBUTE 0 "text_attr";
    Entry STK_DATA_OBJECT_TYPE_FRAME_ID 0 "frame_id" ].

Definition play_tone_objects : list dataobj_handler_entry :=
  [ Entry STK_DATA_OBJECT_TYPE_ALPHA_ID 0 "alpha_id";
    Entry STK_DATA_OBJECT_TYPE_TONE 0 "tone";
    Entry STK_DATA_OBJECT_TYPE_DURATION 0 "duration";
    Entry STK_DATA_OBJECT_TYPE_ICON_ID 0 "icon_id";
    Entry STK_DATA_OBJECT_TYPE_TEXT_ATTRIBUTE 0 "text_attr";
    Entry STK_DATA_OBJECT_TYPE_FRAME_ID 0 "frame_id" ].

Definition poll_interval_objects : list dataobj_handler_entry :=
  [Entry STK_DATA_OBJECT_TYPE_DURATION required "duration"].

Definition setup_menu_objects : list dataobj_handler_entry :=
  [ Entry STK_DATA_OBJECT_TYPE_ALPHA_ID required "alpha_id";
    Entry STK_DATA_OBJECT_TYPE_ITEM (Z.lor required DATAOBJ_FLAG_LIST) "items";
    Entry STK_DATA_OBJECT_TYPE_ITEMS_NEXT_ACTION_INDICATOR 0 "next_act";
    Entry STK_DATA_OBJECT_TYPE_ICON_ID 0 "icon_id";
    Entry STK_DATA_OBJECT_TYPE_ITEM_ICON_ID_LIST 0 "item_icon_id_list";
    Entry STK_DATA_OBJECT_TYPE_TEXT_ATTRIBUTE 0 "text_attr";
    Entry STK_DATA_OBJECT_TYPE_ITEM_TEXT_ATTRIBUTE_LIST 0 "item_text_attr_list" ].

Definition select_item_objects : list dataobj_handler_entry :=
  [ Entry STK_DATA_OBJECT_TYPE_ALPHA_ID 0 "alpha_id";
    Entry STK_DATA_OBJECT_TYPE_ITEM (Z.lor required DATAOBJ_FLAG_LIST) "items";
    Entry STK_DATA_OBJECT_TYPE_ITEMS_NEXT_ACTION_INDICATOR 0 "next_act";
    Entry STK_DATA_OBJECT_TYPE_ITEM_ID 0 "item_id";
    Entry STK_DATA_OBJECT_TYPE_ICON_ID 0 "icon_id";
    Entry STK_DATA_OBJECT_TYPE_ITEM_ICON_ID_LIST 0 "item_icon_id_list";
    Entry STK_DATA_OBJECT_TYPE_TEXT_ATTRIBUTE 0 "text_attr";
    Entry STK_DATA_OBJECT_TYPE_ITEM_TEXT_ATTRIBUTE_LIST 0 "item_text_attr_list";
    Entry STK_DATA_OBJECT_TYPE_FRAME_ID 0 "frame_id" ].

Definition send_sms_objects : list dataobj_handler_entry :=
  [ Entry STK_DATA_OBJECT_TYPE_ALPHA_ID 0 "alpha_id";
    Entry STK_DATA_OBJECT_TYPE_ADDRESS 0 "sc_address";
    Entry STK_DATA_OBJECT_TYPE_GSM_SMS_TPDU 0 "gsm_tpdu";
    Entry STK_DATA_OBJECT_TYPE_CDMA_SMS_TPDU 0 "cdma_sms";
    Entry STK_DATA_OBJECT_TYPE_ICON_ID 0 "icon_id";
    Entry STK_DATA_OBJECT_TYPE_TEXT_ATTRIBUTE 0 "text_attr";
    Entry STK_DATA_OBJECT_TYPE_FRAME_ID 0 "frame_id" ].

Definition send_ss_objects : list dataobj_handler_entry :=
  [ Entry STK_DATA_OBJECT_TYPE_ALPHA_ID 0 "alpha_id";
    Entry STK_DATA_OBJECT_TYPE_SS_STRING required "ss";
    Entry STK_DATA_OBJECT_TYPE_ICON_ID 0 "icon_id";
    Entry STK_DATA_OBJECT_TYPE_TEXT_ATTRIBUTE 0 "text_attr";
    Entry STK_DATA_OBJECT_TYPE_FRAME_ID 0 "frame_id" ].

Definition send_ussd_objects : list dataobj_handler_entry :=
  [ Entry STK_DATA_OBJECT_TYPE_ALPHA_ID 0 "alpha_id";
    Entry STK_DATA_OBJECT_TYPE_USSD_STRING required "ussd_string";
    Entry STK_DATA_OBJECT_TYPE_ICON_ID 0 "icon_id";
    Entry STK_DATA_OBJECT_TYPE_TEXT_ATTRIBUTE 0 "text_attr";
    Entry STK_DATA_OBJECT_TYPE_FRAME_ID 0 "frame_id" ].

Definition setup_call_objects : list dataobj_handler_entry :=
  [ Entry STK_DATA_OBJECT_TYPE_ALPHA_ID 0 "alpha_id_usr_cfm";
    Entry STK_DATA_OBJECT_TYPE_ADDRESS required "addr";
    Entry STK_DATA_OBJECT_TYPE_CCP 0 "ccp";
    Entry STK_DATA_OBJECT_TYPE_SUBADDRESS 0 "subaddr";
    Entry STK_DATA_OBJECT_TYPE_DURATION 0 "duration";
    Entry STK_DATA_OBJECT_TYPE_ICON_ID 0 "icon_id_usr_cfm";
    Entry STK_DATA_OBJECT_TYPE_ALPHA_ID 0 "alpha_id_call_setup";
    Entry STK_DATA_OBJECT_TYPE_ICON_ID 0 "icon_id_call_setup";
    Entry STK_DATA_OBJECT_TYPE_TEXT_ATTRIBUTE 0 "text_attr_usr_cfm";
    Entry STK_DATA_OBJECT_TYPE_TEXT_ATTRIBUTE 0 "text_attr_call_setup";
    Entry STK_DATA_OBJECT_TYPE_FRAME_ID 0 "frame_id" ].

Definition refresh_objects : list dataobj_handler_entry :=
  [ Entry STK_DATA_OBJECT_TYPE_FILE_LIST 0 "file_list";
    Entry STK_DATA_OBJECT_TYPE_AID 0 "aid";
    Entry STK_DATA_OBJECT_TYPE_ALPHA_ID 0 "alpha_id";
    Entry STK_DATA_OBJECT_TYPE_ICON_ID 0 "icon_id";
    Entry STK_DATA_OBJECT_TYPE_TEXT_ATTRIBUTE 0 "text_attr";
    Entry STK_DATA_OBJECT_TYPE_FRAME_ID 0 "frame_id" ].

Definition setup_event_list_objects : list dataobj_handler_entry :=
  [Entry STK_DATA_OBJECT_TYPE_EVENT_LIST required "event_list"].

Definition perform_card_apdu_objects : list dataobj_handler_entry :=
  [Entry STK_DATA_OBJECT_TYPE_C_APDU required "c_apdu"].

Definition timer_mgmt_objects (qualifier : Z) : list dataobj_handler_entry :=
  [ Entry STK_DATA_OBJECT_TYPE_TIMER_ID required "timer_id";
    Entry STK_DATA_OBJECT_TYPE_TIMER_VALUE
      (if Z.land qualifier 3 =? 0 then DATAOBJ_FLAG_MANDATORY else 0) "timer_value" ].

Definition setup_idle_mode_text_objects : list dataobj_handler_entry :=
  [ Entry STK_DATA_OBJECT_TYPE_TEXT required "text";
    Entry STK_DATA_OBJECT_TYPE_ICON_ID 0 "icon_id";
    Entry STK_DATA_OBJECT_TYPE_TEXT_ATTRIBUTE 0 "text_attr";
    Entry STK_DATA_OBJECT_TYPE_FRAME_ID 0 "frame_id" ].

Definition run_at_command_objects : list dataobj_handler_entry :=
  [ Entry STK_DATA_OBJECT_TYPE_ALPHA_ID 0 "alpha_id";
    Entry STK_DATA_OBJECT_TYPE_AT_COMMAND required "at_command";
    Entry STK_DATA_OBJECT_TYPE_ICON_ID 0 "icon_id";
    Entry STK_DATA_OBJECT_TYPE_TEXT_ATTRIBUTE 0 "text_attr";
    Entry STK_DATA_OBJECT_TYPE_FRAME_ID 0 "frame_id" ].

Definition send_dtmf_objects : list dataobj_handler_entry :=
  [ Entry STK_DATA_OBJECT_TYPE_ALPHA_ID 0 "alpha_id";
    Entry STK_DATA_OBJECT_TYPE_DTMF_STRING required "dtmf";
    Entry STK_DATA_OBJECT_TYPE_ICON_ID 0 "icon_id";
    Entry STK_DATA_OBJECT_TYPE_TEXT_ATTRIBUTE 0 "text_attr";
    Entry STK_DATA_OBJECT_TYPE_FRAME_ID 0 "frame_id" ].

Definition language_notification_objects : list dataobj_handler_entry :=
  [Entry STK_DATA_OBJECT_TYPE_LANGUAGE 0 "language"].

Definition launch_browser_objects : list dataobj_handler_entry :=
  [ Entry STK_DATA_OBJECT_TYPE_BROWSER_ID 0 "browser_id";
    Entry STK_DATA_OBJECT_TYPE_URL required "url";
    Entry STK_DATA_OBJECT_TYPE_BEARER 0 "bearer";
    Entry STK_DATA_OBJECT_TYPE_PROVISIONING_FILE_REF DATAOBJ_FLAG_LIST "prov_file_refs";
    Entry STK_DATA_OBJECT_TYPE_TEXT 0 "text_gateway_proxy_id";
    Entry STK_DATA_OBJECT_TYPE_ALPHA_ID 0 "alpha_id";
    Entry STK_DATA_OBJECT_TYPE_ICON_ID 0 "icon_id";
    Entry STK_DATA_OBJECT_TYPE_TEXT_ATTRIBUTE 0 "text_attr";
    Entry STK_DATA_OBJECT_TYPE_FRAME_ID 0 "frame_id";
    Entry STK_DATA_OBJECT_TYPE_NETWORK_ACCESS_NAME 0 "network_name";
    Entry STK_DATA_OBJECT_TYPE_TEXT 0 "text_usr";
    Entry STK_DATA_OBJECT_TYPE_TEXT 0 "text_passwd" ].

Definition open_channel_objects : list dataobj_handler_entry :=
  [ Entry STK_DATA_OBJECT_TYPE_ALPHA_ID 0 "alpha_id";
    Entry STK_DATA_OBJECT_TYPE_ICON_ID 0 "icon_id";
    Entry STK_DATA_OBJECT_TYPE_BEARER_DESCRIPTION required "bearer_desc";
    Entry STK_DATA_OBJECT_TYPE_BUFFER_SIZE required "buf_size";
    Entry STK_DATA_OBJECT_TYPE_NETWORK_ACCESS_NAME 0 "apn";
    Entry STK_DATA_OBJECT_TYPE_OTHER_ADDRESS 0 "local_addr";
    Entry STK_DATA_OBJECT_TYPE_TEXT 0 "text_usr";
    Entry STK_DATA_OBJECT_TYPE_TEXT 0 "text_passwd";
    Entry STK_DATA_OBJECT_TYPE_UICC_TE_INTERFACE 0 "uti";
    Entry STK_DATA_OBJECT_TYPE_OTHER_ADDRESS 0 "data_dest_addr";
    Entry STK_DATA_OBJECT_TYPE_TEXT_ATTRIBUTE 0 "text_attr";
    Entry STK_DATA_OBJECT_TYPE_FRAME_ID 0 "frame_id" ].

Definition close_channel_objects : list dataobj_handler_entry :=
  [ Entry STK_DATA_OBJECT_TYPE_ALPHA_ID 0 "alpha_id";
    Entry STK_DATA_OBJECT_TYPE_ICON_ID 0 "icon_id";
    Entry STK_DATA_OBJECT_TYPE_TEXT_ATTRIBUTE 0 "text_attr";
    Entry STK_DATA_OBJECT_TYPE_FRAME_ID 0 "frame_id" ].

Definition receive_data_objects : list dataobj_handler_entry :=
  [ Entry STK_DATA_OBJECT_TYPE_ALPHA_ID 0 "alpha_id";
    Entry STK_DATA_OBJECT_TYPE_ICON_ID 0 "icon_id";
    Entry STK_DATA_OBJECT_TYPE_CHANNEL_DATA_LENGTH required "data_len";
    Entry STK_DATA_OBJECT_TYPE_TEXT_ATTRIBUTE 0 "text_attr";
    Entry STK_DATA_OBJECT_TYPE_FRAME_ID 0 "frame_id" ].

Definition send_data_objects : list dataobj_handler_entry :=
  [ Entry STK_DATA_OBJECT_TYPE_ALPHA_ID 0 "alpha_id";
    Entry STK_DATA_OBJECT_TYPE_ICON_ID 0 "icon_id";
    Entry STK_DATA_OBJECT_TYPE_CHANNEL_DATA required "data";
    Entry STK_DATA_OBJECT_TYPE_TEXT_ATTRIBUTE 0 "text_attr";
    Entry STK_DATA_OBJECT_TYPE_FRAME_ID 0 "frame_id" ].

Definition service_search_objects : list dataobj_handler_entry :=
  [ Entry STK_DATA_OBJECT_TYPE_ALPHA_ID 0 "alpha_id";
    Entry STK_DATA_OBJECT_TYPE_ICON_ID 0 "icon_id";
    Entry STK_DATA_OBJECT_TYPE_SERVICE_SEARCH required "serv_search";
    Entry STK_DATA_OBJECT_TYPE_DEVICE_FILTER 0 "dev_filter";
    Entry STK_DATA_OBJECT_TYPE_TEXT_ATTRIBUTE 0 "text_attr";
    Entry STK_DATA_OBJECT_TYPE_FRAME_ID 0 "frame_id" ].

Definition get_service_info_objects : list dataobj_handler_entry :=
  [ Entry STK_DATA_OBJECT_TYPE_ALPHA_ID 0 "alpha_id";
    Entry STK_DATA_OBJECT_TYPE_ICON_ID 0 "icon_id";
    Entry STK_DATA_OBJECT_TYPE_ATTRIBUTE_INFO required "attr_info";
    Entry STK_DATA_OBJECT_TYPE_TEXT_ATTRIBUTE 0 "text_attr";
    Entry STK_DATA_OBJECT_TYPE_FRAME_ID 0 "frame_id" ].

Definition declare_service_objects : list dataobj_handler_entry :=
  [ Entry STK_DATA_OBJECT_TYPE_SERVICE_RECORD required "serv_rec";
    Entry STK_DATA_OBJECT_TYPE_UICC_TE_INTERFACE 0 "intf" ].

Definition set_frames_objects : list dataobj_handler_entry :=
  [ Entry STK_DATA_OBJECT_TYPE_FRAME_ID required "frame_id";
    Entry STK_DATA_OBJECT_TYPE_FRAME_LAYOUT 0 "frame_layout";
    Entry STK_DATA_OBJECT_TYPE_FRAME_ID 0 "frame_id_default" ].

Definition retrieve_mms_objects : list dataobj_handler_entry :=
  [ Entry STK_DATA_OBJECT_TYPE_ALPHA_ID 0 "alpha_id";
    Entry STK_DATA_OBJECT_TYPE_ICON_ID 0 "icon_id";
    Entry STK_DATA_OBJECT_TYPE_MMS_REFERENCE required "mms_ref";
    Entry STK_DATA_OBJECT_TYPE_FILE_LIST required "mms_rec_files";
    Entry STK_DATA_OBJECT_TYPE_MMS_CONTENT_ID required "mms_content_id";
    Entry STK_DATA_OBJECT_TYPE_MMS_ID 0 "mms_id";
    Entry STK_DATA_OBJECT_TYPE_TEXT_ATTRIBUTE 0 "text_attr";
    Entry STK_DATA_OBJECT_TYPE_FRAME_ID 0 "frame_id" ].

Definition submit_mms_objects : list dataobj_handler_entry :=
  [ Entry STK_DATA_OBJECT_TYPE_ALPHA_ID 0 "alpha_id";
    Entry STK_DATA_OBJECT_TYPE_ICON_ID 0 "icon_id";
    Entry STK_DATA_OBJECT_TYPE_FILE_LIST required "mms_subm_files";
    Entry STK_DATA_OBJECT_TYPE_MMS_ID 0 "mms_id";
    Entry STK_DATA_OBJECT_TYPE_TEXT_ATTRIBUTE 0 "text_attr";
    Entry STK_DATA_OBJECT_TYPE_FRAME_ID 0 "frame_id" ].

Definition display_mms_objects : list dataobj_handler_entry :=
  [ Entry STK_DATA_OBJECT_TYPE_FILE_LIST required "mms_subm_files";
    Entry STK_DATA_OBJECT_TYPE_MMS_ID required "mms_id";
    Entry STK_DATA_OBJECT_TYPE_IMMEDIATE_RESPONSE 0 "imd_resp";
    Entry STK_DATA_OBJECT_TYPE_FRAME_ID 0 "frame_id" ].

Definition activate_objects : list dataobj_handler_entry :=
  [Entry STK_DATA_OBJECT_TYPE_ACTIVATE_DESCRIPTOR required "actv_desc"].

(** * The commands *)

Definition STK_QUALIFIER_TYPE_CARD_READER_STATUS : Z := 0x00.
Definition STK_QUALIFIER_TYPE_CARD_READER_ID : Z := 0x01.
Definition STK_SEND_DATA_IMMEDIATELY : Z := 0x01.

(** struct stk_command; [body], the fields of the member of its union that have
    been set. *)
Record stk_command := {
  number : Z; type : Z; qualifier : Z; src : Z; dst : Z;
  status : stk_command_parse_result; body : fields
}.

Definition with_devices (command : stk_command) (src dst : Z) : stk_command :=
  {| number := number command; type := type command; qualifier := qualifier command; src := src; dst := dst;
     status := status command; body := body command |}.
Definition with_result (command : stk_command) (result : parsed) : stk_command :=
  {| number := number command; type := type command; qualifier := qualifier command; src := src command;
     dst := dst command; status := result.1; body := result.2 |}.

Definition is_ok (status : stk_command_parse_result) : bool := bool_decide (status = STK_PARSE_RESULT_OK).

Definition not_understood : res parsed := Ret (STK_PARSE_RESULT_DATA_NOT_UNDERSTOOD, ∅).

(** The devices are looked at first. *)
Definition from_uicc (command : stk_command) (dst_ok : bool) (parse : res parsed) : res parsed :=
  if negb (src command =? STK_DEVICE_IDENTITY_TYPE_UICC) then not_understood
  else if negb dst_ok then not_understood
  else parse.

Definition is_card_reader (dst : Z) : bool :=
  (STK_DEVICE_IDENTITY_TYPE_CARD_READER_0 <=? dst) && (dst <=? STK_DEVICE_IDENTITY_TYPE_CARD_READER_7).
Definition is_channel (dst : Z) : bool :=
  (STK_DEVICE_IDENTITY_TYPE_CHANNEL_1 <=? dst) && (dst <=? STK_DEVICE_IDENTITY_TYPE_CHANNEL_7).

(** Is a text NULL or empty? *)
Definition no_text (obj : fields) (text : string) : bool :=
  match obj !! text with Some (VString (Some (_ :: _))) => false | _ => true end.

Definition icon_id (obj : fields) (icon : string) : Z :=
  match obj !! icon with Some (VIcon _ id) => id | _ => 0 end.

(** [CHECK_TEXT_AND_ICON]: an icon needs a text. *)
Definition check_text_and_icon (text icon : string) (parse : res parsed) : res parsed :=
  '(status, obj) ← parse;
  if is_ok status && no_text obj text && negb (icon_id obj icon =? 0)
  then Ret (STK_PARSE_RESULT_DATA_NOT_UNDERSTOOD, obj) else Ret (status, obj).

Definition no_items (obj : fields) : bool :=
  match obj !! "items" with Some (VItems (_ :: _)) => false | _ => true end.

(** The octets of an array with its length; none when it is not set. *)
Definition octets_of (obj : fields) (field : string) : list Z :=
  match obj !! field with Some (VOctets octets) => octets | _ => [] end.

(** [set_addr:] of [parse_send_sms]. *)
Definition set_sc_addr (obj : fields) (m : sms) : parsed :=
  match obj !! "sc_address" with
  | Some (VAddress {| ton_npi := ton_npi; addr_number := Some number |}) =>
    if 20 <? zlen number then (STK_PARSE_RESULT_DATA_NOT_UNDERSTOOD, <["gsm_sms" := VSms m]> obj)
    else
      let addr := {| number_type := Z.land (Z.shiftr ton_npi 4) 7; numbering_plan := Z.land ton_npi 15;
                     address := number |} in
      (STK_PARSE_RESULT_OK, <["gsm_sms" := VSms {| sc_addr := addr; tpdu := tpdu m |}]> obj)
  | _ => (STK_PARSE_RESULT_OK, <["gsm_sms" := VSms m]> obj)
  end.

(** The message of [parse_send_sms], when its objects are understood; the TPDU is
    in an array of 184 octets, cleared at first. *)
Definition gsm_sms_of `{U : Utf8} (command : stk_command) (obj : fields) : res parsed :=
  let tpdu_octets := octets_of obj "gsm_tpdu" in
  let len := zlen tpdu_octets in
  let cdma_len := zlen (octets_of obj "cdma_sms") in
  let array := (tpdu_octets ++ replicate (Z.to_nat (184 - len)) 0)%list in
  if (len =? 0) && (cdma_len =? 0) then Ret (STK_PARSE_RESULT_DATA_NOT_UNDERSTOOD, obj)
  else if (0 <? len) && (0 <? cdma_len) then Ret (STK_PARSE_RESULT_DATA_NOT_UNDERSTOOD, obj)
  else if 0 <? cdma_len then Ret (STK_PARSE_RESULT_OK, obj)
  else if has (qualifier command) 0x01 then
    match sms_decode_unpacked_stk_pdu array len with
    | Ret submit => Ret (set_sc_addr obj {| sc_addr := no_address; tpdu := SMS_TYPE_SUBMIT submit |})
    | Err => Ret (STK_PARSE_RESULT_DATA_NOT_UNDERSTOOD, obj)
    | Ub => Ub
    end
  else
    match sms_decode array len true len with
    | Ret m =>
      match tpdu m with
      | SMS_TYPE_SUBMIT _ | SMS_TYPE_COMMAND _ => Ret (set_sc_addr obj m)
      | _ => Ret (STK_PARSE_RESULT_DATA_NOT_UNDERSTOOD, obj)
      end
    | Err => Ret (STK_PARSE_RESULT_DATA_NOT_UNDERSTOOD, obj)
    | Ub => Ub
    end.

Section Commands.
Context `{U : Utf8} {I : Type} `{D : !DataObjects I}.

Definition parse_display_text (command : stk_command) (iter : I) : res parsed :=
  from_uicc command (dst command =? STK_DEVICE_IDENTITY_TYPE_DISPLAY)
    (check_text_and_icon "text" "icon_id" (parse_objects iter display_text_objects)).

Definition parse_get_inkey (command : stk_command) (iter : I) : res parsed :=
  from_uicc command (dst command =? STK_DEVICE_IDENTITY_TYPE_TERMINAL)
    (check_text_and_icon "text" "icon_id" (parse_objects iter get_inkey_objects)).

Definition parse_get_input (command : stk_command) (iter : I) : res parsed :=
  from_uicc command (dst command =? STK_DEVICE_IDENTITY_TYPE_TERMINAL)
    (check_text_and_icon "text" "icon_id" (parse_objects iter get_input_objects)).

Definition parse_more_time (command : stk_command) (iter : I) : res parsed :=
  from_uicc command (dst command =? STK_DEVICE_IDENTITY_TYPE_TERMINAL)
    (Ret (STK_PARSE_RESULT_OK, ∅)).

Definition parse_play_tone (command : stk_command) (iter : I) : res parsed :=
  from_uicc command (dst command =? STK_DEVICE_IDENTITY_TYPE_EARPIECE)
    (check_text_and_icon "alpha_id" "icon_id" (parse_objects iter play_tone_objects)).

Definition parse_poll_interval (command : stk_command) (iter : I) : res parsed :=
  from_uicc command (dst command =? STK_DEVICE_IDENTITY_TYPE_TERMINAL)
    (parse_objects iter poll_interval_objects).

Definition parse_setup_menu (command : stk_command) (iter : I) : res parsed :=
  from_uicc command (dst command =? STK_DEVICE_IDENTITY_TYPE_TERMINAL)
    (check_text_and_icon "alpha_id" "icon_id" (parse_objects iter setup_menu_objects)).

Definition parse_select_item (command : stk_command) (iter : I) : res parsed :=
  from_uicc command (dst command =? STK_DEVICE_IDENTITY_TYPE_TERMINAL)
    (check_text_and_icon "alpha_id" "icon_id"
      ('(status, obj) ← parse_objects iter select_item_objects;
       Ret (if is_ok status && no_items obj then STK_PARSE_RESULT_DATA_NOT_UNDERSTOOD else status, obj))).

Definition parse_send_sms (command : stk_command) (iter : I) : res parsed :=
  from_uicc command (dst command =? STK_DEVICE_IDENTITY_TYPE_NETWORK)
    ('(status, obj) ← check_text_and_icon "alpha_id" "icon_id" (parse_objects iter send_sms_objects);
     '(status, obj) ← (if is_ok status then gsm_sms_of command obj else Ret (status, obj));
     Ret (status, delete "gsm_tpdu" (delete "sc_address" obj))).

Definition parse_send_ss (command : stk_command) (iter : I) : res parsed :=
  from_uicc command (dst command =? STK_DEVICE_IDENTITY_TYPE_NETWORK)
    (parse_objects iter send_ss_objects).

Definition parse_send_ussd (command : stk_command) (iter : I) : res parsed :=
  from_uicc command (dst command =? STK_DEVICE_IDENTITY_TYPE_NETWORK)
    (parse_objects iter send_ussd_objects).

Definition parse_setup_call (command : stk_command) (iter : I) : res parsed :=
  from_uicc command (dst command =? STK_DEVICE_IDENTITY_TYPE_NETWORK)
    (check_text_and_icon "alpha_id_call_setup" "icon_id_call_setup"
      (check_text_and_icon "alpha_id_usr_cfm" "icon_id_usr_cfm" (parse_objects iter setup_call_objects))).

Definition parse_refresh (command : stk_command) (iter : I) : res parsed :=
  from_uicc command (dst command =? STK_DEVICE_IDENTITY_TYPE_TERMINAL)
    (check_text_and_icon "alpha_id" "icon_id" (parse_objects iter refresh_objects)).

Definition parse_polling_off (command : stk_command) (iter : I) : res parsed :=
  from_uicc command (dst command =? STK_DEVICE_IDENTITY_TYPE_TERMINAL)
    (Ret (STK_PARSE_RESULT_OK, ∅)).

Definition parse_provide_local_info (command : stk_command) (iter : I) : res parsed :=
  from_uicc command (dst command =? STK_DEVICE_IDENTITY_TYPE_TERMINAL)
    (Ret (STK_PARSE_RESULT_OK, ∅)).

Definition parse_setup_event_list (command : stk_command) (iter : I) : res parsed :=
  from_uicc command (dst command =? STK_DEVICE_IDENTITY_TYPE_TERMINAL)
    (parse_objects iter setup_event_list_objects).

Definition parse_perform_card_apdu (command : stk_command) (iter : I) : res parsed :=
  from_uicc command (is_card_reader (dst command))
    (parse_objects iter perform_card_apdu_objects).

Definition parse_power_off_card (command : stk_command) (iter : I) : res parsed :=
  from_uicc command (is_card_reader (dst command))
    (Ret (STK_PARSE_RESULT_OK, ∅)).

Definition parse_power_on_card (command : stk_command) (iter : I) : res parsed :=
  from_uicc command (is_card_reader (dst command))
    (Ret (STK_PARSE_RESULT_OK, ∅)).

Definition parse_get_reader_status (command : stk_command) (iter : I) : res parsed :=
  from_uicc command
    (if qualifier command =? STK_QUALIFIER_TYPE_CARD_READER_STATUS
     then dst command =? STK_DEVICE_IDENTITY_TYPE_TERMINAL
     else (qualifier command =? STK_QUALIFIER_TYPE_CARD_READER_ID) && is_card_reader (dst command))
    (Ret (STK_PARSE_RESULT_OK, ∅)).

Definition parse_timer_mgmt (command : stk_command) (iter : I) : res parsed :=
  from_uicc command (dst command =? STK_DEVICE_IDENTITY_TYPE_TERMINAL)
    (parse_objects iter (timer_mgmt_objects (qualifier command))).

Definition parse_setup_idle_mode_text (command : stk_command) (iter : I) : res parsed :=
  from_uicc command (dst command =? STK_DEVICE_IDENTITY_TYPE_TERMINAL)
    (check_text_and_icon "text" "icon_id" (parse_objects iter setup_idle_mode_text_objects)).

Definition parse_run_at_command (command : stk_command) (iter : I) : res parsed :=
  from_uicc command (dst command =? STK_DEVICE_IDENTITY_TYPE_TERMINAL)
    (check_text_and_icon "alpha_id" "icon_id" (parse_objects iter run_at_command_objects)).

Definition parse_send_dtmf (command : stk_command) (iter : I) : res parsed :=
  from_uicc command (dst command =? STK_DEVICE_IDENTITY_TYPE_NETWORK)
    (check_text_and_icon "alpha_id" "icon_id" (parse_objects iter send_dtmf_objects)).

Definition parse_language_notification (command : stk_command) (iter : I) : res parsed :=
  from_uicc command (dst command =? STK_DEVICE_IDENTITY_TYPE_TERMINAL)
    (parse_objects iter language_notification_objects).

Definition parse_launch_browser (command : stk_command) (iter : I) : res parsed :=
  if (3 <? qualifier command) || (qualifier command =? 1) then not_understood
  else from_uicc command (dst command =? STK_DEVICE_IDENTITY_TYPE_TERMINAL)
    (parse_objects iter launch_browser_objects).

Definition parse_open_channel (command : stk_command) (iter : I) : res parsed :=
  if 0x08 <=? qualifier command then not_understood
  else from_uicc command (dst command =? STK_DEVICE_IDENTITY_TYPE_TERMINAL)
    (check_text_and_icon "alpha_id" "icon_id" (parse_objects iter open_channel_objects)).

Definition parse_close_channel (command : stk_command) (iter : I) : res parsed :=
  from_uicc command (is_channel (dst command))
    (check_text_and_icon "alpha_id" "icon_id" (parse_objects iter close_channel_objects)).

Definition parse_receive_data (command : stk_command) (iter : I) : res parsed :=
  from_uicc command (is_channel (dst command))
    (check_text_and_icon "alpha_id" "icon_id" (parse_objects iter receive_data_objects)).

Definition parse_send_data (command : stk_command) (iter : I) : res parsed :=
  if STK_SEND_DATA_IMMEDIATELY <? qualifier command then not_understood
  else from_uicc command (is_channel (dst command))
    (check_text_and_icon "alpha_id" "icon_id" (parse_objects iter send_data_objects)).

Definition parse_get_channel_status (command : stk_command) (iter : I) : res parsed :=
  from_uicc command (dst command =? STK_DEVICE_IDENTITY_TYPE_TERMINAL)
    (Ret (STK_PARSE_RESULT_OK, ∅)).

Definition parse_service_search (command : stk_command) (iter : I) : res parsed :=
  from_uicc command (dst command =? STK_DEVICE_IDENTITY_TYPE_TERMINAL)
    (parse_objects iter service_search_objects).

Definition parse_get_service_info (command : stk_command) (iter : I) : res parsed :=
  from_uicc command (dst command =? STK_DEVICE_IDENTITY_TYPE_TERMINAL)
    (parse_objects iter get_service_info_objects).

Definition parse_declare_service (command : stk_command) (iter : I) : res parsed :=
  from_uicc command (dst command =? STK_DEVICE_IDENTITY_TYPE_TERMINAL)
    (parse_objects iter declare_service_objects).

Definition parse_set_frames (command : stk_command) (iter : I) : res parsed :=
  from_uicc command (dst command =? STK_DEVICE_IDENTITY_TYPE_TERMINAL)
    (parse_objects iter set_frames_objects).

Definition parse_get_frames_status (command : stk_command) (iter : I) : res parsed :=
  from_uicc command (dst command =? STK_DEVICE_IDENTITY_TYPE_TERMINAL)
    (Ret (STK_PARSE_RESULT_OK, ∅)).

Definition parse_retrieve_mms (command : stk_command) (iter : I) : res parsed :=
  from_uicc command (dst command =? STK_DEVICE_IDENTITY_TYPE_NETWORK)
    (check_text_and_icon "alpha_id" "icon_id" (parse_objects iter retrieve_mms_objects)).

Definition parse_submit_mms (command : stk_command) (iter : I) : res parsed :=
  from_uicc command (dst command =? STK_DEVICE_IDENTITY_TYPE_NETWORK)
    (check_text_and_icon "alpha_id" "icon_id" (parse_objects iter submit_mms_objects)).

Definition parse_display_mms (command : stk_command) (iter : I) : res parsed :=
  from_uicc command (dst command =? STK_DEVICE_IDENTITY_TYPE_TERMINAL)
    (parse_objects iter display_mms_objects).

Definition parse_activate (command : stk_command) (iter : I) : res parsed :=
  from_uicc command (dst command =? STK_DEVICE_IDENTITY_TYPE_TERMINAL)
    (parse_objects iter activate_objects).

(** The switch of [parse_command_body]. *)
Definition command_parsers : list (Z * (stk_command -> I -> res parsed)) :=
  [ (STK_COMMAND_TYPE_DISPLAY_TEXT, parse_display_text);
    (STK_COMMAND_TYPE_GET_INKEY, parse_get_inkey);
    (STK_COMMAND_TYPE_GET_INPUT, parse_get_input);
    (STK_COMMAND_TYPE_MORE_TIME, parse_more_time);
    (STK_COMMAND_TYPE_PLAY_TONE, parse_play_tone);
    (STK_COMMAND_TYPE_POLL_INTERVAL, parse_poll_interval);
    (STK_COMMAND_TYPE_SETUP_MENU, parse_setup_menu);
    (STK_COMMAND_TYPE_SELECT_ITEM, parse_select_item);
    (STK_COMMAND_TYPE_SEND_SMS, parse_send_sms);
    (STK_COMMAND_TYPE_SEND_SS, parse_send_ss);
    (STK_COMMAND_TYPE_SEND_USSD, parse_send_ussd);
    (STK_COMMAND_TYPE_SETUP_CALL, parse_setup_call);
    (STK_COMMAND_TYPE_REFRESH, parse_refresh);
    (STK_COMMAND_TYPE_POLLING_OFF, parse_polling_off);
    (STK_COMMAND_TYPE_PROVIDE_LOCAL_INFO, parse_provide_local_info);
    (STK_COMMAND_TYPE_SETUP_EVENT_LIST, parse_setup_event_list);
    (STK_COMMAND_TYPE_PERFORM_CARD_APDU, parse_perform_card_apdu);
    (STK_COMMAND_TYPE_POWER_OFF_CARD, parse_power_off_card);
    (STK_COMMAND_TYPE_POWER_ON_CARD, parse_power_on_card);
    (STK_COMMAND_TYPE_GET_READER_STATUS, parse_get_reader_status);
    (STK_COMMAND_TYPE_TIMER_MANAGEMENT, parse_timer_mgmt);
    (STK_COMMAND_TYPE_SETUP_IDLE_MODE_TEXT, parse_setup_idle_mode_text);
    (STK_COMMAND_TYPE_RUN_AT_COMMAND, parse_run_at_command);
    (STK_COMMAND_TYPE_SEND_DTMF, parse_send_dtmf);
    (STK_COMMAND_TYPE_LANGUAGE_NOTIFICATION, parse_language_notification);
    (STK_COMMAND_TYPE_LAUNCH_BROWSER, parse_launch_browser);
    (STK_COMMAND_TYPE_OPEN_CHANNEL, parse_open_channel);
    (STK_COMMAND_TYPE_CLOSE_CHANNEL, parse_close_channel);
    (STK_COMMAND_TYPE_RECEIVE_DATA, parse_receive_data);
    (STK_COMMAND_TYPE_SEND_DATA, parse_send_data);
    (STK_COMMAND_TYPE_GET_CHANNEL_STATUS, parse_get_channel_status);
    (STK_COMMAND_TYPE_SERVICE_SEARCH, parse_service_search);
    (STK_COMMAND_TYPE_GET_SERVICE_INFO, parse_get_service_info);
    (STK_COMMAND_TYPE_DECLARE_SERVICE, parse_declare_service);
    (STK_COMMAND_TYPE_SET_FRAMES, parse_set_frames);
    (STK_COMMAND_TYPE_GET_FRAMES_STATUS, parse_get_frames_status);
    (STK_COMMAND_TYPE_RETRIEVE_MMS, parse_retrieve_mms);
    (STK_COMMAND_TYPE_SUBMIT_MMS, parse_submit_mms);
    (STK_COMMAND_TYPE_DISPLAY_MMS, parse_display_mms);
    (STK_COMMAND_TYPE_ACTIVATE, parse_activate) ].

Definition parse_command_body (command : stk_command) (iter : I) : res parsed :=
  match list_find (fun entry => type command = entry.1) command_parsers with
  | Some (_, (_, parse)) => parse command iter
  | None => Ret (STK_PARSE_RESULT_TYPE_NOT_UNDERSTOOD, ∅)
  end.

(** The rest of [stk_command_new_from_pdu], behind the header of the message:
    [Err] for NULL. *)
Definition command_from_objects (iter : I) : res stk_command :=
  '(o, iter) ← next_object iter;
  _ ← check (obj_tag o =? STK_DATA_OBJECT_TYPE_COMMAND_DETAILS);
  _ ← check (obj_len o =? 0x03);
  number ← rd (obj_data o) 0;
  type ← rd (obj_data o) 1;
  qualifier ← rd (obj_data o) 2;
  let command := {| number := number; type := type; qualifier := qualifier; src := 0; dst := 0;
                    status := STK_PARSE_RESULT_OK; body := ∅ |} in
  match next_object iter with
  | Ret (o, iter) =>
    if negb (obj_tag o =? STK_DATA_OBJECT_TYPE_DEVICE_IDENTITIES)
    then Ret (with_result command (STK_PARSE_RESULT_MISSING_VALUE, ∅))
    else if negb (obj_len o =? 0x02)
    then Ret (with_result command (STK_PARSE_RESULT_DATA_NOT_UNDERSTOOD, ∅))
    else
      src ← rd (obj_data o) 0;
      dst ← rd (obj_data o) 1;
      let command := with_devices command src dst in
      result ← parse_command_body command iter;
      Ret (with_result command result)
  | Err => Ret (with_result command (STK_PARSE_RESULT_MISSING_VALUE, ∅))
  | Ub => Ub
  end.
End Commands.

(** An iterator that has not been used. *)
Definition no_iter : comprehension_tlv_iter :=
  {| ctlv_pdu := []; ctlv_max := 0; ctlv_pos := 0; ctlv_tag := 0; ctlv_cr := false; ctlv_len := 0;
     ctlv_data := None |}.

(** [Err] for NULL. *)
Definition stk_command_new_from_pdu `{U : Utf8} (pdu : list Z) (len : Z) : res stk_command :=
  ber ← ber_tlv_iter_next (ber_tlv_iter_init no_object pdu len);
  _ ← check (ber_tlv_iter_get_short_tag ber =? 0xD0);
  command_from_objects (ber_tlv_iter_recurse_comprehension ber no_iter).

(** * The objects of a message

    The reference for the engine: the same run over the list of the objects. *)

Local Open Scope list_scope.
Local Open Scope Z_scope.

Ltac head_of t := lazymatch t with ?f _ => head_of f | _ => t end.

Section Objects.
Context `{U : Utf8}.

Definition outcome_on (h : handler) (o : data_object) : res parse_outcome := outcome_of (h (obj_len o) (obj_data o)).

(** The outcomes for [o] and the objects of type [tag] that follow, and the
    objects behind them. *)
Fixpoint run_outcomes (h : handler) (tag : Z) (o : data_object) (os : list data_object)
    : res (list parse_outcome * list data_object) :=
  r ← outcome_on h o;
  match os with
  | o' :: os' =>
    if obj_tag o' =? tag then '(outcomes, rest) ← run_outcomes h tag o' os'; Ret (r :: outcomes, rest)
    else Ret ([r], os)
  | [] => Ret ([r], [])
  end.

(** The parser of the objects of a list, and what is made of their outcomes. *)
Definition list_parser (type : Z) : option (handler * (list parse_outcome -> parse_outcome)) :=
  if type =? STK_DATA_OBJECT_TYPE_ITEM then Some (parse_dataobj_item, item_list)
  else if type =? STK_DATA_OBJECT_TYPE_PROVISIONING_FILE_REF
  then Some (parse_dataobj_provisioning_file_reference, provisioning_list)
  else None.

Definition is_list (e : dataobj_handler_entry) : bool := has (entry_flags e) DATAOBJ_FLAG_LIST.

Definition run_object (e : dataobj_handler_entry) (o : data_object) (os : list data_object)
    : res (parse_outcome * list data_object) :=
  if is_list e then
    match list_parser (entry_type e) with
    | Some (h, make) => '(outcomes, rest) ← run_outcomes h (entry_type e) o os; Ret (make outcomes, rest)
    | None => Ub
    end
  else
    match handler_for_type (entry_type e) with
    | Some h => r ← outcome_on h o; Ret (r, os)
    | None => Ub
    end.

Fixpoint objects_loop (fuel : nat) (os : list data_object) (l : list dataobj_handler_entry)
    (parse_error : bool) (obj : fields) : res parsed :=
  match fuel with
  | O => Ub
  | S fuel =>
    match os with
    | o :: os =>
      match find_entry (obj_tag o) l with
      | None => objects_loop fuel os l (parse_error || obj_cr o) obj
      | Some (e, l) =>
        '(r, os) ← run_object e o os;
        objects_loop fuel os l (parse_error || negb (bool_decide (is_Some r))) (store (entry_data e) r obj)
      end
    | [] => Ret (parse_result l parse_error, obj)
    end
  end.

#[export] Instance list_objects : DataObjects (list data_object) := {|
  next_object os := match os with o :: os => Ret (o, os) | [] => Err end;
  parse_objects os entries := objects_loop (S (length os)) os entries false ∅
|}.

(** ** The objects that an iterator finds *)

Inductive reads : comprehension_tlv_iter -> list data_object -> Prop :=
  | reads_end it : comprehension_tlv_iter_next it = Err -> reads it []
  | reads_next it o it' os : iter_next_object it = Ret (o, it') ->
      ctlv_max it' = ctlv_max it -> ctlv_pos it < ctlv_pos it' <= ctlv_max it ->
      reads it' os -> reads it (o :: os).

Lemma reads_length it os : reads it os -> (length os < objects_fuel it)%nat.
Proof. unfold objects_fuel. induction 1; cbn [length]; lia. Qed.

Lemma iter_next_inv it o it' : iter_next_object it = Ret (o, it') ->
  comprehension_tlv_iter_next it = Ret it' /\ comprehension_tlv_iter_get_data it' = Ret (obj_data o) /\
  obj_tag o = ctlv_tag it' /\ obj_cr o = ctlv_cr it' /\ obj_len o = ctlv_len it'.
Proof.
  unfold iter_next_object. destruct (comprehension_tlv_iter_next it) as [it2| |]; simp_res; [|done..].
  destruct (comprehension_tlv_iter_get_data it2) as [data| |] eqn:Hd; simp_res; [|done..].
  intros [= <- <-]. by rewrite Hd.
Qed.

Lemma on_object_ok h it o it' : iter_next_object it = Ret (o, it') -> on_object h it' = outcome_on h o.
Proof.
  intros (_ & Hd & _ & _ & Hl)%iter_next_inv. unfold on_object, outcome_on, comprehension_tlv_iter_get_length.
  by rewrite Hd, Hl.
Qed.

(** The loop of the list parsers from the object [o], at which [it] is. *)
Lemma list_loop_ok h tag os : forall fuel it0 o it, iter_next_object it0 = Ret (o, it) -> reads it os ->
  (length os < fuel)%nat ->
  match run_outcomes h tag o os with
  | Ret (outcomes, rest) => exists last, list_loop fuel h tag it = Ret (outcomes, last) /\ reads last rest /\
                              (length rest <= length os)%nat
  | Err => False
  | Ub => list_loop fuel h tag it = Ub
  end.
Proof.
  induction os as [|o' os IH]; intros fuel it0 o it Hit Hr Hf;
    (destruct fuel as [|fuel]; cbn [length] in Hf; [lia|]); cbn [run_outcomes list_loop];
    rewrite (on_object_ok h it0 o it Hit); destruct (outcome_on h o) as [r| |] eqn:Ho; simp_res;
    try done; try (unfold outcome_on, outcome_of in Ho; by destruct (h _ _)).
  - inversion Hr as [? He|]; subst. rewrite He. exists it. split_and!; [done|done|lia].
  - inversion Hr as [|? ? it' ? Hn _ _ Hr']; subst. pose proof (iter_next_inv _ _ _ Hn) as (He & _ & Ht & _).
    rewrite He. unfold comprehension_tlv_iter_get_tag. rewrite Ht.
    destruct (ctlv_tag it' =? tag).
    + specialize (IH fuel it o' it' Hn Hr' ltac:(lia)).
      destruct (run_outcomes h tag o' os) as [[outcomes rest]| |]; simp_res; [|done|by rewrite IH].
      destruct IH as (last & -> & Hrest & Hlen). exists last. split_and!; [done|done|]. cbn [length]. lia.
    + exists it. split_and!; [done|done|cbn [length]; lia].
Qed.

Lemma run_entry_ok e it0 o it os : iter_next_object it0 = Ret (o, it) -> reads it os ->
  match run_object e o os with
  | Ret (r, rest) => exists last, run_entry e it = Ret (r, last) /\ reads last rest /\ (length rest <= length os)%nat
  | Err => False
  | Ub => run_entry e it = Ub
  end.
Proof.
  intros Hit Hr. pose proof (reads_length it os Hr) as Hf. unfold run_object, run_entry, is_list.
  destruct (has (entry_flags e) DATAOBJ_FLAG_LIST).
  - unfold list_parser, list_handler_for_type, parse_item_list, parse_provisioning_list.
    destruct (Z.eqb_spec (entry_type e) STK_DATA_OBJECT_TYPE_ITEM) as [->|_].
    + pose proof (list_loop_ok parse_dataobj_item STK_DATA_OBJECT_TYPE_ITEM os _ it0 o it Hit Hr Hf) as H.
      destruct (run_outcomes _ _ _ _) as [[outcomes rest]| |]; simp_res; [|done|by rewrite H].
      destruct H as (last & -> & H1 & H2). simp_res. by exists last.
    + destruct (Z.eqb_spec (entry_type e) STK_DATA_OBJECT_TYPE_PROVISIONING_FILE_REF) as [->|_]; [|done].
      pose proof (list_loop_ok parse_dataobj_provisioning_file_reference
        STK_DATA_OBJECT_TYPE_PROVISIONING_FILE_REF os _ it0 o it Hit Hr Hf) as H.
      destruct (run_outcomes _ _ _ _) as [[outcomes rest]| |]; simp_res; [|done|by rewrite H].
      destruct H as (last & -> & H1 & H2). simp_res. by exists last.
  - destruct (handler_for_type (entry_type e)) as [h|]; [|done]. rewrite (on_object_ok h it0 o it Hit).
    destruct (outcome_on h o) as [r| |] eqn:Ho; simp_res; [by exists it| |done].
    unfold outcome_on, outcome_of in Ho. by destruct (h _ _).
Qed.

Lemma dataobj_loop_ok fuel : forall fuel' it os l err obj, reads it os -> (length os < fuel)%nat ->
  (length os < fuel')%nat -> dataobj_loop fuel' it l err obj = objects_loop fuel os l err obj.
Proof.
  induction fuel as [|fuel IH]; intros [|fuel'] it os l err obj Hr Hf Hf'; [lia..|].
  cbn [dataobj_loop objects_loop]. inversion Hr as [? He|? o it' os' Hn Hm Hp Hr']; subst; [by rewrite He|].
  pose proof (iter_next_inv _ _ _ Hn) as (-> & _ & Ht & Hc & _). cbn [length] in *.
  unfold comprehension_tlv_iter_get_tag, comprehension_tlv_get_cr. rewrite Ht, Hc.
  destruct (find_entry (ctlv_tag it') l) as [[e l']|]; [|apply IH; [done|lia|lia]].
  pose proof (run_entry_ok e it o it' os' Hn Hr') as H.
  destruct (run_object e o os') as [[r rest]| |]; simp_res; [|done|by rewrite H].
  destruct H as (last & -> & H1 & H2). simp_res. apply IH; [done|lia|lia].
Qed.

Lemma parse_dataobj_ok it os l : reads it os -> parse_dataobj it l = parse_objects os l.
Proof.
  intros Hr. change (parse_objects os l) with (objects_loop (S (length os)) os l false ∅). unfold parse_dataobj.
  apply dataobj_loop_ok; [exact Hr|lia|]. exact (reads_length it os Hr).
Qed.

Lemma find_related {A B} (R : A -> B -> Prop) (t : Z) (l1 : list (Z * A)) (l2 : list (Z * B)) :
  Forall2 (fun p q => p.1 = q.1 /\ R p.2 q.2) l1 l2 ->
  match list_find (fun e => t = e.1) l1, list_find (fun e => t = e.1) l2 with
  | Some (_, (_, a)), Some (_, (_, b)) => R a b
  | None, None => True
  | _, _ => False
  end.
Proof.
  induction 1 as [|[k a] [k' b] l1 l2 [Hk HR] H IH]; [done|]. cbn [fst snd] in *. subst k'. cbn [list_find fst].
  destruct (decide (t = k)); [done|].
  destruct (list_find _ l1) as [[i [k1 a1]]|], (list_find _ l2) as [[j [k2 b2]]|]; done.
Qed.

(** A command depends on nothing but what the interface promises. *)
Lemma parse_command_body_ok command it os : reads it os ->
  parse_command_body command it = parse_command_body command os.
Proof.
  intros Hr. assert (Hp : forall l, parse_objects it l = parse_objects os l)
    by (intros l; exact (parse_dataobj_ok it os l Hr)).
  assert (Hall : Forall2 (fun p q => p.1 = q.1 /\ p.2 command it = q.2 command os)
            (command_parsers (I := comprehension_tlv_iter)) (command_parsers (I := list data_object))).
  { unfold command_parsers. repeat (apply Forall2_cons; split; [split; [reflexivity|]; cbn [snd]|]).
    all: try (apply Forall2_nil; exact I).
    all: lazymatch goal with |- ?lhs = _ => let h := head_of lhs in unfold h end; rewrite ?Hp; reflexivity. }
  apply (find_related (fun p q => p command it = q command os) (type command)) in Hall.
  unfold parse_command_body.
  destruct (list_find _ command_parsers) as [[i [k p]]|]; destruct (list_find _ command_parsers) as [[j [k' q]]|]; done.
Qed.

Lemma command_from_objects_ok it os : reads it os -> command_from_objects it = command_from_objects os.
Proof.
  intros Hr. unfold command_from_objects. cbn [next_object iter_objects list_objects].
  inversion Hr as [? He|? o it1 os1 Hn _ _ Hr1]; subst; [unfold iter_next_object; by rewrite He|].
  rewrite Hn. simp_res. do 5 (apply bind_ext; intros ?).
  inversion Hr1 as [? He|? o2 it2 os2 Hn2 _ _ Hr2]; subst; [unfold iter_next_object; by rewrite He|].
  rewrite Hn2. destruct (negb _); [done|]. destruct (negb _); [done|]. do 2 (apply bind_ext; intros ?).
  by rewrite (parse_command_body_ok _ it2 os2 Hr2).
Qed.

(** The objects up to the first one that is malformed. *)
Fixpoint objects_of (fuel : nat) (it : comprehension_tlv_iter) : list data_object :=
  match fuel with
  | O => []
  | S fuel => match iter_next_object it with Ret (o, it) => o :: objects_of fuel it | _ => [] end
  end.

(** The data objects of a message; [Err] when it is not a proactive command. *)
Definition message_objects (pdu : list Z) (len : Z) : res (list data_object) :=
  ber ← ber_tlv_iter_next (ber_tlv_iter_init no_object pdu len);
  _ ← check (ber_tlv_iter_get_short_tag ber =? 0xD0);
  let it := ber_tlv_iter_recurse_comprehension ber no_iter in
  Ret (objects_of (objects_fuel it) it).

Lemma objects_read fuel : forall it l, ctlv_before it l -> (Z.to_nat (ctlv_max it - ctlv_pos it) < fuel)%nat ->
  reads it (objects_of fuel it).
Proof.
  induction fuel as [|fuel IH]; intros it l Hat Hf; [lia|]. cbn [objects_of].
  destruct (ctlv_next_sound it l Hat) as [He|(tag & cr & value & octets & rest & -> & Hobj)].
  { unfold iter_next_object. rewrite He. by apply reads_end. }
  pose proof (ctlv_next_complete it tag cr value octets rest Hat Hobj) as He.
  set (it' := ctlv_at _ _ _ _ _ _) in *.
  assert (Hn : iter_next_object it = Ret ({| obj_tag := tag; obj_cr := cr; obj_len := zlen value;
    obj_data := drop (Z.to_nat (ctlv_pos it + zlen octets - zlen value)) (ctlv_pdu it) |}, it'))
    by (unfold iter_next_object; rewrite He; reflexivity).
  rewrite Hn. pose proof Hat as [_ _ _ Hend]. rewrite zlen_app in Hend.
  assert (Hpos : 0 < zlen octets).
  { destruct Hobj as (t & f & _ & Hlf & ->). pose proof (length_field_pos _ _ _ _ Hlf). zl. }
  pose proof (zlen_nonneg rest).
  apply (reads_next it _ it'); [done|done|unfold it'; cbn [ctlv_at ctlv_pos]; lia|].
  apply (IH it' rest); [by apply at_object_step in Hat|]. unfold it'. cbn [ctlv_at ctlv_pos ctlv_max]. lia.
Qed.

(** The data objects in a BER object. *)
Lemma recurse_before it skipped class encoding tag value octets rest :
  ber_before it (skipped ++ octets ++ rest) -> ber_object class encoding tag value octets ->
  ctlv_before (ber_tlv_iter_recurse_comprehension
    (ber_at it (ber_pos it + zlen skipped + zlen octets) class encoding tag (zlen value)) no_iter) value.
Proof.
  intros Hat (t & f & _ & _ & ->). pose proof Hat as [Hb [Hm1 Hm2] Hpos Hend].
  unfold ber_tlv_iter_recurse_comprehension, ber_tlv_iter_get_data, ctlv_before.
  cbn [ber_at ber_data ber_pdu ber_len comprehension_tlv_iter_init ctlv_pdu ctlv_max ctlv_pos].
  rewrite <- !app_assoc in Hpos. apply at_pos_app, at_pos_app, at_pos_app in Hpos.
  replace (ber_pos it + zlen skipped + zlen (t ++ f ++ value) - zlen value)
    with (ber_pos it + zlen skipped + zlen t + zlen f) by (rewrite !zlen_app; lia).
  destruct Hpos as [Hr Hd]. rewrite !zlen_app in Hend. pose proof (zlen_nonneg rest). zlen_pos.
  rewrite Hd. split.
  - rewrite <- Hd. by apply Forall_drop.
  - zl.
  - rewrite drop_zlen_app by done. apply at_pos_0.
  - lia.
Qed.

Lemma ctlv_all_reads it os : reads it os -> forall fuel cs, ctlv_all fuel it = Ret cs ->
  map (fun o => (obj_tag o, obj_cr o, take (Z.to_nat (obj_len o)) (obj_data o))) os = cs.
Proof.
  induction 1 as [it He|it o it' os Hn _ _ _ IH]; intros [|fuel] cs; cbn [ctlv_all]; [done| |done|].
  - rewrite He. by intros [= <-].
  - destruct (iter_next_inv _ _ _ Hn) as (-> & -> & Ht & Hc & Hl). simp_res.
    destruct (slice (obj_data o) 0 (ctlv_len it')) as [d| |] eqn:Hd; simp_res; [|done..].
    destruct (ctlv_all fuel it') as [cs'| |] eqn:Hall; simp_res; [|done..]. intros [= <-].
    apply slice_Ret in Hd as (_ & _ & _ & ->). cbn [map]. rewrite (IH fuel cs' Hall), Ht, Hc, Hl.
    by rewrite drop_0.
Qed.

Lemma message_reads pdu len ber : bytes pdu -> 0 <= len <= zlen pdu -> len < 2 ^ 32 ->
  ber_tlv_iter_next (ber_tlv_iter_init no_object pdu len) = Ret ber ->
  let it := ber_tlv_iter_recurse_comprehension ber no_iter in reads it (objects_of (objects_fuel it) it).
Proof.
  intros Hb Hl Hm Hn it. pose proof (ber_init_before no_object pdu len Hb Hl Hm) as Hat.
  destruct (ber_next_sound _ _ Hat) as [He|(sk & cl & en & n & v & o & rest & Heq & Hs & Hobj)]; [congruence|].
  rewrite Heq in Hat. rewrite (ber_next_complete _ _ _ _ _ _ _ _ Hat Hs Hobj) in Hn. injection Hn as <-.
  apply (objects_read _ it v); [|unfold objects_fuel; lia]. exact (recurse_before _ _ _ _ _ _ _ _ Hat Hobj).
Qed.

(** * Composition of a command *)

(** The types of the entries that the card must send. *)
Definition mandatory_types (l : list dataobj_handler_entry) : list Z := map entry_type (filter (fun e => mandatory e) l).

(** No entry in front of a mandatory one takes objects meant for it. *)
Fixpoint table_ok (l : list dataobj_handler_entry) : bool :=
  match l with
  | [] => true
  | e :: l =>
    ((mandatory e && negb (is_list e)) || negb (bool_decide (entry_type e ∈ mandatory_types l))) && table_ok l
  end.

Lemma mandatory_types_cons e l :
  mandatory_types (e :: l) = if mandatory e then entry_type e :: mandatory_types l else mandatory_types l.
Proof. unfold mandatory_types. rewrite filter_cons. by destruct (mandatory e). Qed.

Lemma sublist_skip_head (t : Z) M T : head M <> Some t -> M `sublist_of` t :: T <-> M `sublist_of` T.
Proof.
  intros Hh. split; [|by apply sublist_cons]. intros Hs. inversion Hs; subst; [by cbn in Hh|done].
Qed.

Lemma find_entry_none tag l : find_entry tag l = None -> head (mandatory_types l) <> Some tag.
Proof.
  induction l as [|e l IH]; cbn [find_entry]; [done|]. rewrite mandatory_types_cons.
  destruct (Z.eqb_spec tag (entry_type e)); [done|]. destruct (mandatory e); [by intros _ [= ?]|exact IH].
Qed.

Lemma find_entry_some tag l e l' : find_entry tag l = Some (e, l') ->
  exists l1, l = l1 ++ e :: l' /\ entry_type e = tag /\ Forall (fun e => mandatory e = false /\ entry_type e <> tag) l1.
Proof.
  induction l as [|e1 l IH]; cbn [find_entry]; [done|]. destruct (Z.eqb_spec tag (entry_type e1)) as [->|Hne].
  - intros [= <- <-]. by exists [].
  - destruct (mandatory e1) eqn:Hm; [done|]. intros (l1 & -> & Ht & Hl)%IH. exists (e1 :: l1).
    split_and!; [done|done|]. by apply Forall_cons.
Qed.

Lemma mandatory_types_skip l1 l : Forall (fun e => mandatory e = false) l1 ->
  mandatory_types (l1 ++ l) = mandatory_types l.
Proof. induction 1 as [|e1 l1 H1 _ IH]; [done|]. cbn [app]. by rewrite mandatory_types_cons, IH, H1. Qed.

Lemma table_ok_app l1 l2 : table_ok (l1 ++ l2) = true -> table_ok l2 = true.
Proof. induction l1 as [|e l1 IH]; [done|]. cbn [app table_ok]. by intros [_ H]%andb_true_iff; apply IH. Qed.

(** The objects that a list takes are of its type, and all of them that follow. *)
Lemma run_outcomes_rest h tag : forall os o outcomes rest, run_outcomes h tag o os = Ret (outcomes, rest) ->
  exists taken, os = taken ++ rest /\ Forall (fun o => obj_tag o = tag) taken /\
    (forall o' rest', rest = o' :: rest' -> obj_tag o' <> tag) /\ length outcomes = S (length taken).
Proof.
  induction os as [|o' os IH]; intros o outcomes rest; cbn [run_outcomes];
    destruct (outcome_on h o); simp_res; try done.
  - intros [= <- <-]. by exists [].
  - destruct (Z.eqb_spec (obj_tag o') tag) as [Ht|Ht].
    + destruct (run_outcomes h tag o' os) as [[rs rest']| |] eqn:Hr; simp_res; [|done..]. intros [= <- <-].
      destruct (IH o' rs rest' Hr) as (taken & -> & Hall & Hrest & Hlen). exists (o' :: taken).
      split_and!; [done|by apply Forall_cons|done|cbn [length]; by rewrite Hlen].
    + intros [= <- <-]. exists []. split_and!; [done|by apply Forall_nil| |done]. intros o2 r2 [= <- <-]. done.
Qed.

Lemma run_object_rest e o os r rest : run_object e o os = Ret (r, rest) ->
  exists taken, os = taken ++ rest /\ Forall (fun o => is_list e = true /\ obj_tag o = entry_type e) taken.
Proof.
  unfold run_object. destruct (is_list e).
  - destruct (list_parser (entry_type e)) as [[h make]|]; [|done].
    destruct (run_outcomes h (entry_type e) o os) as [[rs rest']| |] eqn:Hr; simp_res; [|done..]. intros [= <- <-].
    destruct (run_outcomes_rest _ _ _ _ _ _ Hr) as (taken & -> & Hall & _). exists taken. split; [done|].
    eapply Forall_impl; [exact Hall|done].
  - destruct (handler_for_type (entry_type e)) as [h|]; [|done].
    destruct (outcome_on h o); simp_res; [|done..]. intros [= <- <-]. by exists [].
Qed.

Lemma sublist_skip_all (M : list Z) T1 T2 : Forall (fun t => t ∉ M) T1 -> M `sublist_of` T1 ++ T2 <-> M `sublist_of` T2.
Proof.
  induction 1 as [|t T1 Ht _ IH]; [done|]. cbn [app]. rewrite sublist_skip_head; [exact IH|].
  intros Hh. apply Ht. destruct M; cbn in Hh; [done|]. simplify_eq. by apply list_elem_of_here.
Qed.

(** The mandatory objects are there, in their order. *)
Definition complete (l : list dataobj_handler_entry) (os : list data_object) : Prop :=
  mandatory_types l `sublist_of` map obj_tag os.

Lemma parse_result_missing l err :
  parse_result l err = STK_PARSE_RESULT_MISSING_VALUE <-> mandatory_types l <> [].
Proof.
  unfold parse_result. enough (existsb mandatory l = true <-> mandatory_types l <> []) as H.
  { destruct (existsb mandatory l), err; intuition congruence. }
  induction l as [|e l IH]; [done|]. cbn [existsb]. rewrite mandatory_types_cons. by destruct (mandatory e).
Qed.

Lemma objects_loop_missing fuel : forall os l err obj st obj', table_ok l = true ->
  objects_loop fuel os l err obj = Ret (st, obj') ->
  st = STK_PARSE_RESULT_MISSING_VALUE <-> ~ complete l os.
Proof.
  unfold complete. induction fuel as [|fuel IH]; intros os l err obj st obj' Hok; [done|]. cbn [objects_loop].
  destruct os as [|o os].
  { intros [= <- <-]. rewrite parse_result_missing. cbn [map]. split.
    - intros Hne Hs. apply Hne. by apply sublist_nil_r in Hs.
    - intros Hs E. apply Hs. rewrite E. apply sublist_nil_l. }
  cbn [map]. destruct (find_entry (obj_tag o) l) as [[e l']|] eqn:Hf.
  2:{ intros Hrun. rewrite (IH _ _ _ _ _ _ Hok Hrun). by rewrite (sublist_skip_head _ _ _ (find_entry_none _ _ Hf)). }
  destruct (find_entry_some _ _ _ _ Hf) as (l1 & -> & Ht & Hl1). apply table_ok_app in Hok.
  rewrite mandatory_types_skip by (eapply Forall_impl; [exact Hl1|]; by intros ? []).
  destruct (run_object e o os) as [[r rest]| |] eqn:Hr; simp_res; [|done..]. intros Hrun.
  cbn [table_ok] in Hok. apply andb_true_iff in Hok as [He Hok]. rewrite (IH _ _ _ _ _ _ Hok Hrun).
  destruct (run_object_rest _ _ _ _ _ Hr) as (taken & -> & Htaken). rewrite map_app, <- Ht, mandatory_types_cons.
  assert (Hskip : is_list e = true -> entry_type e ∉ mandatory_types l').
  { intros Hli. rewrite Hli, andb_false_r in He. cbn [orb] in He. by apply negb_true_iff, bool_decide_eq_false in He. }
  assert (Htk : mandatory_types l' `sublist_of` map obj_tag taken ++ map obj_tag rest <->
                mandatory_types l' `sublist_of` map obj_tag rest).
  { apply sublist_skip_all. apply Forall_map. eapply Forall_impl; [exact Htaken|]. intros x [Hli Hx]. cbn.
    rewrite Hx. by apply Hskip. }
  destruct (mandatory e) eqn:Hm.
  - rewrite <- Htk. split; intros Hn Hs; apply Hn.
    + inversion Hs; subst; [done|]. etrans; [by apply sublist_cons|done].
    + by constructor.
  - cbn [andb orb] in He. apply negb_true_iff, bool_decide_eq_false in He. rewrite <- Htk.
    rewrite sublist_skip_head; [done|]. intros Hh. apply He. destruct (mandatory_types l'); cbn in Hh; [done|].
    simplify_eq. by apply list_elem_of_here.
Qed.

(** The objects that a command of type [type] is made of. *)
Definition command_objects (type qualifier : Z) : list dataobj_handler_entry :=
  match list_find (fun entry => type = entry.1)
    [ (STK_COMMAND_TYPE_DISPLAY_TEXT, display_text_objects);
      (STK_COMMAND_TYPE_GET_INKEY, get_inkey_objects);
      (STK_COMMAND_TYPE_GET_INPUT, get_input_objects);
      (STK_COMMAND_TYPE_PLAY_TONE, play_tone_objects);
      (STK_COMMAND_TYPE_POLL_INTERVAL, poll_interval_objects);
      (STK_COMMAND_TYPE_SETUP_MENU, setup_menu_objects);
      (STK_COMMAND_TYPE_SELECT_ITEM, select_item_objects);
      (STK_COMMAND_TYPE_SEND_SMS, send_sms_objects);
      (STK_COMMAND_TYPE_SEND_SS, send_ss_objects);
      (STK_COMMAND_TYPE_SEND_USSD, send_ussd_objects);
      (STK_COMMAND_TYPE_SETUP_CALL, setup_call_objects);
      (STK_COMMAND_TYPE_REFRESH, refresh_objects);
      (STK_COMMAND_TYPE_SETUP_EVENT_LIST, setup_event_list_objects);
      (STK_COMMAND_TYPE_PERFORM_CARD_APDU, perform_card_apdu_objects);
      (STK_COMMAND_TYPE_TIMER_MANAGEMENT, timer_mgmt_objects qualifier);
      (STK_COMMAND_TYPE_SETUP_IDLE_MODE_TEXT, setup_idle_mode_text_objects);
      (STK_COMMAND_TYPE_RUN_AT_COMMAND, run_at_command_objects);
      (STK_COMMAND_TYPE_SEND_DTMF, send_dtmf_objects);
      (STK_COMMAND_TYPE_LANGUAGE_NOTIFICATION, language_notification_objects);
      (STK_COMMAND_TYPE_LAUNCH_BROWSER, launch_browser_objects);
      (STK_COMMAND_TYPE_OPEN_CHANNEL, open_channel_objects);
      (STK_COMMAND_TYPE_CLOSE_CHANNEL, close_channel_objects);
      (STK_COMMAND_TYPE_RECEIVE_DATA, receive_data_objects);
      (STK_COMMAND_TYPE_SEND_DATA, send_data_objects);
      (STK_COMMAND_TYPE_SERVICE_SEARCH, service_search_objects);
      (STK_COMMAND_TYPE_GET_SERVICE_INFO, get_service_info_objects);
      (STK_COMMAND_TYPE_DECLARE_SERVICE, declare_service_objects);
      (STK_COMMAND_TYPE_SET_FRAMES, set_frames_objects);
      (STK_COMMAND_TYPE_RETRIEVE_MMS, retrieve_mms_objects);
      (STK_COMMAND_TYPE_SUBMIT_MMS, submit_mms_objects);
      (STK_COMMAND_TYPE_DISPLAY_MMS, display_mms_objects);
      (STK_COMMAND_TYPE_ACTIVATE, activate_objects) ] with
  | Some (_, (_, l)) => l
  | None => []
  end.

(** ** Missing values *)

(** What the result of [m] says of the mandatory objects of the table [l]. *)
Definition tells (l : list dataobj_handler_entry) (os : list data_object) (m : res parsed) : Prop :=
  forall st obj, m = Ret (st, obj) ->
    (st = STK_PARSE_RESULT_MISSING_VALUE -> ~ complete l os) /\ (~ complete l os -> st <> STK_PARSE_RESULT_OK).

Lemma tells_objects l os : table_ok l = true -> tells l os (parse_objects os l).
Proof.
  intros Hok st obj Hrun. pose proof (objects_loop_missing _ _ _ _ _ _ _ Hok Hrun) as Hm.
  split; [tauto|]. intros Hc%Hm. by rewrite Hc.
Qed.

Lemma tells_nothing os : tells [] os (Ret (STK_PARSE_RESULT_OK, ∅)).
Proof. intros st obj [= <- <-]. split; [done|]. intros Hc. exfalso. apply Hc. apply sublist_nil_l. Qed.

Lemma tells_refused l os : tells l os not_understood.
Proof. by intros st obj [= <- <-]. Qed.

Lemma tells_from_uicc l os command ok m : tells l os m -> tells l os (from_uicc command ok m).
Proof.
  intros Hm. unfold from_uicc. destruct (negb _); [apply tells_refused|].
  destruct (negb _); [apply tells_refused|done].
Qed.

(** A check that only turns OK into DATA_NOT_UNDERSTOOD. *)
Lemma tells_check l os m (k : stk_command_parse_result -> fields -> res parsed) : tells l os m ->
  (forall st obj st' obj', k st obj = Ret (st', obj') ->
     st' = st \/ (st = STK_PARSE_RESULT_OK /\ st' = STK_PARSE_RESULT_DATA_NOT_UNDERSTOOD)) ->
  tells l os (m ≫= fun '(st, obj) => k st obj).
Proof.
  intros Hm Hk st' obj'. destruct m as [[st obj]| |]; simp_res; [|done..]. intros Hrun.
  destruct (Hm st obj eq_refl) as [H1 H2]. destruct (Hk _ _ _ _ Hrun) as [->|[-> ->]]; [by split|done].
Qed.

Lemma tells_text_and_icon l os text icon m : tells l os m -> tells l os (check_text_and_icon text icon m).
Proof.
  intros Hm. apply tells_check; [done|]. intros st obj st' obj'. unfold is_ok.
  destruct (bool_decide_reflect (st = STK_PARSE_RESULT_OK)) as [->|]; cbn [andb]; [|intros [= <- <-]; by left].
  destruct (_ && _); intros [= <- <-]; [by right|by left].
Qed.

Lemma set_sc_addr_result obj m : (set_sc_addr obj m).1 = STK_PARSE_RESULT_OK \/
  (set_sc_addr obj m).1 = STK_PARSE_RESULT_DATA_NOT_UNDERSTOOD.
Proof. unfold set_sc_addr. repeat case_match; auto. Qed.

Lemma gsm_sms_result command obj st obj' : gsm_sms_of command obj = Ret (st, obj') ->
  st = STK_PARSE_RESULT_OK \/ st = STK_PARSE_RESULT_DATA_NOT_UNDERSTOOD.
Proof.
  assert (Hp : forall p : parsed, p.1 = STK_PARSE_RESULT_OK \/ p.1 = STK_PARSE_RESULT_DATA_NOT_UNDERSTOOD ->
    Ret p = Ret (st, obj') -> st = STK_PARSE_RESULT_OK \/ st = STK_PARSE_RESULT_DATA_NOT_UNDERSTOOD)
    by (intros p H [= ->]; exact H).
  unfold gsm_sms_of. repeat case_match; try discriminate; apply Hp; auto using set_sc_addr_result.
Qed.

Lemma tells_every_command :
  Forall (fun e => forall command os, tells (command_objects e.1 (qualifier command)) os (e.2 command os))
    command_parsers.
Proof.
  unfold command_parsers. repeat (apply Forall_cons; split; [intros command os; cbn [fst snd]|]); [..|by apply Forall_nil].
  all: lazymatch goal with |- tells _ _ ?m => let h := head_of m in unfold h end.
  all: try (destruct (_ || _); [apply tells_refused|]); try (destruct (_ <=? _); [apply tells_refused|]);
    try (destruct (_ <? _); [apply tells_refused|]).
  all: apply tells_from_uicc; repeat apply tells_text_and_icon; try apply tells_nothing;
    try (apply tells_objects; reflexivity).
  - apply tells_check; [by apply tells_objects|]. intros st obj st' obj'. unfold is_ok.
    destruct (bool_decide_reflect (st = STK_PARSE_RESULT_OK)) as [->|]; cbn [andb]; [|intros [= <- <-]; by left].
    destruct (no_items obj); intros [= <- <-]; [by right|by left].
  - apply tells_check; [by apply tells_text_and_icon, tells_objects|]. intros st obj st' obj'. unfold is_ok.
    destruct (bool_decide_reflect (st = STK_PARSE_RESULT_OK)) as [->|]; [|intros [= <- <-]; by left].
    destruct (gsm_sms_of command obj) as [[st2 obj2]| |] eqn:Hg; simp_res; [|done..]. intros [= <- <-].
    destruct (gsm_sms_result _ _ _ _ Hg) as [->| ->]; [by left|by right].
  - apply tells_objects. unfold timer_mgmt_objects. by destruct (_ =? 0).
Qed.

Lemma tells_command command os :
  tells (command_objects (type command) (qualifier command)) os (parse_command_body command os).
Proof.
  unfold parse_command_body. destruct (list_find _ command_parsers) as [[i [k parse]]|] eqn:Hf.
  - apply list_find_Some in Hf as (Hi & -> & _). pose proof (Forall_lookup_1 _ _ _ _ tells_every_command Hi) as H.
    exact (H command os).
  - intros st obj [= <- <-]. done.
Qed.

(** ** Commands that are understood *)

(** The entries that an object passes over: none of its type, none that may not
    be passed over. *)
Definition passed (tag : Z) (l : list dataobj_handler_entry) : Prop :=
  Forall (fun e => mandatory e = false /\ entry_type e <> tag) l.

(** No entry that an object could reach is of its type. *)
Definition unexpected (tag : Z) (l : list dataobj_handler_entry) : Prop :=
  forall l1 e l2, l = l1 ++ e :: l2 -> passed tag l1 -> entry_type e <> tag.

(** The objects [os] are arranged as the table [l] has them: in the order of the
    entries, all the mandatory ones there, their values accepted, unexpected
    objects without the comprehension flag; [obj], what has been stored before,
    [obj'] behind them. *)
Inductive arranged : list dataobj_handler_entry -> list data_object -> fields -> fields -> Prop :=
  | arranged_end l obj : mandatory_types l = [] -> arranged l [] obj obj
  | arranged_object l1 e l2 o os h v obj obj' :
      passed (obj_tag o) l1 -> entry_type e = obj_tag o -> is_list e = false ->
      handler_for_type (entry_type e) = Some h -> h (obj_len o) (obj_data o) = Ret v ->
      arranged l2 os (store (entry_data e) (Some v) obj) obj' ->
      arranged (l1 ++ e :: l2) (o :: os) obj obj'
  | arranged_list l1 e l2 o taken os h make outcomes v obj obj' :
      passed (obj_tag o) l1 -> entry_type e = obj_tag o -> is_list e = true ->
      list_parser (entry_type e) = Some (h, make) ->
      Forall (fun o => obj_tag o = entry_type e) taken ->
      (forall o' os', os = o' :: os' -> obj_tag o' <> entry_type e) ->
      collect (outcome_on h) (o :: taken) = Ret outcomes -> make outcomes = Some v ->
      arranged l2 os (store (entry_data e) (Some v) obj) obj' ->
      arranged (l1 ++ e :: l2) (o :: taken ++ os) obj obj'
  | arranged_unexpected l o os obj obj' :
      unexpected (obj_tag o) l -> obj_cr o = false -> arranged l os obj obj' -> arranged l (o :: os) obj obj'.

Lemma find_entry_passed tag l1 e l2 : passed tag l1 -> entry_type e = tag ->
  find_entry tag (l1 ++ e :: l2) = Some (e, l2).
Proof.
  intros Hp Ht. induction Hp as [|e1 l1 [Hm Hne] _ IH]; cbn [app find_entry]; [by rewrite Ht, Z.eqb_refl|].
  by rewrite (proj2 (Z.eqb_neq _ _)), Hm by congruence.
Qed.

Lemma find_entry_unexpected tag l : find_entry tag l = None <-> unexpected tag l.
Proof.
  split.
  - intros Hf l1 e l2 -> Hp Ht. by rewrite (find_entry_passed tag l1 e l2 Hp Ht) in Hf.
  - intros Hu. destruct (find_entry tag l) as [[e l2]|] eqn:Hf; [|done].
    destruct (find_entry_some _ _ _ _ Hf) as (l1 & -> & Ht & Hp). exfalso. by apply (Hu l1 e l2 eq_refl Hp).
Qed.

Lemma objects_loop_error fuel : forall os l obj st obj',
  objects_loop fuel os l true obj = Ret (st, obj') -> st <> STK_PARSE_RESULT_OK.
Proof.
  induction fuel as [|fuel IH]; intros os l obj st obj'; [done|]. cbn [objects_loop]. destruct os as [|o os].
  - intros [= <- <-]. unfold parse_result. by destruct (existsb _ _).
  - destruct (find_entry _ _) as [[e l']|]; [|exact (IH os l obj st obj')].
    destruct (run_object e o os) as [[r rest]| |]; simp_res; [|done..]. exact (IH rest l' _ st obj').
Qed.

Lemma run_outcomes_collect h tag : forall os o, 
  (forall o' os', os = o' :: os' -> obj_tag o' <> tag) -> forall taken, Forall (fun o => obj_tag o = tag) taken ->
  run_outcomes h tag o (taken ++ os) = (outcomes ← collect (outcome_on h) (o :: taken); Ret (outcomes, os)).
Proof.
  intros os o Hos taken Ht. revert o. induction Ht as [|o2 taken Ho2 _ IH]; intros o.
  - destruct os as [|o' os]; cbn [app run_outcomes collect]; destruct (outcome_on h o) as [r| |]; simp_res; try done.
    by rewrite (proj2 (Z.eqb_neq _ _)) by by apply (Hos o' os).
  - cbn [app run_outcomes]. change (collect (outcome_on h) (o :: o2 :: taken)) with
      (b ← outcome_on h o; bs ← collect (outcome_on h) (o2 :: taken); Ret (b :: bs)).
    destruct (outcome_on h o) as [r| |]; simp_res; [|done..]. rewrite Ho2, Z.eqb_refl, IH.
    destruct (collect (outcome_on h) (o2 :: taken)); done.
Qed.

Lemma is_Some_true {A} (r : option A) : negb (bool_decide (is_Some r)) = false -> exists a, r = Some a.
Proof. destruct r; [by eexists|done]. Qed.

Lemma objects_loop_arranged fuel : forall os l obj obj',
  objects_loop fuel os l false obj = Ret (STK_PARSE_RESULT_OK, obj') -> arranged l os obj obj'.
Proof.
  induction fuel as [|fuel IH]; intros os l obj obj'; [done|]. cbn [objects_loop]. destruct os as [|o os].
  { intros [= Hst <-]. apply arranged_end. destruct (decide (mandatory_types l = [])) as [|Hm]; [done|].
    by rewrite (proj2 (parse_result_missing l false) Hm) in Hst. }
  destruct (find_entry (obj_tag o) l) as [[e l2]|] eqn:Hf.
  2:{ cbn [orb]. destruct (obj_cr o) eqn:Hcr; [by intros ?%objects_loop_error|].
      intros Hrun. apply arranged_unexpected; [by apply find_entry_unexpected|done|by apply IH]. }
  destruct (find_entry_some _ _ _ _ Hf) as (l1 & -> & Ht & Hp).
  destruct (run_object e o os) as [[r rest]| |] eqn:Hr; simp_res; [|done..]. cbn [orb].
  destruct (negb (bool_decide (is_Some r))) eqn:Hn; [by intros ?%objects_loop_error|].
  apply is_Some_true in Hn as [v ->]. intros Hrun%IH. unfold run_object in Hr.
  destruct (is_list e) eqn:Hli.
  - destruct (list_parser (entry_type e)) as [[h make]|] eqn:Hlp; [|done].
    destruct (run_outcomes h (entry_type e) o os) as [[rs rest']| |] eqn:Hro; simp_res; [|done..].
    injection Hr as Hmake ->. destruct (run_outcomes_rest _ _ _ _ _ _ Hro) as (taken & -> & Hall & Hrest & _).
    rewrite (run_outcomes_collect _ _ _ _ Hrest _ Hall) in Hro.
    destruct (collect (outcome_on h) (o :: taken)) as [rs'| |] eqn:Hc; simp_res; [|done..]. injection Hro as ->.
    by eapply arranged_list.
  - destruct (handler_for_type (entry_type e)) as [h|] eqn:Hh; [|done]. unfold outcome_on in Hr.
    destruct (h (obj_len o) (obj_data o)) as [v'| |] eqn:Hv; cbn [outcome_of] in Hr; simp_res; [|done..].
    injection Hr as -> ->. by eapply arranged_object.
Qed.

Lemma arranged_objects_loop l os obj obj' : arranged l os obj obj' -> forall fuel, (length os < fuel)%nat ->
  objects_loop fuel os l false obj = Ret (STK_PARSE_RESULT_OK, obj').
Proof.
  induction 1 as [l obj Hm|l1 e l2 o os h v obj obj' Hp Ht Hli Hh Hv _ IH
    |l1 e l2 o taken os h make rs v obj obj' Hp Ht Hli Hlp Htk Hos Hc Hmake _ IH|l o os obj obj' Hu Hcr _ IH];
    intros [|fuel] Hf; cbn [length] in Hf; try lia; cbn [objects_loop].
  - assert (Hne : parse_result l false <> STK_PARSE_RESULT_MISSING_VALUE) by (rewrite parse_result_missing; intros Hn; by apply Hn).
    unfold parse_result in *. by destruct (existsb mandatory l).
  - rewrite (find_entry_passed _ _ _ _ Hp Ht). unfold run_object, outcome_on. rewrite Hli, Hh, Hv.
    cbn [outcome_of]. simp_res. apply IH. lia.
  - rewrite (find_entry_passed _ _ _ _ Hp Ht). unfold run_object. rewrite Hli, Hlp.
    rewrite (run_outcomes_collect _ _ _ _ Hos _ Htk), Hc. simp_res. rewrite Hmake. apply IH.
    rewrite length_app in Hf. lia.
  - rewrite (proj2 (find_entry_unexpected _ _) Hu), Hcr. cbn [orb]. apply IH. lia.
Qed.

(** ** What is stored *)

(** Each field that the run sets is the value of an object of the field's type. *)
Definition from_object (l : list dataobj_handler_entry) (os : list data_object) (obj : fields)
    (field : string) (v : value) : Prop :=
  obj !! field = Some v \/
  exists e o, e ∈ l /\ o ∈ os /\ entry_data e = field /\ obj_tag o = entry_type e /\
    (is_list e = false -> exists h, handler_for_type (entry_type e) = Some h /\
                                    h (obj_len o) (obj_data o) = Ret (Some v)).

Lemma objects_loop_fields fuel : forall os l err obj st obj',
  objects_loop fuel os l err obj = Ret (st, obj') ->
  forall field v, obj' !! field = Some v -> from_object l os obj field v.
Proof.
  induction fuel as [|fuel IH]; intros os l err obj st obj'; [done|]. cbn [objects_loop]. destruct os as [|o os].
  { intros [= _ <-] field v Hv. by left. }
  destruct (find_entry (obj_tag o) l) as [[e l2]|] eqn:Hf.
  2:{ intros Hrun field v Hv. destruct (IH _ _ _ _ _ _ Hrun field v Hv) as [|(e & o' & He & Ho & H)]; [by left|].
      right. exists e, o'. split_and!; [done|by apply list_elem_of_further|apply H..]. }
  destruct (find_entry_some _ _ _ _ Hf) as (l1 & -> & Ht & Hp).
  destruct (run_object e o os) as [[r rest]| |] eqn:Hr; simp_res; [|done..]. intros Hrun field v Hv.
  destruct (run_object_rest _ _ _ _ _ Hr) as (taken & -> & _).
  destruct (IH _ _ _ _ _ _ Hrun field v Hv) as [Hs|(e' & o' & He & Ho & H)].
  - destruct r as [[v'|]|]; cbn [store] in Hs; [unfold fields in *|by left..]. destruct (decide (field = entry_data e)) as [->|Hne].
    2:{ rewrite lookup_insert_ne in Hs by done. by left. }
    rewrite lookup_insert_eq in Hs. injection Hs as ->. right. exists e, o.
    split_and!; [set_solver|by apply list_elem_of_here|done|done|]. intros Hli. unfold run_object in Hr.
    rewrite Hli in Hr. destruct (handler_for_type (entry_type e)) as [h|]; [|done]. exists h. split; [done|].
    unfold outcome_on in Hr. destruct (h (obj_len o) (obj_data o)) as [v2| |]; cbn [outcome_of] in Hr; simp_res; [|done..].
    by injection Hr as -> _.
  - right. exists e', o'. split_and!; [set_solver|set_solver|apply H..].
Qed.

(** ** Safety *)

(** A value that lies in the message. *)
Record formed (o : data_object) : Prop := {
  formed_bytes : bytes (obj_data o);
  formed_len : 0 <= obj_len o <= zlen (obj_data o)
}.

Definition is_Ub {A} (m : res A) : bool := match m with Ub => true | _ => false end.

(** A TPDU of which the decoders of short messages read or store too much. *)
Definition unsafe_tpdu (o : data_object) : bool :=
  let octets := take (Z.to_nat (obj_len o)) (obj_data o) in
  let array := octets ++ replicate (Z.to_nat (184 - obj_len o)) 0 in
  (obj_tag o =? STK_DATA_OBJECT_TYPE_GSM_SMS_TPDU) &&
  (is_Ub (sms_decode_unpacked_stk_pdu array (obj_len o)) || is_Ub (sms_decode array (obj_len o) true (obj_len o))).

Definition unsafe_object (o : data_object) : bool :=
  unsafe_value (obj_tag o) (obj_len o) (obj_data o) || unsafe_tpdu o.

(** An entry has its parser. *)
Definition entry_known (e : dataobj_handler_entry) : bool :=
  if is_list e then bool_decide (is_Some (list_parser (entry_type e)))
  else bool_decide (is_Some (handler_for_type (entry_type e))).

Lemma safe_is_Ub {A} (m : res A) : is_Ub m = false -> safe m.
Proof. by destruct m. Qed.
End Objects.

Section Safety.
Context `{L : Utf8Laws}.

Lemma handler_for_type_safe type h : handler_for_type type = Some h -> parser_safe type h.
Proof.
  unfold handler_for_type. destruct (list_find _ handlers) as [[i [k h']]|] eqn:Hf; [|done].
  intros [= <-]. apply list_find_Some in Hf as (Hi & Hk & _). cbn [fst] in Hk. subst k.
  exact (Forall_lookup_1 _ _ _ _ handlers_safe Hi).
Qed.

Definition good (o : data_object) : Prop := formed o /\ unsafe_object o = false.

Lemma good_value o : good o -> unsafe_value (obj_tag o) (obj_len o) (obj_data o) = false.
Proof. intros [_ H]. unfold unsafe_object in H. by apply orb_false_iff in H as [H _]. Qed.

Lemma outcome_safe h o : good o -> parser_safe (obj_tag o) h -> exists r, outcome_on h o = Ret r.
Proof.
  intros Hg Hs. pose proof (good_value o Hg) as Hu. destruct Hg as [[Hb Hl] _].
  specialize (Hs (obj_len o) (obj_data o) Hb Hl Hu). unfold outcome_on.
  destruct (h (obj_len o) (obj_data o)); [by eexists|by eexists|done].
Qed.

Lemma run_outcomes_safe h tag : parser_safe tag h -> forall os o, obj_tag o = tag -> good o -> Forall good os ->
  exists outcomes rest, run_outcomes h tag o os = Ret (outcomes, rest).
Proof.
  intros Hs. induction os as [|o' os IH]; intros o Ht Hg Hos; cbn [run_outcomes];
    (destruct (outcome_safe h o Hg) as [r ->]; [by rewrite Ht|]); simp_res; [by eexists _, _|].
  apply Forall_cons in Hos as [Hg' Hos]. destruct (Z.eqb_spec (obj_tag o') tag) as [Ht'|]; [|by eexists _, _].
  destruct (IH o' Ht' Hg' Hos) as (outcomes & rest & ->). simp_res. by eexists _, _.
Qed.

Lemma run_object_safe e o os : entry_known e = true -> entry_type e = obj_tag o -> good o -> Forall good os ->
  exists r rest, run_object e o os = Ret (r, rest).
Proof.
  intros Hk Ht Hg Hos. unfold run_object, entry_known in *. destruct (is_list e).
  - apply bool_decide_eq_true in Hk as [[h make] Hlp]. rewrite Hlp.
    assert (Hs : parser_safe (entry_type e) h).
    { unfold list_parser in Hlp. destruct (Z.eqb_spec (entry_type e) STK_DATA_OBJECT_TYPE_ITEM) as [->|_].
      - injection Hlp as <- _. exact item_safe.
      - destruct (Z.eqb_spec (entry_type e) STK_DATA_OBJECT_TYPE_PROVISIONING_FILE_REF) as [->|_]; [|done].
        injection Hlp as <- _. exact provisioning_safe. }
    destruct (run_outcomes_safe h (entry_type e) Hs os o (eq_sym Ht) Hg Hos) as (outcomes & rest & ->).
    by eexists _, _.
  - apply bool_decide_eq_true in Hk as [h Hh]. rewrite Hh.
    destruct (outcome_safe h o Hg) as [r ->]; [|by eexists _, _]. rewrite <- Ht. by apply handler_for_type_safe.
Qed.

Lemma objects_loop_safe fuel : forall os l err obj, Forall good os -> Forall (fun e => entry_known e = true) l ->
  (length os < fuel)%nat -> exists p, objects_loop fuel os l err obj = Ret p.
Proof.
  induction fuel as [|fuel IH]; intros os l err obj Hos Hl Hf; [lia|]. cbn [objects_loop].
  destruct os as [|o os]; [by eexists|]. apply Forall_cons in Hos as [Ho Hos]. cbn [length] in Hf.
  destruct (find_entry (obj_tag o) l) as [[e l2]|] eqn:He; [|apply IH; [done|done|lia]].
  destruct (find_entry_some _ _ _ _ He) as (l1 & -> & Ht & _). apply Forall_app in Hl as [_ [Hk Hl2]%Forall_cons].
  destruct (run_object_safe e o os Hk Ht Ho Hos) as (r & rest & Hr). rewrite Hr. simp_res.
  destruct (run_object_rest _ _ _ _ _ Hr) as (taken & -> & _). apply Forall_app in Hos as [_ Hrest].
  apply IH; [done|done|]. rewrite length_app in Hf. lia.
Qed.

Lemma parse_objects_safe os l : Forall good os -> forallb entry_known l = true -> safe (parse_objects os l).
Proof.
  intros Hos Hl. destruct (objects_loop_safe (S (length os)) os l false ∅ Hos) as [p Hp]; [|lia|].
  - apply Forall_forall. intros e He. rewrite forallb_forall in Hl. by apply Hl, list_elem_of_In.
  - change (parse_objects os l) with (objects_loop (S (length os)) os l false ∅). by rewrite Hp.
Qed.

Lemma safe_from_uicc command ok m : safe m -> safe (from_uicc command ok m).
Proof. intros Hm. unfold from_uicc. destruct (negb _); [done|]. by destruct (negb _). Qed.

Lemma safe_text_and_icon text icon m : safe m -> safe (check_text_and_icon text icon m).
Proof. intros Hm. apply safe_bind; [done|]. intros [st obj] _. by destruct (_ && _). Qed.

(** The TPDU of SEND SHORT MESSAGE is the value of an object. *)
Lemma tpdu_from_object os st obj : parse_objects os send_sms_objects = Ret (st, obj) -> Forall good os ->
  octets_of obj "gsm_tpdu" = [] \/
  exists o, good o /\ obj_tag o = STK_DATA_OBJECT_TYPE_GSM_SMS_TPDU /\
    octets_of obj "gsm_tpdu" = take (Z.to_nat (obj_len o)) (obj_data o).
Proof.
  intros Hrun Hos. unfold octets_of. unfold fields in *. destruct (obj !! "gsm_tpdu"%string) as [v|] eqn:Hv; [|by left].
  destruct (objects_loop_fields _ _ _ _ _ _ _ Hrun _ _ Hv) as [Hs|(e & o & He & Ho & Hd & Ht & Hh)]; [done|].
  assert (Hg : good o) by (by eapply Forall_forall in Hos).
  assert (Hee : e = Entry STK_DATA_OBJECT_TYPE_GSM_SMS_TPDU 0 "gsm_tpdu").
  { unfold send_sms_objects in He. set_unfold in He. naive_solver. }
  subst e. destruct (Hh eq_refl) as (h & Hfor & Hrunh). injection Hfor as <-. cbn [entry_type] in Ht.
  unfold parse_dataobj_gsm_sms_tpdu, parse_array in Hrunh. pose proof (formed_len o (proj1 Hg)) as Hl.
  destruct ((1 <=? obj_len o) && (obj_len o <=? 184)) eqn:Hc; simp_res; [|done]. bool_to_prop.
  rewrite copy_ok in Hrunh by lia. simp_res. injection Hrunh as <-. right. by exists o.
Qed.

Lemma gsm_sms_safe command os st obj : parse_objects os send_sms_objects = Ret (st, obj) -> Forall good os ->
  safe (gsm_sms_of command obj).
Proof.
  intros Hrun Hos. unfold gsm_sms_of. destruct (tpdu_from_object os st obj Hrun Hos) as [->|(o & Hg & Ht & ->)].
  - change (zlen []) with 0. cbn [Z.eqb andb]. destruct (zlen (octets_of obj "cdma_sms") =? 0) eqn:Hc; [done|].
    bool_to_prop. zlen_pos. cbn [Z.ltb Z.compare andb]. by rewrite (proj2 (Z.ltb_lt _ _)) by lia.
  - destruct (_ && _); [done|]. destruct (_ && _); [done|]. destruct (_ <? _); [done|].
    destruct Hg as [[Hb Hl] Hu]. unfold unsafe_object in Hu. apply orb_false_iff in Hu as [_ Hu].
    unfold unsafe_tpdu in Hu. rewrite Ht, Z.eqb_refl in Hu. cbn [andb] in Hu. apply orb_false_iff in Hu as [H1 H2].
    replace (zlen (take (Z.to_nat (obj_len o)) (obj_data o))) with (obj_len o) by (rewrite zlen_take; lia).
    apply safe_is_Ub in H1, H2. destruct (has _ _).
    + destruct (sms_decode_unpacked_stk_pdu _ _); done.
    + destruct (sms_decode _ _ _ _) as [m| |]; [|done..]. by destruct (tpdu m).
Qed.

Lemma every_command_safe :
  Forall (fun e => forall command os, Forall good os -> safe (e.2 command os)) command_parsers.
Proof.
  unfold command_parsers. repeat (apply Forall_cons; split; [intros command os Hos; cbn [snd]|]); [..|by apply Forall_nil].
  all: lazymatch goal with |- safe ?m => let h := head_of m in unfold h end.
  all: try (destruct (_ || _); [done|]); try (destruct (_ <=? _); [done|]); try (destruct (_ <? _); [done|]).
  all: apply safe_from_uicc; repeat apply safe_text_and_icon; try exact (safe_Ret _);
    try (apply parse_objects_safe; [exact Hos|reflexivity]).
  - apply safe_bind; [by apply parse_objects_safe|]. by intros [st obj] _.
  - apply safe_bind; [by apply safe_text_and_icon, parse_objects_safe|]. intros [st obj] Hrun.
    apply safe_bind; [|by intros [? ?] _]. destruct (is_ok st); [|done].
    unfold check_text_and_icon in Hrun.
    destruct (parse_objects os send_sms_objects) as [[st1 obj1]| |] eqn:Hp; simp_res; [|done..].
    assert (obj = obj1) as -> by (destruct (_ && _) in Hrun; by injection Hrun). by eapply gsm_sms_safe.
  - apply parse_objects_safe; [done|]. unfold timer_mgmt_objects. by destruct (_ =? 0).
Qed.

Lemma command_from_objects_safe os : Forall good os -> safe (command_from_objects os).
Proof.
  intros Hos. unfold command_from_objects. cbn [next_object list_objects]. destruct os as [|o os]; [done|]. simp_res.
  apply Forall_cons in Hos as [[[Hb Hl] _] Hos]. parser_step. parser_step.
  destruct (rd_byte (obj_data o) 0 Hb ltac:(lia)) as (number & -> & _).
  destruct (rd_byte (obj_data o) 1 Hb ltac:(lia)) as (type & -> & _).
  destruct (rd_byte (obj_data o) 2 Hb ltac:(lia)) as (qualifier & -> & _). simp_res.
  destruct os as [|o2 os]; [done|]. parser_step; [done|].
  apply Forall_cons in Hos as [[[Hb2 Hl2] _] Hos].
  destruct (Z.eqb_spec (obj_len o2) 2); cbn [negb]; [|done].
  destruct (rd_byte (obj_data o2) 0 Hb2 ltac:(lia)) as (src & -> & _).
  destruct (rd_byte (obj_data o2) 1 Hb2 ltac:(lia)) as (dst & -> & _). simp_res.
  apply safe_bind; [|done]. unfold parse_command_body.
  destruct (list_find _ command_parsers) as [[i [k parse]]|] eqn:Hf; [|done].
  apply list_find_Some in Hf as (Hi & _). exact (Forall_lookup_1 _ _ _ _ every_command_safe Hi _ os Hos).
Qed.

Lemma objects_formed fuel : forall it l, ctlv_before it l -> (Z.to_nat (ctlv_max it - ctlv_pos it) < fuel)%nat ->
  Forall formed (objects_of fuel it).
Proof.
  induction fuel as [|fuel IH]; intros it l Hat Hf; [lia|]. cbn [objects_of].
  destruct (ctlv_next_sound it l Hat) as [He|(tag & cr & value & octets & rest & -> & Hobj)].
  { unfold iter_next_object. rewrite He. by apply Forall_nil. }
  pose proof (ctlv_next_complete it tag cr value octets rest Hat Hobj) as He.
  unfold iter_next_object. rewrite He. simp_res.
  unfold comprehension_tlv_iter_get_data, comprehension_tlv_iter_get_length.
  cbn [ctlv_at ctlv_pdu ctlv_data ctlv_len ctlv_pos ctlv_tag ctlv_cr]. simp_res.
  pose proof Hat as [Hb Hm Hpos Hend]. rewrite zlen_app in Hend.
  assert (Hv : zlen value <= zlen octets /\ 0 < zlen octets).
  { destruct Hobj as (t & f & _ & Hlf & ->). pose proof (length_field_pos _ _ _ _ Hlf). split; zl. }
  pose proof (zlen_nonneg rest). pose proof (zlen_nonneg value). destruct Hpos as [Hp0 _].
  apply Forall_cons. split.
  - split; cbn [obj_data obj_len]; [by apply Forall_drop|]. rewrite zlen_drop. lia.
  - apply (IH _ rest); [by apply at_object_step in Hat|]. cbn [ctlv_at ctlv_pos ctlv_max]. lia.
Qed.

Lemma message_objects_formed pdu len os : bytes pdu -> 0 <= len <= zlen pdu -> len < 2 ^ 32 ->
  message_objects pdu len = Ret os -> Forall formed os.
Proof.
  intros Hb Hl Hm. unfold message_objects. pose proof (ber_init_before no_object pdu len Hb Hl Hm) as Hat.
  destruct (ber_next_sound _ _ Hat) as [->|(sk & cl & en & n & v & o & rest & Heq & Hs & Hobj)]; [done|].
  rewrite Heq in Hat. rewrite (ber_next_complete _ _ _ _ _ _ _ _ Hat Hs Hobj), bind_Ret. set (it := ber_at _ _ _ _ _ _).
  destruct (ber_tlv_iter_get_short_tag it =? 0xD0); cbn [check]; [rewrite bind_Ret|done]. intros <-%Ret_inj.
  apply (objects_formed _ _ v); [exact (recurse_before _ _ _ _ _ _ _ _ Hat Hobj)|unfold objects_fuel; lia].
Qed.

Lemma command_objects_equal pdu len : bytes pdu -> 0 <= len <= zlen pdu -> len < 2 ^ 32 ->
  stk_command_new_from_pdu pdu len = (os ← message_objects pdu len; command_from_objects os).
Proof.
  intros Hb Hl Hm. unfold stk_command_new_from_pdu, message_objects.
  destruct (ber_tlv_iter_next (ber_tlv_iter_init no_object pdu len)) as [ber| |] eqn:Hn; simp_res; [|done..].
  destruct (_ =? _); simp_res; [|done]. apply command_from_objects_ok. exact (message_reads pdu len ber Hb Hl Hm Hn).
Qed.

(** * Correctness *)

(** C31: [stk_command_new_from_pdu] depends only on the data objects of the
    message: on any octets it gives the command that the run over the list of
    those objects gives, or NULL when the message is not a proactive command; and
    the objects of a message that is made of the objects [os] are [os]. *)
Theorem command_refines pdu len : bytes pdu -> 0 <= len <= zlen pdu -> len < 2 ^ 32 ->
  stk_command_new_from_pdu pdu len = (os ← message_objects pdu len; command_from_objects os) /\
  forall os, Forall ctlv_ok os -> zlen (ctlvs os) <= 504 -> pdu = message_octets 0xD0 os -> len = zlen pdu ->
    exists objects, message_objects pdu len = Ret objects /\
      map (fun o => (obj_tag o, obj_cr o, take (Z.to_nat (obj_len o)) (obj_data o))) objects = os.
Proof.
  intros Hb Hl Hm. split; [by apply command_objects_equal|]. intros os Hos Hz Hp ->. subst pdu.
  destruct (message_read 0xD0 os no_iter ltac:(lia) Hos Hz) as (ber & Hn & Ht & Hall).
  pose proof (message_reads _ _ ber Hb Hl Hm Hn) as Hr. unfold message_objects. rewrite Hn, bind_Ret, Ht.
  cbn [Z.eqb Pos.eqb check]. rewrite bind_Ret. eexists. split; [reflexivity|]. exact (ctlv_all_reads _ _ Hr _ _ Hall).
Qed.

(** C32: the objects of a command are understood, all of them, exactly when they
    are arranged as its table has them, and what the command is given then are
    the values of the objects, each in the field of its entry. *)
Theorem objects_understood it os l obj : reads it os ->
  parse_dataobj it l = Ret (STK_PARSE_RESULT_OK, obj) <-> arranged l os ∅ obj.
Proof.
  intros Hr. rewrite (parse_dataobj_ok it os l Hr).
  change (parse_objects os l) with (objects_loop (S (length os)) os l false ∅).
  split; [exact (objects_loop_arranged _ os l ∅ obj)|].
  intros Ha. exact (arranged_objects_loop _ _ _ _ Ha _ (Nat.lt_succ_diag_r _)).
Qed.

(** C33: of every command, the result is MISSING_VALUE only if not all of its
    mandatory objects are there in their order, and is not OK if they are not. *)
Theorem command_missing command it os st obj : reads it os ->
  parse_command_body command it = Ret (st, obj) ->
  (st = STK_PARSE_RESULT_MISSING_VALUE -> ~ complete (command_objects (type command) (qualifier command)) os) /\
  (~ complete (command_objects (type command) (qualifier command)) os -> st <> STK_PARSE_RESULT_OK).
Proof. intros Hr Hrun. rewrite (parse_command_body_ok command it os Hr) in Hrun. exact (tells_command command os st obj Hrun). Qed.

(** C34: on any octets [stk_command_new_from_pdu] ends, reads nothing outside of
    the message and stores nothing outside of the command, unless an object is one
    that [unsafe_object] names: a layout of frames or an MMS reference longer than
    its array, text with an octet above 0x7f behind an escape, an IPv6 address of
    four octets at the end, or a TPDU that the decoders of short messages do not
    get over. *)
Theorem command_safe pdu len : bytes pdu -> 0 <= len <= zlen pdu -> len < 2 ^ 32 ->
  (forall os, message_objects pdu len = Ret os -> Forall (fun o => unsafe_object o = false) os) ->
  safe (stk_command_new_from_pdu pdu len).
Proof.
  intros Hb Hl Hm Hu. rewrite command_objects_equal by done.
  destruct (message_objects pdu len) as [os| |] eqn:Hos; simp_res; [|done|].
  - apply command_from_objects_safe. pose proof (message_objects_formed pdu len os Hb Hl Hm Hos) as Hf.
    apply Forall_and. split; [done|by apply Hu].
  - exfalso. revert Hos. unfold message_objects. pose proof (ber_init_before no_object pdu len Hb Hl Hm) as Hat.
    destruct (ber_next_sound _ _ Hat) as [->|(sk & cl & en & n & v & o & rest & Heq & Hs & Hobj)]; [done|].
    rewrite Heq in Hat. rewrite (ber_next_complete _ _ _ _ _ _ _ _ Hat Hs Hobj), bind_Ret.
    by destruct (_ =? _).
Qed.
End Safety.

(** * Concrete runs *)

(** DISPLAY TEXT of "Hi", in clear 8 bit text, with an object that is unknown. *)
Definition display_hi : list Z :=
  [ 0xD0; 0x13; 0x81; 0x03; 0x01; 0x21; 0x80; 0x82; 0x02; 0x81; 0x02;
    0x8D; 0x03; 0x04; 0x48; 0x69; 0x5E; 0x00; 0x2B; 0x00; 0xff ].

Definition display_hi_objects : list data_object :=
  [ {| obj_tag := 0x01; obj_cr := true; obj_len := 3; obj_data := drop 4 display_hi |};
    {| obj_tag := 0x02; obj_cr := true; obj_len := 2; obj_data := drop 9 display_hi |};
    {| obj_tag := 0x0D; obj_cr := true; obj_len := 3; obj_data := drop 13 display_hi |};
    {| obj_tag := 0x5E; obj_cr := false; obj_len := 0; obj_data := drop 18 display_hi |};
    {| obj_tag := 0x2B; obj_cr := false; obj_len := 0; obj_data := drop 20 display_hi |} ].

Lemma display_hi_bytes : bytes display_hi /\ 0 <= 21 <= zlen display_hi /\ 21 < 2 ^ 32.
Proof. split; [apply (bool_decide_unpack _); by vm_compute|]. change (zlen display_hi) with 21. lia. Qed.


(** The text of a command that is understood, and the answer is due at once. *)
Definition shows (text : list Z) (r : res parsed) : bool :=
  match r with
  | Ret (st, obj) => is_ok st && match obj !! "text"%string with
                                 | Some (VString (Some s)) => bool_decide (s = text)
                                 | _ => false
                                 end && match obj !! "immediate_response"%string with
                                        | Some (VBool set) => set
                                        | _ => false
                                        end
  | _ => false
  end.

Lemma command_refines_witness :
  shows [0x48; 0x69] (c ← stk_command_new_from_pdu display_hi 21; Ret (status c, body c)) = true.
Proof.
  destruct display_hi_bytes as (Hb & Hl & Hm).
  destruct (command_refines display_hi 21 Hb Hl Hm) as [-> _]. vm_compute. reflexivity.
Defined.

(** The objects of DISPLAY TEXT are arranged as its table has them. *)
Lemma objects_understood_witness : exists obj,
  arranged display_text_objects (drop 2 display_hi_objects) ∅ obj /\
  shows [0x48; 0x69] (Ret (STK_PARSE_RESULT_OK, obj)) = true.
Proof.
  set (it := comprehension_tlv_iter_init no_iter (drop 11 display_hi) 10).
  assert (Hr : reads it (drop 2 display_hi_objects)).
  { repeat (eapply reads_next; [reflexivity|reflexivity|split; [reflexivity|discriminate]|]). by apply reads_end. }
  assert (Hs : shows [0x48; 0x69] (parse_dataobj it display_text_objects) = true) by (vm_compute; reflexivity).
  destruct (parse_dataobj it display_text_objects) as [[st obj]| |] eqn:E; [|discriminate Hs|discriminate Hs].
  assert (st = STK_PARSE_RESULT_OK) as -> by (destruct st; [reflexivity|discriminate Hs..]).
  exists obj. split; [|exact Hs]. exact (proj1 (objects_understood it _ display_text_objects obj Hr) E).
Defined.

(** The same without the text. *)
Definition display_nothing : stk_command :=
  {| number := 1; type := 0x21; qualifier := 0x80; src := 0x81; dst := 0x02;
     status := STK_PARSE_RESULT_OK; body := ∅ |}.

Lemma command_missing_witness : ~ complete (command_objects 0x21 0x80) (drop 3 display_hi_objects).
Proof.
  assert (Hr : reads (comprehension_tlv_iter_init no_iter (drop 16 display_hi) 5) (drop 3 display_hi_objects)).
  { repeat (eapply reads_next; [reflexivity|reflexivity|split; [reflexivity|discriminate]|]). by apply reads_end. }
  apply (proj1 (command_missing display_nothing _ _ STK_PARSE_RESULT_MISSING_VALUE ∅ Hr
    ltac:(vm_compute; reflexivity)) eq_refl).
Defined.

Lemma command_safe_witness : safe (stk_command_new_from_pdu display_hi 21).
Proof.
  destruct display_hi_bytes as (Hb & Hl & Hm). apply (command_safe display_hi 21 Hb Hl Hm).
  intros os Hos. assert (os = display_hi_objects) as -> by (symmetry; apply Ret_inj; rewrite <- Hos; vm_compute; reflexivity).
  repeat (apply Forall_cons; split; [reflexivity|]). by apply Forall_nil.
Defined.
