(* ===== verification/RingBuffer.v ===== *)
(** The ring buffer of src/gatchat/ringbuffer.c, through which all octets from
    and to a modem pass: a power of two of octets and two free running 32 bit
    counters.  It is shown to be a queue of bounded length. *)
From S2P Require Import Prelude.

Definition MAX_SIZE : Z := 262144.

(** The octets of a new buffer are undefined; zeros stand for them. *)
Record ring_buffer := {
  rb_buffer : list Z; rb_size : Z; rb_mask : Z; rb_in : Z; rb_out : Z
}.

(** [while (real_size < size && real_size < MAX_SIZE)] *)
Fixpoint grow (fuel : nat) (real_size size : Z) : Z :=
  match fuel with
  | O => real_size
  | S fuel =>
      if (real_size <? size) && (real_size <? MAX_SIZE) then grow fuel (u32 (Z.shiftl real_size 1)) size
      else real_size
  end.

Definition ring_buffer_new (size : Z) : res ring_buffer :=
  let real_size := grow 32 1 size in
  if MAX_SIZE <? real_size then Err
  else Ret {| rb_buffer := replicate (Z.to_nat real_size) 0; rb_size := real_size;
              rb_mask := real_size - 1; rb_in := 0; rb_out := 0 |}.

(** [buf->size - buf->in + buf->out] *)
Definition room (buf : ring_buffer) : Z := u32 (rb_size buf - rb_in buf + rb_out buf).

Definition set_counters (buf : ring_buffer) (buffer : list Z) (in_ out : Z) : ring_buffer :=
  {| rb_buffer := buffer; rb_size := rb_size buf; rb_mask := rb_mask buf; rb_in := in_; rb_out := out |}.

(** The number of octets taken. *)
Definition ring_buffer_write (buf : ring_buffer) (data : list Z) (len : Z) : res (ring_buffer * Z) :=
  let len := Z.min len (room buf) in
  let offset := Z.land (rb_in buf) (rb_mask buf) in
  let end_ := Z.min len (rb_size buf - offset) in
  d ← slice data 0 end_;
  buffer ← blit (rb_buffer buf) offset d;
  d ← slice data end_ (len - end_);
  buffer ← blit buffer 0 d;
  Ret (set_counters buf buffer (u32 (rb_in buf + len)) (rb_out buf), len).

(** Pointers into the buffer are offsets. *)
Definition ring_buffer_write_ptr (buf : ring_buffer) (offset : Z) : Z :=
  Z.land (u32 (rb_in buf + offset)) (rb_mask buf).

Definition ring_buffer_avail_no_wrap (buf : ring_buffer) : Z :=
  let offset := Z.land (rb_in buf) (rb_mask buf) in
  Z.min (room buf) (rb_size buf - offset).

Definition ring_buffer_write_advance (buf : ring_buffer) (len : Z) : ring_buffer * Z :=
  let len := Z.min len (room buf) in
  (set_counters buf (rb_buffer buf) (u32 (rb_in buf + len)) (rb_out buf), len).

(** [buf->in - buf->out] *)
Definition used (buf : ring_buffer) : Z := u32 (rb_in buf - rb_out buf).

(** [buf->out += len; if (buf->out == buf->in) buf->out = buf->in = 0;] *)
Definition advance_out (buf : ring_buffer) (len : Z) : ring_buffer :=
  let out := u32 (rb_out buf + len) in
  if out =? rb_in buf then set_counters buf (rb_buffer buf) 0 0
  else set_counters buf (rb_buffer buf) (rb_in buf) out.

(** The octets stored in [data]. *)
Definition ring_buffer_read (buf : ring_buffer) (len : Z) : res (ring_buffer * list Z) :=
  let len := Z.min len (used buf) in
  let offset := Z.land (rb_out buf) (rb_mask buf) in
  let end_ := Z.min len (rb_size buf - offset) in
  d ← slice (rb_buffer buf) offset end_;
  d' ← slice (rb_buffer buf) 0 (len - end_);
  Ret (advance_out buf len, d ++ d').

Definition ring_buffer_drain (buf : ring_buffer) (len : Z) : ring_buffer * Z :=
  let len := Z.min len (used buf) in (advance_out buf len, len).

Definition ring_buffer_len_no_wrap (buf : ring_buffer) : Z :=
  let offset := Z.land (rb_out buf) (rb_mask buf) in
  Z.min (used buf) (rb_size buf - offset).

Definition ring_buffer_read_ptr (buf : ring_buffer) (offset : Z) : Z :=
  Z.land (u32 (rb_out buf + offset)) (rb_mask buf).

(** The functions below accept NULL, which is [None]. *)
Definition ring_buffer_len (buf : option ring_buffer) : Z :=
  match buf with None => -1 | Some buf => used buf end.

Definition ring_buffer_reset (buf : option ring_buffer) : option ring_buffer :=
  match buf with None => None | Some buf => Some (set_counters buf (rb_buffer buf) 0 0) end.

Definition ring_buffer_avail (buf : option ring_buffer) : Z :=
  match buf with None => -1 | Some buf => room buf end.

Definition ring_buffer_capacity (buf : option ring_buffer) : Z :=
  match buf with None => -1 | Some buf => rb_size buf end.

(** * The queue *)

(** The [n] octets of a circular buffer from position [s] on. *)
Definition cyc (buffer : list Z) (s n : Z) : list Z :=
  (fun i => nth (Z.to_nat ((s + i) mod zlen buffer)) buffer 0) <$> seqZ 0 n.

Definition contents (buf : ring_buffer) : list Z := cyc (rb_buffer buf) (rb_out buf) (used buf).

(** The size is a power of two that divides the range of the counters. *)
Record ring_ok (buf : ring_buffer) : Prop := {
  ring_power : exists k, 0 <= k <= 18 /\ rb_size buf = 2 ^ k;
  ring_mask : rb_mask buf = rb_size buf - 1;
  ring_len : zlen (rb_buffer buf) = rb_size buf;
  ring_in : 0 <= rb_in buf < 2 ^ 32;
  ring_out : 0 <= rb_out buf < 2 ^ 32;
  ring_used : used buf <= rb_size buf
}.

(** ** Circular buffers *)

Lemma cyc_len buffer s n : 0 <= n -> zlen (cyc buffer s n) = n.
Proof. intros Hn. unfold cyc, zlen. rewrite length_fmap, length_seqZ. lia. Qed.

Lemma cyc_0 buffer s n : n <= 0 -> cyc buffer s n = [].
Proof. intros Hn. unfold cyc. by rewrite seqZ_nil. Qed.

Lemma cyc_lookup buffer s n i : Z.of_nat i < n ->
  cyc buffer s n !! i = Some (nth (Z.to_nat ((s + Z.of_nat i) mod zlen buffer)) buffer 0).
Proof. intros Hi. unfold cyc. rewrite list_lookup_fmap, lookup_seqZ_lt by lia. cbn. by rewrite Z.add_0_l. Qed.

Lemma cyc_length buffer s n : length (cyc buffer s n) = Z.to_nat n.
Proof. unfold cyc. by rewrite length_fmap, length_seqZ. Qed.

Lemma cyc_mod buffer s s' n : s mod zlen buffer = s' mod zlen buffer -> cyc buffer s n = cyc buffer s' n.
Proof.
  intros Hs. unfold cyc. apply list_fmap_ext. intros i x _. do 2 f_equal.
  by rewrite <- Zplus_mod_idemp_l, Hs, Zplus_mod_idemp_l.
Qed.

Lemma cyc_app buffer s m n : 0 <= m -> 0 <= n ->
  cyc buffer s (m + n) = cyc buffer s m ++ cyc buffer (s + m) n.
Proof.
  intros Hm Hn. unfold cyc. rewrite seqZ_app, fmap_app by done. f_equal.
  assert (seqZ (0 + m) n = Z.add m <$> seqZ 0 n) as -> by (rewrite fmap_add_seqZ; f_equal; lia).
  rewrite <- list_fmap_compose.
  apply list_fmap_ext. intros i x _. cbn. do 3 f_equal. lia.
Qed.

Lemma cyc_1 buffer s : cyc buffer s 1 = [nth (Z.to_nat (s mod zlen buffer)) buffer 0].
Proof. change (cyc buffer s 1) with [nth (Z.to_nat ((s + 0) mod zlen buffer)) buffer 0]. by rewrite Z.add_0_r. Qed.

Lemma nth_lookup_Z (l : list Z) i x : l !! i = Some x -> nth i l 0 = x.
Proof. intros H. by rewrite <- (nth_default_eq i), nth_default_eq, (nth_lookup l i), H. Qed.

(** The part of a circular buffer that does not wrap. *)
Lemma cyc_slice buffer s n : 0 <= n -> s mod zlen buffer + n <= zlen buffer -> 0 < zlen buffer ->
  slice buffer (s mod zlen buffer) n = Ret (cyc buffer s n).
Proof.
  intros Hn Hfit Hpos. pose proof (Z.mod_pos_bound s (zlen buffer) Hpos) as Hs.
  set (off := s mod zlen buffer) in *. unfold slice. rewrite !(proj2 (Z.leb_le _ _)) by lia. cbn [andb]. f_equal.
  apply list_eq. intros i. destruct (decide (Z.of_nat i < n)) as [Hi|Hi].
  - rewrite lookup_take_lt by lia. rewrite lookup_drop.
    rewrite cyc_lookup by lia. rewrite <- Zplus_mod_idemp_l. fold off. rewrite Z.mod_small by lia.
    destruct (lookup_lt_is_Some_2 buffer (Z.to_nat off + i)) as [x Hx]; [unfold zlen in *; lia|].
    rewrite Hx. f_equal. symmetry. apply nth_lookup_Z. rewrite <- Hx. f_equal. lia.
  - rewrite !lookup_ge_None_2; [done|rewrite cyc_length; lia|rewrite length_take; lia].
Qed.

(** Storing octets behind the first [m] of the circular buffer. *)
Lemma cyc_blit buffer s m off bs : 0 <= m -> off = (s + m) mod zlen buffer ->
  off + zlen bs <= zlen buffer -> m + zlen bs <= zlen buffer -> 0 < zlen buffer ->
  exists buffer', blit buffer off bs = Ret buffer' /\ zlen buffer' = zlen buffer /\
    cyc buffer' s (m + zlen bs) = cyc buffer s m ++ bs.
Proof.
  intros Hm Hoff Hfit Hroom Hpos. pose proof (zlen_nonneg bs) as Hbs.
  pose proof (Z.mod_pos_bound (s + m) (zlen buffer) Hpos) as Ho. rewrite <- Hoff in Ho.
  unfold blit. rewrite !(proj2 (Z.leb_le _ _)) by lia. cbn [andb]. eexists. split; [done|].
  set (buffer' := take _ _ ++ _). assert (Hz : zlen buffer' = zlen buffer).
  { unfold buffer'. rewrite !zlen_app, zlen_take, zlen_drop. unfold zlen in *. lia. }
  split; [done|]. apply list_eq. intros i.
  destruct (decide (Z.of_nat i < m + zlen bs)) as [Hi|Hi].
  2: { rewrite !lookup_ge_None_2; [done| |].
    - rewrite length_app, cyc_length. unfold zlen in *. lia.
    - rewrite cyc_length. lia. }
  rewrite cyc_lookup, Hz by lia.
  set (j := (s + Z.of_nat i) mod zlen buffer).
  assert (Hj : 0 <= j < zlen buffer) by (apply Z.mod_pos_bound; done).
  assert (Hdiv : exists q, j - off = Z.of_nat i - m + zlen buffer * q).
  { exists ((s + m) / zlen buffer - (s + Z.of_nat i) / zlen buffer). unfold j. rewrite Hoff, !Z.mod_eq by lia. lia. }
  destruct Hdiv as [q Hq].
  destruct (decide (Z.of_nat i < m)) as [Him|Him].
  - rewrite lookup_app_l by (rewrite cyc_length; lia). rewrite cyc_lookup by lia. fold j. f_equal.
    assert (Hout : j < off \/ off + zlen bs <= j).
    { destruct (Z.lt_ge_cases q 1); [left|right]; nia. }
    destruct (lookup_lt_is_Some_2 buffer (Z.to_nat j)) as [x Hx]; [unfold zlen in *; lia|].
    rewrite (nth_lookup_Z _ _ _ Hx). apply nth_lookup_Z. unfold buffer'. destruct Hout as [Hlt|Hge].
    + rewrite lookup_app_l by (rewrite length_take; unfold zlen in *; lia). by rewrite lookup_take_lt by lia.
    + rewrite lookup_app_r by (rewrite length_take; unfold zlen in *; lia).
      rewrite length_take, lookup_app_r by (unfold zlen in *; lia). rewrite lookup_drop, <- Hx. f_equal.
      unfold zlen in *. lia.
  - assert (q = 0) as -> by nia. assert (j = off + (Z.of_nat i - m)) as -> by lia.
    rewrite lookup_app_r, cyc_length by (rewrite cyc_length; lia).
    destruct (lookup_lt_is_Some_2 bs (i - Z.to_nat m)) as [x Hx]; [unfold zlen in *; lia|].
    rewrite Hx. f_equal.
    apply nth_lookup_Z. unfold buffer'.
    rewrite lookup_app_r by (rewrite length_take; unfold zlen in *; lia).
    rewrite length_take, lookup_app_l by (unfold zlen in *; lia). rewrite <- Hx. f_equal.
    unfold zlen in *. lia.
Qed.

(** ** The counters *)

Lemma u32_range z : 0 <= u32 z < 2 ^ 32.
Proof. unfold u32. apply Z.mod_pos_bound. done. Qed.

Lemma u32_small z : 0 <= z < 2 ^ 32 -> u32 z = z.
Proof. apply Z.mod_small. Qed.

Section Ring.
Context (r : ring_buffer).
Hypothesis Hr : ring_ok r.

Lemma size_bounds : 1 <= rb_size r <= 2 ^ 18.
Proof.
  destruct (ring_power r Hr) as (k & Hk & ->).
  pose proof (Z.pow_pos_nonneg 2 k). pose proof (Z.pow_le_mono_r 2 k 18). lia.
Qed.

Lemma mask_mod x : Z.land x (rb_mask r) = x mod rb_size r.
Proof.
  rewrite (ring_mask r Hr). destruct (ring_power r Hr) as (k & Hk & ->).
  replace (2 ^ k - 1) with (Z.ones k) by (rewrite Z.ones_equiv; lia). apply Z.land_ones. lia.
Qed.

(** A counter that has wrapped denotes the same place. *)
Lemma u32_mod x : u32 x mod rb_size r = x mod rb_size r.
Proof.
  destruct (ring_power r Hr) as (k & Hk & ->). unfold u32.
  replace (2 ^ 32) with (2 ^ k * 2 ^ (32 - k)) by (rewrite <- Z.pow_add_r by lia; f_equal; lia).
  assert (0 < 2 ^ k) by (apply Z.pow_pos_nonneg; lia).
  assert (0 < 2 ^ (32 - k)) by (apply Z.pow_pos_nonneg; lia).
  rewrite Z.rem_mul_r by lia. rewrite Z.mul_comm, Z.mod_add by lia. apply Z.mod_mod. lia.
Qed.

Lemma used_bounds : 0 <= used r <= rb_size r.
Proof. split; [apply u32_range|apply Hr]. Qed.

Lemma room_used : room r = rb_size r - used r.
Proof.
  pose proof used_bounds. pose proof size_bounds. unfold room, used, u32 in *.
  replace (rb_size r - rb_in r + rb_out r) with (rb_size r - (rb_in r - rb_out r)) by lia.
  rewrite <- Zminus_mod_idemp_r. apply Z.mod_small. lia.
Qed.

Lemma contents_len : zlen (contents r) = used r.
Proof. apply cyc_len, used_bounds. Qed.

Lemma in_place m : (rb_out r + (used r + m)) mod zlen (rb_buffer r) = u32 (rb_in r + m) mod rb_size r.
Proof.
  rewrite (ring_len r Hr). rewrite u32_mod. unfold used.
  replace (rb_out r + (u32 (rb_in r - rb_out r) + m)) with (u32 (rb_in r - rb_out r) + (rb_out r + m)) by lia.
  rewrite <- Zplus_mod_idemp_l, u32_mod, Zplus_mod_idemp_l. f_equal. lia.
Qed.

(** Octets stored behind the contents, from [m] octets on. *)
Lemma ring_put r' m off bs : rb_size r' = rb_size r -> rb_mask r' = rb_mask r -> rb_in r' = rb_in r ->
  rb_out r' = rb_out r -> zlen (rb_buffer r') = zlen (rb_buffer r) ->
  0 <= m -> off = u32 (rb_in r + m) mod rb_size r -> off + zlen bs <= rb_size r -> used r + m + zlen bs <= rb_size r ->
  exists buffer', blit (rb_buffer r') off bs = Ret buffer' /\ zlen buffer' = zlen (rb_buffer r) /\
    cyc buffer' (rb_out r) (used r + m + zlen bs) = cyc (rb_buffer r') (rb_out r) (used r + m) ++ bs.
Proof.
  intros Hs Hm Hi Ho Hz H0 Hoff Hfit Hroom. pose proof used_bounds. pose proof size_bounds.
  pose proof (ring_len r Hr) as Hlen. rewrite <- Hz.
  apply cyc_blit; [lia| |lia|lia|lia]. rewrite Hz, in_place. done.
Qed.

(** After [n] octets were stored behind the contents. *)
Lemma advance_in_ok buffer' n : zlen buffer' = zlen (rb_buffer r) -> 0 <= n <= room r ->
  let r' := set_counters r buffer' (u32 (rb_in r + n)) (rb_out r) in
  ring_ok r' /\ used r' = used r + n /\ contents r' = cyc buffer' (rb_out r) (used r + n).
Proof.
  intros Hz Hn r'. pose proof room_used. pose proof size_bounds. pose proof used_bounds as Hu.
  assert (Hused : used r' = used r + n).
  { unfold used, r', set_counters. cbn [rb_in rb_out]. unfold u32. rewrite Zminus_mod_idemp_l.
    replace (rb_in r + n - rb_out r) with (rb_in r - rb_out r + n) by lia.
    rewrite <- Zplus_mod_idemp_l. fold (u32 (rb_in r - rb_out r)). fold (used r). apply Z.mod_small. lia. }
  split; [|by unfold contents; rewrite Hused].
  destruct Hr. split; try done; [by cbn; rewrite Hz|apply u32_range|]. rewrite Hused. cbn. lia.
Qed.

Lemma advance_out_ok n : 0 <= n <= used r ->
  ring_ok (advance_out r n) /\ contents (advance_out r n) = drop (Z.to_nat n) (contents r) /\
  rb_size (advance_out r n) = rb_size r.
Proof.
  intros Hn. pose proof used_bounds as Hu. pose proof size_bounds as Hs. unfold advance_out.
  pose proof (ring_in r Hr) as Hin. pose proof (ring_out r Hr) as Hout.
  assert (Hdiff : u32 (rb_in r - u32 (rb_out r + n)) = used r - n).
  { unfold u32. rewrite Zminus_mod_idemp_r.
    replace (rb_in r - (rb_out r + n)) with (rb_in r - rb_out r - n) by lia.
    rewrite <- Zminus_mod_idemp_l. fold (u32 (rb_in r - rb_out r)). fold (used r). apply Z.mod_small. lia. }
  destruct (Z.eqb_spec (u32 (rb_out r + n)) (rb_in r)) as [He|Hne].
  - rewrite He, Z.sub_diag in Hdiff. change (u32 0) with 0 in Hdiff.
    split; [|split; [|done]].
    + destruct Hr. split; try done. change (0 <= rb_size r). lia.
    + rewrite drop_ge by (rewrite <- to_nat_zlen, contents_len; lia). by apply cyc_0.
  - split; [|split; [|done]].
    + destruct Hr. split; try done; [apply u32_range|]. unfold used. cbn [set_counters rb_in rb_out rb_size]. lia.
    + unfold contents. assert (used (set_counters r (rb_buffer r) (rb_in r) (u32 (rb_out r + n))) = used r - n) as ->
        by exact Hdiff.
      cbn [set_counters rb_buffer rb_out]. replace (used r) with (n + (used r - n)) at 2 by lia.
      rewrite cyc_app by lia. rewrite drop_app_length' by (rewrite cyc_length; lia).
      apply cyc_mod. rewrite (ring_len r Hr). apply u32_mod.
Qed.
End Ring.

(** ** The operations *)

Lemma take_slice {A} (l : list A) n : 0 <= n <= zlen l -> slice l 0 n = Ret (take (Z.to_nat n) l).
Proof.
  intros Hn. unfold slice. rewrite !(proj2 (Z.leb_le _ _)) by lia. done.
Qed.

Lemma take_split {A} (l : list A) m n : 0 <= m -> 0 <= n -> m + n <= zlen l ->
  exists a b, slice l 0 m = Ret a /\ slice l m n = Ret b /\ take (Z.to_nat (m + n)) l = a ++ b /\
    zlen a = m /\ zlen b = n.
Proof.
  intros Hm Hn Hl. exists (take (Z.to_nat m) l), (take (Z.to_nat n) (drop (Z.to_nat m) l)).
  split_and!; [by apply take_slice; lia| | |rewrite zlen_take; lia|rewrite zlen_take, zlen_drop; lia].
  - unfold slice. by rewrite !(proj2 (Z.leb_le _ _)) by lia.
  - rewrite Z2Nat.inj_add by lia. by rewrite take_take_drop.
Qed.

Lemma write_ok r data : ring_ok r ->
  let n := Z.min (zlen data) (rb_size r - used r) in
  exists r', ring_buffer_write r data (zlen data) = Ret (r', n) /\ ring_ok r' /\ rb_size r' = rb_size r /\
    contents r' = contents r ++ take (Z.to_nat n) data.
Proof.
  intros Hr n. unfold ring_buffer_write. rewrite (room_used r Hr), (mask_mod r Hr). fold n.
  pose proof (used_bounds r Hr) as Hu. pose proof (size_bounds r Hr) as Hs. pose proof (zlen_nonneg data).
  pose proof (ring_in r Hr) as Hin. pose proof (Z.mod_pos_bound (rb_in r) (rb_size r)) as Ho.
  set (offset := rb_in r mod rb_size r) in *. set (e := Z.min n (rb_size r - offset)).
  assert (He : 0 <= e <= n) by lia.
  destruct (take_split data e (n - e)) as (a & b & -> & -> & Htake & Ha & Hb); [lia..|].
  replace (e + (n - e)) with n in Htake by lia. rewrite Htake. rewrite bind_Ret.
  destruct (ring_put r Hr r 0 offset a) as (buf1 & -> & Hz1 & Hc1); [done|done|done|done|done|done| |lia|lia|].
  { by rewrite Z.add_0_r, u32_small by done. }
  rewrite !bind_Ret. rewrite Z.add_0_r, Ha in Hc1.
  assert (Hsecond : exists buf2, blit buf1 0 b = Ret buf2 /\ zlen buf2 = zlen (rb_buffer r) /\
    cyc buf2 (rb_out r) (used r + e + zlen b) = cyc buf1 (rb_out r) (used r + e) ++ b).
  { destruct (decide (e = n)) as [Hen|Hen].
    - assert (b = []) as -> by (destruct b; [done|rewrite zlen_cons in Hb; pose proof (zlen_nonneg b); lia]).
      exists buf1. rewrite app_nil_r. change (zlen []) with 0. rewrite Z.add_0_r. split; [|done].
      apply (blit_middle [] [] buf1 [] 0); done.
    - apply (ring_put r Hr (set_counters r buf1 (rb_in r) (rb_out r)) e 0 b); [done|done|done|done|exact Hz1|lia| |lia|lia].
      rewrite (u32_mod r Hr). replace e with (rb_size r - offset) by lia. unfold offset.
      rewrite Z.add_sub_assoc, <- Zminus_mod_idemp_l, <- Zplus_mod_idemp_r, Z.mod_same by lia.
      by rewrite Z.add_0_r, Z.sub_diag. }
  destruct Hsecond as (buf2 & -> & Hz2 & Hc2). rewrite bind_Ret. eexists. split; [done|].
  destruct (advance_in_ok r Hr buf2 n) as (Hok & _ & Hc); [lia|rewrite (room_used r Hr); lia|].
  split_and!; [done|done|]. rewrite Hc. replace (used r + n) with (used r + e + zlen b) by lia.
  by rewrite Hc2, Hc1, app_assoc.
Qed.

Lemma read_ok r n : ring_ok r -> 0 <= n ->
  exists r', ring_buffer_read r n = Ret (r', take (Z.to_nat n) (contents r)) /\ ring_ok r' /\
    rb_size r' = rb_size r /\ contents r' = drop (Z.to_nat n) (contents r).
Proof.
  intros Hr Hn. unfold ring_buffer_read. rewrite (mask_mod r Hr). pose proof (used_bounds r Hr) as Hu.
  pose proof (size_bounds r Hr) as Hs. pose proof (ring_len r Hr) as Hlen.
  pose proof (Z.mod_pos_bound (rb_out r) (rb_size r)) as Ho.
  pose proof (contents_len r Hr) as Hcl. set (len := Z.min n (used r)).
  rewrite <- Hlen in Ho, Hu, Hs |- *.
  set (e := Z.min len (zlen (rb_buffer r) - rb_out r mod zlen (rb_buffer r))).
  rewrite (cyc_slice (rb_buffer r) (rb_out r) e) by lia. rewrite bind_Ret.
  assert (Hsecond : slice (rb_buffer r) 0 (len - e) = Ret (cyc (rb_buffer r) (rb_out r + e) (len - e))).
  { destruct (decide (e = len)) as [->|Hne].
    - rewrite Z.sub_diag, cyc_0 by lia. rewrite take_slice by (pose proof (zlen_nonneg (rb_buffer r)); lia). done.
    - assert (H0 : (rb_out r + e) mod zlen (rb_buffer r) = 0).
      { replace e with (zlen (rb_buffer r) - rb_out r mod zlen (rb_buffer r)) by lia.
        rewrite Z.add_sub_assoc, <- Zminus_mod_idemp_l, <- Zplus_mod_idemp_r, Z.mod_same by lia.
        by rewrite Z.add_0_r, Z.sub_diag. }
      rewrite <- H0 at 1. apply cyc_slice; lia. }
  rewrite Hsecond, bind_Ret, <- cyc_app by lia. replace (e + (len - e)) with len by lia.
  assert (Htake : cyc (rb_buffer r) (rb_out r) len = take (Z.to_nat n) (contents r)).
  { unfold contents. replace (used r) with (len + (used r - len)) by lia. rewrite cyc_app by lia.
    destruct (decide (n <= used r)).
    - rewrite take_app_length'; [done|]. rewrite cyc_length. lia.
    - replace (used r - len) with 0 by lia. rewrite (cyc_0 _ _ 0), app_nil_r by lia.
      rewrite take_ge; [done|]. rewrite cyc_length. lia. }
  rewrite Htake. eexists. split; [done|]. destruct (advance_out_ok r Hr len) as (Hok & Hc & Hsz); [lia|].
  split_and!; [done|by rewrite Hsz, Hlen|]. rewrite Hc. destruct (decide (n <= used r)).
  - by replace len with n by lia.
  - by rewrite !drop_ge by (rewrite <- to_nat_zlen, Hcl; lia).
Qed.

Lemma drain_ok r n : ring_ok r -> 0 <= n ->
  let r' := (ring_buffer_drain r n).1 in
  (ring_buffer_drain r n).2 = Z.min n (used r) /\ ring_ok r' /\ rb_size r' = rb_size r /\
  contents r' = drop (Z.to_nat n) (contents r).
Proof.
  intros Hr Hn r'. pose proof (used_bounds r Hr) as Hu. pose proof (contents_len r Hr) as Hcl.
  destruct (advance_out_ok r Hr (Z.min n (used r))) as (Hok & Hc & Hsz); [lia|].
  unfold r', ring_buffer_drain. cbn [fst snd]. split_and!; try done. rewrite Hc.
  destruct (decide (n <= used r)).
  - by rewrite Z.min_l by lia.
  - by rewrite !drop_ge by (rewrite <- to_nat_zlen, Hcl; lia).
Qed.

(** ** Pointers into the contents *)

(** A pointer that is advanced by one, except where it wraps. *)
Lemma ring_next r start count s : ring_ok r -> 0 <= s -> s + 1 < count -> count <= rb_size r ->
  s + 1 <> Z.min count (rb_size r - start mod rb_size r) ->
  u32 (start + s) mod rb_size r + 1 = u32 (start + (s + 1)) mod rb_size r.
Proof.
  intros Hr Hs Ha Hc Hw. pose proof (size_bounds r Hr). rewrite !(u32_mod r Hr).
  pose proof (Z.mod_pos_bound start (rb_size r)) as Hm.
  rewrite <- (Zplus_mod_idemp_l start s), <- (Zplus_mod_idemp_l start (s + 1)).
  set (off := start mod rb_size r) in *. destruct (decide (off + s < rb_size r)).
  - rewrite (Z.mod_small (off + s)), (Z.mod_small (off + (s + 1))) by lia. lia.
  - replace (off + s) with (off + s - rb_size r + 1 * rb_size r) by lia.
    replace (off + (s + 1)) with (off + s + 1 - rb_size r + 1 * rb_size r) by lia.
    rewrite !Z.mod_add by lia. rewrite !Z.mod_small by lia. lia.
Qed.

(** The octet at a place of the contents. *)
Lemma read_place rbuf pos c l : ring_ok rbuf -> 0 <= pos -> drop (Z.to_nat pos) (contents rbuf) = c :: l ->
  rd (rb_buffer rbuf) (u32 (rb_out rbuf + pos) mod rb_size rbuf) = Ret c.
Proof.
  intros Hr Hp Hd. pose proof (size_bounds rbuf Hr). pose proof (ring_len rbuf Hr) as Hlen.
  pose proof (Z.mod_pos_bound (rb_out rbuf + pos) (rb_size rbuf)) as Hm. rewrite (u32_mod rbuf Hr).
  destruct (rd_in_bounds (rb_buffer rbuf) ((rb_out rbuf + pos) mod rb_size rbuf)) as [x Hx]; [lia|].
  rewrite Hx. f_equal. assert (Hc : contents rbuf !! Z.to_nat pos = Some c).
  { rewrite <- (Nat.add_0_r (Z.to_nat pos)). by rewrite <- lookup_drop, Hd. }
  pose proof (lookup_lt_Some _ _ _ Hc) as Hlt. pose proof (contents_len rbuf Hr) as Hcl. unfold zlen in Hcl.
  unfold contents in Hc. rewrite cyc_lookup in Hc by lia. injection Hc as <-.
  rewrite Z2Nat.id, Hlen by done. symmetry. apply nth_lookup_Z. by apply rd_lookup in Hx; [|lia].
Qed.

(** A ring gives its first octets. *)
Lemma read_slice r n : ring_ok r -> 0 <= n <= ring_buffer_len_no_wrap r ->
  slice (rb_buffer r) (ring_buffer_read_ptr r 0) n = Ret (take (Z.to_nat n) (contents r)).
Proof.
  intros Hr Hn. unfold ring_buffer_len_no_wrap, ring_buffer_read_ptr in *. rewrite !(mask_mod r Hr) in *.
  pose proof (ring_out r Hr). pose proof (ring_len r Hr) as Hlen. pose proof (size_bounds r Hr).
  pose proof (used_bounds r Hr). rewrite Z.add_0_r, u32_small by done. rewrite <- Hlen in *.
  rewrite cyc_slice by first [lia|done]. f_equal. unfold contents.
  replace (used r) with (n + (used r - n)) by lia. rewrite cyc_app by lia.
  rewrite take_app_length'; [done|]. rewrite cyc_length. lia.
Qed.

(** The octets from a place up to where the buffer wraps, or all of them after
    that. *)
Lemma place_slice r pos n : ring_ok r -> 0 <= pos -> 0 <= n -> pos + n <= used r ->
  (rb_out r + pos) mod rb_size r + n <= rb_size r ->
  slice (rb_buffer r) ((rb_out r + pos) mod rb_size r) n =
  Ret (take (Z.to_nat n) (drop (Z.to_nat pos) (contents r))).
Proof.
  intros Hr Hp Hn Hu Hfit. pose proof (ring_len r Hr) as Hlen. pose proof (size_bounds r Hr).
  pose proof (used_bounds r Hr). rewrite <- Hlen in *. rewrite cyc_slice by lia. f_equal. unfold contents.
  replace (used r) with (pos + (n + (used r - pos - n))) by lia. rewrite !cyc_app by lia.
  rewrite drop_app_length' by (rewrite cyc_length; lia). by rewrite take_app_length' by (rewrite cyc_length; lia).
Qed.

Lemma grow_ok fuel : forall k size, 0 <= k <= 18 -> (18 - Z.to_nat k < fuel)%nat ->
  (k = 0 \/ 2 ^ (k - 1) < size) ->
  exists k', 0 <= k' <= 18 /\ grow fuel (2 ^ k) size = 2 ^ k' /\ Z.min size MAX_SIZE <= 2 ^ k' /\
    (k' = 0 \/ 2 ^ (k' - 1) < size).
Proof.
  induction fuel as [|fuel IH]; intros k size Hk Hf Hl; [lia|]. cbn [grow]. unfold MAX_SIZE in *.
  destruct (Z.ltb_spec (2 ^ k) size) as [Hlt|Hge]; cbn [andb].
  2: { exists k. split_and!; auto; lia. }
  destruct (Z.ltb_spec (2 ^ k) 262144) as [Hm|Hm].
  2: { exists k. split_and!; auto; lia. }
  assert (k < 18) by (change 262144 with (2 ^ 18) in Hm; by apply Z.pow_lt_mono_r_iff in Hm).
  assert (u32 (Z.shiftl (2 ^ k) 1) = 2 ^ (k + 1)) as ->.
  { rewrite Z.shiftl_mul_pow2, <- Z.pow_add_r by lia. apply u32_small.
    pose proof (Z.pow_pos_nonneg 2 (k + 1)). pose proof (Z.pow_lt_mono_r 2 (k + 1) 32). lia. }
  apply IH; [lia|lia|]. right. by replace (k + 1 - 1) with k by lia.
Qed.

Lemma new_ok size : exists k, 0 <= k <= 18 /\ Z.min size MAX_SIZE <= 2 ^ k /\ (k = 0 \/ 2 ^ (k - 1) < size) /\
  exists r, ring_buffer_new size = Ret r /\ rb_size r = 2 ^ k /\ ring_ok r /\ contents r = [] /\
    rb_in r = 0 /\ rb_out r = 0.
Proof.
  destruct (grow_ok 32 0 size) as (k & Hk & Hg & Hs & Hl); [lia|cbn; lia|by left|]. exists k.
  do 3 (split; [done|]). unfold ring_buffer_new. change 1 with (2 ^ 0). rewrite Hg.
  pose proof (Z.pow_le_mono_r 2 k 18 ltac:(lia) ltac:(lia)). pose proof (Z.pow_pos_nonneg 2 k ltac:(lia) ltac:(lia)).
  rewrite (proj2 (Z.ltb_ge _ _)) by (unfold MAX_SIZE; lia). eexists. split; [done|]. split; [done|].
  split; [|split; [by apply cyc_0|done]]. split; try done; [by exists k| |].
  - cbn. rewrite zlen_replicate. lia.
  - change (0 <= 2 ^ k). lia.
Qed.

(** * Correctness *)

Inductive ring_op :=
  | RingWrite (data : list Z)
  | RingRead (len : Z)
  | RingDrain (len : Z)
  | RingReset
  | RingLen
  | RingAvail.

(** What the caller sees. *)
Inductive ring_result := Count (n : Z) | Octets (l : list Z).

Definition ring_step (r : ring_buffer) (op : ring_op) : res (ring_buffer * ring_result) :=
  match op with
  | RingWrite data => '(r, n) ← ring_buffer_write r data (zlen data); Ret (r, Count n)
  | RingRead len => '(r, l) ← ring_buffer_read r len; Ret (r, Octets l)
  | RingDrain len => let '(r, n) := ring_buffer_drain r len in Ret (r, Count n)
  | RingReset => Ret (default r (ring_buffer_reset (Some r)), Octets [])
  | RingLen => Ret (r, Count (ring_buffer_len (Some r)))
  | RingAvail => Ret (r, Count (ring_buffer_avail (Some r)))
  end.

(** The same on a queue that holds at most [capacity] octets. *)
Definition queue_step (capacity : Z) (q : list Z) (op : ring_op) : list Z * ring_result :=
  match op with
  | RingWrite data =>
      let n := Z.min (zlen data) (capacity - zlen q) in (q ++ take (Z.to_nat n) data, Count n)
  | RingRead len => (drop (Z.to_nat len) q, Octets (take (Z.to_nat len) q))
  | RingDrain len => (drop (Z.to_nat len) q, Count (Z.min len (zlen q)))
  | RingReset => ([], Octets [])
  | RingLen => (q, Count (zlen q))
  | RingAvail => (q, Count (capacity - zlen q))
  end.

Fixpoint ring_run (r : ring_buffer) (ops : list ring_op) : res (ring_buffer * list ring_result) :=
  match ops with
  | [] => Ret (r, [])
  | op :: ops => '(r, out) ← ring_step r op; '(r, outs) ← ring_run r ops; Ret (r, out :: outs)
  end.

Fixpoint queue_run (capacity : Z) (q : list Z) (ops : list ring_op) : list Z * list ring_result :=
  match ops with
  | [] => (q, [])
  | op :: ops => let '(q, out) := queue_step capacity q op in
                 let '(q, outs) := queue_run capacity q ops in (q, out :: outs)
  end.

(** A length is unsigned. *)
Definition ring_op_ok (op : ring_op) : Prop :=
  match op with RingRead len | RingDrain len => 0 <= len | _ => True end.

Lemma ring_step_ok r op : ring_ok r -> ring_op_ok op ->
  exists r' out, ring_step r op = Ret (r', out) /\ ring_ok r' /\ rb_size r' = rb_size r /\
    queue_step (rb_size r) (contents r) op = (contents r', out).
Proof.
  intros Hr Hop. pose proof (contents_len r Hr) as Hcl. pose proof (used_bounds r Hr) as Hu.
  destruct op as [data|n|n| | |]; cbn [ring_step queue_step].
  - destruct (write_ok r data Hr) as (r' & -> & Hok & Hs & Hc). rewrite bind_Ret. rewrite Hcl, <- Hc.
    eexists _, _. by split_and!.
  - destruct (read_ok r n Hr Hop) as (r' & -> & Hok & Hs & Hc). rewrite bind_Ret, <- Hc.
    eexists _, _. by split_and!.
  - destruct (drain_ok r n Hr Hop) as (Hn & Hok & Hs & Hc). destruct (ring_buffer_drain r n) as [r' m].
    cbn [fst snd] in *. subst m. rewrite Hcl, <- Hc. eexists _, _. by split_and!.
  - pose proof (size_bounds r Hr). eexists _, _. split; [done|]. split_and!; [|done|].
    + destruct Hr. split; try done.
      change (0 <= rb_size r). lia.
    + done.
  - exists r, (Count (used r)). by rewrite Hcl.
  - exists r, (Count (room r)). rewrite Hcl, <- (room_used r Hr). by split_and!.
Qed.

(** C20: for any sequence of writes, reads, drains, resets and length queries,
    the ring buffer of [ring_buffer_new] gives its user the octets and the
    counts that a plain queue of the same capacity gives, which it implements
    with wrapping offsets and counters; it touches no octet outside its buffer.
    The capacity is the least power of two that is not below the size asked
    for, up to MAX_SIZE. *)
Theorem ring_is_queue size ops : Forall ring_op_ok ops ->
  exists k r r' outs, 0 <= k <= 18 /\ Z.min size MAX_SIZE <= 2 ^ k /\ (k = 0 \/ 2 ^ (k - 1) < size) /\
    ring_buffer_new size = Ret r /\ ring_run r ops = Ret (r', outs) /\ ring_ok r' /\
    queue_run (2 ^ k) [] ops = (contents r', outs).
Proof.
  intros Hops. destruct (new_ok size) as (k & Hk & Hs & Hl & r & Hn & Hsize & Hr & Hc & _).
  enough (Hrun : exists r' outs, ring_run r ops = Ret (r', outs) /\ ring_ok r' /\
    queue_run (rb_size r) (contents r) ops = (contents r', outs)).
  { destruct Hrun as (r' & outs & H1 & H2 & H3). rewrite Hsize, Hc in H3. by exists k, r, r', outs. }
  clear Hn Hc Hsize. revert r Hr. induction Hops as [|op ops Hop Hops IH]; intros r Hr; cbn [ring_run queue_run].
  - eauto 6.
  - destruct (ring_step_ok r op Hr Hop) as (r1 & out & -> & Hr1 & Hs1 & ->). rewrite bind_Ret.
    destruct (IH r1 Hr1) as (r2 & outs & -> & Hr2 & Hq). rewrite Hs1 in Hq. rewrite Hq. simp_res. eauto 6.
Qed.

(** * Concrete runs *)

(** Two writes around the end of a buffer of four octets. *)
Definition wrapping_ops : list ring_op :=
  [RingWrite [1; 2; 3]; RingRead 2; RingWrite [4; 5; 6; 7]; RingLen; RingAvail; RingRead 9].

Lemma ring_is_queue_witness : exists k r r' outs,
  0 <= k <= 18 /\ Z.min 3 MAX_SIZE <= 2 ^ k /\ (k = 0 \/ 2 ^ (k - 1) < 3) /\
  ring_buffer_new 3 = Ret r /\ ring_run r wrapping_ops = Ret (r', outs) /\ ring_ok r' /\
  queue_run (2 ^ k) [] wrapping_ops = (contents r', outs).
Proof. apply (ring_is_queue 3 wrapping_ops). repeat constructor; done. Defined.

Lemma wrapping_outs : queue_run 4 [] wrapping_ops =
  ([], [Count 3; Octets [1; 2]; Count 3; Count 4; Count 0; Octets [3; 4; 5; 6]]).
Proof. done. Qed.
