(* ===== verification/Gsm0710.v ===== *)
(** The frames of GSM 07.10 (src/gatchat/gsm0710.c): the check sum, and how a
    frame of the basic and of the advanced framing is built and found again in
    the octets received.  The two framings are instances of the class [Framing],
    against which the multiplexer of GatMux.v is stated.  Memory is a list of
    octets, a pointer into it an offset. *)
From Stdlib Require Import Bool.
From S2P Require Import Prelude.

(** * The check sum *)

Definition crc_table : list Z :=
  [0x00; 0x91; 0xe3; 0x72; 0x07; 0x96; 0xe4; 0x75;
   0x0e; 0x9f; 0xed; 0x7c; 0x09; 0x98; 0xea; 0x7b;
   0x1c; 0x8d; 0xff; 0x6e; 0x1b; 0x8a; 0xf8; 0x69;
   0x12; 0x83; 0xf1; 0x60; 0x15; 0x84; 0xf6; 0x67;
   0x38; 0xa9; 0xdb; 0x4a; 0x3f; 0xae; 0xdc; 0x4d;
   0x36; 0xa7; 0xd5; 0x44; 0x31; 0xa0; 0xd2; 0x43;
   0x24; 0xb5; 0xc7; 0x56; 0x23; 0xb2; 0xc0; 0x51;
   0x2a; 0xbb; 0xc9; 0x58; 0x2d; 0xbc; 0xce; 0x5f;
   0x70; 0xe1; 0x93; 0x02; 0x77; 0xe6; 0x94; 0x05;
   0x7e; 0xef; 0x9d; 0x0c; 0x79; 0xe8; 0x9a; 0x0b;
   0x6c; 0xfd; 0x8f; 0x1e; 0x6b; 0xfa; 0x88; 0x19;
   0x62; 0xf3; 0x81; 0x10; 0x65; 0xf4; 0x86; 0x17;
   0x48; 0xd9; 0xab; 0x3a; 0x4f; 0xde; 0xac; 0x3d;
   0x46; 0xd7; 0xa5; 0x34; 0x41; 0xd0; 0xa2; 0x33;
   0x54; 0xc5; 0xb7; 0x26; 0x53; 0xc2; 0xb0; 0x21;
   0x5a; 0xcb; 0xb9; 0x28; 0x5d; 0xcc; 0xbe; 0x2f;
   0xe0; 0x71; 0x03; 0x92; 0xe7; 0x76; 0x04; 0x95;
   0xee; 0x7f; 0x0d; 0x9c; 0xe9; 0x78; 0x0a; 0x9b;
   0xfc; 0x6d; 0x1f; 0x8e; 0xfb; 0x6a; 0x18; 0x89;
   0xf2; 0x63; 0x11; 0x80; 0xf5; 0x64; 0x16; 0x87;
   0xd8; 0x49; 0x3b; 0xaa; 0xdf; 0x4e; 0x3c; 0xad;
   0xd6; 0x47; 0x35; 0xa4; 0xd1; 0x40; 0x32; 0xa3;
   0xc4; 0x55; 0x27; 0xb6; 0xc3; 0x52; 0x20; 0xb1;
   0xca; 0x5b; 0x29; 0xb8; 0xcd; 0x5c; 0x2e; 0xbf;
   0x90; 0x01; 0x73; 0xe2; 0x97; 0x06; 0x74; 0xe5;
   0x9e; 0x0f; 0x7d; 0xec; 0x99; 0x08; 0x7a; 0xeb;
   0x8c; 0x1d; 0x6f; 0xfe; 0x8b; 0x1a; 0x68; 0xf9;
   0x82; 0x13; 0x61; 0xf0; 0x85; 0x14; 0x66; 0xf7;
   0xa8; 0x39; 0x4b; 0xda; 0xaf; 0x3e; 0x4c; 0xdd;
   0xa6; 0x37; 0x45; 0xd4; 0xa1; 0x30; 0x42; 0xd3;
   0xb4; 0x25; 0x57; 0xc6; 0xb3; 0x22; 0x50; 0xc1;
   0xba; 0x2b; 0x59; 0xc8; 0xbd; 0x2c; 0x5e; 0xcf].

Definition crc_step (crc b : Z) : Z := nth (Z.to_nat (Z.lxor crc b)) crc_table 0.

Definition gsm0710_crc (data : list Z) : Z := fold_left crc_step data 0xff.

Definition gsm0710_fcs (data : list Z) : Z := 0xff - gsm0710_crc data.

Definition gsm0710_check_fcs (data : list Z) (cfcs : Z) : bool := crc_step (gsm0710_crc data) cfcs =? 0xcf.

(** * Frames *)

(** What the extraction of a frame reports: its channel, its control octet, and
    where its contents are. *)
Record frame := { f_dlc : Z; f_control : Z; f_frame : Z; f_len : Z }.

(** [while ((posn + 1) < len && buf[posn + 1] == flag) posn += 1;] *)
Fixpoint skip_flags (fuel : nat) (flag : Z) (m : list Z) (buf posn len : Z) : res Z :=
  match fuel with
  | O => Ub
  | S fuel =>
      if posn + 1 <? len then
        c ← rd m (buf + posn + 1);
        if (c =? flag : bool) then skip_flags fuel flag m buf (posn + 1) len else Ret posn
      else Ret posn
  end.

(** [while (framelen < len && buf[framelen] != 0x7E) framelen += 1;] *)
Fixpoint find_flag (fuel : nat) (m : list Z) (buf framelen len : Z) : res Z :=
  match fuel with
  | O => Ub
  | S fuel =>
      if framelen <? len then
        c ← rd m (buf + framelen);
        if (c =? 0x7e : bool) then Ret framelen else find_flag fuel m buf (framelen + 1) len
      else Ret framelen
  end.

(** The loop that undoes the quoting, towards the start of the buffer: the
    memory, [posn] and [posn2] at its end. *)
Fixpoint unquote (fuel : nat) (m : list Z) (buf posn posn2 framelen : Z) : res (list Z * Z * Z) :=
  match fuel with
  | O => Ub
  | S fuel =>
      if posn <? framelen then
        c ← rd m (buf + posn);
        if (c =? 0x7d : bool) then
          if framelen <=? posn + 1 then Ret (m, posn + 1, posn2)
          else
            c ← rd m (buf + (posn + 1));
            m ← wr m (buf + posn2) (Z.lxor c 0x20);
            unquote fuel m buf (posn + 2) (posn2 + 1) framelen
        else
          m ← wr m (buf + posn2) c;
          unquote fuel m buf (posn + 1) (posn2 + 1) framelen
      else Ret (m, posn, posn2)
  end.

Fixpoint advanced_loop (fuel : nat) (m : list Z) (buf posn len : Z) : res (list Z * Z * option frame) :=
  match fuel with
  | O => Ub
  | S fuel =>
      if posn <? len then
        c ← rd m (buf + posn);
        if negb (c =? 0x7e) then advanced_loop fuel m buf (posn + 1) len
        else
          posn ← skip_flags fuel 0x7e m buf posn len;
          framelen ← find_flag (S fuel) m buf (posn + 1) len;
          if len <=? framelen then Ret (m, posn, None)
          else if framelen <? 4 then advanced_loop fuel m buf framelen len
          else
            '(m, posn, posn2) ← unquote (S fuel) m buf (posn + 1) 0 framelen;
            b0 ← rd m buf; b1 ← rd m (buf + 1); fcs ← rd m (buf + (posn2 - 1));
            if negb (gsm0710_check_fcs [b0; b1] fcs) then advanced_loop fuel m buf posn len
            else Ret (m, posn, Some {| f_dlc := Z.land (Z.shiftr b0 2) 0x3f; f_control := Z.land b1 0xef;
                                       f_frame := buf + 2; f_len := posn2 - 3 |})
      else Ret (m, posn, None)
  end.

(** The memory, the number of octets passed over and the frame. *)
Definition gsm0710_advanced_extract_frame (m : list Z) (buf len : Z) : res (list Z * Z * option frame) :=
  advanced_loop (S (S (Z.to_nat len))) m buf 0 len.

(** One octet of a frame, quoted where it has to be. *)
Definition store_quoted (cap : Z) (frame : list Z) (temp : Z) : res (list Z) :=
  if negb (temp =? 0x7e) && negb (temp =? 0x7d) then put cap frame [temp]
  else frame ← put cap frame [0x7d]; put cap frame [Z.lxor temp 0x20].

(** [while (len > 0)] *)
Fixpoint store_data (cap : Z) (frame : list Z) (data : list Z) (len : nat) {struct len} : res (list Z) :=
  match len with
  | O => Ret frame
  | S len =>
      match data with
      | [] => Ub
      | temp :: data => frame ← store_quoted cap frame temp; store_data cap frame data len
      end
  end.

(** The frame, in an array of [cap] octets. *)
Definition gsm0710_advanced_fill_frame (cap dlc type : Z) (data : list Z) (len : Z) : res (list Z) :=
  frame ← put cap [] [0x7e; u8 (Z.lor (Z.shiftl dlc 2) 0x03); type];
  let crc := gsm0710_fcs [u8 (Z.lor (Z.shiftl dlc 2) 0x03); type] in
  frame ← (if (type =? 0x7e) || (type =? 0x7d)
           then put cap [0x7e; u8 (Z.lor (Z.shiftl dlc 2) 0x03)] [0x7d; Z.lxor type 0x20] else Ret frame);
  frame ← store_data cap frame data (Z.to_nat len);
  frame ← store_quoted cap frame crc;
  put cap frame [0x7e].

(** The rest of the loop's body, once the header is known; [again] is the loop
    from a later position. *)
Definition basic_body (again : Z -> res (Z * option frame)) (m : list Z) (buf posn len address : Z)
    (header_size framelen : Z) : res (Z * option frame) :=
  if len <? posn + header_size + 3 + framelen then Ret (posn, None)
  else
    fcs ← rd m (buf + posn + 1 + header_size + framelen);
    header ← slice m (buf + posn + 1) header_size;
    if negb (gsm0710_check_fcs header fcs) then again (posn + (header_size + framelen + 2))
    else
      close ← rd m (buf + posn + header_size + framelen + 2);
      if negb (close =? 0xf9) then again (posn + (header_size + framelen + 2))
      else
        control ← rd m (buf + posn + 2);
        Ret (posn + (header_size + framelen + 2),
             Some {| f_dlc := Z.shiftr address 2; f_control := Z.land control 0xef;
                     f_frame := buf + posn + 1 + header_size; f_len := framelen |}).

Fixpoint basic_loop (fuel : nat) (m : list Z) (buf posn len : Z) : res (Z * option frame) :=
  match fuel with
  | O => Ub
  | S fuel =>
      let again posn := basic_loop fuel m buf posn len in
      if posn <? len then
        c ← rd m (buf + posn);
        if negb (c =? 0xf9) then again (posn + 1)
        else
          posn ← skip_flags fuel 0xf9 m buf posn len;
          if len <? posn + 4 then Ret (posn, None)
          else
            address ← rd m (buf + posn + 1);
            if Z.land address 0x01 =? 0 then again (posn + 1)
            else
              l0 ← rd m (buf + posn + 3);
              if has l0 0x01 then basic_body again m buf posn len address 3 (Z.shiftr l0 1)
              else if len <? posn + 5 then Ret (posn, None)
              else
                l1 ← rd m (buf + posn + 4);
                basic_body again m buf posn len address 4 (Z.lor (Z.shiftr l0 1) (Z.shiftl l1 7))
      else Ret (posn, None)
  end.

Definition gsm0710_basic_extract_frame (m : list Z) (buf len : Z) : res (list Z * Z * option frame) :=
  '(posn, f) ← basic_loop (S (S (Z.to_nat len))) m buf 0 len; Ret (m, posn, f).

Definition gsm0710_basic_fill_frame (cap dlc type : Z) (data : list Z) (len : Z) : res (list Z) :=
  frame ← put cap [] [0xf9; u8 (Z.lor (Z.shiftl dlc 2) 0x03); type];
  frame ← (if len <=? 127 then put cap frame [u8 (Z.lor (Z.shiftl len 1) 0x01)]
           else put cap frame [u8 (Z.shiftl len 1); u8 (Z.shiftr len 7)]);
  let header := drop 1 frame in
  frame ← (if 0 <? len then data ← slice data 0 len; put cap frame data else Ret frame);
  put cap frame [gsm0710_fcs header; 0xf9].

(** * The two framings *)

(** What the multiplexer needs of a framing: the extraction and the
    construction of frames, the size of the array in which the driver builds a
    frame of [frame_size] octets of data, and of that for a command. *)
Class Framing := {
  extract_frame : list Z -> Z -> Z -> res (list Z * Z * option frame);
  fill_frame : Z -> Z -> Z -> list Z -> Z -> res (list Z);
  frame_room : Z -> Z;
  command_room : Z
}.

(** [alloca(gd->frame_size + 7)] and [guint8 frame[6]]. *)
Definition basic_framing : Framing := {|
  extract_frame := gsm0710_basic_extract_frame; fill_frame := gsm0710_basic_fill_frame;
  frame_room frame_size := frame_size + 7; command_room := 6 |}.

(** [alloca(gd->frame_size * 2 + 7)] and [guint8 frame[8]]. *)
Definition advanced_framing : Framing := {|
  extract_frame := gsm0710_advanced_extract_frame; fill_frame := gsm0710_advanced_fill_frame;
  frame_room frame_size := frame_size * 2 + 7; command_room := 8 |}.

(** What a framing promises.  [encode] is the frame of a control octet and of
    data for a channel.  Extraction skips flags, finds a complete frame behind
    them and stops at the flag that ends it, which may begin the next; of an
    incomplete frame nothing is passed over, and the memory is as before. *)
Class FramingLaws (F : Framing) := {
  flag : Z;
  encode : Z -> Z -> list Z -> list Z;
  encode_flag dlc type data : exists l, encode dlc type data = flag :: l ++ [flag];
  fill_ok cap dlc type data more : 0 <= dlc < 64 -> zlen data <= 32767 ->
    zlen (encode dlc type data) <= cap ->
    fill_frame cap dlc type (data ++ more) (zlen data) = Ret (encode dlc type data);
  frame_room_ok frame_size dlc data : 0 <= dlc < 64 -> zlen data <= frame_size ->
    zlen (encode dlc 0xef data) <= frame_room frame_size;
  command_room_ok dlc type : 0 <= dlc < 64 -> type <> 0x7d -> type <> 0x7e ->
    zlen (encode dlc type []) <= command_room;
  extract_ok l0 k dlc type data rest l1 :
    0 <= dlc < 64 -> is_byte type -> bytes data -> zlen data <= 32767 ->
    exists l0' f,
      extract_frame (l0 ++ replicate k flag ++ encode dlc type data ++ rest ++ l1) (zlen l0)
        (Z.of_nat k + zlen (encode dlc type data) + zlen rest) =
        Ret (l0' ++ [flag] ++ rest ++ l1, Z.of_nat k + zlen (encode dlc type data) - 1, Some f) /\
      zlen l0' = zlen l0 + (Z.of_nat k + zlen (encode dlc type data) - 1) /\
      f_dlc f = dlc /\ f_control f = Z.land type 0xef /\ f_len f = zlen data /\
      slice l0' (f_frame f) (zlen data) = Ret data;
  extract_partial l0 k dlc type data j l1 :
    0 <= dlc < 64 -> is_byte type -> bytes data -> zlen data <= 32767 ->
    (j < length (encode dlc type data))%nat ->
    let m := l0 ++ replicate k flag ++ take j (encode dlc type data) ++ l1 in
    extract_frame m (zlen l0) (Z.of_nat (k + j)) =
      Ret (m, Z.of_nat (if decide (j = O) then pred k else k), None)
}.

(** ** The check sum is that of the standard *)

(** Bit by bit, low bit first, divided by x^8 + x^2 + x + 1. *)
Definition crc8_bit (x : Z) : Z := if Z.odd x then Z.lxor (Z.shiftr x 1) 0xe0 else Z.shiftr x 1.

Definition crc8 (data : list Z) : Z :=
  fold_left (fun crc b => Nat.iter 8 crc8_bit (Z.lxor crc b)) data 0xff.

Lemma crc_table_bits8 x : is_byte x ->
  nth (Z.to_nat x) crc_table 0 = Nat.iter 8 crc8_bit x /\ is_byte (nth (Z.to_nat x) crc_table 0) /\
  (nth (Z.to_nat x) crc_table 0 = 0xcf <-> x = 0xff) /\ Z.lxor 0xff x = 0xff - x.
Proof.
  intros Hx. pose proof (byte_forall (fun x =>
    let y := nth (Z.to_nat x) crc_table 0 in
    (y =? Nat.iter 8 crc8_bit x) && bool_decide (is_byte y) && Bool.eqb (y =? 0xcf) (x =? 0xff) &&
    (Z.lxor 0xff x =? 0xff - x)) x ltac:(by vm_compute) Hx) as H.
  cbv beta zeta in H. bool_to_prop. split_and!; [done|by eapply bool_decide_eq_true_1| |done].
  rewrite <- !Z.eqb_eq. by rewrite (eqb_prop _ _ ltac:(eassumption)).
Qed.

Lemma lxor_byte x y : is_byte x -> is_byte y -> is_byte (Z.lxor x y).
Proof. intros Hx Hy. by apply (xor_small x 8). Qed.

Lemma crc_ok data : bytes data -> gsm0710_crc data = crc8 data /\ is_byte (gsm0710_crc data).
Proof.
  unfold gsm0710_crc, crc8. assert (is_byte 0xff) as Hc by done. revert Hc. generalize 0xff.
  induction data as [|b data IH]; intros c Hc; [done|]. intros [Hb Hd]%Forall_cons. cbn [fold_left].
  destruct (crc_table_bits8 _ (lxor_byte c b Hc Hb)) as (<- & Hs & _). by apply IH.
Qed.

Lemma fcs_byte data : bytes data -> is_byte (gsm0710_fcs data).
Proof. intros Hd. destruct (crc_ok data Hd) as [_ Hc]. unfold gsm0710_fcs, is_byte in *. lia. Qed.

Lemma check_fcs_exact data f : bytes data -> is_byte f ->
  gsm0710_check_fcs data f = true <-> f = gsm0710_fcs data.
Proof.
  intros Hd Hf. destruct (crc_ok data Hd) as [_ Hc]. unfold gsm0710_check_fcs, gsm0710_fcs, crc_step.
  destruct (crc_table_bits8 _ (lxor_byte _ _ Hc Hf)) as (_ & _ & Hcf & _). rewrite Z.eqb_eq, Hcf.
  destruct (crc_table_bits8 _ Hc) as (_ & _ & _ & <-). rewrite (Z.lxor_comm 0xff). split; [|intros ->].
  - intros <-. by rewrite <- Z.lxor_assoc, Z.lxor_nilpotent, Z.lxor_0_l.
  - by rewrite <- Z.lxor_assoc, Z.lxor_nilpotent, Z.lxor_0_l.
Qed.

(** C38: the check of a received header accepts exactly the check sequence of
    GSM 07.10, the one's complement of the bit by bit CRC of its octets by
    x^8 + x^2 + x + 1, although the code only looks octets up in a table and
    compares with the fixed residue 0xcf; and [gsm0710_fcs] computes it. *)
Theorem header_check_exact data f : bytes data -> is_byte f ->
  gsm0710_fcs data = 0xff - crc8 data /\ (gsm0710_check_fcs data f = true <-> f = 0xff - crc8 data).
Proof.
  intros Hd Hf. rewrite check_fcs_exact by done. unfold gsm0710_fcs. by rewrite (proj1 (crc_ok data Hd)).
Qed.

Lemma header_check_exact_witness : bytes [0x07; 0xef] /\ is_byte 0x05 /\ gsm0710_check_fcs [0x07; 0xef] 0x05 = true.
Proof.
  assert (bytes [0x07; 0xef]) as Hd by (by apply (bool_decide_unpack _)). split_and!; [done|done|].
  apply (header_check_exact [0x07; 0xef] 0x05 Hd); [done|]. by vm_compute.
Defined.

(** ** Reading *)

Lemma read_at (m : list Z) p l (i : nat) x q : at_pos m p l -> l !! i = Some x -> q = p + Z.of_nat i -> rd m q = Ret x.
Proof.
  intros [Hp Hd] Hl ->. apply rd_lookup; [lia|]. rewrite <- Hl, <- Hd, lookup_drop. f_equal. lia.
Qed.

Lemma at_pos_mid (l0 l : list Z) : at_pos (l0 ++ l) (zlen l0) l.
Proof. split; [zl|by apply drop_zlen_app]. Qed.

(** [at_pos_cons] without the value read. *)
Lemma at_pos_app' (m : list Z) p q l1 l2 : at_pos m p (l1 ++ l2) -> q = p + zlen l1 -> at_pos m q l2.
Proof. intros H ->. by apply at_pos_app. Qed.

Lemma skip_flags_ok flag m buf len l n : forall fuel posn,
  at_pos m (buf + posn) (replicate (S n) flag ++ l) ->
  (posn + 1 + Z.of_nat n = len \/ posn + 1 + Z.of_nat n < len /\ exists c l', l = c :: l' /\ c <> flag) ->
  (n < fuel)%nat -> skip_flags fuel flag m buf posn len = Ret (posn + Z.of_nat n).
Proof.
  induction n as [|n IH]; intros [|fuel] posn Hp Hend Hf; try lia; cbn [skip_flags].
  - destruct Hend as [<-|(Hlt & c & l' & -> & Hc)].
    + rewrite (proj2 (Z.ltb_ge _ _)) by lia. f_equal. lia.
    + rewrite (proj2 (Z.ltb_lt _ _)) by lia.
      rewrite (read_at _ _ _ 1 c (buf + posn + 1) Hp) by (done || lia). rewrite bind_Ret.
      rewrite (proj2 (Z.eqb_neq _ _)) by done. f_equal. lia.
  - rewrite (proj2 (Z.ltb_lt _ _)) by (destruct Hend as [?|[? _]]; lia).
    rewrite (read_at _ _ _ 1 flag (buf + posn + 1) Hp) by (done || lia). rewrite bind_Ret, Z.eqb_refl.
    rewrite (IH fuel (posn + 1)); [f_equal; lia| | |lia].
    + apply (at_pos_app' _ _ _ [flag] _ Hp). zl.
    + destruct Hend as [?|[? Hc]]; [left; lia|right; split; [lia|done]].
Qed.

(** ** The address octet *)

Definition address (dlc : Z) : Z := u8 (Z.lor (Z.shiftl dlc 2) 0x03).

Lemma address_ok dlc : 0 <= dlc < 64 ->
  is_byte (address dlc) /\ Z.shiftr (address dlc) 2 = dlc /\ Z.land dlc 0x3f = dlc /\
  Z.land (address dlc) 0x01 = 1 /\ address dlc <> 0xf9 /\ address dlc <> 0x7e /\ address dlc <> 0x7d.
Proof.
  intros Hd. pose proof (range_forall (fun d => bool_decide (is_byte (address d)) && (Z.shiftr (address d) 2 =? d) &&
    (Z.land d 0x3f =? d) && (Z.land (address d) 0x01 =? 1) && negb (address d =? 0xf9) &&
    negb (address d =? 0x7e) && negb (address d =? 0x7d)) 0 64 dlc ltac:(by vm_compute) Hd) as H.
  cbv beta in H. bool_to_prop. split_and!; try done. by eapply bool_decide_eq_true_1.
Qed.

(** ** The basic framing *)

Definition length_octets (len : Z) : list Z :=
  if len <=? 127 then [u8 (Z.lor (Z.shiftl len 1) 0x01)] else [u8 (Z.shiftl len 1); u8 (Z.shiftr len 7)].

Definition basic_header (dlc type len : Z) : list Z := address dlc :: type :: length_octets len.

Definition basic_encode (dlc type : Z) (data : list Z) : list Z :=
  0xf9 :: basic_header dlc type (zlen data) ++ data ++ [gsm0710_fcs (basic_header dlc type (zlen data)); 0xf9].

(** The length as the extraction reads it back. *)
Lemma length_octets_ok len : 0 <= len <= 32767 ->
  exists b0 t, length_octets len = b0 :: t /\ bytes (b0 :: t) /\
    (has b0 1 = true /\ t = [] /\ Z.shiftr b0 1 = len \/
     has b0 1 = false /\ exists b1, t = [b1] /\ Z.lor (Z.shiftr b0 1) (Z.shiftl b1 7) = len).
Proof.
  intros Hl. unfold length_octets. destruct (Z.leb_spec len 127).
  - exists (u8 (Z.lor (Z.shiftl len 1) 0x01)), []. split; [done|].
    pose proof (range_forall (fun l => let b := u8 (Z.lor (Z.shiftl l 1) 0x01) in
      bool_decide (is_byte b) && has b 1 && (Z.shiftr b 1 =? l)) 0 128 len ltac:(by vm_compute) ltac:(lia)) as H'.
    cbv beta zeta in H'. bool_to_prop. split; [|by left].
    apply Forall_singleton. by eapply bool_decide_eq_true_1.
  - eexists _, [_]. split; [done|]. unfold u8. rewrite Z.shiftl_mul_pow2, Z.shiftr_div_pow2 by done.
    change (2 ^ 8) with 256. change (2 ^ 1) with 2. change (2 ^ 7) with 128.
    assert (Hb : is_byte ((len * 2) mod 256) /\ is_byte (len / 128 mod 256)) by (split; by apply Z.mod_pos_bound).
    destruct Hb as [Hb0 Hb1]. rewrite (Z.mod_small (len / 128)) in * by dzl.
    split; [apply Forall_cons; split; [done|by apply Forall_singleton]|]. right. split.
    + unfold has. assert (Z.land ((len * 2) mod 256) 1 = 0) as ->; [|done].
      change 1 with (Z.ones 1). rewrite Z.land_ones by done. change (2 ^ 1) with 2. dzl.
    + eexists. split; [done|]. rewrite Z.shiftr_div_pow2 by done. change (2 ^ 1) with 2.
      rewrite lor_shiftl_add by (try done; change (2 ^ 7) with 128; dzl). change (2 ^ 7) with 128. dzl.
Qed.

Lemma basic_encode_len dlc type data : zlen data <= 32767 ->
  zlen (basic_encode dlc type data) <= zlen data + 7 /\ (data = [] -> zlen (basic_encode dlc type data) = 6).
Proof.
  intros Hd. unfold basic_encode, basic_header, length_octets.
  destruct (Z.leb_spec (zlen data) 127); split; try (by intros ->); zl.
Qed.

Lemma basic_fill_ok cap dlc type data more : 0 <= dlc < 64 -> zlen data <= 32767 ->
  zlen (basic_encode dlc type data) <= cap ->
  gsm0710_basic_fill_frame cap dlc type (data ++ more) (zlen data) = Ret (basic_encode dlc type data).
Proof.
  intros Hd Hl Hcap. unfold gsm0710_basic_fill_frame. fold (address dlc).
  unfold basic_encode in *. set (h := basic_header dlc type (zlen data)) in *.
  assert (Hh : h = [address dlc; type] ++ length_octets (zlen data)) by done.
  rewrite put_ok, bind_Ret by (rewrite Hh in Hcap; zl). cbn [app].
  assert (forall fr : list Z, zlen fr + zlen (length_octets (zlen data)) <= cap ->
    (if zlen data <=? 127 then put cap fr [u8 (Z.lor (Z.shiftl (zlen data) 1) 0x01)]
     else put cap fr [u8 (Z.shiftl (zlen data) 1); u8 (Z.shiftr (zlen data) 7)]) =
    Ret (fr ++ length_octets (zlen data))) as ->.
  { intros fr Hfr. unfold length_octets in *. by destruct (zlen data <=? 127); rewrite put_ok. }
  2: { rewrite Hh in Hcap. zl. }
  rewrite bind_Ret. change (drop 1 ([249; address dlc; type] ++ length_octets (zlen data))) with h.
  change ([249; address dlc; type] ++ length_octets (zlen data)) with (249 :: h).
  assert ((if 0 <? zlen data then d ← slice (data ++ more) 0 (zlen data); put cap (249 :: h) d else Ret (249 :: h)) =
    Ret (249 :: h ++ data)) as ->.
  { destruct (Z.ltb_spec 0 (zlen data)) as [Hp|Hz].
    - rewrite (slice_app [] data more), bind_Ret, put_ok by (done || zl). done.
    - destruct data; [by rewrite app_nil_r|zl]. }
  rewrite bind_Ret, put_ok by zl. f_equal. by rewrite <- app_comm_cons, <- app_assoc.
Qed.

(** What lies behind the opening flag. *)
Definition basic_tail (dlc type : Z) (data : list Z) : list Z :=
  basic_header dlc type (zlen data) ++ data ++ [gsm0710_fcs (basic_header dlc type (zlen data)); 0xf9].

Lemma prefix_rd (m : list Z) p (T T' l : list Z) (i : nat) x q : at_pos m p (T' ++ l) -> T' `prefix_of` T ->
  T !! i = Some x -> (i < length T')%nat -> q = p + Z.of_nat i -> rd m q = Ret x.
Proof.
  intros Hp [T'' ->] Hx Hi Hq. apply (read_at _ _ _ i _ _ Hp); [|done].
  rewrite lookup_app_l by done. by rewrite lookup_app_l in Hx by done.
Qed.

Lemma basic_header_ok dlc type len : 0 <= dlc < 64 -> is_byte type -> 0 <= len <= 32767 ->
  bytes (basic_header dlc type len).
Proof.
  intros Hd Ht Hl. destruct (length_octets_ok len Hl) as (b0 & t & Hlo & Hb & _). unfold basic_header. rewrite Hlo.
  apply Forall_cons. split; [by apply address_ok|]. by apply Forall_cons.
Qed.

(** What the scan reports of a frame behind the flag at [posn]. *)
Definition basic_found (buf posn dlc type : Z) (data : list Z) : Z * option frame :=
  let hs := zlen (basic_header dlc type (zlen data)) in
  (posn + (hs + zlen data + 2), Some {| f_dlc := dlc; f_control := Z.land type 0xef;
     f_frame := buf + posn + 1 + hs; f_len := zlen data |}).

Lemma basic_body_ok again m buf posn len dlc type data l :
  0 <= dlc < 64 -> is_byte type -> zlen data <= 32767 ->
  at_pos m (buf + posn + 1) (basic_tail dlc type data ++ l) ->
  posn + 1 + zlen (basic_tail dlc type data) <= len ->
  basic_body again m buf posn len (address dlc) (zlen (basic_header dlc type (zlen data))) (zlen data) =
    Ret (basic_found buf posn dlc type data).
Proof.
  intros Hd Ht Hl Hp Hlen. unfold basic_body, basic_found.
  pose proof (basic_header_ok dlc type (zlen data) Hd Ht ltac:(zl)) as Hbh.
  assert (Hctl : rd m (buf + posn + 2) = Ret type) by (eapply (read_at _ _ _ 1 _ _ Hp); [done|lia]).
  unfold basic_tail in *. set (h := basic_header dlc type (zlen data)) in *.
  rewrite (proj2 (Z.ltb_ge _ _)) by zl. pose proof Hp as Hp2. rewrite <- app_assoc in Hp2.
  rewrite (at_pos_slice _ _ _ _ _ Hp2) by done.
  pose proof (at_pos_app' _ _ (buf + posn + 1 + zlen h) _ _ Hp2 ltac:(lia)) as Hp3. rewrite <- app_assoc in Hp3.
  pose proof (at_pos_app' _ _ (buf + posn + 1 + zlen h + zlen data) _ _ Hp3 ltac:(lia)) as Hp4.
  rewrite (proj1 (at_pos_cons _ _ _ _ Hp4)), !bind_Ret.
  rewrite (proj2 (check_fcs_exact h _ Hbh (fcs_byte h Hbh))) by done. cbn [negb].
  rewrite (read_at _ _ _ 1 0xf9 (buf + posn + zlen h + zlen data + 2) Hp4), bind_Ret by (done || lia).
  cbn [negb Z.eqb Pos.eqb]. rewrite Hctl, bind_Ret. by destruct (address_ok dlc Hd) as (_ & -> & _).
Qed.

(** The scan of what begins with a flag and of which a prefix of a frame has arrived. *)
Lemma basic_scan fuel m buf (k : nat) dlc type data T' l len :
  let T := basic_tail dlc type data in
  0 <= dlc < 64 -> is_byte type -> zlen data <= 32767 ->
  at_pos m buf (replicate (S k) 0xf9 ++ T' ++ l) -> T' `prefix_of` T ->
  len = Z.of_nat k + 1 + zlen T' /\ zlen T' < zlen T \/ T' = T /\ Z.of_nat k + 1 + zlen T' <= len -> (k < fuel)%nat ->
  basic_loop (S fuel) m buf 0 len =
    Ret (if decide (T' = T) then basic_found buf (Z.of_nat k) dlc type data else (Z.of_nat k, None)).
Proof.
  intros T Hd Ht Hl Hm HT Hlen Hf. destruct (address_ok dlc Hd) as (_ & _ & _ & Hodd & Hne & _).
  destruct (length_octets_ok (zlen data)) as (b0 & t & Hlo & _ & Hlen2); [zl|].
  assert (Hh : basic_header dlc type (zlen data) = address dlc :: type :: b0 :: t) by (unfold basic_header; by rewrite Hlo).
  assert (HTe : exists T1, T = (address dlc :: type :: b0 :: t) ++ T1 /\ zlen T1 = zlen data + 2).
  { unfold T, basic_tail. rewrite Hh. eexists. split; [done|]. zl. }
  destruct HTe as (T1 & HTe & HzT1). assert (HzT : zlen T = 3 + zlen t + zlen data + 2) by (rewrite HTe; zl).
  cbn [basic_loop]. rewrite (proj2 (Z.ltb_lt _ _)) by zl.
  rewrite (read_at _ _ _ 0 0xf9 _ Hm), bind_Ret by (done || lia). cbn [negb Z.eqb Pos.eqb].
  rewrite (skip_flags_ok 0xf9 m buf len (T' ++ l) k), bind_Ret, Z.add_0_l; [|by rewrite Z.add_0_r| |lia].
  2: { destruct T' as [|c T2]; [left; destruct Hlen as [[-> _]|[Hx _]]; [zl|by rewrite HTe in Hx]|].
    right. split; [zl|]. exists c, (T2 ++ l). split; [done|]. destruct HT as [T'' HT]. rewrite HTe in HT. by injection HT as <- _. }
  assert (Hp : at_pos m (buf + Z.of_nat k + 1) (T' ++ l)) by (apply (at_pos_app' _ _ _ _ _ Hm); zl).
  assert (Hrd : forall (i : nat) x q, T !! i = Some x -> Z.of_nat i < zlen T' -> q = buf + Z.of_nat k + 1 + Z.of_nat i ->
    rd m q = Ret x) by (intros; eapply prefix_rd; unfold zlen in *; try done; lia).
  assert (Hbody : forall again,
    basic_body again m buf (Z.of_nat k) len (address dlc) (3 + zlen t) (zlen data) =
    Ret (if decide (T' = T) then basic_found buf (Z.of_nat k) dlc type data else (Z.of_nat k, None))).
  { intros again. destruct (decide (T' = T)) as [->|Hn].
    - replace (3 + zlen t) with (zlen (basic_header dlc type (zlen data))) by (rewrite Hh; zl).
      apply (basic_body_ok again m buf (Z.of_nat k) len dlc type data l); try done. destruct Hlen as [?|[_ ?]]; [lia|done].
    - destruct Hlen as [[-> Hlt]|[? _]]; [|done]. unfold basic_body. by rewrite (proj2 (Z.ltb_lt _ _)) by lia. }
  assert (Hshort : forall n, len <= Z.of_nat k + n -> n <= 4 + zlen t -> T' <> T) by (intros n H1 H2 ->; zl).
  destruct (Z.ltb_spec len (Z.of_nat k + 4)) as [Hs|Hs]; [rewrite decide_False; [done|by apply (Hshort 4); zl]|].
  assert (H3 : 3 <= zlen T') by (destruct Hlen as [[-> _]|[-> _]]; zl).
  rewrite (Hrd 0%nat (address dlc) (buf + Z.of_nat k + 1)), bind_Ret, Hodd by (by rewrite HTe || lia). cbn [Z.eqb].
  rewrite (Hrd 2%nat b0 (buf + Z.of_nat k + 3)), bind_Ret by (by rewrite HTe || lia).
  destruct Hlen2 as [(-> & -> & ->)|(-> & b1 & -> & Hb1)]; [by apply Hbody|].
  destruct (Z.ltb_spec len (Z.of_nat k + 5)) as [Hs5|Hs5]; [rewrite decide_False; [done|by apply (Hshort 5); zl]|].
  rewrite (Hrd 3%nat b1 (buf + Z.of_nat k + 4)), bind_Ret, Hb1; [by apply Hbody|by rewrite HTe|destruct Hlen as [[-> _]|[-> _]]; zl|lia].
Qed.

Lemma flags_cons (k : nat) (x : Z) l : replicate k x ++ x :: l = replicate (S k) x ++ l.
Proof. induction k as [|k IH]; [done|]. cbn [replicate app]. by rewrite IH. Qed.

Lemma basic_encode_tail dlc type data : basic_encode dlc type data = 0xf9 :: basic_tail dlc type data.
Proof. done. Qed.

Lemma basic_extract_ok l0 k dlc type data rest l1 :
  0 <= dlc < 64 -> is_byte type -> bytes data -> zlen data <= 32767 ->
  exists l0' f,
    gsm0710_basic_extract_frame (l0 ++ replicate k 0xf9 ++ basic_encode dlc type data ++ rest ++ l1) (zlen l0)
      (Z.of_nat k + zlen (basic_encode dlc type data) + zlen rest) =
      Ret (l0' ++ [0xf9] ++ rest ++ l1, Z.of_nat k + zlen (basic_encode dlc type data) - 1, Some f) /\
    zlen l0' = zlen l0 + (Z.of_nat k + zlen (basic_encode dlc type data) - 1) /\
    f_dlc f = dlc /\ f_control f = Z.land type 0xef /\ f_len f = zlen data /\
    slice l0' (f_frame f) (zlen data) = Ret data.
Proof.
  intros Hd Ht _ Hl. rewrite basic_encode_tail, <- app_comm_cons, flags_cons. unfold gsm0710_basic_extract_frame.
  rewrite (basic_scan _ _ _ k dlc type data (basic_tail dlc type data) (rest ++ l1)); try done.
  2: by apply at_pos_mid. 2: { right. split; [done|]. zl. } 2: { rewrite zlen_cons. zlen_pos. lia. }
  rewrite decide_True, bind_Ret by done. unfold basic_found, basic_tail.
  set (h := basic_header dlc type (zlen data)).
  exists (l0 ++ (replicate (S k) 0xf9 ++ h) ++ data ++ [gsm0710_fcs h]). eexists. split_and!.
  - assert (forall (a b : list Z) (c d : Z) (f : option frame), a = b -> c = d -> Ret (a, c, f) = Ret (b, d, f)) as Heq
      by (by intros ? ? ? ? ? -> ->). apply Heq; [by rewrite <- !app_assoc|zl].
  - zl.
  - done.
  - done.
  - done.
  - cbn [f_frame]. rewrite app_assoc. apply slice_app; zl.
Qed.

Lemma prefix_take {A} n (l : list A) : take n l `prefix_of` l.
Proof. exists (drop n l). by rewrite take_drop. Qed.

Lemma basic_extract_partial l0 k dlc type data j l1 :
  0 <= dlc < 64 -> is_byte type -> bytes data -> zlen data <= 32767 ->
  (j < length (basic_encode dlc type data))%nat ->
  let m := l0 ++ replicate k 0xf9 ++ take j (basic_encode dlc type data) ++ l1 in
  gsm0710_basic_extract_frame m (zlen l0) (Z.of_nat (k + j)) =
    Ret (m, Z.of_nat (if decide (j = O) then pred k else k), None).
Proof.
  intros Hd Ht _ Hl Hj m. rewrite basic_encode_tail in *. unfold gsm0710_basic_extract_frame.
  assert (Hscan : forall n T', T' `prefix_of` basic_tail dlc type data -> zlen T' < zlen (basic_tail dlc type data) ->
    m = l0 ++ replicate (S n) 0xf9 ++ T' ++ l1 -> (k + j)%nat = (S n + length T')%nat ->
    basic_loop (S (S (Z.to_nat (Z.of_nat (k + j))))) m (zlen l0) 0 (Z.of_nat (k + j)) = Ret (Z.of_nat n, None)).
  { intros n T' HT Hlt Hm Hn. rewrite Hn.
    rewrite (basic_scan _ m (zlen l0) n dlc type data T' l1); try done; [| |left; split; [unfold zlen; lia|done]|lia].
    - rewrite decide_False; [done|]. intros ->. lia.
    - rewrite Hm. apply at_pos_mid. }
  destruct j as [|j]; cbn [decide].
  - destruct k as [|k]; [done|]. rewrite (Hscan k []); [done|apply prefix_nil|unfold basic_tail; zl|done|cbn; lia].
  - rewrite (Hscan k (take j (basic_tail dlc type data))); try done.
    + apply prefix_take.
    + cbn [length] in Hj. rewrite zlen_take. unfold zlen. lia.
    + unfold m. rewrite basic_encode_tail, firstn_cons, <- app_comm_cons, flags_cons. done.
    + cbn [length] in Hj. rewrite length_take. lia.
Qed.

#[export] Instance basic_laws : FramingLaws basic_framing.
Proof.
  refine {| flag := 0xf9; encode := basic_encode |}.
  - intros dlc type data. unfold basic_encode. set (h := basic_header dlc type (zlen data)).
    exists (h ++ data ++ [gsm0710_fcs h]). f_equal. by rewrite <- !app_assoc.
  - apply basic_fill_ok.
  - intros fs dlc data _ Hl. cbn [frame_room basic_framing]. unfold basic_encode, basic_header, length_octets.
    destruct (zlen data <=? 127); zl.
  - intros dlc type _ _ _. by vm_compute.
  - apply basic_extract_ok.
  - apply basic_extract_partial.
Defined.

(** ** The advanced framing *)

Definition quote (x : Z) : list Z := if (x =? 0x7e) || (x =? 0x7d) then [0x7d; Z.lxor x 0x20] else [x].

Definition quoted (l : list Z) : list Z := concat (map quote l).

Definition advanced_body (dlc type : Z) (data : list Z) : list Z :=
  address dlc :: type :: data ++ [gsm0710_fcs [address dlc; type]].

Definition advanced_encode (dlc type : Z) (data : list Z) : list Z :=
  0x7e :: quoted (advanced_body dlc type data) ++ [0x7e].

Lemma quoted_cons x l : quoted (x :: l) = quote x ++ quoted l.
Proof. done. Qed.

Lemma quoted_app l1 l2 : quoted (l1 ++ l2) = quoted l1 ++ quoted l2.
Proof. unfold quoted. by rewrite map_app, concat_app. Qed.

(** An octet that has to be quoted, and one that has not. *)
Lemma quote_cases x :
  (quote x = [0x7d; Z.lxor x 0x20] /\ Z.lxor x 0x20 <> 0x7e /\ Z.lxor (Z.lxor x 0x20) 0x20 = x) \/
  (quote x = [x] /\ x <> 0x7e /\ x <> 0x7d).
Proof.
  unfold quote. destruct (Z.eqb_spec x 0x7e) as [->|]; [by left|]. destruct (Z.eqb_spec x 0x7d) as [->|]; [by left|].
  by right.
Qed.

Lemma quoted_len l : zlen l <= zlen (quoted l) <= 2 * zlen l.
Proof.
  induction l as [|x l IH]; [done|]. rewrite quoted_cons. destruct (quote_cases x) as [(-> & _)|(-> & _)]; zl.
Qed.

Lemma quoted_no_flag l : Forall (fun c => c <> 0x7e) (quoted l).
Proof.
  induction l as [|x l IH]; [done|]. rewrite quoted_cons. apply Forall_app. split; [|done].
  destruct (quote_cases x) as [(-> & H & _)|(-> & H & _)].
  - by apply Forall_cons; split; [|apply Forall_singleton].
  - by apply Forall_singleton.
Qed.

(** *** Construction *)

Lemma store_quoted_ok cap fr x : zlen fr + zlen (quote x) <= cap -> store_quoted cap fr x = Ret (fr ++ quote x).
Proof.
  unfold store_quoted, quote. destruct (Z.eqb_spec x 0x7e); cbn [negb andb orb];
    [|destruct (Z.eqb_spec x 0x7d); cbn [negb andb orb]]; intros H; rewrite put_ok by zl; try done;
    rewrite bind_Ret, put_ok by zl; by rewrite <- app_assoc.
Qed.

Lemma store_data_ok cap data more : forall fr, zlen fr + zlen (quoted data) <= cap ->
  store_data cap fr (data ++ more) (length data) = Ret (fr ++ quoted data).
Proof.
  induction data as [|x data IH]; intros fr H.
  { change (quoted []) with (@nil Z). by rewrite app_nil_r. }
  rewrite quoted_cons in *.
  cbn [length app store_data]. rewrite store_quoted_ok, bind_Ret, IH by zl. by rewrite <- app_assoc.
Qed.

Lemma quote_address dlc : 0 <= dlc < 64 -> quote (address dlc) = [address dlc].
Proof.
  intros Hd. destruct (address_ok dlc Hd) as (_ & _ & _ & _ & _ & H1 & H2). unfold quote.
  by rewrite !(proj2 (Z.eqb_neq _ _)).
Qed.

Lemma advanced_fill_ok cap dlc type data more : 0 <= dlc < 64 -> zlen data <= 32767 ->
  zlen (advanced_encode dlc type data) <= cap ->
  gsm0710_advanced_fill_frame cap dlc type (data ++ more) (zlen data) = Ret (advanced_encode dlc type data).
Proof.
  intros Hd _. unfold gsm0710_advanced_fill_frame, advanced_encode, advanced_body. fold (address dlc).
  set (fcs := gsm0710_fcs _). rewrite !quoted_cons, quote_address, quoted_app, quoted_cons by done.
  change (quoted []) with (@nil Z). rewrite app_nil_r. intros Hcap.
  assert (Hq : 1 <= zlen (quote type)) by (destruct (quote_cases type) as [(-> & _)|(-> & _)]; zl).
  rewrite (put_ok cap []), bind_Ret by zl. cbn [app].
  assert ((if (type =? 0x7e) || (type =? 0x7d) then put cap [0x7e; address dlc] [0x7d; Z.lxor type 0x20]
           else Ret [0x7e; address dlc; type]) = Ret ([0x7e; address dlc] ++ quote type)) as ->.
  { unfold quote in *. destruct ((type =? 0x7e) || (type =? 0x7d)); [apply put_ok; zl|done]. }
  rewrite bind_Ret, to_nat_zlen, store_data_ok, bind_Ret by zl.
  rewrite store_quoted_ok, bind_Ret, put_ok by zl. f_equal. cbn [app]. by rewrite <- !app_assoc.
Qed.

(** *** Extraction *)

Lemma find_flag_ok m buf len l r : forall fuel i, at_pos m (buf + i) (l ++ r) -> Forall (fun c => c <> 0x7e) l ->
  i + zlen l = len \/ i + zlen l < len /\ head r = Some 0x7e -> (length l < fuel)%nat ->
  find_flag fuel m buf i len = Ret (i + zlen l).
Proof.
  induction l as [|c l IH]; intros [|fuel] i Hp Hl Hend Hf; cbn [length] in Hf; try lia; cbn [find_flag].
  - change (zlen []) with 0 in *. rewrite Z.add_0_r in *. destruct Hend as [->|[Hlt Hr]]; [by rewrite Z.ltb_irrefl|].
    rewrite (proj2 (Z.ltb_lt _ _)) by done. destruct r as [|c r]; [done|]. injection Hr as ->.
    by rewrite (proj1 (at_pos_cons _ _ _ _ Hp)).
  - apply Forall_cons in Hl as [Hc Hl]. cbn [app] in Hp. destruct (at_pos_cons _ _ _ _ Hp) as [Hrd Hp'].
    rewrite (proj2 (Z.ltb_lt _ _)), Hrd, bind_Ret, (proj2 (Z.eqb_neq _ _)) by (done || zl).
    rewrite IH; [f_equal; zl|by rewrite Z.add_assoc|done| |lia].
    rewrite zlen_cons in Hend. destruct Hend as [?|[? ?]]; [left; lia|right; split; [lia|done]].
Qed.

(** The quoted octets are stored, unquoted, over what precedes them. *)
Lemma unquote_ok (l0 tail : list Z) todo : forall fuel (past junk : list Z),
  junk <> [] -> (length todo < fuel)%nat ->
  let posn := zlen past + zlen junk in
  exists junk',
    unquote fuel (l0 ++ past ++ junk ++ quoted todo ++ tail) (zlen l0) posn (zlen past) (posn + zlen (quoted todo)) =
      Ret (l0 ++ (past ++ todo) ++ junk' ++ tail, posn + zlen (quoted todo), zlen (past ++ todo)) /\
    zlen junk' = zlen junk + zlen (quoted todo) - zlen todo.
Proof.
  induction todo as [|c todo IH]; intros [|fuel] past junk Hj Hf posn; cbn [length] in Hf; try lia.
  - exists junk. split; [|zl]. cbn [unquote]. change (quoted []) with (@nil Z). change (zlen []) with 0.
    rewrite Z.add_0_r, Z.ltb_irrefl, app_nil_r. done.
  - destruct junk as [|x junk]; [done|]. cbn [unquote].
    assert (Hstep : forall q, quote c = q -> junk ++ q <> [] ->
      let posn' := posn + zlen q in
      exists junk',
      unquote fuel (l0 ++ past ++ c :: (junk ++ q) ++ quoted todo ++ tail) (zlen l0) posn' (zlen past + 1)
        (posn + zlen (quoted (c :: todo))) =
        Ret (l0 ++ (past ++ c :: todo) ++ junk' ++ tail, posn + zlen (quoted (c :: todo)), zlen (past ++ c :: todo)) /\
      zlen junk' = zlen (x :: junk) + zlen (quoted (c :: todo)) - zlen (c :: todo)).
    { intros q Hq Hn posn'. destruct (IH fuel (past ++ [c]) (junk ++ q)) as (junk' & He & Hz); [done|lia|].
      exists junk'. rewrite quoted_cons, Hq. split; [|zl].
      replace posn' with (zlen (past ++ [c]) + zlen (junk ++ q)) by (unfold posn', posn; zl).
      replace (posn + zlen (q ++ quoted todo)) with (zlen (past ++ [c]) + zlen (junk ++ q) + zlen (quoted todo))
        by (unfold posn; zl).
      replace (zlen past + 1) with (zlen (past ++ [c])) by zl.
      assert ((past ++ [c]) ++ todo = past ++ c :: todo) as Ht by (by rewrite <- app_assoc). rewrite Ht in He.
      assert (forall l, (past ++ [c]) ++ l = past ++ c :: l) as Hl by (intros l; by rewrite <- app_assoc).
      by rewrite Hl in He. }
    rewrite quoted_cons in *. set (m := l0 ++ past ++ (x :: junk) ++ (quote c ++ quoted todo) ++ tail).
    assert (Hp : at_pos m (zlen l0 + posn) ((quote c ++ quoted todo) ++ tail)).
    { unfold m. rewrite !(app_assoc l0), (app_assoc (l0 ++ past)). replace (zlen l0 + posn) with
        (zlen ((l0 ++ past) ++ x :: junk)) by (unfold posn; zl). apply at_pos_mid. }
    assert (Hwr : forall v, wr m (zlen l0 + zlen past) v = Ret (l0 ++ past ++ v :: (junk ++ quote c) ++ quoted todo ++ tail)).
    { intros v. unfold m. cbn [app]. rewrite (app_assoc l0), wr_middle by zl. by rewrite <- !app_assoc. }
    rewrite (proj2 (Z.ltb_lt _ _)) by (destruct (quote_cases c) as [(-> & _)|(-> & _)]; zl).
    destruct (quote_cases c) as [(Hq & _ & Hx)|(Hq & _ & H7d)].
    + rewrite Hq in *. cbn [app] in Hp. destruct (at_pos_cons _ _ _ _ Hp) as [-> Hp2].
      destruct (at_pos_cons _ _ _ _ Hp2) as [Hr2 _]. rewrite bind_Ret. cbn [Z.eqb Pos.eqb].
      rewrite (proj2 (Z.leb_gt _ _)) by zl. rewrite Z.add_assoc, Hr2, bind_Ret, Hx, Hwr, bind_Ret.
      apply (Hstep [0x7d; Z.lxor c 0x20]); [done|by destruct junk].
    + rewrite Hq in *. cbn [app] in Hp. destruct (at_pos_cons _ _ _ _ Hp) as [-> _]. rewrite bind_Ret.
      rewrite (proj2 (Z.eqb_neq _ _)), Hwr, bind_Ret by done. apply (Hstep [c]); [done|by destruct junk].
Qed.

Lemma advanced_body_ok dlc type data : 0 <= dlc < 64 -> is_byte type ->
  bytes [address dlc; type] /\ 3 <= zlen (quoted (advanced_body dlc type data)) /\
  exists l, quoted (advanced_body dlc type data) = address dlc :: l.
Proof.
  intros Hd Ht. split_and!.
  - apply Forall_cons. split; [by apply address_ok|by apply Forall_singleton].
  - pose proof (quoted_len (advanced_body dlc type data)). unfold advanced_body in *. zl.
  - unfold advanced_body. rewrite quoted_cons, quote_address by done. by eexists.
Qed.

(** The scan as far as the search of the closing flag. *)
Lemma advanced_scan fuel m buf (k : nat) Q r len :
  at_pos m buf (replicate (S k) 0x7e ++ Q ++ r) -> Forall (fun c => c <> 0x7e) Q ->
  Z.of_nat k + 1 + zlen Q = len \/ Z.of_nat k + 1 + zlen Q < len /\ Q <> [] /\ head r = Some 0x7e ->
  (k + length Q < fuel)%nat ->
  skip_flags fuel 0x7e m buf 0 len = Ret (Z.of_nat k) /\
  find_flag (S fuel) m buf (Z.of_nat k + 1) len = Ret (Z.of_nat k + 1 + zlen Q).
Proof.
  intros Hm HQ Hend Hf. split.
  - rewrite (skip_flags_ok 0x7e m buf len (Q ++ r) k); [done|by rewrite Z.add_0_r| |lia].
    destruct Q as [|c Q].
    + left. destruct Hend as [<-|(_ & ? & _)]; [zl|done].
    + right. split; [destruct Hend as [?|[? _]]; zl|]. apply Forall_cons in HQ as [Hc _]. by exists c, (Q ++ r).
  - apply (find_flag_ok m buf len Q r); [apply (at_pos_app' _ _ _ _ _ Hm); zl|done| |lia].
    destruct Hend as [?|(? & _ & ?)]; [by left|by right].
Qed.

Lemma advanced_extract_ok l0 k dlc type data rest l1 :
  0 <= dlc < 64 -> is_byte type -> bytes data -> zlen data <= 32767 ->
  exists l0' f,
    gsm0710_advanced_extract_frame (l0 ++ replicate k 0x7e ++ advanced_encode dlc type data ++ rest ++ l1) (zlen l0)
      (Z.of_nat k + zlen (advanced_encode dlc type data) + zlen rest) =
      Ret (l0' ++ [0x7e] ++ rest ++ l1, Z.of_nat k + zlen (advanced_encode dlc type data) - 1, Some f) /\
    zlen l0' = zlen l0 + (Z.of_nat k + zlen (advanced_encode dlc type data) - 1) /\
    f_dlc f = dlc /\ f_control f = Z.land type 0xef /\ f_len f = zlen data /\
    slice l0' (f_frame f) (zlen data) = Ret data.
Proof.
  intros Hd Ht _ _. destruct (advanced_body_ok dlc type data Hd Ht) as (Hb & HzQ & l & HlQ).
  unfold advanced_encode. rewrite <- app_comm_cons, flags_cons, <- app_assoc.
  set (B := advanced_body dlc type data) in *. set (Q := quoted B) in *.
  set (len := Z.of_nat k + zlen (0x7e :: Q ++ [0x7e]) + zlen rest).
  assert (Hlen : len = Z.of_nat k + zlen Q + 2 + zlen rest) by (unfold len; zl).
  set (m := l0 ++ replicate (S k) 0x7e ++ Q ++ [0x7e] ++ rest ++ l1).
  assert (Hm : at_pos m (zlen l0) (replicate (S k) 0x7e ++ Q ++ [0x7e] ++ rest ++ l1)) by apply at_pos_mid.
  unfold gsm0710_advanced_extract_frame. cbn [advanced_loop].
  rewrite (proj2 (Z.ltb_lt _ _)) by zl. rewrite (read_at _ _ _ 0 0x7e (zlen l0 + 0) Hm), bind_Ret by (done || lia).
  cbn [negb Z.eqb Pos.eqb].
  destruct (advanced_scan (S (Z.to_nat len)) m (zlen l0) k Q ([0x7e] ++ rest ++ l1) len) as [-> Hfind];
    [done|apply quoted_no_flag|right; split_and!; [zl|by rewrite HlQ|done]|unfold zlen in *; lia|].
  rewrite bind_Ret, Hfind, bind_Ret, (proj2 (Z.leb_gt _ _)), (proj2 (Z.ltb_ge _ _)) by zl.
  destruct (unquote_ok l0 ([0x7e] ++ rest ++ l1) B (S (S (Z.to_nat len))) [] (replicate (S k) 0x7e))
    as (junk & Hun & Hjunk); [done| |].
  { pose proof (quoted_len B) as HqB. change (quoted B) with Q in HqB. unfold zlen in *. lia. }
  change (quoted B) with Q in Hun, Hjunk. cbn [app] in Hun. rewrite zlen_replicate in Hun. change (zlen []) with 0 in Hun.
  replace (0 + Z.of_nat (S k)) with (Z.of_nat k + 1) in Hun by lia.
  rewrite (Hun : unquote _ m _ _ _ _ = _), bind_Ret.
  set (m' := l0 ++ B ++ junk ++ 0x7e :: rest ++ l1).
  assert (Hm' : at_pos m' (zlen l0) (B ++ junk ++ 0x7e :: rest ++ l1)) by apply at_pos_mid.
  pose proof Hm' as Hm1. unfold B, advanced_body in Hm1. cbn [app] in Hm1. destruct (at_pos_cons _ _ _ _ Hm1) as [-> Hm2].
  destruct (at_pos_cons _ _ _ _ Hm2) as [-> Hm3]. rewrite !bind_Ret.
  assert (HzB : zlen B = 3 + zlen data) by (unfold B, advanced_body; zl).
  pose proof (at_pos_app' _ _ (zlen l0 + (zlen B - 1)) _ _ ltac:(rewrite <- app_assoc in Hm3; exact Hm3) ltac:(lia)) as Hm4.
  rewrite (proj1 (at_pos_cons _ _ _ _ Hm4)), bind_Ret.
  rewrite (proj2 (check_fcs_exact _ _ Hb (fcs_byte _ Hb))) by done. cbn [negb].
  destruct (address_ok dlc Hd) as (_ & -> & -> & _).
  exists (l0 ++ [address dlc; type] ++ data ++ [gsm0710_fcs [address dlc; type]] ++ junk). eexists. split_and!.
  - assert (forall (a b : list Z) (c d : Z) (f : option frame), a = b -> c = d -> Ret (a, c, f) = Ret (b, d, f)) as Heq
      by (by intros ? ? ? ? ? -> ->). apply Heq; [|zl].
    unfold m', B, advanced_body. by repeat (rewrite <- !app_assoc; cbn [app]).
  - rewrite !zlen_app. zl.
  - done.
  - done.
  - cbn [f_len]. lia.
  - cbn [f_frame]. rewrite app_assoc. apply slice_app; zl.
Qed.

Lemma advanced_extract_partial l0 k dlc type data j l1 :
  0 <= dlc < 64 -> is_byte type -> bytes data -> zlen data <= 32767 ->
  (j < length (advanced_encode dlc type data))%nat ->
  let m := l0 ++ replicate k 0x7e ++ take j (advanced_encode dlc type data) ++ l1 in
  gsm0710_advanced_extract_frame m (zlen l0) (Z.of_nat (k + j)) =
    Ret (m, Z.of_nat (if decide (j = O) then pred k else k), None).
Proof.
  intros Hd Ht _ _ Hj m. unfold advanced_encode in *. set (Q := quoted (advanced_body dlc type data)) in *.
  assert (Hscan : forall n Q', Forall (fun c => c <> 0x7e) Q' -> m = l0 ++ replicate (S n) 0x7e ++ Q' ++ l1 ->
    (k + j)%nat = (S n + length Q')%nat ->
    gsm0710_advanced_extract_frame m (zlen l0) (Z.of_nat (k + j)) = Ret (m, Z.of_nat n, None)).
  { intros n Q' HQ Hm Hn. rewrite Hn. set (len := Z.of_nat (S n + length Q')).
    assert (Hlen : len = Z.of_nat n + 1 + zlen Q') by (unfold len, zlen; lia).
    assert (Hp : at_pos m (zlen l0) (replicate (S n) 0x7e ++ Q' ++ l1)) by (rewrite Hm; apply at_pos_mid).
    unfold gsm0710_advanced_extract_frame. cbn [advanced_loop].
    rewrite (proj2 (Z.ltb_lt _ _)) by zl. rewrite (read_at _ _ _ 0 0x7e (zlen l0 + 0) Hp), bind_Ret by (done || lia).
    cbn [negb Z.eqb Pos.eqb].
    destruct (advanced_scan (S (Z.to_nat len)) m (zlen l0) n Q' l1 len) as [-> Hfind]; [done|done|by left|lia|].
    by rewrite bind_Ret, Hfind, bind_Ret, (proj2 (Z.leb_le _ _)) by lia. }
  destruct j as [|j]; cbn [decide].
  - destruct k as [|k]; [done|]. apply (Hscan k []); [done|done|cbn; lia].
  - assert (j <= length Q)%nat by (cbn [length] in Hj; rewrite length_app in Hj; cbn [length] in Hj; lia).
    apply (Hscan k (take j Q)); [apply Forall_take, quoted_no_flag| |rewrite length_take; lia].
    unfold m. rewrite firstn_cons, <- app_comm_cons, flags_cons. by rewrite take_app_le by done.
Qed.

#[export] Instance advanced_laws : FramingLaws advanced_framing.
Proof.
  refine {| flag := 0x7e; encode := advanced_encode |}.
  - intros dlc type data. by exists (quoted (advanced_body dlc type data)).
  - apply advanced_fill_ok.
  - intros fs dlc data Hd Hl. cbn [frame_room advanced_framing]. unfold advanced_encode, advanced_body.
    pose proof (quoted_len data). pose proof (quoted_len [gsm0710_fcs [address dlc; 0xef]]).
    rewrite !quoted_cons, quote_address, quoted_app by done. change (quote 0xef) with [0xef]. zl.
  - intros dlc type Hd H1 H2. cbn [command_room advanced_framing]. unfold advanced_encode, advanced_body.
    pose proof (quoted_len [gsm0710_fcs [address dlc; type]]).
    rewrite !quoted_cons, quote_address by done. destruct (quote_cases type) as [(Hq & _)|(-> & _)]; [|cbn [app]; zl].
    unfold quote in Hq. by rewrite !(proj2 (Z.eqb_neq _ _)) in Hq.
  - apply advanced_extract_ok.
  - apply advanced_extract_partial.
Defined.

(** * Any octets *)

(** What an extraction reports lies within the octets it has passed over. *)
Definition frame_within (buf posn : Z) (f : option frame) : Prop :=
  match f with
  | None => True
  | Some f => buf <= f_frame f /\ 0 <= f_len f /\ f_frame f + f_len f <= buf + posn
  end.

Lemma skip_flags_total flag m buf len : forall fuel posn,
  0 <= buf + posn -> posn < len -> buf + len <= zlen m -> (Z.to_nat (len - posn) < fuel)%nat ->
  exists posn', skip_flags fuel flag m buf posn len = Ret posn' /\ posn <= posn' < len.
Proof.
  induction fuel as [|fuel IH]; intros posn Hb Hp Hl Hf; [lia|]. cbn [skip_flags].
  destruct (Z.ltb_spec (posn + 1) len); [|exists posn; split; [done|lia]].
  destruct (rd_in_bounds m (buf + posn + 1)) as [c ->]; [lia|]. rewrite bind_Ret.
  destruct (c =? flag); [|exists posn; split; [done|lia]].
  destruct (IH (posn + 1)) as (p & -> & ?); [lia..|]. exists p. split; [done|lia].
Qed.

Lemma rd_byte_at m i : bytes m -> 0 <= i < zlen m -> exists b, rd m i = Ret b /\ is_byte b.
Proof.
  intros Hm Hi. destruct (rd_in_bounds m i Hi) as [b Hb]. exists b. split; [done|].
  apply rd_lookup in Hb; [|lia]. by eapply Forall_lookup_1.
Qed.

Lemma slice_total {A} (m : list A) off n : 0 <= off -> 0 <= n -> off + n <= zlen m -> exists l, slice m off n = Ret l.
Proof. intros H1 H2 H3. unfold slice. rewrite !(proj2 (Z.leb_le _ _)) by lia. eauto. Qed.

Lemma basic_body_total again m buf posn len address hs framelen :
  0 <= buf -> 0 <= posn -> buf + len <= zlen m -> 3 <= hs -> 0 <= framelen ->
  (forall p, posn < p <= len -> exists p' f, again p = Ret (p', f) /\ p <= p' <= len /\ frame_within buf p' f) ->
  posn <= len ->
  exists p' f, basic_body again m buf posn len address hs framelen = Ret (p', f) /\ posn <= p' <= len /\ frame_within buf p' f.
Proof.
  intros Hb Hp Hl Hhs Hfl Hag Hlen. unfold basic_body.
  destruct (Z.ltb_spec len (posn + hs + 3 + framelen)); [exists posn, None; split_and!; done || lia|].
  destruct (rd_in_bounds m (buf + posn + 1 + hs + framelen)) as [fcs ->]; [lia|].
  destruct (slice_total m (buf + posn + 1) hs) as [h ->]; [lia..|].
  destruct (rd_in_bounds m (buf + posn + hs + framelen + 2)) as [cl ->]; [lia|].
  destruct (rd_in_bounds m (buf + posn + 2)) as [ct ->]; [lia|]. rewrite !bind_Ret.
  destruct (Hag (posn + (hs + framelen + 2))) as (p' & f & -> & Hp' & Hf); [lia|].
  destruct (negb (gsm0710_check_fcs h fcs)); [exists p', f; split_and!; done || lia|].
  destruct (negb (cl =? 0xf9)); [exists p', f; split_and!; done || lia|].
  eexists _, _. split; [done|]. cbn. lia.
Qed.

Lemma basic_loop_total m buf len fuel : forall posn, bytes m -> 0 <= buf -> 0 <= posn <= len -> buf + len <= zlen m ->
  (Z.to_nat (len - posn) + 1 < fuel)%nat ->
  exists p f, basic_loop fuel m buf posn len = Ret (p, f) /\ posn <= p <= len /\ frame_within buf p f.
Proof.
  induction fuel as [|fuel IH]; intros posn Hm Hb Hp Hl Hf; [lia|]. cbn [basic_loop].
  destruct (Z.ltb_spec posn len); [|exists posn, None; split_and!; done || lia].
  destruct (rd_in_bounds m (buf + posn)) as [c ->]; [lia|]. rewrite bind_Ret.
  assert (Hag : forall q, posn < q <= len ->
    exists p f, basic_loop fuel m buf q len = Ret (p, f) /\ q <= p <= len /\ frame_within buf p f)
    by (intros q Hq; apply IH; done || lia).
  destruct (negb (c =? 0xf9)); [destruct (Hag (posn + 1)) as (p & f & -> & ? & ?); [lia|]; exists p, f; split_and!; done || lia|].
  destruct (skip_flags_total 0xf9 m buf len fuel posn) as (q & -> & Hq); [lia..|]. rewrite bind_Ret.
  destruct (Z.ltb_spec len (q + 4)); [exists q, None; split_and!; done || lia|].
  destruct (rd_byte_at m (buf + q + 1) Hm) as (a & -> & Ha); [lia|].
  destruct (rd_byte_at m (buf + q + 3) Hm) as (l0 & -> & Hl0); [lia|]. rewrite !bind_Ret.
  assert (Hag' : forall p, q < p <= len ->
    exists p' f, basic_loop fuel m buf p len = Ret (p', f) /\ p <= p' <= len /\ frame_within buf p' f)
    by (intros p Hp'; apply Hag; lia).
  assert (0 <= Z.shiftr l0 1) by (apply Z.shiftr_nonneg; unfold is_byte in *; lia).
  assert (Hweak : forall r, (exists p' f, r = Ret (p', f) /\ q <= p' <= len /\ frame_within buf p' f) ->
    exists p' f, r = Ret (p', f) /\ posn <= p' <= len /\ frame_within buf p' f)
    by (intros r (p' & f & ? & ? & ?); exists p', f; split_and!; done || lia).
  apply Hweak. destruct (Z.land a 1 =? 0).
  { destruct (Hag' (q + 1)) as (p & f & -> & ? & ?); [lia|]. exists p, f. split_and!; done || lia. }
  destruct (has l0 1); [apply basic_body_total; done || lia|].
  destruct (Z.ltb_spec len (q + 5)); [exists q, None; split_and!; done || lia|].
  destruct (rd_byte_at m (buf + q + 4) Hm) as (l1 & -> & Hl1); [lia|]. rewrite bind_Ret.
  apply basic_body_total; try done; try lia. apply Z.lor_nonneg. split; [done|].
  apply Z.shiftl_nonneg. unfold is_byte in *. lia.
Qed.

(** The extraction of a basic frame terminates on every content of the
    buffer, never touches an octet outside it, and what it reports of a frame is
    the position of octets that it has passed over. *)
Theorem basic_extract_safe m buf len : bytes m -> 0 <= buf -> 0 <= len -> buf + len <= zlen m ->
  exists posn f, gsm0710_basic_extract_frame m buf len = Ret (m, posn, f) /\ 0 <= posn <= len /\ frame_within buf posn f.
Proof.
  intros Hm Hb Hl Hz. unfold gsm0710_basic_extract_frame.
  destruct (basic_loop_total m buf len (S (S (Z.to_nat len))) 0) as (p & f & -> & ? & ?); [done|lia..|].
  exists p, f. split; [done|]. split; [lia|done].
Qed.

Lemma basic_extract_safe_witness :
  exists posn f, gsm0710_basic_extract_frame [0xf9; 0xff; 0x07; 0xff; 0xf9; 0xf9] 1 5 =
    Ret ([0xf9; 0xff; 0x07; 0xff; 0xf9; 0xf9], posn, f) /\ 0 <= posn <= 5 /\ frame_within 1 posn f.
Proof. apply (basic_extract_safe _ 1 5); [by apply (bool_decide_unpack _)|lia|lia|]. change (1 + 5 <= 6). lia. Defined.

(** The extraction of an advanced frame is not as careful: of a frame of less
    than three octets it reports a length below zero (the reading of what comes
    before the buffer apart). *)
Lemma advanced_extract_short :
  (exists m, gsm0710_advanced_extract_frame [0x00; 0x7e; 0x0f; 0xef; 0x7e] 0 5 =
     Ret (m, 4, Some {| f_dlc := 3; f_control := 0xef; f_frame := 2; f_len := -1 |})) /\
  gsm0710_advanced_extract_frame [0x7e; 0x7e; 0x7e; 0x7d; 0x7e] 0 5 = Ub.
Proof. split; [eexists|]; by vm_compute. Qed.

(** ** The memory of the advanced extraction *)

Lemma wr_len {A} (l : list A) i v l' : wr l i v = Ret l' -> zlen l' = zlen l.
Proof. unfold wr. destruct (_ && _); [|done]. intros [= <-]. by rewrite zlen_insert. Qed.

Lemma find_flag_bounds m buf len fuel : forall i e, i <= len -> find_flag fuel m buf i len = Ret e -> i <= e <= len.
Proof.
  induction fuel as [|fuel IH]; intros i e Hi; cbn [find_flag]; [done|].
  destruct (Z.ltb_spec i len); [|intros [= <-]; lia]. intros H'. apply bind_inv in H' as (c & _ & H').
  destruct (c =? 0x7e); [injection H' as <-; lia|]. apply IH in H'; lia.
Qed.

Lemma skip_flags_bounds flag m buf len fuel : forall i e, i < len -> skip_flags fuel flag m buf i len = Ret e -> i <= e < len.
Proof.
  induction fuel as [|fuel IH]; intros i e Hi; cbn [skip_flags]; [done|].
  destruct (Z.ltb_spec (i + 1) len); [|intros [= <-]; lia]. intros H'. apply bind_inv in H' as (c & _ & H').
  destruct (c =? flag); [apply IH in H'; lia|injection H' as <-; lia].
Qed.

Lemma unquote_bounds buf e fuel : forall m i j m' i' j', i <= e ->
  unquote fuel m buf i j e = Ret (m', i', j') -> zlen m' = zlen m /\ i' = e.
Proof.
  induction fuel as [|fuel IH]; intros m i j m' i' j' Hi; cbn [unquote]; [done|].
  destruct (Z.ltb_spec i e); [|intros [= -> <- <-]; split; [done|lia]]. intros H'.
  apply bind_inv in H' as (c & _ & H'). destruct (c =? 0x7d).
  - destruct (Z.leb_spec e (i + 1)); [injection H' as -> <- <-; split; [done|lia]|].
    apply bind_inv in H' as (c' & _ & H'). apply bind_inv in H' as (m1 & Hw & H').
    apply IH in H' as [-> ->]; [|lia]. by rewrite (wr_len _ _ _ _ Hw).
  - apply bind_inv in H' as (m1 & Hw & H'). apply IH in H' as [-> ->]; [|lia]. by rewrite (wr_len _ _ _ _ Hw).
Qed.

Lemma advanced_loop_bounds buf len fuel : forall m posn m' p f, 0 <= posn <= len ->
  advanced_loop fuel m buf posn len = Ret (m', p, f) -> zlen m' = zlen m /\ posn <= p <= len.
Proof.
  induction fuel as [|fuel IH]; intros m posn m' p f Hp; cbn [advanced_loop]; [done|].
  destruct (Z.ltb_spec posn len); [|intros [= <- <- <-]; split; [done|lia]]. intros H'.
  apply bind_inv in H' as (c & _ & H'). destruct (negb (c =? 0x7e)); [apply IH in H'; [split; [easy|lia]|lia]|].
  apply bind_inv in H' as (q & Hq & H'). apply skip_flags_bounds in Hq; [|lia].
  apply bind_inv in H' as (e & He & H'). apply find_flag_bounds in He; [|lia].
  destruct (Z.leb_spec len e); [injection H' as <- <- <-; split; [done|lia]|].
  destruct (e <? 4); [apply IH in H'; [split; [easy|lia]|lia]|].
  apply bind_inv in H' as ([[m1 i] j] & Hun & H'). apply unquote_bounds in Hun as [Hz ->]; [|lia].
  apply bind_inv in H' as (b0 & _ & H'). apply bind_inv in H' as (b1 & _ & H'). apply bind_inv in H' as (fcs & _ & H').
  destruct (negb _); [apply IH in H'; [|lia]; rewrite <- Hz; split; [easy|lia]|].
  injection H' as <- <- <-. split; [done|lia].
Qed.

Lemma wr_bytes l i v l' : bytes l -> is_byte v -> wr l i v = Ret l' -> bytes l'.
Proof. intros Hl Hv. unfold wr. destruct (_ && _); [|done]. intros [= <-]. by apply Forall_insert. Qed.

Lemma rd_bytes l i v : bytes l -> rd l i = Ret v -> is_byte v.
Proof.
  intros Hl Hr. assert (0 <= i) by (unfold rd in Hr; destruct (Z.ltb_spec i 0); [done|lia]).
  apply rd_lookup in Hr; [|done]. by eapply Forall_lookup_1.
Qed.

Lemma unquote_bytes buf e fuel : forall m i j m' i' j', bytes m ->
  unquote fuel m buf i j e = Ret (m', i', j') -> bytes m'.
Proof.
  induction fuel as [|fuel IH]; intros m i j m' i' j' Hm; cbn [unquote]; [done|].
  destruct (i <? e); [|by intros [= -> <- <-]]. intros H'.
  apply bind_inv in H' as (c & Hc & H'). apply rd_bytes in Hc; [|done]. destruct (c =? 0x7d).
  - destruct (e <=? i + 1); [by injection H' as -> <- <-|]. apply bind_inv in H' as (c' & Hc' & H').
    apply rd_bytes in Hc'; [|done]. apply bind_inv in H' as (m1 & Hw & H').
    apply IH in H'; [done|]. by apply (wr_bytes _ _ _ _ Hm (lxor_byte c' 0x20 Hc' ltac:(done)) Hw).
  - apply bind_inv in H' as (m1 & Hw & H'). apply IH in H'; [done|]. by apply (wr_bytes _ _ _ _ Hm Hc Hw).
Qed.

Lemma advanced_loop_bytes buf len fuel : forall m posn m' p f, bytes m ->
  advanced_loop fuel m buf posn len = Ret (m', p, f) -> bytes m'.
Proof.
  induction fuel as [|fuel IH]; intros m posn m' p f Hm; cbn [advanced_loop]; [done|].
  destruct (posn <? len); [|by intros [= <- <- <-]]. intros H'.
  apply bind_inv in H' as (c & _ & H'). destruct (negb (c =? 0x7e)); [by apply IH in H'|].
  apply bind_inv in H' as (q & _ & H'). apply bind_inv in H' as (e & _ & H').
  destruct (len <=? e); [by injection H' as <- <- <-|]. destruct (e <? 4); [by apply IH in H'|].
  apply bind_inv in H' as ([[m1 i] j] & Hun & H'). apply unquote_bytes in Hun; [|done].
  apply bind_inv in H' as (b0 & _ & H'). apply bind_inv in H' as (b1 & _ & H'). apply bind_inv in H' as (fcs & _ & H').
  destruct (negb _); [by apply IH in H'|]. by injection H' as <- <- <-.
Qed.

(** What both extractions keep, whatever the buffer holds. *)
Class FramingMemory (F : Framing) : Prop := extract_bounds m buf len m' posn f :
  bytes m -> 0 <= buf -> 0 <= len -> buf + len <= zlen m -> extract_frame m buf len = Ret (m', posn, f) ->
  bytes m' /\ zlen m' = zlen m /\ 0 <= posn <= len.

#[export] Instance basic_memory : FramingMemory basic_framing.
Proof.
  intros m buf len m' posn f Hm Hb Hl Hz. cbn [extract_frame basic_framing]. unfold gsm0710_basic_extract_frame.
  destruct (basic_loop_total m buf len (S (S (Z.to_nat len))) 0) as (p & f' & -> & Hp & _); [done|lia..|].
  intros [= <- <- _]. done.
Qed.

#[export] Instance advanced_memory : FramingMemory advanced_framing.
Proof.
  intros m buf len m' posn f Hm Hb Hl Hz He. cbn [extract_frame advanced_framing] in He.
  split; [by apply advanced_loop_bytes in He|]. apply advanced_loop_bounds in He; [done|lia].
Qed.
