(* ===== verification/GatMux.v ===== *)
(** The GSM 07.10 multiplexer of src/gatchat/gatmux.c, on the frames of
    Gsm0710.v and the ring buffers of RingBuffer.v: channels over one serial
    line, each with a buffer of received octets.  The callbacks of the watches
    are the program's other parts: that they are run is an event of [mux_log],
    and so is a write to the line. *)
From S2P Require Import Prelude RingBuffer Gsm0710.

(** * State *)

Definition MAX_CHANNELS : Z := 61.
Definition BITMAP_SIZE : Z := 8.
Definition MUX_CHANNEL_BUFFER_SIZE : Z := 4096.
Definition MUX_BUFFER_SIZE : Z := 4096.

(** Conditions of a GIOChannel. *)
Definition G_IO_IN : Z := 1.
Definition G_IO_OUT : Z := 4.
Definition G_IO_ERR : Z := 8.
Definition G_IO_HUP : Z := 16.
Definition G_IO_NVAL : Z := 32.

(** [ch_sources] are the conditions that the watches of the channel wait for. *)
Record GAtMuxChannel := {
  ch_condition : Z; ch_buffer : ring_buffer; ch_sources : list Z; ch_throttled : bool; ch_dlc : Z
}.

(** [dispatch_sources (channel of the dlc, condition)]; a write to the line. *)
Inductive mux_event :=
  | Dispatch (dlc condition : Z)
  | RawWrite (data : list Z).

(** The identifiers of the two sources are known by being set or not. *)
Record GAtMux := {
  mux_read_watch : bool; mux_write_watch : bool; mux_dlcs : list (option GAtMuxChannel);
  mux_newdata : list Z; mux_buf : list Z; mux_buf_used : Z; mux_shutdown : bool;
  mux_frame_size : Z; mux_log : list mux_event
}.

Definition set_channels (mux : GAtMux) (dlcs : list (option GAtMuxChannel)) (newdata : list Z) : GAtMux :=
  {| mux_read_watch := mux_read_watch mux; mux_write_watch := mux_write_watch mux; mux_dlcs := dlcs;
     mux_newdata := newdata; mux_buf := mux_buf mux; mux_buf_used := mux_buf_used mux;
     mux_shutdown := mux_shutdown mux; mux_frame_size := mux_frame_size mux; mux_log := mux_log mux |}.

Definition set_buf (mux : GAtMux) (buf : list Z) (used : Z) : GAtMux :=
  {| mux_read_watch := mux_read_watch mux; mux_write_watch := mux_write_watch mux; mux_dlcs := mux_dlcs mux;
     mux_newdata := mux_newdata mux; mux_buf := buf; mux_buf_used := used;
     mux_shutdown := mux_shutdown mux; mux_frame_size := mux_frame_size mux; mux_log := mux_log mux |}.

Definition set_watches (mux : GAtMux) (read write shutdown : bool) : GAtMux :=
  {| mux_read_watch := read; mux_write_watch := write; mux_dlcs := mux_dlcs mux;
     mux_newdata := mux_newdata mux; mux_buf := mux_buf mux; mux_buf_used := mux_buf_used mux;
     mux_shutdown := shutdown; mux_frame_size := mux_frame_size mux; mux_log := mux_log mux |}.

Definition add_event (mux : GAtMux) (e : mux_event) : GAtMux :=
  {| mux_read_watch := mux_read_watch mux; mux_write_watch := mux_write_watch mux; mux_dlcs := mux_dlcs mux;
     mux_newdata := mux_newdata mux; mux_buf := mux_buf mux; mux_buf_used := mux_buf_used mux;
     mux_shutdown := mux_shutdown mux; mux_frame_size := mux_frame_size mux; mux_log := mux_log mux ++ [e] |}.

Definition set_ch_buffer (c : GAtMuxChannel) (condition : Z) (buffer : ring_buffer) : GAtMuxChannel :=
  {| ch_condition := condition; ch_buffer := buffer; ch_sources := ch_sources c;
     ch_throttled := ch_throttled c; ch_dlc := ch_dlc c |}.

Definition set_ch_sources (c : GAtMuxChannel) (sources : list Z) (throttled : bool) : GAtMuxChannel :=
  {| ch_condition := ch_condition c; ch_buffer := ch_buffer c; ch_sources := sources;
     ch_throttled := throttled; ch_dlc := ch_dlc c |}.

Definition set_channel (mux : GAtMux) (dlc : Z) (c : option GAtMuxChannel) : res GAtMux :=
  dlcs ← wr (mux_dlcs mux) (dlc - 1) c; Ret (set_channels mux dlcs (mux_newdata mux)).

(** [mux->dlcs[dlc-1]], which is not NULL. *)
Definition get_channel (mux : GAtMux) (dlc : Z) : res GAtMuxChannel :=
  c ← rd (mux_dlcs mux) (dlc - 1); match c with Some c => Ret c | None => Ub end.

(** * The line and the channels *)

Definition dispatch_sources (mux : GAtMux) (dlc condition : Z) : GAtMux := add_event mux (Dispatch dlc condition).

Definition g_at_mux_raw_write (mux : GAtMux) (data : list Z) : GAtMux := add_event mux (RawWrite data).

Definition wakeup_writer (mux : GAtMux) : GAtMux :=
  if mux_write_watch mux then mux else set_watches mux (mux_read_watch mux) true (mux_shutdown mux).

(** [data] is what lies in memory from the pointer on, of which [tofeed] octets
    are taken; the count becomes the unsigned one of [ring_buffer_write]. *)
Definition g_at_mux_feed_dlc_data (mux : GAtMux) (dlc : Z) (data : list Z) (tofeed : Z) : res GAtMux :=
  if (dlc <? 1) || (MAX_CHANNELS <? dlc) then Ret mux
  else
    channel ← rd (mux_dlcs mux) (dlc - 1);
    match channel with
    | None => Ret mux
    | Some channel =>
        '(buffer, written) ← ring_buffer_write (ch_buffer channel) data (u32 tofeed);
        if written <? 0 then Ret mux
        else
          let offset := dlc / 8 in
          let bit := dlc mod 8 in
          b ← rd (mux_newdata mux) offset;
          newdata ← wr (mux_newdata mux) offset (Z.lor b (Z.shiftl 1 bit));
          dlcs ← wr (mux_dlcs mux) (dlc - 1)
                   (Some (set_ch_buffer channel (Z.lor (ch_condition channel) G_IO_IN) buffer));
          Ret (set_channels mux dlcs newdata)
    end.

Definition G_AT_MUX_DLC_STATUS_RTR : Z := 0x04.

Definition g_at_mux_set_dlc_status (mux : GAtMux) (dlc status : Z) : res GAtMux :=
  if (dlc <? 1) || (MAX_CHANNELS <? dlc) then Ret mux
  else
    channel ← rd (mux_dlcs mux) (dlc - 1);
    match channel with
    | None => Ret mux
    | Some channel =>
        if has status G_AT_MUX_DLC_STATUS_RTR then
          mux ← set_channel mux dlc (Some (set_ch_sources channel (ch_sources channel) false));
          Ret (if existsb (fun condition => has condition G_IO_OUT) (ch_sources channel)
               then wakeup_writer mux else mux)
        else set_channel mux dlc (Some (set_ch_sources channel (ch_sources channel) true))
    end.

(** A client reads at most [count] octets from a channel: what it gets. *)
Definition channel_read (mux : GAtMux) (dlc count : Z) : res (GAtMux * list Z) :=
  c ← get_channel mux dlc;
  let avail := ring_buffer_len_no_wrap (ch_buffer c) in
  let avail := if count <? avail then count else avail in
  '(buffer, data) ← ring_buffer_read (ch_buffer c) avail;
  mux ← set_channel mux dlc (Some (set_ch_buffer c (ch_condition c) buffer));
  Ret (mux, data).

(** The watch waits for [condition]. *)
Definition channel_create_watch (mux : GAtMux) (dlc condition : Z) : res GAtMux :=
  c ← get_channel mux dlc;
  let mux := if has condition G_IO_OUT && negb (ch_throttled c) then wakeup_writer mux else mux in
  set_channel mux dlc (Some (set_ch_sources c (condition :: ch_sources c) (ch_throttled c))).

(** The channels [1 .. MAX_CHANNELS], in order. *)
Definition all_dlcs : list Z := seqZ 1 MAX_CHANNELS.

(** The line can be written: the open channels that are not throttled are told,
    and the watch stays if one of them still waits to write. *)
Definition can_send (mux : GAtMux) (dlc : Z) : bool :=
  match mux_dlcs mux !! Z.to_nat (dlc - 1) with Some (Some c) => negb (ch_throttled c) | _ => false end.

Definition waits (mux : GAtMux) (dlc : Z) : bool :=
  match mux_dlcs mux !! Z.to_nat (dlc - 1) with
  | Some (Some c) => negb (ch_throttled c) && existsb (fun condition => has condition G_IO_OUT) (ch_sources c)
  | _ => false
  end.

Definition can_write_data (mux : GAtMux) (cond : Z) : GAtMux * bool :=
  if has cond (Z.lor G_IO_NVAL (Z.lor G_IO_HUP G_IO_ERR)) then (mux, false)
  else
    let mux := fold_left (fun mux dlc => if can_send mux dlc then dispatch_sources mux dlc G_IO_OUT else mux)
                 all_dlcs mux in
    (mux, existsb (waits mux) all_dlcs).

(** * The driver *)

Definition GSM0710_OPEN_CHANNEL : Z := 0x3f.
Definition GSM0710_CLOSE_CHANNEL : Z := 0x53.
Definition GSM0710_DATA : Z := 0xef.
Definition GSM0710_STATUS_SET : Z := 0xe3.
Definition GSM0710_STATUS_ACK : Z := 0xe1.

(** The two drivers differ in the functions they call for the frames only. *)
Section Driver.
Context (F : Framing).

Definition write_frame (mux : GAtMux) (dlc control : Z) (data : list Z) (towrite : Z) : res GAtMux :=
  frame ← fill_frame (frame_room (mux_frame_size mux)) dlc control data towrite;
  Ret (g_at_mux_raw_write mux frame).

(** A frame without data, in an array of its own. *)
Definition write_command (mux : GAtMux) (dlc control : Z) : res GAtMux :=
  frame ← fill_frame command_room dlc control [] 0; Ret (g_at_mux_raw_write mux frame).

(** The end of [gsm0710_packet], for a GSM0710_STATUS_ACK on channel 0. *)
Definition status_packet (mux : GAtMux) (data : list Z) (len : Z) : res GAtMux :=
  mux ← (if 2 <=? len then
           d0 ← rd data 0;
           let dlc := Z.shiftr (Z.land d0 0xfc) 2 in
           if (1 <=? dlc) && (dlc <=? 63) then d1 ← rd data 1; g_at_mux_set_dlc_status mux dlc d1 else Ret mux
         else Ret mux);
  let len := if 31 <? len then 31 else len in
  copy ← slice data 0 len;
  write_frame mux 0 GSM0710_DATA ([GSM0710_STATUS_ACK; u8 (Z.lor (Z.shiftl len 1) 0x01)] ++ copy) (len + 2).

Definition gsm0710_packet (mux : GAtMux) (dlc control : Z) (data : list Z) (len : Z) : res GAtMux :=
  if (control =? 0xef) || (control =? 0x03) then
    if (1 <=? dlc) && (dlc <=? 63) then g_at_mux_feed_dlc_data mux dlc data len
    else if (dlc =? 0) && (2 <=? len) then
      d0 ← rd data 0;
      if (d0 =? GSM0710_STATUS_SET : bool) then status_packet mux (drop 2 data) (len - 2)
      else if d0 =? 0x43 then
        resp ← slice data 0 len;
        resp ← wr resp 0 0x41;
        write_frame mux 0 GSM0710_DATA resp len
      else Ret mux
    else Ret mux
  else if (control =? GSM0710_STATUS_ACK) && (dlc =? 0) then status_packet mux data len
  else Ret mux.

(** The frames of [len] octets from [data] on in the buffer: the number of
    octets used up. *)
Fixpoint feed_loop (fuel : nat) (mux : GAtMux) (data len total : Z) : res (GAtMux * Z) :=
  match fuel with
  | O => Ub
  | S fuel =>
      '(buf, nread, f) ← extract_frame (mux_buf mux) data len;
      let mux := set_buf mux buf (mux_buf_used mux) in
      let total := total + nread in
      let data := data + nread in
      let len := len - nread in
      match f with
      | None => Ret (mux, total)
      | Some f =>
          mux ← gsm0710_packet mux (f_dlc f) (f_control f) (drop (Z.to_nat (f_frame f)) (mux_buf mux)) (f_len f);
          if 0 <? nread then feed_loop fuel mux data len total else Ret (mux, total)
      end
  end.

Definition feed_data (mux : GAtMux) (len : Z) : res (GAtMux * Z) := feed_loop (S (Z.to_nat len)) mux 0 len 0.

(** A status command for [dlc], on channel 0. *)
Definition set_status (mux : GAtMux) (dlc status : Z) : res GAtMux :=
  write_frame mux 0 GSM0710_DATA [GSM0710_STATUS_SET; 0x03; u8 (Z.lor (Z.shiftl dlc 2) 0x03); status] 4.

(** [while (towrite > 0)] *)
Fixpoint write_loop (fuel : nat) (mux : GAtMux) (dlc : Z) (data : list Z) (towrite : Z) : res GAtMux :=
  match fuel with
  | O => Ub
  | S fuel =>
      if 0 <? towrite then
        let max := Z.min towrite (mux_frame_size mux) in
        mux ← write_frame mux dlc GSM0710_DATA data max;
        write_loop fuel mux dlc (drop (Z.to_nat max) data) (towrite - max)
      else Ret mux
  end.

Definition driver_write (mux : GAtMux) (dlc : Z) (data : list Z) (towrite : Z) : res GAtMux :=
  write_loop (S (Z.to_nat towrite)) mux dlc data towrite.

(** * The multiplexer *)

(** A client writes [count] octets to a channel; all count as written. *)
Definition channel_write (mux : GAtMux) (dlc : Z) (buf : list Z) (count : Z) : res (GAtMux * Z) :=
  c ← get_channel mux dlc; mux ← driver_write mux (ch_dlc c) buf count; Ret (mux, count).

Definition channel_close (mux : GAtMux) (dlc : Z) : res GAtMux :=
  c ← get_channel mux dlc;
  let mux := dispatch_sources mux (ch_dlc c) G_IO_NVAL in
  mux ← write_command mux (ch_dlc c) GSM0710_CLOSE_CHANNEL;
  set_channel mux (ch_dlc c) None.

Definition g_at_mux_new (frame_size : Z) : GAtMux :=
  {| mux_read_watch := false; mux_write_watch := false; mux_dlcs := replicate (Z.to_nat MAX_CHANNELS) None;
     mux_newdata := replicate (Z.to_nat BITMAP_SIZE) 0; mux_buf := replicate (Z.to_nat MUX_BUFFER_SIZE) 0;
     mux_buf_used := 0; mux_shutdown := true; mux_frame_size := frame_size; mux_log := [] |}.

Definition g_at_mux_start (mux : GAtMux) : res GAtMux :=
  mux ← write_command mux 0 GSM0710_OPEN_CHANNEL; Ret (set_watches mux true (mux_write_watch mux) false).

(** [for (i = 0; i < MAX_CHANNELS; i++)] with [i + 1] for [dlc] *)
Fixpoint close_loop (mux : GAtMux) (dlcs : list Z) : res GAtMux :=
  match dlcs with
  | [] => Ret mux
  | dlc :: dlcs =>
      c ← rd (mux_dlcs mux) (dlc - 1);
      match c with
      | None => close_loop mux dlcs
      | Some _ => mux ← channel_close mux dlc; close_loop mux dlcs
      end
  end.

Definition g_at_mux_shutdown (mux : GAtMux) : res (GAtMux * bool) :=
  if mux_shutdown mux then Ret (mux, false)
  else
    let mux := set_watches mux false false (mux_shutdown mux) in
    mux ← close_loop mux all_dlcs;
    mux ← write_command mux 0 GSM0710_CLOSE_CHANNEL;
    Ret (set_watches mux (mux_read_watch mux) (mux_write_watch mux) true, true).

(** [for (i = 0; i < MAX_CHANNELS; i++) if (mux->dlcs[i] == NULL) break;] *)
Fixpoint free_slot (dlcs : list (option GAtMuxChannel)) : Z :=
  match dlcs with
  | [] => 0
  | None :: _ => 0
  | Some _ :: dlcs => 1 + free_slot dlcs
  end.

(** The new channel is known by its DLC; NULL is [Err]. *)
Definition g_at_mux_create_channel (mux : GAtMux) : res (GAtMux * Z) :=
  let i := free_slot (mux_dlcs mux) in
  check (negb (i =? MAX_CHANNELS));;
  mux ← write_command mux (i + 1) GSM0710_OPEN_CHANNEL;
  buffer ← ring_buffer_new MUX_CHANNEL_BUFFER_SIZE;
  mux ← set_channel mux (i + 1) (Some {| ch_condition := 0; ch_buffer := buffer; ch_sources := [];
                                        ch_throttled := false; ch_dlc := i + 1 |});
  Ret (mux, i + 1).

(** [for (i = 1; i <= MAX_CHANNELS; i++)] over the bits of [newdata] *)
Fixpoint wake_loop (mux : GAtMux) (dlcs : list Z) : res GAtMux :=
  match dlcs with
  | [] => Ret mux
  | i :: dlcs =>
      b ← rd (mux_newdata mux) (i / 8);
      if has b (Z.shiftl 1 (i mod 8)) then
        c ← get_channel mux i;
        wake_loop (dispatch_sources mux (ch_dlc c) G_IO_IN) dlcs
      else wake_loop mux dlcs
  end.

(** The line has something to read: [chunk] is what [g_io_channel_read_chars]
    stores at the end of the buffer, and [status_ok] whether its status is
    NORMAL or AGAIN.  The result is false when the watch is to be removed. *)
Definition received_data (mux : GAtMux) (cond : Z) (chunk : list Z) (status_ok : bool) : res (GAtMux * bool) :=
  if has cond G_IO_NVAL then Ret (mux, false)
  else
    buf ← blit (mux_buf mux) (mux_buf_used mux) chunk;
    let mux := set_buf mux buf (mux_buf_used mux + zlen chunk) in
    '(mux, buffer_full) ←
      (if 0 <? zlen chunk then
         let mux := set_channels mux (mux_dlcs mux) (replicate (Z.to_nat BITMAP_SIZE) 0) in
         '(mux, nread) ← feed_data mux (mux_buf_used mux);
         let mux := set_buf mux (mux_buf mux) (mux_buf_used mux - nread) in
         mux ← (if 0 <? mux_buf_used mux then
                  rest ← slice (mux_buf mux) nread (mux_buf_used mux);
                  buf ← blit (mux_buf mux) 0 rest;
                  Ret (set_buf mux buf (mux_buf_used mux))
                else Ret mux);
         mux ← wake_loop mux all_dlcs;
         Ret (mux, mux_buf_used mux =? MUX_BUFFER_SIZE)
       else Ret (mux, false));
    if has cond (Z.lor G_IO_HUP G_IO_ERR) then Ret (mux, false)
    else if negb status_ok then Ret (mux, false)
    else Ret (mux, negb buffer_full).
End Driver.

(** The functions of the two drivers. *)
Definition gsm0710_basic_write_frame := write_frame basic_framing.
Definition gsm0710_basic_startup (mux : GAtMux) := write_command basic_framing mux 0 GSM0710_OPEN_CHANNEL.
Definition gsm0710_basic_shutdown (mux : GAtMux) := write_command basic_framing mux 0 GSM0710_CLOSE_CHANNEL.
Definition gsm0710_basic_open_dlc (mux : GAtMux) (dlc : Z) := write_command basic_framing mux dlc GSM0710_OPEN_CHANNEL.
Definition gsm0710_basic_close_dlc (mux : GAtMux) (dlc : Z) := write_command basic_framing mux dlc GSM0710_CLOSE_CHANNEL.
Definition gsm0710_basic_feed_data := feed_data basic_framing.
Definition gsm0710_basic_set_status := set_status basic_framing.
Definition gsm0710_basic_write := driver_write basic_framing.
Definition gsm0710_advanced_write_frame := write_frame advanced_framing.
Definition gsm0710_advanced_startup (mux : GAtMux) := write_command advanced_framing mux 0 GSM0710_OPEN_CHANNEL.
Definition gsm0710_advanced_shutdown (mux : GAtMux) := write_command advanced_framing mux 0 GSM0710_CLOSE_CHANNEL.
Definition gsm0710_advanced_open_dlc (mux : GAtMux) (dlc : Z) :=
  write_command advanced_framing mux dlc GSM0710_OPEN_CHANNEL.
Definition gsm0710_advanced_close_dlc (mux : GAtMux) (dlc : Z) :=
  write_command advanced_framing mux dlc GSM0710_CLOSE_CHANNEL.
Definition gsm0710_advanced_feed_data := feed_data advanced_framing.
Definition gsm0710_advanced_set_status := set_status advanced_framing.
Definition gsm0710_advanced_write := driver_write advanced_framing.

(** * The invariant *)

Record channel_ok (dlc : Z) (c : GAtMuxChannel) : Prop := {
  channel_dlc : ch_dlc c = dlc;
  channel_ring : ring_ok (ch_buffer c);
  channel_size : rb_size (ch_buffer c) = MUX_CHANNEL_BUFFER_SIZE
}.

Record mux_ok (mux : GAtMux) : Prop := {
  mux_dlcs_len : zlen (mux_dlcs mux) = MAX_CHANNELS;
  mux_channels_ok i c : mux_dlcs mux !! i = Some (Some c) -> channel_ok (Z.of_nat i + 1) c;
  mux_newdata_len : zlen (mux_newdata mux) = BITMAP_SIZE;
  mux_buf_len : zlen (mux_buf mux) = MUX_BUFFER_SIZE;
  mux_buf_used_ok : 0 <= mux_buf_used mux <= MUX_BUFFER_SIZE
}.

(** The octets that wait in an open channel to be read. *)
Definition waiting (mux : GAtMux) (dlc : Z) : option (list Z) :=
  match mux_dlcs mux !! Z.to_nat (dlc - 1) with Some (Some c) => Some (contents (ch_buffer c)) | _ => None end.

(** The channel's bit in [newdata]. *)
Definition news (mux : GAtMux) (dlc : Z) : bool :=
  Z.testbit (nth (Z.to_nat (dlc / 8)) (mux_newdata mux) 0) (dlc mod 8).

(** Two states that differ in the channels only. *)
Definition same_line (mux mux' : GAtMux) : Prop :=
  mux_buf mux' = mux_buf mux /\ mux_buf_used mux' = mux_buf_used mux /\
  mux_frame_size mux' = mux_frame_size mux /\ mux_log mux' = mux_log mux.

Lemma get_channel_ok mux dlc : mux_ok mux -> 1 <= dlc <= 61 ->
  exists o, rd (mux_dlcs mux) (dlc - 1) = Ret o /\ mux_dlcs mux !! Z.to_nat (dlc - 1) = Some o /\
    match o with Some c => channel_ok dlc c | None => True end.
Proof.
  intros Hok Hd. pose proof (mux_dlcs_len mux Hok) as Hl. unfold MAX_CHANNELS in Hl.
  destruct (rd_in_bounds (mux_dlcs mux) (dlc - 1)) as [o Ho]; [lia|]. exists o. split; [done|].
  apply rd_lookup in Ho; [|lia]. split; [done|]. destruct o as [c|]; [|done].
  apply (mux_channels_ok mux Hok) in Ho. by replace (Z.of_nat (Z.to_nat (dlc - 1)) + 1) with dlc in Ho by lia.
Qed.

(** A channel is replaced by another of the same number, or closed. *)
Lemma set_channel_ok mux dlc o newdata : mux_ok mux -> 1 <= dlc <= 61 -> zlen newdata = BITMAP_SIZE ->
  match o with Some c => channel_ok dlc c | None => True end ->
  exists dlcs, wr (mux_dlcs mux) (dlc - 1) o = Ret dlcs /\ mux_ok (set_channels mux dlcs newdata) /\
    same_line mux (set_channels mux dlcs newdata) /\
    forall d, 1 <= d -> waiting (set_channels mux dlcs newdata) d =
      if decide (d = dlc) then (fun c => contents (ch_buffer c)) <$> o else waiting mux d.
Proof.
  intros Hok Hd Hn Ho. pose proof (mux_dlcs_len mux Hok) as Hl. unfold MAX_CHANNELS in Hl.
  unfold wr. rewrite (proj2 (Z.leb_le _ _)), (proj2 (Z.ltb_lt _ _)) by lia. cbn [andb].
  eexists. split; [done|]. split; [|split; [done|]].
  - split; try apply Hok; cbn [set_channels mux_dlcs mux_newdata]; [by rewrite zlen_insert| |done].
    intros i c Hi. apply list_lookup_insert_Some in Hi as [(<- & -> & _)|[_ Hi]]; [|by apply Hok].
    by replace (Z.of_nat (Z.to_nat (dlc - 1)) + 1) with dlc by lia.
  - intros d Hd1. unfold waiting. cbn [set_channels mux_dlcs]. destruct (decide (d = dlc)) as [->|Hne].
    + rewrite list_lookup_insert_eq by (unfold zlen in Hl; lia). by destruct o.
    + by rewrite list_lookup_insert_ne by lia.
Qed.

(** ** A channel's buffer *)

Lemma slice_more {A} (l more : list A) off n l' : slice l off n = Ret l' -> slice (l ++ more) off n = Ret l'.
Proof.
  intros H. pose proof (slice_Ret _ _ _ _ H) as (Ho & Hn & Hl & ->). unfold slice.
  rewrite !(proj2 (Z.leb_le _ _)) by zl. cbn [andb]. f_equal.
  rewrite drop_app_le by (unfold zlen in *; lia). rewrite take_app_le; [done|]. rewrite length_drop. unfold zlen in *. lia.
Qed.

(** What lies behind the octets to be written does not matter; a buffer keeps
    the first octets that it has room for. *)
Lemma ring_write_prefix r data more size : ring_ok r -> rb_size r = size -> zlen data < 2 ^ 32 ->
  exists r' n, ring_buffer_write r (data ++ more) (u32 (zlen data)) = Ret (r', n) /\ 0 <= n /\ ring_ok r' /\
    rb_size r' = size /\ contents r' = take (Z.to_nat size) (contents r ++ data).
Proof.
  intros Hr Hs Hl. rewrite u32_small by zl. destruct (write_ok r data Hr) as (r' & Hw & Hr' & Hs' & Hc).
  pose proof (used_bounds r Hr) as Hu. pose proof (contents_len r Hr) as Hcl.
  set (n := Z.min (zlen data) (rb_size r - used r)) in *. exists r', n. split_and!; try done; [|zl|congruence|].
  - rewrite <- Hw. unfold ring_buffer_write. rewrite (room_used r Hr). fold n.
    set (e := Z.min n (rb_size r - Z.land (rb_in r) (rb_mask r))).
    assert (He : 0 <= e).
    { unfold e. rewrite (mask_mod r Hr). pose proof (size_bounds r Hr).
      pose proof (Z.mod_pos_bound (rb_in r) (rb_size r)). zl. }
    destruct (take_split data e (n - e)) as (a & b & Ha & Hb & _); [lia..|].
    by rewrite Ha, Hb, (slice_more _ more _ _ _ Ha), (slice_more _ more _ _ _ Hb).
  - rewrite Hc, <- Hs. unfold zlen in Hcl.
    rewrite take_app, (take_ge (contents r)) by lia. f_equal.
    destruct (Z.min_spec (zlen data) (rb_size r - used r)) as [[? Hm]|[? Hm]]; fold n in Hm.
    + rewrite !take_ge by (unfold zlen in *; lia). done.
    + f_equal. lia.
Qed.

Lemma news_lor mux dlc b newdata d : mux_ok mux -> 1 <= dlc <= 61 -> 1 <= d ->
  rd (mux_newdata mux) (dlc / 8) = Ret b -> wr (mux_newdata mux) (dlc / 8) (Z.lor b (Z.shiftl 1 (dlc mod 8))) = Ret newdata ->
  Z.testbit (nth (Z.to_nat (d / 8)) newdata 0) (d mod 8) = news mux d || bool_decide (d = dlc).
Proof.
  intros Hok Hd Hd1 Hb. pose proof (mux_newdata_len mux Hok) as Hl. unfold BITMAP_SIZE in Hl.
  unfold wr. rewrite (proj2 (Z.leb_le _ _)), (proj2 (Z.ltb_lt _ _)) by dzl. cbn [andb]. intros [= <-].
  apply rd_lookup in Hb; [|dzl]. unfold news. rewrite !nth_lookup.
  destruct (decide (d / 8 = dlc / 8)) as [He|Hne].
  - rewrite He, list_lookup_insert_eq, Hb by (unfold zlen in *; dzl). cbn [from_option id].
    rewrite Z.lor_spec, Z.shiftl_spec by dzl. f_equal.
    case_bool_decide as Hde.
    + subst d. by rewrite Z.sub_diag.
    + assert (d mod 8 - dlc mod 8 <> 0) by (intros ?; apply Hde; dzl).
      destruct (Z.testbit 1 (d mod 8 - dlc mod 8)) eqn:E; [|done]. exfalso.
      destruct (Z.lt_ge_cases (d mod 8 - dlc mod 8) 0); [by rewrite Z.testbit_neg_r in E|].
      rewrite (Z.bits_above_log2 1) in E by (cbn; lia). done.
  - rewrite list_lookup_insert_ne by (intros He; apply Hne; dzl).
    rewrite bool_decide_eq_false_2 by congruence. by rewrite orb_false_r.
Qed.

(** Data for a channel: they are queued if the channel is open. *)
Lemma feed_dlc_ok mux dlc data more : mux_ok mux -> 1 <= dlc <= 63 -> zlen data < 2 ^ 32 ->
  exists mux', g_at_mux_feed_dlc_data mux dlc (data ++ more) (zlen data) = Ret mux' /\ mux_ok mux' /\
    same_line mux mux' /\
    (forall d, 1 <= d -> waiting mux' d = (fun l => if decide (d = dlc) then take 4096 (l ++ data) else l) <$> waiting mux d) /\
    forall d, 1 <= d -> news mux' d = true -> news mux d = true \/ d = dlc /\ waiting mux' d <> None.
Proof.
  intros Hok Hd Hl. unfold g_at_mux_feed_dlc_data, MAX_CHANNELS. rewrite (proj2 (Z.ltb_ge dlc 1)) by lia. cbn [orb].
  assert (Hsame : forall d, waiting mux d = None \/ d <> dlc ->
    waiting mux d = (fun l => if decide (d = dlc) then take 4096 (l ++ data) else l) <$> waiting mux d).
  { intros d [->|Hne]; [done|]. destruct (waiting mux d); [|done]. cbn. by rewrite decide_False. }
  destruct (Z.ltb_spec 61 dlc) as [Hbig|Hsmall].
  { exists mux. split_and!; try done; [|by left]. intros d Hd1. apply Hsame.
    destruct (decide (d = dlc)) as [->|]; [left|by right]. unfold waiting.
    rewrite lookup_ge_None_2; [done|]. pose proof (mux_dlcs_len mux Hok). unfold zlen, MAX_CHANNELS in *. lia. }
  destruct (get_channel_ok mux dlc Hok) as (o & -> & Hlk & Ho); [lia|]. rewrite bind_Ret.
  destruct o as [c|].
  2: { exists mux. split_and!; try done; [|by left]. intros d Hd1. apply Hsame.
    destruct (decide (d = dlc)) as [->|]; [left|by right]. unfold waiting. by rewrite Hlk. }
  destruct Ho as [Hcd Hcr Hcs].
  destruct (ring_write_prefix (ch_buffer c) data more 4096) as (r' & n & -> & Hn & Hr' & Hs' & Hc'); [done..|].
  rewrite bind_Ret, (proj2 (Z.ltb_ge _ _)) by done.
  pose proof (mux_newdata_len mux Hok) as Hnl. unfold BITMAP_SIZE in Hnl.
  destruct (rd_in_bounds (mux_newdata mux) (dlc / 8)) as [b Hb]; [dzl|].
  assert (exists newdata, wr (mux_newdata mux) (dlc / 8) (Z.lor b (Z.shiftl 1 (dlc mod 8))) = Ret newdata /\ zlen newdata = 8)
    as (newdata & Hw & Hz).
  { unfold wr. rewrite (proj2 (Z.leb_le _ _)), (proj2 (Z.ltb_lt _ _)) by dzl. eexists. split; [done|]. by rewrite zlen_insert. }
  rewrite Hb, bind_Ret, Hw, bind_Ret.
  destruct (set_channel_ok mux dlc (Some (set_ch_buffer c (Z.lor (ch_condition c) G_IO_IN) r')) newdata)
    as (dlcs & -> & Hok' & Hline & Hwait); [done|lia|done|by split|].
  rewrite bind_Ret. eexists. split; [done|]. split; [done|]. split; [done|].
  assert (Hwd : waiting mux dlc = Some (contents (ch_buffer c))) by (unfold waiting; by rewrite Hlk).
  split; intros d Hd1.
  - rewrite Hwait by done. destruct (decide (d = dlc)) as [->|Hne]; [|by destruct (waiting mux d)].
    rewrite Hwd. cbn. by rewrite Hc'.
  - intros Hnews. unfold news in Hnews. cbn [set_channels mux_newdata] in Hnews.
    rewrite (news_lor mux dlc b newdata d Hok ltac:(lia) Hd1 Hb Hw) in Hnews.
    apply orb_true_iff in Hnews as [?|Heq%bool_decide_eq_true_1]; [by left|right]. split; [done|].
    rewrite Hwait, decide_True by done. done.
Qed.

(** * From the line to the channels *)

(** Frames of data on the line, as (channel, data); and what they hold for a
    channel. *)
Definition frame_fits (f : Z * list Z) : Prop := 1 <= f.1 <= 63 /\ bytes f.2 /\ zlen f.2 <= 32767.

Definition arrived (fs : list (Z * list Z)) (d : Z) : list Z := concat (map snd (filter (fun f => f.1 = d) fs)).

(** Each open channel holds in addition what was sent to it, as far as its buffer
    has room. *)
Definition delivered (fs : list (Z * list Z)) (mux mux' : GAtMux) : Prop :=
  forall d, 1 <= d -> waiting mux' d = (fun l => take 4096 (l ++ arrived fs d)) <$> waiting mux d.

(** Only open channels have news. *)
Definition news_open (mux : GAtMux) : Prop := forall d, 1 <= d -> news mux d = true -> waiting mux d <> None.

Lemma waiting_len mux d l : mux_ok mux -> waiting mux d = Some l -> (length l <= 4096)%nat.
Proof.
  intros Hok. unfold waiting. destruct (mux_dlcs mux !! Z.to_nat (d - 1)) as [[c|]|] eqn:E; intros [= <-].
  apply (mux_channels_ok mux Hok) in E. destruct E as [_ Hr Hs]. pose proof (contents_len _ Hr) as Hl.
  pose proof (used_bounds _ Hr). rewrite Hs in *. unfold zlen, MUX_CHANNEL_BUFFER_SIZE in *. lia.
Qed.

Lemma take_take_app {A} n (l1 l2 : list A) : take n (take n l1 ++ l2) = take n (l1 ++ l2).
Proof.
  rewrite (take_app (take n l1)), (take_app l1), take_take, Nat.min_id, length_take.
  destruct (Nat.le_gt_cases n (length l1)).
  - rewrite Nat.min_l by lia. by replace (n - length l1)%nat with (n - n)%nat by lia.
  - by rewrite Nat.min_r by lia.
Qed.

Lemma arrived_app fs1 fs2 d : arrived (fs1 ++ fs2) d = arrived fs1 d ++ arrived fs2 d.
Proof. unfold arrived. by rewrite filter_app, map_app, concat_app. Qed.

Lemma arrived_one f d : arrived [f] d = if decide (d = f.1) then f.2 else [].
Proof.
  unfold arrived. destruct (decide (d = f.1)) as [->|Hne].
  - rewrite (filter_singleton_True _ _ []) by done. cbn. by rewrite app_nil_r.
  - by rewrite (filter_singleton_False _ _ []) by congruence.
Qed.

Lemma delivered_nil mux : mux_ok mux -> delivered [] mux mux.
Proof.
  intros Hok d Hd. destruct (waiting mux d) as [l|] eqn:E; [|done]. cbn. f_equal. rewrite app_nil_r.
  symmetry. apply take_ge. exact (waiting_len mux d l Hok E).
Qed.

Lemma delivered_app fs1 fs2 mux1 mux2 mux3 :
  delivered fs1 mux1 mux2 -> delivered fs2 mux2 mux3 -> delivered (fs1 ++ fs2) mux1 mux3.
Proof.
  intros H1 H2 d Hd. rewrite (H2 d Hd), (H1 d Hd), <- option_fmap_compose. apply option_fmap_ext. intros l. cbn.
  by rewrite take_take_app, arrived_app, app_assoc.
Qed.

(** A change of the mux outside its channels. *)
Lemma delivered_same fs mux mux1 mux2 mux3 : mux_dlcs mux1 = mux_dlcs mux -> mux_dlcs mux3 = mux_dlcs mux2 ->
  delivered fs mux1 mux2 -> delivered fs mux mux3.
Proof. intros H1 H2 H d Hd. specialize (H d Hd). unfold waiting in *. by rewrite H2, H, H1. Qed.

Section Feed.
Context (F : Framing) `{L : !FramingLaws F}.

(** The octets on the line. *)
Definition line (fs : list (Z * list Z)) : list Z := concat (map (fun f => encode f.1 GSM0710_DATA f.2) fs).

Lemma encode_len dlc type data : 2 <= zlen (encode dlc type data).
Proof. destruct (encode_flag dlc type data) as [l ->]. zl. Qed.

(** A data frame is passed to its channel. *)
Lemma data_packet mux f data : mux_ok mux -> frame_fits f -> (exists more, data = f.2 ++ more) ->
  exists mux', gsm0710_packet F mux f.1 (Z.land GSM0710_DATA 0xef) data (zlen f.2) = Ret mux' /\ mux_ok mux' /\
    same_line mux mux' /\ delivered [f] mux mux' /\ (news_open mux -> news_open mux').
Proof.
  intros Hok (Hd & Hb & Hl) [more ->]. unfold gsm0710_packet. change (Z.land GSM0710_DATA 0xef) with 0xef.
  cbn [Z.eqb Pos.eqb orb]. rewrite !(proj2 (Z.leb_le _ _)) by lia. cbn [andb].
  destruct (feed_dlc_ok mux f.1 f.2 more Hok Hd) as (mux' & He & Hok' & Hline & Hw & Hn); [lia|].
  exists mux'. split_and!; try done.
  - intros d Hd1. rewrite (Hw d Hd1). destruct (waiting mux d) as [l|] eqn:E; [|done].
    rewrite arrived_one. cbn [fmap option_fmap option_map]. f_equal. destruct (decide (d = f.1)); [done|].
    rewrite app_nil_r. symmetry. apply take_ge. exact (waiting_len mux d l Hok E).
  - intros Ho d Hd1 Hnews. destruct (Hn d Hd1 Hnews) as [H|[_ H]]; [|done].
    rewrite (Hw d Hd1). specialize (Ho d Hd1 H). by destruct (waiting mux d).
Qed.

Lemma set_buf_ok mux buf used : mux_ok mux -> zlen buf = zlen (mux_buf mux) -> 0 <= used <= MUX_BUFFER_SIZE ->
  mux_ok (set_buf mux buf used).
Proof. intros Hok Hz Hu. split; try apply Hok; [|done]. cbn. by rewrite Hz, (mux_buf_len mux Hok). Qed.

(** What is left after the frames that have arrived in full: part of a frame, or
    the flag that ended the last. *)
Record leftover (fs : list (Z * list Z)) (k : nat) (X Y : list Z) : Prop := {
  leftover_line : X ++ Y = line fs;
  leftover_flag : (k <= 1)%nat /\ (k = O \/ X = []);
  leftover_part : match fs with [] => X = [] | f :: _ => zlen X < zlen (encode f.1 GSM0710_DATA f.2) end
}.

Definition fed (mux mux' : GAtMux) : Prop :=
  mux_buf_used mux' = mux_buf_used mux /\ mux_frame_size mux' = mux_frame_size mux /\ mux_log mux' = mux_log mux.

Lemma no_frame mux l0 k f j l1 fuel total : frame_fits f ->
  (j < length (encode f.1 GSM0710_DATA f.2))%nat ->
  mux_buf mux = l0 ++ replicate k flag ++ take j (encode f.1 GSM0710_DATA f.2) ++ l1 ->
  feed_loop F (S fuel) mux (zlen l0) (Z.of_nat (k + j)) total =
    Ret (set_buf mux (mux_buf mux) (mux_buf_used mux), total + Z.of_nat (if decide (j = O) then pred k else k)).
Proof.
  intros (Hd & Hb & Hl) Hj Hbuf. cbn [feed_loop].
  pose proof (extract_partial l0 k f.1 GSM0710_DATA f.2 j l1 ltac:(lia) ltac:(done) Hb Hl Hj) as He.
  cbv zeta in He. rewrite <- Hbuf in He. by rewrite He, bind_Ret.
Qed.

Lemma flags_split (n k : nat) (l l1 : list Z) (x : Z) : (n <= k)%nat ->
  l ++ replicate k x ++ l1 = (l ++ replicate n x) ++ replicate (k - n) x ++ l1.
Proof.
  intros Hn. replace k with (n + (k - n))%nat at 1 by lia. by rewrite replicate_add, <- !app_assoc.
Qed.

(** The loop has delivered [fs1] of the frames [fs] and left [X'] of the octets
    that belong to the rest; [Y] has not arrived yet. *)
Definition fed_frames (fs : list (Z * list Z)) (mux : GAtMux) (l0 : list Z) (k : nat) (X Y l1 : list Z) (total : Z)
    (r : res (GAtMux * Z)) : Prop :=
  exists mux' l0' k' X' fs1 fs2,
    r = Ret (mux', total + (zlen l0' - zlen l0)) /\
    mux_ok mux' /\ news_open mux' /\ fed mux mux' /\ mux_buf mux' = l0' ++ replicate k' flag ++ X' ++ l1 /\
    zlen l0' + Z.of_nat k' + zlen X' = zlen l0 + Z.of_nat k + zlen X /\
    fs = fs1 ++ fs2 /\ leftover fs2 k' X' Y /\ delivered fs1 mux mux'.

Lemma feed_none fs mux l0 k f j Y l1 fuel total :
  let X := take j (encode f.1 GSM0710_DATA f.2) in
  frame_fits f -> (j < length (encode f.1 GSM0710_DATA f.2))%nat -> mux_ok mux -> news_open mux ->
  mux_buf mux = l0 ++ replicate k flag ++ X ++ l1 -> X ++ Y = line fs ->
  match fs with [] => X = [] | f :: _ => zlen X < zlen (encode f.1 GSM0710_DATA f.2) end ->
  fed_frames fs mux l0 k X Y l1 total (feed_loop F (S fuel) mux (zlen l0) (Z.of_nat k + zlen X) total).
Proof.
  intros X Hf Hj Hok Hnews Hbuf HXY Hpart.
  assert (length X = j) as HzX by (unfold X; rewrite length_take; lia).
  replace (Z.of_nat k + zlen X) with (Z.of_nat (k + j)) by (unfold zlen; lia).
  rewrite (no_frame mux l0 k f j l1 fuel total Hf Hj Hbuf). set (n := if decide (j = O) then pred k else k).
  assert (Hn : (n <= k)%nat) by (unfold n; destruct (decide _); lia).
  exists (set_buf mux (mux_buf mux) (mux_buf_used mux)), (l0 ++ replicate n flag), (k - n)%nat, X, [], fs.
  split_and!; try done.
  - do 2 f_equal. zl.
  - apply set_buf_ok; [done|done|apply Hok].
  - cbn [set_buf mux_buf]. rewrite Hbuf. by apply flags_split.
  - unfold zlen. rewrite length_app, length_replicate. lia.
  - split; [done| |done]. unfold n. destruct (decide (j = O)) as [H0|]; [|lia].
    split; [lia|right]. apply nil_length_inv. lia.
  - apply (delivered_same [] mux mux mux); [done..|by apply delivered_nil].
Qed.

Lemma feed_one mux l0 k f X l1 fuel total :
  let E := encode f.1 GSM0710_DATA f.2 in
  frame_fits f -> mux_ok mux -> news_open mux -> mux_buf mux = l0 ++ replicate k flag ++ E ++ X ++ l1 ->
  exists mux' l0', feed_loop F (S fuel) mux (zlen l0) (Z.of_nat k + zlen (E ++ X)) total =
      feed_loop F fuel mux' (zlen l0') (Z.of_nat 1 + zlen X) (total + (zlen l0' - zlen l0)) /\
    zlen l0' = zlen l0 + (Z.of_nat k + zlen E - 1) /\ mux_buf mux' = l0' ++ replicate 1 flag ++ X ++ l1 /\
    mux_ok mux' /\ news_open mux' /\ fed mux mux' /\ delivered [f] mux mux'.
Proof.
  intros E Hf Hok Hnews Hbuf. pose proof Hf as (Hd & Hb & Hl).
  destruct (extract_ok l0 k f.1 GSM0710_DATA f.2 X l1) as (l0' & fr & He & Hz & Hfd & Hfc & Hfl & Hsl);
    [lia|done|done|done|]. fold E in He, Hz. pose proof (encode_len f.1 GSM0710_DATA f.2) as HzE. fold E in HzE.
  cbn [feed_loop]. rewrite Hbuf.
  replace (Z.of_nat k + zlen (E ++ X)) with (Z.of_nat k + zlen E + zlen X) by zl. rewrite He, bind_Ret.
  set (mux1 := set_buf mux (l0' ++ [flag] ++ X ++ l1) (mux_buf_used mux)).
  assert (Hok1 : mux_ok mux1) by (apply set_buf_ok; [done|rewrite Hbuf; zl|apply Hok]).
  assert (exists more, drop (Z.to_nat (f_frame fr)) (mux_buf mux1) = f.2 ++ more) as Hmore.
  { destruct (slice_Ret _ _ _ _ Hsl) as (H1 & H2 & H3 & H4). cbn [mux1 set_buf mux_buf].
    rewrite drop_app_le by (unfold zlen in *; lia).
    exists (drop (Z.to_nat (zlen f.2)) (drop (Z.to_nat (f_frame fr)) l0') ++ [flag] ++ X ++ l1).
    assert (drop (Z.to_nat (f_frame fr)) l0' = f.2 ++ drop (Z.to_nat (zlen f.2)) (drop (Z.to_nat (f_frame fr)) l0')) as Hdr
      by (rewrite H4 at 1; by rewrite take_drop).
    rewrite Hdr at 1. by rewrite <- app_assoc. }
  rewrite Hfd, Hfc, Hfl.
  destruct (data_packet mux1 f _ Hok1 Hf Hmore) as (mux2 & -> & Hok2 & (Hl1 & Hl2 & Hl3 & Hl4) & Hdel & Hnews2).
  rewrite bind_Ret, (proj2 (Z.ltb_lt _ _)) by lia. exists mux2, l0'. split_and!; try done.
  - rewrite Hz. f_equal; lia.
  - by apply Hnews2.
Qed.

(** A prefix of the line either holds the first frame or is a part of it. *)
Lemma line_cases f fs X Y : X ++ Y = line (f :: fs) ->
  let E := encode f.1 GSM0710_DATA f.2 in
  (exists X', X = E ++ X' /\ X' ++ Y = line fs) \/ (length X < length E)%nat /\ X = take (length X) E.
Proof.
  intros H E. change (line (f :: fs)) with (E ++ line fs) in H.
  destruct (app_eq_inv _ _ _ _ H) as [(X' & -> & HXY')|([|x l] & HE & HY)]; [left; by exists X'|left; exists []|right].
  - by rewrite HE, !app_nil_r.
  - rewrite HE, take_app_length, length_app. cbn. split; [lia|done].
Qed.

(** The loop delivers the frames that have arrived in full, in order. *)
Lemma feed_loop_ok fs : forall fuel mux l0 k X Y l1 total,
  Forall frame_fits fs -> mux_ok mux -> news_open mux ->
  mux_buf mux = l0 ++ replicate k flag ++ X ++ l1 -> X ++ Y = line fs -> (k + length X < fuel)%nat ->
  fed_frames fs mux l0 k X Y l1 total (feed_loop F fuel mux (zlen l0) (Z.of_nat k + zlen X) total).
Proof.
  induction fs as [|f fs IH]; intros fuel mux l0 k X Y l1 total Hfs Hok Hnews Hbuf HXY Hfuel;
    (destruct fuel as [|fuel]; [lia|]).
  - apply app_eq_nil in HXY as [-> ->]. apply (feed_none [] mux l0 k (1, []) 0 [] l1); try done.
    + split_and!; [done|done|by apply Forall_nil|done].
    + pose proof (encode_len 1 GSM0710_DATA []). unfold zlen in *. cbn [fst snd]. lia.
  - apply Forall_cons in Hfs as [Hf Hfs]. pose proof (encode_len f.1 GSM0710_DATA f.2) as HzE.
    destruct (line_cases f fs X Y HXY) as [(X' & -> & HXY')|[Hlt HX]].
    + rewrite <- app_assoc in Hbuf.
      destruct (feed_one mux l0 k f X' l1 fuel total Hf Hok Hnews Hbuf)
        as (mux1 & l1' & -> & Hz & Hb1 & Hok1 & Hn1 & (Hf1 & Hf2 & Hf3) & Hdel1).
      destruct (IH fuel mux1 l1' 1%nat X' Y l1 (total + (zlen l1' - zlen l0))) as (mux2 & l2 & k2 & X2 & fs1 & fs2 &
        -> & Hok2 & Hn2 & (Hf4 & Hf5 & Hf6) & Hb2 & Hz2 & -> & Hleft & Hdel2); try done.
      { rewrite length_app in Hfuel. unfold zlen in HzE. lia. }
      exists mux2, l2, k2, X2, (f :: fs1), fs2. split_and!; try done; [do 2 f_equal; lia|split_and!; congruence|zl|].
      by apply (delivered_app [f] fs1 mux mux1 mux2).
    + rewrite HX. apply feed_none; try done; [by rewrite <- HX|by rewrite <- HX|].
      rewrite <- HX. unfold zlen. lia.
Qed.
(** ** Waking up the clients *)

Lemma dispatch_ok dlcs : forall mux, mux_ok mux -> news_open mux -> Forall (fun d => 1 <= d <= 61) dlcs ->
  exists mux', wake_loop mux dlcs = Ret mux' /\ mux_ok mux' /\ mux_dlcs mux' = mux_dlcs mux /\
    mux_buf mux' = mux_buf mux /\ mux_buf_used mux' = mux_buf_used mux /\ mux_frame_size mux' = mux_frame_size mux /\
    mux_log mux' = mux_log mux ++ map (fun d => Dispatch d G_IO_IN) (filter (fun d => news mux d = true) dlcs).
Proof.
  induction dlcs as [|d dlcs IH]; intros mux Hok Hopen Hall.
  { exists mux. split_and!; try done. by rewrite app_nil_r. }
  apply Forall_cons in Hall as [Hd Hall]. cbn [wake_loop].
  pose proof (mux_newdata_len mux Hok) as Hl. unfold BITMAP_SIZE in Hl.
  destruct (rd_in_bounds (mux_newdata mux) (d / 8)) as [b Hb]; [dzl|]. rewrite Hb, bind_Ret, has_bit by dzl.
  assert (Z.testbit b (d mod 8) = news mux d) as ->.
  { apply rd_lookup in Hb; [|dzl]. unfold news. by rewrite nth_lookup, Hb. }
  destruct (news mux d) eqn:En.
  - rewrite filter_cons_True by done. destruct (get_channel_ok mux d Hok Hd) as (o & Hrd & Hlk & Ho).
    unfold get_channel. rewrite Hrd, bind_Ret. destruct o as [c|].
    2: { exfalso. apply (Hopen d); [lia|done|]. unfold waiting. by rewrite Hlk. }
    rewrite bind_Ret, (channel_dlc d c Ho).
    destruct (IH (dispatch_sources mux d G_IO_IN)) as (mux' & He & Hok' & H1 & H2 & H3 & H4 & H5); [by destruct Hok|done|done|].
    exists mux'. split_and!; try done. rewrite H5. cbn [dispatch_sources add_event mux_log map].
    rewrite <- app_assoc. done.
  - rewrite filter_cons_False by (by rewrite En). by apply IH.
Qed.

(** ** Reading from the line *)

(** The buffer of the multiplexer holds [X] behind [k] flags. *)
Definition buffered (mux : GAtMux) (k : nat) (X : list Z) : Prop :=
  mux_buf_used mux = Z.of_nat k + zlen X /\ exists l1, mux_buf mux = replicate k flag ++ X ++ l1.

Lemma all_dlcs_ok : Forall (fun d => 1 <= d <= 61) all_dlcs.
Proof. apply Forall_forall. intros d. unfold all_dlcs, MAX_CHANNELS. rewrite elem_of_seqZ. lia. Qed.

Lemma no_news mux dlcs : news_open (set_channels mux dlcs (replicate (Z.to_nat BITMAP_SIZE) 0)).
Proof.
  intros d _. unfold news. cbn [set_channels mux_newdata].
  assert (nth (Z.to_nat (d / 8)) (replicate (Z.to_nat BITMAP_SIZE) 0) 0 = 0) as ->; [|by rewrite Z.bits_0].
  rewrite nth_lookup. destruct (replicate _ 0 !! _) eqn:E; [|done]. by apply lookup_replicate in E as [-> _].
Qed.

(** What is left over moves to the start of the buffer. *)
Lemma move_ok mux l0 (l l1 : list Z) : mux_ok mux -> mux_buf mux = l0 ++ l ++ l1 -> zlen l = mux_buf_used mux ->
  exists mux', (if 0 <? mux_buf_used mux then
      rest ← slice (mux_buf mux) (zlen l0) (mux_buf_used mux);
      buf ← blit (mux_buf mux) 0 rest;
      Ret (set_buf mux buf (mux_buf_used mux))
    else Ret mux) = Ret mux' /\ mux_ok mux' /\ (exists l1', mux_buf mux' = l ++ l1') /\
    mux_dlcs mux' = mux_dlcs mux /\ mux_newdata mux' = mux_newdata mux /\ mux_buf_used mux' = mux_buf_used mux /\
    mux_frame_size mux' = mux_frame_size mux /\ mux_log mux' = mux_log mux.
Proof.
  intros Hok Hbuf Hz. destruct (Z.ltb_spec 0 (mux_buf_used mux)) as [Hp|Hp].
  - pose proof (mux_buf_len mux Hok) as Hlen. rewrite Hbuf, slice_app, bind_Ret by done.
    assert (blit (l0 ++ l ++ l1) 0 l = Ret (l ++ drop (length l) (l0 ++ l ++ l1))) as ->.
    { rewrite <- (take_drop (length l) (l0 ++ l ++ l1)) at 1. apply (blit_middle []); [done|].
      rewrite zlen_take. unfold zlen. rewrite !length_app. lia. }
    rewrite bind_Ret.
    eexists. split; [done|]. split; [|by split; [eexists|]]. apply set_buf_ok; [done| |apply Hok].
    rewrite Hbuf. unfold zlen. cbn [app]. rewrite !length_app, length_drop, !length_app. lia.
  - exists mux. split_and!; try done. destruct l; [by exists (mux_buf mux)|zl].
Qed.

(** A chunk of the line is read: what it completes is delivered, and the
    channels with news are woken up. *)
Lemma received_ok fs mux k X chunk Y : Forall frame_fits fs -> mux_ok mux -> buffered mux k X ->
  X ++ chunk ++ Y = line fs -> 0 < zlen chunk -> mux_buf_used mux + zlen chunk <= MUX_BUFFER_SIZE ->
  exists mux' b k' X' fs1 fs2, received_data F mux G_IO_IN chunk true = Ret (mux', b) /\ mux_ok mux' /\
    buffered mux' k' X' /\ fs = fs1 ++ fs2 /\ leftover fs2 k' X' Y /\ delivered fs1 mux mux' /\
    mux_frame_size mux' = mux_frame_size mux /\ b = negb (mux_buf_used mux' =? MUX_BUFFER_SIZE).
Proof.
  intros Hfs Hok (Hused & l1 & Hbuf) HXY Hchunk Hroom. unfold received_data.
  change (has G_IO_IN G_IO_NVAL) with false. change (has G_IO_IN (Z.lor G_IO_HUP G_IO_ERR)) with false.
  pose proof (mux_buf_len mux Hok) as Hlen. rewrite Hbuf in Hlen.
  assert (Hl1 : zlen chunk <= zlen l1) by zl.
  assert (exists l2, blit (mux_buf mux) (mux_buf_used mux) chunk = Ret (replicate k flag ++ (X ++ chunk) ++ l2) /\
    zlen (replicate k flag ++ (X ++ chunk) ++ l2) = MUX_BUFFER_SIZE) as (l2 & -> & Hz2).
  { exists (drop (length chunk) l1). rewrite Hbuf, app_assoc. rewrite <- (take_drop (length chunk) l1) at 1.
    rewrite (blit_middle _ (take (length chunk) l1) _ chunk); [|zl|rewrite zlen_take; unfold zlen in *; lia].
    split; [f_equal; by rewrite <- !app_assoc|]. rewrite <- Hlen. unfold zlen in *.
    rewrite !length_app, length_drop. lia. }
  rewrite bind_Ret, (proj2 (Z.ltb_lt _ _)) by done.
  set (mux1 := set_channels _ _ _).
  assert (Hok1 : mux_ok mux1).
  { assert (Hb : mux_ok (set_buf mux (replicate k flag ++ (X ++ chunk) ++ l2) (mux_buf_used mux + zlen chunk))).
    { apply set_buf_ok; [done|by rewrite Hz2, (mux_buf_len mux Hok)|pose proof (mux_buf_used_ok mux Hok); lia]. }
    by destruct Hb. }
  assert (Hbuf1 : mux_buf mux1 = [] ++ replicate k flag ++ (X ++ chunk) ++ l2) by done.
  unfold feed_data. change (mux_buf_used mux1) with (mux_buf_used mux + zlen chunk).
  replace (mux_buf_used mux + zlen chunk) with (Z.of_nat k + zlen (X ++ chunk)) by zl.
  destruct (feed_loop_ok fs (S (Z.to_nat (Z.of_nat k + zlen (X ++ chunk)))) mux1 [] k (X ++ chunk) Y l2 0)
    as (mux2 & l3 & k2 & X2 & fs1 & fs2 & He & Hok2 & Hn2 & (Hf1 & Hf2 & Hf3) & Hb2 & Hz & Hfs2 & Hleft & Hdel);
    [done|done|apply no_news|done|by rewrite <- app_assoc|unfold zlen; lia|].
  change (zlen []) with 0 in He, Hz. rewrite He, bind_Ret.
  rewrite Hf1. change (mux_buf_used mux1) with (mux_buf_used mux + zlen chunk).
  replace (mux_buf_used mux + zlen chunk - (0 + (zlen l3 - 0))) with (Z.of_nat k2 + zlen X2) by zl.
  set (mux3 := set_buf mux2 (mux_buf mux2) (Z.of_nat k2 + zlen X2)).
  assert (Hok3 : mux_ok mux3).
  { apply set_buf_ok; [done|done|]. pose proof (mux_buf_len mux2 Hok2) as Hl2. rewrite Hb2 in Hl2. zl. }
  destruct (move_ok mux3 l3 (replicate k2 flag ++ X2) l2 Hok3) as (mux4 & He4 & Hok4 & (l4 & Hb4) & Hd4 & Hn4 & Hu4 & Hs4 & _).
  { cbn [mux3 set_buf mux_buf]. by rewrite <- app_assoc. }
  { cbn [mux3 set_buf mux_buf_used]. zl. }
  replace (0 + (zlen l3 - 0)) with (zlen l3) by lia. rewrite He4, bind_Ret.
  assert (Hopen4 : news_open mux4).
  { intros d Hd. specialize (Hn2 d Hd). unfold news, waiting in *. by rewrite Hn4, Hd4. }
  destruct (dispatch_ok all_dlcs mux4 Hok4 Hopen4 all_dlcs_ok) as (mux5 & -> & Hok5 & Hd5 & Hb5 & Hu5 & Hs5 & _).
  rewrite !bind_Ret. eexists mux5, _, k2, X2, fs1, fs2. split; [done|]. split_and!; try done.
  - split; [by rewrite Hu5, Hu4|]. exists l4. by rewrite Hb5, Hb4, <- app_assoc.
  - apply (delivered_same fs1 mux mux1 mux2 mux5); [done|by rewrite Hd5, Hd4|done].
  - rewrite Hs5, Hs4. exact Hf2.
Qed.
(** ** The line in chunks *)

(** The chunks are read one after the other; the watch must stay. *)
Fixpoint received_chunks (mux : GAtMux) (chunks : list (list Z)) : res GAtMux :=
  match chunks with
  | [] => Ret mux
  | chunk :: chunks =>
      '(mux, stays) ← received_data F mux G_IO_IN chunk true;
      if stays : bool then received_chunks mux chunks else Err
  end.

Lemma leftover_small fs k X Y (B : Z) : 2 <= B -> Forall (fun f => zlen (encode f.1 GSM0710_DATA f.2) <= B) fs ->
  leftover fs k X Y -> Z.of_nat k + zlen X < B.
Proof.
  intros HB Hfs [_ [Hk Hor] Hp]. destruct fs as [|f fs].
  - subst X. zl.
  - apply Forall_cons in Hfs as [Hf _]. destruct Hor as [->| ->]; zl.
Qed.

Lemma line_complete fs k X : leftover fs k X [] -> fs = [].
Proof.
  intros [HX _ Hp]. destruct fs as [|f fs]; [done|]. rewrite app_nil_r in HX. subst X.
  unfold line in Hp. cbn [map concat] in Hp. zl.
Qed.

Lemma received_chunks_ok (B : Z) chunks : forall fs mux k X, 2 <= B -> Forall frame_fits fs ->
  Forall (fun f => zlen (encode f.1 GSM0710_DATA f.2) <= B) fs ->
  Forall (fun c => 0 < zlen c /\ zlen c + B <= MUX_BUFFER_SIZE) chunks ->
  mux_ok mux -> buffered mux k X -> leftover fs k X (concat chunks) ->
  exists mux', received_chunks mux chunks = Ret mux' /\ mux_ok mux' /\ delivered fs mux mux' /\
    mux_frame_size mux' = mux_frame_size mux.
Proof.
  induction chunks as [|chunk chunks IH]; intros fs mux k X HB Hfs Hsmall Hch Hok Hbuf Hleft.
  - exists mux. apply line_complete in Hleft as ->. split_and!; try done. by apply delivered_nil.
  - apply Forall_cons in Hch as [[Hc1 Hc2] Hch]. cbn [received_chunks concat] in *.
    pose proof (leftover_small fs k X _ B HB Hsmall Hleft) as Hz.
    destruct (received_ok fs mux k X chunk (concat chunks) Hfs Hok Hbuf) as
      (mux1 & b & k1 & X1 & fs1 & fs2 & -> & Hok1 & Hbuf1 & -> & Hleft1 & Hdel1 & Hs1 & ->).
    { apply Hleft. } { done. } { rewrite (proj1 Hbuf). lia. }
    apply Forall_app in Hfs as [_ Hfs2]. apply Forall_app in Hsmall as [_ Hsmall2].
    pose proof (leftover_small fs2 k1 X1 _ B HB Hsmall2 Hleft1) as Hz1.
    rewrite bind_Ret, (proj1 Hbuf1), (proj2 (Z.eqb_neq _ _)) by lia. cbn [negb].
    destruct (IH fs2 mux1 k1 X1) as (mux2 & -> & Hok2 & Hdel2 & Hs2); try done.
    exists mux2. split_and!; [done|done|by apply (delivered_app fs1 fs2 mux mux1 mux2)|congruence].
Qed.

(** ** Writing to the line *)

(** What has been written to the line. *)
Definition octets_written (mux : GAtMux) : list Z :=
  concat (map (fun e => match e with RawWrite data => data | Dispatch _ _ => [] end) (mux_log mux)).

Definition same_channels (mux mux' : GAtMux) : Prop :=
  mux_dlcs mux' = mux_dlcs mux /\ mux_frame_size mux' = mux_frame_size mux.

Lemma write_frame_ok mux dlc (d rest : list Z) : 0 <= dlc < 64 -> zlen d <= 32767 -> zlen d <= mux_frame_size mux ->
  exists mux', write_frame F mux dlc GSM0710_DATA (d ++ rest) (zlen d) = Ret mux' /\ same_channels mux mux' /\
    octets_written mux' = octets_written mux ++ encode dlc GSM0710_DATA d.
Proof.
  intros Hd Hl Hs. unfold write_frame.
  rewrite fill_ok, bind_Ret by (done || by apply frame_room_ok). eexists. split_and!; [done|done|].
  unfold octets_written. cbn [g_at_mux_raw_write add_event mux_log]. rewrite map_app, concat_app. cbn. by rewrite app_nil_r.
Qed.

(** Data written to a channel go out in frames of at most [frame_size] octets. *)
Lemma write_loop_ok fuel : forall mux dlc data, 0 <= dlc < 64 -> bytes data ->
  1 <= mux_frame_size mux <= 32767 -> (length data < fuel)%nat ->
  exists mux' fs, write_loop F fuel mux dlc data (zlen data) = Ret mux' /\ same_channels mux mux' /\
    octets_written mux' = octets_written mux ++ line fs /\ concat (map snd fs) = data /\
    Forall (fun f => f.1 = dlc /\ bytes f.2 /\ zlen f.2 <= mux_frame_size mux) fs.
Proof.
  induction fuel as [|fuel IH]; intros mux dlc data Hd Hb Hs Hf; [lia|]. cbn [write_loop].
  destruct (Z.ltb_spec 0 (zlen data)) as [Hp|Hp].
  2: { exists mux, []. split_and!; try done; [by rewrite app_nil_r|destruct data; [done|zl]]. }
  set (m := Z.min (zlen data) (mux_frame_size mux)).
  set (d := take (Z.to_nat m) data). set (rest := drop (Z.to_nat m) data).
  assert (Hm : zlen d = m) by (unfold d; rewrite zlen_take; lia).
  assert (Hsplit : data = d ++ rest) by (unfold d, rest; by rewrite take_drop).
  assert (Hzr : zlen data - m = zlen rest) by (unfold rest; rewrite zlen_drop; lia).
  destruct (write_frame_ok mux dlc d rest) as (mux1 & He & [Hd1 Hs1] & Ho1); [done|lia|lia|].
  rewrite Hm, <- Hsplit in He. rewrite He, bind_Ret, Hzr.
  rewrite Hsplit in Hb. apply Forall_app in Hb as [Hbd Hbr].
  destruct (IH mux1 dlc rest) as (mux2 & fs & -> & [Hd2 Hs2] & Ho2 & Hc & Hfs); [done|done|congruence| |].
  { unfold zlen in *. lia. }
  exists mux2, ((dlc, d) :: fs). split_and!; [done|split; congruence| | |].
  - rewrite Ho2, Ho1, <- app_assoc. done.
  - cbn [map concat snd]. by rewrite Hc.
  - apply Forall_cons. split; [cbn; split_and!; [done|done|lia]|]. by rewrite <- Hs1.
Qed.

(** Clients write to channels, one after the other. *)
Fixpoint channel_writes (mux : GAtMux) (ws : list (Z * list Z)) : res GAtMux :=
  match ws with
  | [] => Ret mux
  | (dlc, data) :: ws => '(mux, _) ← channel_write F mux dlc data (zlen data); channel_writes mux ws
  end.

Definition is_open (mux : GAtMux) (dlc : Z) : Prop := 1 <= dlc <= 61 /\ waiting mux dlc <> None.

Lemma get_open mux dlc : mux_ok mux -> is_open mux dlc -> exists c, get_channel mux dlc = Ret c /\ ch_dlc c = dlc.
Proof.
  intros Hok [Hd Ho]. destruct (get_channel_ok mux dlc Hok Hd) as (o & Hrd & Hlk & Hc). unfold get_channel.
  rewrite Hrd, bind_Ret. destruct o as [c|]; [by exists c; destruct Hc|].
  unfold waiting in Ho. by rewrite Hlk in Ho.
Qed.

Lemma arrived_frames fs dlc data d : Forall (fun f => f.1 = dlc) fs -> concat (map snd fs) = data ->
  arrived fs d = arrived [(dlc, data)] d.
Proof.
  intros Hfs <-. rewrite arrived_one. cbn [fst snd]. unfold arrived. destruct (decide (d = dlc)) as [->|Hne].
  - do 2 f_equal. induction Hfs as [|f fs Hf Hfs IH]; [done|]. rewrite filter_cons_True by done. by rewrite IH.
  - induction Hfs as [|f fs Hf Hfs IH]; [done|]. by rewrite filter_cons_False by congruence.
Qed.

Lemma channel_writes_ok ws : forall mux mux0, mux_ok mux0 -> mux_dlcs mux = mux_dlcs mux0 ->
  1 <= mux_frame_size mux <= 32767 -> Forall (fun w => is_open mux0 w.1 /\ bytes w.2) ws ->
  exists mux' fs, channel_writes mux ws = Ret mux' /\ octets_written mux' = octets_written mux ++ line fs /\
    (forall d, arrived fs d = arrived ws d) /\ Forall frame_fits fs /\
    Forall (fun f => zlen f.2 <= mux_frame_size mux) fs.
Proof.
  induction ws as [|[dlc data] ws IH]; intros mux mux0 Hok Hdl Hs Hws.
  { exists mux, []. split_and!; try done. by rewrite app_nil_r. }
  apply Forall_cons in Hws as [[Hopen Hb] Hws]. cbn [fst snd] in Hopen, Hb. cbn [channel_writes].
  destruct (get_open mux0 dlc Hok Hopen) as (c & Hc & Hcd). pose proof Hopen as [Hd _].
  assert (get_channel mux dlc = Ret c) as Hc' by (unfold get_channel in *; by rewrite Hdl).
  unfold channel_write. rewrite Hc', bind_Ret, Hcd. unfold driver_write.
  destruct (write_loop_ok (S (Z.to_nat (zlen data))) mux dlc data) as (mux1 & fs1 & -> & [Hd1 Hs1] & Ho1 & Hcat & Hfs1);
    [lia|done|done|unfold zlen; lia|]. rewrite !bind_Ret.
  destruct (IH mux1 mux0 Hok) as (mux2 & fs2 & -> & Ho2 & Har & Hfit & Hsz); [congruence|congruence|done|].
  exists mux2, (fs1 ++ fs2). split_and!; [done| | | |].
  - rewrite Ho2, Ho1, <- app_assoc. unfold line. by rewrite map_app, concat_app.
  - intros d. change ((dlc, data) :: ws) with ([(dlc, data)] ++ ws). rewrite !arrived_app, Har. f_equal.
    apply arrived_frames; [|done]. eapply Forall_impl; [exact Hfs1|]. by intros f (? & _).
  - apply Forall_app. split; [|done]. eapply Forall_impl; [exact Hfs1|]. intros f (Hf & ? & ?).
    unfold frame_fits. rewrite Hf. split_and!; [lia|lia|done|lia].
  - apply Forall_app. split; [eapply Forall_impl; [exact Hfs1|]; by intros f (_ & _ & ?)|by rewrite <- Hs1].
Qed.
End Feed.


(** * The state machine *)

(** ** What any octets can do to the multiplexer *)

Lemma slice_fewer {A} (l : list A) k off n l' : off + n <= k -> slice l off n = Ret l' ->
  slice (take (Z.to_nat k) l) off n = Ret l'.
Proof.
  intros Hk H. pose proof (slice_Ret _ _ _ _ H) as (Ho & Hn & Hl & ->). unfold slice. rewrite zlen_take.
  rewrite !(proj2 (Z.leb_le _ _)) by lia. cbn [andb]. f_equal.
  rewrite skipn_firstn_comm, take_take. f_equal. lia.
Qed.

Lemma ring_write_inv r data n r' k : ring_ok r -> 0 <= n -> ring_buffer_write r data n = Ret (r', k) ->
  ring_ok r' /\ rb_size r' = rb_size r /\ 0 <= k.
Proof.
  intros Hr Hn H. pose proof (used_bounds r Hr) as Hu. set (len := Z.min n (rb_size r - used r)).
  assert (Hl0 : 0 <= len <= rb_size r - used r) by (unfold len; lia).
  assert (Hw : ring_buffer_write r (take (Z.to_nat len) data) (zlen (take (Z.to_nat len) data)) = Ret (r', k)).
  { pose proof H as H0. unfold ring_buffer_write in H |- *. rewrite (room_used r Hr) in *. fold len in H.
    set (e := Z.min len (rb_size r - Z.land (rb_in r) (rb_mask r))) in *.
    apply bind_inv in H as (d1 & Hs1 & H). apply bind_inv in H as (b1 & Hb1 & H). apply bind_inv in H as (d2 & Hs2 & H).
    pose proof (slice_Ret _ _ _ _ Hs2) as (_ & _ & Hl & _).
    assert (zlen (take (Z.to_nat len) data) = len) as -> by (rewrite zlen_take; zl).
    replace (Z.min len (rb_size r - used r)) with len by lia. fold e.
    rewrite (slice_fewer data len 0 e d1 ltac:(unfold e; lia) Hs1), bind_Ret, Hb1, bind_Ret.
    by rewrite (slice_fewer data len e (len - e) d2 ltac:(lia) Hs2), bind_Ret. }
  destruct (write_ok r (take (Z.to_nat len) data) Hr) as (r1 & Hw1 & Hr1 & Hs1 & _).
  rewrite Hw in Hw1. injection Hw1 as -> ->. split_and!; [done|done|]. zl.
Qed.

(** What happens between two states of the multiplexer while it handles received
    octets: the invariant is kept, events are added, and a channel whose buffer
    has changed has news. *)
Record grows (mux mux' : GAtMux) : Prop := {
  grows_ok : mux_ok mux';
  grows_log : exists es, mux_log mux' = mux_log mux ++ es;
  grows_open : news_open mux -> news_open mux';
  grows_news d : 1 <= d -> news mux d = true -> news mux' d = true;
  grows_wake d : 1 <= d -> waiting mux' d <> waiting mux d -> news mux' d = true;
  grows_used : mux_buf_used mux' = mux_buf_used mux;
  grows_bytes : bytes (mux_buf mux) -> bytes (mux_buf mux');
  grows_size : mux_frame_size mux' = mux_frame_size mux
}.

Lemma grows_refl mux : mux_ok mux -> grows mux mux.
Proof. intros Hok. split; try done. exists []. by rewrite app_nil_r. Qed.

Lemma grows_trans mux1 mux2 mux3 : grows mux1 mux2 -> grows mux2 mux3 -> grows mux1 mux3.
Proof.
  intros [_ [es1 E1] O1 N1 W1 U1 B1 S1] [Hok [es2 E2] O2 N2 W2 U2 B2 S2]. split; try done; try congruence; auto.
  - exists (es1 ++ es2). by rewrite E2, E1, app_assoc.
  - intros d Hd Hw. destruct (decide (waiting mux2 d = waiting mux1 d)) as [He|He]; [|by auto].
    apply W2; [done|congruence].
Qed.

(** An event. *)
Lemma grows_event mux e : mux_ok mux -> grows mux (add_event mux e).
Proof. intros Hok. split; try done; [by destruct Hok|by eexists]. Qed.

(** A channel is replaced by one that holds the same octets. *)
Lemma grows_channel mux dlc c c' : mux_ok mux -> 1 <= dlc <= 61 -> mux_dlcs mux !! Z.to_nat (dlc - 1) = Some (Some c) ->
  channel_ok dlc c' -> contents (ch_buffer c') = contents (ch_buffer c) ->
  exists mux', set_channel mux dlc (Some c') = Ret mux' /\ grows mux mux'.
Proof.
  intros Hok Hd Hlk Hc' He. unfold set_channel.
  destruct (set_channel_ok mux dlc (Some c') (mux_newdata mux)) as (dlcs & -> & Hok' & _ & Hw);
    [done|done|apply Hok|done|]. rewrite bind_Ret. eexists. split; [done|].
  assert (Hsame : forall d, 1 <= d -> waiting (set_channels mux dlcs (mux_newdata mux)) d = waiting mux d).
  { intros d Hd1. rewrite Hw by done. destruct (decide (d = dlc)) as [->|]; [|done]. cbn. unfold waiting. by rewrite Hlk, He. }
  split; try done.
  - exists []. by rewrite app_nil_r.
  - intros Ho d Hd1 Hn. rewrite Hsame by done. by apply Ho.
  - intros d Hd1 []. by apply Hsame.
Qed.

Lemma grows_watches mux write : mux_ok mux -> grows mux (set_watches mux (mux_read_watch mux) write (mux_shutdown mux)).
Proof. intros Hok. split; try done; [by destruct Hok|exists []; by rewrite app_nil_r]. Qed.

Lemma feed_dlc_grows mux dlc data n mux' : mux_ok mux -> g_at_mux_feed_dlc_data mux dlc data n = Ret mux' -> grows mux mux'.
Proof.
  intros Hok. unfold g_at_mux_feed_dlc_data, MAX_CHANNELS.
  destruct (Z.ltb_spec dlc 1); cbn [orb]; [intros [= <-]; by apply grows_refl|].
  destruct (Z.ltb_spec 61 dlc); [intros [= <-]; by apply grows_refl|].
  destruct (get_channel_ok mux dlc Hok) as (o & -> & Hlk & Ho); [lia|]. rewrite bind_Ret.
  destruct o as [c|]; [|intros [= <-]; by apply grows_refl]. destruct Ho as [Hcd Hcr Hcs]. intros H'.
  apply bind_inv in H' as ([r' k] & Hw & H'). apply ring_write_inv in Hw as (Hr' & Hs' & Hk); [|done|apply u32_range].
  rewrite (proj2 (Z.ltb_ge _ _)) in H' by done.
  apply bind_inv in H' as (b & Hb & H'). apply bind_inv in H' as (newdata & Hnd & H').
  assert (Hz : zlen newdata = BITMAP_SIZE) by (rewrite (wr_len _ _ _ _ Hnd); apply Hok).
  destruct (set_channel_ok mux dlc (Some (set_ch_buffer c (Z.lor (ch_condition c) G_IO_IN) r')) newdata)
    as (dlcs & Hset & Hok' & _ & Hwait); [done|lia|done|split; [done|done|cbn; congruence]|].
  rewrite Hset, bind_Ret in H'. injection H' as <-.
  assert (Hnews : forall d, 1 <= d -> news (set_channels mux dlcs newdata) d = news mux d || bool_decide (d = dlc))
    by (intros d Hd; by apply (news_lor mux dlc b newdata d Hok ltac:(lia))).
  split; try done.
  - exists []. by rewrite app_nil_r.
  - intros Hopen d Hd. rewrite Hnews, Hwait by done. destruct (decide (d = dlc)) as [->|Hne]; [done|].
    rewrite bool_decide_eq_false_2, orb_false_r by done. by apply Hopen.
  - intros d Hd Hn. by rewrite Hnews, Hn.
  - intros d Hd. rewrite Hnews, Hwait by done. destruct (decide (d = dlc)) as [->|Hne]; [|done].
    intros _. rewrite bool_decide_eq_true_2 by done. apply orb_true_r.
Qed.

Lemma set_sources_ok dlc c sources throttled : channel_ok dlc c -> channel_ok dlc (set_ch_sources c sources throttled).
Proof. by intros []. Qed.

Lemma set_dlc_status_grows mux dlc status : mux_ok mux ->
  exists mux', g_at_mux_set_dlc_status mux dlc status = Ret mux' /\ grows mux mux'.
Proof.
  intros Hok. unfold g_at_mux_set_dlc_status, MAX_CHANNELS.
  destruct (Z.ltb_spec dlc 1); cbn [orb]; [exists mux; split; [done|by apply grows_refl]|].
  destruct (Z.ltb_spec 61 dlc); [exists mux; split; [done|by apply grows_refl]|].
  destruct (get_channel_ok mux dlc Hok) as (o & -> & Hlk & Ho); [lia|]. rewrite bind_Ret.
  destruct o as [c|]; [|exists mux; split; [done|by apply grows_refl]].
  assert (Hset : forall t, exists mux', set_channel mux dlc (Some (set_ch_sources c (ch_sources c) t)) = Ret mux' /\ grows mux mux')
    by (intros t; eapply grows_channel; [done|lia|done|by apply set_sources_ok|done]).
  destruct (has status _); [|apply Hset]. destruct (Hset false) as (mux1 & -> & Hg). rewrite bind_Ret.
  eexists. split; [done|]. destruct (existsb _ _); [|done]. unfold wakeup_writer.
  destruct (mux_write_watch mux1); [done|]. apply (grows_trans _ mux1); [done|]. apply grows_watches, Hg.
Qed.

Lemma blit_keeps (l l' src : list Z) off : bytes l -> bytes src -> blit l off src = Ret l' ->
  bytes l' /\ zlen l' = zlen l /\ off + zlen src <= zlen l.
Proof.
  intros Hl Hs. unfold blit. destruct (_ && _) eqn:E; [|done]. bool_to_prop. intros [= <-].
  split_and!; [by repeat apply Forall_app_2; [apply Forall_take| |apply Forall_drop]| |done].
  rewrite !zlen_app, zlen_take, zlen_drop. unfold zlen in *. lia.
Qed.

Ltac split_if H := match type of H with context [if ?b then _ else _] => destruct b end.

Section Any.
Context (F : Framing).

Lemma write_frame_grows mux dlc control data n mux' : mux_ok mux ->
  write_frame F mux dlc control data n = Ret mux' -> grows mux mux'.
Proof. intros Hok H. apply bind_inv in H as (fr & _ & [= <-]). by apply grows_event. Qed.

Lemma status_packet_grows mux data len mux' : mux_ok mux -> status_packet F mux data len = Ret mux' -> grows mux mux'.
Proof.
  intros Hok H. apply bind_inv in H as (mux1 & H1 & H). apply bind_inv in H as (copy & _ & H).
  assert (Hg : grows mux mux1).
  { split_if H1; [|injection H1 as <-; by apply grows_refl]. apply bind_inv in H1 as (d0 & _ & H1).
    cbv zeta in H1. split_if H1; [|injection H1 as <-; by apply grows_refl]. apply bind_inv in H1 as (d1 & _ & H1).
    destruct (set_dlc_status_grows mux (Z.shiftr (Z.land d0 0xfc) 2) d1 Hok) as (mux2 & He & Hg). rewrite He in H1.
    by injection H1 as <-. }
  apply (grows_trans _ mux1); [done|]. eapply write_frame_grows; [apply Hg|done].
Qed.

Lemma packet_grows mux dlc control data len mux' : mux_ok mux ->
  gsm0710_packet F mux dlc control data len = Ret mux' -> grows mux mux'.
Proof.
  intros Hok. unfold gsm0710_packet.
  destruct (_ || _).
  - destruct (_ && _); [by apply feed_dlc_grows|]. destruct (_ && _); [|intros [= <-]; by apply grows_refl].
    intros H. apply bind_inv in H as (d0 & _ & H). destruct (d0 =? GSM0710_STATUS_SET); [by eapply status_packet_grows|].
    destruct (d0 =? 0x43); [|injection H as <-; by apply grows_refl].
    apply bind_inv in H as (r1 & _ & H). apply bind_inv in H as (r2 & _ & H). by eapply write_frame_grows.
  - destruct (_ && _); [by apply status_packet_grows|intros [= <-]; by apply grows_refl].
Qed.

Context `{M : !FramingMemory F}.

Lemma feed_loop_grows fuel : forall mux data len total mux' n, mux_ok mux -> bytes (mux_buf mux) ->
  0 <= data -> 0 <= len -> data + len <= MUX_BUFFER_SIZE -> feed_loop F fuel mux data len total = Ret (mux', n) ->
  grows mux mux' /\ total <= n <= total + len.
Proof.
  induction fuel as [|fuel IH]; intros mux data len total mux' n Hok Hb Hd Hl Hz; cbn [feed_loop]; [done|]. intros H.
  apply bind_inv in H as ([[buf nread] f] & He & H).
  apply extract_bounds in He as (Hb' & Hlen & Hn); [|done|done|done|by rewrite (mux_buf_len mux Hok)].
  set (mux1 := set_buf mux buf (mux_buf_used mux)) in *.
  assert (Hok1 : mux_ok mux1) by (apply set_buf_ok; [done|done|apply Hok]).
  assert (Hg1 : grows mux mux1) by (split; try done; exists []; by rewrite app_nil_r).
  destruct f as [f|]; [|injection H as <- <-; split; [done|lia]].
  apply bind_inv in H as (mux2 & Hp & H). apply packet_grows in Hp as Hg2; [|done].
  destruct (0 <? nread); [|injection H as <- <-; split; [by apply (grows_trans _ mux1)|lia]].
  apply IH in H as [Hg3 Hn3]; [|apply Hg2|by apply Hg2|lia|lia|lia].
  split; [apply (grows_trans _ mux1); [done|by apply (grows_trans _ mux2)]|lia].
Qed.

(** Reading from the line, whatever comes: the invariant is kept, and a channel
    whose buffer has changed is woken up. *)
Lemma received_grows mux cond chunk ok mux' b : mux_ok mux -> bytes (mux_buf mux) -> bytes chunk ->
  received_data F mux cond chunk ok = Ret (mux', b) ->
  mux_ok mux' /\ bytes (mux_buf mux') /\ mux_frame_size mux' = mux_frame_size mux /\
  exists es, mux_log mux' = mux_log mux ++ es /\
    forall d, 1 <= d -> waiting mux' d <> waiting mux d -> Dispatch d G_IO_IN ∈ es.
Proof.
  intros Hok Hb Hc. unfold received_data.
  destruct (has cond G_IO_NVAL).
  { intros [= <- <-]. split_and!; try done. exists []. split; [by rewrite app_nil_r|]. by intros d _ []. }
  intros H. apply bind_inv in H as (buf & Hbl & H).
  apply blit_keeps in Hbl as (Hb1 & Hz & Hroom); [|done|done].
  set (mux0 := set_buf mux buf (mux_buf_used mux + zlen chunk)) in *.
  assert (Hok0 : mux_ok mux0).
  { apply set_buf_ok; [done|done|]. rewrite (mux_buf_len mux Hok) in *. pose proof (mux_buf_used_ok mux Hok). zl. }
  apply bind_inv in H as ([mux1 full] & H1 & H).
  assert (mux' = mux1) as -> by (repeat split_if H; by injection H). clear H.
  destruct (0 <? zlen chunk).
  2: { injection H1 as <- <-. split_and!; try done. exists []. split; [by rewrite app_nil_r|]. by intros d _ []. }
  set (mux2 := set_channels mux0 (mux_dlcs mux0) (replicate (Z.to_nat BITMAP_SIZE) 0)) in *.
  assert (Hok2 : mux_ok mux2) by (by destruct Hok0).
  apply bind_inv in H1 as ([mux3 n] & Hf & H1).
  pose proof (mux_buf_used_ok mux2 Hok2) as Hu2.
  apply feed_loop_grows in Hf as [[Hok3 [es Hlog3] Hop3 _ Hw3 Hu3 Hb3 Hs3] Hn]; [|done|done|lia|lia|lia].
  set (mux4 := set_buf mux3 (mux_buf mux3) (mux_buf_used mux3 - n)) in *.
  assert (Hok4 : mux_ok mux4) by (apply set_buf_ok; [done|done|rewrite Hu3; lia]).
  apply bind_inv in H1 as (mux5 & Hm & H1).
  assert (H5 : mux_ok mux5 /\ bytes (mux_buf mux5) /\ mux_dlcs mux5 = mux_dlcs mux3 /\ mux_newdata mux5 = mux_newdata mux3 /\
    mux_log mux5 = mux_log mux3 /\ mux_frame_size mux5 = mux_frame_size mux3).
  { split_if Hm; [|injection Hm as <-; split_and!; try done; by apply Hb3].
    apply bind_inv in Hm as (rest & Hs & Hm). apply bind_inv in Hm as (buf5 & Hbl & Hm). injection Hm as <-.
    assert (bytes (mux_buf mux3)) as Hb3' by (by apply Hb3).
    apply blit_keeps in Hbl as (? & ? & _); [|done|].
    - split_and!; try done. apply set_buf_ok; [done|done|apply Hok4].
    - apply slice_Ret in Hs as (_ & _ & _ & ->). by apply Forall_take, Forall_drop. }
  destruct H5 as (Hok5 & Hb5 & Hd5 & Hn5 & Hl5 & Hs5).
  assert (Hwait : forall d, waiting mux5 d = waiting mux3 d) by (intros d; unfold waiting; by rewrite Hd5).
  assert (Hnews : forall d, news mux5 d = news mux3 d) by (intros d; unfold news; by rewrite Hn5).
  apply bind_inv in H1 as (mux6 & Hdis & H1). injection H1 as <- _.
  destruct (dispatch_ok all_dlcs mux5 Hok5) as (mux7 & He & Hok7 & Hd7 & Hb7 & _ & Hs7 & Hl7).
  { intros d Hd. rewrite Hwait, Hnews. apply Hop3; [apply no_news|done]. } { apply all_dlcs_ok. }
  rewrite Hdis in He. injection He as <-. split_and!; [done|by rewrite Hb7|by rewrite Hs7, Hs5, Hs3|].
  exists (es ++ map (fun d => Dispatch d G_IO_IN) (filter (fun d => news mux5 d = true) all_dlcs)). split.
  { by rewrite Hl7, Hl5, Hlog3, app_assoc. }
  intros d Hd Hne. apply elem_of_app. right. apply list_elem_of_fmap. exists d. split; [done|].
  apply list_elem_of_filter. split.
  - rewrite Hnews. apply Hw3; [done|]. unfold waiting in *. by rewrite <- Hd5, <- Hd7.
  - apply elem_of_seqZ. unfold MAX_CHANNELS. split; [lia|]. destruct (Z.le_gt_cases d 61); [lia|]. exfalso. apply Hne.
    unfold waiting. rewrite !lookup_ge_None_2; [done| |].
    + pose proof (mux_dlcs_len mux Hok). unfold zlen, MAX_CHANNELS in *. lia.
    + pose proof (mux_dlcs_len mux6 Hok7). unfold zlen, MAX_CHANNELS in *. lia.
Qed.
End Any.

(** ** The operations *)

(** The invariant of the state machine. *)
Record mux_inv (frame_size : Z) (mux : GAtMux) : Prop := {
  inv_ok : mux_ok mux;
  inv_bytes : bytes (mux_buf mux);
  inv_frame_size : mux_frame_size mux = frame_size
}.

Lemma inv_new frame_size : mux_inv frame_size (g_at_mux_new frame_size).
Proof.
  split; [split|by apply Forall_replicate|done]; try done.
  intros i c H. by apply lookup_replicate in H as [? _].
Qed.

Lemma inv_event fs mux e : mux_inv fs mux -> mux_inv fs (add_event mux e).
Proof. intros [[] ? ?]. by split. Qed.

Lemma inv_watches fs mux r w s : mux_inv fs mux -> mux_inv fs (set_watches mux r w s).
Proof. intros [[] ? ?]. by split. Qed.

Lemma inv_set_channel fs mux dlc o mux' : mux_inv fs mux -> 1 <= dlc <= 61 ->
  match o with Some c => channel_ok dlc c | None => True end -> set_channel mux dlc o = Ret mux' -> mux_inv fs mux'.
Proof.
  intros [Hok Hb Hs] Hd Ho H. destruct (set_channel_ok mux dlc o (mux_newdata mux)) as (dlcs & He & Hok' & _); [done|done|apply Hok|done|].
  unfold set_channel in H. rewrite He in H. apply Ret_inj in H as <-. by split.
Qed.

Lemma get_channel_inv fs mux dlc c : mux_inv fs mux -> get_channel mux dlc = Ret c ->
  1 <= dlc <= 61 /\ channel_ok dlc c /\ mux_dlcs mux !! Z.to_nat (dlc - 1) = Some (Some c).
Proof.
  intros [Hok _ _] H. apply bind_inv in H as (o & Hr & H). destruct o as [c'|]; [|done]. injection H as ->.
  assert (1 <= dlc) by (unfold rd in Hr; destruct (Z.ltb_spec (dlc - 1) 0); [done|lia]).
  apply rd_lookup in Hr; [|lia]. pose proof (mux_channels_ok mux Hok _ _ Hr) as Hc.
  apply lookup_lt_Some in Hr as Hlt. pose proof (mux_dlcs_len mux Hok). unfold zlen, MAX_CHANNELS in *.
  replace (Z.of_nat (Z.to_nat (dlc - 1)) + 1) with dlc in Hc by lia. split_and!; [lia|lia|done|done].
Qed.

Section Operations.
Context (F : Framing) (fs : Z).

Lemma inv_write_frame mux dlc control data n mux' : mux_inv fs mux ->
  write_frame F mux dlc control data n = Ret mux' -> mux_inv fs mux'.
Proof. intros Hi H. apply bind_inv in H as (fr & _ & [= <-]). by apply inv_event. Qed.

Lemma inv_command mux dlc control mux' : mux_inv fs mux -> write_command F mux dlc control = Ret mux' -> mux_inv fs mux'.
Proof. intros Hi H. apply bind_inv in H as (fr & _ & [= <-]). by apply inv_event. Qed.

Lemma inv_write fuel : forall mux dlc data n mux', mux_inv fs mux -> write_loop F fuel mux dlc data n = Ret mux' -> mux_inv fs mux'.
Proof.
  induction fuel as [|fuel IH]; intros mux dlc data n mux' Hi; cbn [write_loop]; [done|].
  destruct (0 <? n); [|by intros [= <-]]. intros H. apply bind_inv in H as (mux1 & H1 & H).
  apply inv_write_frame in H1; [|done]. by apply IH in H.
Qed.

Lemma inv_close mux dlc mux' : mux_inv fs mux -> channel_close F mux dlc = Ret mux' -> mux_inv fs mux'.
Proof.
  intros Hi H. apply bind_inv in H as (c & Hc & H). apply (get_channel_inv fs) in Hc as (Hd & Hco & _); [|done].
  apply bind_inv in H as (mux1 & H1 & H). apply inv_command in H1; [|by apply inv_event].
  apply (inv_set_channel fs) in H; [done|done| |done]. by rewrite (channel_dlc dlc c Hco).
Qed.

Lemma inv_close_loop dlcs : forall mux mux', mux_inv fs mux -> close_loop F mux dlcs = Ret mux' -> mux_inv fs mux'.
Proof.
  induction dlcs as [|d dlcs IH]; intros mux mux' Hi H; cbn [close_loop] in H; [by injection H as <-|].
  apply bind_inv in H as (o & _ & H). destruct o as [c|]; [|by apply IH in H].
  apply bind_inv in H as (mux1 & H1 & H). apply inv_close in H1; [|done]. by apply IH in H.
Qed.

Lemma inv_shutdown mux mux' b : mux_inv fs mux -> g_at_mux_shutdown F mux = Ret (mux', b) -> mux_inv fs mux'.
Proof.
  intros Hi. unfold g_at_mux_shutdown. destruct (mux_shutdown mux); [by intros [= <- _]|]. intros H.
  apply bind_inv in H as (mux1 & H1 & H). apply inv_close_loop in H1; [|by apply inv_watches].
  apply bind_inv in H as (mux2 & H2 & H). apply inv_command in H2; [|done]. injection H as <- _. by apply inv_watches.
Qed.

Lemma inv_start mux mux' : mux_inv fs mux -> g_at_mux_start F mux = Ret mux' -> mux_inv fs mux'.
Proof. intros Hi H. apply bind_inv in H as (mux1 & H1 & [= <-]). apply inv_watches. by apply inv_command in H1. Qed.

Lemma channel_buffer_ok : exists r, ring_buffer_new MUX_CHANNEL_BUFFER_SIZE = Ret r /\ ring_ok r /\
  rb_size r = MUX_CHANNEL_BUFFER_SIZE /\ contents r = [].
Proof.
  destruct (new_ok MUX_CHANNEL_BUFFER_SIZE) as (k & Hk & Hmin & Hmax & r & Hn & Hs & Hr & Hc & _).
  exists r. split_and!; try done. rewrite Hs. change MUX_CHANNEL_BUFFER_SIZE with (2 ^ 12) in *.
  change (Z.min (2 ^ 12) MAX_SIZE) with (2 ^ 12) in Hmin. apply Z.pow_le_mono_r_iff in Hmin; [|lia|lia].
  destruct Hmax as [->|Hlt]; [lia|]. apply Z.pow_lt_mono_r_iff in Hlt; [|lia|lia]. f_equal. lia.
Qed.

Lemma free_slot_ok dlcs : 0 <= free_slot dlcs <= zlen dlcs /\
  (forall i, Z.of_nat i < free_slot dlcs -> exists c, dlcs !! i = Some (Some c)) /\
  (free_slot dlcs < zlen dlcs -> dlcs !! Z.to_nat (free_slot dlcs) = Some None).
Proof.
  induction dlcs as [|[c|] dlcs (Hb & Ho & Hf)]; cbn [free_slot].
  - split_and!; [done|done|intros; lia|done].
  - rewrite zlen_cons. split_and!; [lia|lia| |].
    + intros [|i] Hi; [by exists c|]. cbn. apply Ho. lia.
    + intros Hlt. replace (Z.to_nat (1 + free_slot dlcs)) with (S (Z.to_nat (free_slot dlcs))) by lia. cbn. apply Hf. lia.
  - split_and!; [lia|zl|intros; lia|done].
Qed.

Lemma inv_create mux mux' dlc : mux_inv fs mux -> g_at_mux_create_channel F mux = Ret (mux', dlc) -> mux_inv fs mux'.
Proof.
  intros Hi H. pose proof (free_slot_ok (mux_dlcs mux)) as (Hb & _). rewrite (mux_dlcs_len mux (inv_ok _ _ Hi)) in Hb.
  unfold g_at_mux_create_channel in H. apply bind_inv in H as ([] & Hc & H).
  destruct (Z.eqb_spec (free_slot (mux_dlcs mux)) MAX_CHANNELS); [done|].
  apply bind_inv in H as (mux1 & H1 & H). apply inv_command in H1; [|done].
  destruct channel_buffer_ok as (r & Hr & Hro & Hrs & _). rewrite Hr, bind_Ret in H.
  apply bind_inv in H as (mux2 & H2 & [= <- <-]). apply (inv_set_channel fs) in H2; [done|done|unfold MAX_CHANNELS in *; lia|by split].
Qed.

(** A client gets the octets that came first. *)
Lemma channel_read_ok mux dlc count c : mux_inv fs mux -> 0 <= count -> get_channel mux dlc = Ret c ->
  exists mux' n, channel_read mux dlc count = Ret (mux', take n (contents (ch_buffer c))) /\ mux_inv fs mux' /\
    waiting mux' dlc = Some (drop n (contents (ch_buffer c))) /\
    (0 < count -> contents (ch_buffer c) <> [] -> (0 < n)%nat).
Proof.
  intros Hi Hcount Hc. destruct (get_channel_inv fs mux dlc c Hi Hc) as (Hd & Hco & Hlk). destruct Hco as [Hcd Hcr Hcs].
  unfold channel_read. rewrite Hc, bind_Ret. pose proof (used_bounds _ Hcr) as Hu. pose proof (size_bounds _ Hcr) as Hs.
  set (avail := ring_buffer_len_no_wrap (ch_buffer c)).
  assert (Ha : 0 <= avail /\ (contents (ch_buffer c) <> [] -> 0 < avail)).
  { unfold avail, ring_buffer_len_no_wrap. rewrite (mask_mod _ Hcr).
    pose proof (Z.mod_pos_bound (rb_out (ch_buffer c)) (rb_size (ch_buffer c))). split; [lia|]. intros Hne.
    pose proof (contents_len _ Hcr) as Hl. destruct (contents (ch_buffer c)); [done|]. zl. }
  set (n := if count <? avail then count else avail).
  assert (Hn : 0 <= n /\ (0 < count -> contents (ch_buffer c) <> [] -> 0 < n)).
  { unfold n. destruct (Z.ltb_spec count avail); split; try lia. intros _ Hne. by apply Ha. }
  destruct (read_ok (ch_buffer c) n Hcr) as (r' & -> & Hr' & Hs' & Hc'); [lia|]. rewrite bind_Ret.
  destruct (set_channel_ok mux dlc (Some (set_ch_buffer c (ch_condition c) r')) (mux_newdata mux)) as
    (dlcs & He & Hok' & _ & Hw); [apply Hi|done|apply Hi|split; [done|done|cbn; congruence]|].
  unfold set_channel. rewrite He, !bind_Ret. eexists _, (Z.to_nat n). split; [done|]. destruct Hi as [_ Hb Hf].
  split; [by split|]. split; [|intros H1 H2; destruct Hn as [_ Hn]; specialize (Hn H1 H2); lia].
  rewrite Hw, decide_True by (done || lia). cbn. by rewrite Hc'.
Qed.

Lemma inv_create_watch mux dlc condition mux' : mux_inv fs mux -> channel_create_watch mux dlc condition = Ret mux' -> mux_inv fs mux'.
Proof.
  intros Hi H. apply bind_inv in H as (c & Hc & H). apply (get_channel_inv fs) in Hc as (Hd & Hco & _); [|done].
  apply (inv_set_channel fs) in H; [done| |done|by apply set_sources_ok].
  destruct (_ && _); [|done]. unfold wakeup_writer. destruct (mux_write_watch mux); [done|by apply inv_watches].
Qed.

Lemma inv_can_write dlcs : forall mux, mux_inv fs mux ->
  mux_inv fs (fold_left (fun mux dlc => if can_send mux dlc then dispatch_sources mux dlc G_IO_OUT else mux) dlcs mux).
Proof.
  induction dlcs as [|d dlcs IH]; intros mux Hi; [done|]. cbn [fold_left]. apply IH. destruct (can_send mux d); [by apply inv_event|done].
Qed.
End Operations.

(** What the main loop, the clients and the program do with a multiplexer. *)
Inductive mux_step (F : Framing) : GAtMux -> GAtMux -> Prop :=
  | MuxStart mux mux' : g_at_mux_start F mux = Ret mux' -> mux_step F mux mux'
  | MuxShutdown mux mux' b : g_at_mux_shutdown F mux = Ret (mux', b) -> mux_step F mux mux'
  | MuxCreate mux mux' dlc : g_at_mux_create_channel F mux = Ret (mux', dlc) -> mux_step F mux mux'
  | MuxClose mux mux' dlc : channel_close F mux dlc = Ret mux' -> mux_step F mux mux'
  | MuxRead mux mux' dlc count data : 0 <= count -> channel_read mux dlc count = Ret (mux', data) -> mux_step F mux mux'
  | MuxWrite mux mux' dlc data count n : channel_write F mux dlc data count = Ret (mux', n) -> mux_step F mux mux'
  | MuxWatch mux mux' dlc condition : channel_create_watch mux dlc condition = Ret mux' -> mux_step F mux mux'
  | MuxCanWrite mux cond : mux_step F mux (can_write_data mux cond).1
  | MuxReceived mux mux' cond chunk ok b : bytes chunk ->
      received_data F mux cond chunk ok = Ret (mux', b) -> mux_step F mux mux'.

Lemma mux_step_inv F `{!FramingMemory F} fs mux mux' : mux_step F mux mux' -> mux_inv fs mux -> mux_inv fs mux'.
Proof.
  intros Hstep Hi. destruct Hstep as [mux mux' H|mux mux' b H|mux mux' dlc H|mux mux' dlc H|mux mux' dlc count data Hc H|
    mux mux' dlc data count n H|mux mux' dlc condition H|mux cond|mux mux' cond chunk ok b Hb H].
  - by apply (inv_start F fs) in H.
  - by apply (inv_shutdown F fs) in H.
  - by apply (inv_create F fs) in H.
  - by apply (inv_close F fs) in H.
  - destruct (get_channel mux dlc) as [c| |] eqn:E; [|by unfold channel_read in H; rewrite E in H..].
    destruct (channel_read_ok fs mux dlc count c Hi Hc E) as (mux1 & n & He & Hi1 & _). rewrite He in H. by injection H as <- _.
  - apply bind_inv in H as (c & _ & H). apply bind_inv in H as (mux1 & H1 & [= <- _]). by apply (inv_write F fs) in H1.
  - by apply (inv_create_watch fs) in H.
  - unfold can_write_data. destruct (has cond _); [done|]. by apply inv_can_write.
  - destruct Hi as [Hok Hbuf Hs]. apply received_grows in H as (Hok' & Hb' & Hs' & _); [|done..]. split; [done|done|congruence].
Qed.


(** ** Opening and closing *)

Lemma get_set_channel mux dlc c dlcs newdata : mux_ok mux -> 1 <= dlc <= 61 -> wr (mux_dlcs mux) (dlc - 1) (Some c) = Ret dlcs ->
  get_channel (set_channels mux dlcs newdata) dlc = Ret c.
Proof.
  intros Hok Hd Hw. pose proof (mux_dlcs_len mux Hok). unfold MAX_CHANNELS in *.
  assert (rd dlcs (dlc - 1) = Ret (Some c)) as Hr; [|unfold get_channel; cbn [set_channels mux_dlcs]; by rewrite Hr].
  revert Hw. unfold wr. destruct (_ && _) eqn:E; [|done]. intros [= <-].
  apply rd_lookup; [lia|]. apply list_lookup_insert_eq. unfold zlen in *. lia.
Qed.

Section Commands.
Context (F : Framing) `{L : !FramingLaws F}.

(** A command of a channel is the frame [encode dlc control []]. *)
Lemma command_ok mux dlc control : 0 <= dlc < 64 -> control <> 0x7d -> control <> 0x7e ->
  write_command F mux dlc control = Ret (g_at_mux_raw_write mux (encode dlc control [])).
Proof.
  intros Hd H1 H2. unfold write_command. change 0 with (zlen (@nil Z)) at 1. rewrite <- (app_nil_r []) at 1.
  rewrite fill_ok by (done || by apply command_room_ok). done.
Qed.

Lemma create_ok mux : mux_ok mux -> free_slot (mux_dlcs mux) < 61 ->
  let dlc := free_slot (mux_dlcs mux) + 1 in
  exists mux', g_at_mux_create_channel F mux = Ret (mux', dlc) /\ mux_ok mux' /\
    (exists c, get_channel mux' dlc = Ret c /\ channel_ok dlc c) /\
    (forall d, 1 <= d -> waiting mux' d = if decide (d = dlc) then Some [] else waiting mux d) /\
    mux_log mux' = mux_log mux ++ [RawWrite (encode dlc GSM0710_OPEN_CHANNEL [])].
Proof.
  intros Hok Hlt dlc. destruct (free_slot_ok (mux_dlcs mux)) as (Hb & _ & _). unfold g_at_mux_create_channel. fold dlc.
  rewrite (proj2 (Z.eqb_neq _ _)) by (unfold MAX_CHANNELS; lia). cbn [negb check]. rewrite bind_Ret.
  rewrite command_ok, bind_Ret by (done || lia). set (mux1 := g_at_mux_raw_write mux _).
  assert (Hok1 : mux_ok mux1) by (by destruct Hok).
  destruct channel_buffer_ok as (r & -> & Hr & Hrs & Hrc). rewrite bind_Ret.
  set (c := {| ch_condition := 0; ch_buffer := r; ch_sources := []; ch_throttled := false; ch_dlc := dlc |}).
  assert (Hc : channel_ok dlc c) by (by split).
  destruct (set_channel_ok mux1 dlc (Some c) (mux_newdata mux1)) as (dlcs & Hset & Hok2 & _ & Hw); [done|lia|apply Hok1|done|].
  unfold set_channel. rewrite Hset, !bind_Ret. eexists. split_and!; [done|done| | |done].
  - exists c. split; [|done]. by apply get_set_channel; [|lia|].
  - intros d Hd. rewrite Hw by done. destruct (decide (d = dlc)); [cbn; by rewrite Hrc|done].
Qed.

Lemma channel_close_ok mux dlc c : mux_ok mux -> 1 <= dlc <= 61 -> get_channel mux dlc = Ret c -> channel_ok dlc c ->
  exists mux', channel_close F mux dlc = Ret mux' /\
    (forall d, 1 <= d -> waiting mux' d = if decide (d = dlc) then None else waiting mux d) /\
    mux_log mux' = mux_log mux ++ [Dispatch dlc G_IO_NVAL; RawWrite (encode dlc GSM0710_CLOSE_CHANNEL [])].
Proof.
  intros Hok Hd Hget Hc. unfold channel_close. rewrite Hget, bind_Ret, (channel_dlc dlc c Hc).
  rewrite command_ok, bind_Ret by (done || lia). set (mux1 := g_at_mux_raw_write _ _).
  assert (Hok1 : mux_ok mux1) by (by destruct Hok).
  destruct (set_channel_ok mux1 dlc None (mux_newdata mux1)) as (dlcs & Hset & _ & _ & Hw); [done|done|apply Hok1|done|].
  unfold set_channel. rewrite Hset, bind_Ret. eexists. split_and!; [done| |cbn; by rewrite <- app_assoc].
  intros d Hd1. by rewrite Hw.
Qed.
End Commands.

Lemma mux_run_inv F `{!FramingMemory F} frame_size mux : rtc (mux_step F) (g_at_mux_new frame_size) mux -> mux_inv frame_size mux.
Proof.
  pose proof (inv_new frame_size) as Hi. revert Hi. generalize (g_at_mux_new frame_size).
  intros mux0 Hi. induction 1 as [mux|mux mux1 mux2 Hstep _ IH]; [done|]. apply IH. by apply (mux_step_inv F frame_size mux).
Qed.

(** * Correctness *)


(** C35: from the creation of a multiplexer of either framing on, through any
    sequence of starting and stopping, opening and closing of channels, reading,
    writing and watching by clients, and reading of any octets from the line,
    the state is well formed: every open channel is at the place of its number
    with a buffer of its own that is a ring of 4096 octets, the main buffer
    holds at most its size, and the size of frames is that of the set-up. *)
Theorem mux_reachable F frame_size mux : F = basic_framing \/ F = advanced_framing ->
  rtc (mux_step F) (g_at_mux_new frame_size) mux -> mux_inv frame_size mux.
Proof.
  intros HF Hrun. assert (FramingMemory F) by (destruct HF as [-> | ->]; apply _). by apply (mux_run_inv F).
Qed.

(** C36: no wake-up is lost: whatever octets are read from the line, every client
    whose channel has more to read afterwards than before is called, and the
    buffers of the other channels are as they were. *)
Theorem received_wakes F frame_size mux cond chunk ok mux' b :
  F = basic_framing \/ F = advanced_framing -> mux_inv frame_size mux -> bytes chunk ->
  received_data F mux cond chunk ok = Ret (mux', b) ->
  exists es, mux_log mux' = mux_log mux ++ es /\
    forall d, 1 <= d -> waiting mux' d = waiting mux d \/ Dispatch d G_IO_IN ∈ es.
Proof.
  intros HF [Hok Hb _] Hc H. assert (FramingMemory F) by (destruct HF as [-> | ->]; apply _).
  apply received_grows in H as (_ & _ & _ & es & He & Hes); [|done..]. exists es. split; [done|].
  intros d Hd. destruct (decide (waiting mux' d = waiting mux d)); [by left|right; by apply Hes].
Qed.

(** C37: a new channel gets the least number that is free, an empty buffer and an
    open command with this number on the line; no other channel is touched, and
    there is no new channel exactly when all 61 are open.  Closing it puts a
    close command on the line after the clients have been told, and leaves the
    channels as they were before. *)
Theorem create_close_channel F (L : FramingLaws F) frame_size mux : mux_inv frame_size mux ->
  (g_at_mux_create_channel F mux = Err /\ forall d, 1 <= d <= 61 -> waiting mux d <> None) \/
  exists dlc mux1 mux2,
    g_at_mux_create_channel F mux = Ret (mux1, dlc) /\ channel_close F mux1 dlc = Ret mux2 /\
    1 <= dlc <= 61 /\ waiting mux dlc = None /\ (forall d, 1 <= d < dlc -> waiting mux d <> None) /\
    (forall d, 1 <= d -> waiting mux1 d = if decide (d = dlc) then Some [] else waiting mux d) /\
    (forall d, 1 <= d -> waiting mux2 d = waiting mux d) /\
    mux_log mux1 = mux_log mux ++ [RawWrite (encode dlc GSM0710_OPEN_CHANNEL [])] /\
    mux_log mux2 = mux_log mux1 ++ [Dispatch dlc G_IO_NVAL; RawWrite (encode dlc GSM0710_CLOSE_CHANNEL [])].
Proof.
  intros Hi. pose proof (inv_ok _ _ Hi) as Hok. pose proof (mux_dlcs_len mux Hok) as Hlen. unfold MAX_CHANNELS in Hlen.
  destruct (free_slot_ok (mux_dlcs mux)) as (Hb & Hopen & Hfree). rewrite Hlen in Hb, Hfree.
  assert (Hbelow : forall d, 1 <= d < free_slot (mux_dlcs mux) + 1 -> waiting mux d <> None).
  { intros d Hd. destruct (Hopen (Z.to_nat (d - 1))) as [c Hc]; [lia|]. unfold waiting. by rewrite Hc. }
  destruct (Z.eq_dec (free_slot (mux_dlcs mux)) 61) as [He|Hne]; [left|right].
  { unfold g_at_mux_create_channel. rewrite He. split; [done|]. intros d Hd. apply Hbelow. lia. }
  destruct (create_ok F mux Hok) as (mux1 & Hc1 & Hok1 & (c & Hget & Hco) & Hw1 & Hl1); [lia|].
  set (dlc := free_slot (mux_dlcs mux) + 1) in *.
  destruct (channel_close_ok F mux1 dlc c Hok1 ltac:(lia) Hget Hco) as (mux2 & Hc2 & Hw2 & Hl2).
  assert (Hnone : waiting mux dlc = None).
  { unfold waiting. replace (Z.to_nat (dlc - 1)) with (Z.to_nat (free_slot (mux_dlcs mux))) by lia. by rewrite Hfree by lia. }
  exists dlc, mux1, mux2. split_and!; [done|done|lia|lia|done|done|done| |done|done].
  intros d Hd. rewrite Hw2, Hw1 by done. by destruct (decide (d = dlc)) as [->|].
Qed.

(** * Concrete runs *)

(** A multiplexer that is started and has the channels 1 and 2. *)
Definition two_channels (F : Framing) (frame_size : Z) : res GAtMux :=
  mux ← g_at_mux_start F (g_at_mux_new frame_size);
  '(mux, _) ← g_at_mux_create_channel F mux;
  '(mux, _) ← g_at_mux_create_channel F mux;
  Ret mux.

Lemma two_channels_run F frame_size mux : two_channels F frame_size = Ret mux ->
  rtc (mux_step F) (g_at_mux_new frame_size) mux.
Proof.
  intros H. apply bind_inv in H as (mux1 & H1 & H). apply bind_inv in H as ([mux2 d2] & H2 & H).
  apply bind_inv in H as ([mux3 d3] & H3 & [= <-]).
  eapply rtc_l; [by apply MuxStart|]. eapply rtc_l; [by eapply MuxCreate|]. by eapply rtc_once, MuxCreate.
Qed.

Definition sent_example : list (Z * list Z) := [(1, [0x41; 0x7e; 0xf9]); (2, [0x54]); (1, [0x0d])].

(** The line, split within frames and between the two octets of a quoted flag. *)
Definition line_chunks : list (list Z) :=
  [[0x7e; 0x07; 0xef; 0x41; 0x7d]; [0x5e; 0x05; 0x7e; 0x7e; 0x07; 0xef; 0xf9; 0x05]; [0x7e]; [0x7e; 0x0b];
   [0xef; 0x54; 0x9a; 0x7e; 0x7e; 0x07; 0xef; 0x0d; 0x05; 0x7e]].

Definition transport_ready (A B : GAtMux) : bool :=
  (mux_frame_size A =? 2) && (mux_buf_used B =? 0) &&
  bool_decide (waiting A 1 = Some []) && bool_decide (waiting A 2 = Some []) &&
  bool_decide (waiting B 1 = Some []) && bool_decide (waiting B 2 = Some []) &&
  match channel_writes advanced_framing A sent_example with
  | Ret A' => bool_decide (octets_written A' = octets_written A ++ concat line_chunks)
  | _ => false
  end.

Lemma ready_example :
  match two_channels advanced_framing 2, two_channels advanced_framing 31 with
  | Ret A, Ret B => transport_ready A B
  | _, _ => false
  end = true.
Proof. by vm_compute. Qed.


Lemma mux_reachable_witness : exists mux, two_channels basic_framing 31 = Ret mux /\ mux_inv 31 mux.
Proof.
  assert (match two_channels basic_framing 31 with Ret _ => true | _ => false end = true) as H by (by vm_compute).
  destruct (two_channels basic_framing 31) as [mux| |] eqn:E; [|discriminate H..]. exists mux. split; [done|].
  apply (mux_reachable basic_framing 31 mux); [by left|]. by apply two_channels_run.
Defined.

(** Two frames for channel 1 in one chunk, after noise. *)
Definition noisy_chunk : list Z := [0x00; 0xff] ++ [0xf9; 0x07; 0xef; 0x03; 0x41; 0xd4; 0xf9; 0x07; 0xef; 0x03; 0x42; 0xd4; 0xf9].

Lemma received_wakes_witness : exists mux mux' b es,
  received_data basic_framing mux G_IO_IN noisy_chunk true = Ret (mux', b) /\
  mux_log mux' = mux_log mux ++ es /\
  forall d, 1 <= d -> waiting mux' d = waiting mux d \/ Dispatch d G_IO_IN ∈ es.
Proof.
  assert (match two_channels basic_framing 31 with
          | Ret mux => match received_data basic_framing mux G_IO_IN noisy_chunk true with Ret _ => true | _ => false end
          | _ => false end = true) as H by (by vm_compute).
  destruct (two_channels basic_framing 31) as [mux| |] eqn:E; [|discriminate H..].
  destruct (received_data basic_framing mux G_IO_IN noisy_chunk true) as [[mux' b]| |] eqn:Er; [|discriminate H..].
  destruct (received_wakes basic_framing 31 mux G_IO_IN noisy_chunk true mux' b) as (es & Hl & Hes);
    [by left|by apply (mux_run_inv basic_framing), two_channels_run|by apply (bool_decide_unpack _)|done|].
  exists mux, mux', b, es. done.
Defined.

Lemma create_close_channel_witness : mux_inv 31 (g_at_mux_new 31) /\
  exists mux1, g_at_mux_create_channel basic_framing (g_at_mux_new 31) = Ret (mux1, 1) /\ waiting mux1 1 = Some [].
Proof.
  pose proof (inv_new 31) as Hi. split; [done|].
  destruct (create_close_channel basic_framing basic_laws 31 (g_at_mux_new 31) Hi) as
    [[H _]|(dlc & mux1 & mux2 & H1 & _ & Hd & _ & Hbelow & Hw & _)]; [by vm_compute in H|].
  assert (dlc = 1) as ->; [|exists mux1; split; [done|]; by rewrite Hw by lia].
  destruct (decide (dlc = 1)); [done|]. exfalso. apply (Hbelow 1); [lia|]. by vm_compute.
Defined.

(** * What the code does not guard against *)

(** A short frame of the advanced framing for an open channel: 2^32 - 1 octets
    are to be copied from the buffer, more than there are. *)
Lemma short_frame_overrun :
  match two_channels advanced_framing 31 with
  | Ret mux => match g_at_mux_create_channel advanced_framing mux with
               | Ret (mux, _) => match received_data advanced_framing mux G_IO_IN [0x00; 0x7e; 0x0f; 0xef; 0x7e] true with Ub => true | _ => false end
               | _ => false
               end
  | _ => false
  end = true.
Proof. by vm_compute. Qed.

(** A test command of the other side that is longer than the frames of this side
    is sent back from an array that is too short. *)
Lemma test_command_overrun :
  gsm0710_packet basic_framing (g_at_mux_new 31) 0 0xef (0x43 :: replicate 50 0) 51 = Ub.
Proof. by vm_compute. Qed.

(** So is the answer to a status command with 31 octets and more. *)
Lemma status_overrun : status_packet basic_framing (g_at_mux_new 31) (replicate 31 0) 31 = Ub.
Proof. by vm_compute. Qed.
