(* ===== verification/Hdlc.v ===== *)
(** HDLC framing of src/gatchat/gathdlc.c, the check sequence of
    src/gatchat/crc-ccitt.c, and of src/gatchat/gatio.c the reading side and the
    write watch: how PPP packets become octets on the line and packets again. *)
From S2P Require Import Prelude RingBuffer.

(** * The frame check sequence *)

Definition crc_ccitt_table : list Z :=
  [0x0000; 0x1189; 0x2312; 0x329b; 0x4624; 0x57ad; 0x6536; 0x74bf; 0x8c48; 0x9dc1; 0xaf5a; 0xbed3;
   0xca6c; 0xdbe5; 0xe97e; 0xf8f7; 0x1081; 0x0108; 0x3393; 0x221a; 0x56a5; 0x472c; 0x75b7; 0x643e;
   0x9cc9; 0x8d40; 0xbfdb; 0xae52; 0xdaed; 0xcb64; 0xf9ff; 0xe876; 0x2102; 0x308b; 0x0210; 0x1399;
   0x6726; 0x76af; 0x4434; 0x55bd; 0xad4a; 0xbcc3; 0x8e58; 0x9fd1; 0xeb6e; 0xfae7; 0xc87c; 0xd9f5;
   0x3183; 0x200a; 0x1291; 0x0318; 0x77a7; 0x662e; 0x54b5; 0x453c; 0xbdcb; 0xac42; 0x9ed9; 0x8f50;
   0xfbef; 0xea66; 0xd8fd; 0xc974; 0x4204; 0x538d; 0x6116; 0x709f; 0x0420; 0x15a9; 0x2732; 0x36bb;
   0xce4c; 0xdfc5; 0xed5e; 0xfcd7; 0x8868; 0x99e1; 0xab7a; 0xbaf3; 0x5285; 0x430c; 0x7197; 0x601e;
   0x14a1; 0x0528; 0x37b3; 0x263a; 0xdecd; 0xcf44; 0xfddf; 0xec56; 0x98e9; 0x8960; 0xbbfb; 0xaa72;
   0x6306; 0x728f; 0x4014; 0x519d; 0x2522; 0x34ab; 0x0630; 0x17b9; 0xef4e; 0xfec7; 0xcc5c; 0xddd5;
   0xa96a; 0xb8e3; 0x8a78; 0x9bf1; 0x7387; 0x620e; 0x5095; 0x411c; 0x35a3; 0x242a; 0x16b1; 0x0738;
   0xffcf; 0xee46; 0xdcdd; 0xcd54; 0xb9eb; 0xa862; 0x9af9; 0x8b70; 0x8408; 0x9581; 0xa71a; 0xb693;
   0xc22c; 0xd3a5; 0xe13e; 0xf0b7; 0x0840; 0x19c9; 0x2b52; 0x3adb; 0x4e64; 0x5fed; 0x6d76; 0x7cff;
   0x9489; 0x8500; 0xb79b; 0xa612; 0xd2ad; 0xc324; 0xf1bf; 0xe036; 0x18c1; 0x0948; 0x3bd3; 0x2a5a;
   0x5ee5; 0x4f6c; 0x7df7; 0x6c7e; 0xa50a; 0xb483; 0x8618; 0x9791; 0xe32e; 0xf2a7; 0xc03c; 0xd1b5;
   0x2942; 0x38cb; 0x0a50; 0x1bd9; 0x6f66; 0x7eef; 0x4c74; 0x5dfd; 0xb58b; 0xa402; 0x9699; 0x8710;
   0xf3af; 0xe226; 0xd0bd; 0xc134; 0x39c3; 0x284a; 0x1ad1; 0x0b58; 0x7fe7; 0x6e6e; 0x5cf5; 0x4d7c;
   0xc60c; 0xd785; 0xe51e; 0xf497; 0x8028; 0x91a1; 0xa33a; 0xb2b3; 0x4a44; 0x5bcd; 0x6956; 0x78df;
   0x0c60; 0x1de9; 0x2f72; 0x3efb; 0xd68d; 0xc704; 0xf59f; 0xe416; 0x90a9; 0x8120; 0xb3bb; 0xa232;
   0x5ac5; 0x4b4c; 0x79d7; 0x685e; 0x1ce1; 0x0d68; 0x3ff3; 0x2e7a; 0xe70e; 0xf687; 0xc41c; 0xd595;
   0xa12a; 0xb0a3; 0x8238; 0x93b1; 0x6b46; 0x7acf; 0x4854; 0x59dd; 0x2d62; 0x3ceb; 0x0e70; 0x1ff9;
   0xf78f; 0xe606; 0xd49d; 0xc514; 0xb1ab; 0xa022; 0x92b9; 0x8330; 0x7bc7; 0x6a4e; 0x58d5; 0x495c;
   0x3de3; 0x2c6a; 0x1ef1; 0x0f78].

Definition crc_ccitt_byte (crc c : Z) : Z :=
  Z.lxor (Z.shiftr crc 8) (nth (Z.to_nat (Z.land (Z.lxor crc c) 0xff)) crc_ccitt_table 0).

(** * The input buffer of a channel *)

Section GAtIO.
(** What [g_io_channel_read_chars] gives for each call: octets, cut to those
    asked for, and whether the status is normal. *)
Fixpoint read_attempts (n : nat) (buf : ring_buffer) (reads : list (list Z * bool)) (total_read : Z)
    : res (ring_buffer * Z) :=
  match n, reads with
  | S n, (chars, normal) :: reads =>
    let toread := ring_buffer_avail_no_wrap buf in
    if toread =? 0 then Ret (buf, total_read)
    else
      let chars := take (Z.to_nat toread) chars in
      let rbytes := zlen chars in
      buffer ← blit (rb_buffer buf) (ring_buffer_write_ptr buf 0) chars;
      let buf := set_counters buf buffer (rb_in buf) (rb_out buf) in
      let buf := if 0 <? rbytes then fst (ring_buffer_write_advance buf rbytes) else buf in
      if normal && (0 <? rbytes) then read_attempts n buf reads (total_read + rbytes)
      else Ret (buf, total_read + rbytes)
  | _, _ => Ret (buf, total_read)
  end.
End GAtIO.

(** * Frames *)

Definition BUFFER_SIZE : Z := 4096.
Definition MAX_BUFFERS : Z := 64.
Definition HDLC_OVERHEAD : Z := 256.
Definition HDLC_FLAG : Z := 0x7e.
Definition HDLC_ESCAPE : Z := 0x7d.
Definition HDLC_TRANS : Z := 0x20.
Definition HDLC_INITFCS : Z := 0xffff.
Definition HDLC_GOODFCS : Z := 0xf0b8.
Definition GUARD_TIMEOUT : Z := 1000.

(** [receive_func] says whether there is one, [timer] likewise, [suspend_source]
    whether the timeout is pending. *)
Record GAtHDLC := {
  write_queue : list ring_buffer;
  decode_buffer : list Z; decode_offset : Z; decode_fcs : Z; decode_escape : bool;
  xmit_accm : list Z; recv_accm : Z;
  receive_func : bool;
  wakeup_sent : bool; start_frame_marker : bool; no_carrier_detect : bool;
  timer : bool; suspend_source : bool; num_plus : Z
}.

Definition g_at_hdlc_new_from_io : res GAtHDLC :=
  write_buffer ← ring_buffer_new BUFFER_SIZE;
  Ret {| write_queue := [write_buffer];
         decode_buffer := replicate (Z.to_nat BUFFER_SIZE) 0; decode_offset := 0;
         decode_fcs := HDLC_INITFCS; decode_escape := false;
         xmit_accm := [0xffffffff; 0; 0; 0x60000000; 0; 0; 0; 0]; recv_accm := 0xffffffff;
         receive_func := false; wakeup_sent := false; start_frame_marker := false;
         no_carrier_detect := false; timer := false; suspend_source := false; num_plus := 0 |}.

Definition set_decoder (h : GAtHDLC) (buffer : list Z) (offset fcs : Z) (escape : bool) : GAtHDLC :=
  {| write_queue := write_queue h; decode_buffer := buffer; decode_offset := offset;
     decode_fcs := fcs; decode_escape := escape; xmit_accm := xmit_accm h; recv_accm := recv_accm h;
     receive_func := receive_func h; wakeup_sent := wakeup_sent h;
     start_frame_marker := start_frame_marker h; no_carrier_detect := no_carrier_detect h;
     timer := timer h; suspend_source := suspend_source h; num_plus := num_plus h |}.

Definition set_writer (h : GAtHDLC) (queue : list ring_buffer) (wakeup : bool) : GAtHDLC :=
  {| write_queue := queue; decode_buffer := decode_buffer h; decode_offset := decode_offset h;
     decode_fcs := decode_fcs h; decode_escape := decode_escape h; xmit_accm := xmit_accm h;
     recv_accm := recv_accm h; receive_func := receive_func h; wakeup_sent := wakeup;
     start_frame_marker := start_frame_marker h; no_carrier_detect := no_carrier_detect h;
     timer := timer h; suspend_source := suspend_source h; num_plus := num_plus h |}.

Definition set_suspend (h : GAtHDLC) (source : bool) (plus : Z) : GAtHDLC :=
  {| write_queue := write_queue h; decode_buffer := decode_buffer h; decode_offset := decode_offset h;
     decode_fcs := decode_fcs h; decode_escape := decode_escape h; xmit_accm := xmit_accm h;
     recv_accm := recv_accm h; receive_func := receive_func h; wakeup_sent := wakeup_sent h;
     start_frame_marker := start_frame_marker h; no_carrier_detect := no_carrier_detect h;
     timer := timer h; suspend_source := source; num_plus := plus |}.

(** The settings: the receiver, the maps, markers and detection. *)
Definition set_settings (h : GAtHDLC) (xmit : list Z) (recv : Z) (receive marker detect with_timer source : bool)
    : GAtHDLC :=
  {| write_queue := write_queue h; decode_buffer := decode_buffer h; decode_offset := decode_offset h;
     decode_fcs := decode_fcs h; decode_escape := decode_escape h; xmit_accm := xmit;
     recv_accm := recv; receive_func := receive; wakeup_sent := wakeup_sent h;
     start_frame_marker := marker; no_carrier_detect := detect;
     timer := with_timer; suspend_source := source; num_plus := num_plus h |}.

Definition g_at_hdlc_set_recv_accm (h : GAtHDLC) (accm : Z) : GAtHDLC :=
  set_settings h (xmit_accm h) accm (receive_func h) (start_frame_marker h) (no_carrier_detect h) (timer h) (suspend_source h).

Definition g_at_hdlc_get_recv_accm (h : GAtHDLC) : Z := recv_accm h.

Definition g_at_hdlc_set_xmit_accm (h : GAtHDLC) (accm : Z) : GAtHDLC :=
  set_settings h (<[0%nat := accm]> (xmit_accm h)) (recv_accm h) (receive_func h) (start_frame_marker h)
    (no_carrier_detect h) (timer h) (suspend_source h).

Definition g_at_hdlc_get_xmit_accm (h : GAtHDLC) : res Z := rd (xmit_accm h) 0.

(** [func]: not NULL. *)
Definition g_at_hdlc_set_receive (h : GAtHDLC) (func : bool) : GAtHDLC :=
  set_settings h (xmit_accm h) (recv_accm h) func (start_frame_marker h) (no_carrier_detect h) (timer h) (suspend_source h).

Definition g_at_hdlc_set_start_frame_marker (h : GAtHDLC) (marker : bool) : GAtHDLC :=
  set_settings h (xmit_accm h) (recv_accm h) (receive_func h) marker (no_carrier_detect h) (timer h) (suspend_source h).

Definition g_at_hdlc_set_no_carrier_detect (h : GAtHDLC) (detect : bool) : GAtHDLC :=
  set_settings h (xmit_accm h) (recv_accm h) (receive_func h) (start_frame_marker h) detect (timer h) (suspend_source h).

Definition g_at_hdlc_set_suspend_function (h : GAtHDLC) (func : bool) : GAtHDLC :=
  set_settings h (xmit_accm h) (recv_accm h) (receive_func h) (start_frame_marker h) (no_carrier_detect h)
    func (if func then suspend_source h else false).

(** ** Receiving *)

(** [hdlc->decode_buffer[hdlc->decode_offset++] = val;] and the check sequence. *)
Definition decode_store (h : GAtHDLC) (val : Z) : res GAtHDLC :=
  buffer ← wr (decode_buffer h) (decode_offset h) val;
  Ret (set_decoder h buffer (decode_offset h + 1) (crc_ccitt_byte (decode_fcs h) val) false).

(** One octet; the packet for [receive_func], if it completes one. *)
Definition decode_octet (h : GAtHDLC) (c : Z) : res (GAtHDLC * option (list Z)) :=
  if decode_escape h then
    h ← decode_store h (Z.lxor c HDLC_TRANS); Ret (h, None)
  else if c =? HDLC_ESCAPE then
    Ret (set_decoder h (decode_buffer h) (decode_offset h) (decode_fcs h) true, None)
  else if c =? HDLC_FLAG then
    frame ←
      (if receive_func h && (2 <? decode_offset h) && (decode_fcs h =? HDLC_GOODFCS)
       then frame ← slice (decode_buffer h) 0 (decode_offset h - 2); Ret (Some frame)
       else Ret None);
    Ret (set_decoder h (decode_buffer h) 0 HDLC_INITFCS false, frame)
  else if (0x20 <=? c) || negb (has (recv_accm h) (Z.shiftl 1 c)) then
    h ← decode_store h c; Ret (h, None)
  else Ret (h, None).

(** [len] octets of [rbuf], from [pos] on, where [buf] points; the packets
    given to [receive_func], and [pos] behind the last octet taken.  [destroys]:
    the handler releases the object for that packet. *)
Fixpoint new_bytes_loop (fuel : nat) (destroys : list Z -> bool) (h : GAtHDLC) (rbuf : ring_buffer)
    (len wrap buf pos : Z) : res (GAtHDLC * Z * list (list Z)) :=
  match fuel with
  | O => Ub
  | S fuel =>
    if pos <? len then
      c ← rd (rb_buffer rbuf) buf;
      if no_carrier_detect h && (decode_offset h =? 0) && (c =? 0x0d) then Ret (h, pos, [])
      else
        '(h, frame) ← decode_octet h c;
        let next :=
          let pos := pos + 1 in
          let buf := if pos =? wrap then ring_buffer_read_ptr rbuf pos else buf + 1 in
          new_bytes_loop fuel destroys h rbuf len wrap buf pos in
        match frame with
        | Some frame =>
            if destroys frame then Ret (h, pos, [frame])
            else '(h, pos, frames) ← next; Ret (h, pos, frame :: frames)
        | None => next
        end
    else Ret (h, pos, [])
  end.

(** The number of '+' at the start. *)
Fixpoint plus_loop (n : nat) (rbuf : ring_buffer) (len wrap buf pos : Z) : res Z :=
  match n with
  | O => Ret pos
  | S n =>
    if pos <? len then
      c ← rd (rb_buffer rbuf) buf;
      if negb (c =? 0x2b) then Ret pos
      else
        let pos := pos + 1 in
        plus_loop n rbuf len wrap (if pos =? wrap then ring_buffer_read_ptr rbuf pos else buf + 1) pos
    else Ret pos
  end.

(** [elapsed]: milliseconds on the timer. *)
Definition check_escape (h : GAtHDLC) (rbuf : ring_buffer) (elapsed : Z) : res (GAtHDLC * bool) :=
  let len := ring_buffer_len (Some rbuf) in
  let wrap := ring_buffer_len_no_wrap rbuf in
  let guard_timeout := GUARD_TIMEOUT <=? elapsed in
  plus ← plus_loop 3 rbuf len wrap (ring_buffer_read_ptr rbuf 0) 0;
  if negb (plus =? len) then Ret (h, false)
  else if negb guard_timeout && (num_plus h =? 0) then Ret (h, false)
  else if negb (plus =? 3) then Ret (set_suspend h (suspend_source h) plus, true)
  else Ret (set_suspend h true 0, true).

Definition new_bytes (destroys : list Z -> bool) (h : GAtHDLC) (rbuf : ring_buffer) (elapsed : Z)
    : res (GAtHDLC * ring_buffer * list (list Z)) :=
  '(h, escaping) ←
    (if suspend_source h then Ret (set_suspend h false (num_plus h), false)
     else if timer h then check_escape h rbuf elapsed
     else Ret (h, false));
  if (escaping : bool) then Ret (h, rbuf, [])
  else
    let len := ring_buffer_len (Some rbuf) in
    let wrap := ring_buffer_len_no_wrap rbuf in
    '(h, pos, frames) ← new_bytes_loop (S (Z.to_nat len)) destroys h rbuf len wrap (ring_buffer_read_ptr rbuf 0) 0;
    Ret (h, fst (ring_buffer_drain rbuf pos), frames).

(** The timeout: three octets are dropped; the caller calls [suspend_func]. *)
Definition hdlc_suspend (h : GAtHDLC) (rbuf : ring_buffer) : GAtHDLC * ring_buffer :=
  (set_suspend h false (num_plus h), fst (ring_buffer_drain rbuf 3)).

(** ** Sending *)

Definition NEED_ESCAPE (accm : list Z) (c : Z) : res bool :=
  w ← rd accm (Z.shiftr c 5); Ret (has w (Z.shiftl 1 (Z.land c 0x1f))).

(** The ring being written: its octets, where [buf] points, the octets used of
    those available. *)
Record hdlc_out := { out_buffer : list Z; out_buf : Z; out_pos : Z }.

Definition out_step (write_buffer : ring_buffer) (wrap : Z) (o : hdlc_out) (c : Z) : res hdlc_out :=
  buffer ← wr (out_buffer o) (out_buf o) c;
  let pos := out_pos o + 1 in
  Ret {| out_buffer := buffer;
         out_buf := if pos =? wrap then ring_buffer_write_ptr write_buffer pos else out_buf o + 1;
         out_pos := pos |}.

(** [while (pos < avail && i < size)]: what is left of [data]. *)
Fixpoint send_loop (fuel : nat) (accm : list Z) (write_buffer : ring_buffer) (avail wrap : Z)
    (data : list Z) (fcs : Z) (escape : bool) (o : hdlc_out) : res (hdlc_out * list Z * Z * bool) :=
  match fuel with
  | O => Ub
  | S fuel =>
    match data with
    | c :: rest =>
      if out_pos o <? avail then
        if escape then
          o ← out_step write_buffer wrap o (Z.lxor c HDLC_TRANS);
          send_loop fuel accm write_buffer avail wrap rest (crc_ccitt_byte fcs c) false o
        else
          need ← NEED_ESCAPE accm c;
          if (need : bool) then
            o ← out_step write_buffer wrap o HDLC_ESCAPE;
            send_loop fuel accm write_buffer avail wrap data fcs true o
          else
            o ← out_step write_buffer wrap o c;
            send_loop fuel accm write_buffer avail wrap rest (crc_ccitt_byte fcs c) false o
      else Ret (o, data, fcs, escape)
    | [] => Ret (o, [], fcs, escape)
    end
  end.

(** The start of a frame, [None] for FALSE. *)
Definition send_start (h : GAtHDLC) (write_buffer : ring_buffer) (avail wrap : Z) (o : hdlc_out)
    : res (option (hdlc_out * bool)) :=
  if start_frame_marker h then
    if avail <? out_pos o + 1 then Ret None
    else o ← out_step write_buffer wrap o HDLC_FLAG; Ret (Some (o, wakeup_sent h))
  else if negb (wakeup_sent h) then
    buffer ← wr (out_buffer o) (out_buf o) HDLC_FLAG;
    Ret (Some ({| out_buffer := buffer; out_buf := out_buf o + 1; out_pos := out_pos o + 1 |}, true))
  else Ret (Some (o, wakeup_sent h)).

(** The ring to write to, the last one of the queue. *)
Definition send_buffer (h : GAtHDLC) (size : Z) : res (option (list ring_buffer * ring_buffer)) :=
  match reverse (write_queue h) with
  | [] => Ub
  | tail :: before =>
    if ring_buffer_avail (Some tail) <? size + HDLC_OVERHEAD then
      if MAX_BUFFERS <? zlen (write_queue h) then Ret None
      else match ring_buffer_new BUFFER_SIZE with
           | Ret new => Ret (Some (write_queue h, new))
           | Err => Ret None
           | Ub => Ub
           end
    else Ret (Some (reverse before, tail))
  end.

(** The ring with the frame in it, [None] when it has no room for it; the octets
    stored in its free part until then are not kept. *)
Definition send_frame (h : GAtHDLC) (write_buffer : ring_buffer) (data : list Z)
    : res (option ring_buffer * bool) :=
  let avail := ring_buffer_avail (Some write_buffer) in
  let wrap := ring_buffer_avail_no_wrap write_buffer in
  start ← send_start h write_buffer avail wrap
    {| out_buffer := rb_buffer write_buffer; out_buf := ring_buffer_write_ptr write_buffer 0; out_pos := 0 |};
  match start with
  | None => Ret (None, wakeup_sent h)
  | Some (o, wakeup) =>
    '(o, rest, fcs, escape) ←
      send_loop (S (2 * length data)) (xmit_accm h) write_buffer avail wrap data HDLC_INITFCS false o;
    if negb (zlen rest =? 0) then Ret (None, wakeup)
    else
      let fcs := Z.lxor fcs HDLC_INITFCS in
      '(o, rest, _, _) ←
        send_loop 5 (xmit_accm h) write_buffer avail wrap [Z.land fcs 0xff; Z.shiftr fcs 8] 0 escape o;
      if negb (zlen rest =? 0) then Ret (None, wakeup)
      else if avail <? out_pos o + 1 then Ret (None, wakeup)
      else
        buffer ← wr (out_buffer o) (out_buf o) HDLC_FLAG;
        let write_buffer := set_counters write_buffer buffer (rb_in write_buffer) (rb_out write_buffer) in
        Ret (Some (fst (ring_buffer_write_advance write_buffer (out_pos o + 1))), wakeup)
  end.

(** TRUE or FALSE with the state after the call. *)
Definition g_at_hdlc_send (h : GAtHDLC) (data : list Z) : res (GAtHDLC * bool) :=
  choice ← send_buffer h (zlen data);
  match choice with
  | None => Ret (h, false)
  | Some (before, write_buffer) =>
    '(sent, wakeup) ← send_frame h write_buffer data;
    Ret (set_writer h (before ++ [default write_buffer sent]) wakeup, bool_decide (is_Some sent))
  end.

(** [accept]: how many of the octets offered [g_at_io_write] takes.  The octets
    written, and whether to be called again. *)
Definition can_write_data (h : GAtHDLC) (accept : Z -> Z) : res (GAtHDLC * list Z * bool) :=
  match write_queue h with
  | [] => Ub
  | write_buffer :: queue =>
    let len := ring_buffer_len_no_wrap write_buffer in
    let bytes_written := accept len in
    octets ← slice (rb_buffer write_buffer) (ring_buffer_read_ptr write_buffer 0) bytes_written;
    let write_buffer := fst (ring_buffer_drain write_buffer bytes_written) in
    if 0 <? ring_buffer_len (Some write_buffer) then
      Ret (set_writer h (write_buffer :: queue) (wakeup_sent h), octets, true)
    else
      match queue with
      | [] => Ret (set_writer h [write_buffer] (wakeup_sent h), octets, false)
      | next :: _ => Ret (set_writer h queue (wakeup_sent h), octets, 0 <? ring_buffer_len (Some next))
      end
  end.

(** * The check sequence as polynomial division *)

(** One step of the division by x^16 + x^12 + x^5 + 1, low bit first. *)
Definition crc_bit (x : Z) : Z := if Z.odd x then Z.lxor (Z.shiftr x 1) 0x8408 else Z.shiftr x 1.

Fixpoint crc_bits (n : nat) (x : Z) : Z :=
  match n with O => x | S n => crc_bits n (crc_bit x) end.

Lemma crc_bit_xor x y : crc_bit (Z.lxor x y) = Z.lxor (crc_bit x) (crc_bit y).
Proof.
  unfold crc_bit. rewrite <- !Z.bit0_odd, Z.lxor_spec, Z.shiftr_lxor.
  apply Z.bits_inj'. intros i _.
  destruct (Z.testbit x 0), (Z.testbit y 0); cbn [xorb]; rewrite ?Z.lxor_spec;
    destruct (Z.testbit (Z.shiftr x 1) i), (Z.testbit (Z.shiftr y 1) i), (Z.testbit 0x8408 i); done.
Qed.

Lemma crc_bits_xor n x y : crc_bits n (Z.lxor x y) = Z.lxor (crc_bits n x) (crc_bits n y).
Proof. revert x y. induction n as [|n IH]; intros x y; [done|]. cbn [crc_bits]. by rewrite crc_bit_xor, IH. Qed.

Lemma crc_bit_even h : crc_bit (2 * h) = h.
Proof.
  unfold crc_bit. rewrite Z.odd_mul. cbn [Z.odd andb]. rewrite Z.shiftr_div_pow2 by done. change (2 ^ 1) with 2.
  rewrite Z.mul_comm. by apply Z.div_mul.
Qed.

Lemma crc_bits_even n h : crc_bits n (h * 2 ^ Z.of_nat n) = h.
Proof.
  induction n as [|n IH]; [cbn; lia|]. cbn [crc_bits].
  replace (h * 2 ^ Z.of_nat (S n)) with (2 * (h * 2 ^ Z.of_nat n)) by (rewrite Nat2Z.inj_succ, Z.pow_succ_r by lia; lia).
  by rewrite crc_bit_even.
Qed.

Lemma xor_bytes h l : is_byte l -> Z.lxor (h * 256) l = h * 256 + l.
Proof.
  intros Hl. rewrite Z.add_nocarry_lxor; [done|]. apply Z.bits_inj'. intros i Hi.
  rewrite Z.land_spec, Z.bits_0. change 256 with (2 ^ 8). destruct (Z.lt_ge_cases i 8).
  - by rewrite Z.mul_pow2_bits_low.
  - rewrite <- (Z.mod_small l (2 ^ 8)) by done. by rewrite (Z.mod_pow2_bits_high l 8), andb_false_r by lia.
Qed.

Lemma crc_table_bits x : is_byte x -> nth (Z.to_nat x) crc_ccitt_table 0 = crc_bits 8 x.
Proof.
  intros Hx. pose proof (byte_forall (fun x => nth (Z.to_nat x) crc_ccitt_table 0 =? crc_bits 8 x) x
    ltac:(by vm_compute) Hx) as H. by apply Z.eqb_eq in H.
Qed.

(** The octet enters by exclusive or in the low bits. *)
Lemma crc_byte_word crc c : 0 <= crc < 2 ^ 16 -> is_byte c ->
  crc_ccitt_byte crc c = Z.lxor (Z.lxor crc c / 256) (nth (Z.to_nat (Z.lxor crc c mod 256)) crc_ccitt_table 0).
Proof.
  intros Hcrc Hc. unfold crc_ccitt_byte.
  assert (Z.land (Z.lxor crc c) 255 = Z.lxor crc c mod 256) as ->.
  { change 255 with (Z.ones 8). by rewrite Z.land_ones. }
  f_equal. change 256 with (2 ^ 8). rewrite <- !Z.shiftr_div_pow2, Z.shiftr_lxor by done.
  assert (Z.shiftr c 8 = 0) as ->; [|by rewrite Z.lxor_0_r].
  rewrite Z.shiftr_div_pow2 by done. by apply Z.div_small.
Qed.

(** The table of crc-ccitt.c is right: a step of [crc_ccitt_byte] is eight
    steps of the bit-serial division by the CCITT polynomial, for every check
    sequence and every octet. *)
Theorem crc_table_is_division crc c : 0 <= crc < 2 ^ 16 -> is_byte c ->
  crc_ccitt_byte crc c = crc_bits 8 (Z.lxor crc c).
Proof.
  intros Hcrc Hc. rewrite crc_byte_word by done.
  assert (Hx : 0 <= Z.lxor crc c < 2 ^ 16) by (apply xor_small; unfold is_byte in Hc; lia).
  set (x := Z.lxor crc c) in *. assert (Hl : is_byte (x mod 256)) by (by apply Z.mod_pos_bound).
  rewrite crc_table_bits by done.
  rewrite (Z.div_mod x 256) at 3 by done. rewrite (Z.mul_comm 256), <- xor_bytes by done.
  pose proof (crc_bits_even 8 (x / 256)) as He. change (2 ^ Z.of_nat 8) with 256 in He.
  by rewrite crc_bits_xor, He.
Qed.

Lemma crc_byte_range crc c : 0 <= crc < 2 ^ 16 -> is_byte c -> 0 <= crc_ccitt_byte crc c < 2 ^ 16.
Proof.
  intros Hcrc Hc. rewrite crc_byte_word by done.
  assert (Hx : 0 <= Z.lxor crc c < 2 ^ 16) by (apply xor_small; unfold is_byte in Hc; lia).
  apply xor_small; [done|Z.to_euclidean_division_equations; lia|].
  pose proof (byte_forall (fun x => (0 <=? nth (Z.to_nat x) crc_ccitt_table 0) &&
    (nth (Z.to_nat x) crc_ccitt_table 0 <? 2 ^ 16)) (Z.lxor crc c mod 256) ltac:(by vm_compute)
    ltac:(by apply Z.mod_pos_bound)) as H. cbv beta in H. bool_to_prop. lia.
Qed.

(** The two octets of the complement, low one first, make any check sequence
    the good one. *)
Lemma crc_residue crc : 0 <= crc < 2 ^ 16 ->
  let fcs := Z.lxor crc HDLC_INITFCS in
  is_byte (Z.land fcs 0xff) /\ is_byte (Z.shiftr fcs 8) /\
  crc_ccitt_byte (crc_ccitt_byte crc (Z.land fcs 0xff)) (Z.shiftr fcs 8) = HDLC_GOODFCS.
Proof.
  intros Hcrc fcs. assert (Hf : 0 <= fcs < 2 ^ 16) by (apply xor_small; [done|done|unfold HDLC_INITFCS; lia]).
  assert (Hlo : is_byte (Z.land fcs 0xff)).
  { change 255 with (Z.ones 8). rewrite Z.land_ones by done. by apply Z.mod_pos_bound. }
  assert (Hhi : is_byte (Z.shiftr fcs 8)).
  { rewrite Z.shiftr_div_pow2 by done. unfold is_byte. Z.to_euclidean_division_equations; lia. }
  split; [done|]. split; [done|].
  assert (H1 : crc_ccitt_byte crc (Z.land fcs 0xff) = Z.lxor (Z.shiftr crc 8) 0x0f78).
  { unfold crc_ccitt_byte. do 2 f_equal.
    assert (Z.land (Z.lxor crc (Z.land fcs 255)) 255 = 255) as ->; [|done].
    apply Z.bits_inj'. intros i Hi. unfold fcs. rewrite !Z.land_spec, Z.lxor_spec, Z.land_spec, Z.lxor_spec.
    change HDLC_INITFCS with (Z.ones 16). change 255 with (Z.ones 8).
    rewrite !Z.testbit_ones_nonneg by lia. destruct (Z.ltb_spec i 8); [|by rewrite !andb_false_r].
    rewrite (proj2 (Z.ltb_lt i 16)) by lia. by destruct (Z.testbit crc i). }
  rewrite H1. unfold crc_ccitt_byte.
  assert (Z.land (Z.lxor (Z.lxor (Z.shiftr crc 8) 0x0f78) (Z.shiftr fcs 8)) 255 = 0x87) as ->.
  { unfold fcs. rewrite Z.shiftr_lxor. change (Z.shiftr HDLC_INITFCS 8) with 255.
    rewrite (Z.lxor_comm (Z.shiftr crc 8) 255), (Z.lxor_comm (Z.shiftr crc 8)), Z.lxor_assoc.
    rewrite <- (Z.lxor_assoc (Z.shiftr crc 8)), (Z.lxor_comm (Z.shiftr crc 8) 255), !Z.lxor_assoc.
    by rewrite Z.lxor_nilpotent. }
  rewrite Z.shiftr_lxor, Z.shiftr_shiftr by done.
  assert (Z.shiftr crc (8 + 8) = 0) as ->; [|done].
  rewrite Z.shiftr_div_pow2 by done. by apply Z.div_small.
Qed.

(** * Frames as lists of octets *)

(** The octets of [c] on the line, under the map [accm]. *)
Definition escaped (accm : list Z) (c : Z) : list Z :=
  if has (nth (Z.to_nat (Z.shiftr c 5)) accm 0) (Z.shiftl 1 (Z.land c 0x1f))
  then [HDLC_ESCAPE; Z.lxor c HDLC_TRANS] else [c].

Definition escape_all (accm : list Z) (data : list Z) : list Z := flat_map (escaped accm) data.

Definition crc_all (fcs : Z) (data : list Z) : Z := fold_left crc_ccitt_byte data fcs.

Definition trailer (data : list Z) : list Z :=
  let fcs := Z.lxor (crc_all HDLC_INITFCS data) HDLC_INITFCS in [Z.land fcs 0xff; Z.shiftr fcs 8].

Definition frame_octets (accm : list Z) (data : list Z) : list Z :=
  escape_all accm (data ++ trailer data) ++ [HDLC_FLAG].

Lemma crc_all_range data : forall fcs, 0 <= fcs < 2 ^ 16 -> bytes data -> 0 <= crc_all fcs data < 2 ^ 16.
Proof.
  induction data as [|c data IH]; intros fcs Hf Hd; [done|]. apply Forall_cons in Hd as [Hc Hd].
  cbn [crc_all fold_left]. apply IH; [by apply crc_byte_range|done].
Qed.

Lemma trailer_bytes data : bytes data -> bytes (trailer data).
Proof.
  intros Hd. destruct (crc_residue (crc_all HDLC_INITFCS data)) as (Hlo & Hhi & _).
  { by apply crc_all_range. }
  unfold trailer. repeat apply Forall_cons_2; [done|done|by apply Forall_nil].
Qed.

Lemma trailer_good data : bytes data -> crc_all HDLC_INITFCS (data ++ trailer data) = HDLC_GOODFCS.
Proof.
  intros Hd. unfold crc_all at 1. rewrite fold_left_app. fold (crc_all HDLC_INITFCS data).
  destruct (crc_residue (crc_all HDLC_INITFCS data)) as (_ & _ & Hg); [by apply crc_all_range|exact Hg].
Qed.

Lemma escaped_len accm c : 1 <= zlen (escaped accm c) <= 2.
Proof. unfold escaped. case_cmp; done. Qed.

Lemma escape_all_app accm a b : escape_all accm (a ++ b) = escape_all accm a ++ escape_all accm b.
Proof. apply flat_map_app. Qed.

(** ** Writing a frame into a ring *)

Lemma wr_blit {A} (l : list A) i v : 0 <= i < zlen l -> wr l i v = blit l i [v].
Proof.
  intros Hi. rewrite <- (take_drop (Z.to_nat i) l). destruct (drop (Z.to_nat i) l) as [|x rest] eqn:Hd.
  { apply (f_equal zlen) in Hd. rewrite zlen_drop in Hd. change (zlen []) with 0 in Hd. lia. }
  assert (Hz : i = zlen (take (Z.to_nat i) l)) by (rewrite zlen_take; lia).
  rewrite wr_middle by done. change (x :: rest) with ([x] ++ rest). by rewrite blit_middle.
Qed.

Section Send.
Context (wb : ring_buffer) (accm : list Z).
Hypothesis Hwb : ring_ok wb.
Hypothesis Haccm : zlen accm = 8.

Definition avail : Z := ring_buffer_avail (Some wb).
Definition wrap : Z := ring_buffer_avail_no_wrap wb.

(** [s] has been written behind the contents. *)
Record out_ok (o : hdlc_out) (s : list Z) : Prop := {
  oo_len : zlen (out_buffer o) = zlen (rb_buffer wb);
  oo_pos : out_pos o = zlen s;
  oo_fits : zlen s <= avail;
  oo_buf : zlen s < avail -> out_buf o = u32 (rb_in wb + zlen s) mod rb_size wb;
  oo_octets : cyc (out_buffer o) (rb_out wb) (used wb + zlen s) = contents wb ++ s
}.

Lemma avail_room : avail = rb_size wb - used wb.
Proof. apply room_used, Hwb. Qed.

Lemma wrap_eq : wrap = Z.min avail (rb_size wb - rb_in wb mod rb_size wb).
Proof. unfold wrap, ring_buffer_avail_no_wrap. by rewrite (mask_mod wb Hwb). Qed.

(** The store of one octet; where [buf] points next is seen below. *)
Lemma store_ok o s c : out_ok o s -> zlen s < avail ->
  exists buffer, wr (out_buffer o) (out_buf o) c = Ret buffer /\ zlen buffer = zlen (rb_buffer wb) /\
    cyc buffer (rb_out wb) (used wb + zlen (s ++ [c])) = contents wb ++ s ++ [c].
Proof.
  intros [Hl Hp Hf Hb Hc] Hlt. specialize (Hb Hlt). pose proof avail_room. pose proof (size_bounds wb Hwb).
  pose proof (used_bounds wb Hwb). pose proof (zlen_nonneg s). pose proof (ring_len wb Hwb) as Hlen.
  pose proof (Z.mod_pos_bound (u32 (rb_in wb + zlen s)) (rb_size wb)) as Hm.
  rewrite wr_blit by lia.
  destruct (ring_put wb Hwb (set_counters wb (out_buffer o) (rb_in wb) (rb_out wb)) (zlen s) (out_buf o) [c])
    as (buffer & Hbl & Hz & Hcy); [done|done|done|done|exact Hl|done|done|..].
  - change (zlen [c]) with 1. lia.
  - change (zlen [c]) with 1. lia.
  - exists buffer. split; [exact Hbl|]. split; [done|].
    rewrite zlen_app, Z.add_assoc, Hcy. cbn [set_counters rb_buffer]. by rewrite Hc, app_assoc.
Qed.

(** The next place, without a wrap. *)
Lemma next_place s : 0 <= s -> s + 1 < avail -> s + 1 <> wrap ->
  u32 (rb_in wb + s) mod rb_size wb + 1 = u32 (rb_in wb + (s + 1)) mod rb_size wb.
Proof.
  intros Hs Ha Hw. rewrite wrap_eq in Hw. pose proof avail_room. pose proof (used_bounds wb Hwb).
  apply (ring_next wb (rb_in wb) avail s Hwb); lia.
Qed.

Lemma out_step_ok o s c : out_ok o s -> zlen s < avail ->
  exists o', out_step wb wrap o c = Ret o' /\ out_ok o' (s ++ [c]).
Proof.
  intros Ho Hlt. destruct (store_ok o s c Ho Hlt) as (buffer & Hw & Hz & Hc).
  unfold out_step. rewrite Hw, bind_Ret. eexists. split; [done|].
  destruct Ho as [Hl Hp Hf Hb _]. specialize (Hb Hlt). pose proof (zlen_nonneg s).
  assert (Hs1 : zlen (s ++ [c]) = zlen s + 1) by (rewrite zlen_app; done).
  split; cbn [out_buffer out_pos out_buf]; [done|lia|lia| |by rewrite Hc].
  intros Hlt'. rewrite Hs1, Hp in *. destruct (Z.eqb_spec (zlen s + 1) wrap) as [He|Hne].
  - unfold ring_buffer_write_ptr. by rewrite (mask_mod wb Hwb).
  - rewrite Hb. by apply next_place.
Qed.

Lemma need_escape_ok c : is_byte c ->
  NEED_ESCAPE accm c = Ret (has (nth (Z.to_nat (Z.shiftr c 5)) accm 0) (Z.shiftl 1 (Z.land c 0x1f))).
Proof.
  intros Hc. unfold NEED_ESCAPE. unfold is_byte in Hc.
  assert (Hi : 0 <= Z.shiftr c 5 < zlen accm).
  { rewrite Z.shiftr_div_pow2, Haccm by done. Z.to_euclidean_division_equations; lia. }
  destruct (rd_in_bounds accm _ Hi) as [w Hw]. rewrite Hw, bind_Ret. apply rd_lookup in Hw; [|lia].
  by rewrite (nth_lookup_Z _ _ _ Hw).
Qed.

(** The loops over the packet and its check sequence. *)
Lemma send_loop_ok data : forall fuel o s fcs, bytes data -> out_ok o s -> (2 * length data < fuel)%nat ->
  if zlen s + zlen (escape_all accm data) <=? avail
  then exists o', send_loop fuel accm wb avail wrap data fcs false o = Ret (o', [], crc_all fcs data, false) /\
         out_ok o' (s ++ escape_all accm data)
  else exists o' rest f e, send_loop fuel accm wb avail wrap data fcs false o = Ret (o', rest, f, e) /\ rest <> [].
Proof.
  induction data as [|c data IH]; intros fuel o s fcs Hd Ho Hf;
    (destruct fuel as [|fuel]; [lia|]); cbn [send_loop].
  - cbn [escape_all flat_map]. change (zlen []) with 0. rewrite Z.add_0_r, app_nil_r.
    rewrite (proj2 (Z.leb_le _ _)) by apply Ho. by exists o.
  - apply Forall_cons in Hd as [Hc Hd]. cbn [length] in Hf. cbn [escape_all flat_map]. fold (escape_all accm data).
    rewrite zlen_app. pose proof (escaped_len accm c). pose proof (zlen_nonneg (escape_all accm data)).
    pose proof Ho as [_ Hp Hfit _ _]. rewrite Hp. destruct (Z.ltb_spec (zlen s) avail) as [Hlt|Hge].
    2: { rewrite (proj2 (Z.leb_gt _ _)) by lia. eauto 6. }
    rewrite need_escape_ok, bind_Ret by done. unfold escaped in *. case_cmp.
    + destruct (out_step_ok o s HDLC_ESCAPE Ho Hlt) as (o1 & -> & Ho1). rewrite bind_Ret.
      destruct fuel as [|fuel]; [lia|]. cbn [send_loop]. pose proof Ho1 as [_ Hp1 _ _ _]. rewrite Hp1.
      assert (Hz1 : zlen (s ++ [HDLC_ESCAPE]) = zlen s + 1) by (rewrite zlen_app; done).
      change (zlen [HDLC_ESCAPE; Z.lxor c HDLC_TRANS]) with 2 in *.
      destruct (Z.ltb_spec (zlen (s ++ [HDLC_ESCAPE])) avail) as [Hlt1|Hge1].
      2: { rewrite (proj2 (Z.leb_gt _ _)) by lia. eauto 6. }
      destruct (out_step_ok o1 _ (Z.lxor c HDLC_TRANS) Ho1 Hlt1) as (o2 & -> & Ho2). rewrite bind_Ret.
      specialize (IH fuel o2 _ (crc_ccitt_byte fcs c) Hd Ho2 ltac:(lia)).
      rewrite zlen_app, Hz1 in IH. change (zlen [_]) with 1 in IH.
      rewrite <- !app_assoc in IH. cbn [app] in IH |- *.
      replace (zlen s + 1 + 1 + zlen (escape_all accm data)) with (zlen s + (2 + zlen (escape_all accm data)))
        in IH by lia. exact IH.
    + destruct (out_step_ok o s c Ho Hlt) as (o1 & -> & Ho1). rewrite bind_Ret.
      specialize (IH fuel o1 _ (crc_ccitt_byte fcs c) Hd Ho1 ltac:(lia)).
      rewrite zlen_app, <- Z.add_assoc, <- app_assoc in IH. exact IH.
Qed.

(** Where the wake-up flag would go wrong: it is stored without the test for
    the end of the ring. *)
Definition start_ok (h : GAtHDLC) : Prop := start_frame_marker h = true \/ wakeup_sent h = true \/ 1 < wrap.

Definition frame_start (h : GAtHDLC) : list Z :=
  if start_frame_marker h || negb (wakeup_sent h) then [HDLC_FLAG] else [].

Lemma start_empty : out_ok {| out_buffer := rb_buffer wb; out_buf := ring_buffer_write_ptr wb 0; out_pos := 0 |} [].
Proof.
  pose proof (used_bounds wb Hwb). pose proof avail_room.
  split; cbn [out_buffer out_pos out_buf]; change (zlen []) with 0; try done; try lia.
  - intros _. unfold ring_buffer_write_ptr. by rewrite (mask_mod wb Hwb).
  - by rewrite Z.add_0_r, app_nil_r.
Qed.

Lemma send_start_ok h : start_ok h -> 0 < avail ->
  exists o, send_start h wb avail wrap
      {| out_buffer := rb_buffer wb; out_buf := ring_buffer_write_ptr wb 0; out_pos := 0 |} =
      Ret (Some (o, start_frame_marker h && wakeup_sent h || negb (start_frame_marker h))) /\
    out_ok o (frame_start h).
Proof.
  intros Hst Hav. pose proof start_empty as Ho. unfold send_start, frame_start.
  destruct (start_frame_marker h) eqn:Hm; cbn [orb andb negb].
  - cbn [out_pos]. rewrite (proj2 (Z.ltb_ge _ _)) by lia.
    destruct (out_step_ok _ [] HDLC_FLAG Ho Hav) as (o & -> & Ho1). rewrite bind_Ret, orb_false_r. by exists o.
  - destruct (wakeup_sent h) eqn:Hw; cbn [negb].
    { eexists. split; [done|]. exact Ho. }
    destruct Hst as [Hst|[Hst|Hst]]; [congruence..|].
    destruct (store_ok _ [] HDLC_FLAG Ho Hav) as (buffer & -> & Hz & Hc). rewrite bind_Ret.
    eexists. split; [done|]. pose proof wrap_eq as Hwr.
    split; cbn [out_buffer out_pos out_buf]; change (zlen [HDLC_FLAG]) with 1; try done; try lia.
    intros Hlt. unfold ring_buffer_write_ptr. rewrite (mask_mod wb Hwb).
    apply (next_place 0); lia.
Qed.

(** A frame is in the ring if it has room for it, else nothing is. *)
Lemma send_frame_ok h data : xmit_accm h = accm -> bytes data -> start_ok h -> 0 < avail ->
  let octets := frame_start h ++ frame_octets accm data in
  let wakeup := start_frame_marker h && wakeup_sent h || negb (start_frame_marker h) in
  if zlen octets <=? avail
  then exists wb', send_frame h wb data = Ret (Some wb', wakeup) /\ ring_ok wb' /\ contents wb' = contents wb ++ octets /\
         rb_size wb' = rb_size wb
  else send_frame h wb data = Ret (None, wakeup).
Proof.
  intros Ha Hd Hst Hav octets wakeup. unfold send_frame. fold avail wrap.
  destruct (send_start_ok h Hst Hav) as (o & -> & Ho). rewrite bind_Ret, Ha. fold wakeup.
  pose proof (send_loop_ok data (S (2 * length data)) o _ HDLC_INITFCS Hd Ho ltac:(lia)) as Hloop.
  assert (Hz : zlen octets = zlen (frame_start h) + zlen (escape_all accm data) +
    zlen (escape_all accm (trailer data)) + 1).
  { unfold octets, frame_octets. rewrite escape_all_app, !zlen_app. change (zlen [HDLC_FLAG]) with 1. lia. }
  pose proof (zlen_nonneg (escape_all accm (trailer data))).
  destruct (Z.leb_spec (zlen (frame_start h) + zlen (escape_all accm data)) avail) as [H1|H1].
  2: { destruct Hloop as (o' & rest & f & e & -> & Hrest). rewrite bind_Ret.
    rewrite (proj2 (Z.eqb_neq _ _)) by (destruct rest; [done|rewrite zlen_cons; zl]).
    by rewrite (proj2 (Z.leb_gt _ _)) by lia. }
  destruct Hloop as (o1 & -> & Ho1). rewrite bind_Ret. change (negb (zlen [] =? 0)) with false. cbv iota.
  pose proof (send_loop_ok (trailer data) 5 o1 _ 0 (trailer_bytes data Hd) Ho1 ltac:(cbn; lia)) as Hloop.
  match goal with |- context [send_loop 5 _ _ _ _ ?t] => change t with (trailer data) end.
  rewrite zlen_app in Hloop.
  destruct (Z.leb_spec (zlen (frame_start h) + zlen (escape_all accm data) + zlen (escape_all accm (trailer data))) avail) as [H2|H2].
  2: { destruct Hloop as (o' & rest & f & e & -> & Hrest). rewrite bind_Ret.
    rewrite (proj2 (Z.eqb_neq _ _)) by (destruct rest; [done|rewrite zlen_cons; zl]).
    by rewrite (proj2 (Z.leb_gt _ _)) by lia. }
  destruct Hloop as (o2 & -> & Ho2). rewrite bind_Ret. change (negb (zlen [] =? 0)) with false. cbv iota.
  pose proof Ho2 as [_ Hp2 _ _ _]. rewrite Hp2, !zlen_app, Hz.
  destruct (Z.leb_spec (zlen (frame_start h) + zlen (escape_all accm data) + zlen (escape_all accm (trailer data)) + 1) avail) as [H3|H3].
  2: { by rewrite (proj2 (Z.ltb_lt _ _)) by lia. }
  rewrite (proj2 (Z.ltb_ge _ _)) by lia.
  destruct (store_ok o2 _ HDLC_FLAG Ho2) as (buffer & -> & Hzb & Hcyc); [rewrite !zlen_app; lia|]. rewrite bind_Ret.
  unfold ring_buffer_write_advance. eexists. split; [done|]. cbn [fst].
  assert (Hoct : (((frame_start h ++ escape_all accm data) ++ escape_all accm (trailer data)) ++ [HDLC_FLAG]) = octets).
  { unfold octets, frame_octets. by rewrite escape_all_app, <- !app_assoc. }
  rewrite Hoct in Hcyc. change (room (set_counters wb buffer (rb_in wb) (rb_out wb))) with avail.
  rewrite Z.min_l by lia.
  destruct (advance_in_ok wb Hwb buffer (zlen octets)) as (Hok & _ & Hc);
    [done|change (room wb) with avail; pose proof (zlen_nonneg octets); lia|].
  rewrite <- Hz. exact (conj Hok (conj (eq_trans Hc Hcyc) eq_refl)).
Qed.
End Send.

(** ** The queue of rings *)

Definition queue_octets (h : GAtHDLC) : list Z := concat (contents <$> write_queue h).

Record hdlc_ok (h : GAtHDLC) : Prop := {
  ho_queue : write_queue h <> [];
  ho_rings : Forall (fun r => ring_ok r /\ rb_size r = BUFFER_SIZE) (write_queue h);
  ho_accm : zlen (xmit_accm h) = 8;
  ho_start : start_frame_marker h = true \/ wakeup_sent h = true \/
    forall tail, last (write_queue h) = Some tail -> 1 < ring_buffer_avail_no_wrap tail
}.

(** The octets that are free for a packet of [size] octets. *)
Definition send_room (h : GAtHDLC) (size : Z) : Z :=
  match last (write_queue h) with
  | None => 0
  | Some tail =>
    if ring_buffer_avail (Some tail) <? size + HDLC_OVERHEAD then
      if MAX_BUFFERS <? zlen (write_queue h) then 0 else BUFFER_SIZE
    else ring_buffer_avail (Some tail)
  end.

Definition sent_octets (h : GAtHDLC) (data : list Z) : list Z :=
  frame_start h ++ frame_octets (xmit_accm h) data.

Lemma new_ring_ok : exists r, ring_buffer_new BUFFER_SIZE = Ret r /\ ring_ok r /\ contents r = [] /\
  avail r = BUFFER_SIZE /\ wrap r = BUFFER_SIZE /\ rb_size r = BUFFER_SIZE.
Proof.
  destruct (new_ok BUFFER_SIZE) as (k & Hk & Hmin & Hk1 & r & Hn & Hs & Hr & Hc & Hi & Ho).
  assert (k = 12) as ->.
  { unfold BUFFER_SIZE, MAX_SIZE in *. destruct Hk1 as [->|Hk1]; [done|].
    change (Z.min 4096 262144) with (2 ^ 12) in Hmin. change 4096 with (2 ^ 12) in Hk1.
    apply Z.pow_le_mono_r_iff in Hmin; [|done|lia]. destruct (decide (k - 1 < 0)); [lia|].
    apply Z.pow_lt_mono_r_iff in Hk1; lia. }
  change (2 ^ 12) with BUFFER_SIZE in Hs. exists r. split; [done|]. split; [done|]. split; [done|].
  assert (Ha : avail r = BUFFER_SIZE) by (unfold avail, ring_buffer_avail, room; by rewrite Hi, Ho, Hs).
  split; [done|]. split; [|done]. by rewrite (wrap_eq r Hr), Ha, Hi, Hs.
Qed.

Lemma sent_octets_pos h data : 1 <= zlen (sent_octets h data).
Proof. unfold sent_octets, frame_octets. rewrite !zlen_app. change (zlen [HDLC_FLAG]) with 1. zl. Qed.

Lemma queue_split h : write_queue h <> [] -> exists before tail,
  write_queue h = before ++ [tail] /\ reverse (write_queue h) = tail :: reverse before /\
  last (write_queue h) = Some tail.
Proof.
  intros Hq. destruct (reverse (write_queue h)) as [|tail before] eqn:Hrev;
    apply (f_equal reverse) in Hrev; rewrite reverse_involutive in Hrev; [done|].
  rewrite reverse_cons in Hrev. exists (reverse before), tail. split; [done|].
  rewrite reverse_involutive. split; [done|]. by rewrite Hrev, last_snoc.
Qed.

Lemma octets_snoc before wb : concat (contents <$> before ++ [wb]) = concat (contents <$> before) ++ contents wb.
Proof. rewrite fmap_app, concat_app. cbn [fmap list_fmap concat]. by rewrite app_nil_r. Qed.

(** The queue after a call: left alone, or [added] is in its last ring, which
    was there before or is a new one. *)
Definition queue_grown (h : GAtHDLC) (size : Z) (added : list Z) (queue : list ring_buffer) : Prop :=
  (queue = write_queue h /\ added = []) \/
  exists before wb wb', queue = before ++ [wb'] /\ contents wb' = contents wb ++ added /\
    (write_queue h = before ++ [wb] \/ before = write_queue h /\ send_room h size = BUFFER_SIZE).

(** What [g_at_hdlc_send] does with the queue. *)
Lemma send_queue_ok h data : hdlc_ok h -> bytes data ->
  let sent := zlen (sent_octets h data) <=? send_room h (zlen data) in
  let added := if sent then sent_octets h data else [] in
  exists h', g_at_hdlc_send h data = Ret (h', sent) /\ hdlc_ok h' /\
    queue_octets h' = queue_octets h ++ added /\ xmit_accm h' = xmit_accm h /\
    queue_grown h (zlen data) added (write_queue h').
Proof.
  intros [Hq Hrings Haccm Hstart] Hd sent added. destruct (queue_split h Hq) as (before & tail & Hqueue & Hrev & Hlast).
  pose proof (sent_octets_pos h data) as Hpos. pose proof (zlen_nonneg data).
  unfold g_at_hdlc_send, send_buffer. rewrite Hrev. unfold added, sent, queue_grown, send_room.
  rewrite Hlast. clear added sent.
  assert (Htail : ring_ok tail /\ rb_size tail = BUFFER_SIZE).
  { rewrite Hqueue in Hrings. apply Forall_app in Hrings as [_ Hrings]. by apply Forall_cons in Hrings as [? _]. }
  assert (Hgo : forall before wb, ring_ok wb /\ rb_size wb = BUFFER_SIZE -> start_ok wb h -> 0 < avail wb ->
    Forall (fun r => ring_ok r /\ rb_size r = BUFFER_SIZE) before ->
    concat (contents <$> before) ++ contents wb = queue_octets h ->
    exists h', ('(sent, wakeup) ← send_frame h wb data;
      Ret (set_writer h (before ++ [default wb sent]) wakeup, bool_decide (is_Some sent))) =
      Ret (h', zlen (sent_octets h data) <=? avail wb) /\ hdlc_ok h' /\
      queue_octets h' = queue_octets h ++ (if zlen (sent_octets h data) <=? avail wb then sent_octets h data else []) /\
      xmit_accm h' = xmit_accm h /\ exists wb', write_queue h' = before ++ [wb'] /\
        contents wb' = contents wb ++ (if zlen (sent_octets h data) <=? avail wb then sent_octets h data else [])).
  { intros bf wb [Hwb Hsz] Hst Hav Hbf Hoct.
    pose proof (send_frame_ok wb (xmit_accm h) Hwb Haccm h data eq_refl Hd Hst Hav) as Hf. cbv zeta in Hf.
    change (frame_start h ++ frame_octets (xmit_accm h) data) with (sent_octets h data) in Hf.
    assert (Hnext : forall wb' wakeup, ring_ok wb' /\ rb_size wb' = BUFFER_SIZE -> wakeup = start_frame_marker h && wakeup_sent h || negb (start_frame_marker h) ->
      hdlc_ok (set_writer h (bf ++ [wb']) wakeup)).
    { intros wb' wakeup Hwb' ->. split; cbn.
      - by destruct bf.
      - apply Forall_app; split; [done|by apply Forall_singleton].
      - done.
      - destruct (start_frame_marker h); [by left|right; left; done]. }
    destruct (zlen (sent_octets h data) <=? avail wb).
    - destruct Hf as (wb' & -> & Hwb' & Hc & Hsz'). rewrite bind_Ret. eexists. split; [done|].
      split; [apply (Hnext wb'); [split; [done|congruence]|done]|]. split; [|split; [done|by exists wb']].
      change (concat (contents <$> bf ++ [wb']) = queue_octets h ++ sent_octets h data).
      by rewrite octets_snoc, Hc, app_assoc, Hoct.
    - rewrite Hf, bind_Ret. eexists. split; [done|]. split; [by apply Hnext|].
      split; [|split; [done|exists wb; by rewrite app_nil_r]].
      change (concat (contents <$> bf ++ [wb]) = queue_octets h ++ []).
      by rewrite octets_snoc, app_nil_r, Hoct. }
  change (ring_buffer_avail (Some tail)) with (avail tail).
  destruct (Z.ltb_spec (avail tail) (zlen data + HDLC_OVERHEAD)) as [Hlow|Hhigh].
  - destruct (MAX_BUFFERS <? zlen (write_queue h)).
    { rewrite bind_Ret. exists h. rewrite (proj2 (Z.leb_gt _ _)), app_nil_r by lia. split_and!; try done. by left. }
    destruct new_ring_ok as (r & -> & Hr & Hc & Ha & Hw & Hs). rewrite bind_Ret, <- Ha.
    destruct (Hgo (write_queue h) r) as (h' & -> & Hh' & Ho' & Ha' & wb' & Hq' & Hc');
      [done|right; right; by rewrite Hw|by rewrite Ha|done|by rewrite Hc, app_nil_r|].
    exists h'. split_and!; try done. right. exists (write_queue h), r, wb'. auto.
  - rewrite reverse_involutive, bind_Ret.
    destruct (Hgo before tail) as (h' & -> & Hh' & Ho' & Ha' & wb' & Hq' & Hc'); [done| |unfold HDLC_OVERHEAD in *; lia| | |].
    + destruct Hstart as [?|[?|Hstart]]; [by left|by right; left|right; right; by apply Hstart].
    + rewrite Hqueue in Hrings. by apply Forall_app in Hrings as [Hrings _].
    + unfold queue_octets. by rewrite Hqueue, octets_snoc.
    + exists h'. split_and!; try done. right. exists before, tail, wb'. auto.
Qed.

Lemma send_ok h data : hdlc_ok h -> bytes data ->
  let sent := zlen (sent_octets h data) <=? send_room h (zlen data) in
  exists h', g_at_hdlc_send h data = Ret (h', sent) /\ hdlc_ok h' /\
    queue_octets h' = queue_octets h ++ (if sent then sent_octets h data else []) /\
    xmit_accm h' = xmit_accm h.
Proof.
  intros Hh Hd sent. destruct (send_queue_ok h data Hh Hd) as (h' & ? & ? & ? & ? & _). by exists h'.
Qed.

(** * Receiving *)

(** Octets one after the other, and the packets they complete. *)
Fixpoint decode_octets (h : GAtHDLC) (l : list Z) : res (GAtHDLC * list (list Z)) :=
  match l with
  | [] => Ret (h, [])
  | c :: l =>
      '(h, frame) ← decode_octet h c;
      '(h, frames) ← decode_octets h l;
      Ret (h, from_option (fun f => [f]) [] frame ++ frames)
  end.

Lemma decode_app l1 : forall h l2, decode_octets h (l1 ++ l2) =
  ('(h, f1) ← decode_octets h l1; '(h, f2) ← decode_octets h l2; Ret (h, f1 ++ f2)).
Proof.
  induction l1 as [|c l1 IH]; intros h l2; cbn [decode_octets app].
  - rewrite bind_Ret. by destruct (decode_octets h l2) as [[]| |].
  - destruct (decode_octet h c) as [[h1 f]| |]; simp_res; [|done..]. rewrite IH.
    destruct (decode_octets h1 l1) as [[h2 f1]| |]; simp_res; [|done..].
    destruct (decode_octets h2 l2) as [[h3 f2]| |]; simp_res; [|done..]. by rewrite app_assoc.
Qed.

Lemma decode_two h h1 h2 c1 c2 : decode_octet h c1 = Ret (h1, None) -> decode_octet h1 c2 = Ret (h2, None) ->
  decode_octets h [c1; c2] = Ret (h2, []).
Proof. intros H1 H2. cbn [decode_octets]. rewrite H1. simp_res. by rewrite H2. Qed.

Lemma decode_one h h1 c f : decode_octet h c = Ret (h1, f) ->
  decode_octets h [c] = Ret (h1, from_option (fun f => [f]) [] f).
Proof. intros H1. cbn [decode_octets]. rewrite H1. simp_res. by rewrite app_nil_r. Qed.

(** What decoding leaves alone. *)
Definition decoder_of (h0 h : GAtHDLC) : Prop := exists buffer offset fcs escape,
  h = set_decoder h0 buffer offset fcs escape.

Lemma decode_octet_config h c h' f : decode_octet h c = Ret (h', f) -> decoder_of h h'.
Proof.
  unfold decode_octet, decode_store. intros H. unfold decoder_of.
  repeat (case_cmp || match type of H with context [if ?b then _ else _] => destruct b end); simp_res;
    repeat match type of H with
    | context [wr ?a ?b ?c] => destruct (wr a b c); simp_res
    | context [slice ?a ?b ?c] => destruct (slice a b c); simp_res
    end; try discriminate; injection H as <- <-; eauto 6.
  exists (decode_buffer h), (decode_offset h), (decode_fcs h), (decode_escape h). by destruct h.
Qed.

Lemma decoder_of_trans h0 h1 h2 : decoder_of h0 h1 -> decoder_of h1 h2 -> decoder_of h0 h2.
Proof.
  intros (b & o & f & e & ->) (b' & o' & f' & e' & ->). by exists b', o', f', e'.
Qed.

Lemma decoder_of_refl h : decoder_of h h.
Proof. exists (decode_buffer h), (decode_offset h), (decode_fcs h), (decode_escape h). by destruct h. Qed.

Lemma decode_octets_config l : forall h h' f, decode_octets h l = Ret (h', f) -> decoder_of h h'.
Proof.
  induction l as [|c l IH]; intros h h' f Hd; cbn [decode_octets] in Hd.
  - injection Hd as <- <-. apply decoder_of_refl.
  - destruct (decode_octet h c) as [[h1 f1]| |] eqn:H1; simp_res; [|done..].
    destruct (decode_octets h1 l) as [[h2 f2]| |] eqn:H2; simp_res; [|done..]. injection Hd as <- <-.
    eapply decoder_of_trans; [by eapply decode_octet_config|by eapply IH].
Qed.

(** The loop of [new_bytes], where nothing looks like NO CARRIER. *)
Section Loop.
Context (rbuf : ring_buffer).
Hypothesis Hr : ring_ok rbuf.

Lemma loop_ok l : forall fuel h buf pos, 0 <= pos ->
  drop (Z.to_nat pos) (contents rbuf) = l -> pos + zlen l = used rbuf ->
  (l <> [] -> buf = u32 (rb_out rbuf + pos) mod rb_size rbuf) ->
  (length l < fuel)%nat -> (no_carrier_detect h = false \/ Forall (fun c => c <> 0x0d) l) ->
  new_bytes_loop fuel (fun _ => false) h rbuf (used rbuf) (ring_buffer_len_no_wrap rbuf) buf pos =
  ('(h, frames) ← decode_octets h l; Ret (h, used rbuf, frames)).
Proof.
  pose proof (used_bounds rbuf Hr) as Hu.
  induction l as [|c l IH]; intros fuel h buf pos Hp Hd Hl Hbuf Hf Hnc;
    (destruct fuel as [|fuel]; cbn [length] in Hf; [lia|]); cbn [new_bytes_loop decode_octets].
  - change (zlen []) with 0 in Hl. rewrite (proj2 (Z.ltb_ge _ _)) by lia. simp_res. do 3 f_equal. lia.
  - rewrite zlen_cons in Hl. pose proof (zlen_nonneg l). rewrite (proj2 (Z.ltb_lt _ _)) by lia.
    rewrite (Hbuf ltac:(done)), (read_place rbuf pos c l) by done. rewrite bind_Ret.
    assert (no_carrier_detect h && (decode_offset h =? 0) && (c =? 13) = false) as ->.
    { destruct Hnc as [->|Hnc]; [done|]. apply Forall_cons in Hnc as [Hc _].
      by rewrite (proj2 (Z.eqb_neq c 13)), andb_false_r by done. }
    destruct (decode_octet h c) as [[h1 f]| |] eqn:Hdec; simp_res; [|done..].
    apply decode_octet_config in Hdec. destruct Hdec as (b1 & o1 & f1 & e1 & ->).
    assert (Hnext : new_bytes_loop fuel (fun _ => false) (set_decoder h b1 o1 f1 e1) rbuf (used rbuf)
        (ring_buffer_len_no_wrap rbuf)
        (if pos + 1 =? ring_buffer_len_no_wrap rbuf then ring_buffer_read_ptr rbuf (pos + 1)
         else u32 (rb_out rbuf + pos) mod rb_size rbuf + 1) (pos + 1) =
      ('(h, frames) ← decode_octets (set_decoder h b1 o1 f1 e1) l; Ret (h, used rbuf, frames))).
    { apply IH; [lia| |lia| |lia|].
      - replace (Z.to_nat (pos + 1)) with (Z.to_nat pos + 1)%nat by lia. by rewrite <- drop_drop, Hd.
      - intros Hne. assert (0 < zlen l) by (destruct l; [done|rewrite zlen_cons; pose proof (zlen_nonneg l); lia]).
        destruct (Z.eqb_spec (pos + 1) (ring_buffer_len_no_wrap rbuf)) as [He|Hneq].
        + unfold ring_buffer_read_ptr. by rewrite (mask_mod rbuf Hr).
        + apply (ring_next rbuf (rb_out rbuf) (used rbuf) pos Hr); [lia|lia|lia|].
          unfold ring_buffer_len_no_wrap in Hneq. by rewrite (mask_mod rbuf Hr) in Hneq.
      - destruct Hnc as [?|Hnc]; [by left|right]. by apply Forall_cons in Hnc as [_ ?]. }
    rewrite Hnext. destruct (decode_octets (set_decoder h b1 o1 f1 e1) l) as [[h2 fs]| |]; simp_res;
      destruct f; done.
Qed.

Lemma new_bytes_ok h elapsed : timer h = false -> suspend_source h = false ->
  (no_carrier_detect h = false \/ Forall (fun c => c <> 0x0d) (contents rbuf)) ->
  new_bytes (fun _ => false) h rbuf elapsed =
  ('(h, frames) ← decode_octets h (contents rbuf); Ret (h, fst (ring_buffer_drain rbuf (used rbuf)), frames)).
Proof.
  intros Ht Hs Hnc. unfold new_bytes. rewrite Ht, Hs, bind_Ret. cbv iota.
  pose proof (used_bounds rbuf Hr). pose proof (contents_len rbuf Hr) as Hcl.
  change (ring_buffer_len (Some rbuf)) with (used rbuf).
  rewrite (loop_ok (contents rbuf)) by first
    [lia | done | by rewrite drop_0 | unfold zlen in Hcl; lia
    | intros _; unfold ring_buffer_read_ptr; by rewrite (mask_mod rbuf Hr)].
  by destruct (decode_octets h (contents rbuf)) as [[]| |].
Qed.
End Loop.

(** ** Frames decoded *)

(** The map escapes the flag, the escape, and what the receiver drops. *)
Definition accm_covers (accm : list Z) (recv : Z) : Prop :=
  has (nth 3 accm 0) (Z.shiftl 1 0x1d) = true /\ has (nth 3 accm 0) (Z.shiftl 1 0x1e) = true /\
  forall c, 0 <= c < 0x20 -> has recv (Z.shiftl 1 c) = true -> has (nth 0 accm 0) (Z.shiftl 1 c) = true.

Section Decode.
Context (h0 : GAtHDLC) (accm : list Z).
Hypothesis Haccm : accm_covers accm (recv_accm h0).
Hypothesis Hfunc : receive_func h0 = true.

(** [d] has been decoded of the current frame. *)
Definition decoding (h : GAtHDLC) (d : list Z) : Prop :=
  exists rest, h = set_decoder h0 (d ++ rest) (zlen d) (crc_all HDLC_INITFCS d) false /\
    zlen (d ++ rest) = BUFFER_SIZE.

Lemma store_decoding d rest escape val : zlen (d ++ rest) = BUFFER_SIZE -> zlen d < BUFFER_SIZE ->
  exists h', decode_store (set_decoder h0 (d ++ rest) (zlen d) (crc_all HDLC_INITFCS d) escape) val = Ret h' /\
    decoding h' (d ++ [val]).
Proof.
  intros Hz Hd. destruct rest as [|x rest].
  { rewrite app_nil_r in Hz. lia. }
  unfold decode_store. cbn [set_decoder decode_buffer decode_offset decode_fcs].
  rewrite wr_middle by done. rewrite bind_Ret. eexists. split; [done|]. exists rest.
  rewrite <- app_assoc. split; [|zl].
  unfold crc_all. rewrite fold_left_app, zlen_app. done.
Qed.

Lemma trans_twice c : Z.lxor (Z.lxor c HDLC_TRANS) HDLC_TRANS = c.
Proof. by rewrite Z.lxor_assoc, Z.lxor_nilpotent, Z.lxor_0_r. Qed.

Lemma decode_escaped h d c : decoding h d -> zlen d < BUFFER_SIZE -> is_byte c ->
  exists h', decode_octets h (escaped accm c) = Ret (h', []) /\ decoding h' (d ++ [c]).
Proof.
  intros (rest & -> & Hz) Hd Hc. destruct Haccm as (H7d & H7e & Hrecv). unfold escaped.
  destruct (has (nth (Z.to_nat (Z.shiftr c 5)) accm 0) (Z.shiftl 1 (Z.land c 31))) eqn:Hneed.
  - destruct (store_decoding d rest true c Hz Hd) as (h' & Hst & Hdec). exists h'. split; [|done].
    eapply decode_two; [reflexivity|]. unfold decode_octet. cbn [set_decoder decode_escape]. rewrite trans_twice.
    match goal with |- context [decode_store ?h c] => change (decode_store h c) with
      (decode_store (set_decoder h0 (d ++ rest) (zlen d) (crc_all HDLC_INITFCS d) true) c) end.
    by rewrite Hst.
  - destruct (store_decoding d rest false c Hz Hd) as (h' & Hst & Hdec). exists h'. split; [|done].
    apply (decode_one _ _ _ None). unfold decode_octet.
    assert (c <> HDLC_ESCAPE) by
      (intros ->; change (has (nth 3 accm 0) (Z.shiftl 1 0x1d) = false) in Hneed; congruence).
    assert (c <> HDLC_FLAG) by
      (intros ->; change (has (nth 3 accm 0) (Z.shiftl 1 0x1e) = false) in Hneed; congruence).
    rewrite !(proj2 (Z.eqb_neq _ _)) by done. cbn [set_decoder decode_escape recv_accm].
    assert ((32 <=? c) || negb (has (recv_accm h0) (Z.shiftl 1 c)) = true) as ->.
    { destruct (Z.leb_spec 32 c) as [|Hlt]; [done|]. cbn [orb]. apply negb_true_iff, not_true_iff_false.
      intros Hhas. unfold is_byte in Hc. apply Hrecv in Hhas; [|lia].
      assert (Z.shiftr c 5 = 0) as H5 by (rewrite Z.shiftr_div_pow2 by done; apply Z.div_small; lia).
      assert (Z.land c 31 = c) as Hl by (change 31 with (Z.ones 5); rewrite Z.land_ones by done; apply Z.mod_small; lia).
      rewrite H5, Hl in Hneed. change (Z.to_nat 0) with 0%nat in Hneed. congruence. }
    by rewrite Hst.
Qed.

Lemma decode_escape_all l : forall h d, decoding h d -> zlen d + zlen l <= BUFFER_SIZE -> bytes l ->
  exists h', decode_octets h (escape_all accm l) = Ret (h', []) /\ decoding h' (d ++ l).
Proof.
  induction l as [|c l IH]; intros h d Hh Hz Hl; cbn [escape_all flat_map].
  - exists h. by rewrite app_nil_r.
  - apply Forall_cons in Hl as [Hc Hl]. rewrite zlen_cons in Hz. pose proof (zlen_nonneg l).
    destruct (decode_escaped h d c Hh ltac:(lia) Hc) as (h1 & H1 & Hd1).
    destruct (IH h1 (d ++ [c]) Hd1) as (h2 & H2 & Hd2); [rewrite zlen_app; change (zlen [c]) with 1; lia|done|].
    fold (escape_all accm l). rewrite decode_app, H1, bind_Ret, H2, bind_Ret. exists h2.
    rewrite <- app_assoc in Hd2. done.
Qed.

(** The flag ends a frame. *)
Lemma decode_flag h d : decoding h d ->
  exists h', decode_octets h [HDLC_FLAG] = Ret (h',
      if (2 <? zlen d) && (crc_all HDLC_INITFCS d =? HDLC_GOODFCS)
      then [take (Z.to_nat (zlen d - 2)) d] else []) /\ decoding h' [].
Proof.
  intros (rest & -> & Hz).
  assert (Hidle : decoding (set_decoder h0 (d ++ rest) 0 HDLC_INITFCS false) []) by by exists (d ++ rest).
  eexists. split; [|exact Hidle].
  erewrite (decode_one _ _ _ (if (2 <? zlen d) && (crc_all HDLC_INITFCS d =? HDLC_GOODFCS) then Some _ else None));
    [by case_cmp|].
  unfold decode_octet. cbn [set_decoder decode_escape decode_offset decode_fcs decode_buffer receive_func].
  rewrite Hfunc. change (HDLC_FLAG =? HDLC_ESCAPE) with false. change (HDLC_FLAG =? HDLC_FLAG) with true.
  cbv iota. cbn [andb].
  destruct (Z.ltb_spec 2 (zlen d)) as [H2|H2]; cbn [andb]; [|done].
  destruct (crc_all HDLC_INITFCS d =? HDLC_GOODFCS); [|done].
  rewrite take_slice by (rewrite zlen_app; pose proof (zlen_nonneg rest); lia). rewrite !bind_Ret.
  by rewrite take_app_le by (unfold zlen in *; lia).
Qed.

Lemma decode_frame h data : decoding h [] -> bytes data -> data <> [] -> zlen data + 2 <= BUFFER_SIZE ->
  exists h', decode_octets h (frame_octets accm data) = Ret (h', [data]) /\ decoding h' [].
Proof.
  intros Hh Hd Hne Hz. unfold frame_octets.
  assert (Ht : zlen (trailer data) = 2) by done.
  destruct (decode_escape_all (data ++ trailer data) h [] Hh) as (h1 & H1 & Hd1).
  { rewrite zlen_app, Ht. change (zlen []) with 0. lia. }
  { apply Forall_app; split; [done|by apply trailer_bytes]. }
  cbn [app] in Hd1. destruct (decode_flag h1 _ Hd1) as (h2 & H2 & Hd2).
  rewrite decode_app, H1, bind_Ret, H2, bind_Ret. exists h2. split; [|done].
  assert (0 < zlen data) by (destruct data; [done|rewrite zlen_cons; pose proof (zlen_nonneg data); lia]).
  rewrite zlen_app, Ht, (proj2 (Z.ltb_lt _ _)), trailer_good, Z.eqb_refl by first [done|lia]. cbn [andb].
  replace (zlen data + 2 - 2) with (zlen data) by lia. by rewrite to_nat_zlen, take_app_length.
Qed.

(** Frames one after the other, with or without a flag in front. *)
Lemma decode_sent h start data : decoding h [] -> start = [] \/ start = [HDLC_FLAG] -> bytes data -> data <> [] ->
  zlen data + 2 <= BUFFER_SIZE ->
  exists h', decode_octets h (start ++ frame_octets accm data) = Ret (h', [data]) /\ decoding h' [].
Proof.
  intros Hh Hstart Hd Hne Hz. destruct Hstart as [->| ->]; [by apply decode_frame|].
  destruct (decode_flag h [] Hh) as (h1 & H1 & Hd1). rewrite decode_app, H1, bind_Ret.
  destruct (decode_frame h1 data Hd1 Hd Hne Hz) as (h2 & -> & Hd2). rewrite bind_Ret. by exists h2.
Qed.
End Decode.

(** * Writing to the channel *)

Lemma drain_avail r n : ring_ok r -> 0 <= n ->
  ring_buffer_avail_no_wrap r <= ring_buffer_avail_no_wrap (fst (ring_buffer_drain r n)).
Proof.
  intros Hr Hn. destruct (drain_ok r n Hr Hn) as (_ & Hr' & Hs & Hc). pose proof (used_bounds r Hr) as Hu.
  pose proof (contents_len r Hr) as Hcl. pose proof (size_bounds r Hr).
  set (r' := fst (ring_buffer_drain r n)) in *.
  assert (Hu' : used r' <= used r).
  { rewrite <- (contents_len r' Hr'), Hc, <- Hcl, zlen_drop. pose proof (zlen_nonneg (contents r)). lia. }
  unfold ring_buffer_avail_no_wrap.
  rewrite (room_used r Hr), (room_used r' Hr'), Hs, (mask_mod r Hr), (mask_mod r' Hr'), Hs.
  assert (Hin : rb_in r' = rb_in r \/ rb_in r' = 0).
  { unfold r', ring_buffer_drain, advance_out. cbn [fst]. case_cmp; [by right|by left]. }
  pose proof (Z.mod_pos_bound (rb_in r) (rb_size r)).
  destruct Hin as [-> | ->]; [lia|]. rewrite Z.mod_0_l by lia. lia.
Qed.

(** The channel takes no more than it is offered. *)
Definition accept_ok (accept : Z -> Z) : Prop := forall n, 0 <= n -> 0 <= accept n <= n.

Lemma octets_cons r queue : concat (contents <$> r :: queue) = contents r ++ concat (contents <$> queue).
Proof. done. Qed.

Lemma can_write_ok h accept : hdlc_ok h -> accept_ok accept ->
  exists h' octets again, can_write_data h accept = Ret (h', octets, again) /\ hdlc_ok h' /\
    octets ++ queue_octets h' = queue_octets h /\ xmit_accm h' = xmit_accm h /\
    (length (write_queue h') <= length (write_queue h))%nat /\
    ((forall n, 0 < n -> 0 < accept n) -> octets <> [] \/ (length (write_queue h') < length (write_queue h))%nat \/
     length (write_queue h) = 1%nat /\ queue_octets h = []).
Proof.
  intros [Hq Hrings Haccm Hstart] Hacc. unfold can_write_data, queue_octets.
  destruct (write_queue h) as [|r queue] eqn:Hqueue; [done|]. clear Hq.
  apply Forall_cons in Hrings as [[Hr Hsz] Hrings].
  assert (Hlen : 0 <= ring_buffer_len_no_wrap r).
  { unfold ring_buffer_len_no_wrap. rewrite (mask_mod r Hr). pose proof (used_bounds r Hr). pose proof (size_bounds r Hr).
    pose proof (Z.mod_pos_bound (rb_out r) (rb_size r)). lia. }
  pose proof (Hacc _ Hlen) as Hn. set (n := accept (ring_buffer_len_no_wrap r)) in *.
  rewrite (read_slice r n Hr Hn), bind_Ret.
  destruct (drain_ok r n Hr ltac:(lia)) as (_ & Hr' & Hs' & Hc').
  pose proof (drain_avail r n Hr ltac:(lia)) as Hav.
  set (r' := fst (ring_buffer_drain r n)) in *.
  assert (Hoct : take (Z.to_nat n) (contents r) ++ contents r' = contents r) by (by rewrite Hc', take_drop).
  assert (Hempty : used r' <= 0 -> contents r' = []).
  { intros H0. unfold contents. by apply cyc_0. }
  assert (Hkeep : hdlc_ok (set_writer h (r' :: queue) (wakeup_sent h))).
  { split; cbn [write_queue set_writer xmit_accm start_frame_marker wakeup_sent];
      [done|apply Forall_cons; split; [split; [done|congruence]|done]|done|].
    destruct Hstart as [?|[?|Hstart]]; [by left|by right; left|right; right]. intros tail Htail.
    destruct queue as [|next queue]; cbn [last] in Htail; [|by apply Hstart].
    injection Htail as <-. specialize (Hstart r eq_refl). lia. }
  change (ring_buffer_len (Some r')) with (used r').
  destruct (Z.ltb_spec 0 (used r')) as [Hmore|Hdone].
  - eexists _, _, true. split; [done|]. split; [done|]. split; [|split; [done|split; [done|]]].
    { cbn [write_queue set_writer]. by rewrite !octets_cons, app_assoc, Hoct. }
    intros Hpos. left. intros Hnil. apply (f_equal zlen) in Hnil. change (zlen []) with 0 in Hnil.
    pose proof (contents_len r Hr) as Hcl. rewrite zlen_take, Hcl in Hnil.
    assert (Hu : used r' <= used r).
    { rewrite <- (contents_len r' Hr'), Hc', <- Hcl, zlen_drop. pose proof (zlen_nonneg (contents r)). lia. }
    assert (0 < ring_buffer_len_no_wrap r).
    { unfold ring_buffer_len_no_wrap. rewrite (mask_mod r Hr). pose proof (size_bounds r Hr).
      pose proof (Z.mod_pos_bound (rb_out r) (rb_size r)). lia. }
    specialize (Hpos (ring_buffer_len_no_wrap r)). lia.
  - rewrite (Hempty Hdone), app_nil_r in Hoct. destruct queue as [|next queue].
    + eexists _, _, false. split; [done|]. split; [done|]. cbn [write_queue set_writer fmap list_fmap concat].
      rewrite (Hempty Hdone). cbn [app]. rewrite !app_nil_r. split; [done|]. split; [done|]. split; [done|].
      intros _. destruct (take (Z.to_nat n) (contents r)) as [|c l] eqn:Ht; [|by left].
      right; right. split; [done|]. by rewrite <- Hoct.
    + eexists _, _, _. split; [done|]. split; [|split; [|split; [done|]]].
      * destruct Hkeep as [_ Hrings' Ha Hst]. split; [done| |done|].
        -- by apply Forall_cons in Hrings' as [_ ?].
        -- exact Hst.
      * cbn [write_queue set_writer]. by rewrite (octets_cons r), Hoct.
      * cbn. split; [lia|]. intros _. right; left. lia.
Qed.

(** * Two ends of a line *)

Inductive link_op := LinkSend (data : list Z) | LinkWrite (accept : Z -> Z).

(** The packets accepted and the octets written, in order. *)
Fixpoint link_run (h : GAtHDLC) (ops : list link_op) : res (GAtHDLC * list (list Z) * list Z) :=
  match ops with
  | [] => Ret (h, [], [])
  | LinkSend data :: ops =>
      '(h, sent) ← g_at_hdlc_send h data;
      '(h, packets, octets) ← link_run h ops;
      Ret (h, if sent : bool then data :: packets else packets, octets)
  | LinkWrite accept :: ops =>
      '(h, written, _) ← can_write_data h accept;
      '(h, packets, octets) ← link_run h ops;
      Ret (h, packets, written ++ octets)
  end.

Definition link_op_ok (op : link_op) : Prop :=
  match op with
  | LinkSend data => bytes data /\ data <> []
  | LinkWrite accept => accept_ok accept
  end.

Lemma escape_all_len accm l : zlen l <= zlen (escape_all accm l).
Proof.
  induction l as [|c l IH]; [done|]. cbn [escape_all flat_map]. fold (escape_all accm l).
  pose proof (escaped_len accm c). rewrite zlen_app, zlen_cons. lia.
Qed.

Lemma sent_octets_len h data : zlen data + 3 <= zlen (sent_octets h data).
Proof.
  unfold sent_octets, frame_octets. pose proof (escape_all_len (xmit_accm h) (data ++ trailer data)) as H.
  rewrite !zlen_app in *. change (zlen (trailer data)) with 2 in H. change (zlen [HDLC_FLAG]) with 1.
  pose proof (zlen_nonneg (frame_start h)). lia.
Qed.

Lemma send_room_le h size : hdlc_ok h -> send_room h size <= BUFFER_SIZE.
Proof.
  intros [Hq Hrings _ _]. destruct (queue_split h Hq) as (before & tail & Hqueue & _ & Hlast).
  unfold send_room. rewrite Hlast, Hqueue in *. apply Forall_app in Hrings as [_ Hrings].
  apply Forall_cons in Hrings as [[Hr Hs] _]. pose proof (used_bounds tail Hr).
  change (ring_buffer_avail (Some tail)) with (room tail). rewrite (room_used tail Hr), Hs.
  repeat case_cmp; unfold BUFFER_SIZE in *; lia.
Qed.

(** What is in the queue and what follows, decoded. *)
Lemma link_ok ops : forall h, hdlc_ok h -> Forall link_op_ok ops ->
  exists h' packets octets more, link_run h ops = Ret (h', packets, octets) /\ hdlc_ok h' /\
    octets ++ queue_octets h' = queue_octets h ++ more /\
    (forall h0 r, accm_covers (xmit_accm h) (recv_accm h0) -> receive_func h0 = true -> decoding h0 r [] ->
     exists r', decode_octets r more = Ret (r', packets) /\ decoding h0 r' []).
Proof.
  induction ops as [|op ops IH]; intros h Hh Hops; cbn [link_run].
  - exists h, [], [], []. rewrite app_nil_r. split_and!; [done|done|done|].
    intros h0 r _ _ Hr. by exists r.
  - apply Forall_cons in Hops as [Hop Hops]. destruct op as [data|accept].
    + destruct Hop as [Hd Hne]. destruct (send_ok h data Hh Hd) as (h1 & -> & Hh1 & Hq1 & Ha1).
      rewrite bind_Ret. destruct (IH h1 Hh1 Hops) as (h2 & packets & octets & more & -> & Hh2 & Hq2 & Hdec).
      rewrite bind_Ret. eexists _, _, _, _. split; [done|]. split; [done|].
      split; [by rewrite Hq2, Hq1, <- app_assoc|]. intros h0 r Hacc Hf Hr. rewrite Ha1 in Hdec.
      destruct (Z.leb_spec (zlen (sent_octets h data)) (send_room h (zlen data))) as [Hle|]; [|by apply Hdec].
      destruct (decode_sent h0 (xmit_accm h) Hacc Hf r (frame_start h) data Hr) as (r1 & H1 & Hr1); [|done|done| |].
      { unfold frame_start. case_cmp; auto. }
      { pose proof (sent_octets_len h data). pose proof (send_room_le h (zlen data) Hh). lia. }
      unfold sent_octets. rewrite decode_app, H1, bind_Ret.
      destruct (Hdec h0 r1 Hacc Hf Hr1) as (r2 & -> & Hr2). rewrite bind_Ret. by exists r2.
    + destruct (can_write_ok h accept Hh Hop) as (h1 & written & again & -> & Hh1 & Hq1 & Ha1 & _).
      rewrite bind_Ret. destruct (IH h1 Hh1 Hops) as (h2 & packets & octets & more & -> & Hh2 & Hq2 & Hdec).
      rewrite bind_Ret. eexists _, _, _, more. split; [done|]. split; [done|].
      split; [by rewrite <- app_assoc, Hq2, app_assoc, Hq1|]. by rewrite <- Ha1.
Qed.

(** The octets that a channel gives at once, and what the receiver does with
    them. *)
Definition receive_chunk (h : GAtHDLC) (rbuf : ring_buffer) (chunk : list Z)
    : res (GAtHDLC * ring_buffer * list (list Z)) :=
  '(rbuf, total_read) ← read_attempts 3 rbuf [(chunk, true)] 0;
  if 0 <? total_read then new_bytes (fun _ => false) h rbuf 0 else Ret (h, rbuf, []).

Fixpoint receive_all (h : GAtHDLC) (rbuf : ring_buffer) (chunks : list (list Z))
    : res (GAtHDLC * ring_buffer * list (list Z)) :=
  match chunks with
  | [] => Ret (h, rbuf, [])
  | chunk :: chunks =>
      '(h, rbuf, f1) ← receive_chunk h rbuf chunk;
      '(h, rbuf, f2) ← receive_all h rbuf chunks;
      Ret (h, rbuf, f1 ++ f2)
  end.

(** An input buffer with nothing in it. *)
Definition input_idle (rbuf : ring_buffer) : Prop := ring_ok rbuf /\ rb_in rbuf = 0 /\ rb_out rbuf = 0.

Lemma read_chunk_ok rbuf chunk : input_idle rbuf -> 0 < zlen chunk <= rb_size rbuf ->
  exists rbuf', read_attempts 3 rbuf [(chunk, true)] 0 = Ret (rbuf', zlen chunk) /\ ring_ok rbuf' /\
    contents rbuf' = chunk /\ rb_size rbuf' = rb_size rbuf.
Proof.
  intros (Hr & Hin & Hout) Hz. cbn [read_attempts].
  assert (Hu : used rbuf = 0) by (unfold used; by rewrite Hin, Hout).
  pose proof (room_used rbuf Hr) as Hroom.
  assert (ring_buffer_avail_no_wrap rbuf = rb_size rbuf) as ->.
  { unfold ring_buffer_avail_no_wrap. rewrite Hroom, Hu, (mask_mod rbuf Hr), Hin, Z.mod_0_l by lia. lia. }
  rewrite (proj2 (Z.eqb_neq _ 0)) by lia. rewrite take_ge by (unfold zlen in *; lia).
  destruct (ring_put rbuf Hr rbuf 0 (ring_buffer_write_ptr rbuf 0) chunk) as (buffer & -> & Hzb & Hc);
    [done|done|done|done|done|done| | | |].
  { unfold ring_buffer_write_ptr. by rewrite (mask_mod rbuf Hr). }
  { unfold ring_buffer_write_ptr. rewrite (mask_mod rbuf Hr), Hin. change (u32 (0 + 0)) with 0.
    rewrite Z.mod_0_l by lia. lia. }
  { lia. }
  rewrite bind_Ret, (proj2 (Z.ltb_lt _ _)) by lia. cbn [andb]. eexists. split; [done|].
  unfold ring_buffer_write_advance. change (room (set_counters rbuf buffer (rb_in rbuf) (rb_out rbuf))) with (room rbuf).
  rewrite Z.min_l by lia.
  destruct (advance_in_ok rbuf Hr buffer (zlen chunk)) as (Hok & _ & Hcont); [done|lia|].
  rewrite Z.add_0_r in Hc. split; [exact Hok|]. split; [|done].
  transitivity (cyc buffer (rb_out rbuf) (used rbuf + zlen chunk)); [exact Hcont|]. rewrite Hc.
  unfold contents. by rewrite Hu, cyc_0.
Qed.

Lemma drain_all rbuf : ring_ok rbuf -> input_idle (fst (ring_buffer_drain rbuf (used rbuf))) /\
  rb_size (fst (ring_buffer_drain rbuf (used rbuf))) = rb_size rbuf.
Proof.
  intros Hr. pose proof (used_bounds rbuf Hr). destruct (drain_ok rbuf (used rbuf) Hr ltac:(lia)) as (_ & Hok & Hs & _).
  split; [|done]. split; [done|]. unfold ring_buffer_drain, advance_out. rewrite Z.min_id. cbn [fst].
  assert (u32 (rb_out rbuf + used rbuf) = rb_in rbuf) as ->; [|by rewrite Z.eqb_refl].
  pose proof (ring_in rbuf Hr). unfold used, u32. rewrite Zplus_mod_idemp_r.
  replace (rb_out rbuf + (rb_in rbuf - rb_out rbuf)) with (rb_in rbuf) by lia. by apply Z.mod_small.
Qed.

(** Whatever the chunks, the receiver decodes what they are in all. *)
Lemma receive_all_ok h0 accm chunks : accm_covers accm (recv_accm h0) ->
  timer h0 = false -> suspend_source h0 = false ->
  forall h rbuf stream, decoder_of h0 h -> input_idle rbuf -> concat chunks = stream ->
  Forall (fun chunk => zlen chunk <= rb_size rbuf) chunks ->
  (no_carrier_detect h0 = false \/ Forall (fun c => c <> 0x0d) stream) ->
  forall h' frames, decode_octets h stream = Ret (h', frames) ->
  exists rbuf', receive_all h rbuf chunks = Ret (h', rbuf', frames).
Proof.
  intros Hacc Ht Hs. induction chunks as [|chunk chunks IH];
    intros h rbuf stream Hh Hr <- Hz Hnc h' frames Hdec; cbn [receive_all concat] in *.
  { injection Hdec as <- <-. by exists rbuf. }
  apply Forall_cons in Hz as [Hzc Hz]. rewrite decode_app in Hdec.
  destruct (decode_octets h chunk) as [[h1 f1]| |] eqn:Hd1; simp_res; [|done..].
  destruct (decode_octets h1 (concat chunks)) as [[h2 f2]| |] eqn:Hd2; simp_res; [|done..]. injection Hdec as <- <-.
  assert (Hnc2 : (no_carrier_detect h0 = false \/ Forall (fun c => c <> 0x0d) chunk) /\
    (no_carrier_detect h0 = false \/ Forall (fun c => c <> 0x0d) (concat chunks))).
  { destruct Hnc as [?|Hnc]; [by split; left|]. apply Forall_app in Hnc as [? ?]. by split; right. }
  destruct Hnc2 as [Hnc1 Hnc2].
  assert (Hstep : exists rbuf1, receive_chunk h rbuf chunk = Ret (h1, rbuf1, f1) /\ input_idle rbuf1 /\
    rb_size rbuf1 = rb_size rbuf).
  { unfold receive_chunk. destruct (decide (chunk = [])) as [->|Hne].
    - injection Hd1 as <- <-. exists rbuf. split; [|done]. cbn [read_attempts].
      assert (Hsz : ring_buffer_avail_no_wrap rbuf = rb_size rbuf).
      { destruct Hr as (Hok & Hin & Hout). unfold ring_buffer_avail_no_wrap. pose proof (size_bounds rbuf Hok).
        rewrite (room_used rbuf Hok), (mask_mod rbuf Hok). unfold used. rewrite Hin, Hout, Z.mod_0_l by lia.
        change (u32 (0 - 0)) with 0. lia. }
      rewrite Hsz. destruct Hr as (Hok & Hin & Hout). pose proof (size_bounds rbuf Hok).
      rewrite (proj2 (Z.eqb_neq _ 0)) by lia. rewrite take_nil.
      assert (ring_buffer_write_ptr rbuf 0 = 0) as ->.
      { unfold ring_buffer_write_ptr. rewrite (mask_mod rbuf Hok), Hin. change (u32 (0 + 0)) with 0. by apply Z.mod_0_l; lia. }
      pose proof (blit_middle [] [] (rb_buffer rbuf) [] 0 eq_refl eq_refl) as Hb. cbn [app] in Hb.
      rewrite Hb, bind_Ret. by destruct rbuf.
    - assert (0 < zlen chunk) by (destruct chunk; [done|rewrite zlen_cons; pose proof (zlen_nonneg chunk); lia]).
      destruct (read_chunk_ok rbuf chunk Hr ltac:(lia)) as (rbuf1 & -> & Hok1 & Hc1 & Hs1). rewrite bind_Ret.
      rewrite (proj2 (Z.ltb_lt _ _)) by lia. destruct Hh as (b0 & o0 & f0 & e0 & ->).
      rewrite (new_bytes_ok rbuf1 Hok1) by first [done|by rewrite Hc1]. rewrite Hc1, Hd1, bind_Ret.
      eexists. split; [done|]. destruct (drain_all rbuf1 Hok1) as [Hi Hsz]. split; [done|congruence]. }
  destruct Hstep as (rbuf1 & -> & Hr1 & Hs1). rewrite bind_Ret.
  destruct (IH h1 rbuf1 (concat chunks)) with (h' := h2) (frames := f2) as (rbuf2 & ->); try done.
  - eapply decoder_of_trans; [exact Hh|]. by eapply decode_octets_config.
  - by rewrite Hs1.
  - rewrite bind_Ret. by exists rbuf2.
Qed.

(** * The write watch *)

(** The descriptor is writable: gatio.c calls the write handler, and a FALSE
    from it removes the watch, so that the handler is not called again. *)
Definition write_ready (h : GAtHDLC) (watch : bool) (accept : Z -> Z) : res (GAtHDLC * bool * list Z) :=
  if watch then '(h, octets, again) ← can_write_data h accept; Ret (h, again, octets)
  else Ret (h, false, []).

(** A frame that is queued sets the handler, which adds the watch unless there
    is one. *)
Definition send_watched (h : GAtHDLC) (watch : bool) (data : list Z) : res (GAtHDLC * bool) :=
  '(h, sent) ← g_at_hdlc_send h data; Ret (h, watch || sent).

(** Calls of [g_at_hdlc_send] and moments at which the channel takes octets;
    the octets written. *)
Fixpoint watch_run (h : GAtHDLC) (watch : bool) (ops : list link_op) : res (GAtHDLC * bool * list Z) :=
  match ops with
  | [] => Ret (h, watch, [])
  | LinkSend data :: ops => '(h, watch) ← send_watched h watch data; watch_run h watch ops
  | LinkWrite accept :: ops =>
      '(h, watch, o1) ← write_ready h watch accept;
      '(h, watch, o2) ← watch_run h watch ops;
      Ret (h, watch, o1 ++ o2)
  end.

(** A packet that fits into a ring even if every octet is escaped. *)
Definition watch_op_ok (op : link_op) : Prop :=
  match op with
  | LinkSend data => bytes data /\ 2 * zlen data + 6 <= BUFFER_SIZE
  | LinkWrite accept => accept_ok accept
  end.

(** Only the first ring of the queue may be empty, and there is a watch exactly
    when octets are queued. *)
Record watch_ok (h : GAtHDLC) (watch : bool) : Prop := {
  wo_hdlc : hdlc_ok h;
  wo_rings : Forall (fun r => contents r <> []) (tail (write_queue h));
  wo_watch : watch = true <-> queue_octets h <> []
}.

Lemma escape_all_le accm l : zlen (escape_all accm l) <= 2 * zlen l.
Proof.
  induction l as [|c l IH]; [done|]. cbn [escape_all flat_map]. fold (escape_all accm l).
  pose proof (escaped_len accm c). rewrite zlen_app, zlen_cons. lia.
Qed.

Lemma sent_octets_le h data : zlen (sent_octets h data) <= 2 * zlen data + 6.
Proof.
  unfold sent_octets, frame_octets. pose proof (escape_all_le (xmit_accm h) (data ++ trailer data)) as H.
  rewrite !zlen_app in *. change (zlen (trailer data)) with 2 in H. change (zlen [HDLC_FLAG]) with 1.
  assert (zlen (frame_start h) <= 1) by (unfold frame_start; case_cmp; done). lia.
Qed.

Lemma tail_snoc_Forall (P : ring_buffer -> Prop) before wb :
  Forall P (tail (before ++ [wb])) <-> Forall P (tail before) /\ (before <> [] -> P wb).
Proof.
  destruct before as [|r before]; cbn [tail app]; [by split|]. rewrite Forall_app, Forall_singleton.
  split; intros [H1 H2]; (split; [done|]); auto.
Qed.

Lemma send_watch_ok h watch data : watch_ok h watch -> watch_op_ok (LinkSend data) ->
  exists h' watch', send_watched h watch data = Ret (h', watch') /\ watch_ok h' watch' /\
    exists added, queue_octets h' = queue_octets h ++ added.
Proof.
  intros [Hh Hrings Hwatch] [Hd Hsize]. unfold send_watched.
  destruct (send_queue_ok h data Hh Hd) as (h' & -> & Hh' & Hq & _ & Hgrown). rewrite bind_Ret.
  pose proof (sent_octets_pos h data) as Hpos. pose proof (sent_octets_le h data).
  set (sent := zlen (sent_octets h data) <=? send_room h (zlen data)) in *.
  eexists _, _. split; [done|]. split; [|by eexists]. split; [done| |].
  - destruct Hgrown as [[-> _]|(before & wb & wb' & -> & Hc & Hbefore)]; [done|].
    apply tail_snoc_Forall. destruct Hbefore as [Hqueue|[-> Hroom]].
    + rewrite Hqueue in Hrings. apply tail_snoc_Forall in Hrings as [Hb Hw]. split; [done|].
      intros Hne Hnil. rewrite Hc in Hnil. apply app_eq_nil in Hnil as [Hnil _]. by apply (Hw Hne).
    + split; [done|]. intros _ Hnil. rewrite Hc in Hnil. apply app_eq_nil in Hnil as [_ Hnil].
      unfold sent in Hnil. rewrite Hroom, (proj2 (Z.leb_le _ _)) in Hnil by lia. by rewrite Hnil in Hpos.
  - rewrite Hq. destruct sent.
    + rewrite orb_true_r. split; [|done]. intros _ Hnil. apply app_eq_nil in Hnil as [_ Hnil].
      by rewrite Hnil in Hpos.
    + by rewrite orb_false_r, app_nil_r.
Qed.

(** TRUE is returned exactly when octets are left. *)
Lemma can_write_watch h accept h' octets again : hdlc_ok h' ->
  Forall (fun r => contents r <> []) (tail (write_queue h)) -> can_write_data h accept = Ret (h', octets, again) ->
  Forall (fun r => contents r <> []) (tail (write_queue h')) /\ (again = true <-> queue_octets h' <> []).
Proof.
  intros Hh' Hrings H. unfold can_write_data in H. destruct (write_queue h) as [|r queue]; [done|].
  cbn [tail] in Hrings.
  destruct (slice _ _ _); simp_res; [|done..]. set (r' := fst (ring_buffer_drain _ _)) in H.
  assert (Hlen : forall r, r ∈ write_queue h' -> (0 <? used r) = true <-> contents r <> []).
  { intros r0 Hin. pose proof (proj1 (Forall_forall _ _) (ho_rings h' Hh') r0 Hin) as [Hr0 _].
    rewrite Z.ltb_lt, <- (contents_len r0 Hr0). destruct (contents r0); [by cbn|]. rewrite zlen_cons.
    pose proof (zlen_nonneg l). split; [done|lia]. }
  change (ring_buffer_len (Some r')) with (used r') in H.
  destruct (Z.ltb_spec 0 (used r')) as [Hmore|Hdone]; [|destruct queue as [|next queue]];
    injection H as <- <- <-; cbn [write_queue set_writer tail] in *; unfold queue_octets; cbn [write_queue set_writer].
  - split; [done|]. split; [|done]. intros _. rewrite octets_cons. intros Hnil.
    apply app_eq_nil in Hnil as [Hnil _]. apply (Hlen r'); [by left|by apply Z.ltb_lt|done].
  - split; [done|]. rewrite octets_cons, app_nil_r. rewrite <- (Hlen r' ltac:(by left)).
    by rewrite (proj2 (Z.ltb_ge _ _)).
  - apply Forall_cons in Hrings as [Hnext Hrings]. split; [done|].
    change (ring_buffer_len (Some next)) with (used next). rewrite (Hlen next ltac:(by left)), octets_cons.
    split; [|done]. intros _ Hnil. by apply app_eq_nil in Hnil as [? _].
Qed.

Lemma write_watch_ok h watch accept : watch_ok h watch -> accept_ok accept ->
  exists h' watch' octets, write_ready h watch accept = Ret (h', watch', octets) /\ watch_ok h' watch' /\
    octets ++ queue_octets h' = queue_octets h /\
    ((forall n, 0 < n -> 0 < accept n) -> watch = true -> watch' = true ->
     (length (queue_octets h') + length (write_queue h') < length (queue_octets h) + length (write_queue h))%nat).
Proof.
  intros [Hh Hrings Hwatch] Hacc. unfold write_ready. destruct watch.
  - destruct (can_write_ok h accept Hh Hacc) as (h1 & o & again & Hw & Hh1 & Hq1 & _ & Hle & Hprog). rewrite Hw, bind_Ret.
    destruct (can_write_watch h accept h1 o again Hh1 Hrings Hw) as [Hrings1 Hagain].
    eexists _, _, _. split; [done|]. split; [done|]. split; [done|]. intros Hpos _ Hw'. apply Hagain in Hw'.
    rewrite <- Hq1, length_app. destruct (Hprog Hpos) as [Ho|[Hlt|[_ Hnil]]]; [destruct o; [done|cbn; lia]|lia|].
    rewrite Hnil in Hq1. by apply app_eq_nil in Hq1 as [_ ?].
  - eexists _, _, _. split; [done|]. split; [done|]. split; [done|]. done.
Qed.

Lemma watch_run_ok ops : forall h watch, watch_ok h watch -> Forall watch_op_ok ops ->
  exists h' watch' octets, watch_run h watch ops = Ret (h', watch', octets) /\ watch_ok h' watch'.
Proof.
  induction ops as [|op ops IH]; intros h watch Hw Hops; cbn [watch_run]; [by eexists _, _, _|].
  apply Forall_cons in Hops as [Hop Hops]. destruct op as [data|accept].
  - destruct (send_watch_ok h watch data Hw Hop) as (h1 & w1 & -> & Hw1 & _). rewrite bind_Ret. by apply IH.
  - destruct (write_watch_ok h watch accept Hw Hop) as (h1 & w1 & o1 & -> & Hw1 & _). rewrite bind_Ret.
    destruct (IH h1 w1 Hw1 Hops) as (h2 & w2 & o2 & -> & Hw2). rewrite bind_Ret. by eexists _, _, _.
Qed.

(** No watch: nothing is written, and nothing is queued. *)
Lemma no_watch n accept h : watch_run h false (replicate n (LinkWrite accept)) = Ret (h, false, []).
Proof. induction n as [|n IH]; [done|]. cbn [replicate watch_run write_ready]. by rewrite bind_Ret, IH. Qed.

Lemma not_watched h : watch_ok h false -> queue_octets h = [] /\ length (write_queue h) = 1%nat.
Proof.
  intros [Hh Hrings Hwatch]. assert (Hnil : queue_octets h = []).
  { destruct (queue_octets h); [done|]. by discriminate (proj2 Hwatch). }
  split; [done|]. pose proof (ho_queue h Hh). unfold queue_octets in Hnil.
  destruct (write_queue h) as [|r1 [|r2 queue]]; [done|done|]. rewrite !octets_cons in Hnil.
  apply app_eq_nil in Hnil as [_ Hnil]. apply app_eq_nil in Hnil as [Hnil _].
  by apply Forall_cons in Hrings as [? _].
Qed.

Lemma watch_drains accept n : accept_ok accept -> (forall n, 0 < n -> 0 < accept n) -> forall h watch, watch_ok h watch ->
  (length (queue_octets h) + length (write_queue h) <= n)%nat ->
  exists h', watch_run h watch (replicate n (LinkWrite accept)) = Ret (h', false, queue_octets h) /\ watch_ok h' false.
Proof.
  intros Hacc Hpos. induction n as [|n IH]; intros h watch Hw Hn.
  - pose proof (ho_queue h (wo_hdlc h watch Hw)) as Hq. destruct (write_queue h); [done|cbn in Hn; lia].
  - destruct watch.
    + cbn [replicate watch_run].
      destruct (write_watch_ok h true accept Hw Hacc) as (h1 & w1 & o1 & -> & Hw1 & Hq1 & Hdec). rewrite bind_Ret.
      destruct w1.
      * specialize (Hdec Hpos eq_refl eq_refl). destruct (IH h1 true Hw1) as (h2 & -> & Hw2); [lia|].
        rewrite bind_Ret, Hq1. by exists h2.
      * rewrite no_watch, bind_Ret. exists h1. split; [|done].
        by rewrite <- Hq1, (proj1 (not_watched h1 Hw1)).
    + exists h. rewrite no_watch, (proj1 (not_watched h Hw)). done.
Qed.

(** * Correctness *)

(** C5: packets over a line.  However the calls of [g_at_hdlc_send] and of the
    write handler alternate, however much the channel takes each time, and
    however the octets written are cut into reads at the other end, the
    receiver's handler gets, in order and once each, the packets that
    [g_at_hdlc_send] accepted, as far as they are written; all of them when
    the write queue is empty.  Neither side touches an octet outside its
    buffers. *)
Theorem hdlc_delivery tx ops rx rbuf :
  hdlc_ok tx -> queue_octets tx = [] -> Forall link_op_ok ops ->
  decoding rx rx [] -> receive_func rx = true -> timer rx = false -> suspend_source rx = false ->
  no_carrier_detect rx = false -> accm_covers (xmit_accm tx) (recv_accm rx) -> input_idle rbuf ->
  exists tx' packets octets, link_run tx ops = Ret (tx', packets, octets) /\ hdlc_ok tx' /\
    forall chunks, concat chunks = octets -> Forall (fun chunk => zlen chunk <= rb_size rbuf) chunks ->
    exists rx' rbuf' frames, receive_all rx rbuf chunks = Ret (rx', rbuf', frames) /\
      frames `prefix_of` packets /\ (queue_octets tx' = [] -> frames = packets).
Proof.
  intros Htx Hempty Hops Hidle Hfunc Htimer Hsource Hnc Hacc Hbuf.
  destruct (link_ok ops tx Htx Hops) as (tx' & packets & octets & more & Hrun & Htx' & Hq & Hdec).
  rewrite Hempty in Hq. cbn [app] in Hq. exists tx', packets, octets. split; [done|]. split; [done|].
  intros chunks Hchunks Hz. destruct (Hdec rx rx Hacc Hfunc Hidle) as (rx' & Hall & _).
  rewrite <- Hq, decode_app in Hall.
  destruct (decode_octets rx octets) as [[rx1 f1]| |] eqn:H1; simp_res; [|done..].
  destruct (decode_octets rx1 (queue_octets tx')) as [[rx2 f2]| |] eqn:H2; simp_res; [|done..].
  injection Hall as <- Hpackets.
  destruct (receive_all_ok rx (xmit_accm tx) chunks Hacc Htimer Hsource rx rbuf octets (decoder_of_refl rx) Hbuf Hchunks Hz
    (or_introl Hnc) rx1 f1 H1) as (rbuf' & Hrec).
  exists rx1, rbuf', f1. split; [done|]. split; [by exists f2|]. intros Hdone. rewrite Hdone in H2.
  injection H2 as _ <-. by rewrite app_nil_r in Hpackets.
Qed.

(** C25: what is accepted is written.  After any calls of [g_at_hdlc_send] with
    packets of up to 2045 octets and any moments at which the channel takes
    something, the write handler is watched exactly when octets are queued; from
    then on, if the channel takes at least one octet whenever it is offered
    some, the watch is gone after as many calls as there are octets and rings
    queued, and not before everything queued has been written, in order; one
    ring is left.  (The handler is called only while it returns TRUE.) *)
Theorem hdlc_drains h ops accept :
  hdlc_ok h -> queue_octets h = [] -> length (write_queue h) = 1%nat -> Forall watch_op_ok ops ->
  accept_ok accept -> (forall n, 0 < n -> 0 < accept n) ->
  exists h1 watch written, watch_run h false ops = Ret (h1, watch, written) /\
    (watch = true <-> queue_octets h1 <> []) /\
    exists h2, watch_run h1 watch (replicate (length (queue_octets h1) + length (write_queue h1)) (LinkWrite accept)) =
        Ret (h2, false, queue_octets h1) /\
      hdlc_ok h2 /\ queue_octets h2 = [] /\ length (write_queue h2) = 1%nat.
Proof.
  intros Hh Hempty Hone Hops Hacc Hpos.
  assert (Hw : watch_ok h false).
  { split; [done| |by rewrite Hempty]. destruct (write_queue h) as [|r [|]]; [done|by cbn|done]. }
  destruct (watch_run_ok ops h false Hw Hops) as (h1 & watch & written & Hrun & Hw1).
  exists h1, watch, written. split; [done|]. split; [apply Hw1|].
  destruct (watch_drains accept _ Hacc Hpos h1 watch Hw1 (le_n _)) as (h2 & Hrun2 & Hw2).
  exists h2. split; [done|]. split; [apply Hw2|]. by apply not_watched.
Qed.

(** ** Limits *)

(** A frame of more than BUFFER_SIZE octets overruns [decode_buffer]: nothing
    compares the offset with its size. *)
Lemma decode_buffer_overflow h c : decode_offset h = zlen (decode_buffer h) -> decode_escape h = false ->
  0x20 <= c -> c <> HDLC_ESCAPE -> c <> HDLC_FLAG -> decode_octet h c = Ub.
Proof.
  intros Ho He Hc H1 H2. unfold decode_octet, decode_store.
  rewrite He, !(proj2 (Z.eqb_neq _ _)), (proj2 (Z.leb_le _ _)) by done. cbn [orb].
  unfold wr. by rewrite Ho, Z.ltb_irrefl, andb_false_r.
Qed.

(** The watch is lost when the ring behind the head is an empty one, which a
    [g_at_hdlc_send] that found no room in a new ring leaves: FALSE is returned
    whatever the rings behind it hold. *)
Lemma empty_ring_strands h r empty rest accept : write_queue h = r :: empty :: rest -> hdlc_ok h ->
  contents empty = [] -> accept (ring_buffer_len_no_wrap r) = used r -> used r <= ring_buffer_len_no_wrap r ->
  exists h', can_write_data h accept = Ret (h', contents r, false) /\ write_queue h' = empty :: rest.
Proof.
  intros Hq Hh Hempty Hall Hwrap. pose proof (ho_rings h Hh) as Hrings. rewrite Hq in Hrings.
  apply Forall_cons in Hrings as [[Hr _] Hrings]. apply Forall_cons in Hrings as [[He _] _].
  pose proof (used_bounds r Hr). unfold can_write_data. rewrite Hq, Hall, (read_slice r (used r) Hr), bind_Ret by lia.
  destruct (drain_ok r (used r) Hr ltac:(lia)) as (_ & Hr' & _ & Hc').
  assert (Hnil : contents (fst (ring_buffer_drain r (used r))) = []).
  { rewrite Hc', drop_ge; [done|]. pose proof (contents_len r Hr). unfold zlen in *. lia. }
  rewrite take_ge by (pose proof (contents_len r Hr); unfold zlen in *; lia).
  change (ring_buffer_len (Some ?x)) with (used x).
  rewrite <- (contents_len _ Hr'), Hnil, <- (contents_len _ He), Hempty.
  change (0 <? zlen []) with false. cbv iota. by eexists.
Qed.

(** * Concrete runs *)

Lemma crc_table_is_division_witness : crc_ccitt_byte 0xffff 0x7e = crc_bits 8 (Z.lxor 0xffff 0x7e).
Proof. apply (crc_table_is_division 0xffff 0x7e); [lia|split; lia]. Defined.

Definition new_hdlc : GAtHDLC :=
  match g_at_hdlc_new_from_io with Ret h => h | _ => set_settings (Build_GAtHDLC [] [] 0 0 false [] 0 false false false false false false 0) [] 0 false false false false false end.

Definition new_receiver : GAtHDLC := g_at_hdlc_set_receive new_hdlc true.

Definition new_input : ring_buffer :=
  match ring_buffer_new 8192 with Ret r => r | _ => Build_ring_buffer [] 0 0 0 0 end.

Lemma new_hdlc_ok : hdlc_ok new_hdlc.
Proof.
  destruct new_ring_ok as (r & Hn & Hr & _ & _ & Hw & Hs).
  unfold new_hdlc, g_at_hdlc_new_from_io. rewrite Hn, bind_Ret.
  split; cbn [write_queue xmit_accm start_frame_marker wakeup_sent]; [done| |done|].
  - apply Forall_cons; split; [done|by apply Forall_nil].
  - right; right. intros tail [= <-]. fold (wrap r). by rewrite Hw.
Qed.

Lemma new_hdlc_empty : queue_octets new_hdlc = [] /\ length (write_queue new_hdlc) = 1%nat.
Proof.
  destruct new_ring_ok as (r & Hn & _ & Hc & _). unfold new_hdlc, g_at_hdlc_new_from_io, queue_octets.
  rewrite Hn, bind_Ret. cbn [write_queue fmap list_fmap concat]. by rewrite Hc.
Qed.

Lemma new_receiver_ok : decoding new_receiver new_receiver [].
Proof.
  destruct new_ring_ok as (r & Hn & _). unfold new_receiver, new_hdlc, g_at_hdlc_new_from_io.
  rewrite Hn, bind_Ret. exists (replicate (Z.to_nat BUFFER_SIZE) 0). split; [reflexivity|].
  cbn [app]. by rewrite zlen_replicate.
Qed.

Lemma new_input_ok : input_idle new_input /\ rb_size new_input = 8192.
Proof.
  destruct (new_ok 8192) as (k & Hk & Hmin & Hk1 & r & Hn & Hs & Hr & _ & Hi & Ho).
  unfold new_input. rewrite Hn. split; [done|].
  assert (k = 13) as ->; [|done].
  unfold MAX_SIZE in *. destruct Hk1 as [->|Hk1]; [done|]. change (Z.min 8192 262144) with (2 ^ 13) in Hmin.
  change 8192 with (2 ^ 13) in Hk1. apply Z.pow_le_mono_r_iff in Hmin; [|done|lia].
  destruct (decide (k - 1 < 0)); [lia|]. apply Z.pow_lt_mono_r_iff in Hk1; lia.
Qed.

(** Two packets, the first of which has a flag and an escape; the channel takes
    three octets at a time. *)
Definition sample_ops : list link_op :=
  [LinkSend [0x7e; 0x01; 0x41]; LinkWrite (Z.min 3); LinkSend [0x7d; 0x42]; LinkWrite (Z.min 30)].

Lemma min_accept k : 0 <= k -> accept_ok (Z.min k).
Proof. intros Hk n Hn. lia. Qed.

Lemma hdlc_delivery_witness :
  exists tx' packets octets, link_run new_hdlc sample_ops = Ret (tx', packets, octets) /\ hdlc_ok tx' /\
    forall chunks, concat chunks = octets -> Forall (fun chunk => zlen chunk <= 8192) chunks ->
    exists rx' rbuf' frames, receive_all new_receiver new_input chunks = Ret (rx', rbuf', frames) /\
      frames `prefix_of` packets /\ (queue_octets tx' = [] -> frames = packets).
Proof.
  pose proof (hdlc_delivery new_hdlc sample_ops new_receiver new_input new_hdlc_ok (proj1 new_hdlc_empty)) as H.
  rewrite (proj2 new_input_ok) in H. apply H; try reflexivity.
  - repeat apply Forall_cons_2; [split; [|done]|by apply min_accept|split; [|done]|by apply min_accept|by apply Forall_nil];
      apply (bool_decide_unpack _); by vm_compute.
  - apply new_receiver_ok.
  - split; [done|]. split; [done|]. intros c Hc _.
    pose proof (range_forall (fun c => has 0xffffffff (Z.shiftl 1 c)) 0 32 c ltac:(by vm_compute) Hc) as Hr. exact Hr.
  - apply (proj1 new_input_ok).
Defined.

(** Two frames of which three octets are written: the rest is queued. *)
Definition sample_writes : list link_op := [LinkSend [0x7e; 0x01; 0x41]; LinkWrite (Z.min 3); LinkSend [0x7d; 0x42]].

Lemma sample_writes_queued :
  match watch_run new_hdlc false sample_writes with
  | Ret (h, watch, written) => watch && (zlen (queue_octets h) =? 13) && (zlen written =? 3)
  | _ => false
  end = true.
Proof. by vm_compute. Qed.

Lemma hdlc_drains_witness :
  exists h1 watch written, watch_run new_hdlc false sample_writes = Ret (h1, watch, written) /\
    zlen (queue_octets h1) = 13 /\ (watch = true <-> queue_octets h1 <> []) /\
    exists h2, watch_run h1 watch (replicate (length (queue_octets h1) + length (write_queue h1)) (LinkWrite (Z.min 7))) =
        Ret (h2, false, queue_octets h1) /\
      hdlc_ok h2 /\ queue_octets h2 = [] /\ length (write_queue h2) = 1%nat.
Proof.
  destruct (hdlc_drains new_hdlc sample_writes (Z.min 7)) as (h1 & watch & written & Hrun & Hrest).
  - apply new_hdlc_ok.
  - apply (proj1 new_hdlc_empty).
  - apply (proj2 new_hdlc_empty).
  - repeat apply Forall_cons_2; [split; [|done]|by apply min_accept|split; [|done]|by apply Forall_nil];
      apply (bool_decide_unpack _); by vm_compute.
  - by apply min_accept.
  - intros n Hn. lia.
  - exists h1, watch, written. split; [done|]. split; [|done].
    pose proof sample_writes_queued as H. rewrite Hrun in H.
    apply andb_true_iff in H as [[_ H]%andb_true_iff _]. by apply Z.eqb_eq.
Defined.
