(* ===== verification/PppCp.v ===== *)
(** The PPP control protocol automaton of src/gatchat/ppp_cp.c: its transition
    table, its actions, its restart timers and the packets it sends, for any
    protocol driver that keeps the interface of ppp_cp.h. *)
From S2P Require Import Prelude.

(** * States, events and actions *)

Definition INITIAL_RESTART_TIMEOUT : Z := 3.
Definition MAX_TERMINATE : Z := 2.
Definition MAX_CONFIGURE : Z := 10.
Definition MAX_FAILURE : Z := 5.
Definition CP_HEADER_SZ : Z := 4.

(** enum pppcp_state *)
Definition INITIAL : Z := 0.
Definition STARTING : Z := 1.
Definition CLOSED : Z := 2.
Definition STOPPED : Z := 3.
Definition CLOSING : Z := 4.
Definition STOPPING : Z := 5.
Definition REQSENT : Z := 6.
Definition ACKRCVD : Z := 7.
Definition ACKSENT : Z := 8.
Definition OPENED : Z := 9.

(** enum actions *)
Definition INV : Z := 0x10.
Definition IRC : Z := 0x20.
Definition ZRC : Z := 0x40.
Definition TLU : Z := 0x100.
Definition TLD : Z := 0x200.
Definition TLS : Z := 0x400.
Definition TLF : Z := 0x800.
Definition SCR : Z := 0x1000.
Definition SCA : Z := 0x2000.
Definition SCN : Z := 0x4000.
Definition STR : Z := 0x8000.
Definition STA : Z := 0x10000.
Definition SCJ : Z := 0x20000.
Definition SER : Z := 0x40000.

Local Infix "|||" := Z.lor (at level 50, left associativity).

Definition cp_transitions : list (list Z) := [
(* Up *)
[2; IRC|||SCR|||6; INV; INV; INV; INV; INV; INV; INV; INV];
(* Down *)
[INV; INV; 0; TLS|||1; 0; 1; 1; 1; 1; TLD|||1];
(* Open *)
[TLS|||1; 1; IRC|||SCR|||6; 3; 5; 5; 6; 7; 8; 9];
(* Close *)
[0; TLF|||0; 2; 2; 4; 4; IRC|||STR|||4; IRC|||STR|||4; IRC|||STR|||4; TLD|||IRC|||STR|||4];
(* TO+ *)
[INV; INV; INV; INV; STR|||4; STR|||5; SCR|||6; SCR|||6; SCR|||8; INV];
(* TO- *)
[INV; INV; INV; INV; TLF|||2; TLF|||3; TLF|||3; TLF|||3; TLF|||3; INV];
(* RCR+ *)
[INV; INV; STA|||2; IRC|||SCR|||SCA|||8; 4; 5; SCA|||8; SCA|||TLU|||9; SCA|||8; TLD|||SCR|||SCA|||8];
(* RCR- *)
[INV; INV; STA|||2; IRC|||SCR|||SCN|||6; 4; 5; SCN|||6; SCN|||7; SCN|||6; TLD|||SCR|||SCN|||6];
(* RCA *)
[INV; INV; STA|||2; STA|||3; 4; 5; IRC|||7; SCR|||6; IRC|||TLU|||9; TLD|||SCR|||6];
(* RCN *)
[INV; INV; STA|||2; STA|||3; 4; 5; IRC|||SCR|||6; SCR|||6; IRC|||SCR|||8; TLD|||SCR|||6];
(* RTR *)
[INV; INV; STA|||2; STA|||3; STA|||4; STA|||5; STA|||6; STA|||6; STA|||6; TLD|||ZRC|||STA|||5];
(* RTA *)
[INV; INV; 2; 3; TLF|||2; TLF|||3; 6; 6; 8; TLD|||SCR|||6];
(* RUC *)
[INV; INV; SCJ|||2; SCJ|||3; SCJ|||4; SCJ|||5; SCJ|||6; SCJ|||7; SCJ|||8; SCJ|||9];
(* RXJ+ *)
[INV; INV; 2; 3; 4; 5; 6; 6; 8; 9];
(* RXJ- *)
[INV; INV; TLF|||2; TLF|||3; TLF|||2; TLF|||3; TLF|||3; TLF|||3; TLF|||3; TLD|||IRC|||STR|||5];
(* RXR *)
[INV; INV; 2; 3; 4; 5; 6; 7; 8; SER|||9]].

(** enum pppcp_event_type *)
Definition UP : Z := 0.
Definition DOWN : Z := 1.
Definition OPEN : Z := 2.
Definition CLOSE : Z := 3.
Definition TO_PLUS : Z := 4.
Definition TO_MINUS : Z := 5.
Definition RCR_PLUS : Z := 6.
Definition RCR_MINUS : Z := 7.
Definition RCA : Z := 8.
Definition RCN : Z := 9.
Definition RTR : Z := 10.
Definition RTA : Z := 11.
Definition RUC : Z := 12.
Definition RXJ_PLUS : Z := 13.
Definition RXJ_MINUS : Z := 14.
Definition RXR : Z := 15.

(** enum pppcp_code *)
Definition CONFIGURE_REQUEST : Z := 1.
Definition CONFIGURE_ACK : Z := 2.
Definition CONFIGURE_NAK : Z := 3.
Definition CONFIGURE_REJECT : Z := 4.
Definition TERMINATE_REQUEST : Z := 5.
Definition TERMINATE_ACK : Z := 6.
Definition CODE_REJECT : Z := 7.
Definition PROTOCOL_REJECT : Z := 8.
Definition ECHO_REQUEST : Z := 9.
Definition ECHO_REPLY : Z := 10.
Definition DISCARD_REQUEST : Z := 11.

Inductive rcr_result := RCR_ACCEPT | RCR_REJECT | RCR_NAK.

(** * The state of an automaton and its driver *)

Inductive timer_id := ConfigTimer | TerminateTimer.

#[global] Instance timer_id_eq_dec : EqDecision timer_id.
Proof. solve_decision. Defined.

Record pppcp_timer_data := { restart_counter : Z; restart_interval : Z; max_counter : Z }.

(** [timers] is the pending restart timers in the order they were started: both
    have the same interval, so that is the order they fire in.  [priv] is the
    driver's own data. *)
Record pppcp_data (P : Type) := {
  state : Z;
  config_timer_data : pppcp_timer_data; terminate_timer_data : pppcp_timer_data;
  timers : list timer_id;
  max_failure : Z; failure_counter : Z;
  config_identifier : Z; terminate_identifier : Z; reject_identifier : Z;
  local_options : list Z; local_options_len : Z;
  peer_options : list Z; peer_options_len : Z;
  send_reject : bool;
  priv : P
}.
Arguments Build_pppcp_data {P}.
Arguments state {P}.
Arguments config_timer_data {P}.
Arguments terminate_timer_data {P}.
Arguments timers {P}.
Arguments max_failure {P}.
Arguments failure_counter {P}.
Arguments config_identifier {P}.
Arguments terminate_identifier {P}.
Arguments reject_identifier {P}.
Arguments local_options {P}.
Arguments local_options_len {P}.
Arguments peer_options {P}.
Arguments peer_options_len {P}.
Arguments send_reject {P}.
Arguments priv {P}.

Inductive layer_event := LayerUp | LayerDown | LayerStarted | LayerFinished.

(** What an automaton does besides changing its state: packets handed to
    [ppp_transmit] (protocol and information field), calls of the driver's layer
    functions, what the driver asks of the link ([E]), and the log line of an
    event the table has no entry for. *)
Inductive output (E : Type) :=
  | Transmit (proto : Z) (info : list Z)
  | Layer (e : layer_event)
  | Call (e : E)
  | Illegal (state event : Z).
Arguments Transmit {E}.
Arguments Layer {E}.
Arguments Call {E}.
Arguments Illegal {E}.

(** What a driver function leaves: its data, the options it sets with
    [pppcp_set_local_options] if it does, and its calls. *)
Record driver_result (P E : Type) := {
  new_priv : P;
  new_local : option (list Z * Z);
  calls : list E
}.
Arguments Build_driver_result {P E}.
Arguments new_priv {P E}.
Arguments new_local {P E}.
Arguments calls {P E}.

(** struct pppcp_proto; a function the driver leaves NULL is one that returns its
    data unchanged ([rcr]: that accepts). *)
Class pppcp_proto (P E : Type) := {
  proto : Z;
  supported_codes : Z;
  driver_layer : layer_event -> P -> driver_result P E;
  driver_rca : P -> list Z -> res (driver_result P E);
  driver_rcn_nak : P -> list Z -> res (driver_result P E);
  driver_rcn_rej : P -> list Z -> res (driver_result P E);
  driver_rcr : P -> list Z -> res (rcr_result * option (list Z * Z) * driver_result P E)
}.

Section Setters.
Context {P : Type}.
Implicit Types d : pppcp_data P.

Definition set_state d (s : Z) : pppcp_data P :=
  {| state := s; config_timer_data := config_timer_data d; terminate_timer_data := terminate_timer_data d;
     timers := timers d; max_failure := max_failure d; failure_counter := failure_counter d;
     config_identifier := config_identifier d; terminate_identifier := terminate_identifier d;
     reject_identifier := reject_identifier d; local_options := local_options d;
     local_options_len := local_options_len d; peer_options := peer_options d;
     peer_options_len := peer_options_len d; send_reject := send_reject d; priv := priv d |}.

Definition set_timers d (c t : pppcp_timer_data) (pending : list timer_id) : pppcp_data P :=
  {| state := state d; config_timer_data := c; terminate_timer_data := t;
     timers := pending; max_failure := max_failure d; failure_counter := failure_counter d;
     config_identifier := config_identifier d; terminate_identifier := terminate_identifier d;
     reject_identifier := reject_identifier d; local_options := local_options d;
     local_options_len := local_options_len d; peer_options := peer_options d;
     peer_options_len := peer_options_len d; send_reject := send_reject d; priv := priv d |}.

Definition set_identifiers d (config terminate : Z) : pppcp_data P :=
  {| state := state d; config_timer_data := config_timer_data d; terminate_timer_data := terminate_timer_data d;
     timers := timers d; max_failure := max_failure d; failure_counter := failure_counter d;
     config_identifier := config; terminate_identifier := terminate;
     reject_identifier := reject_identifier d; local_options := local_options d;
     local_options_len := local_options_len d; peer_options := peer_options d;
     peer_options_len := peer_options_len d; send_reject := send_reject d; priv := priv d |}.

(** The failure counter, the options for the peer and whether to reject. *)
Definition set_peer d (failures : Z) (options : list Z) (len : Z) (reject : bool) : pppcp_data P :=
  {| state := state d; config_timer_data := config_timer_data d; terminate_timer_data := terminate_timer_data d;
     timers := timers d; max_failure := max_failure d; failure_counter := failures;
     config_identifier := config_identifier d; terminate_identifier := terminate_identifier d;
     reject_identifier := reject_identifier d; local_options := local_options d;
     local_options_len := local_options_len d; peer_options := options;
     peer_options_len := len; send_reject := reject; priv := priv d |}.

Definition pppcp_set_local_options d (options : list Z) (len : Z) : pppcp_data P :=
  {| state := state d; config_timer_data := config_timer_data d; terminate_timer_data := terminate_timer_data d;
     timers := timers d; max_failure := max_failure d; failure_counter := failure_counter d;
     config_identifier := config_identifier d; terminate_identifier := terminate_identifier d;
     reject_identifier := reject_identifier d; local_options := options;
     local_options_len := u16 len; peer_options := peer_options d;
     peer_options_len := peer_options_len d; send_reject := send_reject d; priv := priv d |}.

Definition pppcp_set_data d (data : P) : pppcp_data P :=
  {| state := state d; config_timer_data := config_timer_data d; terminate_timer_data := terminate_timer_data d;
     timers := timers d; max_failure := max_failure d; failure_counter := failure_counter d;
     config_identifier := config_identifier d; terminate_identifier := terminate_identifier d;
     reject_identifier := reject_identifier d; local_options := local_options d;
     local_options_len := local_options_len d; peer_options := peer_options d;
     peer_options_len := peer_options_len d; send_reject := send_reject d; priv := data |}.

Definition pppcp_get_data d : P := priv d.

Definition timer_data d (t : timer_id) : pppcp_timer_data :=
  match t with ConfigTimer => config_timer_data d | TerminateTimer => terminate_timer_data d end.

Definition set_restart_counter d (t : timer_id) (count : Z) : pppcp_data P :=
  let with_count := {| restart_counter := count; restart_interval := restart_interval (timer_data d t);
                       max_counter := max_counter (timer_data d t) |} in
  match t with
  | ConfigTimer => set_timers d with_count (terminate_timer_data d) (timers d)
  | TerminateTimer => set_timers d (config_timer_data d) with_count (timers d)
  end.
End Setters.

(** [pppcp_new]: [failures] is its max_failure argument. *)
Definition pppcp_new {P} (dormant : bool) (failures : Z) (data : P) : pppcp_data P :=
  {| state := if dormant then STOPPED else INITIAL;
     config_timer_data := {| restart_counter := 0; restart_interval := INITIAL_RESTART_TIMEOUT; max_counter := MAX_CONFIGURE |};
     terminate_timer_data := {| restart_counter := 0; restart_interval := INITIAL_RESTART_TIMEOUT; max_counter := MAX_TERMINATE |};
     timers := [];
     max_failure := if failures =? 0 then MAX_FAILURE else failures;
     failure_counter := 0; config_identifier := 0; terminate_identifier := 0; reject_identifier := 0;
     local_options := []; local_options_len := 0; peer_options := []; peer_options_len := 0;
     send_reject := false; priv := data |}.

(** * Packets and options *)

(** A packet is its octets from the code on: code, identifier, length in two
    octets, data. *)
Definition packet_length (packet : list Z) : res Z :=
  hi ← rd packet 2; lo ← rd packet 3; Ret (hi * 256 + lo).

(** The block is allocated for [packet_length] octets after the PPP header. *)
Definition pppcp_packet_new (type bufferlen : Z) : res (list Z) :=
  let length := u16 (bufferlen + CP_HEADER_SZ) in
  if length <? CP_HEADER_SZ then Ub
  else Ret ([type; 0; length / 256; length mod 256] ++ replicate (Z.to_nat (length - CP_HEADER_SZ)) 0).

(** The octets [memcpy] takes from a packet's data. *)
Definition packet_data (packet : list Z) (len : Z) : res (list Z) := slice packet CP_HEADER_SZ len.

Record ppp_option_iter := {
  iter_max : Z; iter_pos : Z; iter_pdata : list Z;
  iter_type : Z; iter_len : Z; iter_option : Z
}.

(** [iter_option] is the offset of [option_data] in the packet's data. *)
Definition ppp_option_iter_init (packet : list Z) : res ppp_option_iter :=
  length ← packet_length packet;
  Ret {| iter_max := u16 (length - CP_HEADER_SZ); iter_pos := 0;
         iter_pdata := drop (Z.to_nat CP_HEADER_SZ) packet;
         iter_type := 0; iter_len := 0; iter_option := 0 |}.

Definition ppp_option_iter_next (iter : ppp_option_iter) : res (ppp_option_iter * bool) :=
  if iter_max iter <? iter_pos iter + 1 then Ret (iter, false)
  else
    len ← rd (iter_pdata iter) (iter_pos iter + 1);
    if iter_max iter <? iter_pos iter + len then Ret (iter, false)
    else
      type ← rd (iter_pdata iter) (iter_pos iter);
      Ret ({| iter_max := iter_max iter; iter_pos := u16 (iter_pos iter + len); iter_pdata := iter_pdata iter;
              iter_type := type; iter_len := u8 (len - 2); iter_option := iter_pos iter + 2 |}, true).

Definition ppp_option_iter_get_type (iter : ppp_option_iter) : Z := iter_type iter.
Definition ppp_option_iter_get_length (iter : ppp_option_iter) : Z := iter_len iter.
Definition ppp_option_iter_get_data (iter : ppp_option_iter) : list Z :=
  drop (Z.to_nat (iter_option iter)) (iter_pdata iter).

(** * The automaton *)

Section Automaton.
Context {P E : Type} {driver : pppcp_proto P E}.
Implicit Types d : pppcp_data P.

(** An action changes the automaton and leaves outputs; actions run in sequence. *)
Definition action : Type := pppcp_data P -> res (pppcp_data P * list (output E)).

Definition skip : action := fun d => Ret (d, []).
Definition seq (a b : action) : action := fun d =>
  '(d, o1) ← a d; '(d, o2) ← b d; Ret (d, o1 ++ o2).
Definition run_if (c : bool) (a b : action) : action := if c then a else b.

(** What a driver function leaves is applied. *)
Definition driver_effects (r : driver_result P E) : action := fun d =>
  let d := pppcp_set_data d (new_priv r) in
  let d := match new_local r with
           | Some (options, len) => pppcp_set_local_options d options len
           | None => d
           end in
  Ret (d, map Call (calls r)).

Definition pppcp_stop_timer (t : timer_id) d : pppcp_data P :=
  set_timers d (config_timer_data d) (terminate_timer_data d) (filter (fun t' => t' <> t) (timers d)).

Definition pppcp_start_timer (t : timer_id) d : pppcp_data P :=
  let d := pppcp_stop_timer t d in
  set_timers d (config_timer_data d) (terminate_timer_data d) (timers d ++ [t]).

Definition is_first_request (td : pppcp_timer_data) : bool := restart_counter td =? max_counter td.

Definition pppcp_illegal_event (event : Z) : action := fun d => Ret (d, [Illegal (state d) event]).

Definition this_layer (e : layer_event) : action := fun d =>
  '(d, o) ← driver_effects (driver_layer e (priv d)) d; Ret (d, Layer e :: o).

Definition pppcp_initialize_restart_count (t : timer_id) : action := fun d =>
  Ret (set_restart_counter d t (max_counter (timer_data d t)), []).

Definition pppcp_zero_restart_count (t : timer_id) : action := fun d =>
  Ret (set_restart_counter d t 0, []).

Definition new_identity (prev_identifier : Z) : Z := u8 (prev_identifier + 1).

(** [ppp_transmit] of [len] octets of the packet's block. *)
Definition transmit (packet : list Z) (len : Z) : action := fun d =>
  info ← slice packet 0 len; Ret (d, [Transmit proto info]).

Definition pppcp_send_configure_request : action := fun d =>
  packet ← pppcp_packet_new CONFIGURE_REQUEST (local_options_len d);
  options ← slice (local_options d) 0 (local_options_len d);
  packet ← blit packet CP_HEADER_SZ options;
  let d := if is_first_request (config_timer_data d)
           then set_identifiers d (new_identity (config_identifier d)) (terminate_identifier d) else d in
  packet ← wr packet 1 (config_identifier d);
  length ← packet_length packet;
  '(d, o) ← transmit packet length d;
  let d := set_restart_counter d ConfigTimer (u32 (restart_counter (config_timer_data d) - 1)) in
  Ret (pppcp_start_timer ConfigTimer d, o).

Definition pppcp_send_configure_ack (request : list Z) : action := fun d =>
  let d := set_peer d 0 (peer_options d) (peer_options_len d) (send_reject d) in
  length ← packet_length request;
  let len := u16 (length - CP_HEADER_SZ) in
  packet ← pppcp_packet_new CONFIGURE_ACK len;
  options ← packet_data request len;
  packet ← blit packet CP_HEADER_SZ options;
  identifier ← rd request 1;
  packet ← wr packet 1 identifier;
  length ← packet_length packet;
  transmit packet length d.

(** The block of a Configure-Nak or Configure-Reject, before its identifier. *)
Definition configure_nak_packet (request : list Z) d : res (pppcp_data P * list Z) :=
  if max_failure d <=? failure_counter d then
    length ← packet_length request;
    let len := u16 (length - CP_HEADER_SZ) in
    packet ← pppcp_packet_new CONFIGURE_REJECT len;
    options ← packet_data request len;
    packet ← blit packet CP_HEADER_SZ options;
    Ret (d, packet)
  else
    let code := if send_reject d then CONFIGURE_REJECT else CONFIGURE_NAK in
    let d := if send_reject d then d
             else set_peer d (u32 (failure_counter d + 1)) (peer_options d) (peer_options_len d) (send_reject d) in
    packet ← pppcp_packet_new code (peer_options_len d);
    options ← slice (peer_options d) 0 (peer_options_len d);
    packet ← blit packet CP_HEADER_SZ options;
    Ret (d, packet).

Definition pppcp_send_configure_nak (request : list Z) : action := fun d =>
  '(d, packet) ← configure_nak_packet request d;
  identifier ← rd request 1;
  packet ← wr packet 1 identifier;
  length ← packet_length packet;
  '(d, o) ← transmit packet length d;
  Ret (set_peer d (failure_counter d) [] 0 (send_reject d), o).

Definition pppcp_send_terminate_request : action := fun d =>
  packet ← pppcp_packet_new TERMINATE_REQUEST 0;
  let d := if is_first_request (terminate_timer_data d)
           then set_identifiers d (config_identifier d) (new_identity (terminate_identifier d)) else d in
  packet ← wr packet 1 (terminate_identifier d);
  length ← packet_length packet;
  '(d, o) ← transmit packet length d;
  let d := set_restart_counter d TerminateTimer (u32 (restart_counter (terminate_timer_data d) - 1)) in
  Ret (pppcp_start_timer TerminateTimer d, o).

(** The length handed to [ppp_transmit] is that of the request. *)
Definition pppcp_send_terminate_ack (request : list Z) : action := fun d =>
  packet ← pppcp_packet_new TERMINATE_ACK 0;
  identifier ← rd request 1;
  packet ← wr packet 1 identifier;
  length ← packet_length request;
  '(d, o) ← transmit packet length d;
  Ret (pppcp_start_timer TerminateTimer d, o).

(** The comment of the code, that this seg faults, is out of date: the rejected
    packet is copied into one of its length ([send_code_reject_ok]). *)
Definition pppcp_send_code_reject (rejected_packet : list Z) : action := fun d =>
  old_length ← packet_length rejected_packet;
  packet ← pppcp_packet_new CODE_REJECT old_length;
  packet ← wr packet 1 (new_identity (reject_identifier d));
  length ← packet_length packet;
  rejected ← slice rejected_packet 0 (length - CP_HEADER_SZ);
  packet ← blit packet CP_HEADER_SZ rejected;
  transmit packet length d.

Definition pppcp_send_echo_reply (request : list Z) : action := fun d =>
  packet ← pppcp_packet_new ECHO_REPLY 4;
  identifier ← rd request 1;
  packet ← wr packet 1 identifier;
  length ← packet_length packet;
  transmit packet length d.

Definition pppcp_transition_state (new_state : Z) : action := fun d =>
  let d := if (new_state =? INITIAL) || (new_state =? STARTING) || (new_state =? CLOSED)
              || (new_state =? STOPPED) || (new_state =? OPENED)
           then pppcp_stop_timer TerminateTimer (pppcp_stop_timer ConfigTimer d) else d in
  Ret (set_state d new_state, []).

(** What an entry of the table does before the state changes, and after. *)
Definition pppcp_actions (actions new_state : Z) (packet : list Z) : action :=
  seq (run_if (has actions IRC)
         (pppcp_initialize_restart_count
            (if (new_state =? CLOSING) || (new_state =? STOPPING) then TerminateTimer else ConfigTimer))
      (run_if (has actions ZRC) (pppcp_zero_restart_count TerminateTimer) skip))
  (seq (run_if (has actions SCR) pppcp_send_configure_request skip)
  (seq (run_if (has actions SCA) (pppcp_send_configure_ack packet)
       (run_if (has actions SCN) (pppcp_send_configure_nak packet) skip))
  (seq (run_if (has actions STR) pppcp_send_terminate_request
       (run_if (has actions STA) (pppcp_send_terminate_ack packet) skip))
  (seq (run_if (has actions SCJ) (pppcp_send_code_reject packet) skip)
       (run_if (has actions SER) (pppcp_send_echo_reply packet) skip))))).

Definition pppcp_layer_actions (actions : Z) : action :=
  run_if (has actions TLS) (this_layer LayerStarted)
  (run_if (has actions TLU) (this_layer LayerUp)
  (run_if (has actions TLD) (this_layer LayerDown)
  (run_if (has actions TLF) (this_layer LayerFinished) skip))).

(** [packet] is [[]] where the code passes NULL. *)
Definition pppcp_generate_event (event_type : Z) (packet : list Z) : action := fun d =>
  if RXR <? event_type then pppcp_illegal_event event_type d
  else
    row ← rd cp_transitions event_type;
    actions ← rd row (state d);
    let new_state := Z.land actions 0xf in
    if has actions INV then pppcp_illegal_event event_type d
    else
      seq (pppcp_actions actions new_state packet)
        (seq (pppcp_transition_state new_state) (pppcp_layer_actions actions)) d.

Definition pppcp_signal_open : action := pppcp_generate_event OPEN [].
Definition pppcp_signal_close : action := pppcp_generate_event CLOSE [].
Definition pppcp_signal_up : action := pppcp_generate_event UP [].
Definition pppcp_signal_down : action := pppcp_generate_event DOWN [].

(** The pending timer [t] fires. *)
Definition pppcp_timeout (t : timer_id) : action := fun d =>
  let d := set_timers d (config_timer_data d) (terminate_timer_data d) (filter (fun t' => t' <> t) (timers d)) in
  if 0 <? restart_counter (timer_data d t) then pppcp_generate_event TO_PLUS [] d
  else pppcp_generate_event TO_MINUS [] d.

(** The functions of [packet_ops] give the event, 0 for none. *)
Definition packet_op : Type := list Z -> pppcp_data P -> res (Z * pppcp_data P * list (output E)).

Definition pppcp_process_configure_request : packet_op := fun packet d =>
  if max_failure d <=? failure_counter d then Ret (RCR_MINUS, d, [])
  else
    '(result, options, r) ← driver_rcr (priv d) packet;
    '(d, o) ← driver_effects r d;
    let '(new_options, new_len) := default (peer_options d, peer_options_len d) options in
    let new_len := u16 new_len in
    match result with
    | RCR_REJECT => Ret (RCR_MINUS, set_peer d (failure_counter d) new_options new_len true, o)
    | RCR_NAK => Ret (RCR_MINUS, set_peer d (failure_counter d) new_options new_len false, o)
    | RCR_ACCEPT => Ret (RCR_PLUS, set_peer d (failure_counter d) new_options new_len (send_reject d), o)
    end.

Definition pppcp_process_configure_ack : packet_op := fun packet d =>
  length ← packet_length packet;
  let len := length - CP_HEADER_SZ in
  identifier ← rd packet 1;
  if negb (identifier =? config_identifier d) then Ret (0, d, [])
  else if negb (local_options_len d =? len) then Ret (0, d, [])
  else
    mine ← slice (local_options d) 0 len;
    theirs ← packet_data packet len;
    if bool_decide (mine <> theirs) then Ret (0, d, [])
    else
      r ← driver_rca (priv d) packet;
      '(d, o) ← driver_effects r d;
      Ret (RCA, d, o).

Definition process_configure_refusal (driver_rcn : P -> list Z -> res (driver_result P E)) : packet_op := fun packet d =>
  identifier ← rd packet 1;
  if negb (identifier =? config_identifier d) then Ret (0, d, [])
  else
    r ← driver_rcn (priv d) packet;
    '(d, o) ← driver_effects r d;
    Ret (RCN, d, o).

Definition pppcp_process_configure_nak : packet_op := process_configure_refusal driver_rcn_nak.
Definition pppcp_process_configure_reject : packet_op := process_configure_refusal driver_rcn_rej.
Definition pppcp_process_terminate_request : packet_op := fun _ d => Ret (RTR, d, []).
Definition pppcp_process_terminate_ack : packet_op := fun _ d => Ret (RTA, d, []).
Definition pppcp_process_code_reject : packet_op := fun _ d => Ret (RXJ_MINUS, d, []).
Definition pppcp_process_protocol_reject : packet_op := fun _ d => Ret (RXJ_MINUS, d, []).
Definition pppcp_process_echo_request : packet_op := fun _ d => Ret (RXR, d, []).
Definition pppcp_process_echo_reply : packet_op := fun _ d => Ret (0, d, []).
Definition pppcp_process_discard_request : packet_op := fun _ d => Ret (0, d, []).

Definition packet_ops : list packet_op :=
  [pppcp_process_configure_request; pppcp_process_configure_ack; pppcp_process_configure_nak;
   pppcp_process_configure_reject; pppcp_process_terminate_request; pppcp_process_terminate_ack;
   pppcp_process_code_reject; pppcp_process_protocol_reject; pppcp_process_echo_request;
   pppcp_process_echo_reply; pppcp_process_discard_request].

Definition pppcp_send_protocol_reject (rejected_packet : list Z) : action := fun d =>
  if negb (state d =? OPENED) then Ret (d, [])
  else
    let len := u32 (zlen rejected_packet - 2) in
    packet ← pppcp_packet_new PROTOCOL_REJECT len;
    packet ← wr packet 1 (new_identity (reject_identifier d));
    rejected ← slice rejected_packet 2 len;
    packet ← blit packet CP_HEADER_SZ rejected;
    length ← packet_length packet;
    transmit packet length d.

(** A shift by 32 or more is undefined. *)
Definition pppcp_process_packet (new_packet : list Z) : action := fun d =>
  if zlen new_packet <? CP_HEADER_SZ then Ret (d, [])
  else
    code ← rd new_packet 0;
    if 32 <=? code then Ub
    else
      '(event_type, d, o1) ←
        (if negb (has supported_codes (Z.shiftl 1 code)) then Ret (RUC, d, [])
         else op ← rd packet_ops (code - 1); op new_packet d);
      if event_type =? 0 then Ret (d, o1)
      else '(d, o2) ← pppcp_generate_event event_type new_packet d; Ret (d, o1 ++ o2).

(** * Runs *)

(** What happens to an automaton: the signals, a packet, its earliest restart
    timer, a packet of an unknown protocol, and new local options. *)
Inductive input :=
  | SignalUp | SignalDown | SignalOpen | SignalClose
  | Packet (packet : list Z)
  | Timeout
  | Reject (packet : list Z)
  | SetLocal (options : list Z).

Definition pppcp_step (i : input) : action := fun d =>
  match i with
  | SignalUp => pppcp_signal_up d
  | SignalDown => pppcp_signal_down d
  | SignalOpen => pppcp_signal_open d
  | SignalClose => pppcp_signal_close d
  | Packet packet => pppcp_process_packet packet d
  | Timeout => match timers d with [] => Ret (d, []) | t :: _ => pppcp_timeout t d end
  | Reject packet => pppcp_send_protocol_reject packet d
  | SetLocal options => Ret (pppcp_set_local_options d options (zlen options), [])
  end.

Fixpoint pppcp_run (inputs : list input) : action :=
  match inputs with
  | [] => skip
  | i :: inputs => seq (pppcp_step i) (pppcp_run inputs)
  end.
End Automaton.

(** * The packets the automaton sends *)

(** The octets of a packet with that code, identifier and data. *)
Definition cp_packet (code identifier : Z) (data : list Z) : list Z :=
  [code; identifier; (zlen data + CP_HEADER_SZ) / 256; (zlen data + CP_HEADER_SZ) mod 256] ++ data.

(** The data a packet can hold: its length is a 16 bit field. *)
Definition fits (n : Z) : Prop := 0 <= n < 2 ^ 16 - CP_HEADER_SZ.

Lemma packet_new_ok type n :
  fits n -> pppcp_packet_new type n = Ret (cp_packet type 0 (replicate (Z.to_nat n) 0)).
Proof.
intros [? ?]. unfold pppcp_packet_new, cp_packet, u16, CP_HEADER_SZ in *.
rewrite Z.mod_small by lia. rewrite (proj2 (Z.ltb_ge (n + 4) 4)) by lia.
rewrite zlen_replicate, Z2Nat.id by lia. by rewrite Z.add_simpl_r.
Qed.

Lemma packet_length_ok code identifier data pad :
  packet_length (cp_packet code identifier data ++ pad) = Ret (zlen data + CP_HEADER_SZ).
Proof.
unfold packet_length. simpl. simp_res. f_equal. pose proof (Z.div_mod (zlen data + CP_HEADER_SZ) 256). lia.
Qed.

Lemma packet_length_ok' code identifier data :
  packet_length (cp_packet code identifier data) = Ret (zlen data + CP_HEADER_SZ).
Proof. rewrite <- (app_nil_r (cp_packet _ _ _)). apply packet_length_ok. Qed.

Lemma packet_identifier code identifier data pad :
  rd (cp_packet code identifier data ++ pad) 1 = Ret identifier.
Proof. done. Qed.

Lemma set_packet_identifier code identifier' identifier data :
  wr (cp_packet code identifier' data) 1 identifier = Ret (cp_packet code identifier data).
Proof.
unfold cp_packet. change ([?a; ?b; ?c; ?d] ++ data) with ([a] ++ b :: ([c; d] ++ data)).
rewrite wr_middle by done. done.
Qed.

Lemma packet_data_ok code identifier data pad n :
  n = zlen data -> packet_data (cp_packet code identifier data ++ pad) n = Ret data.
Proof. intros ->. unfold packet_data, cp_packet. rewrite <- app_assoc. by apply slice_app. Qed.

Lemma fill_packet code identifier old data :
  zlen old = zlen data -> blit (cp_packet code identifier old) CP_HEADER_SZ data = Ret (cp_packet code identifier data).
Proof.
intros Hlen. unfold cp_packet. rewrite Hlen. rewrite <- (app_nil_r old) at 1.
rewrite blit_middle; [by rewrite app_nil_r | done | done].
Qed.

Lemma zlen_cp_packet code identifier data : zlen (cp_packet code identifier data) = zlen data + CP_HEADER_SZ.
Proof. unfold cp_packet, CP_HEADER_SZ. rewrite zlen_app. change (zlen [_; _; _; _]) with 4. lia. Qed.

Lemma slice_all {A} (l : list A) n : n = zlen l -> slice l 0 n = Ret l.
Proof.
intros ->. rewrite <- (app_nil_r l) at 1. change (l ++ []) with ([] ++ l ++ @nil A). by apply slice_app.
Qed.

Lemma slice_prefix {A} (l : list A) n : 0 <= n <= zlen l -> slice l 0 n = Ret (take (Z.to_nat n) l).
Proof.
intros ?. rewrite <- (take_drop (Z.to_nat n) l) at 1.
change (take ?k l ++ ?t) with ([] ++ take k l ++ t). apply slice_app; [done|].
rewrite zlen_take. lia.
Qed.

Section Sends.
Context {P E : Type} {driver : pppcp_proto P E}.
Implicit Types d : pppcp_data P.

(** The options an automaton asks for are there. *)
Definition local_ok d : Prop := fits (local_options_len d) /\ local_options_len d <= zlen (local_options d).

Definition local_data d : list Z := take (Z.to_nat (local_options_len d)) (local_options d).

Lemma zlen_local_data d : local_ok d -> zlen (local_data d) = local_options_len d.
Proof. intros [[? ?] ?]. unfold local_data. rewrite zlen_take. lia. Qed.

Lemma transmit_packet code identifier data d :
  @transmit P E driver (cp_packet code identifier data) (zlen data + CP_HEADER_SZ) d
  = Ret (d, [Transmit proto (cp_packet code identifier data)]).
Proof. unfold transmit. rewrite slice_all by (by rewrite zlen_cp_packet). done. Qed.

(** The state after a Configure-Request: its identifier, counter and timer. *)
Definition configure_sent d : pppcp_data P :=
  let d := if is_first_request (config_timer_data d)
           then set_identifiers d (new_identity (config_identifier d)) (terminate_identifier d) else d in
  pppcp_start_timer ConfigTimer
    (set_restart_counter d ConfigTimer (u32 (restart_counter (config_timer_data d) - 1))).

Definition terminate_sent d : pppcp_data P :=
  let d := if is_first_request (terminate_timer_data d)
           then set_identifiers d (config_identifier d) (new_identity (terminate_identifier d)) else d in
  pppcp_start_timer TerminateTimer
    (set_restart_counter d TerminateTimer (u32 (restart_counter (terminate_timer_data d) - 1))).

Lemma send_configure_request_ok d :
  local_ok d ->
  pppcp_send_configure_request d
  = Ret (configure_sent d,
         [Transmit proto (cp_packet CONFIGURE_REQUEST (config_identifier (configure_sent d)) (local_data d))]).
Proof.
intros Hok. pose proof (zlen_local_data d Hok) as Hlen. destruct Hok as [[? ?] ?].
unfold pppcp_send_configure_request. rewrite packet_new_ok by done. rewrite bind_Ret.
rewrite slice_prefix by lia. rewrite bind_Ret.
rewrite fill_packet by (rewrite zlen_replicate; fold (local_data d); lia). rewrite bind_Ret. cbv zeta.
rewrite set_packet_identifier, bind_Ret, packet_length_ok', bind_Ret, transmit_packet, bind_Ret.
unfold configure_sent. by destruct (is_first_request (config_timer_data d)).
Qed.

Lemma send_terminate_request_ok d :
  pppcp_send_terminate_request d
  = Ret (terminate_sent d,
         [Transmit proto (cp_packet TERMINATE_REQUEST (terminate_identifier (terminate_sent d)) [])]).
Proof.
unfold pppcp_send_terminate_request. rewrite packet_new_ok by done. rewrite bind_Ret. cbv zeta.
rewrite set_packet_identifier, bind_Ret, packet_length_ok', bind_Ret.
change (Z.to_nat 0) with 0%nat. simpl replicate. rewrite transmit_packet, bind_Ret.
unfold terminate_sent. by destruct (is_first_request (terminate_timer_data d)).
Qed.

Lemma send_configure_ack_ok code identifier data pad d :
  fits (zlen data) ->
  pppcp_send_configure_ack (cp_packet code identifier data ++ pad) d
  = Ret (set_peer d 0 (peer_options d) (peer_options_len d) (send_reject d),
         [Transmit proto (cp_packet CONFIGURE_ACK identifier data)]).
Proof.
intros [? ?]. unfold pppcp_send_configure_ack. cbv zeta.
rewrite packet_length_ok, bind_Ret. unfold u16. rewrite Z.add_simpl_r, Z.mod_small by (unfold CP_HEADER_SZ in *; lia).
rewrite packet_new_ok by done. rewrite bind_Ret, packet_data_ok, bind_Ret by done.
rewrite fill_packet by (rewrite zlen_replicate; lia).
rewrite bind_Ret, packet_identifier, bind_Ret, set_packet_identifier, bind_Ret, packet_length_ok', bind_Ret.
apply transmit_packet.
Qed.

Definition peer_ok d : Prop := fits (peer_options_len d) /\ peer_options_len d <= zlen (peer_options d).

(** The refusal of a Configure-Request: once refused too often, all of it. *)
Definition refusal (identifier : Z) (data : list Z) d : list Z :=
  if max_failure d <=? failure_counter d then cp_packet CONFIGURE_REJECT identifier data
  else cp_packet (if send_reject d then CONFIGURE_REJECT else CONFIGURE_NAK) identifier
         (take (Z.to_nat (peer_options_len d)) (peer_options d)).

Definition refused d : pppcp_data P :=
  set_peer d
    (if (max_failure d <=? failure_counter d) || send_reject d then failure_counter d
     else u32 (failure_counter d + 1)) [] 0 (send_reject d).

Lemma send_configure_nak_ok code identifier data pad d :
  fits (zlen data) -> peer_ok d ->
  pppcp_send_configure_nak (cp_packet code identifier data ++ pad) d
  = Ret (refused d, [Transmit proto (refusal identifier data d)]).
Proof.
intros [? ?] [[? ?] ?]. unfold pppcp_send_configure_nak, configure_nak_packet, refusal, refused.
destruct (max_failure d <=? failure_counter d) eqn:Hmax.
- rewrite packet_length_ok, bind_Ret. unfold u16.
  rewrite Z.add_simpl_r, Z.mod_small by (unfold CP_HEADER_SZ in *; lia).
  rewrite packet_new_ok by done. rewrite bind_Ret, packet_data_ok, bind_Ret by done.
  rewrite fill_packet by (rewrite zlen_replicate; lia). rewrite !bind_Ret.
  rewrite packet_identifier, bind_Ret, set_packet_identifier, bind_Ret, packet_length_ok', bind_Ret.
  by rewrite transmit_packet, bind_Ret.
- rewrite (packet_new_ok _ (peer_options_len (if send_reject d then d else _)))
    by (by destruct (send_reject d)).
  rewrite bind_Ret, slice_prefix by (destruct (send_reject d); simpl; lia).
  rewrite bind_Ret, fill_packet by (rewrite zlen_replicate, zlen_take; destruct (send_reject d); simpl; lia).
  rewrite !bind_Ret, packet_identifier, bind_Ret, set_packet_identifier, bind_Ret, packet_length_ok', bind_Ret.
  rewrite transmit_packet, bind_Ret. destruct (send_reject d) eqn:Hreject; [by rewrite Hreject | done].
Qed.

Lemma send_terminate_ack_ok code identifier pad d :
  pppcp_send_terminate_ack (cp_packet code identifier [] ++ pad) d
  = Ret (pppcp_start_timer TerminateTimer d, [Transmit proto (cp_packet TERMINATE_ACK identifier [])]).
Proof.
unfold pppcp_send_terminate_ack. rewrite packet_new_ok by done. rewrite bind_Ret.
rewrite packet_identifier, bind_Ret, set_packet_identifier, bind_Ret, packet_length_ok, bind_Ret.
change (Z.to_nat 0) with 0%nat. simpl replicate. by rewrite transmit_packet, bind_Ret.
Qed.

(** A request that carries data makes the acknowledgement read past its block. *)
Lemma send_terminate_ack_overreads code identifier data pad d :
  data <> [] -> pppcp_send_terminate_ack (cp_packet code identifier data ++ pad) d = Ub.
Proof.
intros Hdata. unfold pppcp_send_terminate_ack. rewrite packet_new_ok by done. rewrite bind_Ret.
rewrite packet_identifier, bind_Ret, set_packet_identifier, bind_Ret, packet_length_ok, bind_Ret.
unfold transmit, slice. change (Z.to_nat 0) with 0%nat. simpl replicate.
destruct data as [|x data]; [done|]. pose proof (zlen_nonneg data).
assert (zlen (cp_packet TERMINATE_ACK identifier []) = 4) as -> by done.
assert (zlen (x :: data) = 1 + zlen data) as -> by apply zlen_cons.
rewrite (proj2 (Z.leb_gt _ 4)) by (unfold CP_HEADER_SZ; lia). by rewrite andb_false_r.
Qed.

Lemma send_code_reject_ok code identifier data pad d :
  fits (zlen data + CP_HEADER_SZ) ->
  pppcp_send_code_reject (cp_packet code identifier data ++ pad) d
  = Ret (d, [Transmit proto (cp_packet CODE_REJECT (new_identity (reject_identifier d)) (cp_packet code identifier data))]).
Proof.
intros Hfits. unfold pppcp_send_code_reject. rewrite packet_length_ok, bind_Ret.
rewrite packet_new_ok by done. rewrite bind_Ret, set_packet_identifier, bind_Ret, packet_length_ok', bind_Ret.
pose proof (zlen_nonneg data) as ?.
rewrite zlen_replicate, Z2Nat.id, Z.add_simpl_r by (unfold CP_HEADER_SZ in *; lia).
assert (slice (cp_packet code identifier data ++ pad) 0 (zlen data + CP_HEADER_SZ) = Ret (cp_packet code identifier data)) as ->.
{ change (cp_packet code identifier data ++ pad) with ([] ++ cp_packet code identifier data ++ pad).
  apply slice_app; [done|]. by rewrite zlen_cp_packet. }
rewrite bind_Ret, fill_packet, bind_Ret
  by (rewrite zlen_replicate, zlen_cp_packet, Z2Nat.id; unfold CP_HEADER_SZ in *; lia).
rewrite <- (zlen_cp_packet code identifier data). apply transmit_packet.
Qed.

Lemma send_echo_reply_ok code identifier data pad d :
  pppcp_send_echo_reply (cp_packet code identifier data ++ pad) d
  = Ret (d, [Transmit proto (cp_packet ECHO_REPLY identifier [0; 0; 0; 0])]).
Proof. done. Qed.
End Sends.

(** * The invariant of an automaton *)

Fixpoint level {E} (o : list (output E)) : Z :=
  match o with
  | [] => 0
  | Layer LayerUp :: o => 1 + level o
  | Layer LayerDown :: o => level o - 1
  | _ :: o => level o
  end.

Lemma level_app {E} (o1 o2 : list (output E)) : level (o1 ++ o2) = level o1 + level o2.
Proof. induction o1 as [|[? ?|[]|?|? ?] o1 IH]; simpl; lia. Qed.

Lemma level_calls {E} (l : list E) : level (map Call l) = 0.
Proof. by induction l. Qed.

(** Peels the reads and writes a send makes before it hands its packet over. *)
Ltac peel :=
  repeat match goal with
  | |- (?m ≫= _) = Ret _ -> _ =>
      lazymatch m with
      | transmit _ _ _ => fail
      | _ => let x := fresh in destruct m as [x| |]; simp_res; try done
      end
  end.

Section Invariant.
Context {P E : Type} {driver : pppcp_proto P E}.
Implicit Types d : pppcp_data P.
Implicit Types a b : @action P E.

(** A negotiation that waits for the peer. *)
Definition waiting (s : Z) : Prop := CLOSING <= s <= ACKSENT.

(** The widths of the fields, the limits of the counters, each timer pending at
    most once. *)
Record typed d : Prop := {
  typed_state : 0 <= state d <= OPENED;
  typed_config : 0 <= restart_counter (config_timer_data d) < 2 ^ 32;
  typed_terminate : 0 <= restart_counter (terminate_timer_data d) < 2 ^ 32;
  typed_max_config : max_counter (config_timer_data d) = MAX_CONFIGURE;
  typed_max_terminate : max_counter (terminate_timer_data d) = MAX_TERMINATE;
  typed_max_failure : 0 < max_failure d < 2 ^ 32;
  typed_failure : 0 <= failure_counter d <= max_failure d;
  typed_config_id : is_byte (config_identifier d);
  typed_terminate_id : is_byte (terminate_identifier d);
  typed_reject_id : is_byte (reject_identifier d);
  typed_local : 0 <= local_options_len d < 2 ^ 16;
  typed_peer : 0 <= peer_options_len d < 2 ^ 16;
  typed_timers : NoDup (timers d)
}.

(** And a timer is pending exactly in the states that wait for the peer. *)
Definition well_formed d : Prop := typed d /\ (timers d <> [] <-> waiting (state d)).

Lemma u8_is_byte z : is_byte (u8 z).
Proof. unfold is_byte, u8. change 256 with (2 ^ 8). by apply Z.mod_pos_bound. Qed.

Lemma u16_bounds z : 0 <= u16 z < 2 ^ 16.
Proof. by apply Z.mod_pos_bound. Qed.

Lemma u32_bounds z : 0 <= u32 z < 2 ^ 32.
Proof. by apply Z.mod_pos_bound. Qed.

Lemma typed_set_identifiers d c t : typed d -> is_byte c -> is_byte t -> typed (set_identifiers d c t).
Proof. intros [] ? ?. by split. Qed.

Lemma typed_set_peer d failures options len reject :
  typed d -> 0 <= failures <= max_failure d -> 0 <= len < 2 ^ 16 -> typed (set_peer d failures options len reject).
Proof. intros [] ? ?. by split. Qed.

Lemma typed_set_local d options len : typed d -> typed (pppcp_set_local_options d options len).
Proof. intros []. split; try done. apply u16_bounds. Qed.

Lemma typed_set_data d data : typed d -> typed (pppcp_set_data d data).
Proof. by intros []. Qed.

Lemma typed_set_state d s : typed d -> 0 <= s <= OPENED -> typed (set_state d s).
Proof. intros [] ?. by split. Qed.

Lemma typed_set_counter d t n : typed d -> 0 <= n < 2 ^ 32 -> typed (set_restart_counter d t n).
Proof. intros [] ?. by destruct t. Qed.

Lemma typed_stop_timer d t : typed d -> typed (pppcp_stop_timer t d).
Proof. intros []. split; try done. simpl. by apply NoDup_filter. Qed.

Lemma typed_start_timer d t : typed d -> typed (pppcp_start_timer t d).
Proof.
intros [] . split; try done. simpl. apply NoDup_app. split_and!.
- by apply NoDup_filter.
- intros x [Hx _]%list_elem_of_filter. by rewrite list_elem_of_singleton.
- apply NoDup_singleton.
Qed.

(** An action that leaves the state, keeps the types, drops no timer and calls
    no layer function. *)
Definition tame a : Prop := forall d d' o,
  a d = Ret (d', o) -> typed d -> typed d' /\ state d' = state d /\ (timers d <> [] -> timers d' <> []) /\ level o = 0.

(** An action after which a timer is pending. *)
Definition starts a : Prop := forall d d' o, a d = Ret (d', o) -> typed d -> timers d' <> [].

Lemma seq_inv a b d d' o :
  seq a b d = Ret (d', o) -> exists d1 o1 o2, a d = Ret (d1, o1) /\ b d1 = Ret (d', o2) /\ o = o1 ++ o2.
Proof.
unfold seq. destruct (a d) as [[d1 o1]| |] eqn:Ha; simp_res; try done.
destruct (b d1) as [[d2 o2]| |] eqn:Hb; simp_res; try done. intros [= <- <-]. by exists d1, o1, o2.
Qed.

Lemma tame_skip : tame skip.
Proof. by intros d d' o [= <- <-] ?. Qed.

Lemma tame_seq a b : tame a -> tame b -> tame (seq a b).
Proof.
intros Ha Hb d d' o (d1 & o1 & o2 & H1 & H2 & ->)%seq_inv Ht.
destruct (Ha _ _ _ H1 Ht) as (Ht1 & Hs1 & Hq1 & Hl1).
destruct (Hb _ _ _ H2 Ht1) as (Ht2 & Hs2 & Hq2 & Hl2).
split_and!; [done | congruence | auto | rewrite level_app; lia].
Qed.

Lemma tame_run_if (c : bool) a b : tame a -> tame b -> tame (run_if c a b).
Proof. by destruct c. Qed.

(** A send runs the updates [f] and hands one packet to the link. *)
Definition one_packet (f : pppcp_data P -> pppcp_data P) a : Prop := forall d d' o,
  a d = Ret (d', o) -> d' = f d /\ exists info, o = [Transmit proto info].

Lemma transmit_inv packet len d d' o :
  @transmit P E driver packet len d = Ret (d', o) -> d' = d /\ exists info, o = [Transmit proto info].
Proof.
unfold transmit. destruct (slice packet 0 len); simp_res; try done. intros [= <- <-]. split; [done|]. by eexists.
Qed.

Ltac packet_sent :=
  lazymatch goal with
  | |- (transmit ?p ?l ?d ≫= _) = Ret _ -> _ =>
      let o := fresh "o" in let d1 := fresh "d1" in let H := fresh in
      destruct (transmit p l d) as [[d1 o]| |] eqn:H; simp_res; try done;
      apply transmit_inv in H as [-> [? ->]]; intros [= <- <-]; split; [done | by eexists]
  | |- transmit _ _ _ = Ret _ -> _ => apply transmit_inv
  end.

Lemma send_configure_request_sends : one_packet configure_sent pppcp_send_configure_request.
Proof.
intros d d' o. unfold pppcp_send_configure_request, configure_sent. cbv zeta.
destruct (is_first_request (config_timer_data d)); peel; packet_sent.
Qed.

Lemma send_terminate_request_sends : one_packet terminate_sent pppcp_send_terminate_request.
Proof.
intros d d' o. unfold pppcp_send_terminate_request, terminate_sent. cbv zeta.
destruct (is_first_request (terminate_timer_data d)); peel; packet_sent.
Qed.

Lemma send_configure_ack_sends request :
  one_packet (fun d => set_peer d 0 (peer_options d) (peer_options_len d) (send_reject d)) (pppcp_send_configure_ack request).
Proof. intros d d' o. unfold pppcp_send_configure_ack. cbv zeta. peel. packet_sent. Qed.

Lemma configure_nak_packet_inv request d d1 packet :
  configure_nak_packet request d = Ret (d1, packet) ->
  set_peer d1 (failure_counter d1) [] 0 (send_reject d1) = refused d.
Proof.
unfold configure_nak_packet, refused. cbv zeta.
destruct (max_failure d <=? failure_counter d); [|destruct (send_reject d) eqn:Hreject];
  peel; intros [= <- _]; simpl; by rewrite ?Hreject.
Qed.

Lemma send_configure_nak_sends request : one_packet refused (pppcp_send_configure_nak request).
Proof.
intros d d' o. unfold pppcp_send_configure_nak.
destruct (configure_nak_packet request d) as [[d1 packet]| |] eqn:Hpacket; simp_res; try done.
apply configure_nak_packet_inv in Hpacket as <-. peel. packet_sent.
Qed.

Lemma send_terminate_ack_sends request :
  one_packet (pppcp_start_timer TerminateTimer) (pppcp_send_terminate_ack request).
Proof. intros d d' o. unfold pppcp_send_terminate_ack. peel. packet_sent. Qed.

Lemma send_code_reject_sends request : one_packet id (pppcp_send_code_reject request).
Proof. intros d d' o. unfold pppcp_send_code_reject. cbv zeta. peel. packet_sent. Qed.

Lemma send_echo_reply_sends request : one_packet id (pppcp_send_echo_reply request).
Proof. intros d d' o. unfold pppcp_send_echo_reply. peel. packet_sent. Qed.

Lemma start_timer_pending t d : timers (pppcp_start_timer t d) <> [].
Proof. unfold pppcp_start_timer. simpl. by destruct (filter _ _). Qed.

Lemma tame_sends f a :
  one_packet f a ->
  (forall d, typed d -> typed (f d) /\ state (f d) = state d /\ (timers d <> [] -> timers (f d) <> [])) -> tame a.
Proof.
intros Ha Hf d d' o [-> [info ->]]%Ha Ht. destruct (Hf d Ht) as (? & ? & ?). by split_and!.
Qed.

Lemma starts_sends f a : one_packet f a -> (forall d, timers (f d) <> []) -> starts a.
Proof. intros Ha Hf d d' o [-> _]%Ha _. apply Hf. Qed.

Lemma typed_configure_sent d : typed d -> typed (configure_sent d).
Proof.
intros Ht. unfold configure_sent. cbv zeta.
apply typed_start_timer, typed_set_counter; [|apply u32_bounds].
destruct (is_first_request _); [|done].
apply typed_set_identifiers; [done | apply u8_is_byte | by destruct Ht].
Qed.

Lemma typed_terminate_sent d : typed d -> typed (terminate_sent d).
Proof.
intros Ht. unfold terminate_sent. cbv zeta.
apply typed_start_timer, typed_set_counter; [|apply u32_bounds].
destruct (is_first_request _); [|done].
apply typed_set_identifiers; [done | by destruct Ht | apply u8_is_byte].
Qed.

Lemma typed_refused d : typed d -> typed (refused d).
Proof.
intros Ht. unfold refused. apply typed_set_peer; [done| |lia]. destruct Ht.
destruct ((_ <=? _) || _) eqn:Hfail; [done|]. apply orb_false_iff in Hfail as [Hfail _]. apply Z.leb_gt in Hfail.
unfold u32. rewrite Z.mod_small; lia.
Qed.

Lemma configure_request_tame : tame pppcp_send_configure_request.
Proof.
apply (tame_sends _ _ send_configure_request_sends). intros d Ht.
split_and!; [by apply typed_configure_sent | | intros _; apply start_timer_pending].
unfold configure_sent. by destruct (is_first_request _).
Qed.

Lemma terminate_request_tame : tame pppcp_send_terminate_request.
Proof.
apply (tame_sends _ _ send_terminate_request_sends). intros d Ht.
split_and!; [by apply typed_terminate_sent | | intros _; apply start_timer_pending].
unfold terminate_sent. by destruct (is_first_request _).
Qed.

Lemma configure_ack_tame request : tame (pppcp_send_configure_ack request).
Proof.
apply (tame_sends _ _ (send_configure_ack_sends request)). intros d Ht. split_and!; [|done..].
destruct (Ht). apply typed_set_peer; [done|lia|done].
Qed.

Lemma configure_nak_tame request : tame (pppcp_send_configure_nak request).
Proof.
apply (tame_sends _ _ (send_configure_nak_sends request)). intros d Ht. split_and!; [|done..].
by apply typed_refused.
Qed.

Lemma terminate_ack_tame request : tame (pppcp_send_terminate_ack request).
Proof.
apply (tame_sends _ _ (send_terminate_ack_sends request)). intros d Ht.
split_and!; [by apply typed_start_timer | done | intros _; apply start_timer_pending].
Qed.

Lemma code_reject_tame request : tame (pppcp_send_code_reject request).
Proof. by apply (tame_sends _ _ (send_code_reject_sends request)). Qed.

Lemma echo_reply_tame request : tame (pppcp_send_echo_reply request).
Proof. by apply (tame_sends _ _ (send_echo_reply_sends request)). Qed.

Lemma initialize_tame t : tame (pppcp_initialize_restart_count t).
Proof.
intros d d' o [= <- <-] Ht. split_and!; try by destruct t.
apply typed_set_counter; [done|]. destruct Ht, t; simpl; unfold MAX_CONFIGURE, MAX_TERMINATE in *; lia.
Qed.

Lemma zero_tame t : tame (pppcp_zero_restart_count t).
Proof. intros d d' o [= <- <-] Ht. split_and!; try by destruct t. by apply typed_set_counter. Qed.

(** ** The transition table *)

Definition bit (c : bool) : Z := if c then 1 else 0.

(** What every entry of the table satisfies: it is refused, or its new state is
    a state; a state that waits is entered with a timer started or kept; the
    layer comes up and goes down with OPENED. *)
Definition entry_ok (event s actions : Z) : bool :=
  let new := Z.land actions 0xf in
  let starts := has actions SCR || has actions STR || has actions STA in
  let waits := fun s => (CLOSING <=? s) && (s <=? ACKSENT) in
  if has actions INV then negb (((event =? TO_PLUS) || (event =? TO_MINUS)) && waits s)
  else
    (new <=? OPENED)
    && implb (waits new) (starts || waits s && negb ((event =? TO_PLUS) || (event =? TO_MINUS)))
    && (bit (negb (has actions TLS) && has actions TLU)
        - bit (negb (has actions TLS) && negb (has actions TLU) && has actions TLD)
        =? bit (new =? OPENED) - bit (s =? OPENED)).

Lemma table_entries :
  forallb (fun '(event, row) => (length row =? 10)%nat &&
    forallb (fun '(s, actions) => entry_ok (Z.of_nat event) (Z.of_nat s) actions) (imap (fun s actions => (s, actions)) row))
    (imap (fun event row => (event, row)) cp_transitions) = true.
Proof. by vm_compute. Qed.

Lemma table_entry event s row actions :
  0 <= event -> 0 <= s -> rd cp_transitions event = Ret row -> rd row s = Ret actions -> entry_ok event s actions = true.
Proof.
intros He Hs Hrow Hact. apply rd_lookup in Hrow; [|done]. apply rd_lookup in Hact; [|done].
pose proof table_entries as Hall. rewrite forallb_forall in Hall.
assert (In (Z.to_nat event, row) (imap (fun event row => (event, row)) cp_transitions)) as Hin.
{ apply list_elem_of_In, list_elem_of_lookup. exists (Z.to_nat event). by rewrite list_lookup_imap, Hrow. }
apply Hall, andb_true_iff in Hin as [_ Hin]. rewrite forallb_forall in Hin.
specialize (Hin (Z.to_nat s, actions)). rewrite !Z2Nat.id in Hin by done. apply Hin.
apply list_elem_of_In, list_elem_of_lookup. exists (Z.to_nat s). by rewrite list_lookup_imap, Hact.
Qed.

Lemma table_total event s :
  0 <= event <= RXR -> 0 <= s <= OPENED -> exists row actions, rd cp_transitions event = Ret row /\ rd row s = Ret actions.
Proof.
intros He Hs. destruct (rd_in_bounds cp_transitions event) as [row Hrow]; [by unfold RXR in *; vm_compute zlen; lia|].
exists row. pose proof table_entries as Hall. rewrite forallb_forall in Hall.
pose proof Hrow as Hrow'. apply rd_lookup in Hrow'; [|lia].
assert (In (Z.to_nat event, row) (imap (fun event row => (event, row)) cp_transitions)) as Hin.
{ apply list_elem_of_In, list_elem_of_lookup. exists (Z.to_nat event). by rewrite list_lookup_imap, Hrow'. }
apply Hall, andb_true_iff in Hin as [Hlen%Nat.eqb_eq _].
destruct (rd_in_bounds row s) as [actions Hact]; [unfold zlen, OPENED in *; lia|]. by exists actions.
Qed.

(** ** Events, packets and runs *)

Lemma driver_effects_inv (r : driver_result P E) d d' o :
  driver_effects r d = Ret (d', o) -> typed d ->
  typed d' /\ state d' = state d /\ timers d' = timers d /\ level o = 0 /\ failure_counter d' = failure_counter d
  /\ max_failure d' = max_failure d.
Proof.
unfold driver_effects. destruct (new_local r) as [[options len]|]; intros [= <- <-] Ht;
  split_and!; try done; try apply level_calls; [by apply typed_set_local, typed_set_data | by apply typed_set_data].
Qed.

Definition layer_level (e : layer_event) : Z := match e with LayerUp => 1 | LayerDown => -1 | _ => 0 end.

Lemma this_layer_inv e d d' o :
  this_layer e d = Ret (d', o) -> typed d ->
  typed d' /\ state d' = state d /\ timers d' = timers d /\ level o = layer_level e.
Proof.
unfold this_layer. destruct (driver_effects _ d) as [[d1 o1]| |] eqn:He; simp_res; try done.
intros [= <- <-] Ht. apply driver_effects_inv in He as (? & ? & ? & ? & _); [|done].
split_and!; try done. destruct e; simpl; lia.
Qed.

Lemma stop_both (l : list timer_id) :
  filter (fun t' => t' <> TerminateTimer) (filter (fun t' => t' <> ConfigTimer) l) = [].
Proof. induction l as [|[] l IH]; [done| |]; by rewrite !filter_cons; simpl. Qed.

Lemma transition_inv new d d' (o : list (output E)) :
  pppcp_transition_state new d = Ret (d', o) -> typed d -> 0 <= new <= OPENED ->
  (waiting new -> timers d <> []) ->
  well_formed d' /\ state d' = new /\ level o = 0.
Proof.
intros Hd Ht Hnew Hpend. unfold pppcp_transition_state in Hd. injection Hd as <- <-.
unfold well_formed, waiting, INITIAL, STARTING, CLOSED, STOPPED, CLOSING, ACKSENT, OPENED in *.
destruct ((new =? 0) || _ || _ || _ || _) eqn:Hrest.
- split_and!; [by apply typed_set_state; [apply typed_stop_timer, typed_stop_timer|]| |done|done].
  simpl. rewrite stop_both. split; [done|]. bool_to_prop. lia.
- bool_to_prop. split_and!; [by apply typed_set_state| |done|done]. simpl. split; [lia|]. intros ?. by apply Hpend.
Qed.

Lemma layer_actions_inv actions d d' o :
  pppcp_layer_actions actions d = Ret (d', o) -> well_formed d ->
  well_formed d' /\ state d' = state d
  /\ level o = bit (negb (has actions TLS) && has actions TLU)
               - bit (negb (has actions TLS) && negb (has actions TLU) && has actions TLD).
Proof.
intros Hd [Ht Hp]. assert (forall e, this_layer e d = Ret (d', o) ->
  well_formed d' /\ state d' = state d /\ level o = layer_level e) as Hlayer.
{ intros e (? & Hs & Htm & ?)%this_layer_inv; [|done]. unfold well_formed. by rewrite Hs, Htm. }
unfold pppcp_layer_actions, run_if in Hd.
destruct (has actions TLS), (has actions TLU), (has actions TLD), (has actions TLF);
  first [by apply Hlayer in Hd | by injection Hd as <- <-].
Qed.

Lemma starts_l a b : tame a -> starts a -> tame b -> starts (seq a b).
Proof.
intros Ha Hs Hb d d' o (d1 & o1 & o2 & H1 & H2 & ->)%seq_inv Ht.
destruct (Ha _ _ _ H1 Ht) as (Ht1 & _). destruct (Hb _ _ _ H2 Ht1) as (_ & _ & Hkeep & _).
apply Hkeep. by apply (Hs _ _ _ H1).
Qed.

Lemma starts_r a b : tame a -> starts b -> starts (seq a b).
Proof.
intros Ha Hb d d' o (d1 & o1 & o2 & H1 & H2 & ->)%seq_inv Ht.
destruct (Ha _ _ _ H1 Ht) as (Ht1 & _). by apply (Hb _ _ _ H2).
Qed.

Ltac tame_all :=
  repeat first [apply tame_seq | apply tame_run_if | apply tame_skip | apply initialize_tame | apply zero_tame
  | apply configure_request_tame | apply configure_ack_tame | apply configure_nak_tame
  | apply terminate_request_tame | apply terminate_ack_tame | apply code_reject_tame | apply echo_reply_tame].

Lemma actions_tame actions new packet : tame (pppcp_actions actions new packet).
Proof. unfold pppcp_actions. tame_all. Qed.

Lemma actions_start actions new packet :
  has actions SCR || has actions STR || has actions STA = true -> starts (pppcp_actions actions new packet).
Proof.
intros Hstart. unfold pppcp_actions. apply starts_r; [tame_all|].
destruct (has actions SCR).
{ apply starts_l; [tame_all| |tame_all]. apply (starts_sends _ _ send_configure_request_sends).
  intros d. apply start_timer_pending. }
apply starts_r; [tame_all|]. apply starts_r; [tame_all|]. apply starts_l; [tame_all| |tame_all].
destruct (has actions STR).
{ apply (starts_sends _ _ send_terminate_request_sends). intros d. apply start_timer_pending. }
simpl in Hstart. rewrite Hstart. apply (starts_sends _ _ (send_terminate_ack_sends packet)).
intros d. apply start_timer_pending.
Qed.

(** The event of an expired timer comes with that timer no longer pending. *)
Definition timer_event (event : Z) : bool := (event =? TO_PLUS) || (event =? TO_MINUS).

Lemma generate_event_inv event packet d d' o :
  0 <= event -> typed d ->
  (if timer_event event then waiting (state d) else timers d <> [] <-> waiting (state d)) ->
  pppcp_generate_event event packet d = Ret (d', o) ->
  well_formed d' /\ level o = bit (state d' =? OPENED) - bit (state d =? OPENED).
Proof.
intros Hevent Ht Hpend Hgen. unfold pppcp_generate_event in Hgen. pose proof (typed_state _ Ht) as Hs.
destruct (RXR <? event) eqn:Hrange.
{ injection Hgen as <- <-. replace (timer_event event) with false in Hpend; [split; [done|simpl; lia]|].
  unfold timer_event, RXR, TO_PLUS, TO_MINUS in *. bool_to_prop. symmetry. apply orb_false_iff. split; lia. }
destruct (rd cp_transitions event) as [row| |] eqn:Hrow; simp_res; try done.
destruct (rd row (state d)) as [actions| |] eqn:Hact; simp_res; try done.
assert (entry_ok event (state d) actions = true) as Hok by (eapply table_entry; [..|exact Hrow|exact Hact]; lia).
unfold entry_ok in Hok. fold (timer_event event) in Hok.
destruct (has actions INV).
{ injection Hgen as <- <-. destruct (timer_event event); [|split; [done|simpl; lia]].
  exfalso. unfold waiting in Hpend. apply negb_true_iff, andb_false_iff in Hok. destruct Hok as [Hok|Hok]; bool_to_prop; lia. }
apply andb_true_iff in Hok as [[Hnew Hwait]%andb_true_iff Hlevel]. apply Z.eqb_eq in Hlevel. apply Z.leb_le in Hnew.
apply seq_inv in Hgen as (d1 & o1 & p1 & H1 & (d2 & o2 & o3 & H2 & H3 & ->)%seq_inv & ->).
destruct (actions_tame _ _ _ _ _ _ H1 Ht) as (Ht1 & Hs1 & Hkeep & Hl1).
apply transition_inv in H2 as (Hwf2 & Hs2 & Hl2); [|done|split; [apply Z.land_nonneg; lia|done]|].
- apply layer_actions_inv in H3 as (Hwf3 & Hs3 & Hl3); [|done].
  split; [done|]. rewrite !level_app, Hl1, Hl2, Hl3, Hs3, Hs2. lia.
- intros [Hw1 Hw2]. rewrite (proj2 (Z.leb_le _ _) Hw1), (proj2 (Z.leb_le _ _) Hw2) in Hwait. simpl in Hwait.
  apply orb_true_iff in Hwait as [Hstart|Hstay]; [by apply (actions_start _ _ _ Hstart _ _ _ H1)|].
  apply andb_true_iff in Hstay as [Hs' Hevent']. apply negb_true_iff in Hevent'. rewrite Hevent' in Hpend.
  apply Hkeep, Hpend. unfold waiting. bool_to_prop. lia.
Qed.

Lemma pop_other (t : timer_id) l : filter (fun t' => t' <> t) l = [] \/ filter (fun t' => t' <> t) l <> [].
Proof. destruct (filter _ l); [by left | by right]. Qed.

Lemma timeout_inv t d d' o :
  well_formed d -> t ∈ timers d -> pppcp_timeout t d = Ret (d', o) ->
  well_formed d' /\ level o = bit (state d' =? OPENED) - bit (state d =? OPENED).
Proof.
intros [Ht Hp] Hin Hd. unfold pppcp_timeout in Hd. cbv zeta in Hd.
change (state d) with (state (pppcp_stop_timer t d)).
assert (waiting (state d)) by (apply Hp; by intros Hnil; rewrite Hnil in Hin; apply elem_of_nil in Hin).
destruct (0 <? _); (apply generate_event_inv in Hd; [done|done|by apply typed_stop_timer|done]).
Qed.

(** A function of [packet_ops] leaves the state and the timers alone, and gives an
    event that is not a timer's. *)
Definition op_keeps (op : @packet_op P E) : Prop := forall packet d event d' o,
  op packet d = Ret (event, d', o) -> typed d ->
  typed d' /\ state d' = state d /\ timers d' = timers d /\ level o = 0 /\ 0 <= event /\ timer_event event = false.

Lemma simple_op event : 0 <= event -> timer_event event = false -> op_keeps (fun _ d => Ret (event, d, [])).
Proof. by intros ? ? packet d e d' o [= <- <- <-] ?. Qed.

Lemma configure_request_keeps : op_keeps pppcp_process_configure_request.
Proof.
intros packet d event d' o. unfold pppcp_process_configure_request.
destruct (max_failure d <=? failure_counter d); [by intros [= <- <- <-]|].
destruct (driver_rcr (priv d) packet) as [[[result options] r]| |]; simp_res; try done.
destruct (driver_effects r d) as [[d1 o1]| |] eqn:He; simp_res; try done.
destruct (default _ options) as [new_options new_len]. intros Hd Ht.
apply driver_effects_inv in He as (Ht1 & Hs & Htm & Hl & Hf & Hm); [|done].
assert (forall reject, typed (set_peer d1 (failure_counter d1) new_options (u16 new_len) reject)) as Hpeer.
{ intros reject. apply typed_set_peer; [done| |apply u16_bounds]. by destruct Ht1. }
destruct result; injection Hd as <- <- <-; (split_and!; [apply Hpeer|done..]).
Qed.

Lemma configure_ack_keeps : op_keeps pppcp_process_configure_ack.
Proof.
intros packet d event d' o. unfold pppcp_process_configure_ack.
destruct (packet_length packet); simp_res; try done. destruct (rd packet 1); simp_res; try done.
destruct (negb _); [by intros [= <- <- <-]|]. destruct (negb _); [by intros [= <- <- <-]|].
destruct (slice _ _ _); simp_res; try done. destruct (packet_data _ _); simp_res; try done.
destruct (bool_decide _); [by intros [= <- <- <-]|]. destruct (driver_rca _ _) as [r| |]; simp_res; try done.
destruct (driver_effects r d) as [[d1 o1]| |] eqn:He; simp_res; try done. intros [= <- <- <-] Ht.
by apply driver_effects_inv in He as (Ht1 & Hs & Htm & Hl & Hf & Hm).
Qed.

Lemma configure_refusal_keeps f : op_keeps (process_configure_refusal f).
Proof.
intros packet d event d' o. unfold process_configure_refusal.
destruct (rd packet 1); simp_res; try done. destruct (negb _); [by intros [= <- <- <-]|].
destruct (f _ _) as [r| |]; simp_res; try done.
destruct (driver_effects r d) as [[d1 o1]| |] eqn:He; simp_res; try done. intros [= <- <- <-] Ht.
by apply driver_effects_inv in He as (Ht1 & Hs & Htm & Hl & Hf & Hm).
Qed.

Lemma packet_ops_keep : Forall op_keeps packet_ops.
Proof.
unfold packet_ops. repeat apply Forall_cons_2; [apply configure_request_keeps | apply configure_ack_keeps
  | apply configure_refusal_keeps | apply configure_refusal_keeps | by apply simple_op..| by apply Forall_nil].
Qed.

Lemma process_packet_inv packet d d' o :
  well_formed d -> pppcp_process_packet packet d = Ret (d', o) ->
  well_formed d' /\ level o = bit (state d' =? OPENED) - bit (state d =? OPENED).
Proof.
intros [Ht Hp] Hd. unfold pppcp_process_packet in Hd.
destruct (zlen packet <? CP_HEADER_SZ); [injection Hd as <- <-; split; [done|simpl; lia]|].
destruct (rd packet 0) as [code| |]; simp_res; try done. destruct (32 <=? code); [done|].
destruct (if negb _ then _ else _) as [[[event d1] o1]| |] eqn:Hop in Hd; simp_res; try done.
assert (typed d1 /\ state d1 = state d /\ timers d1 = timers d /\ level o1 = 0 /\ 0 <= event /\ timer_event event = false)
  as (Ht1 & Hs1 & Htm1 & Hl1 & He & Hev).
{ destruct (negb _); [by injection Hop as <- <- <-|].
  destruct (rd packet_ops (code - 1)) as [op| |] eqn:Hrd; simp_res; try done.
  assert (op_keeps op) as Hkeeps; [|exact (Hkeeps _ _ _ _ _ Hop Ht)].
  unfold rd in Hrd. destruct (code - 1 <? 0); [done|].
  destruct (packet_ops !! _) eqn:Hl; [|done]. injection Hrd as <-. by apply (Forall_lookup_1 _ _ _ _ packet_ops_keep Hl). }
destruct (event =? 0); [injection Hd as <- <-; unfold well_formed; rewrite Hs1, Htm1, Hl1; split; [done|lia]|].
destruct (pppcp_generate_event event packet d1) as [[d2 o2]| |] eqn:Hgen; simp_res; try done. injection Hd as <- <-.
apply generate_event_inv in Hgen as [? Hl2]; [|done|done|by rewrite Hev, Htm1, Hs1].
split; [done|]. rewrite level_app, Hl1, Hl2, Hs1. lia.
Qed.

Lemma step_inv i d d' o :
  well_formed d -> pppcp_step i d = Ret (d', o) ->
  well_formed d' /\ level o = bit (state d' =? OPENED) - bit (state d =? OPENED).
Proof.
intros Hwf. destruct (Hwf) as [Ht Hp].
assert (forall event, 0 <= event -> timer_event event = false -> pppcp_generate_event event [] d = Ret (d', o) ->
  well_formed d' /\ level o = bit (state d' =? OPENED) - bit (state d =? OPENED)) as Hsignal.
{ intros event ? Hev Hd. apply generate_event_inv in Hd; [done|done|done|by rewrite Hev]. }
destruct i; simpl; try by apply Hsignal.
- by apply process_packet_inv.
- destruct (timers d) as [|t l] eqn:Htm; [intros [= <- <-]; split; [done|simpl; lia]|].
  apply timeout_inv; [done|]. rewrite Htm. apply list_elem_of_here.
- unfold pppcp_send_protocol_reject. destruct (negb _); [intros [= <- <-]; split; [done|simpl; lia]|].
  cbv zeta. peel. intros [-> [info ->]]%transmit_inv. split; [done|simpl; lia].
- intros [= <- <-]. split; [|simpl; lia]. split; [by apply typed_set_local|done].
Qed.

Lemma run_inv inputs : forall d d' o,
  well_formed d -> pppcp_run inputs d = Ret (d', o) ->
  well_formed d' /\ level o = bit (state d' =? OPENED) - bit (state d =? OPENED).
Proof.
induction inputs as [|i inputs IH]; intros d d' o Hwf; simpl.
- intros [= <- <-]. split; [done|simpl; lia].
- intros (d1 & o1 & o2 & H1 & H2 & ->)%seq_inv. apply step_inv in H1 as [Hwf1 Hl1]; [|done].
  apply IH in H2 as [Hwf2 Hl2]; [|done]. split; [done|]. rewrite level_app. lia.
Qed.

Lemma new_well_formed dormant failures (data : P) :
  0 <= failures < 2 ^ 32 -> well_formed (pppcp_new dormant failures data).
Proof.
intros ?. split; [split|]; simpl; try done; try (destruct dormant; done).
- destruct (failures =? 0) eqn:H0; [done|]. bool_to_prop. lia.
- destruct (failures =? 0) eqn:H0; [done|]. bool_to_prop. lia.
- apply NoDup_nil_2.
- split; [done|]. unfold waiting. by destruct dormant; intros [? ?].
Qed.

(** C7: the automaton never leaves its types and never hangs.  Whatever packets,
    signals, timeouts and new options come to it, in whatever order, as long as
    the code keeps within its buffers: the state is one of the ten, the counters,
    identifiers and lengths keep their widths, the failure counter stays under its
    limit, each timer is pending at most once, a restart timer is pending exactly
    in the five states that wait for the peer, and the layer has been taken up
    once more often than down exactly when the state is OPENED. *)
Theorem pppcp_invariant dormant failures (data : P) inputs d o :
  0 <= failures < 2 ^ 32 -> pppcp_run inputs (pppcp_new dormant failures data) = Ret (d, o) ->
  well_formed d /\ level o = bit (state d =? OPENED).
Proof.
intros Hf Hrun. apply run_inv in Hrun as [Hwf Hl]; [|by apply new_well_formed].
split; [done|]. rewrite Hl. destruct dormant; simpl; lia.
Qed.
End Invariant.

(** * The automaton answers whatever it gets *)

Section Progress.
Context {P E : Type} {driver : pppcp_proto P E}.
Implicit Types d : pppcp_data P.
Implicit Types a b : @action P E.

(** What the automaton relies on of its driver: the options it sets are where it
    says, its codes are those of ppp_cp.h, and its functions return for the
    packets it understands ([good] code data padding). *)
Context (good : Z -> list Z -> list Z -> Prop).

Definition options_ok (o : option (list Z * Z)) : Prop :=
  match o with Some (options, len) => fits len /\ len <= zlen options | None => True end.

Class well_behaved : Prop := {
  codes_known code : 0 <= code -> has supported_codes (Z.shiftl 1 code) = true -> 1 <= code <= 11;
  layer_returns e (p : P) : options_ok (new_local (driver_layer e p));
  rca_returns (p : P) identifier data pad : good CONFIGURE_ACK data pad ->
    exists r, driver_rca p (cp_packet CONFIGURE_ACK identifier data ++ pad) = Ret r /\ options_ok (new_local r);
  rcn_nak_returns (p : P) identifier data pad : good CONFIGURE_NAK data pad ->
    exists r, driver_rcn_nak p (cp_packet CONFIGURE_NAK identifier data ++ pad) = Ret r /\ options_ok (new_local r);
  rcn_rej_returns (p : P) identifier data pad : good CONFIGURE_REJECT data pad ->
    exists r, driver_rcn_rej p (cp_packet CONFIGURE_REJECT identifier data ++ pad) = Ret r /\ options_ok (new_local r);
  rcr_returns (p : P) identifier data pad : good CONFIGURE_REQUEST data pad ->
    exists result options r, driver_rcr p (cp_packet CONFIGURE_REQUEST identifier data ++ pad) = Ret (result, options, r)
      /\ options_ok options /\ options_ok (new_local r)
}.
Context `{!well_behaved}.

(** The options an automaton holds are where it says. *)
Definition buffers_ok d : Prop := local_ok d /\ peer_ok d.

Definition total a : Prop := forall d, buffers_ok d -> exists d' o, a d = Ret (d', o) /\ buffers_ok d'.

Lemma total_skip : total skip.
Proof. intros d Hd. by eexists _, _. Qed.

Lemma total_seq a b : total a -> total b -> total (seq a b).
Proof.
intros Ha Hb d Hd. destruct (Ha d Hd) as (d1 & o1 & H1 & Hd1). destruct (Hb d1 Hd1) as (d2 & o2 & H2 & Hd2).
exists d2, (o1 ++ o2). unfold seq. rewrite H1. simp_res. by rewrite H2.
Qed.

Lemma total_run_if (c : bool) a b : (c = true -> total a) -> total b -> total (run_if c a b).
Proof. destruct c; simpl; auto. Qed.

Lemma effects_total (r : driver_result P E) d :
  options_ok (new_local r) -> buffers_ok d -> exists d' o, driver_effects r d = Ret (d', o) /\ buffers_ok d'.
Proof.
intros Hr [Hl Hp]. unfold driver_effects. destruct (new_local r) as [[options len]|]; eexists _, _; (split; [done|]); [|done].
destruct Hr as [[? ?] ?]. split; [|done]. unfold local_ok. simpl.
assert (u16 len = len) as -> by (unfold u16, CP_HEADER_SZ in *; apply Z.mod_small; lia). by split.
Qed.

Lemma this_layer_total e : total (this_layer e).
Proof.
intros d Hd. destruct (effects_total (driver_layer e (priv d)) d (layer_returns e (priv d)) Hd) as (d1 & o & Heff & Hd1).
eexists d1, _. unfold this_layer. rewrite Heff. by simp_res.
Qed.

Lemma configure_request_total : total pppcp_send_configure_request.
Proof.
intros d [Hl Hp]. eexists _, _. split; [by apply send_configure_request_ok|].
unfold configure_sent. by destruct (is_first_request _).
Qed.

Lemma terminate_request_total : total pppcp_send_terminate_request.
Proof.
intros d [Hl Hp]. eexists _, _. split; [apply send_terminate_request_ok|].
unfold terminate_sent. by destruct (is_first_request _).
Qed.

Lemma transition_total new : total (pppcp_transition_state new).
Proof. intros d Hd. eexists _, _. split; [done|]. by destruct (_ || _). Qed.

Lemma configure_nak_total code identifier data pad :
  fits (zlen data) -> total (pppcp_send_configure_nak (cp_packet code identifier data ++ pad)).
Proof.
intros ? d [Hl Hp]. eexists _, _. split; [by apply send_configure_nak_ok|]. split; [done|]. by split.
Qed.

(** An action that answers needs its packet; an acknowledgement of termination
    needs one without data. *)
Lemma actions_total actions new code identifier data pad :
  fits (zlen data + CP_HEADER_SZ) -> (has actions STA = true -> data = []) ->
  total (pppcp_actions actions new (cp_packet code identifier data ++ pad)).
Proof.
intros Hfits Hsta. pose proof (zlen_nonneg data). assert (fits (zlen data)) by (unfold fits, CP_HEADER_SZ in *; lia).
unfold pppcp_actions. repeat apply total_seq; repeat apply total_run_if; intros; try apply total_skip.
- intros d Hd. eexists _, _. split; [done|]. by destruct ((_ =? _) || _).
- intros d Hd. by eexists _, _.
- apply configure_request_total.
- intros d [Hl Hp]. eexists _, _. split; [by apply send_configure_ack_ok|done].
- by apply configure_nak_total.
- apply terminate_request_total.
- rewrite Hsta by done. intros d Hd. eexists _, _. split; [apply send_terminate_ack_ok|done].
- intros d Hd. eexists _, _. split; [by apply send_code_reject_ok|done].
- intros d Hd. eexists _, _. split; [apply send_echo_reply_ok|done].
Qed.

(** The signals and the timers answer no packet. *)
Definition answers (actions : Z) : bool :=
  has actions SCA || has actions SCN || has actions STA || has actions SCJ || has actions SER.

Lemma quiet_total actions new : answers actions = false -> total (pppcp_actions actions new []).
Proof.
unfold answers. intros [[[[Hsca Hscn]%orb_false_iff Hsta]%orb_false_iff Hscj]%orb_false_iff Hser]%orb_false_iff.
unfold pppcp_actions. rewrite Hsca, Hscn, Hsta, Hscj, Hser.
repeat apply total_seq; repeat apply total_run_if; intros; try apply total_skip; try done.
- intros d Hd. eexists _, _. split; [done|]. by destruct ((_ =? _) || _).
- intros d Hd. by eexists _, _.
- apply configure_request_total.
- apply terminate_request_total.
Qed.

Lemma layer_actions_total actions : total (pppcp_layer_actions actions).
Proof. unfold pppcp_layer_actions. repeat apply total_run_if; intros; try apply this_layer_total. apply total_skip. Qed.

(** Where the table acknowledges a termination: the states and events in which a
    packet that carries data makes the code read past its own. *)
Definition acknowledges (s event : Z) : bool :=
  match rd cp_transitions event ≫= fun row => rd row s with
  | Ret actions => has actions STA
  | _ => false
  end.

Lemma event_total event code identifier data pad d :
  0 <= event <= RXR -> 0 <= state d <= OPENED ->
  fits (zlen data + CP_HEADER_SZ) -> (acknowledges (state d) event = true -> data = []) ->
  buffers_ok d ->
  exists d' o, pppcp_generate_event event (cp_packet code identifier data ++ pad) d = Ret (d', o) /\ buffers_ok d'.
Proof.
intros He Hs Hfits Hsta Hd. unfold pppcp_generate_event. unfold acknowledges in Hsta.
rewrite (proj2 (Z.ltb_ge RXR event)) by lia.
destruct (table_total event (state d) He Hs) as (row & actions & Hrow & Hact).
rewrite Hrow in *. simp_res. rewrite Hact in *. simp_res.
destruct (has actions INV); [by eexists _, _|].
apply total_seq; [by apply actions_total| |done].
apply total_seq; [apply transition_total | apply layer_actions_total].
Qed.

Lemma signal_rows :
  forallb (fun row => forallb (fun actions => negb (answers actions)) row) (take 6 cp_transitions) = true.
Proof. by vm_compute. Qed.

Lemma signal_total event d :
  0 <= event <= TO_MINUS -> 0 <= state d <= OPENED -> buffers_ok d ->
  exists d' o, pppcp_generate_event event [] d = Ret (d', o) /\ buffers_ok d'.
Proof.
intros He Hs Hd. unfold pppcp_generate_event.
rewrite (proj2 (Z.ltb_ge RXR event)) by (unfold TO_MINUS, RXR in *; lia).
destruct (table_total event (state d)) as (row & actions & Hrow & Hact); [unfold TO_MINUS, RXR in *; lia|done|].
rewrite Hrow. simp_res. rewrite Hact. simp_res. destruct (has actions INV); [by eexists _, _|].
apply total_seq; [|apply total_seq; [apply transition_total | apply layer_actions_total]|done].
apply quiet_total. pose proof signal_rows as Hall. rewrite forallb_forall in Hall.
apply rd_lookup in Hrow; [|lia]. apply rd_lookup in Hact; [|lia].
assert (In row (take 6 cp_transitions)) as Hin.
{ apply list_elem_of_In, list_elem_of_lookup. exists (Z.to_nat event). rewrite lookup_take_lt; [done|].
  unfold TO_MINUS in He. lia. }
apply Hall in Hin. rewrite forallb_forall in Hin. apply negb_true_iff, Hin, list_elem_of_In, list_elem_of_lookup. by eexists.
Qed.

(** The events a packet of each code can be; an unsupported code is RUC. *)
Definition code_events (code : Z) : list Z :=
  if code =? CONFIGURE_REQUEST then [RCR_PLUS; RCR_MINUS]
  else if code =? CONFIGURE_ACK then [RCA]
  else if (code =? CONFIGURE_NAK) || (code =? CONFIGURE_REJECT) then [RCN]
  else if code =? TERMINATE_REQUEST then [RTR]
  else if code =? TERMINATE_ACK then [RTA]
  else if (code =? CODE_REJECT) || (code =? PROTOCOL_REJECT) then [RXJ_MINUS]
  else if code =? ECHO_REQUEST then [RXR] else [].

(** A packet as a peer that keeps to the protocol sends it: of its length, with
    a code below 32, of options the driver understands, and without data where
    it is answered by a Terminate-Ack. *)
Definition orderly_packet (s : Z) (packet : list Z) : Prop :=
  exists code identifier data pad,
    packet = cp_packet code identifier data ++ pad /\ 0 <= code < 32
    /\ fits (zlen data + CP_HEADER_SZ) /\ good code data pad
    /\ (existsb (acknowledges s) (code_events code) = true -> data = []).

Definition orderly (s : Z) (i : input) : Prop :=
  match i with
  | Packet packet => orderly_packet s packet
  | Reject packet => fits (zlen packet - 2)
  | SetLocal options => fits (zlen options)
  | _ => True
  end.

(** What a function of [packet_ops] gives. *)
Definition op_total (code : Z) (op : @packet_op P E) : Prop := forall identifier data pad d,
  fits (zlen data) -> good code data pad -> buffers_ok d ->
  exists event d' o, op (cp_packet code identifier data ++ pad) d = Ret (event, d', o)
    /\ buffers_ok d' /\ state d' = state d /\ (event = 0 \/ event ∈ code_events code).

Lemma simple_op_total code event :
  event = 0 \/ event ∈ code_events code -> op_total code (fun _ d => Ret (event, d, [])).
Proof. intros ? identifier data pad d _ _ Hd. by eexists _, _, _. Qed.

Lemma effects_keep_state (r : driver_result P E) d d' o : driver_effects r d = Ret (d', o) -> state d' = state d.
Proof. unfold driver_effects. by destruct (new_local r) as [[? ?]|]; intros [= <- _]. Qed.

Lemma configure_request_op_total : op_total CONFIGURE_REQUEST pppcp_process_configure_request.
Proof.
intros identifier data pad d Hfits Hgood Hd. unfold pppcp_process_configure_request.
destruct (max_failure d <=? failure_counter d).
{ eexists _, _, _. split_and!; [done|done|done|right; set_solver]. }
destruct (rcr_returns (priv d) identifier data pad Hgood) as (result & options & r & Hr & Hoptions & Hlocal).
rewrite Hr. simp_res. destruct (effects_total r d Hlocal Hd) as (d1 & o1 & Heff & Hd1).
rewrite Heff. simp_res. apply effects_keep_state in Heff as Hs. destruct Hd as [? [[? ?] ?]].
assert (exists new_options new_len, default (peer_options d1, peer_options_len d1) options = (new_options, new_len)
  /\ fits (u16 new_len) /\ u16 new_len <= zlen new_options) as (new_options & new_len & Hdef & Hfit & Hlen).
{ assert (forall n, fits n -> u16 n = n) as Hu16 by (intros n [? ?]; unfold u16, CP_HEADER_SZ in *; apply Z.mod_small; lia).
  destruct Hd1 as [_ [Hpf Hpl]]. destruct options as [[options len]|]; simpl; eexists _, _; (split; [done|]);
    [destruct Hoptions as [Hof Hol]; by rewrite Hu16 | by rewrite Hu16]. }
rewrite Hdef. destruct Hd1 as [Hl1 Hp1].
destruct result; eexists _, _, _; (split_and!; [done| |done|right; set_solver]); by split.
Qed.

Lemma configure_ack_op_total : op_total CONFIGURE_ACK pppcp_process_configure_ack.
Proof.
intros identifier data pad d Hfits Hgood Hd. unfold pppcp_process_configure_ack.
rewrite packet_length_ok, bind_Ret, packet_identifier, bind_Ret. cbv zeta. rewrite Z.add_simpl_r.
destruct (negb (identifier =? _)); [by eexists _, _, _; split_and!; auto|].
destruct (negb _) eqn:Hlen; [by eexists _, _, _; split_and!; auto|].
apply negb_false_iff, Z.eqb_eq in Hlen. pose proof (zlen_nonneg data) as Hnonneg.
destruct (Hd) as [[_ Hloc] _]. rewrite slice_prefix by lia. rewrite bind_Ret, packet_data_ok, bind_Ret by done.
destruct (bool_decide _); [by eexists _, _, _; split_and!; auto|].
destruct (rca_returns (priv d) identifier data pad Hgood) as (r & Hr & Hlocal).
rewrite Hr. simp_res. destruct (effects_total r d Hlocal Hd) as (d1 & o1 & Heff & Hd1).
rewrite Heff. simp_res. apply effects_keep_state in Heff as Hs.
eexists _, _, _. split_and!; [done|done|done|right; set_solver].
Qed.

Lemma refusal_op_total code (f : P -> list Z -> res (driver_result P E)) :
  RCN ∈ code_events code ->
  (forall (p : P) identifier data pad, good code data pad ->
    exists r, f p (cp_packet code identifier data ++ pad) = Ret r /\ options_ok (new_local r)) ->
  op_total code (process_configure_refusal f).
Proof.
intros Hcode Hf identifier data pad d Hfits Hgood Hd. unfold process_configure_refusal.
rewrite packet_identifier, bind_Ret. destruct (negb _); [by eexists _, _, _; split_and!; auto|].
destruct (Hf (priv d) identifier data pad Hgood) as (r & Hr & Hlocal).
rewrite Hr. simp_res. destruct (effects_total r d Hlocal Hd) as (d1 & o1 & Heff & Hd1).
rewrite Heff. simp_res. apply effects_keep_state in Heff as Hs. eexists _, _, _. split_and!; auto.
Qed.

Lemma packet_ops_total n op : packet_ops !! n = Some op -> op_total (Z.of_nat n + 1) op.
Proof.
destruct n as [|[|[|[|[|[|[|[|[|[|[|n]]]]]]]]]]]; intros [= <-].
- apply configure_request_op_total.
- apply configure_ack_op_total.
- apply refusal_op_total; [set_solver | apply rcn_nak_returns].
- apply refusal_op_total; [set_solver | apply rcn_rej_returns].
- apply simple_op_total. right. set_solver.
- apply simple_op_total. right. set_solver.
- apply simple_op_total. right. set_solver.
- apply simple_op_total. right. set_solver.
- apply simple_op_total. right. set_solver.
- apply simple_op_total. by left.
- apply simple_op_total. by left.
Qed.

Lemma code_event_range code event : event ∈ code_events code -> 0 <= event <= RXR.
Proof.
intros Hin. assert (Forall (fun event => 0 <= event <= RXR) (code_events code)) as Hall.
{ unfold code_events. repeat destruct (_ =? _); simpl; by repeat (apply Forall_cons_2 || apply Forall_nil). }
rewrite Forall_forall in Hall. by apply Hall.
Qed.

Lemma unsupported_not_acknowledged s : 0 <= s <= OPENED -> acknowledges s RUC = false.
Proof.
intros ?. apply negb_true_iff, (range_forall (fun s => negb (acknowledges s RUC)) 0 10); [by vm_compute|].
unfold OPENED in *. lia.
Qed.

Lemma packet_total code identifier data pad d :
  0 <= code < 32 -> fits (zlen data + CP_HEADER_SZ) -> good code data pad -> 0 <= state d <= OPENED -> buffers_ok d ->
  (existsb (acknowledges (state d)) (code_events code) = true -> data = []) ->
  exists d' o, pppcp_process_packet (cp_packet code identifier data ++ pad) d = Ret (d', o) /\ buffers_ok d'.
Proof.
intros Hcode Hfits Hgood Hs Hd Hack. pose proof (zlen_nonneg data). pose proof (zlen_nonneg pad).
assert (fits (zlen data)) by (unfold fits, CP_HEADER_SZ in *; lia).
unfold pppcp_process_packet. rewrite (proj2 (Z.ltb_ge _ CP_HEADER_SZ)) by (rewrite zlen_app, zlen_cp_packet; lia).
change (rd (cp_packet code identifier data ++ pad) 0) with (@Ret Z code). rewrite bind_Ret.
rewrite (proj2 (Z.leb_gt 32 code)) by lia.
assert (forall event d1, state d1 = state d -> buffers_ok d1 -> event = RUC \/ event ∈ code_events code ->
  exists d' o, pppcp_generate_event event (cp_packet code identifier data ++ pad) d1 = Ret (d', o) /\ buffers_ok d') as Hgen.
{ intros event d1 Hs1 Hd1 Hevent. apply event_total; [|by rewrite Hs1|done| |done].
  - destruct Hevent as [->|Hevent]; [done | by apply code_event_range in Hevent].
  - rewrite Hs1. intros Ha. destruct Hevent as [->|Hevent].
    { by rewrite unsupported_not_acknowledged in Ha. }
    apply Hack, existsb_exists. exists event. by split; [apply list_elem_of_In|]. }
destruct (negb (has supported_codes (Z.shiftl 1 code))) eqn:Hsupp.
{ simp_res. destruct (Hgen RUC d) as (d2 & o2 & Hgen2 & Hd2); [done|done|by left|].
  change (RUC =? 0) with false. cbv iota. rewrite Hgen2. simp_res. by eexists _, _. }
apply negb_false_iff in Hsupp. apply codes_known in Hsupp as Hknown; [|lia].
destruct (rd_in_bounds packet_ops (code - 1)) as [op Hop]; [by vm_compute zlen; lia|]. rewrite Hop. simp_res.
apply rd_lookup, packet_ops_total in Hop as Hop'; [|lia].
rewrite Z2Nat.id, Z.sub_add in Hop' by lia.
destruct (Hop' identifier data pad d) as (event & d1 & o1 & Hop1 & Hd1 & Hs1 & Hevent); [done..|].
rewrite Hop1. simp_res. destruct (event =? 0) eqn:Hzero; [by eexists _, _|]. apply Z.eqb_neq in Hzero.
destruct (Hgen event d1) as (d2 & o2 & Hgen2 & Hd2); [done|done|by destruct Hevent; [|right]|].
rewrite Hgen2. simp_res. by eexists _, _.
Qed.

Lemma reject_total packet d :
  fits (zlen packet - 2) -> exists o, pppcp_send_protocol_reject packet d = Ret (d, o).
Proof.
intros Hfits. unfold pppcp_send_protocol_reject. destruct (negb _); [by eexists|]. cbv zeta.
assert (u32 (zlen packet - 2) = zlen packet - 2) as ->
  by (destruct Hfits; unfold u32, CP_HEADER_SZ in *; apply Z.mod_small; lia).
rewrite packet_new_ok by done. rewrite bind_Ret, set_packet_identifier, bind_Ret.
destruct packet as [|x [|y packet]]; [by destruct Hfits..|].
assert (slice (x :: y :: packet) 2 (zlen (x :: y :: packet) - 2) = Ret packet) as ->.
{ rewrite <- (app_nil_r packet) at 1. change (x :: y :: packet ++ []) with ([x; y] ++ packet ++ []).
  apply slice_app; [done|]. rewrite !zlen_cons. lia. }
rewrite bind_Ret, fill_packet, bind_Ret, packet_length_ok', bind_Ret; [by rewrite transmit_packet; eexists|].
rewrite zlen_replicate, !zlen_cons. pose proof (zlen_nonneg packet). lia.
Qed.

End Progress.

(** * Retransmission *)

Section Silence.
Context {P E : Type} {driver : pppcp_proto P E}.
Implicit Types d : pppcp_data P.

(** An event the table takes, its entry computed. *)
Lemma event_entry event s actions packet d :
  0 <= event <= RXR -> state d = s -> (rd cp_transitions event ≫= fun row => rd row s) = Ret actions ->
  has actions INV = false ->
  pppcp_generate_event event packet d
  = seq (pppcp_actions actions (Z.land actions 0xf) packet)
      (seq (pppcp_transition_state (Z.land actions 0xf)) (pppcp_layer_actions actions)) d.
Proof.
intros He Hs Hact Hinv. unfold pppcp_generate_event. rewrite (proj2 (Z.ltb_ge RXR event)) by lia. rewrite Hs.
destruct (rd cp_transitions event) as [row| |]; simp_res; try done. rewrite Hact. simp_res. by rewrite Hinv.
Qed.

(** The automaton [d] after the transition to [s]. *)
Definition entered (s : Z) d : pppcp_data P :=
  match @pppcp_transition_state P unit s d with Ret (d, _) => d | _ => d end.

Lemma transition_entered s d : @pppcp_transition_state P E s d = Ret (entered s d, []).
Proof. done. Qed.

(** The request a state retries and where it gives up. *)
Definition retried (s : Z) : timer_id := if s <=? STOPPING then TerminateTimer else ConfigTimer.

Definition given_up (s : Z) : Z := if s =? CLOSING then CLOSED else STOPPED.

Definition still (s : Z) : Z := if s =? ACKRCVD then REQSENT else s.

Definition request_sent (t : timer_id) d : pppcp_data P :=
  match t with ConfigTimer => configure_sent d | TerminateTimer => terminate_sent d end.

Definition request (t : timer_id) d : list Z :=
  match t with
  | ConfigTimer => cp_packet CONFIGURE_REQUEST (config_identifier (configure_sent d)) (local_data d)
  | TerminateTimer => cp_packet TERMINATE_REQUEST (terminate_identifier (terminate_sent d)) []
  end.

End Silence.

(** Runs an event whose table entry is known. *)
Ltac run_entry Hs :=
  lazymatch goal with
  | |- context [pppcp_generate_event ?event ?packet ?d] =>
      lazymatch type of Hs with
      | _ = ?s =>
          let v := eval vm_compute in (rd cp_transitions event ≫= fun row => rd row s) in
          lazymatch v with Ret ?actions => rewrite (event_entry event s actions packet d) by done end
      end
  end;
  unfold pppcp_actions, pppcp_layer_actions;
  repeat match goal with
  | |- context [has ?a ?b] => let v := eval vm_compute in (has a b) in change (has a b) with v
  | |- context [Z.land ?a 0xf] => let v := eval vm_compute in (Z.land a 0xf) in change (Z.land a 0xf) with v
  end;
  unfold seq, run_if, skip, pppcp_initialize_restart_count, pppcp_zero_restart_count;
  rewrite ?transition_entered; rewrite ?bind_Ret.

Section Silence2.
Context {P E : Type} {driver : pppcp_proto P E}.
Implicit Types d : pppcp_data P.

Lemma timer_expires d :
  waiting (state d) -> local_ok d ->
  pppcp_generate_event TO_PLUS [] d
  = Ret (entered (still (state d)) (request_sent (retried (state d)) d), [Transmit proto (request (retried (state d)) d)]).
Proof.
intros Hw Hl. unfold waiting, CLOSING, ACKSENT in Hw.
assert (state d = 4 \/ state d = 5 \/ state d = 6 \/ state d = 7 \/ state d = 8) as Hs by lia.
destruct Hs as [Hs|[Hs|[Hs|[Hs|Hs]]]].
all: run_entry Hs; rewrite ?send_configure_request_ok, ?send_terminate_request_ok by done; rewrite ?bind_Ret, Hs;
  by rewrite transition_entered, !bind_Ret.
Qed.

Lemma this_layer_calls e d :
  exists d', this_layer e d = Ret (d', Layer e :: map Call (calls (driver_layer e (priv d))))
    /\ state d' = state d /\ timers d' = timers d.
Proof.
unfold this_layer, driver_effects. destruct (new_local (driver_layer e (priv d))) as [[options len]|]; by eexists.
Qed.

Lemma timer_gives_up d :
  waiting (state d) ->
  exists d' l, pppcp_generate_event TO_MINUS [] d = Ret (d', Layer LayerFinished :: map Call l)
    /\ state d' = given_up (state d) /\ timers d' = [].
Proof.
intros Hw. unfold waiting, CLOSING, ACKSENT in Hw.
assert (forall s, s = CLOSED \/ s = STOPPED -> exists d' l,
  this_layer LayerFinished (entered s d) = Ret (d', Layer LayerFinished :: map Call l) /\ state d' = s /\ timers d' = []) as Hf.
{ intros s Hs. destruct (this_layer_calls LayerFinished (entered s d)) as (d' & Hl & Hst & Htm).
  eexists d', _. rewrite Hl, Hst, Htm. destruct Hs as [-> | ->]; (split_and!; [done|done|apply stop_both]). }
assert (state d = 4 \/ state d = 5 \/ state d = 6 \/ state d = 7 \/ state d = 8) as Hs by lia.
destruct (Hf CLOSED) as (d2 & l2 & H2 & ? & ?); [by left|]. destruct (Hf STOPPED) as (d3 & l3 & H3 & ? & ?); [by right|].
destruct Hs as [Hs|[Hs|[Hs|[Hs|Hs]]]]; run_entry Hs;
  rewrite transition_entered, !bind_Ret; change 3 with STOPPED; change 2 with CLOSED; rewrite ?H2, ?H3, Hs; by eexists _, _.
Qed.

Lemma entered_waiting s d :
  waiting s -> state (entered s d) = s /\ timers (entered s d) = timers d
  /\ config_timer_data (entered s d) = config_timer_data d /\ terminate_timer_data (entered s d) = terminate_timer_data d
  /\ (forall k, request k (entered s d) = request k d) /\ local_ok (entered s d) = local_ok d.
Proof.
unfold waiting, CLOSING, ACKSENT. intros Hw. assert (s = 4 \/ s = 5 \/ s = 6 \/ s = 7 \/ s = 8) as Hs by lia.
destruct Hs as [-> |[-> |[-> |[-> | ->]]]]; (split_and!; try done); intros k;
  unfold request, configure_sent, terminate_sent; cbv [entered pppcp_transition_state];
  destruct k; simpl; by destruct (is_first_request _).
Qed.

(** The timer [t] that fires is no longer pending. *)
Definition popped (t : timer_id) d : pppcp_data P :=
  set_timers d (config_timer_data d) (terminate_timer_data d) (filter (fun t' => t' <> t) (timers d)).

Lemma request_popped t k d : request k (popped t d) = request k d.
Proof. unfold request, configure_sent, terminate_sent. destruct k; simpl; by destruct (is_first_request _). Qed.

Lemma request_sent_spec k d :
  timers (request_sent k d) = filter (fun t' => t' <> k) (timers d) ++ [k]
  /\ restart_counter (timer_data (request_sent k d) k) = u32 (restart_counter (timer_data d k) - 1)
  /\ max_counter (timer_data (request_sent k d) k) = max_counter (timer_data d k)
  /\ local_ok (request_sent k d) = local_ok d
  /\ (restart_counter (timer_data (request_sent k d) k) <> max_counter (timer_data d k) ->
      request k (request_sent k d) = request k d).
Proof.
unfold request_sent, request, configure_sent, terminate_sent, is_first_request.
destruct k; simpl; (destruct (_ =? _) eqn:Hfirst; simpl; split_and!; try done; intros Hne;
  rewrite (proj2 (Z.eqb_neq _ _) Hne); done).
Qed.

(** One timeout of a state that waits, with the counter of the timer that fires
    above zero: the request of the state is sent once more. *)
Lemma timeout_retries d t rest :
  waiting (state d) -> local_ok d -> timers d = t :: rest -> 0 < restart_counter (timer_data d t) ->
  let k := retried (state d) in
  exists d1, pppcp_step Timeout d = Ret (d1, [Transmit proto (request k d)])
    /\ state d1 = still (state d) /\ local_ok d1
    /\ timers d1 = filter (fun t' => t' <> k) (filter (fun t' => t' <> t) (t :: rest)) ++ [k]
    /\ restart_counter (timer_data d1 k) = u32 (restart_counter (timer_data d k) - 1)
    /\ max_counter (timer_data d1 k) = max_counter (timer_data d k)
    /\ (restart_counter (timer_data d1 k) <> max_counter (timer_data d k) -> request k d1 = request k d).
Proof.
intros Hw Hl Htm Hc k. simpl. rewrite Htm. unfold pppcp_timeout. fold (popped t d). cbv zeta.
assert ((0 <? restart_counter (timer_data (popped t d) t)) = true) as -> by (destruct t; apply Z.ltb_lt, Hc).
rewrite timer_expires by done. change (state (popped t d)) with (state d). fold k. rewrite request_popped.
assert (waiting (still (state d))) as Hw'.
{ unfold still, waiting, CLOSING, ACKSENT, ACKRCVD, REQSENT in *. destruct (state d =? 7); lia. }
destruct (entered_waiting (still (state d)) (request_sent k (popped t d)) Hw') as (E1 & E2 & E3 & E4 & E5 & E6).
destruct (request_sent_spec k (popped t d)) as (S1 & S2 & S3 & S4 & S5).
assert (forall k', timer_data (entered (still (state d)) (request_sent k (popped t d))) k'
  = timer_data (request_sent k (popped t d)) k') as Etd by (by intros []).
eexists. split; [done|]. rewrite E1, E2, E5, E6, Etd, S1, S4. change (timers (popped t d)) with (filter (fun t' => t' <> t) (timers d)).
rewrite Htm. split_and!; try done. intros Hne. by rewrite S5, request_popped.
Qed.

Lemma timeout_ends d t rest :
  waiting (state d) -> timers d = t :: rest -> restart_counter (timer_data d t) <= 0 ->
  exists d1 l, pppcp_step Timeout d = Ret (d1, Layer LayerFinished :: map Call l)
    /\ state d1 = given_up (state d) /\ timers d1 = [].
Proof.
intros Hw Htm Hc. simpl. rewrite Htm. unfold pppcp_timeout. fold (popped t d). cbv zeta.
assert ((0 <? restart_counter (timer_data (popped t d) t)) = false) as -> by (destruct t; apply Z.ltb_ge, Hc).
by apply (timer_gives_up (popped t d)).
Qed.

Lemma still_facts s : retried (still s) = retried s /\ given_up (still s) = given_up s /\ (waiting s -> waiting (still s)).
Proof.
unfold still, retried, given_up, waiting, ACKRCVD, REQSENT, STOPPING, CLOSING, ACKSENT.
destruct (s =? 7) eqn:Hs; [apply Z.eqb_eq in Hs as ->; split_and!; try done; lia | done].
Qed.

(** C12: retransmission to a silent peer.  A negotiation or a termination whose
    restart timer has [n] retries left sends exactly [n] more requests, all with
    one identifier, then gives the layer up: it ends STOPPED, or CLOSED if it was
    closing, with no timer pending. *)
Theorem pppcp_gives_up n : forall d,
  waiting (state d) -> local_ok d -> timers d = [retried (state d)] ->
  restart_counter (timer_data d (retried (state d))) = Z.of_nat n ->
  Z.of_nat n <= max_counter (timer_data d (retried (state d))) < 2 ^ 32 ->
  exists d' l,
    pppcp_run (replicate (S n) Timeout) d
    = Ret (d', replicate n (Transmit proto (request (retried (state d)) d)) ++ Layer LayerFinished :: map Call l)
    /\ state d' = given_up (state d) /\ timers d' = [].
Proof.
induction n as [|n IH]; intros d Hw Hl Htm Hc Hmax.
- destruct (timeout_ends d _ [] Hw Htm) as (d1 & l & Hstep & Hs & Htm1); [lia|].
  exists d1, l. split; [|done]. change (replicate 1 Timeout) with [Timeout]. unfold pppcp_run, seq.
  rewrite Hstep, bind_Ret. unfold skip. rewrite bind_Ret. by rewrite app_nil_r.
- destruct (timeout_retries d _ [] Hw Hl Htm) as (d1 & Hstep & Hs & Hl1 & Htm1 & Hc1 & Hm1 & Hreq); [lia|].
  destruct (still_facts (state d)) as (Hk & Hg & Hw1). rewrite <- Hs in Hk, Hg, Hw1.
  unfold u32 in Hc1. rewrite Z.mod_small in Hc1 by lia.
  destruct (IH d1) as (d' & l & Hrun & Hs' & Htm'); [by apply Hw1|done| |rewrite Hk; lia|rewrite Hk; lia|].
  { rewrite Hk, Htm1. by destruct (retried (state d)). }
  exists d', l. rewrite Hs', Hg. split; [|done]. change (replicate (S (S n)) Timeout) with (Timeout :: replicate (S n) Timeout).
  simpl pppcp_run in *. unfold seq at 1. rewrite Hstep, bind_Ret, Hrun, bind_Ret, Hk, Hreq by lia. done.
Qed.

(** How often a state that waits can still time out: the counter of its request,
    and a whole range of counts when a timer of the other kind is pending, whose
    expiry with the request's counter at zero wraps it. *)
Definition foreign (k : timer_id) (l : list timer_id) : bool := existsb (fun t => bool_decide (t <> k)) l.

Definition patience d : Z :=
  restart_counter (timer_data d (retried (state d))) + (if foreign (retried (state d)) (timers d) then 2 ^ 32 else 0).

Lemma nodup_timers (l : list timer_id) :
  NoDup l -> l = [] \/ (exists t, l = [t]) \/ l = [ConfigTimer; TerminateTimer] \/ l = [TerminateTimer; ConfigTimer].
Proof.
destruct l as [|a [|b l]]; [by left | by right; left; eexists|].
intros [[Hab Ha]%not_elem_of_cons [Hb _]%NoDup_cons]%NoDup_cons. right. right.
destruct l as [|c l]; [destruct a, b; auto; done|].
apply not_elem_of_cons in Ha as [Hac _]. apply not_elem_of_cons in Hb as [Hbc _]. by destruct a, b, c.
Qed.

Lemma patience_decreases d d1 t rest :
  typed d -> timers d = t :: rest -> 0 < restart_counter (timer_data d t) ->
  state d1 = still (state d) ->
  timers d1 = filter (fun t' => t' <> retried (state d)) (filter (fun t' => t' <> t) (t :: rest)) ++ [retried (state d)] ->
  restart_counter (timer_data d1 (retried (state d))) = u32 (restart_counter (timer_data d (retried (state d))) - 1) ->
  0 <= patience d1 < patience d.
Proof.
intros Ht Htm Hc Hs1 Htm1 Hc1. unfold patience. rewrite Hs1.
destruct (still_facts (state d)) as (-> & _ & _). rewrite Hc1, Htm1, Htm.
pose proof (u32_bounds (restart_counter (timer_data d (retried (state d))) - 1)) as Hu.
assert (forall k, 0 <= restart_counter (timer_data d k) < 2 ^ 32) as Hb by (intros k; destruct Ht, k; done).
pose proof (Hb (retried (state d))) as Hk. pose proof (typed_timers _ Ht) as Hnd. rewrite Htm in Hnd.
assert (retried (state d) = t -> u32 (restart_counter (timer_data d (retried (state d))) - 1)
  = restart_counter (timer_data d (retried (state d))) - 1) as Hdec.
{ intros Heq. rewrite <- Heq in Hc. unfold u32. rewrite Z.mod_small; lia. }
destruct (nodup_timers _ Hnd) as [[=]|[[? [= <- ->]]|[[= -> ->]|[= -> ->]]]];
  [destruct t|..]; destruct (retried (state d)); simpl in *; try (specialize (Hdec eq_refl)); lia.
Qed.

(** C40: no negotiation waits for ever.  From every well formed state, if no more
    packets come, the restart timers stop: after a bounded number of timeouts no
    timer is pending and the state waits for nobody. *)
Theorem pppcp_quiesces d :
  well_formed d -> local_ok d ->
  exists n d' o, Z.of_nat n <= 2 ^ 33 /\ pppcp_run (replicate n Timeout) d = Ret (d', o)
    /\ timers d' = [] /\ ~ waiting (state d').
Proof.
intros Hwf Hl.
assert (forall m d, Z.to_nat (patience d) = m -> well_formed d -> local_ok d -> 
  exists n d' o, (n <= S m)%nat /\ pppcp_run (replicate n Timeout) d = Ret (d', o)
    /\ timers d' = [] /\ ~ waiting (state d')) as Hall.
{ clear. intros m. induction (lt_wf m) as [m _ IH]. intros d <- Hwf Hl. destruct (Hwf) as [Ht Hp].
  destruct (timers d) as [|t rest] eqn:Htm.
  { exists 0%nat, d, []. split_and!; [lia|done|done|]. by intros []%Hp. }
  assert (waiting (state d)) as Hw by (by apply Hp).
  destruct (Z.lt_ge_cases 0 (restart_counter (timer_data d t))) as [Hc|Hc].
  - destruct (timeout_retries d t rest Hw Hl Htm Hc) as (d1 & Hstep & Hs1 & Hl1 & Htm1 & Hc1 & _ & _).
    pose proof (patience_decreases d d1 t rest Ht Htm Hc Hs1 Htm1 Hc1).
    apply step_inv in Hstep as Hwf1; [|done]. destruct Hwf1 as [Hwf1 _].
    destruct (IH (Z.to_nat (patience d1))) with (d := d1) as (n & d' & o & Hn & Hrun & ?); [lia|done..|].
    eexists (S n), d', _. split; [lia|]. split; [|done].
    change (replicate (S n) Timeout) with (Timeout :: replicate n Timeout). simpl pppcp_run. unfold seq at 1.
    by rewrite Hstep, bind_Ret, Hrun.
  - destruct (timeout_ends d t rest Hw Htm Hc) as (d1 & l & Hstep & Hs1 & Htm1).
    eexists 1%nat, d1, _. split; [lia|]. change (replicate 1 Timeout) with [Timeout]. unfold pppcp_run, seq, skip.
    rewrite Hstep, !bind_Ret. split; [done|]. split; [done|]. rewrite Hs1. unfold given_up, waiting. by case_match; intros [? ?]. }
destruct (Hall _ d eq_refl Hwf Hl) as (n & d' & o & Hn & Hrest). exists n, d', o. split; [|done].
assert (patience d < 2 ^ 33); [|lia]. unfold patience.
destruct Hwf as [[] _]. destruct (retried (state d)), (foreign _ _); simpl timer_data; lia.
Qed.
End Silence2.

(** * A negotiation between two automata *)

Section Negotiation.
Context {P E : Type} {driver : pppcp_proto P E}.
Implicit Types d : pppcp_data P.

(** The driver, holding [p], accepts the options [data] and leaves [r]; its own
    [options], once acknowledged, leave [r']. *)
Definition accepts (p : P) (data : list Z) (r : driver_result P E) : Prop :=
  new_local r = None /\ forall identifier, driver_rcr p (cp_packet CONFIGURE_REQUEST identifier data) = Ret (RCR_ACCEPT, None, r).

Definition applies (p : P) (data : list Z) (r : driver_result P E) : Prop :=
  new_local r = None /\ forall identifier, driver_rca p (cp_packet CONFIGURE_ACK identifier data) = Ret r.

(** It knows the codes of the negotiation. *)
Definition negotiating : Prop :=
  has supported_codes (Z.shiftl 1 CONFIGURE_REQUEST) = true /\ has supported_codes (Z.shiftl 1 CONFIGURE_ACK) = true.

Lemma effects_no_options (r : driver_result P E) d :
  new_local r = None -> driver_effects r d = Ret (pppcp_set_data d (new_priv r), map Call (calls r)).
Proof. unfold driver_effects. by intros ->. Qed.

Lemma supported_packet code identifier data op d :
  0 < code < 32 -> has supported_codes (Z.shiftl 1 code) = true -> rd packet_ops (code - 1) = Ret op ->
  pppcp_process_packet (cp_packet code identifier data) d
  = ('(event_type, d, o1) ← op (cp_packet code identifier data) d;
     if event_type =? 0 then Ret (d, o1)
     else '(d, o2) ← pppcp_generate_event event_type (cp_packet code identifier data) d; Ret (d, o1 ++ o2)).
Proof.
intros Hcode Hsupp Hop. unfold pppcp_process_packet. pose proof (zlen_nonneg data).
rewrite (proj2 (Z.ltb_ge _ CP_HEADER_SZ)) by (rewrite zlen_cp_packet; lia).
change (rd (cp_packet code identifier data) 0) with (@Ret Z code). rewrite bind_Ret.
rewrite (proj2 (Z.leb_gt 32 code)) by lia. rewrite Hsupp. simpl negb. cbv iota. by rewrite Hop, bind_Ret.
Qed.

(** An automaton with its request on the way: one that opened has sent it, a
    dormant one sends it with its first answer. *)
Definition asking d : pppcp_data P :=
  if state d =? REQSENT then d
  else configure_sent (set_restart_counter d ConfigTimer (max_counter (config_timer_data d))).

Definition own_request d : list Z := cp_packet CONFIGURE_REQUEST (config_identifier (asking d)) (local_data d).

Definition opening d : list (output E) := if state d =? REQSENT then [] else [Transmit proto (own_request d)].

Definition ready d : Prop := (state d = REQSENT \/ state d = STOPPED) /\ local_ok d /\ failure_counter d < max_failure d.

Lemma request_accepted d identifier data r :
  negotiating -> ready d -> fits (zlen data) -> accepts (priv d) data r ->
  exists d1, pppcp_process_packet (cp_packet CONFIGURE_REQUEST identifier data) d
    = Ret (d1, map Call (calls r) ++ opening d ++ [Transmit proto (cp_packet CONFIGURE_ACK identifier data)])
    /\ state d1 = ACKSENT /\ priv d1 = new_priv r /\ local_ok d1 /\ local_data d1 = local_data d
    /\ config_identifier d1 = config_identifier (asking d).
Proof.
intros [Hcr _] (Hs & Hl & Hf) Hfits [Hnone Hrcr].
rewrite (supported_packet _ _ _ pppcp_process_configure_request) by done.
unfold pppcp_process_configure_request. rewrite (proj2 (Z.leb_gt _ _)) by lia. rewrite Hrcr, bind_Ret.
rewrite effects_no_options, bind_Ret by done. cbv iota beta zeta. simpl default.
cbv iota beta. rewrite bind_Ret. change (RCR_PLUS =? 0) with false. cbv iota beta.
set (d0 := set_peer _ _ _ _ _).
assert (state d0 = state d) as Hs0 by done.
assert (local_ok d0) as Hl0 by done.
destruct Hs as [Hs|Hs]; rewrite Hs in Hs0; run_entry Hs0; unfold opening, own_request, asking; rewrite Hs.
- rewrite <- (app_nil_r (cp_packet CONFIGURE_REQUEST identifier data)), send_configure_ack_ok by done.
  rewrite !bind_Ret, transition_entered, !bind_Ret. by eexists.
- rewrite send_configure_request_ok by done. rewrite bind_Ret.
  rewrite <- (app_nil_r (cp_packet CONFIGURE_REQUEST identifier data)), send_configure_ack_ok by done.
  rewrite !bind_Ret, transition_entered, !bind_Ret. eexists. split.
  + f_equal. f_equal. f_equal. simpl. unfold configure_sent. by destruct (is_first_request _).
  + split_and!; try done; unfold configure_sent; simpl; by destruct (is_first_request _).
Qed.

Lemma ack_applied d data r :
  negotiating -> state d = ACKSENT -> local_ok d -> local_data d = data -> applies (priv d) data r ->
  exists d1, pppcp_process_packet (cp_packet CONFIGURE_ACK (config_identifier d) data) d
    = Ret (d1, map Call (calls r) ++ Layer LayerUp :: map Call (calls (driver_layer LayerUp (new_priv r))))
    /\ state d1 = OPENED /\ timers d1 = [].
Proof.
intros [_ Hca] Hs Hl <- [Hnone Hrca]. pose proof (zlen_local_data d Hl) as Hlen.
rewrite (supported_packet _ _ _ pppcp_process_configure_ack) by done.
unfold pppcp_process_configure_ack. rewrite packet_length_ok', bind_Ret.
rewrite <- (app_nil_r (cp_packet _ _ _)), packet_identifier, bind_Ret, app_nil_r. cbv zeta. rewrite Z.add_simpl_r.
rewrite Z.eqb_refl, Hlen, Z.eqb_refl. simpl negb. cbv iota.
destruct (Hl) as [[? ?] ?]. rewrite slice_prefix by lia. rewrite bind_Ret. fold (local_data d).
rewrite <- (app_nil_r (cp_packet _ _ _)), packet_data_ok, bind_Ret, app_nil_r by done.
rewrite bool_decide_false by (intros Hne; by apply Hne). rewrite Hrca, bind_Ret, effects_no_options, !bind_Ret by done.
change (RCA =? 0) with false. cbv iota beta.
assert (state (pppcp_set_data d (new_priv r)) = ACKSENT) as Hs0 by done. run_entry Hs0.
rewrite transition_entered, bind_Ret.
match goal with |- context [this_layer LayerUp ?x] =>
  destruct (this_layer_calls LayerUp x) as (d1 & Hlayer & Hs1 & Htm1) end.
rewrite Hlayer, !bind_Ret. exists d1. split; [done|]. rewrite Hs1, Htm1. split; [done|apply stop_both].
Qed.

(** What a step leaves of an automaton that is still waiting for an answer to
    its request. *)
Definition same_request d d' : Prop :=
  local_options d' = local_options d /\ local_options_len d' = local_options_len d
  /\ config_identifier d' = config_identifier d /\ max_failure d' = max_failure d.

Lemma same_request_local d d' : same_request d d' -> local_ok d -> local_ok d' /\ local_data d' = local_data d.
Proof. intros (H1 & H2 & _) Hl. unfold local_ok, local_data. by rewrite H1, H2. Qed.

(** A request is acknowledged before the own one is: in ACKRCVD the layer goes up. *)
Lemma request_accepted_last d identifier data r :
  negotiating -> state d = ACKRCVD -> failure_counter d < max_failure d -> fits (zlen data) -> accepts (priv d) data r ->
  exists d1, pppcp_process_packet (cp_packet CONFIGURE_REQUEST identifier data) d
    = Ret (d1, map Call (calls r) ++ Transmit proto (cp_packet CONFIGURE_ACK identifier data)
                 :: Layer LayerUp :: map Call (calls (driver_layer LayerUp (new_priv r))))
    /\ state d1 = OPENED /\ timers d1 = []
    /\ (new_local (driver_layer LayerUp (new_priv r)) = None -> priv d1 = new_priv (driver_layer LayerUp (new_priv r))).
Proof.
intros [Hcr _] Hs Hf Hfits [Hnone Hrcr].
rewrite (supported_packet _ _ _ pppcp_process_configure_request) by done.
unfold pppcp_process_configure_request. rewrite (proj2 (Z.leb_gt _ _)) by lia. rewrite Hrcr, bind_Ret.
rewrite effects_no_options, bind_Ret by done. cbv iota beta zeta. simpl default.
cbv iota beta. rewrite bind_Ret. change (RCR_PLUS =? 0) with false. cbv iota beta.
set (d0 := set_peer _ _ _ _ _).
assert (state d0 = ACKRCVD) as Hs0 by done. run_entry Hs0.
rewrite <- (app_nil_r (cp_packet CONFIGURE_REQUEST identifier data)), send_configure_ack_ok by done.
rewrite !bind_Ret, transition_entered, bind_Ret.
match goal with |- context [this_layer LayerUp ?x] =>
  destruct (this_layer_calls LayerUp x) as (d1 & Hlayer & Hs1 & Htm1); set (d0' := x) in * end.
rewrite Hlayer, !bind_Ret. exists d1. rewrite app_nil_r. split; [done|]. rewrite Hs1, Htm1. split; [done|].
split; [apply stop_both|]. intros Hup. unfold this_layer, driver_effects in Hlayer.
change (priv d0') with (new_priv r) in Hlayer. rewrite Hup in Hlayer. injection Hlayer as <-. done.
Qed.

(** The own request is acknowledged first. *)
Lemma ack_applied_first d data r :
  negotiating -> state d = REQSENT -> local_ok d -> local_data d = data -> applies (priv d) data r ->
  exists d1, pppcp_process_packet (cp_packet CONFIGURE_ACK (config_identifier d) data) d = Ret (d1, map Call (calls r))
    /\ state d1 = ACKRCVD /\ priv d1 = new_priv r /\ failure_counter d1 = failure_counter d /\ same_request d d1.
Proof.
intros [_ Hca] Hs Hl <- [Hnone Hrca]. pose proof (zlen_local_data d Hl) as Hlen.
rewrite (supported_packet _ _ _ pppcp_process_configure_ack) by done.
unfold pppcp_process_configure_ack. rewrite packet_length_ok', bind_Ret.
rewrite <- (app_nil_r (cp_packet _ _ _)), packet_identifier, bind_Ret, app_nil_r. cbv zeta. rewrite Z.add_simpl_r.
rewrite Z.eqb_refl, Hlen, Z.eqb_refl. simpl negb. cbv iota.
destruct (Hl) as [[? ?] ?]. rewrite slice_prefix by lia. rewrite bind_Ret. fold (local_data d).
rewrite <- (app_nil_r (cp_packet _ _ _)), packet_data_ok, bind_Ret, app_nil_r by done.
rewrite bool_decide_false by (intros Hne; by apply Hne). rewrite Hrca, bind_Ret, effects_no_options, !bind_Ret by done.
change (RCA =? 0) with false. cbv iota beta.
assert (state (pppcp_set_data d (new_priv r)) = REQSENT) as Hs0 by done. run_entry Hs0.
rewrite transition_entered, !bind_Ret. eexists. split; [by rewrite app_nil_r|]. by split_and!.
Qed.

(** The driver refuses the options: they go back in a Configure-Nak or a
    Configure-Reject, and the automaton goes on waiting. *)
Lemma request_refused d identifier data result buffer options r :
  negotiating -> (state d = REQSENT \/ state d = ACKRCVD) -> failure_counter d < max_failure d ->
  result <> RCR_ACCEPT -> fits (zlen data) -> fits (zlen options) -> zlen options <= zlen buffer -> take (length options) buffer = options ->
  new_local r = None ->
  driver_rcr (priv d) (cp_packet CONFIGURE_REQUEST identifier data) = Ret (result, Some (buffer, zlen options), r) ->
  exists d1, pppcp_process_packet (cp_packet CONFIGURE_REQUEST identifier data) d
    = Ret (d1, map Call (calls r)
                 ++ [Transmit proto (cp_packet (match result with RCR_REJECT => CONFIGURE_REJECT | _ => CONFIGURE_NAK end) identifier options)])
    /\ state d1 = state d /\ priv d1 = new_priv r /\ same_request d d1
    /\ failure_counter d1 = (match result with RCR_REJECT => failure_counter d | _ => u32 (failure_counter d + 1) end).
Proof.
intros [Hcr _] Hs Hf Hres Hdata Hfits Hcap Htake Hnone Hrcr.
rewrite (supported_packet _ _ _ pppcp_process_configure_request) by done.
unfold pppcp_process_configure_request. rewrite (proj2 (Z.leb_gt _ _)) by lia. rewrite Hrcr, bind_Ret.
rewrite effects_no_options, bind_Ret by done. cbv iota beta zeta. simpl default.
assert (u16 (zlen options) = zlen options) as Hlen by (unfold fits, u16, CP_HEADER_SZ in *; apply Z.mod_small; lia).
cbv iota beta. rewrite Hlen.
destruct result; [done|..]; rewrite bind_Ret; change (RCR_MINUS =? 0) with false; cbv iota beta;
  match goal with |- context [pppcp_generate_event _ _ ?x] => set (d0 := x) end;
  assert (peer_ok d0) as [? ?] by done;
  assert (refusal identifier data d0 = cp_packet (if send_reject d0 then CONFIGURE_REJECT else CONFIGURE_NAK) identifier options) as Href
    by (unfold refusal; simpl; rewrite (proj2 (Z.leb_gt _ _)) by lia; by rewrite to_nat_zlen, Htake);
  assert (state d0 = state d) as Hs0 by done;
  destruct Hs as [Hs|Hs]; rewrite Hs in Hs0; run_entry Hs0;
  rewrite <- (app_nil_r (cp_packet CONFIGURE_REQUEST identifier data)), send_configure_nak_ok by done;
  rewrite !bind_Ret, transition_entered, !bind_Ret, Href; eexists; (split; [done|]);
  rewrite Hs; unfold refused; simpl; by rewrite (proj2 (Z.leb_gt _ _)) by lia.
Qed.

(** A Configure-Nak or Configure-Reject of the own request after the peer's was
    acknowledged: the driver changes its options and asks again. *)
Lemma refusal_applied d code rcn data r buffer options :
  0 < code < 32 -> rd packet_ops (code - 1) = Ret (process_configure_refusal rcn) -> has supported_codes (Z.shiftl 1 code) = true ->
  state d = ACKSENT -> rcn (priv d) (cp_packet code (config_identifier d) data) = Ret r ->
  new_local r = Some (buffer, zlen options) -> fits (zlen options) -> zlen options <= zlen buffer ->
  take (length options) buffer = options ->
  exists d1, pppcp_process_packet (cp_packet code (config_identifier d) data) d
    = Ret (d1, map Call (calls r) ++ [Transmit proto (cp_packet CONFIGURE_REQUEST (config_identifier d1) options)])
    /\ state d1 = ACKSENT /\ priv d1 = new_priv r /\ local_ok d1 /\ local_data d1 = options
    /\ failure_counter d1 = failure_counter d /\ max_failure d1 = max_failure d.
Proof.
intros Hcode Hop Hsupp Hs Hrcn Hlocal Hfits Hcap Htake.
assert (u16 (zlen options) = zlen options) as Hlen by (unfold fits, u16, CP_HEADER_SZ in *; apply Z.mod_small; lia).
rewrite (supported_packet _ _ _ _ d Hcode Hsupp Hop).
unfold process_configure_refusal. change (rd (cp_packet code ?i data) 1) with (@Ret Z i).
rewrite bind_Ret, Z.eqb_refl. simpl negb. cbv iota.
rewrite Hrcn, bind_Ret. unfold driver_effects. rewrite Hlocal, !bind_Ret.
change (RCN =? 0) with false. cbv iota beta.
set (d0 := pppcp_set_local_options _ _ _).
assert (state d0 = ACKSENT) as Hs0 by done. run_entry Hs0.
assert (local_ok d0) as Hl0 by (unfold local_ok; simpl; by rewrite Hlen).
assert (local_data d0 = options) as Hd0 by (unfold local_data; simpl; by rewrite Hlen, to_nat_zlen).
rewrite send_configure_request_ok by done. rewrite !bind_Ret, transition_entered, !bind_Ret.
eexists. split.
- f_equal. f_equal. simpl. f_equal. f_equal.
  match goal with |- Transmit _ (cp_packet _ _ (local_data ?x)) = _ => change (local_data x) with (local_data d0) end. by rewrite Hd0.
- unfold configure_sent; simpl; split_and!; try done; unfold local_ok, local_data; destruct (is_first_request _); simpl; by rewrite ?Hlen, ?to_nat_zlen.
Qed.

(** Once an automaton has sent [max_failure] Configure-Naks, it refuses every
    request for good: it only starts to count again with a Configure-Ack. *)
Lemma refused_for_good d identifier data :
  negotiating -> (state d = REQSENT \/ state d = ACKRCVD) -> max_failure d <= failure_counter d -> fits (zlen data) -> peer_ok d ->
  exists d1, pppcp_process_packet (cp_packet CONFIGURE_REQUEST identifier data) d
    = Ret (d1, [Transmit proto (cp_packet CONFIGURE_REJECT identifier data)])
    /\ state d1 = state d /\ priv d1 = priv d /\ failure_counter d1 = failure_counter d /\ same_request d d1 /\ peer_ok d1.
Proof.
intros [Hcr _] Hs Hf Hfits [? ?].
rewrite (supported_packet _ _ _ pppcp_process_configure_request) by done.
unfold pppcp_process_configure_request. rewrite (proj2 (Z.leb_le _ _)) by lia. rewrite bind_Ret.
change (RCR_MINUS =? 0) with false. cbv iota beta.
assert (refusal identifier data d = cp_packet CONFIGURE_REJECT identifier data) as Href
  by (unfold refusal; by rewrite (proj2 (Z.leb_le _ _)) by lia).
destruct Hs as [Hs|Hs]; run_entry Hs;
  (rewrite <- (app_nil_r (cp_packet CONFIGURE_REQUEST identifier data)), send_configure_nak_ok by done;
   rewrite !bind_Ret, transition_entered, !bind_Ret, Href; eexists; split; [done|];
   rewrite Hs; unfold refused; simpl; by rewrite (proj2 (Z.leb_le _ _)) by lia).
Qed.
End Negotiation.

(** ** The two ends of a link *)

(** Two automata with the packets on their way to each, and what each has done. *)
Record link (P1 E1 P2 E2 : Type) := Link {
  left_end : pppcp_data P1; right_end : pppcp_data P2;
  to_right : list (list Z); to_left : list (list Z);
  left_log : list (output E1); right_log : list (output E2)
}.
Arguments Link {P1 E1 P2 E2}.
Arguments left_end {P1 E1 P2 E2}.
Arguments right_end {P1 E1 P2 E2}.
Arguments to_right {P1 E1 P2 E2}.
Arguments to_left {P1 E1 P2 E2}.
Arguments left_log {P1 E1 P2 E2}.
Arguments right_log {P1 E1 P2 E2}.

Definition sent {E} (o : list (output E)) : list (list Z) :=
  omap (fun x => match x with Transmit _ info => Some info | _ => None end) o.

Lemma sent_calls {E} (l : list E) (o : list (output E)) : sent (map Call l ++ o) = sent o.
Proof. by induction l. Qed.

Section LinkRun.
Context {P1 E1 P2 E2 : Type} {driver1 : pppcp_proto P1 E1} {driver2 : pppcp_proto P2 E2}.

(** The oldest packet to an end reaches it. *)
Inductive delivers : link P1 E1 P2 E2 -> link P1 E1 P2 E2 -> Prop :=
  | DeliverRight l r p to_r to_l llog rlog r' o :
      pppcp_process_packet p r = Ret (r', o) ->
      delivers (Link l r (p :: to_r) to_l llog rlog) (Link l r' to_r (to_l ++ sent o) llog (rlog ++ o))
  | DeliverLeft l r p to_r to_l llog rlog l' o :
      pppcp_process_packet p l = Ret (l', o) ->
      delivers (Link l r to_r (p :: to_l) llog rlog) (Link l' r (to_r ++ sent o) to_l (llog ++ o) rlog).

(** Deliveries to the two ends do not interfere: whatever the order, a run ends
    in the same place after the same number of deliveries. *)
Lemma delivers_diamond n n1 n2 :
  delivers n n1 -> delivers n n2 -> n1 = n2 \/ exists n', delivers n1 n' /\ delivers n2 n'.
Proof.
intros H1 H2. inversion H1; subst; inversion H2; subst; try (left; congruence).
all: right; eexists; split; [by constructor | by constructor].
Qed.

Definition settled (n : link P1 E1 P2 E2) : Prop := ~ exists n', delivers n n'.

Lemma delivers_strip k : forall n n1 m,
  nsteps delivers k n m -> settled m -> delivers n n1 -> exists k', k = S k' /\ nsteps delivers k' n1 m.
Proof.
induction k as [|k IH]; intros n n1 m Hrun Hm H1.
- inversion Hrun; subst. exfalso. apply Hm. by eexists.
- inversion Hrun as [|? ? n2 ? H2 Hrun2]; subst. exists k. split; [done|].
  destruct (delivers_diamond n n1 n2 H1 H2) as [->|(n' & H1' & H2')]; [done|].
  destruct (IH n2 n' m Hrun2 Hm H2') as (k' & -> & Hrun'). by eapply nsteps_l.
Qed.

Lemma delivers_unique j k : forall n n' m,
  nsteps delivers j n n' -> nsteps delivers k n m -> settled m -> (j <= k)%nat /\ (settled n' -> n' = m).
Proof.
revert k. induction j as [|j IH]; intros k n n' m Hj Hk Hm.
- inversion Hj; subst. split; [lia|]. intros Hn. inversion Hk; subst; [done|]. exfalso. apply Hn. by eexists.
- inversion Hj as [|? ? n1 ? H1 Hj1]; subst. destruct (delivers_strip k n n1 m Hk Hm H1) as (k' & -> & Hk').
  destruct (IH k' n1 n' m Hj1 Hk' Hm). split; [lia|done].
Qed.

Lemma settled_empty l r llog rlog : settled (Link l r [] [] llog rlog).
Proof. intros [n Hn]. inversion Hn. Qed.

(** A negotiation converges.  Take an end that has opened and sent its
    Configure-Request, and an end that has as well or that lies dormant (a
    server), whose drivers accept each other's options.  In whatever order the
    packets are delivered, there are at most four deliveries, none of them makes
    the code fail, and when nothing is left on the way both ends are OPENED with
    no timer pending; each has had the peer's options accepted and its own
    acknowledged, and has taken its layer up exactly once. *)
Theorem pppcp_converges (l : pppcp_data P1) (r : pppcp_data P2) accept_l accept_r apply_l apply_r k n :
  @negotiating P1 E1 driver1 -> @negotiating P2 E2 driver2 ->
  ready l -> state l = REQSENT -> ready r ->
  accepts (priv l) (local_data r) accept_l -> accepts (priv r) (local_data l) accept_r ->
  applies (new_priv accept_l) (local_data l) apply_l -> applies (new_priv accept_r) (local_data r) apply_r ->
  nsteps delivers k (Link l r [own_request l] (if state r =? REQSENT then [own_request r] else []) [] []) n ->
  (k <= 4)%nat
  /\ (~ (exists n', delivers n n') ->
      state (left_end n) = OPENED /\ state (right_end n) = OPENED
      /\ timers (left_end n) = [] /\ timers (right_end n) = []
      /\ to_left n = [] /\ to_right n = []
      /\ left_log n
         = map Call (calls accept_l)
           ++ [Transmit (@proto P1 E1 driver1) (cp_packet CONFIGURE_ACK (config_identifier (asking r)) (local_data r))]
           ++ map Call (calls apply_l) ++ Layer LayerUp :: map Call (calls (driver_layer LayerUp (new_priv apply_l)))
      /\ right_log n
         = map Call (calls accept_r) ++ opening r
           ++ [Transmit (@proto P2 E2 driver2) (cp_packet CONFIGURE_ACK (config_identifier l) (local_data l))]
           ++ map Call (calls apply_r) ++ Layer LayerUp :: map Call (calls (driver_layer LayerUp (new_priv apply_r)))).
Proof.
intros Hn1 Hn2 Hl Hls Hr Hal Har Hpl Hpr Hrun.
assert (fits (zlen (local_data l))) by (destruct Hl as (_ & Hlok & _); rewrite zlen_local_data by done; apply Hlok).
assert (fits (zlen (local_data r))) by (destruct Hr as (_ & Hrok & _); rewrite zlen_local_data by done; apply Hrok).
assert (asking l = l) as Hask by (unfold asking; by rewrite Hls).
destruct (request_accepted l (config_identifier (asking r)) (local_data r) accept_l) as (l1 & Hl1 & Sl1 & Pl1 & Ll1 & Dl1 & Il1); [done..|].
destruct (request_accepted r (config_identifier l) (local_data l) accept_r) as (r1 & Hr1 & Sr1 & Pr1 & Lr1 & Dr1 & Ir1); [done..|].
rewrite <- Pl1 in Hpl. rewrite <- Pr1 in Hpr.
destruct (ack_applied l1 (local_data l) apply_l Hn1 Sl1 Ll1 Dl1 Hpl) as (l2 & Hl2 & Sl2 & Tl2).
destruct (ack_applied r1 (local_data r) apply_r Hn2 Sr1 Lr1 Dr1 Hpr) as (r2 & Hr2 & Sr2 & Tr2).
rewrite Il1, Hask in Hl2. rewrite Ir1 in Hr2.
assert (opening l = []) as Hol by (unfold opening; by rewrite Hls). rewrite Hol in Hl1.
assert (own_request l = cp_packet CONFIGURE_REQUEST (config_identifier l) (local_data l)) as Hown by (unfold own_request; by rewrite Hask).
assert (forall {E} (c c' : list E), sent (map Call c ++ Layer LayerUp :: map Call c') = []) as Hquiet.
{ intros E c c'. rewrite sent_calls. simpl. rewrite <- (app_nil_r (map Call c')). apply sent_calls. }
assert (exists or1 or2 ol1 ol2, nsteps delivers 4
    (Link l r [own_request l] (if state r =? REQSENT then [own_request r] else []) [] []) (Link l2 r2 [] [] (ol1 ++ ol2) (or1 ++ or2))
    /\ ol1 ++ ol2 = map Call (calls accept_l)
           ++ [Transmit (@proto P1 E1 driver1) (cp_packet CONFIGURE_ACK (config_identifier (asking r)) (local_data r))]
           ++ map Call (calls apply_l) ++ Layer LayerUp :: map Call (calls (driver_layer LayerUp (new_priv apply_l)))
    /\ or1 ++ or2 = map Call (calls accept_r) ++ opening r
           ++ [Transmit (@proto P2 E2 driver2) (cp_packet CONFIGURE_ACK (config_identifier l) (local_data l))]
           ++ map Call (calls apply_r) ++ Layer LayerUp :: map Call (calls (driver_layer LayerUp (new_priv apply_r))))
  as (or1 & or2 & ol1 & ol2 & Hfour & Hol1 & Hor1).
{ do 4 eexists. split.
  - eapply nsteps_l; [rewrite Hown; by apply DeliverRight|].
    assert (forall x, (if state r =? REQSENT then [own_request r] else []) ++ sent (map Call (calls accept_r) ++ opening r ++ x)
      = own_request r :: sent x) as ->
      by (intros x; rewrite sent_calls; unfold opening; by destruct (state r =? REQSENT)).
    eapply nsteps_l; [by apply DeliverLeft|]. eapply nsteps_l; [by apply DeliverLeft|].
    rewrite Hquiet, !sent_calls. simpl app.
    eapply nsteps_l; [by apply DeliverRight|]. rewrite Hquiet. apply nsteps_O.
  - rewrite <- !app_assoc. done. }
destruct (delivers_unique k 4 _ n _ Hrun Hfour (settled_empty _ _ _ _)) as [Hk Hend].
split; [done|]. intros Hnone. rewrite (Hend Hnone). simpl. by split_and!.
Qed.
End LinkRun.

(** * Witnesses *)

(** The driver whose functions are all NULL and that knows every code. *)
#[export] Instance plain_proto : pppcp_proto unit Empty_set := {
  proto := 0xc021;
  supported_codes := 0xffe;
  driver_layer _ _ := Build_driver_result tt None [];
  driver_rca _ _ := Ret (Build_driver_result tt None []);
  driver_rcn_nak _ _ := Ret (Build_driver_result tt None []);
  driver_rcn_rej _ _ := Ret (Build_driver_result tt None []);
  driver_rcr _ _ := Ret (RCR_ACCEPT, None, Build_driver_result tt None [])
}.

Lemma plain_well_behaved : well_behaved (driver := plain_proto) (fun _ _ _ => True).
Proof.
split; simpl; try done.
- intros code Hc Hs. rewrite has_bit in Hs by done. destruct (decide (code <= 11)) as [Hle|Hgt].
  + split; [|done]. destruct (decide (code = 0)) as [->|]; [done|lia].
  + exfalso. rewrite Z.bits_above_log2 in Hs; [done|done|]. change (Z.log2 4094) with 11. lia.
- intros _ ? ? ? _. by eexists.
- intros _ ? ? ? _. by eexists.
- intros _ ? ? ? _. by eexists.
- intros _ ? ? ? _. by eexists _, _, _.
Qed.

(** An automaton that has opened. *)
Definition opened_end : pppcp_data unit :=
  match pppcp_run [SetLocal [2; 6; 0; 0; 0; 0]; SignalOpen; SignalUp] (pppcp_new false 0 tt) with
  | Ret (d, _) => d | _ => pppcp_new false 0 tt end.

Lemma pppcp_invariant_witness :
  exists d o, pppcp_run [SetLocal [2; 6; 0; 0; 0; 0]; SignalOpen; SignalUp; Timeout; Packet (cp_packet 1 7 [3; 4; 0xc0; 0x23]);
                         Packet (cp_packet 2 1 [2; 6; 0; 0; 0; 0])] (pppcp_new false 0 tt) = Ret (d, o)
  /\ state d = OPENED /\ well_formed d /\ level o = 1.
Proof.
eexists _, _. split; [by vm_compute|]. split; [done|].
apply (pppcp_invariant false 0 tt [SetLocal [2; 6; 0; 0; 0; 0]; SignalOpen; SignalUp; Timeout;
  Packet (cp_packet 1 7 [3; 4; 0xc0; 0x23]); Packet (cp_packet 2 1 [2; 6; 0; 0; 0; 0])]); [done|by vm_compute].
Defined.

Lemma opened_end_well_formed : well_formed opened_end.
Proof.
apply (run_inv [SetLocal [2; 6; 0; 0; 0; 0]; SignalOpen; SignalUp] (pppcp_new false 0 tt) _
  [Layer LayerStarted; Transmit 0xc021 (cp_packet 1 1 [2; 6; 0; 0; 0; 0])]); [by apply new_well_formed|by vm_compute].
Qed.

Lemma opened_end_local : local_ok opened_end.
Proof. by vm_compute. Qed.


Lemma pppcp_gives_up_witness :
  exists d l, pppcp_run (replicate 10 Timeout) opened_end
    = Ret (d, replicate 9 (Transmit 0xc021 (cp_packet 1 1 [2; 6; 0; 0; 0; 0])) ++ Layer LayerFinished :: map Call l)
  /\ state d = STOPPED /\ timers d = [].
Proof.
destruct (pppcp_gives_up (driver := plain_proto) 9 opened_end) as (d & l & Hrun & Hs & Htm);
  [done|apply opened_end_local|done|done|done|].
exists d, l. split; [|by split]. rewrite Hrun. do 3 f_equal.
Defined.

Lemma pppcp_quiesces_witness :
  exists n d o, Z.of_nat n <= 2 ^ 33 /\ pppcp_run (replicate n Timeout) opened_end = Ret (d, o)
    /\ timers d = [] /\ ~ waiting (state d).
Proof. apply pppcp_quiesces; [apply opened_end_well_formed | apply opened_end_local]. Defined.

(** A Terminate-Request during the negotiation starts the terminate timer, whose
    counter is what an earlier termination left; if it fires when the last
    Configure-Request is out, the counter of requests wraps. *)
Lemma restart_counter_wraps :
  exists d o, pppcp_run ([SignalOpen; SignalUp; SignalClose; Packet (cp_packet 6 1 []); SignalOpen]
                         ++ replicate 8 Timeout ++ [Packet (cp_packet 5 1 []); Timeout; Timeout])
                (pppcp_new (P := unit) false 0 tt) = Ret (d, o)
    /\ restart_counter (config_timer_data d) = 2 ^ 32 - 1 /\ timers d = [ConfigTimer].
Proof. eexists _, _. split; [by vm_compute|]. done. Qed.

(** And with no earlier termination it ends the negotiation at once. *)
Lemma terminate_request_ends_negotiation :
  exists d o, pppcp_run [SignalOpen; SignalUp; Packet (cp_packet 5 1 []); Timeout; Timeout]
                (pppcp_new (P := unit) false 0 tt) = Ret (d, o) /\ state d = STOPPED.
Proof. eexists _, _. split; [by vm_compute|]. done. Qed.
