(* ===== verification/PppLcp.v ===== *)
(** The Link Control Protocol driver of src/gatchat/ppp_lcp.c on the automaton of
    PppCp, and what the link of src/gatchat/gatppp.c does for it: the character
    maps of the framing layer follow what two ends agree on. *)
From S2P Require Import Prelude RingBuffer Hdlc PppCp.

(** * The driver *)

Definition RESERVED : Z := 0.
Definition MRU : Z := 1.
Definition ACCM : Z := 2.
Definition AUTH_PROTO : Z := 3.
Definition QUAL_PROTO : Z := 4.
Definition MAGIC_NUMBER : Z := 5.
Definition DEPRECATED_QUAL_PROTO : Z := 6.
Definition PFC : Z := 7.
Definition ACFC : Z := 8.

Definition LCP_PROTOCOL : Z := 0xc021.
Definition PAP_PROTOCOL : Z := 0xc023.
Definition CHAP_PROTOCOL : Z := 0xc223.
Definition MD5 : Z := 5.

Definition LCP_SUPPORTED_CODES : Z :=
  fold_right Z.lor 0 (map (Z.shiftl 1)
    [CONFIGURE_REQUEST; CONFIGURE_ACK; CONFIGURE_NAK; CONFIGURE_REJECT; TERMINATE_REQUEST; TERMINATE_ACK;
     CODE_REJECT; PROTOCOL_REJECT; ECHO_REQUEST; ECHO_REPLY; DISCARD_REQUEST]).

Definition MAX_CONFIG_OPTION_SIZE : Z := 14.
Definition REQ_OPTION_ACCM : Z := 0x1.
Definition REQ_OPTION_MRU : Z := 0x2.
Definition REQ_OPTION_ACFC : Z := 0x4.
Definition REQ_OPTION_PFC : Z := 0x8.

Record lcp_data := { options : list Z; options_len : Z; req_options : Z; accm : Z; mru : Z }.

(** enum GAtPPPAuthMethod *)
Inductive GAtPPPAuthMethod := AUTH_METHOD_CHAP | AUTH_METHOD_PAP | AUTH_METHOD_NONE.

(** The functions of gatppp.c the driver calls. *)
Inductive ppp_call :=
  | ppp_lcp_up_notify | ppp_lcp_down_notify | ppp_lcp_finished_notify
  | ppp_set_recv_accm (accm : Z) | ppp_set_xmit_accm (accm : Z)
  | ppp_set_auth (proto method : Z) | ppp_set_mtu (mtu : Z)
  | ppp_set_xmit_pfc (pfc : bool) | ppp_set_xmit_acfc (acfc : bool).

Definition network_long (v : Z) : list Z := [u8 (v / 2 ^ 24); u8 (v / 2 ^ 16); u8 (v / 2 ^ 8); u8 v].
Definition network_short (v : Z) : list Z := [u8 (v / 2 ^ 8); u8 v].

Definition get_host_short (p : list Z) : res Z := a ← rd p 0; b ← rd p 1; Ret (a * 2 ^ 8 + b).
Definition get_host_long (p : list Z) : res Z :=
  a ← rd p 0; b ← rd p 1; c ← rd p 2; d ← rd p 3; Ret (a * 2 ^ 24 + b * 2 ^ 16 + c * 2 ^ 8 + d).

(** The options asked for, in the order they are written. *)
Definition lcp_options (req accm mru : Z) : list Z :=
  (if has req REQ_OPTION_ACCM then [ACCM; 6] ++ network_long accm else [])
  ++ (if has req REQ_OPTION_MRU then [MRU; 4] ++ network_short mru else [])
  ++ (if has req REQ_OPTION_ACFC then [ACFC; 2] else [])
  ++ (if has req REQ_OPTION_PFC then [PFC; 2] else []).

(** They are written over the start of the array, which holds them
    ([lcp_options_fit]). *)
Definition lcp_generate_config_options (lcp : lcp_data) : lcp_data :=
  let written := lcp_options (req_options lcp) (accm lcp) (mru lcp) in
  {| options := written ++ drop (length written) (options lcp); options_len := zlen written;
     req_options := req_options lcp; accm := accm lcp; mru := mru lcp |}.

Lemma lcp_options_fit req accm mru : zlen (lcp_options req accm mru) <= MAX_CONFIG_OPTION_SIZE.
Proof.
unfold lcp_options. destruct (has req REQ_OPTION_ACCM), (has req REQ_OPTION_MRU), (has req REQ_OPTION_ACFC),
  (has req REQ_OPTION_PFC); by vm_compute.
Qed.

Definition set_requests (lcp : lcp_data) (req accm mru : Z) : lcp_data :=
  {| options := options lcp; options_len := options_len lcp; req_options := req; accm := accm; mru := mru |}.

Definition lcp_reset_config_options (lcp : lcp_data) : lcp_data :=
  lcp_generate_config_options (set_requests lcp (Z.lor (req_options lcp) REQ_OPTION_ACCM) 0 (mru lcp)).

(** The driver sets its options on the automaton. *)
Definition with_options (lcp : lcp_data) (l : list ppp_call) : driver_result lcp_data ppp_call :=
  Build_driver_result lcp (Some (options lcp, options_len lcp)) l.

Definition lcp_up (lcp : lcp_data) : driver_result lcp_data ppp_call := Build_driver_result lcp None [ppp_lcp_up_notify].

Definition lcp_down (lcp : lcp_data) : driver_result lcp_data ppp_call :=
  with_options (lcp_reset_config_options lcp) [ppp_lcp_down_notify].

Definition lcp_finished (lcp : lcp_data) : driver_result lcp_data ppp_call :=
  Build_driver_result lcp None [ppp_lcp_finished_notify].

(** [while (ppp_option_iter_next(&iter) == TRUE)]: [f] goes on with a state or
    leaves the function with a result.  Each option but one of length 0 moves
    the iterator on, so a fuel of one round per octet is that of a loop that
    ends; the loop of an option of length 0 does not. *)
Fixpoint each_option {S R} (f : ppp_option_iter -> S -> res (S + R)) (fuel : nat) (iter : ppp_option_iter) (s : S)
    : res (S + R) :=
  match fuel with
  | O => Ub
  | Datatypes.S fuel =>
    '(iter, more) ← ppp_option_iter_next iter;
    if (more : bool) then
      r ← f iter s;
      match r with
      | inl s => each_option f fuel iter s
      | inr result => Ret (inr result)
      end
    else Ret (inl s)
  end.

Definition for_options {S R} (f : ppp_option_iter -> S -> res (S + R)) (packet : list Z) (s : S) : res (S + R) :=
  iter ← ppp_option_iter_init packet;
  each_option f (Datatypes.S (Z.to_nat (iter_max iter))) iter s.

(** A step that cannot leave the loop. *)
Definition stay {S} (m : res S) : res (S + Empty_set) := s ← m; Ret (inl s).

(** The loops that run through all options. *)
Definition all_options {S} (f : ppp_option_iter -> S -> res S) (packet : list Z) (s : S) : res S :=
  r ← for_options (fun iter s => stay (f iter s)) packet s;
  match (r : S + Empty_set) with inl s => Ret s | inr none => match none with end end.

Definition lcp_rca (lcp : lcp_data) (packet : list Z) : res (driver_result lcp_data ppp_call) :=
  l ← all_options (fun iter l =>
    if ppp_option_iter_get_type iter =? ACCM then
      accm ← get_host_long (ppp_option_iter_get_data iter);
      Ret (l ++ [ppp_set_recv_accm accm])
    else Ret l) packet [];
  Ret (Build_driver_result lcp None l).

Definition lcp_rcn_nak (lcp : lcp_data) (packet : list Z) : res (driver_result lcp_data ppp_call) :=
  lcp ← all_options (fun iter lcp =>
    if ppp_option_iter_get_type iter =? MRU then
      mru ← get_host_short (ppp_option_iter_get_data iter);
      if mru <? 2048 then
        Ret (set_requests lcp (Z.lor (req_options lcp) REQ_OPTION_MRU) (accm lcp) mru)
      else Ret lcp
    else Ret lcp) packet lcp;
  Ret (with_options (lcp_generate_config_options lcp) []).

Definition lcp_rcn_rej (lcp : lcp_data) (packet : list Z) : res (driver_result lcp_data ppp_call) :=
  Ret (Build_driver_result lcp None []).

(** The first pass of [lcp_rcr]: a refusal, with the options to suggest. *)
Definition lcp_rcr_check (auth : GAtPPPAuthMethod) (iter : ppp_option_iter) (_ : unit)
    : res (unit + (rcr_result * option (list Z * Z))) :=
  let type := ppp_option_iter_get_type iter in
  if type =? AUTH_PROTO then
    let option_data := ppp_option_iter_get_data iter in
    proto ← get_host_short option_data;
    method ← rd option_data 2;
    match auth with
    | AUTH_METHOD_CHAP =>
      if (proto =? CHAP_PROTOCOL) && (method =? MD5) then Ret (inl tt)
      else Ret (inr (RCR_NAK, Some ([AUTH_PROTO; 5] ++ network_short CHAP_PROTOCOL ++ [MD5], 5)))
    | AUTH_METHOD_PAP =>
      if proto =? PAP_PROTOCOL then Ret (inl tt)
      else Ret (inr (RCR_NAK, Some ([AUTH_PROTO; 4] ++ network_short PAP_PROTOCOL, 4)))
    | AUTH_METHOD_NONE => Ret (inr (RCR_REJECT, None))
    end
  else if (type =? ACCM) || (type =? PFC) || (type =? ACFC) || (type =? MRU) then Ret (inl tt)
  else if type =? MAGIC_NUMBER then
    magic ← get_host_long (ppp_option_iter_get_data iter);
    if magic =? 0 then Ret (inr (RCR_REJECT, None)) else Ret (inl tt)
  else Ret (inr (RCR_REJECT, None)).

(** The second pass: the options are applied.  [ppp_set_auth] reads the method
    of CHAP alone. *)
Definition lcp_rcr_apply (lcp : lcp_data) (iter : ppp_option_iter) (l : list ppp_call) : res (list ppp_call) :=
  let type := ppp_option_iter_get_type iter in
  let data := ppp_option_iter_get_data iter in
  if type =? ACCM then accm ← get_host_long data; Ret (l ++ [ppp_set_xmit_accm accm])
  else if type =? AUTH_PROTO then
    proto ← get_host_short data;
    method ← (if proto =? CHAP_PROTOCOL then rd data 2 else Ret 0);
    Ret (l ++ [ppp_set_auth proto method])
  else if type =? MRU then mtu ← get_host_short data; Ret (l ++ [ppp_set_mtu mtu])
  else if type =? PFC then Ret (if has (req_options lcp) REQ_OPTION_PFC then l ++ [ppp_set_xmit_pfc true] else l)
  else if type =? ACFC then Ret (if has (req_options lcp) REQ_OPTION_ACFC then l ++ [ppp_set_xmit_acfc true] else l)
  else Ret l.

Definition lcp_rcr (auth : GAtPPPAuthMethod) (lcp : lcp_data) (packet : list Z)
    : res (rcr_result * option (list Z * Z) * driver_result lcp_data ppp_call) :=
  r ← for_options (lcp_rcr_check auth) packet tt;
  match r with
  | inr (result, new_options) => Ret (result, new_options, Build_driver_result lcp None [])
  | inl _ =>
    l ← all_options (lcp_rcr_apply lcp) packet [];
    Ret (RCR_ACCEPT, None, Build_driver_result lcp None l)
  end.

#[export] Instance lcp_proto (auth : GAtPPPAuthMethod) : pppcp_proto lcp_data ppp_call := {
  proto := LCP_PROTOCOL;
  supported_codes := LCP_SUPPORTED_CODES;
  driver_layer e lcp :=
    match e with
    | LayerUp => lcp_up lcp
    | LayerDown => lcp_down lcp
    | LayerFinished => lcp_finished lcp
    | LayerStarted => Build_driver_result lcp None []
    end;
  driver_rca := lcp_rca;
  driver_rcn_nak := lcp_rcn_nak;
  driver_rcn_rej := lcp_rcn_rej;
  driver_rcr := lcp_rcr auth
}.

(** The options of the driver become those of its automaton. *)
Definition lcp_set_options (d : pppcp_data lcp_data) (lcp : lcp_data) : pppcp_data lcp_data :=
  pppcp_set_local_options (pppcp_set_data d lcp) (options lcp) (options_len lcp).

Definition lcp_new (is_server : bool) : pppcp_data lcp_data :=
  let lcp := {| options := replicate (Z.to_nat MAX_CONFIG_OPTION_SIZE) 0; options_len := 0; req_options := 0; accm := 0; mru := 0 |} in
  lcp_set_options (pppcp_new is_server 0 lcp) (lcp_reset_config_options lcp).

Definition lcp_set_accm (d : pppcp_data lcp_data) (value : Z) : pppcp_data lcp_data :=
  let lcp := priv d in
  lcp_set_options d (lcp_generate_config_options
    (set_requests lcp (Z.lor (req_options lcp) REQ_OPTION_ACCM) value (mru lcp))).

Definition lcp_set_enabled (flag : Z) (d : pppcp_data lcp_data) (enabled : bool) : pppcp_data lcp_data :=
  let lcp := priv d in
  let req := if enabled then Z.lor (req_options lcp) flag else Z.land (req_options lcp) (Z.lnot flag) in
  if req =? req_options lcp then d
  else lcp_set_options d (lcp_generate_config_options (set_requests lcp req (accm lcp) (mru lcp))).

Definition lcp_set_acfc_enabled := lcp_set_enabled REQ_OPTION_ACFC.
Definition lcp_set_pfc_enabled := lcp_set_enabled REQ_OPTION_PFC.

(** * Lists of options *)

Definition encode_option (o : Z * list Z) : list Z := [o.1; zlen o.2 + 2] ++ o.2.
Definition encode_options (l : list (Z * list Z)) : list Z := concat (map encode_option l).

Definition option_ok (o : Z * list Z) : Prop := zlen o.2 + 2 < 256.

(** The loops of a driver see the type, the length and the octets from the data
    of an option on. *)
Definition option_iter (type len : Z) (data : list Z) : ppp_option_iter :=
  {| iter_max := 0; iter_pos := 0; iter_pdata := data; iter_type := type; iter_len := len; iter_option := 0 |}.

(** What a loop over a list of options computes. *)
Fixpoint fold_options {S R} (f : ppp_option_iter -> S -> res (S + R)) (l : list (Z * list Z)) (s : S) : res (S + R) :=
  match l with
  | [] => Ret (inl s)
  | (type, data) :: l =>
    r ← f (option_iter type (zlen data) (data ++ encode_options l)) s;
    match r with
    | inl s => fold_options f l s
    | inr result => Ret (inr result)
    end
  end.

Lemma zlen_encode_option o : zlen (encode_option o) = zlen o.2 + 2.
Proof. unfold encode_option. rewrite zlen_app. change (zlen [_; _]) with 2. lia. Qed.

Section Options.
Context {S R : Type} (f : ppp_option_iter -> S -> res (S + R)).
Hypothesis sees : forall iter s,
  f iter s = f (option_iter (ppp_option_iter_get_type iter) (ppp_option_iter_get_length iter) (ppp_option_iter_get_data iter)) s.

Lemma each_option_ok l : forall fuel iter before s,
  Forall option_ok l -> iter_pdata iter = before ++ encode_options l -> iter_pos iter = zlen before ->
  iter_max iter = zlen (iter_pdata iter) -> iter_max iter < 2 ^ 16 -> (length l < fuel)%nat ->
  each_option f fuel iter s = fold_options f l s.
Proof.
induction l as [|[type data] l IH]; intros [|fuel] iter before s Hl Hdata Hpos Hmax Hwidth Hfuel; simpl in Hfuel; try lia;
  pose proof (zlen_nonneg before); simpl each_option; unfold ppp_option_iter_next.
- rewrite Hmax, Hpos, Hdata. unfold encode_options. simpl concat. rewrite app_nil_r.
  rewrite (proj2 (Z.ltb_lt _ _)) by lia. done.
- apply Forall_cons in Hl as [Ho Hl]. unfold option_ok in Ho. simpl in Ho.
  assert (iter_pdata iter = before ++ type :: (zlen data + 2) :: data ++ encode_options l) as Hd.
  { rewrite Hdata. unfold encode_options. simpl. by rewrite <- ?app_assoc. }
  pose proof (zlen_nonneg data). pose proof (zlen_nonneg (encode_options l)).
  assert (iter_max iter = zlen before + 2 + zlen data + zlen (encode_options l)) as Hm.
  { rewrite Hmax, Hd, zlen_app, !zlen_cons, zlen_app. lia. }
  rewrite (proj2 (Z.ltb_ge _ _)) by lia.
  assert (rd (iter_pdata iter) (iter_pos iter + 1) = Ret (zlen data + 2)) as ->.
  { rewrite Hd, Hpos. change (before ++ type :: ?r) with (before ++ [type] ++ r). rewrite app_assoc.
    apply rd_middle. rewrite zlen_app. change (zlen [type]) with 1. lia. }
  rewrite bind_Ret, (proj2 (Z.ltb_ge _ _)) by lia.
  assert (rd (iter_pdata iter) (iter_pos iter) = Ret type) as -> by (rewrite Hd; by apply rd_middle).
  rewrite !bind_Ret. cbv beta iota. rewrite sees.
  assert (ppp_option_iter_get_data {| iter_max := iter_max iter; iter_pos := u16 (iter_pos iter + (zlen data + 2));
    iter_pdata := iter_pdata iter; iter_type := type; iter_len := u8 (zlen data + 2 - 2); iter_option := iter_pos iter + 2 |}
    = data ++ encode_options l) as ->.
  { unfold ppp_option_iter_get_data. simpl. rewrite Hd, Hpos.
    change (before ++ type :: ?n :: ?r) with (before ++ [type; n] ++ r). rewrite app_assoc.
    apply drop_zlen_app. rewrite zlen_app. change (zlen [_; _]) with 2. lia. }
  unfold ppp_option_iter_get_type, ppp_option_iter_get_length. simpl iter_type. simpl iter_len.
  replace (u8 (zlen data + 2 - 2)) with (zlen data) by (unfold u8; rewrite Z.add_simpl_r; symmetry; apply Z.mod_small; lia).
  simpl fold_options. destruct (f (option_iter type (zlen data) (data ++ encode_options l)) s) as [[s'|r]| |]; simp_res; try done.
  apply (IH fuel _ (before ++ encode_option (type, data))); simpl; try done; try lia.
  + rewrite Hdata. unfold encode_options. simpl. by rewrite <- app_assoc.
  + rewrite Hpos, zlen_app, zlen_encode_option. simpl. unfold u16. apply Z.mod_small. lia.
Qed.

Lemma for_options_ok l identifier code s :
  Forall option_ok l -> fits (zlen (encode_options l)) ->
  for_options f (cp_packet code identifier (encode_options l)) s = fold_options f l s.
Proof.
intros Hl [? ?]. unfold for_options, ppp_option_iter_init.
rewrite packet_length_ok', !bind_Ret. rewrite Z.add_simpl_r. unfold u16. rewrite Z.mod_small by (unfold CP_HEADER_SZ in *; lia).
apply (each_option_ok l _ _ []); try done; simpl; [unfold CP_HEADER_SZ in *; lia|].
assert (length l <= length (encode_options l))%nat.
{ clear. induction l as [|o l IH]; simpl; [lia|]. unfold encode_options in *. simpl. rewrite length_app. lia. }
unfold zlen in *. lia.
Qed.
End Options.

(** The same for a loop that cannot be left. *)
Fixpoint fold_all {S} (f : ppp_option_iter -> S -> res S) (l : list (Z * list Z)) (s : S) : res S :=
  match l with
  | [] => Ret s
  | (type, data) :: l => s ← f (option_iter type (zlen data) (data ++ encode_options l)) s; fold_all f l s
  end.

Lemma all_options_ok {S} (f : ppp_option_iter -> S -> res S) l identifier code s :
  (forall iter s,
     f iter s = f (option_iter (ppp_option_iter_get_type iter) (ppp_option_iter_get_length iter) (ppp_option_iter_get_data iter)) s) ->
  Forall option_ok l -> fits (zlen (encode_options l)) ->
  all_options f (cp_packet code identifier (encode_options l)) s = fold_all f l s.
Proof.
intros sees Hl Hfits. unfold all_options. rewrite for_options_ok; [|intros iter s'; by rewrite sees|done|done].
clear. revert s. induction l as [|[type data] l IH]; intros s; [done|]. simpl.
unfold stay at 1. destruct (f _ s) as [s'| |]; [|done|done]. rewrite !bind_Ret. apply IH.
Qed.

(** An option of length 0 keeps the loop where it is: no fuel is enough. *)
Lemma zero_length_option_loops {S R} (f : ppp_option_iter -> S -> res (S + R)) type fuel : forall iter s,
  (forall iter s, exists s', f iter s = Ret (inl s')) ->
  rd (iter_pdata iter) (iter_pos iter) = Ret type -> rd (iter_pdata iter) (iter_pos iter + 1) = Ret 0 ->
  0 <= iter_pos iter < iter_max iter -> iter_max iter < 2 ^ 16 ->
  each_option f fuel iter s = Ub.
Proof.
induction fuel as [|fuel IH]; intros iter s Hf Htype Hlen Hpos Hmax; [done|]. simpl each_option.
unfold ppp_option_iter_next. rewrite (proj2 (Z.ltb_ge _ _)) by lia. rewrite Hlen, bind_Ret, (proj2 (Z.ltb_ge _ _)) by lia.
rewrite Htype, !bind_Ret. cbv beta iota. edestruct Hf as [s' Hs']. rewrite Hs', bind_Ret. cbv beta iota.
assert (u16 (iter_pos iter + 0) = iter_pos iter) as Hu by (unfold u16; rewrite Z.mod_small; lia).
apply IH; simpl; rewrite ?Hu; done.
Qed.

(** * What two LCP ends agree on *)

Definition lcp_option_list (req accm mru : Z) : list (Z * list Z) :=
  (if has req REQ_OPTION_ACCM then [(ACCM, network_long accm)] else [])
  ++ (if has req REQ_OPTION_MRU then [(MRU, network_short mru)] else [])
  ++ (if has req REQ_OPTION_ACFC then [(ACFC, [])] else [])
  ++ (if has req REQ_OPTION_PFC then [(PFC, [])] else []).

Lemma lcp_options_encode req accm mru : lcp_options req accm mru = encode_options (lcp_option_list req accm mru).
Proof.
unfold lcp_options, lcp_option_list. by destruct (has req REQ_OPTION_ACCM), (has req REQ_OPTION_MRU), (has req REQ_OPTION_ACFC),
  (has req REQ_OPTION_PFC).
Qed.

Lemma lcp_option_list_ok req accm mru :
  Forall option_ok (lcp_option_list req accm mru) /\ fits (zlen (encode_options (lcp_option_list req accm mru))).
Proof.
unfold lcp_option_list. destruct (has req REQ_OPTION_ACCM), (has req REQ_OPTION_MRU), (has req REQ_OPTION_ACFC),
  (has req REQ_OPTION_PFC); (split; [by repeat (apply Forall_cons_2 || apply Forall_nil)|by vm_compute]).
Qed.

Lemma host_long v rest : 0 <= v < 2 ^ 32 -> get_host_long (network_long v ++ rest) = Ret v.
Proof.
intros Hv. unfold get_host_long, network_long, rd. simpl app. cbv iota beta delta [Z.ltb Z.compare Z.to_nat lookup list_lookup Pos.to_nat Pos.iter_op Nat.add]. simp_res. f_equal. unfold u8.
replace (v / 2 ^ 24) with (v / 2 ^ 8 / 2 ^ 8 / 2 ^ 8) by (rewrite !Z.div_div by lia; done).
replace (v / 2 ^ 16) with (v / 2 ^ 8 / 2 ^ 8) by (rewrite !Z.div_div by lia; done).
change (2 ^ 8) with 256. change (2 ^ 16) with (256 * 256). change (2 ^ 24) with (256 * 256 * 256).
change (2 ^ 32) with (256 * 256 * 256 * 256) in Hv.
Z.to_euclidean_division_equations. lia.
Qed.

Lemma host_short v rest : 0 <= v < 2 ^ 16 -> get_host_short (network_short v ++ rest) = Ret v.
Proof.
intros Hv. unfold get_host_short, network_short, rd. simpl app. cbv iota beta delta [Z.ltb Z.compare Z.to_nat lookup list_lookup Pos.to_nat Pos.iter_op Nat.add]. simp_res. f_equal. unfold u8.
change (2 ^ 8) with 256. change (2 ^ 16) with (256 * 256) in Hv. Z.to_euclidean_division_equations. lia.
Qed.

(** What an end whose own options are [mine] does with the peer's. *)
Definition accepted_calls (mine req accm mru : Z) : list ppp_call :=
  (if has req REQ_OPTION_ACCM then [ppp_set_xmit_accm accm] else [])
  ++ (if has req REQ_OPTION_MRU then [ppp_set_mtu mru] else [])
  ++ (if has req REQ_OPTION_ACFC && has mine REQ_OPTION_ACFC then [ppp_set_xmit_acfc true] else [])
  ++ (if has req REQ_OPTION_PFC && has mine REQ_OPTION_PFC then [ppp_set_xmit_pfc true] else []).

Definition applied_calls (req accm : Z) : list ppp_call :=
  if has req REQ_OPTION_ACCM then [ppp_set_recv_accm accm] else [].

Lemma lcp_check_all auth req accm mru :
  0 <= accm < 2 ^ 32 -> 0 <= mru < 2 ^ 16 ->
  fold_options (lcp_rcr_check auth) (lcp_option_list req accm mru) tt = Ret (inl tt).
Proof.
intros _ _. unfold lcp_option_list. by destruct (has req REQ_OPTION_ACCM), (has req REQ_OPTION_MRU), (has req REQ_OPTION_ACFC),
  (has req REQ_OPTION_PFC).
Qed.

Lemma lcp_apply_all lcp req accm mru :
  0 <= accm < 2 ^ 32 -> 0 <= mru < 2 ^ 16 ->
  fold_options (fun iter l => stay (lcp_rcr_apply lcp iter l)) (lcp_option_list req accm mru) []
  = Ret (inl (accepted_calls (req_options lcp) req accm mru)).
Proof.
intros Haccm Hmru.
assert (forall n rest l, lcp_rcr_apply lcp (option_iter ACCM n (network_long accm ++ rest)) l = Ret (l ++ [ppp_set_xmit_accm accm])) as Ha.
{ intros n rest l. change (get_host_long (network_long accm ++ rest) ≫= (fun accm => Ret (l ++ [ppp_set_xmit_accm accm]))
    = Ret (l ++ [ppp_set_xmit_accm accm])). by rewrite host_long. }
assert (forall n rest l, lcp_rcr_apply lcp (option_iter MRU n (network_short mru ++ rest)) l = Ret (l ++ [ppp_set_mtu mru])) as Hm.
{ intros n rest l. change (get_host_short (network_short mru ++ rest) ≫= (fun mtu => Ret (l ++ [ppp_set_mtu mtu]))
    = Ret (l ++ [ppp_set_mtu mru])). by rewrite host_short. }
unfold lcp_option_list, accepted_calls, stay.
destruct (has req REQ_OPTION_ACCM), (has req REQ_OPTION_MRU), (has req REQ_OPTION_ACFC), (has req REQ_OPTION_PFC);
  cbn [app fold_options]; rewrite ?Ha, ?bind_Ret; cbn [app fold_options]; rewrite ?Hm, ?bind_Ret; cbn [app fold_options];
  unfold lcp_rcr_apply; simpl;
  destruct (has (req_options lcp) REQ_OPTION_ACFC), (has (req_options lcp) REQ_OPTION_PFC); reflexivity.
Qed.

Lemma lcp_rca_all req accm mru :
  0 <= accm < 2 ^ 32 ->
  fold_options (fun iter l => stay (
    if ppp_option_iter_get_type iter =? ACCM then
      accm ← get_host_long (ppp_option_iter_get_data iter);
      Ret (l ++ [ppp_set_recv_accm accm])
    else Ret l)) (lcp_option_list req accm mru) [] = Ret (inl (applied_calls req accm)).
Proof.
intros Haccm. unfold lcp_option_list, applied_calls, stay.
destruct (has req REQ_OPTION_ACCM), (has req REQ_OPTION_MRU), (has req REQ_OPTION_ACFC), (has req REQ_OPTION_PFC);
  cbn [app fold_options]; try reflexivity;
  change (ppp_option_iter_get_data (option_iter ACCM ?n ?d)) with d; rewrite ?host_long by done; reflexivity.
Qed.

Lemma lcp_accepts auth lcp req accm mru :
  0 <= accm < 2 ^ 32 -> 0 <= mru < 2 ^ 16 ->
  accepts (driver := lcp_proto auth) lcp (lcp_options req accm mru)
    (Build_driver_result lcp None (accepted_calls (req_options lcp) req accm mru)).
Proof.
intros Ha Hm. split; [done|]. intros identifier. destruct (lcp_option_list_ok req accm mru) as [Hok Hfits].
rewrite lcp_options_encode. simpl driver_rcr. unfold lcp_rcr.
rewrite (for_options_ok (lcp_rcr_check auth)) by (first [done | by intros ? []]).
rewrite lcp_check_all, bind_Ret by done. unfold all_options.
rewrite for_options_ok by done.
by rewrite lcp_apply_all, !bind_Ret by done.
Qed.

Lemma lcp_applies auth lcp req accm mru :
  0 <= accm < 2 ^ 32 ->
  applies (driver := lcp_proto auth) lcp (lcp_options req accm mru) (Build_driver_result lcp None (applied_calls req accm)).
Proof.
intros Ha. split; [done|]. intros identifier. destruct (lcp_option_list_ok req accm mru) as [Hok Hfits].
rewrite lcp_options_encode. simpl driver_rca. unfold lcp_rca, all_options.
rewrite for_options_ok by done.
by rewrite lcp_rca_all, !bind_Ret by done.
Qed.

(** * The link *)

(** What the driver sets of struct _GAtPPP; [hdlc] is the framing layer. *)
Record ppp_link := { hdlc : GAtHDLC; mtu : Z; xmit_acfc : bool; xmit_pfc : bool }.

Definition ppp_serve (ppp : ppp_link) (o : output ppp_call) : ppp_link :=
  match o with
  | Call (ppp_set_recv_accm accm) =>
    {| hdlc := g_at_hdlc_set_recv_accm (hdlc ppp) accm; mtu := mtu ppp; xmit_acfc := xmit_acfc ppp; xmit_pfc := xmit_pfc ppp |}
  | Call (ppp_set_xmit_accm accm) =>
    {| hdlc := g_at_hdlc_set_xmit_accm (hdlc ppp) accm; mtu := mtu ppp; xmit_acfc := xmit_acfc ppp; xmit_pfc := xmit_pfc ppp |}
  | Call (ppp_set_mtu mtu) =>
    {| hdlc := hdlc ppp; mtu := mtu; xmit_acfc := xmit_acfc ppp; xmit_pfc := xmit_pfc ppp |}
  | Call (ppp_set_xmit_acfc acfc) =>
    {| hdlc := hdlc ppp; mtu := mtu ppp; xmit_acfc := acfc; xmit_pfc := xmit_pfc ppp |}
  | Call (ppp_set_xmit_pfc pfc) =>
    {| hdlc := hdlc ppp; mtu := mtu ppp; xmit_acfc := xmit_acfc ppp; xmit_pfc := pfc |}
  | _ => ppp
  end.

Definition ppp_serve_all (ppp : ppp_link) (l : list (output ppp_call)) : ppp_link := fold_left ppp_serve l ppp.

(** The settings made before a link is opened. *)
Inductive lcp_setting := SetAccm (accm : Z) | SetAcfc (enabled : bool) | SetPfc (enabled : bool).

Definition lcp_configure (d : pppcp_data lcp_data) (s : lcp_setting) : pppcp_data lcp_data :=
  match s with
  | SetAccm accm => lcp_set_accm d accm
  | SetAcfc enabled => lcp_set_acfc_enabled d enabled
  | SetPfc enabled => lcp_set_pfc_enabled d enabled
  end.

Definition lcp_configured (is_server : bool) (settings : list lcp_setting) : pppcp_data lcp_data :=
  fold_left lcp_configure settings (lcp_new is_server).

Definition setting_ok (s : lcp_setting) : Prop := match s with SetAccm accm => 0 <= accm < 2 ^ 32 | _ => True end.

(** An automaton whose options are those its driver asks for. *)
Record lcp_consistent (is_server : bool) (d : pppcp_data lcp_data) : Prop := {
  lc_state : state d = if is_server then STOPPED else INITIAL;
  lc_failures : failure_counter d < max_failure d;
  lc_accm : 0 <= accm (priv d) < 2 ^ 32;
  lc_mru : 0 <= mru (priv d) < 2 ^ 16;
  lc_requested : has (req_options (priv d)) REQ_OPTION_ACCM = true;
  lc_options : local_ok d /\ local_data d = lcp_options (req_options (priv d)) (accm (priv d)) (mru (priv d))
}.

Lemma lcp_set_options_consistent (is_server : bool) (d : pppcp_data lcp_data) lcp :
  state d = (if is_server then STOPPED else INITIAL) -> failure_counter d < max_failure d ->
  0 <= accm lcp < 2 ^ 32 -> 0 <= mru lcp < 2 ^ 16 -> has (req_options lcp) REQ_OPTION_ACCM = true ->
  lcp_consistent is_server (lcp_set_options d (lcp_generate_config_options lcp)).
Proof.
intros Hs Hf Ha Hm Hr. split; try done. simpl.
pose proof (lcp_options_fit (req_options lcp) (accm lcp) (mru lcp)) as Hfit. unfold MAX_CONFIG_OPTION_SIZE in Hfit.
pose proof (zlen_nonneg (lcp_options (req_options lcp) (accm lcp) (mru lcp))).
assert (u16 (zlen (lcp_options (req_options lcp) (accm lcp) (mru lcp))) = zlen (lcp_options (req_options lcp) (accm lcp) (mru lcp))) as Hu
  by (apply Z.mod_small; lia).
split.
- unfold local_ok, fits. simpl. rewrite Hu, zlen_app. pose proof (zlen_nonneg (drop (length (lcp_options (req_options lcp) (accm lcp) (mru lcp))) (options lcp))).
  unfold CP_HEADER_SZ. lia.
- unfold local_data. simpl. rewrite Hu, to_nat_zlen. by rewrite take_app_length.
Qed.

Lemma has_lor_l a b m : 0 <= m -> has a m = true -> has (Z.lor a b) m = true.
Proof.
unfold has. rewrite !negb_true_iff, !Z.eqb_neq. intros _ Ha H0. apply Ha.
rewrite Z.land_lor_distr_l in H0. by apply Z.lor_eq_0_iff in H0 as [? _].
Qed.

Lemma has_lor_r a m : 0 < m -> has (Z.lor a m) m = true.
Proof.
intros Hm. unfold has. rewrite Z.land_lor_distr_l, Z.land_diag. apply negb_true_iff, Z.eqb_neq. intros H0.
apply Z.lor_eq_0_iff in H0. lia.
Qed.

Lemma has_other a flag m : Z.land flag m = 0 -> has (Z.land a (Z.lnot flag)) m = has a m.
Proof.
intros Hdis. unfold has. f_equal. f_equal. apply Z.bits_inj'. intros n Hn.
assert (Z.testbit (Z.land flag m) n = false) as Hbit by (by rewrite Hdis, Z.bits_0).
rewrite Z.land_spec in Hbit. rewrite !Z.land_spec, Z.lnot_spec by done.
by destruct (Z.testbit a n), (Z.testbit flag n), (Z.testbit m n).
Qed.

Lemma lcp_new_consistent is_server : lcp_consistent is_server (lcp_new is_server).
Proof. apply lcp_set_options_consistent; by destruct is_server. Qed.

Lemma lcp_set_enabled_consistent flag is_server d enabled :
  Z.land flag REQ_OPTION_ACCM = 0 -> lcp_consistent is_server d -> lcp_consistent is_server (lcp_set_enabled flag d enabled).
Proof.
intros Hflag Hd. destruct (Hd) as []. unfold lcp_set_enabled. destruct (_ =? _); [done|].
apply lcp_set_options_consistent; try done. simpl. destruct enabled; [by apply has_lor_l | by rewrite has_other].
Qed.

Lemma lcp_configured_consistent is_server settings :
  Forall setting_ok settings -> lcp_consistent is_server (lcp_configured is_server settings).
Proof.
unfold lcp_configured. generalize (lcp_new_consistent is_server). generalize (lcp_new is_server).
induction settings as [|s settings IH]; intros d Hd Hs; [done|]. apply Forall_cons in Hs as [Hs Hss].
simpl. apply IH; [|done]. destruct s as [v|e|e]; simpl; [|by apply lcp_set_enabled_consistent..].
destruct (Hd) as []. apply lcp_set_options_consistent; try done. simpl. by apply has_lor_r.
Qed.

(** The signals of [g_at_ppp_open]. *)
Lemma lcp_opens auth d :
  lcp_consistent false d ->
  exists l, pppcp_run (driver := lcp_proto auth) [SignalUp; SignalOpen] d = Ret (l, [Transmit LCP_PROTOCOL (own_request l)])
    /\ ready l /\ state l = REQSENT /\ priv l = priv d /\ local_data l = local_data d.
Proof.
intros [Hs Hf Ha Hm Hr [Hl Hd]]. cbv iota in Hs.
assert (pppcp_step (driver := lcp_proto auth) SignalUp d = Ret (entered CLOSED d, [])) as Hup.
{ simpl. unfold pppcp_signal_up. run_entry Hs. by rewrite transition_entered, !bind_Ret. }
assert (exists l, pppcp_step (driver := lcp_proto auth) SignalOpen (entered CLOSED d) = Ret (l, [Transmit LCP_PROTOCOL (own_request l)])
  /\ ready l /\ state l = REQSENT /\ priv l = priv d /\ local_data l = local_data d) as (l & Hopen & Hrest).
{ simpl. unfold pppcp_signal_open. assert (state (entered CLOSED d) = CLOSED) as Hc by done. run_entry Hc.
  rewrite send_configure_request_ok by done. rewrite !bind_Ret, transition_entered, !bind_Ret.
  eexists. split.
  - apply f_equal, f_equal2; [reflexivity|]. unfold own_request, asking. simpl. unfold configure_sent. by destruct (is_first_request _).
  - unfold ready, configure_sent; simpl; split_and!; first [done | by left | by destruct (is_first_request _)]. }
exists l. split; [|done]. unfold pppcp_run, seq at 1. rewrite Hup, bind_Ret. unfold seq. by rewrite Hopen, bind_Ret.
Qed.

(** What serving the packets and the calls of a negotiation leaves. *)
Lemma serve_app ppp o1 o2 : ppp_serve_all ppp (o1 ++ o2) = ppp_serve_all (ppp_serve_all ppp o1) o2.
Proof. apply fold_left_app. Qed.

(** The link once the peer's options [req], [peer_accm], [peer_mru] are applied
    at an end that asked for [mine], [own_accm]. *)
Definition negotiated (ppp : ppp_link) (mine own_accm req peer_accm peer_mru : Z) : ppp_link :=
  let h := g_at_hdlc_set_xmit_accm (hdlc ppp) peer_accm in
  {| hdlc := g_at_hdlc_set_recv_accm h own_accm;
     mtu := if has req REQ_OPTION_MRU then peer_mru else mtu ppp;
     xmit_acfc := has req REQ_OPTION_ACFC && has mine REQ_OPTION_ACFC || xmit_acfc ppp;
     xmit_pfc := has req REQ_OPTION_PFC && has mine REQ_OPTION_PFC || xmit_pfc ppp |}.

Lemma serve_negotiation ppp mine own_accm req peer_accm peer_mru (o : list (output ppp_call)) lcp :
  has mine REQ_OPTION_ACCM = true -> has req REQ_OPTION_ACCM = true ->
  (forall ppp, ppp_serve_all ppp o = ppp) ->
  ppp_serve_all ppp (map Call (accepted_calls mine req peer_accm peer_mru) ++ o
    ++ map Call (applied_calls mine own_accm) ++ Layer LayerUp :: map Call (calls (lcp_up lcp)))
  = negotiated ppp mine own_accm req peer_accm peer_mru.
Proof.
intros Hmine Hreq Ho. rewrite !serve_app, Ho. unfold accepted_calls, applied_calls, negotiated.
rewrite Hmine, Hreq.
destruct (has req REQ_OPTION_MRU), (has req REQ_OPTION_ACFC), (has mine REQ_OPTION_ACFC), (has req REQ_OPTION_PFC),
  (has mine REQ_OPTION_PFC); reflexivity.
Qed.

(** The maps agree: the sender covers what the receiver asked for. *)
Definition map_ok (tx : GAtHDLC) : Prop :=
  length (xmit_accm tx) = 8%nat /\ has (nth 3 (xmit_accm tx) 0) (Z.shiftl 1 0x1d) = true
  /\ has (nth 3 (xmit_accm tx) 0) (Z.shiftl 1 0x1e) = true.

Lemma set_maps_cover (tx rx : GAtHDLC) value :
  map_ok tx ->
  accm_covers (xmit_accm (g_at_hdlc_set_xmit_accm tx value)) (recv_accm (g_at_hdlc_set_recv_accm rx value)).
Proof.
intros (Hlen & H3d & H3e). unfold accm_covers. simpl xmit_accm. simpl recv_accm.
destruct (xmit_accm tx) as [|w0 [|w1 [|w2 [|w3 l]]]]; try (simpl in Hlen; lia). by split_and!.
Qed.

(** C8: two LCP ends agree.  A client with any settings of its character map and
    compressions opens its link to a server with any settings that lies dormant.
    In whatever order the packets are delivered, the negotiation takes four
    deliveries and leaves both ends OPENED, and on both links: the character map
    an end decodes with is the one it asked for and the one its peer now encodes
    with, so that the framing layer delivers ([accm_covers], the condition of
    [hdlc_delivery]); the compressions are on exactly when both asked for them;
    the size of packets is the default unless the peer asked for its own. *)
Theorem lcp_agreement auth_l auth_r settings_l settings_r :
  Forall setting_ok settings_l -> Forall setting_ok settings_r ->
  let server := lcp_configured true settings_r in
  exists client, pppcp_run (driver := lcp_proto auth_l) [SignalUp; SignalOpen] (lcp_configured false settings_l)
      = Ret (client, [Transmit LCP_PROTOCOL (own_request client)])
    /\ forall k n, nsteps (delivers (driver1 := lcp_proto auth_l) (driver2 := lcp_proto auth_r)) k
                     (Link client server [own_request client] [] [] []) n ->
      (k <= 4)%nat
      /\ (~ (exists n', delivers (driver1 := lcp_proto auth_l) (driver2 := lcp_proto auth_r) n n') ->
          state (left_end n) = OPENED /\ state (right_end n) = OPENED
          /\ forall ppp_l ppp_r,
            let mine := priv client in let theirs := priv server in
            ppp_serve_all ppp_l (left_log n)
            = negotiated ppp_l (req_options mine) (accm mine) (req_options theirs) (accm theirs) (mru theirs)
            /\ ppp_serve_all ppp_r (right_log n)
            = negotiated ppp_r (req_options theirs) (accm theirs) (req_options mine) (accm mine) (mru mine)
            /\ (map_ok (hdlc ppp_l) -> map_ok (hdlc ppp_r) ->
                let link_l := hdlc (ppp_serve_all ppp_l (left_log n)) in
                let link_r := hdlc (ppp_serve_all ppp_r (right_log n)) in
                accm_covers (xmit_accm link_l) (recv_accm link_r) /\ accm_covers (xmit_accm link_r) (recv_accm link_l))).
Proof.
intros Hsl Hsr server.
destruct (lcp_opens auth_l (lcp_configured false settings_l)) as (client & Hopen & Hready & Hreq & Hpriv & Hdata);
  [by apply lcp_configured_consistent|].
exists client. split; [done|]. intros k n Hrun.
destruct (lcp_configured_consistent false settings_l Hsl) as [_ _ Hal Hml Hrl [_ Hdl]].
destruct (lcp_configured_consistent true settings_r Hsr) as [Hsr1 Hfr Har Hmr Hrr [Hlr Hdr]].
rewrite <- Hdata, <- Hpriv in Hdl. rewrite <- Hpriv in Hal, Hml, Hrl. fold server in Hsr1, Hfr, Har, Hmr, Hrr, Hlr, Hdr.
assert ((state server =? REQSENT) = false) as Hdormant by (by rewrite Hsr1).
destruct (pppcp_converges (driver1 := lcp_proto auth_l) (driver2 := lcp_proto auth_r) client server
  (Build_driver_result (priv client) None (accepted_calls (req_options (priv client)) (req_options (priv server)) (accm (priv server)) (mru (priv server))))
  (Build_driver_result (priv server) None (accepted_calls (req_options (priv server)) (req_options (priv client)) (accm (priv client)) (mru (priv client))))
  (Build_driver_result (priv client) None (applied_calls (req_options (priv client)) (accm (priv client))))
  (Build_driver_result (priv server) None (applied_calls (req_options (priv server)) (accm (priv server)))) k n)
  as [Hk Hend]; try done.
- split_and!; [by right|done|done].
- rewrite Hdr. by apply lcp_accepts.
- rewrite Hdl. by apply lcp_accepts.
- rewrite Hdl. by apply lcp_applies.
- rewrite Hdr. by apply lcp_applies.
- by rewrite Hdormant.
- split; [done|]. intros Hnone. destruct (Hend Hnone) as (Hol & Hor & _ & _ & _ & _ & Hll & Hlr').
  split; [done|]. split; [done|]. intros ppp_l ppp_r mine theirs. rewrite Hll, Hlr'.
  assert (ppp_serve_all ppp_l (left_log n)
    = negotiated ppp_l (req_options mine) (accm mine) (req_options theirs) (accm theirs) (mru theirs)) as El.
  { rewrite Hll. by apply (serve_negotiation ppp_l). }
  assert (ppp_serve_all ppp_r (right_log n)
    = negotiated ppp_r (req_options theirs) (accm theirs) (req_options mine) (accm mine) (mru mine)) as Er.
  { rewrite Hlr', (app_assoc (opening server)). apply serve_negotiation; try done.
    intros ppp. unfold opening. by rewrite Hdormant. }
  rewrite <- Hll, <- Hlr', El, Er. split; [done|]. split; [done|]. intros Hml' Hmr' link_l link_r.
  split; by apply set_maps_cover.
Qed.

(** A client and a server that both ask for protocol field compression. *)
Definition client_settings : list lcp_setting := [SetAccm 0x000a0000; SetPfc true].
Definition server_settings : list lcp_setting := [SetPfc true; SetAcfc true].

Definition opened_client : pppcp_data lcp_data :=
  match pppcp_run (driver := lcp_proto AUTH_METHOD_CHAP) [SignalUp; SignalOpen] (lcp_configured false client_settings) with
  | Ret (d, _) => d | _ => lcp_new false end.

Lemma lcp_agreement_witness :
  exists n, nsteps (delivers (driver1 := lcp_proto AUTH_METHOD_CHAP) (driver2 := lcp_proto AUTH_METHOD_NONE)) 4
      (Link opened_client (lcp_configured true server_settings) [own_request opened_client] [] [] []) n
    /\ state (left_end n) = OPENED /\ state (right_end n) = OPENED
    /\ forall ppp, let link := ppp_serve_all ppp (right_log n) in
       xmit_pfc link = true /\ xmit_acfc link = xmit_acfc ppp /\ recv_accm (hdlc link) = 0.
Proof.
destruct (lcp_agreement AUTH_METHOD_CHAP AUTH_METHOD_NONE client_settings server_settings) as (client & Hrun & Hall).
- by repeat constructor.
- by repeat constructor.
- assert (pppcp_run (driver := lcp_proto AUTH_METHOD_CHAP) [SignalUp; SignalOpen] (lcp_configured false client_settings)
    = Ret (opened_client, [Transmit LCP_PROTOCOL (own_request opened_client)])) as Hopen by (by vm_compute).
  rewrite Hopen in Hrun. injection Hrun as <-.
  assert (exists n, nsteps (delivers (driver1 := lcp_proto AUTH_METHOD_CHAP) (driver2 := lcp_proto AUTH_METHOD_NONE)) 4
      (Link opened_client (lcp_configured true server_settings) [own_request opened_client] [] [] []) n
      /\ to_right n = [] /\ to_left n = []) as (n & Hn & Hr & Hl).
  { eexists. split.
    - eapply nsteps_l; [eapply DeliverRight; by vm_compute|]. eapply nsteps_l; [eapply DeliverLeft; by vm_compute|].
      eapply nsteps_l; [eapply DeliverLeft; by vm_compute|]. eapply nsteps_l; [eapply DeliverRight; by vm_compute|]. apply nsteps_O.
    - done. }
  exists n. split; [done|]. destruct (Hall 4%nat n Hn) as [_ Hend].
  destruct Hend as (Hol & Hor & Hlinks).
  { intros [n' Hd]. by inversion Hd; subst; simpl in *. }
  split; [done|]. split; [done|]. intros ppp link. unfold link. destruct (Hlinks ppp ppp) as (_ & -> & _). done.
Defined.
