(* ===== verification/PppIpcp.v ===== *)
(** The IP control protocol driver of src/gatchat/ppp_ipcp.c, for clients and
    servers, over the automaton of PppCp.  An address is its four octets in
    memory order, which is the order they travel in.  The theorem: a client ends
    with the addresses its server hands out. *)
From stdpp Require Import pretty.
From S2P Require Import Prelude PppCp PppLcp.

Definition IPCP_PROTO : Z := 0x8021.

Definition IPCP_SUPPORTED_CODES : Z :=
  Z.lor (Z.shiftl 1 CONFIGURE_REQUEST) (Z.lor (Z.shiftl 1 CONFIGURE_ACK) (Z.lor (Z.shiftl 1 CONFIGURE_NAK)
    (Z.lor (Z.shiftl 1 CONFIGURE_REJECT) (Z.lor (Z.shiftl 1 TERMINATE_REQUEST) (Z.lor (Z.shiftl 1 TERMINATE_ACK)
      (Z.shiftl 1 CODE_REJECT)))))).

(** enum ipcp_option_types *)
Definition IP_ADDRESS : Z := 3.
Definition PRIMARY_DNS_SERVER : Z := 129.
Definition PRIMARY_NBNS_SERVER : Z := 130.
Definition SECONDARY_DNS_SERVER : Z := 131.
Definition SECONDARY_NBNS_SERVER : Z := 132.

Definition MAX_CONFIG_OPTION_SIZE : Z := 5 * 6.

Definition REQ_OPTION_IPADDR : Z := 0x01.
Definition REQ_OPTION_DNS1 : Z := 0x02.
Definition REQ_OPTION_DNS2 : Z := 0x04.
Definition REQ_OPTION_NBNS1 : Z := 0x08.
Definition REQ_OPTION_NBNS2 : Z := 0x10.

Definition MAX_IPCP_FAILURE : Z := 100.

Definition addr : Type := list Z.
Definition no_addr : addr := [0; 0; 0; 0].
Definition addr_eqb (a b : addr) : bool := bool_decide (a = b).

Record ipcp_data := {
  options : list Z; options_len : Z; req_options : Z;
  local_addr : addr; peer_addr : addr; dns1 : addr; dns2 : addr; nbns1 : addr; nbns2 : addr;
  is_server : bool
}.

(** The functions of gatppp.c the driver calls; [None] is NULL. *)
Inductive ipcp_call :=
  | ppp_ipcp_up_notify (local peer dns1 dns2 : option string)
  | ppp_ipcp_down_notify
  | ppp_ipcp_finished_notify.

(** Assignments to the fields the driver sets. *)
Definition set_options (ipcp : ipcp_data) (opts : list Z) (len : Z) : ipcp_data :=
  {| options := opts; options_len := len; req_options := req_options ipcp; local_addr := local_addr ipcp;
     peer_addr := peer_addr ipcp; dns1 := dns1 ipcp; dns2 := dns2 ipcp; nbns1 := nbns1 ipcp; nbns2 := nbns2 ipcp;
     is_server := is_server ipcp |}.

Definition set_req (ipcp : ipcp_data) (req : Z) : ipcp_data :=
  {| options := options ipcp; options_len := options_len ipcp; req_options := req; local_addr := local_addr ipcp;
     peer_addr := peer_addr ipcp; dns1 := dns1 ipcp; dns2 := dns2 ipcp; nbns1 := nbns1 ipcp; nbns2 := nbns2 ipcp;
     is_server := is_server ipcp |}.

Definition set_addrs (ipcp : ipcp_data) (local peer d1 d2 n1 n2 : addr) : ipcp_data :=
  {| options := options ipcp; options_len := options_len ipcp; req_options := req_options ipcp; local_addr := local;
     peer_addr := peer; dns1 := d1; dns2 := d2; nbns1 := n1; nbns2 := n2; is_server := is_server ipcp |}.

Definition set_local_addr (ipcp : ipcp_data) (a : addr) : ipcp_data :=
  set_addrs ipcp a (peer_addr ipcp) (dns1 ipcp) (dns2 ipcp) (nbns1 ipcp) (nbns2 ipcp).
Definition set_peer_addr (ipcp : ipcp_data) (a : addr) : ipcp_data :=
  set_addrs ipcp (local_addr ipcp) a (dns1 ipcp) (dns2 ipcp) (nbns1 ipcp) (nbns2 ipcp).
Definition set_dns1 (ipcp : ipcp_data) (a : addr) : ipcp_data :=
  set_addrs ipcp (local_addr ipcp) (peer_addr ipcp) a (dns2 ipcp) (nbns1 ipcp) (nbns2 ipcp).
Definition set_dns2 (ipcp : ipcp_data) (a : addr) : ipcp_data :=
  set_addrs ipcp (local_addr ipcp) (peer_addr ipcp) (dns1 ipcp) a (nbns1 ipcp) (nbns2 ipcp).
Definition set_nbns1 (ipcp : ipcp_data) (a : addr) : ipcp_data :=
  set_addrs ipcp (local_addr ipcp) (peer_addr ipcp) (dns1 ipcp) (dns2 ipcp) a (nbns2 ipcp).
Definition set_nbns2 (ipcp : ipcp_data) (a : addr) : ipcp_data :=
  set_addrs ipcp (local_addr ipcp) (peer_addr ipcp) (dns1 ipcp) (dns2 ipcp) (nbns1 ipcp) a.

(** FILL_IP into the driver's own buffer, which holds all five options. *)
Definition fill_option (req : bool) (type : Z) (var : addr) : list Z := if req then [type; 6] ++ var else [].

Definition ipcp_options (ipcp : ipcp_data) : list Z :=
  fill_option (has (req_options ipcp) REQ_OPTION_IPADDR) IP_ADDRESS (local_addr ipcp)
  ++ fill_option (has (req_options ipcp) REQ_OPTION_DNS1) PRIMARY_DNS_SERVER (dns1 ipcp)
  ++ fill_option (has (req_options ipcp) REQ_OPTION_DNS2) SECONDARY_DNS_SERVER (dns2 ipcp)
  ++ fill_option (has (req_options ipcp) REQ_OPTION_NBNS1) PRIMARY_NBNS_SERVER (nbns1 ipcp)
  ++ fill_option (has (req_options ipcp) REQ_OPTION_NBNS2) SECONDARY_NBNS_SERVER (nbns2 ipcp).

Definition ipcp_generate_config_options (ipcp : ipcp_data) : ipcp_data :=
  let opts := ipcp_options ipcp in
  set_options ipcp (opts ++ drop (length opts) (options ipcp)) (zlen opts).

Definition ipcp_reset_client_config_options (ipcp : ipcp_data) : ipcp_data :=
  let ipcp := set_req ipcp (Z.lor REQ_OPTION_IPADDR (Z.lor REQ_OPTION_DNS1 (Z.lor REQ_OPTION_DNS2
                              (Z.lor REQ_OPTION_NBNS1 REQ_OPTION_NBNS2)))) in
  ipcp_generate_config_options (set_addrs ipcp no_addr no_addr no_addr no_addr no_addr no_addr).

Definition ipcp_reset_server_config_options (ipcp : ipcp_data) : ipcp_data :=
  ipcp_generate_config_options
    (set_req ipcp (if negb (addr_eqb (local_addr ipcp) no_addr) then REQ_OPTION_IPADDR else 0)).

Definition ipcp_set_server_info (d : pppcp_data ipcp_data) (peer d1 d2 : addr) : pppcp_data ipcp_data :=
  pppcp_set_data d (set_dns2 (set_dns1 (set_peer_addr (pppcp_get_data d) peer) d1) d2).

(** The text of an address. *)
Definition inet_ntop (a : addr) : string :=
  String.concat "." (map (fun b => pretty (Z.to_N b)) a).

(** [s[0] ? s : NULL] *)
Definition non_empty (s : string) : option string := match s with EmptyString => None | _ => Some s end.

Definition ipcp_up (ipcp : ipcp_data) : driver_result ipcp_data ipcp_call :=
  Build_driver_result ipcp None
    [ppp_ipcp_up_notify (non_empty (inet_ntop (local_addr ipcp))) (non_empty (inet_ntop (peer_addr ipcp)))
       (non_empty (inet_ntop (dns1 ipcp))) (non_empty (inet_ntop (dns2 ipcp)))].

Definition with_options (ipcp : ipcp_data) (l : list ipcp_call) : driver_result ipcp_data ipcp_call :=
  Build_driver_result ipcp (Some (options ipcp, options_len ipcp)) l.

Definition ipcp_down (ipcp : ipcp_data) : driver_result ipcp_data ipcp_call :=
  with_options (if is_server ipcp then ipcp_reset_server_config_options ipcp
                else ipcp_reset_client_config_options ipcp) [ppp_ipcp_down_notify].

Definition ipcp_finished (ipcp : ipcp_data) : driver_result ipcp_data ipcp_call :=
  Build_driver_result ipcp None [ppp_ipcp_finished_notify].

(** [memcpy(&var, data, 4)] *)
Definition get_addr (data : list Z) : res addr := slice data 0 4.

Definition ipcp_rca_option (iter : ppp_option_iter) (ipcp : ipcp_data) : res ipcp_data :=
  let data := ppp_option_iter_get_data iter in
  let type := ppp_option_iter_get_type iter in
  if type =? IP_ADDRESS then a ← get_addr data; Ret (set_local_addr ipcp a)
  else if type =? PRIMARY_DNS_SERVER then a ← get_addr data; Ret (set_dns1 ipcp a)
  else if type =? PRIMARY_NBNS_SERVER then a ← get_addr data; Ret (set_nbns1 ipcp a)
  else if type =? SECONDARY_DNS_SERVER then a ← get_addr data; Ret (set_dns2 ipcp a)
  else if type =? SECONDARY_NBNS_SERVER then a ← get_addr data; Ret (set_nbns2 ipcp a)
  else Ret ipcp.

Definition ipcp_rca (ipcp : ipcp_data) (packet : list Z) : res (driver_result ipcp_data ipcp_call) :=
  if is_server ipcp then Ret (Build_driver_result ipcp None [])
  else ipcp ← all_options ipcp_rca_option packet ipcp; Ret (Build_driver_result ipcp None []).

(** [req_options |= flag] *)
Definition request (ipcp : ipcp_data) (flag : Z) : ipcp_data := set_req ipcp (Z.lor (req_options ipcp) flag).

Definition ipcp_nak_option (iter : ppp_option_iter) (ipcp : ipcp_data) : res ipcp_data :=
  let data := ppp_option_iter_get_data iter in
  let type := ppp_option_iter_get_type iter in
  if type =? IP_ADDRESS then a ← get_addr data; Ret (set_local_addr (request ipcp REQ_OPTION_IPADDR) a)
  else if type =? PRIMARY_DNS_SERVER then a ← get_addr data; Ret (set_dns1 (request ipcp REQ_OPTION_DNS1) a)
  else if type =? PRIMARY_NBNS_SERVER then a ← get_addr data; Ret (set_nbns1 (request ipcp REQ_OPTION_NBNS1) a)
  else if type =? SECONDARY_DNS_SERVER then a ← get_addr data; Ret (set_dns2 (request ipcp REQ_OPTION_DNS2) a)
  else if type =? SECONDARY_NBNS_SERVER then a ← get_addr data; Ret (set_nbns2 (request ipcp REQ_OPTION_NBNS2) a)
  else Ret ipcp.

Definition ipcp_rcn_nak (ipcp : ipcp_data) (packet : list Z) : res (driver_result ipcp_data ipcp_call) :=
  if is_server ipcp then Ret (Build_driver_result ipcp None [])
  else
    ipcp ← all_options ipcp_nak_option packet ipcp;
    Ret (with_options (ipcp_generate_config_options ipcp) []).

(** [req_options &= ~flag] *)
Definition withdraw (ipcp : ipcp_data) (flag : Z) : ipcp_data := set_req ipcp (Z.land (req_options ipcp) (Z.lnot flag)).

Definition ipcp_rej_option (iter : ppp_option_iter) (ipcp : ipcp_data) : res ipcp_data :=
  let type := ppp_option_iter_get_type iter in
  if type =? IP_ADDRESS then Ret (withdraw ipcp REQ_OPTION_IPADDR)
  else if type =? PRIMARY_DNS_SERVER then Ret (withdraw ipcp REQ_OPTION_DNS1)
  else if type =? PRIMARY_NBNS_SERVER then Ret (withdraw ipcp REQ_OPTION_NBNS1)
  else if type =? SECONDARY_DNS_SERVER then Ret (withdraw ipcp REQ_OPTION_DNS2)
  else if type =? SECONDARY_NBNS_SERVER then Ret (withdraw ipcp REQ_OPTION_NBNS2)
  else Ret ipcp.

Definition ipcp_rcn_rej (ipcp : ipcp_data) (packet : list Z) : res (driver_result ipcp_data ipcp_call) :=
  ipcp ← all_options ipcp_rej_option packet ipcp;
  Ret (with_options (ipcp_generate_config_options ipcp) []).

(** FILL_IP into a buffer of the stack. *)
Definition FILL_IP (buffer : list Z) (len : Z) (req : bool) (type : Z) (var : addr) : res (list Z * Z) :=
  if req then
    buffer ← wr buffer len type;
    buffer ← wr buffer (len + 1) 6;
    buffer ← blit buffer (len + 2) var;
    Ret (buffer, u16 (len + 6))
  else Ret (buffer, len).

(** An option copied to the options to reject, allocated at the first one with
    the length of the packet's options. *)
Definition copy_rejected (iter : ppp_option_iter) (max_len : Z) (rej : option (list Z)) (rej_len : Z)
    : res (option (list Z) * Z) :=
  let rej := match rej with
             | None => if max_len =? 0 then None else Some (replicate (Z.to_nat max_len) 0)
             | _ => rej
             end in
  match rej with
  | None => Ret (None, rej_len)
  | Some buffer =>
    let opt_len := ppp_option_iter_get_length iter in
    buffer ← wr buffer rej_len (ppp_option_iter_get_type iter);
    buffer ← wr buffer (rej_len + 1) (u8 (opt_len + 2));
    data ← slice (ppp_option_iter_get_data iter) 0 opt_len;
    buffer ← blit buffer (rej_len + 2) data;
    Ret (Some buffer, rej_len + (opt_len + 2))
  end.

Record server_answer := { nak_options : list Z; len : Z; rej_options : option (list Z); rej_len : Z }.

Definition ipcp_server_option (ipcp : ipcp_data) (max_len : Z) (iter : ppp_option_iter) (s : server_answer) : res server_answer :=
  let data := ppp_option_iter_get_data iter in
  let type := ppp_option_iter_get_type iter in
  let compare (mine : addr) :=
    a ← get_addr data;
    '(nak, l) ← FILL_IP (nak_options s) (len s) (negb (addr_eqb a mine) || addr_eqb a no_addr) type mine;
    Ret {| nak_options := nak; len := l; rej_options := rej_options s; rej_len := rej_len s |} in
  if type =? IP_ADDRESS then compare (peer_addr ipcp)
  else if type =? PRIMARY_DNS_SERVER then compare (dns1 ipcp)
  else if type =? SECONDARY_DNS_SERVER then compare (dns2 ipcp)
  else
    '(rej, l) ← copy_rejected iter max_len (rej_options s) (rej_len s);
    Ret {| nak_options := nak_options s; len := len s; rej_options := rej; rej_len := u16 l |}.

(** The reject buffer has the length of the packet's options; [pppcp_data]
    keeps the whole buffer and the length used. *)
Definition ipcp_server_rcr (ipcp : ipcp_data) (packet : list Z)
    : res (rcr_result * option (list Z * Z) * driver_result ipcp_data ipcp_call) :=
  length ← packet_length packet;
  s ← all_options (ipcp_server_option ipcp (u16 (length - 4))) packet
        {| nak_options := replicate (Z.to_nat MAX_CONFIG_OPTION_SIZE) 0; len := 0; rej_options := None; rej_len := 0 |};
  let done_with := Build_driver_result ipcp None [] in
  if 0 <? rej_len s then Ret (RCR_REJECT, Some (default [] (rej_options s), rej_len s), done_with)
  else if 0 <? len s then
    suggested ← slice (nak_options s) 0 (len s);
    Ret (RCR_NAK, Some (suggested, len s), done_with)
  else Ret (RCR_ACCEPT, None, done_with).

Definition ipcp_client_option (max_len : Z) (iter : ppp_option_iter) (s : ipcp_data * option (list Z) * Z)
    : res (ipcp_data * option (list Z) * Z) :=
  let '(ipcp, options, len) := s in
  let reject ipcp :=
    '(options, l) ← copy_rejected iter max_len options len;
    Ret (ipcp, options, u8 l) in
  if ppp_option_iter_get_type iter =? IP_ADDRESS then
    a ← get_addr (ppp_option_iter_get_data iter);
    let ipcp := set_peer_addr ipcp a in
    if negb (addr_eqb a no_addr) then Ret (ipcp, options, len) else reject ipcp
  else reject ipcp.

Definition ipcp_client_rcr (ipcp : ipcp_data) (packet : list Z)
    : res (rcr_result * option (list Z * Z) * driver_result ipcp_data ipcp_call) :=
  length ← packet_length packet;
  '(ipcp, options, len) ← all_options (ipcp_client_option (u16 (length - 4))) packet (ipcp, None, 0);
  if 0 <? len then Ret (RCR_REJECT, Some (default [] options, len), Build_driver_result ipcp None [])
  else Ret (RCR_ACCEPT, None, Build_driver_result ipcp None []).

Definition ipcp_rcr (ipcp : ipcp_data) (packet : list Z) :=
  if is_server ipcp then ipcp_server_rcr ipcp packet else ipcp_client_rcr ipcp packet.

#[export] Instance ipcp_proto : pppcp_proto ipcp_data ipcp_call := {
  proto := IPCP_PROTO;
  supported_codes := IPCP_SUPPORTED_CODES;
  driver_layer e ipcp :=
    match e with
    | LayerUp => ipcp_up ipcp
    | LayerDown => ipcp_down ipcp
    | LayerFinished => ipcp_finished ipcp
    | LayerStarted => Build_driver_result ipcp None []
    end;
  driver_rca := ipcp_rca;
  driver_rcn_nak := ipcp_rcn_nak;
  driver_rcn_rej := ipcp_rcn_rej;
  driver_rcr := ipcp_rcr
}.

(** [g_try_new0] *)
Definition ipcp_zero (server : bool) : ipcp_data :=
  {| options := replicate (Z.to_nat MAX_CONFIG_OPTION_SIZE) 0; options_len := 0; req_options := 0;
     local_addr := no_addr; peer_addr := no_addr; dns1 := no_addr; dns2 := no_addr;
     nbns1 := no_addr; nbns2 := no_addr; is_server := server |}.

Definition ipcp_new (server : bool) (ip : addr) : pppcp_data ipcp_data :=
  let ipcp := if server then ipcp_reset_server_config_options (set_local_addr (ipcp_zero true) ip)
              else ipcp_reset_client_config_options (ipcp_zero false) in
  pppcp_set_local_options (pppcp_new false MAX_IPCP_FAILURE ipcp) (options ipcp) (options_len ipcp).

(** * How a server answers a request *)

Lemma encode_options_app l1 l2 : encode_options (l1 ++ l2) = encode_options l1 ++ encode_options l2.
Proof. unfold encode_options. by rewrite map_app, concat_app. Qed.

Lemma zlen_encode_cons o l : zlen (encode_options (o :: l)) = zlen o.2 + 2 + zlen (encode_options l).
Proof. change (encode_options (o :: l)) with (encode_option o ++ encode_options l). by rewrite zlen_app, zlen_encode_option. Qed.

Lemma zlen_encode_filter (p : Z * list Z -> bool) l : zlen (encode_options (filter p l)) <= zlen (encode_options l).
Proof.
induction l as [|o l IH]; [done|]. rewrite filter_cons. pose proof (zlen_nonneg o.2).
destruct (decide (p o)); rewrite ?zlen_encode_cons; lia.
Qed.

(** A buffer of [cap] octets that begins with [opts]. *)
Definition filled (cap : Z) (opts : list (Z * list Z)) : list Z :=
  encode_options opts ++ replicate (Z.to_nat (cap - zlen (encode_options opts))) 0.

Lemma filled_nil cap : filled cap [] = replicate (Z.to_nat cap) 0.
Proof. unfold filled. simpl. by rewrite Z.sub_0_r. Qed.

Lemma filled_take cap opts : take (length (encode_options opts)) (filled cap opts) = encode_options opts.
Proof. unfold filled. by rewrite take_app_length. Qed.

Lemma filled_zlen cap opts : zlen (encode_options opts) <= cap -> zlen (filled cap opts) = cap.
Proof. intros ?. unfold filled. rewrite zlen_app, zlen_replicate. lia. Qed.

Lemma replicate_split {A} n m (x : A) : (m <= n)%nat -> replicate n x = replicate m x ++ replicate (n - m) x.
Proof. intros ?. rewrite <- replicate_add. f_equal. lia. Qed.

(** Two octets and the data of an option at the end of what is filled. *)
Lemma fill_option_ok cap opts type n data :
  n = zlen data + 2 -> zlen (encode_options opts) + n <= cap ->
  (buffer ← wr (filled cap opts) (zlen (encode_options opts)) type;
   buffer ← wr buffer (zlen (encode_options opts) + 1) n;
   blit buffer (zlen (encode_options opts) + 2) data) = Ret (filled cap (opts ++ [(type, data)])).
Proof.
intros -> Hcap. pose proof (zlen_nonneg data). pose proof (zlen_nonneg (encode_options opts)). unfold filled at 1.
set (k := cap - zlen (encode_options opts)).
assert (replicate (Z.to_nat k) 0 = 0 :: 0 :: replicate (length data) 0 ++ replicate (Z.to_nat (k - 2 - zlen data)) 0) as ->.
{ replace (Z.to_nat k) with (2 + (length data + Z.to_nat (k - 2 - zlen data)))%nat by (unfold zlen in *; lia).
  by rewrite !replicate_add. }
rewrite wr_middle, bind_Ret by done.
change (encode_options opts ++ type :: 0 :: ?r) with (encode_options opts ++ [type] ++ 0 :: r). rewrite app_assoc.
rewrite wr_middle, bind_Ret by (rewrite zlen_app; change (zlen [type]) with 1; lia).
rewrite <- app_assoc. change ([type] ++ ?n :: ?r) with ([type; n] ++ r). rewrite app_assoc.
rewrite blit_middle; [| rewrite zlen_app; change (zlen [type; zlen data + 2]) with 2; lia | by rewrite zlen_replicate].
f_equal. unfold filled. rewrite encode_options_app, zlen_app, <- !app_assoc. f_equal.
change (encode_options [(type, data)]) with (encode_option (type, data) ++ []). rewrite app_nil_r, zlen_encode_option.
unfold encode_option. rewrite <- app_assoc. simpl fst. simpl snd. f_equal. f_equal. f_equal. lia.
Qed.

(** The server's own value for an option it knows. *)
Definition server_value (ipcp : ipcp_data) (type : Z) : option addr :=
  if type =? IP_ADDRESS then Some (peer_addr ipcp)
  else if type =? PRIMARY_DNS_SERVER then Some (dns1 ipcp)
  else if type =? SECONDARY_DNS_SERVER then Some (dns2 ipcp)
  else None.

Definition server_unknown (ipcp : ipcp_data) (o : Z * list Z) : bool :=
  match server_value ipcp o.1 with None => true | Some _ => false end.

(** The values it suggests: for each option it knows whose value is not its own. *)
Definition server_suggestion (ipcp : ipcp_data) (o : Z * list Z) : option (Z * list Z) :=
  mine ← server_value ipcp o.1;
  if negb (addr_eqb o.2 mine) || addr_eqb o.2 no_addr then Some (o.1, mine) else None.

Definition server_suggestions (ipcp : ipcp_data) (l : list (Z * list Z)) : list (Z * list Z) :=
  omap (server_suggestion ipcp) l.

Definition server_options_ok (ipcp : ipcp_data) (l : list (Z * list Z)) : Prop :=
  Forall option_ok l /\ Forall (fun o => server_unknown ipcp o = false -> zlen o.2 = 4) l.

Definition server_ok (ipcp : ipcp_data) : Prop :=
  zlen (peer_addr ipcp) = 4 /\ zlen (dns1 ipcp) = 4 /\ zlen (dns2 ipcp) = 4.

(** The loop's state after options that left the suggestions [w] and the
    rejected options [r]. *)
Definition answer_of (max_len : Z) (w r : list (Z * list Z)) : server_answer :=
  {| nak_options := filled MAX_CONFIG_OPTION_SIZE w; len := zlen (encode_options w);
     rej_options := match r with [] => None | _ => Some (filled max_len r) end; rej_len := zlen (encode_options r) |}.

Lemma FILL_IP_ok w (b : bool) type mine :
  zlen mine = 4 -> zlen (encode_options (w ++ if b then [(type, mine)] else [])) <= MAX_CONFIG_OPTION_SIZE ->
  FILL_IP (filled MAX_CONFIG_OPTION_SIZE w) (zlen (encode_options w)) b type mine
  = Ret (filled MAX_CONFIG_OPTION_SIZE (w ++ if b then [(type, mine)] else []),
         zlen (encode_options (w ++ if b then [(type, mine)] else []))).
Proof.
intros Hmine Hfit. unfold FILL_IP. destruct b; [|by rewrite app_nil_r].
rewrite encode_options_app, zlen_app, zlen_encode_cons in *. change (zlen (encode_options [])) with 0 in *. simpl snd in *.
transitivity (b ← Ret (filled MAX_CONFIG_OPTION_SIZE (w ++ [(type, mine)])); Ret (b, zlen (encode_options w) + (zlen mine + 2 + 0))); [|done].
rewrite <- (fill_option_ok MAX_CONFIG_OPTION_SIZE w type 6 mine) by lia.
rewrite !bind_assoc. apply bind_ext. intros b1. rewrite !bind_assoc. apply bind_ext. intros b2. apply bind_ext. intros b3.
unfold u16, MAX_CONFIG_OPTION_SIZE in *. pose proof (zlen_nonneg (encode_options w)).
rewrite Z.mod_small by lia. f_equal. f_equal. lia.
Qed.

Lemma copy_rejected_ok max_len r type data rest :
  option_ok (type, data) -> zlen (encode_options (r ++ [(type, data)])) <= max_len ->
  copy_rejected (option_iter type (zlen data) (data ++ rest)) max_len
    (match r with [] => None | _ => Some (filled max_len r) end) (zlen (encode_options r))
  = Ret (Some (filled max_len (r ++ [(type, data)])), zlen (encode_options (r ++ [(type, data)]))).
Proof.
unfold option_ok. simpl snd. intros Ho Hfit. pose proof (zlen_nonneg data).
pose proof (zlen_nonneg (encode_options r)).
rewrite encode_options_app, zlen_app, zlen_encode_cons in *. change (zlen (encode_options [])) with 0 in *. simpl snd in *.
unfold copy_rejected.
assert ((match (match r with [] => None | _ => Some (filled max_len r) end) with
  | None => if max_len =? 0 then None else Some (replicate (Z.to_nat max_len) 0)
  | _ => match r with [] => None | _ => Some (filled max_len r) end end) = Some (filled max_len r)) as ->.
{ destruct r; [|done]. rewrite filled_nil. by rewrite (proj2 (Z.eqb_neq max_len 0)) by lia. }
simpl ppp_option_iter_get_length. unfold ppp_option_iter_get_type. simpl iter_type.
assert (u8 (zlen data + 2) = zlen data + 2) as -> by (unfold u8; apply Z.mod_small; lia).
change (ppp_option_iter_get_data (option_iter type ?n ?d)) with d.
change (slice (data ++ rest) 0 (zlen data)) with (slice ([] ++ data ++ rest) 0 (zlen data)). rewrite slice_app by done.
transitivity (b ← Ret (filled max_len (r ++ [(type, data)])); Ret (Some b, zlen (encode_options r) + (zlen data + 2 + 0))); [|done].
rewrite <- (fill_option_ok max_len r type (zlen data + 2) data) by lia.
rewrite !bind_assoc. apply bind_ext. intros b1. rewrite !bind_assoc. apply bind_ext. intros b2. rewrite bind_Ret.
apply bind_ext. intros b3. do 2 f_equal. lia.
Qed.

Lemma get_addr_ok (data rest : list Z) : zlen data = 4 -> get_addr (data ++ rest) = Ret data.
Proof. intros Hlen. unfold get_addr. change (data ++ rest) with ([] ++ data ++ rest). by apply slice_app. Qed.

Lemma server_option_ok ipcp max_len w r type data rest :
  server_ok ipcp -> option_ok (type, data) -> (server_unknown ipcp (type, data) = false -> zlen data = 4) ->
  zlen (encode_options (w ++ server_suggestions ipcp [(type, data)])) <= MAX_CONFIG_OPTION_SIZE ->
  zlen (encode_options (r ++ filter (server_unknown ipcp) [(type, data)])) <= max_len -> max_len < 2 ^ 16 ->
  ipcp_server_option ipcp max_len (option_iter type (zlen data) (data ++ rest)) (answer_of max_len w r)
  = Ret (answer_of max_len (w ++ server_suggestions ipcp [(type, data)]) (r ++ filter (server_unknown ipcp) [(type, data)])).
Proof.
intros (Hp & H1 & H2) Ho Hdata Hw Hr Hmax.
assert (filter (server_unknown ipcp) [(type, data)] = if server_unknown ipcp (type, data) then [(type, data)] else []) as Hfilter
  by (rewrite filter_cons; by destruct (server_unknown ipcp (type, data))).
rewrite Hfilter in *. clear Hfilter.
assert (server_suggestions ipcp [(type, data)] = match server_value ipcp type with
  | Some mine => if negb (addr_eqb data mine) || addr_eqb data no_addr then [(type, mine)] else [] | None => [] end) as Hsug.
{ unfold server_suggestions, server_suggestion. simpl. destruct (server_value ipcp type) as [mine|]; [|done]. simpl.
  by destruct (negb (addr_eqb data mine) || addr_eqb data no_addr). }
rewrite Hsug in *. clear Hsug. unfold ipcp_server_option.
change (ppp_option_iter_get_type (option_iter type ?n ?d)) with type.
change (ppp_option_iter_get_data (option_iter type ?n ?d)) with d.
unfold server_unknown, server_value in *. simpl fst in *.
change (nak_options (answer_of max_len w r)) with (filled MAX_CONFIG_OPTION_SIZE w).
change (len (answer_of max_len w r)) with (zlen (encode_options w)).
repeat match goal with |- context [type =? ?k] => let H := fresh "E" in destruct (type =? k) eqn:H end.
1-3: rewrite app_nil_r, get_addr_ok, bind_Ret by (by apply Hdata); rewrite FILL_IP_ok by done; done.
rewrite app_nil_r. simpl rej_options. simpl rej_len. rewrite copy_rejected_ok by done. rewrite bind_Ret.
unfold answer_of. do 2 f_equal.
- by destruct r.
- unfold u16. apply Z.mod_small. split; [apply zlen_nonneg|lia].
Qed.

Lemma zlen_encode_prefix l1 l2 : zlen (encode_options l1) <= zlen (encode_options (l1 ++ l2)).
Proof. rewrite encode_options_app, zlen_app. pose proof (zlen_nonneg (encode_options l2)). lia. Qed.

Lemma server_fold ipcp max_len l : forall w r,
  server_ok ipcp -> server_options_ok ipcp l -> max_len < 2 ^ 16 ->
  zlen (encode_options (w ++ server_suggestions ipcp l)) <= MAX_CONFIG_OPTION_SIZE ->
  zlen (encode_options (r ++ filter (server_unknown ipcp) l)) <= max_len ->
  fold_all (ipcp_server_option ipcp max_len) l (answer_of max_len w r)
  = Ret (answer_of max_len (w ++ server_suggestions ipcp l) (r ++ filter (server_unknown ipcp) l)).
Proof.
induction l as [|[type data] l IH]; intros w r Hs [Ho Hd] Hmax Hw Hr.
- simpl. by rewrite !app_nil_r.
- apply Forall_cons in Ho as [Ho1 Ho]. apply Forall_cons in Hd as [Hd1 Hd].
  assert (server_suggestions ipcp ((type, data) :: l) = server_suggestions ipcp [(type, data)] ++ server_suggestions ipcp l) as Ew
    by (change ((type, data) :: l) with ([(type, data)] ++ l); apply omap_app).
  assert (filter (server_unknown ipcp) ((type, data) :: l) = filter (server_unknown ipcp) [(type, data)] ++ filter (server_unknown ipcp) l) as Er
    by (change ((type, data) :: l) with ([(type, data)] ++ l); apply filter_app).
  rewrite Ew, Er, !app_assoc in *. simpl fold_all.
  rewrite server_option_ok; try done.
  + rewrite bind_Ret. by apply IH.
  + etrans; [apply zlen_encode_prefix|exact Hw].
  + etrans; [apply zlen_encode_prefix|exact Hr].
Qed.

(** How an IPCP server answers.  For a request of any options (addresses have
    four octets), if what the server has to suggest fits its buffer of 30 octets:
    when there are options it does not know, exactly these are rejected, in the
    order they came; otherwise the options whose value is not the server's own,
    or is no address, are sent back with the server's values; a request with
    neither is accepted.  Its own data never changes. *)
Lemma ipcp_server_answers ipcp l identifier :
  is_server ipcp = true -> server_ok ipcp -> server_options_ok ipcp l -> fits (zlen (encode_options l)) ->
  zlen (encode_options (server_suggestions ipcp l)) <= MAX_CONFIG_OPTION_SIZE ->
  ipcp_rcr ipcp (cp_packet CONFIGURE_REQUEST identifier (encode_options l))
  = Ret (match filter (server_unknown ipcp) l, server_suggestions ipcp l with
         | [], [] => (RCR_ACCEPT, None, Build_driver_result ipcp None [])
         | [], w => (RCR_NAK, Some (encode_options w, zlen (encode_options w)), Build_driver_result ipcp None [])
         | r, _ => (RCR_REJECT, Some (filled (zlen (encode_options l)) r, zlen (encode_options r)), Build_driver_result ipcp None [])
         end).
Proof.
intros Hserver Hs Hl Hfits Hw. unfold ipcp_rcr. rewrite Hserver. unfold ipcp_server_rcr.
rewrite packet_length_ok', bind_Ret. cbv zeta.
assert (u16 (zlen (encode_options l) + CP_HEADER_SZ - 4) = zlen (encode_options l)) as ->
  by (unfold fits, u16, CP_HEADER_SZ in *; rewrite Z.mod_small; lia).
rewrite all_options_ok; [|intros iter s; reflexivity|apply Hl|done].
change {| nak_options := _; len := 0; rej_options := None; rej_len := 0 |} with (answer_of (zlen (encode_options l)) [] []).
rewrite server_fold; [|done|done|destruct Hfits; unfold CP_HEADER_SZ in *; lia|done|apply zlen_encode_filter].
rewrite bind_Ret. simpl app. simpl rej_len.
destruct (filter (server_unknown ipcp) l) as [|o r]; [|].
- simpl. destruct (server_suggestions ipcp l) as [|o w]; [done|].
  pose proof (zlen_encode_cons o w). pose proof (zlen_nonneg o.2). pose proof (zlen_nonneg (encode_options w)).
  rewrite (proj2 (Z.ltb_lt _ _)) by lia. unfold filled.
  rewrite <- (app_nil_l (encode_options (o :: w) ++ _)), slice_app by done. done.
- pose proof (zlen_encode_cons o r). pose proof (zlen_nonneg o.2). pose proof (zlen_nonneg (encode_options r)).
  rewrite (proj2 (Z.ltb_lt _ _)) by lia. done.
Qed.

(** * What a client and its server agree on *)

Lemma ipcp_opens (d : pppcp_data ipcp_data) :
  state d = INITIAL -> local_ok d -> failure_counter d < max_failure d ->
  exists d', pppcp_run [SignalOpen; SignalUp] d = Ret (d', [Layer LayerStarted; Transmit IPCP_PROTO (own_request d')])
    /\ ready d' /\ state d' = REQSENT /\ priv d' = priv d /\ local_data d' = local_data d
    /\ failure_counter d' = failure_counter d /\ max_failure d' = max_failure d.
Proof.
intros Hs Hl Hf.
assert (exists d0, pppcp_step SignalOpen d = Ret (d0, [@Layer ipcp_call LayerStarted]) /\ state d0 = STARTING /\ priv d0 = priv d
  /\ local_options d0 = local_options d /\ local_options_len d0 = local_options_len d
  /\ failure_counter d0 = failure_counter d /\ max_failure d0 = max_failure d) as (d0 & Hopen & Hs0 & Hp0 & Hlo & Hll & Hf0 & Hm0).
{ simpl. unfold pppcp_signal_open. run_entry Hs. rewrite transition_entered, bind_Ret. by eexists. }
assert (local_ok d0) as Hl0 by (unfold local_ok; by rewrite Hlo, Hll).
assert (exists d', pppcp_step SignalUp d0 = Ret (d', [Transmit IPCP_PROTO (own_request d')])
  /\ ready d' /\ state d' = REQSENT /\ priv d' = priv d0 /\ local_data d' = local_data d0
    /\ failure_counter d' = failure_counter d0 /\ max_failure d' = max_failure d0) as (d' & Hup & Hr & Hs' & Hp & Hd & Hf' & Hm).
{ simpl. unfold pppcp_signal_up. run_entry Hs0. rewrite send_configure_request_ok by done.
  rewrite !bind_Ret, transition_entered, !bind_Ret. eexists. split.
  - apply f_equal, f_equal2; [reflexivity|]. unfold own_request, asking. simpl. unfold configure_sent. by destruct (is_first_request _).
  - unfold ready, configure_sent; simpl; split_and!; first [done | by left | destruct (is_first_request _); simpl; first [done|lia]]. }
exists d'. split; [|by rewrite Hd, Hp, Hf', Hm; unfold local_data; rewrite Hlo, Hll].
unfold pppcp_run. unfold seq at 1. rewrite Hopen, bind_Ret. unfold seq. by rewrite Hup, bind_Ret.
Qed.

Definition addr_ok (a : addr) : Prop := zlen a = 4.

Definition addrs_ok (ipcp : ipcp_data) : Prop :=
  addr_ok (local_addr ipcp) /\ addr_ok (dns1 ipcp) /\ addr_ok (dns2 ipcp) /\ addr_ok (nbns1 ipcp) /\ addr_ok (nbns2 ipcp).

Lemma zlen_fill_option (b : bool) type var : addr_ok var -> 0 <= zlen (fill_option b type var) <= 6.
Proof. unfold addr_ok. destruct b; [|done]. unfold fill_option. rewrite zlen_app. change (zlen [_; _]) with 2. lia. Qed.

Lemma ipcp_options_fit ipcp : addrs_ok ipcp -> zlen (ipcp_options ipcp) <= MAX_CONFIG_OPTION_SIZE.
Proof.
intros (Hl & H1 & H2 & H3 & H4). unfold ipcp_options, MAX_CONFIG_OPTION_SIZE. rewrite !zlen_app.
pose proof (zlen_fill_option (has (req_options ipcp) REQ_OPTION_IPADDR) IP_ADDRESS _ Hl).
pose proof (zlen_fill_option (has (req_options ipcp) REQ_OPTION_DNS1) PRIMARY_DNS_SERVER _ H1).
pose proof (zlen_fill_option (has (req_options ipcp) REQ_OPTION_DNS2) SECONDARY_DNS_SERVER _ H2).
pose proof (zlen_fill_option (has (req_options ipcp) REQ_OPTION_NBNS1) PRIMARY_NBNS_SERVER _ H3).
pose proof (zlen_fill_option (has (req_options ipcp) REQ_OPTION_NBNS2) SECONDARY_NBNS_SERVER _ H4).
lia.
Qed.

(** The options a driver generates become those of its automaton. *)
Lemma generated_local (d : pppcp_data ipcp_data) ipcp :
  addrs_ok ipcp ->
  let g := ipcp_generate_config_options ipcp in
  let d' := pppcp_set_local_options d (options g) (options_len g) in
  local_ok d' /\ local_data d' = ipcp_options ipcp.
Proof.
intros Ha. pose proof (ipcp_options_fit ipcp Ha) as Hfit. unfold MAX_CONFIG_OPTION_SIZE in Hfit.
pose proof (zlen_nonneg (ipcp_options ipcp)). simpl. unfold local_ok, local_data, fits, CP_HEADER_SZ. simpl.
assert (u16 (zlen (ipcp_options ipcp)) = zlen (ipcp_options ipcp)) as -> by (apply Z.mod_small; lia).
rewrite zlen_app, to_nat_zlen, take_app_length. pose proof (zlen_nonneg (drop (length (ipcp_options ipcp)) (options ipcp))).
split; [lia|done].
Qed.

(** A client that has accepted its server's options and gets its own refused
    generates them anew and asks again. *)
Lemma client_asks_again (d : pppcp_data ipcp_data) code rcn data ipcp :
  (code = CONFIGURE_NAK /\ rcn = ipcp_rcn_nak \/ code = CONFIGURE_REJECT /\ rcn = ipcp_rcn_rej) ->
  state d = ACKSENT -> addrs_ok ipcp ->
  rcn (priv d) (cp_packet code (config_identifier d) data) = Ret (with_options (ipcp_generate_config_options ipcp) []) ->
  exists d1, pppcp_process_packet (cp_packet code (config_identifier d) data) d
    = Ret (d1, [Transmit IPCP_PROTO (cp_packet CONFIGURE_REQUEST (config_identifier d1) (ipcp_options ipcp))])
    /\ state d1 = ACKSENT /\ priv d1 = ipcp_generate_config_options ipcp /\ local_ok d1 /\ local_data d1 = ipcp_options ipcp.
Proof.
intros Hcode Hs Ha Hrcn. pose proof (ipcp_options_fit ipcp Ha) as Hfit. unfold MAX_CONFIG_OPTION_SIZE in Hfit.
pose proof (zlen_nonneg (ipcp_options ipcp)). pose proof (zlen_nonneg (drop (length (ipcp_options ipcp)) (options ipcp))).
destruct (refusal_applied d code rcn data (with_options (ipcp_generate_config_options ipcp) [])
  (options (ipcp_generate_config_options ipcp)) (ipcp_options ipcp)) as (d1 & Hd1 & Hs1 & Hp1 & Hl1 & Hld & _).
- by destruct Hcode as [[-> _]|[-> _]].
- by destruct Hcode as [[-> ->]|[-> ->]].
- by destruct Hcode as [[-> _]|[-> _]].
- done.
- exact Hrcn.
- done.
- unfold fits, CP_HEADER_SZ. lia.
- simpl. rewrite zlen_app. lia.
- simpl. by rewrite take_app_length.
- exists d1. by split_and!.
Qed.

Lemma addr_eqb_refl a : addr_eqb a a = true.
Proof. by apply bool_decide_true. Qed.

Lemma addr_eqb_ne a b : a <> b -> addr_eqb a b = false.
Proof. by intros ?; apply bool_decide_false. Qed.

Definition ipcp_server (ip peer d1 d2 : addr) : pppcp_data ipcp_data :=
  ipcp_set_server_info (ipcp_new true ip) peer d1 d2.

Section Agreement.
Variables ip peer d1 d2 : addr.
Hypothesis ip_ok : addr_ok ip.
Hypothesis peer_ok : addr_ok peer.
Hypothesis d1_ok : addr_ok d1.
Hypothesis d2_ok : addr_ok d2.
Hypothesis has_peer : peer <> no_addr.
Hypothesis has_d1 : d1 <> no_addr.
Hypothesis has_d2 : d2 <> no_addr.

Let client_data : ipcp_data := priv (ipcp_new false no_addr).
Let server_data : ipcp_data := priv (ipcp_server ip peer d1 d2).

(** The options of the client's three requests, those rejected of the first,
    and those of the server's request. *)
Definition first_options : list (Z * list Z) :=
  [(IP_ADDRESS, no_addr); (PRIMARY_DNS_SERVER, no_addr); (SECONDARY_DNS_SERVER, no_addr);
   (PRIMARY_NBNS_SERVER, no_addr); (SECONDARY_NBNS_SERVER, no_addr)].
Definition rejected_options : list (Z * list Z) := [(PRIMARY_NBNS_SERVER, no_addr); (SECONDARY_NBNS_SERVER, no_addr)].
Definition second_options : list (Z * list Z) :=
  [(IP_ADDRESS, no_addr); (PRIMARY_DNS_SERVER, no_addr); (SECONDARY_DNS_SERVER, no_addr)].
Definition handed_out : list (Z * list Z) :=
  [(IP_ADDRESS, peer); (PRIMARY_DNS_SERVER, d1); (SECONDARY_DNS_SERVER, d2)].
Definition server_options : list (Z * list Z) := if negb (addr_eqb ip no_addr) then [(IP_ADDRESS, ip)] else [].

Lemma server_data_ok : is_server server_data = true /\ server_ok server_data.
Proof. by split. Qed.

Lemma no_addr_suggested type :
  server_suggestion server_data (type, no_addr)
  = match server_value server_data type with Some mine => Some (type, mine) | None => None end.
Proof. unfold server_suggestion. simpl fst. simpl snd. destruct (server_value server_data type); [|done]. simpl. by rewrite orb_true_r. Qed.

Lemma zlen_handed_out : zlen (encode_options handed_out) = 18.
Proof. unfold handed_out, addr_ok in *. rewrite !zlen_encode_cons. simpl snd. change (zlen (encode_options [])) with 0. lia. Qed.

Lemma server_refuses_first identifier :
  driver_rcr server_data (cp_packet CONFIGURE_REQUEST identifier (encode_options first_options))
  = Ret (RCR_REJECT, Some (filled 30 rejected_options, zlen (encode_options rejected_options)), Build_driver_result server_data None []).
Proof.
assert (server_suggestions server_data first_options = handed_out) as Hw.
{ unfold server_suggestions, first_options. cbn [omap list_omap]. by rewrite !no_addr_suggested. }
simpl driver_rcr. rewrite ipcp_server_answers; rewrite ?Hw; try apply server_data_ok.
- done.
- split; [by repeat constructor|by repeat constructor].
- done.
- by rewrite zlen_handed_out.
Qed.

Lemma server_suggests identifier :
  driver_rcr server_data (cp_packet CONFIGURE_REQUEST identifier (encode_options second_options))
  = Ret (RCR_NAK, Some (encode_options handed_out, zlen (encode_options handed_out)), Build_driver_result server_data None []).
Proof.
assert (server_suggestions server_data second_options = handed_out) as Hw.
{ unfold server_suggestions, second_options. cbn [omap list_omap]. by rewrite !no_addr_suggested. }
simpl driver_rcr. rewrite ipcp_server_answers; rewrite ?Hw; try apply server_data_ok.
- done.
- split; [by repeat constructor|by repeat constructor].
- done.
- by rewrite zlen_handed_out.
Qed.

Lemma handed_out_ok : Forall option_ok handed_out /\ fits (zlen (encode_options handed_out)).
Proof.
unfold addr_ok in *. rewrite zlen_handed_out. split; [|done].
repeat apply Forall_cons_2; [..|apply Forall_nil]; unfold option_ok; simpl; lia.
Qed.

Lemma server_accepts : accepts server_data (encode_options handed_out) (Build_driver_result server_data None []).
Proof.
split; [done|]. intros identifier. unfold addr_ok in *.
assert (server_suggestions server_data handed_out = []) as Hw.
{ unfold server_suggestions, server_suggestion. simpl. by rewrite !addr_eqb_refl, !addr_eqb_ne. }
simpl driver_rcr. rewrite ipcp_server_answers; rewrite ?Hw; try apply server_data_ok; try apply handed_out_ok.
- done.
- split; [apply handed_out_ok|]. repeat (apply Forall_cons_2; [intros _; assumption|]). by apply Forall_nil.
Qed.

Lemma server_options_encode : local_data (ipcp_server ip peer d1 d2) = encode_options server_options /\ local_ok (ipcp_server ip peer d1 d2).
Proof.
unfold addr_ok in *.
assert (addrs_ok (set_req (set_local_addr (ipcp_zero true) ip) (if negb (addr_eqb ip no_addr) then REQ_OPTION_IPADDR else 0))) as Ha by done.
destruct (generated_local (ipcp_new true ip) _ Ha) as [Hl Hd].
split; [|exact Hl]. etrans; [exact Hd|]. unfold server_options. destruct (negb (addr_eqb ip no_addr)) eqn:E; [|done].
unfold ipcp_options, encode_options, encode_option. simpl. by rewrite ip_ok, !app_nil_r.
Qed.

(** What the client makes of the server's answers. *)
Definition client_accepted : ipcp_data := set_peer_addr client_data ip.
Definition client_second : ipcp_data := set_req client_accepted 7.
Definition client_third : ipcp_data :=
  set_dns2 (set_dns1 (set_local_addr (ipcp_generate_config_options client_second) peer) d1) d2.

Lemma client_accepts : accepts client_data (encode_options server_options) (Build_driver_result client_accepted None []).
Proof.
split; [done|]. intros identifier. simpl driver_rcr. unfold ipcp_rcr. change (is_server client_data) with false. cbv iota.
unfold ipcp_client_rcr, server_options. rewrite packet_length_ok', bind_Ret. unfold addr_ok in *.
destruct (addr_eqb ip no_addr) eqn:E; simpl negb; cbv iota.
- apply bool_decide_eq_true in E. unfold client_accepted. rewrite E. by vm_compute.
- rewrite all_options_ok.
  + cbn [fold_all]. unfold ipcp_client_option. change (ppp_option_iter_get_type (option_iter IP_ADDRESS ?n ?d) =? IP_ADDRESS) with true.
    cbv iota. change (ppp_option_iter_get_data (option_iter IP_ADDRESS ?n ?d)) with d.
    rewrite get_addr_ok, bind_Ret by done. rewrite E. simpl negb. cbv iota. by rewrite !bind_Ret.
  + by intros iter [[? ?] ?].
  + apply Forall_singleton. unfold option_ok. simpl. lia.
  + rewrite zlen_encode_cons. simpl snd. rewrite ip_ok. done.
Qed.

Lemma client_drops_nbns identifier :
  ipcp_rcn_rej client_accepted (cp_packet CONFIGURE_REJECT identifier (encode_options rejected_options))
  = Ret (with_options (ipcp_generate_config_options client_second) []).
Proof. unfold ipcp_rcn_rej. rewrite all_options_ok; [done|done|by repeat constructor|done]. Qed.

Lemma nak_option_ok ipcp n a rest :
  addr_ok a ->
  ipcp_nak_option (option_iter IP_ADDRESS n (a ++ rest)) ipcp = Ret (set_local_addr (request ipcp REQ_OPTION_IPADDR) a)
  /\ ipcp_nak_option (option_iter PRIMARY_DNS_SERVER n (a ++ rest)) ipcp = Ret (set_dns1 (request ipcp REQ_OPTION_DNS1) a)
  /\ ipcp_nak_option (option_iter SECONDARY_DNS_SERVER n (a ++ rest)) ipcp = Ret (set_dns2 (request ipcp REQ_OPTION_DNS2) a).
Proof.
intros Ha. split_and!.
- transitivity (b ← get_addr (a ++ rest); Ret (set_local_addr (request ipcp REQ_OPTION_IPADDR) b)); [done|by rewrite get_addr_ok].
- transitivity (b ← get_addr (a ++ rest); Ret (set_dns1 (request ipcp REQ_OPTION_DNS1) b)); [done|by rewrite get_addr_ok].
- transitivity (b ← get_addr (a ++ rest); Ret (set_dns2 (request ipcp REQ_OPTION_DNS2) b)); [done|by rewrite get_addr_ok].
Qed.

Lemma rca_option_ok ipcp n a rest :
  addr_ok a ->
  ipcp_rca_option (option_iter IP_ADDRESS n (a ++ rest)) ipcp = Ret (set_local_addr ipcp a)
  /\ ipcp_rca_option (option_iter PRIMARY_DNS_SERVER n (a ++ rest)) ipcp = Ret (set_dns1 ipcp a)
  /\ ipcp_rca_option (option_iter SECONDARY_DNS_SERVER n (a ++ rest)) ipcp = Ret (set_dns2 ipcp a).
Proof.
intros Ha. split_and!.
- transitivity (b ← get_addr (a ++ rest); Ret (set_local_addr ipcp b)); [done|by rewrite get_addr_ok].
- transitivity (b ← get_addr (a ++ rest); Ret (set_dns1 ipcp b)); [done|by rewrite get_addr_ok].
- transitivity (b ← get_addr (a ++ rest); Ret (set_dns2 ipcp b)); [done|by rewrite get_addr_ok].
Qed.

Lemma client_takes_addresses identifier :
  ipcp_rcn_nak (ipcp_generate_config_options client_second) (cp_packet CONFIGURE_NAK identifier (encode_options handed_out))
  = Ret (with_options (ipcp_generate_config_options client_third) []).
Proof.
unfold ipcp_rcn_nak. change (is_server _) with false. cbv iota.
rewrite all_options_ok; [|by intros iter s|apply handed_out_ok..]. unfold handed_out. cbn [fold_all].
rewrite (proj1 (nak_option_ok _ _ peer _ peer_ok)), bind_Ret.
rewrite (proj1 (proj2 (nak_option_ok _ _ d1 _ d1_ok))), bind_Ret.
by rewrite (proj2 (proj2 (nak_option_ok _ _ d2 _ d2_ok))), !bind_Ret.
Qed.

Lemma set_same ipcp a b c : local_addr ipcp = a -> dns1 ipcp = b -> dns2 ipcp = c ->
  set_dns2 (set_dns1 (set_local_addr ipcp a) b) c = ipcp.
Proof. intros <- <- <-. by destruct ipcp. Qed.

Lemma client_third_addrs : let ipcp := ipcp_generate_config_options client_third in
  is_server ipcp = false /\ local_addr ipcp = peer /\ dns1 ipcp = d1 /\ dns2 ipcp = d2.
Proof. by split_and!. Qed.

Lemma client_applies :
  applies (ipcp_generate_config_options client_third) (encode_options handed_out)
    (Build_driver_result (ipcp_generate_config_options client_third) None []).
Proof.
destruct client_third_addrs as (Hs & Hl & H1 & H2). revert Hs Hl H1 H2.
generalize (ipcp_generate_config_options client_third). intros ipcp Hs Hl H1 H2.
split; [done|]. intros identifier. simpl driver_rca. unfold ipcp_rca. rewrite Hs.
rewrite all_options_ok; [|by intros iter s|apply handed_out_ok..]. unfold handed_out. cbn [fold_all].
rewrite (proj1 (rca_option_ok _ _ peer _ peer_ok)), bind_Ret.
rewrite (proj1 (proj2 (rca_option_ok _ _ d1 _ d1_ok))), bind_Ret.
rewrite (proj2 (proj2 (rca_option_ok _ _ d2 _ d2_ok))), !bind_Ret. by rewrite set_same.
Qed.

Lemma second_options_encode : ipcp_options client_second = encode_options second_options.
Proof. done. Qed.

Lemma third_options_encode : ipcp_options client_third = encode_options handed_out.
Proof.
unfold addr_ok in *. unfold ipcp_options, encode_options, encode_option, handed_out. simpl.
by rewrite peer_ok, d1_ok, d2_ok, !app_nil_r.
Qed.

(** Both ends have their request on the way. *)
Lemma ipcp_converges (client server : pppcp_data ipcp_data) :
  ready client -> state client = REQSENT -> priv client = client_data -> local_data client = encode_options first_options ->
  ready server -> state server = REQSENT -> priv server = server_data -> local_data server = encode_options server_options ->
  failure_counter server = 0 -> max_failure server = MAX_IPCP_FAILURE ->
  exists l r ol or, nsteps (delivers (driver1 := ipcp_proto) (driver2 := ipcp_proto)) 8 (Link client server [own_request client] [own_request server] [] []) (Link l r [] [] ol or)
    /\ state l = OPENED /\ state r = OPENED /\ timers l = [] /\ timers r = []
    /\ last ol = Some (Call (ppp_ipcp_up_notify (non_empty (inet_ntop peer)) (non_empty (inet_ntop ip))
                               (non_empty (inet_ntop d1)) (non_empty (inet_ntop d2))))
    /\ last or = Some (Call (ppp_ipcp_up_notify (non_empty (inet_ntop ip)) (non_empty (inet_ntop peer))
                               (non_empty (inet_ntop d1)) (non_empty (inet_ntop d2)))).
Proof.
intros Hrc Hsc Hpc Hlc Hrs Hss Hps Hls Hfs Hms.
assert (@negotiating ipcp_data ipcp_call ipcp_proto) as Hneg by done.
assert (fits (zlen (encode_options server_options))) as Hfits_s.
{ destruct Hrs as (_ & Hlok & _). rewrite <- Hls, zlen_local_data by done. apply Hlok. }
assert (asking client = client) as Hac by (unfold asking; by rewrite Hsc).
assert (asking server = server) as Has by (unfold asking; by rewrite Hss).
assert (opening client = []) as Hoc by (unfold opening; by rewrite Hsc).
unfold own_request. rewrite Hac, Has, Hlc, Hls.
(* the server rejects what it does not know *)
destruct (request_refused server (config_identifier client) (encode_options first_options) RCR_REJECT (filled 30 rejected_options)
  (encode_options rejected_options) (Build_driver_result server_data None [])) as (r1 & Hr1 & Sr1 & Pr1 & Er1 & Fr1); try done.
{ by left. } { apply Hrs. } { rewrite Hps. apply server_refuses_first. }
simpl in Fr1. rewrite Hfs in Fr1. destruct (same_request_local server r1 Er1) as [Lr1 Dr1]; [apply Hrs|].
destruct (Er1) as (_ & _ & Ir1 & Mr1).
(* the client accepts the server's address and drops the rejected options *)
destruct (request_accepted client (config_identifier server) (encode_options server_options) (Build_driver_result client_accepted None []) Hneg Hrc Hfits_s)
  as (l1 & Hl1 & Sl1 & Pl1 & Ll1 & Dl1 & Il1); [rewrite Hpc; apply client_accepts|].
rewrite Hac in Il1. rewrite Hoc in Hl1. simpl new_priv in Pl1.
destruct (client_asks_again l1 CONFIGURE_REJECT ipcp_rcn_rej (encode_options rejected_options) client_second)
  as (l2 & Hl2 & Sl2 & Pl2 & Ll2 & Dl2); try done; [by right|rewrite Pl1; apply client_drops_nbns|].
rewrite Il1 in Hl2. rewrite second_options_encode in Hl2.
(* the server has its request acknowledged and suggests its addresses *)
rewrite Hss in Sr1.
destruct (ack_applied_first r1 (encode_options server_options) (Build_driver_result server_data None []) Hneg Sr1 Lr1)
  as (r2 & Hr2 & Sr2 & Pr2 & Fr2 & Er2); [by rewrite Dr1|by rewrite Pr1; split|].
rewrite Ir1 in Hr2. destruct (Er2) as (_ & _ & _ & Mr2).
destruct (request_refused r2 (config_identifier l2) (encode_options second_options) RCR_NAK (encode_options handed_out)
  (encode_options handed_out) (Build_driver_result server_data None [])) as (r3 & Hr3 & Sr3 & Pr3 & Er3 & Fr3); try done.
{ by right. } { rewrite Fr2, Fr1, Mr2, Mr1, Hms. done. } { apply handed_out_ok. } { by rewrite take_ge. }
{ rewrite Pr2. apply server_suggests. }
simpl in Fr3. rewrite Fr2, Fr1 in Fr3. destruct (Er3) as (_ & _ & _ & Mr3). rewrite Sr2 in Sr3.
(* the client takes them, and asks for them *)
destruct (client_asks_again l2 CONFIGURE_NAK ipcp_rcn_nak (encode_options handed_out) client_third)
  as (l3 & Hl3 & Sl3 & Pl3 & Ll3 & Dl3); try done; [by left|rewrite Pl2; apply client_takes_addresses|].
rewrite third_options_encode in Hl3, Dl3.
destruct (request_accepted_last r3 (config_identifier l3) (encode_options handed_out) (Build_driver_result server_data None []) Hneg Sr3)
  as (r4 & Hr4 & Sr4 & Tr4 & _); [by rewrite Fr3, Mr3, Mr2, Mr1, Hms|apply handed_out_ok|rewrite Pr3; apply server_accepts|].
destruct (ack_applied l3 (encode_options handed_out) (Build_driver_result (ipcp_generate_config_options client_third) None []) Hneg Sl3 Ll3 Dl3) as (l4 & Hl4 & Sl4 & Tl4);
  [rewrite Pl3; apply client_applies|].
exists l4, r4. do 2 eexists. split.
- eapply nsteps_l; [by apply DeliverRight|]. eapply nsteps_l; [by apply DeliverLeft|]. simpl app.
  eapply nsteps_l; [by apply DeliverLeft|]. simpl app. eapply nsteps_l; [by apply DeliverRight|]. simpl app.
  eapply nsteps_l; [by apply DeliverRight|]. simpl app. eapply nsteps_l; [by apply DeliverLeft|]. simpl app.
  eapply nsteps_l; [by apply DeliverRight|]. simpl app. eapply nsteps_l; [by apply DeliverLeft|]. simpl app. apply nsteps_O.
- split_and!; try done; by rewrite !last_app.
Qed.
End Agreement.

Lemma inet_ntop_non_empty a : addr_ok a -> non_empty (inet_ntop a) = Some (inet_ntop a).
Proof.
unfold addr_ok. destruct a as [|b0 [|b1 l]]; [done..|]. intros _. unfold inet_ntop. cbn [map String.concat].
by destruct (pretty (Z.to_N b0)).
Qed.

(** C9: an IPCP client ends with the addresses its server hands out.  Take a
    client and a server with any own address (or none), that hands out an address
    and two name servers, none of them 0.0.0.0, and let both have signalled OPEN
    and UP.  In whatever order the packets are delivered the negotiation takes at
    most eight deliveries, and when nothing is left on the way both ends are
    OPENED with no timer pending, and the last thing each has done is to report
    the link: the client with the address and the name servers the server handed
    out and the server's own address as its peer, the server with its own address
    and that of the client.  The three addresses must be there: with a second
    name server 0.0.0.0 the client never opens
    ([ipcp_server_without_dns_never_opens]). *)
Theorem ipcp_agreement ip peer d1 d2 :
  addr_ok ip -> addr_ok peer -> addr_ok d1 -> addr_ok d2 ->
  peer <> no_addr -> d1 <> no_addr -> d2 <> no_addr ->
  exists client server,
    pppcp_run [SignalOpen; SignalUp] (ipcp_new false no_addr)
      = Ret (client, [Layer LayerStarted; Transmit IPCP_PROTO (own_request client)])
    /\ pppcp_run [SignalOpen; SignalUp] (ipcp_server ip peer d1 d2)
      = Ret (server, [Layer LayerStarted; Transmit IPCP_PROTO (own_request server)])
    /\ forall k n, nsteps (delivers (driver1 := ipcp_proto) (driver2 := ipcp_proto)) k
                     (Link client server [own_request client] [own_request server] [] []) n ->
      (k <= 8)%nat
      /\ (~ (exists n', delivers (driver1 := ipcp_proto) (driver2 := ipcp_proto) n n') ->
          state (left_end n) = OPENED /\ state (right_end n) = OPENED
          /\ timers (left_end n) = [] /\ timers (right_end n) = []
          /\ last (left_log n) = Some (Call (ppp_ipcp_up_notify (Some (inet_ntop peer)) (Some (inet_ntop ip))
                                               (Some (inet_ntop d1)) (Some (inet_ntop d2))))
          /\ last (right_log n) = Some (Call (ppp_ipcp_up_notify (Some (inet_ntop ip)) (Some (inet_ntop peer))
                                               (Some (inet_ntop d1)) (Some (inet_ntop d2))))).
Proof.
intros Hip Hpeer Hd1 Hd2 Np N1 N2.
destruct (server_options_encode ip peer d1 d2 Hip) as [Hls Hlok].
destruct (ipcp_opens (ipcp_new false no_addr)) as (client & Hc & Rc & Sc & Pc & Lc & _); [done|by vm_compute|done|].
destruct (ipcp_opens (ipcp_server ip peer d1 d2)) as (server & Hs & Rs & Ss & Ps & Ls & Fs & Ms); [done|done|done|].
exists client, server. split; [done|]. split; [done|]. intros k n Hrun.
destruct (ipcp_converges ip peer d1 d2 Hip Hpeer Hd1 Hd2 Np N1 N2 client server) as (l & r & ol & or & Height & Hend); try assumption.
- by rewrite Ls, Hls.
- destruct (delivers_unique k 8 _ n _ Hrun Height (settled_empty _ _ _ _)) as [Hk Hsame].
  split; [done|]. intros Hsettled. rewrite (Hsame Hsettled). rewrite !inet_ntop_non_empty in Hend by done. exact Hend.
Qed.

Definition after_opening (d : pppcp_data ipcp_data) : pppcp_data ipcp_data :=
  match pppcp_run [SignalOpen; SignalUp] d with Ret (d, _) => d | _ => d end.

Lemma ipcp_agreement_witness :
  exists client server n,
    nsteps (delivers (driver1 := ipcp_proto) (driver2 := ipcp_proto)) 8
      (Link client server [own_request client] [own_request server] [] []) n
    /\ state (left_end n) = OPENED
    /\ last (left_log n) = Some (Call (ppp_ipcp_up_notify (Some "10.0.0.2") (Some "10.0.0.1") (Some "8.8.8.8") (Some "8.8.4.4"))).
Proof.
destruct (ipcp_agreement [10; 0; 0; 1] [10; 0; 0; 2] [8; 8; 8; 8] [8; 8; 4; 4]) as (client & server & Hc & Hs & Hall); try done.
exists client, server.
assert (exists n, nsteps (delivers (driver1 := ipcp_proto) (driver2 := ipcp_proto)) 8
  (Link client server [own_request client] [own_request server] [] []) n /\ to_right n = [] /\ to_left n = []) as (n & Hn & Hr & Hl).
{ assert (client = after_opening (ipcp_new false no_addr)) as -> by (unfold after_opening; by rewrite Hc).
  assert (server = after_opening (ipcp_server [10; 0; 0; 1] [10; 0; 0; 2] [8; 8; 8; 8] [8; 8; 4; 4])) as ->
    by (unfold after_opening; by rewrite Hs).
  eexists. split.
  - eapply nsteps_l; [eapply DeliverRight; by vm_compute|]. eapply nsteps_l; [eapply DeliverLeft; by vm_compute|].
    eapply nsteps_l; [eapply DeliverLeft; by vm_compute|]. eapply nsteps_l; [eapply DeliverRight; by vm_compute|].
    eapply nsteps_l; [eapply DeliverRight; by vm_compute|]. eapply nsteps_l; [eapply DeliverLeft; by vm_compute|].
    eapply nsteps_l; [eapply DeliverRight; by vm_compute|]. eapply nsteps_l; [eapply DeliverLeft; by vm_compute|]. apply nsteps_O.
  - done. }
exists n. split; [done|]. destruct (Hall 8%nat n Hn) as [_ Hend].
destruct Hend as (Hol & _ & _ & _ & Hlast & _).
{ intros [n' Hd]. by inversion Hd; subst; simpl in *. }
split; [exact Hol|exact Hlast].
Defined.

(** * Where the driver fails *)

(** Six address options with another address than the server's: the sixth is
    written behind the buffer of the suggestions. *)
Lemma ipcp_server_nak_overflow :
  let server := priv (ipcp_server [10; 0; 0; 1] [10; 0; 0; 2] [8; 8; 8; 8] [8; 8; 4; 4]) in
  ipcp_rcr server (cp_packet CONFIGURE_REQUEST 1 (encode_options (replicate 6 (IP_ADDRESS, no_addr)))) = Ub.
Proof. by vm_compute. Qed.

(** A client counts the options to reject in an octet: 256 octets of them are
    accepted. *)
Lemma ipcp_client_accepts_unknown :
  let client := priv (ipcp_new false no_addr) in
  exists r, ipcp_rcr client (cp_packet CONFIGURE_REQUEST 1 (encode_options [(200, replicate 126 0); (201, replicate 126 0)]))
    = Ret (RCR_ACCEPT, None, r).
Proof. eexists. by vm_compute. Qed.

(** A client that has taken [n] suggestions, and its next request. *)
Fixpoint ask (n : nat) (server client : pppcp_data ipcp_data) (request : list Z) : pppcp_data ipcp_data * pppcp_data ipcp_data * list Z :=
  match n with
  | O => (server, client, request)
  | S n =>
    match pppcp_process_packet request server with
    | Ret (server, [Transmit _ answer]) =>
      match pppcp_process_packet answer client with
      | Ret (client, [Transmit _ request]) => ask n server client request
      | _ => (server, client, [])
      end
    | _ => (server, client, [])
    end
  end.

(** A server without a second name server suggests 0.0.0.0 for it however often
    it is asked for, and after 100 times refuses every request, even an empty
    one: the client is asked to give up all its options, and never gets up. *)
Lemma ipcp_server_without_dns_never_opens :
  let server := after_opening (ipcp_server [10; 0; 0; 1] [10; 0; 0; 2] [8; 8; 8; 8] no_addr) in
  let client := after_opening (ipcp_new false no_addr) in
  match ask 150 server client (own_request client) with
  | (server, client, request) =>
    state server = REQSENT /\ state client = REQSENT /\ local_data client = [] /\ failure_counter server = 100
    /\ drop 4 request = []
    /\ forall identifier, exists server', pppcp_process_packet (cp_packet CONFIGURE_REQUEST identifier []) server
         = Ret (server', [Transmit IPCP_PROTO (cp_packet CONFIGURE_REJECT identifier [])])
         /\ state server' = REQSENT /\ failure_counter server' = 100
  end.
Proof.
intros server client.
set (x := ask 150 server client (own_request client)). vm_compute in x. unfold x. cbv iota beta.
split_and!; try reflexivity. intros identifier. eexists. vm_compute. by split_and!.
Qed.
