(* ===== verification/PppReport.v ===== *)
(** What a step of an automaton of PppCp reports to the link: the layer functions
    it ends with, and the packets and driver calls before them.  For the two
    drivers of a link, PppLcp and PppIpcp; and that no step of theirs fails for
    lack of fuel ([shallow]). *)
From S2P Require Import Prelude RingBuffer Hdlc PppCp PppLcp PppIpcp.

(** * What a step of an automaton reports *)

Section Report.
Context {P E : Type} {driver : pppcp_proto P E}.
Implicit Types d : pppcp_data P.

(** The calls that a driver makes while it looks at options, as opposed to those
    of its layer functions. *)
Context (quiet : E -> Prop).

Class quiet_driver : Prop := {
  quiet_rca : forall p packet r, driver_rca p packet = Ret r -> Forall quiet (calls r);
  quiet_rcn_nak : forall p packet r, driver_rcn_nak p packet = Ret r -> Forall quiet (calls r);
  quiet_rcn_rej : forall p packet r, driver_rcn_rej p packet = Ret r -> Forall quiet (calls r);
  quiet_rcr : forall p packet result options r, driver_rcr p packet = Ret (result, options, r) -> Forall quiet (calls r)
}.
Context `{!quiet_driver}.

Definition quiet_output (o : output E) : Prop :=
  match o with Layer _ => False | Call c => quiet c | _ => True end.

(** How a layer function goes with the states before and after. *)
Definition layer_change (e : layer_event) (s s' : Z) : Prop :=
  match e with
  | LayerUp => s <> OPENED /\ s' = OPENED
  | LayerDown => s = OPENED /\ s' <> OPENED
  | LayerStarted => s <> OPENED /\ s' = STARTING
  | LayerFinished => s <> OPENED /\ (s' = INITIAL \/ s' = CLOSED \/ s' = STOPPED)
  end.

Definition change (e : option layer_event) (s s' : Z) : Prop :=
  match e with Some e => layer_change e s s' | None => s = OPENED <-> s' = OPENED end.

(** The calls of a layer function. *)
Definition layer_calls (e : option layer_event) (o : list (output E)) : Prop :=
  match e with
  | Some e => exists p, o = Layer e :: map Call (calls (driver_layer e p))
  | None => o = []
  end.

Definition mute (a : action) : Prop := forall d d' o, a d = Ret (d', o) -> Forall quiet_output o.

Lemma mute_skip : mute skip.
Proof. intros d d' o [= <- <-]. by apply Forall_nil. Qed.

Lemma mute_seq a b : mute a -> mute b -> mute (seq a b).
Proof. intros Ha Hb d d' o (d1 & o1 & o2 & H1 & H2 & ->)%seq_inv. apply Forall_app. split; eauto. Qed.

Lemma mute_run_if (c : bool) a b : mute a -> mute b -> mute (run_if c a b).
Proof. by destruct c. Qed.

Lemma mute_send f a : one_packet f a -> mute a.
Proof. intros Ha d d' o Hd. destruct (Ha d d' o Hd) as (_ & info & ->). by apply Forall_singleton. Qed.

Lemma mute_initialize t : mute (pppcp_initialize_restart_count t).
Proof. intros d d' o [= <- <-]. by apply Forall_nil. Qed.

Lemma mute_zero t : mute (pppcp_zero_restart_count t).
Proof. intros d d' o [= <- <-]. by apply Forall_nil. Qed.

Lemma actions_mute actions new packet : mute (pppcp_actions actions new packet).
Proof.
unfold pppcp_actions.
repeat first [apply mute_seq | apply mute_run_if | apply mute_skip | apply mute_initialize | apply mute_zero
  | eapply mute_send; first [apply send_configure_request_sends | apply send_terminate_request_sends
    | apply send_configure_ack_sends | apply send_configure_nak_sends | apply send_terminate_ack_sends
    | apply send_code_reject_sends | apply send_echo_reply_sends]].
Qed.

Lemma quiet_calls (l : list E) : Forall quiet l -> Forall quiet_output (map Call l).
Proof. intros Hl. by apply Forall_map. Qed.

Lemma effects_quiet (r : driver_result P E) d d' o :
  driver_effects r d = Ret (d', o) -> Forall quiet (calls r) -> Forall quiet_output o /\ state d' = state d.
Proof.
unfold driver_effects. destruct (new_local r) as [[opts n]|]; intros [= <- <-] Hr; (split; [by apply quiet_calls|done]).
Qed.

(** The entries of the table agree with [layer_change]. *)
Definition entry_layer (actions : Z) : option layer_event :=
  if has actions TLS then Some LayerStarted else if has actions TLU then Some LayerUp
  else if has actions TLD then Some LayerDown else if has actions TLF then Some LayerFinished else None.

Definition change_ok (actions s : Z) : bool :=
  let new := Z.land actions 0xf in
  has actions INV ||
  match entry_layer actions with
  | None => eqb (s =? OPENED) (new =? OPENED)
  | Some LayerUp => negb (s =? OPENED) && (new =? OPENED)
  | Some LayerDown => (s =? OPENED) && negb (new =? OPENED)
  | Some LayerStarted => negb (s =? OPENED) && (new =? STARTING)
  | Some LayerFinished => negb (s =? OPENED) && ((new =? INITIAL) || (new =? CLOSED) || (new =? STOPPED))
  end.

Lemma table_changes :
  forallb (fun row => forallb (fun '(s, actions) => change_ok actions (Z.of_nat s)) (imap (fun s actions => (s, actions)) row))
    cp_transitions = true.
Proof. by vm_compute. Qed.

Lemma rd_inv {A} (l : list A) i x : rd l i = Ret x -> 0 <= i /\ l !! Z.to_nat i = Some x.
Proof.
unfold rd. destruct (i <? 0) eqn:Hi; [done|]. destruct (l !! Z.to_nat i) eqn:Hl; [|done]. intros [= ->]. bool_to_prop. by split.
Qed.

Lemma table_change event s row actions :
  rd cp_transitions event = Ret row -> rd row s = Ret actions -> change_ok actions s = true.
Proof.
intros [_ Hrow]%rd_inv [Hs Hact]%rd_inv. pose proof table_changes as Hall. rewrite forallb_forall in Hall.
assert (In row cp_transitions) as Hin by (apply list_elem_of_In, list_elem_of_lookup; by eexists).
apply Hall in Hin. rewrite forallb_forall in Hin. specialize (Hin (Z.to_nat s, actions)). cbv beta iota in Hin.
rewrite Z2Nat.id in Hin by done.
apply Hin. apply list_elem_of_In, list_elem_of_lookup. exists (Z.to_nat s). by rewrite list_lookup_imap, Hact.
Qed.

Lemma layer_actions_report actions d d' o :
  pppcp_layer_actions actions d = Ret (d', o) -> state d' = state d /\ layer_calls (entry_layer actions) o.
Proof.
unfold pppcp_layer_actions, entry_layer, run_if.
destruct (has actions TLS); [|destruct (has actions TLU); [|destruct (has actions TLD); [|destruct (has actions TLF)]]];
  try (intros [= <- <-]; done);
  (match goal with |- this_layer ?e _ = _ -> _ => destruct (this_layer_calls e d) as (d1 & -> & Hs & _) end;
   intros [= <- <-]; split; [done|by eexists]).
Qed.

(** The state an event leads to, and the layer function it calls. *)
Definition entry (event s : Z) : option Z :=
  match rd cp_transitions event ≫= fun row => rd row s with
  | Ret actions => if has actions INV then None else Some actions
  | _ => None
  end.

Definition next_state (event s : Z) : Z := match entry event s with Some actions => Z.land actions 0xf | None => s end.
Definition next_layer (event s : Z) : option layer_event := match entry event s with Some actions => entry_layer actions | None => None end.

Lemma event_next event packet d d' o :
  pppcp_generate_event event packet d = Ret (d', o) ->
  state d' = next_state event (state d)
  /\ exists o1 o2, o = o1 ++ o2 /\ Forall quiet_output o1 /\ layer_calls (next_layer event (state d)) o2.
Proof.
unfold pppcp_generate_event, next_state, next_layer, entry. destruct (RXR <? event) eqn:Hmax.
{ intros [= <- <-]. assert (rd cp_transitions event = Ub) as ->.
  { unfold rd. bool_to_prop. unfold RXR in *. rewrite (proj2 (Z.ltb_ge _ _)) by lia. rewrite lookup_ge_None_2; [done|simpl; lia]. }
  simp_res. split; [done|]. exists [Illegal (state d) event], []. split; [done|]. split; [by apply Forall_singleton|done]. }
destruct (rd cp_transitions event) as [row| |]; simp_res; try done.
destruct (rd row (state d)) as [actions| |]; simp_res; try done.
destruct (has actions INV).
{ intros [= <- <-]. split; [done|]. exists [Illegal (state d) event], []. split; [done|]. split; [by apply Forall_singleton|done]. }
intros (d1 & o1 & p1 & H1 & (d2 & o2 & o3 & H2 & H3 & ->)%seq_inv & ->)%seq_inv.
apply actions_mute in H1. apply layer_actions_report in H3 as [Hs3 Hl3].
rewrite transition_entered in H2. injection H2 as <- <-.
split; [rewrite Hs3; unfold entered, pppcp_transition_state; by destruct (_ || _)|].
by exists o1, o3.
Qed.

Lemma next_change event s : change (next_layer event s) s (next_state event s).
Proof.
unfold change, next_layer, next_state, entry.
destruct (rd cp_transitions event) as [row| |] eqn:Hrow; simp_res; try done.
destruct (rd row s) as [actions| |] eqn:Hact; simp_res; try done.
pose proof (table_change _ _ _ _ Hrow Hact) as Hok. unfold change_ok in Hok. destruct (has actions INV); [done|].
simpl orb in Hok. destruct (entry_layer actions) as [e|].
- unfold layer_change. destruct e; bool_to_prop; try (by split); lia.
- apply eqb_prop in Hok. rewrite <- !Z.eqb_eq. by rewrite Hok.
Qed.

(** A step sends packets and makes calls of settings, and ends with the calls of
    one layer function or none. *)
Definition reports (d d' : pppcp_data P) (o : list (output E)) : Prop :=
  exists o1 o2 e, o = o1 ++ o2 /\ Forall quiet_output o1 /\ layer_calls e o2 /\ change e (state d) (state d').

Lemma reports_nothing d d' o : Forall quiet_output o -> state d' = state d -> reports d d' o.
Proof. intros Ho Hs. exists o, [], None. rewrite app_nil_r, Hs. by split_and!. Qed.

Lemma event_reports event packet d d' o : pppcp_generate_event event packet d = Ret (d', o) -> reports d d' o.
Proof.
intros (Hs & o1 & o2 & -> & Ho1 & Ho2)%event_next. exists o1, o2, (next_layer event (state d)).
rewrite Hs. split_and!; try done. apply next_change.
Qed.

(** The functions of [packet_ops] change no state and call no layer function. *)
Definition op_quiet (op : @packet_op P E) : Prop := forall packet d event d' o,
  op packet d = Ret (event, d', o) -> Forall quiet_output o /\ state d' = state d.

Lemma simple_op_quiet event : op_quiet (fun _ d => Ret (event, d, [])).
Proof. intros packet d event' d' o [= <- <- <-]. split; [by apply Forall_nil|done]. Qed.

Lemma configure_request_quiet : op_quiet pppcp_process_configure_request.
Proof.
intros packet d event d' o. unfold pppcp_process_configure_request. destruct (_ <=? _).
{ intros [= <- <- <-]. split; [by apply Forall_nil|done]. }
destruct (driver_rcr (priv d) packet) as [[[result options] r]| |] eqn:Hr; simp_res; try done.
destruct (driver_effects r d) as [[d1 o1]| |] eqn:He; simp_res; try done.
apply effects_quiet in He as [Ho Hs]; [|by eapply quiet_rcr].
destruct (default _ options) as [n l]. destruct result; intros [= <- <- <-]; by split.
Qed.

Lemma configure_ack_quiet : op_quiet pppcp_process_configure_ack.
Proof.
intros packet d event d' o. unfold pppcp_process_configure_ack.
destruct (packet_length packet) as [n| |]; simp_res; try done.
destruct (rd packet 1) as [id| |]; simp_res; try done.
assert (forall e d'' o'', Ret (0, d, []) = Ret (e, d'', o'') -> Forall quiet_output o'' /\ state d'' = state d) as Hstay.
{ intros e d'' o'' [= <- <- <-]. split; [by apply Forall_nil|done]. }
destruct (negb _); [apply Hstay|]. destruct (negb _); [apply Hstay|].
destruct (slice _ _ _) as [mine| |]; simp_res; try done.
destruct (packet_data packet _) as [theirs| |]; simp_res; try done.
destruct (bool_decide _); [apply Hstay|].
destruct (driver_rca (priv d) packet) as [r| |] eqn:Hr; simp_res; try done.
destruct (driver_effects r d) as [[d1 o1]| |] eqn:He; simp_res; try done.
apply effects_quiet in He as [Ho Hs]; [|by eapply quiet_rca]. intros [= <- <- <-]. by split.
Qed.

Lemma configure_refusal_quiet (f : P -> list Z -> res (driver_result P E)) :
  (forall p packet r, f p packet = Ret r -> Forall quiet (calls r)) -> op_quiet (process_configure_refusal f).
Proof.
intros Hf packet d event d' o. unfold process_configure_refusal.
destruct (rd packet 1) as [id| |]; simp_res; try done.
destruct (negb _); [intros [= <- <- <-]; split; [by apply Forall_nil|done]|].
destruct (f (priv d) packet) as [r| |] eqn:Hr; simp_res; try done.
destruct (driver_effects r d) as [[d1 o1]| |] eqn:He; simp_res; try done.
apply effects_quiet in He as [Ho Hs]; [|by eapply Hf]. intros [= <- <- <-]. by split.
Qed.

Lemma packet_ops_quiet : Forall op_quiet packet_ops.
Proof.
repeat (apply Forall_cons_2; [first [apply simple_op_quiet | apply configure_request_quiet | apply configure_ack_quiet
  | apply configure_refusal_quiet; first [apply quiet_rcn_nak | apply quiet_rcn_rej]]|]). by apply Forall_nil.
Qed.

Lemma process_packet_reports packet d d' o : pppcp_process_packet packet d = Ret (d', o) -> reports d d' o.
Proof.
unfold pppcp_process_packet. destruct (_ <? _).
{ intros [= <- <-]. apply reports_nothing; [by apply Forall_nil|done]. }
destruct (rd packet 0) as [code| |]; simp_res; try done. destruct (32 <=? code); [done|].
destruct (if negb _ then _ else _) as [[[event d1] o1]| |] eqn:Hop; simp_res; try done.
assert (Forall quiet_output o1 /\ state d1 = state d) as [Ho1 Hs1].
{ destruct (negb _); [injection Hop as <- <- <-; split; [by apply Forall_nil|done]|].
  destruct (rd packet_ops (code - 1)) as [op| |] eqn:Hrd; simp_res; try done.
  apply rd_inv in Hrd as [_ Hrd]. by apply (Forall_lookup_1 _ _ _ _ packet_ops_quiet Hrd packet d event d1 o1). }
destruct (event =? 0); [intros [= <- <-]; by apply reports_nothing|].
destruct (pppcp_generate_event event packet d1) as [[d2 o2]| |] eqn:Hgen; simp_res; try done. intros [= <- <-].
apply event_reports in Hgen as (p1 & p2 & e & -> & Hp1 & Hp2 & Hch). rewrite Hs1 in Hch.
exists (o1 ++ p1), p2, e. rewrite app_assoc. split_and!; try done. by apply Forall_app.
Qed.

Lemma step_reports i d d' o : pppcp_step i d = Ret (d', o) -> reports d d' o.
Proof.
destruct i; simpl; try apply event_reports.
- apply process_packet_reports.
- destruct (timers d) as [|t l].
  + intros [= <- <-]. apply reports_nothing; [by apply Forall_nil|done].
  + unfold pppcp_timeout. cbv zeta. destruct (0 <? _); intros Hd; by apply event_reports in Hd.
- unfold pppcp_send_protocol_reject. destruct (negb _).
  { intros [= <- <-]. apply reports_nothing; [by apply Forall_nil|done]. }
  cbv zeta. peel. intros [-> [info ->]]%transmit_inv. apply reports_nothing; [by apply Forall_singleton|done].
- intros [= <- <-]. apply reports_nothing; [by apply Forall_nil|done].
Qed.

(** The signals run one event. *)
Definition signal_event (i : input) : option Z :=
  match i with SignalUp => Some UP | SignalDown => Some DOWN | SignalOpen => Some OPEN | SignalClose => Some CLOSE | _ => None end.

Lemma step_next i event d d' o :
  signal_event i = Some event -> pppcp_step i d = Ret (d', o) ->
  exists o1 o2, o = o1 ++ o2 /\ Forall quiet_output o1 /\ layer_calls (next_layer event (state d)) o2
    /\ state d' = next_state event (state d).
Proof. destruct i; intros [= <-] (Hs & o1 & o2 & Ho)%event_next; exists o1, o2; by destruct Ho as (? & ? & ?). Qed.
End Report.

(** * The drivers call nothing but settings while they look at options *)

Lemma each_option_keeps {S R} (f : ppp_option_iter -> S -> res (S + R)) (I : S -> Prop) (J : R -> Prop) fuel : forall iter s r,
  (forall iter s r, I s -> f iter s = Ret r -> match r with inl s' => I s' | inr x => J x end) ->
  I s -> each_option f fuel iter s = Ret r -> match r with inl s' => I s' | inr x => J x end.
Proof.
induction fuel as [|fuel IH]; intros iter s r Hf Hs; simpl; [done|].
destruct (ppp_option_iter_next iter) as [[iter' more]| |]; simp_res; try done.
destruct more; [|by intros [= <-]].
destruct (f iter' s) as [r'| |] eqn:Hr; simp_res; try done. apply Hf in Hr; [|done].
destruct r' as [s'|x]; [by apply IH|by intros [= <-]].
Qed.

Lemma all_options_keeps {S} (f : ppp_option_iter -> S -> res S) (I : S -> Prop) packet s s' :
  (forall iter s s', I s -> f iter s = Ret s' -> I s') -> I s -> all_options f packet s = Ret s' -> I s'.
Proof.
intros Hf Hs. unfold all_options, for_options. destruct (ppp_option_iter_init packet) as [iter| |]; simp_res; try done.
destruct (each_option _ _ _ _) as [r| |] eqn:Hr; simp_res; try done.
apply (each_option_keeps _ I (fun _ => True)) in Hr; [destruct r as [s''|[]]; by intros [= <-]| |done].
intros iter' s0 r0 H0. unfold stay. destruct (f iter' s0) as [s1| |] eqn:H1; simp_res; try done. intros [= <-]. by eapply Hf.
Qed.

Definition setting_call (c : ppp_call) : Prop :=
  match c with ppp_lcp_up_notify | ppp_lcp_down_notify | ppp_lcp_finished_notify => False | _ => True end.

Lemma snoc_setting l c : Forall setting_call l -> setting_call c -> Forall setting_call (l ++ [c]).
Proof. intros ? ?. apply Forall_app. split; [done|by apply Forall_singleton]. Qed.

#[export] Instance lcp_quiet auth : quiet_driver (driver := lcp_proto auth) setting_call.
Proof.
split; simpl.
- intros p packet r. unfold lcp_rca. destruct (all_options _ _ _) as [l| |] eqn:Hl; simp_res; try done. intros [= <-]. simpl.
  apply (all_options_keeps _ (Forall setting_call)) in Hl; [done| |by apply Forall_nil].
  intros iter l0 l1 Hl0. destruct (_ =? _); [|by intros [= <-]].
  destruct (get_host_long _) as [v| |]; simp_res; try done. intros [= <-]. by apply snoc_setting.
- intros p packet r. unfold lcp_rcn_nak. destruct (all_options _ _ _) as [l| |]; simp_res; try done. intros [= <-]. by apply Forall_nil.
- intros p packet r [= <-]. by apply Forall_nil.
- intros p packet result options r. unfold lcp_rcr. destruct (for_options _ _ _) as [r0| |]; simp_res; try done.
  destruct r0 as [_|[result' new_options]]; [|intros [= <- <- <-]; by apply Forall_nil].
  destruct (all_options _ _ _) as [l| |] eqn:Hl; simp_res; try done. intros [= <- <- <-]. simpl.
  apply (all_options_keeps _ (Forall setting_call)) in Hl; [done| |by apply Forall_nil].
  intros iter l0 l1 Hl0. unfold lcp_rcr_apply.
  repeat match goal with
  | |- (if ?c then _ else _) = Ret _ -> _ => destruct c
  | |- (?m ≫= _) = Ret _ -> _ => destruct m as [?| |]; simp_res; try done
  end; intros [= <-]; try done; try (by apply snoc_setting); destruct (has _ _); first [done|by apply snoc_setting].
Qed.

#[export] Instance ipcp_quiet : quiet_driver (driver := ipcp_proto) (fun _ => False).
Proof.
split; simpl.
- intros p packet r. unfold ipcp_rca. destruct (is_server p); [intros [= <-]; by apply Forall_nil|].
  destruct (all_options _ _ _); simp_res; try done. intros [= <-]. by apply Forall_nil.
- intros p packet r. unfold ipcp_rcn_nak. destruct (is_server p); [intros [= <-]; by apply Forall_nil|].
  destruct (all_options _ _ _); simp_res; try done. intros [= <-]. by apply Forall_nil.
- intros p packet r. unfold ipcp_rcn_rej.
  destruct (all_options _ _ _); simp_res; try done. intros [= <-]. by apply Forall_nil.
- intros p packet result options r. unfold ipcp_rcr, ipcp_server_rcr, ipcp_client_rcr.
  destruct (is_server p); (destruct (packet_length packet) as [n| |]; simp_res; try done);
    (destruct (all_options _ _ _) as [s| |]; simp_res; try done).
  + destruct (0 <? rej_len s); [intros [= <- <- <-]; by apply Forall_nil|].
    destruct (0 <? len s); [|intros [= <- <- <-]; by apply Forall_nil].
    destruct (slice _ _ _); simp_res; try done. intros [= <- <- <-]. by apply Forall_nil.
  + destruct s as [[ipcp' opts] n']. destruct (0 <? n'); intros [= <- <- <-]; by apply Forall_nil.
Qed.

(** * The calls of the automata among themselves end *)

(** [Err] stands for nesting that is too deep. *)
Definition shallow {A} (m : res A) : Prop := m <> Err.

Lemma shallow_Ret {A} (a : A) : shallow (Ret a).
Proof. done. Qed.
Lemma shallow_Ub {A} : shallow (@Ub A).
Proof. done. Qed.
Lemma shallow_bind {A B} (m : res A) (f : A -> res B) : shallow m -> (forall a, m = Ret a -> shallow (f a)) -> shallow (m ≫= f).
Proof. unfold shallow. destruct m; simpl; auto. Qed.
Lemma shallow_rd {A} (l : list A) i : shallow (rd l i).
Proof. unfold rd. destruct (i <? 0); [done|]. by destruct (l !! _). Qed.
Lemma shallow_wr {A} (l : list A) i x : shallow (wr l i x).
Proof. unfold wr. by destruct (_ && _). Qed.
Lemma shallow_slice {A} (l : list A) off n : shallow (slice l off n).
Proof. unfold slice. by destruct (_ && _). Qed.
Lemma shallow_blit {A} (l : list A) off src : shallow (blit l off src).
Proof. unfold blit. by destruct (_ && _). Qed.

Create HintDb shallow.
#[export] Hint Resolve shallow_Ret shallow_Ub shallow_rd shallow_wr shallow_slice shallow_blit : shallow.

(** Follows the code down to its reads and writes. *)
Ltac shallow :=
  repeat first
  [ progress auto with shallow nocore
  | apply shallow_slice
  | apply shallow_bind; [|intros ? _]
  | match goal with
    | |- shallow (if ?c then _ else _) => destruct c
    | |- shallow (match ?x with _ => _ end) => destruct x
    end ].

Lemma shallow_send_loop fuel accm wb avail wrap : forall data fcs escape o,
  shallow (send_loop fuel accm wb avail wrap data fcs escape o).
Proof. induction fuel as [|fuel IH]; intros data fcs escape o; simpl; unfold NEED_ESCAPE, out_step; shallow; apply IH. Qed.

Lemma shallow_hdlc_send h data : shallow (g_at_hdlc_send h data).
Proof.
unfold g_at_hdlc_send, send_buffer. apply shallow_bind; [shallow; by destruct (ring_buffer_new BUFFER_SIZE)|].
intros choice _. unfold send_frame, send_start, out_step. cbv zeta. shallow; apply shallow_send_loop.
Qed.
#[export] Hint Resolve shallow_hdlc_send : shallow.

Lemma shallow_each_option {S R} (f : ppp_option_iter -> S -> res (S + R)) fuel : forall iter s,
  (forall iter s, shallow (f iter s)) -> shallow (each_option f fuel iter s).
Proof.
induction fuel as [|fuel IH]; intros iter s Hf; simpl; [done|]. unfold ppp_option_iter_next.
apply shallow_bind; [shallow|]. intros [iter' more] _. destruct more; [|done].
apply shallow_bind; [apply Hf|]. intros [s'|r] _; [by apply IH|done].
Qed.

Lemma shallow_for_options {S R} (f : ppp_option_iter -> S -> res (S + R)) packet s :
  (forall iter s, shallow (f iter s)) -> shallow (for_options f packet s).
Proof.
intros Hf. unfold for_options. apply shallow_bind; [unfold ppp_option_iter_init, packet_length; shallow|].
intros iter _. by apply shallow_each_option.
Qed.

Lemma shallow_all_options {S} (f : ppp_option_iter -> S -> res S) packet s :
  (forall iter s, shallow (f iter s)) -> shallow (all_options f packet s).
Proof.
intros Hf. unfold all_options. apply shallow_bind; [|intros [s'|[]] _; done]. apply shallow_for_options.
intros iter s'. unfold stay. apply shallow_bind; [apply Hf|done].
Qed.

(** Drivers whose functions are. *)
Class shallow_driver {P E} (driver : pppcp_proto P E) : Prop := {
  shallow_rca : forall p packet, shallow (driver_rca p packet);
  shallow_rcn_nak : forall p packet, shallow (driver_rcn_nak p packet);
  shallow_rcn_rej : forall p packet, shallow (driver_rcn_rej p packet);
  shallow_rcr : forall p packet, shallow (driver_rcr p packet)
}.
#[export] Hint Resolve shallow_rca shallow_rcn_nak shallow_rcn_rej shallow_rcr : shallow.

#[export] Instance lcp_shallow auth : shallow_driver (lcp_proto auth).
Proof.
split; simpl; intros p packet.
- unfold lcp_rca. apply shallow_bind; [|done]. apply shallow_all_options. intros iter s. unfold get_host_long. shallow.
- unfold lcp_rcn_nak. apply shallow_bind; [|done]. apply shallow_all_options. intros iter s. unfold get_host_short. shallow.
- done.
- unfold lcp_rcr. apply shallow_bind.
  + apply shallow_for_options. intros iter s. unfold lcp_rcr_check, get_host_short, get_host_long. cbv zeta. shallow.
  + intros [s|[result opts]] _; [|done]. apply shallow_bind; [|done]. apply shallow_all_options. intros iter l.
    unfold lcp_rcr_apply, get_host_short, get_host_long. cbv zeta. shallow.
Qed.

Lemma shallow_copy_rejected iter max_len rej rej_len : shallow (copy_rejected iter max_len rej rej_len).
Proof. unfold copy_rejected. cbv zeta. shallow. Qed.
#[export] Hint Resolve shallow_copy_rejected : shallow.

#[export] Instance ipcp_shallow : shallow_driver ipcp_proto.
Proof.
split; simpl; intros p packet.
- unfold ipcp_rca. destruct (is_server p); [done|]. apply shallow_bind; [|done]. apply shallow_all_options. intros iter s.
  unfold ipcp_rca_option, get_addr. cbv zeta. shallow.
- unfold ipcp_rcn_nak. destruct (is_server p); [done|]. apply shallow_bind; [|done]. apply shallow_all_options. intros iter s.
  unfold ipcp_nak_option, get_addr. cbv zeta. shallow.
- unfold ipcp_rcn_rej. apply shallow_bind; [|done]. apply shallow_all_options. intros iter s. unfold ipcp_rej_option. cbv zeta. shallow.
- unfold ipcp_rcr, ipcp_server_rcr, ipcp_client_rcr, packet_length. cbv zeta.
  destruct (is_server p); (apply shallow_bind; [shallow|]; intros n _; apply shallow_bind; [|intros ? _; shallow]);
    apply shallow_all_options; intros iter s.
  + unfold ipcp_server_option, get_addr, FILL_IP. cbv zeta. shallow.
  + unfold ipcp_client_option, get_addr. destruct s as [[? ?] ?]. cbv zeta. shallow.
Qed.

Section ShallowSteps.
Context {P E : Type} {driver : pppcp_proto P E} `{!shallow_driver driver}.
Implicit Types d : pppcp_data P.

Lemma shallow_seq (a b : @action P E) d : (forall d, shallow (a d)) -> (forall d, shallow (b d)) -> shallow (seq a b d).
Proof. intros Ha Hb. unfold seq. apply shallow_bind; [done|]. intros [d1 o1] _. apply shallow_bind; [done|]. by intros [d2 o2] _. Qed.

Lemma shallow_event event packet d : shallow (pppcp_generate_event event packet d).
Proof.
unfold pppcp_generate_event. destruct (_ <? _); [done|]. apply shallow_bind; [shallow|]. intros row _.
apply shallow_bind; [shallow|]. intros actions _. cbv zeta. destruct (has actions INV); [done|].
apply shallow_seq; intros d1; [|apply shallow_seq; intros d2; [done|]].
- unfold pppcp_actions, run_if.
  repeat (apply shallow_seq; intros ?);
    repeat match goal with |- shallow ((if ?c then _ else _) _) => destruct c end; try done;
    unfold pppcp_send_configure_request, pppcp_send_configure_ack, pppcp_send_configure_nak, configure_nak_packet,
      pppcp_send_terminate_request, pppcp_send_terminate_ack, pppcp_send_code_reject, pppcp_send_echo_reply,
      pppcp_packet_new, packet_length, packet_data, transmit; cbv zeta; shallow.
- unfold pppcp_layer_actions, run_if, this_layer.
  repeat match goal with |- shallow ((if ?c then _ else _) _) => destruct c end; done.
Qed.

Lemma shallow_step i d : shallow (pppcp_step i d).
Proof.
destruct i as [| | | |packet| |packet|opts]; simpl; try apply shallow_event.
- unfold pppcp_process_packet. destruct (_ <? _); [done|]. apply shallow_bind; [shallow|]. intros code _.
  destruct (32 <=? code); [done|].
  apply shallow_bind; [|intros [[event d1] o1] _; destruct (event =? 0); [done|]; apply shallow_bind; [apply shallow_event|by intros [? ?] _]].
  destruct (negb _); [done|]. apply shallow_bind; [shallow|]. intros op [_ Hop]%rd_inv.
  assert (Forall (fun op : @packet_op P E => forall packet d, shallow (op packet d)) packet_ops) as Hall.
  { assert (forall f : P -> list Z -> res (driver_result P E), (forall p packet, shallow (f p packet)) ->
      forall packet d, shallow (process_configure_refusal f packet d)) as Hrefusal.
    { intros f Hf packet' d'. unfold process_configure_refusal. apply shallow_bind; [shallow|]. intros id _. destruct (negb _); [done|].
      apply shallow_bind; [apply Hf|done]. }
    repeat (apply Forall_cons_2; [|]); try apply Forall_nil; try done; intros packet' d'.
    - unfold pppcp_process_configure_request. destruct (_ <=? _); [done|]. apply shallow_bind; [apply shallow_rcr|].
      intros [[result opts] r] _. apply shallow_bind; [done|]. intros [d1 o1] _. destruct (default _ opts). by destruct result.
    - unfold pppcp_process_configure_ack, packet_length, packet_data. cbv zeta. shallow; first [apply shallow_rca | done].
    - apply Hrefusal, shallow_rcn_nak.
    - apply Hrefusal, shallow_rcn_rej. }
  by apply (Forall_lookup_1 _ _ _ _ Hall Hop).
- destruct (timers d) as [|t l]; [done|]. unfold pppcp_timeout. cbv zeta. destruct (0 <? _); apply shallow_event.
- unfold pppcp_send_protocol_reject, pppcp_packet_new, packet_length, transmit. cbv zeta. shallow.
- done.
Qed.
End ShallowSteps.
