(* ===== verification/PppLink.v ===== *)
(** A whole PPP link: src/gatchat/gatppp.c, the authentication of ppp_auth.c and
    the network interface of ppp_net.c, over the automata of PppLcp and PppIpcp
    and the framing of Hdlc.  [GAtPPP] is struct _GAtPPP with the structs it
    points to; [ppp_step] is one event of the main loop or one call of the user.
    The layers call one another: [signal_lcp] and [signal_ipcp] follow the calls
    [NESTING] deep, which [notifications_end] shows to be enough.  The kernel's
    tun interface and the MD5 checksum are parameters. *)
From S2P Require Import Prelude RingBuffer Hdlc PppCp PppLcp PppIpcp PppReport.

(** * The link *)

Definition PPP_IP_PROTO : Z := 0x0021.
Definition PPP_ADDR_FIELD : Z := 0xff.
Definition PPP_CTRL : Z := 0x03.
Definition DEFAULT_MTU : Z := 1500.
Definition MAX_PACKET : Z := 1500.
Definition PPP_HEADER_SZ : Z := 4.

Inductive ppp_phase :=
  | PPP_PHASE_DEAD | PPP_PHASE_ESTABLISHMENT | PPP_PHASE_AUTHENTICATION
  | PPP_PHASE_NETWORK | PPP_PHASE_LINK_UP | PPP_PHASE_TERMINATION.

#[global] Instance ppp_phase_eq_dec : EqDecision ppp_phase.
Proof. solve_decision. Defined.

Inductive GAtPPPDisconnectReason :=
  | REASON_UNKNOWN | REASON_AUTH_FAIL | REASON_IPCP_FAIL | REASON_NET_FAIL
  | REASON_PEER_CLOSED | REASON_LINK_DEAD | REASON_LOCAL_CLOSE.

#[global] Instance reason_eq_dec : EqDecision GAtPPPDisconnectReason.
Proof. solve_decision. Defined.

(** struct ppp_net: [net_packet] is the header of the packet it sends from. *)
Record ppp_net := { if_name : string; net_mtu : Z; net_packet : list Z }.

(** struct ppp_pap: [authreq] with its header, and the timeouts of the retry
    timer that are scheduled, of which [retry_timer] remembers the last. *)
Record ppp_pap := { authreq : list Z; authreq_len : Z; retry_timer : bool; sources : nat; retries : Z }.

(** struct _GAtPPP: [link] is its framing layer and what LCP sets; [chap] says
    that there is a struct ppp_chap (its method is always MD5); [dead_sources]
    counts the scheduled calls of [ppp_dead]; [stale] the retry timers left by a
    struct ppp_pap that is gone. *)
Record GAtPPP := {
  phase : ppp_phase;
  lcp : pppcp_data lcp_data; ipcp : pppcp_data ipcp_data;
  net : option ppp_net; chap : bool; pap : option ppp_pap; stale : nat;
  link : ppp_link;
  username : list Z; password : list Z; auth_method : GAtPPPAuthMethod;
  disconnect_reason : GAtPPPDisconnectReason;
  sta_pending : bool; dead_sources : nat; fd : Z
}.

(** What a link does for all to see: frames that the framing layer took,
    packets written to the network interface, and the calls of the user's
    functions. *)
Inductive ppp_event :=
  | Frame (frame : list Z)
  | ToInterface (packet : list Z)
  | Connected (interface : string) (local peer dns1 dns2 : option string)
  | Disconnected (reason : GAtPPPDisconnectReason).

Definition link_action : Type := GAtPPP -> res (GAtPPP * list ppp_event).

Definition nothing : link_action := fun ppp => Ret (ppp, []).
Definition and_then (a b : link_action) : link_action := fun ppp =>
  '(ppp, o1) ← a ppp; '(ppp, o2) ← b ppp; Ret (ppp, o1 ++ o2).

Section Setters.
Implicit Types ppp : GAtPPP.

Definition set_phase ppp (p : ppp_phase) (dead : nat) : GAtPPP :=
  {| phase := p; lcp := lcp ppp; ipcp := ipcp ppp; net := net ppp; chap := chap ppp; pap := pap ppp; stale := stale ppp;
     link := link ppp; username := username ppp; password := password ppp; auth_method := auth_method ppp;
     disconnect_reason := disconnect_reason ppp; sta_pending := sta_pending ppp; dead_sources := dead; fd := fd ppp |}.

Definition set_lcp ppp (d : pppcp_data lcp_data) : GAtPPP :=
  {| phase := phase ppp; lcp := d; ipcp := ipcp ppp; net := net ppp; chap := chap ppp; pap := pap ppp; stale := stale ppp;
     link := link ppp; username := username ppp; password := password ppp; auth_method := auth_method ppp;
     disconnect_reason := disconnect_reason ppp; sta_pending := sta_pending ppp; dead_sources := dead_sources ppp; fd := fd ppp |}.

Definition set_ipcp ppp (d : pppcp_data ipcp_data) : GAtPPP :=
  {| phase := phase ppp; lcp := lcp ppp; ipcp := d; net := net ppp; chap := chap ppp; pap := pap ppp; stale := stale ppp;
     link := link ppp; username := username ppp; password := password ppp; auth_method := auth_method ppp;
     disconnect_reason := disconnect_reason ppp; sta_pending := sta_pending ppp; dead_sources := dead_sources ppp; fd := fd ppp |}.

Definition set_net ppp (n : option ppp_net) (descriptor : Z) : GAtPPP :=
  {| phase := phase ppp; lcp := lcp ppp; ipcp := ipcp ppp; net := n; chap := chap ppp; pap := pap ppp; stale := stale ppp;
     link := link ppp; username := username ppp; password := password ppp; auth_method := auth_method ppp;
     disconnect_reason := disconnect_reason ppp; sta_pending := sta_pending ppp; dead_sources := dead_sources ppp; fd := descriptor |}.

Definition set_chap_pap ppp (c : bool) (p : option ppp_pap) (left_over : nat) : GAtPPP :=
  {| phase := phase ppp; lcp := lcp ppp; ipcp := ipcp ppp; net := net ppp; chap := c; pap := p; stale := left_over;
     link := link ppp; username := username ppp; password := password ppp; auth_method := auth_method ppp;
     disconnect_reason := disconnect_reason ppp; sta_pending := sta_pending ppp; dead_sources := dead_sources ppp; fd := fd ppp |}.

Definition set_link ppp (l : ppp_link) (pending : bool) : GAtPPP :=
  {| phase := phase ppp; lcp := lcp ppp; ipcp := ipcp ppp; net := net ppp; chap := chap ppp; pap := pap ppp; stale := stale ppp;
     link := l; username := username ppp; password := password ppp; auth_method := auth_method ppp;
     disconnect_reason := disconnect_reason ppp; sta_pending := pending; dead_sources := dead_sources ppp; fd := fd ppp |}.

Definition set_reason ppp (r : GAtPPPDisconnectReason) : GAtPPP :=
  {| phase := phase ppp; lcp := lcp ppp; ipcp := ipcp ppp; net := net ppp; chap := chap ppp; pap := pap ppp; stale := stale ppp;
     link := link ppp; username := username ppp; password := password ppp; auth_method := auth_method ppp;
     disconnect_reason := r; sta_pending := sta_pending ppp; dead_sources := dead_sources ppp; fd := fd ppp |}.

Definition set_hdlc ppp (h : GAtHDLC) (pending : bool) : GAtPPP :=
  set_link ppp {| hdlc := h; mtu := mtu (link ppp); xmit_acfc := xmit_acfc (link ppp); xmit_pfc := xmit_pfc (link ppp) |} pending.
End Setters.

(** * Sending *)

Definition ppp_packet_new (infolen protocol : Z) : list Z :=
  [PPP_ADDR_FIELD; PPP_CTRL] ++ network_short protocol ++ replicate (Z.to_nat infolen) 0.

(** The header of a packet with protocol [protocol]. *)
Definition ppp_header (protocol : Z) : list Z := [PPP_ADDR_FIELD; PPP_CTRL] ++ network_short protocol.

(** [g_at_hdlc_send]; [sta]: a Terminate-Ack, whose end [sta_sent] waits for. *)
Definition send_hdlc (frame : list Z) (sta : bool) : link_action := fun ppp =>
  '(h, ok) ← g_at_hdlc_send (hdlc (link ppp)) frame;
  Ret (set_hdlc ppp h (if ok && sta then true else sta_pending ppp), if (ok : bool) then [Frame frame] else []).

(** LCP packets with a code below 8 go out with the default character map.  The
    packet is the header and the information field. *)
Definition ppp_send_lcp_frame (packet : list Z) (infolen : Z) : link_action := fun ppp =>
  code ← rd packet PPP_HEADER_SZ;
  let lcp_code := (0 <? code) && (code <? 8) in
  let h := hdlc (link ppp) in
  accm ← (if lcp_code then g_at_hdlc_get_xmit_accm h else Ret 0);
  let ppp := if lcp_code then set_hdlc ppp (g_at_hdlc_set_xmit_accm h 0xffffffff) (sta_pending ppp) else ppp in
  packet ← wr packet 0 PPP_ADDR_FIELD;
  packet ← wr packet 1 PPP_CTRL;
  frame ← slice packet 0 (infolen + PPP_HEADER_SZ);
  '(ppp, o) ← send_hdlc frame (code =? TERMINATE_ACK) ppp;
  let ppp := if lcp_code then set_hdlc ppp (g_at_hdlc_set_xmit_accm (hdlc (link ppp)) accm) (sta_pending ppp) else ppp in
  Ret (ppp, o).

Definition ppp_send_acfc_frame (packet : list Z) (infolen : Z) : link_action := fun ppp =>
  let offset := if xmit_acfc (link ppp) then 2 else 0 in
  frame ← slice packet offset (infolen + PPP_HEADER_SZ - offset);
  send_hdlc frame false ppp.

(** The packet and the offset of the frame in it. *)
Definition acfc_pfc_frame (packet : list Z) (acfc pfc : bool) : res (list Z * Z) :=
  if acfc && pfc then Ret (packet, 3)
  else if acfc then Ret (packet, 2)
  else if pfc then
    (* the address and control octets move in place of the first protocol octet *)
    control ← rd packet 1;
    packet ← wr packet 2 control;
    address ← rd packet 0;
    packet ← wr packet 1 address;
    Ret (packet, 1)
  else Ret (packet, 0).

(** [ppp_transmit], and the packet's buffer afterwards. *)
Definition ppp_transmit (packet : list Z) (infolen : Z) (ppp : GAtPPP) : res (GAtPPP * list ppp_event * list Z) :=
  hi ← rd packet 2; lo ← rd packet 3;
  let proto := hi * 2 ^ 8 + lo in
  if proto =? LCP_PROTOCOL then
    '(ppp, o) ← ppp_send_lcp_frame packet infolen ppp; Ret (ppp, o, packet)
  else if Z.land proto 0xff00 =? 0 then
    '(packet, offset) ← acfc_pfc_frame packet (xmit_acfc (link ppp)) (xmit_pfc (link ppp));
    frame ← slice packet offset (infolen + PPP_HEADER_SZ - offset);
    '(ppp, o) ← send_hdlc frame false ppp;
    Ret (ppp, o, packet)
  else '(ppp, o) ← ppp_send_acfc_frame packet infolen ppp; Ret (ppp, o, packet).

(** A packet that is freed after it is sent. *)
Definition transmit_info (proto : Z) (info : list Z) : link_action := fun ppp =>
  '(ppp, o, _) ← ppp_transmit (ppp_header proto ++ info) (zlen info) ppp; Ret (ppp, o).

(** * Phases *)

Definition ppp_enter_phase (p : ppp_phase) (ppp : GAtPPP) : GAtPPP :=
  set_phase ppp p (if bool_decide (p = PPP_PHASE_DEAD) && negb (sta_pending ppp) then S (dead_sources ppp) else dead_sources ppp).

Definition ppp_dead : link_action := fun ppp => Ret (ppp, [Disconnected (disconnect_reason ppp)]).

(** The write handler has written all frames. *)
Definition sta_sent : link_action := fun ppp =>
  let ppp := set_link ppp (link ppp) false in
  if bool_decide (phase ppp = PPP_PHASE_DEAD) then ppp_dead ppp else Ret (ppp, []).

Definition ppp_drop_packet (ppp : GAtPPP) (protocol : Z) : bool :=
  match phase ppp with
  | PPP_PHASE_ESTABLISHMENT | PPP_PHASE_TERMINATION => negb (protocol =? LCP_PROTOCOL)
  | PPP_PHASE_AUTHENTICATION =>
    negb (protocol =? LCP_PROTOCOL) && negb (protocol =? CHAP_PROTOCOL) && negb (protocol =? PAP_PROTOCOL)
  | PPP_PHASE_DEAD => true
  | PPP_PHASE_NETWORK =>
    negb (protocol =? LCP_PROTOCOL) && negb (protocol =? CHAP_PROTOCOL) && negb (protocol =? PAP_PROTOCOL)
    && negb (protocol =? IPCP_PROTO)
  | PPP_PHASE_LINK_UP => false
  end.

(** * The network interface *)

(** [tun]: the interface the kernel gives for a descriptor (a negative one: a new
    interface), or none.  [md5] is the checksum CHAP uses. *)
Section Link.
Context (tun : Z -> option string) (md5 : list Z -> list Z).

Definition ppp_net_new (descriptor : Z) : option ppp_net :=
  name ← tun descriptor;
  Some {| if_name := name; net_mtu := MAX_PACKET; net_packet := ppp_header PPP_IP_PROTO |}.

(** The mtu of the interface itself is the kernel's. *)
Definition ppp_net_set_mtu (n : ppp_net) (m : Z) : ppp_net :=
  let m := u16 m in
  if MAX_PACKET <? m then n else {| if_name := if_name n; net_mtu := m; net_packet := net_packet n |}.

Definition ppp_net_process_packet (n : option ppp_net) (packet : list Z) : res (list ppp_event) :=
  if zlen packet <? 4 then Ret []
  else
    len ← get_host_short (drop 2 packet);
    match n with
    | None => Ub
    | Some _ =>
      octets ← slice packet 0 (Z.min len (zlen packet));
      Ret [ToInterface octets]
    end.

(** The interface has a packet, of which [mtu] octets are read into the buffer
    behind the header. *)
Definition ppp_net_callback (packet : list Z) : link_action := fun ppp =>
  match net ppp with
  | None => Ret (ppp, [])
  | Some n =>
    let info := take (Z.to_nat (net_mtu n)) packet in
    if bool_decide (info = []) then Ret (ppp, [])
    else
      '(ppp, o, buffer) ← ppp_transmit (net_packet n ++ info) (zlen info) ppp;
      Ret (set_net ppp (Some {| if_name := if_name n; net_mtu := net_mtu n; net_packet := take 4 buffer |}) (fd ppp), o)
  end.

(** * Authentication *)

Definition CHALLENGE : Z := 1.
Definition RESPONSE : Z := 2.
Definition SUCCESS : Z := 3.
Definition FAILURE : Z := 4.
Definition PAP_REQUEST : Z := 1.
Definition PAP_ACK : Z := 2.
Definition PAP_NAK : Z := 3.
Definition PAP_MAX_RETRY : Z := 3.
Definition AUTH_HEADER_SZ : Z := 4.
Definition MD5_LENGTH : Z := 16.

(** The response to a challenge: the digest of its identifier, the secret and its
    value.  The value is as long as its first octet says. *)
Definition chap_response (secret name packet : list Z) : res (list Z) :=
  identifier ← rd packet 1;
  size ← rd packet AUTH_HEADER_SZ;
  value ← slice packet (AUTH_HEADER_SZ + 1) size;
  let digest := md5 ([identifier] ++ secret ++ value) in
  let response_length := u16 (MD5_LENGTH + AUTH_HEADER_SZ + 1 + zlen name) in
  Ret ([RESPONSE; identifier] ++ network_short response_length ++ [MD5_LENGTH] ++ digest ++ name).

Definition chap_process_challenge (packet : list Z) : link_action := fun ppp =>
  response ← chap_response (password ppp) (username ppp) packet;
  transmit_info CHAP_PROTOCOL response ppp.

(** A new struct ppp_chap, for MD5 alone. *)
Definition ppp_chap_new (method : Z) : bool := method =? MD5.

Definition ppp_pap_new : ppp_pap := {| authreq := []; authreq_len := 0; retry_timer := false; sources := 0; retries := 0 |}.

(** The retry timers that outlive the struct. *)
Definition ppp_pap_free (p : ppp_pap) : nat := if retry_timer p then pred (sources p) else sources p.

Definition ppp_set_auth (proto method : Z) : link_action := fun ppp =>
  if proto =? PAP_PROTOCOL then
    let left_over := match pap ppp with Some p => ppp_pap_free p | None => 0%nat end in
    Ret (set_chap_pap ppp (chap ppp) (Some ppp_pap_new) (stale ppp + left_over), [])
  else if proto =? CHAP_PROTOCOL then Ret (set_chap_pap ppp (ppp_chap_new method) (pap ppp) (stale ppp), [])
  else Ret (ppp, []).

Definition set_pap (ppp : GAtPPP) (p : ppp_pap) : GAtPPP := set_chap_pap ppp (chap ppp) (Some p) (stale ppp).

(** An Authenticate-Request. *)
Definition pap_request (identifier : Z) (name secret : list Z) : list Z :=
  let length := u16 (AUTH_HEADER_SZ + zlen name + zlen secret + 2) in
  [PAP_REQUEST; identifier] ++ network_short length ++ [u8 (zlen name)] ++ name ++ [u8 (zlen secret)] ++ secret.

(** It is only FALSE when there is no memory. *)
Definition ppp_pap_start (p : ppp_pap) : link_action := fun ppp =>
  let info := pap_request 1 (username ppp) (password ppp) in
  let packet := ppp_header PAP_PROTOCOL ++ info in
  '(ppp, o, packet) ← ppp_transmit packet (zlen info) ppp;
  Ret (set_pap ppp {| authreq := packet; authreq_len := zlen info; retry_timer := true; sources := S (sources p); retries := 0 |}, o).

(** The retry timer is removed. *)
Definition pap_answered (p : ppp_pap) : ppp_pap :=
  {| authreq := authreq p; authreq_len := authreq_len p; retry_timer := false;
     sources := if retry_timer p then pred (sources p) else sources p; retries := retries p |}.

(** ** What the automata report *)

Section Notify.
(** [pppcp_signal_*], for the automata of the link. *)
Context (signal_lcp signal_ipcp : input -> link_action).

Definition ppp_auth_notify (success : bool) : link_action := fun ppp =>
  if negb success then signal_lcp SignalClose (set_reason ppp REASON_AUTH_FAIL)
  else and_then (signal_ipcp SignalOpen) (signal_ipcp SignalUp) (ppp_enter_phase PPP_PHASE_NETWORK ppp).

Definition serve_ipcp_up_notify (local peer dns1 dns2 : option string) : link_action := fun ppp =>
  match ppp_net_new (fd ppp) with
  | None => signal_lcp SignalClose (set_reason (set_net ppp None (-1)) REASON_NET_FAIL)
  | Some n =>
    let n := ppp_net_set_mtu n (mtu (link ppp)) in
    let ppp := ppp_enter_phase PPP_PHASE_LINK_UP (set_net ppp (Some n) (-1)) in
    Ret (ppp, [Connected (if_name n) local peer dns1 dns2])
  end.

Definition serve_ipcp_down_notify : link_action := fun ppp => Ret (set_net ppp None (fd ppp), []).

Definition serve_ipcp_finished_notify : link_action := fun ppp =>
  if negb (bool_decide (phase ppp = PPP_PHASE_NETWORK)) then Ret (ppp, [])
  else and_then (signal_ipcp SignalClose) (signal_lcp SignalClose) (set_reason ppp REASON_IPCP_FAIL).

Definition serve_lcp_up_notify : link_action := fun ppp =>
  if chap ppp then Ret (ppp_enter_phase PPP_PHASE_AUTHENTICATION ppp, [])
  else
    match pap ppp with
    | Some p => '(ppp, o) ← ppp_pap_start p ppp; Ret (ppp_enter_phase PPP_PHASE_AUTHENTICATION ppp, o)
    | None => ppp_auth_notify true ppp
    end.

Definition serve_lcp_down_notify : link_action := fun ppp =>
  '(ppp, o) ← (if bool_decide (phase ppp = PPP_PHASE_NETWORK) || bool_decide (phase ppp = PPP_PHASE_LINK_UP)
               then signal_ipcp SignalDown ppp else Ret (ppp, []));
  let ppp := if bool_decide (disconnect_reason ppp = REASON_UNKNOWN) then set_reason ppp REASON_PEER_CLOSED else ppp in
  Ret (ppp_enter_phase PPP_PHASE_TERMINATION ppp, o).

Definition serve_lcp_finished_notify : link_action := fun ppp => Ret (ppp_enter_phase PPP_PHASE_DEAD ppp, []).

(** What LCP does is carried out: its packets are sent, its calls served. *)
Definition serve_lcp (o : output ppp_call) : link_action :=
  match o with
  | Transmit proto info => transmit_info proto info
  | Call ppp_lcp_up_notify => serve_lcp_up_notify
  | Call ppp_lcp_down_notify => serve_lcp_down_notify
  | Call ppp_lcp_finished_notify => serve_lcp_finished_notify
  | Call (PppLcp.ppp_set_auth proto method) => ppp_set_auth proto method
  | Call _ => fun ppp => Ret (set_link ppp (ppp_serve (link ppp) o) (sta_pending ppp), [])
  | _ => nothing
  end.

Definition serve_ipcp (o : output ipcp_call) : link_action :=
  match o with
  | Transmit proto info => transmit_info proto info
  | Call (ppp_ipcp_up_notify local peer dns1 dns2) => serve_ipcp_up_notify local peer dns1 dns2
  | Call ppp_ipcp_down_notify => serve_ipcp_down_notify
  | Call ppp_ipcp_finished_notify => serve_ipcp_finished_notify
  | _ => nothing
  end.
End Notify.

Fixpoint serve_all {A} (serve : A -> link_action) (l : list A) : link_action :=
  match l with
  | [] => nothing
  | o :: l => and_then (serve o) (serve_all serve l)
  end.

(** Something happens to an automaton of the link, and what it does is carried
    out; the calls of the automata among themselves nest at most [fuel] deep.
    An automaton calls its driver's layer functions last, when its own state is
    final, so that what they call finds it as the code does. *)
Fixpoint signal_lcp (fuel : nat) (i : input) : link_action := fun ppp =>
  match fuel with
  | O => Err
  | S fuel =>
    '(d, o) ← pppcp_step (driver := lcp_proto (auth_method ppp)) i (lcp ppp);
    serve_all (serve_lcp (signal_lcp fuel) (signal_ipcp fuel)) o (set_lcp ppp d)
  end
with signal_ipcp (fuel : nat) (i : input) : link_action := fun ppp =>
  match fuel with
  | O => Err
  | S fuel =>
    '(d, o) ← pppcp_step (driver := ipcp_proto) i (ipcp ppp);
    serve_all (serve_ipcp (signal_lcp fuel) (signal_ipcp fuel)) o (set_ipcp ppp d)
  end.

Definition NESTING : nat := 4.
Definition run_lcp : input -> link_action := signal_lcp NESTING.
Definition run_ipcp : input -> link_action := signal_ipcp NESTING.
Definition auth_notify : bool -> link_action := ppp_auth_notify run_lcp run_ipcp.

Definition ppp_chap_process_packet (packet : list Z) : link_action := fun ppp =>
  if zlen packet <? AUTH_HEADER_SZ then Ret (ppp, [])
  else
    code ← rd packet 0;
    if code =? CHALLENGE then chap_process_challenge packet ppp
    else if code =? SUCCESS then auth_notify true ppp
    else if code =? FAILURE then auth_notify false ppp
    else Ret (ppp, []).

Definition ppp_pap_process_packet (p : ppp_pap) (packet : list Z) : link_action := fun ppp =>
  if zlen packet <? AUTH_HEADER_SZ then Ret (ppp, [])
  else
    code ← rd packet 0;
    if code =? PAP_ACK then auth_notify true (set_pap ppp (pap_answered p))
    else if code =? PAP_NAK then auth_notify false (set_pap ppp (pap_answered p))
    else Ret (ppp, []).

(** The identifier of the request is at octet 1 of its information field. *)
Definition ppp_pap_timeout (p : ppp_pap) : link_action := fun ppp =>
  let again := retries p + 1 in
  if PAP_MAX_RETRY <=? again then
    auth_notify false (set_pap ppp {| authreq := authreq p; authreq_len := authreq_len p; retry_timer := false;
                                      sources := pred (sources p); retries := again |})
  else
    identifier ← rd (authreq p) (PPP_HEADER_SZ + 1);
    packet ← wr (authreq p) (PPP_HEADER_SZ + 1) (u8 (identifier + 1));
    '(ppp, o, packet) ← ppp_transmit packet (authreq_len p) ppp;
    Ret (set_pap ppp {| authreq := packet; authreq_len := authreq_len p; retry_timer := retry_timer p;
                        sources := sources p; retries := again |}, o).

(** * Receiving *)

(** The protocol of a frame and what follows it: the address and control octets
    and the first octet of the protocol may be left out. *)
Definition frame_protocol (buf : list Z) : option (Z * list Z) :=
  let rest := match buf with
              | a :: c :: l => if (a =? PPP_ADDR_FIELD) && (c =? PPP_CTRL) then l else buf
              | _ => buf
              end in
  match rest with
  | [] => None
  | p :: l =>
    if Z.testbit p 0 then Some (p, l)
    else match l with
         | [] => None
         | q :: l => Some (p * 2 ^ 8 + q, l)
         end
  end.

Definition ppp_receive (buf : list Z) : link_action := fun ppp =>
  match frame_protocol buf with
  | None => Ret (ppp, [])
  | Some (protocol, packet) =>
    if ppp_drop_packet ppp protocol then Ret (ppp, [])
    else if protocol =? PPP_IP_PROTO then
      o ← ppp_net_process_packet (net ppp) packet; Ret (ppp, o)
    else if protocol =? LCP_PROTOCOL then run_lcp (Packet packet) ppp
    else if protocol =? IPCP_PROTO then run_ipcp (Packet packet) ppp
    else if protocol =? PAP_PROTOCOL then
      match pap ppp with
      | Some p => ppp_pap_process_packet p packet ppp
      | None => run_lcp (Reject buf) ppp
      end
    else if (protocol =? CHAP_PROTOCOL) && chap ppp then ppp_chap_process_packet packet ppp
    else run_lcp (Reject buf) ppp
  end.

(** * Operations of the user *)

Definition io_disconnect : link_action := fun ppp =>
  if bool_decide (phase ppp = PPP_PHASE_DEAD) then Ret (ppp, [])
  else and_then (run_lcp SignalDown) (run_lcp SignalClose) (set_reason ppp REASON_LINK_DEAD).

(** A framing layer with [ppp_receive] as its handler. *)
Definition new_framing (no_carrier : bool) (ppp : GAtPPP) : res GAtPPP :=
  h ← g_at_hdlc_new_from_io;
  let h := g_at_hdlc_set_suspend_function (g_at_hdlc_set_receive h true) true in
  Ret (set_hdlc ppp (if no_carrier then g_at_hdlc_set_no_carrier_detect h true else h) (sta_pending ppp)).

Definition g_at_ppp_listen : link_action := fun ppp =>
  ppp ← new_framing false ppp; Ret (ppp_enter_phase PPP_PHASE_ESTABLISHMENT ppp, []).

Definition g_at_ppp_open : link_action := fun ppp =>
  ppp ← new_framing true ppp;
  '(ppp, o) ← and_then (run_lcp SignalUp) (run_lcp SignalOpen) ppp;
  Ret (ppp_enter_phase PPP_PHASE_ESTABLISHMENT ppp, o).

(** Names and secrets of at most 255 octets. *)
Definition g_at_ppp_set_credentials (name secret : list Z) (ppp : GAtPPP) : GAtPPP * bool :=
  if (255 <? zlen name) || (255 <? zlen secret) then (ppp, false)
  else ({| phase := phase ppp; lcp := lcp ppp; ipcp := ipcp ppp; net := net ppp; chap := chap ppp; pap := pap ppp;
           stale := stale ppp; link := link ppp; username := name; password := secret; auth_method := auth_method ppp;
           disconnect_reason := disconnect_reason ppp; sta_pending := sta_pending ppp; dead_sources := dead_sources ppp;
           fd := fd ppp |}, true).

Definition g_at_ppp_set_auth_method (method : GAtPPPAuthMethod) (ppp : GAtPPP) : GAtPPP :=
  {| phase := phase ppp; lcp := lcp ppp; ipcp := ipcp ppp; net := net ppp; chap := chap ppp; pap := pap ppp;
     stale := stale ppp; link := link ppp; username := username ppp; password := password ppp; auth_method := method;
     disconnect_reason := disconnect_reason ppp; sta_pending := sta_pending ppp; dead_sources := dead_sources ppp;
     fd := fd ppp |}.

Definition g_at_ppp_set_server_info (remote dns1 dns2 : addr) (ppp : GAtPPP) : GAtPPP :=
  set_ipcp ppp (ipcp_set_server_info (ipcp ppp) remote dns1 dns2).

Definition g_at_ppp_configure (s : lcp_setting) (ppp : GAtPPP) : GAtPPP := set_lcp ppp (lcp_configure (lcp ppp) s).

Definition g_at_ppp_shutdown : link_action := fun ppp =>
  if bool_decide (phase ppp = PPP_PHASE_DEAD) || bool_decide (phase ppp = PPP_PHASE_TERMINATION) then Ret (ppp, [])
  else run_lcp SignalClose (set_reason ppp REASON_LOCAL_CLOSE).

(** There is no framing layer before the link is opened. *)
Definition no_framing : GAtHDLC :=
  {| write_queue := []; decode_buffer := []; decode_offset := 0; decode_fcs := 0; decode_escape := false;
     xmit_accm := []; recv_accm := 0; receive_func := false; wakeup_sent := false; start_frame_marker := false;
     no_carrier_detect := false; timer := false; suspend_source := false; num_plus := 0 |}.

Definition ppp_init_common (is_server : bool) (ip : addr) : GAtPPP :=
  {| phase := PPP_PHASE_DEAD; lcp := lcp_new is_server; ipcp := ipcp_new is_server ip;
     net := None; chap := false; pap := None; stale := 0;
     link := {| hdlc := no_framing; mtu := DEFAULT_MTU; xmit_acfc := false; xmit_pfc := false |};
     username := []; password := []; auth_method := AUTH_METHOD_CHAP; disconnect_reason := REASON_UNKNOWN;
     sta_pending := false; dead_sources := 0; fd := -1 |}.

Definition g_at_ppp_new : GAtPPP := ppp_init_common false no_addr.

Definition g_at_ppp_server_new_full (local : addr) (descriptor : Z) : GAtPPP :=
  set_net (ppp_init_common true local) None descriptor.

(** * What happens to a link *)

Inductive ppp_input :=
  | Receive (frame : list Z)
  | LcpTimeout | IpcpTimeout | PapTimeout | StaleTimeout
  | FromInterface (packet : list Z)
  | WriteDone | Dead
  | Disconnect | Shutdown.

(** The write handler calls [sta_sent] once; the main loop calls [ppp_dead] once
    for each time it was scheduled. *)
Definition ppp_step (i : ppp_input) : link_action := fun ppp =>
  match i with
  | Receive frame => ppp_receive frame ppp
  | LcpTimeout => run_lcp Timeout ppp
  | IpcpTimeout => run_ipcp Timeout ppp
  | PapTimeout =>
    match pap ppp with
    | Some p => if (0 <? sources p)%nat then ppp_pap_timeout p ppp else Ret (ppp, [])
    | None => Ret (ppp, [])
    end
  | StaleTimeout => if (0 <? stale ppp)%nat then Ub else Ret (ppp, [])
  | FromInterface packet => ppp_net_callback packet ppp
  | WriteDone => if sta_pending ppp then sta_sent ppp else Ret (ppp, [])
  | Dead => if (0 <? dead_sources ppp)%nat then ppp_dead (set_phase ppp (phase ppp) (pred (dead_sources ppp))) else Ret (ppp, [])
  | Disconnect => io_disconnect ppp
  | Shutdown => g_at_ppp_shutdown ppp
  end.

Fixpoint ppp_run (inputs : list ppp_input) : link_action :=
  match inputs with
  | [] => nothing
  | i :: inputs => and_then (ppp_step i) (ppp_run inputs)
  end.

(** * What a link keeps *)

Definition idle (s : Z) : Prop := s = INITIAL \/ s = STARTING.

Definition is_frame (e : ppp_event) : Prop := match e with Frame _ => True | _ => False end.

(** A retry timer has a PAP packet to send. *)
Definition pap_ok (ppp : GAtPPP) : Prop :=
  forall p, pap ppp = Some p -> (0 < sources p)%nat -> take 4 (authreq p) = ppp_header PAP_PROTOCOL.

(** An action that sends frames, or notes that the end of one is waited for. *)
Record calm (ppp ppp' : GAtPPP) : Prop := {
  calm_phase : phase ppp' = phase ppp; calm_lcp : lcp ppp' = lcp ppp; calm_ipcp : ipcp ppp' = ipcp ppp;
  calm_net : is_Some (net ppp') <-> is_Some (net ppp);
  calm_dead : dead_sources ppp' = dead_sources ppp;
  calm_pap : pap_ok ppp -> pap_ok ppp'
}.

Lemma calm_refl ppp : calm ppp ppp.
Proof. by split. Qed.

Lemma calm_trans ppp1 ppp2 ppp3 : calm ppp1 ppp2 -> calm ppp2 ppp3 -> calm ppp1 ppp3.
Proof. intros [] []. split; try congruence; [by etrans|auto]. Qed.

(** An action that is calm and does nothing but send frames. *)
Definition calm_action (a : link_action) : Prop := forall ppp ppp' o,
  a ppp = Ret (ppp', o) -> calm ppp ppp' /\ Forall is_frame o.

Lemma and_then_inv (a b : link_action) ppp ppp' o :
  and_then a b ppp = Ret (ppp', o) ->
  exists ppp1 o1 o2, a ppp = Ret (ppp1, o1) /\ b ppp1 = Ret (ppp', o2) /\ o = o1 ++ o2.
Proof.
unfold and_then. destruct (a ppp) as [[ppp1 o1]| |] eqn:Ha; simp_res; try done.
destruct (b ppp1) as [[ppp2 o2]| |] eqn:Hb; simp_res; try done. intros [= <- <-]. by exists ppp1, o1, o2.
Qed.

Lemma calm_nothing : calm_action nothing.
Proof. intros ppp ppp' o [= <- <-]. split; [apply calm_refl|by apply Forall_nil]. Qed.

Lemma calm_and_then a b : calm_action a -> calm_action b -> calm_action (and_then a b).
Proof.
intros Ha Hb ppp ppp' o (ppp1 & o1 & o2 & [Hc1 Hf1]%Ha & [Hc2 Hf2]%Hb & ->)%and_then_inv.
split; [by eapply calm_trans|by apply Forall_app].
Qed.

Lemma calm_set_link ppp l pending : calm ppp (set_link ppp l pending).
Proof. by split. Qed.

Lemma calm_send frame sta : calm_action (send_hdlc frame sta).
Proof.
intros ppp ppp' o. unfold send_hdlc. destruct (g_at_hdlc_send _ _) as [[h ok]| |]; simp_res; try done. intros [= <- <-].
split; [apply calm_set_link|]. destruct ok; [by apply Forall_singleton|by apply Forall_nil].
Qed.

Lemma calm_lcp_frame packet infolen : calm_action (ppp_send_lcp_frame packet infolen).
Proof.
intros ppp ppp' o. unfold ppp_send_lcp_frame.
destruct (rd packet _) as [code| |]; simp_res; try done. cbv zeta.
destruct (if (0 <? code) && (code <? 8) then g_at_hdlc_get_xmit_accm _ else Ret 0) as [accm| |]; simp_res; try done.
destruct (wr packet 0 _) as [packet1| |]; simp_res; try done.
destruct (wr packet1 1 _) as [packet2| |]; simp_res; try done.
destruct (slice packet2 _ _) as [frame| |]; simp_res; try done.
destruct (send_hdlc _ _ _) as [[ppp1 o1]| |] eqn:Hsend; simp_res; try done. intros [= <- <-].
apply calm_send in Hsend as [Hc Hf]. split; [|done].
destruct (_ && _); [|done]. destruct Hc. by split.
Qed.

Lemma calm_transmit packet infolen ppp ppp' o buffer :
  ppp_transmit packet infolen ppp = Ret (ppp', o, buffer) -> calm ppp ppp' /\ Forall is_frame o.
Proof.
unfold ppp_transmit. destruct (rd packet 2) as [hi| |]; simp_res; try done. destruct (rd packet 3) as [lo| |]; simp_res; try done.
cbv zeta. destruct (_ =? LCP_PROTOCOL).
{ destruct (ppp_send_lcp_frame _ _ _) as [[ppp1 o1]| |] eqn:H; simp_res; try done. intros [= <- <- <-]. by apply calm_lcp_frame in H. }
destruct (Z.land _ _ =? 0).
- destruct (acfc_pfc_frame _ _ _) as [[packet1 offset]| |]; simp_res; try done.
  destruct (slice packet1 _ _) as [frame| |]; simp_res; try done.
  destruct (send_hdlc _ _ _) as [[ppp1 o1]| |] eqn:H; simp_res; try done. intros [= <- <- <-]. by apply calm_send in H.
- destruct (ppp_send_acfc_frame _ _ _) as [[ppp1 o1]| |] eqn:H; simp_res; try done. intros [= <- <- <-].
  unfold ppp_send_acfc_frame in H. destruct (slice _ _ _) as [frame| |]; simp_res; try done. by apply calm_send in H.
Qed.

Lemma calm_transmit_info proto info : calm_action (transmit_info proto info).
Proof.
intros ppp ppp' o. unfold transmit_info. destruct (ppp_transmit _ _ _) as [[[ppp1 o1] buffer]| |] eqn:H; simp_res; try done.
intros [= <- <-]. by apply calm_transmit in H.
Qed.

Lemma calm_set_auth proto method : calm_action (ppp_set_auth proto method).
Proof.
intros ppp ppp' o. unfold ppp_set_auth. destruct (_ =? PAP_PROTOCOL); [|destruct (_ =? CHAP_PROTOCOL)]; intros [= <- <-];
  (split; [split; try done|by apply Forall_nil]).
intros _ p [= <-] Hp. simpl in Hp. lia.
Qed.

Lemma calm_quiet_lcp f g x : quiet_output setting_call x -> calm_action (serve_lcp f g x).
Proof.
destruct x as [proto info|e|c|s e]; simpl.
- intros _. apply calm_transmit_info.
- done.
- destruct c; try done; intros _; try apply calm_set_auth;
    (intros ppp ppp' o [= <- <-]; split; [apply calm_set_link|by apply Forall_nil]).
- intros _. apply calm_nothing.
Qed.

Lemma calm_quiet_ipcp f g x : quiet_output (fun _ => False) x -> calm_action (serve_ipcp f g x).
Proof.
destruct x as [proto info|e|c|s e]; simpl; try done; intros _; [apply calm_transmit_info|apply calm_nothing].
Qed.

Lemma calm_serve_all {A} (serve : A -> link_action) (Q : A -> Prop) l :
  (forall x, Q x -> calm_action (serve x)) -> Forall Q l -> calm_action (serve_all serve l).
Proof.
intros Hserve. induction 1 as [|x l Hx Hl IH]; simpl; [apply calm_nothing|]. apply calm_and_then; [by apply Hserve|done].
Qed.

Lemma serve_all_app {A} (serve : A -> link_action) l1 l2 ppp ppp' o :
  serve_all serve (l1 ++ l2) ppp = Ret (ppp', o) ->
  exists ppp1 o1 o2, serve_all serve l1 ppp = Ret (ppp1, o1) /\ serve_all serve l2 ppp1 = Ret (ppp', o2) /\ o = o1 ++ o2.
Proof.
revert ppp ppp' o. induction l1 as [|x l1 IH]; intros ppp ppp' o; simpl.
- intros H. by exists ppp, [], o.
- intros (ppp1 & o1 & o2 & H1 & H2 & ->)%and_then_inv. apply IH in H2 as (ppp2 & p1 & p2 & H2 & H3 & ->).
  exists ppp2, (o1 ++ p1), p2. split; [|by rewrite app_assoc]. unfold and_then. by rewrite H1, bind_Ret, H2, bind_Ret.
Qed.

(** ** Signals to an automaton of the link *)

Definition network_phase (p : ppp_phase) : Prop :=
  p = PPP_PHASE_AUTHENTICATION \/ p = PPP_PHASE_NETWORK \/ p = PPP_PHASE_LINK_UP.

Lemma and_then_nothing a ppp : and_then a nothing ppp = a ppp.
Proof. unfold and_then, nothing. destruct (a ppp) as [[ppp1 o1]| |]; simp_res; [by rewrite app_nil_r|done|done]. Qed.

Lemma nothing_and_then a ppp : and_then nothing a ppp = a ppp.
Proof. unfold and_then, nothing. simp_res. by destruct (a ppp) as [[ppp1 o1]| |]. Qed.

(** The layer call at the end of a step, if any. *)
Definition served_lcp (f g : input -> link_action) (e : option layer_event) : link_action :=
  match e with
  | Some LayerUp => serve_lcp_up_notify f g
  | Some LayerDown => serve_lcp_down_notify g
  | Some LayerFinished => serve_lcp_finished_notify
  | _ => nothing
  end.

Lemma serve_layer_lcp f g auth e l ppp :
  layer_calls (driver := lcp_proto auth) e l -> serve_all (serve_lcp f g) l ppp = served_lcp f g e ppp.
Proof.
destruct e as [e|]; [intros [p ->]|by intros ->].
cbn [serve_all]. rewrite nothing_and_then. destruct e; cbn [driver_layer lcp_proto lcp_up lcp_down lcp_finished PppLcp.with_options calls map serve_all];
  try done; by rewrite and_then_nothing.
Qed.

(** What IPCP reports when it is up. *)
Definition up_notify (f : input -> link_action) (p : ipcp_data) : link_action :=
  serve_ipcp_up_notify f (non_empty (inet_ntop (local_addr p))) (non_empty (inet_ntop (peer_addr p)))
    (non_empty (inet_ntop (dns1 p))) (non_empty (inet_ntop (dns2 p))).

Definition served_ipcp (f g : input -> link_action) (e : option layer_event) (p : ipcp_data) : link_action :=
  match e with
  | Some LayerUp => up_notify f p
  | Some LayerDown => serve_ipcp_down_notify
  | Some LayerFinished => serve_ipcp_finished_notify f g
  | _ => nothing
  end.

Lemma serve_layer_ipcp f g e l ppp :
  layer_calls (driver := ipcp_proto) e l -> exists p, serve_all (serve_ipcp f g) l ppp = served_ipcp f g e p ppp.
Proof.
destruct e as [e|]; [intros [p ->]; exists p|intros ->; by exists (ipcp_zero false)].
cbn [serve_all]. rewrite nothing_and_then. destruct e; cbn [driver_layer ipcp_proto ipcp_up ipcp_down ipcp_finished with_options calls map serve_all];
  try done; by rewrite and_then_nothing.
Qed.

(** A step of LCP, what it sends, and the layer call it ends with. *)
Definition lcp_steps (i : input) (fuel : nat) (ppp ppp' : GAtPPP) (o : list ppp_event) : Prop :=
  exists fuel' d ppp1 e o1 o2, fuel = S fuel' /\ well_formed d
    /\ calm (set_lcp ppp d) ppp1 /\ Forall is_frame o1 /\ change e (state (lcp ppp)) (state d)
    /\ (forall event, signal_event i = Some event ->
          e = next_layer event (state (lcp ppp)) /\ state d = next_state event (state (lcp ppp)))
    /\ served_lcp (signal_lcp fuel') (signal_ipcp fuel') e ppp1 = Ret (ppp', o2) /\ o = o1 ++ o2.

Lemma signal_lcp_inv fuel i ppp ppp' o :
  signal_lcp fuel i ppp = Ret (ppp', o) -> well_formed (lcp ppp) -> lcp_steps i fuel ppp ppp' o.
Proof.
destruct fuel as [|fuel]; [done|]. simpl.
destruct (pppcp_step i (lcp ppp)) as [[d outputs]| |] eqn:Hstep; simp_res; try done. intros Hserve Hwf.
destruct (step_inv (driver := lcp_proto (auth_method ppp)) _ _ _ _ Hwf Hstep) as [Hwf' _].
assert (exists q l e, outputs = q ++ l /\ Forall (quiet_output setting_call) q
  /\ layer_calls (driver := lcp_proto (auth_method ppp)) e l /\ change e (state (lcp ppp)) (state d)
  /\ (forall event, signal_event i = Some event ->
          e = next_layer event (state (lcp ppp)) /\ state d = next_state event (state (lcp ppp))))
  as (q & l & e & -> & Hq & Hl & Hch & Hev).
{ destruct (signal_event i) as [event|] eqn:Hi.
  - destruct (step_next setting_call (driver := lcp_proto (auth_method ppp)) _ _ _ _ _ Hi Hstep) as (q & l & -> & Hq & Hl & Hs).
    exists q, l, (next_layer event (state (lcp ppp))). rewrite Hs. split_and!; try done; [apply next_change|by intros ? [= ->]].
  - destruct (step_reports setting_call (driver := lcp_proto (auth_method ppp)) _ _ _ _ Hstep) as (q & l & e & -> & Hq & Hl & Hch).
    by exists q, l, e. }
apply serve_all_app in Hserve as (ppp1 & o1 & o2 & H1 & H2 & ->).
apply (calm_serve_all _ _ _ (calm_quiet_lcp _ _) Hq) in H1 as [Hc Hf].
rewrite (serve_layer_lcp _ _ _ _ _ _ Hl) in H2. by exists fuel, d, ppp1, e, o1, o2.
Qed.

Definition ipcp_steps (i : input) (fuel : nat) (ppp ppp' : GAtPPP) (o : list ppp_event) : Prop :=
  exists fuel' d ppp1 e p o1 o2, fuel = S fuel' /\ well_formed d
    /\ calm (set_ipcp ppp d) ppp1 /\ Forall is_frame o1 /\ change e (state (ipcp ppp)) (state d)
    /\ (forall event, signal_event i = Some event ->
          e = next_layer event (state (ipcp ppp)) /\ state d = next_state event (state (ipcp ppp)))
    /\ served_ipcp (signal_lcp fuel') (signal_ipcp fuel') e p ppp1 = Ret (ppp', o2) /\ o = o1 ++ o2.

Lemma signal_ipcp_inv fuel i ppp ppp' o :
  signal_ipcp fuel i ppp = Ret (ppp', o) -> well_formed (ipcp ppp) -> ipcp_steps i fuel ppp ppp' o.
Proof.
destruct fuel as [|fuel]; [done|]. simpl.
destruct (pppcp_step i (ipcp ppp)) as [[d outputs]| |] eqn:Hstep; simp_res; try done. intros Hserve Hwf.
destruct (step_inv (driver := ipcp_proto) _ _ _ _ Hwf Hstep) as [Hwf' _].
assert (exists q l e, outputs = q ++ l /\ Forall (quiet_output (fun _ => False)) q
  /\ layer_calls (driver := ipcp_proto) e l /\ change e (state (ipcp ppp)) (state d)
  /\ (forall event, signal_event i = Some event ->
          e = next_layer event (state (ipcp ppp)) /\ state d = next_state event (state (ipcp ppp))))
  as (q & l & e & -> & Hq & Hl & Hch & Hev).
{ destruct (signal_event i) as [event|] eqn:Hi.
  - destruct (step_next (fun _ => False) (driver := ipcp_proto) _ _ _ _ _ Hi Hstep) as (q & l & -> & Hq & Hl & Hs).
    exists q, l, (next_layer event (state (ipcp ppp))). rewrite Hs. split_and!; try done; [apply next_change|by intros ? [= ->]].
  - destruct (step_reports (fun _ => False) (driver := ipcp_proto) _ _ _ _ Hstep) as (q & l & e & -> & Hq & Hl & Hch).
    by exists q, l, e. }
apply serve_all_app in Hserve as (ppp1 & o1 & o2 & H1 & H2 & ->).
apply (calm_serve_all _ _ _ (calm_quiet_ipcp _ _) Hq) in H1 as [Hc Hf].
destruct (serve_layer_ipcp (signal_lcp fuel) (signal_ipcp fuel) e l ppp1 Hl) as [p Hp]. rewrite Hp in H2.
by exists fuel, d, ppp1, e, p, o1, o2.
Qed.

Ltac each_state H :=
  lazymatch type of H with
  | 0 <= ?s <= OPENED =>
      let Hc := fresh in
      assert (s = 0 \/ s = 1 \/ s = 2 \/ s = 3 \/ s = 4 \/ s = 5 \/ s = 6 \/ s = 7 \/ s = 8 \/ s = 9) as Hc by (unfold OPENED in H; lia);
      destruct Hc as [-> |[-> |[-> |[-> |[-> |[-> |[-> |[-> |[-> | ->]]]]]]]]]
  end.

(** What the signals do in each state. *)
Lemma next_down s : 0 <= s <= OPENED ->
  idle (next_state DOWN s)
  /\ (next_layer DOWN s = None \/ next_layer DOWN s = Some LayerStarted \/ next_layer DOWN s = Some LayerDown).
Proof. intros Hs. unfold idle. each_state Hs; vm_compute; auto. Qed.

Lemma next_up_open event s : 0 <= s <= OPENED -> event = UP \/ event = OPEN ->
  next_layer event s = None \/ next_layer event s = Some LayerStarted.
Proof. intros Hs [-> | ->]; each_state Hs; vm_compute; auto. Qed.

Lemma next_close s : s = INITIAL \/ s = CLOSED \/ s = STOPPED ->
  next_layer CLOSE s = None /\ (next_state CLOSE s = INITIAL \/ next_state CLOSE s = CLOSED).
Proof. intros [-> |[-> | ->]]; vm_compute; auto. Qed.

Lemma next_close_opened : next_layer CLOSE OPENED = Some LayerDown /\ next_state CLOSE OPENED = CLOSING.
Proof. by vm_compute. Qed.

Lemma wf_state {P} (d : pppcp_data P) : well_formed d -> 0 <= state d <= OPENED.
Proof. intros [Ht _]. apply (typed_state _ Ht). Qed.

(** IPCP taken down: it is idle and the interface is gone. *)
Lemma ipcp_goes_down fuel ppp ppp' o :
  signal_ipcp fuel SignalDown ppp = Ret (ppp', o) -> well_formed (ipcp ppp) ->
  (is_Some (net ppp) -> state (ipcp ppp) = OPENED) -> pap_ok ppp ->
  phase ppp' = phase ppp /\ lcp ppp' = lcp ppp /\ dead_sources ppp' = dead_sources ppp /\ pap_ok ppp'
  /\ well_formed (ipcp ppp') /\ idle (state (ipcp ppp')) /\ net ppp' = None /\ Forall is_frame o.
Proof.
intros Hsig Hwf Hnet Hpap. apply signal_ipcp_inv in Hsig as (n & d & ppp1 & e & p & o1 & o2 & _ & Hd & Hc & Ho & Hch & Hev & Hserve & ->); [|done].
destruct (Hev DOWN eq_refl) as [He Hs]. destruct (next_down _ (wf_state _ Hwf)) as [Hidle Hlayer]. rewrite <- Hs in Hidle.
destruct Hc as [C1 C2 C3 C4 C5 C6]. simpl in *.
assert (idle (state (ipcp ppp1))) by (by rewrite C3).
assert (well_formed (ipcp ppp1)) by (by rewrite C3).
assert (state d <> OPENED) as Hno by (destruct Hidle as [-> | ->]; done).
destruct Hlayer as [Hl|[Hl|Hl]]; rewrite He, Hl in Hserve; rewrite He, Hl in Hch; simpl in Hserve, Hch.
- injection Hserve as <- <-. rewrite app_nil_r. split_and!; try done; [by apply C6|].
  apply eq_None_not_Some. rewrite C4. intros Hopen%Hnet. by apply Hno, Hch.
- injection Hserve as <- <-. rewrite app_nil_r. split_and!; try done; [by apply C6|].
  apply eq_None_not_Some. rewrite C4. intros Hopen%Hnet. by apply (proj1 Hch).
- injection Hserve as <- <-. rewrite app_nil_r. split_and!; try done. intros q. simpl. apply C6, Hpap.
Qed.

(** What a link keeps between the events that happen to it. *)
Record ppp_link_ok (ppp : GAtPPP) : Prop := {
  ok_lcp : well_formed (lcp ppp);
  ok_ipcp : well_formed (ipcp ppp);
  ok_opened : state (lcp ppp) = OPENED <-> network_phase (phase ppp);
  ok_idle : ~ (phase ppp = PPP_PHASE_NETWORK \/ phase ppp = PPP_PHASE_LINK_UP) -> idle (state (ipcp ppp));
  ok_net : is_Some (net ppp) <-> state (ipcp ppp) = OPENED;
  ok_dead : phase ppp = PPP_PHASE_DEAD -> state (lcp ppp) = INITIAL \/ state (lcp ppp) = CLOSED \/ state (lcp ppp) = STOPPED;
  ok_sources : phase ppp <> PPP_PHASE_DEAD -> dead_sources ppp = 0%nat;
  ok_pap : pap_ok ppp
}.

Lemma ppp_link_ok_calm ppp ppp' : calm ppp ppp' -> ppp_link_ok ppp -> ppp_link_ok ppp'.
Proof.
intros [C1 C2 C3 C4 C5 C6] []. split; rewrite ?C1, ?C2, ?C3, ?C4, ?C5; auto.
Qed.

Lemma not_opened_idle s : idle s -> s <> OPENED.
Proof. intros [-> | ->]; done. Qed.

(** A link whose LCP is not up. *)
Lemma ppp_link_ok_off ppp :
  phase ppp = PPP_PHASE_ESTABLISHMENT \/ phase ppp = PPP_PHASE_TERMINATION ->
  well_formed (lcp ppp) -> state (lcp ppp) <> OPENED -> well_formed (ipcp ppp) -> idle (state (ipcp ppp)) ->
  net ppp = None -> dead_sources ppp = 0%nat -> pap_ok ppp -> ppp_link_ok ppp.
Proof.
intros Hph Hl Hno Hi Hidle Hnet Hdead Hpap. split; try done.
- split; [done|]. intros [H|[H|H]]; rewrite H in Hph; by destruct Hph.
- rewrite Hnet. split; [by intros [? ?]|]. intros Ho. by apply not_opened_idle in Hidle.
- intros H. rewrite H in Hph. by destruct Hph.
Qed.

(** What holds while LCP is up, even when there was no interface for IPCP. *)
Record running (ppp : GAtPPP) : Prop := {
  run_phase : network_phase (phase ppp);
  run_lcp_ok : well_formed (lcp ppp); run_opened : state (lcp ppp) = OPENED; run_ipcp_ok : well_formed (ipcp ppp);
  run_idle : phase ppp = PPP_PHASE_AUTHENTICATION -> idle (state (ipcp ppp));
  run_net : is_Some (net ppp) -> state (ipcp ppp) = OPENED;
  run_sources : dead_sources ppp = 0%nat;
  run_pap : pap_ok ppp
}.

Lemma network_alive p : network_phase p -> p <> PPP_PHASE_DEAD.
Proof. by intros [-> |[-> | ->]]. Qed.

Lemma ppp_link_ok_running ppp : ppp_link_ok ppp -> network_phase (phase ppp) -> running ppp.
Proof.
intros [] Hph. split; try done.
- by apply ok_opened0.
- intros H. apply ok_idle0. rewrite H. by intros [?|?].
- apply ok_net0.
- by apply ok_sources0, network_alive.
Qed.

(** LCP leaves OPENED: the phase is that of termination, and IPCP is idle. *)
Lemma lcp_down_served n ppp ppp1 d ppp' o :
  well_formed d -> state d <> OPENED -> running ppp -> calm (set_lcp ppp d) ppp1 ->
  serve_lcp_down_notify (signal_ipcp n) ppp1 = Ret (ppp', o) ->
  ppp_link_ok ppp' /\ phase ppp' = PPP_PHASE_TERMINATION /\ Forall is_frame o.
Proof.
intros Hd Hno [Hph Hl Hop Hi Hidle Hnet Hsrc Hpap] [C1 C2 C3 C4 C5 C6] Hserve. simpl in *.
unfold serve_lcp_down_notify in Hserve.
destruct (if bool_decide (phase ppp1 = PPP_PHASE_NETWORK) || bool_decide (phase ppp1 = PPP_PHASE_LINK_UP) then _ else _)
  as [[ppp2 o2]| |] eqn:Hdown; simp_res; try done.
assert (phase ppp2 = phase ppp /\ lcp ppp2 = d /\ dead_sources ppp2 = dead_sources ppp /\ pap_ok ppp2
  /\ well_formed (ipcp ppp2) /\ idle (state (ipcp ppp2)) /\ net ppp2 = None /\ Forall is_frame o2)
  as (E1 & E2 & E3 & E4 & E5 & E6 & E7 & E8).
{ destruct (bool_decide (phase ppp1 = PPP_PHASE_NETWORK) || bool_decide (phase ppp1 = PPP_PHASE_LINK_UP)) eqn:Hb.
  - apply ipcp_goes_down in Hdown as (? & ? & ? & ? & ? & ? & ? & ?).
    + by rewrite <- C1, <- C2, <- C5.
    + by rewrite C3.
    + rewrite C3, C4. exact Hnet.
    + by apply C6.
  - injection Hdown as <- <-. apply orb_false_iff in Hb as [Hb1%bool_decide_eq_false Hb2%bool_decide_eq_false].
    rewrite C1 in Hb1, Hb2. assert (idle (state (ipcp ppp))) as Hidle'
      by (apply Hidle; destruct Hph as [?|[?|?]]; [done|by exfalso|by exfalso]).
    rewrite C3. split_and!; try done; [by apply C6|].
    apply eq_None_not_Some. rewrite C4. intros Hopen%Hnet. by apply not_opened_idle in Hidle'. }
injection Hserve as <- <-.
split; [|by destruct (bool_decide (disconnect_reason ppp2 = REASON_UNKNOWN))].
apply ppp_link_ok_off; destruct (bool_decide (disconnect_reason ppp2 = REASON_UNKNOWN)); simpl; rewrite ?E2, ?E3; try done; by right.
Qed.

Lemma lcp_closes fuel ppp ppp' o :
  signal_lcp fuel SignalClose ppp = Ret (ppp', o) -> running ppp ->
  ppp_link_ok ppp' /\ phase ppp' = PPP_PHASE_TERMINATION /\ Forall is_frame o.
Proof.
intros Hsig Hrun. apply signal_lcp_inv in Hsig as (n & d & ppp1 & e & o1 & o2 & _ & Hd & Hc & Ho & _ & Hev & Hserve & ->);
  [|apply Hrun].
destruct (Hev CLOSE eq_refl) as [He Hs]. rewrite (run_opened _ Hrun) in He, Hs.
destruct next_close_opened as [Hl Hn]. rewrite Hl in He. rewrite Hn in Hs. rewrite He in Hserve. simpl in Hserve.
assert (state d <> OPENED) as Hno by (by rewrite Hs).
destruct (lcp_down_served n ppp ppp1 d ppp' o2 Hd Hno Hrun Hc Hserve) as (? & ? & ?).
split_and!; try done. by apply Forall_app.
Qed.

(** A link whose LCP is up. *)
Lemma ppp_link_ok_on ppp :
  network_phase (phase ppp) -> (phase ppp = PPP_PHASE_AUTHENTICATION -> idle (state (ipcp ppp))) ->
  well_formed (lcp ppp) -> state (lcp ppp) = OPENED -> well_formed (ipcp ppp) ->
  (is_Some (net ppp) <-> state (ipcp ppp) = OPENED) -> dead_sources ppp = 0%nat -> pap_ok ppp -> ppp_link_ok ppp.
Proof.
intros Hph Hidle Hl Hop Hi Hnet Hdead Hpap. split; try done.
- intros Hno. apply Hidle. destruct Hph as [?|Hph]; [done|]. by exfalso.
- intros H. rewrite H in Hph. by destruct Hph as [?|[?|?]].
Qed.

Definition up_phase (p : ppp_phase) : Prop := p = PPP_PHASE_NETWORK \/ p = PPP_PHASE_LINK_UP.

Lemma up_network p : up_phase p -> network_phase p.
Proof. by right. Qed.

Lemma up_alive p : up_phase p -> p <> PPP_PHASE_DEAD.
Proof. by intros [-> | ->]. Qed.

(** What the user sees of an event: frames, and reports of a link that is up. *)
Definition reports_ok (ppp : GAtPPP) (o : list ppp_event) : Prop :=
  Forall (fun e => match e with
    | Frame _ => True
    | Connected n _ _ _ _ => phase ppp = PPP_PHASE_LINK_UP /\ state (ipcp ppp) = OPENED /\ if_name <$> net ppp = Some n
    | _ => False
    end) o.

Lemma frames_reports ppp o : Forall is_frame o -> reports_ok ppp o.
Proof. intros Ho. eapply Forall_impl; [exact Ho|]. by intros []. Qed.

(** IPCP has moved and sent its packets. *)
Lemma ppp_link_ok_ipcp ppp d ppp1 :
  ppp_link_ok ppp -> up_phase (phase ppp) -> well_formed d -> calm (set_ipcp ppp d) ppp1 ->
  (is_Some (net ppp) <-> state d = OPENED) -> ppp_link_ok ppp1.
Proof.
intros Hok Hph Hd Hc Hnet. apply (ppp_link_ok_calm _ _ Hc). destruct Hok. apply ppp_link_ok_on; simpl; try done.
- by apply up_network.
- intros H. rewrite H in Hph. by destruct Hph.
- apply ok_opened0. by apply up_network.
- apply ok_sources0. by apply up_alive.
Qed.

Lemma ipcp_starts_ok fuel i ppp ppp' o :
  i = SignalOpen \/ i = SignalUp -> signal_ipcp fuel i ppp = Ret (ppp', o) -> ppp_link_ok ppp -> up_phase (phase ppp) ->
  ppp_link_ok ppp' /\ phase ppp' = phase ppp /\ Forall is_frame o.
Proof.
intros Hi Hsig Hok Hph.
apply signal_ipcp_inv in Hsig as (n & d & ppp1 & e & p & o1 & o2 & _ & Hd & Hc & Ho & Hch & Hev & Hserve & ->); [|apply Hok].
assert (e = None \/ e = Some LayerStarted) as He.
{ destruct Hi as [-> | ->].
  - destruct (Hev OPEN eq_refl) as [-> _]. apply next_up_open; [apply wf_state, Hok|by right].
  - destruct (Hev UP eq_refl) as [-> _]. apply next_up_open; [apply wf_state, Hok|by left]. }
assert (ppp' = ppp1 /\ o2 = []) as [-> ->] by (destruct He as [-> | ->]; by injection Hserve as <- <-).
rewrite app_nil_r. split_and!; [|apply (calm_phase _ _ Hc)|done].
apply (ppp_link_ok_ipcp ppp d); try done. rewrite (ok_net _ Hok).
destruct He as [-> | ->]; [done|]. destruct Hch as [? Hs]. rewrite Hs. split; [done|]. by unfold STARTING, OPENED.
Qed.

(** IPCP is opened when a peer needs no more authentication. *)
Lemma authenticated fuel fuel' ppp ppp' o :
  ppp_auth_notify (signal_lcp fuel) (signal_ipcp fuel') true ppp = Ret (ppp', o) ->
  well_formed (lcp ppp) -> state (lcp ppp) = OPENED -> well_formed (ipcp ppp) ->
  (is_Some (net ppp) <-> state (ipcp ppp) = OPENED) -> dead_sources ppp = 0%nat -> pap_ok ppp ->
  ppp_link_ok ppp' /\ phase ppp' = PPP_PHASE_NETWORK /\ Forall is_frame o.
Proof.
intros Hnotify Hl Hop Hi Hnet Hdead Hpap. unfold ppp_auth_notify in Hnotify. simpl negb in Hnotify. cbv iota in Hnotify.
apply and_then_inv in Hnotify as (ppp1 & o1 & o2 & H1 & H2 & ->).
assert (ppp_link_ok (ppp_enter_phase PPP_PHASE_NETWORK ppp)) as Hok.
{ apply ppp_link_ok_on; try done. by right; left. }
apply ipcp_starts_ok in H1 as (Hok1 & Hp1 & Ho1); [|by left|done|by left]. simpl in Hp1.
apply ipcp_starts_ok in H2 as (Hok2 & Hp2 & Ho2); [|by right|done|by left].
split_and!; [done|by rewrite Hp2|by apply Forall_app].
Qed.

(** Whatever happens to IPCP while it may run. *)
Lemma ipcp_step_ok fuel i ppp ppp' o :
  signal_ipcp fuel i ppp = Ret (ppp', o) -> ppp_link_ok ppp -> up_phase (phase ppp) ->
  ppp_link_ok ppp' /\ phase ppp' <> PPP_PHASE_DEAD /\ reports_ok ppp' o.
Proof.
intros Hsig Hok Hph.
apply signal_ipcp_inv in Hsig as (n & d & ppp1 & e & p & o1 & o2 & _ & Hd & Hc & Ho & Hch & _ & Hserve & ->); [|apply Hok].
pose proof (up_alive _ Hph) as Halive. pose proof (calm_phase _ _ Hc) as Hph1. simpl in Hph1.
assert (forall ppp' o2, ppp_link_ok ppp' -> phase ppp' <> PPP_PHASE_DEAD -> Forall is_frame o2 ->
  ppp_link_ok ppp' /\ phase ppp' <> PPP_PHASE_DEAD /\ reports_ok ppp' (o1 ++ o2)) as Hquiet.
{ intros ppp2 q ? ? ?. split_and!; try done. apply frames_reports. by apply Forall_app. }
destruct Hc as [C1 C2 C3 C4 C5 C6]. simpl in *. pose proof (ok_pap _ Hok) as Hpap.
pose proof (ppp_link_ok_running _ Hok (up_network _ Hph)) as [_ Hl Hop _ _ _ Hsrc _].
destruct e as [[]|]; simpl in Hserve, Hch.
- (* up: an interface is opened *)
  destruct Hch as [_ Hup]. unfold up_notify, serve_ipcp_up_notify in Hserve.
  destruct (ppp_net_new (fd ppp1)) as [nt|].
  + injection Hserve as <- <-. split_and!.
    * apply ppp_link_ok_on; simpl; rewrite ?C2, ?C3, ?C5; try done; [by right; right|by apply C6].
    * done.
    * apply Forall_app. split; [by apply frames_reports|]. apply Forall_singleton. split_and!; [done|by simpl; rewrite C3|done].
  + apply lcp_closes in Hserve as (? & Hp & ?); [apply Hquiet; try done; by rewrite Hp|].
    split; simpl; rewrite ?C1, ?C2, ?C3, ?C5; try done; [by apply up_network| |by apply C6].
    intros H. rewrite H in Hph. by destruct Hph.
- (* down: the interface is gone *)
  destruct Hch as [_ Hno]. injection Hserve as <- <-. apply Hquiet; [|by simpl; rewrite C1|by apply Forall_nil].
  apply ppp_link_ok_on; simpl; rewrite ?C1, ?C2, ?C3, ?C5; try done; [by apply up_network| |by apply C6].
  intros H. rewrite H in Hph. by destruct Hph.
- (* started *)
  injection Hserve as <- <-. destruct Hch as [Hb Hs]. apply Hquiet; [|by rewrite C1|by apply Forall_nil].
  apply (ppp_link_ok_ipcp ppp d); try done. rewrite (ok_net _ Hok), Hs. split; [done|]. by unfold STARTING, OPENED.
- (* finished *)
  destruct Hch as [Hb Hs]. assert (is_Some (net ppp) <-> state d = OPENED) as Hnet.
  { rewrite (ok_net _ Hok). split; [done|]. by destruct Hs as [-> |[-> | ->]]. }
  assert (ppp_link_ok ppp1) as Hok1 by (by apply (ppp_link_ok_ipcp ppp d)).
  unfold serve_ipcp_finished_notify in Hserve. destruct (negb _) eqn:Hnetwork.
  { injection Hserve as <- <-. apply Hquiet; [done|by rewrite C1|by apply Forall_nil]. }
  apply negb_false_iff, bool_decide_eq_true in Hnetwork.
  apply and_then_inv in Hserve as (ppp2 & p1 & p2 & Hcl & Hserve & ->).
  assert (ppp_link_ok ppp2 /\ phase ppp2 = PPP_PHASE_NETWORK /\ Forall is_frame p1) as (Hok2 & Hp2 & Hf2).
  { apply signal_ipcp_inv in Hcl as (n' & d' & ppp1' & e' & p' & q1 & q2 & _ & Hd' & Hc' & Hq & Hch' & Hev' & Hserve' & ->); [|apply Hok1].
    destruct (Hev' CLOSE eq_refl) as [He' Hs']. simpl in He', Hs'. rewrite C3 in He', Hs'. destruct (next_close _ Hs) as [Hnl Hns].
    rewrite Hnl in He'. rewrite He' in Hserve', Hch'. simpl in Hserve', Hch'. injection Hserve' as <- <-. rewrite app_nil_r.
    split_and!; [|rewrite (calm_phase _ _ Hc'); exact Hnetwork|done].
    apply (ppp_link_ok_ipcp (set_reason ppp1 REASON_IPCP_FAIL) d'); try done.
    - by apply (ppp_link_ok_calm ppp1).
    - simpl. rewrite Hnetwork. by left.
    - simpl. rewrite (ok_net _ Hok1). exact Hch'. }
  apply lcp_closes in Hserve as (? & Hp & ?).
  + apply Hquiet; [done|by rewrite Hp|by apply Forall_app].
  + apply ppp_link_ok_running; [done|]. rewrite Hp2. by right; left.
- (* nothing *)
  injection Hserve as <- <-. apply Hquiet; [|by rewrite C1|by apply Forall_nil].
  apply (ppp_link_ok_ipcp ppp d); try done. by rewrite (ok_net _ Hok).
Qed.

(** The calls of the user's disconnect function that are on their way. *)
Definition owed (ppp : GAtPPP) : nat :=
  if bool_decide (phase ppp = PPP_PHASE_DEAD) then dead_sources ppp + (if sta_pending ppp then 1 else 0) else 0.

Definition owes_one (ppp : GAtPPP) : Prop := phase ppp = PPP_PHASE_DEAD -> owed ppp = 1%nat.

Lemma alive_owes ppp : phase ppp <> PPP_PHASE_DEAD -> owes_one ppp.
Proof. by intros ? ?. Qed.

Lemma pap_transmit packet infolen ppp ppp' o buffer :
  take 4 packet = ppp_header PAP_PROTOCOL -> ppp_transmit packet infolen ppp = Ret (ppp', o, buffer) ->
  buffer = packet /\ sta_pending ppp' = sta_pending ppp.
Proof.
intros Hp. destruct packet as [|a [|b [|c [|d packet]]]]; try done. injection Hp as -> -> -> ->.
unfold ppp_transmit. change (rd (_ :: _ :: _ :: _ :: packet) 2) with (@Ret Z (u8 (PAP_PROTOCOL / 2 ^ 8))).
change (rd (_ :: _ :: _ :: _ :: packet) 3) with (@Ret Z (u8 PAP_PROTOCOL)). simp_res. cbv zeta.
change (_ =? LCP_PROTOCOL) with false. change (Z.land _ _ =? 0) with false. cbv iota. unfold ppp_send_acfc_frame, send_hdlc.
destruct (slice _ _ _) as [frame| |]; simp_res; try done.
destruct (g_at_hdlc_send _ _) as [[h ok]| |]; simp_res; try done. rewrite andb_false_r. by intros [= <- <- <-].
Qed.

Lemma pap_start_ok p ppp ppp' o :
  ppp_pap_start p ppp = Ret (ppp', o) ->
  phase ppp' = phase ppp /\ lcp ppp' = lcp ppp /\ ipcp ppp' = ipcp ppp /\ (is_Some (net ppp') <-> is_Some (net ppp))
  /\ dead_sources ppp' = dead_sources ppp /\ pap_ok ppp' /\ Forall is_frame o.
Proof.
unfold ppp_pap_start. destruct (ppp_transmit _ _ _) as [[[ppp1 o1] buffer]| |] eqn:Ht; simp_res; try done. intros [= <- <-].
pose proof Ht as [-> _]%pap_transmit; [|done]. apply calm_transmit in Ht as [[C1 C2 C3 C4 C5 C6] Hf].
split_and!; try done. by intros q [= <-] _.
Qed.

(** Whatever happens to LCP. *)
Lemma lcp_step_ok fuel i ppp ppp' o :
  signal_lcp fuel i ppp = Ret (ppp', o) -> ppp_link_ok ppp -> phase ppp <> PPP_PHASE_DEAD ->
  ppp_link_ok ppp' /\ owes_one ppp' /\ Forall is_frame o.
Proof.
intros Hsig Hok Halive.
apply signal_lcp_inv in Hsig as (n & d & ppp1 & e & o1 & o2 & _ & Hd & Hc & Ho & Hch & _ & Hserve & ->); [|apply Hok].
assert (forall ppp' o2, ppp_link_ok ppp' -> phase ppp' <> PPP_PHASE_DEAD -> Forall is_frame o2 ->
  ppp_link_ok ppp' /\ owes_one ppp' /\ Forall is_frame (o1 ++ o2)) as Hquiet.
{ intros ppp2 q ? ? ?. split_and!; [done|by apply alive_owes|by apply Forall_app]. }
pose proof (ok_pap _ Hok) as Hpap. pose proof (ok_sources _ Hok Halive) as Hsrc.
assert (state (lcp ppp) <> OPENED -> idle (state (ipcp ppp)) /\ ~ is_Some (net ppp)
  /\ (phase ppp = PPP_PHASE_ESTABLISHMENT \/ phase ppp = PPP_PHASE_TERMINATION)) as Hoff.
{ intros Hno. assert (~ network_phase (phase ppp)) as Hnot by (by rewrite <- (ok_opened _ Hok)).
  assert (idle (state (ipcp ppp))) by (apply (ok_idle _ Hok); intros ?; apply Hnot; by right).
  split; [done|]. split; [rewrite (ok_net _ Hok); by apply not_opened_idle|].
  unfold network_phase in Hnot. clear -Hnot Halive. destruct (phase ppp); auto; exfalso; first [by apply Halive | apply Hnot; auto]. }
assert (ppp_link_ok ppp -> (state (lcp ppp) = OPENED <-> state d = OPENED) -> ppp_link_ok ppp1 /\ phase ppp1 <> PPP_PHASE_DEAD) as Hstay.
{ intros _ Hsame. split; [|by rewrite (calm_phase _ _ Hc)]. apply (ppp_link_ok_calm _ _ Hc). destruct Hok. split; simpl; try done; by rewrite <- Hsame. }
destruct e as [[]|]; simpl in Hserve, Hch.
- (* up *)
  destruct Hch as [Hno Hup]. destruct (Hoff Hno) as (Hidle & Hnet & _). destruct Hc as [C1 C2 C3 C4 C5 C6]. simpl in *.
  assert (forall p, ppp_link_ok p -> network_phase (phase p) -> phase p <> PPP_PHASE_DEAD) as Hnp by (intros p _; apply network_alive).
  assert (forall q, phase q = PPP_PHASE_AUTHENTICATION -> lcp q = d -> ipcp q = ipcp ppp -> (is_Some (net q) <-> is_Some (net ppp)) ->
    dead_sources q = 0%nat -> pap_ok q -> ppp_link_ok q) as Hauth.
  { intros q E1 E2 E3 E4 E5 E6. apply ppp_link_ok_on; rewrite ?E1, ?E2, ?E3; try done; [by left|apply Hok|].
    rewrite E4. apply (ok_net _ Hok). }
  unfold serve_lcp_up_notify in Hserve. destruct (chap ppp1).
  { injection Hserve as <- <-. apply Hquiet; [|done|by apply Forall_nil]. apply Hauth; simpl; rewrite ?C5; try done. by apply C6. }
  destruct (pap ppp1) as [p|].
  + destruct (ppp_pap_start p ppp1) as [[ppp2 q]| |] eqn:Hstart; simp_res; try done. injection Hserve as <- <-.
    apply pap_start_ok in Hstart as (E1 & E2 & E3 & E4 & E5 & E6 & E7). apply Hquiet; [|done|done].
    apply Hauth; simpl; rewrite ?E2, ?E3, ?E4, ?E5, ?C5; try done.
  + apply authenticated in Hserve as (? & Hp & ?); [apply Hquiet; try done; by rewrite Hp|..]; rewrite ?C2, ?C3, ?C5; try done.
    * apply Hok.
    * rewrite C4. apply (ok_net _ Hok).
    * by apply C6.
- (* down *)
  destruct Hch as [Hop Hno]. assert (running ppp) as Hrun by (apply ppp_link_ok_running; [done|by apply (ok_opened _ Hok)]).
  destruct (lcp_down_served n ppp ppp1 d ppp' o2 Hd Hno Hrun Hc Hserve) as (? & Hp & ?). apply Hquiet; try done. by rewrite Hp.
- (* started *)
  injection Hserve as <- <-. destruct Hch as [Hno Hs]. destruct Hstay; [done|rewrite Hs; by split|]. by apply Hquiet.
- (* finished *)
  injection Hserve as <- <-. destruct Hch as [Hno Hs]. destruct (Hoff Hno) as (Hidle & Hnet & _).
  destruct Hc as [C1 C2 C3 C4 C5 C6]. simpl in *. split_and!.
  + split; simpl; rewrite ?C2, ?C3; try done; try apply Hok.
    * split; [|by intros [?|[?|?]]]. intros Hop. rewrite Hop in Hs. by destruct Hs as [?|[?|?]].
    * rewrite C4. apply (ok_net _ Hok).
    * by apply C6.
  + intros _. unfold owed. simpl. rewrite C5, Hsrc. by destruct (sta_pending ppp1).
  + rewrite app_nil_r. done.
- injection Hserve as <- <-. destruct Hstay; [done..|]. by apply Hquiet.
Qed.

(** ** Every event *)

Definition dead (ppp : GAtPPP) : nat := if bool_decide (phase ppp = PPP_PHASE_DEAD) then 1 else 0.

Fixpoint disconnects (o : list ppp_event) : nat :=
  match o with
  | [] => 0
  | Disconnected _ :: o => S (disconnects o)
  | _ :: o => disconnects o
  end.

Lemma disconnects_app o1 o2 : disconnects (o1 ++ o2) = (disconnects o1 + disconnects o2)%nat.
Proof. induction o1 as [|[] o1 IH]; simpl; by rewrite ?IH. Qed.

(** What a link does on an event, seen by its user. *)
Definition seen (ppp ppp' : GAtPPP) (e : ppp_event) : Prop :=
  match e with
  | Frame _ => True
  | Connected n _ _ _ _ => phase ppp' = PPP_PHASE_LINK_UP /\ state (ipcp ppp') = OPENED /\ if_name <$> net ppp' = Some n
  | ToInterface _ => phase ppp = PPP_PHASE_LINK_UP /\ is_Some (net ppp)
  | Disconnected _ => phase ppp = PPP_PHASE_DEAD
  end.

Record step_ok (ppp ppp' : GAtPPP) (o : list ppp_event) : Prop := {
  step_link : ppp_link_ok ppp';
  step_owed : (disconnects o + owed ppp' + dead ppp = owed ppp + dead ppp')%nat;
  step_seen : Forall (seen ppp ppp') o;
  step_dead : phase ppp = PPP_PHASE_DEAD -> phase ppp' = PPP_PHASE_DEAD
}.

Lemma no_disconnects ppp ppp' o : phase ppp <> PPP_PHASE_DEAD -> Forall (seen ppp ppp') o -> disconnects o = 0%nat.
Proof.
intros Halive. induction 1 as [|e o He Ho IH]; [done|]. by destruct e; simpl in *.
Qed.

Lemma alive_step ppp ppp' o :
  phase ppp <> PPP_PHASE_DEAD -> ppp_link_ok ppp' -> owes_one ppp' -> Forall (seen ppp ppp') o -> step_ok ppp ppp' o.
Proof.
intros Halive Hok Howes Ho. split; try done. rewrite (no_disconnects _ _ _ Halive Ho). unfold owes_one, dead, owed in *.
rewrite (bool_decide_false (phase ppp = PPP_PHASE_DEAD)) by done.
destruct (bool_decide_reflect (phase ppp' = PPP_PHASE_DEAD)) as [H|H]; [by rewrite Howes by done|done].
Qed.

Lemma frames_seen ppp ppp' o : Forall is_frame o -> Forall (seen ppp ppp') o.
Proof. intros Ho. eapply Forall_impl; [exact Ho|]. by intros []. Qed.

Lemma reports_seen ppp ppp' o : reports_ok ppp' o -> Forall (seen ppp ppp') o.
Proof. intros Ho. eapply Forall_impl; [exact Ho|]. by intros []. Qed.

(** An event that leaves a link as it is, but for its frames. *)
Lemma calm_step ppp ppp' o :
  ppp_link_ok ppp -> calm ppp ppp' -> (phase ppp = PPP_PHASE_DEAD -> sta_pending ppp' = sta_pending ppp) ->
  Forall is_frame o -> step_ok ppp ppp' o.
Proof.
intros Hok Hc Hsta Ho. split.
- by apply (ppp_link_ok_calm _ _ Hc).
- assert (disconnects o = 0%nat) as -> by (clear -Ho; by induction Ho as [|[] o]).
  destruct Hc as [C1 _ _ _ C5 _]. unfold owed, dead. rewrite C1, C5.
  destruct (bool_decide_reflect (phase ppp = PPP_PHASE_DEAD)); [rewrite Hsta by done|]; lia.
- by apply frames_seen.
- by rewrite (calm_phase _ _ Hc).
Qed.

Lemma nothing_step ppp : ppp_link_ok ppp -> step_ok ppp ppp [].
Proof. intros Hok. apply calm_step; [done|apply calm_refl|done|by apply Forall_nil]. Qed.

Lemma lcp_event_ok fuel i ppp ppp' o :
  signal_lcp fuel i ppp = Ret (ppp', o) -> ppp_link_ok ppp -> phase ppp <> PPP_PHASE_DEAD -> step_ok ppp ppp' o.
Proof.
intros Hsig Hok Halive. apply lcp_step_ok in Hsig as (? & ? & ?); [|done..]. apply alive_step; try done. by apply frames_seen.
Qed.

Lemma ipcp_event_ok fuel i ppp ppp' o :
  signal_ipcp fuel i ppp = Ret (ppp', o) -> ppp_link_ok ppp -> up_phase (phase ppp) -> step_ok ppp ppp' o.
Proof.
intros Hsig Hok Hph. apply ipcp_step_ok in Hsig as (? & ? & ?); [|done..]. apply alive_step; try done.
- by apply up_alive.
- by apply alive_owes.
- by apply reports_seen.
Qed.

Lemma set_lcp_same ppp : set_lcp ppp (lcp ppp) = ppp.
Proof. by destruct ppp. Qed.

Lemma set_ipcp_same ppp : set_ipcp ppp (ipcp ppp) = ppp.
Proof. by destruct ppp. Qed.

Lemma idle_timers {P} (d : pppcp_data P) : well_formed d -> ~ waiting (state d) -> timers d = [].
Proof. intros [_ Hw] Hno. destruct (timers d) eqn:Ht; [done|]. exfalso. apply Hno, Hw. done. Qed.

(** In a link that is dead LCP is quiet. *)
Lemma dead_close n ppp ppp' o :
  signal_lcp (S n) SignalClose ppp = Ret (ppp', o) -> ppp_link_ok ppp -> phase ppp = PPP_PHASE_DEAD ->
  o = [] /\ ppp_link_ok ppp' /\ phase ppp' = PPP_PHASE_DEAD /\ owed ppp' = owed ppp.
Proof.
intros Hsig Hok Hdead. pose proof (ok_dead _ Hok Hdead) as Hs.
assert (exists d, pppcp_step (driver := lcp_proto (auth_method ppp)) SignalClose (lcp ppp) = Ret (d, [])
  /\ (state d = INITIAL \/ state d = CLOSED)) as (d & Hstep & Hd).
{ simpl. unfold pppcp_signal_close. destruct Hs as [Hs|[Hs|Hs]]; run_entry Hs; rewrite transition_entered, !bind_Ret; eexists;
    (split; [done|]); by vm_compute; auto. }
simpl in Hsig. simpl in Hstep. rewrite Hstep, bind_Ret in Hsig. injection Hsig as <- <-.
assert (well_formed d) as Hwf by (apply (step_inv (driver := lcp_proto (auth_method ppp)) SignalClose _ _ [] (ok_lcp _ Hok) Hstep)).
split; [done|]. split; [|done]. destruct Hok. split; simpl; try done.
- rewrite Hdead. split; [|by intros [?|[?|?]]]. intros Ho. rewrite Ho in Hd. by destruct Hd.
- intros _. destruct Hd; auto.
Qed.

Lemma ppp_link_ok_pap ppp p :
  ppp_link_ok ppp -> ((0 < sources p)%nat -> take 4 (authreq p) = ppp_header PAP_PROTOCOL) -> ppp_link_ok (set_pap ppp p).
Proof. intros [] Hp. split; try done. by intros q [= <-]. Qed.

(** The authentication has failed. *)
Lemma refused_step ppp ppp' o : auth_notify false ppp = Ret (ppp', o) -> ppp_link_ok ppp -> step_ok ppp ppp' o.
Proof.
unfold auth_notify, ppp_auth_notify, run_lcp. simpl negb. cbv iota. intros Hsig Hok.
assert (ppp_link_ok (set_reason ppp REASON_AUTH_FAIL)) as Hok' by (by apply (ppp_link_ok_calm ppp)).
destruct (decide (phase ppp = PPP_PHASE_DEAD)) as [Hdead|Halive].
- apply dead_close in Hsig as (-> & Hok1 & Hd & Howed); [|done..].
  split; [done| |by apply Forall_nil|done]. rewrite Howed. unfold dead. rewrite Hd, Hdead. simpl.
  change (owed (set_reason ppp _)) with (owed ppp). lia.
- apply lcp_step_ok in Hsig as (? & ? & ?); [|done..]. apply alive_step; try done. by apply frames_seen.
Qed.

(** It has succeeded. *)
Lemma authenticated_step ppp ppp' o :
  auth_notify true ppp = Ret (ppp', o) -> ppp_link_ok ppp -> network_phase (phase ppp) -> step_ok ppp ppp' o.
Proof.
intros Hsig Hok Hph. destruct (ppp_link_ok_running _ Hok Hph) as [_ ? ? ? _ _ ? ?].
apply authenticated in Hsig as (? & Hp & ?); try done; [|apply (ok_net _ Hok)].
assert (phase ppp' <> PPP_PHASE_DEAD) by (by rewrite Hp).
apply alive_step; try done; [by apply network_alive|by apply alive_owes|by apply frames_seen].
Qed.

(** A step after the struct ppp_pap was changed. *)
Lemma step_ok_pap ppp p ppp' o : step_ok (set_pap ppp p) ppp' o -> step_ok ppp ppp' o.
Proof. by intros []. Qed.

Lemma chap_step packet ppp ppp' o :
  ppp_chap_process_packet packet ppp = Ret (ppp', o) -> ppp_link_ok ppp -> network_phase (phase ppp) -> step_ok ppp ppp' o.
Proof.
unfold ppp_chap_process_packet. intros Hsig Hok Hph.
destruct (_ <? _); [injection Hsig as <- <-; by apply nothing_step|].
destruct (rd packet 0) as [code| |]; simp_res; try done.
destruct (code =? CHALLENGE).
{ unfold chap_process_challenge in Hsig. destruct (chap_response _ _ _) as [response| |]; simp_res; try done.
  apply calm_transmit_info in Hsig as [Hc Hf]. apply calm_step; try done. intros H. by apply network_alive in Hph. }
destruct (code =? SUCCESS); [by apply authenticated_step|]. destruct (code =? FAILURE); [by apply refused_step|].
injection Hsig as <- <-. by apply nothing_step.
Qed.

Lemma pap_step p packet ppp ppp' o :
  ppp_pap_process_packet p packet ppp = Ret (ppp', o) -> pap ppp = Some p -> ppp_link_ok ppp -> network_phase (phase ppp) ->
  step_ok ppp ppp' o.
Proof.
unfold ppp_pap_process_packet. intros Hsig Hpap Hok Hph.
destruct (_ <? _); [injection Hsig as <- <-; by apply nothing_step|].
destruct (rd packet 0) as [code| |]; simp_res; try done.
assert (ppp_link_ok (set_pap ppp (pap_answered p))) as Hok'.
{ apply ppp_link_ok_pap; [done|]. intros Hsrc. apply (ok_pap _ Hok p Hpap). simpl in Hsrc. destruct (retry_timer p); [lia|done]. }
destruct (code =? PAP_ACK).
{ apply (step_ok_pap ppp (pap_answered p)). by apply authenticated_step. }
destruct (code =? PAP_NAK); [apply (step_ok_pap ppp (pap_answered p)); by apply refused_step|].
injection Hsig as <- <-. by apply nothing_step.
Qed.

Lemma pap_timeout_step p ppp ppp' o :
  ppp_pap_timeout p ppp = Ret (ppp', o) -> pap ppp = Some p -> (0 < sources p)%nat -> ppp_link_ok ppp -> step_ok ppp ppp' o.
Proof.
unfold ppp_pap_timeout. intros Hsig Hpap Hsrc Hok. pose proof (ok_pap _ Hok p Hpap Hsrc) as Hheader. cbv zeta in Hsig.
destruct (PAP_MAX_RETRY <=? _).
{ set (q := Build_ppp_pap _ _ _ _ _) in Hsig. apply (step_ok_pap ppp q). apply refused_step; [done|]. by apply ppp_link_ok_pap. }
destruct (rd (authreq p) _) as [id| |]; simp_res; try done.
destruct (wr (authreq p) _ _) as [packet| |] eqn:Hwr; simp_res; try done.
assert (take 4 packet = ppp_header PAP_PROTOCOL) as Hpacket.
{ unfold wr in Hwr. destruct (_ && _); [|done]. injection Hwr as <-. rewrite <- Hheader. apply take_insert_ge. vm_compute. lia. }
destruct (ppp_transmit _ _ _) as [[[ppp1 o1] buffer]| |] eqn:Ht; simp_res; try done. injection Hsig as <- <-.
pose proof Ht as [-> Hsta]%pap_transmit; [|done]. apply calm_transmit in Ht as [[C1 C2 C3 C4 C5 C6] Hf].
apply calm_step; try done. split; try done. intros _. by intros q [= <-].
Qed.

Lemma receive_step frame ppp ppp' o : ppp_receive frame ppp = Ret (ppp', o) -> ppp_link_ok ppp -> step_ok ppp ppp' o.
Proof.
unfold ppp_receive, run_lcp, run_ipcp. intros Hsig Hok.
destruct (frame_protocol frame) as [[protocol packet]|]; [|injection Hsig as <- <-; by apply nothing_step].
destruct (ppp_drop_packet ppp protocol) eqn:Hdrop; [injection Hsig as <- <-; by apply nothing_step|].
assert (phase ppp <> PPP_PHASE_DEAD) as Halive by (intros H; unfold ppp_drop_packet in Hdrop; by rewrite H in Hdrop).
destruct (protocol =? PPP_IP_PROTO) eqn:Hip.
{ apply Z.eqb_eq in Hip as ->.
  assert (phase ppp = PPP_PHASE_LINK_UP) as Hup by (unfold ppp_drop_packet in Hdrop; by destruct (phase ppp)).
  unfold ppp_net_process_packet in Hsig. destruct (_ <? _); simp_res; [injection Hsig as <- <-; by apply nothing_step|].
  destruct (get_host_short _) as [n| |]; simp_res; try done. destruct (net ppp) as [nt|] eqn:Hnet; simp_res; try done.
  destruct (slice _ _ _) as [octets| |]; simp_res; try done. injection Hsig as <- <-.
  split; try done. apply Forall_singleton. split; [done|by rewrite Hnet]. }
destruct (protocol =? LCP_PROTOCOL) eqn:Hlcp; [by eapply lcp_event_ok|].
destruct (protocol =? IPCP_PROTO) eqn:Hipcp.
{ apply Z.eqb_eq in Hipcp as ->. eapply ipcp_event_ok; [done|done|].
  unfold ppp_drop_packet in Hdrop. unfold up_phase. destruct (phase ppp); by auto. }
assert (protocol = PAP_PROTOCOL \/ protocol = CHAP_PROTOCOL -> network_phase (phase ppp)) as Hph.
{ unfold ppp_drop_packet in Hdrop. unfold network_phase.
  intros [-> | ->]; destruct (phase ppp); simpl in Hdrop; auto; try done. }
destruct (protocol =? PAP_PROTOCOL) eqn:Hpap.
{ apply Z.eqb_eq in Hpap. destruct (pap ppp) as [p|] eqn:Hp; [|by eapply lcp_event_ok]. eapply pap_step; try done. apply Hph. by left. }
destruct ((protocol =? CHAP_PROTOCOL) && chap ppp) eqn:Hchap; [|by eapply lcp_event_ok].
apply andb_true_iff in Hchap as [Hchap%Z.eqb_eq _]. eapply chap_step; try done. apply Hph. by right.
Qed.

(** The interface has a packet. *)
Lemma interface_step packet ppp ppp' o : ppp_net_callback packet ppp = Ret (ppp', o) -> ppp_link_ok ppp -> step_ok ppp ppp' o.
Proof.
unfold ppp_net_callback. intros Hsig Hok.
destruct (net ppp) as [nt|] eqn:Hnet; [|injection Hsig as <- <-; by apply nothing_step].
destruct (bool_decide _); [injection Hsig as <- <-; by apply nothing_step|].
destruct (ppp_transmit _ _ _) as [[[ppp1 o1] buffer]| |] eqn:Ht; simp_res; try done. injection Hsig as <- <-.
apply calm_transmit in Ht as [[C1 C2 C3 C4 C5 C6] Hf].
assert (phase ppp <> PPP_PHASE_DEAD) as Halive.
{ intros Hdead. assert (idle (state (ipcp ppp))) as Hidle by (apply (ok_idle _ Hok); rewrite Hdead; by intros [?|?]).
  apply (not_opened_idle _ Hidle), (ok_net _ Hok). by rewrite Hnet. }
apply calm_step; [done| |done|done]. by split.
Qed.

(** The line is lost. *)
Lemma lcp_goes_down fuel ppp ppp' o :
  signal_lcp fuel SignalDown ppp = Ret (ppp', o) -> ppp_link_ok ppp -> phase ppp <> PPP_PHASE_DEAD ->
  ppp_link_ok ppp' /\ phase ppp' <> PPP_PHASE_DEAD /\ Forall is_frame o.
Proof.
intros Hsig Hok Halive. pose proof Hsig as (Hok' & _ & Hf)%lcp_step_ok; [|done..]. split_and!; try done.
apply signal_lcp_inv in Hsig as (n & d & ppp1 & e & o1 & o2 & _ & Hd & Hc & Ho & Hch & Hev & Hserve & ->); [|apply Hok].
destruct (Hev DOWN eq_refl) as [He _]. destruct (next_down _ (wf_state _ (ok_lcp _ Hok))) as [_ Hl]. rewrite <- He in Hl.
destruct Hl as [Hl|[Hl|Hl]]; rewrite Hl in Hserve, Hch; simpl in Hserve, Hch;
  try (injection Hserve as <- <-; by rewrite (calm_phase _ _ Hc)).
destruct Hch as [Hop Hno]. assert (running ppp) as Hrun by (apply ppp_link_ok_running; [done|by apply (ok_opened _ Hok)]).
destruct (lcp_down_served n ppp ppp1 d ppp' o2 Hd Hno Hrun Hc Hserve) as (_ & Hp & _). by rewrite Hp.
Qed.

Lemma disconnect_step ppp ppp' o : io_disconnect ppp = Ret (ppp', o) -> ppp_link_ok ppp -> step_ok ppp ppp' o.
Proof.
unfold io_disconnect, run_lcp. intros Hsig Hok.
destruct (bool_decide_reflect (phase ppp = PPP_PHASE_DEAD)); [injection Hsig as <- <-; by apply nothing_step|].
apply and_then_inv in Hsig as (ppp1 & o1 & o2 & H1 & H2 & ->).
apply lcp_goes_down in H1 as (Hok1 & Halive1 & Hf1); [|by apply (ppp_link_ok_calm ppp)|done].
apply lcp_step_ok in H2 as (? & ? & ?); [|done..]. apply alive_step; try done. apply frames_seen. by apply Forall_app.
Qed.

(** Whatever happens to a link. *)
Lemma ppp_step_ok i ppp ppp' o : ppp_step i ppp = Ret (ppp', o) -> ppp_link_ok ppp -> step_ok ppp ppp' o.
Proof.
destruct i as [frame| | | | |packet| | | |]; cbn [ppp_step]; unfold run_lcp, run_ipcp; intros Hsig Hok.
- by eapply receive_step.
- destruct (decide (phase ppp = PPP_PHASE_DEAD)) as [Hdead|Halive]; [|by eapply lcp_event_ok].
  assert (timers (lcp ppp) = []) as Ht.
  { apply idle_timers; [apply Hok|]. unfold waiting. pose proof (ok_dead _ Hok Hdead) as Hs.
    unfold INITIAL, CLOSED, STOPPED, CLOSING in *. lia. }
  simpl in Hsig. rewrite Ht, bind_Ret, set_lcp_same in Hsig. injection Hsig as <- <-. by apply nothing_step.
- destruct (decide (up_phase (phase ppp))) as [Hup|Hno]; [by eapply ipcp_event_ok|].
  assert (timers (ipcp ppp) = []) as Ht.
  { apply idle_timers; [apply Hok|]. unfold waiting. pose proof (ok_idle _ Hok Hno) as Hs.
    unfold idle, INITIAL, STARTING, CLOSING in *. lia. }
  simpl in Hsig. rewrite Ht, bind_Ret, set_ipcp_same in Hsig. injection Hsig as <- <-. by apply nothing_step.
- destruct (pap ppp) as [p|] eqn:Hp; [|injection Hsig as <- <-; by apply nothing_step].
  destruct (0 <? sources p)%nat eqn:Hsrc; [|injection Hsig as <- <-; by apply nothing_step].
  apply Nat.ltb_lt in Hsrc. by eapply pap_timeout_step.
- destruct (0 <? stale ppp)%nat; [done|]. injection Hsig as <- <-. by apply nothing_step.
- by eapply interface_step.
- destruct (sta_pending ppp) eqn:Hsta; [|injection Hsig as <- <-; by apply nothing_step].
  unfold sta_sent in Hsig. simpl phase in Hsig.
  assert (ppp_link_ok (set_link ppp (link ppp) false)) as Hok' by (by apply (ppp_link_ok_calm ppp)).
  destruct (bool_decide_reflect (phase ppp = PPP_PHASE_DEAD)) as [Hdead|Halive]; injection Hsig as <- <-.
  + split; try done; [|by apply Forall_singleton].
    unfold owed, dead. simpl. rewrite Hdead, Hsta. simpl. lia.
  + apply alive_step; [done|done|by apply alive_owes|by apply Forall_nil].
- destruct (0 <? dead_sources ppp)%nat eqn:Hsrc; [|injection Hsig as <- <-; by apply nothing_step].
  apply Nat.ltb_lt in Hsrc. unfold ppp_dead in Hsig. injection Hsig as <- <-.
  assert (phase ppp = PPP_PHASE_DEAD) as Hdead.
  { destruct (decide (phase ppp = PPP_PHASE_DEAD)) as [?|Halive]; [done|]. pose proof (ok_sources _ Hok Halive). lia. }
  split; [|unfold owed, dead; simpl; rewrite Hdead; simpl; lia|by apply Forall_singleton|done].
  destruct Hok. by split.
- by eapply disconnect_step.
- unfold g_at_ppp_shutdown, run_lcp in Hsig. destruct (_ || _) eqn:Hoff; [injection Hsig as <- <-; by apply nothing_step|].
  apply orb_false_iff in Hoff as [Halive%bool_decide_eq_false _].
  apply lcp_step_ok in Hsig as (? & ? & ?); [|by apply (ppp_link_ok_calm ppp)|done].
  apply alive_step; try done. by apply frames_seen.
Qed.

Lemma ppp_run_ok inputs : forall ppp ppp' o,
  ppp_run inputs ppp = Ret (ppp', o) -> ppp_link_ok ppp ->
  ppp_link_ok ppp' /\ (disconnects o + owed ppp' + dead ppp = owed ppp + dead ppp')%nat.
Proof.
induction inputs as [|i inputs IH]; intros ppp ppp' o; simpl.
- intros [= <- <-] Hok. split; [done|]. simpl. lia.
- intros (ppp1 & o1 & o2 & H1 & H2 & ->)%and_then_inv Hok. apply ppp_step_ok in H1 as [Hok1 Ho1 _ _]; [|done].
  apply IH in H2 as [Hok2 Ho2]; [|done]. split; [done|]. rewrite disconnects_app. lia.
Qed.

(** ** Links that begin *)

(** A link as its user has made it, with the settings of his choice. *)
Record fresh (ppp : GAtPPP) : Prop := {
  fresh_phase : phase ppp = PPP_PHASE_DEAD;
  fresh_lcp : well_formed (lcp ppp); fresh_state : state (lcp ppp) <> OPENED;
  fresh_ipcp : well_formed (ipcp ppp); fresh_idle : idle (state (ipcp ppp));
  fresh_net : net ppp = None; fresh_sources : dead_sources ppp = 0%nat; fresh_pap : pap ppp = None
}.

Lemma fresh_new server ip descriptor : fresh (set_net (ppp_init_common server ip) None descriptor).
Proof.
assert (well_formed (lcp_new server)) as Hl.
{ destruct (new_well_formed server 0 (priv (lcp_new server))) as [Ht Hw]; [done|]. split; [by apply typed_set_local|done]. }
split; try done; simpl.
- by destruct server.
- destruct (new_well_formed false MAX_IPCP_FAILURE (priv (ipcp_new server ip))) as [Ht Hw]; [done|].
  split; [by apply typed_set_local|done].
- by left.
Qed.

Lemma fresh_configure s ppp : fresh ppp -> fresh (g_at_ppp_configure s ppp).
Proof.
intros []. assert (forall d l, well_formed d -> state d <> OPENED -> well_formed (lcp_set_options d l) /\ state (lcp_set_options d l) <> OPENED) as Hset.
{ intros d l [Ht Hw] Hs. split; [|done]. split; [by apply typed_set_local, typed_set_data|done]. }
assert (well_formed (lcp_configure (lcp ppp) s) /\ state (lcp_configure (lcp ppp) s) <> OPENED) as [? ?].
{ destruct s as [v|e|e]; simpl; unfold lcp_set_accm, lcp_set_acfc_enabled, lcp_set_pfc_enabled, lcp_set_enabled.
  - by apply Hset.
  - destruct (_ =? PppLcp.req_options (priv (lcp ppp))); [done|by apply Hset].
  - destruct (_ =? PppLcp.req_options (priv (lcp ppp))); [done|by apply Hset]. }
by split.
Qed.

Lemma fresh_server_info remote d1 d2 ppp : fresh ppp -> fresh (g_at_ppp_set_server_info remote d1 d2 ppp).
Proof. intros [? ? ? [Ht Hw] ? ? ? ?]. split; try done. split; [by apply typed_set_data|done]. Qed.

Lemma new_framing_calm no_carrier ppp ppp' : new_framing no_carrier ppp = Ret ppp' -> calm ppp ppp'.
Proof.
unfold new_framing. destruct g_at_hdlc_new_from_io as [h| |]; simp_res; try done. intros [= <-]. apply calm_set_link.
Qed.

Lemma lcp_starts_calm fuel i ppp ppp' o :
  i = SignalOpen \/ i = SignalUp -> signal_lcp fuel i ppp = Ret (ppp', o) -> well_formed (lcp ppp) -> state (lcp ppp) <> OPENED ->
  exists d, well_formed d /\ state d <> OPENED /\ calm (set_lcp ppp d) ppp' /\ Forall is_frame o.
Proof.
intros Hi Hsig Hwf Hno.
apply signal_lcp_inv in Hsig as (n & d & ppp1 & e & o1 & o2 & _ & Hd & Hc & Ho & Hch & Hev & Hserve & ->); [|done].
assert (e = None \/ e = Some LayerStarted) as He.
{ destruct Hi as [-> | ->].
  - destruct (Hev OPEN eq_refl) as [-> _]. apply next_up_open; [by apply wf_state|by right].
  - destruct (Hev UP eq_refl) as [-> _]. apply next_up_open; [by apply wf_state|by left]. }
assert (ppp' = ppp1 /\ o2 = []) as [-> ->] by (destruct He as [-> | ->]; by injection Hserve as <- <-).
exists d. rewrite app_nil_r. split_and!; try done.
destruct He as [-> | ->]; simpl in Hch; [by rewrite <- Hch|]. destruct Hch as [_ ->]. by unfold STARTING, OPENED.
Qed.

Lemma begins_ok (start : link_action) ppp ppp' o :
  start = g_at_ppp_open \/ start = g_at_ppp_listen -> start ppp = Ret (ppp', o) -> fresh ppp ->
  ppp_link_ok ppp' /\ phase ppp' = PPP_PHASE_ESTABLISHMENT /\ Forall is_frame o.
Proof.
intros Hstart Hbegin [].
assert (forall q, ipcp q = ipcp ppp -> (is_Some (net q) <-> is_Some (net ppp)) -> dead_sources q = dead_sources ppp ->
  (pap_ok ppp -> pap_ok q) -> well_formed (lcp q) -> state (lcp q) <> OPENED ->
  ppp_link_ok (ppp_enter_phase PPP_PHASE_ESTABLISHMENT q)) as Hoff.
{ intros q E1 E2 E3 E4 ? ?. apply ppp_link_ok_off; simpl; rewrite ?E1, ?E3; try done.
  - by left.
  - apply eq_None_not_Some. rewrite E2, fresh_net0. by intros [? ?].
  - apply E4. intros p. by rewrite fresh_pap0. }
destruct Hstart as [-> | ->].
- unfold g_at_ppp_open in Hbegin. apply bind_inv in Hbegin as (ppp1 & Hf & Hbegin).
  apply new_framing_calm in Hf as [F1 F2 F3 F4 F5 F6].
  apply bind_inv in Hbegin as ([ppp2 o2] & Hsig & Hbegin). injection Hbegin as <- <-.
  apply and_then_inv in Hsig as (ppp3 & p1 & p2 & H1 & H2 & ->).
  apply lcp_starts_calm in H1 as (d1 & Hd1 & Hs1 & [C1 C2 C3 C4 C5 C6] & Hf1); [|by right|by rewrite F2|by rewrite F2].
  simpl in C2, C3, C4, C5.
  apply lcp_starts_calm in H2 as (d2 & Hd2 & Hs2 & [D1 D2 D3 D4 D5 D6] & Hf2); [|by left|by rewrite C2|by rewrite C2].
  simpl in D2, D3, D4, D5.
  split_and!; [|done|by apply Forall_app]. apply Hoff.
  + by rewrite D3, C3, F3.
  + by rewrite D4, C4, F4.
  + by rewrite D5, C5, F5.
  + intros Hp. by apply D6, C6, F6.
  + by rewrite D2.
  + by rewrite D2.
- unfold g_at_ppp_listen in Hbegin. apply bind_inv in Hbegin as (ppp1 & Hf & Hbegin). injection Hbegin as <- <-.
  apply new_framing_calm in Hf as [F1 F2 F3 F4 F5 F6].
  split_and!; [|done|by apply Forall_nil]. apply Hoff; rewrite ?F2; done.
Qed.

(** ** Notifications nest three deep at most *)

Lemma next_layer_out event s : ~ 0 <= s <= OPENED -> next_layer event s = None.
Proof.
intros Hs. unfold next_layer, entry. destruct (rd cp_transitions event) as [row| |] eqn:Hrow; simp_res; try done.
destruct (rd row s) as [actions| |] eqn:Hact; simp_res; try done.
apply rd_inv in Hrow as [_ Hrow]. apply rd_inv in Hact as [Hpos Hact]. exfalso. apply Hs. split; [done|].
pose proof table_entries as Hall. rewrite forallb_forall in Hall.
assert (In (Z.to_nat event, row) (imap (fun event row => (event, row)) cp_transitions)) as Hin.
{ apply list_elem_of_In, list_elem_of_lookup. exists (Z.to_nat event). by rewrite list_lookup_imap, Hrow. }
apply Hall, andb_true_iff in Hin as [Hlen%Nat.eqb_eq _]. apply lookup_lt_Some in Hact. unfold OPENED. lia.
Qed.

Lemma next_layers s :
  (next_layer DOWN s = None \/ next_layer DOWN s = Some LayerStarted \/ next_layer DOWN s = Some LayerDown)
  /\ (next_layer UP s = None \/ next_layer UP s = Some LayerStarted)
  /\ (next_layer OPEN s = None \/ next_layer OPEN s = Some LayerStarted)
  /\ next_layer CLOSE s <> Some LayerUp.
Proof.
destruct (decide (0 <= s <= OPENED)) as [Hs|Hs]; [|by rewrite !next_layer_out by done; auto].
split; [by apply next_down|]. split; [apply next_up_open; auto|]. split; [apply next_up_open; auto|].
each_state Hs; by vm_compute.
Qed.

Lemma shallow_and_then (a b : link_action) ppp :
  shallow (a ppp) -> (forall ppp1 o1, a ppp = Ret (ppp1, o1) -> shallow (b ppp1)) -> shallow (and_then a b ppp).
Proof.
intros Ha Hb. unfold and_then. apply shallow_bind; [done|]. intros [ppp1 o1] H1. apply shallow_bind; [by eapply Hb|]. by intros [? ?] _.
Qed.

Lemma shallow_send frame sta ppp : shallow (send_hdlc frame sta ppp).
Proof. unfold send_hdlc. apply shallow_bind; [shallow|]. by intros [? ?] _. Qed.

Lemma shallow_transmit packet infolen ppp : shallow (ppp_transmit packet infolen ppp).
Proof.
unfold ppp_transmit, ppp_send_acfc_frame, acfc_pfc_frame. cbv zeta. shallow; try apply shallow_send.
unfold ppp_send_lcp_frame, g_at_hdlc_get_xmit_accm. cbv zeta. shallow; apply shallow_send.
Qed.

Lemma shallow_transmit_info proto info ppp : shallow (transmit_info proto info ppp).
Proof. unfold transmit_info. apply shallow_bind; [apply shallow_transmit|]. by intros [[? ?] ?] _. Qed.

Lemma shallow_quiet_lcp f g x ppp : quiet_output setting_call x -> shallow (serve_lcp f g x ppp).
Proof.
destruct x as [proto info|e|c|s e]; simpl; try done; intros Hc; [apply shallow_transmit_info|].
destruct c; try done. unfold ppp_set_auth. by destruct (proto =? PAP_PROTOCOL), (proto =? CHAP_PROTOCOL).
Qed.

Lemma shallow_quiet_ipcp f g x ppp : quiet_output (fun _ => False) x -> shallow (serve_ipcp f g x ppp).
Proof. destruct x as [proto info|e|c|s e]; simpl; try done; intros _. apply shallow_transmit_info. Qed.

Lemma shallow_serve_all {A} (serve : A -> link_action) q l ppp :
  (forall x ppp, x ∈ q -> shallow (serve x ppp)) ->
  (forall ppp1 o1, serve_all serve q ppp = Ret (ppp1, o1) -> shallow (serve_all serve l ppp1)) ->
  shallow (serve_all serve (q ++ l) ppp).
Proof.
revert ppp. induction q as [|x q IH]; intros ppp Hq Hl; simpl.
- by apply (Hl ppp []).
- apply shallow_and_then; [apply Hq; by apply list_elem_of_here|]. intros ppp1 o1 H1. apply IH.
  + intros y ppp2 Hy. apply Hq. by apply list_elem_of_further.
  + intros ppp2 o2 H2. apply (Hl ppp2 (o1 ++ o2)). simpl. unfold and_then. by rewrite H1, bind_Ret, H2, bind_Ret.
Qed.

(** A step is not nested too deep if the call it ends with is not. *)
Lemma shallow_signal_lcp n i ppp :
  (forall d ppp1 e, calm (set_lcp ppp d) ppp1 ->
     (forall event, signal_event i = Some event -> e = next_layer event (state (lcp ppp))) ->
     shallow (served_lcp (signal_lcp n) (signal_ipcp n) e ppp1)) ->
  shallow (signal_lcp (S n) i ppp).
Proof.
intros Hserved. simpl. apply shallow_bind; [apply shallow_step|]. intros [d outputs] Hstep.
assert (exists q l e, outputs = q ++ l /\ Forall (quiet_output setting_call) q
  /\ layer_calls (driver := lcp_proto (auth_method ppp)) e l
  /\ (forall event, signal_event i = Some event -> e = next_layer event (state (lcp ppp)))) as (q & l & e & -> & Hq & Hl & Hev).
{ destruct (signal_event i) as [event|] eqn:Hi.
  - destruct (step_next setting_call (driver := lcp_proto (auth_method ppp)) _ _ _ _ _ Hi Hstep) as (q & l & -> & Hq & Hl & _).
    exists q, l, (next_layer event (state (lcp ppp))). split_and!; try done. by intros ? [= ->].
  - destruct (step_reports setting_call (driver := lcp_proto (auth_method ppp)) _ _ _ _ Hstep) as (q & l & e & -> & Hq & Hl & _).
    by exists q, l, e. }
apply shallow_serve_all.
- intros x ppp1 Hx. apply shallow_quiet_lcp. rewrite Forall_forall in Hq. by apply Hq.
- intros ppp1 o1 H1. apply (calm_serve_all _ _ _ (calm_quiet_lcp _ _) Hq) in H1 as [Hc _].
  rewrite (serve_layer_lcp _ _ _ _ _ _ Hl). by eapply Hserved.
Qed.

Lemma shallow_signal_ipcp n i ppp :
  (forall d ppp1 e p, calm (set_ipcp ppp d) ppp1 -> change e (state (ipcp ppp)) (state d) ->
     (forall event, signal_event i = Some event -> e = next_layer event (state (ipcp ppp))) ->
     shallow (served_ipcp (signal_lcp n) (signal_ipcp n) e p ppp1)) ->
  shallow (signal_ipcp (S n) i ppp).
Proof.
intros Hserved. simpl. apply shallow_bind; [apply shallow_step|]. intros [d outputs] Hstep.
assert (exists q l e, outputs = q ++ l /\ Forall (quiet_output (fun _ => False)) q
  /\ layer_calls (driver := ipcp_proto) e l /\ change e (state (ipcp ppp)) (state d)
  /\ (forall event, signal_event i = Some event -> e = next_layer event (state (ipcp ppp)))) as (q & l & e & -> & Hq & Hl & Hch & Hev).
{ destruct (signal_event i) as [event|] eqn:Hi.
  - destruct (step_next (fun _ => False) (driver := ipcp_proto) _ _ _ _ _ Hi Hstep) as (q & l & -> & Hq & Hl & Hs).
    exists q, l, (next_layer event (state (ipcp ppp))). rewrite Hs. split_and!; try done; [apply next_change|by intros ? [= ->]].
  - destruct (step_reports (fun _ => False) (driver := ipcp_proto) _ _ _ _ Hstep) as (q & l & e & -> & Hq & Hl & Hch).
    by exists q, l, e. }
apply shallow_serve_all.
- intros x ppp1 Hx. apply shallow_quiet_ipcp. rewrite Forall_forall in Hq. by apply Hq.
- intros ppp1 o1 H1. apply (calm_serve_all _ _ _ (calm_quiet_ipcp _ _) Hq) in H1 as [Hc _].
  destruct (serve_layer_ipcp (signal_lcp n) (signal_ipcp n) e l ppp1 Hl) as [p ->]. by eapply Hserved.
Qed.

(** Depth one: IPCP down, open and up. *)
Lemma shallow_ipcp_signals n i ppp : i = SignalDown \/ i = SignalOpen \/ i = SignalUp -> shallow (signal_ipcp (S n) i ppp).
Proof.
intros Hi. apply shallow_signal_ipcp. intros d ppp1 e p _ _ Hev.
destruct (next_layers (state (ipcp ppp))) as (Hdown & Hup & Hopen & _).
destruct Hi as [-> |[-> | ->]].
- rewrite (Hev DOWN) by done. by destruct Hdown as [-> |[-> | ->]].
- rewrite (Hev OPEN) by done. by destruct Hopen as [-> | ->].
- rewrite (Hev UP) by done. by destruct Hup as [-> | ->].
Qed.

Lemma shallow_down_served n ppp : shallow (serve_lcp_down_notify (signal_ipcp (S n)) ppp).
Proof.
unfold serve_lcp_down_notify. apply shallow_bind; [|by intros [? ?] _].
destruct (_ || _); [|done]. apply shallow_ipcp_signals. by left.
Qed.

Lemma shallow_auth_success n f ppp : shallow (ppp_auth_notify f (signal_ipcp (S n)) true ppp).
Proof.
unfold ppp_auth_notify. simpl negb. cbv iota. apply shallow_and_then; [apply shallow_ipcp_signals; auto|].
intros ppp1 o1 _. apply shallow_ipcp_signals. auto.
Qed.

(** Depth two: all of LCP. *)
Lemma shallow_lcp n i ppp : shallow (signal_lcp (S (S n)) i ppp).
Proof.
apply shallow_signal_lcp. intros d ppp1 e _ _. destruct e as [[]|]; try done; simpl.
- unfold serve_lcp_up_notify. destruct (chap ppp1); [done|]. destruct (pap ppp1) as [p|]; [|apply shallow_auth_success].
  apply shallow_bind; [|by intros [? ?] _]. unfold ppp_pap_start. apply shallow_bind; [apply shallow_transmit|]. by intros [[? ?] ?] _.
- apply shallow_down_served.
Qed.

(** Depth three: all of IPCP. *)
Lemma shallow_ipcp n i ppp : shallow (signal_ipcp (S (S (S n))) i ppp).
Proof.
apply shallow_signal_ipcp. intros d ppp1 e p Hc Hch _. destruct e as [[]|]; try done; cbn [served_ipcp].
- unfold up_notify, serve_ipcp_up_notify. destruct (ppp_net_new (fd ppp1)); [done|]. apply shallow_lcp.
- unfold serve_ipcp_finished_notify. destruct (negb _); [done|]. destruct Hch as [_ Hs].
  apply shallow_and_then; [|intros ppp2 o2 _; apply shallow_lcp].
  apply shallow_signal_ipcp. intros d' ppp2 e' p' _ _ Hev. rewrite (Hev CLOSE) by done. simpl.
  pose proof (calm_ipcp _ _ Hc) as Hipcp. simpl in Hipcp. rewrite Hipcp. by rewrite (proj1 (next_close _ Hs)).
Qed.

(** * Correctness *)


(** C11: the notifications between the layers end.  LCP, the authentication, IPCP
    and the interface call one another while an event is handled: LCP going down
    takes IPCP down, IPCP that finds no interface closes LCP, and so on.
    Whatever the state of the link and whatever happens to it, the calls do not
    nest deeper than the definitions follow them. *)
Theorem notifications_end i ppp : ppp_step i ppp <> Err.
Proof.
change (shallow (ppp_step i ppp)).
assert (forall success ppp, shallow (auth_notify success ppp)) as Hauth.
{ intros [] ppp1; unfold auth_notify; [apply shallow_auth_success|]. unfold ppp_auth_notify. apply shallow_lcp. }
destruct i as [frame| | | | |packet| | | |]; cbn [ppp_step].
- unfold ppp_receive. destruct (frame_protocol frame) as [[protocol packet]|]; [|done].
  destruct (ppp_drop_packet ppp protocol); [done|]. destruct (protocol =? PPP_IP_PROTO).
  { apply shallow_bind; [|done]. unfold ppp_net_process_packet, get_host_short. destruct (net ppp); shallow. }
  destruct (protocol =? LCP_PROTOCOL); [apply shallow_lcp|]. destruct (protocol =? IPCP_PROTO); [apply shallow_ipcp|].
  destruct (protocol =? PAP_PROTOCOL).
  { destruct (pap ppp) as [p|]; [|apply shallow_lcp]. unfold ppp_pap_process_packet.
    destruct (_ <? _); [done|]. apply shallow_bind; [shallow|]. intros code _.
    destruct (_ =? PAP_ACK); [apply Hauth|]. destruct (_ =? PAP_NAK); [apply Hauth|done]. }
  destruct (_ && _); [|apply shallow_lcp]. unfold ppp_chap_process_packet.
  destruct (_ <? _); [done|]. apply shallow_bind; [shallow|]. intros code _.
  destruct (_ =? CHALLENGE); [|destruct (_ =? SUCCESS); [apply Hauth|]; destruct (_ =? FAILURE); [apply Hauth|done]].
  unfold chap_process_challenge. apply shallow_bind; [unfold chap_response; cbv zeta; shallow|].
  intros response _. apply shallow_transmit_info.
- apply shallow_lcp.
- apply shallow_ipcp.
- destruct (pap ppp) as [p|]; [|done]. destruct (_ <? _)%nat; [|done]. unfold ppp_pap_timeout. cbv zeta.
  destruct (_ <=? _); [apply Hauth|]. apply shallow_bind; [shallow|]. intros identifier _.
  apply shallow_bind; [shallow|]. intros packet _. apply shallow_bind; [apply shallow_transmit|]. by intros [[? ?] ?] _.
- by destruct (_ <? _)%nat.
- unfold ppp_net_callback. destruct (net ppp); [|done]. cbv zeta. destruct (bool_decide _); [done|].
  apply shallow_bind; [apply shallow_transmit|]. by intros [[? ?] ?] _.
- destruct (sta_pending ppp); [|done]. unfold sta_sent. by destruct (bool_decide _).
- by destruct (_ <? _)%nat.
- unfold io_disconnect. destruct (bool_decide _); [done|]. apply shallow_and_then; [apply shallow_lcp|]. intros ppp1 o1 _. apply shallow_lcp.
- unfold g_at_ppp_shutdown. destruct (_ || _); [done|]. apply shallow_lcp.
Qed.

(** ** Packets of the interfaces *)

(** A packet the interface gives, of which the header tells the length. *)
Definition ip_packet (m : Z) (p : list Z) : Prop :=
  bytes p /\ 4 <= zlen p <= m /\ get_host_short (drop 2 p) = Ret (zlen p).

(** The frames among what a link does. *)
Definition frames (o : list ppp_event) : list (list Z) := omap (fun e => match e with Frame f => Some f | _ => None end) o.

(** Of a packet with its full header, what is sent, with the compressions. *)
Definition ip_frame (acfc pfc : bool) (p : list Z) : list Z :=
  if acfc && pfc then 0x21 :: p else if acfc then 0x00 :: 0x21 :: p else ppp_header PPP_IP_PROTO ++ p.

Lemma ip_transmit ppp p :
  (xmit_pfc (link ppp) = true -> xmit_acfc (link ppp) = true) ->
  ppp_transmit (ppp_header PPP_IP_PROTO ++ p) (zlen p) ppp
  = ('(ppp, o) ← send_hdlc (ip_frame (xmit_acfc (link ppp)) (xmit_pfc (link ppp)) p) false ppp;
     Ret (ppp, o, ppp_header PPP_IP_PROTO ++ p)).
Proof.
intros Hpfc. unfold ppp_transmit. change (rd (ppp_header PPP_IP_PROTO ++ p) 2) with (@Ret Z 0).
change (rd (ppp_header PPP_IP_PROTO ++ p) 3) with (@Ret Z 0x21). simp_res. cbv zeta.
change (_ =? LCP_PROTOCOL) with false. change (Z.land _ _ =? 0) with true. cbv iota.
assert (forall before after, ppp_header PPP_IP_PROTO = before ++ after ->
  slice (ppp_header PPP_IP_PROTO ++ p) (zlen before) (zlen p + PPP_HEADER_SZ - zlen before) = Ret (after ++ p)) as Hslice.
{ intros before after H. rewrite H. rewrite <- app_assoc. rewrite <- (app_nil_r (after ++ p)) at 1. apply slice_app; [done|].
  assert (zlen (ppp_header PPP_IP_PROTO) = 4) as H4 by done. rewrite H, zlen_app in H4. rewrite zlen_app. unfold PPP_HEADER_SZ. lia. }
unfold acfc_pfc_frame, ip_frame.
destruct (xmit_acfc (link ppp)); [destruct (xmit_pfc (link ppp))|]; simpl andb; cbv iota.
- rewrite bind_Ret. change 3 with (zlen [0xff; 0x03; 0x00]). by rewrite (Hslice _ [0x21]).
- rewrite bind_Ret. change 2 with (zlen [0xff; 0x03]). by rewrite (Hslice _ [0x00; 0x21]).
- destruct (xmit_pfc (link ppp)); [by discriminate Hpfc|]. simp_res.
  change 0 with (zlen (@nil Z)). by rewrite (Hslice _ (ppp_header PPP_IP_PROTO)).
Qed.

Lemma ip_receive acfc pfc p nt m ppp :
  ip_packet m p -> phase ppp = PPP_PHASE_LINK_UP -> net ppp = Some nt ->
  ppp_receive (ip_frame acfc pfc p) ppp = Ret (ppp, [ToInterface p]).
Proof.
intros (Hb & Hlen & Hlength) Hph Hnet.
assert (frame_protocol (ip_frame acfc pfc p) = Some (PPP_IP_PROTO, p)) as Hproto.
{ unfold ip_frame. by destruct acfc, pfc, p as [|a p]. }
unfold ppp_receive. rewrite Hproto. unfold ppp_drop_packet. rewrite Hph. cbv iota. rewrite Z.eqb_refl, Hnet.
unfold ppp_net_process_packet. rewrite (proj2 (Z.ltb_ge _ _)) by lia. rewrite Hlength, !bind_Ret, Z.min_id, slice_all by done.
done.
Qed.

(** One packet of the interface: it is framed, and offered to the framing layer. *)
Lemma ip_send_step ppp nt p :
  hdlc_ok (hdlc (link ppp)) -> ip_packet (net_mtu nt) p ->
  net ppp = Some nt -> net_packet nt = ppp_header PPP_IP_PROTO ->
  (xmit_pfc (link ppp) = true -> xmit_acfc (link ppp) = true) ->
  let frame := ip_frame (xmit_acfc (link ppp)) (xmit_pfc (link ppp)) p in
  exists h sent, g_at_hdlc_send (hdlc (link ppp)) frame = Ret (h, sent) /\ hdlc_ok h
  /\ ppp_step (FromInterface p) ppp
     = Ret (set_net (set_hdlc ppp h (sta_pending ppp)) (Some nt) (fd ppp), if (sent : bool) then [Frame frame] else []).
Proof.
intros Hh (Hb & Hlen & _) Hnet Hhead Hpfc frame.
assert (bytes frame) as Hbf by (unfold frame, ip_frame; destruct (xmit_acfc _), (xmit_pfc _); simpl; repeat (apply Forall_cons_2; [by split; vm_compute|]); exact Hb).
destruct (send_ok _ frame Hh Hbf) as (h & Hsend & Hh' & _). cbv zeta in Hsend.
eexists h, _. split; [exact Hsend|]. split; [exact Hh'|].
simpl ppp_step. unfold ppp_net_callback. rewrite Hnet. cbv zeta. unfold zlen in Hlen.
rewrite take_ge by lia. rewrite bool_decide_eq_false_2 by (intros ->; simpl in Hlen; lia).
rewrite Hhead, ip_transmit by done. fold frame. unfold send_hdlc. rewrite Hsend, !bind_Ret, andb_false_r.
rewrite take_app_le by done. rewrite <- Hhead, firstn_all2 by (rewrite Hhead; done).
by destruct nt.
Qed.

Lemma ip_send_run nt ps : forall ppp,
  hdlc_ok (hdlc (link ppp)) -> Forall (ip_packet (net_mtu nt)) ps ->
  net ppp = Some nt -> net_packet nt = ppp_header PPP_IP_PROTO ->
  (xmit_pfc (link ppp) = true -> xmit_acfc (link ppp) = true) ->
  let as_frame := ip_frame (xmit_acfc (link ppp)) (xmit_pfc (link ppp)) in
  exists ppp' o ps', ppp_run (FromInterface <$> ps) ppp = Ret (ppp', o) /\ hdlc_ok (hdlc (link ppp'))
  /\ link_run (hdlc (link ppp)) (LinkSend <$> (as_frame <$> ps)) = Ret (hdlc (link ppp'), frames o, [])
  /\ frames o = as_frame <$> ps' /\ sublist ps' ps.
Proof.
induction ps as [|p ps IH]; intros ppp Hh Hps Hnet Hhead Hpfc as_frame.
{ exists ppp, [], []. done. }
apply Forall_cons in Hps as [Hp Hps].
destruct (ip_send_step ppp nt p Hh Hp Hnet Hhead Hpfc) as (h & sent & Hsend & Hh' & Hstep).
destruct (IH (set_net (set_hdlc ppp h (sta_pending ppp)) (Some nt) (fd ppp))) as (ppp' & o & ps' & Hrun & Hok & Hlink & Hf & Hsub); try done.
simpl xmit_acfc in *. simpl xmit_pfc in *. fold as_frame in Hlink, Hf.
exists ppp', ((if (sent : bool) then [Frame (as_frame p)] else []) ++ o), (if sent then p :: ps' else ps').
assert (frames ((if sent then [Frame (as_frame p)] else []) ++ o)
        = if sent then as_frame p :: frames o else frames o) as Hfr by by destruct sent.
split_and!; [|done| |rewrite Hfr, Hf; by destruct sent|destruct sent; by constructor].
- rewrite fmap_cons. change (ppp_run (?i :: ?l)) with (and_then (ppp_step i) (ppp_run l)). unfold and_then.
  rewrite Hstep, bind_Ret, Hrun, bind_Ret. done.
- rewrite !fmap_cons. cbn [link_run]. fold as_frame in Hsend. rewrite Hsend, bind_Ret. simpl hdlc in Hlink.
  rewrite Hlink, bind_Ret, Hfr. by destruct sent.
Qed.

(** C10: packets over the link.  The packets that the network interface of one
    link gives come out of the network interface of the other as they are, in
    order, as far as the framing layer takes their frames: whether the address
    and control octets, and with them the first octet of the protocol, are left
    out or not.  Sending never fails; the framing layer gets the frames in the
    order of the packets. *)
Theorem ip_delivery tx nt ps rx rx_net :
  hdlc_ok (hdlc (link tx)) -> net tx = Some nt -> net_packet nt = ppp_header PPP_IP_PROTO ->
  (xmit_pfc (link tx) = true -> xmit_acfc (link tx) = true) -> Forall (ip_packet (net_mtu nt)) ps ->
  phase rx = PPP_PHASE_LINK_UP -> net rx = Some rx_net ->
  let as_frame := ip_frame (xmit_acfc (link tx)) (xmit_pfc (link tx)) in
  exists tx' o ps', ppp_run (FromInterface <$> ps) tx = Ret (tx', o)
  /\ link_run (hdlc (link tx)) (LinkSend <$> (as_frame <$> ps)) = Ret (hdlc (link tx'), frames o, [])
  /\ sublist ps' ps /\ length ps' = length (frames o)
  /\ ppp_run (Receive <$> frames o) rx = Ret (rx, ToInterface <$> ps').
Proof.
intros Hh Hnet Hhead Hpfc Hps Hph Hrx as_frame.
destruct (ip_send_run nt ps tx Hh Hps Hnet Hhead Hpfc) as (tx' & o & ps' & Hrun & _ & Hlink & Hf & Hsub).
exists tx', o, ps'. split_and!; try done; [by rewrite Hf, length_fmap|].
rewrite Hf. assert (Forall (ip_packet (net_mtu nt)) ps') as Hps'.
{ rewrite Forall_forall in *. intros p Hp. apply Hps. by eapply elem_of_sublist. }
clear -Hps' Hph Hrx. induction Hps' as [|p ps' Hp _ IH]; [done|].
rewrite !fmap_cons. change (ppp_run (?i :: ?l)) with (and_then (ppp_step i) (ppp_run l)). unfold and_then. simpl ppp_step.
by rewrite (ip_receive _ _ _ _ _ _ Hp Hph Hrx), bind_Ret, IH, bind_Ret.
Qed.
End Link.

(** * Concrete runs *)

Definition sample_tun (descriptor : Z) : option string := Some "ppp0"%string.
Definition sample_md5 (octets : list Z) : list Z := replicate 16 (zlen octets).

Definition sample_run (inputs : list ppp_input) (ppp : GAtPPP) : res (GAtPPP * list ppp_event) :=
  ppp_run sample_tun sample_md5 inputs ppp.

(** LCP of the peer requests with [options], and acknowledges ours. *)
Definition sample_lcp_up (options : list Z) : list ppp_input :=
  [Receive (ppp_header LCP_PROTOCOL ++ [1; 1; 0; 4 + zlen options] ++ options);
   Receive [0xff; 3; 0xc0; 0x21; 2; 1; 0; 10; 2; 6; 0; 0; 0; 0]].

(** IPCP of the peer requests its address, tells ours, and acknowledges it. *)
Definition sample_ipcp_up : list ppp_input :=
  [Receive [0xff; 3; 0x80; 0x21; 1; 1; 0; 10; 3; 6; 10; 0; 0; 1];
   Receive [0xff; 3; 0x80; 0x21; 3; 1; 0; 22; 3; 6; 10; 0; 0; 2; 129; 6; 10; 0; 0; 3; 131; 6; 10; 0; 0; 4];
   Receive [0xff; 3; 0x80; 0x21; 2; 2; 0; 34; 3; 6; 10; 0; 0; 2; 129; 6; 10; 0; 0; 3; 131; 6; 10; 0; 0; 4;
            130; 6; 0; 0; 0; 0; 132; 6; 0; 0; 0; 0]].

(** What a client does after it is opened. *)
Definition sample_client (inputs : list ppp_input) : res (GAtPPP * list ppp_event) :=
  '(ppp, _) ← g_at_ppp_open sample_tun g_at_ppp_new; sample_run inputs ppp.

Definition sample_packet (last : Z) : list Z := [0x45; 0; 0; 5; last].


(** A link over which packets can go: that of a client, with a framing layer
    that is new. *)
Definition sample_link (acfc pfc : bool) : GAtPPP :=
  set_net (set_phase (set_link g_at_ppp_new {| hdlc := new_hdlc; mtu := 1500; xmit_acfc := acfc; xmit_pfc := pfc |} false)
    PPP_PHASE_LINK_UP 0) (Some {| if_name := "ppp0"; net_mtu := 1500; net_packet := ppp_header PPP_IP_PROTO |}) (-1).

Lemma ip_delivery_witness :
  exists tx' o ps', ppp_run sample_tun sample_md5 (FromInterface <$> [sample_packet 7; sample_packet 9]) (sample_link true true) = Ret (tx', o)
  /\ length ps' = length (frames o)
  /\ ppp_run sample_tun sample_md5 (Receive <$> frames o) (sample_link false false) = Ret (sample_link false false, ToInterface <$> ps').
Proof.
destruct (ip_delivery sample_tun sample_md5 (sample_link true true)
  {| if_name := "ppp0"; net_mtu := 1500; net_packet := ppp_header PPP_IP_PROTO |} [sample_packet 7; sample_packet 9]
  (sample_link false false) {| if_name := "ppp0"; net_mtu := 1500; net_packet := ppp_header PPP_IP_PROTO |}
  new_hdlc_ok eq_refl eq_refl (fun _ => eq_refl)) as (tx' & o & ps' & Hrun & _ & _ & Hlen & Hrx).
- repeat apply Forall_cons_2; try by apply Forall_nil.
  all: split; [|split; [split; by vm_compute|by vm_compute]].
  all: repeat (apply Forall_cons_2; [by split; vm_compute|]); by apply Forall_nil.
- done.
- done.
- exists tx', o, ps'. exact (conj Hrun (conj Hlen Hrx)).
Defined.

(** ** Limits *)

(** Without the compression of the address and control octets, the compression
    of the protocol moves them within the packet.  The interface sends all its
    packets from one buffer: after the first, the protocol octets are gone, and
    the link sends frames that the other end cannot read. *)
Lemma pfc_alone_spoils_header :
  match ppp_run sample_tun sample_md5 (FromInterface <$> [sample_packet 7; sample_packet 9]) (sample_link false true) with
  | Ret (_, o) => bool_decide (frames o = [[0xff; 3; 0x21] ++ sample_packet 7; [0xff; 0xff; 3; 0x21] ++ sample_packet 9])
  | _ => false
  end = true.
Proof. vm_compute. reflexivity. Qed.

Definition chap_success : ppp_input := Receive [0xff; 3; 0xc2; 0x23; 3; 1; 0; 4].

Definition sample_chap_up : list ppp_input := sample_lcp_up [3; 5; 0xc2; 0x23; 5] ++ [chap_success] ++ sample_ipcp_up.

(** When the peer authenticates us again while the link is up, the phase is set
    back to NETWORK, in which packets of the network are dropped; IPCP is up and
    stays so, and nothing sets the phase again. *)
Lemma rechallenge_stops_traffic :
  match sample_client (sample_chap_up ++ [chap_success]) with
  | Ret (ppp, _) =>
    bool_decide (phase ppp = PPP_PHASE_NETWORK) && (state (ipcp ppp) =? OPENED)
    && match sample_run [Receive (ppp_header PPP_IP_PROTO ++ sample_packet 7)] ppp with Ret (_, []) => true | _ => false end
  | _ => false
  end = true.
Proof. vm_compute. reflexivity. Qed.

Definition is_ub {A} (r : res A) : bool := match r with Ub => true | _ => false end.

(** When the peer takes IPCP down the interface goes, but the phase stays
    LINK_UP: the next packet is processed with the interface that is gone. *)
Lemma packet_after_ipcp_down :
  is_ub (sample_client (sample_lcp_up [] ++ sample_ipcp_up
    ++ [Receive [0xff; 3; 0x80; 0x21; 5; 7; 0; 4]; Receive (ppp_header PPP_IP_PROTO ++ sample_packet 7)])) = true.
Proof. vm_compute. reflexivity. Qed.

(** A client that is told to use PAP, and asked for it. *)
Definition sample_pap (inputs : list ppp_input) : res (GAtPPP * list ppp_event) :=
  '(ppp, _) ← g_at_ppp_open sample_tun (g_at_ppp_set_auth_method AUTH_METHOD_PAP g_at_ppp_new);
  sample_run (sample_lcp_up [3; 4; 0xc0; 0x23; 5; 6; 1; 2; 3; 4] ++ inputs) ppp.

(** The retry timer of PAP runs on when the link is dead, and sends. *)
Lemma pap_sends_when_dead :
  match sample_pap [Disconnect] with
  | Ret (ppp, _) =>
    bool_decide (phase ppp = PPP_PHASE_DEAD)
    && match sample_run [PapTimeout] ppp with Ret (_, [Frame _]) => true | _ => false end
  | _ => false
  end = true.
Proof. vm_compute. reflexivity. Qed.

(** The line is lost while a Terminate-Ack waits to be written: the link is dead,
    and its end is only told when the write ends, which it cannot. *)
Lemma end_untold :
  match sample_client (sample_lcp_up [] ++ [Receive [0xff; 3; 0xc0; 0x21; 5; 7; 0; 4]; Disconnect]) with
  | Ret (ppp, o) => bool_decide (phase ppp = PPP_PHASE_DEAD) && sta_pending ppp && (dead_sources ppp =? 0)%nat && (disconnects o =? 0)%nat
  | _ => false
  end = true.
Proof. vm_compute. reflexivity. Qed.

(** The length of a challenge's value is not compared with that of the packet. *)
Lemma challenge_overread :
  is_ub (sample_client (sample_lcp_up [3; 5; 0xc2; 0x23; 5] ++ [Receive [0xff; 3; 0xc2; 0x23; 1; 1; 0; 6; 16; 0]])) = true.
Proof. vm_compute. reflexivity. Qed.
