(* ===== verification/MessageWaiting.v ===== *)
(** Message waiting indication of src/src/message-waiting.c: the five mailboxes,
    the messages that change them, and the SIM files that keep them. *)
From S2P Require Import Prelude Charset SevenBit SmsField SmsPdu SmsUdh SimFile.

(** * State *)

Record mailbox_state := { indication : bool; message_count : Z }.

(** struct ofono_message_waiting: [messages], [efmbdn_record_id] and
    [mailbox_number] have five elements. *)
Record ofono_message_waiting := {
  messages : list mailbox_state;
  efmwis_length : Z; efmbdn_length : Z; efmbdn_record_id : list Z;
  ef_cphs_mwis_length : Z; ef_cphs_mbdn_length : Z;
  mbdn_not_provided : bool; cphs_mbdn_not_provided : bool;
  mailbox_number : list ofono_phone_number
}.

Record mbdn_set_request := {
  req_mailbox : Z; req_number : ofono_phone_number; req_msg : bool; req_cphs : bool
}.

Inductive mw_error := NotSupported | SimNotReady | Failed | InvalidFormat.

(** What it does besides: the properties it announces (of the mailboxes that have
    one), the records it writes and the files it reads, each with its callback,
    and the answers to a D-Bus call. *)
Inductive mw_output :=
  | MessageWaiting (waiting : bool) | MessageCount (count : Z) | MailboxNumber (number : list Z)
  | WriteMwis (data : list Z) | WriteCphsMwis (data : list Z)
  | WriteMbdn (record : Z) (data : list Z) (req : mbdn_set_request)
  | WriteCphsMbdn (record : Z) (data : list Z) (sync : bool) (req : mbdn_set_request)
  | ReadMwis | ReadCphsMwis | ReadMbi | ReadMbdn | ReadCphsMbdn
  | Reply | ReplyError (e : mw_error).

Definition set_messages (mw : ofono_message_waiting) (l : list mailbox_state) : ofono_message_waiting :=
  {| messages := l; efmwis_length := efmwis_length mw; efmbdn_length := efmbdn_length mw;
     efmbdn_record_id := efmbdn_record_id mw; ef_cphs_mwis_length := ef_cphs_mwis_length mw;
     ef_cphs_mbdn_length := ef_cphs_mbdn_length mw; mbdn_not_provided := mbdn_not_provided mw;
     cphs_mbdn_not_provided := cphs_mbdn_not_provided mw; mailbox_number := mailbox_number mw |}.

Definition set_mwis_lengths (mw : ofono_message_waiting) (mwis cphs : Z) : ofono_message_waiting :=
  {| messages := messages mw; efmwis_length := mwis; efmbdn_length := efmbdn_length mw;
     efmbdn_record_id := efmbdn_record_id mw; ef_cphs_mwis_length := cphs;
     ef_cphs_mbdn_length := ef_cphs_mbdn_length mw; mbdn_not_provided := mbdn_not_provided mw;
     cphs_mbdn_not_provided := cphs_mbdn_not_provided mw; mailbox_number := mailbox_number mw |}.

(** The lengths of the files of numbers, and whether the card has none. *)
Definition set_mbdn_files (mw : ofono_message_waiting) (mbdn : Z) (absent : bool) (cphs : Z) (cphs_absent : bool)
    : ofono_message_waiting :=
  {| messages := messages mw; efmwis_length := efmwis_length mw; efmbdn_length := mbdn;
     efmbdn_record_id := efmbdn_record_id mw; ef_cphs_mwis_length := ef_cphs_mwis_length mw;
     ef_cphs_mbdn_length := cphs; mbdn_not_provided := absent;
     cphs_mbdn_not_provided := cphs_absent; mailbox_number := mailbox_number mw |}.

Definition set_numbers (mw : ofono_message_waiting) (records : list Z) (l : list ofono_phone_number) : ofono_message_waiting :=
  {| messages := messages mw; efmwis_length := efmwis_length mw; efmbdn_length := efmbdn_length mw;
     efmbdn_record_id := records; ef_cphs_mwis_length := ef_cphs_mwis_length mw;
     ef_cphs_mbdn_length := ef_cphs_mbdn_length mw; mbdn_not_provided := mbdn_not_provided mw;
     cphs_mbdn_not_provided := cphs_mbdn_not_provided mw; mailbox_number := l |}.

(** Only the voice mailbox has properties. *)
Definition has_property (mailbox : Z) : bool := mailbox =? 0.

Definition mw_mailbox_to_cphs_record : list Z := [1; 4; 0; 3; 0].

Definition mw_op : Type := ofono_message_waiting -> res (ofono_message_waiting * list mw_output).

Definition mw_seq (a b : mw_op) : mw_op := fun mw =>
  '(mw, o1) ← a mw; '(mw, o2) ← b mw; Ret (mw, o1 ++ o2).

(** * The indicators *)

(** The number of a type. *)
Definition mwi_index (type : sms_mwi_type) : Z :=
  match type with
  | SMS_MWI_TYPE_VOICE => 0 | SMS_MWI_TYPE_FAX => 1 | SMS_MWI_TYPE_EMAIL => 2
  | SMS_MWI_TYPE_OTHER => 3 | SMS_MWI_TYPE_VIDEO => 4
  end.

Definition update_indicator_and_emit (mailbox : Z) (info : mailbox_state) : mw_op := fun mw =>
  old ← rd (messages mw) mailbox;
  if (message_count old =? message_count info) && eqb (indication old) (indication info) then Ret (mw, [])
  else
    l ← wr (messages mw) mailbox info;
    let mw := set_messages mw l in
    Ret (mw, if has_property mailbox then [MessageWaiting (indication info); MessageCount (message_count info)] else []).

Definition cphs_info (flag : Z) : mailbox_state := {| indication := flag =? 0xa; message_count := 0 |}.

Definition mw_cphs_mwis_read_cb (ok : bool) (total_length : Z) (data : list Z) : mw_op := fun mw =>
  if negb ok || (total_length <? 1) then Ret (set_mwis_lengths mw (efmwis_length mw) 0, [])
  else
    let mw := set_mwis_lengths mw (efmwis_length mw) (u8 total_length) in
    if negb (efmwis_length mw =? 0) then Ret (mw, [])
    else
      d0 ← rd data 0;
      let line1 := update_indicator_and_emit 0 (cphs_info (Z.land d0 0xf)) in
      if total_length =? 1 then line1 mw
      else
        d1 ← rd data 1;
        mw_seq line1
          (mw_seq (update_indicator_and_emit 1 (cphs_info (Z.land d1 0xf)))
                  (update_indicator_and_emit 3 (cphs_info (Z.land (Z.shiftr d1 4) 0xf)))) mw.

(** The loop over the mailboxes of a record; [data] from the first count on. *)
Fixpoint mwis_loop (n : nat) (i status record_length : Z) (data : list Z) : mw_op := fun mw =>
  match n with
  | O => Ret (mw, [])
  | S n =>
    if record_length - 1 <=? i then Ret (mw, [])
    else
      let set := Z.testbit status i in
      count ← (if set then rd data i else Ret 0);
      mw_seq (update_indicator_and_emit i {| indication := set; message_count := count |})
             (mwis_loop n (i + 1) status record_length data) mw
  end.

Definition mw_mwis_read_cb (ok : bool) (record : Z) (data : list Z) (record_length : Z) : mw_op := fun mw =>
  if negb ok || (record_length <? 5) then Ret (set_mwis_lengths mw 0 (ef_cphs_mwis_length mw), [])
  else if negb (record =? 1) then Ret (mw, [])
  else
    status ← rd data 0;
    '(mw, o) ← mwis_loop 5 0 status record_length (drop 1 data) mw;
    Ret (set_mwis_lengths mw (u8 record_length) (ef_cphs_mwis_length mw), o).

(** The counts and the indicator octet of the first [n] mailboxes. *)
Fixpoint mwis_counts (l : list mailbox_state) (n : nat) : list Z :=
  match n, l with
  | S n, m :: l => message_count m :: mwis_counts l n
  | _, _ => []
  end.

Fixpoint mwis_status (l : list mailbox_state) (i : Z) (n : nat) : Z :=
  match n, l with
  | S n, m :: l => Z.lor (if indication m then Z.shiftl 1 i else 0) (mwis_status l (i + 1) n)
  | _, _ => 0
  end.

(** The octets written to a record of EF-MWIS; [efmwis] is what the array on the
    stack held. *)
Definition mwis_record (mw : ofono_message_waiting) (efmwis : list Z) : res (list Z) :=
  let n := Z.to_nat (Z.min 5 (efmwis_length mw - 1)) in
  efmwis ← blit efmwis 1 (mwis_counts (messages mw) n);
  efmwis ← wr efmwis 0 (mwis_status (messages mw) 0 n);
  slice efmwis 0 (efmwis_length mw).

Definition cphs_mwis_record (mw : ofono_message_waiting) : res (list Z) :=
  let flag (m : mailbox_state) := if indication m then 0xa else 0x5 in
  m0 ← rd (messages mw) 0;
  m1 ← rd (messages mw) 1;
  m3 ← rd (messages mw) 3;
  efmwis ← wr (replicate 255 0x55) 0 (flag m0);
  efmwis ← (if 1 <? ef_cphs_mwis_length mw then wr efmwis 1 (Z.lor (flag m1) (flag m3 * 16)) else Ret efmwis);
  slice efmwis 0 (ef_cphs_mwis_length mw).

Definition write_cphs_mwis : mw_op := fun mw =>
  data ← cphs_mwis_record mw; Ret (mw, [WriteCphsMwis data]).

Definition mw_set_indicator (efmwis : list Z) (profile : Z) (type : sms_mwi_type) (present : bool) (count : Z) : mw_op := fun mw =>
  if negb (profile =? 1) then Ret (mw, [])
  else
    let i := mwi_index type in
    old ← rd (messages mw) i;
    if eqb (indication old) present && (message_count old =? count) then Ret (mw, [])
    else
      l ← wr (messages mw) i {| indication := present; message_count := count |};
      let mw := set_messages mw l in
      let signals := (if negb (eqb (indication old) present) && has_property i then [MessageWaiting present] else [])
                     ++ (if negb (message_count old =? count) && has_property i then [MessageCount count] else []) in
      if efmwis_length mw <? 5 then
        if 1 <=? ef_cphs_mwis_length mw then
          '(mw, o) ← write_cphs_mwis mw; Ret (mw, signals ++ o)
        else Ret (mw, signals)
      else
        data ← mwis_record mw efmwis;
        if ef_cphs_mwis_length mw =? 0 then Ret (mw, signals ++ [WriteMwis data])
        else '(mw, o) ← write_cphs_mwis mw; Ret (mw, signals ++ WriteMwis data :: o).

(** A changed file is read again. *)
Definition mw_mwis_changed : mw_op := fun mw =>
  Ret (set_mwis_lengths mw 0 (ef_cphs_mwis_length mw), [ReadMwis]).

Definition mw_cphs_mwis_changed : mw_op := fun mw =>
  Ret (set_mwis_lengths mw (efmwis_length mw) 0, [ReadCphsMwis]).

(** * Mailbox numbers *)

Section Numbers.
Context `{U : Utf8} `{G : GlibUtf8}.

Definition phone_number_to_string (ph : ofono_phone_number) : list Z :=
  match ph_number ph with
  | c :: _ => if (ph_type ph =? 145) && negb (c =? 43) then 43 :: take 80 (ph_number ph) else take 81 (ph_number ph)
  | [] => []
  end.

(** [strcpy] into the 81 characters of the number. *)
Definition string_to_phone_number (str : list Z) : res ofono_phone_number :=
  match str with
  | 43 :: str => number ← put 81 [] (str ++ [0]); Ret {| ph_number := cstr number; ph_type := 145 |}
  | _ => number ← put 81 [] (str ++ [0]); Ret {| ph_number := cstr number; ph_type := 129 |}
  end.

(** The answer to a call, when there is one. *)
Definition answer (msg : bool) (o : mw_output) : list mw_output := if msg then [o] else [].

(** [queued]: ofono_sim_write took the request; [efmbdn] is the array on the
    stack. *)
Definition set_cphs_mbdn (queued : bool) (efmbdn : list Z) (sync : bool) (mailbox : Z) (number : list Z) (msg : bool) : mw_op := fun mw =>
  record ← rd mw_mailbox_to_cphs_record mailbox;
  if negb (ef_cphs_mbdn_length mw =? 0) && (record =? 0) || cphs_mbdn_not_provided mw then
    Ret (mw, answer msg (ReplyError NotSupported))
  else if ef_cphs_mbdn_length mw =? 0 then Ret (mw, answer msg (ReplyError SimNotReady))
  else
    ph ← string_to_phone_number number;
    efmbdn ← sim_adn_build efmbdn (ef_cphs_mbdn_length mw) ph None;
    data ← slice efmbdn 0 (ef_cphs_mbdn_length mw);
    if queued then
      Ret (mw, [WriteCphsMbdn record data sync {| req_mailbox := mailbox; req_number := ph; req_msg := msg; req_cphs := true |}])
    else Ret (mw, answer msg (ReplyError Failed)).

Definition set_mbdn (queued : bool) (efmbdn : list Z) (mailbox : Z) (number : list Z) (msg : bool) : mw_op := fun mw =>
  record ← rd (efmbdn_record_id mw) mailbox;
  if (0 <? efmbdn_length mw) && (record =? 0) || mbdn_not_provided mw then
    set_cphs_mbdn queued efmbdn false mailbox number msg mw
  else if efmbdn_length mw =? 0 then Ret (mw, answer msg (ReplyError SimNotReady))
  else
    ph ← string_to_phone_number number;
    efmbdn ← sim_adn_build efmbdn (efmbdn_length mw) ph None;
    data ← slice efmbdn 0 (efmbdn_length mw);
    if queued then
      Ret (mw, [WriteMbdn record data {| req_mailbox := mailbox; req_number := ph; req_msg := msg; req_cphs := false |}])
    else Ret (mw, answer msg (ReplyError Failed)).

(** A property set over D-Bus: the number of the voice mailbox, from a caller
    that waits. *)
Definition valid_number_format (number : list Z) (length : Z) : bool :=
  let digits := match number with 43 :: digits => digits | _ => number end in
  negb (zlen digits =? 0) && (zlen digits <=? length) &&
  forallb (fun c => (48 <=? c) && (c <=? 57) || (c =? 42) || (c =? 35)) digits.

Definition valid_phone_number_format (number : list Z) : bool := valid_number_format number 20.

Definition mw_set_property (queued : bool) (efmbdn value : list Z) : mw_op := fun mw =>
  if negb (valid_phone_number_format value) then Ret (mw, [ReplyError InvalidFormat])
  else
    ph ← rd (mailbox_number mw) 0;
    if bool_decide (phone_number_to_string ph = value) then Ret (mw, [Reply])
    else set_mbdn queued efmbdn 0 value true mw.

(** A record was written, or not. *)
Definition mbdn_set_cb (queued : bool) (efmbdn : list Z) (ok : bool) (req : mbdn_set_request) : mw_op := fun mw =>
  if negb ok then Ret (mw, answer (req_msg req) (ReplyError Failed))
  else
    old ← rd (mailbox_number mw) (req_mailbox req);
    if bool_decide (ph_number (req_number req) = ph_number old) && (ph_type (req_number req) =? ph_type old) then
      Ret (mw, answer (req_msg req) Reply)
    else
      l ← wr (mailbox_number mw) (req_mailbox req) (req_number req);
      let mw := set_numbers mw (efmbdn_record_id mw) l in
      let signals := if has_property (req_mailbox req) then [MailboxNumber (phone_number_to_string (req_number req))] else [] in
      if req_cphs req then Ret (mw, signals ++ answer (req_msg req) Reply)
      else
        '(mw, o) ← set_cphs_mbdn queued efmbdn true (req_mailbox req) (phone_number_to_string (req_number req)) false mw;
        Ret (mw, signals ++ o ++ answer (req_msg req) Reply).

(** The first mailbox of a record number. *)
Fixpoint mailbox_of (records : list Z) (record i : Z) : option Z :=
  match records with
  | [] => None
  | r :: records => if record =? r then Some i else mailbox_of records record (i + 1)
  end.

(** A number as it is read, and announced. *)
Definition read_number (i : Z) (data : list Z) (record_length : Z) : mw_op := fun mw =>
  old ← rd (mailbox_number mw) i;
  ph ← match sim_adn_parse data record_length false with
       | Ret (ph, _) => Ret ph
       | Err => Ret {| ph_number := []; ph_type := ph_type old |}
       | Ub => Ub
       end;
  l ← wr (mailbox_number mw) i ph;
  Ret (set_numbers mw (efmbdn_record_id mw) l, if has_property i then [MailboxNumber (phone_number_to_string ph)] else []).

Definition mw_cphs_mbdn_read_cb (ok : bool) (total_length record : Z) (data : list Z) (record_length : Z) : mw_op := fun mw =>
  if negb ok || (record_length <? 14) || (total_length <? record_length) then
    Ret (set_mbdn_files mw (efmbdn_length mw) (mbdn_not_provided mw) 0 true, [])
  else
    match mailbox_of mw_mailbox_to_cphs_record record 0 with
    | None => Ret (mw, [])
    | Some i =>
      let mw := set_mbdn_files mw (efmbdn_length mw) (mbdn_not_provided mw) (u8 record_length) (cphs_mbdn_not_provided mw) in
      if mbdn_not_provided mw then read_number i data record_length mw else Ret (mw, [])
    end.

Definition mw_mbdn_read_cb (ok : bool) (total_length record : Z) (data : list Z) (record_length : Z) : mw_op := fun mw =>
  if negb ok || (record_length <? 14) || (total_length <? record_length) then
    Ret (set_mbdn_files mw 0 true (ef_cphs_mbdn_length mw) (cphs_mbdn_not_provided mw), [])
  else
    match mailbox_of (efmbdn_record_id mw) record 0 with
    | None => Ret (mw, [])
    | Some i =>
      '(mw, o) ← read_number i data record_length mw;
      Ret (set_mbdn_files mw (u8 record_length) (mbdn_not_provided mw) (ef_cphs_mbdn_length mw) (cphs_mbdn_not_provided mw), o)
    end.

Definition mw_mbdn_changed : mw_op := fun mw =>
  Ret (set_mbdn_files mw 0 false (ef_cphs_mbdn_length mw) (cphs_mbdn_not_provided mw), [ReadMbdn]).

Definition mw_cphs_mbdn_changed : mw_op := fun mw =>
  Ret (set_mbdn_files mw (efmbdn_length mw) (mbdn_not_provided mw) 0 false, [ReadCphsMbdn]).

(** [cphs]: the card provides CPHS mailbox numbers. *)
Definition mw_mbi_read_cb (cphs ok : bool) (record : Z) (data : list Z) (record_length : Z) : mw_op := fun mw =>
  let cphs_read := if cphs then [ReadCphsMbdn] else [] in
  if negb ok || (record_length <? 4) then
    Ret (set_mbdn_files mw 0 true (ef_cphs_mbdn_length mw) (cphs_mbdn_not_provided mw), cphs_read)
  else if negb (record =? 1) then Ret (mw, [])
  else
    ids ← slice data 0 (Z.min 5 record_length);
    records ← blit (efmbdn_record_id mw) 0 ids;
    Ret (set_numbers mw records (mailbox_number mw), ReadMbdn :: cphs_read).

Definition mw_mbi_changed : mw_op := fun mw => Ret (set_mbdn_files mw 0 false 0 false, [ReadMbi]).

(** What the atom is created with, and what is read when it is registered. *)
Definition ofono_message_waiting_create : ofono_message_waiting :=
  {| messages := replicate 5 {| indication := false; message_count := 0 |};
     efmwis_length := 0; efmbdn_length := 0; efmbdn_record_id := replicate 5 0;
     ef_cphs_mwis_length := 0; ef_cphs_mbdn_length := 0; mbdn_not_provided := false; cphs_mbdn_not_provided := false;
     mailbox_number := replicate 5 {| ph_number := []; ph_type := 0 |} |}.

Definition ofono_message_waiting_register : mw_op := fun mw => Ret (mw, [ReadMwis; ReadMbi; ReadCphsMwis]).

(** * Messages *)

(** The state after a header, and its discard flag when it sets one. *)
Definition handle_special_sms_iei (efmwis : list Z) (iei : list Z) (mw : ofono_message_waiting)
    : res (ofono_message_waiting * list mw_output * bool) :=
  o0 ← rd iei 0;
  o1 ← rd iei 1;
  let discard := negb (has o0 (Z.shiftl 1 7)) in
  let t := Z.land o0 0x1f in
  let type := if 3 <? t then if t =? 7 then SMS_MWI_TYPE_VIDEO else SMS_MWI_TYPE_OTHER else sms_mwi_type_of t in
  let profile := Z.land (Z.shiftr o0 5) 3 + 1 in
  '(mw, o) ← mw_set_indicator efmwis profile type (0 <? o1) o1 mw;
  Ret (mw, o, discard).

(** Both kinds of enhanced voice mail are read alike; [discard] is what it was
    before. *)
Definition handle_enhanced_voicemail_iei (queued : bool) (efmwis efmbdn iei : list Z) (length : Z) (discard : bool)
    (mw : ofono_message_waiting) : res (ofono_message_waiting * list mw_output * bool) :=
  if length <? 3 then Ret (mw, [], discard)
  else
    o0 ← rd iei 0;
    let profile := Z.land (Z.shiftr o0 2) 3 + 1 in
    let discard := negb (has o0 (Z.shiftl 1 4)) in
    match sms_decode_address_field (drop 1 iei) (length - 1) 0 false with
    | Err => Ret (mw, [], discard)
    | Ub => Ub
    | Ret (mailbox_address, n) =>
      if length <? n + 3 then Ret (mw, [], discard)
      else
        count ← rd iei (n + 1);
        '(mw, o1) ← mw_set_indicator efmwis profile SMS_MWI_TYPE_VOICE (0 <? count) count mw;
        match address mailbox_address with
        | [] => Ret (mw, o1, discard)
        | _ =>
          '(mw, o2) ← set_mbdn queued efmbdn 0 (sms_address_to_string mailbox_address) false mw;
          Ret (mw, o1 ++ o2, discard)
        end
    end.

Definition SMS_IEI_SPECIAL_MESSAGE_INDICATION : Z := 0x01.
Definition SMS_IEI_ENHANCED_VOICE_MAIL_INFORMATION : Z := 0x23.

Definition mw_result : Type := (ofono_message_waiting * list mw_output * bool)%type.

(** The first enhanced voice mail header. *)
Definition enhanced_body (queued : bool) (efmwis efmbdn : list Z) (mw : ofono_message_waiting)
    (iei : Z) (it : sms_udh_iter) (_ : unit) : res (unit + mw_result) :=
  if iei =? SMS_IEI_ENHANCED_VOICE_MAIL_INFORMATION then
    data ← sms_udh_iter_get_ie_data it;
    len ← sms_udh_iter_get_ie_length it;
    r ← handle_enhanced_voicemail_iei queued efmwis efmbdn data len false mw;
    Ret (inr r)
  else Ret (inl tt).

(** The special headers: state, outputs, discard, and whether one was found. *)
Definition special_body (efmwis : list Z) (iei : Z) (it : sms_udh_iter) (a : mw_result * bool) : res (mw_result * bool) :=
  let '((mw, o, out_discard), found) := a in
  if iei =? SMS_IEI_SPECIAL_MESSAGE_INDICATION then
    len ← sms_udh_iter_get_ie_length it;
    if negb (len =? 2) then Ret a
    else
      data ← sms_udh_iter_get_ie_data it;
      '(mw, o', discard) ← handle_special_sms_iei efmwis data mw;
      Ret ((mw, o ++ o', out_discard || discard), true)
  else Ret a.

(** The indication of the data coding scheme. *)
Definition dcs_indication (efmwis : list Z) (dcs : Z) (mw : ofono_message_waiting) : res mw_result :=
  match sms_mwi_dcs_decode dcs with
  | Some (type, _, active, discard) =>
    '(mw, o) ← mw_set_indicator efmwis 1 type active 0 mw; Ret (mw, o, discard)
  | None => Ret (mw, [], false)
  end.

(** The state, the outputs and [*out_discard]. *)
Definition __ofono_message_waiting_mwi (queued : bool) (efmwis efmbdn : list Z) (m : sms) (d : sms_deliver)
    (mw : ofono_message_waiting) : res mw_result :=
  if negb (deliver_udhi d) then dcs_indication efmwis (deliver_dcs d) mw
  else
    match sms_udh_iter_init m with
    | Ub => Ub
    | Err => Ret (mw, [], false)
    | Ret it =>
      r ← udh_search 256 (enhanced_body queued efmwis efmbdn mw) it tt;
      match r with
      | inr r => Ret r
      | inl _ =>
        '((mw, o, discard), found) ← udh_loop 256 (special_body efmwis) it ((mw, [], false), false);
        if (found : bool) then
          match sms_mwi_dcs_decode (deliver_dcs d) with
          | Some (_, _, _, discard') => Ret (mw, o, discard || discard')
          | None => Ret (mw, o, discard)
          end
        else
          '(mw, o', discard') ← dcs_indication efmwis (deliver_dcs d) mw;
          Ret (mw, o ++ o', match sms_mwi_dcs_decode (deliver_dcs d) with Some _ => discard' | None => discard end)
      end
    end.
End Numbers.

(** * Well-formed states *)

Definition mailbox_ok (m : mailbox_state) : Prop :=
  is_byte (message_count m) /\ (indication m = false -> message_count m = 0).

Definition file_length (n : Z) : Prop := n = 0 \/ 14 <= n <= 255.

(** A card whose EF-MWIS counts the messages of all five mailboxes. *)
Record mw_ok (mw : ofono_message_waiting) : Prop := {
  ok_messages : length (messages mw) = 5%nat;
  ok_mailboxes : Forall mailbox_ok (messages mw);
  ok_mwis : 6 <= efmwis_length mw <= 255;
  ok_cphs_mwis : 0 <= ef_cphs_mwis_length mw <= 255;
  ok_mbdn : file_length (efmbdn_length mw);
  ok_cphs_mbdn : file_length (ef_cphs_mbdn_length mw);
  ok_records : length (efmbdn_record_id mw) = 5%nat
}.

(** What EF-MWIS holds after the outputs [o], when it held [data]. *)
Fixpoint card (data : list Z) (o : list mw_output) : list Z :=
  match o with
  | [] => data
  | WriteMwis data :: o => card data o
  | _ :: o => card data o
  end.

(** The record restores the indicators of [mw], whatever there was before. *)
Definition in_sync (mw : ofono_message_waiting) (data : list Z) : Prop :=
  forall mw0, length (messages mw0) = 5%nat ->
  exists mw1 o, mw_mwis_read_cb true 1 data (efmwis_length mw) mw0 = Ret (mw1, o) /\
    messages mw1 = messages mw /\ efmwis_length mw1 = efmwis_length mw.

(** What a message says of a mailbox. *)
Definition effect : Type := (Z * mailbox_state)%type.

Definition apply_effect (l : list mailbox_state) (e : effect) : list mailbox_state := <[Z.to_nat (fst e) := snd e]> l.
Definition apply_effects (l : list mailbox_state) (es : list effect) : list mailbox_state := foldl apply_effect l es.

(** Only the first profile is served. *)
Definition of_profile (profile : Z) (type : sms_mwi_type) (present : bool) (count : Z) : list effect :=
  if profile =? 1 then [(mwi_index type, {| indication := present; message_count := count |})] else [].

(** The state and outputs reached from [mw] by the effects [es], with the card in
    step. *)
Definition reaches (mw : ofono_message_waiting) (es : list effect) (mw' : ofono_message_waiting) (o : list mw_output) : Prop :=
  mw_ok mw' /\ efmwis_length mw' = efmwis_length mw /\ messages mw' = apply_effects (messages mw) es /\
  (forall data, in_sync mw data -> in_sync mw' (card data o)).

Lemma card_app data o1 o2 : card data (o1 ++ o2) = card (card data o1) o2.
Proof. revert data. induction o1 as [|o o1 IH]; intros d; [done|]. destruct o; cbn [app card]; auto. Qed.

Lemma five {A} (l : list A) : length l = 5%nat -> exists a b c d e, l = [a; b; c; d; e].
Proof. destruct l as [|a [|b [|c [|d [|e [|]]]]]]; try done. intros _. by exists a, b, c, d, e. Qed.

Lemma index_range type : 0 <= mwi_index type < 5.
Proof. destruct type; cbn; lia. Qed.

Lemma rd_five {A} (l : list A) i : length l = 5%nat -> 0 <= i < 5 -> exists x, rd l i = Ret x /\ l !! Z.to_nat i = Some x.
Proof.
  intros Hl Hi. destruct (rd_in_bounds l i) as [x Hx]; [unfold zlen; lia|].
  exists x. split; [done|]. apply rd_lookup; [lia|done].
Qed.

Lemma update_ok mailbox info mw :
  length (messages mw) = 5%nat -> 0 <= mailbox < 5 ->
  exists o, update_indicator_and_emit mailbox info mw =
    Ret (set_messages mw (<[Z.to_nat mailbox := info]> (messages mw)), o).
Proof.
  intros Hl Hi. unfold update_indicator_and_emit.
  destruct (rd_five (messages mw) mailbox Hl Hi) as (old & -> & Hold). rewrite bind_Ret.
  destruct (_ && _) eqn:E.
  - exists []. bool_to_prop.
    assert (old = info) as <- by (destruct old, info; cbn in *; f_equal; [by apply eqb_prop|done]).
    rewrite list_insert_id by done. by destruct mw.
  - unfold wr. rewrite (proj2 (Z.leb_le _ _)), (proj2 (Z.ltb_lt _ _)) by (unfold zlen; lia).
    simp_res. by eexists.
Qed.

(** One mailbox of a record. *)
Definition mwis_info (status i count : Z) : mailbox_state :=
  {| indication := Z.testbit status i; message_count := if Z.testbit status i then count else 0 |}.

Lemma mwis_loop_step n i status record_length data count mw mw' :
  length (messages mw) = 5%nat -> 0 <= i < 5 -> i < record_length - 1 -> rd data i = Ret count ->
  (exists o, mwis_loop n (i + 1) status record_length data
     (set_messages mw (<[Z.to_nat i := mwis_info status i count]> (messages mw))) = Ret (mw', o)) ->
  exists o, mwis_loop (S n) i status record_length data mw = Ret (mw', o).
Proof.
  intros Hl Hi Hr Hd [o Ho]. cbn [mwis_loop]. rewrite (proj2 (Z.leb_gt _ _)) by lia.
  assert (Hc : (if Z.testbit status i then rd data i else Ret 0) = Ret (message_count (mwis_info status i count))).
  { unfold mwis_info. cbn [message_count]. by destruct (Z.testbit status i). }
  rewrite Hc, bind_Ret. unfold mw_seq.
  destruct (update_ok i (mwis_info status i count) mw Hl Hi) as [o1 H1]. unfold mwis_info at 1 in H1.
  unfold mwis_info at 1. cbn [message_count]. rewrite H1, bind_Ret. cbv beta iota. rewrite Ho. by eexists.
Qed.

(** Reading a record of five mailboxes. *)
Lemma read_five status d0 d1 d2 d3 d4 rest record_length mw :
  length (messages mw) = 5%nat -> 6 <= record_length <= 255 ->
  exists o, mw_mwis_read_cb true 1 ([status; d0; d1; d2; d3; d4] ++ rest) record_length mw =
    Ret (set_mwis_lengths
      (set_messages mw [mwis_info status 0 d0; mwis_info status 1 d1; mwis_info status 2 d2;
                        mwis_info status 3 d3; mwis_info status 4 d4])
      record_length (ef_cphs_mwis_length mw), o).
Proof.
  intros Hl Hr. unfold mw_mwis_read_cb. rewrite (proj2 (Z.ltb_ge _ _)) by lia. cbn [negb orb Z.eqb Pos.eqb app drop].
  change (rd (status :: _) 0) with (Ret status). rewrite bind_Ret.
  destruct (five _ Hl) as (a & b & c & d & e & Hm).
  assert (H : exists o, mwis_loop 5 0 status record_length (d0 :: d1 :: d2 :: d3 :: d4 :: rest) mw =
    Ret (set_messages mw [mwis_info status 0 d0; mwis_info status 1 d1; mwis_info status 2 d2;
                        mwis_info status 3 d3; mwis_info status 4 d4], o)).
  { do 5 (eapply mwis_loop_step; [cbn; rewrite ?Hm; reflexivity|lia|lia|done|];
      cbn [messages set_messages]; rewrite ?Hm; simpl Z.to_nat; cbn [insert list_insert]; cbn [Z.add Pos.add Pos.succ]).
    eexists. by destruct mw. }
  destruct H as [o ->]. rewrite bind_Ret. unfold u8. rewrite Z.mod_small by lia. by eexists.
Qed.

Lemma status_bits a b c d e :
  let s := mwis_status [a; b; c; d; e] 0 5 in
  Z.testbit s 0 = indication a /\ Z.testbit s 1 = indication b /\ Z.testbit s 2 = indication c /\
  Z.testbit s 3 = indication d /\ Z.testbit s 4 = indication e.
Proof.
  destruct a as [[] ?], b as [[] ?], c as [[] ?], d as [[] ?], e as [[] ?]; vm_compute; by split_and!.
Qed.

Lemma info_same status i m : mailbox_ok m -> Z.testbit status i = indication m -> mwis_info status i (message_count m) = m.
Proof.
  intros [_ Hm] Hb. unfold mwis_info. rewrite Hb. destruct m as [[] n]; cbn in *; [done|]. by rewrite Hm.
Qed.

(** The record written restores the state. *)
Lemma mwis_record_ok mw efmwis : mw_ok mw -> zlen efmwis = 255 ->
  exists data, mwis_record mw efmwis = Ret data /\ in_sync mw data.
Proof.
  intros [Hl Hb Hn _ _ _ _] He. destruct (five _ Hl) as (a & b & c & d & e & Hm).
  unfold mwis_record. rewrite Z.min_l by lia. change (Z.to_nat 5) with 5%nat. rewrite Hm.
  do 6 (destruct efmwis as [|? efmwis]; [by rewrite ?zlen_cons in He; change (zlen []) with 0 in He; lia|]).
  rewrite !zlen_cons in He. cbn [mwis_counts].
  match goal with |- context [blit (?x :: ?x1 :: ?x2 :: ?x3 :: ?x4 :: ?x5 :: ?l) 1 ?src] =>
    pose proof (blit_middle [x] [x1; x2; x3; x4; x5] l src 1 eq_refl eq_refl) as Hblit;
    pose proof (wr_middle [] (src ++ l) x (mwis_status [a; b; c; d; e] 0 5) 0 eq_refl) as Hwr end.
  cbn [app] in Hblit, Hwr. rewrite Hblit, bind_Ret, Hwr, bind_Ret.
  set (s := mwis_status _ 0 5).
  set (data := [s; message_count a; message_count b; message_count c; message_count d; message_count e]).
  change (s :: _) with (data ++ efmwis).
  set (k := Z.to_nat (efmwis_length mw - 6)).
  replace (data ++ efmwis) with ([] ++ (data ++ take k efmwis) ++ drop k efmwis)
    by (rewrite <- app_assoc, take_drop; done).
  rewrite slice_app; [|done|rewrite zlen_app, zlen_take; change (zlen data) with 6; lia].
  eexists. split; [reflexivity|]. intros mw0 H0.
  destruct (read_five s (message_count a) (message_count b) (message_count c) (message_count d) (message_count e)
    (take k efmwis) (efmwis_length mw) mw0 H0 Hn) as [o Hread].
  change (data ++ _) with ([s; message_count a; message_count b; message_count c; message_count d; message_count e] ++ take k efmwis).
  rewrite Hread.
  do 2 eexists. split; [reflexivity|]. split; [|done]. cbn [messages set_mwis_lengths set_messages].
  rewrite Hm in Hb |- *. rewrite !Forall_cons in Hb. destruct Hb as (Ha & Hb & Hc & Hd & He' & _).
  destruct (status_bits a b c d e) as (H1 & H2 & H3 & H4 & H5). by rewrite !info_same.
Qed.

Lemma wr_ok {A} (l : list A) i v : 0 <= i < zlen l -> wr l i v = Ret (<[Z.to_nat i := v]> l).
Proof. intros Hi. unfold wr. by rewrite (proj2 (Z.leb_le _ _)), (proj2 (Z.ltb_lt _ _)) by lia. Qed.

Lemma slice_ok {A} (l : list A) n : 0 <= n <= zlen l -> slice l 0 n = Ret (take (Z.to_nat n) l).
Proof. intros Hn. unfold slice. by rewrite !(proj2 (Z.leb_le _ _)) by lia. Qed.

Lemma cphs_record_ok mw : mw_ok mw -> exists data, write_cphs_mwis mw = Ret (mw, [WriteCphsMwis data]).
Proof.
  intros [Hl _ _ Hn _ _ _]. unfold write_cphs_mwis, cphs_mwis_record. destruct (five _ Hl) as (a & b & c & d & e & ->).
  change (rd [a; b; c; d; e] 0) with (Ret a). change (rd [a; b; c; d; e] 1) with (Ret b).
  change (rd [a; b; c; d; e] 3) with (Ret d). rewrite !bind_Ret.
  rewrite wr_ok, bind_Ret by (rewrite zlen_replicate; lia).
  destruct (1 <? _); rewrite ?wr_ok by (rewrite zlen_insert, zlen_replicate; lia); rewrite bind_Ret;
    rewrite slice_ok by (rewrite ?zlen_insert, zlen_replicate; lia); rewrite bind_Ret; by eexists.
Qed.

Lemma messages_ok mw l : mw_ok mw -> length l = 5%nat -> Forall mailbox_ok l -> mw_ok (set_messages mw l).
Proof. intros []. by constructor. Qed.

Lemma set_indicator_ok efmwis profile type present count mw :
  mw_ok mw -> zlen efmwis = 255 -> is_byte count -> (present = false -> count = 0) ->
  exists mw' o, mw_set_indicator efmwis profile type present count mw = Ret (mw', o) /\
    reaches mw (of_profile profile type present count) mw' o.
Proof.
  intros Hok He Hc Hp. unfold mw_set_indicator, of_profile. destruct (profile =? 1); cbn [negb]; [|by exists mw, []].
  destruct (rd_five (messages mw) (mwi_index type) (ok_messages _ Hok) (index_range type)) as (old & -> & Hold).
  rewrite bind_Ret. set (info := {| indication := present; message_count := count |}).
  destruct (eqb (indication old) present && (message_count old =? count)) eqn:E.
  - exists mw, []. bool_to_prop.
    assert (old = info) as Hinfo by (destruct old; cbn in *; unfold info; f_equal; [by apply eqb_prop|done]).
    split; [done|]. split_and!; [done|done| |done]. cbn. unfold apply_effect. cbn [fst snd].
    by rewrite list_insert_id by (by rewrite <- Hinfo).
  - rewrite wr_ok, bind_Ret by (unfold zlen; rewrite (ok_messages _ Hok); pose proof (index_range type); lia).
    set (mw' := set_messages mw _). assert (Hok' : mw_ok mw').
    { apply messages_ok; [done|by rewrite length_insert, (ok_messages _ Hok)|].
      apply Forall_insert; [by apply ok_mailboxes|done]. }
    set (signals := (if _ && _ then _ else _) ++ _).
    assert (Hs : forall o data, card data (signals ++ o) = card data o).
    { intros o data. rewrite card_app. f_equal. unfold signals. by repeat destruct (_ && _). }
    change (efmwis_length mw') with (efmwis_length mw). rewrite (proj2 (Z.ltb_ge _ _)) by (pose proof (ok_mwis _ Hok); lia).
    destruct (mwis_record_ok mw' efmwis Hok' He) as (data & -> & Hsync). rewrite bind_Ret.
    destruct (_ =? 0).
    + do 2 eexists. split; [reflexivity|]. split_and!; [done..|]. intros d _. by rewrite Hs.
    + destruct (cphs_record_ok mw' Hok') as [data' ->]. rewrite bind_Ret.
      do 2 eexists. split; [reflexivity|]. split_and!; [done..|]. intros d _. by rewrite Hs.
Qed.

(** * Mailbox numbers *)

Section MailboxNumbers.
Context `{U : Utf8} `{G : GlibUtf8}.

Lemma zlen_sim_bcd number : zlen (sim_encode_bcd_number number) = Z.quot (zlen number + 1) 2.
Proof.
  induction number as [|a|a b number IH] using pairs_ind; cbn [sim_encode_bcd_number]; [done..|].
  rewrite !zlen_cons, IH. dzl.
Qed.

Lemma zlen_cstr l : zlen (cstr l) <= zlen l.
Proof. induction l as [|c l IH]; [done|]. cbn [cstr]. destruct (c =? 0); zl. Qed.

(** The digits of a string of a number. *)
Definition dialled (str : list Z) : list Z := match str with 43 :: str => str | _ => str end.

Lemma put_nul str : zlen str <= 80 -> put 81 [] (str ++ [0]) = Ret (str ++ [0]).
Proof. intros H. by rewrite put_ok by (rewrite zlen_app; change (zlen [0]) with 1; change (zlen []) with 0; lia). Qed.

Lemma cstr_nul str : zlen (cstr (str ++ [0])) <= zlen str.
Proof.
  induction str as [|c str IH]; [done|]. cbn [app cstr]. destruct (c =? 0); zl.
Qed.

Lemma string_to_phone_ok str : zlen str <= 80 ->
  exists ph, string_to_phone_number str = Ret ph /\ zlen (ph_number ph) <= zlen (dialled str).
Proof.
  intros Hs. unfold string_to_phone_number, dialled. repeat case_match;
    (rewrite put_nul by zl; eexists; split; [reflexivity|apply cstr_nul]).
Qed.

Lemma adn_build_ok data length ph : zlen data = 255 -> 14 <= length <= 255 -> zlen (ph_number ph) <= 20 ->
  exists data', sim_adn_build data length ph None = Ret data' /\ zlen data' = 255.
Proof.
  intros Hd Hl Hn. unfold sim_adn_build, fill_ff. change (zlen []) with 0.
  pose proof (zlen_nonneg (ph_number ph)).
  rewrite (proj2 (Z.ltb_ge (10 - _) 0)) by (Z.to_euclidean_division_equations; lia).
  assert (Halpha : exists alpha, (if 0 <? length - 14 then
      alpha ← Ret []; fill ← (if length - 14 - zlen alpha <? 0 then Ub else Ret (replicate (Z.to_nat (length - 14 - zlen alpha)) 255));
      Ret (alpha ++ fill) else Ret []) = Ret alpha /\ zlen alpha = length - 14).
  { destruct (Z.ltb_spec 0 (length - 14)).
    - rewrite bind_Ret. change (zlen []) with 0. rewrite (proj2 (Z.ltb_ge _ 0)) by lia. eexists. split; [reflexivity|].
      cbn [app]. rewrite zlen_replicate. lia.
    - exists []. split; [done|]. change (zlen []) with 0. lia. }
  destruct Halpha as (alpha & -> & Ha). rewrite !bind_Ret.
  match goal with |- context [blit data 0 ?r] => set (rec := r) end.
  assert (Hr : zlen rec = length).
  { unfold rec. rewrite !zlen_app, zlen_sim_bcd, zlen_replicate. change (zlen [_; _]) with 2.
    Z.to_euclidean_division_equations; lia. }
  unfold blit. rewrite !(proj2 (Z.leb_le _ _)) by lia. eexists. split; [reflexivity|].
  cbn [andb]. change (take (Z.to_nat 0) data) with (@nil Z). cbn [app]. rewrite zlen_app, zlen_drop. unfold zlen in *. lia.
Qed.

Lemma set_cphs_mbdn_ok queued efmbdn sync mailbox number msg mw :
  mw_ok mw -> zlen efmbdn = 255 -> 0 <= mailbox < 5 -> zlen (dialled number) <= 20 ->
  exists o, set_cphs_mbdn queued efmbdn sync mailbox number msg mw = Ret (mw, o) /\ forall data, card data o = data.
Proof.
  intros Hok He Hm Hn. unfold set_cphs_mbdn.
  destruct (rd_five mw_mailbox_to_cphs_record mailbox eq_refl Hm) as (record & -> & _). rewrite bind_Ret.
  assert (Hs : zlen number <= 80) by (unfold dialled in Hn; repeat case_match; zl).
  case_cmp; [eexists; split; [reflexivity|by destruct msg]|].
  case_cmp; [eexists; split; [reflexivity|by destruct msg]|]. bool_to_prop.
  destruct (string_to_phone_ok number Hs) as (ph & -> & Hph). rewrite bind_Ret.
  destruct (ok_cphs_mbdn _ Hok) as [|Hl]; [done|].
  destruct (adn_build_ok efmbdn (ef_cphs_mbdn_length mw) ph He Hl) as (data & -> & Hd); [lia|].
  rewrite bind_Ret, slice_ok, bind_Ret by lia.
  destruct queued; eexists; (split; [reflexivity|by try destruct msg]).
Qed.

Lemma set_mbdn_ok queued efmbdn mailbox number msg mw :
  mw_ok mw -> zlen efmbdn = 255 -> 0 <= mailbox < 5 -> zlen (dialled number) <= 20 ->
  exists o, set_mbdn queued efmbdn mailbox number msg mw = Ret (mw, o) /\ forall data, card data o = data.
Proof.
  intros Hok He Hm Hn. unfold set_mbdn.
  destruct (rd_five (efmbdn_record_id mw) mailbox (ok_records _ Hok) Hm) as (record & -> & _). rewrite bind_Ret.
  assert (Hs : zlen number <= 80) by (unfold dialled in Hn; repeat case_match; zl).
  case_cmp; [by apply set_cphs_mbdn_ok|].
  case_cmp; [eexists; split; [reflexivity|by destruct msg]|]. bool_to_prop.
  destruct (string_to_phone_ok number Hs) as (ph & -> & Hph). rewrite bind_Ret.
  destruct (ok_mbdn _ Hok) as [|Hl]; [done|].
  destruct (adn_build_ok efmbdn (efmbdn_length mw) ph He Hl) as (data & -> & Hd); [lia|].
  rewrite bind_Ret, slice_ok, bind_Ret by lia.
  destruct queued; eexists; (split; [reflexivity|by try destruct msg]).
Qed.

Lemma dialled_address addr : zlen (dialled (sms_address_to_string addr)) <= zlen (address addr).
Proof.
  unfold sms_address_to_string. destruct (address addr) as [|c l]; [done|].
  destruct (_ && _); [done|]. unfold dialled. repeat case_match; zl.
Qed.

(** * Messages *)

(** A voice mail header whose mailbox address can be stored. *)
Definition voicemail_fits (i : ie) : Prop :=
  match sms_decode_address_field (drop 1 (snd i)) (zlen (snd i) - 1) 0 false with
  | Ret (addr, n) => zlen (address addr) <= 20 /\ 0 <= n
  | Err => True
  | Ub => False
  end.

(** What it says. *)
Definition voicemail_effects (i : ie) : list effect :=
  if zlen (snd i) <? 3 then []
  else
    match sms_decode_address_field (drop 1 (snd i)) (zlen (snd i) - 1) 0 false with
    | Ret (_, n) =>
      match rd (snd i) 0, rd (snd i) (n + 1) with
      | Ret o0, Ret count =>
          if zlen (snd i) <? n + 3 then []
          else of_profile (Z.land (Z.shiftr o0 2) 3 + 1) SMS_MWI_TYPE_VOICE (0 <? count) count
      | _, _ => []
      end
    | _ => []
    end.

(** What a special message indication of two octets says. *)
Definition special_type (o0 : Z) : sms_mwi_type :=
  if 3 <? Z.land o0 0x1f then if Z.land o0 0x1f =? 7 then SMS_MWI_TYPE_VIDEO else SMS_MWI_TYPE_OTHER
  else sms_mwi_type_of (Z.land o0 0x1f).

Definition is_special (i : ie) : bool := (fst i =? SMS_IEI_SPECIAL_MESSAGE_INDICATION) && (zlen (snd i) =? 2).

Definition special_effects (i : ie) : list effect :=
  match snd i with
  | [o0; o1] =>
      if is_special i then of_profile (Z.land (Z.shiftr o0 5) 3 + 1) (special_type o0) (0 <? o1) o1 else []
  | _ => []
  end.

Definition coding_effects (dcs : Z) : list effect :=
  match sms_mwi_dcs_decode dcs with
  | Some (type, _, active, _) => of_profile 1 type active 0
  | None => []
  end.

Definition is_voicemail (i : ie) : bool := fst i =? SMS_IEI_ENHANCED_VOICE_MAIL_INFORMATION.

(** What a message says: its first voice mail header; or else all its special
    indications; or else its data coding scheme. *)
Inductive announces (m : sms) (d : sms_deliver) : list effect -> Prop :=
  | no_header : deliver_udhi d = false -> announces m d (coding_effects (deliver_dcs d))
  | bad_header : deliver_udhi d = true -> (forall ies, ~ msg_ies m ies) -> announces m d []
  | by_voicemail before i after : deliver_udhi d = true -> msg_ies m (before ++ i :: after) ->
      existsb is_voicemail before = false -> is_voicemail i = true -> announces m d (voicemail_effects i)
  | by_special ies : deliver_udhi d = true -> msg_ies m ies -> existsb is_voicemail ies = false ->
      existsb is_special ies = true -> announces m d (flat_map special_effects ies)
  | by_coding ies : deliver_udhi d = true -> msg_ies m ies -> existsb is_voicemail ies = false ->
      existsb is_special ies = false -> announces m d (coding_effects (deliver_dcs d)).

Definition header_fits (i : ie) : Prop := is_voicemail i = true -> voicemail_fits i.

(** The message is one that can be handled: of its headers those of voice mail
    have an address that can be stored. *)
Definition message_fits (m : sms) (d : sms_deliver) : Prop :=
  tpdu m = SMS_TYPE_DELIVER d /\ ud_ok m /\ forall ies, msg_ies m ies -> Forall header_fits ies.

(** ** Handlers *)

Definition keeps (mw : ofono_message_waiting) (es : list effect) (r : res mw_result) : Prop :=
  exists mw' o b, r = Ret (mw', o, b) /\ reaches mw es mw' o.

Lemma reaches_refl mw : mw_ok mw -> reaches mw [] mw [].
Proof. by intros H. Qed.

Lemma reaches_trans mw es1 mw1 o1 es2 mw2 o2 :
  reaches mw es1 mw1 o1 -> reaches mw1 es2 mw2 o2 -> reaches mw (es1 ++ es2) mw2 (o1 ++ o2).
Proof.
  intros (H1 & Hl1 & Hm1 & Hs1) (H2 & Hl2 & Hm2 & Hs2). split_and!; [done|congruence| |].
  - unfold apply_effects. rewrite foldl_app. unfold apply_effects in *. congruence.
  - intros data Hd. rewrite card_app. auto.
Qed.

Lemma special_ok efmwis i o0 o1 mw :
  mw_ok mw -> zlen efmwis = 255 -> is_byte o1 -> is_special i = true -> snd i = [o0; o1] ->
  keeps mw (special_effects i) (handle_special_sms_iei efmwis [o0; o1] mw).
Proof.
  intros Hok He Hb Hi Hd. unfold handle_special_sms_iei, special_effects. rewrite Hd, Hi.
  change (rd (o0 :: _) 0) with (Ret o0). change (rd (o0 :: o1 :: _) 1) with (Ret o1). rewrite !bind_Ret. cbv zeta.
  fold (special_type o0).
  destruct (set_indicator_ok efmwis (Z.land (Z.shiftr o0 5) 3 + 1) (special_type o0) (0 <? o1) o1 mw Hok He Hb) as (mw' & o & -> & H).
  { intros H. apply Z.ltb_ge in H. unfold is_byte in Hb. lia. }
  rewrite bind_Ret. by do 3 eexists.
Qed.

Lemma enhanced_ok queued efmwis efmbdn i mw :
  mw_ok mw -> zlen efmwis = 255 -> zlen efmbdn = 255 -> wf_ie i -> voicemail_fits i ->
  keeps mw (voicemail_effects i) (handle_enhanced_voicemail_iei queued efmwis efmbdn (snd i) (zlen (snd i)) false mw).
Proof.
  intros Hok He Hf (_ & Hb & _) Hfit. unfold handle_enhanced_voicemail_iei, voicemail_effects, voicemail_fits in *.
  assert (Hself : forall b, keeps mw [] (Ret (mw, [], b))) by (intros b; by exists mw, [], b).
  case_cmp; [done|]. bool_to_prop.
  destruct (rd_in_bounds (snd i) 0) as [o0 ->]; [lia|]. rewrite bind_Ret. cbv zeta.
  destruct (sms_decode_address_field _ _ _ _) as [[addr n]| |]; [|done..]. destruct Hfit as [Ha Hn].
  case_cmp; [by destruct (rd (snd i) (n + 1))|]. bool_to_prop.
  destruct (rd_in_bounds (snd i) (n + 1)) as [count Hc]; [lia|]. rewrite Hc, bind_Ret.
  assert (Hcb : is_byte count).
  { apply rd_lookup in Hc; [|lia]. by apply (Forall_lookup_1 _ _ _ _ Hb Hc). }
  match goal with |- context [mw_set_indicator ?e ?p ?t ?s ?c mw] =>
    destruct (set_indicator_ok e p t s c mw Hok He Hcb) as (mw' & o & -> & Hreach) end;
    [intros H; apply Z.ltb_ge in H; unfold is_byte in Hcb; lia|].
  rewrite bind_Ret. cbv beta iota. destruct (address addr) eqn:Haddr; [by do 3 eexists|].
  destruct (set_mbdn_ok queued efmbdn 0 (sms_address_to_string addr) false mw' (proj1 Hreach) Hf) as (o2 & -> & Hcard);
    [lia|pose proof (dialled_address addr); rewrite <- Haddr in *; lia|].
  rewrite bind_Ret. do 3 eexists. split; [reflexivity|]. destruct Hreach as (H1 & H2 & H3 & H4). split_and!; [done..|].
  intros data Hd. rewrite card_app, Hcard. by apply H4.
Qed.

Lemma dcs_ok efmwis dcs mw : mw_ok mw -> zlen efmwis = 255 -> keeps mw (coding_effects dcs) (dcs_indication efmwis dcs mw).
Proof.
  intros Hok He. unfold dcs_indication, coding_effects.
  destruct (sms_mwi_dcs_decode dcs) as [[[[type ch] active] discard]|]; [|by exists mw, [], false].
  destruct (set_indicator_ok efmwis 1 type active 0 mw Hok He) as (mw' & o & -> & H); [by split|done|].
  rewrite bind_Ret. by do 3 eexists.
Qed.

(** The loop over the special indications, after the elements [seen]. *)
Definition special_inv (mw : ofono_message_waiting) (seen : list ie) (a : mw_result * bool) : Prop :=
  let '((mw', o, _), found) := a in
  found = existsb is_special seen /\ reaches mw (flat_map special_effects seen) mw' o.

Lemma special_body_ok efmwis mw it seen i a :
  zlen efmwis = 255 -> wf_ie i -> at_ie it i -> special_inv mw seen a ->
  exists a', special_body efmwis (fst i) it a = Ret a' /\ special_inv mw (seen ++ [i]) a'.
Proof.
  intros He (_ & Hb & _) Hat Ha. destruct a as [[[mw1 o1] b1] found]. destruct Ha as [-> Hr]. unfold special_body, special_inv.
  assert (Hskip : is_special i = false -> special_inv mw (seen ++ [i]) ((mw1, o1, b1), existsb is_special seen)).
  { intros Hi. unfold special_inv. rewrite existsb_app, flat_map_app. cbn [existsb flat_map].
    assert (special_effects i = []) as -> by (unfold special_effects; rewrite Hi; by repeat case_match).
    by rewrite Hi, !orb_false_r, !app_nil_r. }
  destruct (_ =? SMS_IEI_SPECIAL_MESSAGE_INDICATION) eqn:E1.
  2: { eexists. split; [reflexivity|]. apply Hskip. unfold is_special. by rewrite E1. }
  rewrite (ie_length_ok _ _ Hat), bind_Ret. destruct (Z.eqb_spec (zlen (snd i)) 2) as [E|E]; cbn [negb].
  2: { eexists. split; [reflexivity|]. apply Hskip. unfold is_special. rewrite E1. by apply Z.eqb_neq in E. }
  assert (Hi : is_special i = true) by (unfold is_special; by rewrite E1, E).
  rewrite (ie_data_ok _ _ Hat), bind_Ret. destruct (zlen_2 _ E) as (o0 & o1' & Hd). rewrite Hd in Hb.
  apply Forall_cons in Hb as [_ Hb]. apply Forall_cons in Hb as [Hb _].
  destruct (special_ok efmwis i o0 o1' mw1 (proj1 Hr) He Hb Hi Hd) as (mw2 & o2 & b2 & Hspecial & H2).
  rewrite Hd, Hspecial, bind_Ret. eexists. split; [reflexivity|]. rewrite existsb_app, flat_map_app. cbn [existsb flat_map].
  rewrite Hi, orb_true_r, app_nil_r. split; [done|]. by apply (reaches_trans mw _ mw1 o1 _ mw2 o2).
Qed.

Lemma voicemail_first queued efmwis efmbdn m mw ies :
  mw_ok mw -> zlen efmwis = 255 -> zlen efmbdn = 255 -> ud_ok m -> msg_ies m ies -> Forall header_fits ies ->
  exists r, udh_search 256 (enhanced_body queued efmwis efmbdn mw) {| iter_data := ud_of m; iter_offset := 1 |} tt = Ret r /\
    match r with
    | inl _ => existsb is_voicemail ies = false
    | inr r => exists before i after, ies = before ++ i :: after /\ existsb is_voicemail before = false /\
        is_voicemail i = true /\ keeps mw (voicemail_effects i) (Ret r)
    end.
Proof.
  intros Hok He Hf Hud Hi Hfit.
  destruct (msg_search (enhanced_body queued efmwis efmbdn mw) (fun seen _ => existsb is_voicemail seen = false)
    (fun seen i r => existsb is_voicemail seen = false /\ is_voicemail i = true /\ keeps mw (voicemail_effects i) (Ret r))
    header_fits m ies tt) as (_ & H); [|done..].
  intros it seen i [] Hw HP Hat Hseen. unfold enhanced_body, header_fits, is_voicemail in *.
  destruct (fst i =? SMS_IEI_ENHANCED_VOICE_MAIL_INFORMATION) eqn:E.
  - rewrite (ie_data_ok _ _ Hat), (ie_length_ok _ _ Hat), !bind_Ret.
    destruct (enhanced_ok queued efmwis efmbdn i mw) as (mw' & o & b & -> & H); [auto..|]. rewrite bind_Ret.
    eexists. split; [reflexivity|]. split_and!; [done..|]. by do 3 eexists.
  - eexists. split; [reflexivity|]. rewrite existsb_app, Hseen. cbn. by rewrite E.
Qed.

Lemma mwi_ok queued efmwis efmbdn m d mw :
  mw_ok mw -> zlen efmwis = 255 -> zlen efmbdn = 255 -> message_fits m d ->
  exists es, announces m d es /\ keeps mw es (__ofono_message_waiting_mwi queued efmwis efmbdn m d mw).
Proof.
  intros Hok He Hf (_ & Hud & Hfit). unfold __ofono_message_waiting_mwi.
  destruct (deliver_udhi d) eqn:Hudhi; cbn [negb];
    [|exists (coding_effects (deliver_dcs d)); split; [by apply no_header|by apply dcs_ok]].
  destruct (iter_init_cases m Hud) as [(ies & Hi & ->)|[Hno ->]];
    [|exists []; split; [by apply bad_header|by exists mw, [], false]].
  destruct (voicemail_first queued efmwis efmbdn m mw ies Hok He Hf Hud Hi (Hfit ies Hi)) as (r & -> & Hr).
  rewrite bind_Ret. destruct r as [_|r].
  2: { destruct Hr as (before & i & after & -> & Hb & Hv & Hk). exists (voicemail_effects i). split; [|done].
       by apply (by_voicemail m d before i after). }
  destruct (msg_search (B := mw_result * bool) (fun iei it a => a ← special_body efmwis iei it a; Ret (inl a)) (special_inv mw)
    (fun _ _ _ => False) (fun _ => True) m ies ((mw, [], false), false)) as (_ & r & Hloop & Hr'); [|done|done|by apply Forall_true|done|].
  { intros it seen i a Hw _ Hat Ha. destruct (special_body_ok efmwis mw it seen i a He Hw Hat Ha) as (a' & -> & Ha').
    rewrite bind_Ret. by eexists. }
  rewrite udh_loop_search, Hloop, bind_Ret.
  destruct r as [[[[mw1 o1] b1] found]|]; [|by destruct Hr' as (? & ? & ? & _ & [])]. rewrite bind_Ret.
  destruct Hr' as [-> Hreach]. destruct (existsb is_special ies) eqn:Hs.
  - exists (flat_map special_effects ies). split; [by apply by_special|].
    destruct (sms_mwi_dcs_decode _) as [[[[? ?] ?] ?]|]; by do 3 eexists.
  - exists (coding_effects (deliver_dcs d)). split; [by apply (by_coding m d ies)|].
    destruct (dcs_ok efmwis (deliver_dcs d) mw1 (proj1 Hreach) He) as (mw2 & o2 & b2 & -> & H2). rewrite bind_Ret.
    do 3 eexists. split; [reflexivity|].
    assert (flat_map special_effects ies = []) as Hnil.
    { clear -Hs. induction ies as [|i ies IH]; [done|]. cbn [existsb flat_map] in *. apply orb_false_iff in Hs as [Hi Hs].
      rewrite IH by done. unfold special_effects. rewrite Hi. by repeat case_match. }
    rewrite Hnil in Hreach. by apply (reaches_trans mw [] mw1 o1 _ mw2 o2).
Qed.

(** A message received: whether the card takes a request, the arrays on the
    stack, the message. *)
Record delivery := {
  dl_queued : bool; dl_efmwis : list Z; dl_efmbdn : list Z; dl_sms : sms; dl_deliver : sms_deliver
}.

Definition delivery_fits (d : delivery) : Prop :=
  zlen (dl_efmwis d) = 255 /\ zlen (dl_efmbdn d) = 255 /\ message_fits (dl_sms d) (dl_deliver d).

Fixpoint mwi_run (l : list delivery) (mw : ofono_message_waiting) : res (ofono_message_waiting * list mw_output) :=
  match l with
  | [] => Ret (mw, [])
  | d :: l =>
    '(mw, o, _) ← __ofono_message_waiting_mwi (dl_queued d) (dl_efmwis d) (dl_efmbdn d) (dl_sms d) (dl_deliver d) mw;
    '(mw, o') ← mwi_run l mw;
    Ret (mw, o ++ o')
  end.

(** A record read when the card is probed is in step with the state. *)
Lemma read_in_sync data mw0 : mw_ok mw0 -> bytes data -> zlen data = efmwis_length mw0 ->
  exists mw1 o, mw_mwis_read_cb true 1 data (zlen data) mw0 = Ret (mw1, o) /\ mw_ok mw1 /\ in_sync mw1 data.
Proof.
  intros Hok Hb Hl. pose proof (ok_mwis _ Hok) as Hn. rewrite Hl.
  do 6 (destruct data as [|? data]; [rewrite ?zlen_cons in Hl; change (zlen []) with 0 in Hl; lia|]).
  unfold bytes in Hb. rewrite !Forall_cons in Hb. destruct Hb as (_ & H0 & H1 & H2 & H3 & H4 & _).
  match goal with |- context [mw_mwis_read_cb true 1 (?s :: ?a :: ?b :: ?c :: ?d :: ?e :: ?r) ?n mw0] =>
    change (s :: a :: b :: c :: d :: e :: r) with ([s; a; b; c; d; e] ++ r);
    destruct (read_five s a b c d e r n mw0 (ok_messages _ Hok)) as [o ->]; [lia|] end.
  do 2 eexists. split; [reflexivity|]. split.
  - destruct Hok. constructor; try done.
    assert (Hinfo : forall s i n, is_byte n -> mailbox_ok (mwis_info s i n)).
    { intros s i n Hi. unfold mailbox_ok, mwis_info. cbn. by destruct (Z.testbit s i). }
    cbn [messages set_mwis_lengths set_messages]. repeat constructor; by apply Hinfo.
  - intros mw2 H2'. match goal with |- context [mw_mwis_read_cb true 1 ([?s; ?a; ?b; ?c; ?d; ?e] ++ ?r) ?n mw2] =>
      destruct (read_five s a b c d e r n mw2 H2') as [o' ->]; [by cbn|] end.
    by do 2 eexists.
Qed.

End MailboxNumbers.

(** * A voice mail message *)

Definition idle : mailbox_state := {| indication := false; message_count := 0 |}.

Definition sample_mw : ofono_message_waiting :=
  {| messages := replicate 5 idle; efmwis_length := 6; efmbdn_length := 28; efmbdn_record_id := [1; 2; 3; 4; 5];
     ef_cphs_mwis_length := 2; ef_cphs_mbdn_length := 0; mbdn_not_provided := false; cphs_mbdn_not_provided := false;
     mailbox_number := replicate 5 {| ph_number := []; ph_type := 129 |} |}.

(** Three messages in the mailbox of a number of [2 * n] digits. *)
Definition voicemail_deliver (n : nat) : sms_deliver :=
  let header := udh [(0x23, [0x10; 2 * Z.of_nat n; 0x91] ++ replicate n 0x21 ++ [3; 0])] in
  {| deliver_mms := false; deliver_sri := false; deliver_udhi := true; deliver_rp := false;
     deliver_oaddr := no_address; deliver_pid := 0; deliver_dcs := 0;
     deliver_scts := {| year := 24; month := 1; day := 1; hour := 0; minute := 0; second := 0;
                        has_timezone := true; timezone := 0 |};
     deliver_udl := 30; deliver_ud := header ++ zeros (140 - zlen header) |}.

Definition voicemail_message (n : nat) : sms := {| sc_addr := no_address; tpdu := SMS_TYPE_DELIVER (voicemail_deliver n) |}.

(** A mailbox number of 22 digits, which an address field can hold, does not fit
    into the ten octets of a dialling number: the octets after it are counted
    as minus one. *)
Lemma voicemail_number_overflow :
  let m := voicemail_message 11 in
  ud_ok m /\ __ofono_message_waiting_mwi true (zeros 255) (zeros 255) m (voicemail_deliver 11) sample_mw = Ub.
Proof. split; [|by vm_compute]. split; [done|]. split; [|by vm_compute]. apply (bool_decide_unpack _). by vm_compute. Qed.

Definition sample_delivery : delivery :=
  {| dl_queued := true; dl_efmwis := zeros 255; dl_efmbdn := zeros 255; dl_sms := voicemail_message 5;
     dl_deliver := voicemail_deliver 5 |}.

Lemma sample_mw_ok : mw_ok sample_mw.
Proof. constructor; cbn; unfold file_length; try lia. by repeat constructor. Qed.

Lemma sample_mw_sync : in_sync sample_mw (zeros 6).
Proof.
  intros mw0 H0. destruct (read_five 0 0 0 0 0 0 [] 6 mw0 H0) as [o Ho]; [done|].
  do 2 eexists. split; [exact Ho|done].
Qed.

Lemma sample_delivery_fits : delivery_fits sample_delivery.
Proof.
  split; [done|]. split; [done|]. split; [done|].
  assert (Hok : ud_ok (voicemail_message 5)).
  { split; [done|]. split; [|by vm_compute]. apply (bool_decide_unpack _). by vm_compute. }
  split; [done|]. intros ies Hi. apply msg_ies_parse in Hi; [|done]. vm_compute in Hi. injection Hi as <-.
  constructor; [|constructor]. intros _. by vm_compute.
Qed.

