(* ===== verification/SmsReceive.v ===== *)
(** Reception of short messages, of src/src/sms.c: from the PDU the modem gives to
    [ofono_sms_deliver_notify], by reassembly, to the listeners of datagrams and
    texts; and the lists of listeners of src/src/watch.c. *)
From S2P Require Import Prelude Charset SevenBit SmsField SmsPdu SmsUdh SmsDatagram SmsText SmsAssembly MessageWaiting.

(** * Lists of listeners *)

(** struct sms_handler, with the watchlist item it begins with. *)
Record sms_handler := { handler_id : Z; handler_dst : Z; handler_src : Z }.

Record ofono_watchlist := { next_id : Z; items : list sms_handler }.

(** [next_id] is an int, the identifier unsigned; the new item comes first. *)
Definition __ofono_watchlist_add_item (w : ofono_watchlist) (dst src : Z) : ofono_watchlist * Z :=
  let id := u32 (next_id w + 1) in
  ({| next_id := s32 (next_id w + 1); items := {| handler_id := id; handler_dst := dst; handler_src := src |} :: items w |}, id).

Fixpoint remove_item (l : list sms_handler) (id : Z) : option (list sms_handler) :=
  match l with
  | [] => None
  | item :: l => if negb (handler_id item =? id) then l ← remove_item l id; Some (item :: l) else Some l
  end.

(** The list, and whether the item was there. *)
Definition __ofono_watchlist_remove_item (w : ofono_watchlist) (id : Z) : ofono_watchlist * bool :=
  match remove_item (items w) id with
  | Some l => ({| next_id := next_id w; items := l |}, true)
  | None => (w, false)
  end.

(** * State and effects *)

(** struct ofono_sms, as far as reception uses it. *)
Record ofono_sms := {
  assembly : option sms_assembly;
  mw : option ofono_message_waiting;
  text_handlers : ofono_watchlist;
  datagram_handlers : ofono_watchlist
}.

Definition set_assembly (s : ofono_sms) (a : sms_assembly) : ofono_sms :=
  {| assembly := Some a; mw := mw s; text_handlers := text_handlers s; datagram_handlers := datagram_handlers s |}.

Definition set_mw (s : ofono_sms) (m : ofono_message_waiting) : ofono_sms :=
  {| assembly := assembly s; mw := Some m; text_handlers := text_handlers s; datagram_handlers := datagram_handlers s |}.

(** Registration and removal of handlers. *)
Definition __ofono_sms_text_watch_add (s : ofono_sms) : ofono_sms * Z :=
  let '(w, id) := __ofono_watchlist_add_item (text_handlers s) (-1) (-1) in
  ({| assembly := assembly s; mw := mw s; text_handlers := w; datagram_handlers := datagram_handlers s |}, id).

Definition __ofono_sms_text_watch_remove (s : ofono_sms) (id : Z) : ofono_sms * bool :=
  let '(w, found) := __ofono_watchlist_remove_item (text_handlers s) id in
  ({| assembly := assembly s; mw := mw s; text_handlers := w; datagram_handlers := datagram_handlers s |}, found).

Definition __ofono_sms_datagram_watch_add (s : ofono_sms) (dst src : Z) : ofono_sms * Z :=
  let '(w, id) := __ofono_watchlist_add_item (datagram_handlers s) dst src in
  ({| assembly := assembly s; mw := mw s; text_handlers := text_handlers s; datagram_handlers := w |}, id).

Definition __ofono_sms_datagram_watch_remove (s : ofono_sms) (id : Z) : ofono_sms * bool :=
  let '(w, found) := __ofono_watchlist_remove_item (datagram_handlers s) id in
  ({| assembly := assembly s; mw := mw s; text_handlers := text_handlers s; datagram_handlers := w |}, found).

(** What is done: callbacks, with the time stamp they are given as local and
    remote time; the D-Bus signal of a text; the entry in the history under the
    identifier of the message; a download to the SIM; and what the mailboxes do. *)
Inductive sms_output :=
  | NotifyDatagram (handler : Z) (sender : list Z) (sent : sms_scts) (dst src : Z) (buf : list Z)
  | SignalMessage (immediate : bool) (message : list Z) (sent : sms_scts) (sender : list Z)
  | NotifyText (handler : Z) (sender : list Z) (sent : sms_scts) (message : list Z)
  | HistoryReceived (uuid : list Z) (sender : list Z) (sent : sms_scts) (message : list Z)
  | SimDownload (m : sms)
  | Mailbox (o : mw_output).

(** What a call finds: the time; whether the SIM and its toolkit take downloads;
    and the arguments of the mailboxes. *)
Record deliver_env := {
  now : Z; sim_download_ready : bool; env_queued : bool; env_efmwis : list Z; env_efmbdn : list Z
}.

Definition port_equal (received expected : Z) : bool := (expected =? -1) || (received =? expected).

Section Receive.
Context `{U : Utf8} `{G : GlibUtf8} `{W : Utf16}.
(** The SHA-1 checksum of GLib. *)
Variable sha1 : list Z -> list Z.

(** * Dispatch *)

Fixpoint encoded_pdus (sms_list : list sms) : res (list Z) :=
  match sms_list with
  | [] => Ret []
  | s :: l => '(buf, _) ← sms_encode 176 s; rest ← encoded_pdus l; Ret (buf ++ rest)
  end.

Definition compute_incoming_msgid (sms_list : list sms) : res (list Z) :=
  buf ← encoded_pdus sms_list; Ret (sha1 buf).

Definition dispatch_app_datagram (s : ofono_sms) (dst src : Z) (buf : list Z) (addr : sms_address) (scts : sms_scts)
    : list sms_output :=
  let sender := sms_address_to_string addr in
  map (fun h => NotifyDatagram (handler_id h) sender scts dst src buf)
    (filter (fun h => port_equal dst (handler_dst h) && port_equal src (handler_src h)) (items (datagram_handlers s))).

Definition dispatch_text_message (s : ofono_sms) (uuid message : list Z) (cls : sms_class) (addr : sms_address)
    (scts : sms_scts) : list sms_output :=
  let immediate := bool_decide (cls = SMS_CLASS_0) in
  let str := sms_address_to_string addr in
  SignalMessage immediate message scts str ::
  (if immediate then []
   else map (fun h => NotifyText (handler_id h) str scts message) (items (text_handlers s))
        ++ [HistoryReceived uuid str scts message]).

(** The class, the character set and the compression of a coding scheme. *)
Definition deliver_coding (dcs : Z) : res (sms_class * sms_charset * bool) :=
  match sms_mwi_dcs_decode dcs with
  | Some (_, charset, _, _) => Ret (SMS_CLASS_UNSPECIFIED, charset, false)
  | None =>
    match sms_dcs_decode dcs with
    | Some (cls, charset, comp, _) => Ret (cls, charset, comp)
    | None => Err
    end
  end.

(** The ports of a message, those of 8 bits shifted. *)
Definition message_ports (m : sms) : res (option (Z * Z)) :=
  match sms_extract_app_port m with
  | Ret (cdst, csrc, is_8bit) =>
      Ret (Some (if is_8bit then (Z.shiftl cdst 16, Z.shiftl csrc 16) else (cdst, csrc)))
  | Err => Ret None
  | Ub => Ub
  end.

Definition the_deliver (m : sms) : res sms_deliver :=
  match tpdu m with SMS_TYPE_DELIVER d => Ret d | _ => Ub end.

(** What the loop over the messages keeps. *)
Record dispatch_state := { old_charset : sms_charset; cls : sms_class; dstport : Z; srcport : Z }.

(** [old]: [None] for the first message.  [Err] where the function returns. *)
Fixpoint dispatch_loop (sms_list : list sms) (old : option dispatch_state) : res (option dispatch_state) :=
  match sms_list with
  | [] => Ret old
  | m :: l =>
    d ← the_deliver m;
    '(c, charset, comp) ← deliver_coding (deliver_dcs d);
    if (comp : bool) then Err
    else
      let oldc := from_option old_charset charset old in
      if bool_decide (charset = SMS_CHARSET_8BIT) && negb (bool_decide (charset = oldc)) then Err
      else
        ports ← message_ports m;
        let '(cdst, csrc) := default (-1, -1) ports in
        let '(dst, src) :=
          match old with Some st => (dstport st, srcport st) | None => default (-1, -1) ports end in
        if negb (src =? csrc) || negb (dst =? cdst) then Err
        else dispatch_loop l (Some {| old_charset := oldc; cls := c; dstport := dst; srcport := src |})
  end.

(** [Err] where the function returns early. *)
Definition sms_dispatch_list (s : ofono_sms) (sms_list : list sms) : res (list sms_output) :=
  st ← dispatch_loop sms_list None;
  match st, sms_list with
  | Some st, m :: _ =>
    uuid ← compute_incoming_msgid sms_list;
    d ← the_deliver m;
    if bool_decide (old_charset st = SMS_CHARSET_8BIT) then
      if (srcport st =? -1) || (dstport st =? -1) then Err
      else
        buf ← sms_decode_datagram sms_list;
        Ret (dispatch_app_datagram s (dstport st) (srcport st) buf (deliver_oaddr d) (deliver_scts d))
    else
      message ← sms_decode_text sms_list;
      Ret (dispatch_text_message s uuid message (cls st) (deliver_oaddr d) (deliver_scts d))
  | _, _ => Err
  end.

Definition sms_dispatch (s : ofono_sms) (sms_list : list sms) : res (list sms_output) :=
  match sms_dispatch_list s sms_list with Err => Ret [] | r => r end.

(** * Reception *)

Definition sms_op : Type := ofono_sms -> res (ofono_sms * list sms_output).

Definition handle_deliver (time : Z) (incoming : sms) (d : sms_deliver) : sms_op := fun s =>
  match sms_extract_concatenation incoming with
  | Ub => Ub
  | Ret (ref, max, seq) =>
    match assembly s with
    | None => Ret (s, [])
    | Some a =>
      '(a, sms_list) ← sms_assembly_add_fragment a incoming time (deliver_oaddr d) ref max seq;
      match sms_list with
      | None => Ret (set_assembly s a, [])
      | Some sms_list => o ← sms_dispatch s sms_list; Ret (set_assembly s a, o)
      end
    end
  | Err => o ← sms_dispatch s [incoming]; Ret (s, o)
  end.

(** And whether the message is to be discarded. *)
Definition handle_mwi (env : deliver_env) (m : sms) (d : sms_deliver) (s : ofono_sms)
    : res (ofono_sms * list sms_output * bool) :=
  match mw s with
  | None => Ret (s, [], false)
  | Some w =>
    r ← __ofono_message_waiting_mwi (env_queued env) (env_efmwis env) (env_efmbdn env) m d w;
    let '(w, o, discard) := r in Ret (set_mw s w, map Mailbox o, discard)
  end.

Definition SMS_PID_TYPE_SM_TYPE_0 : Z := 0x40.
Definition SMS_PID_TYPE_RETURN_CALL : Z := 0x5f.
Definition SMS_PID_TYPE_ANSI136 : Z := 0x7c.
Definition SMS_PID_TYPE_ME_DOWNLOAD : Z := 0x7d.
Definition SMS_PID_TYPE_ME_DEPERSONALIZATION : Z := 0x7e.
Definition SMS_PID_TYPE_USIM_DOWNLOAD : Z := 0x7f.
Definition SMS_IEI_WCMP : Z := 0x09.

(** Where the loop over the headers leaves: the message is ignored, or its
    indication is handled first. *)
Inductive verdict := Ignored | Indication.

Definition deliver_body (iei : Z) (_ : sms_udh_iter) (_ : unit) : res (unit + verdict) :=
  if 0x25 <? iei then Ret (inr Ignored)
  else if (iei =? SMS_IEI_SPECIAL_MESSAGE_INDICATION) || (iei =? SMS_IEI_ENHANCED_VOICE_MAIL_INFORMATION) then
    Ret (inr Indication)
  else if iei =? SMS_IEI_WCMP then Ret (inr Ignored)
  else Ret (inl tt).

(** What becomes of a message, before anything is done about it. *)
Inductive treatment := Drop | Deliver | MwiThenDeliver | Download.

Definition deliver_treatment (env : deliver_env) (m : sms) (d : sms_deliver) : res treatment :=
  let pid := deliver_pid d in
  if pid =? SMS_PID_TYPE_SM_TYPE_0 then Ret Drop
  else if pid =? SMS_PID_TYPE_RETURN_CALL then Ret MwiThenDeliver
  else if bool_decide (sms_mwi_dcs_decode (deliver_dcs d) <> None) then Ret MwiThenDeliver
  else
    match sms_dcs_decode (deliver_dcs d) with
    | None => Ret Drop
    | Some (c, _, _, _) =>
      if (pid =? SMS_PID_TYPE_ME_DOWNLOAD) && bool_decide (c = SMS_CLASS_1) then Ret Drop
      else if (pid =? SMS_PID_TYPE_ME_DEPERSONALIZATION) && (deliver_dcs d =? 0x11) then Ret Drop
      else if ((pid =? SMS_PID_TYPE_USIM_DOWNLOAD) || (pid =? SMS_PID_TYPE_ANSI136)) && bool_decide (c = SMS_CLASS_2) then
        Ret (if sim_download_ready env then Download else Drop)
      else if negb (deliver_udhi d) then Ret Deliver
      else
        match sms_udh_iter_init m with
        | Ub => Ub
        | Err => Ret Deliver
        | Ret it =>
          r ← udh_search 256 deliver_body it tt;
          Ret match r with
              | inl _ => Deliver
              | inr Ignored => Drop
              | inr Indication => MwiThenDeliver
              end
        end
    end.

Definition ofono_sms_deliver_notify (env : deliver_env) (pdu : list Z) (len tpdu_len : Z) : sms_op := fun s =>
  match sms_decode pdu len false tpdu_len with
  | Ub => Ub
  | Err => Ret (s, [])
  | Ret m =>
    match tpdu m with
    | SMS_TYPE_DELIVER d =>
      t ← deliver_treatment env m d;
      match t with
      | Drop => Ret (s, [])
      | Download => Ret (s, [SimDownload m])
      | Deliver => handle_deliver (now env) m d s
      | MwiThenDeliver =>
        '(s, o, discard) ← handle_mwi env m d s;
        if (discard : bool) then Ret (s, o)
        else '(s, o') ← handle_deliver (now env) m d s; Ret (s, o ++ o')
      end
    | _ => Ret (s, [])
    end
  end.

(** PDUs as they come, and what is done for each. *)
Record arrival := { arr_env : deliver_env; arr_pdu : list Z; arr_tpdu_len : Z }.

Fixpoint receive_all (l : list arrival) (s : ofono_sms) : res (ofono_sms * list (list sms_output)) :=
  match l with
  | [] => Ret (s, [])
  | a :: l =>
    '(s, o) ← ofono_sms_deliver_notify (arr_env a) (arr_pdu a) (zlen (arr_pdu a)) (arr_tpdu_len a) s;
    '(s, os) ← receive_all l s;
    Ret (s, o :: os)
  end.
End Receive.

(** * Ordinary messages *)

(** The information elements of texts and datagrams. *)
Definition plain_ie (i : ie) : bool := bool_decide (fst i ∈ [0x00; 0x04; 0x05; 0x08; 0x24; 0x25]).

Section Delivery.
Context `{L : Utf8Laws} `{GL : !GlibUtf8Laws U G} `{W : Utf16}.
Variable sha1 : list Z -> list Z.

(** A message that is neither an indication nor a download. *)
Record plain (m : sms) (d : sms_deliver) : Prop := {
  plain_tpdu : tpdu m = SMS_TYPE_DELIVER d;
  plain_wf : wf_sms m;
  plain_ud : ud_ok m;
  plain_pid : deliver_pid d <> SMS_PID_TYPE_SM_TYPE_0 /\ deliver_pid d <> SMS_PID_TYPE_RETURN_CALL;
  plain_dcs : deliver_dcs d = 0x00 \/ deliver_dcs d = 0x04 \/ deliver_dcs d = 0x08;
  plain_ies : forall ies, msg_ies m ies -> forallb plain_ie ies = true
}.

Lemma plain_ie_body i it : plain_ie i = true -> deliver_body (fst i) it tt = Ret (inl tt).
Proof.
  unfold plain_ie. intros H%bool_decide_eq_true. rewrite !elem_of_cons in H.
  unfold deliver_body. destruct H as [->|[->|[->|[->|[->|[->|H]]]]]]; [done..|by apply not_elem_of_nil in H].
Qed.

Lemma plain_treatment env m d : plain m d -> deliver_treatment env m d = Ret Deliver.
Proof.
  intros [Ht _ Hud [Hp1 Hp2] Hdcs Hies]. unfold deliver_treatment.
  rewrite (proj2 (Z.eqb_neq _ _) Hp1), (proj2 (Z.eqb_neq _ _) Hp2).
  assert (Hrest : (if negb (deliver_udhi d) then Ret Deliver
    else match sms_udh_iter_init m with
         | Ub => Ub
         | Err => Ret Deliver
         | Ret it =>
           r ← udh_search 256 deliver_body it tt;
           Ret match r with inl _ => Deliver | inr Ignored => Drop | inr Indication => MwiThenDeliver end
         end) = Ret Deliver).
  { destruct (deliver_udhi d); [|done]. cbn [negb].
    destruct (iter_init_cases m Hud) as [(ies & Hi & ->)|[_ ->]]; [|done].
    destruct (msg_search deliver_body (fun _ _ => True) (fun _ _ _ => False) (fun i => plain_ie i = true) m ies tt) as (_ & r & -> & Hr);
      [|done|done| |done|].
    - intros it seen i [] _ Hpi _ _. rewrite (plain_ie_body i it Hpi). by eexists.
    - apply Forall_forall. intros i Hi'. specialize (Hies ies Hi). rewrite forallb_forall in Hies. by apply Hies, list_elem_of_In.
    - rewrite bind_Ret. destruct r as [|b]; [done|]. by destruct Hr as (? & ? & ? & _ & []). }
  assert (sms_mwi_dcs_decode (deliver_dcs d) = None) as -> by (by destruct Hdcs as [->|[->| ->]]).
  assert (exists ch b1 b2, sms_dcs_decode (deliver_dcs d) = Some (SMS_CLASS_UNSPECIFIED, ch, b1, b2)) as (ch & b1 & b2 & ->)
    by (destruct Hdcs as [->|[->| ->]]; by do 3 eexists).
  assert ((deliver_dcs d =? 0x11) = false) as -> by (by destruct Hdcs as [->|[->| ->]]).
  rewrite (bool_decide_false (_ <> _)) by (intros H; by apply H).
  rewrite !bool_decide_false by done. rewrite !andb_false_r. exact Hrest.
Qed.

(** The PDU of an ordinary message is handed to [handle_deliver]. *)
Lemma notify_plain env m d s : plain m d ->
  exists pdu n, sms_encode 176 m = Ret (pdu, n) /\
    ofono_sms_deliver_notify sha1 env pdu (zlen pdu) n s = handle_deliver sha1 (now env) m d s.
Proof.
  intros Hp. pose proof Hp as [Ht Hw _ _ _ _]. destruct (sms_codec_ok m Hw) as (pdu & n & He & _ & _ & Hl & Hdec).
  rewrite Ht in Hl, Hdec. exists pdu, n. split; [by apply He|].
  unfold ofono_sms_deliver_notify. cbn [is_outgoing tpdu_read] in Hdec. rewrite Hdec. cbn [tpdu].
  assert ({| sc_addr := sc_addr m; tpdu := SMS_TYPE_DELIVER d |} = m) as -> by (destruct m; cbn in *; congruence).
  rewrite (plain_treatment env m d Hp), bind_Ret. done.
Qed.

(** ** Any number of messages at a time *)

Definition same_listeners (s s' : ofono_sms) : Prop :=
  text_handlers s = text_handlers s' /\ datagram_handlers s = datagram_handlers s'.

Lemma dispatch_listeners s s' l : same_listeners s s' -> sms_dispatch sha1 s l = sms_dispatch sha1 s' l.
Proof.
  intros [Ht Hd]. unfold sms_dispatch, sms_dispatch_list, dispatch_text_message, dispatch_app_datagram. by rewrite Ht, Hd.
Qed.

(** A message of one part, or the parts of a concatenated message in order; and
    what it is kept under in the meantime. *)
Inductive numbering : list sms -> option message_key -> Prop :=
  | alone m : sms_extract_concatenation m = Err -> numbering [m] None
  | several ms addr ref : 0 < zlen ms <= 255 ->
      (forall i m, ms !! i = Some m -> exists d, tpdu m = SMS_TYPE_DELIVER d /\ deliver_oaddr d = addr /\
         sms_extract_concatenation m = Ret (ref, zlen ms, Z.of_nat i + 1)) ->
      numbering ms (Some (key_of addr ref)).

(** A message, and what is done about it once it is complete. *)
Record incoming := { in_parts : list sms; in_key : option message_key; in_out : list sms_output }.

Definition storable_sender (imsi : bool) (d : sms_deliver) : Prop :=
  imsi = true -> sms_address_to_hex_string (deliver_oaddr d) <> Ub.

Record incoming_ok (s0 : ofono_sms) (imsi : bool) (x : incoming) : Prop := {
  in_numbering : numbering (in_parts x) (in_key x);
  in_dispatch : sms_dispatch sha1 s0 (in_parts x) = Ret (in_out x);
  in_plain : forall m, m ∈ in_parts x -> exists d, plain m d /\ storable_sender imsi d
}.

(** The arrival of a part of the message number [ev_of]. *)
Record event := { ev_of : nat; ev_sms : sms; ev_arr : arrival }.

Definition encodes (e : event) : Prop :=
  sms_encode 176 (ev_sms e) = Ret (arr_pdu (ev_arr e), arr_tpdu_len (ev_arr e)).

Definition events_of (j : nat) (l : list event) : list event := filter (fun e => ev_of e = j) l.

Definition outputs_of {A} (j : nat) (l : list event) (outs : list A) : list A :=
  (filter (fun p => ev_of p.1 = j) (zip l outs)).*2.

(** The fragment that reaches the assembly. *)
Definition fragment_of (e : event) : fragment :=
  let time := now (arr_env (ev_arr e)) in
  match tpdu (ev_sms e), sms_extract_concatenation (ev_sms e) with
  | SMS_TYPE_DELIVER d, Ret (ref, max, seq) =>
      {| fr_sms := ev_sms e; fr_ts := time; fr_addr := deliver_oaddr d; fr_ref := ref; fr_max := max; fr_seq := seq |}
  | _, _ => {| fr_sms := ev_sms e; fr_ts := time; fr_addr := no_address; fr_ref := 0; fr_max := 0; fr_seq := 0 |}
  end.

Definition replies_of (msg : option message) (j : nat) (l : list event) : list (option (list sms)) :=
  snd (message_run msg (fragment_of <$> events_of j l)).

Definition reply_out (x : incoming) (r : option (list sms)) : list sms_output :=
  match r with None => [] | Some _ => in_out x end.

(** What is done for the parts of one message, given the part of it that is held. *)
Definition own_outputs (A : gmap message_key SmsAssembly.message) (j : nat) (x : incoming) (l : list event) : list (list sms_output) :=
  match in_key x with
  | None => (fun _ => in_out x) <$> events_of j l
  | Some k => reply_out x <$> replies_of (A !! k) j l
  end.

(** One part of a concatenated message. *)
Lemma handle_several s0 s a A x e k d :
  numbering (in_parts x) (Some k) -> ev_sms e ∈ in_parts x -> plain (ev_sms e) d -> storable_sender (assembly_imsi a) d ->
  assembly s = Some a -> refines (assembly_list a) A -> same_listeners s s0 ->
  let f := fragment_of e in
  let r := add_to_message (A !! k) f in
  (snd r = None \/ snd r = Some (in_parts x)) -> sms_dispatch sha1 s0 (in_parts x) = Ret (in_out x) ->
  exists a', handle_deliver sha1 (fr_ts f) (ev_sms e) d s = Ret (set_assembly s a', reply_out x (snd r)) /\
    assembly_imsi a' = assembly_imsi a /\ refines (assembly_list a') (partial_alter (fun _ => fst r) k A).
Proof.
  intros Hnum Hin Hp Hst Ha Hr Hlis f r Hreply Hdisp. inversion Hnum as [|ms addr ref Hn Hparts Hms Hk]. subst ms.
  destruct (proj1 (list_elem_of_lookup _ _) Hin) as [i Hi]. destruct (Hparts i _ Hi) as (d' & Ht & Haddr & Hc).
  pose proof (plain_tpdu _ _ Hp) as Ht'. rewrite Ht in Ht'. injection Ht' as <-.
  assert (Hf : f = {| fr_sms := ev_sms e; fr_ts := now (arr_env (ev_arr e)); fr_addr := addr; fr_ref := ref;
                      fr_max := zlen (in_parts x); fr_seq := Z.of_nat i + 1 |}).
  { unfold f, fragment_of. by rewrite Ht, Hc, Haddr. }
  unfold handle_deliver. rewrite Hc, Ha, Haddr. apply lookup_lt_Some in Hi.
  destruct (add_ok a A (ev_sms e) (fr_ts f) addr ref (zlen (in_parts x)) (Z.of_nat i + 1) true) as (a' & Hadd & Himsi & Hr' & _).
  - done.
  - unfold is_byte, zlen in *. lia.
  - unfold is_byte. lia.
  - intros Hi1. split; [rewrite <- Haddr; by apply Hst|].
    destruct (notify_plain (arr_env (ev_arr e)) _ _ s Hp) as (pdu & n & He & _). by eexists.
  - unfold sms_assembly_add_fragment. rewrite Hadd, bind_Ret. exists a'. unfold add_spec in *. cbn [fst snd] in *.
    assert (Hrr : add_message (A !! key_of addr ref) (ev_sms e) (fr_ts f) (zlen (in_parts x)) (Z.of_nat i + 1) = r).
    { unfold r. rewrite <- Hk. unfold add_to_message. by rewrite Hf. }
    rewrite Hrr, Hk in *. split; [|by split]. destruct Hreply as [-> | ->]; [done|].
    rewrite (dispatch_listeners s s0), Hdisp, bind_Ret by done. done.
Qed.

Record family_ok (s0 : ofono_sms) (imsi : bool) (fam : list incoming) : Prop := {
  fam_ok : forall j x, fam !! j = Some x -> incoming_ok s0 imsi x;
  fam_keys : forall i j x y k, fam !! i = Some x -> fam !! j = Some y -> in_key x = Some k -> in_key y = Some k -> i = j
}.

(** Every event is the arrival of a part of a message of the family. *)
Definition event_ok (fam : list incoming) (e : event) : Prop :=
  encodes e /\ exists x, fam !! ev_of e = Some x /\ ev_sms e ∈ in_parts x.

(** Nothing but the complete message is returned for its parts. *)
Definition replies_ok (fam : list incoming) (A : gmap message_key SmsAssembly.message) (l : list event) : Prop :=
  forall j x k r, fam !! j = Some x -> in_key x = Some k -> r ∈ replies_of (A !! k) j l -> r = None \/ r = Some (in_parts x).

Lemma events_of_cons j e l : events_of j (e :: l) = if decide (ev_of e = j) then e :: events_of j l else events_of j l.
Proof. unfold events_of. by rewrite filter_cons. Qed.

Lemma outputs_of_cons {A} j e l (o : A) outs :
  outputs_of j (e :: l) (o :: outs) = if decide (ev_of e = j) then o :: outputs_of j l outs else outputs_of j l outs.
Proof. unfold outputs_of. cbn [zip zip_with]. rewrite filter_cons. cbn [fst]. by case_decide. Qed.

Lemma replies_of_cons msg j e l :
  replies_of msg j (e :: l) =
  if decide (ev_of e = j) then
    let r := add_to_message msg (fragment_of e) in snd r :: replies_of (fst r) j l
  else replies_of msg j l.
Proof. unfold replies_of. rewrite events_of_cons. by case_decide. Qed.

(** One event. *)
Lemma event_step s0 imsi fam e l s a A :
  family_ok s0 imsi fam -> event_ok fam e -> replies_ok fam A (e :: l) ->
  assembly s = Some a -> assembly_imsi a = imsi -> refines (assembly_list a) A -> same_listeners s s0 ->
  exists x s' a' A' o, fam !! ev_of e = Some x /\
    ofono_sms_deliver_notify sha1 (arr_env (ev_arr e)) (arr_pdu (ev_arr e)) (zlen (arr_pdu (ev_arr e))) (arr_tpdu_len (ev_arr e)) s
      = Ret (s', o) /\
    assembly s' = Some a' /\ assembly_imsi a' = imsi /\ refines (assembly_list a') A' /\ same_listeners s' s0 /\
    replies_ok fam A' l /\
    forall j y, fam !! j = Some y ->
      own_outputs A j y (e :: l) = if decide (ev_of e = j) then o :: own_outputs A' j y l else own_outputs A' j y l.
Proof.
  intros [Hfam Hkeys] (Henc & x & Hx & Hin) Hrep Ha Hi Hr Hlis. pose proof (Hfam _ _ Hx) as [Hnum Hdisp Hplain].
  destruct (Hplain _ Hin) as (d & Hp & Hst). unfold encodes in Henc.
  destruct (notify_plain (arr_env (ev_arr e)) _ _ s Hp) as (pdu & n & He & Hnotify). rewrite Henc in He. injection He as <- <-.
  rewrite Hnotify. exists x. destruct (in_key x) as [k|] eqn:Hk.
  - assert (Hreply : snd (add_to_message (A !! k) (fragment_of e)) = None \/
      snd (add_to_message (A !! k) (fragment_of e)) = Some (in_parts x)).
    { apply (Hrep (ev_of e) x k _ Hx Hk). rewrite replies_of_cons, decide_True by done. by left. }
    rewrite <- Hi in Hst.
    destruct (handle_several s0 s a A x e k d Hnum Hin Hp Hst Ha Hr Hlis Hreply Hdisp) as (a' & Hh & Hi' & Hr').
    assert (Htime : fr_ts (fragment_of e) = now (arr_env (ev_arr e))).
    { unfold fragment_of. by repeat case_match. }
    rewrite Htime in Hh. rewrite Hh. exists (set_assembly s a'), a', (partial_alter (fun _ => fst (add_to_message (A !! k) (fragment_of e))) k A).
    eexists. split_and!; try done; [congruence| |].
    + intros j y k' r Hy Hk' Hin'. apply (Hrep j y k' r Hy Hk'). rewrite replies_of_cons. destruct (decide (ev_of e = j)) as [<-|Hne].
      * assert (y = x) as -> by congruence. assert (k' = k) as -> by congruence. rewrite lookup_partial_alter_eq in Hin'. by right.
      * rewrite lookup_partial_alter_ne in Hin'; [done|]. intros <-. by apply Hne, (Hkeys (ev_of e) j x y k).
    + intros j y Hy. unfold own_outputs. destruct (in_key y) as [k'|] eqn:Hk'.
      * rewrite replies_of_cons. destruct (decide (ev_of e = j)) as [<-|Hne].
        -- assert (y = x) as -> by congruence. assert (k' = k) as -> by congruence. by rewrite lookup_partial_alter_eq.
        -- rewrite lookup_partial_alter_ne; [done|]. intros <-. by apply Hne, (Hkeys (ev_of e) j x y k).
      * rewrite events_of_cons. destruct (decide (ev_of e = j)) as [<-|Hne]; [congruence|done].
  - inversion Hnum as [m Hc Hm|]. rewrite <- Hm in Hin. apply list_elem_of_singleton in Hin. subst m.
    unfold handle_deliver. rewrite Hc, (dispatch_listeners s s0), Hm, Hdisp, bind_Ret by done.
    exists s, a, A. eexists. split_and!; try done.
    + intros j y k' r Hy Hk' Hin'. apply (Hrep j y k' r Hy Hk'). rewrite replies_of_cons.
      destruct (decide (ev_of e = j)) as [<-|Hne]; [congruence|done].
    + intros j y Hy. unfold own_outputs. destruct (in_key y) as [k'|] eqn:Hk'.
      * rewrite replies_of_cons. destruct (decide (ev_of e = j)) as [<-|Hne]; [congruence|done].
      * rewrite events_of_cons. destruct (decide (ev_of e = j)) as [<-|Hne]; [|done].
        assert (y = x) as -> by congruence. done.
Qed.

Lemma receive_run s0 imsi fam : family_ok s0 imsi fam -> forall l s a A,
  Forall (event_ok fam) l -> replies_ok fam A l ->
  assembly s = Some a -> assembly_imsi a = imsi -> refines (assembly_list a) A -> same_listeners s s0 ->
  exists s' outs, receive_all sha1 (ev_arr <$> l) s = Ret (s', outs) /\ length outs = length l /\
    forall j x, fam !! j = Some x -> outputs_of j l outs = own_outputs A j x l.
Proof.
  intros Hfam. induction l as [|e l IH]; intros s a A Hl Hrep Ha Hi Hr Hlis.
  - exists s, []. split_and!; [done..|]. intros j x _. unfold own_outputs. by destruct (in_key x).
  - apply Forall_cons in Hl as [He Hl].
    destruct (event_step s0 imsi fam e l s a A Hfam He Hrep Ha Hi Hr Hlis)
      as (x & s1 & a1 & A1 & o & Hx & Hnotify & Ha1 & Hi1 & Hr1 & Hlis1 & Hrep1 & Hown).
    destruct (IH s1 a1 A1 Hl Hrep1 Ha1 Hi1 Hr1 Hlis1) as (s' & outs & Hall & Hlen & Houts).
    exists s', (o :: outs). split_and!.
    + cbn [fmap list_fmap receive_all]. rewrite Hnotify, bind_Ret, Hall, bind_Ret. done.
    + cbn [length]. by rewrite Hlen.
    + intros j y Hy. rewrite outputs_of_cons, (Hown j y Hy), (Houts j y Hy). done.
Qed.

(** The number of a part. *)
Definition seq_of (m : sms) : Z := match sms_extract_concatenation m with Ret (_, _, seq) => seq | _ => 0 end.

Lemma numbered_parts ms : (forall i m, ms !! i = Some m -> seq_of m = Z.of_nat i + 1) ->
  (fun m => (seq_of m, m)) <$> ms = zip (seqZ 1 (zlen ms)) ms.
Proof.
  intros H. apply list_eq. intros i. rewrite list_lookup_fmap. rewrite lookup_zip_with.
  destruct (ms !! i) as [m|] eqn:Hm; cbn; [|by destruct (seqZ _ _ !! i)].
  assert (Hi : (i < length ms)%nat) by (by eapply lookup_lt_Some).
  assert (seqZ 1 (zlen ms) !! i = Some (1 + Z.of_nat i)) as ->.
  { apply lookup_seqZ. unfold zlen. lia. }
  cbn. by rewrite (H i m Hm), Z.add_comm.
Qed.

Lemma replies_complete x k j l :
  numbering (in_parts x) (Some k) -> (ev_sms <$> events_of j l) ≡ₚ in_parts x ->
  replies_of None j l = replicate (length (in_parts x) - 1) None ++ [Some (in_parts x)].
Proof.
  intros Hnum Hperm. inversion Hnum as [|ms addr ref Hn Hparts Hms Hk]. subst ms.
  assert (Hev : forall e, e ∈ events_of j l -> exists i d, tpdu (ev_sms e) = SMS_TYPE_DELIVER d /\
    in_parts x !! i = Some (ev_sms e) /\ sms_extract_concatenation (ev_sms e) = Ret (ref, zlen (in_parts x), Z.of_nat i + 1)).
  { intros e He. assert (Hin : ev_sms e ∈ in_parts x) by (rewrite <- Hperm; by apply list_elem_of_fmap_2).
    apply list_elem_of_lookup in Hin as [i Hi]. destruct (Hparts i _ Hi) as (d & ? & _ & ?). by exists i, d. }
  unfold replies_of. rewrite (fragments_complete _ (in_parts x)); [done| |done|].
  - rewrite <- numbered_parts, <- Hperm.
    + rewrite <- !list_fmap_compose. apply Permutation_refl'. apply list_fmap_ext. intros i e He.
      destruct (Hev e) as (i' & d & Ht & _ & Hc); [by eapply list_elem_of_lookup_2|].
      cbn. unfold numbered, seq_of, fragment_of. by rewrite Ht, Hc.
    + intros i m Hm. destruct (Hparts i m Hm) as (d & _ & _ & Hc). unfold seq_of. by rewrite Hc.
  - apply Forall_forall. intros f Hf. apply list_elem_of_fmap in Hf as (e & -> & He).
    destruct (Hev e He) as (i & d & Ht & _ & Hc). unfold fragment_of. by rewrite Ht, Hc.
Qed.

(** Each message is acted upon once, for the last of its parts to arrive, however
    the parts of all the messages are interleaved. *)
Lemma interleaved_delivery s0 a A fam l :
  family_ok s0 (assembly_imsi a) fam -> Forall (event_ok fam) l ->
  assembly s0 = Some a -> refines (assembly_list a) A ->
  (forall j x k, fam !! j = Some x -> in_key x = Some k -> A !! k = None) ->
  (forall j x, fam !! j = Some x -> (ev_sms <$> events_of j l) ≡ₚ in_parts x) ->
  exists s' outs, receive_all sha1 (ev_arr <$> l) s0 = Ret (s', outs) /\ length outs = length l /\
    forall j x, fam !! j = Some x -> outputs_of j l outs = replicate (length (in_parts x) - 1) [] ++ [in_out x].
Proof.
  intros Hfam Hl Ha Hr Hfresh Hperm.
  assert (Hreplies : forall j x k, fam !! j = Some x -> in_key x = Some k ->
    replies_of (A !! k) j l = replicate (length (in_parts x) - 1) None ++ [Some (in_parts x)]).
  { intros j x k Hx Hk. rewrite (Hfresh j x k Hx Hk). pose proof (in_numbering _ _ _ (fam_ok _ _ _ Hfam _ _ Hx)) as Hnum.
    rewrite Hk in Hnum. apply (replies_complete x k); [done|by apply Hperm]. }
  destruct (receive_run s0 (assembly_imsi a) fam Hfam l s0 a A Hl) as (s' & outs & Hall & Hlen & Houts); try done.
  { intros j x k r Hx Hk. rewrite (Hreplies j x k Hx Hk), elem_of_app.
    intros [Hin|Hin]; [left; by apply elem_of_replicate in Hin as [-> _]|right; by apply list_elem_of_singleton in Hin]. }
  exists s', outs. split_and!; [done..|]. intros j x Hx. rewrite (Houts j x Hx). unfold own_outputs.
  destruct (in_key x) as [k|] eqn:Hk.
  - rewrite (Hreplies j x k Hx Hk), fmap_app, fmap_replicate. done.
  - pose proof (in_numbering _ _ _ (fam_ok _ _ _ Hfam _ _ Hx)) as Hnum. rewrite Hk in Hnum.
    inversion Hnum as [m _ Hm|]. specialize (Hperm j x Hx). rewrite <- Hm in Hperm.
    apply Permutation_length in Hperm. rewrite length_fmap in Hperm.
    destruct (events_of j l) as [|e [|]]; [done..|]. done.
Qed.

End Delivery.

(** ** Parts as they are received *)

Section Parts.
Context `{L : Utf8Laws} `{GL : !GlibUtf8Laws U G}.

(** A part with coding scheme [dcs] and the elements of [hdr], or without a
    header. *)
Definition described (m : sms) (dcs : Z) (hdr : option (list ie)) : Prop :=
  ud_ok m /\ snd (fst (fst (fst (sms_extract_common m)))) = dcs /\
  match hdr with Some ies => msg_ies m ies | None => forall ies, ~ msg_ies m ies end.

Lemma described_ports m dcs hdr : described m dcs hdr ->
  sms_extract_app_port m = match last (omap port_usable (default [] hdr)) with Some r => Ret r | None => Err end.
Proof.
  intros (Hok & _ & Hh). destruct (app_port_ok m Hok) as [Hsome Hnone]. destruct hdr as [ies|]; [by apply Hsome|by apply Hnone].
Qed.

Lemma described_concatenation m dcs hdr : described m dcs hdr ->
  sms_extract_concatenation m = match last (omap concat_usable (default [] hdr)) with Some r => Ret r | None => Err end.
Proof.
  intros (Hok & _ & Hh). destruct (concatenation_ok m Hok) as [Hsome Hnone]. destruct hdr as [ies|]; [by apply Hsome|by apply Hnone].
Qed.

(** What the network makes of a message: a SMS-DELIVER from [sender] with the
    same user data, which the SIM or the modem passes on. *)
Record arrives (sender : sms_address) (m m' : sms) : Prop := {
  arr_relays : relays m m';
  arr_wf : wf_sms m';
  arr_deliver : exists d, tpdu m' = SMS_TYPE_DELIVER d /\ deliver_oaddr d = sender /\
    deliver_pid d <> SMS_PID_TYPE_SM_TYPE_0 /\ deliver_pid d <> SMS_PID_TYPE_RETURN_CALL
}.

Lemma described_plain sender m m' dcs hdr :
  arrives sender m m' -> described m' dcs hdr -> (dcs = 0x00 \/ dcs = 0x04 \/ dcs = 0x08) ->
  forallb plain_ie (default [] hdr) = true ->
  exists d, plain m' d /\ deliver_oaddr d = sender /\ deliver_dcs d = dcs.
Proof.
  intros [_ Hw (d & Ht & Hs & Hpid)] (Hok & Hd & Hh) Hdcs Hies. exists d.
  assert (deliver_dcs d = dcs) as <- by (unfold sms_extract_common in Hd; by rewrite Ht in Hd).
  split; [|done]. constructor; try done. intros ies Hi. destruct hdr as [ies'|]; [|by destruct (Hh ies)].
  pose proof (msg_ies_parse m' ies Hok Hi) as H1. rewrite (msg_ies_parse m' ies' Hok Hh) in H1. by injection H1 as <-.
Qed.

(** *** Datagrams *)

Lemma datagram_part daddr srr ies c m m' : ies <> [] -> Forall wf_ie ies ->
  carries (submit_template daddr srr true 0x04) ies c m -> relays m m' -> described m' 0x04 (Some ies).
Proof.
  intros Hne Hw Hc Hr. destruct (relays_carries daddr srr ies c m m' Hne Hw Hc Hr) as (Hok & Hi & _).
  split; [done|]. split; [|done]. destruct Hc as (tail & -> & _). destruct Hr as [_ _ (udhi & dcs & udl & max & ud & max' & ud' & Hm & Hm' & _)].
  injection Hm as <- <- <- <- <-. by rewrite Hm'.
Qed.

Lemma fragments_lookup tpl ies total seq cs ms i m : fragments tpl ies total seq cs ms -> ms !! i = Some m ->
  exists c, carries tpl (ies total (seq + Z.of_nat i + 1)) c m.
Proof.
  intros H. revert i. induction H as [|seq c cs m' ms Hc Hfr IH]; intros i Hi; [done|].
  destruct i as [|i]; [injection Hi as <-; exists c; by replace (seq + Z.of_nat 0 + 1) with (seq + 1) by lia|].
  destruct (IH i Hi) as [c' Hc']. exists c'. by replace (seq + Z.of_nat (S i) + 1) with (seq + 1 + Z.of_nat i + 1) by lia.
Qed.

(** *** Texts *)

Lemma text_part daddr srr (gsm : bool) ies c m m' : Forall wf_ie ies -> c <> [] ->
  text_msg daddr srr gsm ies c m -> relays m m' ->
  described m' (text_dcs gsm) (if bool_decide (ies = []) then None else Some ies).
Proof.
  intros Hw Hne Hm Hr.
  destruct (relays_text daddr srr gsm ies c m m' Hw Hm Hr) as (p & udl & tail & max & Hok & Hnone & Hsome & Hcommon & Hpay).
  split; [done|]. split; [by rewrite Hcommon|]. case_bool_decide as Hi; [by apply Hnone|]. apply Hsome; [done|].
  intros ->. unfold payload in Hpay. destruct gsm.
  - destruct Hpay as (_ & [_ Hl _] & _). change (zlen []) with 0 in Hl.
    assert (0 < zlen c) by (destruct c; [done|zl]). pose proof (fill_bits_range _ (zlen_nonneg (header ies))).
    Z.to_euclidean_division_equations; lia.
  - by destruct Hpay as [<- _].
Qed.

Lemma text_fragments_lookup daddr srr gsm ies total seq cs ms i m :
  text_fragments daddr srr gsm ies total seq cs ms -> ms !! i = Some m ->
  exists c, c ∈ cs /\ text_msg daddr srr gsm (ies total (seq + Z.of_nat i + 1)) c m.
Proof.
  intros H. revert i. induction H as [|seq c cs m' ms Hc Hfr IH]; intros i Hi; [done|].
  destruct i as [|i]; [injection Hi as <-; exists c; split; [by left|]; by replace (seq + Z.of_nat 0 + 1) with (seq + 1) by lia|].
  destruct (IH i Hi) as (c' & Hin & Hc'). exists c'. split; [by right|].
  by replace (seq + Z.of_nat (S i) + 1) with (seq + 1 + Z.of_nat i + 1) by lia.
Qed.

(** *** The elements of the headers *)

(** The reference as it is in a header. *)
Definition wire_ref (ref : Z) (wide : bool) : Z := if wide then ref else Z.land ref 0xff.

Lemma concat_ie_usable ref wide total seq : short ref -> 1 <= seq <= total ->
  concat_usable (concat_ie ref wide total seq) = Some (wire_ref ref wide, total, seq).
Proof.
  intros Href Hs. destruct (short_octets ref Href) as (_ & _ & Hh & Hr). unfold concat_usable, concat_ie, wire_ref.
  destruct wide; cbn [fst snd Z.eqb Pos.eqb];
    rewrite !(proj2 (Z.eqb_neq _ 0)), (proj2 (Z.ltb_ge _ _)) by lia; cbn [orb]; [|done].
  rewrite Hh, Hr. do 3 f_equal. dzl.
Qed.

Lemma port_concat_ie ref wide total seq : port_usable (concat_ie ref wide total seq) = None.
Proof. by destruct wide. Qed.

Lemma concat_port_ie src dst wide : concat_usable (port_ie src dst wide) = None.
Proof. by destruct wide. Qed.

(** Ports that the receiver takes: application ports, of 16 or 8 bits. *)
Definition usable_ports (src dst : Z) (wide : bool) : Prop :=
  if wide then 0 <= dst <= 49151 /\ 0 <= src <= 65535 else 240 <= dst <= 255 /\ 240 <= src <= 255.

Lemma usable_short src dst wide : usable_ports src dst wide -> short src /\ short dst.
Proof. unfold usable_ports, short. destruct wide; lia. Qed.

Lemma port_ie_usable src dst wide : usable_ports src dst wide ->
  port_usable (port_ie src dst wide) = Some (dst, src, negb wide).
Proof.
  intros Hp. destruct (usable_short _ _ _ Hp) as [Hs Hd].
  destruct (short_octets src Hs) as (_ & _ & Hs1 & Hs0), (short_octets dst Hd) as (_ & _ & Hd1 & Hd0).
  unfold port_usable, port_ie, usable_ports in *. rewrite Hs1, Hs0, Hd1, Hd0.
  destruct wide; cbn [fst snd Z.eqb Pos.eqb negb].
  - assert (dst / 256 * 256 + dst mod 256 = dst) as -> by dzl. assert (src / 256 * 256 + src mod 256 = src) as -> by dzl.
    by rewrite (proj2 (Z.ltb_ge _ _)) by lia.
  - rewrite !Z.mod_small by lia. by rewrite !(proj2 (Z.ltb_ge _ 240)) by lia.
Qed.

Lemma language_ies_other locking single :
  omap port_usable (language_ies locking single) = [] /\ omap concat_usable (language_ies locking single) = [] /\
  forallb plain_ie (language_ies locking single) = true.
Proof. unfold language_ies. by destruct (single =? 0), (locking =? 0). Qed.

Lemma plain_concat_ie ref wide total seq : plain_ie (concat_ie ref wide total seq) = true.
Proof. by destruct wide. Qed.

Lemma plain_port_ie src dst wide : plain_ie (port_ie src dst wide) = true.
Proof. by destruct wide. Qed.

(** *** The parts of a message *)

(** The ports of a datagram as its handlers see them: those of 8 bits shifted. *)
Definition app_port (port : Z) (wide : bool) : Z := if wide then port else Z.shiftl port 16.

(** Parts from [sender], of which only the numbers differ; [wire] is their
    reference if they are several. *)
Record parts_of (sender : sms_address) (dcs : Z) (ports : option (Z * Z)) (wire : Z) (ms : list sms)
    (key : option message_key) : Prop := {
  parts_numbering : numbering ms key;
  parts_key : key = None \/ key = Some (key_of sender wire);
  parts_plain : forall m, m ∈ ms ->
    exists d, plain m d /\ deliver_oaddr d = sender /\ deliver_dcs d = dcs /\ message_ports m = Ret ports
}.

(** One part. *)
Lemma one_parts sender m m' dcs hdr ports wire :
  arrives sender m m' -> described m' dcs hdr -> (dcs = 0x00 \/ dcs = 0x04 \/ dcs = 0x08) ->
  forallb plain_ie (default [] hdr) = true -> omap concat_usable (default [] hdr) = [] ->
  message_ports m' = Ret ports ->
  parts_of sender dcs ports wire [m'] None.
Proof.
  intros Ha Hd Hdcs Hp Hc Hports. constructor; [|by left|].
  - apply alone. by rewrite (described_concatenation _ _ _ Hd), Hc.
  - intros x Hx. apply list_elem_of_singleton in Hx as ->. destruct (described_plain _ _ _ _ _ Ha Hd Hdcs Hp) as (d & ? & ? & ?).
    by exists d.
Qed.

(** Several parts, with their numbers in their headers. *)
Lemma several_parts sender ms ms' dcs (ies : Z -> list ie) ports wire :
  Forall2 (arrives sender) ms ms' -> 0 < zlen ms' <= 255 -> (dcs = 0x00 \/ dcs = 0x04 \/ dcs = 0x08) ->
  (forall i m m', ms !! i = Some m -> ms' !! i = Some m' -> relays m m' -> described m' dcs (Some (ies (Z.of_nat i + 1)))) ->
  (forall s, 1 <= s <= zlen ms' -> forallb plain_ie (ies s) = true /\
     last (omap concat_usable (ies s)) = Some (wire, zlen ms', s) /\
     (forall m', described m' dcs (Some (ies s)) -> message_ports m' = Ret ports)) ->
  parts_of sender dcs ports wire ms' (Some (key_of sender wire)).
Proof.
  intros Ha Hn Hdcs Hdesc Hies.
  assert (Hpart : forall i m', ms' !! i = Some m' -> exists d, plain m' d /\ deliver_oaddr d = sender /\ deliver_dcs d = dcs /\
    message_ports m' = Ret ports /\ sms_extract_concatenation m' = Ret (wire, zlen ms', Z.of_nat i + 1)).
  { intros i m' Hm'. destruct (Forall2_lookup_r _ _ _ _ _ Ha Hm') as (m & Hm & Ham).
    pose proof (Hdesc i m m' Hm Hm' (arr_relays _ _ _ Ham)) as Hd. apply lookup_lt_Some in Hm'.
    destruct (Hies (Z.of_nat i + 1)) as (Hp & Hc & Hports); [unfold zlen; lia|].
    destruct (described_plain _ _ _ _ _ Ham Hd Hdcs Hp) as (d & Hpl & Hs & Hdc). exists d. split_and!; [done..|by apply Hports|].
    rewrite (described_concatenation _ _ _ Hd). cbn [default from_option id]. by rewrite Hc. }
  constructor; [|by right|].
  - apply several; [done|]. intros i m' Hm'. destruct (Hpart i m' Hm') as (d & Hpl & Hs & _ & _ & Hc). exists d.
    split_and!; [by apply plain_tpdu|done|done].
  - intros m' Hin. apply list_elem_of_lookup in Hin as [i Hi]. destruct (Hpart i m' Hi) as (d & ? & ? & ? & ? & _). by exists d.
Qed.

Lemma described_message_ports m dcs hdr : described m dcs hdr ->
  message_ports m = Ret (match last (omap port_usable (default [] hdr)) with
                         | Some (dst, src, is_8bit) => Some (app_port dst (negb is_8bit), app_port src (negb is_8bit))
                         | None => None
                         end).
Proof.
  intros H. unfold message_ports. rewrite (described_ports _ _ _ H).
  destruct (last _) as [[[dst src] []]|]; done.
Qed.

Lemma datagram_parts to data ref wide_ref src dst wide_port srr ms ms' sender :
  bytes data -> usable_ports src dst wide_port -> short ref ->
  sms_datagram_prepare to data (zlen data) ref wide_ref src dst wide_port srr = Ret ms ->
  Forall2 (arrives sender) ms ms' ->
  exists key, parts_of sender 0x04 (Some (app_port dst wide_port, app_port src wide_port)) (wire_ref ref wide_ref) ms' key.
Proof.
  intros Hdata Hports Href Hprep Ha. destruct (usable_short _ _ _ Hports) as [Hsrc Hdst].
  destruct (sms_address_from_string to) as [daddr| |] eqn:Hto;
    [|unfold sms_datagram_prepare in Hprep; rewrite Hto in Hprep; discriminate..].
  pose proof (datagram_prepare_ok to data [] ref wide_ref src dst wide_port srr daddr Hto Hdata Hsrc Hdst Href) as Hok.
  cbv zeta in Hok. rewrite app_nil_r, Hprep in Hok.
  destruct (_ <=? 140).
  - destruct Hok as (m & [= ->] & Hc). inversion Ha as [|? m' ? ms1 Hm Hms]; subst. inversion Hms; subst.
    assert (Hd : described m' 0x04 (Some [port_ie src dst wide_port])).
    { apply (datagram_part daddr srr _ data m m'); [done| |done|by apply arr_relays in Hm]. apply Forall_singleton. by apply port_ie_wf. }
    exists None. apply (one_parts sender m m' _ (Some [port_ie src dst wide_port])); [done|done|by right; left| | |].
    + cbn. by rewrite plain_port_ie.
    + cbn. by rewrite concat_port_ie.
    + rewrite (described_message_ports _ _ _ Hd). cbn. rewrite port_ie_usable by done. cbn. by rewrite negb_involutive.
  - destruct (_ <=? 255 * _); [|done]. destruct Hok as (ms1 & [= <-] & Hn & Hfr).
    pose proof (length_fragments _ _ _ _ _ _ Hfr) as Hlen. assert (Hl : zlen ms = zlen ms') by (unfold zlen; by rewrite (Forall2_length _ _ _ Ha)).
    exists (Some (key_of sender (wire_ref ref wide_ref))).
    apply (several_parts sender ms ms' 0x04 (datagram_ies src dst wide_port ref wide_ref (zlen ms))); [done|lia|by right; left| |].
    + intros i m m' Hm Hm' Hr. destruct (fragments_lookup _ _ _ _ _ _ i m Hfr Hm) as [c Hc].
      apply lookup_lt_Some in Hm. apply (datagram_part daddr srr _ c m m'); [done| |done|done].
      apply datagram_ies_wf; try done; unfold is_byte; unfold zlen in *; lia.
    + intros s Hs. unfold datagram_ies. cbn [forallb omap list_omap].
      rewrite plain_port_ie, plain_concat_ie, concat_port_ie, concat_ie_usable by (done || lia). split_and!; [done|by rewrite Hl|].
      intros m' Hd. rewrite (described_message_ports _ _ _ Hd). cbn [default from_option id omap list_omap].
      rewrite port_ie_usable, port_concat_ie by done. cbn. by rewrite negb_involutive.
Qed.
End Parts.

Section TextDelivery.
Context `{L : Utf8Laws} `{GL : !GlibUtf8Laws U G} `{W : Utf16} `{WL : !Utf16Laws U W}.
Variable sha1 : list Z -> list Z.

Lemma text_parts to cs ref wide srr alphabet ms ms' sender :
  text_points cs -> cs <> [] -> short ref ->
  sms_text_prepare_with_alphabet to (utf8 cs ++ [0]) ref wide srr alphabet = Ret ms ->
  Forall2 (arrives sender) ms ms' ->
  exists key, parts_of sender (text_dcs (text_encoding alphabet cs).1.1) None (wire_ref ref wide) ms' key.
Proof.
  intros Hcs Hne Href Hprep Ha.
  destruct (sms_address_from_string to) as [daddr| |] eqn:Hto;
    [|unfold sms_text_prepare_with_alphabet in Hprep; rewrite Hto in Hprep; discriminate..].
  destruct (text_encoding alphabet cs) as [[gsm lies] d] eqn:Henc. cbn [fst].
  pose proof (text_prepare_ok to cs [] ref wide srr alphabet daddr gsm lies d Hto Hcs Href Henc) as Hok.
  cbv zeta in Hok. rewrite Hprep in Hok.
  destruct (text_encoding_ok alphabet cs gsm lies d Hcs Henc) as (Hcut & Hw & Hl & Hkind).
  assert (Hd : d <> []).
  { destruct gsm.
    - destruct Hkind as (t & Ht & Hg & _). intros ->. apply Hne. eapply gsm_codes_nil; [|done]. by do 2 eexists.
    - destruct Hkind as [_ ->]. intros Hnil. apply (f_equal zlen) in Hnil. rewrite zlen_ucs2_octets in Hnil.
      change (zlen []) with 0 in Hnil. destruct cs; [done|zl]. }
  assert (Hlies : exists l s, lies = language_ies l s).
  { unfold text_encoding in Henc. destruct (first_fit cs _) as [[[l s] g]|]; injection Henc as <- <- <-; [by exists l, s|by exists 0, 0]. }
  destruct Hlies as (lock & single & Hlies). destruct (language_ies_other lock single) as (Hnp & Hnc & Hpl).
  rewrite <- Hlies in Hnp, Hnc, Hpl. clear Hlies.
  assert (Hdcs : text_dcs gsm = 0x00 \/ text_dcs gsm = 0x04 \/ text_dcs gsm = 0x08) by (destruct gsm; [by left|by right; right]).
  destruct (_ <=? one_room _ _).
  - destruct Hok as (m & [= ->] & Hc). inversion Ha as [|? m' ? ms1 Hm Hms]; subst. inversion Hms; subst.
    assert (Hdesc := text_part daddr srr gsm lies d m m' Hw Hd Hc (arr_relays _ _ _ Hm)).
    exists None. apply (one_parts sender m m' _ _ None _ Hm Hdesc Hdcs).
    + by case_bool_decide.
    + by case_bool_decide.
    + rewrite (described_message_ports _ _ _ Hdesc). case_bool_decide; cbn [default from_option id]; [done|]. by rewrite Hnp.
  - destruct (_ <=? 255); [|done]. destruct Hok as (ms1 & [= <-] & Hn & Hfr).
    assert (Hlen : zlen ms = zlen ms') by (unfold zlen; by rewrite (Forall2_length _ _ _ Ha)).
    exists (Some (key_of sender (wire_ref ref wide))).
    assert (Hn' : 0 <= fragment_header lies wide <= 100).
    { unfold fragment_header. pose proof (zlen_nonneg (udh lies)). destruct wide; lia. }
    assert (Hpieces : forall c, c ∈ text_pieces (length d) gsm (fragment_header lies wide) d -> c <> []).
    { intros c Hc. destruct gsm.
      - destruct Hkind as (t & Ht & Hg & _). assert (Hdt : dialect_tables t) by by do 2 eexists.
        pose proof (header_septets_fill (fragment_header lies wide) ltac:(lia)).
        pose proof (fill_bits_range (fragment_header lies wide) ltac:(lia)).
        destruct (gsm_pieces t Hdt (fragment_header lies wide) (length d) ltac:(lia) cs d Hg ltac:(lia)) as (css & _ & Hp).
        apply list_elem_of_lookup in Hc as [i Hi]. destruct (Forall2_lookup_l _ _ _ _ _ Hp Hi) as (? & _ & _ & ? & _). done.
      - destruct Hkind as [_ ->].
        destruct (ucs2_pieces (fragment_header lies wide) (length (ucs2_octets cs)) Hn' (ucs2_octets cs))
          as [_ Hp]; [by rewrite zlen_ucs2_octets, Z.even_mul|done|]. rewrite Forall_forall in Hp. by apply (Hp c Hc). }
    apply (several_parts sender ms ms' _ (text_ies lies ref wide (zlen ms))); [done|lia|done| |].
    + intros i m m' Hm Hm' Hr. destruct (text_fragments_lookup _ _ _ _ _ _ _ _ i m Hfr Hm) as (c & Hin & Hc).
      apply lookup_lt_Some in Hm.
      pose proof (text_part daddr srr gsm (text_ies lies ref wide (zlen ms) (0 + Z.of_nat i + 1)) c m m') as Hpart.
      rewrite bool_decide_false in Hpart by (unfold text_ies; by destruct lies).
      apply Hpart; [|by apply Hpieces|done|done]. apply text_ies_wf; try done; unfold is_byte; unfold zlen in *; lia.
    + intros s Hs. unfold text_ies. rewrite forallb_app, omap_app, Hpl, Hnc. cbn [app forallb omap list_omap andb].
      rewrite plain_concat_ie, concat_ie_usable by (done || lia). split_and!; [done|by rewrite Hlen|].
      intros m' Hdesc. rewrite (described_message_ports _ _ _ Hdesc). cbn [default from_option id].
      rewrite omap_app, Hnp. cbn [app omap list_omap]. by rewrite port_concat_ie.
Qed.

(** ** Dispatch of complete messages *)

Lemma dispatch_loop_ok c ch ports l :
  (forall m, m ∈ l -> exists d, tpdu m = SMS_TYPE_DELIVER d /\ deliver_coding (deliver_dcs d) = Ret (c, ch, false) /\
     message_ports m = Ret ports) ->
  let st := {| old_charset := ch; cls := c; dstport := fst (default (-1, -1) ports); srcport := snd (default (-1, -1) ports) |} in
  forall old, old = None \/ old = Some st -> dispatch_loop l old = Ret (match l with [] => old | _ => Some st end).
Proof.
  intros Hl st. induction l as [|m l IH]; intros old Hold; [done|]. cbn [dispatch_loop].
  destruct (Hl m (list_elem_of_here _ _)) as (d & Ht & Hc & Hp). unfold the_deliver. rewrite Ht, bind_Ret, Hc, bind_Ret.
  assert (from_option old_charset ch old = ch) as -> by (by destruct Hold as [->| ->]).
  rewrite (bool_decide_true (ch = ch)) by done. cbn [negb]. rewrite andb_false_r, Hp, bind_Ret.
  assert ((match old with Some st => (dstport st, srcport st) | None => default (-1, -1) ports end) = default (-1, -1) ports) as ->.
  { destruct Hold as [->| ->]; [done|]. cbn. by destruct ports as [[]|]. }
  destruct (default (-1, -1) ports) as [dst src] eqn:Hports. rewrite !Z.eqb_refl. cbn [negb orb].
  rewrite IH; [by destruct l|intros; apply Hl; by right|right]. done.
Qed.

Lemma encoded_pdus_ok l : (forall m, m ∈ l -> wf_sms m /\ exists d, tpdu m = SMS_TYPE_DELIVER d) -> exists buf, encoded_pdus l = Ret buf.
Proof.
  induction l as [|m l IH]; intros Hl; [by eexists|]. cbn [encoded_pdus].
  destruct (Hl m (list_elem_of_here _ _)) as (Hw & d & Ht). destruct (sms_codec_ok m Hw) as (pdu & n & He & _ & _ & Hlen & _).
  rewrite Ht in Hlen. rewrite He, bind_Ret by done. destruct IH as [buf ->]; [intros; apply Hl; by right|]. rewrite bind_Ret. by eexists.
Qed.

(** The time stamp and the sender of a message are those of its first part. *)
Definition first_sent (ms : list sms) : option sms_scts :=
  match ms with
  | {| tpdu := SMS_TYPE_DELIVER d |} :: _ => Some (deliver_scts d)
  | _ => None
  end.

(** What precedes the decoding. *)
Lemma dispatch_parts s sender dcs ports wire ms key c ch :
  parts_of sender dcs ports wire ms key -> deliver_coding dcs = Ret (c, ch, false) ->
  exists scts uuid, first_sent ms = Some scts /\ compute_incoming_msgid sha1 ms = Ret uuid /\
    sms_dispatch_list sha1 s ms =
      let '(dst, src) := default (-1, -1) ports in
      if bool_decide (ch = SMS_CHARSET_8BIT) then
        if (src =? -1) || (dst =? -1) then Err
        else buf ← sms_decode_datagram ms; Ret (dispatch_app_datagram s dst src buf sender scts)
      else message ← sms_decode_text ms; Ret (dispatch_text_message s uuid message c sender scts).
Proof.
  intros [Hnum _ Hparts] Hc. unfold sms_dispatch_list, compute_incoming_msgid.
  rewrite (dispatch_loop_ok c ch ports ms); [| |by left].
  2: { intros m Hm. destruct (Hparts m Hm) as (d & Hp & _ & Hd & Hports). exists d. split; [by apply plain_tpdu|]. by rewrite Hd. }
  destruct (encoded_pdus_ok ms) as [buf ->].
  { intros m Hm. destruct (Hparts m Hm) as (d & [] & _). split; [done|by eexists]. }
  destruct ms as [|m ms]; [by inversion Hnum as [|? ? ? Hn]; change (zlen []) with 0 in Hn; lia|].
  destruct (Hparts m (list_elem_of_here _ _)) as (d & Hp & Hs & _ & _). pose proof (plain_tpdu _ _ Hp) as Ht.
  exists (deliver_scts d), (sha1 buf). split_and!; [by destruct m; cbn in *; subst|done|].
  rewrite !bind_Ret. unfold the_deliver. rewrite Ht, bind_Ret, Hs. cbn [old_charset dstport srcport cls].
  by destruct ports as [[dst src]|].
Qed.

(** ** What is sent and what is heard *)

Inductive sent :=
  | Datagram (to data : list Z) (ref : Z) (wide_ref : bool) (src dst : Z) (wide_port srr : bool)
  | Text (to cs : list Z) (ref : Z) (wide srr : bool) (alphabet : Z).

Definition sent_ok (x : sent) : Prop :=
  match x with
  | Datagram _ data ref _ src dst wide_port _ => bytes data /\ data <> [] /\ short ref /\ usable_ports src dst wide_port
  | Text _ cs ref _ _ _ => text_points cs /\ cs <> [] /\ short ref
  end.

Definition prepared (x : sent) : res (list sms) :=
  match x with
  | Datagram to data ref wide_ref src dst wide_port srr =>
      sms_datagram_prepare to data (zlen data) ref wide_ref src dst wide_port srr
  | Text to cs ref wide srr alphabet => sms_text_prepare_with_alphabet to (utf8 cs ++ [0]) ref wide srr alphabet
  end.

Definition sent_ref (x : sent) : Z :=
  match x with
  | Datagram _ _ ref wide_ref _ _ _ _ => wire_ref ref wide_ref
  | Text _ _ ref wide _ _ => wire_ref ref wide
  end.

(** A handler of datagrams hears a pair of ports if each is the one it asked for,
    or it asked for none. *)
Definition hears (dst src : Z) (h : sms_handler) : Prop :=
  (handler_dst h = -1 \/ handler_dst h = dst) /\ (handler_src h = -1 \/ handler_src h = src).
#[local] Instance hears_dec dst src h : Decision (hears dst src h).
Proof. unfold hears. apply _. Defined.

Definition outcome (s : ofono_sms) (x : sent) (sender : sms_address) (scts : sms_scts) (uuid : list Z) : list sms_output :=
  let from := sms_address_to_string sender in
  match x with
  | Datagram _ data _ _ src dst wide _ =>
      let dst := app_port dst wide in
      let src := app_port src wide in
      (fun h => NotifyDatagram (handler_id h) from scts dst src data) <$> filter (hears dst src) (items (datagram_handlers s))
  | Text _ cs _ _ _ alphabet =>
      let text := utf8 (received_text alphabet cs) in
      SignalMessage false text scts from ::
      ((fun h => NotifyText (handler_id h) from scts text) <$> items (text_handlers s)) ++ [HistoryReceived uuid from scts text]
  end.

Lemma port_equal_hears dst src (l : list sms_handler) :
  filter (fun h => port_equal dst (handler_dst h) && port_equal src (handler_src h)) l = filter (hears dst src) l.
Proof.
  apply list_filter_iff. intros h. unfold port_equal, hears. rewrite Is_true_true, andb_true_iff, !orb_true_iff, !Z.eqb_eq.
  split; intros [[] []]; auto.
Qed.

Lemma datagram_dispatch s to data ref wide_ref src dst wide srr ms ms' sender :
  let x := Datagram to data ref wide_ref src dst wide srr in
  sent_ok x -> prepared x = Ret ms -> Forall2 (arrives sender) ms ms' ->
  exists key scts uuid, parts_of sender 0x04 (Some (app_port dst wide, app_port src wide)) (sent_ref x) ms' key /\
    first_sent ms' = Some scts /\ compute_incoming_msgid sha1 ms' = Ret uuid /\
    sms_dispatch sha1 s ms' = Ret (outcome s x sender scts uuid).
Proof.
  intros x (Hdata & Hne & Href & Hports) Hprep Ha. destruct (usable_short _ _ _ Hports) as [Hsrc Hdst].
  destruct (datagram_parts to data ref wide_ref src dst wide srr ms ms' sender Hdata Hports Href Hprep Ha) as [key Hparts].
  destruct (dispatch_parts s sender _ _ _ ms' key SMS_CLASS_UNSPECIFIED SMS_CHARSET_8BIT Hparts eq_refl) as (scts & uuid & Hs & Hu & Hd).
  exists key, scts, uuid. split_and!; [done..|]. unfold sms_dispatch. rewrite Hd. cbn [default from_option id].
  rewrite bool_decide_true by done.
  assert (Hp : forall p, (p = src \/ p = dst) -> app_port p wide <> -1).
  { intros p Hp. unfold app_port, usable_ports in *. destruct wide; [lia|]. rewrite Z.shiftl_mul_pow2 by lia. lia. }
  rewrite !(proj2 (Z.eqb_neq (app_port _ wide) (-1))) by (apply Hp; auto). cbn [orb].
  assert (Hrel : Forall2 relays ms ms') by (eapply Forall2_impl; [exact Ha|]; by intros ? ? []).
  pose proof (datagram_back to data [] ref wide_ref src dst wide srr ms ms' Hdata Hne Hsrc Hdst Href) as Hback.
  rewrite app_nil_r in Hback. rewrite (Hback Hprep Hrel), bind_Ret.
  unfold dispatch_app_datagram, outcome. by rewrite port_equal_hears.
Qed.

Lemma text_dispatch s to cs ref wide srr alphabet ms ms' sender :
  let x := Text to cs ref wide srr alphabet in
  sent_ok x -> prepared x = Ret ms -> Forall2 (arrives sender) ms ms' ->
  exists key scts uuid, parts_of sender (text_dcs (text_encoding alphabet cs).1.1) None (sent_ref x) ms' key /\
    first_sent ms' = Some scts /\ compute_incoming_msgid sha1 ms' = Ret uuid /\
    sms_dispatch sha1 s ms' = Ret (outcome s x sender scts uuid).
Proof.
  intros x (Hcs & Hne & Href) Hprep Ha.
  destruct (text_parts to cs ref wide srr alphabet ms ms' sender Hcs Hne Href Hprep Ha) as [key Hparts].
  set (gsm := (text_encoding alphabet cs).1.1) in *.
  destruct (dispatch_parts s sender _ _ _ ms' key SMS_CLASS_UNSPECIFIED (if gsm then SMS_CHARSET_7BIT else SMS_CHARSET_UCS2) Hparts)
    as (scts & uuid & Hs & Hu & Hd); [by destruct gsm|].
  exists key, scts, uuid. split_and!; [done..|]. unfold sms_dispatch. rewrite Hd. cbn [default from_option id].
  rewrite bool_decide_false by (by destruct gsm).
  assert (Hrel : Forall2 relays ms ms') by (eapply Forall2_impl; [exact Ha|]; by intros ? ? []).
  rewrite (text_back to cs [] ref wide srr alphabet ms ms' Hcs Href Hprep Hrel), bind_Ret. done.
Qed.

(** ** Everything at once *)

(** A message sent, what it was made of, and what the network made of that. *)
Record transmission := {
  tr_sent : sent; tr_sender : sms_address; tr_submitted : list sms; tr_delivered : list sms
}.

Definition transmission_ok (imsi : bool) (t : transmission) : Prop :=
  sent_ok (tr_sent t) /\ prepared (tr_sent t) = Ret (tr_submitted t) /\
  Forall2 (arrives (tr_sender t)) (tr_submitted t) (tr_delivered t) /\
  (imsi = true -> sms_address_to_hex_string (tr_sender t) <> Ub).

Definition tr_key (t : transmission) : message_key := key_of (tr_sender t) (sent_ref (tr_sent t)).

Lemma transmission_incoming s imsi t : transmission_ok imsi t ->
  exists x scts uuid, incoming_ok sha1 s imsi x /\ in_parts x = tr_delivered t /\
    (in_key x = None \/ in_key x = Some (tr_key t)) /\
    first_sent (tr_delivered t) = Some scts /\ compute_incoming_msgid sha1 (tr_delivered t) = Ret uuid /\
    in_out x = outcome s (tr_sent t) (tr_sender t) scts uuid.
Proof.
  intros (Hok & Hprep & Ha & Hhex). destruct t as [x sender ms ms']. cbn [tr_sent tr_sender tr_submitted tr_delivered] in *.
  assert (H : exists dcs ports key scts uuid, parts_of sender dcs ports (sent_ref x) ms' key /\
    first_sent ms' = Some scts /\ compute_incoming_msgid sha1 ms' = Ret uuid /\ sms_dispatch sha1 s ms' = Ret (outcome s x sender scts uuid)).
  { destruct x.
    - destruct (datagram_dispatch s _ _ _ _ _ _ _ _ ms ms' sender Hok Hprep Ha) as (key & scts & uuid & H). by eexists _, _, key, scts, uuid.
    - destruct (text_dispatch s _ _ _ _ _ _ ms ms' sender Hok Hprep Ha) as (key & scts & uuid & H). by eexists _, _, key, scts, uuid. }
  destruct H as (dcs & ports & key & scts & uuid & [Hnum Hkey Hparts] & Hs & Hu & Hd).
  exists {| in_parts := ms'; in_key := key; in_out := outcome s x sender scts uuid |}, scts, uuid.
  split; [|by repeat (split; [done|])].
  constructor; cbn [in_parts in_key in_out]; [done|done|]. intros m Hm. destruct (Hparts m Hm) as (d & Hp & Hsd & _).
  exists d. split; [done|]. intros Hi. rewrite Hsd. by apply Hhex.
Qed.

Lemma list_choice {X Y} (R : X -> Y -> Prop) (l : list X) : (forall x, x ∈ l -> exists y, R x y) -> exists k, Forall2 R l k.
Proof.
  induction l as [|x l IH]; intros H; [by exists []|].
  destruct (H x (list_elem_of_here _ _)) as [y Hy]. destruct IH as [k Hk]; [intros; apply H; by right|].
  exists (y :: k). by constructor.
Qed.

(** C1: Texts and datagrams of any length, sent to one modem by any number of
    senders: prepared as messages by [sms_text_prepare_with_alphabet] and
    [sms_datagram_prepare], carried by the network, and given as PDUs to
    [ofono_sms_deliver_notify] in any order and interleaving.  Each is acted upon
    exactly once, at the last of its parts: a datagram is given, unchanged and with
    its ports, to the handlers that listen to them; a text is signalled, given to
    every text handler and recorded.  Nothing happens at the other parts.  The
    senders' references tell concatenated messages apart.  The text is the one
    sent, except that U+00A0 arrives as a space when it is coded in the GSM
    alphabet ([received_text]). *)
Theorem messages_delivered s0 a A ts l :
  assembly s0 = Some a -> refines (assembly_list a) A ->
  Forall (fun t => transmission_ok (assembly_imsi a) t /\ A !! tr_key t = None) ts ->
  NoDup (tr_key <$> ts) ->
  Forall (fun e => encodes e /\ is_Some (ts !! ev_of e)) l ->
  (forall j t, ts !! j = Some t -> (ev_sms <$> events_of j l) ≡ₚ tr_delivered t) ->
  exists s' outs, receive_all sha1 (ev_arr <$> l) s0 = Ret (s', outs) /\ length outs = length l /\
    forall j t, ts !! j = Some t -> exists scts uuid,
      first_sent (tr_delivered t) = Some scts /\ compute_incoming_msgid sha1 (tr_delivered t) = Ret uuid /\
      outputs_of j l outs = replicate (length (tr_delivered t) - 1) [] ++ [outcome s0 (tr_sent t) (tr_sender t) scts uuid].
Proof.
  intros Ha Hr Hts Hkeys Hl Hperm. rewrite Forall_forall in Hts.
  destruct (list_choice (fun t x => exists scts uuid, incoming_ok sha1 s0 (assembly_imsi a) x /\ in_parts x = tr_delivered t /\
    (in_key x = None \/ in_key x = Some (tr_key t)) /\
    first_sent (tr_delivered t) = Some scts /\ compute_incoming_msgid sha1 (tr_delivered t) = Ret uuid /\
    in_out x = outcome s0 (tr_sent t) (tr_sender t) scts uuid) ts) as [fam Hfam].
  { intros t Ht. by apply transmission_incoming, Hts. }
  assert (Hkey : forall j x k, fam !! j = Some x -> in_key x = Some k -> exists t, ts !! j = Some t /\ k = tr_key t /\ A !! k = None).
  { intros j x k Hx Hk. destruct (Forall2_lookup_r _ _ _ _ _ Hfam Hx) as (t & Ht & scts & uuid & _ & _ & Hkx & _).
    exists t. split; [done|]. destruct Hkx as [Hkx|Hkx]; [congruence|]. rewrite Hk in Hkx. injection Hkx as ->. split; [done|].
    apply Hts. by eapply list_elem_of_lookup_2. }
  destruct (interleaved_delivery sha1 s0 a A fam l) as (s' & outs & Hrun & Hlen & Houts); [| |done|done| | |].
  - constructor.
    + intros j x Hx. by destruct (Forall2_lookup_r _ _ _ _ _ Hfam Hx) as (t & _ & scts & uuid & Hok & _).
    + intros i j x y k Hx Hy Hkx Hky. destruct (Hkey i x k Hx Hkx) as (t & Ht & -> & _), (Hkey j y _ Hy Hky) as (u & Hu & Heq & _).
      apply (NoDup_lookup _ i j (tr_key t) Hkeys); rewrite list_lookup_fmap; [by rewrite Ht|]. rewrite Hu. cbn. by rewrite Heq.
  - rewrite Forall_forall in Hl |- *. intros e He. destruct (Hl e He) as (Henc & t & Ht). split; [done|].
    destruct (Forall2_lookup_l _ _ _ _ _ Hfam Ht) as (x & Hx & scts & uuid & _ & Hparts & _). exists x. split; [done|].
    rewrite Hparts, <- (Hperm _ _ Ht). apply list_elem_of_fmap_2. unfold events_of. by apply list_elem_of_filter.
  - intros j x k Hx Hk. by destruct (Hkey j x k Hx Hk) as (t & _ & _ & ?).
  - intros j x Hx. destruct (Forall2_lookup_r _ _ _ _ _ Hfam Hx) as (t & Ht & scts & uuid & _ & Hparts & _).
    rewrite Hparts. by apply Hperm.
  - exists s', outs. split_and!; [done..|]. intros j t Ht.
    destruct (Forall2_lookup_l _ _ _ _ _ Hfam Ht) as (x & Hx & scts & uuid & _ & Hparts & _ & Hs & Hu & Hout).
    exists scts, uuid. split_and!; [done..|]. by rewrite (Houts j x Hx), Hparts, Hout.
Qed.
End TextDelivery.

(** * Two messages at a time *)

(** A network: it makes a SMS-DELIVER from [sample_addr] of a SMS-SUBMIT. *)
Definition network_deliver (s : sms_submit) : sms_deliver :=
  let n := sms_udl_in_bytes (submit_udl s) (submit_dcs s) in
  {| deliver_mms := true; deliver_sri := false; deliver_udhi := submit_udhi s; deliver_rp := false;
     deliver_oaddr := sample_addr; deliver_pid := 0; deliver_dcs := submit_dcs s;
     deliver_scts := {| year := 24; month := 1; day := 2; hour := 3; minute := 4; second := 5;
                        has_timezone := true; timezone := 4 |};
     deliver_udl := submit_udl s; deliver_ud := take (Z.to_nat n) (submit_ud s) ++ zeros (140 - n) |}.

Definition network (m : sms) : sms :=
  match tpdu m with
  | SMS_TYPE_SUBMIT s => {| sc_addr := no_address; tpdu := SMS_TYPE_DELIVER (network_deliver s) |}
  | _ => m
  end.

Definition submittable (m : sms) : bool :=
  match tpdu m with
  | SMS_TYPE_SUBMIT s =>
      let n := sms_udl_in_bytes (submit_udl s) (submit_dcs s) in
      bool_decide (is_byte (submit_udl s)) && bool_decide (is_byte (submit_dcs s)) && bool_decide (bytes (submit_ud s))
      && (0 <=? n) && (n <=? 140) && (zlen (submit_ud s) =? 140)
  | _ => false
  end.

Lemma network_arrives m : submittable m = true -> arrives sample_addr m (network m).
Proof.
  unfold submittable, network. destruct (tpdu m) as [| | | |s| | |] eqn:Ht; try done. intros H.
  rewrite !andb_true_iff, !bool_decide_eq_true, !Z.leb_le, Z.eqb_eq in H. destruct H as [[[[[Hu Hd] Hb] Hn0] Hn] Hz].
  set (n := sms_udl_in_bytes (submit_udl s) (submit_dcs s)) in *.
  assert (Hlen : zlen (take (Z.to_nat n) (submit_ud s)) = n) by (rewrite zlen_take; lia).
  assert (Htake : take (Z.to_nat n) (deliver_ud (network_deliver s)) = take (Z.to_nat n) (submit_ud s)).
  { cbn [deliver_ud network_deliver]. fold n. apply take_app_length'. unfold zlen in Hlen. lia. }
  assert (Hz' : zlen (deliver_ud (network_deliver s)) = 140).
  { cbn [deliver_ud network_deliver]. fold n. rewrite zlen_app, zlen_zeros, Hlen by lia. lia. }
  assert (Hb' : bytes (deliver_ud (network_deliver s))).
  { cbn [deliver_ud network_deliver]. apply Forall_app. split; [by apply Forall_take|]. apply Forall_replicate. by unfold is_byte. }
  constructor.
  - constructor; [split; [done|by split]|done|]. do 7 eexists. split; [unfold sms_extract_common; rewrite Ht; reflexivity|].
    split; [reflexivity|]. cbv zeta. fold n. split; [exact Hn|exact Htake].
  - split; [|done]. cbn [tpdu wf_tpdu].
    refine (conj (sample_wf_address false) (conj _ (conj Hd (conj _ (conj Hu _))))); [done|by split_and!|].
    split; [done|exact Hz'|cbn [network_deliver deliver_udl deliver_dcs]; fold n; rewrite Htake; by apply Forall_take|].
    cbn [deliver_udl deliver_dcs network_deliver deliver_ud]. fold n. apply drop_app_length'. unfold zlen in Hlen. lia.
  - exists (network_deliver s). split_and!; done.
Qed.

Lemma network_all ms : forallb submittable ms = true -> Forall2 (arrives sample_addr) ms (map network ms).
Proof.
  induction ms as [|m ms IH]; cbn [forallb map]; intros H; [constructor|].
  apply andb_true_iff in H as [Hm Hms]. constructor; [by apply network_arrives|by apply IH].
Qed.

Definition sample_datagram : sent := Datagram [43; 52; 57] sample_data 7 false 0x23f0 0x0b84 true false.
Definition sample_text : sent := Text [43; 52; 57] turkish_text 513 true false 1.

Definition sample_transmission (x : sent) : transmission :=
  let ms := match prepared x with Ret ms => ms | _ => [] end in
  {| tr_sent := x; tr_sender := sample_addr; tr_submitted := ms; tr_delivered := map network ms |}.

Definition sample_transmissions : list transmission := [sample_transmission sample_datagram; sample_transmission sample_text].

(** Part number [i] of transmission [j] arrives. *)
Definition sample_event (j i : nat) : event :=
  let m := default {| sc_addr := no_address; tpdu := SMS_TYPE_DELIVER (voicemail_deliver 0) |}
             (t ← sample_transmissions !! j; tr_delivered t !! i) in
  let '(pdu, n) := match sms_encode 176 m with Ret r => r | _ => ([], 0) end in
  {| ev_of := j; ev_sms := m;
     ev_arr := {| arr_env := {| now := 0; sim_download_ready := false; env_queued := true; env_efmwis := []; env_efmbdn := [] |};
                  arr_pdu := pdu; arr_tpdu_len := n |} |}.

Definition sample_events : list event :=
  [sample_event 0 2; sample_event 1 1; sample_event 0 0; sample_event 1 0; sample_event 0 1].

(** Handler 1 hears the port of the datagram, handler 2 another one, and handler 3
    texts. *)
Definition sample_sms : ofono_sms :=
  {| assembly := Some (empty_assembly false); mw := None;
     text_handlers := {| next_id := 3; items := [{| handler_id := 3; handler_dst := -1; handler_src := -1 |}] |};
     datagram_handlers := {| next_id := 2; items := [{| handler_id := 2; handler_dst := 5; handler_src := -1 |};
                                                     {| handler_id := 1; handler_dst := 0x0b84; handler_src := -1 |}] |} |}.

Lemma sample_transmission_ok x ms : sent_ok x -> prepared x = Ret ms -> forallb submittable ms = true ->
  transmission_ok false (sample_transmission x).
Proof.
  intros Hok Hprep Hms. unfold transmission_ok, sample_transmission. rewrite Hprep. cbn [tr_sent tr_sender tr_submitted tr_delivered].
  split_and!; [exact Hok|exact Hprep|by apply network_all|discriminate].
Qed.

Lemma sample_sent_ok : sent_ok sample_datagram /\ sent_ok sample_text.
Proof.
  split.
  - split; [apply (bool_decide_unpack _); by vm_compute|]. split; [by vm_compute|]. split; [by split|by repeat split].
  - split; [exact turkish_text_points|]. split; [by vm_compute|by split].
Qed.

#[local] Instance encodes_dec (e : event) : Decision (encodes e).
Proof. unfold encodes. apply _. Defined.

Lemma perm_last {X} (x : X) l k k' : k = x :: l -> k' = l ++ [x] -> k ≡ₚ k'.
Proof. intros -> ->. apply Permutation_cons_append. Qed.

Lemma messages_delivered_witness :
  exists s' outs scts uuid scts',
    receive_all (fun l => take 20 l) (ev_arr <$> sample_events) sample_sms = Ret (s', outs) /\
    outputs_of 0 sample_events outs =
      [[]; []; [NotifyDatagram 1 (sms_address_to_string sample_addr) scts 0x0b84 0x23f0 sample_data]] /\
    outputs_of 1 sample_events outs =
      [[]; [SignalMessage false (utf8 turkish_text) scts' (sms_address_to_string sample_addr);
            NotifyText 3 (sms_address_to_string sample_addr) scts' (utf8 turkish_text);
            HistoryReceived uuid (sms_address_to_string sample_addr) scts' (utf8 turkish_text)]].
Proof.
  destruct sample_sent_ok as [Hd Ht].
  destruct (messages_delivered (fun l => take 20 l) sample_sms (empty_assembly false) ∅ sample_transmissions sample_events)
    as (s' & outs & Hrun & _ & Houts).
  - reflexivity.
  - exact refines_nil.
  - apply Forall_cons. split; [split; [|apply lookup_empty]|apply Forall_singleton; split; [|apply lookup_empty]].
    + eapply sample_transmission_ok; [exact Hd|vm_compute; reflexivity|vm_compute; reflexivity].
    + eapply sample_transmission_ok; [exact Ht|vm_compute; reflexivity|vm_compute; reflexivity].
  - apply (bool_decide_unpack _). by vm_compute.
  - apply (bool_decide_unpack _). vm_compute. exact I.
  - intros [|[|j]] t Hj; [injection Hj as <-..|discriminate].
    + apply (perm_last (ev_sms (sample_event 0 2)) [ev_sms (sample_event 0 0); ev_sms (sample_event 0 1)]);
        vm_compute; reflexivity.
    + apply (perm_last (ev_sms (sample_event 1 1)) [ev_sms (sample_event 1 0)]); vm_compute; reflexivity.
  - destruct (Houts 0%nat _ eq_refl) as (scts & uuid' & _ & _ & H0). destruct (Houts 1%nat _ eq_refl) as (scts' & uuid & _ & _ & H1).
    exists s', outs, scts, uuid, scts'. split; [exact Hrun|]. rewrite H0, H1.
    split; [reflexivity|]. vm_compute. reflexivity.
Defined.
